(* ===== verification/_CoqProject ===== *)
-Q . S2P
Prelude.v
Arrays.v
Algorithms.v
Output.v
Input.v
Wire.v
SymbolCodec.v
Loops.v
InnerLoops.v
Framing.v
Compose.v
EventData.v
Snapshot.v
Doubles.v
PriceLevelSource.v
SourceTable.v
PriceLevelBook.v
RegionalBook.v
TaskQueue.v
DataStructures.v
Subscription.v
ConfigurationDeserializer.v
RecordData.v
RecordTranscoder.v
MessageData.v
Properties.v
NetworkContext.v
Decimals.v
RecordFields.v
Heartbeat.v
ServerData.v
FieldTables.v
ServerProcessor.v
ServerStream.v
Describe.v
ClientMessages.v
ClientTheory.v
ClientTasks.v
QueueThread.v
ClientServer.v
AddressParser.v
AddressTheory.v
Network.v
NetworkTheory.v
DescribeProtocol.v
Reconnect.v
Candle.v
EventSubscription.v
SubscriptionTheory.v
SubscriptionRefinement.v
Delivery.v
SubscriptionClaims.v
Feed.v
FeedTheory.v
FeedRefinement.v
FeedClaims.v
Restored.v
Books.v
BooksTheory.v
BooksCreation.v
BooksClosing.v
BooksEvents.v
BooksClaims.v
Errors.v
Memory.v
Contexts.v
Lifecycle.v
LifecycleTheory.v
ConnectionSetUp.v
LifecycleClaims.v
