(* ===== verification/Prelude.v ===== *)
(** * The dxFeed C API: a verification development

    A model of the client library of dxFeed ([src/src/*.c] with the C++ parts of
    the heartbeats and of the subscriptions), and theorems about it.  This file is the root; its own
    contents, at its end, are what every other file uses: machine integers, error
    codes, the monad of the C functions, memory primitives and tactics.

    ** The program

    The library keeps a connection to a server.  The network part resolves the
    addresses of the user, connects to the first that answers and runs two
    threads: one reads the socket, one executes a queue of tasks.  The client
    describes the protocol and its records and sends the subscriptions of the
    user; what is sent is composed in an output buffer.  The bytes of the server
    go to a buffer, are cut into messages and read through an input buffer: the
    description of the protocol, the descriptions of records, from which the
    library makes its own tables of how to read them, heartbeats, and the data.
    A record of the data is read field by field into a buffer of its kind and
    transcoded into the events that the user sees, which are passed to the listeners
    of the subscriptions that want them.  On the events are built the snapshots, the
    price level books and the regional books, each with listeners of its own.  The
    functions of the interface change the subscriptions of the user and put what
    they ask of the server into the queue of the tasks.

    ** The files

    Under the program:
    - [Prelude]: this file.
    - [Arrays]: the dynamic arrays of [DXAlgorithms.h], their searches, insertion,
      deletion and growth.
    - [Algorithms]: the scalar functions of [DXAlgorithms.c], and Base64.
    - [Properties]: the maps of properties of [DXProperties.c].
    - [Doubles]: the order of the binary64 values.

    Bytes:
    - [Output], [Input]: the buffers of [BufferedOutput.c], [BufferedInput.c] and
      [BufferedIOCommon.c] with every operation on them but those of floats.
    - [Wire]: the class [Codec] of a reader with its writer, and its instances.
    - [SymbolCodec]: the symbols of [SymbolCodec.c], packed or written out.
    - [Loops], [InnerLoops], [Framing], [Compose]: why the loops over a buffer end, and
      that more rounds of the loops of the readers make no difference; messages with
      their lengths, read and composed ([ClientMessageProcessor.c]).

    Events and what is built on them:
    - [EventData]: the events of [EventData.h] and their copies ([EventManager.c]).
    - [Snapshot]: the snapshots of [Snapshot.c].
    - [PriceLevelSource], [SourceTable], [PriceLevelBook]: the price level books of
      [PriceLevelBook.c], from the orders of a source to the listeners of a book.
    - [RegionalBook]: the books of [RegionalBook.c].

    Records:
    - [DataStructures]: the fields of the records, their registry and the
      identifiers of the server ([DataStructures.c]).
    - [Subscription]: the records of an event ([EventData.c]).
    - [RecordData], [RecordFields]: the structures of the records and the setters of
      their fields ([RecordFieldSetters.c], [RecordBuffers.c]).
    - [Decimals], [ConfigurationDeserializer]: numbers and configurations inside
      records.
    - [RecordTranscoder]: from records to events ([RecordTranscoder.c]).

    The server:
    - [MessageData], [Heartbeat]: the types of the messages ([DXPMessageData.c]),
      and heartbeats with their time marks.
    - [ServerData], [ServerProcessor]: the messages of the server
      ([ServerMessageProcessor.c]), and the buffer that they are cut from.
    - [FieldTables]: the tables of [DataStructures.c] bind the fields of the records
      to members whose setters take what is read for them.
    - [ServerStream], [Describe]: what the bytes of the server do, wherever they
      are cut, and what a description of a record does.

    The client:
    - [TaskQueue]: the queue of the tasks ([TaskQueue.c]).
    - [NetworkContext]: sending and the properties of the protocol ([DXNetwork.c]).
    - [ClientMessages]: the messages and the tasks ([ClientMessageProcessor.c]).
    - [ClientTheory], [ClientTasks], [DescribeProtocol]: the bytes of the messages,
      and what becomes of the tasks in the queue.
    - [QueueThread]: the rounds of [dx_queue_executor].
    - [ClientServer]: the two sides together.

    The network:
    - [AddressParser], [AddressTheory]: the addresses of [DXAddressParser.c].
    - [Network], [NetworkTheory]: resolving, connecting and what is done when a
      connection is lost ([DXNetwork.c]).
    - [Reconnect]: the reconnection with the threads and the tasks after it.

    The user:
    - [Candle]: the symbols of candles ([Candle.c]).
    - [EventSubscription]: the subscriptions of the user, their symbols, listeners
      and sources, and the delivery of events ([EventSubscription.cpp]); the objects
      that point to each other are blocks of a store.
    - [SubscriptionTheory], [SubscriptionRefinement], [Delivery]: how the blocks are
      linked, the abstract context that the operations implement, and which
      listeners are called; [SubscriptionClaims]: what follows.
    - [Feed]: the interface of the library, regional books and snapshots with their
      subscriptions ([DXFeed.c], [RegionalBook.c], [Snapshot.c]).
    - [FeedTheory], [FeedRefinement], [FeedClaims]: what an operation of the interface
      asks of the server, and that it is sent; [Restored]: the subscriptions of the
      user on a connection that is made again.
    - [Books]: the price level books of a connection, with the table of the sources
      that they share and their subscriptions ([PriceLevelBook.c], [DXFeed.c]);
      [BooksTheory], [BooksCreation], [BooksClosing], [BooksEvents]: how books,
      sources, table and subscriptions are linked, and that creating, closing and
      events keep them so; [BooksClaims]: what follows.

    Connections:
    - [Errors]: the last error of each thread ([DXErrorHandling.c]).
    - [Memory]: blocks and mutexes, with what was granted and what is left.
    - [Contexts]: which blocks the context of each subsystem owns, and how they are
      freed.
    - [Lifecycle]: making and releasing the contexts of a connection in the orders of
      [ConnectionContextData.c], and the queue of the connections to close ([DXFeed.c]).
    - [LifecycleTheory], [ConnectionSetUp], [LifecycleClaims]: that every release
      frees what is there, once, and that a failure leaves nothing.

    ** How it is modelled

    A C function that may fail is a value of [M S A]: a function of the state
    [S], the part of a context that it uses, to [Ok] with a result, to [Err] with
    the error code that it sets, or to [UB], which stands for an access outside an
    allocated block, a null pointer that is followed, and what else the language
    leaves undefined.  [x <-- m ;; k] is a [CHECKED_CALL].  A state is a record
    with the fields of the structure that it stands for; an operation on a part of
    it is lifted by [on] and its relatives.  Integers are [Z] with the conversions
    of this file where the code converts; buffers are lists as long as their
    blocks; pointers are options, positions or, where objects are shared, addresses
    of a store.  Doubles are the binary64 values of the standard library.

    Loops are structural where they are over lists, and have fuel elsewhere, which
    is a bound that the code implies: the bytes that are left to read or to send,
    the elements that are left, the addresses that are left; [UB] stands for fuel
    that runs out.  That the fuel is enough is shown: a theorem gives an [Ok] result,
    or the loop is related to one without a bound ([Loops.loop_runs]), or more rounds
    are the same ([InnerLoops]).
    The tasks of a queue may add tasks, so there the fuel is an argument that the
    theorems quantify over.

    Parameters, with what is assumed of them in the theorems, stand for what is not
    in the code: whether an allocation succeeds, the conversion [mbsrtowcs] of the
    locale (the identity on ASCII), the socket (it takes some of what it is given),
    the resolution of hosts and whether they connect, the clocks, the decimal
    strings of the C++ library, the hash of a string, the random numbers, the orders
    in which the hash tables of the C++ library are walked through ([Iteration]), what
    the listeners of the user answer, and, for the transcoder, the delivery of an event.

    ** What is shown

    - Reading and writing: every codec reads back what it writes and no reader
      leaves its buffer ([Wire], [SymbolCodec], [Heartbeat], [Algorithms],
      [ConfigurationDeserializer], [AddressTheory]).
    - Tables: the sorted arrays and hash tables are finite maps, the registry keeps
      its identifiers ([Properties], [DataStructures], [SourceTable], [Subscription]).
    - Messages of the server: their loops end on any bytes, though some bytes make the
      handler of a message do something undefined; the result does not depend on how
      the bytes are cut, a description gives the record exactly the digest of its
      fields, with default values for the local fields that no description of the
      record has listed yet, what is read for a field fits the member that it sets, and
      transcoding stays in its buffers ([ServerData], [ServerProcessor],
      [ServerStream], [Describe], [FieldTables], [RecordTranscoder]).
    - Events: a snapshot is the map of its records and its listeners can follow it,
      a price level source is the map of its orders with the two sides that they make
      and publishes exactly these, a rebuilt side has the best levels, a book is the
      merge of its sources, a regional book shows the best regions.
    - The client: what a subscription sends, that it is sent in the end, that a
      peer understands the descriptions, which address is connected to, and that
      a lost connection is made again with all the subscriptions ([ClientTheory],
      [QueueThread], [ClientServer], [NetworkTheory], [Reconnect], [Restored]).
    - The user: the operations on subscriptions are those of an abstract context, an
      event reaches exactly the listeners that want it, which may use the library
      meanwhile, and closing frees everything ([SubscriptionClaims]); an operation of
      the interface asks the server for what the subscriptions changed by, that is
      sent, and a server that cannot do it is reported ([FeedClaims]); a price level
      book has exactly the sources that were asked for, shared with the others of its
      symbol, and closing it leaves exactly those that others have ([BooksClaims]); the
      text of the symbol of a candle ([Candle]).
    - Connections: making one makes all its contexts or leaves no block behind; releasing
      it, when its price level books are closed, frees exactly its blocks and destroys its
      mutexes but two that the code never destroys, and one that is closed from its own
      thread is released by the next call of another ([LifecycleClaims]).  With a book
      open the release is undefined ([Contexts], [LifecycleClaims]).  Each thread has the
      error that it set last ([Errors]).

    ** What is not modelled

    Mutexes: an operation runs as a whole, and the threads interleave between
    operations; only where connections are made and released is it followed which mutexes
    exist.  TLS, which is an option of the build.  Freed memory keeps no trace, except
    for the data of the tasks, whose freeing twice is undefined, the stores of
    subscriptions, symbols, snapshots and regional books, where reading a block that is
    freed is, and the blocks of the contexts of a connection; addresses are not used
    again.  Running out of memory is followed where the code handles it.  Of
    [DXFeed.c]: creating a connection above [dx_init_connection], which checks its
    arguments and starts the threads, and functions that only read.  The rounds of
    the thread that reads the socket are there as the calls that it makes
    ([ServerStream], [Reconnect]), not as a thread.  The log, the configuration file and
    the wrappers of the operating system are not modelled: they are C++ over its library,
    or calls only. *)

From Stdlib Require Export ZArith Lia ZifyNat Bool.
From stdpp Require Export base list numbers sets gmap.
From stdpp Require Import sorting.

Local Open Scope Z_scope.

(** ** Machine integers

    A C integer of a fixed width is a [Z]; the conversions below are the C
    conversions to that width (two's complement). *)

Definition u8 (z : Z) : Z := z mod 256.
Definition u16 (z : Z) : Z := z mod 65536.
Definition u32 (z : Z) : Z := z mod 4294967296.
Definition u64 (z : Z) : Z := z mod 18446744073709551616.

Definition i8 (z : Z) : Z := (z + 128) mod 256 - 128.
Definition i16 (z : Z) : Z := (z + 32768) mod 65536 - 32768.
Definition i32 (z : Z) : Z := (z + 2147483648) mod 4294967296 - 2147483648.
Definition i64 (z : Z) : Z :=
  (z + 9223372036854775808) mod 18446744073709551616 - 9223372036854775808.

Definition is_i8 (z : Z) : Prop := -128 <= z <= 127.
Definition is_i16 (z : Z) : Prop := -32768 <= z <= 32767.
Definition is_i32 (z : Z) : Prop := -2147483648 <= z <= 2147483647.
Definition is_i64 (z : Z) : Prop := -9223372036854775808 <= z <= 9223372036854775807.
Definition is_u32 (z : Z) : Prop := 0 <= z <= 4294967295.
Definition is_u64 (z : Z) : Prop := 0 <= z <= 18446744073709551615.

Definition INT_MAX : Z := 2147483647.
Definition INT_MIN : Z := -2147483648.
Definition UINT_MAX : Z := 4294967295.

(** Linear arithmetic with division and remainder by constants. *)
Ltac zlia := zify; Z.to_euclidean_division_equations; lia.
Ltac unfold_ints :=
  unfold u8, u16, u32, u64, i8, i16, i32, i64, is_i8, is_i16, is_i32, is_i64,
    is_u32, is_u64, INT_MAX, INT_MIN, UINT_MAX in *.
Ltac intlia := unfold_ints; zlia.

Lemma i8_range z : is_i8 (i8 z).
Proof. intlia. Qed.
Lemma i16_range z : is_i16 (i16 z).
Proof. intlia. Qed.
Lemma i32_range z : is_i32 (i32 z).
Proof. intlia. Qed.
Lemma i64_range z : is_i64 (i64 z).
Proof. intlia. Qed.
Lemma i8_id z : is_i8 z -> i8 z = z.
Proof. intlia. Qed.
Lemma i16_id z : is_i16 z -> i16 z = z.
Proof. intlia. Qed.
Lemma i32_id z : is_i32 z -> i32 z = z.
Proof. intlia. Qed.
Lemma i64_id z : is_i64 z -> i64 z = z.
Proof. intlia. Qed.
Lemma u32_id z : is_u32 z -> u32 z = z.
Proof. intlia. Qed.
Lemma u64_id z : is_u64 z -> u64 z = z.
Proof. intlia. Qed.

(** ** Bit operations as arithmetic *)

Lemma land_255 z : Z.land z 255 = z mod 256.
Proof. change 255 with (Z.ones 8). by rewrite Z.land_ones. Qed.

Lemma shr_div z k : 0 <= k -> Z.shiftr z k = z / 2 ^ k.
Proof. apply Z.shiftr_div_pow2. Qed.

Lemma shl_mul z k : 0 <= k -> Z.shiftl z k = z * 2 ^ k.
Proof. apply Z.shiftl_mul_pow2. Qed.

Lemma land_pow2_low a b k :
  0 <= k -> 0 <= b < 2 ^ k -> Z.land (a * 2 ^ k) b = 0.
Proof.
  intros Hk Hb. apply Z.bits_inj'; intros i Hi.
  rewrite Z.land_spec, Z.bits_0.
  destruct (decide (i < k)).
  - rewrite Z.mul_pow2_bits_low by lia. done.
  - rewrite <- (Z.mod_small b (2 ^ k)) by lia.
    rewrite Z.mod_pow2_bits_high by lia. apply andb_false_r.
Qed.

(** Or-ing a low part into a shifted high part is an addition. *)
Lemma lor_add a b k :
  0 <= k -> 0 <= b < 2 ^ k -> Z.lor (a * 2 ^ k) b = a * 2 ^ k + b.
Proof.
  intros Hk Hb. pose proof (Z.add_lor_land (a * 2 ^ k) b) as E.
  rewrite (land_pow2_low a b k) in E by lia. lia.
Qed.

Section split.
Context (op : Z -> Z -> Z) (f : bool -> bool -> bool).
Context (op_spec : forall a b i, Z.testbit (op a b) i = f (Z.testbit a i) (Z.testbit b i)).
Context (op_small : forall k b d, 0 <= k -> 0 <= b < 2 ^ k -> 0 <= d < 2 ^ k ->
  0 <= op b d < 2 ^ k).

(** A bitwise operation acts separately on the parts above and below bit [k]. *)
Lemma bitop_split a b c d k :
  0 <= k -> 0 <= b < 2 ^ k -> 0 <= d < 2 ^ k ->
  op (a * 2 ^ k + b) (c * 2 ^ k + d) = op a c * 2 ^ k + op b d.
Proof using op_spec op_small.
  intros Hk Hb Hd. pose proof (op_small k b d Hk Hb Hd) as Hbd.
  apply Z.bits_inj'; intros i Hi. rewrite op_spec.
  rewrite <- !(lor_add _ _ k), !Z.lor_spec by done.
  destruct (decide (i < k)).
  - rewrite !Z.mul_pow2_bits_low by lia. by rewrite op_spec.
  - rewrite !Z.mul_pow2_bits by lia. rewrite op_spec.
    rewrite <- (Z.mod_small b (2 ^ k)), <- (Z.mod_small d (2 ^ k)),
      <- (Z.mod_small (op (b mod 2 ^ k) (d mod 2 ^ k)) (2 ^ k))
      by (rewrite ?Z.mod_small by lia; lia).
    rewrite !Z.mod_pow2_bits_high by lia. by rewrite !orb_false_r.
Qed.
End split.

Lemma land_split a b c d k :
  0 <= k -> 0 <= b < 2 ^ k -> 0 <= d < 2 ^ k ->
  Z.land (a * 2 ^ k + b) (c * 2 ^ k + d) = Z.land a c * 2 ^ k + Z.land b d.
Proof.
  apply (bitop_split Z.land andb Z.land_spec). clear.
  intros k b d Hk Hb Hd.
  assert (Z.land b d = Z.land b d mod 2 ^ k) as ->.
  { rewrite <- Z.land_ones, <- Z.land_assoc by done.
    by rewrite (Z.land_ones d), (Z.mod_small d) by done. }
  apply Z.mod_pos_bound. lia.
Qed.

Lemma lor_small k b d :
  0 <= k -> 0 <= b < 2 ^ k -> 0 <= d < 2 ^ k -> 0 <= Z.lor b d < 2 ^ k.
Proof.
  intros Hk Hb Hd. split; [apply Z.lor_nonneg; lia|].
  destruct (decide (Z.lor b d = 0)) as [->|]; [lia|].
  assert (0 < Z.lor b d) by (pose proof (Z.lor_nonneg b d); lia).
  apply Z.log2_lt_pow2; [lia|]. rewrite Z.log2_lor by lia.
  destruct (decide (k = 0)) as [->|]; [|].
  - change (2 ^ 0) with 1 in *. replace b with 0 in * by lia. replace d with 0 in * by lia.
    done.
  - apply Z.max_lub_lt.
    + destruct (decide (b = 0)) as [->|]; [simpl; lia|]. apply Z.log2_lt_pow2; lia.
    + destruct (decide (d = 0)) as [->|]; [simpl; lia|]. apply Z.log2_lt_pow2; lia.
Qed.

Lemma lor_split a b c d k :
  0 <= k -> 0 <= b < 2 ^ k -> 0 <= d < 2 ^ k ->
  Z.lor (a * 2 ^ k + b) (c * 2 ^ k + d) = Z.lor a c * 2 ^ k + Z.lor b d.
Proof. apply (bitop_split Z.lor orb Z.lor_spec). clear. exact lor_small. Qed.

(** ** Error codes ([dx_error_code_t]) *)

Inductive dx_error_code : Set :=
  | dx_ll_info | dx_ll_warn | dx_ll_error | dx_ec_success
  | dx_ec_error_subsystem_failure | dx_ec_invalid_func_param
  | dx_ec_invalid_func_param_internal | dx_ec_internal_assert_violation
  | dx_mec_insufficient_memory | dx_sec_socket_subsystem_init_failed
  | dx_sec_socket_subsystem_init_required
  | dx_sec_socket_subsystem_incompatible_version | dx_sec_connection_gracefully_closed
  | dx_sec_network_is_down | dx_sec_blocking_call_in_progress
  | dx_sec_addr_family_not_supported | dx_sec_no_sockets_available
  | dx_sec_no_buffer_space_available | dx_sec_proto_not_supported
  | dx_sec_socket_type_proto_incompat | dx_sec_socket_type_addrfam_incompat
  | dx_sec_addr_already_in_use | dx_sec_blocking_call_interrupted
  | dx_sec_nonblocking_oper_pending | dx_sec_addr_not_valid | dx_sec_connection_refused
  | dx_sec_invalid_ptr_arg | dx_sec_invalid_arg | dx_sec_sock_already_connected
  | dx_sec_network_is_unreachable | dx_sec_sock_oper_on_nonsocket
  | dx_sec_connection_timed_out | dx_sec_res_temporarily_unavail
  | dx_sec_permission_denied | dx_sec_network_dropped_connection
  | dx_sec_socket_not_connected | dx_sec_operation_not_supported
  | dx_sec_socket_shutdown | dx_sec_message_too_long | dx_sec_no_route_to_host
  | dx_sec_connection_aborted | dx_sec_connection_reset | dx_sec_persistent_temp_error
  | dx_sec_unrecoverable_error | dx_sec_not_enough_memory | dx_sec_no_data_on_host
  | dx_sec_host_not_found | dx_sec_generic_error | dx_tec_not_enough_sys_resources
  | dx_tec_permission_denied | dx_tec_invalid_res_operation
  | dx_tec_invalid_resource_id | dx_tec_deadlock_detected | dx_tec_not_enough_memory
  | dx_tec_resource_busy | dx_tec_generic_error | dx_nec_invalid_port_value
  | dx_nec_invalid_function_arg | dx_nec_connection_closed
  | dx_nec_open_connection_error | dx_nec_unknown_codec | dx_bioec_buffer_overflow
  | dx_bioec_buffer_not_initialized | dx_bioec_index_out_of_bounds
  | dx_bioec_buffer_underflow | dx_utfec_bad_utf_data_format
  | dx_utfec_bad_utf_data_format_server | dx_pcec_reserved_bit_sequence
  | dx_pcec_invalid_symbol_length | dx_pcec_invalid_event_flag
  | dx_esec_invalid_event_type | dx_esec_invalid_subscr_id
  | dx_esec_invalid_symbol_name | dx_esec_invalid_listener | dx_lec_failed_to_open_file
  | dx_pmec_invalid_message_type | dx_pec_unexpected_message_type
  | dx_pec_unexpected_message_type_internal | dx_pec_descr_record_field_info_corrupted
  | dx_pec_message_incomplete | dx_pec_invalid_message_length
  | dx_pec_server_message_not_supported | dx_pec_invalid_symbol
  | dx_pec_record_description_not_received | dx_pec_record_field_type_not_supported
  | dx_pec_record_info_corrupted | dx_pec_unknown_record_name
  | dx_pec_record_not_supported | dx_pec_describe_protocol_message_corrupted
  | dx_pec_unexpected_message_sequence_internal
  | dx_pec_local_message_not_supported_by_server | dx_pec_inconsistent_message_support
  | dx_pec_authentication_error | dx_pec_credentials_required
  | dx_cec_invalid_connection_handle | dx_cec_invalid_connection_handle_internal
  | dx_cec_connection_context_not_initialized
  | dx_cec_invalid_connection_context_subsystem_id
  | dx_ceec_invalid_candle_period_value | dx_ssec_invalid_snapshot_id
  | dx_ssec_invalid_event_id | dx_ssec_invalid_symbol | dx_ssec_snapshot_exist
  | dx_ssec_invalid_listener | dx_ssec_unknown_state | dx_ssec_duplicate_record
  | dx_csdec_protocol_error | dx_csdec_unsupported_version.

#[export] Instance dx_error_code_eq_dec : EqDecision dx_error_code.
Proof. solve_decision. Defined.

(** ** Outcomes of fallible, stateful C functions

    A function that returns [true] with its OUT values is [Ok]; one that
    returns [false] after [dx_set_error_code] is [Err], which keeps the state
    the function had reached; a read or write outside an allocated buffer (or
    through a null pointer) is [UB]. *)

Inductive res (S A : Type) : Type :=
  | Ok (a : A) (s : S)
  | Err (e : dx_error_code) (s : S)
  | UB.
Arguments Ok {S A} a s.
Arguments Err {S A} e s.
Arguments UB {S A}.

Definition M (S A : Type) : Type := S -> res S A.

Definition ret {S A} (a : A) : M S A := fun s => Ok a s.
Definition dx_set_error_code {S A} (e : dx_error_code) : M S A := fun s => Err e s.
(** A return of [false] without an error code. *)
Definition fail {S A} : M S A := dx_set_error_code dx_ec_success.
Definition undefined {S A} : M S A := fun _ => UB.
Definition get {S} : M S S := fun s => Ok s s.
Definition put {S} (s : S) : M S unit := fun _ => Ok tt s.

(** [CHECKED_CALL]: an error of the callee is the caller's error. *)
Definition checked_call {S A B} (m : M S A) (k : A -> M S B) : M S B := fun s =>
  match m s with
  | Ok a s' => k a s'
  | Err e s' => Err e s'
  | UB => UB
  end.

Declare Scope c_scope.
Delimit Scope c_scope with c.
Notation "x <-- m ;; k" := (checked_call m (fun x => k))
  (at level 100, m at next level, right associativity) : c_scope.
Notation "m ;;; k" := (checked_call m (fun _ => k))
  (at level 100, right associativity) : c_scope.

Definition of_option {S A} (o : option A) : M S A :=
  match o with Some a => ret a | None => undefined end.

(** Unfold the monad. *)
Ltac unfold_m := unfold of_option, checked_call, get, put, undefined, dx_set_error_code, ret.

(** An operation on a part of the state. *)
Definition on {S T A} (part : S -> T) (set : T -> S -> S) (m : M T A) : M S A := fun s =>
  match m (part s) with
  | Ok a t => Ok a (set t s)
  | Err e t => Err e (set t s)
  | UB => UB
  end.
Definition update {S} (f : S -> S) : M S unit := fun s => Ok tt (f s).

(** A call whose result is not looked at. *)
Definition ignored {S A} (m : M S A) : M S unit := fun s =>
  match m s with Ok _ s | Err _ s => Ok tt s | UB => UB end.

(** The error of a call that is looked at. *)
Definition catch {S A} (m : M S A) : M S (A + dx_error_code) := fun s =>
  match m s with Ok a s => Ok (inl a) s | Err e s => Ok (inr e) s | UB => UB end.

Lemma bind_ok {S A B} (m : M S A) (k : A -> M S B) s a s' : m s = Ok a s' -> checked_call m k s = k a s'.
Proof. intros E. unfold checked_call. by rewrite E. Qed.

Lemma bind_inv {S A B} (m : M S A) (k : A -> M S B) s b s' : checked_call m k s = Ok b s' ->
  exists a s1, m s = Ok a s1 /\ k a s1 = Ok b s'.
Proof. unfold checked_call. destruct (m s) as [a s1|e s1|]; [|done..]. intros H. by exists a, s1. Qed.

Lemma catch_ok {S A} (m : M S A) s v s' : m s = Ok v s' -> catch m s = Ok (inl v) s'.
Proof. intros E. unfold catch. by rewrite E. Qed.

(** ** Bounds-checked memory primitives on buffers

    [None] is an access outside the buffer. *)

Definition write_at {A} (l : list A) (i : nat) (x : A) : option (list A) :=
  if (i <? length l)%nat then Some (<[i := x]> l) else None.

(** [memcpy]/[memmove] of [n] elements. *)
Definition blit {A} (src : list A) (soff : nat) (dst : list A) (doff n : nat)
  : option (list A) :=
  if ((soff + n <=? length src) && (doff + n <=? length dst))%nat
  then Some (take doff dst ++ take n (drop soff src) ++ drop (doff + n) dst)
  else None.

(** [size_t] subtraction; a wrap-around is never intended. *)
Definition sub_size (a b : nat) : option nat :=
  if (b <=? a)%nat then Some (a - b)%nat else None.

Lemma write_at_in {A} (l : list A) i x :
  (i < length l)%nat -> write_at l i x = Some (<[i := x]> l).
Proof. intros Hi. unfold write_at. by rewrite (proj2 (Nat.ltb_lt _ _) Hi). Qed.

Lemma write_at_out {A} (l : list A) i x :
  (length l <= i)%nat -> write_at l i x = None.
Proof. intros Hi. unfold write_at. destruct (Nat.ltb_spec i (length l)); [lia|done]. Qed.

Lemma blit_in {A} (src dst : list A) soff doff n :
  (soff + n <= length src)%nat -> (doff + n <= length dst)%nat ->
  blit src soff dst doff n =
    Some (take doff dst ++ take n (drop soff src) ++ drop (doff + n) dst).
Proof.
  intros Hs Hd. unfold blit.
  by rewrite (proj2 (Nat.leb_le _ _) Hs), (proj2 (Nat.leb_le _ _) Hd).
Qed.

Lemma sub_size_le a b : (b <= a)%nat -> sub_size a b = Some (a - b)%nat.
Proof. intros H. unfold sub_size. by rewrite (proj2 (Nat.leb_le _ _) H). Qed.

Lemma insert_app_r_eq {A} (l1 l2 : list A) x y :
  <[length l1 := x]> (l1 ++ y :: l2) = l1 ++ x :: l2.
Proof. induction l1; simpl; [done|by f_equal]. Qed.

Lemma write_at_app {A} (l1 l2 : list A) x y i :
  i = length l1 -> write_at (l1 ++ y :: l2) i x = Some (l1 ++ x :: l2).
Proof.
  intros ->. rewrite write_at_in by (rewrite length_app; simpl; lia).
  by rewrite insert_app_r_eq.
Qed.

(** Storing an element and telling whether the buffer changed. *)
Section store_changed.
Context {A B : Type} `{!EqDecision A}.

Lemma store_changed (l : list A) i x (changed : bool) (k : list A * bool -> option B) :
  (i < length l)%nat ->
  (old ← l !! i;
   r ← (if bool_decide (old = x) then Some (l, changed) else l ← write_at l i x; Some (l, true));
   k r) = k (<[i := x]> l, changed || negb (bool_decide (l !! i = Some x))).
Proof.
  intros Hi. destruct (lookup_lt_is_Some_2 l i Hi) as [old Hold]. rewrite Hold. cbn [mbind option_bind].
  destruct (decide (old = x)) as [->|Hne].
  - rewrite !bool_decide_eq_true_2 by done. cbn [mbind option_bind negb].
    by rewrite list_insert_id, orb_false_r.
  - rewrite bool_decide_eq_false_2 by done. rewrite bool_decide_eq_false_2 by congruence.
    rewrite write_at_in by done. cbn [mbind option_bind negb]. by rewrite orb_true_r.
Qed.

(** The elements stored from an index on, and whether they were there before. *)
Lemma stored_changed (l : list A) i x tail (changed : bool) :
  (i < length l)%nat ->
  (changed || negb (bool_decide (l !! i = Some x))) ||
    negb (bool_decide (take (length tail) (drop (S i) (<[i := x]> l)) = tail)) =
  changed || negb (bool_decide (take (S (length tail)) (drop i l) = x :: tail)).
Proof.
  intros Hi. destruct (lookup_lt_is_Some_2 l i Hi) as [old Hold].
  rewrite <- orb_assoc. f_equal. rewrite drop_insert_lt by lia.
  rewrite (drop_S l old i Hold). cbn [take]. rewrite Hold, <- negb_andb. f_equal.
  apply eq_bool_prop_intro. rewrite andb_True, !bool_decide_spec.
  split; [by intros [[= ->] ->]|by intros [= -> ->]].
Qed.

Lemma stored_take (l l' : list A) i x tail :
  (i < length l)%nat -> take (S i + length tail) l' = take (S i) (<[i := x]> l) ++ tail ->
  take (i + S (length tail)) l' = take i l ++ x :: tail.
Proof.
  intros Hi H. replace (i + S (length tail))%nat with (S i + length tail)%nat by lia. rewrite H.
  rewrite (take_S_r _ _ x) by (apply list_lookup_insert_eq; lia).
  by rewrite take_insert_ge, <- app_assoc by lia.
Qed.
End store_changed.

(** Prove a decidable proposition by evaluating its decision procedure. *)
Ltac by_compute := apply (bool_decide_unpack _); vm_compute; exact I.

(** Case analysis on the scrutinee of a [match] or an [if]. *)
Ltac destruct_match :=
  match goal with
  | |- context [match ?x with _ => _ end] => destruct x eqn:?
  | H : context [match ?x with _ => _ end] |- _ => destruct x eqn:?
  end.

(** Boolean comparisons on [Z] and [nat] as propositions. *)
Ltac bool_to_prop :=
  repeat match goal with
  | H : (_ && _)%bool = true |- _ => apply andb_true_iff in H; destruct H
  | H : (_ && _)%bool = false |- _ => apply andb_false_iff in H
  | H : (_ || _)%bool = true |- _ => apply orb_true_iff in H
  | H : (_ || _)%bool = false |- _ => apply orb_false_iff in H; destruct H
  | H : negb _ = true |- _ => apply negb_true_iff in H
  | H : negb _ = false |- _ => apply negb_false_iff in H
  | H : (_ <? _) = true |- _ => apply Z.ltb_lt in H
  | H : (_ <? _) = false |- _ => apply Z.ltb_ge in H
  | H : (_ <=? _) = true |- _ => apply Z.leb_le in H
  | H : (_ <=? _) = false |- _ => apply Z.leb_gt in H
  | H : (_ =? _) = true |- _ => apply Z.eqb_eq in H
  | H : (_ =? _) = false |- _ => apply Z.eqb_neq in H
  | H : (_ <? _)%nat = true |- _ => apply Nat.ltb_lt in H
  | H : (_ <? _)%nat = false |- _ => apply Nat.ltb_ge in H
  | H : (_ <=? _)%nat = true |- _ => apply Nat.leb_le in H
  | H : (_ <=? _)%nat = false |- _ => apply Nat.leb_gt in H
  | H : (_ =? _)%nat = true |- _ => apply Nat.eqb_eq in H
  | H : (_ =? _)%nat = false |- _ => apply Nat.eqb_neq in H
  end.

(** Decide every boolean comparison of the goal whose truth [lia] knows. *)
Ltac ltb_true := first [ apply Z.ltb_lt | apply Z.leb_le | apply Z.eqb_eq
  | apply Nat.ltb_lt | apply Nat.leb_le | apply Nat.eqb_eq ].
Ltac ltb_false := first [ apply Z.ltb_ge | apply Z.leb_gt | apply Z.eqb_neq
  | apply Nat.ltb_ge | apply Nat.leb_gt | apply Nat.eqb_neq ].
Ltac decide_cmp b :=
  first [ replace b with true by (symmetry; ltb_true; lia)
        | replace b with false by (symmetry; ltb_false; lia) ].
Ltac decide_cmps :=
  repeat match goal with
  | |- context [?a <? ?b] => decide_cmp (a <? b)
  | |- context [?a <=? ?b] => decide_cmp (a <=? b)
  | |- context [?a =? ?b] => decide_cmp (a =? b)
  | |- context [(?a <? ?b)%nat] => decide_cmp (a <? b)%nat
  | |- context [(?a <=? ?b)%nat] => decide_cmp (a <=? b)%nat
  | |- context [(?a =? ?b)%nat] => decide_cmp (a =? b)%nat
  end; cbn [andb orb negb].

Create HintDb dx discriminated.
#[export] Hint Resolve i8_range i16_range i32_range i64_range : dx.

(** A property of the integers of a small range, by evaluation. *)
Lemma finite_check (P : Z -> bool) lo n :
  forallb P (seqZ lo n) = true -> forall x, lo <= x < lo + n -> P x = true.
Proof.
  intros H x Hx. rewrite forallb_forall in H. apply H.
  apply list_elem_of_In, elem_of_seqZ. lia.
Qed.

Lemma finite_land m c lo n :
  forallb (fun x => Z.land m x =? x + c) (seqZ lo n) = true ->
  forall x, lo <= x < lo + n -> Z.land m x = x + c.
Proof. intros H x Hx. apply Z.eqb_eq, (finite_check _ lo n H x Hx). Qed.
