(* ===== verification/Arrays.v ===== *)
(** * Arrays: the array macros of [src/DXAlgorithms.h]

    An array descriptor ([elements], [size], [capacity]) with binary and linear
    search, insertion, deletion, reservation and shuffling, and the capacity
    manager of [src/DXAlgorithms.c].  The buffer is a list as long as the block
    that was really allocated, so a write past it is visible as [None]. *)

From S2P Require Import Prelude.
From Stdlib Require Import Sorted.
Local Open Scope Z_scope.

(** ** Comparators *)

Definition DX_NUMERIC_COMPARATOR (l r : Z) : Z :=
  if r <? l then 1 else if l <? r then -1 else 0.

(** What the searches need of a comparator: a total preorder read off the sign. *)
Class Comparator {A : Type} (cmp : A -> A -> Z) : Prop := {
  cmp_refl x : cmp x x = 0;
  cmp_sym x y : Z.sgn (cmp x y) = - Z.sgn (cmp y x);
  cmp_trans x y z : cmp x y < 0 -> cmp y z < 0 -> cmp x z < 0;
  cmp_eq x y z : cmp x y = 0 -> Z.sgn (cmp x z) = Z.sgn (cmp y z);
}.

#[export] Instance numeric_comparator : Comparator DX_NUMERIC_COMPARATOR.
Proof.
  split; unfold DX_NUMERIC_COMPARATOR; intros; repeat destruct_match;
    bool_to_prop; simpl in *; lia.
Qed.

(** Comparing by a projection is again a comparator. *)
#[export] Instance comparator_on {A B} (f : B -> A) (cmp : A -> A -> Z)
  `{!Comparator cmp} : Comparator (fun x y => cmp (f x) (f y)).
Proof.
  split; intros.
  - apply cmp_refl.
  - apply cmp_sym.
  - by eapply cmp_trans.
  - by apply cmp_eq.
Qed.

Section comparator.
Context {A : Type} (cmp : A -> A -> Z).

Definition cmp_lt (x y : A) : Prop := cmp x y < 0.

(** The buffers the binary search is used on. *)
Definition sorted_by (l : list A) : Prop := StronglySorted cmp_lt l.

Lemma sorted_by_lookup l i j x y :
  sorted_by l -> (i < j)%nat -> l !! i = Some x -> l !! j = Some y -> cmp x y < 0.
Proof.
  intros Hs. revert i j. induction Hs as [|a l Hs IH Hall]; intros i j Hij Hi Hj.
  { done. }
  destruct i, j; try lia; simpl in *.
  - simplify_eq. rewrite Forall_forall in Hall. apply Hall.
    by eapply list_elem_of_lookup_2.
  - eapply (IH i j); [lia|done|done].
Qed.

Lemma sorted_by_app l1 l2 :
  sorted_by (l1 ++ l2) <->
  sorted_by l1 /\ sorted_by l2 /\ forall x y, x ∈ l1 -> y ∈ l2 -> cmp x y < 0.
Proof.
  unfold sorted_by. induction l1 as [|a l1 IH]; simpl.
  - split; [intros H; repeat split|]; [constructor|done|set_solver|by intros (?&?&?)].
  - split.
    + intros H. inversion_clear H as [|? ? Hs Hall].
      apply IH in Hs as (Hs1 & Hs2 & Hs3). apply Forall_app in Hall as [Ha1 Ha2].
      split_and!; [by constructor|done|].
      intros x y [->|Hx]%elem_of_cons Hy; [|by apply Hs3].
      rewrite Forall_forall in Ha2. by apply Ha2.
    + intros (H1 & H2 & H3). inversion_clear H1 as [|? ? Hs Hall].
      constructor; [apply IH; split_and!; [done|done|]; intros; apply H3; [by right|done]|].
      apply Forall_app; split; [done|]. apply Forall_forall.
      intros y Hy. apply H3; [by left|done].
Qed.

Lemma sorted_by_insert_middle l1 x l2 :
  sorted_by (l1 ++ l2) ->
  (forall y, y ∈ l1 -> cmp y x < 0) -> (forall y, y ∈ l2 -> cmp x y < 0) ->
  sorted_by (l1 ++ x :: l2).
Proof.
  rewrite !sorted_by_app. intros (H1 & H2 & H3) Hl Hr. split_and!; [done| |].
  - constructor; [done|]. apply Forall_forall. intros y Hy. by apply Hr.
  - intros y z Hy [->|Hz]%elem_of_cons; [by apply Hl|by apply H3].
Qed.

Lemma sorted_by_delete_middle l1 x l2 :
  sorted_by (l1 ++ x :: l2) -> sorted_by (l1 ++ l2).
Proof.
  rewrite !sorted_by_app. intros (H1 & H2 & H3). inversion_clear H2.
  split_and!; [done|done|]. intros y z Hy Hz. apply H3; [done|]. by right.
Qed.

Context `{!Comparator cmp}.

Lemma cmp_gt x y : 0 < cmp x y <-> cmp y x < 0.
Proof. pose proof (cmp_sym x y). lia. Qed.
Lemma cmp_zero_sym x y : cmp x y = 0 -> cmp y x = 0.
Proof. pose proof (cmp_sym x y). lia. Qed.
Lemma cmp_lt_eq x y z : cmp x y < 0 -> cmp y z = 0 -> cmp x z < 0.
Proof.
  intros H1 H2%cmp_zero_sym.
  pose proof (cmp_eq z y x H2). pose proof (cmp_sym z x). pose proof (cmp_sym y x). lia.
Qed.
Lemma cmp_eq_lt x y z : cmp x y = 0 -> cmp y z < 0 -> cmp x z < 0.
Proof. intros H1 H2. pose proof (cmp_eq x y z H1). lia. Qed.
Lemma cmp_le_lt_trans x y z : cmp x y <= 0 -> cmp y z < 0 -> cmp x z < 0.
Proof.
  intros H1 H2. destruct (decide (cmp x y = 0)); [by apply (cmp_eq_lt x y)|].
  apply (cmp_trans x y z); lia.
Qed.
Lemma cmp_le_trans x y z : cmp x y <= 0 -> cmp y z <= 0 -> cmp x z <= 0.
Proof.
  intros H1 H2. destruct (decide (cmp y z = 0)) as [E|].
  - destruct (decide (cmp x y = 0)) as [E'|]; [pose proof (cmp_eq x y z E'); lia|].
    pose proof (cmp_lt_eq x y z). lia.
  - pose proof (cmp_le_lt_trans x y z). lia.
Qed.
Lemma cmp_eq_trans x y z : cmp x y = 0 -> cmp y z = 0 -> cmp x z = 0.
Proof. intros H1 H2. pose proof (cmp_eq x y z H1). lia. Qed.

(** Replacing an element by an equivalent one keeps the order. *)
Lemma sorted_by_replace_middle l1 x x' l2 :
  cmp x' x = 0 -> sorted_by (l1 ++ x :: l2) -> sorted_by (l1 ++ x' :: l2).
Proof.
  rewrite !sorted_by_app. intros Heq (H1 & H2 & H3). inversion_clear H2 as [|? ? Hs Hall].
  rewrite Forall_forall in Hall. split_and!; [done| |].
  - constructor; [done|]. apply Forall_forall. intros y Hy.
    apply (cmp_eq_lt x' x); [done|by apply Hall].
  - intros y z Hy [->|Hz]%elem_of_cons.
    + apply (cmp_lt_eq y x x'); [apply H3; set_solver|by apply cmp_zero_sym].
    + apply H3; set_solver.
Qed.
End comparator.

(** ** Searches *)

Section search.
Context {A : Type} (comparator : A -> A -> Z).

(** The loop of [DX_ARRAY_BINARY_SEARCH]; its result is [(found, res_index)].
    [None] is a read outside the array (or, in the model, fuel running out,
    which [binary_search_spec] excludes). *)
Fixpoint bs_loop (fuel : nat) (a : list A) (elem : A) (_begin _end : nat)
  : option (bool * nat) :=
  match fuel with
  | O => None
  | S fuel' =>
      if (_begin <? _end)%nat then
        let _mid := ((_begin + _end) / 2)%nat in
        match a !! _mid with
        | None => None
        | Some x =>
            let _comp_res := comparator x elem in
            if _comp_res =? 0 then Some (true, _mid)
            else if _comp_res <? 0 then bs_loop fuel' a elem (_mid + 1)%nat _end
            else bs_loop fuel' a elem _begin _mid
        end
      else Some (false, _end)
  end.

Definition DX_ARRAY_BINARY_SEARCH (a : list A) (start_index end_index : nat) (elem : A)
  : option (bool * nat) :=
  bs_loop (S (end_index - start_index)) a elem start_index end_index.

(** The linear branch of [DX_ARRAY_SEARCH]. *)
Fixpoint ls_loop (n : nat) (a : list A) (elem : A) (_index : nat) : option (bool * nat) :=
  match n with
  | O => Some (false, _index)
  | S n' =>
      match a !! _index with
      | None => None
      | Some x => if comparator x elem =? 0 then Some (true, _index)
                  else ls_loop n' a elem (S _index)
      end
  end.

Definition DX_ARRAY_SEARCH (a : list A) (start_index end_index : nat) (elem : A)
  (is_binary : bool) : option (bool * nat) :=
  if is_binary then DX_ARRAY_BINARY_SEARCH a start_index end_index elem
  else ls_loop (end_index - start_index) a elem start_index.
End search.

(** ** Descriptors *)

Record dx_array (A : Type) : Type := DxArray {
  arr_elements : list A;   (** the allocated buffer *)
  arr_size : nat;
  arr_capacity : nat;
}.
Arguments DxArray {A} arr_elements arr_size arr_capacity.
Arguments arr_elements {A} d.
Arguments arr_size {A} d.
Arguments arr_capacity {A} d.

Definition DX_EMPTY_ARRAY {A} : dx_array A := DxArray [] 0 0.

(** The elements in use. *)
Definition contents {A} (a : dx_array A) : list A := take (arr_size a) (arr_elements a).

(** The descriptor is faithful to its buffer. *)
Definition array_wf {A} (a : dx_array A) : Prop :=
  (arr_size a <= arr_capacity a)%nat /\ length (arr_elements a) = arr_capacity a.

(** [dx_capacity_manager_halfer]: whether to reallocate, and the new capacity.
    [(size_t)((double)c * 1.5) + 1] is [3c/2 + 1] and [(double)n / c < 0.5] is
    [2n < c] as long as the sizes are below 2^52. *)
Definition dx_capacity_manager_halfer (new_size capacity : nat) : bool * nat :=
  if (capacity <? new_size)%nat then (true, capacity * 3 / 2 + 1)%nat
  else if (2 * new_size <? capacity)%nat then (true, new_size)
  else (false, capacity).

Section descriptor.
Context {A : Type}.
(** A zeroed element, and whether [dx_calloc] of so many elements succeeds. *)
Context (zero : A) (alloc : nat -> bool).

(** The result is the descriptor and the [error] flag of the macro. *)
Definition DX_ARRAY_INSERT (a : dx_array A) (new_elem : A) (position : nat)
  : option (dx_array A * bool) :=
  let '(realloc, cap) := dx_capacity_manager_halfer (arr_size a + 1) (arr_capacity a) in
  if realloc && negb (alloc cap) then
    Some (DxArray (arr_elements a) (arr_size a) cap, true)
  else
    buf ← (if realloc then blit (arr_elements a) 0 (replicate cap zero) 0 position
           else Some (arr_elements a));
    n ← sub_size (arr_size a) position;
    buf ← blit (arr_elements a) position buf (position + 1) n;
    buf ← write_at buf position new_elem;
    Some (DxArray buf (S (arr_size a)) cap, false).

Definition DX_ARRAY_DELETE (a : dx_array A) (position : nat)
  : option (dx_array A * bool) :=
  new_size ← sub_size (arr_size a) 1;
  let '(realloc, cap) := dx_capacity_manager_halfer new_size (arr_capacity a) in
  if realloc && negb (alloc cap) then
    Some (DxArray (arr_elements a) (arr_size a) cap, true)
  else
    buf ← (if realloc then blit (arr_elements a) 0 (replicate cap zero) 0 position
           else Some (arr_elements a));
    n ← sub_size (arr_size a) (position + 1);
    buf ← blit (arr_elements a) (position + 1) buf position n;
    Some (DxArray buf new_size cap, false).

Definition DX_ARRAY_RESERVE (a : dx_array A) (reserve_size : nat)
  : option (dx_array A * bool) :=
  if (reserve_size <=? arr_size a)%nat then Some (a, false)
  else if (arr_capacity a <? reserve_size)%nat then
    if alloc reserve_size then
      buf ← blit (arr_elements a) 0 (replicate reserve_size zero) 0 (arr_size a);
      Some (DxArray buf reserve_size reserve_size, false)
    else Some (a, true)
  else Some (DxArray (arr_elements a) reserve_size (arr_capacity a), false).

(** [DX_ARRAY_SHUFFLE]: [rand i] is what [dx_random_size(i)] returns. *)
Fixpoint shuffle_loop (rand : nat -> nat) (a : list A) (_idx : nat) : option (list A) :=
  match _idx with
  | O => Some a
  | S i =>
      let _rand_idx := rand _idx in
      e1 ← a !! _idx; e2 ← a !! _rand_idx;
      a ← write_at a _idx e2; a ← write_at a _rand_idx e1;
      shuffle_loop rand a i
  end.
Definition DX_ARRAY_SHUFFLE (rand : nat -> nat) (a : list A) : option (list A) :=
  n ← sub_size (length a) 1; shuffle_loop rand a n.
End descriptor.

(** ** The searches are correct *)

Section search_spec.
Context {A : Type} (cmp : A -> A -> Z) (a : list A) (elem : A).

(** The range is split by [elem]: smaller elements, then greater ones. *)
Definition partitioned (b e : nat) : Prop :=
  forall i j x y, (b <= i)%nat -> (i < j)%nat -> (j < e)%nat ->
    a !! i = Some x -> a !! j = Some y ->
    (cmp y elem <= 0 -> cmp x elem < 0) /\ (0 <= cmp x elem -> 0 < cmp y elem).

(** What a search over [b, e) promises. *)
Definition search_result (b e : nat) (found : bool) (idx : nat) : Prop :=
  if found then (b <= idx < e)%nat /\ exists x, a !! idx = Some x /\ cmp x elem = 0
  else (b <= idx <= e)%nat /\
    (forall i x, (b <= i < idx)%nat -> a !! i = Some x -> cmp x elem < 0) /\
    (forall i x, (idx <= i < e)%nat -> a !! i = Some x -> 0 < cmp x elem).

Lemma bs_loop_spec fuel b0 e0 b e :
  (b0 <= b <= e)%nat -> (e <= e0 <= length a)%nat -> (e - b < fuel)%nat ->
  partitioned b0 e0 ->
  (forall i x, (b0 <= i < b)%nat -> a !! i = Some x -> cmp x elem < 0) ->
  (forall i x, (e <= i < e0)%nat -> a !! i = Some x -> 0 < cmp x elem) ->
  exists found idx, bs_loop cmp fuel a elem b e = Some (found, idx) /\
    search_result b0 e0 found idx.
Proof.
  revert b e. induction fuel as [|fuel IH]; intros b e Hb He Hf Hp Hlo Hhi; [lia|].
  cbn [bs_loop]. destruct (Nat.ltb_spec b e) as [Hlt|Hge].
  2:{ exists false, e. split; [done|]. replace e with b in * by lia.
      split_and!; [lia|lia|done|done]. }
  set (mid := ((b + e) / 2)%nat).
  assert (b <= mid < e)%nat as Hmid
    by (unfold mid; pose proof (Nat.div_mod_eq (b + e) 2);
        pose proof (Nat.mod_upper_bound (b + e) 2); lia).
  destruct (lookup_lt_is_Some_2 a mid) as [x Hx]; [lia|]. rewrite Hx.
  destruct (Z.eqb_spec (cmp x elem) 0) as [Heq|Hne].
  { exists true, mid. split; [done|]. split; [lia|]. by exists x. }
  destruct (Z.ltb_spec (cmp x elem) 0).
  - apply IH; [lia|lia|lia|done| |done].
    intros i y Hi Hy. destruct (decide (i = mid)) as [->|]; [by simplify_eq|].
    destruct (decide (i < b)%nat); [by apply (Hlo i); [lia|]|].
    apply (Hp i mid y x); [lia|lia|lia|done|done|lia].
  - apply IH; [lia|lia|lia|done|done|].
    intros i y Hi Hy. destruct (decide (i = mid)) as [->|]; [simplify_eq; lia|].
    destruct (decide (e <= i)%nat); [by apply (Hhi i); [lia|]|].
    apply (Hp mid i x y); [lia|lia|lia|done|done|lia].
Qed.

Lemma binary_search_spec b e :
  (b <= e <= length a)%nat -> partitioned b e ->
  exists found idx, DX_ARRAY_BINARY_SEARCH cmp a b e elem = Some (found, idx) /\
    search_result b e found idx.
Proof.
  intros He Hp. apply bs_loop_spec; [lia|lia|lia|done| |]; intros; lia.
Qed.

(** A binary search never reads outside [b, e) and always stops, whatever the data. *)
Lemma bs_loop_total fuel b e :
  (e <= length a)%nat -> (e - b < fuel)%nat -> (b <= e)%nat ->
  exists found idx, bs_loop cmp fuel a elem b e = Some (found, idx) /\
    (b <= idx)%nat /\ (if found then idx < e else idx <= e)%nat.
Proof.
  revert b e. induction fuel as [|fuel IH]; intros b e He Hf Hbe; [lia|].
  cbn [bs_loop]. destruct (Nat.ltb_spec b e) as [Hlt|Hge]; [|exists false, e; split; [done|lia]].
  set (mid := ((b + e) / 2)%nat).
  assert (b <= mid < e)%nat as Hmid
    by (unfold mid; pose proof (Nat.div_mod_eq (b + e) 2);
        pose proof (Nat.mod_upper_bound (b + e) 2); lia).
  destruct (lookup_lt_is_Some_2 a mid) as [x Hx]; [lia|]. rewrite Hx.
  destruct (cmp x elem =? 0); [exists true, mid; split; [done|lia]|].
  destruct (cmp x elem <? 0).
  - destruct (IH (mid + 1)%nat e) as (f & i & ? & ? & ?); [lia..|].
    exists f, i. split; [done|]. destruct f; lia.
  - destruct (IH b mid) as (f & i & ? & ? & ?); [lia..|].
    exists f, i. split; [done|]. destruct f; lia.
Qed.

Lemma ls_loop_spec n b :
  (b + n <= length a)%nat ->
  exists found idx, ls_loop cmp n a elem b = Some (found, idx) /\
    (if found then (b <= idx < b + n)%nat /\ (exists x, a !! idx = Some x /\ cmp x elem = 0)
     else idx = (b + n)%nat) /\
    (forall i x, (b <= i < idx)%nat -> a !! i = Some x -> cmp x elem <> 0).
Proof.
  revert b. induction n as [|n IH]; intros b Hb; cbn [ls_loop].
  { exists false, b. split_and!; [done|lia|intros; lia]. }
  destruct (lookup_lt_is_Some_2 a b) as [x Hx]; [lia|]. rewrite Hx.
  destruct (Z.eqb_spec (cmp x elem) 0) as [Heq|Hne].
  { exists true, b. split; [done|]. split; [split; [lia|by exists x]|intros; lia]. }
  destruct (IH (S b)) as (f & i & -> & Hf & Hlo); [lia|].
  exists f, i. split_and!; [done| |].
  - destruct f; [|lia]. destruct Hf as [? Hx']. split; [lia|done].
  - intros j y Hj Hy. destruct (decide (j = b)) as [->|]; [by simplify_eq|].
    apply (Hlo j); [lia|done].
Qed.
End search_spec.

(** Only the comparisons within the range matter. *)
Lemma bs_loop_ext {A} (cmp cmp' : A -> A -> Z) fuel a elem b e :
  (forall i x, (b <= i < e)%nat -> a !! i = Some x -> cmp x elem = cmp' x elem) ->
  bs_loop cmp fuel a elem b e = bs_loop cmp' fuel a elem b e.
Proof.
  revert b e. induction fuel as [|fuel IH]; intros b e H; [done|]. cbn [bs_loop].
  destruct (Nat.ltb_spec b e) as [Hlt|]; [|done].
  set (mid := ((b + e) / 2)%nat).
  assert (b <= mid < e)%nat as Hmid
    by (unfold mid; pose proof (Nat.div_mod_eq (b + e) 2);
        pose proof (Nat.mod_upper_bound (b + e) 2); lia).
  destruct (a !! mid) as [x|] eqn:Hx; [|done]. rewrite (H mid x) by done.
  rewrite (IH (mid + 1)%nat e), (IH b mid); [done| |]; intros i y Hi; apply H; lia.
Qed.

Lemma binary_search_ext {A} (cmp cmp' : A -> A -> Z) (a : list A) elem b e :
  (forall i x, (b <= i < e)%nat -> a !! i = Some x -> cmp x elem = cmp' x elem) ->
  DX_ARRAY_BINARY_SEARCH cmp a b e elem = DX_ARRAY_BINARY_SEARCH cmp' a b e elem.
Proof. apply bs_loop_ext. Qed.

(** Keys in strict order are distinct, and a map made of a list with distinct
    keys splits at each of them. *)
Lemma sorted_nodup {A} (cmp : A -> A -> Z) `{!Comparator cmp} l : sorted_by cmp l -> NoDup l.
Proof.
  induction 1 as [|k l Hs IH Hall]; constructor; [|done].
  intros Hin. rewrite Forall_forall in Hall. specialize (Hall k Hin).
  unfold cmp_lt in Hall. rewrite cmp_refl in Hall. lia.
Qed.

Lemma list_to_map_middle {K V} `{Countable K} (l1 l2 : list (K * V)) k e :
  NoDup ((l1 ++ (k, e) :: l2).*1) ->
  list_to_map (l1 ++ (k, e) :: l2) = <[k := e]> (list_to_map (l1 ++ l2) : gmap K V) /\
  (list_to_map (l1 ++ l2) : gmap K V) !! k = None.
Proof.
  intros Hnd. split.
  - rewrite (list_to_map_proper _ ((k, e) :: l1 ++ l2)); [done|done|by rewrite Permutation_middle].
  - apply not_elem_of_list_to_map_1. rewrite fmap_app, fmap_cons in Hnd. rewrite fmap_app. simpl in Hnd.
    apply NoDup_app in Hnd as (_ & Hd & Hnd). apply NoDup_cons in Hnd as [Hk _].
    rewrite elem_of_app. intros [Hin|Hin]; [|done]. apply (Hd k Hin). by left.
Qed.

Section sorted_search.
Context {A : Type} (cmp : A -> A -> Z) `{!Comparator cmp}.

Lemma sorted_partitioned (l : list A) elem b e : sorted_by cmp l -> partitioned cmp l elem b e.
Proof.
  intros Hs i j x y Hb Hij He Hx Hy.
  pose proof (sorted_by_lookup cmp l i j x y Hs Hij Hx Hy) as Hxy. split; intros.
  - destruct (decide (cmp y elem = 0)); [by eapply cmp_lt_eq|].
    eapply cmp_trans; [done|lia].
  - apply cmp_gt; [done|]. destruct (decide (cmp x elem = 0)).
    + apply (cmp_eq_lt cmp elem x); [by apply cmp_zero_sym|done].
    + eapply cmp_trans; [|done]. apply cmp_gt; [done|lia].
Qed.

(** Searching a whole sorted array: the outcome splits it around the key. *)
Lemma sorted_search (l : list A) (buf : list A) elem :
  sorted_by cmp l -> take (length l) buf = l ->
  exists found idx,
    DX_ARRAY_BINARY_SEARCH cmp buf 0 (length l) elem = Some (found, idx) /\
    (idx <= length l)%nat /\
    if found
    then exists l1 x l2, l = l1 ++ x :: l2 /\ length l1 = idx /\ cmp x elem = 0
    else (forall y, y ∈ take idx l -> cmp y elem < 0) /\
         (forall y, y ∈ drop idx l -> cmp elem y < 0).
Proof.
  intros Hs Hbuf.
  assert (length l <= length buf)%nat.
  { rewrite <- Hbuf at 1. rewrite length_take. lia. }
  assert (forall i, (i < length l)%nat -> buf !! i = l !! i) as Hlk.
  { intros i Hi. rewrite <- Hbuf at 1. by rewrite lookup_take_lt. }
  destruct (binary_search_spec cmp buf elem 0 (length l)) as (f & i & -> & Hr); [lia| |].
  { intros i j x y Hi Hij Hj Hx Hy. rewrite Hlk in Hx, Hy by lia.
    by eapply (sorted_partitioned l elem 0 (length l)). }
  exists f, i. split; [done|]. destruct f.
  - destruct Hr as (Hi & x & Hx & Heq). split; [lia|].
    rewrite Hlk in Hx by lia.
    exists (take i l), x, (drop (S i) l).
    split_and!; [by rewrite take_drop_middle|rewrite length_take; lia|done].
  - destruct Hr as (Hi & Hlo & Hhi). split_and!; [lia| |].
    + intros y (j & Hj)%list_elem_of_lookup.
      apply lookup_take_Some in Hj as [Hj ?]. apply (Hlo j); [lia|]. by rewrite Hlk by lia.
    + intros y (j & Hj)%list_elem_of_lookup. rewrite lookup_drop in Hj.
      pose proof (lookup_lt_Some _ _ _ Hj).
      apply cmp_gt; [done|]. apply (Hhi (i + j)%nat); [lia|]. by rewrite Hlk by lia.
Qed.
End sorted_search.

(** ** Insertion and deletion *)

Lemma halfer_spec n c :
  let '(realloc, cap) := dx_capacity_manager_halfer n c in
  (n <= c + 1)%nat -> (n <= cap)%nat /\ (realloc = false -> cap = c).
Proof.
  unfold dx_capacity_manager_halfer.
  pose proof (Nat.div_mod_eq (c * 3) 2). pose proof (Nat.mod_upper_bound (c * 3) 2).
  repeat destruct_match; bool_to_prop; simplify_eq; lia.
Qed.

Lemma length_contents {A} (a : dx_array A) : array_wf a -> length (contents a) = arr_size a.
Proof. intros [? ?]. unfold contents. rewrite length_take. lia. Qed.

Lemma array_wf_empty {A} : array_wf (@DX_EMPTY_ARRAY A).
Proof. by split. Qed.

#[export] Hint Resolve array_wf_empty : dx.

(** Elements in use are read from the buffer. *)
Lemma contents_lookup {A} (a : dx_array A) i :
  (i < arr_size a)%nat -> contents a !! i = arr_elements a !! i.
Proof. intros H. unfold contents. by rewrite lookup_take_lt. Qed.

(** A binary search of the elements in use: where the element is, or where it
    has to be inserted. *)
Lemma array_search_spec {A} (cmp : A -> A -> Z) `{!Comparator cmp} (a : dx_array A) p :
  array_wf a -> sorted_by cmp (contents a) ->
  exists found l1 l2,
    DX_ARRAY_BINARY_SEARCH cmp (arr_elements a) 0 (arr_size a) p = Some (found, length l1) /\
    contents a = l1 ++ l2 /\
    (if found then exists q l3, l2 = q :: l3 /\ cmp q p = 0 else sorted_by cmp (l1 ++ p :: l2)).
Proof.
  intros Hwf Hs.
  destruct (sorted_search cmp (contents a) (arr_elements a) p Hs) as (found & idx & H1 & H2 & H3).
  { by rewrite length_contents. }
  rewrite length_contents in H1, H2 by done. destruct found.
  - destruct H3 as (l1 & q & l2 & E & <- & Hq). exists true, l1, (q :: l2). split_and!; [done|done|].
    by exists q, l2.
  - destruct H3 as [Hl Hr]. exists false, (take idx (contents a)), (drop idx (contents a)).
    assert (length (take idx (contents a)) = idx) as -> by (rewrite length_take, length_contents by done; lia).
    split_and!; [done|by rewrite take_drop|]. apply sorted_by_insert_middle; [|done|done].
    by rewrite take_drop.
Qed.

(** Replacing an element in use in place. *)
Lemma array_set_spec {A} (a : dx_array A) l1 x l2 y :
  array_wf a -> contents a = l1 ++ x :: l2 ->
  arr_elements a !! length l1 = Some x /\
  exists l, write_at (arr_elements a) (length l1) y = Some l /\
    array_wf (DxArray l (arr_size a) (arr_capacity a)) /\
    contents (DxArray l (arr_size a) (arr_capacity a)) = l1 ++ y :: l2.
Proof.
  intros Hwf E. pose proof (length_contents a Hwf) as Hlen. destruct Hwf as [Hsz Hl].
  rewrite E, length_app in Hlen. simpl in Hlen. split.
  - rewrite <- contents_lookup by lia. by rewrite E, list_lookup_middle.
  - rewrite write_at_in by lia. eexists. split; [done|]. split.
    + split; simpl; [done|]. by rewrite length_insert.
    + unfold contents in *. cbn [arr_size arr_elements]. rewrite take_insert_lt by lia.
      by rewrite E, insert_app_r_eq.
Qed.

Section update_spec.
Context {A : Type} (zero : A) (alloc : nat -> bool).

(** The buffer an operation writes to agrees with the old one below [p]. *)
Lemma realloc_prefix (a : dx_array A) (realloc : bool) cap p :
  array_wf a -> (p <= arr_size a)%nat -> (p <= cap)%nat ->
  (realloc = false -> cap = arr_capacity a) ->
  exists buf,
    (if realloc then blit (arr_elements a) 0 (replicate cap zero) 0 p
     else Some (arr_elements a)) = Some buf /\
    length buf = cap /\ take p buf = take p (arr_elements a).
Proof.
  intros [Hsz Hlen] Hp Hcap Hr. destruct realloc.
  - rewrite blit_in by (rewrite ?length_replicate; lia).
    eexists; split; [done|]. rewrite drop_0; simpl. split.
    + rewrite length_app, !length_take, ?length_drop, ?length_replicate. lia.
    + rewrite take_app_length'; [done|]. rewrite length_take. lia.
  - exists (arr_elements a). rewrite Hr by done. done.
Qed.

Lemma array_insert_spec (a : dx_array A) x p :
  array_wf a -> (p <= arr_size a)%nat -> (forall n, alloc n = true) ->
  exists a', DX_ARRAY_INSERT zero alloc a x p = Some (a', false) /\
    array_wf a' /\ contents a' = take p (contents a) ++ x :: drop p (contents a).
Proof.
  intros Hwf Hp Halloc. pose proof Hwf as [Hsz Hlen]. unfold DX_ARRAY_INSERT.
  pose proof (halfer_spec (arr_size a + 1) (arr_capacity a)) as Hh.
  destruct (dx_capacity_manager_halfer _ _) as [realloc cap].
  destruct Hh as [Hcap Hr]; [lia|]. rewrite Halloc, andb_false_r.
  destruct (realloc_prefix a realloc cap p) as (buf & -> & Hbl & Hbt); [done..|lia|lia|done|].
  cbn [mbind option_bind]. rewrite sub_size_le by done. cbn [mbind option_bind].
  rewrite blit_in by lia. cbn [mbind option_bind].
  assert (exists y, take (p + 1) buf = take p buf ++ [y]) as [y Hy].
  { destruct (lookup_lt_is_Some_2 buf p) as [y Hy]; [lia|]. exists y.
    rewrite Nat.add_1_r. by apply take_S_r. }
  rewrite Hy, Hbt, <- (app_assoc _ [y]); simpl.
  rewrite write_at_app by (rewrite length_take; lia). cbn [mbind option_bind].
  eexists; split; [done|]. unfold contents; cbn [arr_elements arr_size arr_capacity].
  split.
  - split; cbn [arr_elements arr_size arr_capacity]; [lia|].
    rewrite length_app, length_take; cbn [length].
    rewrite length_app, length_take, !length_drop. lia.
  - rewrite take_take, (Nat.min_l p) by done.
    rewrite take_app, length_take, (Nat.min_l p) by lia.
    rewrite take_take, (Nat.min_r _ p) by lia. f_equal.
    replace (S (arr_size a) - p)%nat with (S (arr_size a - p)) by lia. cbn [take].
    f_equal. rewrite take_app_length' by (rewrite length_take, length_drop; lia).
    by rewrite take_drop_commute, Nat.add_comm, Nat.sub_add by done.
Qed.

Lemma array_delete_spec (a : dx_array A) p :
  array_wf a -> (p < arr_size a)%nat -> (forall n, alloc n = true) ->
  exists a', DX_ARRAY_DELETE zero alloc a p = Some (a', false) /\
    array_wf a' /\ contents a' = take p (contents a) ++ drop (S p) (contents a).
Proof.
  intros Hwf Hp Halloc. pose proof Hwf as [Hsz Hlen]. unfold DX_ARRAY_DELETE.
  rewrite (sub_size_le _ 1) by lia. cbn [mbind option_bind].
  pose proof (halfer_spec (arr_size a - 1) (arr_capacity a)) as Hh.
  destruct (dx_capacity_manager_halfer _ _) as [realloc cap].
  destruct Hh as [Hcap Hr]; [lia|]. rewrite Halloc, andb_false_r.
  destruct (realloc_prefix a realloc cap p) as (buf & -> & Hbl & Hbt); [done|lia|lia|done|].
  cbn [mbind option_bind]. rewrite sub_size_le by lia. cbn [mbind option_bind].
  rewrite blit_in by lia. cbn [mbind option_bind].
  eexists; split; [done|]. unfold contents; cbn [arr_elements arr_size arr_capacity].
  split.
  - split; cbn [arr_elements arr_size arr_capacity]; [lia|].
    rewrite !length_app, !length_take, !length_drop. lia.
  - rewrite Hbt, take_take, (Nat.min_l p) by lia.
    rewrite take_app, length_take, (Nat.min_l p) by lia.
    rewrite take_take, (Nat.min_r _ p) by lia. f_equal.
    rewrite take_app_length' by (rewrite length_take, length_drop; lia).
    rewrite take_drop_commute. f_equal; [lia|]. f_equal. lia.
Qed.

Lemma array_reserve_spec (a : dx_array A) n :
  array_wf a -> (forall n, alloc n = true) ->
  exists a', DX_ARRAY_RESERVE zero alloc a n = Some (a', false) /\ array_wf a' /\
    arr_size a' = Nat.max n (arr_size a) /\
    take (arr_size a) (contents a') = contents a.
Proof.
  intros Hwf Halloc. pose proof Hwf as [Hsz Hlen]. unfold DX_ARRAY_RESERVE, contents.
  destruct (Nat.leb_spec n (arr_size a)).
  { exists a. split_and!; [done|done|lia|]. by rewrite take_take, Nat.min_id. }
  destruct (Nat.ltb_spec (arr_capacity a) n).
  - rewrite Halloc, blit_in by (rewrite ?length_replicate; lia). cbn [mbind option_bind].
    eexists; split; [done|]. unfold array_wf; cbn [arr_elements arr_size arr_capacity].
    rewrite drop_0, take_0, app_nil_l. split_and!; [lia| |lia|].
    + rewrite length_app, !length_take, ?length_drop, length_replicate. lia.
    + rewrite take_take, Nat.min_l by lia. rewrite take_app_length'; [done|].
      rewrite length_take. lia.
  - eexists; split; [done|]. unfold array_wf; cbn [arr_elements arr_size arr_capacity].
    split_and!; [lia|done|lia|]. by rewrite take_take, Nat.min_l by lia.
Qed.

(** Appending, the insertion at [size]. *)
Lemma array_append_spec (a : dx_array A) x :
  array_wf a -> (forall n, alloc n = true) ->
  exists a', DX_ARRAY_INSERT zero alloc a x (arr_size a) = Some (a', false) /\
    array_wf a' /\ contents a' = contents a ++ [x].
Proof.
  intros Hwf Halloc.
  destruct (array_insert_spec a x (arr_size a)) as (a' & H1 & H2 & H3); [done|lia|done|].
  exists a'. split_and!; [done|done|]. rewrite H3, <- (length_contents a Hwf).
  by rewrite firstn_all, drop_all.
Qed.
End update_spec.

(** ** Properties *)

Section properties.
Context {A : Type} (zero : A).

Lemma swap_permutation (l : list A) i j x y :
  l !! i = Some x -> l !! j = Some y -> <[j := x]> (<[i := y]> l) ≡ₚ l.
Proof.
  intros Hi Hj. pose proof (lookup_lt_Some _ _ _ Hi). pose proof (lookup_lt_Some _ _ _ Hj).
  destruct (decide (i = j)) as [->|Hne].
  { simplify_eq. by rewrite !list_insert_id by (rewrite ?list_insert_id by done; done). }
  apply Permutation_inj. rewrite !length_insert. split; [done|].
  exists (fun k => if decide (k = i) then j else if decide (k = j) then i else k).
  split.
  - intros k k'. repeat case_decide; congruence.
  - intros k. repeat case_decide; subst.
    + rewrite list_lookup_insert_ne by done. by rewrite list_lookup_insert_eq.
    + rewrite list_lookup_insert_eq by (by rewrite length_insert). done.
    + by rewrite !list_lookup_insert_ne by done.
Qed.

Lemma shuffle_loop_spec rand n (l : list A) :
  (n < length l)%nat -> (forall i, (0 < i)%nat -> (rand i <= i)%nat) ->
  exists l', shuffle_loop rand l n = Some l' /\ l' ≡ₚ l.
Proof.
  revert l. induction n as [|n IH]; intros l Hn Hr; cbn [shuffle_loop]; [by exists l|].
  pose proof (Hr (S n)).
  destruct (lookup_lt_is_Some_2 l (S n)) as [x Hx]; [lia|].
  destruct (lookup_lt_is_Some_2 l (rand (S n))) as [y Hy]; [lia|].
  rewrite Hx, Hy. cbn [mbind option_bind].
  rewrite write_at_in by lia. cbn [mbind option_bind].
  rewrite write_at_in by (rewrite length_insert; lia). cbn [mbind option_bind].
  destruct (IH (<[rand (S n) := x]> (<[S n := y]> l))) as (l' & -> & Hp);
    [rewrite !length_insert; lia|done|].
  exists l'. split; [done|]. rewrite Hp. by apply swap_permutation.
Qed.

(** On a well-formed array sorted by a comparator, the search for a key
    followed (when the key is absent) by the insertion at the index it
    reports yields a well-formed array that is still sorted and holds the
    old elements and the new one. *)
Lemma search_insert_sorted (cmp : A -> A -> Z) `{!Comparator cmp}
  (alloc : nat -> bool) (a : dx_array A) (x : A) :
  array_wf a -> sorted_by cmp (contents a) -> (forall n, alloc n = true) ->
  exists found idx,
    DX_ARRAY_BINARY_SEARCH cmp (arr_elements a) 0 (arr_size a) x = Some (found, idx) /\
    (found = true <-> exists y, y ∈ contents a /\ cmp y x = 0) /\
    (found = false ->
     exists a', DX_ARRAY_INSERT zero alloc a x idx = Some (a', false) /\
       array_wf a' /\ sorted_by cmp (contents a') /\ contents a' ≡ₚ x :: contents a).
Proof.
  intros Hwf Hs Halloc. rewrite <- (length_contents a Hwf).
  destruct (sorted_search cmp (contents a) (arr_elements a) x) as (f & i & -> & Hi & Hr);
    [done|by rewrite (length_contents a Hwf)|].
  exists f, i. split; [done|]. split.
  - destruct f.
    + destruct Hr as (l1 & y & l2 & -> & _ & Hy). split; [|done].
      intros _. exists y. split; [set_solver|done].
    + destruct Hr as [Hlo Hhi]. split; [done|]. intros (y & Hy & Heq).
      rewrite <- (take_drop i (contents a)) in Hy. apply elem_of_app in Hy as [Hy|Hy].
      * specialize (Hlo y Hy). lia.
      * specialize (Hhi y Hy). apply cmp_zero_sym in Heq; [lia|done].
  - intros ->. destruct Hr as [Hlo Hhi]. rewrite (length_contents a Hwf) in Hi.
    destruct (array_insert_spec zero alloc a x i) as (a' & -> & Hwf' & Hc); [done..|].
    exists a'. split_and!; [done|done| |].
    + rewrite Hc. apply sorted_by_insert_middle; [by rewrite take_drop|done|done].
    + rewrite Hc, <- Permutation_middle, take_drop. done.
Qed.

(** Deleting the index a search reports removes exactly that element and
    keeps the array well-formed and sorted. *)
Lemma search_delete_sorted (cmp : A -> A -> Z) `{!Comparator cmp}
  (alloc : nat -> bool) (a : dx_array A) (x : A) (idx : nat) :
  array_wf a -> sorted_by cmp (contents a) -> (forall n, alloc n = true) ->
  DX_ARRAY_BINARY_SEARCH cmp (arr_elements a) 0 (arr_size a) x = Some (true, idx) ->
  exists a' y, DX_ARRAY_DELETE zero alloc a idx = Some (a', false) /\
    array_wf a' /\ sorted_by cmp (contents a') /\ cmp y x = 0 /\
    contents a ≡ₚ y :: contents a' /\ (forall z, z ∈ contents a' -> cmp z x <> 0).
Proof.
  intros Hwf Hs Halloc. rewrite <- (length_contents a Hwf). intros Hsearch.
  destruct (sorted_search cmp (contents a) (arr_elements a) x) as (f & i & Hf & Hi & Hr);
    [done|by rewrite (length_contents a Hwf)|].
  rewrite Hf in Hsearch. simplify_eq.
  destruct Hr as (l1 & y & l2 & Hl & <- & Hy).
  assert (length l1 < arr_size a)%nat.
  { rewrite <- (length_contents a Hwf), Hl, length_app. simpl. lia. }
  destruct (array_delete_spec zero alloc a (length l1)) as (a' & -> & Hwf' & Hc); [done..|].
  assert (contents a' = l1 ++ l2) as Hc'.
  { rewrite Hc, Hl, take_app_length, drop_app, drop_ge by lia.
    by replace (S (length l1) - length l1)%nat with 1%nat by lia. }
  rewrite Hl in Hs.
  exists a', y. split_and!; [done|done| |done|by rewrite Hl, Hc', <- Permutation_middle|].
  - rewrite Hc'. by eapply sorted_by_delete_middle.
  - intros z Hz Hzx. rewrite Hc' in Hz. apply sorted_by_app in Hs as (_ & Hs2 & Hs3).
    assert (cmp z y = 0) as Hzy.
    { apply (cmp_eq_trans cmp z x y Hzx), (cmp_zero_sym cmp y x Hy). }
    apply elem_of_app in Hz as [Hz|Hz].
    + specialize (Hs3 z y Hz ltac:(left)). lia.
    + inversion_clear Hs2 as [|? ? _ Hall]. rewrite Forall_forall in Hall.
      specialize (Hall z Hz). unfold cmp_lt in Hall. apply cmp_zero_sym in Hzy; [lia|done].
Qed.

(** When the buffer is full and [dx_calloc] fails, the insertion reports
    the error and keeps the elements, but it has already raised [capacity]:
    every later insertion, even with memory available again, writes past the
    end of the buffer. *)
Theorem insert_failed_alloc_corrupts (alloc alloc' : nat -> bool) (a : dx_array A) x y p q :
  array_wf a -> arr_size a = arr_capacity a -> (forall n, alloc n = false) ->
  (q <= arr_size a)%nat ->
  exists a', DX_ARRAY_INSERT zero alloc a x p = Some (a', true) /\
    contents a' = contents a /\ DX_ARRAY_INSERT zero alloc' a' y q = None.
Proof.
  intros [Hsz Hlen] Hfull Halloc Hq. unfold DX_ARRAY_INSERT at 1.
  unfold dx_capacity_manager_halfer. decide_cmps. rewrite Halloc. cbn [negb].
  eexists; split; [done|]. split; [done|]. unfold DX_ARRAY_INSERT, dx_capacity_manager_halfer.
  cbn [arr_elements arr_size arr_capacity].
  pose proof (Nat.div_mod_eq (arr_capacity a * 3) 2).
  pose proof (Nat.mod_upper_bound (arr_capacity a * 3) 2).
  decide_cmps. cbn [mbind option_bind]. rewrite sub_size_le by lia. cbn [mbind option_bind].
  unfold blit. rewrite Hlen. decide_cmps. by rewrite ?andb_false_r.
Qed.

(** Shuffling a non-empty array permutes it, whatever random indices in
    range the generator returns. *)
Theorem shuffle_permutes (rand : nat -> nat) (l : list A) :
  l <> [] -> (forall i, (0 < i)%nat -> (rand i <= i)%nat) ->
  exists l', DX_ARRAY_SHUFFLE rand l = Some l' /\ l' ≡ₚ l.
Proof.
  intros Hl Hr. unfold DX_ARRAY_SHUFFLE.
  assert (0 < length l)%nat by (destruct l; [done|simpl; lia]).
  rewrite sub_size_le by lia. cbn [mbind option_bind].
  apply shuffle_loop_spec; [lia|done].
Qed.
End properties.

(** A full array. *)
Definition array_full : dx_array Z := DxArray [1; 3; 5] 3 3.

Example insert_failed_alloc_corrupts_full :
  exists a', DX_ARRAY_INSERT 0 (fun _ => false) array_full 4 3 = Some (a', true) /\
    contents a' = contents array_full /\ DX_ARRAY_INSERT 0 (fun _ => true) a' 4 3 = None.
Proof.
  apply (insert_failed_alloc_corrupts 0 (fun _ => false) (fun _ => true) array_full 4 4 3 3);
    [split; [simpl; lia|done]|done|done|simpl; lia].
Defined.

Example shuffle_permutes_three :
  exists l', DX_ARRAY_SHUFFLE (fun _ => 0%nat) [1; 2; 3] = Some l' /\ l' ≡ₚ [1; 2; 3].
Proof. apply (shuffle_permutes (fun _ => 0%nat) [1; 2; 3]); [done|lia]. Defined.
