(* ===== verification/Algorithms.v ===== *)
(** * Algorithms: the scalar and string functions of [src/DXAlgorithms.c]

    Bit tests, time splitting, timestamp differences, the decoding of strings
    packed into integers, and the Base64 codec. *)

From Stdlib Require Import Ascii String.
From S2P Require Import Prelude.
Local Open Scope list_scope.
Local Open Scope Z_scope.

(** ** Bits and time *)

Definition dx_is_only_single_bit_set (value : Z) : bool :=
  negb (value =? 0) && (Z.land value (i32 (value - 1)) =? 0).

Definition DX_TIME_SECOND : Z := 1000.

(** C's [/] and [%] truncate: [Z.quot] and [Z.rem]. *)
Definition dx_get_seconds_from_time (millis : Z) : Z :=
  if 0 <=? millis then i32 (Z.min (Z.quot millis DX_TIME_SECOND) INT_MAX)
  else i32 (Z.max (Z.quot (millis + 1) DX_TIME_SECOND - 1) INT_MIN).

Definition dx_get_millis_from_time (millis : Z) : Z :=
  let r := i32 (Z.rem millis DX_TIME_SECOND) in
  if 0 <=? r then r else r + i32 DX_TIME_SECOND.

(** The POSIX branch; [tv_nsec] is read by no expression of the function. *)
Definition dx_millisecond_timestamp (tv_sec tv_nsec : Z) : Z :=
  i32 (tv_sec * 1000 + Z.quot tv_sec 1000000).

Definition dx_millisecond_timestamp_diff (newer older : Z) : Z :=
  let res := if u32 newer <? u32 older then UINT_MAX else 0 in
  i32 (res + u32 newer - u32 older).

(** ** Strings packed into integers *)

(** The loop of [dx_decode_from_integer]: eight shifts empty the integer, so
    the fuel 8 is enough; the result is the filled part of [decoded]. *)
Fixpoint decode_loop (fuel : nat) (code : Z) : list Z :=
  match fuel with
  | O => []
  | S fuel' =>
      if code =? 0 then []
      else
        let c := i32 (Z.shiftr code 56) in
        let rest := decode_loop fuel' (i64 (Z.shiftl code 8)) in
        if c =? 0 then rest else c :: rest
  end.
Definition dx_decode_from_integer (code : Z) : list Z := decode_loop 8 code.

(** ** Base64 *)

Definition chars_of (s : String.string) : list Z :=
  map (fun c => Z.of_N (N_of_ascii c)) (list_ascii_of_string s).

Definition base64chars : list Z :=
  chars_of "ABCDEFGHIJKLMNOPQRSTUVWXYZabcdefghijklmnopqrstuvwxyz0123456789+/"%string.

(** [out[resultIndex++] = c] with the check that precedes it. *)
Definition emit (out_len : nat) (c : Z) (out : list Z) : option (list Z) :=
  if (out_len <=? length out)%nat then None else Some (out ++ [c]).

Definition base64_char (n : Z) : Z := default 0 (base64chars !! Z.to_nat n).

(** The main loop; [data] holds bytes 0..255, [x] is the input index. *)
Fixpoint encode_loop (fuel : nat) (data : list Z) (x out_len : nat) (out : list Z)
  : option (list Z) :=
  match fuel with
  | O => Some out
  | S fuel' =>
      match data !! x with
      | None => Some out
      | Some b0 =>
          let n := Z.shiftl b0 16 in
          let n := match data !! (x + 1)%nat with
                   | Some b1 => n + Z.shiftl b1 8 | None => n end in
          let n := match data !! (x + 2)%nat with
                   | Some b2 => n + b2 | None => n end in
          let n0 := Z.land (u8 (Z.shiftr n 18)) 63 in
          let n1 := Z.land (u8 (Z.shiftr n 12)) 63 in
          let n2 := Z.land (u8 (Z.shiftr n 6)) 63 in
          let n3 := Z.land (u8 n) 63 in
          out ← emit out_len (base64_char n0) out;
          out ← emit out_len (base64_char n1) out;
          out ← (if (x + 1 <? length data)%nat
                 then emit out_len (base64_char n2) out else Some out);
          out ← (if (x + 2 <? length data)%nat
                 then emit out_len (base64_char n3) out else Some out);
          encode_loop fuel' data (x + 3)%nat out_len out
      end
  end.

Fixpoint pad_loop (n out_len : nat) (out : list Z) : option (list Z) :=
  match n with
  | O => Some out
  | S n' => out ← emit out_len 61 out; pad_loop n' out_len out
  end.

(** [None] is the return value [false] (buffer too small). *)
Definition dx_base64_encode (data : list Z) (out_len : nat) : option (list Z) :=
  out ← encode_loop (length data) data 0 out_len [];
  let padCount := (length data mod 3)%nat in
  if (0 <? padCount)%nat then pad_loop (3 - padCount) out_len out else Some out.

Definition WHITESPACE : Z := 64.
Definition EQUALS : Z := 65.
Definition INVALID : Z := 66.

(** The decoding table [d]. *)
Definition base64_d : list Z := [
  66;66;66;66;66;66;66;66;66;66;64;66;66;66;66;66;66;66;66;66;66;66;66;66;66;
  66;66;66;66;66;66;66;66;66;66;66;66;66;66;66;66;66;66;62;66;66;66;63;52;53;
  54;55;56;57;58;59;60;61;66;66;66;65;66;66;66; 0; 1; 2; 3; 4; 5; 6; 7; 8; 9;
  10;11;12;13;14;15;16;17;18;19;20;21;22;23;24;25;66;66;66;66;66;66;26;27;28;
  29;30;31;32;33;34;35;36;37;38;39;40;41;42;43;44;45;46;47;48;49;50;51;66;66;
  66;66;66;66;66;66;66;66;66;66;66;66;66;66;66;66;66;66;66;66;66;66;66;66;66;
  66;66;66;66;66;66;66;66;66;66;66;66;66;66;66;66;66;66;66;66;66;66;66;66;66;
  66;66;66;66;66;66;66;66;66;66;66;66;66;66;66;66;66;66;66;66;66;66;66;66;66;
  66;66;66;66;66;66;66;66;66;66;66;66;66;66;66;66;66;66;66;66;66;66;66;66;66;
  66;66;66;66;66;66;66;66;66;66;66;66;66;66;66;66;66;66;66;66;66;66;66;66;66;
  66;66;66;66;66;66].

(** The [while] loop: the result is [(iter, buf, out)]. *)
Fixpoint decode64_loop (inp : list Z) (iter buf : Z) (out_len : nat) (out : list Z)
  : option (Z * Z * list Z) :=
  match inp with
  | [] => Some (iter, buf, out)
  | ch :: inp' =>
      c ← base64_d !! Z.to_nat (u8 ch);
      if c =? WHITESPACE then decode64_loop inp' iter buf out_len out
      else if c =? INVALID then None
      else if c =? EQUALS then Some (iter, buf, out)
      else
        let buf := u32 (Z.lor (Z.shiftl buf 6) c) in
        let iter := iter + 1 in
        if iter =? 4 then
          if (out_len <? length out + 3)%nat then None
          else decode64_loop inp' 0 0 out_len
                 (out ++ [Z.land (Z.shiftr buf 16) 255; Z.land (Z.shiftr buf 8) 255;
                          Z.land buf 255])
        else decode64_loop inp' iter buf out_len out
  end.

Definition dx_base64_decode (inp : list Z) (out_len : nat) : option (list Z) :=
  '(iter, buf, out) ← decode64_loop inp 0 0 out_len [];
  if iter =? 3 then
    if (out_len <? length out + 2)%nat then None
    else Some (out ++ [Z.land (Z.shiftr buf 10) 255; Z.land (Z.shiftr buf 2) 255])
  else if iter =? 2 then
    if (out_len <? length out + 1)%nat then None
    else Some (out ++ [Z.land (Z.shiftr buf 4) 255])
  else Some out.

Definition dx_base64_length (in_len : Z) : Z :=
  Z.land (u64 (Z.div (u64 (4 * in_len)) 3 + 3)) (Z.lnot 3).

(** ** The Base64 encoder equals its textbook specification *)

(** The four sextets of a 24-bit group. *)
Definition sextet (n : Z) (i : Z) : Z := base64_char ((n / 2 ^ (6 * (3 - i))) mod 64).
Definition group24 (b0 b1 b2 : Z) : Z := b0 * 65536 + b1 * 256 + b2.

(** RFC 4648 without the padding. *)
Fixpoint base64_spec (data : list Z) : list Z :=
  match data with
  | b0 :: b1 :: b2 :: rest =>
      let n := group24 b0 b1 b2 in
      sextet n 0 :: sextet n 1 :: sextet n 2 :: sextet n 3 :: base64_spec rest
  | [b0; b1] => let n := group24 b0 b1 0 in [sextet n 0; sextet n 1; sextet n 2]
  | [b0] => let n := group24 b0 0 0 in [sextet n 0; sextet n 1]
  | [] => []
  end.

Definition base64_padding (n : nat) : list Z :=
  if (0 <? n mod 3)%nat then replicate (3 - n mod 3) 61 else [].

Definition bytes (data : list Z) : Prop := Forall (fun b => 0 <= b < 256) data.

(** Induction on a list three elements at a time. *)
Lemma list_ind3 {A} (P : list A -> Prop) :
  P [] -> (forall a, P [a]) -> (forall a b, P [a; b]) ->
  (forall a b c l, P l -> P (a :: b :: c :: l)) -> forall l, P l.
Proof.
  intros H0 H1 H2 H3. fix IH 1. intros [|a [|b [|c l]]].
  - exact H0.
  - exact (H1 a).
  - exact (H2 a b).
  - exact (H3 a b c l (IH l)).
Qed.

Fixpoint emit_all (out_len : nat) (s out : list Z) : option (list Z) :=
  match s with
  | [] => Some out
  | c :: s' => out ← emit out_len c out; emit_all out_len s' out
  end.

Lemma emit_all_app out_len s1 s2 out :
  emit_all out_len (s1 ++ s2) out = (out ← emit_all out_len s1 out; emit_all out_len s2 out).
Proof.
  revert out. induction s1 as [|c s1 IH]; intros out; [done|]. simpl.
  destruct (emit out_len c out); simpl; [apply IH|done].
Qed.

Lemma emit_all_closed out_len s out :
  (length out <= out_len)%nat ->
  emit_all out_len s out =
    if (length out + length s <=? out_len)%nat then Some (out ++ s) else None.
Proof.
  revert out. induction s as [|c s IH]; intros out Hout; simpl.
  { rewrite app_nil_r. decide_cmps. done. }
  unfold emit. destruct (Nat.leb_spec out_len (length out)); simpl.
  - decide_cmps. done.
  - rewrite IH by (rewrite length_app; simpl; lia). rewrite length_app, <- app_assoc. simpl.
    replace (length out + 1 + length s)%nat with (length out + S (length s))%nat by lia. done.
Qed.

Lemma pad_loop_emit n out_len out :
  pad_loop n out_len out = emit_all out_len (replicate n 61) out.
Proof.
  revert out. induction n as [|n IH]; intros out; [done|]. simpl.
  destruct (emit out_len 61 out); [apply IH|done].
Qed.

Lemma lookup_drop_head {A} (data : list A) x l i :
  drop x data = l -> data !! (x + i)%nat = l !! i.
Proof. intros <-. by rewrite lookup_drop. Qed.

Lemma land_63 z : Z.land z 63 = z mod 64.
Proof. change 63 with (Z.ones 6). by rewrite Z.land_ones. Qed.

Lemma sextet_bits n i k :
  0 <= n -> 6 * (3 - i) = k -> 0 <= k ->
  base64_char (Z.land (u8 (Z.shiftr n k)) 63) = sextet n i.
Proof.
  intros Hn <- Hk. unfold sextet. f_equal. rewrite land_63, shr_div by lia. intlia.
Qed.

Lemma encode_loop_spec fuel data x out_len out :
  bytes data -> (length data <= x + fuel)%nat ->
  encode_loop fuel data x out_len out = emit_all out_len (base64_spec (drop x data)) out.
Proof.
  intros Hb. revert x out. induction fuel as [|fuel IH]; intros x out Hx.
  { by rewrite drop_ge by lia. }
  cbn [encode_loop]. destruct (drop x data) as [|b0 l] eqn:Hd.
  { pose proof (lookup_drop_head data x [] 0 Hd) as H. rewrite Nat.add_0_r in H.
    simpl in H. by rewrite H. }
  assert (length data = x + S (length l))%nat as Hlen.
  { apply (f_equal length) in Hd. rewrite length_drop in Hd. simpl in Hd. lia. }
  assert (bytes (drop x data)) as Hbd by (by apply Forall_drop).
  rewrite Hd in Hbd.
  pose proof (lookup_drop_head data x _ 0 Hd) as H0. rewrite Nat.add_0_r in H0.
  pose proof (lookup_drop_head data x _ 1 Hd) as H1.
  pose proof (lookup_drop_head data x _ 2 Hd) as H2. simpl in H0.
  assert (drop (x + 3) data = drop 2 l) as Hd3 by (by rewrite <- drop_drop, Hd).
  rewrite H0, H1, H2, Hlen. cbn [lookup list_lookup].
  destruct l as [|b1 [|b2 l]]; cbn [lookup list_lookup length base64_spec] in *;
    decide_cmps; cbn [emit_all]; unfold bytes in Hbd; rewrite ?Forall_cons in Hbd;
    destruct_and? Hbd; rewrite ?shl_mul by lia;
    change (2 ^ 16) with 65536; change (2 ^ 8) with 256.
  - rewrite (sextet_bits _ 0 18), (sextet_bits _ 1 12) by lia.
    unfold group24. rewrite !Z.mul_0_l, !Z.add_0_r.
    do 2 (destruct (emit _ _ _); [|done]; cbn [mbind option_bind]).
    by rewrite IH, Hd3 by (simpl in *; lia).
  - rewrite (sextet_bits _ 0 18), (sextet_bits _ 1 12), (sextet_bits _ 2 6) by lia.
    unfold group24. rewrite !Z.add_0_r.
    do 3 (destruct (emit _ _ _); [|done]; cbn [mbind option_bind]).
    by rewrite IH, Hd3 by (simpl in *; lia).
  - rewrite (sextet_bits _ 0 18), (sextet_bits _ 1 12), (sextet_bits _ 2 6) by lia.
    pose proof (sextet_bits (b0 * 65536 + b1 * 256 + b2) 3 0) as E3.
    rewrite Z.shiftr_0_r in E3. rewrite E3 by lia.
    change (group24 b0 b1 b2) with (b0 * 65536 + b1 * 256 + b2).
    do 4 (destruct (emit _ _ _); [|done]; cbn [mbind option_bind]).
    by rewrite IH, Hd3 by (simpl in *; lia).
Qed.

Lemma length_base64_spec data :
  length (base64_spec data ++ base64_padding (length data)) = (4 * ((length data + 2) / 3))%nat.
Proof.
  unfold base64_padding. induction data as [|a|a b|a b c l IH] using list_ind3; [done..|].
  cbn [base64_spec length app]. cbn [length] in IH.
  replace (S (S (S (length l)))) with (length l + 1 * 3)%nat by lia.
  rewrite Nat.Div0.mod_add, IH.
  replace (length l + 1 * 3 + 2)%nat with (length l + 2 + 1 * 3)%nat by lia.
  rewrite Nat.div_add by lia. lia.
Qed.

Lemma base64_encode_closed data out_len :
  bytes data ->
  dx_base64_encode data out_len =
    if (4 * ((length data + 2) / 3) <=? out_len)%nat
    then Some (base64_spec data ++ base64_padding (length data)) else None.
Proof.
  intros Hb. unfold dx_base64_encode. rewrite encode_loop_spec by (done || lia).
  rewrite drop_0, <- length_base64_spec.
  transitivity (emit_all out_len (base64_spec data ++ base64_padding (length data)) []).
  - rewrite emit_all_app. destruct (emit_all out_len (base64_spec data) []); [|done].
    cbn [mbind option_bind]. unfold base64_padding. destruct (0 <? length data mod 3)%nat; [|done].
    apply pad_loop_emit.
  - rewrite emit_all_closed by (simpl; lia). done.
Qed.

(** ** Decoding *)

Lemma base64_d_char n :
  0 <= n < 64 -> base64_d !! Z.to_nat (u8 (base64_char n)) = Some n.
Proof.
  intros Hn.
  assert (Forall (fun n => base64_d !! Z.to_nat (u8 (base64_char n)) = Some n)
            (map Z.of_nat (seq 0 64))) as Hall.
  { by_compute. }
  rewrite Forall_forall in Hall. apply Hall, list_elem_of_In, in_map_iff.
  exists (Z.to_nat n). split; [lia|]. apply in_seq. lia.
Qed.

Lemma decode64_char n inp iter buf out_len out :
  0 <= n < 64 -> 0 <= buf < 2 ^ 26 ->
  decode64_loop (base64_char n :: inp) iter buf out_len out =
    let buf' := buf * 64 + n in
    if iter + 1 =? 4 then
      if (out_len <? length out + 3)%nat then None
      else decode64_loop inp 0 0 out_len
             (out ++ [buf' / 65536 mod 256; buf' / 256 mod 256; buf' mod 256])
    else decode64_loop inp (iter + 1) buf' out_len out.
Proof.
  intros Hn Hbuf. cbn [decode64_loop]. rewrite base64_d_char by done.
  cbn [mbind option_bind]. unfold WHITESPACE, INVALID, EQUALS. decide_cmps.
  rewrite shl_mul by lia. rewrite (lor_add _ _ 6) by lia.
  rewrite u32_id by (unfold is_u32; lia).
  rewrite !land_255, !shr_div by lia. done.
Qed.

Lemma decode64_pad inp iter buf out_len out :
  decode64_loop (61 :: inp) iter buf out_len out = Some (iter, buf, out).
Proof. reflexivity. Qed.

Lemma sextet_lt n i : 0 <= (n / 2 ^ (6 * (3 - i))) mod 64 < 64.
Proof. apply Z.mod_pos_bound. lia. Qed.

Lemma decode64_spec data out_len out :
  bytes data -> (length out + length data <= out_len)%nat ->
  (inp ← decode64_loop (base64_spec data ++ base64_padding (length data)) 0 0 out_len out;
   let '(iter, buf, o) := inp in
   if iter =? 3 then
     if (out_len <? length o + 2)%nat then None
     else Some (o ++ [Z.land (Z.shiftr buf 10) 255; Z.land (Z.shiftr buf 2) 255])
   else if iter =? 2 then
     if (out_len <? length o + 1)%nat then None
     else Some (o ++ [Z.land (Z.shiftr buf 4) 255])
   else Some o) = Some (out ++ data).
Proof.
  revert out. unfold base64_padding.
  induction data as [|a|a b|a b c l IH] using list_ind3; intros out Hb Hlen;
    unfold bytes in Hb; rewrite ?Forall_cons in Hb; destruct_and? Hb;
    cbn [base64_spec length app] in *; unfold sextet.
  - by rewrite app_nil_r.
  - change (if (0 <? 1 mod 3)%nat then replicate (3 - 1 mod 3) 61 else []) with [61; 61].
    rewrite decode64_char by (apply sextet_lt || lia). cbn zeta. decide_cmps.
    rewrite decode64_char by (apply sextet_lt || (unfold group24; simpl; zlia)).
    cbn zeta. decide_cmps.
    rewrite decode64_pad. cbn [mbind option_bind]. decide_cmps.
    rewrite land_255, shr_div by lia. f_equal. f_equal. f_equal. unfold group24. simpl. zlia.
  - change (if (0 <? 2 mod 3)%nat then replicate (3 - 2 mod 3) 61 else []) with [61].
    rewrite decode64_char by (apply sextet_lt || lia). cbn zeta. decide_cmps.
    rewrite decode64_char by (apply sextet_lt || (unfold group24; simpl; zlia)).
    cbn zeta. decide_cmps.
    rewrite decode64_char by (apply sextet_lt || (unfold group24; simpl; zlia)).
    cbn zeta. decide_cmps.
    rewrite decode64_pad. cbn [mbind option_bind]. decide_cmps.
    rewrite !land_255, !shr_div by lia. f_equal. f_equal.
    unfold group24. f_equal; [|f_equal]; simpl; zlia.
  - do 3 (rewrite decode64_char by (apply sextet_lt || (unfold group24; simpl; zlia));
      cbn zeta; decide_cmps).
    rewrite decode64_char by (apply sextet_lt || (unfold group24; simpl; zlia)).
    cbn zeta. decide_cmps.
    replace (S (S (S (length l))) mod 3)%nat with (length l mod 3)%nat
      by (replace (S (S (S (length l)))) with (length l + 1 * 3)%nat by lia;
          by rewrite Nat.Div0.mod_add).
    rewrite IH by (done || (rewrite length_app; simpl; lia)).
    rewrite <- app_assoc. simpl. f_equal. f_equal.
    unfold group24. f_equal; [|f_equal; [|f_equal]]; simpl; zlia.
Qed.

Lemma dx_base64_length_eq n :
  0 <= n -> 4 * n + 3 < 2 ^ 64 -> dx_base64_length n = 4 * ((n + 2) / 3).
Proof.
  intros Hn Hm. unfold dx_base64_length. rewrite (u64_id (4 * n)) by intlia.
  rewrite u64_id by intlia.
  change (Z.lnot 3) with (Z.lnot (Z.ones 2)). rewrite <- Z.ldiff_land.
  rewrite Z.ldiff_ones_r, shr_div, shl_mul by lia. change (2 ^ 2) with 4. zlia.
Qed.

(** ** Properties *)

(** Base64 round trip: encoding any byte string into a buffer of
    [dx_base64_length] characters succeeds, and decoding the result into a
    buffer of at least the original length gives the original bytes back. *)
Theorem base64_roundtrip (data : list Z) (out_len dec_len : nat) :
  bytes data -> Z.of_nat (length data) < 2 ^ 61 ->
  dx_base64_length (Z.of_nat (length data)) <= Z.of_nat out_len ->
  (length data <= dec_len)%nat ->
  exists s, dx_base64_encode data out_len = Some s /\
    Z.of_nat (length s) = dx_base64_length (Z.of_nat (length data)) /\
    dx_base64_decode s dec_len = Some data.
Proof.
  intros Hb Hn Ho Hd. rewrite dx_base64_length_eq in * by lia.
  rewrite base64_encode_closed by done. rewrite (proj2 (Nat.leb_le _ _)) by zlia.
  eexists; split; [done|]. split; [rewrite length_base64_spec; zlia|].
  exact (decode64_spec data dec_len [] Hb Hd).
Qed.

Lemma base64_roundtrip_witness :
  exists s, dx_base64_encode [104; 101; 108; 108; 111] 8 = Some s /\
    Z.of_nat (length s) = dx_base64_length 5 /\
    dx_base64_decode s 5 = Some [104; 101; 108; 108; 111].
Proof.
  apply (base64_roundtrip [104; 101; 108; 108; 111] 8 5);
    [unfold bytes; by_compute|by_compute|by_compute|by_compute].
Defined.

(** The encoder succeeds exactly when the output buffer has
    [dx_base64_length] characters, and then produces the RFC 4648 text. *)
Theorem base64_encode_correct (data : list Z) (out_len : nat) :
  bytes data -> Z.of_nat (length data) < 2 ^ 61 ->
  dx_base64_encode data out_len =
    if dx_base64_length (Z.of_nat (length data)) <=? Z.of_nat out_len
    then Some (base64_spec data ++ base64_padding (length data)) else None.
Proof.
  intros Hb Hn. rewrite base64_encode_closed, dx_base64_length_eq by (done || lia).
  repeat destruct_match; bool_to_prop; done || zlia.
Qed.

Lemma base64_encode_correct_witness : dx_base64_encode [77; 97; 110] 3 = None.
Proof.
  rewrite (base64_encode_correct [77; 97; 110] 3);
    [reflexivity|unfold bytes; by_compute|by_compute].
Defined.

(** The seconds are the quotient rounded down, between the bounds of an [int],
    and the milliseconds its remainder. *)
Lemma seconds_millis_spec (t : Z) :
  is_i64 t ->
  dx_get_seconds_from_time t = Z.max INT_MIN (Z.min (t / 1000) INT_MAX) /\
  dx_get_millis_from_time t = t mod 1000.
Proof.
  intros Ht. unfold dx_get_millis_from_time, dx_get_seconds_from_time, DX_TIME_SECOND.
  assert (-1000 < Z.rem t 1000 < 1000 /\ t = 1000 * Z.quot t 1000 + Z.rem t 1000 /\
    (0 <= t -> 0 <= Z.rem t 1000) /\ (t < 0 -> Z.rem t 1000 <= 0)) as (H1 & H2 & H3 & H4).
  { pose proof (Z.quot_rem' t 1000). pose proof (Z.rem_bound_abs t 1000).
    pose proof (Z.rem_nonneg t 1000). pose proof (Z.rem_nonpos t 1000). lia. }
  rewrite (i32_id (Z.rem t 1000)), (i32_id 1000) by (unfold is_i32; lia).
  assert (t < 0 -> Z.quot (t + 1) 1000 - 1 = t / 1000) as Hneg.
  { intros. rewrite <- (Z.opp_involutive (t + 1)), Z.quot_opp_l, Z.quot_div_nonneg by lia. zlia. }
  assert (0 <= t -> Z.quot t 1000 = t / 1000) as Hpos.
  { intros. by rewrite Z.quot_div_nonneg by lia. }
  split.
  - destruct (Z.leb_spec 0 t).
    + rewrite Hpos in * by lia. rewrite i32_id by intlia. intlia.
    + rewrite Hneg by lia. rewrite i32_id by intlia. intlia.
  - destruct (Z.leb_spec 0 (Z.rem t 1000)); zlia.
Qed.

(** The seconds and the milliseconds of a time recompose it, the
    milliseconds being in 0..999, as long as the seconds fit an [int]; outside
    that range the seconds saturate and the recomposition fails. *)
Theorem seconds_millis_recompose (t : Z) :
  is_i64 t ->
  0 <= dx_get_millis_from_time t <= 999 /\
  (dx_get_seconds_from_time t * 1000 + dx_get_millis_from_time t = t <->
   is_i32 (t / 1000)).
Proof. intros Ht. destruct (seconds_millis_spec t Ht) as [-> ->]. intlia. Qed.

Lemma seconds_millis_recompose_witness :
  dx_get_seconds_from_time (-1) * 1000 + dx_get_millis_from_time (-1) = -1.
Proof. apply (seconds_millis_recompose (-1)); unfold is_i64, is_i32; by_compute. Defined.

(** The difference of two millisecond timestamps is the distance modulo
    2^32 while the counter does not wrap between them, and one less than that
    distance when it does. *)
Theorem timestamp_diff_wraps (newer older : Z) :
  is_i32 newer -> is_i32 older ->
  dx_millisecond_timestamp_diff newer older =
    i32 (newer - older - (if u32 newer <? u32 older then 1 else 0)).
Proof.
  intros Hn Ho. unfold dx_millisecond_timestamp_diff.
  destruct (u32 newer <? u32 older) eqn:E; bool_to_prop; intlia.
Qed.

Lemma timestamp_diff_wraps_witness : dx_millisecond_timestamp_diff 0 (-1) = 0.
Proof. rewrite (timestamp_diff_wraps 0 (-1)); [reflexivity|unfold is_i32; lia..]. Defined.

(** The eight bytes of a 64-bit integer, most significant first, sign-extended. *)
Definition signed_bytes (code : Z) : list Z :=
  map (fun k => i8 (code / 2 ^ (56 - 8 * k))) [0; 1; 2; 3; 4; 5; 6; 7].

Fixpoint top_bytes (n : nat) (code : Z) : list Z :=
  match n with
  | O => []
  | S n' => i8 (code / 2 ^ 56) :: top_bytes n' (i64 (code * 256))
  end.

Lemma top_bytes_signed code : top_bytes 8 code = signed_bytes code.
Proof.
  unfold signed_bytes. cbn [top_bytes map].
  assert (forall x, i64 (i64 x * 256) = i64 (x * 256)) as E by (intros; intlia).
  rewrite !E.
  repeat match goal with |- _ :: _ = _ :: _ => f_equal end; simpl Z.pow;
    rewrite <- ?Z.mul_assoc; simpl Z.mul; try intlia; try (unfold i8, i64; zlia).
Qed.

Lemma decode_loop_top n code :
  is_i64 code -> decode_loop n code = filter (fun c => c <> 0) (top_bytes n code).
Proof.
  revert code. induction n as [|n IH]; intros code Hc; [done|].
  cbn [decode_loop top_bytes]. rewrite shr_div, shl_mul, IH by (apply i64_range || lia).
  rewrite filter_cons. replace (i32 (code / 2 ^ 56)) with (i8 (code / 2 ^ 56)) by (simpl; intlia).
  change (2 ^ 8) with 256.
  destruct (Z.eqb_spec code 0) as [->|Hne].
  - change (i8 (0 / 2 ^ 56)) with 0. rewrite decide_False by lia.
    change (i64 (0 * 256)) with 0. clear. induction n as [|n IH]; [done|].
    cbn [top_bytes]. rewrite filter_cons. change (i8 (0 / 2 ^ 56)) with 0.
    rewrite decide_False by lia. apply IH.
  - destruct (Z.eqb_spec (i8 (code / 2 ^ 56)) 0); case_decide; done.
Qed.

(** Decoding a packed integer yields its bytes, most significant first,
    with the zero bytes dropped: at most eight characters, and the loop needs
    no more than eight steps. *)
Theorem decode_from_integer_bytes (code : Z) :
  is_i64 code ->
  dx_decode_from_integer code = filter (fun c => c <> 0) (signed_bytes code) /\
  (length (dx_decode_from_integer code) <= 8)%nat.
Proof.
  intros Hc. unfold dx_decode_from_integer.
  rewrite decode_loop_top, top_bytes_signed by done. split; [done|].
  change 8%nat with (length (signed_bytes code)). apply length_filter.
Qed.

Lemma decode_from_integer_bytes_witness : dx_decode_from_integer 5638877 = [86; 10; -35].
Proof. rewrite (proj1 (decode_from_integer_bytes 5638877 ltac:(unfold is_i64; by_compute))). reflexivity. Defined.

Lemma land_pred_zero v :
  0 < v -> Z.land v (v - 1) = 0 <-> v = 2 ^ Z.log2 v.
Proof.
  intros Hv. pose proof (Z.log2_spec v Hv) as [Hlo Hhi]. pose proof (Z.log2_nonneg v).
  split.
  - intros Hl. destruct (decide (v = 2 ^ Z.log2 v)) as [|Hne]; [done|]. exfalso.
    assert (Z.log2 (v - 1) = Z.log2 v) as Hlog by (apply Z.log2_unique; lia).
    assert (0 < 2 ^ Z.log2 v) by (apply Z.pow_pos_nonneg; lia).
    assert (Z.testbit (Z.land v (v - 1)) (Z.log2 v) = true) as Ht.
    { rewrite Z.land_spec, Z.bit_log2 by done. rewrite <- Hlog. apply Z.bit_log2. lia. }
    rewrite Hl, Z.bits_0 in Ht. done.
  - intros Heq. rewrite Heq. rewrite <- (Z.mul_1_l (2 ^ _)) at 1.
    assert (0 < 2 ^ Z.log2 v) by (apply Z.pow_pos_nonneg; lia).
    apply land_pow2_low; lia.
Qed.

(** The single-bit test is right on every [int]: it holds exactly when the
    32-bit pattern is a power of two, [INT_MIN] included. *)
Theorem single_bit_correct (v : Z) :
  is_i32 v ->
  dx_is_only_single_bit_set v = true <-> exists k, 0 <= k <= 31 /\ u32 v = 2 ^ k.
Proof.
  intros Hv. unfold dx_is_only_single_bit_set.
  rewrite andb_true_iff, negb_true_iff, Z.eqb_neq, Z.eqb_eq.
  destruct (decide (0 < v)) as [Hpos|Hneg].
  - rewrite i32_id, land_pred_zero by (unfold is_i32 in *; lia).
    replace (u32 v) with v by intlia. split.
    + intros [_ Heq]. exists (Z.log2 v). split; [|done]. split; [apply Z.log2_nonneg|].
      apply Z.lt_succ_r, Z.log2_lt_pow2; [done|]. unfold is_i32 in Hv. lia.
    + intros (k & Hk & ->). split; [lia|]. by rewrite Z.log2_pow2 by lia.
  - destruct (decide (v = 0)) as [->|]; [|destruct (decide (v = -2147483648)) as [->|]].
    + split; [lia|]. intros (k & Hk & Heq). change (u32 0) with 0 in Heq.
      pose proof (Z.pow_pos_nonneg 2 k). lia.
    + split; [|done]. intros _. exists 31. done.
    + split.
      * intros [_ Hl]. exfalso. rewrite i32_id in Hl by (unfold is_i32 in *; lia).
        assert (Z.land v (v - 1) < 0) by (apply Z.land_neg; lia). lia.
      * intros (k & Hk & Heq). exfalso. replace (u32 v) with (v + 4294967296) in Heq by intlia.
        assert (2 ^ k <= 2 ^ 31) by (apply Z.pow_le_mono_r; lia).
        unfold is_i32 in Hv. change (2 ^ 31) with 2147483648 in *. lia.
Qed.

Lemma single_bit_correct_witness : dx_is_only_single_bit_set 4096 = true.
Proof. apply (single_bit_correct 4096); [unfold is_i32; lia|]. exists 12. split; [lia|reflexivity]. Defined.
