(* ===== verification/Output.v ===== *)
(** * Output: [src/BufferedOutput.c] and [src/BufferedIOCommon.c]

    The output buffer of a connection and the write operations on it.  A
    buffer is a list of signed bytes as long as the allocated block; every
    store goes through [store], which is undefined outside the block. *)

From S2P Require Import Prelude.
Local Open Scope Z_scope.
Local Open Scope c_scope.

(** ** [BufferedIOCommon.c] *)

Definition MIN_HIGH_SURROGATE : Z := 0xD800.
Definition MAX_HIGH_SURROGATE : Z := 0xDBFF.
Definition MIN_LOW_SURROGATE : Z := 0xDC00.
Definition MAX_LOW_SURROGATE : Z := 0xDFFF.
Definition MIN_SUPPLEMENTARY_CODE_POINT : Z := 0x010000.
Definition MAX_CODE_POINT : Z := 0x10ffff.

Definition dx_is_high_surrogate (value : Z) : bool :=
  (MIN_HIGH_SURROGATE <=? value) && (value <=? MAX_HIGH_SURROGATE).
Definition dx_is_low_surrogate (value : Z) : bool :=
  (MIN_LOW_SURROGATE <=? value) && (value <=? MAX_LOW_SURROGATE).

Definition dx_surrogates_to_code_point (high low : Z) : Z :=
  Z.shiftl (high - MIN_HIGH_SURROGATE) 10 + (low - MIN_LOW_SURROGATE)
    + MIN_SUPPLEMENTARY_CODE_POINT.

(** The two surrogates stored by [dx_code_point_to_surrogates]: (high, low). *)
Definition dx_code_point_to_surrogates (code_point : Z) : Z * Z :=
  let offset := code_point - MIN_SUPPLEMENTARY_CODE_POINT in
  (i32 (Z.shiftr offset 10 + MIN_HIGH_SURROGATE),
   i32 (Z.land offset 0x3ff + MIN_LOW_SURROGATE)).

Definition dx_get_compact_size (value : Z) : Z :=
  if 0 <=? value then
    if value <? 0x40 then 1
    else if value <? 0x2000 then 2
    else if value <? 0x100000 then 3
    else if value <? 0x08000000 then 4
    else if value <? 0x0400000000 then 5
    else if value <? 0x020000000000 then 6
    else if value <? 0x01000000000000 then 7
    else if value <? 0x80000000000000 then 8
    else 9
  else
    if -0x40 <=? value then 1
    else if -0x2000 <=? value then 2
    else if -0x100000 <=? value then 3
    else if -0x08000000 <=? value then 4
    else if -0x0400000000 <=? value then 5
    else if -0x020000000000 <=? value then 6
    else if -0x01000000000000 <=? value then 7
    else if -0x80000000000000 <=? value then 8
    else 9.

(** ** The output context *)

Record out_ctx : Type := OutCtx {
  out_buffer : option (list Z);   (** [None] is NULL *)
  out_buffer_length : Z;
  current_out_buffer_position : Z;
}.

Definition dx_set_out_buffer (new_buffer : option (list Z)) (new_length : Z)
  : M out_ctx unit := put (OutCtx new_buffer new_length 0).

Definition dx_set_out_buffer_position (new_position : Z) : M out_ctx unit :=
  c <-- get;; put (OutCtx (out_buffer c) (out_buffer_length c) new_position).

Definition IS_CUR_CAPACITY_ENOUGH (c : out_ctx) (bytes_to_write : Z) : bool :=
  i32 (current_out_buffer_position c + bytes_to_write) <=? out_buffer_length c.

(** [out_buffer[current_out_buffer_position++] = (dxf_byte_t)value] *)
Definition store (value : Z) : M out_ctx unit :=
  c <-- get;;
  match out_buffer c with
  | None => undefined
  | Some buf =>
      let pos := current_out_buffer_position c in
      if pos <? 0 then undefined
      else
        buf' <-- of_option (write_at buf (Z.to_nat pos) (i8 value));;
        put (OutCtx (Some buf') (out_buffer_length c) (pos + 1))
  end.

Section output.
(** Whether [dx_malloc] of so many bytes succeeds. *)
Context (malloc_ok : Z -> bool).

(** The bytes past the copied ones are indeterminate in C; here 0. *)
Definition dx_ensure_capacity (required_capacity : Z) : M out_ctx unit :=
  c <-- get;;
  let len := out_buffer_length c in
  let pos := current_out_buffer_position c in
  if INT_MAX - pos <? len then dx_set_error_code dx_bioec_buffer_overflow
  else if negb (IS_CUR_CAPACITY_ENOUGH c required_capacity) then
    let tmp_len := i64 (Z.shiftl len 1) in
    let tmp_min := i32 (Z.min tmp_len INT_MAX) in
    let length := Z.max (Z.max tmp_min 1024) (i32 (pos + required_capacity)) in
    if malloc_ok length then
      new_buffer <-- of_option
        (blit (default [] (out_buffer c)) 0 (replicate (Z.to_nat length) 0) 0
           (Z.to_nat len));;
      put (OutCtx (Some new_buffer) length pos)
    else dx_set_error_code dx_mec_insufficient_memory
  else ret tt.

Definition dx_check_write_possibility (bytes_to_write : Z) : M out_ctx unit :=
  c <-- get;;
  match out_buffer c with
  | None => dx_set_error_code dx_bioec_buffer_not_initialized
  | Some _ =>
      if IS_CUR_CAPACITY_ENOUGH c bytes_to_write then ret tt
      else dx_ensure_capacity bytes_to_write
  end.

(** ** Fixed-width writes *)

Definition dx_write_boolean (value : Z) : M out_ctx unit :=
  dx_check_write_possibility 1;;; store (if value =? 0 then 0 else 1).

Definition dx_write_byte (value : Z) : M out_ctx unit :=
  dx_check_write_possibility 1;;; store value.

Definition dx_write_short (value : Z) : M out_ctx unit :=
  dx_check_write_possibility 2;;; store (Z.shiftr value 8);;; store value.

Definition dx_write_char (value : Z) : M out_ctx unit :=
  dx_check_write_possibility 2;;; store (Z.shiftr value 8);;; store value.

Definition dx_write_int_unchecked (value : Z) : M out_ctx unit :=
  store (Z.shiftr value 24);;; store (Z.shiftr value 16);;;
  store (Z.shiftr value 8);;; store value.

Definition dx_write_int (value : Z) : M out_ctx unit :=
  dx_check_write_possibility 4;;;
  store (Z.shiftr value 24);;; store (Z.shiftr value 16);;;
  store (Z.shiftr value 8);;; store value.

Definition dx_write_long (value : Z) : M out_ctx unit :=
  dx_check_write_possibility 8;;;
  store (Z.shiftr value 56);;; store (Z.shiftr value 48);;;
  store (Z.shiftr value 40);;; store (Z.shiftr value 32);;;
  store (Z.shiftr value 24);;; store (Z.shiftr value 16);;;
  store (Z.shiftr value 8);;; store value.

Definition dx_write_byte_buffer_segment (buffer : list Z)
  (buffer_length segment_offset segment_length : Z) : M out_ctx unit :=
  if Z.lor (Z.lor (Z.lor segment_offset segment_length)
              (i32 (segment_offset + segment_length)))
       (i32 (buffer_length - i32 (segment_offset + segment_length))) <? 0
  then dx_set_error_code dx_bioec_index_out_of_bounds
  else
    c <-- get;;
    (if IS_CUR_CAPACITY_ENOUGH c segment_length then ret tt
     else dx_ensure_capacity segment_length);;;
    c <-- get;;
    match out_buffer c with
    | None => if segment_length =? 0 then ret tt else undefined
    | Some buf =>
        buf' <-- of_option (blit buffer (Z.to_nat segment_offset) buf
                   (Z.to_nat (current_out_buffer_position c)) (Z.to_nat segment_length));;
        put (OutCtx (Some buf') (out_buffer_length c)
               (current_out_buffer_position c + segment_length))
    end.

(** [dx_write_byte_buffer] and [dx_write_char_buffer] on a wide string. *)
Fixpoint dx_write_byte_buffer (value : list Z) : M out_ctx unit :=
  match value with
  | [] => ret tt
  | x :: value' => dx_write_byte x;;; dx_write_byte_buffer value'
  end.

Fixpoint dx_write_char_buffer (value : list Z) : M out_ctx unit :=
  match value with
  | [] => ret tt
  | x :: value' => dx_write_char x;;; dx_write_char_buffer value'
  end.

(** ** Compact integers *)

Definition dx_write_compact_int (value : Z) : M out_ctx unit :=
  dx_check_write_possibility 5;;;
  if 0 <=? value then
    if value <? 0x40 then store value
    else if value <? 0x2000 then
      store (Z.lor 0x80 (Z.shiftr value 8));;; store value
    else if value <? 0x100000 then
      store (Z.lor 0xC0 (Z.shiftr value 16));;; store (Z.shiftr value 8);;; store value
    else if value <? 0x08000000 then
      dx_write_int_unchecked (i32 (Z.lor 0xE0000000 value))
    else store 0xF0;;; dx_write_int_unchecked value
  else
    if -0x40 <=? value then store (Z.land 0x7F value)
    else if -0x2000 <=? value then
      store (Z.land 0xBF (Z.shiftr value 8));;; store value
    else if -0x100000 <=? value then
      store (Z.land 0xDF (Z.shiftr value 16));;; store (Z.shiftr value 8);;; store value
    else if -0x08000000 <=? value then
      dx_write_int_unchecked (i32 (Z.land 0xEFFFFFFF (u32 value)))
    else store 0xF7;;; dx_write_int_unchecked value.

Definition dx_write_compact_long (value : Z) : M out_ctx unit :=
  let hi := i32 (Z.shiftr value 32) in
  if value =? i32 value then dx_write_compact_int (i32 value)
  else
    dx_check_write_possibility 9;;;
    (if 0 <=? hi then
       if hi <? 0x04 then store (Z.lor 0xF0 hi)
       else if hi <? 0x0200 then store (Z.lor 0xF8 (Z.shiftr hi 8));;; store hi
       else if hi <? 0x010000 then
         store 0xFC;;; store (Z.shiftr hi 8);;; store hi
       else if hi <? 0x800000 then dx_write_int_unchecked (i32 (Z.lor 0xFE000000 hi))
       else store 0xFF;;; dx_write_int_unchecked hi
     else
       if -0x04 <=? hi then store (Z.land 0xF7 hi)
       else if -0x0200 <=? hi then store (Z.land 0xFB (Z.shiftr hi 8));;; store hi
       else if -0x010000 <=? hi then
         store 0xFD;;; store (Z.shiftr hi 8);;; store hi
       else if -0x800000 <=? hi then
         dx_write_int_unchecked (i32 (Z.land 0xFEFFFFFF (u32 hi)))
       else store 0xFF;;; dx_write_int_unchecked hi);;;
    dx_write_int_unchecked (i32 value).

Definition dx_write_byte_array (buffer : option (list Z)) (buffer_size : Z)
  : M out_ctx unit :=
  match buffer with
  | None => dx_write_compact_int (-1)
  | Some b =>
      dx_write_compact_int buffer_size;;;
      dx_write_byte_buffer_segment b buffer_size 0 buffer_size
  end.

(** ** UTF-8 *)

Definition dx_write_utf2_unchecked (code_point : Z) : M out_ctx unit :=
  store (Z.lor 0xC0 (Z.shiftr code_point 6));;;
  store (Z.lor 0x80 (Z.land code_point 0x3F)).

Definition dx_write_utf3_unchecked (code_point : Z) : M out_ctx unit :=
  store (Z.lor 0xE0 (Z.shiftr code_point 12));;;
  store (Z.lor 0x80 (Z.land (Z.shiftr code_point 6) 0x3F));;;
  store (Z.lor 0x80 (Z.land code_point 0x3F)).

Definition dx_write_utf4_unchecked (code_point : Z) : M out_ctx unit :=
  store (Z.lor 0xF0 (Z.shiftr code_point 18));;;
  store (Z.lor 0x80 (Z.land (Z.shiftr code_point 12) 0x3F));;;
  store (Z.lor 0x80 (Z.land (Z.shiftr code_point 6) 0x3F));;;
  store (Z.lor 0x80 (Z.land code_point 0x3F)).

Definition dx_write_utf_char (code_point : Z) : M out_ctx unit :=
  dx_check_write_possibility 4;;;
  if code_point <? 0 then dx_set_error_code dx_utfec_bad_utf_data_format
  else if code_point <=? 0x007F then store code_point
  else if code_point <=? 0x07FF then dx_write_utf2_unchecked code_point
  else if code_point <=? 0xFFFF then dx_write_utf3_unchecked code_point
  else if code_point <=? 0x10FFFF then dx_write_utf4_unchecked code_point
  else dx_set_error_code dx_utfec_bad_utf_data_format.

(** The capacity test that guards each character of the string writers. *)
Definition ensure (n : Z) : M out_ctx unit :=
  c <-- get;; if IS_CUR_CAPACITY_ENOUGH c n then ret tt else dx_ensure_capacity n.

(** First loop of [dx_write_utf]: [utflen] is a [dxf_short_t]. *)
Fixpoint utf_len16 (value : list Z) (utflen : Z) : Z :=
  match value with
  | [] => utflen
  | c :: value' =>
      utf_len16 value'
        (if (0 <? c) && (c <=? 0x007F) then i16 (utflen + 1)
         else if c <=? 0x07FF then i16 (utflen + 2)
         else i16 (utflen + 3))
  end.

Fixpoint write_utf_loop (value : list Z) : M out_ctx unit :=
  match value with
  | [] => ret tt
  | c :: value' =>
      ensure 3;;;
      (if (0 <? c) && (c <=? 0x007F) then store c
       else if c <=? 0x07FF then dx_write_utf2_unchecked c
       else dx_write_utf3_unchecked c);;;
      write_utf_loop value'
  end.

Definition dx_write_utf (value : list Z) : M out_ctx unit :=
  let strlen := Z.of_nat (length value) in
  let utflen := utf_len16 value 0 in
  if (u64 utflen <? strlen) || (65535 <? utflen)
  then dx_set_error_code dx_utfec_bad_utf_data_format
  else dx_write_short utflen;;; write_utf_loop value.

(** First loop of [dx_write_utf_string]: [utflen] is a [dxf_int_t]. *)
Fixpoint utf_len32 (value : list Z) (utflen : Z) : Z :=
  match value with
  | [] => utflen
  | c :: value' =>
      if c <=? 0x007F then utf_len32 value' (i32 (utflen + 1))
      else if c <=? 0x07FF then utf_len32 value' (i32 (utflen + 2))
      else
        match value' with
        | d :: value'' =>
            if dx_is_high_surrogate c && dx_is_low_surrogate d
            then utf_len32 value'' (i32 (utflen + 4))
            else utf_len32 value' (i32 (utflen + 3))
        | [] => utf_len32 value' (i32 (utflen + 3))
        end
  end.

Fixpoint write_utf_string_loop (value : list Z) : M out_ctx unit :=
  match value with
  | [] => ret tt
  | c :: value' =>
      ensure 4;;;
      if c <=? 0x007F then store c;;; write_utf_string_loop value'
      else if c <=? 0x07FF then
        dx_write_utf2_unchecked c;;; write_utf_string_loop value'
      else
        match value' with
        | d :: value'' =>
            if dx_is_high_surrogate c && dx_is_low_surrogate d
            then dx_write_utf4_unchecked (dx_surrogates_to_code_point c d);;;
                 write_utf_string_loop value''
            else dx_write_utf3_unchecked c;;; write_utf_string_loop value'
        | [] => dx_write_utf3_unchecked c;;; write_utf_string_loop value'
        end
  end.

Definition dx_write_utf_string (value : option (list Z)) : M out_ctx unit :=
  match value with
  | None => dx_write_compact_int (-1)
  | Some s =>
      let strlen := Z.of_nat (length s) in
      let utflen := utf_len32 s 0 in
      if u64 utflen <? strlen then dx_set_error_code dx_utfec_bad_utf_data_format
      else dx_write_compact_int utflen;;; write_utf_string_loop s
  end.
End output.

(** ** Well-formed contexts and what a write operation promises *)

Definition out_wf (c : out_ctx) : Prop :=
  0 <= current_out_buffer_position c <= out_buffer_length c /\
  out_buffer_length c <= INT_MAX /\
  exists buf, out_buffer c = Some buf /\ Z.of_nat (length buf) = out_buffer_length c.

(** The bytes written so far. *)
Definition written (c : out_ctx) : list Z :=
  take (Z.to_nat (current_out_buffer_position c)) (default [] (out_buffer c)).

Definition extends (c c' : out_ctx) (bs : list Z) : Prop :=
  out_wf c' /\ written c' = written c ++ bs.

Definition zlen {A} (l : list A) : Z := Z.of_nat (length l).

Lemma zlen_nonneg {A} (l : list A) : 0 <= zlen l.
Proof. unfold zlen. lia. Qed.
Lemma zlen_app {A} (l1 l2 : list A) : zlen (l1 ++ l2) = zlen l1 + zlen l2.
Proof. unfold zlen. rewrite length_app. lia. Qed.
Lemma zlen_cons {A} (x : A) l : zlen (x :: l) = 1 + zlen l.
Proof. unfold zlen. simpl. lia. Qed.

Lemma length_written c : out_wf c -> zlen (written c) = current_out_buffer_position c.
Proof.
  intros (? & ? & buf & Hb & Hl). unfold zlen, written. rewrite Hb, length_take. simpl. lia.
Qed.

Lemma extends_position c c' bs :
  out_wf c -> extends c c' bs ->
  current_out_buffer_position c' = current_out_buffer_position c + zlen bs.
Proof.
  intros Hc [Hc' Hw]. rewrite <- !length_written by done. by rewrite Hw, zlen_app.
Qed.

Lemma extends_trans c1 c2 c3 b1 b2 :
  extends c1 c2 b1 -> extends c2 c3 b2 -> extends c1 c3 (b1 ++ b2).
Proof. intros [? H1] [? H2]. split; [done|]. by rewrite H2, H1, app_assoc. Qed.

Lemma extends_refl c : out_wf c -> extends c c [].
Proof. intros. split; [done|]. by rewrite app_nil_r. Qed.

(** An unchecked store sequence: with room for its bytes it appends them. *)
Definition puts (m : M out_ctx unit) (bs : list Z) : Prop :=
  forall c, out_wf c -> current_out_buffer_position c + zlen bs <= out_buffer_length c ->
    exists c', m c = Ok tt c' /\ extends c c' bs /\ out_buffer_length c' = out_buffer_length c.

(** A checked write of the bytes [bs]: with [need] bytes of room it succeeds;
    without, it succeeds after growing the buffer or fails with the bytes of a
    prefix written; it never stores outside the buffer. *)
Definition writes (m : M out_ctx unit) (need : Z) (bs : list Z) : Prop :=
  forall c, out_wf c -> current_out_buffer_position c + need <= INT_MAX ->
    (current_out_buffer_position c + need <= out_buffer_length c ->
     exists c', m c = Ok tt c' /\ extends c c' bs /\
       out_buffer_length c' = out_buffer_length c) /\
    match m c with
    | Ok _ c' => extends c c' bs
    | Err e c' => (e = dx_bioec_buffer_overflow \/ e = dx_mec_insufficient_memory) /\
        exists p, p `prefix_of` bs /\ extends c c' p
    | UB => False
    end.

Lemma puts_store v : puts (store v) [i8 v].
Proof.
  intros c Hc Hroom. pose proof Hc as (Hp & Hm & buf & Hb & Hl).
  unfold zlen in Hroom; simpl in Hroom. unfold store, checked_call, get. rewrite Hb.
  decide_cmps. rewrite write_at_in by lia. cbn [of_option ret put].
  eexists; split; [done|]. split; [|done]. split.
  - split; [simpl; lia|]. split; [done|]. eexists; split; [done|].
    rewrite length_insert. done.
  - unfold written; cbn [current_out_buffer_position out_buffer default]. rewrite Hb; simpl.
    replace (Z.to_nat (current_out_buffer_position c + 1))
      with (S (Z.to_nat (current_out_buffer_position c))) by lia.
    rewrite (take_S_r _ _ (i8 v)) by (apply list_lookup_insert_eq; lia).
    by rewrite take_insert_ge by lia.
Qed.

Lemma puts_nil : puts (ret tt) [].
Proof. intros c Hc _. exists c. split_and!; [done|by apply extends_refl|done]. Qed.

Lemma puts_seq m1 m2 b1 b2 : puts m1 b1 -> puts m2 b2 -> puts (m1;;; m2) (b1 ++ b2).
Proof.
  intros H1 H2 c Hc Hroom. rewrite zlen_app in Hroom.
  pose proof (zlen_nonneg b1). pose proof (zlen_nonneg b2).
  destruct (H1 c Hc ltac:(lia)) as (c1 & E1 & Hx1 & L1).
  pose proof (extends_position c c1 b1 Hc Hx1).
  destruct (H2 c1 (proj1 Hx1) ltac:(lia)) as (c2 & E2 & Hx2 & L2).
  exists c2. unfold checked_call. rewrite E1, E2. split; [done|].
  split; [by eapply extends_trans|lia].
Qed.

Lemma puts_store_seq v m bs : puts m bs -> puts (store v;;; m) (i8 v :: bs).
Proof. intros. by apply (puts_seq _ _ [_]); [apply puts_store|]. Qed.

#[export] Hint Resolve puts_store puts_nil puts_store_seq : dx.

Section spec.
Context (malloc_ok : Z -> bool).

Lemma ensure_capacity_spec n c :
  out_wf c -> 0 <= n -> current_out_buffer_position c + n <= INT_MAX ->
  match dx_ensure_capacity malloc_ok n c with
  | Ok _ c' => extends c c' [] /\ current_out_buffer_position c + n <= out_buffer_length c'
  | Err e c' => (e = dx_bioec_buffer_overflow \/ e = dx_mec_insufficient_memory) /\ c' = c
  | UB => False
  end.
Proof.
  intros Hc Hn Hmax. pose proof Hc as (Hp & Hm & buf & Hb & Hl).
  unfold dx_ensure_capacity, checked_call, get, IS_CUR_CAPACITY_ENOUGH.
  rewrite i32_id by (unfold is_i32, INT_MAX in *; lia).
  destruct (Z.ltb_spec (INT_MAX - current_out_buffer_position c) (out_buffer_length c));
    [by split; [left|]|].
  destruct (Z.leb_spec (current_out_buffer_position c + n) (out_buffer_length c)); simpl negb.
  { split; [by apply extends_refl|lia]. }
  rewrite shl_mul, i64_id by (unfold is_i64, INT_MAX in *; lia).
  rewrite i32_id by (unfold is_i32, INT_MAX in *; lia).
  set (N := Z.max (Z.max _ 1024) _).
  assert (out_buffer_length c <= N <= INT_MAX /\ current_out_buffer_position c + n <= N)
    as [HN HN'] by (unfold N, INT_MAX in *; lia).
  cbn iota. destruct (malloc_ok N); [|by split; [right|]].
  rewrite Hb. cbn [default]. rewrite blit_in by (rewrite ?length_replicate; simpl; lia).
  cbn [of_option ret put]. rewrite drop_0, take_0, app_nil_l; unfold id.
  assert (length (take (Z.to_nat (out_buffer_length c)) buf) =
    Z.to_nat (out_buffer_length c)) as Ht by (rewrite length_take; lia).
  split; [split|].
  - split; [simpl; lia|]. split; [simpl; lia|]. eexists; split; [done|].
    rewrite length_app, Ht, length_drop, length_replicate. simpl. lia.
  - rewrite app_nil_r. unfold written; cbn [current_out_buffer_position out_buffer default].
    rewrite Hb; unfold id; simpl from_option.
    rewrite take_app_le by lia. by rewrite take_take, Nat.min_l by lia.
  - simpl. lia.
Qed.

(** Both capacity tests: the one of the string writers and
    [dx_check_write_possibility]. *)
Lemma ensure_spec n c :
  out_wf c -> 0 <= n -> current_out_buffer_position c + n <= INT_MAX ->
  (current_out_buffer_position c + n <= out_buffer_length c -> ensure malloc_ok n c = Ok tt c) /\
  match ensure malloc_ok n c with
  | Ok _ c' => extends c c' [] /\ current_out_buffer_position c + n <= out_buffer_length c'
  | Err e c' => (e = dx_bioec_buffer_overflow \/ e = dx_mec_insufficient_memory) /\ c' = c
  | UB => False
  end.
Proof.
  intros Hc Hn Hmax. pose proof (ensure_capacity_spec n c Hc Hn Hmax) as He.
  unfold ensure, checked_call, get, IS_CUR_CAPACITY_ENOUGH in *.
  rewrite i32_id in * by (unfold is_i32, INT_MAX in *; destruct Hc; lia).
  destruct (Z.leb_spec (current_out_buffer_position c + n) (out_buffer_length c)).
  - split; [done|]. split; [by apply extends_refl|done].
  - split; [lia|done].
Qed.

Lemma check_write_is_ensure n c :
  out_wf c -> dx_check_write_possibility malloc_ok n c = ensure malloc_ok n c.
Proof.
  intros (_ & _ & buf & Hb & _). unfold dx_check_write_possibility, ensure, checked_call, get.
  by rewrite Hb.
Qed.

Lemma ensure_puts n m bs :
  zlen bs <= n -> puts m bs -> writes (ensure malloc_ok n;;; m) n bs.
Proof.
  intros Hlen Hm c Hc Hmax. pose proof (zlen_nonneg bs).
  destruct (ensure_spec n c Hc ltac:(lia) Hmax) as [Hfit He].
  split.
  - intros Hroom. unfold checked_call. rewrite Hfit by done.
    apply Hm; [done|lia].
  - unfold checked_call. destruct (ensure malloc_ok n c) as [[] c1|e c1|]; [|destruct He as [? ->]|done].
    + destruct He as [Hx Hroom].
      pose proof (extends_position c c1 [] Hc Hx) as Hpos. unfold zlen in Hpos; simpl in Hpos.
      destruct (Hm c1 (proj1 Hx) ltac:(lia)) as (c2 & -> & Hx2 & _).
      by apply (extends_trans c c1 c2 [] bs).
    + split; [done|]. exists []. split; [apply prefix_nil|by apply extends_refl].
Qed.

Lemma check_puts n m bs :
  zlen bs <= n -> puts m bs -> writes (dx_check_write_possibility malloc_ok n;;; m) n bs.
Proof.
  intros Hlen Hm c Hc Hmax. pose proof (ensure_puts n m bs Hlen Hm c Hc Hmax) as H.
  unfold checked_call in *. by rewrite check_write_is_ensure.
Qed.

Lemma writes_seq m1 m2 n1 n2 b1 b2 n :
  writes m1 n1 b1 -> writes m2 n2 b2 -> n1 <= n -> zlen b1 + n2 <= n ->
  writes (m1;;; m2) n (b1 ++ b2).
Proof using Type.
  clear malloc_ok.
  intros H1 H2 Hn1 Hn2 c Hc Hmax.
  destruct (H1 c Hc ltac:(lia)) as [Hfit1 Hm1].
  unfold checked_call. split.
  - intros Hroom. destruct (Hfit1 ltac:(lia)) as (c1 & -> & Hx1 & L1).
    pose proof (extends_position c c1 b1 Hc Hx1).
    destruct (H2 c1 (proj1 Hx1) ltac:(lia)) as [Hfit2 _].
    destruct (Hfit2 ltac:(lia)) as (c2 & -> & Hx2 & L2).
    exists c2. split; [done|]. split; [by eapply extends_trans|lia].
  - destruct (m1 c) as [[] c1|e c1|]; [| |done].
    + pose proof (extends_position c c1 b1 Hc Hm1).
      destruct (H2 c1 (proj1 Hm1) ltac:(lia)) as [_ Hm2].
      destruct (m2 c1) as [[] c2|e c2|]; [by eapply extends_trans| |done].
      destruct Hm2 as [? (p & ? & Hp)]. split; [done|]. exists (b1 ++ p).
      split; [by apply prefix_app|by eapply extends_trans].
    + destruct Hm1 as [? (p & ? & Hp)]. split; [done|]. exists p.
      split; [by apply prefix_app_r|done].
Qed.

Lemma writes_nil : writes (ret tt) 0 [].
Proof using Type.
  clear malloc_ok.
  intros c Hc _. split; [intros _; exists c; split_and!; [done|by apply extends_refl|done]|].
  by apply extends_refl.
Qed.

Lemma writes_weaken m n n' bs : writes m n bs -> n <= n' -> writes m n' bs.
Proof using Type.
  clear malloc_ok.
  intros H Hn c Hc Hmax. destruct (H c Hc ltac:(lia)) as [H1 H2].
  split; [|done]. intros. apply H1. lia.
Qed.
End spec.

(** ** The bytes each operation writes *)

(** Stored bytes are signed; formats are given with bytes 0..255. *)
Definition wire (bs : list Z) : list Z := map i8 bs.

(** The [n] low bytes of [v], most significant first. *)
Fixpoint be_bytes (n : nat) (v : Z) : list Z :=
  match n with
  | O => []
  | S n' => be_bytes n' (v / 256) ++ [v mod 256]
  end.

(** The compact format of a 32-bit integer: a length prefix in the high bits
    of the first byte and the two's complement value in the rest. *)
Definition compact_int_bytes (v : Z) : list Z :=
  let k := dx_get_compact_size v in
  if k =? 1 then [v mod 128]
  else if k =? 2 then [0x80 + (v / 2 ^ 8) mod 64; v mod 256]
  else if k =? 3 then (0xC0 + (v / 2 ^ 16) mod 32) :: be_bytes 2 v
  else if k =? 4 then (0xE0 + (v / 2 ^ 24) mod 16) :: be_bytes 3 v
  else (0xF0 + (v / 2 ^ 32) mod 8) :: be_bytes 4 v.

(** The same format for the integers beyond 32 bits. *)
Definition compact_long_bytes (v : Z) : list Z :=
  let k := dx_get_compact_size v in
  if k <=? 5 then
    if v =? i32 v then compact_int_bytes v else (0xF0 + (v / 2 ^ 32) mod 8) :: be_bytes 4 v
  else if k =? 6 then (0xF8 + (v / 2 ^ 40) mod 4) :: be_bytes 5 v
  else if k =? 7 then (0xFC + (v / 2 ^ 48) mod 2) :: be_bytes 6 v
  else if k =? 8 then 0xFE :: be_bytes 7 v
  else 0xFF :: be_bytes 8 v.

(** The UTF-8 encoding of a code point. *)
Definition utf8_bytes (c : Z) : list Z :=
  if c <=? 0x7F then [c]
  else if c <=? 0x7FF then [0xC0 + c / 64; 0x80 + c mod 64]
  else if c <=? 0xFFFF then [0xE0 + c / 4096; 0x80 + (c / 64) mod 64; 0x80 + c mod 64]
  else [0xF0 + c / 262144; 0x80 + (c / 4096) mod 64; 0x80 + (c / 64) mod 64;
        0x80 + c mod 64].

(** Bytes equal as signed bytes. *)
Ltac wire_eq :=
  unfold wire; cbn [map be_bytes app];
  repeat match goal with
  | |- _ :: _ = _ :: _ => f_equal
  | |- [] = [] => reflexivity
  end; rewrite ?shr_div by lia; simpl Z.pow; unfold i8; zlia.

Lemma puts_int v : puts (dx_write_int_unchecked v) (wire (be_bytes 4 v)).
Proof.
  replace (wire (be_bytes 4 v)) with [i8 (Z.shiftr v 24); i8 (Z.shiftr v 16); i8 (Z.shiftr v 8); i8 v]
    by wire_eq.
  unfold dx_write_int_unchecked. auto with dx.
Qed.
#[export] Hint Resolve puts_int : dx.

Lemma puts_eq m bs bs' : puts m bs -> bs = bs' -> puts m bs'.
Proof. by intros ? <-. Qed.

Section formats.
Context (malloc_ok : Z -> bool).

Lemma writes_byte v : writes (dx_write_byte malloc_ok v) 1 (wire (be_bytes 1 v)).
Proof.
  apply check_puts; [done|]. eapply puts_eq; [auto with dx|wire_eq].
Qed.

Lemma writes_short v : writes (dx_write_short malloc_ok v) 2 (wire (be_bytes 2 v)).
Proof.
  apply check_puts; [done|]. eapply puts_eq; [auto with dx|wire_eq].
Qed.

Lemma writes_int v : writes (dx_write_int malloc_ok v) 4 (wire (be_bytes 4 v)).
Proof. apply check_puts; [done|]. apply puts_int. Qed.

Lemma writes_long v : writes (dx_write_long malloc_ok v) 8 (wire (be_bytes 8 v)).
Proof.
  apply check_puts; [done|]. eapply puts_eq; [auto 10 with dx|wire_eq].
Qed.
End formats.

(** ** Compact integers are written in the compact format *)

Lemma lor_prefix p v k : 0 <= k -> 0 <= v < 2 ^ k -> Z.lor (p * 2 ^ k) v = p * 2 ^ k + v.
Proof. apply lor_add. Qed.

Lemma land_bf x : -32 <= x < 0 -> Z.land 0xBF x = x + 0xC0.
Proof. intros. by apply (finite_land 0xBF 0xC0 (-32) 32). Qed.
Lemma land_df x : -16 <= x < 0 -> Z.land 0xDF x = x + 0xE0.
Proof. intros. by apply (finite_land 0xDF 0xE0 (-16) 16). Qed.
Lemma land_7f x : -64 <= x < 0 -> Z.land 0x7F x = x + 0x80.
Proof. intros. by apply (finite_land 0x7F 0x80 (-64) 64). Qed.
Lemma land_f7 x : -4 <= x < 0 -> Z.land 0xF7 x = x + 0xF8.
Proof. intros. by apply (finite_land 0xF7 0xF8 (-4) 4). Qed.
Lemma land_fb x : -2 <= x < 0 -> Z.land 0xFB x = x + 0xFC.
Proof. intros. by apply (finite_land 0xFB 0xFC (-2) 2). Qed.

(** Masking the top byte of a 32-bit pattern. *)
Lemma land_top_byte m v :
  Z.land (m * 2 ^ 24 + (2 ^ 24 - 1)) (u32 v) =
    Z.land m ((v / 2 ^ 24) mod 256) * 2 ^ 24 + v mod 2 ^ 24.
Proof.
  replace (u32 v) with ((v / 2 ^ 24) mod 256 * 2 ^ 24 + v mod 2 ^ 24) by (simpl Z.pow; intlia).
  rewrite land_split by (simpl Z.pow; zlia). f_equal.
  change (2 ^ 24 - 1) with (Z.ones 24). rewrite Z.land_comm, Z.land_ones by lia.
  rewrite Z.mod_mod; lia.
Qed.

Lemma land_ef v : -0x08000000 <= v < 0 -> Z.land 0xEFFFFFFF (u32 v) = v + 0xF0000000.
Proof.
  intros Hv. change 0xEFFFFFFF with (0xEF * 2 ^ 24 + (2 ^ 24 - 1)). rewrite land_top_byte.
  assert (Z.land 0xEF (v / 2 ^ 24 mod 256) = v / 2 ^ 24 mod 256 + -16) as ->.
  { apply (finite_land 0xEF (-16) 248 8); [done|]. simpl Z.pow. zlia. }
  simpl Z.pow. zlia.
Qed.

Lemma land_fe v : -0x800000 <= v < 0 -> Z.land 0xFEFFFFFF (u32 v) = v + 0xFF000000.
Proof.
  intros Hv. change 0xFEFFFFFF with (0xFE * 2 ^ 24 + (2 ^ 24 - 1)). rewrite land_top_byte.
  replace (v / 2 ^ 24 mod 256) with 255 by (simpl Z.pow; zlia).
  change (Z.land 0xFE 255) with 254. simpl Z.pow. zlia.
Qed.

Ltac compact_size k :=
  match goal with |- context [dx_get_compact_size ?v] =>
    replace (dx_get_compact_size v) with k
      by (unfold dx_get_compact_size; decide_cmps; reflexivity)
  end; cbn [Z.eqb Z.leb Z.compare Pos.compare Pos.compare_cont Pos.eqb].

Lemma puts_lor_int p v :
  0 <= v < 2 ^ 24 ->
  puts (dx_write_int_unchecked (i32 (Z.lor (p * 2 ^ 24) v)))
    (wire ((p mod 256) :: be_bytes 3 v)).
Proof.
  intros Hv. eapply puts_eq; [apply puts_int|]. rewrite lor_prefix by lia.
  unfold i32. simpl Z.pow. wire_eq.
Qed.

Section compact.
Context (malloc_ok : Z -> bool).

Lemma writes_compact_int v :
  is_i32 v -> writes (dx_write_compact_int malloc_ok v) 5 (wire (compact_int_bytes v)).
Proof.
  intros Hv. unfold is_i32 in Hv. apply check_puts.
  { unfold zlen, wire, compact_int_bytes. rewrite length_map.
    repeat destruct_match; simpl; lia. }
  unfold compact_int_bytes.
  repeat match goal with
  | |- puts (if ?a <? ?b then _ else _) _ => destruct (Z.ltb_spec a b)
  | |- puts (if ?a <=? ?b then _ else _) _ => destruct (Z.leb_spec a b)
  end.
  - compact_size 1. eapply puts_eq; [auto with dx|]. wire_eq.
  - compact_size 2. change 0x80 with (1 * 2 ^ 7).
    rewrite lor_prefix by (rewrite ?shr_div by lia; simpl Z.pow; zlia).
    eapply puts_eq; [auto with dx|]. wire_eq.
  - compact_size 3. change (Z.lor 0xC0) with (Z.lor (3 * 2 ^ 6)).
    rewrite lor_prefix by (rewrite ?shr_div by lia; simpl Z.pow; zlia).
    eapply puts_eq; [auto with dx|]. wire_eq.
  - compact_size 4. change 0xE0000000 with (7 * 2 ^ 29). rewrite lor_prefix by (simpl Z.pow; lia).
    eapply puts_eq; [auto with dx|]. unfold i32. wire_eq.
  - compact_size 5. eapply puts_eq; [auto with dx|]. wire_eq.
  - compact_size 1. rewrite land_7f by lia. eapply puts_eq; [auto with dx|]. wire_eq.
  - compact_size 2. rewrite land_bf by (rewrite shr_div by lia; simpl Z.pow; zlia).
    eapply puts_eq; [auto with dx|]. wire_eq.
  - compact_size 3. rewrite land_df by (rewrite shr_div by lia; simpl Z.pow; zlia).
    eapply puts_eq; [auto with dx|]. wire_eq.
  - compact_size 4. rewrite land_ef by lia.
    eapply puts_eq; [auto with dx|]. unfold i32. wire_eq.
  - compact_size 5. eapply puts_eq; [auto with dx|]. wire_eq.
Qed.
End compact.

(** The bytes of the high word [hi] in the long format. *)
Definition high_word_bytes (hi : Z) : list Z :=
  if (-0x04 <=? hi) && (hi <? 0x04) then [0xF0 + hi mod 8]
  else if (-0x0200 <=? hi) && (hi <? 0x0200) then [0xF8 + (hi / 256) mod 4; hi mod 256]
  else if (-0x010000 <=? hi) && (hi <? 0x010000) then
    (0xFC + (hi / 65536) mod 2) :: be_bytes 2 hi
  else if (-0x800000 <=? hi) && (hi <? 0x800000) then 0xFE :: be_bytes 3 hi
  else 0xFF :: be_bytes 4 hi.

Lemma puts_high_word hi :
  is_i32 hi ->
  puts (if 0 <=? hi then
         if hi <? 0x04 then store (Z.lor 0xF0 hi)
         else if hi <? 0x0200 then store (Z.lor 0xF8 (Z.shiftr hi 8));;; store hi
         else if hi <? 0x010000 then
           store 0xFC;;; store (Z.shiftr hi 8);;; store hi
         else if hi <? 0x800000 then dx_write_int_unchecked (i32 (Z.lor 0xFE000000 hi))
         else store 0xFF;;; dx_write_int_unchecked hi
       else
         if -0x04 <=? hi then store (Z.land 0xF7 hi)
         else if -0x0200 <=? hi then store (Z.land 0xFB (Z.shiftr hi 8));;; store hi
         else if -0x010000 <=? hi then
           store 0xFD;;; store (Z.shiftr hi 8);;; store hi
         else if -0x800000 <=? hi then
           dx_write_int_unchecked (i32 (Z.land 0xFEFFFFFF (u32 hi)))
         else store 0xFF;;; dx_write_int_unchecked hi)
    (wire (high_word_bytes hi)).
Proof.
  intros Hv. unfold is_i32 in Hv. unfold high_word_bytes.
  repeat match goal with
  | |- puts (if ?a <? ?b then _ else _) _ => destruct (Z.ltb_spec a b)
  | |- puts (if ?a <=? ?b then _ else _) _ => destruct (Z.leb_spec a b)
  end; decide_cmps.
  - change 0xF0 with (15 * 2 ^ 4) at 1. rewrite lor_prefix by (simpl Z.pow; lia).
    eapply puts_eq; [auto with dx|]. wire_eq.
  - change 0xF8 with (31 * 2 ^ 3) at 1.
    rewrite lor_prefix by (rewrite ?shr_div by lia; simpl Z.pow; zlia).
    eapply puts_eq; [auto with dx|]. wire_eq.
  - eapply puts_eq; [auto with dx|]. wire_eq.
  - change 0xFE000000 with (127 * 2 ^ 25). rewrite lor_prefix by (simpl Z.pow; lia).
    eapply puts_eq; [auto with dx|]. unfold i32. wire_eq.
  - eapply puts_eq; [auto with dx|]. wire_eq.
  - rewrite land_f7 by lia. eapply puts_eq; [auto with dx|]. wire_eq.
  - rewrite land_fb by (rewrite shr_div by lia; simpl Z.pow; zlia).
    eapply puts_eq; [auto with dx|]. wire_eq.
  - eapply puts_eq; [auto with dx|]. wire_eq.
  - rewrite land_fe by lia. eapply puts_eq; [auto with dx|]. unfold i32. wire_eq.
  - eapply puts_eq; [auto with dx|]. wire_eq.
Qed.

Lemma be_bytes_add n m v :
  be_bytes (n + m) v = be_bytes n (v / 256 ^ Z.of_nat m) ++ be_bytes m v.
Proof.
  revert v. induction m as [|m IH]; intros v.
  { rewrite Nat.add_0_r, app_nil_r. change (256 ^ Z.of_nat 0) with 1. by rewrite Z.div_1_r. }
  rewrite Nat.add_succ_r. cbn [be_bytes]. rewrite IH, <- app_assoc. do 2 f_equal.
  rewrite Z.div_div by lia. f_equal. rewrite Nat2Z.inj_succ, Z.pow_succ_r by lia. lia.
Qed.

(** The long format is the high word followed by the low word. *)
Lemma compact_long_split v :
  is_i64 v -> v <> i32 v ->
  compact_long_bytes v = high_word_bytes (v / 2 ^ 32) ++ be_bytes 4 v.
Proof.
  intros Hv Hne. unfold is_i64, i32 in *. unfold compact_long_bytes, high_word_bytes.
  pose proof (Z.div_mod v (2 ^ 32) ltac:(lia)) as Hdm.
  pose proof (Z.mod_pos_bound v (2 ^ 32) ltac:(lia)) as Hmb.
  change (2 ^ 32) with 4294967296 in *.
  assert (v / 2 ^ 40 = v / 4294967296 / 256 /\ v / 2 ^ 48 = v / 4294967296 / 65536)
    as [H40 H48] by (rewrite !Z.div_div by lia; done).
  assert (forall n, be_bytes (n + 4) v = be_bytes n (v / 4294967296) ++ be_bytes 4 v) as Hbe
    by (intros; by rewrite be_bytes_add).
  rewrite H40, H48, (Hbe 1%nat : be_bytes 5 v = _), (Hbe 2%nat : be_bytes 6 v = _),
    (Hbe 3%nat : be_bytes 7 v = _), (Hbe 4%nat : be_bytes 8 v = _).
  clear H40 H48 Hbe. generalize (be_bytes 4 v); intros low.
  set (hi := v / 4294967296) in *. set (r := v mod 4294967296) in *.
  clearbody hi r. unfold dx_get_compact_size.
  repeat match goal with
  | |- context [if (?a <=? v) then _ else _] => destruct (Z.leb_spec a v)
  | |- context [if (v <? ?b) then _ else _] => destruct (Z.ltb_spec v b)
  end; try (exfalso; zlia);
  cbn [Z.leb Z.eqb Z.compare Pos.compare Pos.compare_cont Pos.eqb]; unfold i32;
  rewrite ?(proj2 (Z.eqb_neq _ _) Hne); decide_cmps; reflexivity.
Qed.

Lemma be_bytes_4_i32 v : be_bytes 4 (i32 v) = be_bytes 4 v.
Proof.
  cbn [be_bytes app]. repeat match goal with |- _ :: _ = _ :: _ => f_equal end; try done; intlia.
Qed.

Lemma compact_long_small v : is_i32 v -> compact_long_bytes v = compact_int_bytes v.
Proof.
  intros Hv. unfold compact_long_bytes. rewrite i32_id, Z.eqb_refl by done.
  unfold is_i32 in Hv.
  assert (dx_get_compact_size v <= 5) by (unfold dx_get_compact_size; repeat destruct_match; bool_to_prop; lia).
  decide_cmps. done.
Qed.

Section compact_long.
Context (malloc_ok : Z -> bool).

Lemma writes_compact_long v :
  is_i64 v -> writes (dx_write_compact_long malloc_ok v) 9 (wire (compact_long_bytes v)).
Proof.
  intros Hv. unfold dx_write_compact_long. destruct (Z.eqb_spec v (i32 v)) as [Heq|Hne].
  - assert (is_i32 v) by (rewrite Heq; apply i32_range).
    rewrite compact_long_small by done. rewrite <- Heq.
    apply (writes_weaken _ 5); [by apply writes_compact_int|lia].
  - replace (i32 (Z.shiftr v 32)) with (v / 2 ^ 32)
      by (rewrite shr_div by lia; symmetry; apply i32_id; unfold is_i32, is_i64 in *;
          simpl Z.pow; zlia).
    rewrite compact_long_split by done. apply check_puts.
    + unfold zlen, wire, high_word_bytes. rewrite length_map, length_app.
      repeat destruct_match; simpl; lia.
    + unfold wire. rewrite map_app. apply puts_seq.
      * apply puts_high_word. unfold is_i32, is_i64 in *. simpl Z.pow. zlia.
      * rewrite <- be_bytes_4_i32. apply puts_int.
Qed.
End compact_long.

(** ** UTF-8 is written as UTF-8 *)

Lemma puts_utf2 c :
  0x7F < c <= 0x7FF -> puts (dx_write_utf2_unchecked c) (wire (utf8_bytes c)).
Proof.
  intros Hc. unfold utf8_bytes. decide_cmps. unfold dx_write_utf2_unchecked.
  change 0x3F with (Z.ones 6). rewrite Z.land_ones by lia.
  change 0xC0 with (3 * 2 ^ 6). change 0x80 with (2 * 2 ^ 6).
  rewrite !lor_prefix by (rewrite ?shr_div by lia; simpl Z.pow; zlia).
  eapply puts_eq; [auto with dx|wire_eq].
Qed.

Lemma puts_utf3 c :
  0x7FF < c <= 0xFFFF -> puts (dx_write_utf3_unchecked c) (wire (utf8_bytes c)).
Proof.
  intros Hc. unfold utf8_bytes. decide_cmps. unfold dx_write_utf3_unchecked.
  change 0x3F with (Z.ones 6). rewrite !Z.land_ones by lia.
  change 0xE0 with (14 * 2 ^ 4). change 0x80 with (2 * 2 ^ 6).
  rewrite !lor_prefix by (rewrite ?shr_div by lia; simpl Z.pow; zlia).
  eapply puts_eq; [auto with dx|wire_eq].
Qed.

Lemma puts_utf4 c :
  0xFFFF < c <= 0x10FFFF -> puts (dx_write_utf4_unchecked c) (wire (utf8_bytes c)).
Proof.
  intros Hc. unfold utf8_bytes. decide_cmps. unfold dx_write_utf4_unchecked.
  change 0x3F with (Z.ones 6). rewrite !Z.land_ones by lia.
  change 0xF0 with (30 * 2 ^ 3). change 0x80 with (2 * 2 ^ 6).
  rewrite !lor_prefix by (rewrite ?shr_div by lia; simpl Z.pow; zlia).
  eapply puts_eq; [auto with dx|wire_eq].
Qed.

Lemma puts_ascii c : c <= 0x7F -> puts (store c) (wire (utf8_bytes c)).
Proof. intros Hc. unfold utf8_bytes. decide_cmps. apply puts_store. Qed.

#[export] Hint Resolve puts_ascii puts_utf2 puts_utf3 puts_utf4 : dx.

Lemma length_utf8_bytes c : 1 <= zlen (utf8_bytes c) <= 4.
Proof. unfold utf8_bytes, zlen. repeat destruct_match; simpl; lia. Qed.

(** UTF-16 units and the UTF-8 text of a string of them: a surrogate pair is
    one code point. *)
Definition utf16_units (s : list Z) : Prop := Forall (fun c => 0 < c <= 0xFFFF) s.

Definition is_pair (c d : Z) : bool :=
  (0x7FF <? c) && (dx_is_high_surrogate c && dx_is_low_surrogate d).

Fixpoint utf16_to_utf8 (s : list Z) : list Z :=
  match s with
  | [] => []
  | c :: s' =>
      match s' with
      | d :: s'' =>
          if is_pair c d
          then utf8_bytes (dx_surrogates_to_code_point c d) ++ utf16_to_utf8 s''
          else utf8_bytes c ++ utf16_to_utf8 s'
      | [] => utf8_bytes c
      end
  end.

Lemma pair_code_point c d :
  is_pair c d = true -> 0xFFFF < dx_surrogates_to_code_point c d <= 0x10FFFF.
Proof.
  unfold is_pair, dx_is_high_surrogate, dx_is_low_surrogate, dx_surrogates_to_code_point,
    MIN_HIGH_SURROGATE, MAX_HIGH_SURROGATE, MIN_LOW_SURROGATE, MAX_LOW_SURROGATE,
    MIN_SUPPLEMENTARY_CODE_POINT.
  intros H. bool_to_prop. rewrite shl_mul by lia. simpl Z.pow. lia.
Qed.

(** Induction on a string, one unit or one surrogate pair at a time. *)
Lemma utf16_ind (P : list Z -> Prop) :
  P [] ->
  (forall c s, (forall d s', s = d :: s' -> is_pair c d = false) -> P s -> P (c :: s)) ->
  (forall c d s, is_pair c d = true -> P s -> P (c :: d :: s)) ->
  forall s, P s.
Proof.
  intros H0 H1 H2 s. remember (length s) as n eqn:Hn. revert s Hn.
  induction n as [n IH] using lt_wf_ind. intros [|c s] Hn; [done|].
  destruct s as [|d s].
  - apply H1; [done|]. by apply (IH 0%nat); [simpl in *; lia|].
  - destruct (is_pair c d) eqn:Hp.
    + apply H2; [done|]. apply (IH (length s)); [simpl in *; lia|done].
    + apply H1; [by intros ? ? [= <- <-]|]. apply (IH (length (d :: s))); [simpl in *; lia|done].
Qed.

Lemma utf16_to_utf8_single c s :
  (forall d s', s = d :: s' -> is_pair c d = false) ->
  utf16_to_utf8 (c :: s) = utf8_bytes c ++ utf16_to_utf8 s.
Proof.
  intros H. destruct s as [|d s]; simpl; [by rewrite app_nil_r|].
  by rewrite (H d s eq_refl).
Qed.

Lemma utf_len32_single c s n :
  (forall d s', s = d :: s' -> is_pair c d = false) -> 0 < c <= 0xFFFF ->
  utf_len32 (c :: s) n = utf_len32 s (i32 (n + zlen (utf8_bytes c))).
Proof.
  intros H Hc. unfold utf8_bytes, is_pair in *. simpl.
  destruct (Z.leb_spec c 0x7F); [done|]. destruct (Z.leb_spec c 0x7FF); [done|].
  decide_cmps. destruct s as [|d s]; [done|]. specialize (H d s eq_refl).
  assert ((0x7FF <? c) = true) as E by (apply Z.ltb_lt; lia). rewrite E in H. simpl in H.
  by rewrite H.
Qed.

Lemma utf_len32_pair c d s n :
  is_pair c d = true ->
  utf_len32 (c :: d :: s) n =
    utf_len32 s (i32 (n + zlen (utf8_bytes (dx_surrogates_to_code_point c d)))).
Proof.
  intros H. pose proof (pair_code_point c d H). unfold utf8_bytes.
  unfold is_pair in H. bool_to_prop. simpl. decide_cmps.
  rewrite (proj2 (andb_true_iff _ _)) by done. done.
Qed.

Lemma utf_len32_spec s n :
  utf16_units s -> 0 <= n -> n + zlen (utf16_to_utf8 s) <= INT_MAX ->
  utf_len32 s n = n + zlen (utf16_to_utf8 s).
Proof.
  intros Hs. revert n. induction s as [|c s Hnp IH|c d s Hp IH] using utf16_ind; intros n Hn Hmax.
  - unfold zlen. simpl. lia.
  - inversion_clear Hs. rewrite utf_len32_single, utf16_to_utf8_single, zlen_app in * by done.
    pose proof (length_utf8_bytes c). pose proof (zlen_nonneg (utf16_to_utf8 s)).
    rewrite i32_id by (unfold is_i32, INT_MAX in *; lia). rewrite IH by (done || lia). lia.
  - inversion_clear Hs as [|? ? _ Hs']. inversion_clear Hs'.
    rewrite utf_len32_pair by done. simpl in Hmax |- *. rewrite Hp, zlen_app in *.
    pose proof (length_utf8_bytes (dx_surrogates_to_code_point c d)).
    pose proof (zlen_nonneg (utf16_to_utf8 s)).
    rewrite i32_id by (unfold is_i32, INT_MAX in *; lia). rewrite IH by (done || lia). lia.
Qed.

Section strings.
Context (malloc_ok : Z -> bool).

Lemma writes_utf_char c :
  0 <= c <= 0x10FFFF -> writes (dx_write_utf_char malloc_ok c) 4 (wire (utf8_bytes c)).
Proof.
  intros Hc. apply check_puts.
  { unfold wire, zlen. rewrite length_map. apply length_utf8_bytes. }
  decide_cmp (c <? 0).
  destruct (Z.leb_spec c 0x007F); [by apply puts_ascii|].
  destruct (Z.leb_spec c 0x07FF); [apply puts_utf2; lia|].
  destruct (Z.leb_spec c 0xFFFF); [apply puts_utf3; lia|].
  decide_cmps. apply puts_utf4. lia.
Qed.

(** One character of a string, with the capacity test before it. *)
Lemma writes_guarded m bs rest tail n :
  puts m bs -> zlen bs <= 4 -> writes rest n tail -> 4 <= n ->
  writes (ensure malloc_ok 4;;; (m;;; rest)) (zlen bs + n) (bs ++ tail).
Proof.
  intros Hm Hb Hr Hn c Hc Hmax.
  pose proof (zlen_nonneg bs).
  destruct (writes_seq (ensure malloc_ok 4;;; m) rest 4 n bs tail (zlen bs + n)
              (ensure_puts malloc_ok 4 m bs Hb Hm) Hr ltac:(lia) ltac:(lia) c Hc Hmax)
    as [H1 H2].
  unfold checked_call in *. destruct (ensure malloc_ok 4 c) as [[] ?|? ?|]; done.
Qed.

(** What holds of the empty loop and of a character in front of a loop holds of
    the loop of a string. *)
Lemma utf_string_loop_rule (P : M out_ctx unit -> Z -> list Z -> Prop) s :
  P (ret tt) 4 [] ->
  (forall m bs rest tail n, puts m bs -> zlen bs <= 4 -> P rest n tail -> 4 <= n ->
     P (ensure malloc_ok 4;;; (m;;; rest)) (zlen bs + n) (bs ++ tail)) ->
  utf16_units s ->
  P (write_utf_string_loop malloc_ok s) (zlen (utf16_to_utf8 s) + 4) (wire (utf16_to_utf8 s)).
Proof.
  intros Hnil Hguarded.
  assert (forall c, zlen (wire (utf8_bytes c)) = zlen (utf8_bytes c)) as Hl
    by (intros; unfold wire, zlen; by rewrite length_map).
  intros Hs. induction s as [|c s Hnp IH|c d s Hp IH] using utf16_ind.
  - exact Hnil.
  - inversion_clear Hs as [|? ? Hc Hs']. specialize (IH Hs').
    rewrite utf16_to_utf8_single, zlen_app by done. unfold wire. rewrite map_app.
    fold (wire (utf8_bytes c)) (wire (utf16_to_utf8 s)).
    pose proof (length_utf8_bytes c). pose proof (zlen_nonneg (utf16_to_utf8 s)).
    assert (forall m, puts m (wire (utf8_bytes c)) ->
      P (ensure malloc_ok 4;;; (m;;; write_utf_string_loop malloc_ok s))
        (zlen (utf8_bytes c) + zlen (utf16_to_utf8 s) + 4)
        (wire (utf8_bytes c) ++ wire (utf16_to_utf8 s))) as Hgo.
    { intros m Hm. rewrite <- Z.add_assoc, <- Hl.
      apply Hguarded; [done|rewrite Hl; lia|done|lia]. }
    cbn [write_utf_string_loop].
    destruct (Z.leb_spec c 0x007F); [by apply Hgo, puts_ascii|].
    destruct (Z.leb_spec c 0x07FF); [by apply Hgo, puts_utf2; lia|].
    destruct s as [|d s']; [by apply Hgo, puts_utf3; lia|].
    specialize (Hnp d s' eq_refl). unfold is_pair in Hnp.
    assert ((0x7FF <? c) = true) as E by (apply Z.ltb_lt; lia). rewrite E in Hnp. simpl in Hnp.
    rewrite Hnp. by apply Hgo, puts_utf3; lia.
  - inversion_clear Hs as [|? ? _ Hs']. inversion_clear Hs' as [|? ? _ Hs]. specialize (IH Hs).
    pose proof (pair_code_point c d Hp). set (cp := dx_surrogates_to_code_point c d) in *.
    cbn [write_utf_string_loop utf16_to_utf8]. rewrite Hp.
    unfold is_pair in Hp. bool_to_prop. decide_cmps.
    rewrite (proj2 (andb_true_iff _ _)) by done. fold cp.
    rewrite zlen_app, <- Z.add_assoc, <- Hl. unfold wire at 2. rewrite map_app.
    pose proof (length_utf8_bytes cp). pose proof (zlen_nonneg (utf16_to_utf8 s)).
    apply Hguarded; [by apply puts_utf4; lia|rewrite Hl; lia|done|lia].
Qed.

Lemma writes_utf_string_loop s :
  utf16_units s ->
  writes (write_utf_string_loop malloc_ok s) (zlen (utf16_to_utf8 s) + 4)
    (wire (utf16_to_utf8 s)).
Proof.
  apply utf_string_loop_rule; [apply (writes_weaken _ 0); [apply writes_nil|done]|apply writes_guarded].
Qed.

Lemma utf16_to_utf8_length s : zlen s <= zlen (utf16_to_utf8 s).
Proof using Type.
  clear malloc_ok.
  induction s as [|c s Hnp IH|c d s Hp IH] using utf16_ind.
  - done.
  - rewrite utf16_to_utf8_single, zlen_cons, zlen_app by done.
    pose proof (length_utf8_bytes c). lia.
  - cbn [utf16_to_utf8]. rewrite Hp, !zlen_cons, zlen_app.
    pose proof (pair_code_point c d Hp).
    assert (zlen (utf8_bytes (dx_surrogates_to_code_point c d)) = 4) as ->
      by (unfold utf8_bytes; decide_cmps; done).
    lia.
Qed.

Lemma writes_utf_string s :
  utf16_units s -> zlen (utf16_to_utf8 s) <= INT_MAX ->
  writes (dx_write_utf_string malloc_ok (Some s)) (zlen (utf16_to_utf8 s) + 9)
    (wire (compact_int_bytes (zlen (utf16_to_utf8 s)) ++ utf16_to_utf8 s)).
Proof.
  intros Hs Hmax. unfold dx_write_utf_string.
  pose proof (zlen_nonneg (utf16_to_utf8 s)).
  rewrite utf_len32_spec, Z.add_0_l by (done || lia).
  rewrite u64_id by (unfold is_u64, INT_MAX in *; lia).
  pose proof (utf16_to_utf8_length s).
  fold (zlen s). decide_cmps. unfold wire. rewrite map_app.
  assert (zlen (wire (compact_int_bytes (zlen (utf16_to_utf8 s)))) <= 5) as H5.
  { unfold zlen, wire, compact_int_bytes. rewrite length_map.
    repeat destruct_match; simpl; lia. }
  eapply writes_seq;
    [apply writes_compact_int|by apply writes_utf_string_loop| |].
  - unfold is_i32, INT_MAX in *. lia.
  - lia.
  - unfold wire in H5. lia.
Qed.
End strings.

(** ** Properties *)

(** [dx_get_compact_size] is the number of bytes [dx_write_compact_long]
    appends, for every 64-bit integer, whenever the buffer has nine bytes of
    room; the write then succeeds and leaves earlier bytes unchanged. *)
Lemma compact_size_exact (malloc_ok : Z -> bool) (c : out_ctx) (v : Z) :
  out_wf c -> is_i64 v -> current_out_buffer_position c + 9 <= out_buffer_length c ->
  exists c', dx_write_compact_long malloc_ok v c = Ok tt c' /\ out_wf c' /\
    current_out_buffer_position c' = current_out_buffer_position c + dx_get_compact_size v /\
    written c `prefix_of` written c'.
Proof.
  intros Hc Hv Hroom. pose proof Hc as (_ & Hm & _).
  destruct (writes_compact_long malloc_ok v Hv c Hc ltac:(lia)) as [Hfit _].
  destruct (Hfit Hroom) as (c' & -> & Hx & _). exists c'. split; [done|].
  split; [apply Hx|]. split; [|rewrite (proj2 Hx); apply prefix_app_r; done].
  rewrite (extends_position c c' _ Hc Hx). f_equal. unfold wire, zlen. rewrite length_map.
  unfold compact_long_bytes, compact_int_bytes, dx_get_compact_size.
  unfold is_i64, i32 in *. repeat destruct_match; bool_to_prop; simpl; lia.
Qed.

Definition out_example : out_ctx := OutCtx (Some (replicate 16 0)) 16 2.
Lemma out_example_wf : out_wf out_example.
Proof.
  split; [simpl; lia|]. split; [unfold INT_MAX; simpl; lia|]. by eexists.
Qed.

(** Growing the buffer: a capacity request either leaves the context
    alone and reports an overflow or the lack of memory, or makes room for the
    requested bytes with every byte written before still in place. *)
Theorem check_write_possibility_grows (malloc_ok : Z -> bool) (c : out_ctx) (n : Z) :
  out_wf c -> 0 <= n -> current_out_buffer_position c + n <= INT_MAX ->
  match dx_check_write_possibility malloc_ok n c with
  | Ok _ c' => out_wf c' /\ written c' = written c /\
      current_out_buffer_position c' = current_out_buffer_position c /\
      current_out_buffer_position c + n <= out_buffer_length c'
  | Err e c' => c' = c /\ out_buffer_length c < current_out_buffer_position c + n /\
      (e = dx_bioec_buffer_overflow /\
         INT_MAX < current_out_buffer_position c + out_buffer_length c \/
       e = dx_mec_insufficient_memory)
  | UB => False
  end.
Proof.
  intros Hc Hn Hmax. rewrite check_write_is_ensure by done.
  destruct (ensure_spec malloc_ok n c Hc Hn Hmax) as [Hfit He].
  assert (out_buffer_length c < current_out_buffer_position c + n \/
    current_out_buffer_position c + n <= out_buffer_length c) as [Hlt|Hle] by lia.
  2:{ rewrite Hfit by done. split_and!; done. }
  destruct (ensure malloc_ok n c) as [[] c'|e c'|] eqn:E; [| |done].
  - destruct He as [Hx Hroom]. pose proof (extends_position c c' [] Hc Hx) as Hp.
    destruct Hx as [Hc' Hw]. rewrite app_nil_r in Hw. rewrite Z.add_0_r in Hp. done.
  - destruct He as [He ->]. split; [done|]. split; [done|].
    destruct He as [->| ->]; [left|by right]. split; [done|].
    unfold ensure, checked_call, get, IS_CUR_CAPACITY_ENOUGH, dx_ensure_capacity,
      checked_call, get, dx_set_error_code, of_option, undefined, put, ret in E.
    repeat case_match; simplify_eq; bool_to_prop; try lia; congruence.
Qed.

Lemma check_write_possibility_grows_witness :
  match dx_check_write_possibility (fun _ => true) 20 out_example with
  | Ok _ c' => out_wf c' /\ written c' = written out_example /\
      current_out_buffer_position c' = 2 /\ 22 <= out_buffer_length c'
  | _ => False
  end.
Proof.
  pose proof (check_write_possibility_grows (fun _ => true) out_example 20 out_example_wf
    ltac:(lia) ltac:(unfold INT_MAX; simpl; lia)) as H.
  exact H.
Defined.

(** C28: [dx_write_utf] counts the encoded length in a 16-bit signed integer,
    so its test for strings that are too long is defeated: a string of 32768
    three-byte characters, 98304 bytes of UTF-8, passes the test and is
    written with the length field 0x8000. *)
Theorem write_utf_length_overflow (malloc_ok : Z -> bool) :
  let s := replicate (Z.to_nat 32768) 0x0800 in
  zlen (utf16_to_utf8 s) = 98304 /\
  dx_write_utf malloc_ok s =
    (dx_write_short malloc_ok (-32768);;; write_utf_loop malloc_ok s).
Proof.
  assert (forall k, zlen (utf16_to_utf8 (replicate k 0x0800)) = 3 * Z.of_nat k) as Hlen.
  { induction k as [|k IH]; [done|]. cbn [replicate].
    rewrite utf16_to_utf8_single, zlen_app, IH.
    - change (zlen (utf8_bytes 2048)) with 3. lia.
    - intros d s' Hd. destruct k as [|k]; [done|]. cbn in Hd. by simplify_eq. }
  intros s. split; [unfold s; rewrite Hlen, Z2Nat.id by lia; done|].
  unfold dx_write_utf.
  assert (utf_len16 s 0 = -32768) as -> by (vm_compute; reflexivity).
  unfold s at 1. rewrite length_replicate, Z2Nat.id by lia. reflexivity.
Qed.
