(* ===== verification/Input.v ===== *)
(** * Input: [src/BufferedInput.c]

    The input buffer of a connection and the read operations on it.  Reading
    a byte goes through [fetch], which is undefined outside the block; OUT
    pointers are results, so the tests of them against NULL have no model. *)

From S2P Require Import Prelude Arrays Output.
Local Open Scope Z_scope.
Local Open Scope c_scope.

Record in_ctx : Type := InCtx {
  in_buffer : option (list Z);   (** signed bytes; [None] is NULL *)
  in_buffer_length : Z;
  in_buffer_limit : Z;
  current_in_buffer_position : Z;
}.

Definition dx_set_in_buffer (new_buffer : option (list Z)) (new_length : Z) : M in_ctx unit :=
  c <-- get;;
  put (InCtx new_buffer new_length (in_buffer_limit c) (current_in_buffer_position c)).

Definition dx_set_in_buffer_position (new_position : Z) : M in_ctx unit :=
  c <-- get;; put (InCtx (in_buffer c) (in_buffer_length c) (in_buffer_limit c) new_position).

Definition dx_get_in_buffer_position : M in_ctx Z :=
  c <-- get;; ret (current_in_buffer_position c).

Definition IS_BUF_CAPACITY_ENOUGH (c : in_ctx) (bytes_to_read : Z) : bool :=
  i32 (current_in_buffer_position c + bytes_to_read) <=? in_buffer_length c.

(** [in_buffer[current_in_buffer_position++]] *)
Definition fetch : M in_ctx Z :=
  c <-- get;;
  match in_buffer c with
  | None => undefined
  | Some buf =>
      let pos := current_in_buffer_position c in
      if pos <? 0 then undefined
      else
        b <-- of_option (buf !! Z.to_nat pos);;
        dx_set_in_buffer_position (pos + 1);;; ret b
  end.

(** ** Helpers *)

(** Returns the part of [offset] that could not be moved. *)
Definition dx_move_buffer_pos (offset : Z) : M in_ctx Z :=
  c <-- get;;
  let actual_offset :=
    if 0 <? offset then Z.min offset (in_buffer_length c - current_in_buffer_position c)
    else Z.max offset (- current_in_buffer_position c) in
  dx_set_in_buffer_position (current_in_buffer_position c + actual_offset);;;
  ret (offset - actual_offset).

Definition dx_validate_buffer_and_value (value_size : Z) : M in_ctx unit :=
  c <-- get;;
  match in_buffer c with
  | None => dx_set_error_code dx_bioec_buffer_not_initialized
  | Some _ =>
      if IS_BUF_CAPACITY_ENOUGH c value_size then ret tt
      else dx_set_error_code dx_bioec_buffer_underflow
  end.

(** ** Fixed-width reads *)

Definition dx_read_boolean : M in_ctx Z :=
  dx_validate_buffer_and_value 1;;; b <-- fetch;; ret (u8 b).

Definition dx_read_byte : M in_ctx Z :=
  dx_validate_buffer_and_value 1;;; fetch.

Definition dx_read_unsigned_byte : M in_ctx Z :=
  dx_validate_buffer_and_value 1;;; b <-- fetch;; ret (Z.land (u32 b) 0xFF).

Definition dx_read_short : M in_ctx Z :=
  dx_validate_buffer_and_value 2;;;
  b1 <-- fetch;; b2 <-- fetch;;
  let value := i16 (Z.shiftl b1 8) in
  ret (i16 (Z.lor value (Z.land b2 0xFF))).

Definition dx_read_unsigned_short : M in_ctx Z :=
  dx_validate_buffer_and_value 2;;;
  b1 <-- fetch;; b2 <-- fetch;;
  let value := Z.shiftl (Z.land b1 0xFF) 8 in
  ret (Z.lor value (Z.land (u32 b2) 0xFF)).

Definition dx_read_int : M in_ctx Z :=
  dx_validate_buffer_and_value 4;;;
  b1 <-- fetch;; b2 <-- fetch;; b3 <-- fetch;; b4 <-- fetch;;
  let value := i32 (Z.shiftl (Z.land b1 0xFF) 24) in
  let value := Z.lor value (Z.shiftl (Z.land b2 0xFF) 16) in
  let value := Z.lor value (Z.shiftl (Z.land b3 0xFF) 8) in
  ret (Z.lor value (Z.land b4 0xFF)).

(** Only the last byte is masked; the others are sign-extended before the shift. *)
Definition dx_read_long : M in_ctx Z :=
  dx_validate_buffer_and_value 8;;;
  b1 <-- fetch;; b2 <-- fetch;; b3 <-- fetch;; b4 <-- fetch;;
  b5 <-- fetch;; b6 <-- fetch;; b7 <-- fetch;; b8 <-- fetch;;
  let value := i64 (Z.shiftl b1 56) in
  let value := Z.lor value (Z.shiftl b2 48) in
  let value := Z.lor value (Z.shiftl b3 40) in
  let value := Z.lor value (Z.shiftl b4 32) in
  let value := Z.lor value (Z.shiftl b5 24) in
  let value := Z.lor value (Z.shiftl b6 16) in
  let value := Z.lor value (Z.shiftl b7 8) in
  ret (Z.lor value (Z.land b8 0xFF)).

(** [dest] is the caller's buffer; the result is the buffer after the copy. *)
Definition dx_read_byte_buffer_segment (dest : list Z)
  (buffer_length segment_offset segment_length : Z) : M in_ctx (list Z) :=
  if Z.lor (Z.lor (Z.lor segment_offset segment_length)
              (i32 (segment_offset + segment_length)))
       (i32 (buffer_length - i32 (segment_offset + segment_length))) <? 0
  then dx_set_error_code dx_bioec_index_out_of_bounds
  else
    c <-- get;;
    if negb (IS_BUF_CAPACITY_ENOUGH c segment_length)
    then dx_set_error_code dx_bioec_buffer_underflow
    else
      match in_buffer c with
      | None => undefined
      | Some buf =>
          let pos := current_in_buffer_position c in
          if pos <? 0 then undefined
          else
            dest' <-- of_option (blit buf (Z.to_nat pos) dest (Z.to_nat segment_offset)
                       (Z.to_nat segment_length));;
            dx_set_in_buffer_position (pos + segment_length);;; ret dest'
      end.

(** ** Compact integers *)

(** The loop that skips the bytes of a number too long for an [int]:
    [n <= 0xFF] gives at most four rounds. *)
Fixpoint skip_loop (fuel : nat) (n : Z) : M in_ctx unit :=
  match fuel with
  | O => ret tt
  | S fuel' =>
      let n := i32 (Z.shiftl n 1) in
      if Z.land n 0x10 =? 0 then ret tt
      else dx_move_buffer_pos 1;;; skip_loop fuel' n
  end.

Definition dx_read_compact_int : M in_ctx Z :=
  n <-- dx_read_unsigned_byte;;
  if n <? 0x80 then ret (Z.shiftr (i32 (Z.shiftl n 25)) 25)
  else if n <? 0xC0 then
    m <-- dx_read_unsigned_byte;;
    ret (Z.shiftr (i32 (Z.shiftl (Z.lor (Z.shiftl n 8) m) 18)) 18)
  else if n <? 0xE0 then
    m <-- dx_read_unsigned_short;;
    ret (Z.shiftr (i32 (Z.shiftl (Z.lor (Z.shiftl n 16) m) 11)) 11)
  else if n <? 0xF0 then
    tmp_byte <-- dx_read_unsigned_byte;;
    tmp_short <-- dx_read_unsigned_short;;
    ret (Z.shiftr (i32 (Z.shiftl
           (Z.lor (Z.lor (i32 (Z.shiftl n 24)) (Z.shiftl tmp_byte 16)) tmp_short) 4)) 4)
  else skip_loop 5 n;;; dx_read_int.

(** In the two-byte case the operand is unsigned, so the right shift does not
    extend the sign. *)
Definition dx_read_compact_long : M in_ctx Z :=
  n <-- dx_read_unsigned_byte;;
  if n <? 0x80 then ret (Z.shiftr (i32 (Z.shiftl n 25)) 25)
  else if n <? 0xC0 then
    tmp_byte <-- dx_read_unsigned_byte;;
    ret (Z.shiftr (u32 (Z.shiftl (Z.lor (Z.shiftl n 8) tmp_byte) 18)) 18)
  else if n <? 0xE0 then
    tmp_short <-- dx_read_unsigned_short;;
    ret (Z.shiftr (i32 (Z.shiftl (Z.lor (Z.shiftl n 16) tmp_short) 11)) 11)
  else if n <? 0xF0 then
    tmp_byte <-- dx_read_unsigned_byte;;
    tmp_short <-- dx_read_unsigned_short;;
    ret (Z.shiftr (i32 (Z.shiftl
           (Z.lor (Z.lor (i32 (Z.shiftl n 24)) (Z.shiftl tmp_byte 16)) tmp_short) 4)) 4)
  else
    n <-- (if n <? 0xF8 then ret (Z.shiftr (i32 (Z.shiftl n 29)) 29)
           else if n <? 0xFC then
             tmp_byte <-- dx_read_unsigned_byte;;
             ret (Z.shiftr (i32 (Z.shiftl (Z.lor (Z.shiftl n 8) tmp_byte) 22)) 22)
           else if n <? 0xFE then
             tmp_short <-- dx_read_unsigned_short;;
             ret (Z.shiftr (i32 (Z.shiftl (Z.lor (Z.shiftl n 16) tmp_short) 15)) 15)
           else if n <? 0xFF then
             tmp_byte <-- dx_read_byte;;
             tmp_short <-- dx_read_unsigned_short;;
             ret (Z.lor (Z.shiftl tmp_byte 16) tmp_short)
           else dx_read_int);;
    tmp_int <-- dx_read_int;;
    ret (Z.lor (Z.shiftl n 32) (Z.land tmp_int 0xFFFFFFFF)).

(** ** UTF-8 *)

Definition dx_read_utf2 (first : Z) : M in_ctx Z :=
  second <-- dx_read_byte;;
  if negb (Z.land second 0xC0 =? 0x80)
  then dx_set_error_code dx_utfec_bad_utf_data_format_server
  else ret (Z.lor (Z.shiftl (Z.land first 0x1F) 6) (Z.land second 0x3F)).

Definition dx_read_utf3 (first : Z) : M in_ctx Z :=
  tail <-- dx_read_short;;
  if negb (Z.land tail 0xC0C0 =? 0x8080)
  then dx_set_error_code dx_utfec_bad_utf_data_format_server
  else ret (Z.lor (Z.lor (Z.shiftl (Z.land first 0x0F) 12)
                     (Z.shiftr (Z.land tail 0x3F00) 2)) (Z.land tail 0x3F)).

Definition dx_read_utf4 (first : Z) : M in_ctx Z :=
  second <-- dx_read_byte;;
  tail <-- dx_read_short;;
  if negb (Z.land second 0xC0 =? 0x80) || negb (Z.land tail 0xC0C0 =? 0x8080)
  then dx_set_error_code dx_utfec_bad_utf_data_format_server
  else
    let res := Z.lor (Z.lor (Z.lor (Z.shiftl (Z.land first 0x07) 18)
                               (Z.shiftl (Z.land second 0x3F) 12))
                        (Z.shiftr (Z.land tail 0x3F00) 2)) (Z.land tail 0x3F) in
    if 0x10FFFF <? res then dx_set_error_code dx_utfec_bad_utf_data_format_server
    else ret res.

Definition dx_read_utf_char : M in_ctx Z :=
  c <-- dx_read_byte;;
  if 0 <=? c then ret c
  else if Z.land c 0xE0 =? 0xC0 then dx_read_utf2 c
  else if Z.land c 0xF0 =? 0xE0 then dx_read_utf3 c
  else if Z.land c 0xF8 =? 0xF0 then dx_read_utf4 c
  else dx_set_error_code dx_utfec_bad_utf_data_format_server.

(** [dest_buffer] is the caller's buffer; the result is the buffer and the
    number of characters stored. *)
Definition dx_code_point_to_utf16_chars (code_point : Z) (dest_buffer : list Z)
  (dest_buffer_pos dest_buffer_length : Z) : M in_ctx (list Z * Z) :=
  if (code_point <? 0) || (MAX_CODE_POINT <? code_point)
  then dx_set_error_code dx_ec_invalid_func_param_internal
  else if code_point <? MIN_SUPPLEMENTARY_CODE_POINT then
    if dest_buffer_length - dest_buffer_pos <? 1
    then dx_set_error_code dx_bioec_index_out_of_bounds
    else
      buf <-- of_option (write_at dest_buffer (Z.to_nat dest_buffer_pos) code_point);;
      ret (buf, 1)
  else if dest_buffer_length - dest_buffer_pos <? 2
  then dx_set_error_code dx_bioec_index_out_of_bounds
  else
    let '(high, low) := dx_code_point_to_surrogates code_point in
    buf <-- of_option (write_at dest_buffer (Z.to_nat (dest_buffer_pos + 1)) low);;
    buf <-- of_option (write_at buf (Z.to_nat dest_buffer_pos) high);;
    ret (buf, 2).

(** The loop of [dx_read_utf_sequence]: each round takes at least one from
    [utflen], so [utflen] rounds are enough.  The result is the remaining
    [utflen], [buffer] and [count]. *)
Fixpoint utf_sequence_loop (fuel : nat) (lenInChars : bool) (utflen : Z)
  (buffer : list Z) (count : Z) : M in_ctx (Z * list Z * Z) :=
  match fuel with
  | O => ret (utflen, buffer, count)
  | S fuel' =>
      if 0 <? utflen then
        c <-- dx_read_byte;;
        if 0 <=? c then
          let utflen := utflen - 1 in
          buffer <-- of_option (write_at buffer (Z.to_nat count) c);;
          utf_sequence_loop fuel' lenInChars utflen buffer (count + 1)
        else if Z.land c 0xE0 =? 0xC0 then
          let utflen := utflen - (if lenInChars then 1 else 2) in
          tmpCh <-- dx_read_utf2 c;;
          buffer <-- of_option (write_at buffer (Z.to_nat count) tmpCh);;
          utf_sequence_loop fuel' lenInChars utflen buffer (count + 1)
        else if Z.land c 0xF0 =? 0xE0 then
          let utflen := utflen - (if lenInChars then 1 else 3) in
          tmpCh <-- dx_read_utf3 c;;
          buffer <-- of_option (write_at buffer (Z.to_nat count) tmpCh);;
          utf_sequence_loop fuel' lenInChars utflen buffer (count + 1)
        else if Z.land c 0xF8 =? 0xF0 then
          let utflen := utflen - (if lenInChars then 1 else 4) in
          tmpInt <-- dx_read_utf4 c;;
          r <-- dx_code_point_to_utf16_chars tmpInt buffer count utflen;;
          let '(buffer, res) := r in
          utf_sequence_loop fuel' lenInChars utflen buffer (count + res)
        else dx_set_error_code dx_utfec_bad_utf_data_format_server
      else ret (utflen, buffer, count)
  end.

(** The characters of a zero-terminated wide string. *)
Fixpoint c_string (l : list Z) : list Z :=
  match l with
  | [] => []
  | x :: l' => if x =? 0 then [] else x :: c_string l'
  end.

Section input.
(** Whether [dx_calloc] of so many elements succeeds. *)
Context (calloc_ok : Z -> bool).

Definition dx_create_string (size : Z) : option (list Z) :=
  let n := u64 (size + 1) in
  if calloc_ok n then Some (replicate (Z.to_nat n) 0) else None.

(** The result is the allocated buffer, terminator included. *)
Definition dx_read_utf_sequence (utflen : Z) (lenInChars : bool) : M in_ctx (list Z) :=
  if utflen =? 0 then
    if calloc_ok 1 then ret [0] else dx_set_error_code dx_mec_insufficient_memory
  else
    match dx_create_string utflen with
    | None => dx_set_error_code dx_mec_insufficient_memory
    | Some buffer =>
    r <-- utf_sequence_loop (Z.to_nat utflen) lenInChars utflen buffer 0;;
    let '(utflen, buffer, count) := r in
    if utflen <? 0 then dx_set_error_code dx_utfec_bad_utf_data_format_server
    else
      buffer <-- of_option (write_at buffer (Z.to_nat count) 0);;
      ret buffer
    end.

Definition dx_read_utf : M in_ctx (list Z) :=
  utflen <-- dx_read_unsigned_short;;
  dx_read_utf_sequence utflen false.

(** [None] is the NULL string. *)
Definition dx_read_utf_char_array : M in_ctx (option (list Z)) :=
  utflen <-- dx_read_compact_long;;
  if (utflen <? -1) || (INT_MAX <? utflen)
  then dx_set_error_code dx_ec_invalid_func_param_internal
  else if utflen =? -1 then ret None
  else s <-- dx_read_utf_sequence (i32 utflen) true;; ret (Some s).

Definition dx_read_utf_string : M in_ctx (option (list Z)) :=
  utflen <-- dx_read_compact_long;;
  if (utflen <? -1) || (INT_MAX <? utflen)
  then dx_set_error_code dx_ec_invalid_func_param_internal
  else if utflen =? -1 then ret None
  else s <-- dx_read_utf_sequence (i32 utflen) false;; ret (Some s).

Definition dx_read_byte_array : M in_ctx (dx_array Z) :=
  let buffer := DX_EMPTY_ARRAY in
  buffer_length <-- dx_read_compact_long;;
  if (buffer_length <? -1) || (INT_MAX <? buffer_length)
  then dx_set_error_code dx_ec_invalid_func_param_internal
  else if buffer_length =? -1 then ret buffer
  else if buffer_length =? 0 then ret buffer
  else
    r <-- of_option (DX_ARRAY_RESERVE 0 (fun n => calloc_ok (Z.of_nat n)) buffer
                       (Z.to_nat (i32 buffer_length)));;
    let '(buffer, failed) := r in
    if (failed : bool) then dx_set_error_code dx_mec_insufficient_memory
    else
      elements <-- dx_read_byte_buffer_segment (arr_elements buffer) (i32 buffer_length) 0
                     (i32 buffer_length);;
      ret (DxArray elements (arr_size buffer) (arr_capacity buffer)).

(** ** Lines *)

Definition tmp_buf_size : Z := 128.

(** The loop of [dx_read_line]; one round per byte of the buffer. *)
Fixpoint read_line_loop (fuel : nat) (tmp_buffer : list Z) (count : Z)
  : M in_ctx (list Z * Z) :=
  match fuel with
  | O => ret (tmp_buffer, count)
  | S fuel' =>
      ctx <-- get;;
      if current_in_buffer_position ctx <? in_buffer_length ctx then
        b <-- fetch;;
        let c := Z.land b 0xFF in
        if c =? 10 then ret (tmp_buffer, count)
        else if c =? 13 then
          ctx <-- get;;
          (if current_in_buffer_position ctx <? in_buffer_length ctx then
             next <-- of_option (buf ← in_buffer ctx;
                                 buf !! Z.to_nat (current_in_buffer_position ctx));;
             if next =? 10
             then dx_set_in_buffer_position (current_in_buffer_position ctx + 1)
             else ret tt
           else ret tt);;;
          ret (tmp_buffer, count)
        else if (tmp_buf_size <=? count) && negb (calloc_ok 256)
        then dx_set_error_code dx_mec_insufficient_memory
        else
          tmp_buffer <--
            (if tmp_buf_size <=? count
             then of_option (blit tmp_buffer 0 (replicate 256 0) 0 128)
             else ret tmp_buffer);;
          tmp_buffer <-- of_option (write_at tmp_buffer (Z.to_nat count) c);;
          read_line_loop fuel' tmp_buffer (count + 1)
      else ret (tmp_buffer, count)
  end.

Definition dx_read_line : M in_ctx (list Z) :=
  dx_validate_buffer_and_value 1;;;
  if negb (calloc_ok tmp_buf_size) then dx_set_error_code dx_mec_insufficient_memory
  else
    c <-- get;;
    r <-- read_line_loop (Z.to_nat (in_buffer_length c - current_in_buffer_position c))
            (replicate 128 0) 0;;
    let '(tmp_buffer, count) := r in
    tmp_buffer <-- of_option (write_at tmp_buffer (Z.to_nat count) 0);;
    ret tmp_buffer.
End input.
