(* ===== verification/Wire.v ===== *)
(** * Wire: reading back what was written

    [reads m bs v]: on a buffer whose unread part starts with the bytes [bs],
    the read operation [m] returns [v] and consumes exactly [bs].  The class
    [Codec] pairs it with the writer's contract of [Output]; the round trips of
    the file go through it.  [safe] states that a read never touches memory
    outside the buffer, whatever the bytes. *)

From S2P Require Import Prelude Arrays Output Input.
Local Open Scope Z_scope.
Local Open Scope c_scope.

Definition in_wf (c : in_ctx) : Prop :=
  0 <= current_in_buffer_position c <= in_buffer_length c /\
  in_buffer_length c <= INT_MAX /\
  exists buf, in_buffer c = Some buf /\ in_buffer_length c <= zlen buf.

(** The bytes not read yet. *)
Definition remaining (c : in_ctx) : list Z :=
  drop (Z.to_nat (current_in_buffer_position c))
    (take (Z.to_nat (in_buffer_length c)) (default [] (in_buffer c))).

Definition advance (c : in_ctx) (n : Z) : in_ctx :=
  InCtx (in_buffer c) (in_buffer_length c) (in_buffer_limit c)
    (current_in_buffer_position c + n).

Definition reads {A} (m : M in_ctx A) (bs : list Z) (v : A) : Prop :=
  forall c tail, in_wf c -> remaining c = bs ++ tail -> m c = Ok v (advance c (zlen bs)).

Lemma length_remaining c :
  in_wf c -> zlen (remaining c) = in_buffer_length c - current_in_buffer_position c.
Proof.
  intros (Hp & _ & buf & Hb & Hl). unfold remaining, zlen in *. rewrite Hb.
  rewrite length_drop, length_take. simpl. lia.
Qed.

Lemma remaining_advance c bs tail :
  in_wf c -> remaining c = bs ++ tail ->
  in_wf (advance c (zlen bs)) /\ remaining (advance c (zlen bs)) = tail.
Proof.
  intros Hc Hr. pose proof (length_remaining c Hc) as Hl. rewrite Hr, zlen_app in Hl.
  pose proof (zlen_nonneg bs). pose proof (zlen_nonneg tail). split.
  - destruct Hc as (? & ? & ?). split; [simpl; lia|done].
  - unfold remaining, advance in *; cbn in *.
    rewrite Z2Nat.inj_add, <- drop_drop, Hr by (destruct Hc; lia).
    unfold zlen. rewrite Nat2Z.id. by rewrite drop_app_length.
Qed.

Lemma reads_bind {A B} (m : M in_ctx A) (k : A -> M in_ctx B) b1 b2 x y :
  reads m b1 x -> reads (k x) b2 y -> reads (checked_call m k) (b1 ++ b2) y.
Proof.
  intros Hm Hk c tail Hc Hr. rewrite <- app_assoc in Hr.
  destruct (remaining_advance c b1 (b2 ++ tail) Hc Hr) as [Hc' Hr'].
  unfold checked_call. rewrite (Hm c _ Hc Hr), (Hk _ _ Hc' Hr').
  f_equal. unfold advance; cbn. f_equal. rewrite zlen_app. lia.
Qed.

Lemma reads_ret {A} (v : A) : reads (ret v) [] v.
Proof. intros c tail _ _. unfold ret, advance. destruct c; cbn. f_equal. f_equal. unfold zlen; simpl; lia. Qed.

Lemma reads_bind_ret {A B} (m : M in_ctx A) (f : A -> B) bs x y :
  reads m bs x -> f x = y -> reads (checked_call m (fun v => ret (f v))) bs y.
Proof.
  intros Hm <-. rewrite <- (app_nil_r bs). eapply reads_bind; [done|apply reads_ret].
Qed.

Lemma reads_value {A} (m : M in_ctx A) bs x y : reads m bs x -> x = y -> reads m bs y.
Proof. by intros ? <-. Qed.

Lemma reads_fetch b : reads fetch [b] b.
Proof.
  intros c tail Hc Hr. pose proof Hc as (Hp & _ & buf & Hb & Hl).
  assert (buf !! Z.to_nat (current_in_buffer_position c) = Some b) as Hx.
  { unfold remaining in Hr. rewrite Hb in Hr. simpl in Hr.
    assert (0 < length (b :: tail))%nat as Hn by (simpl; lia). rewrite <- Hr in Hn.
    rewrite length_drop, length_take in Hn.
    assert (drop (Z.to_nat (current_in_buffer_position c))
      (take (Z.to_nat (in_buffer_length c)) buf) !! 0%nat = Some b) as H0 by (rewrite Hr; done).
    rewrite lookup_drop, Nat.add_0_r, lookup_take_lt in H0 by lia. done. }
  unfold fetch, checked_call, get. rewrite Hb. cbn zeta. decide_cmps. rewrite Hx. done.
Qed.

(** The capacity test passes and consumes nothing. *)
Lemma reads_validate {B} (k : M in_ctx B) n bs v :
  zlen bs = n -> reads k bs v -> reads (dx_validate_buffer_and_value n;;; k) bs v.
Proof.
  intros Hn Hk c tail Hc Hr. pose proof (length_remaining c Hc) as Hl.
  rewrite Hr, zlen_app in Hl. pose proof (zlen_nonneg bs). pose proof (zlen_nonneg tail).
  pose proof Hc as (Hp & Hm & buf & Hb & _).
  unfold dx_validate_buffer_and_value, checked_call, get, IS_BUF_CAPACITY_ENOUGH. rewrite Hb.
  rewrite i32_id by (unfold is_i32, INT_MAX in *; lia). decide_cmps. cbn.
  by apply (Hk c tail).
Qed.

Lemma reads_fetch_bind {B} (k : Z -> M in_ctx B) b bs v :
  reads (k b) bs v -> reads (checked_call fetch k) (b :: bs) v.
Proof. intros. by apply (reads_bind fetch k [b] bs b v); [apply reads_fetch|]. Qed.

Ltac reads_bytes :=
  apply reads_validate; [done|]; repeat (apply reads_fetch_bind);
  first [ eapply reads_value; [apply reads_ret|] | eapply reads_value; [apply reads_fetch|] ].

Lemma land_ff b : Z.land (i8 b) 0xFF = b mod 256.
Proof. rewrite land_255. intlia. Qed.

Lemma lor_shl a b k : 0 <= k -> 0 <= b < 2 ^ k -> Z.lor (Z.shiftl a k) b = a * 2 ^ k + b.
Proof. intros. rewrite shl_mul by done. by apply lor_add. Qed.

Lemma reads_byte b : reads dx_read_byte [i8 b] (i8 b).
Proof. apply reads_validate; [done|]. apply reads_fetch. Qed.

Lemma reads_boolean b : reads dx_read_boolean [i8 b] (u8 b).
Proof. reads_bytes. intlia. Qed.

Lemma reads_unsigned_byte b : reads dx_read_unsigned_byte [i8 b] (b mod 256).
Proof. reads_bytes. rewrite land_255. intlia. Qed.

Lemma reads_short v : reads dx_read_short (wire (be_bytes 2 v)) (i16 v).
Proof.
  reads_bytes. rewrite land_ff, shl_mul by lia.
  replace (i16 (i8 ((v / 256) mod 256) * 2 ^ 8)) with (i8 (v / 256) * 2 ^ 8)
    by (simpl Z.pow; intlia).
  rewrite lor_add by (simpl Z.pow; zlia). simpl Z.pow. intlia.
Qed.

Lemma reads_unsigned_short v : reads dx_read_unsigned_short (wire (be_bytes 2 v)) (v mod 65536).
Proof.
  reads_bytes. rewrite land_ff. rewrite land_255.
  replace (u32 (i8 (v mod 256)) mod 256) with (v mod 256) by intlia.
  rewrite lor_shl by (simpl Z.pow; zlia). simpl Z.pow. zlia.
Qed.

(** Or-ing a byte after a shift that left it room. *)
Lemma lor_byte a b k : 0 <= k -> (2 ^ (k + 8) | a) -> 0 <= b < 256 ->
  Z.lor a (Z.shiftl b k) = a + b * 2 ^ k.
Proof.
  intros Hk [q ->] Hb. rewrite shl_mul by done. apply lor_add; [lia|].
  rewrite Z.pow_add_r by lia. pose proof (Z.pow_pos_nonneg 2 k ltac:(lia) Hk). nia.
Qed.

Lemma reads_int v : reads dx_read_int (wire (be_bytes 4 v)) (i32 v).
Proof.
  reads_bytes. rewrite !land_ff. rewrite !Z.mod_mod by lia.
  set (b3 := (v / 256 / 256 / 256) mod 256). set (b2 := (v / 256 / 256) mod 256).
  set (b1 := (v / 256) mod 256). set (b0 := v mod 256).
  rewrite <- (Z.shiftl_0_r b0) at 1.
  assert (0 <= b3 < 256 /\ 0 <= b2 < 256 /\ 0 <= b1 < 256 /\ 0 <= b0 < 256) by (unfold b3, b2, b1, b0; zlia).
  rewrite (shl_mul b3) by lia.
  assert (i32 (b3 * 2 ^ 24) = i8 b3 * 2 ^ 24) as -> by (simpl Z.pow; intlia).
  rewrite (lor_byte (i8 b3 * 2 ^ 24) b2 16); [|lia|exists (i8 b3); simpl Z.pow; lia|lia].
  rewrite (lor_byte _ b1 8); [|lia|exists (i8 b3 * 256 + b2); simpl Z.pow; lia|lia].
  rewrite (lor_byte _ b0 0);
    [|lia|exists ((i8 b3 * 256 + b2) * 256 + b1); simpl Z.pow; lia|lia].
  simpl Z.pow. unfold b3, b2, b1, b0. intlia.
Qed.

(** The value [dx_read_long] assembles: every byte but the last is
    sign-extended before it is or-ed in. *)
Lemma reads_long v :
  reads dx_read_long (wire (be_bytes 8 v))
    (Z.lor (Z.lor (Z.lor (Z.lor (Z.lor (Z.lor (Z.lor
       (i8 (v / 256 ^ 7) * 2 ^ 56) (i8 (v / 256 ^ 6) * 2 ^ 48))
       (i8 (v / 256 ^ 5) * 2 ^ 40)) (i8 (v / 256 ^ 4) * 2 ^ 32))
       (i8 (v / 256 ^ 3) * 2 ^ 24)) (i8 (v / 256 ^ 2) * 2 ^ 16))
       (i8 (v / 256) * 2 ^ 8)) (v mod 256)).
Proof.
  assert (forall w, i8 (w mod 256) = i8 w) as Hw by (intros; intlia).
  assert (forall w, i64 (i8 w * 2 ^ 56) = i8 w * 2 ^ 56) as H56
    by (intros w; simpl Z.pow; unfold i8, i64; zlia).
  reads_bytes. rewrite land_ff, Z.mod_mod by lia. rewrite !Hw, !shl_mul, H56 by lia.
  rewrite !Z.div_div by lia. reflexivity.
Qed.

(** ** Compact integers *)

Lemma lor3_bytes n a b :
  Z.lor (Z.lor (n * 2 ^ 24) (Z.shiftl (a mod 256) 16)) (b mod 65536) =
    n * 2 ^ 24 + (a mod 256) * 2 ^ 16 + b mod 65536.
Proof.
  rewrite (lor_byte _ (a mod 256) 16); [|lia|exists n; simpl Z.pow; lia|zlia].
  replace (n * 2 ^ 24 + (a mod 256) * 2 ^ 16) with ((n * 2 ^ 8 + a mod 256) * 2 ^ 16)
    by (simpl Z.pow; lia).
  apply lor_add; [lia|simpl Z.pow; zlia].
Qed.

Lemma high_nibble w : i32 (Z.shiftl (224 + w mod 16) 24) = (w mod 16 - 32) * 2 ^ 24.
Proof. rewrite shl_mul by lia. simpl Z.pow. unfold i32. zlia. Qed.

Ltac first_byte n :=
  match goal with |- reads _ (wire (?b :: _)) _ =>
    eapply (reads_bind _ _ [i8 b]); [apply reads_unsigned_byte|];
    replace (b mod 256) with n by zlia end.

Lemma wire_cons b bs : wire (b :: bs) = i8 b :: wire bs.
Proof. done. Qed.
Lemma wire_app b1 b2 : wire (b1 ++ b2) = wire b1 ++ wire b2.
Proof. apply map_app. Qed.

(** A long number's prefix bytes of an [int] are the five-byte prefixes. *)
Lemma skip_none n : n = 0xF0 \/ n = 0xF7 -> skip_loop 5 n = ret tt.
Proof. by intros [-> | ->]. Qed.

Lemma compact_size_cases v :
  is_i32 v ->
  dx_get_compact_size v = 1 /\ -0x40 <= v < 0x40 \/
  dx_get_compact_size v = 2 /\ (-0x2000 <= v < -0x40 \/ 0x40 <= v < 0x2000) \/
  dx_get_compact_size v = 3 /\ (-0x100000 <= v < -0x2000 \/ 0x2000 <= v < 0x100000) \/
  dx_get_compact_size v = 4 /\ (-0x08000000 <= v < -0x100000 \/ 0x100000 <= v < 0x08000000) \/
  dx_get_compact_size v = 5 /\ (v < -0x08000000 \/ 0x08000000 <= v).
Proof.
  unfold is_i32, dx_get_compact_size. intros. repeat destruct_match; bool_to_prop; lia.
Qed.

Lemma reads_compact_int v :
  is_i32 v -> reads dx_read_compact_int (wire (compact_int_bytes v)) v.
Proof.
  intros Hv. pose proof (compact_size_cases v Hv) as Hs. unfold is_i32 in Hv.
  unfold compact_int_bytes.
  destruct Hs as [[-> Hr]|[[-> Hr]|[[-> Hr]|[[-> Hr]|[-> Hr]]]]]; cbn [Z.eqb Pos.eqb];
    unfold dx_read_compact_int.
  - first_byte (v mod 128). pose proof (Z.mod_pos_bound v 128). decide_cmps.
    eapply reads_value; [apply reads_ret|].
    rewrite shr_div, shl_mul by lia. simpl Z.pow. unfold i32. zlia.
  - change (v / 2 ^ 8) with (v / 256). first_byte (0x80 + (v / 256) mod 64).
    pose proof (Z.mod_pos_bound (v / 256) 64). decide_cmps.
    eapply reads_bind_ret; [apply (reads_unsigned_byte (v mod 256))|].
    rewrite Z.mod_mod, lor_shl, shr_div, shl_mul by (simpl Z.pow; zlia).
    simpl Z.pow. unfold i32. zlia.
  - change (v / 2 ^ 16) with (v / 65536). first_byte (0xC0 + (v / 65536) mod 32).
    pose proof (Z.mod_pos_bound (v / 65536) 32). decide_cmps.
    eapply reads_bind_ret; [apply (reads_unsigned_short v)|].
    rewrite lor_shl, shr_div, shl_mul by (simpl Z.pow; zlia).
    simpl Z.pow. unfold i32. zlia.
  - change (v / 2 ^ 24) with (v / 16777216). first_byte (0xE0 + (v / 16777216) mod 16).
    pose proof (Z.mod_pos_bound (v / 16777216) 16). decide_cmps.
    eapply (reads_bind _ _ [_] (wire (be_bytes 2 v)));
      [apply (reads_unsigned_byte ((v / 256 / 256) mod 256))|].
    eapply reads_bind_ret; [apply (reads_unsigned_short v)|].
    rewrite high_nibble, Z.mod_mod, lor3_bytes, shr_div, shl_mul by lia.
    simpl Z.pow. unfold i32. zlia.
  - change (v / 2 ^ 32) with (v / 4294967296). first_byte (0xF0 + (v / 4294967296) mod 8).
    pose proof (Z.mod_pos_bound (v / 4294967296) 8). decide_cmps.
    rewrite skip_none by zlia.
    eapply (reads_bind _ _ [] (wire (be_bytes 4 v))); [apply reads_ret|].
    eapply reads_value; [apply reads_int|]. apply i32_id. done.
Qed.

Definition compact_long_read (v : Z) : Z :=
  if (-0x2000 <=? v) && (v <? -0x40) then v + 0x4000 else v.

(** The high word of the long format. *)
Lemma reads_high_word {B} (k f1 f2 f3 f4 : Z -> M in_ctx B) hi bs v :
  is_i32 hi -> reads (k hi) bs v ->
  reads (n <-- dx_read_unsigned_byte;;
         if n <? 0x80 then f1 n
         else if n <? 0xC0 then f2 n
         else if n <? 0xE0 then f3 n
         else if n <? 0xF0 then f4 n
         else
           n <-- (if n <? 0xF8 then ret (Z.shiftr (i32 (Z.shiftl n 29)) 29)
                  else if n <? 0xFC then
                    tmp_byte <-- dx_read_unsigned_byte;;
                    ret (Z.shiftr (i32 (Z.shiftl (Z.lor (Z.shiftl n 8) tmp_byte) 22)) 22)
                  else if n <? 0xFE then
                    tmp_short <-- dx_read_unsigned_short;;
                    ret (Z.shiftr (i32 (Z.shiftl (Z.lor (Z.shiftl n 16) tmp_short) 15)) 15)
                  else if n <? 0xFF then
                    tmp_byte <-- dx_read_byte;;
                    tmp_short <-- dx_read_unsigned_short;;
                    ret (Z.lor (Z.shiftl tmp_byte 16) tmp_short)
                  else dx_read_int);;
           k n)
    (wire (high_word_bytes hi) ++ bs) v.
Proof.
  intros Hhi Hk. unfold is_i32 in Hhi. unfold high_word_bytes.
  repeat match goal with
  | |- context [if ?b then _ else _] => destruct b eqn:?
  end; bool_to_prop.
  - eapply (reads_bind _ _ [_]); [apply reads_unsigned_byte|].
    replace ((0xF0 + hi mod 8) mod 256) with (0xF0 + hi mod 8) by zlia.
    pose proof (Z.mod_pos_bound hi 8). decide_cmps.
    eapply (reads_bind _ _ [] bs); [apply reads_ret|].
    replace (Z.shiftr _ _) with hi; [done|].
    rewrite shr_div, shl_mul by lia. simpl Z.pow. unfold i32. zlia.
  - eapply (reads_bind _ _ [_] ([_] ++ bs)); [apply reads_unsigned_byte|].
    replace ((0xF8 + hi / 256 mod 4) mod 256) with (0xF8 + hi / 256 mod 4) by zlia.
    pose proof (Z.mod_pos_bound (hi / 256) 4). decide_cmps.
    eapply (reads_bind _ _ [_] bs);
      [eapply reads_bind_ret; [apply (reads_unsigned_byte (hi mod 256))|reflexivity]|].
    replace (Z.shiftr _ _) with hi; [done|].
    rewrite Z.mod_mod, lor_shl, shr_div, shl_mul by (simpl Z.pow; zlia).
    simpl Z.pow. unfold i32. zlia.
  - eapply (reads_bind _ _ [_] (wire (be_bytes 2 hi) ++ bs)); [apply reads_unsigned_byte|].
    replace ((0xFC + hi / 65536 mod 2) mod 256) with (0xFC + hi / 65536 mod 2) by zlia.
    pose proof (Z.mod_pos_bound (hi / 65536) 2). decide_cmps.
    eapply reads_bind; [eapply reads_bind_ret; [apply (reads_unsigned_short hi)|reflexivity]|].
    replace (Z.shiftr _ _) with hi; [done|].
    rewrite lor_shl, shr_div, shl_mul by (simpl Z.pow; zlia).
    simpl Z.pow. unfold i32. zlia.
  - eapply (reads_bind _ _ [_] (wire (be_bytes 3 hi) ++ bs)); [apply (reads_unsigned_byte 0xFE)|].
    change (254 mod 256) with 254. decide_cmps.
    eapply (reads_bind _ _ (wire (be_bytes 3 hi)) bs).
    + eapply (reads_bind _ _ [_] (wire (be_bytes 2 hi))); [apply (reads_byte ((hi / 256 / 256) mod 256))|].
      eapply reads_bind_ret; [apply (reads_unsigned_short hi)|reflexivity].
    + rewrite lor_shl by (simpl Z.pow; zlia). replace (_ + _) with hi; [done|].
      simpl Z.pow. unfold i8. zlia.
  - eapply (reads_bind _ _ [_] (wire (be_bytes 4 hi) ++ bs)); [apply (reads_unsigned_byte 0xFF)|].
    change (255 mod 256) with 255. decide_cmps.
    eapply (reads_bind _ _ (wire (be_bytes 4 hi)) bs); [apply reads_int|].
    by rewrite i32_id.
Qed.

Lemma land_word_i32 v : Z.land (i32 v) 0xFFFFFFFF = v mod 2 ^ 32.
Proof. change 0xFFFFFFFF with (Z.ones 32). rewrite Z.land_ones by lia. simpl Z.pow. intlia. Qed.

Lemma reads_compact_long_wide v :
  is_i64 v ->
  reads dx_read_compact_long (wire (high_word_bytes (v / 2 ^ 32) ++ be_bytes 4 v)) v.
Proof.
  intros Hv. rewrite wire_app. unfold dx_read_compact_long.
  apply (reads_high_word (fun n => tmp_int <-- dx_read_int;;
           ret (Z.lor (Z.shiftl n 32) (Z.land tmp_int 0xFFFFFFFF)))
           (fun n => ret (Z.shiftr (i32 (Z.shiftl n 25)) 25))).
  { unfold is_i32, is_i64 in *. simpl Z.pow. zlia. }
  eapply reads_bind_ret; [apply reads_int|].
  rewrite land_word_i32, lor_shl by (simpl Z.pow; zlia). simpl Z.pow. zlia.
Qed.

Lemma compact_long_read_id v : ~ (-0x2000 <= v < -0x40) -> compact_long_read v = v.
Proof.
  unfold compact_long_read. intros.
  destruct (_ && _)%bool eqn:E; [|done]. apply andb_true_iff in E. lia.
Qed.

Lemma compact_long_read_neg v : -0x2000 <= v < -0x40 -> compact_long_read v = v + 0x4000.
Proof. unfold compact_long_read. intros. by decide_cmps. Qed.

Lemma reads_compact_long_narrow v :
  is_i32 v -> reads dx_read_compact_long (wire (compact_int_bytes v)) (compact_long_read v).
Proof.
  intros Hv. pose proof (compact_size_cases v Hv) as Hs. unfold is_i32 in Hv.
  unfold compact_int_bytes.
  destruct Hs as [[-> Hr]|[[-> Hr]|[[-> Hr]|[[-> Hr]|[-> Hr]]]]]; cbn [Z.eqb Pos.eqb].
  - rewrite compact_long_read_id by lia. unfold dx_read_compact_long.
    first_byte (v mod 128). pose proof (Z.mod_pos_bound v 128). decide_cmps.
    eapply reads_value; [apply reads_ret|].
    rewrite shr_div, shl_mul by lia. simpl Z.pow. unfold i32. zlia.
  - unfold dx_read_compact_long.
    change (v / 2 ^ 8) with (v / 256). first_byte (0x80 + (v / 256) mod 64).
    pose proof (Z.mod_pos_bound (v / 256) 64). decide_cmps.
    eapply reads_bind_ret; [apply (reads_unsigned_byte (v mod 256))|].
    rewrite Z.mod_mod, lor_shl, shr_div, shl_mul by (simpl Z.pow; zlia).
    simpl Z.pow. unfold u32. destruct Hr as [Hr|Hr].
    + rewrite compact_long_read_neg by lia. zlia.
    + rewrite compact_long_read_id by lia. zlia.
  - rewrite compact_long_read_id by lia. unfold dx_read_compact_long.
    change (v / 2 ^ 16) with (v / 65536). first_byte (0xC0 + (v / 65536) mod 32).
    pose proof (Z.mod_pos_bound (v / 65536) 32). decide_cmps.
    eapply reads_bind_ret; [apply (reads_unsigned_short v)|].
    rewrite lor_shl, shr_div, shl_mul by (simpl Z.pow; zlia).
    simpl Z.pow. unfold i32. zlia.
  - rewrite compact_long_read_id by lia. unfold dx_read_compact_long.
    change (v / 2 ^ 24) with (v / 16777216). first_byte (0xE0 + (v / 16777216) mod 16).
    pose proof (Z.mod_pos_bound (v / 16777216) 16). decide_cmps.
    eapply (reads_bind _ _ [_] (wire (be_bytes 2 v)));
      [apply (reads_unsigned_byte ((v / 256 / 256) mod 256))|].
    eapply reads_bind_ret; [apply (reads_unsigned_short v)|].
    rewrite high_nibble, Z.mod_mod, lor3_bytes, shr_div, shl_mul by lia.
    simpl Z.pow. unfold i32. zlia.
  - rewrite compact_long_read_id by lia.
    assert (high_word_bytes (v / 2 ^ 32) = [0xF0 + (v / 2 ^ 32) mod 8]) as E.
    { unfold high_word_bytes. change (2 ^ 32) with 4294967296.
      replace (_ && _)%bool with true; [done|]. symmetry. apply andb_true_iff.
      split; [apply Z.leb_le|apply Z.ltb_lt]; zlia. }
    change (_ :: be_bytes 4 v) with ([0xF0 + (v / 2 ^ 32) mod 8] ++ be_bytes 4 v).
    rewrite <- E. apply reads_compact_long_wide. unfold is_i64. lia.
Qed.

(** What [dx_read_compact_long] makes of the compact format. *)
Lemma reads_compact_long v :
  is_i64 v -> reads dx_read_compact_long (wire (compact_long_bytes v)) (compact_long_read v).
Proof.
  intros Hv. destruct (decide (v = i32 v)) as [Heq|Hne].
  - assert (is_i32 v) by (rewrite Heq; apply i32_range).
    rewrite compact_long_small by done. by apply reads_compact_long_narrow.
  - rewrite compact_long_split by done. rewrite compact_long_read_id.
    + by apply reads_compact_long_wide.
    + intros ?. apply Hne. intlia.
Qed.

(** ** UTF-8 *)

Lemma utf_class2 x : 0 <= x < 32 ->
  (0 <=? i8 (0xC0 + x)) = false /\ (Z.land (i8 (0xC0 + x)) 0xE0 =? 0xC0) = true /\
  Z.land (i8 (0xC0 + x)) 0x1F = x.
Proof.
  intros Hx. pose proof (finite_check (fun x => negb (0 <=? i8 (0xC0 + x)) &&
    ((Z.land (i8 (0xC0 + x)) 0xE0 =? 0xC0) && (Z.land (i8 (0xC0 + x)) 0x1F =? x))) 0 32
    ltac:(vm_compute; reflexivity) x Hx) as H.
  simpl in H. bool_to_prop. rewrite ?Z.eqb_eq, ?Z.eqb_neq, ?Z.leb_gt. done.
Qed.

Lemma utf_class3 x : 0 <= x < 16 ->
  (0 <=? i8 (0xE0 + x)) = false /\ (Z.land (i8 (0xE0 + x)) 0xE0 =? 0xC0) = false /\
  (Z.land (i8 (0xE0 + x)) 0xF0 =? 0xE0) = true /\ Z.land (i8 (0xE0 + x)) 0x0F = x.
Proof.
  intros Hx. pose proof (finite_check (fun x => negb (0 <=? i8 (0xE0 + x)) &&
    (negb (Z.land (i8 (0xE0 + x)) 0xE0 =? 0xC0) && ((Z.land (i8 (0xE0 + x)) 0xF0 =? 0xE0) &&
     (Z.land (i8 (0xE0 + x)) 0x0F =? x)))) 0 16 ltac:(vm_compute; reflexivity) x Hx) as H.
  simpl in H. bool_to_prop. rewrite ?Z.eqb_eq, ?Z.eqb_neq, ?Z.leb_gt. done.
Qed.

Lemma utf_class4 x : 0 <= x < 8 ->
  (0 <=? i8 (0xF0 + x)) = false /\ (Z.land (i8 (0xF0 + x)) 0xE0 =? 0xC0) = false /\
  (Z.land (i8 (0xF0 + x)) 0xF0 =? 0xE0) = false /\
  (Z.land (i8 (0xF0 + x)) 0xF8 =? 0xF0) = true /\ Z.land (i8 (0xF0 + x)) 0x07 = x.
Proof.
  intros Hx. pose proof (finite_check (fun x => negb (0 <=? i8 (0xF0 + x)) &&
    (negb (Z.land (i8 (0xF0 + x)) 0xE0 =? 0xC0) && (negb (Z.land (i8 (0xF0 + x)) 0xF0 =? 0xE0) &&
     ((Z.land (i8 (0xF0 + x)) 0xF8 =? 0xF0) && (Z.land (i8 (0xF0 + x)) 0x07 =? x))))) 0 8
    ltac:(vm_compute; reflexivity) x Hx) as H.
  simpl in H. bool_to_prop. rewrite ?Z.eqb_eq, ?Z.eqb_neq, ?Z.leb_gt. done.
Qed.

Lemma utf_tail x : 0 <= x < 64 ->
  (Z.land (i8 (0x80 + x)) 0xC0 =? 0x80) = true /\ Z.land (i8 (0x80 + x)) 0x3F = x.
Proof.
  intros Hx. pose proof (finite_check (fun x => (Z.land (i8 (0x80 + x)) 0xC0 =? 0x80) &&
    (Z.land (i8 (0x80 + x)) 0x3F =? x)) 0 64 ltac:(vm_compute; reflexivity) x Hx) as H.
  simpl in H. bool_to_prop. rewrite ?Z.eqb_eq, ?Z.eqb_neq, ?Z.leb_gt. done.
Qed.

(** Two continuation bytes read as a short. *)
Lemma utf_tails x y : 0 <= x < 64 -> 0 <= y < 64 ->
  let t := i16 ((0x80 + x) * 256 + (0x80 + y)) in
  (Z.land t 0xC0C0 =? 0x8080) = true /\ Z.shiftr (Z.land t 0x3F00) 2 = x * 64 /\
  Z.land t 0x3F = y.
Proof.
  intros Hx Hy t.
  assert (t = i8 (0x80 + x) * 2 ^ 8 + (0x80 + y)) as -> by (unfold t; simpl Z.pow; intlia).
  destruct (utf_tail x Hx) as [H1 H2], (utf_tail y Hy) as [H3 H4].
  assert (i8 (0x80 + y) = y - 128) as Ey by intlia. rewrite Ey in H3, H4.
  assert (forall m, 0 <= m < 256 -> Z.land (0x80 + y) m = Z.land (y - 128) m) as Hm.
  { intros m Hm. rewrite <- (Z.mod_small m 256), <- land_255, !(Z.land_comm m), !Z.land_assoc by lia.
    f_equal. rewrite !land_255. zlia. }
  assert (forall a b, 0 <= a < 256 -> 0 <= b < 256 ->
    Z.land (i8 (0x80 + x) * 2 ^ 8 + (0x80 + y)) (a * 2 ^ 8 + b) =
      Z.land (i8 (0x80 + x)) a * 2 ^ 8 + Z.land (y - 128) b) as Hs.
  { intros a b Ha Hb. rewrite land_split by (simpl Z.pow; lia). by rewrite Hm. }
  bool_to_prop.
  pose proof (Hs 0xC0 0xC0 ltac:(lia) ltac:(lia)) as E1. rewrite H1, H3 in E1.
  pose proof (Hs 0x3F 0 ltac:(lia) ltac:(lia)) as E2. rewrite H2, Z.land_0_r in E2.
  pose proof (Hs 0 0x3F ltac:(lia) ltac:(lia)) as E3. rewrite H4, Z.land_0_r in E3.
  change (0xC0 * 2 ^ 8 + 0xC0) with 0xC0C0 in E1. change (0x3F * 2 ^ 8 + 0) with 0x3F00 in E2.
  change (0 * 2 ^ 8 + 0x3F) with 0x3F in E3. rewrite E1, E2, E3, shr_div by lia.
  split_and!; [done| |lia]. simpl Z.pow. zlia.
Qed.

Lemma reads_tails x y :
  0 <= x < 64 -> 0 <= y < 64 ->
  reads dx_read_short (wire [0x80 + x; 0x80 + y]) (i16 ((0x80 + x) * 256 + (0x80 + y))).
Proof.
  intros Hx Hy.
  replace (wire [0x80 + x; 0x80 + y]) with (wire (be_bytes 2 ((0x80 + x) * 256 + (0x80 + y)))).
  - apply reads_short.
  - wire_eq.
Qed.

Lemma lor_pieces a x y :
  0 <= x < 64 -> 0 <= y < 64 ->
  Z.lor (Z.lor (Z.shiftl a 12) (x * 64)) y = a * 4096 + x * 64 + y.
Proof.
  intros Hx Hy. rewrite shl_mul, (lor_add a (x * 64) 12) by (simpl Z.pow; lia).
  replace (a * 2 ^ 12 + x * 64) with ((a * 2 ^ 6 + x) * 2 ^ 6) by (simpl Z.pow; lia).
  rewrite lor_add by (simpl Z.pow; lia). simpl Z.pow. lia.
Qed.

Lemma reads_utf2 x y :
  0 <= x < 32 -> 0 <= y < 64 -> reads (dx_read_utf2 (i8 (0xC0 + x))) [i8 (0x80 + y)] (x * 64 + y).
Proof.
  intros Hx Hy. unfold dx_read_utf2.
  destruct (utf_class2 x Hx) as (_ & _ & H1). destruct (utf_tail y Hy) as [H2 H3].
  eapply (reads_bind _ _ [_] []); [apply reads_byte|]. rewrite H1, H2, H3. cbn [negb].
  eapply reads_value; [apply reads_ret|]. by rewrite lor_shl by (simpl Z.pow; lia).
Qed.

Lemma reads_utf3 x y z :
  0 <= x < 16 -> 0 <= y < 64 -> 0 <= z < 64 ->
  reads (dx_read_utf3 (i8 (0xE0 + x))) (wire [0x80 + y; 0x80 + z]) (x * 4096 + y * 64 + z).
Proof.
  intros Hx Hy Hz. unfold dx_read_utf3.
  destruct (utf_class3 x Hx) as (_ & _ & _ & H1). destruct (utf_tails y z Hy Hz) as (H2 & H3 & H4).
  eapply (reads_bind _ _ (wire [_; _]) []); [by apply reads_tails|]. rewrite H1, H2, H3, H4. cbn [negb].
  eapply reads_value; [apply reads_ret|]. by apply lor_pieces.
Qed.

Lemma reads_utf4 x w y z :
  0 <= x < 8 -> 0 <= w < 64 -> 0 <= y < 64 -> 0 <= z < 64 ->
  x * 262144 + w * 4096 + y * 64 + z <= 0x10FFFF ->
  reads (dx_read_utf4 (i8 (0xF0 + x))) (wire [0x80 + w; 0x80 + y; 0x80 + z])
    (x * 262144 + w * 4096 + y * 64 + z).
Proof.
  intros Hx Hw Hy Hz Hmax. unfold dx_read_utf4.
  destruct (utf_class4 x Hx) as (_ & _ & _ & _ & H1). destruct (utf_tail w Hw) as [H5 H6].
  destruct (utf_tails y z Hy Hz) as (H2 & H3 & H4).
  eapply (reads_bind _ _ [_] (wire [0x80 + y; 0x80 + z])); [apply reads_byte|].
  eapply (reads_bind _ _ (wire [_; _]) []); [by apply reads_tails|].
  rewrite H1, H2, H3, H4, H5, H6. cbn [negb orb].
  assert (Z.lor (Z.shiftl x 18) (Z.shiftl w 12) = Z.shiftl (x * 64 + w) 12) as ->.
  { rewrite !shl_mul, lor_add by (simpl Z.pow; lia). simpl Z.pow. lia. }
  rewrite lor_pieces by done.
  replace ((x * 64 + w) * 4096 + y * 64 + z) with (x * 262144 + w * 4096 + y * 64 + z) by lia.
  decide_cmps. apply reads_ret.
Qed.

Lemma reads_utf_char c : 0 <= c <= 0x10FFFF -> reads dx_read_utf_char (wire (utf8_bytes c)) c.
Proof.
  intros Hc. unfold utf8_bytes, dx_read_utf_char.
  destruct (Z.leb_spec c 0x7F); [|destruct (Z.leb_spec c 0x7FF); [|destruct (Z.leb_spec c 0xFFFF)]];
    rewrite wire_cons.
  - rewrite i8_id by (unfold is_i8; lia). eapply (reads_bind _ _ [_] []).
    { rewrite <- (i8_id c) at 1 by (unfold is_i8; lia). apply reads_byte. }
    rewrite i8_id by (unfold is_i8; lia). decide_cmps. apply reads_ret.
  - destruct (utf_class2 (c / 64) ltac:(zlia)) as (E1 & E2 & _).
    eapply (reads_bind _ _ [_] (wire [_])); [apply reads_byte|]. rewrite E1, E2.
    eapply reads_value; [apply reads_utf2; zlia|zlia].
  - destruct (utf_class3 (c / 4096) ltac:(zlia)) as (E1 & E2 & E3 & _).
    eapply (reads_bind _ _ [_] (wire [_; _])); [apply reads_byte|]. rewrite E1, E2, E3.
    eapply reads_value; [apply reads_utf3; zlia|zlia].
  - destruct (utf_class4 (c / 262144) ltac:(zlia)) as (E1 & E2 & E3 & E4 & _).
    eapply (reads_bind _ _ [_] (wire [_; _; _])); [apply reads_byte|]. rewrite E1, E2, E3, E4.
    eapply reads_value; [apply reads_utf4; zlia|zlia].
Qed.

(** The sequence loop on the text of a string without surrogate pairs: the
    characters go to [buffer] from [count] on. *)
Definition bmp (s : list Z) : Prop := Forall (fun c => 0 < c <= 0xFFFF /\ dx_is_high_surrogate c = false) s.

Lemma bmp_utf8 c s : bmp (c :: s) -> utf16_to_utf8 (c :: s) = utf8_bytes c ++ utf16_to_utf8 s.
Proof.
  intros Hs. inversion_clear Hs as [|? ? [_ Hh]]. apply utf16_to_utf8_single.
  intros d s' _. unfold is_pair. rewrite Hh. by rewrite andb_false_r.
Qed.

Lemma reads_of_option {B} (o : option (list Z)) (k : list Z -> M in_ctx B) x bs v :
  o = Some x -> reads (k x) bs v -> reads (checked_call (of_option o) k) bs v.
Proof. by intros -> H. Qed.

Lemma reads_sequence_loop s fuel pre n :
  bmp s -> zlen (utf16_to_utf8 s) <= Z.of_nat fuel -> (length s <= n)%nat ->
  reads (utf_sequence_loop fuel false (zlen (utf16_to_utf8 s)) (pre ++ replicate n 0) (zlen pre))
    (wire (utf16_to_utf8 s))
    (0, pre ++ s ++ replicate (n - length s) 0, zlen pre + zlen s).
Proof.
  revert fuel pre n. induction s as [|c s IH]; intros fuel pre n Hs Hf Hn.
  - simpl in *. eapply reads_value.
    + destruct fuel; apply reads_ret.
    + unfold zlen; simpl. by rewrite Nat.sub_0_r, Z.add_0_r.
  - rewrite bmp_utf8, zlen_app in * by done. pose proof (length_utf8_bytes c).
    pose proof (zlen_nonneg (utf16_to_utf8 s)).
    destruct fuel as [|fuel]; [lia|]. cbn [utf_sequence_loop]. decide_cmps.
    inversion_clear Hs as [|? ? [Hc _] Hs']. simpl in Hn. destruct n as [|n]; [lia|].
    assert (forall u, u = zlen (utf16_to_utf8 s) -> reads
      (buffer <-- of_option (write_at (pre ++ replicate (S n) 0) (Z.to_nat (zlen pre)) c);;
       utf_sequence_loop fuel false u buffer (zlen pre + 1))
      (wire (utf16_to_utf8 s))
      (0, pre ++ (c :: s) ++ replicate (S n - length (c :: s)) 0, zlen pre + zlen (c :: s))) as Hgo.
    { intros u ->. eapply reads_of_option; [by apply write_at_app; unfold zlen; lia|].
      replace (pre ++ c :: _) with ((pre ++ [c]) ++ replicate n 0) by (by rewrite <- app_assoc).
      replace (zlen pre + 1) with (zlen (pre ++ [c])) by (rewrite zlen_app; done).
      eapply reads_value; [apply IH; [done|lia|lia]|].
      rewrite zlen_app, <- app_assoc. f_equal.
      change (zlen [c]) with 1. rewrite zlen_cons. lia. }
    rewrite wire_app. unfold utf8_bytes in *.
    destruct (Z.leb_spec c 0x7F); [|destruct (Z.leb_spec c 0x7FF); [|destruct (Z.leb_spec c 0xFFFF);[|lia]]];
      rewrite wire_cons; cbn [app].
    + rewrite i8_id by (unfold is_i8; lia). eapply (reads_bind _ _ [_]).
      { rewrite <- (i8_id c) at 1 by (unfold is_i8; lia). apply reads_byte. }
      rewrite i8_id by (unfold is_i8; lia). decide_cmps. apply Hgo. change (zlen [c]) with 1. lia.
    + destruct (utf_class2 (c / 64) ltac:(zlia)) as (E1 & E2 & _).
      eapply (reads_bind _ _ [_] (wire [_] ++ wire _)); [apply reads_byte|].
      rewrite E1, E2. eapply (reads_bind _ _ (wire [_])); [apply reads_utf2; zlia|].
      replace (c / 64 * 64 + c mod 64) with c by zlia. apply Hgo.
      change (zlen [_; _]) with 2. lia.
    + destruct (utf_class3 (c / 4096) ltac:(zlia)) as (E1 & E2 & E3 & _).
      eapply (reads_bind _ _ [_] (wire [_; _] ++ wire _)); [apply reads_byte|].
      rewrite E1, E2, E3. eapply (reads_bind _ _ (wire [_; _])); [apply reads_utf3; zlia|].
      replace (_ + _ + _) with c by zlia. apply Hgo.
      change (zlen [_; _; _]) with 3. lia.
Qed.

(** The result buffer of a string read. *)
Definition string_buffer (s : list Z) : list Z :=
  s ++ replicate (S (length (utf16_to_utf8 s)) - length s) 0.

Lemma bmp_length s : bmp s -> (length s <= length (utf16_to_utf8 s))%nat.
Proof.
  induction s as [|c s IH]; intros Hs; [done|]. rewrite bmp_utf8, length_app by done.
  inversion_clear Hs. pose proof (length_utf8_bytes c). unfold zlen in *.
  specialize (IH ltac:(done)). simpl. lia.
Qed.

Section strings.
Context (calloc_ok : Z -> bool).

Lemma reads_utf_sequence s :
  bmp s -> zlen (utf16_to_utf8 s) <= INT_MAX ->
  calloc_ok (zlen (utf16_to_utf8 s) + 1) = true ->
  reads (dx_read_utf_sequence calloc_ok (zlen (utf16_to_utf8 s)) false)
    (wire (utf16_to_utf8 s)) (string_buffer s).
Proof.
  intros Hs Hm Hok. unfold dx_read_utf_sequence, string_buffer.
  destruct (Z.eqb_spec (zlen (utf16_to_utf8 s)) 0) as [E|E].
  - rewrite E in Hok. change (0 + 1) with 1 in Hok. destruct s as [|c s].
    + rewrite Hok. apply reads_ret.
    + rewrite bmp_utf8, zlen_app in E by done. pose proof (length_utf8_bytes c).
      pose proof (zlen_nonneg (utf16_to_utf8 s)). lia.
  - unfold dx_create_string. pose proof (zlen_nonneg (utf16_to_utf8 s)).
    rewrite u64_id, Hok by (unfold is_u64, INT_MAX in *; lia).
    rewrite <- (app_nil_r (wire _)). pose proof (bmp_length s Hs).
    eapply reads_bind.
    + apply (reads_sequence_loop s _ [] _ Hs); unfold zlen; lia.
    + cbn beta iota. decide_cmps. rewrite app_nil_l. change (zlen []) with 0.
      unfold zlen. replace (Z.to_nat (Z.of_nat (length (utf16_to_utf8 s)) + 1)) with
        (S (length (utf16_to_utf8 s))) by lia.
      eapply reads_of_option; [|apply reads_ret].
      destruct (S (length (utf16_to_utf8 s)) - length s)%nat as [|k] eqn:Ek; [lia|].
      cbn [replicate]. apply write_at_app. lia.
Qed.

Lemma reads_utf_string s :
  bmp s -> zlen (utf16_to_utf8 s) <= INT_MAX -> calloc_ok (zlen (utf16_to_utf8 s) + 1) = true ->
  reads (dx_read_utf_string calloc_ok)
    (wire (compact_int_bytes (zlen (utf16_to_utf8 s)) ++ utf16_to_utf8 s))
    (Some (string_buffer s)).
Proof.
  intros Hs Hm Hok. pose proof (zlen_nonneg (utf16_to_utf8 s)). rewrite wire_app.
  unfold dx_read_utf_string. eapply reads_bind.
  { apply reads_compact_long_narrow. unfold is_i32, INT_MAX in *. lia. }
  rewrite compact_long_read_id by lia. decide_cmps.
  rewrite i32_id by (unfold is_i32, INT_MAX in *; lia).
  eapply reads_bind_ret; [by apply reads_utf_sequence|done].
Qed.
End strings.

Lemma c_string_app s k : Forall (fun c => c <> 0) s -> c_string (s ++ replicate (S k) 0) = s.
Proof.
  induction 1 as [|c s Hc _ IH]; [done|]. simpl in *. decide_cmp (c =? 0). by f_equal.
Qed.

Lemma string_buffer_string s : bmp s -> c_string (string_buffer s) = s.
Proof.
  intros Hs. pose proof (bmp_length s Hs). unfold string_buffer.
  destruct (S (length (utf16_to_utf8 s)) - length s)%nat as [|k] eqn:Ek; [lia|].
  apply c_string_app. eapply Forall_impl; [done|]. intros c [? _]. lia.
Qed.

(** ** Round trips through the wire

    [Codec w r dom f]: a value of [dom] written by [w] is read by [r] as its
    image under [f].  The two sides of the protocol interact only through
    this interface. *)

Class Codec {A B} (w : A -> M out_ctx unit) (r : M in_ctx B) (dom : A -> Prop) (f : A -> B) := {
  codec_need : A -> Z;
  codec_bytes : A -> list Z;
  codec_need_bound : forall a, zlen (codec_bytes a) <= codec_need a;
  codec_writes : forall a, dom a -> writes (w a) (codec_need a) (wire (codec_bytes a));
  codec_reads : forall a, dom a -> reads r (wire (codec_bytes a)) (f a);
}.

(** The reader's context for what a writer has appended between [c] and [c']. *)
Definition transmitted (c c' : out_ctx) : in_ctx :=
  InCtx (out_buffer c') (current_out_buffer_position c') 0 (current_out_buffer_position c).

Lemma transmitted_remaining c c' bs :
  out_wf c -> extends c c' bs ->
  in_wf (transmitted c c') /\ remaining (transmitted c c') = bs ++ [] /\
  advance (transmitted c c') (zlen bs) =
    InCtx (out_buffer c') (current_out_buffer_position c') 0 (current_out_buffer_position c').
Proof.
  intros Hc Hx. pose proof (extends_position c c' bs Hc Hx) as Hpos.
  pose proof (zlen_nonneg bs). destruct Hx as [Hc' Hw].
  pose proof Hc' as (Hp' & Hm' & buf & Hb & Hl).
  pose proof (length_written c Hc) as Hlen. destruct Hc as (Hp & Hm & _).
  split_and!.
  - split; [simpl; lia|]. split; [simpl; unfold INT_MAX in *; lia|]. exists buf.
    simpl. unfold zlen. split; [done|lia].
  - unfold remaining, transmitted; cbn. fold (written c'). rewrite Hw, app_nil_r.
    unfold zlen in Hlen. rewrite <- Hlen, Nat2Z.id. apply drop_app_length.
  - unfold advance, transmitted; cbn. f_equal. lia.
Qed.

Section roundtrip.
Context {A B} (w : A -> M out_ctx unit) (r : M in_ctx B) (dom : A -> Prop) (f : A -> B)
  `{!Codec w r dom f}.

(** What every codec of the file promises. *)
Definition round_trips (a : A) (c : out_ctx) : Prop :=
  match w a c with
  | Ok _ c' => out_wf c' /\ written c `prefix_of` written c' /\
      r (transmitted c c') = Ok (f a)
        (InCtx (out_buffer c') (current_out_buffer_position c') 0
           (current_out_buffer_position c'))
  | Err e _ => e = dx_bioec_buffer_overflow \/ e = dx_mec_insufficient_memory
  | UB => False
  end.

Lemma codec_round_trips a c :
  dom a -> out_wf c -> current_out_buffer_position c + codec_need a <= INT_MAX ->
  round_trips a c.
Proof.
  intros Ha Hc Hm. unfold round_trips.
  destruct (codec_writes a Ha c Hc Hm) as [_ Hw].
  destruct (w a c) as [[] c'|e c'|]; [|by destruct Hw|done].
  destruct (transmitted_remaining c c' _ Hc Hw) as (Hi & Hr & Ha').
  split; [apply Hw|]. split; [rewrite (proj2 Hw); by apply prefix_app_r|].
  by rewrite (codec_reads a Ha _ _ Hi Hr), Ha'.
Qed.
End roundtrip.

Arguments round_trips {A B} w r f a c.

(** ** Memory safety of the readers *)

(** A block of fewer than 2 GB, with room in [int] for the widest read. *)
Definition in_small (c : in_ctx) : Prop :=
  in_wf c /\ in_buffer_length c + 8 <= INT_MAX /\ zlen (default [] (in_buffer c)) <= INT_MAX.

(** The context after a read: the same buffer and limit, further on. *)
Definition further (c c' : in_ctx) : Prop :=
  in_wf c' /\ in_buffer c' = in_buffer c /\ in_buffer_length c' = in_buffer_length c /\
  in_buffer_limit c' = in_buffer_limit c /\
  current_in_buffer_position c <= current_in_buffer_position c'.

Definition safe_post {A} (m : M in_ctx A) (P : A -> Prop) : Prop :=
  forall c, in_small c ->
    match m c with
    | Ok v c' => further c c' /\ P v
    | Err _ c' => further c c'
    | UB => False
    end.
Definition safe {A} (m : M in_ctx A) : Prop := safe_post m (fun _ => True).

Lemma further_advance c n :
  in_wf c -> 0 <= n -> current_in_buffer_position c + n <= in_buffer_length c ->
  further c (advance c n).
Proof.
  intros (Hp & Hm & Hb) Hn Hroom. split; [|split_and!; done || (simpl; lia)].
  split; [simpl; lia|]. by split.
Qed.

Lemma further_refl c : in_wf c -> further c c.
Proof. intros. split_and!; done || lia. Qed.
Lemma further_trans c1 c2 c3 : further c1 c2 -> further c2 c3 -> further c1 c3.
Proof. unfold further. intros (? & ? & ? & ? & ?) (? & ? & ? & ? & ?). split_and!; congruence || lia || done. Qed.
Lemma further_small c c' : in_small c -> further c c' -> in_small c'.
Proof. intros [_ H] (? & Eb & E & ?). split; [done|by rewrite E, Eb]. Qed.

Lemma safe_bind {A B} (m : M in_ctx A) (k : A -> M in_ctx B) P Q :
  safe_post m P -> (forall v, P v -> safe_post (k v) Q) -> safe_post (checked_call m k) Q.
Proof.
  intros Hm Hk c Hc. specialize (Hm c Hc). unfold checked_call.
  destruct (m c) as [v c1|e c1|]; [|done|done]. destruct Hm as [Hf Hv].
  specialize (Hk v Hv c1 (further_small _ _ Hc Hf)).
  destruct (k v c1) as [w c2|e c2|]; [destruct Hk; split; [|done]| |done];
    by eapply further_trans.
Qed.

Lemma safe_seq {A B} (m : M in_ctx A) (k : A -> M in_ctx B) Q :
  safe m -> (forall v, safe_post (k v) Q) -> safe_post (checked_call m k) Q.
Proof. intros Hm Hk. eapply safe_bind; [apply Hm|auto]. Qed.

Lemma safe_ret {A} (v : A) (P : A -> Prop) : P v -> safe_post (ret v) P.
Proof. intros ? c [Hc _]. split; [by apply further_refl|done]. Qed.
Lemma safe_error {A} e (P : A -> Prop) : safe_post (dx_set_error_code e) P.
Proof. intros c [Hc _]. by apply further_refl. Qed.
Lemma safe_weaken {A} (m : M in_ctx A) (P Q : A -> Prop) :
  safe_post m P -> (forall v, P v -> Q v) -> safe_post m Q.
Proof.
  intros Hm HPQ c Hc. specialize (Hm c Hc). destruct (m c); [|done|done].
  destruct Hm. split; auto.
Qed.

(** A computation that consumes exactly [n] bytes, when there are as many. *)
Definition takes {A} (n : Z) (m : M in_ctx A) : Prop :=
  forall c, in_wf c -> current_in_buffer_position c + n <= in_buffer_length c ->
    exists v, m c = Ok v (advance c n).

Lemma takes_ret {A} (v : A) : takes 0 (ret v).
Proof. intros c _ _. exists v. unfold ret, advance. destruct c; cbn. f_equal. f_equal. lia. Qed.

Lemma takes_fetch {A} n (k : Z -> M in_ctx A) :
  0 <= n -> (forall b, takes n (k b)) -> takes (1 + n) (checked_call fetch k).
Proof.
  intros Hn Hk c Hc Hroom. pose proof Hc as (Hp & Hm & buf & Hb & Hl).
  unfold zlen in Hl.
  destruct (lookup_lt_is_Some_2 buf (Z.to_nat (current_in_buffer_position c)) ltac:(lia)) as [b Hx].
  destruct (Hk b (advance c 1)) as [v Hv].
  - split; [simpl; lia|]. split; [done|]. by exists buf.
  - simpl. lia.
  - exists v. unfold checked_call, fetch, checked_call, get, of_option, ret.
    rewrite Hb. cbn zeta. decide_cmps. rewrite Hx. unfold advance in *; cbn in *. rewrite Hv.
    f_equal. f_equal. lia.
Qed.

Lemma safe_validate {A} n (k : M in_ctx A) :
  0 <= n <= 8 -> takes n k -> safe (dx_validate_buffer_and_value n;;; k).
Proof.
  intros Hn Hk c Hs. pose proof Hs as (Hc & Hsmall & _). pose proof Hc as (Hp & Hm & buf & Hb & _).
  unfold dx_validate_buffer_and_value, checked_call, get, IS_BUF_CAPACITY_ENOUGH. rewrite Hb.
  rewrite i32_id by (unfold is_i32, INT_MAX in *; lia).
  destruct (Z.leb_spec (current_in_buffer_position c + n) (in_buffer_length c));
    [|by apply further_refl].
  cbn. destruct (Hk c Hc ltac:(lia)) as [v ->]. split; [|done].
  by apply further_advance; [|lia..].
Qed.

Lemma takes_fetch_last : takes 1 fetch.
Proof.
  intros c Hc Hroom. pose proof Hc as (Hp & Hm & buf & Hb & Hl). unfold zlen in Hl.
  destruct (lookup_lt_is_Some_2 buf (Z.to_nat (current_in_buffer_position c)) ltac:(lia)) as [b Hx].
  exists b. unfold fetch, checked_call, get, of_option, ret. rewrite Hb. cbn zeta. decide_cmps.
  by rewrite Hx.
Qed.

Ltac takes_tac := cbn zeta; first
  [ apply takes_ret | apply takes_fetch_last
  | apply (takes_fetch 1); [lia|intros; takes_tac]
  | match goal with |- takes ?n _ => let m := eval vm_compute in (n - 1) in
      apply (takes_fetch m); [lia|intros; takes_tac] end ].
Ltac safe_fixed n := apply (safe_validate n); [lia|takes_tac].

Lemma safe_read_boolean : safe dx_read_boolean. Proof. safe_fixed 1. Qed.
Lemma safe_read_byte : safe dx_read_byte. Proof. safe_fixed 1. Qed.
Lemma safe_read_unsigned_byte : safe dx_read_unsigned_byte. Proof. safe_fixed 1. Qed.
Lemma safe_read_short : safe dx_read_short. Proof. safe_fixed 2. Qed.
Lemma safe_read_unsigned_short : safe dx_read_unsigned_short. Proof. safe_fixed 2. Qed.
Lemma safe_read_int : safe dx_read_int. Proof. safe_fixed 4. Qed.
Lemma safe_read_long : safe dx_read_long. Proof. safe_fixed 8. Qed.

#[export] Hint Resolve safe_read_boolean safe_read_byte safe_read_unsigned_byte safe_read_short
  safe_read_unsigned_short safe_read_int safe_read_long : dx.

(** ** Variable-width readers *)

Ltac safe_step := first
  [ apply safe_ret; done | apply safe_error | apply safe_seq; [solve [auto with dx]|intros] ].
Ltac safe_tac := repeat first [ solve [auto with dx]
  | match goal with |- safe_post ?m (fun _ => True) => change (safe m) end; solve [auto with dx]
  | safe_step
  | match goal with |- safe_post (if ?b then _ else _) _ => destruct b
    | |- safe (if ?b then _ else _) => destruct b end ].

Lemma safe_move_1 : safe (dx_move_buffer_pos 1).
Proof.
  intros c [Hc Hs]. pose proof Hc as (Hp & _). split; [|done].
  apply (further_advance c (Z.min 1 (in_buffer_length c - current_in_buffer_position c)));
    [done|lia..].
Qed.
#[export] Hint Resolve safe_move_1 : dx.

Lemma safe_skip fuel n : safe (skip_loop fuel n).
Proof. revert n. induction fuel; intros n; cbn [skip_loop]; safe_tac.
Qed.
#[export] Hint Resolve safe_skip : dx.

Lemma safe_read_compact_int : safe dx_read_compact_int.
Proof. unfold dx_read_compact_int. safe_tac. Qed.

Lemma safe_read_compact_long : safe dx_read_compact_long.
Proof.
  unfold dx_read_compact_long. apply safe_seq; [auto with dx|intros n].
  do 4 (destruct (_ <? _); [safe_tac|]). apply safe_seq; [safe_tac|intros; safe_tac].
Qed.

Lemma safe_read_utf2 b : safe (dx_read_utf2 b).
Proof. unfold dx_read_utf2. safe_tac. Qed.
Lemma safe_read_utf3 b : safe (dx_read_utf3 b).
Proof. unfold dx_read_utf3. safe_tac. Qed.
Lemma safe_read_utf4 b : safe_post (dx_read_utf4 b) (fun v => v <= MAX_CODE_POINT).
Proof.
  unfold dx_read_utf4. apply safe_seq; [auto with dx|intros s]. apply safe_seq; [auto with dx|intros t].
  destruct (_ || _)%bool; [apply safe_error|]. cbn zeta. set (v := Z.lor _ _).
  destruct (Z.ltb_spec 0x10FFFF v); [apply safe_error|]. apply safe_ret. done.
Qed.
Lemma safe_read_utf4' b : safe (dx_read_utf4 b).
Proof. eapply safe_weaken; [apply safe_read_utf4|done]. Qed.
#[export] Hint Resolve safe_read_compact_int safe_read_compact_long safe_read_utf2 safe_read_utf3
  safe_read_utf4' : dx.

Lemma safe_read_utf_char : safe dx_read_utf_char.
Proof. unfold dx_read_utf_char. safe_tac. Qed.

(** Writing at an index the buffer has. *)
Lemma safe_write {B} (buf : list Z) i x (k : list Z -> M in_ctx B) P :
  (i < length buf)%nat -> (forall b, length b = length buf -> safe_post (k b) P) ->
  safe_post (checked_call (of_option (write_at buf i x)) k) P.
Proof.
  intros Hi Hk. rewrite write_at_in by done. intros c Hc.
  apply (Hk (<[i:=x]> buf)); [apply length_insert|done].
Qed.

Lemma safe_code_point_chars cp buf pos len :
  0 <= pos -> len < zlen buf ->
  safe_post (dx_code_point_to_utf16_chars cp buf pos len)
    (fun r => length r.1 = length buf /\ 1 <= r.2 <= 2 /\ pos + r.2 <= len).
Proof.
  intros Hp Hl. unfold dx_code_point_to_utf16_chars, zlen in *.
  destruct (_ || _)%bool; [apply safe_error|].
  destruct (cp <? _).
  - destruct (Z.ltb_spec (len - pos) 1); [apply safe_error|].
    apply safe_write; [lia|]. intros b Hb. apply safe_ret. simpl. lia.
  - destruct (Z.ltb_spec (len - pos) 2); [apply safe_error|].
    destruct (dx_code_point_to_surrogates cp) as [high low].
    apply safe_write; [lia|]. intros b Hb. apply safe_write; [lia|]. intros b' Hb'.
    apply safe_ret. simpl. lia.
Qed.

(** With the length in bytes, the characters stored never outnumber the bytes
    taken, so the loop stays inside the buffer; it ends with the length used up. *)
Definition sequence_inv (N : nat) (r : Z * list Z * Z) : Prop :=
  let '(utflen, buffer, count) := r in
  utflen <= 0 /\ length buffer = S N /\ 0 <= count <= Z.of_nat N.

Lemma safe_sequence_loop N fuel utflen buffer count :
  length buffer = S N -> 0 <= count -> count + Z.max utflen 0 <= Z.of_nat N ->
  utflen <= Z.of_nat fuel ->
  safe_post (utf_sequence_loop fuel false utflen buffer count) (sequence_inv N).
Proof.
  revert utflen buffer count. induction fuel as [|fuel IH]; intros utflen buffer count Hb Hc Hn Hf;
    cbn [utf_sequence_loop]; [apply safe_ret; unfold sequence_inv; lia|].
  destruct (Z.ltb_spec 0 utflen); [|apply safe_ret; unfold sequence_inv; lia].
  assert (forall u x, u < utflen -> safe_post
    (buffer <-- of_option (write_at buffer (Z.to_nat count) x);;
     utf_sequence_loop fuel false u buffer (count + 1)) (sequence_inv N)) as Hgo.
  { intros u x Hu. apply safe_write; [lia|]. intros b Eb. apply IH; lia. }
  apply safe_seq; [auto with dx|intros b].
  destruct (0 <=? b); [by apply Hgo; lia|].
  destruct (_ =? _); [apply safe_seq; [auto with dx|intros; apply Hgo; lia]|].
  destruct (_ =? _); [apply safe_seq; [auto with dx|intros; apply Hgo; lia]|].
  destruct (_ =? _); [|apply safe_error].
  apply safe_seq; [auto with dx|intros cp].
  eapply safe_bind; [apply safe_code_point_chars; unfold zlen; lia|].
  intros [b' k] (Eb & Hk1 & Hk2). simpl in *. apply IH; lia.
Qed.

Section safe_strings.
Context (calloc_ok : Z -> bool).

Lemma safe_read_utf_sequence utflen :
  0 <= utflen <= INT_MAX -> safe (dx_read_utf_sequence calloc_ok utflen false).
Proof.
  intros Hu. unfold dx_read_utf_sequence, dx_create_string.
  destruct (Z.eqb_spec utflen 0); [safe_tac|].
  rewrite u64_id by (unfold is_u64, INT_MAX in *; lia).
  destruct (calloc_ok (utflen + 1)); [|apply safe_error].
  eapply safe_bind; [apply (safe_sequence_loop (Z.to_nat utflen)); rewrite ?length_replicate; lia|].
  intros [[u b] k] (Hu' & Hb & Hk). cbn beta iota. destruct (u <? 0); [apply safe_error|].
  apply safe_write; [lia|]. intros. by apply safe_ret.
Qed.

Lemma safe_read_utf : safe (dx_read_utf calloc_ok).
Proof.
  unfold dx_read_utf. eapply (safe_bind _ _ (fun v => 0 <= v <= 65535)).
  - intros c Hc. pose proof (safe_read_unsigned_short c Hc) as H.
    unfold dx_read_unsigned_short in *. unfold checked_call, ret in *.
    repeat case_match; simplify_eq; try done. destruct H as [H _]. split; [done|].
    clear. rewrite !land_255, lor_shl by (simpl Z.pow; zlia). simpl Z.pow. zlia.
  - intros v Hv. apply safe_read_utf_sequence. unfold INT_MAX. lia.
Qed.

Lemma safe_read_utf_string : safe (dx_read_utf_string calloc_ok).
Proof.
  unfold dx_read_utf_string. apply safe_seq; [auto with dx|intros v].
  destruct ((v <? -1) || (INT_MAX <? v)) eqn:E; [apply safe_error|]. bool_to_prop.
  destruct (Z.eqb_spec v (-1)); [by apply safe_ret|].
  rewrite i32_id by (unfold is_i32, INT_MAX in *; lia).
  apply safe_seq; [apply safe_read_utf_sequence; lia|intros; by apply safe_ret].
Qed.
End safe_strings.

(** ** Lines *)

Section lines.
Context (calloc_ok : Z -> bool).

Definition line_bytes (l : list Z) : Prop :=
  Forall (fun b => 0 <= b < 256 /\ b <> 10 /\ b <> 13) l.

Lemma remaining_position c bs :
  in_wf c -> remaining c = bs ->
  current_in_buffer_position c + zlen bs = in_buffer_length c.
Proof. intros Hc <-. rewrite (length_remaining c Hc). lia. Qed.

(** Up to 128 characters the loop copies the line. *)
Lemma read_line_loop_spec l pre n tail c fuel :
  line_bytes l -> in_wf c -> remaining c = wire l ++ i8 10 :: tail ->
  (length l < fuel)%nat -> (length pre + length l <= 128)%nat -> (length l <= n)%nat ->
  read_line_loop calloc_ok fuel (pre ++ replicate n 0) (zlen pre) c =
    Ok (pre ++ l ++ replicate (n - length l) 0, zlen pre + zlen l)
      (advance c (zlen l + 1)).
Proof.
  revert pre n c fuel. induction l as [|b l IH]; intros pre n c fuel Hl Hc Hr Hf Hp Hn;
    (destruct fuel as [|fuel]; [simpl in Hf; lia|]); cbn [read_line_loop];
    pose proof (remaining_position c _ Hc Hr) as Hpos; rewrite zlen_app, zlen_cons in Hpos;
    pose proof (zlen_nonneg tail); unfold checked_call at 1, get at 1.
  - change (zlen (wire [])) with 0 in Hpos. decide_cmps.
    pose proof (reads_fetch (i8 10) c tail Hc Hr) as E.
    unfold checked_call at 1. rewrite E. cbn zeta. rewrite land_255.
    change (i8 10 mod 256) with 10. cbn. rewrite Nat.sub_0_r. unfold ret, zlen; simpl.
    by rewrite Z.add_0_r.
  - inversion_clear Hl as [|? ? (Hb & H10 & H13) Hl']. rewrite wire_cons in *.
    rewrite zlen_cons in Hpos. pose proof (zlen_nonneg (wire l)). decide_cmps.
    pose proof (reads_fetch (i8 b) c (wire l ++ i8 10 :: tail) Hc Hr) as E.
    destruct (remaining_advance c [i8 b] (wire l ++ i8 10 :: tail) Hc Hr) as [Hc1 Hr1].
    unfold checked_call at 1. rewrite E. cbn zeta. rewrite land_255.
    replace (i8 b mod 256) with b by intlia. decide_cmps.
    assert (zlen pre <= 127) by (unfold zlen; simpl in Hp; lia).
    unfold tmp_buf_size. decide_cmps. unfold checked_call at 1, ret at 1.
    destruct n as [|n]; [simpl in Hn; lia|]. cbn [replicate].
    rewrite write_at_app by (unfold zlen; lia). unfold checked_call, of_option, ret at 1.
    specialize (IH (pre ++ [b]) n _ fuel Hl' Hc1 Hr1).
    rewrite <- app_assoc, zlen_app in IH. change (zlen [b]) with 1 in IH. simpl app in IH.
    rewrite IH; rewrite ?length_app; simpl in *; try lia.
    rewrite <- app_assoc, !zlen_cons. simpl. f_equal; [f_equal; lia|].
    change (zlen []) with 0. unfold advance; cbn -[Z.add]. f_equal. lia.
Qed.
End lines.

(** The result of the read of a line that fits the first buffer. *)
Lemma read_line_fits (calloc_ok : Z -> bool) l tail c :
  line_bytes l -> in_wf c -> remaining c = wire l ++ i8 10 :: tail ->
  calloc_ok 128 = true -> zlen l <= 128 -> in_buffer_length c < INT_MAX ->
  dx_read_line calloc_ok c =
    match write_at (l ++ replicate (128 - length l) 0) (length l) 0 with
    | Some buf => Ok buf (advance c (zlen l + 1))
    | None => UB
    end.
Proof.
  intros Hl Hc Hr Hok Hlen Hmax. unfold dx_read_line.
  pose proof (remaining_position c _ Hc Hr) as Hpos. rewrite zlen_app, zlen_cons in Hpos.
  pose proof (zlen_nonneg tail). pose proof Hc as (Hp & Hm & buf & Hb & _).
  assert (zlen (wire l) = zlen l) as El by (unfold zlen, wire; by rewrite length_map).
  unfold dx_validate_buffer_and_value, checked_call, get, IS_BUF_CAPACITY_ENOUGH. rewrite Hb.
  rewrite i32_id by (unfold is_i32, INT_MAX in *; lia).
  pose proof (zlen_nonneg l). decide_cmps. unfold ret at 1. cbn iota beta.
  unfold tmp_buf_size. rewrite Hok. cbn [negb].
  change (replicate 128 0) with ([] ++ replicate 128 0). change 0 with (zlen (@nil Z)) at 2.
  rewrite (read_line_loop_spec calloc_ok l [] 128 tail c) by (done || unfold zlen in *; simpl; lia).
  change (zlen []) with 0. rewrite Z.add_0_l, app_nil_l. unfold zlen. rewrite Nat2Z.id.
  by destruct (write_at _ _ _).
Qed.

(** Running a read as the first step. *)
Lemma reads_then {A B} (m : M in_ctx A) (k : A -> M in_ctx B) bs tail v c :
  in_wf c -> reads m bs v -> remaining c = bs ++ tail ->
  checked_call m k c = k v (advance c (zlen bs)).
Proof. intros Hc Hm Hr. unfold checked_call. by rewrite (Hm c tail Hc Hr). Qed.

(** One ASCII character and one supplementary character of the loop. *)
Lemma reads_loop_ascii fuel lic u buf k c bs v buf' :
  0 < u -> 0 <= c < 128 -> write_at buf (Z.to_nat k) c = Some buf' ->
  reads (utf_sequence_loop fuel lic (u - 1) buf' (k + 1)) bs v ->
  reads (utf_sequence_loop (S fuel) lic u buf k) (i8 c :: bs) v.
Proof.
  intros Hu Hc Hw Hr. cbn [utf_sequence_loop]. decide_cmps.
  eapply (reads_bind _ _ [_]); [apply reads_byte|].
  rewrite i8_id by (unfold is_i8; lia). decide_cmps.
  by eapply reads_of_option.
Qed.

Lemma reads_loop_pair fuel u buf k cp bs v buf1 buf2 :
  0 < u -> 0x10000 <= cp <= 0x10FFFF -> 2 <= u - 1 - k ->
  write_at buf (Z.to_nat (k + 1)) (dx_code_point_to_surrogates cp).2 = Some buf1 ->
  write_at buf1 (Z.to_nat k) (dx_code_point_to_surrogates cp).1 = Some buf2 ->
  reads (utf_sequence_loop fuel true (u - 1) buf2 (k + 2)) bs v ->
  reads (utf_sequence_loop (S fuel) true u buf k) (wire (utf8_bytes cp) ++ bs) v.
Proof.
  intros Hu Hcp Hroom H1 H2 Hr. cbn [utf_sequence_loop]. decide_cmps.
  unfold utf8_bytes. decide_cmps. rewrite wire_cons. cbn [app].
  destruct (utf_class4 (cp / 262144) ltac:(zlia)) as (E1 & E2 & E3 & E4 & _).
  eapply (reads_bind _ _ [_] (wire [_; _; _] ++ bs)); [apply reads_byte|].
  rewrite E1, E2, E3, E4. eapply (reads_bind _ _ (wire [_; _; _])); [apply reads_utf4; zlia|].
  replace (_ + _ + _ + _) with cp by zlia.
  eapply (reads_bind _ _ [] bs (buf2, 2)); [|exact Hr].
  unfold dx_code_point_to_utf16_chars, MAX_CODE_POINT, MIN_SUPPLEMENTARY_CODE_POINT. decide_cmps.
  destruct (dx_code_point_to_surrogates cp) as [h l]. cbn [fst snd] in *.
  eapply reads_of_option; [exact H1|]. eapply reads_of_option; [exact H2|]. apply reads_ret.
Qed.

(** ** The codecs *)

#[export] Instance compact_int_codec (malloc_ok : Z -> bool) :
  Codec (dx_write_compact_int malloc_ok) dx_read_compact_int is_i32 (fun v => v).
Proof.
  refine {| codec_need _ := 5; codec_bytes := compact_int_bytes |}.
  - intros v. unfold zlen, compact_int_bytes. repeat destruct_match; simpl; lia.
  - apply writes_compact_int.
  - apply reads_compact_int.
Defined.

#[export] Instance compact_long_codec (malloc_ok : Z -> bool) :
  Codec (dx_write_compact_long malloc_ok) dx_read_compact_long is_i64 compact_long_read.
Proof.
  refine {| codec_need _ := 9; codec_bytes := compact_long_bytes |}.
  - intros v. unfold zlen, compact_long_bytes, compact_int_bytes.
    repeat destruct_match; simpl; lia.
  - apply writes_compact_long.
  - apply reads_compact_long.
Defined.

#[export] Instance short_codec (malloc_ok : Z -> bool) :
  Codec (dx_write_short malloc_ok) dx_read_short is_i16 (fun v => v).
Proof.
  refine {| codec_need _ := 2; codec_bytes := be_bytes 2 |}.
  - done.
  - intros. apply writes_short.
  - intros v Hv. eapply reads_value; [apply reads_short|by apply i16_id].
Defined.

#[export] Instance int_codec (malloc_ok : Z -> bool) :
  Codec (dx_write_int malloc_ok) dx_read_int is_i32 (fun v => v).
Proof.
  refine {| codec_need _ := 4; codec_bytes := be_bytes 4 |}.
  - done.
  - intros. apply writes_int.
  - intros v Hv. eapply reads_value; [apply reads_int|by apply i32_id].
Defined.

#[export] Instance utf_char_codec (malloc_ok : Z -> bool) :
  Codec (dx_write_utf_char malloc_ok) dx_read_utf_char (fun c => 0 <= c <= MAX_CODE_POINT)
    (fun c => c).
Proof.
  refine {| codec_need _ := 4; codec_bytes := utf8_bytes |}.
  - intros c. apply length_utf8_bytes.
  - apply writes_utf_char.
  - apply reads_utf_char.
Defined.

(** Strings of the basic plane that fit the memory. *)
Definition short_bmp (calloc_ok : Z -> bool) (s : list Z) : Prop :=
  bmp s /\ zlen (utf16_to_utf8 s) <= INT_MAX /\
  calloc_ok (zlen (utf16_to_utf8 s) + 1) = true.

#[export] Instance utf_string_codec (malloc_ok calloc_ok : Z -> bool) :
  Codec (fun s => dx_write_utf_string malloc_ok (Some s)) (dx_read_utf_string calloc_ok)
    (short_bmp calloc_ok) (fun s => Some (string_buffer s)).
Proof.
  refine {| codec_need s := zlen (utf16_to_utf8 s) + 9;
    codec_bytes s := compact_int_bytes (zlen (utf16_to_utf8 s)) ++ utf16_to_utf8 s |}.
  - intros s. rewrite zlen_app. unfold zlen at 1, compact_int_bytes.
    repeat destruct_match; simpl; lia.
  - intros s (Hs & Hm & _). apply writes_utf_string; [|done].
    eapply Forall_impl; [apply Hs|]. by intros c [? _].
  - intros s (Hs & Hm & Hok). by apply reads_utf_string.
Defined.

(** Two values one after the other. *)
#[export] Instance pair_codec {A B A' B'} (w1 : A -> M out_ctx unit) (r1 : M in_ctx B) d1 f1
  (w2 : A' -> M out_ctx unit) (r2 : M in_ctx B') d2 f2
  `{!Codec w1 r1 d1 f1} `{!Codec w2 r2 d2 f2} :
  Codec (fun p => w1 p.1;;; w2 p.2) (x <-- r1;; y <-- r2;; ret (x, y))
    (fun p => d1 p.1 /\ d2 p.2) (fun p => (f1 p.1, f2 p.2)).
Proof.
  refine {| codec_need p := codec_need p.1 + codec_need p.2;
    codec_bytes p := codec_bytes p.1 ++ codec_bytes p.2 |}.
  - intros p. rewrite zlen_app. pose proof (codec_need_bound p.1). pose proof (codec_need_bound p.2).
    lia.
  - intros p [H1 H2]. rewrite wire_app.
    pose proof (codec_need_bound p.1). pose proof (codec_need_bound p.2).
    pose proof (zlen_nonneg (codec_bytes p.2)).
    eapply writes_seq; [by apply codec_writes|by apply codec_writes|lia|].
    unfold wire, zlen in *. rewrite length_map. lia.
  - intros p [H1 H2]. rewrite wire_app. eapply reads_bind; [by apply codec_reads|].
    eapply reads_bind_ret; [by apply codec_reads|done].
Defined.

(** ** Properties *)

(** A 32-bit integer written in compact form is read back: on every
    well-formed output buffer the write either reports that the buffer cannot
    grow or leaves bytes from which [dx_read_compact_int] returns the integer,
    consuming exactly what was written; earlier bytes are unchanged. *)
Theorem compact_int_roundtrip (malloc_ok : Z -> bool) (v : Z) (c : out_ctx) :
  is_i32 v -> out_wf c -> current_out_buffer_position c + 5 <= INT_MAX ->
  round_trips (dx_write_compact_int malloc_ok) dx_read_compact_int (fun v => v) v c.
Proof.
  intros Hv Hc Hm.
  by apply (codec_round_trips _ _ is_i32 _ (Codec0 := compact_int_codec malloc_ok)).
Qed.

Lemma compact_int_roundtrip_witness :
  round_trips (dx_write_compact_int (fun _ => true)) dx_read_compact_int (fun v => v)
    (-123456) out_example.
Proof.
  apply (compact_int_roundtrip (fun _ => true) (-123456) out_example);
    [unfold is_i32; lia|apply out_example_wf|unfold INT_MAX; simpl; lia].
Defined.

(** The 64-bit compact form reads back except for the negative numbers
    that take two bytes: -8192..-65 come back increased by 16384, because
    [dx_read_compact_long] shifts an unsigned value to the right. *)
Theorem compact_long_roundtrip (malloc_ok : Z -> bool) (v : Z) (c : out_ctx) :
  is_i64 v -> out_wf c -> current_out_buffer_position c + 9 <= INT_MAX ->
  round_trips (dx_write_compact_long malloc_ok) dx_read_compact_long
    (fun v => if (-8192 <=? v) && (v <=? -65) then v + 16384 else v) v c.
Proof.
  intros Hv Hc Hm.
  pose proof (codec_round_trips _ _ is_i64 _ (Codec0 := compact_long_codec malloc_ok) v c
    Hv Hc Hm) as H.
  unfold round_trips in *. destruct (dx_write_compact_long malloc_ok v c); [|done|done].
  replace (v <=? -65) with (v <? -0x40); [done|].
  destruct (Z.ltb_spec v (-0x40)), (Z.leb_spec v (-65)); lia || done.
Qed.

Lemma compact_long_roundtrip_witness :
  round_trips (dx_write_compact_long (fun _ => true)) dx_read_compact_long
    (fun v => if (-8192 <=? v) && (v <=? -65) then v + 16384 else v) (-100) out_example /\
  match dx_write_compact_long (fun _ => true) (-100) out_example with
  | Ok _ c => match dx_read_compact_long (transmitted out_example c) with
              | Ok v _ => v = 16284
              | _ => False
              end
  | _ => False
  end.
Proof.
  split.
  - apply (compact_long_roundtrip (fun _ => true) (-100) out_example);
      [unfold is_i64; lia|apply out_example_wf|unfold INT_MAX; simpl; lia].
  - vm_compute. reflexivity.
Defined.

(** A string of the basic plane (no surrogate pair) written by
    [dx_write_utf_string] is read back by [dx_read_utf_string]: the buffer
    returned holds the string and its terminator. *)
Theorem utf_string_roundtrip (malloc_ok calloc_ok : Z -> bool) (s : list Z) (c : out_ctx) :
  short_bmp calloc_ok s -> out_wf c ->
  current_out_buffer_position c + zlen (utf16_to_utf8 s) + 9 <= INT_MAX ->
  round_trips (fun s => dx_write_utf_string malloc_ok (Some s)) (dx_read_utf_string calloc_ok)
    (fun s => Some (string_buffer s)) s c /\
  c_string (string_buffer s) = s.
Proof.
  intros Hs Hc Hm. split.
  - apply (codec_round_trips _ _ (short_bmp calloc_ok) _
      (Codec0 := utf_string_codec malloc_ok calloc_ok)); [done..|].
    simpl. lia.
  - apply string_buffer_string, Hs.
Qed.

Lemma utf_string_roundtrip_witness :
  let s := [0x41; 0x20AC; 0x7A] in
  round_trips (fun s => dx_write_utf_string (fun _ => true) (Some s))
    (dx_read_utf_string (fun _ => true)) (fun s => Some (string_buffer s)) s out_example /\
  c_string (string_buffer s) = s.
Proof.
  intros s. apply (utf_string_roundtrip (fun _ => true) (fun _ => true) s out_example).
  - split; [|split; [unfold INT_MAX; vm_compute; discriminate|reflexivity]].
    repeat constructor; lia.
  - apply out_example_wf.
  - unfold INT_MAX. vm_compute. discriminate.
Defined.

(** Memory safety of the readers: whatever bytes the peer sent, the
    compact integers, the UTF-8 characters and the two forms of UTF-8 strings
    whose length is in bytes are read without touching memory outside the
    input buffer or the string buffer; an error leaves the position inside
    the buffer, never before the old one. *)
Theorem readers_safe (calloc_ok : Z -> bool) :
  safe dx_read_compact_int /\ safe dx_read_compact_long /\ safe dx_read_utf_char /\
  safe (dx_read_utf calloc_ok) /\ safe (dx_read_utf_string calloc_ok).
Proof.
  split_and!.
  - apply safe_read_compact_int.
  - apply safe_read_compact_long.
  - apply safe_read_utf_char.
  - apply safe_read_utf.
  - apply safe_read_utf_string.
Qed.

(** C39: [dx_read_line] returns a line of fewer than 128 characters, ended by
    a newline which is consumed too, in a buffer of 128 characters whose rest
    is zero; for a line of exactly 128 characters the terminator is written
    one element past the buffer. *)
Theorem read_line_128 (calloc_ok : Z -> bool) (l tail : list Z) (c : in_ctx) :
  line_bytes l -> in_wf c -> remaining c = wire l ++ i8 10 :: tail ->
  calloc_ok 128 = true -> in_buffer_length c < INT_MAX ->
  (zlen l < 128 ->
   dx_read_line calloc_ok c = Ok (l ++ replicate (128 - length l) 0) (advance c (zlen l + 1))) /\
  (zlen l = 128 -> dx_read_line calloc_ok c = UB).
Proof.
  intros Hl Hc Hr Hok Hmax. split; intros Hlen;
    rewrite (read_line_fits calloc_ok l tail c) by (done || lia); unfold zlen in Hlen.
  - destruct (128 - length l)%nat as [|k] eqn:Ek; [lia|]. cbn [replicate].
    by rewrite write_at_app.
  - by rewrite write_at_out by (rewrite length_app, length_replicate; lia).
Qed.

Definition line_ctx (l : list Z) : in_ctx :=
  InCtx (Some (wire (l ++ [10]))) (zlen l + 1) 0 0.

Lemma read_line_128_witness :
  dx_read_line (fun _ => true) (line_ctx [0x61; 0x62]) =
    Ok (0x61 :: 0x62 :: replicate 126 0) (advance (line_ctx [0x61; 0x62]) 3).
Proof.
  apply (read_line_128 (fun _ => true) [0x61; 0x62] []).
  - repeat constructor; lia.
  - split; [simpl; unfold zlen; simpl; lia|]. split; [unfold INT_MAX; simpl; unfold zlen; simpl; lia|].
    eexists; split; [reflexivity|]. simpl. unfold zlen; simpl. lia.
  - reflexivity.
  - reflexivity.
  - reflexivity.
  - reflexivity.
Defined.

(** C19: [dx_read_utf_char_array] can write past the string it allocates.  Its
    length counts characters; a four-byte sequence takes one from it but
    stores two.  An array of length [n + 3] that starts with a supplementary
    character and goes on with ASCII fills all [n + 4] elements, and the
    terminator lands outside, for any buffer the peer's message is read from. *)
Theorem utf_char_array_overflow (cp a b d : Z) (tail : list Z) (c : in_ctx) :
  0x10000 <= cp <= 0x10FFFF -> 0 <= a < 128 -> 0 <= b < 128 -> 0 <= d < 128 ->
  in_wf c -> remaining c = wire (4 :: utf8_bytes cp ++ [a; b; d]) ++ tail ->
  dx_read_utf_char_array (fun _ => true) c = UB.
Proof.
  intros Hcp Ha Hb Hd Hc Hr.
  assert (reads dx_read_compact_long [i8 4] 4) as H4.
  { eapply reads_value; [apply (reads_compact_long 4)|reflexivity]. unfold is_i64. lia. }
  unfold dx_read_utf_char_array.
  rewrite (reads_then _ _ [i8 4] (wire (utf8_bytes cp ++ [a; b; d]) ++ tail) 4 c Hc H4 Hr).
  destruct (remaining_advance c [i8 4] _ Hc Hr) as [Hc1 Hr1]. set (c1 := advance _ _) in *.
  destruct (dx_code_point_to_surrogates cp) as [h l] eqn:Es.
  assert (reads (utf_sequence_loop 4 true 4 (replicate 5 0) 0)
    (wire (utf8_bytes cp) ++ wire [a; b; d]) (0, [h; l; a; b; d], 5)) as Hloop.
  { eapply reads_loop_pair; rewrite ?Es; try reflexivity; try lia.
    do 3 (eapply reads_loop_ascii; [lia|lia|reflexivity|]). apply reads_ret. }
  cbn [Z.ltb Z.compare orb INT_MAX Z.eqb Pos.compare Pos.compare_cont i32].
  change (i32 4) with 4. unfold checked_call at 1, dx_read_utf_sequence.
  change (4 =? 0) with false.
  change (dx_create_string (fun _ => true) 4) with (Some (replicate 5 0)). cbn iota.
  rewrite <- wire_app in Hloop. rewrite (reads_then _ _ _ tail _ c1 Hc1 Hloop Hr1).
  reflexivity.
Qed.

Lemma utf_char_array_overflow_witness :
  dx_read_utf_char_array (fun _ => true)
    (InCtx (Some (wire (4 :: utf8_bytes 0x1F600 ++ [0x61; 0x62; 0x63]))) 8 0 0) = UB.
Proof.
  apply (utf_char_array_overflow 0x1F600 0x61 0x62 0x63 []); [lia..| |reflexivity].
  split; [simpl; lia|]. split; [unfold INT_MAX; simpl; lia|].
  eexists; split; [reflexivity|]. vm_compute. discriminate.
Defined.

Lemma lor_horner q k :
  0 <= k -> Z.lor (q / 256 * 2 ^ (k + 8)) (q mod 256 * 2 ^ k) = q * 2 ^ k.
Proof.
  intros Hk. rewrite <- (shl_mul (q mod 256)) by done.
  rewrite lor_byte by (first [done | by exists (q / 256) | zlia]).
  rewrite Z.pow_add_r by lia. change (2 ^ 8) with 256. zlia.
Qed.

(** [dx_read_long] inverts [dx_write_long] on numbers none of whose six
    middle bytes has its high bit set; a set bit is sign-extended over the
    bytes above it, so 0x8000..0xFFFF come back decreased by 65536. *)
Theorem read_long_sign_extends (v : Z) :
  is_i64 v ->
  ((forall k, 1 <= k <= 6 -> (v / 256 ^ k) mod 256 < 128) ->
   reads dx_read_long (wire (be_bytes 8 v)) v) /\
  (0x8000 <= v <= 0xFFFF -> reads dx_read_long (wire (be_bytes 8 v)) (v - 0x10000)).
Proof.
  intros Hv. split.
  - intros Hk. eapply reads_value; [apply reads_long|].
    assert (forall x, x mod 256 < 128 -> i8 x = x mod 256) as Hi8 by (intros; intlia).
    assert (forall j, 0 <= j -> v / 256 ^ (j + 1) = v / 256 ^ j / 256) as Hd.
    { intros j Hj. rewrite Z.pow_add_r, Z.div_div by lia. done. }
    rewrite (i8_id (v / 256 ^ 7)) by (unfold is_i8, is_i64 in *; simpl Z.pow; zlia).
    change (v / 256) with (v / 256 ^ 1).
    rewrite !Hi8 by (apply Hk; lia). clear Hi8 Hk.
    rewrite (Hd 6 ltac:(lia) : v / 256 ^ 7 = _), (lor_horner _ 48) by lia.
    rewrite (Hd 5 ltac:(lia) : v / 256 ^ 6 = _), (lor_horner _ 40) by lia.
    rewrite (Hd 4 ltac:(lia) : v / 256 ^ 5 = _), (lor_horner _ 32) by lia.
    rewrite (Hd 3 ltac:(lia) : v / 256 ^ 4 = _), (lor_horner _ 24) by lia.
    rewrite (Hd 2 ltac:(lia) : v / 256 ^ 3 = _), (lor_horner _ 16) by lia.
    rewrite (Hd 1 ltac:(lia) : v / 256 ^ 2 = _), (lor_horner _ 8) by lia.
    rewrite lor_add by (simpl Z.pow; zlia). simpl Z.pow. zlia.
  - intros Hr. eapply reads_value; [apply reads_long|].
    assert (forall k, 2 <= k -> v / 256 ^ k = 0) as H0.
    { intros k Hk. apply Z.div_small. pose proof (Z.pow_le_mono_r 256 2 k). lia. }
    rewrite !H0 by lia.
    change (i8 0) with 0. rewrite !Z.mul_0_l, !Z.lor_0_l.
    rewrite lor_add by (simpl Z.pow; zlia). simpl Z.pow. intlia.
Qed.

Lemma read_long_sign_extends_witness :
  reads dx_read_long (wire (be_bytes 8 0x8000)) (-0x8000).
Proof. apply (read_long_sign_extends 0x8000); [unfold is_i64; lia|lia]. Defined.

(** The bounds test of [dx_read_byte_buffer_segment] adds the position
    and the length as 32-bit integers: once the position is positive, a
    segment of INT_MAX bytes passes it and the copy reads past the input
    buffer, however few bytes it holds. *)
Theorem segment_bound_overflow (c : in_ctx) (dest : list Z) :
  in_wf c -> 0 < current_in_buffer_position c ->
  (forall buf, in_buffer c = Some buf -> zlen buf <= INT_MAX) ->
  dx_read_byte_buffer_segment dest INT_MAX 0 INT_MAX c = UB.
Proof.
  intros (Hp & Hm & buf & Hb & Hl) Hpos Hbuf. specialize (Hbuf buf Hb).
  unfold dx_read_byte_buffer_segment.
  change (Z.lor _ _ <? 0) with false. cbn iota.
  unfold checked_call at 1, get at 1. unfold IS_BUF_CAPACITY_ENOUGH.
  replace (i32 (current_in_buffer_position c + INT_MAX) <=? in_buffer_length c) with true.
  - cbn [negb]. rewrite Hb. decide_cmps. unfold blit.
    replace (Z.to_nat (current_in_buffer_position c) + Z.to_nat INT_MAX <=? length buf)%nat
      with false; [done|].
    symmetry. apply Nat.leb_gt. unfold INT_MAX, zlen in *. lia.
  - symmetry. apply Z.leb_le. intlia.
Qed.

Lemma segment_bound_overflow_witness :
  dx_read_byte_buffer_segment [] INT_MAX 0 INT_MAX (InCtx (Some [1; 2; 3]) 3 0 1) = UB.
Proof.
  apply segment_bound_overflow.
  - split; [simpl; lia|]. split; [unfold INT_MAX; simpl; lia|]. eexists; split; [reflexivity|].
    simpl. unfold zlen. simpl. lia.
  - simpl. lia.
  - intros buf [= <-]. unfold INT_MAX, zlen. simpl. lia.
Defined.
