(* ===== verification/SymbolCodec.v ===== *)
(** * SymbolCodec: [src/SymbolCodec.c]

    The penta codec: short symbols packed in a 32-bit cipher, and the wire
    format of symbols.  The three global tables are the record [tables], which
    [dx_init_symbol_codec] fills in; the other operations read them.  The OUT
    values of [dx_codec_read_symbol] are the record [symbol_out], threaded
    beside the input context. *)

From S2P Require Import Prelude Arrays Algorithms Output Input Wire.
Local Open Scope Z_scope.
Local Open Scope c_scope.

Definition PENTA_LENGTH : Z := 128.

Record tables : Type := Tables {
  g_pentas : list Z;
  g_penta_lengths : list Z;
  g_penta_characters : list Z;
  g_wildcard_cipher : Z;
}.

(** [l[i]] and [l[i] = x] with an [int] index. *)
Definition at_index (l : list Z) (i : Z) : option Z :=
  if i <? 0 then None else l !! Z.to_nat i.
Definition set_index (l : list Z) (i x : Z) : option (list Z) :=
  if i <? 0 then None else write_at l (Z.to_nat i) x.

Definition dx_init_penta (c penta penta_length : Z) (t : tables) : option tables :=
  characters ← set_index (g_penta_characters t) penta c;
  pentas ← set_index (g_pentas t) c penta;
  lengths ← set_index (g_penta_lengths t) c penta_length;
  Some (Tables pentas lengths characters (g_wildcard_cipher t)).

(** Characters of the source. *)
Definition chr_slash : Z := 47.
Definition chr_dollar : Z := 36.

Definition dx_encode_penta (t : tables) (penta penta_length : Z) : option Z :=
  if penta_length <=? 30 then Some (i32 (i32 penta + 0x40000000))
  else
    let c := i32 (Z.shiftr (u64 penta) 30) in
    slash ← at_index (g_pentas t) chr_slash;
    dollar ← at_index (g_pentas t) chr_dollar;
    if c =? slash then Some (i32 (Z.land (i32 penta) 0x3FFFFFFF + 0x80000000))
    else if c =? dollar then Some (i32 (Z.land (i32 penta) 0x3FFFFFFF + 0xC0000000))
    else Some 0.

(** The number of bits of a penta, as a multiple of 5; a penta of at most 60
    bits needs at most 12 rounds. *)
Fixpoint penta_bits (fuel : nat) (penta plen : Z) : Z :=
  match fuel with
  | O => plen
  | S fuel' =>
      if Z.shiftr (u64 penta) plen =? 0 then plen else penta_bits fuel' penta (plen + 5)
  end.

(** The second loop of [dx_penta_to_string]; each round takes five bits or more. *)
Fixpoint penta_string_loop (fuel : nat) (t : tables) (penta penta_length : Z)
  (buffer : list Z) (length : Z) : option (list Z) :=
  match fuel with
  | O => Some buffer
  | S fuel' =>
      if 0 <? penta_length then
        let penta_length := penta_length - 5 in
        let code := Z.land (i32 (Z.shiftr (u64 penta) penta_length)) 0x1F in
        let '(penta_length, code) :=
          if (30 <=? code) && (0 <? penta_length)
          then (penta_length - 5, Z.land (i32 (Z.shiftr (u64 penta) (penta_length - 5))) 0x3FF)
          else (penta_length, code) in
        c ← at_index (g_penta_characters t) code;
        buffer ← set_index buffer length c;
        penta_string_loop fuel' t penta penta_length buffer (length + 1)
      else Some buffer
  end.

(** NULL when the allocation fails; undefined outside the tables. *)
Definition dx_penta_to_string {S} (calloc_ok : Z -> bool) (t : tables) (penta : Z)
  : M S (option (list Z)) :=
  let penta_length := penta_bits 13 penta 0 in
  match dx_create_string calloc_ok (Z.quot penta_length 5) with
  | None => ret None
  | Some buffer =>
      s <-- of_option (penta_string_loop 13 t penta penta_length buffer 0);; ret (Some s)
  end.

Definition dx_decode_cipher {S} (t : tables) (cipher : Z) : M S Z :=
  let k := Z.shiftr (u32 cipher) 30 in
  if k =? 0 then dx_set_error_code dx_ec_invalid_func_param_internal
  else if k =? 1 then ret (Z.land cipher 0x3FFFFFFF)
  else if k =? 2 then
    slash <-- of_option (at_index (g_pentas t) chr_slash);;
    ret (Z.shiftl slash 30 + Z.land cipher 0x3FFFFFFF)
  else if k =? 3 then
    dollar <-- of_option (at_index (g_pentas t) chr_dollar);;
    ret (Z.shiftl dollar 30 + Z.land cipher 0x3FFFFFFF)
  else dx_set_error_code dx_ec_internal_assert_violation.

(** The loop of [dx_encode_symbol_name]: the penta and its length, or [inl]
    for the early return of 0.  A shift count of 64 is undefined in C; the
    processor takes it modulo 64, and the length is then too long anyway. *)
Fixpoint encode_symbol_loop (t : tables) (symbol : list Z) (penta penta_length : Z)
  : option (unit + Z * Z) :=
  match symbol with
  | [] => Some (inr (penta, penta_length))
  | c :: symbol' =>
      if 128 <=? c then Some (inl ())
      else
        l ← at_index (g_penta_lengths t) c;
        p ← at_index (g_pentas t) c;
        encode_symbol_loop t symbol' (i64 (i64 (Z.shiftl penta (l mod 64)) + p)) (penta_length + l)
  end.

Definition dx_encode_symbol_name (t : tables) (symbol : option (list Z)) : option Z :=
  match symbol with
  | None => Some 0
  | Some s =>
      if (7 <? length s)%nat then Some 0
      else
        r ← encode_symbol_loop t s 0 0;
        match r with
        | inl _ => Some 0
        | inr (penta, penta_length) =>
            if 35 <? penta_length then Some 0 else dx_encode_penta t penta penta_length
        end
  end.

Definition dx_get_codec_valid_cipher : Z := i32 0xC0000000.

Definition dx_decode_symbol_name {S} (calloc_ok : Z -> bool) (t : tables) (cipher : Z)
  : M S (option (list Z)) :=
  if cipher =? 0 then ret None
  else
    penta <-- dx_decode_cipher t cipher;;
    str <-- dx_penta_to_string calloc_ok t penta;;
    match str with
    | None => dx_set_error_code dx_mec_insufficient_memory
    | Some s => ret (Some s)
    end.

(** ** Initialisation *)

(** [for (i = lo; i <= hi; ++i) f(i)] over a state. *)
Fixpoint for_each {A} (l : list Z) (f : Z -> A -> option A) (a : A) : option A :=
  match l with
  | [] => Some a
  | i :: l' => a ← f i a; for_each l' f a
  end.

(** One round of the third loop; the state is the tables and [penta]. *)
Definition init_printable (i : Z) (s : tables * Z) : option (tables * Z) :=
  let '(t, penta) := s in
  p ← at_index (g_pentas t) i;
  if (p =? 0) && negb (i =? 39) && negb (i =? 96)
  then t ← dx_init_penta i penta 10 t; Some (t, penta + 1)
  else Some (t, penta).

Definition dx_init_symbol_codec (wildcard : Z) : option (tables * bool) :=
  let t := Tables (replicate 128 0) (replicate 128 64) (replicate 1024 0) wildcard in
  t ← for_each (seqZ 65 26) (fun i => dx_init_penta i (i - 65 + 1) 5) t;
  t ← dx_init_penta 46 27 5 t;
  t ← dx_init_penta chr_slash 28 5 t;
  t ← dx_init_penta chr_dollar 29 5 t;
  r ← for_each (seqZ 32 95) init_printable (t, 0x03C0);
  let '(t, penta) := r in
  if negb (penta =? 0x0400) then Some (t, false)
  else
    w ← dx_encode_symbol_name t (Some [42]);
    Some (Tables (g_pentas t) (g_penta_lengths t) (g_penta_characters t) w, true).

(** ** The wire format *)

(** The OUT parameters and the caller's buffer. *)
Record symbol_out : Type := SymbolOut {
  result : option (list Z);
  cipher_result : Z;
  flags : Z;
  mru_event_flags : Z;
  buffer : list Z;
}.

Definition codec_state : Type := in_ctx * symbol_out.

Definition on_input {A} (m : M in_ctx A) : M codec_state A := fun '(c, o) =>
  match m c with
  | Ok a c' => Ok a (c', o)
  | Err e c' => Err e (c', o)
  | UB => UB
  end.
Definition on_output (f : symbol_out -> symbol_out) : M codec_state unit :=
  fun '(c, o) => Ok tt (c, f o).
Definition get_output {A} (f : symbol_out -> A) : M codec_state A := fun '(c, o) => Ok (f o) (c, o).
Definition set_flags (x : Z) (o : symbol_out) : symbol_out :=
  SymbolOut (result o) (cipher_result o) x (mru_event_flags o) (buffer o).
Definition set_mru (x : Z) (o : symbol_out) : symbol_out :=
  SymbolOut (result o) (cipher_result o) (flags o) x (buffer o).
Definition set_cipher (x : Z) (o : symbol_out) : symbol_out :=
  SymbolOut (result o) x (flags o) (mru_event_flags o) (buffer o).
Definition set_result (s : option (list Z)) (o : symbol_out) : symbol_out :=
  SymbolOut s (cipher_result o) (flags o) (mru_event_flags o) (buffer o).
Definition set_buffer (b : list Z) (o : symbol_out) : symbol_out :=
  SymbolOut (result o) (cipher_result o) (flags o) (mru_event_flags o) b.

(** The characters of a CESU-8 symbol, stored from index [k] on; the first
    [length] rounds. *)
Fixpoint cesu_loop (n : nat) (k : Z) (symbol_buffer : list Z) : M codec_state (list Z) :=
  match n with
  | O => ret symbol_buffer
  | S n' =>
      code_point <-- on_input dx_read_utf_char;;
      if 0xFFFF <? code_point then dx_set_error_code dx_utfec_bad_utf_data_format_server
      else
        symbol_buffer <-- of_option (set_index symbol_buffer k code_point);;
        cesu_loop n' (k + 1) symbol_buffer
  end.

Section codec.
Context (calloc_ok malloc_ok : Z -> bool) (t : tables).

(** The end of [dx_codec_read_symbol], for the formats that hold a penta. *)
Definition finish_penta (penta : Z) : M codec_state unit :=
  let plen := penta_bits 13 penta 0 in
  cipher <-- of_option (dx_encode_penta t penta plen);;
  if cipher =? 0 then
    str <-- dx_penta_to_string calloc_ok t penta;;
    match str with
    | None => dx_set_error_code dx_mec_insufficient_memory
    | Some s => on_output (set_result (Some s));;; on_output (set_cipher cipher)
    end
  else on_output (set_cipher cipher).

(** The CESU-8 case.  The symbol is read into the caller's [buffer] when it
    fits, else into a new block.  The block of an empty symbol has one byte:
    no whole character. *)
Definition read_cesu (buffer_length : Z) : M codec_state unit :=
  length <-- on_input dx_read_compact_long;;
  if (length <? 0) || (INT_MAX <? length) then dx_set_error_code dx_pcec_invalid_symbol_length
  else if length =? 0 then
    if malloc_ok 1 then
      empty <-- of_option (set_index [] 0 0);;
      on_output (set_result (Some empty));;; on_output (set_cipher 0)
    else dx_set_error_code dx_mec_insufficient_memory
  else
    let fits := length <=? buffer_length in
    caller_buffer <-- get_output buffer;;
    match (if fits then Some caller_buffer else dx_create_string calloc_ok length) with
    | None => dx_set_error_code dx_mec_insufficient_memory
    | Some symbol_buffer =>
        symbol_buffer <-- cesu_loop (Z.to_nat length) 0 symbol_buffer;;
        (if fits then on_output (set_buffer symbol_buffer) else ret tt);;;
        if fits && (Z.land length dx_get_codec_valid_cipher =? 0)
        then on_output (set_cipher (i32 length))
        else
          match dx_create_string calloc_ok (i32 length) with
          | None => dx_set_error_code dx_mec_insufficient_memory
          | Some block =>
              s <-- of_option (blit symbol_buffer 0 block 0 (Z.to_nat length));;
              on_output (set_result (Some s));;; on_output (set_cipher 0)
          end
    end.

(** The loop of [dx_codec_read_symbol]: a second flags prefix is an error, so
    there are at most three rounds. *)
Fixpoint read_symbol_loop (fuel : nat) (buffer_length event_flags_bytes : Z)
  : M codec_state unit :=
  match fuel with
  | O => undefined
  | S fuel' =>
      i <-- on_input dx_read_unsigned_byte;;
      if i <? 0x80 then
        tmp_int_1 <-- on_input dx_read_unsigned_byte;;
        finish_penta (u32 (Z.shiftl i 8 + tmp_int_1))
      else if i <? 0xC0 then
        tmp_int_1 <-- on_input dx_read_unsigned_byte;;
        tmp_int_2 <-- on_input dx_read_unsigned_short;;
        finish_penta (u32 (Z.shiftl (Z.land i 0x3F) 24 + Z.shiftl tmp_int_1 16 + tmp_int_2))
      else if i <? 0xE0 then dx_set_error_code dx_pcec_reserved_bit_sequence
      else if i <? 0xF0 then
        tmp_int_1 <-- on_input dx_read_unsigned_short;;
        finish_penta (u32 (Z.shiftl (Z.land i 0x0F) 16 + tmp_int_1))
      else if i <? 0xF8 then
        tmp_int_3 <-- on_input dx_read_int;;
        finish_penta (Z.shiftl (Z.land i 0x07) 32 + Z.land tmp_int_3 0xFFFFFFFF)
      else if i =? 0xF8 then
        if 0 <? event_flags_bytes then dx_set_error_code dx_pcec_invalid_event_flag
        else
          on_output (fun o => set_flags (mru_event_flags o) o);;;
          read_symbol_loop fuel' buffer_length 1
      else if i =? 0xF9 then
        if 0 <? event_flags_bytes then dx_set_error_code dx_pcec_invalid_event_flag
        else
          event_flags_pos <-- on_input dx_get_in_buffer_position;;
          tmp_flags <-- on_input dx_read_compact_int;;
          on_output (set_mru (u32 tmp_flags));;;
          on_output (set_flags (u32 tmp_flags));;;
          pos <-- on_input dx_get_in_buffer_position;;
          read_symbol_loop fuel' buffer_length (pos - event_flags_pos)
      else if i <? 0xFC then dx_set_error_code dx_pcec_reserved_bit_sequence
      else if i =? 0xFC then
        s <-- on_input (dx_read_utf_string calloc_ok);;
        on_output (set_result s);;; on_output (set_cipher 0)
      else if i =? 0xFD then read_cesu buffer_length
      else if i =? 0xFE then finish_penta 0
      else on_output (set_result None);;; on_output (set_cipher 0)
  end.

Definition dx_codec_read_symbol (buffer_length : Z) : M codec_state unit :=
  on_output (set_flags 0);;; read_symbol_loop 3 buffer_length 0.

Fixpoint write_cesu_loop (symbol : list Z) : M out_ctx unit :=
  match symbol with
  | [] => ret tt
  | c :: symbol' => dx_write_utf_char malloc_ok c;;; write_cesu_loop symbol'
  end.

Definition dx_codec_write_symbol (cipher : Z) (symbol : option (list Z)) : M out_ctx unit :=
  if negb (cipher =? 0) then
    penta <-- dx_decode_cipher t cipher;;
    if penta =? 0 then dx_write_byte malloc_ok (i8 0xFE)
    else if penta <? 0x8000 then dx_write_short malloc_ok (i16 penta)
    else if penta <? 0x100000 then
      dx_write_byte malloc_ok (i8 (Z.lor 0xE0 (Z.shiftr (u32 penta) 16)));;;
      dx_write_short malloc_ok (i16 penta)
    else if penta <? 0x40000000 then
      dx_write_int malloc_ok (i32 (Z.lor 0x80000000 (u32 penta)))
    else if penta <? 0x0800000000 then
      dx_write_byte malloc_ok (i8 (Z.lor 0xF0 (i32 (Z.shiftr (u64 penta) 32))));;;
      dx_write_int malloc_ok (i32 penta)
    else dx_set_error_code dx_ec_internal_assert_violation
  else
    match symbol with
    | Some s =>
        dx_write_byte malloc_ok (i8 0xFD);;;
        let length := i32 (Z.of_nat (length s)) in
        dx_write_compact_int malloc_ok length;;;
        write_cesu_loop (take (Z.to_nat length) s)
    | None => dx_write_byte malloc_ok (i8 0xFF)
    end.
End codec.

(** ** The tables after initialisation *)

Definition codec_tables : tables :=
  match dx_init_symbol_codec 0 with Some (t, _) => t | None => Tables [] [] [] 0 end.

Lemma init_tables w : dx_init_symbol_codec w = Some (codec_tables, true).
Proof. vm_compute. reflexivity. Qed.

Lemma slash_penta : at_index (g_pentas codec_tables) chr_slash = Some 28.
Proof. vm_compute. reflexivity. Qed.
Lemma dollar_penta : at_index (g_pentas codec_tables) chr_dollar = Some 29.
Proof. vm_compute. reflexivity. Qed.

(** The code of a character: its penta and the length of it in bits. *)
Definition penta_code (c : Z) : Z * Z :=
  match at_index (g_pentas codec_tables) c, at_index (g_penta_lengths codec_tables) c with
  | Some p, Some l => (p, l)
  | _, _ => (0, 64)
  end.

(** A character the codec knows: five bits from 1 to 29, or ten bits whose
    upper half is 30 or 31, and the inverse table leads back to it. *)
Definition encodable (c : Z) : Prop :=
  32 <= c < 128 /\
  at_index (g_penta_characters codec_tables) (penta_code c).1 = Some c /\
  ((penta_code c).2 = 5 /\ 1 <= (penta_code c).1 <= 29 \/
   (penta_code c).2 = 10 /\ 0x3C0 <= (penta_code c).1 <= 0x3FF).

Definition encodableb (c : Z) : bool :=
  (32 <=? c) && (c <? 128) &&
  bool_decide (at_index (g_penta_characters codec_tables) (penta_code c).1 = Some c) &&
  (((penta_code c).2 =? 5) && (1 <=? (penta_code c).1) && ((penta_code c).1 <=? 29) ||
   ((penta_code c).2 =? 10) && (0x3C0 <=? (penta_code c).1) && ((penta_code c).1 <=? 0x3FF)).

Lemma encodableb_spec c : encodableb c = true -> encodable c.
Proof.
  unfold encodableb, encodable. intros H. apply andb_true_iff in H as [H H3].
  apply andb_true_iff in H as [H H2]. apply bool_decide_eq_true in H2.
  bool_to_prop. split; [lia|]. split; [done|]. destruct H3; bool_to_prop; [left|right]; lia.
Qed.

Definition table_ok (c : Z) : bool :=
  bool_decide (at_index (g_penta_lengths codec_tables) c = Some (penta_code c).2) &&
  bool_decide (at_index (g_pentas codec_tables) c = Some (penta_code c).1) &&
  (encodableb c || ((penta_code c).2 =? 64)).

(** Every ASCII character is either known or has the length 64. *)
Lemma tables_spec c :
  0 <= c < 128 ->
  at_index (g_penta_lengths codec_tables) c = Some (penta_code c).2 /\
  at_index (g_pentas codec_tables) c = Some (penta_code c).1 /\
  (encodable c \/ (penta_code c).2 = 64).
Proof.
  intros Hc.
  pose proof (finite_check table_ok 0 128 ltac:(vm_compute; reflexivity) c Hc) as H.
  unfold table_ok in H.
  apply andb_true_iff in H as [H H3]. apply andb_true_iff in H as [H1 H2].
  apply bool_decide_eq_true in H1, H2. split; [done|]. split; [done|].
  apply orb_true_iff in H3 as [H3|H3]; [left; by apply encodableb_spec|right; by bool_to_prop].
Qed.

#[local] Opaque codec_tables.

(** ** Pentas of strings *)

Fixpoint penta_len (s : list Z) : Z :=
  match s with [] => 0 | c :: s' => (penta_code c).2 + penta_len s' end.

Fixpoint penta_val (s : list Z) : Z :=
  match s with
  | [] => 0
  | c :: s' => (penta_code c).1 * 2 ^ penta_len s' + penta_val s'
  end.

Lemma penta_len_nonneg s : Forall encodable s -> 0 <= penta_len s.
Proof. induction 1 as [|c s (_ & _ & Hc) _ IH]; simpl; lia. Qed.

Lemma penta_val_bound s : Forall encodable s -> 0 <= penta_val s < 2 ^ penta_len s.
Proof.
  induction 1 as [|c s (_ & _ & Hc) Hs IH]; cbn [penta_val penta_len]; [done|].
  pose proof (penta_len_nonneg s Hs).
  pose proof (Z.pow_pos_nonneg 2 (penta_len s) ltac:(lia) ltac:(lia)).
  rewrite Z.pow_add_r by lia. destruct Hc as [[-> Hp]|[-> Hp]]; simpl (2 ^ _) at 2.
  - change (2 ^ 5) with 32. nia.
  - change (2 ^ 10) with 1024. nia.
Qed.

(** Lengths are multiples of 5, and the first five bits are not 0. *)
Lemma penta_len_mod s : Forall encodable s -> exists k, penta_len s = 5 * Z.of_nat k.
Proof.
  induction 1 as [|c s (_ & _ & Hc) _ [k IH]]; [by exists 0%nat|]. cbn [penta_len]. rewrite IH.
  destruct Hc as [[-> _]|[-> _]]; [exists (S k)|exists (S (S k))]; lia.
Qed.

Lemma penta_val_low c s : Forall encodable (c :: s) -> 2 ^ (penta_len (c :: s) - 5) <= penta_val (c :: s).
Proof.
  intros H. inversion_clear H as [|? ? (_ & _ & Hc) Hs]. cbn [penta_val penta_len].
  pose proof (penta_val_bound s Hs). pose proof (penta_len_nonneg s Hs).
  pose proof (Z.pow_pos_nonneg 2 (penta_len s) ltac:(lia) ltac:(lia)).
  destruct Hc as [[-> Hp]|[-> Hp]].
  - replace (5 + penta_len s - 5) with (penta_len s) by lia. nia.
  - replace (10 + penta_len s - 5) with (5 + penta_len s) by lia.
    rewrite Z.pow_add_r by lia. change (2 ^ 5) with 32. nia.
Qed.

Lemma at_index_neg l i : i < 0 -> at_index l i = None.
Proof. unfold at_index. intros. by decide_cmps. Qed.

Lemma encode_symbol_loop_mono s q m p' n' :
  encode_symbol_loop codec_tables s q m = Some (inr (p', n')) -> m <= n'.
Proof.
  revert q m. induction s as [|c s IH]; intros q m; cbn [encode_symbol_loop].
  - intros [= -> ->]. lia.
  - destruct (128 <=? c) eqn:?; [done|]. bool_to_prop.
    destruct (decide (c < 0)); [rewrite (at_index_neg (g_penta_lengths codec_tables) c) by done; cbn [mbind option_bind]; intros [=]|].
    destruct (tables_spec c ltac:(lia)) as (-> & -> & Hcode). cbn [mbind option_bind].
    intros H; apply IH in H. destruct Hcode as [(_ & _ & H')|H']; lia.
Qed.

(** The loop of [dx_encode_symbol_name]: a result of at most 35 bits is the
    penta of a string of known characters. *)
Lemma encode_symbol_loop_spec s penta n p' n' :
  0 <= n -> 0 <= penta < 2 ^ n ->
  encode_symbol_loop codec_tables s penta n = Some (inr (p', n')) -> n' <= 35 ->
  Forall encodable s /\ n' = n + penta_len s /\ p' = penta * 2 ^ penta_len s + penta_val s.
Proof.
  revert penta n. induction s as [|c s IH]; intros penta n Hn Hp.
  { simpl. intros [= <- <-] _. split; [done|]. lia. }
  cbn [encode_symbol_loop penta_len penta_val].
  destruct (Z.leb_spec 128 c) as [|Hc]; [done|].
  destruct (decide (c < 0)) as [Hneg|Hpos].
  { rewrite (at_index_neg (g_penta_lengths codec_tables) c) by done. cbn [mbind option_bind]; intros [=]. }
  destruct (tables_spec c ltac:(lia)) as (-> & -> & Hcode). cbn [mbind option_bind].
  intros H Hn'. pose proof (encode_symbol_loop_mono _ _ _ _ _ H) as Hle.
  destruct Hcode as [Hcode|Hcode]; [|lia].
  pose proof Hcode as (_ & _ & Hlp).
  assert (0 < (penta_code c).2 < 64) as Hl by lia.
  rewrite (Z.mod_small _ 64) in H by lia. rewrite shl_mul in H by lia.
  assert (penta * 2 ^ (penta_code c).2 + (penta_code c).1 < 2 ^ (n + (penta_code c).2)) as Hb.
  { rewrite Z.pow_add_r by lia.
    assert ((penta_code c).1 < 2 ^ (penta_code c).2).
    { destruct Hlp as [[-> ?]|[-> ?]]; simpl Z.pow; lia. }
    nia. }
  assert (2 ^ (n + (penta_code c).2) <= 2 ^ 35) by (apply Z.pow_le_mono_r; lia).
  pose proof (Z.pow_pos_nonneg 2 (penta_code c).2 ltac:(lia) ltac:(lia)).
  change (2 ^ 35) with 34359738368 in *.
  assert (0 <= penta * 2 ^ (penta_code c).2) by nia.
  rewrite (i64_id (penta * _)), i64_id in H by (unfold is_i64; lia).
  apply IH in H as (Hs & -> & ->); [|lia|lia|lia].
  split; [by constructor|]. split; [lia|].
  pose proof (penta_len_nonneg s Hs). rewrite Z.pow_add_r by lia. lia.
Qed.

Lemma penta_bits_loop k j fuel P :
  (k <= 12)%nat -> 0 <= P < 2 ^ (5 * Z.of_nat k) -> (k = 0%nat \/ 2 ^ (5 * Z.of_nat k - 5) <= P) ->
  (j <= k)%nat -> (k - j < fuel)%nat ->
  penta_bits fuel P (5 * Z.of_nat j) = 5 * Z.of_nat k.
Proof.
  intros Hk HP Hlow. revert j. induction fuel as [|fuel IH]; intros j Hj Hf; [lia|].
  cbn [penta_bits].
  assert (2 ^ (5 * Z.of_nat k) <= 2 ^ 60) by (apply Z.pow_le_mono_r; lia).
  rewrite u64_id by (unfold is_u64; change (2 ^ 60) with 1152921504606846976 in *; lia).
  rewrite shr_div by lia. destruct (decide (j = k)) as [->|Hne].
  - rewrite Z.div_small by lia. done.
  - destruct Hlow as [->|Hlow]; [lia|].
    assert (2 ^ (5 * Z.of_nat j) <= P).
    { transitivity (2 ^ (5 * Z.of_nat k - 5)); [apply Z.pow_le_mono_r; lia|done]. }
    pose proof (Z.pow_pos_nonneg 2 (5 * Z.of_nat j) ltac:(lia) ltac:(lia)).
    pose proof (Z.div_str_pos P (2 ^ (5 * Z.of_nat j)) ltac:(lia)).
    decide_cmps. replace (5 * Z.of_nat j + 5) with (5 * Z.of_nat (S j)) by lia.
    apply IH; lia.
Qed.

Lemma penta_bits_spec k P :
  (k <= 12)%nat -> 0 <= P < 2 ^ (5 * Z.of_nat k) -> (k = 0%nat \/ 2 ^ (5 * Z.of_nat k - 5) <= P) ->
  penta_bits 13 P 0 = 5 * Z.of_nat k.
Proof. intros. apply (penta_bits_loop k 0 13 P); done || lia. Qed.

(** The digits of a penta: the code of the first character and the rest. *)
Lemma penta_digits P p l L v :
  0 <= l -> 0 <= L -> 0 <= v < 2 ^ L -> P mod 2 ^ (l + L) = p * 2 ^ L + v ->
  P mod 2 ^ L = v /\ (P / 2 ^ L) mod 2 ^ l = p.
Proof.
  intros Hl HL Hv HP. rewrite Z.add_comm, Z.pow_add_r in HP by lia.
  pose proof (Z.pow_pos_nonneg 2 L ltac:(lia) HL). pose proof (Z.pow_pos_nonneg 2 l ltac:(lia) Hl).
  rewrite Z.rem_mul_r in HP by lia. pose proof (Z.mod_pos_bound P (2 ^ L) ltac:(lia)).
  set (q := (P / 2 ^ L) mod 2 ^ l) in *. set (r := P mod 2 ^ L) in *. set (K := 2 ^ L) in *.
  assert (q = p) by nia. split; [nia|done].
Qed.

Lemma land_code v m k : 0 <= k <= 32 -> m = Z.ones k -> Z.land (i32 v) m = v mod 2 ^ k.
Proof.
  intros Hk ->. rewrite Z.land_ones by lia.
  assert (exists q, i32 v = v + q * 2 ^ k) as [q ->].
  { exists ((i32 v - v) / 4294967296 * 2 ^ (32 - k)). rewrite <- Z.mul_assoc, <- Z.pow_add_r by lia.
    replace (32 - k + k) with 32 by lia. change (2 ^ 32) with 4294967296. unfold i32. zlia. }
  by rewrite Z.mod_add by (apply Z.pow_nonzero; lia).
Qed.

Lemma set_index_app (pre : list Z) y l x :
  set_index (pre ++ y :: l) (zlen pre) x = Some (pre ++ x :: l).
Proof.
  unfold set_index. pose proof (zlen_nonneg pre). decide_cmps.
  apply write_at_app. unfold zlen. lia.
Qed.

Lemma penta_string_loop_spec s P pre m fuel :
  Forall encodable s -> 0 <= P < 2 ^ 60 -> P mod 2 ^ penta_len s = penta_val s ->
  (length s <= m)%nat -> (length s < fuel)%nat ->
  penta_string_loop fuel codec_tables P (penta_len s) (pre ++ replicate m 0) (zlen pre) =
    Some (pre ++ s ++ replicate (m - length s) 0).
Proof.
  intros Hs HP. revert pre m fuel. induction Hs as [|c s Hc Hs IH]; intros pre m fuel Hv Hm Hf;
    (destruct fuel as [|fuel]; [simpl in Hf; lia|]); cbn [penta_string_loop].
  { change (penta_len []) with 0. simpl. by rewrite Nat.sub_0_r. }
  simpl in Hm, Hf. destruct m as [|m]; [lia|]. destruct Hc as (_ & Hchar & Hcode).
  cbn [penta_len penta_val] in *. pose proof (penta_len_nonneg s Hs) as HL.
  pose proof (penta_val_bound s Hs) as Hvb.
  destruct (penta_digits P (penta_code c).1 (penta_code c).2 (penta_len s) (penta_val s))
    as [Hrest Hfirst]; [lia|done|done|done|].
  specialize (IH (pre ++ [c]) m fuel Hrest ltac:(lia) ltac:(lia)).
  rewrite zlen_app, <- app_assoc in IH. change (zlen [c]) with 1 in IH. cbn [app] in IH.
  change (2 ^ 60) with 1152921504606846976 in HP.
  decide_cmps. rewrite (u64_id P) by (unfold is_u64; lia).
  rewrite !(land_code _ 0x1F 5), !(land_code _ 0x3FF 10) by (done || lia).
  destruct Hcode as [[El Hp]|[El Hp]]; rewrite El in Hfirst |- *.
  - replace (5 + penta_len s - 5) with (penta_len s) in * by lia.
    rewrite !shr_div, Hfirst by lia. decide_cmps. cbn [andb]. rewrite Hchar.
    cbn [mbind option_bind replicate]. rewrite set_index_app. cbn [mbind option_bind].
    rewrite IH. by rewrite <- app_assoc.
  - replace (10 + penta_len s - 5) with (penta_len s + 5) by lia.
    replace (penta_len s + 5 - 5) with (penta_len s) by lia.
    rewrite (shr_div P (penta_len s + 5)), Z.pow_add_r, <- Z.div_div by lia.
    change (2 ^ 5) with 32. change (2 ^ 10) with 1024 in *.
    assert ((P / 2 ^ penta_len s / 32) mod 32 = (penta_code c).1 / 32) as ->.
    { rewrite <- Hfirst. clear. set (x := P / _). zlia. }
    assert (30 <= (penta_code c).1 / 32) by zlia. decide_cmps. cbn [andb].
    rewrite shr_div, Hfirst, Hchar by lia.
    cbn [mbind option_bind replicate]. rewrite set_index_app. cbn [mbind option_bind].
    rewrite IH. by rewrite <- app_assoc.
Qed.

(** ** Ciphers *)

Lemma land_30 v : Z.land v 0x3FFFFFFF = v mod 2 ^ 30.
Proof. change 0x3FFFFFFF with (Z.ones 30). apply Z.land_ones. lia. Qed.

(** A cipher: its two high bits are not 0. *)
Definition valid_cipher (cipher : Z) : Prop := is_i32 cipher /\ 2 ^ 30 <= u32 cipher.

(** The penta of a cipher. *)
Definition cipher_penta (cipher : Z) : Z :=
  let k := u32 cipher / 2 ^ 30 in
  if k =? 1 then cipher mod 2 ^ 30
  else if k =? 2 then 28 * 2 ^ 30 + cipher mod 2 ^ 30
  else 29 * 2 ^ 30 + cipher mod 2 ^ 30.

Lemma decode_cipher_spec {S} cipher (st : S) :
  valid_cipher cipher -> dx_decode_cipher codec_tables cipher st = Ok (cipher_penta cipher) st.
Proof.
  intros [Hr Hc]. unfold dx_decode_cipher, cipher_penta.
  rewrite slash_penta, dollar_penta, land_30, shr_div by lia.
  assert (1 <= u32 cipher / 2 ^ 30 <= 3) by (simpl Z.pow in *; intlia).
  set (k := u32 cipher / 2 ^ 30) in *. clearbody k.
  assert (k = 1 \/ k = 2 \/ k = 3) as [-> | [-> | ->]] by lia; reflexivity.
Qed.

Lemma encode_penta_decode P n cipher :
  0 <= P < 2 ^ n -> (0 <= n <= 30 \/ n = 35) ->
  dx_encode_penta codec_tables P n = Some cipher -> cipher <> 0 ->
  valid_cipher cipher /\ cipher_penta cipher = P.
Proof.
  intros HP Hn. unfold dx_encode_penta. rewrite slash_penta, dollar_penta. cbn [mbind option_bind].
  destruct Hn as [Hn| ->].
  - decide_cmps. assert (2 ^ n <= 2 ^ 30) by (apply Z.pow_le_mono_r; lia).
    change (2 ^ 30) with 1073741824 in *. intros [= <-] _.
    rewrite (i32_id P), i32_id by (unfold is_i32; lia).
    unfold valid_cipher, cipher_penta. change (2 ^ 30) with 1073741824 in *.
    rewrite u32_id by (unfold is_u32; lia).
    replace ((P + 1073741824) / 1073741824) with 1 by zlia. split; [split; [unfold is_i32; lia|lia]|].
    change (1 =? 1) with true. cbn iota. zlia.
  - change (35 <=? 30) with false. cbn iota. change (2 ^ 35) with 34359738368 in HP.
    rewrite u64_id, shr_div, land_30 by (unfold is_u64; lia).
    unfold valid_cipher, cipher_penta. change (2 ^ 30) with 1073741824 in *.
    rewrite i32_id by (unfold is_i32; zlia).
    assert (i32 P mod 1073741824 = P mod 1073741824) as -> by intlia.
    destruct (Z.eqb_spec (P / 1073741824) 28) as [E|]; [|destruct (Z.eqb_spec (P / 1073741824) 29) as [E|]];
      intros [= <-] Hne; [| |done].
    + assert (u32 (i32 (P mod 1073741824 + 2147483648)) = P mod 1073741824 + 2147483648) as -> by intlia.
      replace ((P mod 1073741824 + 2147483648) / 1073741824) with 2 by zlia.
      split; [split; [apply i32_range|zlia]|]. change (2 =? 1) with false. change (2 =? 2) with true.
      cbn iota. intlia.
    + assert (u32 (i32 (P mod 1073741824 + 3221225472)) = P mod 1073741824 + 3221225472) as -> by intlia.
      replace ((P mod 1073741824 + 3221225472) / 1073741824) with 3 by zlia.
      split; [split; [apply i32_range|zlia]|]. change (3 =? 1) with false. change (3 =? 2) with false.
      cbn iota. intlia.
Qed.

Lemma penta_digits_count P :
  0 <= P < 2 ^ 35 ->
  exists k, (k <= 7)%nat /\ P < 2 ^ (5 * Z.of_nat k) /\
    (k = 0%nat \/ 2 ^ (5 * Z.of_nat k - 5) <= P).
Proof.
  intros HP.
  destruct (Z.ltb_spec P (2 ^ 0)); [exists 0%nat; lia|].
  destruct (Z.ltb_spec P (2 ^ 5)); [exists 1%nat; simpl in *; lia|].
  destruct (Z.ltb_spec P (2 ^ 10)); [exists 2%nat; simpl in *; lia|].
  destruct (Z.ltb_spec P (2 ^ 15)); [exists 3%nat; simpl in *; lia|].
  destruct (Z.ltb_spec P (2 ^ 20)); [exists 4%nat; simpl in *; lia|].
  destruct (Z.ltb_spec P (2 ^ 25)); [exists 5%nat; simpl in *; lia|].
  destruct (Z.ltb_spec P (2 ^ 30)); [exists 6%nat; simpl in *; lia|].
  exists 7%nat. simpl in *; lia.
Qed.

(** Encoding a penta read from the wire. *)
Lemma encode_penta_low P :
  0 <= P < 2 ^ 30 ->
  dx_encode_penta codec_tables P (penta_bits 13 P 0) = Some (P + 0x40000000).
Proof.
  intros HP. destruct (penta_digits_count P) as (k & Hk & Hlt & Hlow).
  { change (2 ^ 35) with 34359738368. change (2 ^ 30) with 1073741824 in *. lia. }
  rewrite (penta_bits_spec k) by (lia || done).
  assert (5 * Z.of_nat k <= 30).
  { destruct (decide (k = 7%nat)) as [->|]; [|lia]. destruct Hlow as [|Hlow]; [done|].
    change (2 ^ (5 * Z.of_nat 7 - 5)) with (2 ^ 30) in Hlow. lia. }
  unfold dx_encode_penta. decide_cmps. change (2 ^ 30) with 1073741824 in *.
  by rewrite (i32_id P), i32_id by (unfold is_i32; lia).
Qed.

Lemma encode_penta_high d r :
  0 <= r < 2 ^ 30 -> d = 28 \/ d = 29 ->
  dx_encode_penta codec_tables (d * 2 ^ 30 + r) (penta_bits 13 (d * 2 ^ 30 + r) 0) =
    Some (i32 (r + (if d =? 28 then 0x80000000 else 0xC0000000))).
Proof.
  intros Hr Hd. change (2 ^ 30) with 1073741824 in *.
  rewrite (penta_bits_spec 7); [|lia|change (2 ^ (5 * Z.of_nat 7)) with 34359738368; lia|right;
    change (2 ^ (5 * Z.of_nat 7 - 5)) with 1073741824; lia].
  unfold dx_encode_penta. change (5 * Z.of_nat 7 <=? 30) with false. cbn iota.
  rewrite slash_penta, dollar_penta. cbn [mbind option_bind].
  rewrite u64_id, shr_div, land_30 by (unfold is_u64; lia). change (2 ^ 30) with 1073741824.
  replace ((d * 1073741824 + r) / 1073741824) with d by zlia. rewrite (i32_id d) by (unfold is_i32; lia).
  replace (i32 (d * 1073741824 + r) mod 1073741824) with r by intlia.
  by destruct Hd as [-> | ->].
Qed.

Lemma encode_cipher_penta cipher :
  valid_cipher cipher ->
  dx_encode_penta codec_tables (cipher_penta cipher) (penta_bits 13 (cipher_penta cipher) 0) =
    Some cipher.
Proof.
  intros [Hr Hc]. pose proof (Z.mod_pos_bound cipher (2 ^ 30) ltac:(lia)) as Hm.
  unfold cipher_penta. unfold is_i32, u32 in *. change (2 ^ 30) with 1073741824 in Hc.
  change (2 ^ 30) with 1073741824 in Hm.
  destruct (Z.eqb_spec (cipher mod 4294967296 / 2 ^ 30) 1) as [E1|E1];
    [|destruct (Z.eqb_spec (cipher mod 4294967296 / 2 ^ 30) 2) as [E2|E2]];
    change (2 ^ 30) with 1073741824 in *.
  - rewrite encode_penta_low by done. f_equal. zlia.
  - rewrite (encode_penta_high 28) by (done || by left). f_equal. change (28 =? 28) with true.
    cbn iota. unfold i32. zlia.
  - rewrite (encode_penta_high 29) by (done || by right). f_equal. change (29 =? 28) with false.
    cbn iota. unfold i32. zlia.
Qed.

Lemma cipher_penta_bound cipher : valid_cipher cipher -> 0 <= cipher_penta cipher < 2 ^ 35.
Proof.
  intros _. unfold cipher_penta. change (2 ^ 35) with 34359738368. change (2 ^ 30) with 1073741824.
  pose proof (Z.mod_pos_bound cipher 1073741824). repeat destruct_match; lia.
Qed.

Lemma valid_cipher_nonzero cipher : valid_cipher cipher -> cipher <> 0.
Proof. intros [_ H] ->. vm_compute in H. by apply H. Qed.

(** ** The wire format of ciphers *)

(** [sreads m o bs o']: on a buffer that starts with [bs], the operation [m]
    consumes exactly [bs] and takes the OUT values from [o] to [o']. *)
Definition sreads {A} (m : M codec_state A) (o : symbol_out) (bs : list Z) (v : A)
  (o' : symbol_out) : Prop :=
  forall c tail, in_wf c -> remaining c = bs ++ tail ->
    m (c, o) = Ok v (advance c (zlen bs), o').

Lemma sreads_bind {A B} (m : M codec_state A) (k : A -> M codec_state B) o1 o2 o3 b1 b2 x y :
  sreads m o1 b1 x o2 -> sreads (k x) o2 b2 y o3 ->
  sreads (checked_call m k) o1 (b1 ++ b2) y o3.
Proof.
  intros Hm Hk c tail Hc Hr. rewrite <- app_assoc in Hr.
  destruct (remaining_advance c b1 (b2 ++ tail) Hc Hr) as [Hc' Hr'].
  unfold checked_call. rewrite (Hm c _ Hc Hr), (Hk _ _ Hc' Hr').
  f_equal. unfold advance; cbn. do 2 f_equal. rewrite zlen_app. lia.
Qed.

Lemma sreads_input {A} (m : M in_ctx A) o bs v :
  reads m bs v -> sreads (on_input m) o bs v o.
Proof. intros Hm c tail Hc Hr. unfold on_input. by rewrite (Hm c tail Hc Hr). Qed.

Lemma sreads_output f o : sreads (on_output f) o [] tt (f o).
Proof.
  intros c tail _ _. unfold on_output, advance. destruct c; cbn. do 3 f_equal. unfold zlen; simpl; lia.
Qed.

Lemma sreads_get {A} (f : symbol_out -> A) o : sreads (get_output f) o [] (f o) o.
Proof.
  intros c tail _ _. unfold get_output, advance. destruct c; cbn. do 3 f_equal. unfold zlen; simpl; lia.
Qed.

Lemma sreads_of_option {A} (x : option A) v o : x = Some v -> sreads (of_option x) o [] v o.
Proof.
  intros -> c tail _ _. unfold of_option, ret, advance. destruct c; cbn. do 3 f_equal.
  unfold zlen; simpl; lia.
Qed.

Lemma sreads_input_bind {A B} (m : M in_ctx A) (k : A -> M codec_state B) o o' b1 b2 x y :
  reads m b1 x -> sreads (k x) o b2 y o' ->
  sreads (checked_call (on_input m) k) o (b1 ++ b2) y o'.
Proof. intros. eapply sreads_bind; [by apply sreads_input|done]. Qed.

Lemma writes_pure {A} (m : M out_ctx A) (k : A -> M out_ctx unit) v n bs :
  (forall st, m st = Ok v st) -> writes (k v) n bs -> writes (checked_call m k) n bs.
Proof. intros Hm Hk c Hc Hmax. unfold checked_call. rewrite Hm. by apply Hk. Qed.

Lemma writes_eq m n bs bs' : writes m n bs -> bs = bs' -> writes m n bs'.
Proof. by intros ? <-. Qed.

(** What a way of saying which bytes an operation appends must offer, for the
    composite writers: the operations that are built in, and their composition. *)
Class Writer (malloc_ok : Z -> bool) (W : M out_ctx unit -> Z -> list Z -> Prop) : Prop := {
  writer_nil : W (ret tt) 0 [];
  writer_weaken m n n' bs : W m n bs -> n <= n' -> W m n' bs;
  writer_seq m1 m2 n1 n2 b1 b2 n :
    W m1 n1 b1 -> W m2 n2 b2 -> n1 <= n -> zlen b1 + n2 <= n -> W (m1;;; m2) n (b1 ++ b2);
  writer_pure {A} (m : M out_ctx A) (k : A -> M out_ctx unit) v n bs :
    (forall st, m st = Ok v st) -> W (k v) n bs -> W (checked_call m k) n bs;
  writer_byte v : W (dx_write_byte malloc_ok v) 1 (wire (be_bytes 1 v));
  writer_short v : W (dx_write_short malloc_ok v) 2 (wire (be_bytes 2 v));
  writer_int v : W (dx_write_int malloc_ok v) 4 (wire (be_bytes 4 v));
  writer_compact_int v : is_i32 v -> W (dx_write_compact_int malloc_ok v) 5 (wire (compact_int_bytes v));
  writer_compact_long v : is_i64 v -> W (dx_write_compact_long malloc_ok v) 9 (wire (compact_long_bytes v));
  writer_utf_char c : 0 <= c <= 0x10FFFF -> W (dx_write_utf_char malloc_ok c) 4 (wire (utf8_bytes c));
}.

#[export] Instance writes_writer malloc_ok : Writer malloc_ok writes.
Proof.
  split; intros.
  - apply writes_nil.
  - by eapply writes_weaken.
  - by eapply writes_seq.
  - by eapply writes_pure.
  - apply writes_byte.
  - apply writes_short.
  - apply writes_int.
  - by apply writes_compact_int.
  - by apply writes_compact_long.
  - by apply writes_utf_char.
Qed.

Lemma writer_eq `{Writer malloc_ok W} m n bs bs' : W m n bs -> bs = bs' -> W m n bs'.
Proof. by intros ? <-. Qed.

(** The bytes of a cipher. *)
Definition penta_bytes (penta : Z) : list Z :=
  if penta =? 0 then [0xFE]
  else if penta <? 0x8000 then be_bytes 2 penta
  else if penta <? 0x100000 then (0xE0 + penta / 2 ^ 16) :: be_bytes 2 penta
  else if penta <? 0x40000000 then be_bytes 4 (0x80000000 + penta)
  else (0xF0 + penta / 2 ^ 32) :: be_bytes 4 penta.

Section symbols.
Context (calloc_ok malloc_ok : Z -> bool).

Lemma finish_cipher cipher o :
  valid_cipher cipher ->
  sreads (finish_penta calloc_ok codec_tables (cipher_penta cipher)) o [] tt (set_cipher cipher o).
Proof.
  intros Hc. unfold finish_penta. cbn zeta. eapply (sreads_bind _ _ _ _ _ [] []).
  - apply sreads_of_option. by apply encode_cipher_penta.
  - pose proof (valid_cipher_nonzero cipher Hc). decide_cmps. apply sreads_output.
Qed.

Lemma writer_cipher `{Writer malloc_ok W} cipher symbol :
  valid_cipher cipher ->
  W (dx_codec_write_symbol malloc_ok codec_tables cipher symbol) 5
    (wire (penta_bytes (cipher_penta cipher))).
Proof using Type.
  clear calloc_ok.
  intros Hc. pose proof (valid_cipher_nonzero cipher Hc).
  pose proof (cipher_penta_bound cipher Hc) as HP. change (2 ^ 35) with 34359738368 in HP.
  unfold dx_codec_write_symbol. decide_cmps.
  eapply writer_pure; [intros st; by apply decode_cipher_spec|].
  set (P := cipher_penta cipher) in *. clearbody P. unfold penta_bytes.
  destruct (Z.eqb_spec P 0); [|destruct (Z.ltb_spec P 0x8000); [|destruct (Z.ltb_spec P 0x100000);
    [|destruct (Z.ltb_spec P 0x40000000); [|decide_cmps]]]].
  - eapply writer_weaken; [apply (writer_eq _ 1 _ _ (writer_byte _)); by vm_compute|lia].
  - eapply writer_weaken; [apply (writer_eq _ 2 _ _ (writer_short _))|lia].
    rewrite i16_id by (unfold is_i16; lia). done.
  - assert (Z.lor 0xE0 (Z.shiftr (u32 P) 16) = 0xE0 + P / 2 ^ 16) as ->.
    { rewrite u32_id, shr_div by (unfold is_u32; lia). change 0xE0 with (14 * 2 ^ 4).
      rewrite lor_prefix by (simpl Z.pow; zlia). done. }
    eapply (writer_seq _ _ 1 2 [_] (wire (be_bytes 2 P))); [| |lia|done].
    + apply (writer_eq _ 1 _ _ (writer_byte _)). wire_eq.
    + apply (writer_eq _ 2 _ _ (writer_short _)). unfold i16. wire_eq.
  - assert (Z.lor 0x80000000 (u32 P) = 0x80000000 + P) as ->.
    { rewrite u32_id by (unfold is_u32; lia). change 0x80000000 with (1 * 2 ^ 31).
      rewrite lor_prefix by (simpl Z.pow; lia). done. }
    eapply writer_weaken; [apply (writer_eq _ 4 _ _ (writer_int _))|lia].
    by rewrite be_bytes_4_i32.
  - assert (Z.lor 0xF0 (i32 (Z.shiftr (u64 P) 32)) = 0xF0 + P / 2 ^ 32) as ->.
    { rewrite u64_id, shr_div, i32_id by (unfold is_u64, is_i32; simpl Z.pow; zlia).
      change 0xF0 with (30 * 2 ^ 3). rewrite lor_prefix by (simpl Z.pow; zlia). done. }
    eapply (writer_seq _ _ 1 4 [_] (wire (be_bytes 4 P))); [| |lia|done].
    + apply (writer_eq _ 1 _ _ (writer_byte _)). wire_eq.
    + apply (writer_eq _ 4 _ _ (writer_int _)). by rewrite be_bytes_4_i32.
Qed.

Ltac first_symbol_byte n :=
  match goal with |- sreads _ _ (wire (?b :: _)) _ _ =>
    eapply (sreads_input_bind _ _ _ _ [i8 b]); [apply reads_unsigned_byte|];
    replace (b mod 256) with n by zlia end.

Lemma reads_cipher fuel cipher o len :
  valid_cipher cipher ->
  sreads (read_symbol_loop calloc_ok malloc_ok codec_tables (S fuel) len 0) o
    (wire (penta_bytes (cipher_penta cipher))) tt (set_cipher cipher o).
Proof.
  intros Hc. pose proof (cipher_penta_bound cipher Hc) as HP. change (2 ^ 35) with 34359738368 in HP.
  pose proof (finish_cipher cipher o Hc) as Hfin.
  set (P := cipher_penta cipher) in *. clearbody P. cbn [read_symbol_loop]. unfold penta_bytes.
  destruct (Z.eqb_spec P 0) as [->|]; [|destruct (Z.ltb_spec P 0x8000); [|destruct (Z.ltb_spec P 0x100000);
    [|destruct (Z.ltb_spec P 0x40000000)]]]; cbn [be_bytes app].
  - first_symbol_byte 0xFE. decide_cmps. exact Hfin.
  - first_symbol_byte (P / 256). decide_cmps.
    eapply (sreads_input_bind _ _ _ _ [_] []); [apply reads_unsigned_byte|].
    replace (u32 _) with P; [exact Hfin|]. rewrite shl_mul by lia. simpl Z.pow. unfold u32. zlia.
  - change (2 ^ 16) with 65536. first_symbol_byte (0xE0 + P / 65536). decide_cmps.
    eapply (sreads_input_bind _ _ _ _ (wire (be_bytes 2 P)) []); [apply reads_unsigned_short|].
    replace (u32 _) with P; [exact Hfin|]. change 0x0F with (Z.ones 4).
    rewrite Z.land_ones, shl_mul by lia. simpl Z.pow. unfold u32. zlia.
  - replace ((2147483648 + P) / 256 / 256) with (32768 + P / 65536) by zlia.
    first_symbol_byte (0x80 + P / 16777216). decide_cmps.
    eapply (sreads_input_bind _ _ _ _ [_] (wire (be_bytes 2 (0x80000000 + P))));
      [apply reads_unsigned_byte|].
    eapply (sreads_input_bind _ _ _ _ (wire (be_bytes 2 (0x80000000 + P))) []);
      [apply reads_unsigned_short|].
    replace (u32 _) with P; [exact Hfin|]. change 0x3F with (Z.ones 6).
    rewrite Z.land_ones, !shl_mul by lia. simpl Z.pow. unfold u32. zlia.
  - change (2 ^ 32) with 4294967296. first_symbol_byte (0xF0 + P / 4294967296). decide_cmps.
    eapply (sreads_input_bind _ _ _ _ (wire (be_bytes 4 P)) []); [apply reads_int|].
    rewrite land_word_i32. change 0x07 with (Z.ones 3). rewrite Z.land_ones, shl_mul by lia.
    replace (_ + _) with P; [exact Hfin|]. simpl Z.pow. zlia.
Qed.
End symbols.

(** ** The wire format of other symbols *)

(** Symbols of the basic plane, as [dx_codec_write_symbol] can send them. *)
Definition plain_symbol (s : list Z) : Prop := Forall (fun c => 0 < c <= 0xFFFF) s.

Definition cesu_bytes (s : list Z) : list Z := concat (map utf8_bytes s).

Lemma set_index_next (pre : list Z) y l x i :
  i = zlen pre -> set_index (pre ++ y :: l) i x = Some (pre ++ x :: l).
Proof. intros ->. apply set_index_app. Qed.

Lemma sreads_cesu s pre rest o :
  plain_symbol s -> (length s <= length rest)%nat ->
  sreads (cesu_loop (length s) (zlen pre) (pre ++ rest)) o (wire (cesu_bytes s))
    (pre ++ s ++ drop (length s) rest) o.
Proof.
  intros Hs. revert pre rest. induction Hs as [|c s Hc Hs IH]; intros pre rest Hl.
  - cbn [cesu_loop length drop app]. intros x tail _ _. unfold ret, advance. destruct x; cbn.
    do 3 f_equal. unfold zlen; simpl; lia.
  - destruct rest as [|y rest]; [simpl in Hl; lia|]. cbn [length cesu_loop].
    unfold cesu_bytes. cbn [map concat]. rewrite wire_app. fold (cesu_bytes s).
    eapply sreads_input_bind; [apply reads_utf_char; lia|]. decide_cmps.
    eapply (sreads_bind _ _ _ _ _ []); [apply sreads_of_option, set_index_app|].
    specialize (IH (pre ++ [c]) rest ltac:(simpl in Hl; lia)).
    rewrite zlen_app, <- !app_assoc in IH. exact IH.
Qed.

Lemma zlen_cesu c s : zlen (cesu_bytes (c :: s)) = zlen (utf8_bytes c) + zlen (cesu_bytes s).
Proof. unfold cesu_bytes. cbn [map concat]. apply zlen_app. Qed.

Lemma writer_cesu_loop `{Writer malloc_ok W} s :
  plain_symbol s ->
  W (write_cesu_loop malloc_ok s) (zlen (cesu_bytes s) + 4) (wire (cesu_bytes s)).
Proof.
  intros Hplain; induction Hplain as [|c s Hc Hs IH]; cbn [write_cesu_loop].
  - eapply writer_weaken; [apply writer_nil|done].
  - unfold cesu_bytes at 2. cbn [map concat]. rewrite wire_app, zlen_cesu. fold (cesu_bytes s).
    pose proof (length_utf8_bytes c). pose proof (zlen_nonneg (cesu_bytes s)).
    eapply writer_seq; [apply writer_utf_char; lia|exact IH|lia|].
    unfold wire, zlen in *. rewrite length_map. lia.
Qed.

Lemma writer_symbol `{Writer malloc_ok W} t s :
  plain_symbol s -> zlen s <= INT_MAX ->
  W (dx_codec_write_symbol malloc_ok t 0 (Some s)) (zlen (cesu_bytes s) + 10)
    (wire (0xFD :: compact_int_bytes (zlen s) ++ cesu_bytes s)).
Proof.
  intros Hs Hm. unfold dx_codec_write_symbol. change (negb (0 =? 0)) with false. cbn iota.
  fold (zlen s). pose proof (zlen_nonneg s). pose proof (zlen_nonneg (cesu_bytes s)).
  rewrite i32_id by (unfold is_i32, INT_MAX in *; lia).
  rewrite take_ge by (unfold zlen; lia).
  assert (zlen (compact_int_bytes (zlen s)) <= 5).
  { unfold zlen at 1, compact_int_bytes. repeat destruct_match; simpl; lia. }
  eapply (writer_seq _ _ 1 (zlen (cesu_bytes s) + 9) [_]); [apply writer_byte| |lia|unfold zlen at 1; simpl; lia].
  fold (wire (compact_int_bytes (zlen s) ++ cesu_bytes s)). rewrite wire_app.
  eapply writer_seq; [apply writer_compact_int|by apply writer_cesu_loop|lia|].
  - unfold is_i32, INT_MAX in *; lia.
  - unfold wire, zlen in *. rewrite length_map. lia.
Qed.

Lemma land_valid_cipher n : 0 <= n < 2 ^ 30 -> Z.land n dx_get_codec_valid_cipher = 0.
Proof.
  intros Hn. change dx_get_codec_valid_cipher with (Z.lnot (Z.ones 30)).
  rewrite <- Z.ldiff_land, Z.ldiff_ones_r, shr_div, Z.div_small by lia. done.
Qed.

Lemma reads_symbol calloc_ok malloc_ok t fuel s o len :
  plain_symbol s -> s <> [] -> zlen s <= len -> len <= zlen (buffer o) -> zlen s < 2 ^ 30 ->
  sreads (read_symbol_loop calloc_ok malloc_ok t (S fuel) len 0) o
    (wire (0xFD :: compact_int_bytes (zlen s) ++ cesu_bytes s)) tt
    (set_cipher (zlen s) (set_buffer (s ++ drop (length s) (buffer o)) o)).
Proof.
  intros Hs Hne Hlen Hbuf Hmax. change (2 ^ 30) with 1073741824 in Hmax.
  assert (0 < zlen s) by (destruct s; [done|unfold zlen; simpl; lia]).
  cbn [read_symbol_loop]. eapply (sreads_input_bind _ _ _ _ [i8 0xFD]); [apply reads_unsigned_byte|].
  change (0xFD mod 256) with 0xFD. decide_cmps. unfold read_cesu.
  change (map i8 ?l) with (wire l). fold (wire (compact_int_bytes (zlen s) ++ cesu_bytes s)).
  rewrite wire_app.
  eapply sreads_input_bind.
  { apply reads_compact_long_narrow. unfold is_i32. lia. }
  rewrite compact_long_read_id by lia. unfold INT_MAX. decide_cmps. cbn [andb].
  eapply (sreads_bind _ _ _ _ _ [] (wire (cesu_bytes s))); [apply sreads_get|].
  replace (Z.to_nat (zlen s)) with (length s) by (unfold zlen; lia).
  rewrite <- (app_nil_r (wire (cesu_bytes s))).
  eapply sreads_bind; [apply (sreads_cesu s [] (buffer o) o); [done|unfold zlen in *; lia]|].
  eapply (sreads_bind _ _ _ _ _ [] []); [apply sreads_output|].
  rewrite land_valid_cipher by (change (2 ^ 30) with 1073741824; lia).
  change (0 =? 0) with true. cbn iota. rewrite i32_id by (unfold is_i32; lia).
  apply sreads_output.
Qed.

(** ** Properties *)

(** What both round trips promise: the write either reports that the output
    buffer cannot grow, or leaves bytes that the reader consumes exactly,
    ending with the OUT values [o']. *)
Definition symbol_round_trips (calloc_ok malloc_ok : Z -> bool) (cipher : Z)
  (symbol : option (list Z)) (buffer_length : Z) (c : out_ctx) (o o' : symbol_out) : Prop :=
  match dx_codec_write_symbol malloc_ok codec_tables cipher symbol c with
  | Ok _ c' =>
      dx_codec_read_symbol calloc_ok malloc_ok codec_tables buffer_length (transmitted c c', o) =
        Ok tt (InCtx (out_buffer c') (current_out_buffer_position c') 0
                 (current_out_buffer_position c'), o')
  | Err e _ => e = dx_bioec_buffer_overflow \/ e = dx_mec_insufficient_memory
  | UB => False
  end.

Lemma symbol_round_trips_intro calloc_ok malloc_ok cipher symbol len c o o' n bs :
  writes (dx_codec_write_symbol malloc_ok codec_tables cipher symbol) n bs ->
  sreads (read_symbol_loop calloc_ok malloc_ok codec_tables 3 len 0) (set_flags 0 o) bs tt o' ->
  out_wf c -> current_out_buffer_position c + n <= INT_MAX ->
  symbol_round_trips calloc_ok malloc_ok cipher symbol len c o o'.
Proof.
  intros Hw Hr Hc Hm. unfold symbol_round_trips. destruct (Hw c Hc Hm) as [_ Hx].
  destruct (dx_codec_write_symbol _ _ _ _ c) as [[] c'|e c'|]; [|by destruct Hx|done].
  destruct (transmitted_remaining c c' bs Hc Hx) as (Hi & Hrem & Ha).
  unfold dx_codec_read_symbol, checked_call, on_output.
  by rewrite (Hr _ _ Hi Hrem), Ha.
Qed.

(** The string of a penta. *)
Lemma penta_to_string_spec {S} calloc_ok s (st : S) :
  Forall encodable s -> penta_len s <= 35 -> (forall n, calloc_ok n = true) ->
  exists m, dx_penta_to_string calloc_ok codec_tables (penta_val s) st =
    Ok (Some (s ++ replicate (Datatypes.S m) 0)) st.
Proof.
  intros Hs Hn Hok. pose proof (penta_val_bound s Hs) as HP. pose proof (penta_len_nonneg s Hs).
  destruct (penta_len_mod s Hs) as [k Hk]. unfold dx_penta_to_string, dx_create_string.
  assert (penta_bits 13 (penta_val s) 0 = penta_len s) as ->.
  { rewrite Hk in *. apply penta_bits_spec; [lia|lia|].
    destruct s as [|c s]; [left; cbn in Hk; lia|right]. rewrite <- Hk. by apply penta_val_low. }
  assert (Z.quot (penta_len s) 5 = Z.of_nat k) as -> by (rewrite Hk, Z.quot_div_nonneg by lia; zlia).
  rewrite u64_id by (unfold is_u64; lia). rewrite Hok. cbn iota.
  replace (Z.to_nat (Z.of_nat k + 1)) with (Datatypes.S k) by lia.
  assert (length s <= k)%nat as Hlen.
  { assert (5 * Z.of_nat (length s) <= penta_len s); [|lia]. clear - Hs.
    induction Hs as [|c s (_ & _ & Hc) _ IH]; cbn [length penta_len]; lia. }
  assert (2 ^ penta_len s <= 2 ^ 35) by (apply Z.pow_le_mono_r; lia).
  change (2 ^ 35) with 34359738368 in *.
  exists (k - length s)%nat. 
  pose proof (penta_string_loop_spec s (penta_val s) [] (Datatypes.S k) 13 Hs
    ltac:(change (2 ^ 60) with 1152921504606846976; lia) ltac:(by apply Z.mod_small)
    ltac:(lia) ltac:(lia)) as E.
  unfold checked_call. change (zlen []) with 0 in E. rewrite !app_nil_l in E. rewrite E.
  by replace (Datatypes.S k - length s)%nat with (Datatypes.S (k - length s)) by lia.
Qed.

(** What a cipher that is not 0 says of its symbol. *)
Lemma encoded_cipher s cipher :
  dx_encode_symbol_name codec_tables (Some s) = Some cipher -> cipher <> 0 ->
  Forall encodable s /\ valid_cipher cipher /\ cipher_penta cipher = penta_val s /\
  0 <= penta_len s <= 35.
Proof.
  intros Henc Hne. unfold dx_encode_symbol_name in Henc.
  destruct (7 <? length s)%nat; [congruence|].
  destruct (encode_symbol_loop codec_tables s 0 0) as [[[]|[P n]]|] eqn:El; cbn in Henc;
    [congruence| |done].
  destruct (Z.ltb_spec 35 n); [congruence|].
  destruct (encode_symbol_loop_spec s 0 0 P n) as (Hs & -> & ->); [lia|done|done|lia|].
  rewrite Z.mul_0_l, !Z.add_0_l in *.
  pose proof (penta_val_bound s Hs) as HP. pose proof (penta_len_nonneg s Hs).
  destruct (penta_len_mod s Hs) as [k Hk].
  assert (penta_len s <= 30 \/ penta_len s = 35) as Hn by lia.
  destruct (encode_penta_decode (penta_val s) (penta_len s) cipher) as [Hv Hd]; [lia|lia|done|done|].
  by split_and!.
Qed.

(** Every string has a cipher, which may be 0. *)
Lemma encode_total s : Forall (fun c => 0 <= c) s ->
  exists cipher, dx_encode_symbol_name codec_tables (Some s) = Some cipher /\ (cipher = 0 \/ valid_cipher cipher).
Proof.
  intros Hs.
  assert (exists cipher, dx_encode_symbol_name codec_tables (Some s) = Some cipher) as [cipher E].
  { unfold dx_encode_symbol_name. destruct (7 <? length s)%nat; [by eexists|].
    assert (forall p n, is_Some (encode_symbol_loop codec_tables s p n)) as Hl.
    { induction Hs as [|c s Hc Hs IH]; intros p n; cbn [encode_symbol_loop]; [by eexists|].
      destruct (Z.leb_spec 128 c); [by eexists|]. destruct (tables_spec c ltac:(lia)) as (-> & -> & _). apply IH. }
    destruct (Hl 0 0) as [[[]|[P n]] ->]; cbn [mbind option_bind]; [by eexists|].
    destruct (35 <? n); [by eexists|]. unfold dx_encode_penta. rewrite slash_penta, dollar_penta. cbn [mbind option_bind].
    repeat case_match; by eexists. }
  exists cipher. split; [done|]. destruct (decide (cipher = 0)); [by left|right]. by apply (encoded_cipher s cipher).
Qed.

(** C38: a symbol that [dx_encode_symbol_name] packs into a cipher is what
    [dx_decode_symbol_name] unpacks from it, for every string on which the
    encoder does not return 0; so distinct symbols have distinct ciphers. *)
Theorem decode_encode_symbol {S} (calloc_ok : Z -> bool) (s : list Z) (cipher : Z) (st : S) :
  dx_encode_symbol_name codec_tables (Some s) = Some cipher -> cipher <> 0 ->
  (forall n, calloc_ok n = true) ->
  exists buf, dx_decode_symbol_name calloc_ok codec_tables cipher st = Ok (Some buf) st /\
    c_string buf = s.
Proof.
  intros Henc Hne Hok. destruct (encoded_cipher s cipher Henc Hne) as (Hs & Hv & Hd & Hl).
  pose proof (penta_val_bound s Hs) as HP.
  unfold dx_decode_symbol_name. decide_cmps. unfold checked_call.
  rewrite decode_cipher_spec, Hd by done.
  destruct (penta_to_string_spec calloc_ok s st Hs) as [m ->]; [lia|done|].
  exists (s ++ replicate (Datatypes.S m) 0). split; [done|]. apply c_string_app.
  eapply Forall_impl; [apply Hs|]. intros c (? & _). lia.
Qed.

Lemma decode_encode_symbol_witness :
  exists buf, dx_decode_symbol_name (fun _ => true) codec_tables 1074039229 tt = Ok (Some buf) tt /\
    c_string buf = [73; 66; 77; 36].
Proof.
  apply (decode_encode_symbol (fun _ => true) [73; 66; 77; 36]);
    [vm_compute; reflexivity|lia|reflexivity].
Defined.

(** Every cipher (a 32-bit word whose two high bits are not both 0)
    survives the wire: the bytes [dx_codec_write_symbol] chooses by the size of
    the penta are read back by [dx_codec_read_symbol] as the same cipher with no
    event flags, and nothing is read past them. *)
Theorem codec_cipher_roundtrip (calloc_ok malloc_ok : Z -> bool) (cipher : Z)
  (symbol : option (list Z)) (buffer_length : Z) (c : out_ctx) (o : symbol_out) :
  valid_cipher cipher -> out_wf c -> current_out_buffer_position c + 5 <= INT_MAX ->
  symbol_round_trips calloc_ok malloc_ok cipher symbol buffer_length c o
    (set_cipher cipher (set_flags 0 o)).
Proof.
  intros Hc Hwf Hm. eapply symbol_round_trips_intro; [exact (writer_cipher malloc_ok (W := writes) cipher symbol Hc)| |done|done].
  by apply reads_cipher.
Qed.

Definition symbol_out_example : symbol_out := SymbolOut None 0 7 0 (replicate 8 0).

Lemma codec_cipher_roundtrip_witness :
  symbol_round_trips (fun _ => true) (fun _ => true) 1074039229 None 8 out_example
    symbol_out_example (SymbolOut None 1074039229 0 0 (replicate 8 0)).
Proof.
  apply (codec_cipher_roundtrip (fun _ => true) (fun _ => true) 1074039229 None 8 out_example
    symbol_out_example).
  - split; [unfold is_i32; lia|vm_compute; discriminate].
  - apply out_example_wf.
  - unfold INT_MAX. simpl. lia.
Defined.

(** A symbol of the basic plane that has no cipher is sent character by
    character and read back into the caller's buffer, with its length as the
    cipher, when it is not empty and fits the buffer; characters of the buffer
    past the symbol are kept. *)
Theorem codec_symbol_roundtrip (calloc_ok malloc_ok : Z -> bool) (s : list Z)
  (buffer_length : Z) (c : out_ctx) (o : symbol_out) :
  plain_symbol s -> s <> [] -> zlen s <= buffer_length -> buffer_length <= zlen (buffer o) ->
  zlen s < 2 ^ 30 -> out_wf c ->
  current_out_buffer_position c + zlen (cesu_bytes s) + 10 <= INT_MAX ->
  symbol_round_trips calloc_ok malloc_ok 0 (Some s) buffer_length c o
    (SymbolOut (result o) (zlen s) 0 (mru_event_flags o) (s ++ drop (length s) (buffer o))).
Proof.
  intros Hs Hne Hlen Hbuf Hmax Hwf Hm. change (2 ^ 30) with 1073741824 in Hmax.
  eapply symbol_round_trips_intro; [apply (writer_symbol (W := writes))| |done|].
  - done.
  - unfold INT_MAX. lia.
  - apply (reads_symbol calloc_ok malloc_ok codec_tables 2 s (set_flags 0 o)); done.
  - lia.
Qed.

Lemma codec_symbol_roundtrip_witness :
  symbol_round_trips (fun _ => true) (fun _ => true) 0 (Some [0x61; 0x20AC]) 8 out_example
    symbol_out_example (SymbolOut None 2 0 0 [0x61; 0x20AC; 0; 0; 0; 0; 0; 0]).
Proof.
  apply (codec_symbol_roundtrip (fun _ => true) (fun _ => true) [0x61; 0x20AC] 8 out_example
    symbol_out_example).
  - repeat constructor; lia.
  - discriminate.
  - unfold zlen. simpl. lia.
  - unfold zlen. simpl. lia.
  - reflexivity.
  - apply out_example_wf.
  - unfold INT_MAX. vm_compute. discriminate.
Defined.

(** An empty symbol on the wire (0xFD and the length 0) makes
    [dx_codec_read_symbol] allocate one byte and store a whole character in
    it, past the end of the block, whatever else the message holds. *)
Theorem empty_symbol_overflow (calloc_ok : Z -> bool) (buffer_length : Z) (tail : list Z)
  (c : in_ctx) (o : symbol_out) :
  in_wf c -> remaining c = wire [0xFD; 0] ++ tail ->
  dx_codec_read_symbol calloc_ok (fun _ => true) codec_tables buffer_length (c, o) = UB.
Proof.
  intros Hc Hr. unfold dx_codec_read_symbol, checked_call at 1, on_output.
  cbn [read_symbol_loop]. unfold checked_call at 1, on_input at 1.
  rewrite (reads_unsigned_byte 0xFD c (wire [0] ++ tail) Hc Hr). change (0xFD mod 256) with 0xFD.
  decide_cmps. unfold read_cesu, checked_call at 1, on_input at 1.
  destruct (remaining_advance c [i8 0xFD] (wire [0] ++ tail) Hc Hr) as [Hc1 Hr1].
  by rewrite (reads_compact_long 0 ltac:(unfold is_i64; lia) _ tail Hc1 Hr1).
Qed.

Lemma empty_symbol_overflow_witness :
  dx_codec_read_symbol (fun _ => true) (fun _ => true) codec_tables 8
    (InCtx (Some (wire [0xFD; 0])) 2 0 0, symbol_out_example) = UB.
Proof.
  apply (empty_symbol_overflow (fun _ => true) 8 []); [|reflexivity].
  split; [simpl; lia|]. split; [unfold INT_MAX; simpl; lia|].
  eexists; split; [reflexivity|]. vm_compute. discriminate.
Defined.
