(* ===== verification/Loops.v ===== *)
(** * Loops: reading loops end

    [onward]: an operation on a state with an input buffer never moves the
    buffer back, and by at least so many bytes when it succeeds.  Loops whose
    rounds read are then loops that end: [loop_runs] is a C loop as a relation,
    whose derivations are finite, and the loops of the development, which count
    their rounds, are shown to be in it. *)

From S2P Require Import Prelude Arrays Output Input Wire SymbolCodec.
Local Open Scope Z_scope.
Local Open Scope c_scope.

(** ** Loops *)

(** What a round does to the loop: [break] with a result or the next round. *)
Inductive outcome (R : Type) : Type := proceed | leave (r : R).
Arguments proceed {R}.
Arguments leave {R} r.

Section loop.
Context {S R : Type} (cond : S -> bool) (body : M S (outcome R)) (finish : R).

(** [while (cond) body] and the result [finish] where the condition is false. *)
Inductive loop_runs : S -> res S R -> Prop :=
  | loop_exit s : cond s = false -> loop_runs s (Ok finish s)
  | loop_round s s' r : cond s = true -> body s = Ok proceed s' -> loop_runs s' r -> loop_runs s r
  | loop_leave s s' r : cond s = true -> body s = Ok (leave r) s' -> loop_runs s (Ok r s')
  | loop_error s e s' : cond s = true -> body s = Err e s' -> loop_runs s (Err e s')
  | loop_undefined s : cond s = true -> body s = UB -> loop_runs s UB.

(** The same loop with at most so many rounds. *)
Fixpoint while (fuel : nat) : M S R := fun s =>
  if cond s then
    match fuel with
    | O => UB
    | Datatypes.S fuel' =>
        match body s with
        | Ok proceed s' => while fuel' s'
        | Ok (leave r) s' => Ok r s'
        | Err e s' => Err e s'
        | UB => UB
        end
    end
  else Ok finish s.

(** The states at which a round of the loop starts. *)
Inductive loop_reaches : S -> S -> Prop :=
  | reaches_start s : loop_reaches s s
  | reaches_round s s' s'' : cond s = true -> body s = Ok proceed s' -> loop_reaches s' s'' -> loop_reaches s s''.

(** A loop that is undefined is so in a round. *)
Lemma loop_runs_undefined (inv : S -> Prop) :
  (forall s s', inv s -> body s = Ok proceed s' -> inv s') ->
  forall s r, loop_runs s r -> inv s -> r = UB ->
  exists s', loop_reaches s s' /\ inv s' /\ cond s' = true /\ body s' = UB.
Proof using Type.
  intros Hinv s r H. induction H as [s E|s s' r E Eb H IH|s s' r E Eb|s e s' E Eb|s E Eb]; intros Hs [=].
  - subst r. destruct IH as (s2 & Hr & H2); [by eapply Hinv|done|]. exists s2. split; [|done]. by econstructor.
  - exists s. split; [constructor|done].
Qed.

(** A measure that every round takes from is a bound on the rounds. *)
Lemma while_runs (inv : S -> Prop) (measure : S -> Z) :
  (forall s s', inv s -> cond s = true -> body s = Ok proceed s' -> inv s' /\ measure s' < measure s) ->
  (forall s, inv s -> cond s = true -> 0 < measure s) ->
  forall fuel s, inv s -> measure s <= Z.of_nat fuel -> loop_runs s (while fuel s).
Proof using Type.
  intros Hround Hpos. induction fuel as [|fuel IH]; intros s Hs Hf; cbn [while];
    destruct (cond s) eqn:Ec; try by constructor.
  - specialize (Hpos s Hs Ec). lia.
  - destruct (body s) as [[|r] s'|e s'|] eqn:Eb; try by econstructor.
    destruct (Hround s s' Hs Ec Eb). apply (loop_round s s'); [done..|]. apply IH; [done|lia].
Qed.
End loop.

(** ** Operations that only move on *)

Section onward.
Context {S : Type} (inp : S -> in_ctx).

(** On [in_small] buffers, those whose length leaves room for the widest read.
    A read outside the buffer stays possible. *)
Definition onward_at {A} (n : Z) (m : M S A) (s : S) : Prop :=
  match m s with
  | Ok _ s' => further (inp s) (inp s') /\
      current_in_buffer_position (inp s) + n <= current_in_buffer_position (inp s')
  | Err _ s' => further (inp s) (inp s')
  | UB => True
  end.
Definition onward {A} (n : Z) (m : M S A) : Prop := forall s, in_small (inp s) -> onward_at n m s.

Lemma onward_bind {A B} n (m : M S A) (k : A -> M S B) :
  onward n m -> (forall a, onward 0 (k a)) -> onward n (checked_call m k).
Proof.
  intros Hm Hk s Hs. specialize (Hm s Hs). unfold onward_at, checked_call in *.
  destruct (m s) as [a s1|e s1|]; [|done|done]. destruct Hm as [Hf Hn].
  specialize (Hk a s1 (further_small _ _ Hs Hf)). unfold onward_at in Hk.
  destruct (k a s1) as [b s2|e s2|]; [destruct Hk as [Hf2 Hn2]; split; [|lia]| |done];
    by eapply further_trans.
Qed.

Lemma onward_at_bind {A B} (m : M S A) (k : A -> M S B) s :
  in_small (inp s) -> onward_at 0 m s -> (forall a, onward 0 (k a)) -> onward_at 0 (checked_call m k) s.
Proof.
  intros Hs Hm Hk. unfold onward_at, checked_call in *.
  destruct (m s) as [a s1|e s1|]; [|done|done]. destruct Hm as [Hf Hn].
  specialize (Hk a s1 (further_small _ _ Hs Hf)). unfold onward_at in Hk.
  destruct (k a s1) as [b s2|e s2|]; [destruct Hk as [Hf2 Hn2]; split; [|lia]| |done];
    by eapply further_trans.
Qed.

Lemma onward_get {B} n (k : S -> M S B) :
  (forall s, in_small (inp s) -> onward_at n (k s) s) -> onward n (checked_call get k).
Proof. intros Hk s Hs. by apply Hk. Qed.

Lemma onward_at_option {A B} n (o : option A) (k : A -> M S B) s :
  (forall a, onward_at n (k a) s) -> onward_at n (checked_call (of_option o) k) s.
Proof. intros Hk. destruct o as [a|]; [exact (Hk a)|exact I]. Qed.

Lemma onward_weaken {A} n (m : M S A) : 0 <= n -> onward n m -> onward 0 m.
Proof.
  intros Hn Hm s Hs. specialize (Hm s Hs). unfold onward_at in *. destruct (m s); [|done|done].
  destruct Hm. split; [done|lia].
Qed.

Lemma onward_put s s' : in_small (inp s) -> inp s' = inp s -> onward_at 0 (put s') s.
Proof. intros [Hs _] E. cbn. rewrite E. split; [by apply further_refl|lia]. Qed.

Lemma onward_at_ret {A} (a : A) s : in_small (inp s) -> onward_at 0 (ret a) s.
Proof. intros [Hs _]. split; [by apply further_refl|lia]. Qed.
Lemma onward_at_error {A} n e s : in_small (inp s) -> onward_at n (A := A) (dx_set_error_code e) s.
Proof. intros [Hs _]. by apply further_refl. Qed.
Lemma onward_at_of_option {A} (o : option A) s : in_small (inp s) -> onward_at 0 (of_option o) s.
Proof. intros Hs. destruct o; [by apply onward_at_ret|done]. Qed.
Lemma onward_ret {A} (a : A) : onward 0 (ret a).
Proof. intros s. apply onward_at_ret. Qed.
Lemma onward_error {A} n e : onward n (A := A) (dx_set_error_code e).
Proof. intros s. apply onward_at_error. Qed.
Lemma onward_of_option {A} (o : option A) : onward 0 (of_option o).
Proof. intros s. apply onward_at_of_option. Qed.
Lemma onward_undefined {A} n : onward n (A := A) undefined.
Proof. done. Qed.
End onward.

#[export] Hint Resolve onward_ret onward_error onward_of_option onward_undefined : dx.

(** Go through the calls of an operation. *)
Ltac onward_step := match goal with
  | |- onward _ _ (checked_call get _) => apply onward_get; intros ? ?
  | |- onward _ _ (checked_call _ _) => apply onward_bind; [|intros]
  | |- onward _ _ (if ?b then _ else _) => destruct b
  | |- onward _ _ (match ?x with _ => _ end) => destruct x
  | |- onward _ _ (let _ := _ in _) => cbn zeta
  | |- onward_at _ _ (let _ := _ in _) _ => cbn zeta
  | |- onward_at _ _ (if ?b then _ else _) _ => destruct b
  | |- onward_at _ _ (match ?x with _ => _ end) _ => destruct x
  | |- onward_at _ _ (put _) _ => apply onward_put; [assumption|reflexivity]
  | |- onward_at _ _ (ret _) _ => apply onward_at_ret; assumption
  | |- onward_at _ _ (dx_set_error_code _) _ => apply onward_at_error; assumption
  | |- onward_at _ _ (of_option _) _ => apply onward_at_of_option; assumption
  | |- onward_at _ _ undefined _ => exact I
  | |- onward_at _ _ (checked_call (of_option _) _) _ => apply onward_at_option; intros
  | |- onward_at _ _ (checked_call _ _) _ => apply onward_at_bind; [assumption| |intros]
  | H : in_small (?inp ?s) |- onward_at ?inp ?n ?m ?s =>
      cut (onward inp n m); [intros Hm; exact (Hm s H)|]
  end.
Ltac onward_tac := repeat first [ solve [auto with dx] | onward_step ].

(** ** The reads of the input buffer *)

Lemma safe_onward {A} (m : M in_ctx A) : safe m -> onward (fun c => c) 0 m.
Proof.
  intros Hm c Hc. specialize (Hm c Hc). unfold onward_at. destruct (m c); [|done|done].
  destruct Hm as [Hf _]. split; [done|]. destruct Hf as (_ & _ & _ & _ & ?). lia.
Qed.

Lemma onward_validate {A} n (k : M in_ctx A) :
  0 <= n <= 8 -> takes n k -> onward (fun c => c) n (dx_validate_buffer_and_value n;;; k).
Proof.
  intros Hn Hk c Hs. pose proof Hs as (Hc & Hsmall & _). pose proof Hc as (Hp & Hm & buf & Hb & _).
  unfold onward_at, dx_validate_buffer_and_value, checked_call, get, IS_BUF_CAPACITY_ENOUGH. rewrite Hb.
  rewrite i32_id by (unfold is_i32, INT_MAX in *; lia).
  destruct (Z.leb_spec (current_in_buffer_position c + n) (in_buffer_length c));
    [|by apply further_refl].
  cbn. destruct (Hk c Hc ltac:(lia)) as [v ->]. split; [|simpl; lia].
  by apply further_advance; [|lia..].
Qed.

Ltac onward_fixed n := apply (onward_validate n); [lia|takes_tac].

Lemma onward_read_byte : onward (fun c => c) 1 dx_read_byte.
Proof. onward_fixed 1. Qed.
Lemma onward_read_unsigned_byte : onward (fun c => c) 1 dx_read_unsigned_byte.
Proof. onward_fixed 1. Qed.

#[export] Hint Resolve onward_read_byte onward_read_unsigned_byte : dx.
#[export] Hint Extern 1 (onward (fun c => c) 0 ?m) => apply safe_onward; solve [auto with dx] : dx.

Lemma onward_read_compact_int : onward (fun c => c) 1 dx_read_compact_int.
Proof. unfold dx_read_compact_int. apply onward_bind; [auto with dx|intros n]. onward_tac. Qed.
Lemma onward_read_compact_long : onward (fun c => c) 1 dx_read_compact_long.
Proof. unfold dx_read_compact_long. apply onward_bind; [auto with dx|intros n]. onward_tac. Qed.
#[export] Hint Resolve onward_read_compact_int onward_read_compact_long safe_read_utf_char
  safe_read_utf_string : dx.

Section strings.
Context (calloc_ok : Z -> bool).

Lemma onward_code_point_chars cp buf pos len :
  onward (fun c => c) 0 (dx_code_point_to_utf16_chars cp buf pos len).
Proof. unfold dx_code_point_to_utf16_chars. onward_tac. Qed.

Lemma onward_sequence_loop fuel lic utflen buf count :
  onward (fun c => c) 0 (utf_sequence_loop fuel lic utflen buf count).
Proof.
  revert utflen buf count. induction fuel as [|fuel IH]; intros; cbn [utf_sequence_loop]; [auto with dx|].
  destruct (0 <? utflen); [|auto with dx].
  apply onward_bind; [auto with dx|intros b]. cbn zeta.
  repeat first [apply IH | apply onward_code_point_chars | progress onward_tac].
Qed.

Lemma onward_read_utf_sequence utflen lic : onward (fun c => c) 0 (dx_read_utf_sequence calloc_ok utflen lic).
Proof. unfold dx_read_utf_sequence. repeat first [apply onward_sequence_loop | progress onward_tac]. Qed.

Lemma onward_read_utf_char_array : onward (fun c => c) 0 (dx_read_utf_char_array calloc_ok).
Proof.
  unfold dx_read_utf_char_array.
  apply onward_bind; [apply (onward_weaken _ 1); [lia|auto with dx]|intros utflen].
  repeat first [apply onward_read_utf_sequence | progress onward_tac].
Qed.
End strings.

Lemma onward_read_segment dest buffer_length segment_offset segment_length :
  onward (fun c => c) 0 (dx_read_byte_buffer_segment dest buffer_length segment_offset segment_length).
Proof.
  intros c Hs. pose proof Hs as (Hc & _ & Hz). pose proof Hc as (Hp & Hm & buf & Hb & Hl).
  unfold onward_at, dx_read_byte_buffer_segment, checked_call, get.
  destruct (_ <? 0) eqn:En; [by apply further_refl|].
  destruct (IS_BUF_CAPACITY_ENOUGH c segment_length) eqn:Ec; [|by apply further_refl]. cbn [negb].
  rewrite Hb in *. cbn zeta. destruct (current_in_buffer_position c <? 0); [done|].
  destruct (blit _ _ _ _ _) as [dest'|] eqn:Eb; [|done]. cbn.
  assert (0 <= segment_length) as Hn.
  { apply Z.ltb_ge in En. rewrite !Z.lor_nonneg in En. lia. }
  unfold blit in Eb. destruct (_ && _)%bool eqn:El; [|done]. bool_to_prop.
  unfold IS_BUF_CAPACITY_ENOUGH in Ec. apply Z.leb_le in Ec. unfold default, id, zlen in *.
  rewrite i32_id in Ec by (unfold is_i32, INT_MAX in *; lia).
  split; [|lia]. apply (further_advance c segment_length); [done|lia..].
Qed.

#[export] Hint Resolve onward_read_segment onward_read_utf_char_array : dx.

Lemma onward_read_byte_array (calloc_ok : Z -> bool) : onward (fun c => c) 0 (dx_read_byte_array calloc_ok).
Proof. unfold dx_read_byte_array. onward_tac. Qed.
#[export] Hint Resolve onward_read_byte_array : dx.

(** ** The symbols *)

Lemma onward_input {A} n (m : M in_ctx A) :
  onward (fun c => c) n m -> onward (S := codec_state) fst n (on_input m).
Proof.
  intros Hm [c o] Hs. specialize (Hm c Hs). unfold onward_at, on_input in *. cbn [fst] in *.
  destruct (m c); done.
Qed.
Lemma onward_output f : onward (S := codec_state) fst 0 (on_output f).
Proof. intros [c o] [Hs _]. split; [by apply further_refl|cbn [fst]; lia]. Qed.
Lemma onward_get_output {A} (f : symbol_out -> A) : onward (S := codec_state) fst 0 (get_output f).
Proof. intros [c o] [Hs _]. split; [by apply further_refl|cbn [fst]; lia]. Qed.
#[export] Hint Resolve onward_output onward_get_output : dx.
#[export] Hint Extern 1 (onward fst _ (on_input _)) => apply onward_input; solve [auto with dx] : dx.

Section symbols.
Context (calloc_ok malloc_ok : Z -> bool) (t : tables).

Lemma onward_cesu_loop n k buf : onward fst 0 (cesu_loop n k buf).
Proof.
  revert k buf. induction n as [|n IH]; intros; cbn [cesu_loop]; [auto with dx|].
  repeat first [apply IH | progress onward_tac].
Qed.

Lemma onward_penta_to_string {S} (inp : S -> in_ctx) penta :
  onward inp 0 (dx_penta_to_string calloc_ok t penta).
Proof. unfold dx_penta_to_string. onward_tac. Qed.

Lemma onward_finish_penta penta : onward fst 0 (finish_penta calloc_ok t penta).
Proof. unfold finish_penta. repeat first [apply onward_penta_to_string | progress onward_tac]. Qed.

Lemma onward_read_cesu n : onward fst 0 (read_cesu calloc_ok malloc_ok n).
Proof. unfold read_cesu. repeat first [apply onward_cesu_loop | progress onward_tac]. Qed.

Lemma onward_position : onward (fun c => c) 0 dx_get_in_buffer_position.
Proof. unfold dx_get_in_buffer_position. onward_tac. Qed.
Hint Resolve onward_position onward_finish_penta onward_read_cesu : dx.

Lemma onward_read_symbol_loop fuel n flags_bytes :
  onward fst 1 (read_symbol_loop calloc_ok malloc_ok t fuel n flags_bytes).
Proof.
  revert flags_bytes. induction fuel as [|fuel IH]; intros; cbn [read_symbol_loop]; [done|].
  apply onward_bind; [auto with dx|intros i].
  repeat first [apply (onward_weaken _ 1); [lia|apply IH] | progress onward_tac].
Qed.

Lemma onward_read_symbol n : onward fst 1 (dx_codec_read_symbol calloc_ok malloc_ok t n).
Proof.
  unfold dx_codec_read_symbol. intros [c o] Hs. 
  pose proof (onward_read_symbol_loop 3 n 0 (c, set_flags 0 o) Hs). done.
Qed.
End symbols.
#[export] Hint Resolve onward_position onward_read_symbol : dx.
