(* ===== verification/InnerLoops.v ===== *)
(** * InnerLoops: the bounds of the loops of the readers are never reached

    The loops of [Input] and [SymbolCodec] count their rounds.  Here more rounds are
    shown to make no difference, so that what ends them is the condition of the loop
    of the source, whatever is read. *)

From S2P Require Import Prelude Arrays Output Input Wire SymbolCodec Loops.
Local Open Scope Z_scope.
Local Open Scope c_scope.

Lemma bind_ext {S A B} (m : M S A) (k k' : A -> M S B) s :
  (forall a s', m s = Ok a s' -> k a s' = k' a s') -> checked_call m k s = checked_call m k' s.
Proof. unfold checked_call. intros H. destruct (m s) as [a s'|e s'|]; [by apply H|done..]. Qed.
Ltac same_rounds IH :=
  repeat first [ apply bind_ext; intros ? ? _ | match goal with |- (if ?b then _ else _) _ = _ => destruct b end
               | match goal with |- (let '(_, _) := ?x in _) _ = _ => destruct x end ]; try done; apply IH; lia.

(** The bits of a prefix are out after five shifts. *)
Lemma skip_loop_bound k n c : 0 <= n < 256 -> skip_loop (5 + k) n c = skip_loop 5 n c.
Proof.
  intros Hn. cbn [skip_loop Nat.add]. do 4 (destruct (_ =? 0); [done|]; apply bind_ext; intros ? ? _).
  assert (Z.land (i32 (Z.shiftl (i32 (Z.shiftl (i32 (Z.shiftl (i32 (Z.shiftl (i32 (Z.shiftl n 1)) 1)) 1)) 1)) 1)) 0x10 = 0) as ->; [|done].
  rewrite !Z.shiftl_mul_pow2 by lia. rewrite !i32_id by (unfold_ints; lia).
  apply Z.bits_inj'. intros i Hi. rewrite Z.land_spec, Z.bits_0. change 0x10 with (2 ^ 4). rewrite Z.pow2_bits_eqb by done.
  destruct (Z.eqb_spec 4 i) as [<-|_]; [|apply andb_false_r].
  replace (n * 2 ^ 1 * 2 ^ 1 * 2 ^ 1 * 2 ^ 1 * 2 ^ 1) with (n * 2 ^ 5) by lia. by rewrite Z.mul_pow2_bits_low by lia.
Qed.

(** Every character takes one from what is left to read. *)
Lemma utf_sequence_bound in_chars fuel : forall fuel' utflen buffer count c,
  utflen <= Z.of_nat fuel -> utflen <= Z.of_nat fuel' ->
  utf_sequence_loop fuel in_chars utflen buffer count c = utf_sequence_loop fuel' in_chars utflen buffer count c.
Proof.
  induction fuel as [|fuel IH]; intros [|fuel'] utflen buffer count c H H'; cbn [utf_sequence_loop]; [done| | |].
  1, 2: destruct (Z.ltb_spec 0 utflen); [lia|done].
  destruct (Z.ltb_spec 0 utflen) as [Hu|_]; [|done]. destruct in_chars; same_rounds IH.
Qed.

(** A penta has at most 64 bits. *)
Lemma u64_bounds z : 0 <= u64 z < 2 ^ 64.
Proof. unfold u64. apply Z.mod_pos_bound. done. Qed.
Lemma penta_bits_bound fuel k penta : forall plen,
  0 <= plen -> 64 <= plen + 5 * Z.of_nat fuel -> penta_bits (fuel + k) penta plen = penta_bits fuel penta plen.
Proof.
  induction fuel as [|fuel IH]; intros plen Hp Hf; cbn [Nat.add penta_bits].
  - assert (Z.shiftr (u64 penta) plen = 0) as E; [|destruct k; cbn; [done|by rewrite E]].
    rewrite Z.shiftr_div_pow2 by done. apply Z.div_small. pose proof (u64_bounds penta) as Hu.
    split; [lia|]. apply Z.lt_le_trans with (2 ^ 64); [lia|]. apply Z.pow_le_mono_r; lia.
  - destruct (_ =? 0); [done|]. apply IH; lia.
Qed.
Lemma penta_bits_range fuel penta : forall plen, plen <= penta_bits fuel penta plen <= plen + 5 * Z.of_nat fuel.
Proof.
  induction fuel as [|fuel IH]; intros plen; cbn [penta_bits]; [lia|]. destruct (_ =? 0); [lia|]. specialize (IH (plen + 5)). lia.
Qed.
Lemma penta_string_bound t penta fuel k : forall penta_length buffer length,
  penta_length <= 5 * Z.of_nat fuel ->
  penta_string_loop (fuel + k) t penta penta_length buffer length = penta_string_loop fuel t penta penta_length buffer length.
Proof.
  induction fuel as [|fuel IH]; intros penta_length buffer len Hf; cbn [Nat.add penta_string_loop].
  - destruct k; cbn [penta_string_loop]; [done|]. destruct (Z.ltb_spec 0 penta_length); [lia|done].
  - destruct (Z.ltb_spec 0 penta_length); [|done]. cbv zeta. set (code := Z.land _ 0x1F).
    destruct (_ && _); cbv beta iota.
    + destruct (at_index _ _); [|done]. cbn. destruct (set_index _ _ _); [|done]. apply IH. lia.
    + destruct (at_index _ _); [|done]. cbn. destruct (set_index _ _ _); [|done]. apply IH. lia.
Qed.

(** A second prefix with flags is an error. *)
Lemma read_symbol_flagged calloc_ok malloc_ok t fuel k n flags_bytes s : 0 < flags_bytes ->
  read_symbol_loop calloc_ok malloc_ok t (S fuel + k) n flags_bytes s = read_symbol_loop calloc_ok malloc_ok t (S fuel) n flags_bytes s.
Proof.
  intros Hf%Z.ltb_lt. cbn [Nat.add read_symbol_loop]. rewrite Hf. reflexivity.
Qed.
Lemma read_symbol_bound calloc_ok malloc_ok t k n s : in_small s.1 ->
  read_symbol_loop calloc_ok malloc_ok t (3 + k) n 0 s = read_symbol_loop calloc_ok malloc_ok t 3 n 0 s.
Proof.
  intros Hs.
  assert (forall f n' s', 0 < f -> read_symbol_loop calloc_ok malloc_ok t (2 + k) n' f s' = read_symbol_loop calloc_ok malloc_ok t 2 n' f s') as Hf
    by (intros f n' s' Hf; by apply (read_symbol_flagged _ _ _ 1)).
  change (3 + k)%nat with (S (2 + k)). revert Hf. generalize (2 + k)%nat. generalize 2%nat. intros m m' Hf.
  cbn [read_symbol_loop]. apply bind_ext. intros i s1 E1.
  destruct (i <? 0x80); [reflexivity|]. destruct (i <? 0xC0); [reflexivity|]. destruct (i <? 0xE0); [reflexivity|].
  destruct (i <? 0xF0); [reflexivity|]. destruct (i <? 0xF8); [reflexivity|]. destruct (i =? 0xF8).
  { change (0 <? 0) with false. cbv iota. apply bind_ext. intros [] s2 _. by apply Hf. }
  destruct (i =? 0xF9); [|reflexivity].
  destruct s as [c o], s1 as [c1 o1]. pose proof (onward_read_unsigned_byte c Hs) as H1. unfold onward_at in H1.
  cbn [fst] in *. unfold on_input in E1. destruct (dx_read_unsigned_byte c) as [b c'|e c'|]; [|done..]. injection E1 as -> -> ->.
  assert (Hs1 : in_small c1) by (eapply further_small; [exact Hs|apply H1]).
  change (0 <? 0) with false. cbv iota. apply bind_ext. intros pos s2 [= <- <-]. apply bind_ext. intros flags [c3 o3] E3.
  pose proof (onward_read_compact_int c1 Hs1) as H3. unfold onward_at in H3. unfold on_input in E3.
  destruct (dx_read_compact_int c1) as [f c'|e c'|]; [|done..]. injection E3 as -> -> ->. destruct H3 as [_ H3].
  apply bind_ext. intros [] s4 [= <-]. apply bind_ext. intros [] s5 [= <-]. apply bind_ext. intros pos' s6 [= <- <-].
  apply Hf. lia.
Qed.

(** More rounds of any of these loops are the same. *)
Record inner_loops_end (calloc_ok malloc_ok : Z -> bool) (t : tables) : Prop := {
  ie_skip k n c : 0 <= n < 256 -> skip_loop (5 + k) n c = skip_loop 5 n c;
  ie_utf k in_chars utflen buffer count c :
    utf_sequence_loop (Z.to_nat utflen + k) in_chars utflen buffer count c =
    utf_sequence_loop (Z.to_nat utflen) in_chars utflen buffer count c;
  ie_penta_bits k penta : penta_bits (13 + k) penta 0 = penta_bits 13 penta 0;
  ie_penta_string k penta buffer :
    penta_string_loop (13 + k) t penta (penta_bits 13 penta 0) buffer 0 = penta_string_loop 13 t penta (penta_bits 13 penta 0) buffer 0;
  ie_symbol k n s : in_small s.1 ->
    read_symbol_loop calloc_ok malloc_ok t (3 + k) n 0 s = read_symbol_loop calloc_ok malloc_ok t 3 n 0 s;
}.
Lemma inner_loops_spec calloc_ok malloc_ok t : inner_loops_end calloc_ok malloc_ok t.
Proof.
  split; intros.
  - by apply skip_loop_bound.
  - apply utf_sequence_bound; lia.
  - apply penta_bits_bound; lia.
  - apply penta_string_bound. pose proof (penta_bits_range 13 penta 0). lia.
  - by apply read_symbol_bound.
Qed.
