(* ===== verification/Framing.v ===== *)
(** * Framing: messages and their lengths

    A message is its length in compact form and its bytes.  [stable] readers make
    of more bytes what they make of fewer; a stable reader fails on a proper
    prefix of what it reads, which is how an incomplete message is noticed. *)

From S2P Require Import Prelude Arrays Output Input Wire Loops.
Local Open Scope Z_scope.
Local Open Scope c_scope.

(** The message [payload] on the wire. *)
Definition frame (payload : list Z) : list Z := wire (compact_int_bytes (zlen payload)) ++ payload.

Lemma length_wire bs : zlen (wire bs) = zlen bs.
Proof. unfold zlen, wire. by rewrite length_map. Qed.
Lemma compact_int_nonempty v : 1 <= zlen (compact_int_bytes v).
Proof. unfold zlen, compact_int_bytes. repeat destruct_match; simpl; lia. Qed.

(** ** Stable readers *)

Lemma remaining_advance_drop c k :
  in_wf c -> 0 <= k <= zlen (remaining c) ->
  remaining (advance c k) = drop (Z.to_nat k) (remaining c).
Proof.
  intros Hc Hk. unfold remaining, advance. cbn. rewrite drop_drop. f_equal.
  destruct Hc. lia.
Qed.

Lemma advance_advance c j k : advance (advance c j) k = advance c (j + k).
Proof. unfold advance. cbn. f_equal. lia. Qed.

Definition stable {A} (m : M in_ctx A) : Prop := forall c c' more v c1,
  in_small c -> in_wf c' -> remaining c' = remaining c ++ more -> m c = Ok v c1 ->
  exists k, 0 <= k <= zlen (remaining c) /\ c1 = advance c k /\ m c' = Ok v (advance c' k).

Lemma stable_bind {A B} (m : M in_ctx A) (k : A -> M in_ctx B) :
  stable m -> (forall a, stable (k a)) -> stable (checked_call m k).
Proof.
  intros Hm Hk c c' more v c2 Hc Hc' Hr. unfold checked_call.
  destruct (m c) as [a c1|e c1|] eqn:Em; [|done|done]. intros Ek.
  destruct (Hm c c' more a c1 Hc Hc' Hr Em) as (j & Hj & -> & ->).
  pose proof (zlen_nonneg more). pose proof (length_remaining c (proj1 Hc)) as Hl.
  pose proof (length_remaining c' Hc') as Hl'. rewrite Hr, zlen_app in Hl'.
  assert (in_small (advance c j) /\ in_wf (advance c' j)) as [Hw Hw'].
  { split; [apply (further_small c); [done|]; apply further_advance; [apply Hc|lia..]|].
    apply (further_advance c' j); done || lia. }
  assert (remaining (advance c' j) = remaining (advance c j) ++ more) as Hr'.
  { rewrite !remaining_advance_drop, Hr by (done || apply Hc || rewrite ?Hr, ?zlen_app; lia).
    apply drop_app_le. unfold zlen in *. lia. }
  destruct (Hk a _ _ more v c2 Hw Hw' Hr' Ek) as (i & Hi & -> & ->).
  rewrite length_remaining in Hi by apply Hw. cbn in Hi.
  exists (j + i). rewrite !advance_advance. split; [lia|done].
Qed.

Lemma stable_ret {A} (a : A) : stable (ret a).
Proof.
  intros c c' more v c1 _ _ _ [= <- <-]. exists 0. split; [pose proof (zlen_nonneg (remaining c)); lia|].
  unfold advance, ret. destruct c, c'; cbn. by rewrite !Z.add_0_r.
Qed.

(** A reader of exactly [n] bytes that fails on fewer. *)
Lemma stable_fixed {A} n (m : M in_ctx A) :
  0 <= n -> (forall bs, zlen bs = n -> exists v, reads m bs v) ->
  (forall c v c1, in_small c -> m c = Ok v c1 -> n <= zlen (remaining c)) -> stable m.
Proof.
  intros Hn Hreads Hfew c c' more v c1 Hc Hc' Hr Em.
  pose proof (Hfew c v c1 Hc Em) as Hl. set (bs := take (Z.to_nat n) (remaining c)).
  assert (zlen bs = n) as Hb. { unfold bs, zlen in *. rewrite length_take. lia. }
  destruct (Hreads bs Hb) as (w & Hw).
  rewrite (Hw c (drop (Z.to_nat n) (remaining c)) (proj1 Hc)) in Em by (symmetry; apply take_drop).
  injection Em as -> <-. exists n. rewrite Hb. split; [lia|]. split; [done|].
  rewrite <- Hb at 1. apply (Hw c' (drop (Z.to_nat n) (remaining c) ++ more) Hc').
  unfold bs. by rewrite Hr, app_assoc, take_drop.
Qed.

Lemma validated_room {A} n (k : M in_ctx A) c v c1 :
  0 <= n <= 8 -> in_small c ->
  (dx_validate_buffer_and_value n;;; k) c = Ok v c1 -> n <= zlen (remaining c).
Proof.
  intros Hn (Hc & Hs & _). rewrite length_remaining by done. pose proof Hc as (Hp & _ & buf & Hb & _).
  unfold dx_validate_buffer_and_value, checked_call, get, IS_BUF_CAPACITY_ENOUGH. rewrite Hb.
  rewrite i32_id by (unfold is_i32, INT_MAX in *; lia).
  destruct (Z.leb_spec (current_in_buffer_position c + n) (in_buffer_length c)); [lia|done].
Qed.

Ltac bytes_of bs H := destruct bs as [|?b bs]; [unfold zlen in H; simpl in H; lia|].
Ltac no_more_bytes bs H := destruct bs; [|unfold zlen in H; simpl in H; lia].
Ltac stable_reader n := apply (stable_fixed n); [lia| |intros c v c1 Hc; apply validated_room; done || lia].
Ltac reads_fetches := eexists; apply reads_validate; [done|]; repeat apply reads_fetch_bind; cbn zeta; apply reads_ret.

Lemma stable_unsigned_byte : stable dx_read_unsigned_byte.
Proof. stable_reader 1. intros bs H. bytes_of bs H. no_more_bytes bs H. reads_fetches. Qed.
Lemma stable_unsigned_short : stable dx_read_unsigned_short.
Proof. stable_reader 2. intros bs H. do 2 bytes_of bs H. no_more_bytes bs H. reads_fetches. Qed.
Lemma stable_int : stable dx_read_int.
Proof. stable_reader 4. intros bs H. do 4 bytes_of bs H. no_more_bytes bs H. reads_fetches. Qed.
Lemma stable_byte : stable dx_read_byte.
Proof.
  stable_reader 1. intros bs H. bytes_of bs H. no_more_bytes bs H. eexists. apply reads_validate; [done|].
  apply reads_fetch.
Qed.

Lemma stable_compact_long : stable dx_read_compact_long.
Proof.
  unfold dx_read_compact_long.
  repeat match goal with
  | |- stable (checked_call _ _) => apply stable_bind; [|intros]
  | |- stable (if ?b then _ else _) => destruct b
  | |- stable (ret _) => apply stable_ret
  | _ => apply stable_unsigned_byte || apply stable_unsigned_short || apply stable_int || apply stable_byte
  end.
Qed.

(** A stable reader that reads [bs] fails on less. *)
Lemma stable_prefix {A} (m : M in_ctx A) bs v c more :
  stable m -> safe m -> reads m bs v -> zlen bs <= INT_MAX ->
  in_small c -> bs = remaining c ++ more -> more <> [] ->
  exists e c', m c = Err e c' /\ further c c'.
Proof.
  intros Hst Hsafe Hr Hb Hc E Hmore. specialize (Hsafe c Hc).
  destruct (m c) as [w c1|e c1|] eqn:Em; [|by exists e, c1|done].
  exfalso.
  assert (exists c', in_wf c' /\ remaining c' = bs) as (c' & Hc' & Hr').
  { exists (InCtx (Some bs) (zlen bs) 0 0). pose proof (zlen_nonneg bs). split.
    - split; [cbn; lia|]. split; [done|]. exists bs. cbn. split; [done|lia].
    - unfold remaining, zlen. cbn. by rewrite drop_0, Nat2Z.id, firstn_all. }
  destruct (Hst c c' more w c1 Hc Hc' ltac:(congruence) Em) as (k & Hk & _ & E2).
  rewrite (Hr c' [] Hc') in E2 by (by rewrite app_nil_r). injection E2 as _ E3.
  assert (zlen bs = k) as Hk' by (unfold advance in E3; lia).
  rewrite E, zlen_app in Hk'. destruct more; [done|]. rewrite zlen_cons in Hk'. pose proof (zlen_nonneg more). lia.
Qed.
