(* ===== verification/Compose.v ===== *)
(** * Compose: the messages of the client

    The framing of [src/ClientMessageProcessor.c]: a byte is reserved for the
    length of a message, which is written when the message is complete; a length
    of more bytes moves the message behind it. *)

From S2P Require Import Prelude Output Input Wire SymbolCodec Framing.
Local Open Scope Z_scope.
Local Open Scope c_scope.

Section compose.
(** Whether [dx_malloc] of so many bytes succeeds. *)
Context (malloc_ok : Z -> bool).

Definition dx_compose_message_header (message_type : Z) : M out_ctx unit :=
  dx_write_byte malloc_ok 0;;;
  dx_write_compact_int malloc_ok message_type.

Definition dx_move_message_data (old_offset new_offset data_length : Z) : M out_ctx unit :=
  dx_ensure_capacity malloc_ok (i32 (new_offset + data_length));;;
  c <-- get;;
  buf <-- of_option (out_buffer c);;
  buf' <-- of_option (blit buf (Z.to_nat old_offset) buf (Z.to_nat new_offset) (Z.to_nat data_length));;
  put (OutCtx (Some buf') (out_buffer_length c) (current_out_buffer_position c)).

Definition dx_finish_composing_message : M out_ctx unit :=
  c <-- get;;
  let message_length := i32 (current_out_buffer_position c - 1) in
  let length_size := dx_get_compact_size message_length in
  (if 1 <? length_size then dx_move_message_data 1 length_size message_length else ret tt);;;
  dx_set_out_buffer_position 0;;;
  dx_write_compact_int malloc_ok message_length;;;
  dx_set_out_buffer_position (i32 (length_size + message_length)).

(** The part that the functions that send have in common: a new buffer of
    [initial_size] bytes, the header, the body and the end.  The body has a state
    of its own beside the buffer.  The result is the bytes that are sent. *)
Definition on_out {X A} (m : M out_ctx A) : M (out_ctx * X) A := fun '(c, x) =>
  match m c with
  | Ok a c => Ok a (c, x)
  | Err e c => Err e (c, x)
  | UB => UB
  end.
Definition on_state {X A} (m : M X A) : M (out_ctx * X) A := fun '(c, x) =>
  match m x with
  | Ok a x => Ok a (c, x)
  | Err e x => Err e (c, x)
  | UB => UB
  end.

Definition compose_message {X} (initial_size message_type : Z) (body : M (out_ctx * X) unit)
  : M (out_ctx * X) (list Z) :=
  if malloc_ok initial_size then
    on_out (dx_set_out_buffer (Some (replicate (Z.to_nat initial_size) 0)) initial_size);;;
    on_out (dx_compose_message_header message_type);;;
    body;;;
    on_out dx_finish_composing_message;;;
    s <-- get;;
    ret (written s.1)
  else dx_set_error_code dx_mec_insufficient_memory.
End compose.

(** ** What is behind the bytes that are written *)

Definition buffer_of (c : out_ctx) : list Z := default [] (out_buffer c).
Definition behind (c c' : out_ctx) : Prop :=
  0 <= current_out_buffer_position c <= current_out_buffer_position c' /\
  drop (Z.to_nat (current_out_buffer_position c')) (buffer_of c') =
  drop (Z.to_nat (current_out_buffer_position c')) (buffer_of c).
Definition keeps_behind (m : M out_ctx unit) : Prop := forall c c',
  0 <= current_out_buffer_position c -> m c = Ok tt c' -> behind c c'.

Lemma keeps_store v : keeps_behind (store v).
Proof.
  intros c c' Hp E. unfold store, checked_call, get in E. destruct (out_buffer c) as [buf|] eqn:Eb; [|done].
  decide_cmps. rewrite (proj2 (Z.ltb_ge _ _)) in E by lia. unfold write_at in E.
  destruct (_ <? _)%nat eqn:El; [|done]. injection E as <-. split; [simpl; lia|].
  unfold buffer_of. rewrite Eb. cbn. by rewrite drop_insert_lt by lia.
Qed.

Lemma behind_trans c1 c2 c3 : behind c1 c2 -> behind c2 c3 -> behind c1 c3.
Proof.
  intros [H1 E1] [H2 E2]. split; [lia|]. rewrite E2.
  replace (Z.to_nat (current_out_buffer_position c3)) with
    (Z.to_nat (current_out_buffer_position c2) +
     Z.to_nat (current_out_buffer_position c3 - current_out_buffer_position c2))%nat by lia.
  by rewrite <- !drop_drop, E1.
Qed.

Lemma keeps_seq m1 m2 : keeps_behind m1 -> keeps_behind m2 -> keeps_behind (m1;;; m2).
Proof.
  intros H1 H2 c c' Hp E. unfold checked_call in E. destruct (m1 c) as [[] c1|e c1|] eqn:E1; [|done|done].
  pose proof (H1 c c1 Hp E1) as Hb. apply (behind_trans c c1 c'); [done|]. apply H2; [destruct Hb; lia|done].
Qed.

Lemma keeps_int v : keeps_behind (dx_write_int_unchecked v).
Proof. unfold dx_write_int_unchecked. auto using keeps_seq, keeps_store. Qed.

Lemma keeps_apply m c c' :
  keeps_behind m -> 0 <= current_out_buffer_position c -> m c = Ok tt c' -> behind c c'.
Proof. intros H. apply H. Qed.

(** A compact integer that is written over what the buffer has. *)
Lemma write_compact_int_over malloc_ok v c :
  is_i32 v -> out_wf c -> current_out_buffer_position c + 5 <= out_buffer_length c ->
  exists c', dx_write_compact_int malloc_ok v c = Ok tt c' /\ extends c c' (wire (compact_int_bytes v)) /\
    out_buffer_length c' = out_buffer_length c /\ behind c c'.
Proof.
  intros Hv Hc Hroom. pose proof Hc as (Hp & Hm & _).
  destruct (writes_compact_int malloc_ok v Hv c Hc ltac:(lia)) as [Hfit _].
  destruct (Hfit Hroom) as (c' & E & Hx & Hl). exists c'. split_and!; [done..|].
  unfold dx_write_compact_int in E. unfold checked_call at 1 in E. rewrite check_write_is_ensure in E by done.
  destruct (ensure_spec malloc_ok 5 c Hc ltac:(lia) ltac:(lia)) as [He _]. rewrite He in E by done.
  eapply keeps_apply; [|exact (proj1 Hp)|exact E].
  repeat match goal with |- keeps_behind (if ?b then _ else _) => destruct b end;
    auto using keeps_seq, keeps_store, keeps_int.
Qed.

(** ** A message is framed *)

Lemma length_compact_int_bytes v : is_i32 v -> zlen (compact_int_bytes v) = dx_get_compact_size v.
Proof.
  intros Hv. unfold is_i32 in Hv. unfold compact_int_bytes.
  assert (1 <= dx_get_compact_size v <= 5) as H by (unfold dx_get_compact_size; repeat destruct_match; lia).
  repeat destruct_match; unfold zlen; simpl; lia.
Qed.

(** ** Operations that succeed *)

(** A position and a size that leave room to grow: the buffer doubles, and its
    size and the position together must stay below 2^31. *)
Definition MAX_POSITION : Z := 2 ^ 29.
Definition roomy (c : out_ctx) : Prop := out_wf c /\ out_buffer_length c <= 2 ^ 30.

Section sends.
Context (malloc_ok : Z -> bool) (malloc_works : forall n, malloc_ok n = true).

(** [writes], and no error where memory can be had. *)
Definition sends (m : M out_ctx unit) (need : Z) (bs : list Z) : Prop :=
  writes m need bs /\
  forall c, roomy c -> current_out_buffer_position c + need <= MAX_POSITION ->
    exists c', m c = Ok tt c' /\ out_buffer_length c <= out_buffer_length c' <= 2 ^ 30.

Lemma ensure_roomy n c :
  roomy c -> 0 <= n -> current_out_buffer_position c + n <= MAX_POSITION ->
  exists c', ensure malloc_ok n c = Ok tt c' /\ roomy c' /\ extends c c' [] /\
    current_out_buffer_position c + n <= out_buffer_length c' /\ out_buffer_length c <= out_buffer_length c'.
Proof using malloc_works.
  unfold MAX_POSITION. intros [Hc Hl] Hn Hpos. pose proof Hc as (Hp & _).
  destruct (ensure_spec malloc_ok n c Hc Hn ltac:(unfold INT_MAX in *; lia)) as [Hfit He].
  destruct (decide (current_out_buffer_position c + n <= out_buffer_length c)) as [Hr|Hr].
  { exists c. rewrite Hfit by done. split_and!; try done. by apply extends_refl. }
  assert (exists c', ensure malloc_ok n c = Ok tt c' /\
    out_buffer_length c' = Z.max (Z.max (out_buffer_length c * 2) 1024) (current_out_buffer_position c + n))
    as (c' & E & El).
  { pose proof Hc as (_ & _ & buf & Hb & Hlen).
    unfold ensure, dx_ensure_capacity, checked_call, get, IS_CUR_CAPACITY_ENOUGH. cbv beta.
    assert (i32 (current_out_buffer_position c + n) = current_out_buffer_position c + n) as En
      by (apply i32_id; unfold is_i32; lia).
    assert ((current_out_buffer_position c + n <=? out_buffer_length c) = false) as Ef by lia.
    rewrite En, Ef. cbv beta. rewrite En, Ef. unfold INT_MAX. rewrite (proj2 (Z.ltb_ge _ _)) by lia.
    cbn [negb]. rewrite malloc_works. rewrite shl_mul, i64_id by (unfold is_i64; lia).
    replace (i32 (Z.min (out_buffer_length c * 2 ^ 1) 2147483647)) with (out_buffer_length c * 2)
      by (rewrite i32_id; unfold is_i32; lia).
    rewrite Hb. cbn [default]. rewrite blit_in by (rewrite ?length_replicate; simpl; lia).
    eexists. split; reflexivity. }
  rewrite E in He. exists c'. split; [done|]. destruct He as [Hx Hroom].
  split_and!; [split; [apply Hx|lia]|done|done|lia].
Qed.
End sends.

Section rules.
Context (malloc_ok : Z -> bool) (malloc_works : forall n, malloc_ok n = true).

Lemma sends_ensure n m bs : 0 <= n -> writes (ensure malloc_ok n;;; m) n bs -> sends (ensure malloc_ok n;;; m) n bs.
Proof using malloc_works.
  intros Hn Hw. split; [done|]. intros c Hc Hpos.
  destruct (ensure_roomy malloc_ok malloc_works n c Hc Hn Hpos) as (c1 & E1 & Hc1 & Hx & Hroom & Hl).
  pose proof (extends_position _ _ _ (proj1 Hc) Hx) as Hp. change (zlen []) with 0 in Hp. rewrite Z.add_0_r in Hp.
  destruct Hc1 as [Hw1 Hl1].
  destruct (Hw c1 Hw1) as [Hfit _]; [unfold MAX_POSITION, INT_MAX in *; lia|].
  destruct (Hfit ltac:(lia)) as (c2 & E2 & _ & Hl2). exists c2.
  destruct (ensure_spec malloc_ok n c1 Hw1 Hn ltac:(unfold MAX_POSITION, INT_MAX in *; lia)) as [He _].
  unfold checked_call in *. rewrite E1. rewrite He in E2 by lia. split; [done|]. lia.
Qed.

Lemma sends_check n m bs :
  0 <= n -> writes (dx_check_write_possibility malloc_ok n;;; m) n bs ->
  sends (dx_check_write_possibility malloc_ok n;;; m) n bs.
Proof using malloc_works.
  intros Hn Hw.
  assert (forall c, out_wf c -> (dx_check_write_possibility malloc_ok n;;; m) c = (ensure malloc_ok n;;; m) c) as He.
  { intros c Hc. unfold checked_call. by rewrite check_write_is_ensure. }
  split; [done|]. intros c Hc Hpos. rewrite He by apply Hc.
  apply (sends_ensure n m bs Hn); [|done|done]. intros c' Hc' Hp'. specialize (Hw c' Hc' Hp').
  by rewrite He in Hw.
Qed.

Lemma sends_seq m1 m2 n1 n2 b1 b2 n :
  sends m1 n1 b1 -> sends m2 n2 b2 -> n1 <= n -> zlen b1 + n2 <= n -> sends (m1;;; m2) n (b1 ++ b2).
Proof using Type.
  intros [W1 S1] [W2 S2] H1 H2. split; [by eapply writes_seq|]. intros c Hc Hpos.
  destruct (S1 c Hc ltac:(lia)) as (c1 & E1 & L1).
  destruct (W1 c (proj1 Hc)) as [_ Hm]; [unfold MAX_POSITION, INT_MAX in *; lia|]. rewrite E1 in Hm.
  pose proof (extends_position _ _ _ (proj1 Hc) Hm) as Hp.
  destruct (S2 c1) as (c2 & E2 & L2); [split; [apply Hm|lia]|lia|].
  exists c2. unfold checked_call. rewrite E1, E2. split; [done|lia].
Qed.

Lemma sends_nil : sends (ret tt) 0 [].
Proof using Type. split; [apply writes_nil|]. intros c [Hc Hl] _. exists c. split; [done|lia]. Qed.
Lemma sends_weaken m n n' bs : sends m n bs -> n <= n' -> sends m n' bs.
Proof using Type.
  intros [W S] Hn. split; [by eapply writes_weaken|]. intros c Hc Hpos. apply S; [done|lia].
Qed.
Lemma sends_eq m n bs bs' : sends m n bs -> bs = bs' -> sends m n bs'.
Proof using Type. by intros ? <-. Qed.
Lemma sends_pure {A} (m : M out_ctx A) (k : A -> M out_ctx unit) v n bs :
  (forall st, m st = Ok v st) -> sends (k v) n bs -> sends (checked_call m k) n bs.
Proof using Type.
  intros Hm [W S]. split; [by eapply writes_pure|]. intros c Hc Hpos. unfold checked_call. rewrite Hm. by apply S.
Qed.

(** One character of a string. *)
Lemma sends_guarded m bs rest tail n :
  puts m bs -> zlen bs <= 4 -> sends rest n tail -> 4 <= n ->
  sends (ensure malloc_ok 4;;; (m;;; rest)) (zlen bs + n) (bs ++ tail).
Proof using malloc_works.
  intros Hm Hb Hr Hn. pose proof (zlen_nonneg bs).
  pose proof (sends_seq (ensure malloc_ok 4;;; m) rest 4 n bs tail (zlen bs + n)
    (sends_ensure 4 m bs ltac:(lia) (ensure_puts malloc_ok 4 m bs Hb Hm)) Hr ltac:(lia) ltac:(lia)) as [_ S].
  split; [apply writes_guarded; [done..|apply Hr|done]|]. intros c Hc Hpos. specialize (S c Hc Hpos).
  unfold checked_call in *. by destruct (ensure malloc_ok 4 c) as [[] ?|? ?|].
Qed.

(** ** What the client writes *)

Lemma sends_byte v : sends (dx_write_byte malloc_ok v) 1 (wire (be_bytes 1 v)).
Proof using malloc_works. apply sends_check; [lia|apply writes_byte]. Qed.
Lemma sends_short v : sends (dx_write_short malloc_ok v) 2 (wire (be_bytes 2 v)).
Proof using malloc_works. apply sends_check; [lia|apply writes_short]. Qed.
Lemma sends_int v : sends (dx_write_int malloc_ok v) 4 (wire (be_bytes 4 v)).
Proof using malloc_works. apply sends_check; [lia|apply writes_int]. Qed.
Lemma sends_compact_int v : is_i32 v -> sends (dx_write_compact_int malloc_ok v) 5 (wire (compact_int_bytes v)).
Proof using malloc_works. intros Hv. apply sends_check; [lia|by apply writes_compact_int]. Qed.
Lemma sends_compact_long v : is_i64 v -> sends (dx_write_compact_long malloc_ok v) 9 (wire (compact_long_bytes v)).
Proof using malloc_works.
  intros Hv. pose proof (writes_compact_long malloc_ok v Hv) as W. unfold dx_write_compact_long in *.
  destruct (Z.eqb_spec v (i32 v)) as [E|_]; [|apply sends_check; [lia|exact W]].
  split; [exact W|]. eapply (sends_weaken _ 5 9); [|lia]. apply sends_compact_int, i32_range.
Qed.
Lemma sends_utf_char c : 0 <= c <= 0x10FFFF -> sends (dx_write_utf_char malloc_ok c) 4 (wire (utf8_bytes c)).
Proof using malloc_works. intros Hc. apply sends_check; [lia|by apply writes_utf_char]. Qed.

#[export] Instance sends_writer : Writer malloc_ok sends.
Proof using malloc_works.
  split; intros.
  - apply sends_nil.
  - by eapply sends_weaken.
  - by eapply sends_seq.
  - by eapply sends_pure.
  - apply sends_byte.
  - apply sends_short.
  - apply sends_int.
  - by apply sends_compact_int.
  - by apply sends_compact_long.
  - by apply sends_utf_char.
Qed.

Lemma sends_utf_string s :
  utf16_units s -> zlen (utf16_to_utf8 s) <= INT_MAX ->
  sends (dx_write_utf_string malloc_ok (Some s)) (zlen (utf16_to_utf8 s) + 9)
    (wire (compact_int_bytes (zlen (utf16_to_utf8 s)) ++ utf16_to_utf8 s)).
Proof using malloc_works.
  intros Hs Hmax. split; [by apply writes_utf_string|]. pose proof (zlen_nonneg (utf16_to_utf8 s)).
  pose proof (sends_compact_int (zlen (utf16_to_utf8 s)) ltac:(unfold is_i32, INT_MAX in *; lia)) as S1.
  pose proof (utf_string_loop_rule malloc_ok sends s (sends_weaken _ 0 4 _ sends_nil ltac:(lia)) sends_guarded Hs) as S2.
  assert (zlen (compact_int_bytes (zlen (utf16_to_utf8 s))) <= 5) as Hz.
  { unfold zlen at 1, compact_int_bytes. repeat destruct_match; simpl; lia. }
  pose proof (sends_seq _ _ 5 _ _ _ (zlen (utf16_to_utf8 s) + 9) S1 S2 ltac:(lia)) as [_ S].
  { rewrite length_wire. lia. }
  intros c Hc Hpos. specialize (S c Hc Hpos). unfold dx_write_utf_string.
  rewrite utf_len32_spec, Z.add_0_l by (done || lia).
  rewrite u64_id by (unfold is_u64, INT_MAX in *; lia).
  pose proof (utf16_to_utf8_length s). fold (zlen s). rewrite (proj2 (Z.ltb_ge _ _)) by lia. exact S.
Qed.
End rules.

(** ** The end of a message *)

Section finish.
Context (malloc_ok : Z -> bool) (malloc_works : forall n, malloc_ok n = true).

Lemma ensure_capacity_is_ensure n c :
  roomy c -> 0 <= n -> current_out_buffer_position c + n <= MAX_POSITION ->
  dx_ensure_capacity malloc_ok n c = ensure malloc_ok n c.
Proof using Type.
  intros [Hc Hl] Hn Hp. pose proof Hc as (Hpos & _). unfold MAX_POSITION, INT_MAX in *.
  unfold ensure, checked_call, get, IS_CUR_CAPACITY_ENOUGH.
  destruct (Z.leb_spec (i32 (current_out_buffer_position c + n)) (out_buffer_length c)) as [E|E]; [|done].
  unfold dx_ensure_capacity, checked_call, get, IS_CUR_CAPACITY_ENOUGH, INT_MAX.
  rewrite (proj2 (Z.ltb_ge _ _)) by lia. by rewrite (proj2 (Z.leb_le _ _)) by lia.
Qed.

(** The length in front of the payload. *)
Lemma write_length payload c :
  out_wf c -> 5 <= out_buffer_length c ->
  let k := dx_get_compact_size (zlen payload) in
  k + zlen payload <= out_buffer_length c ->
  take (length payload) (drop (Z.to_nat k) (buffer_of c)) = payload ->
  exists c', (dx_set_out_buffer_position 0;;; dx_write_compact_int malloc_ok (zlen payload);;;
      dx_set_out_buffer_position (i32 (k + zlen payload))) c = Ok tt c' /\
    out_wf c' /\ written c' = frame payload /\ out_buffer_length c' = out_buffer_length c.
Proof using Type.
  intros Hc H5 k Hk Hpay. pose proof Hc as (Hpos & Hm & buf & Hb & Hl). pose proof (zlen_nonneg payload).
  assert (1 <= k) as Hk1 by (unfold k, dx_get_compact_size; repeat destruct_match; lia).
  set (c0 := OutCtx (out_buffer c) (out_buffer_length c) 0).
  assert (is_i32 (zlen payload)) as Hi by (unfold is_i32, INT_MAX in *; lia).
  assert (out_wf c0) as Hc0 by (split; [simpl; lia|]; split; [done|]; by exists buf).
  destruct (write_compact_int_over malloc_ok (zlen payload) c0 Hi Hc0) as (c1 & E & Hx & Hl1 & _ & Hd); [simpl; lia|].
  pose proof (extends_position _ _ _ Hc0 Hx) as Hp1. rewrite length_wire, length_compact_int_bytes in Hp1 by done.
  fold k in Hp1. cbn in Hp1. destruct Hx as [Hw1 Hwr]. pose proof Hw1 as (_ & Hm1 & buf1 & Hb1 & Hlen1).
  unfold checked_call. change (dx_set_out_buffer_position 0 c) with (Ok tt c0). cbv beta iota. rewrite E.
  rewrite i32_id by (unfold is_i32, INT_MAX in *; lia).
  eexists. split; [reflexivity|]. split; [|split; [|done]].
  - split; [cbn in *; lia|]. split; [done|]. by exists buf1.
  - rewrite Hp1 in Hd. unfold buffer_of in Hd. unfold written in Hwr |- *. cbn in Hwr, Hd |- *.
    rewrite Hp1, Hb1 in Hwr. rewrite Hb1 in *. cbn in *. unfold id in *.
    replace (Z.to_nat (k + zlen payload)) with (Z.to_nat k + length payload)%nat by (unfold zlen; lia).
    rewrite Z.add_0_l in Hwr, Hd. rewrite <- take_take_drop, Hwr, Hd. unfold frame. f_equal.
    unfold buffer_of in Hpay. exact Hpay.
Qed.

(** What is behind the byte reserved for the length. *)
Lemma reserved_payload payload c :
  out_wf c -> written c = 0 :: payload ->
  current_out_buffer_position c = 1 + zlen payload /\ take (length payload) (drop 1 (buffer_of c)) = payload.
Proof using Type.
  intros Hc Hw. pose proof (length_written c Hc) as Hpos. rewrite Hw, zlen_cons in Hpos. split; [done|].
  unfold written in Hw. fold (buffer_of c) in Hw. destruct (buffer_of c) as [|b buf]; [by rewrite take_nil in Hw|].
  replace (Z.to_nat (current_out_buffer_position c)) with (S (length payload)) in Hw by (unfold zlen in *; lia).
  cbn in Hw. by injection Hw.
Qed.

Lemma move_sends payload k c :
  roomy c -> written c = 0 :: payload -> 1 <= k <= 5 -> 2 * zlen payload + 6 <= MAX_POSITION ->
  exists c', dx_move_message_data malloc_ok 1 k (zlen payload) c = Ok tt c' /\ roomy c' /\
    out_buffer_length c <= out_buffer_length c' /\ k + zlen payload <= out_buffer_length c' /\
    take (length payload) (drop (Z.to_nat k) (buffer_of c')) = payload.
Proof using malloc_works.
  intros Hr Hw Hk Hroom. destruct (reserved_payload payload c (proj1 Hr) Hw) as [Hpos _].
  pose proof (zlen_nonneg payload). unfold MAX_POSITION in *.
  destruct (ensure_roomy malloc_ok malloc_works (k + zlen payload) c Hr)
    as (c1 & E1 & Hr1 & Hx & Hroom1 & Hl1); [lia|unfold MAX_POSITION; lia|].
  rewrite <- ensure_capacity_is_ensure in E1 by (done || unfold MAX_POSITION; lia).
  destruct Hx as [Hc1 Hw1]. rewrite app_nil_r, Hw in Hw1.
  destruct (reserved_payload payload c1 Hc1 Hw1) as [Hpos1 Hpay]. destruct Hr1 as [_ Hl2].
  pose proof Hc1 as (Hp1 & Hm1 & buf & Hb & Hlen). unfold buffer_of in Hpay. rewrite Hb in Hpay. cbn in Hpay. unfold id in Hpay.
  unfold dx_move_message_data. rewrite i32_id by (unfold is_i32; lia).
  unfold checked_call at 1. rewrite E1. unfold checked_call, get. rewrite Hb. cbn [of_option ret].
  rewrite blit_in by (unfold zlen in *; lia). cbn [of_option ret put].
  replace (Z.to_nat (zlen payload)) with (length payload) by (unfold zlen; lia).
  change (Z.to_nat 1) with 1%nat. rewrite Hpay. unfold put.
  eexists. split; [reflexivity|].
  assert (length (take (Z.to_nat k) buf) = Z.to_nat k) as Ht by (rewrite length_take; unfold zlen in *; lia).
  split_and!; [split; [|done]|done|cbn; lia|].
  - split; [done|]. split; [done|]. eexists. split; [reflexivity|]. cbn.
    rewrite !length_app, Ht, length_drop. unfold zlen in *. lia.
  - unfold buffer_of. cbn. unfold id. rewrite drop_app_length' by done. apply take_app_length.
Qed.

(** The message is complete: its length, and then what was written. *)
Lemma finish_sends payload c :
  roomy c -> written c = 0 :: payload -> 5 <= out_buffer_length c -> 2 * zlen payload + 6 <= MAX_POSITION ->
  exists c', dx_finish_composing_message malloc_ok c = Ok tt c' /\ roomy c' /\ written c' = frame payload.
Proof using malloc_works.
  intros Hr Hw H5 Hroom. pose proof Hr as [Hc Hl]. destruct (reserved_payload payload c Hc Hw) as [Hpos Hpay].
  pose proof (zlen_nonneg payload). unfold MAX_POSITION in *. pose proof Hc as (Hp & _).
  unfold dx_finish_composing_message. unfold checked_call at 1, get. cbv zeta.
  replace (i32 (current_out_buffer_position c - 1)) with (zlen payload)
    by (rewrite i32_id; unfold is_i32; lia).
  set (k := dx_get_compact_size (zlen payload)).
  assert (1 <= k <= 5) as Hk by (unfold k, dx_get_compact_size; repeat destruct_match; lia).
  assert (exists c1, (if 1 <? k then dx_move_message_data malloc_ok 1 k (zlen payload) else ret tt) c = Ok tt c1 /\
    roomy c1 /\ out_buffer_length c <= out_buffer_length c1 /\ k + zlen payload <= out_buffer_length c1 /\
    take (length payload) (drop (Z.to_nat k) (buffer_of c1)) = payload) as (c1 & E1 & [Hc1 Hl1] & Hle & Hk1 & Hpay1).
  { destruct (Z.ltb_spec 1 k); [by apply move_sends|]. exists c. replace k with 1 by lia.
    split_and!; try done; lia. }
  unfold checked_call at 1. rewrite E1.
  destruct (write_length payload c1) as (c' & E & Hc' & Hw' & Hl'); [done|lia|done|done|].
  exists c'. split; [exact E|]. split; [split; [done|lia]|done].
Qed.

(** A body writes its bytes and changes its own state. *)
Definition body_sends {X} (body : M (out_ctx * X) unit) (x : X) (need : Z) (bs : list Z) (x' : X) : Prop :=
  forall c, roomy c -> current_out_buffer_position c + need <= MAX_POSITION ->
  exists c', body (c, x) = Ok tt (c', x') /\ extends c c' bs /\ roomy c' /\ out_buffer_length c <= out_buffer_length c'.

Lemma body_out {X} m (x : X) need bs : 0 <= need -> sends m need bs -> body_sends (on_out m) x need bs x.
Proof using Type.
  intros Hn [W S] c Hc Hp. destruct (S c Hc Hp) as (c' & E & Hl).
  destruct (W c (proj1 Hc)) as [_ Hx]; [unfold MAX_POSITION, INT_MAX in *; lia|]. rewrite E in Hx.
  exists c'. unfold on_out. rewrite E. split_and!; [done|done|split; [apply Hx|lia]|lia].
Qed.

Lemma body_nil {X} (x : X) : body_sends (ret tt) x 0 [] x.
Proof using Type. intros c Hc _. exists c. split_and!; [done|by apply extends_refl, (proj1 Hc)|done|lia]. Qed.

Lemma body_seq {X} m1 m2 (x1 x2 x3 : X) n1 n2 b1 b2 n :
  body_sends m1 x1 n1 b1 x2 -> body_sends m2 x2 n2 b2 x3 -> n1 <= n -> zlen b1 + n2 <= n ->
  body_sends (m1;;; m2) x1 n (b1 ++ b2) x3.
Proof using Type.
  intros H1 H2 Hn1 Hn2 c Hc Hp. destruct (H1 c Hc ltac:(lia)) as (c1 & E1 & X1 & R1 & L1).
  pose proof (extends_position _ _ _ (proj1 Hc) X1) as Hpos.
  destruct (H2 c1 R1 ltac:(lia)) as (c2 & E2 & X2 & R2 & L2). exists c2.
  unfold checked_call. rewrite E1, E2. split_and!; [done|by eapply extends_trans|done|lia].
Qed.

Lemma body_state {X A} (m : M X A) (k : A -> M (out_ctx * X) unit) (x x' x'' : X) v n bs :
  m x = Ok v x' -> body_sends (k v) x' n bs x'' -> body_sends (checked_call (on_state m) k) x n bs x''.
Proof using Type.
  intros E H c Hc Hp. unfold checked_call, on_state. rewrite E. by apply H.
Qed.

(** A message whose body is written. *)
Lemma compose_sends {X} size type (body : M (out_ctx * X) unit) x need bs x' c :
  6 <= size <= 2 ^ 30 -> is_i32 type -> body_sends body x need bs x' -> zlen bs <= need ->
  2 * need + 20 <= MAX_POSITION ->
  exists c', compose_message malloc_ok size type body (c, x) =
    Ok (frame (wire (compact_int_bytes type) ++ bs)) (c', x').
Proof using malloc_works.
  intros Hsize Htype Hbody Hbs Hneed. unfold MAX_POSITION in *. pose proof (zlen_nonneg bs).
  set (c0 := OutCtx (Some (replicate (Z.to_nat size) 0)) size 0).
  assert (roomy c0) as Hr0.
  { split; [|simpl; lia]. split; [simpl; lia|]. split; [unfold INT_MAX; simpl; lia|].
    eexists. split; [done|]. rewrite length_replicate. simpl. lia. }
  pose proof (sends_seq _ _ 1 5 _ _ 6 (sends_byte malloc_ok malloc_works 0)
    (sends_compact_int malloc_ok malloc_works type Htype) ltac:(lia) ltac:(done)) as Hhead.
  assert (zlen (wire (compact_int_bytes type)) <= 5) as Hz.
  { rewrite length_wire. unfold zlen, compact_int_bytes. repeat destruct_match; simpl; lia. }
  destruct (body_seq _ _ x x x' 6 need _ _ (need + 6) (body_out _ x 6 _ ltac:(lia) Hhead) Hbody ltac:(lia)
    ltac:(rewrite zlen_app; change (zlen (wire (be_bytes 1 0))) with 1; lia) c0 Hr0)
    as (c1 & E1 & [Hc1 Hw1] & Hr1 & Hl1); [unfold MAX_POSITION; simpl; lia|].
  destruct (finish_sends (wire (compact_int_bytes type) ++ bs) c1 Hr1) as (c' & E & Hr' & Hw').
  - exact Hw1.
  - simpl in Hl1. lia.
  - unfold MAX_POSITION. rewrite zlen_app. lia.
  - exists c'. unfold compose_message. rewrite malloc_works. unfold checked_call at 1.
    change (on_out (dx_set_out_buffer (Some (replicate (Z.to_nat size) 0)) size) (c, x)) with (@Ok _ unit tt (c0, x)).
    cbv iota beta. unfold dx_compose_message_header in *. unfold checked_call at 1. unfold checked_call at 1 in E1.
    destruct (on_out _ (c0, x)) as [[] y|? ?|]; [|done|done]. unfold checked_call in *. rewrite E1.
    unfold on_out. rewrite E. unfold get, ret. cbn [fst]. by rewrite Hw'.
Qed.
End finish.
