(* ===== verification/EventData.v ===== *)
(** * EventData: [include/EventData.h] and [src/EventManager.c]

    The events the library delivers: enumerations and structures field by
    field, a double being a [spec_float] of precision 53.  The fields of a
    structure carry its name, since Rocq's are global.  [dx_event_copy] is the
    family of deep copies of [EventManager.c]. *)

From Stdlib Require Import SpecFloat.
From S2P Require Import Prelude Arrays.
Local Open Scope Z_scope.
Local Open Scope c_scope.

(** ** Doubles *)

Definition dxf_double_t : Set := spec_float.
Definition double_zero : dxf_double_t := S754_zero false.
Definition double_eqb (x y : dxf_double_t) : bool := SFeqb x y.
Definition double_ltb (x y : dxf_double_t) : bool := SFltb x y.

(** ** Event flags *)

Definition dxf_ef_tx_pending : Z := 0x01.
Definition dxf_ef_remove_event : Z := 0x02.
Definition dxf_ef_snapshot_begin : Z := 0x04.
Definition dxf_ef_snapshot_end : Z := 0x08.
Definition dxf_ef_snapshot_snip : Z := 0x10.
Definition dxf_ef_remove_symbol : Z := 0x20.
Definition IS_FLAG_SET (flags flag : Z) : bool := negb (Z.land flags flag =? 0).

(** ** Structures

    An enumeration is an [int]: the fields that are decoded from the bits of
    flags can hold values that it does not name, which are its last constructor. *)

(** The size of the suffix of a record, such as the source of an order. *)
Definition DXF_RECORD_SUFFIX_SIZE : nat := 5.

(** Actions of full order book orders *)
Inductive dxf_order_action_t : Set :=
  | dxf_oa_undefined
  | dxf_oa_new
  | dxf_oa_replace
  | dxf_oa_modify
  | dxf_oa_delete
  | dxf_oa_partial
  | dxf_oa_execute
  | dxf_oa_trade
  | dxf_oa_bust
  | dxf_oa_other (value : Z).

#[export] Instance dxf_order_action_t_eq_dec : EqDecision dxf_order_action_t.
Proof. solve_decision. Defined.

(** Scope of an order *)
Inductive dxf_order_scope_t : Set :=
  | dxf_osc_composite
  | dxf_osc_regional
  | dxf_osc_aggregate
  | dxf_osc_order.

#[export] Instance dxf_order_scope_t_eq_dec : EqDecision dxf_order_scope_t.
Proof. solve_decision. Defined.

(** Side of an order or a trade *)
Inductive dxf_order_side_t : Set :=
  | dxf_osd_undefined
  | dxf_osd_buy
  | dxf_osd_sell
  | dxf_osd_other (value : Z).

#[export] Instance dxf_order_side_t_eq_dec : EqDecision dxf_order_side_t.
Proof. solve_decision. Defined.

(** Direction of a trade *)
Inductive dxf_direction_t : Set :=
  | dxf_dir_undefined
  | dxf_dir_down
  | dxf_dir_zero_down
  | dxf_dir_zero
  | dxf_dir_zero_up
  | dxf_dir_up
  | dxf_dir_other (value : Z).

#[export] Instance dxf_direction_t_eq_dec : EqDecision dxf_direction_t.
Proof. solve_decision. Defined.

(** Price types *)
Inductive dxf_price_type_t : Set :=
  | dxf_pt_regular
  | dxf_pt_indicative
  | dxf_pt_preliminary
  | dxf_pt_final.

#[export] Instance dxf_price_type_t_eq_dec : EqDecision dxf_price_type_t.
Proof. solve_decision. Defined.

(** Trading statuses *)
Inductive dxf_trading_status_t : Set :=
  | dxf_ts_undefined
  | dxf_ts_halted
  | dxf_ts_active
  | dxf_ts_other (value : Z).

#[export] Instance dxf_trading_status_t_eq_dec : EqDecision dxf_trading_status_t.
Proof. solve_decision. Defined.

(** Short sale restriction *)
Inductive dxf_short_sale_restriction_t : Set :=
  | dxf_ssr_undefined
  | dxf_ssr_active
  | dxf_ssr_inactive
  | dxf_ssr_other (value : Z).

#[export] Instance dxf_short_sale_restriction_t_eq_dec : EqDecision dxf_short_sale_restriction_t.
Proof. solve_decision. Defined.

(** Kinds of time and sale events *)
Inductive dxf_tns_type_t : Set :=
  | dxf_tnst_new
  | dxf_tnst_correction
  | dxf_tnst_cancel
  | dxf_tnst_other (value : Z).

#[export] Instance dxf_tns_type_t_eq_dec : EqDecision dxf_tns_type_t.
Proof. solve_decision. Defined.

(** Order; [order_market_maker] stands for both members of the union *)
Record dxf_order_t : Type := {
  order_source : list Z;
  order_event_flags : Z;
  order_index : Z;
  order_time : Z;
  order_sequence : Z;
  order_time_nanos : Z;
  order_action : dxf_order_action_t;
  order_action_time : Z;
  order_order_id : Z;
  order_aux_order_id : Z;
  order_price : dxf_double_t;
  order_size : dxf_double_t;
  order_executed_size : dxf_double_t;
  order_count : dxf_double_t;
  order_trade_id : Z;
  order_trade_price : dxf_double_t;
  order_trade_size : dxf_double_t;
  order_exchange_code : Z;
  order_side : dxf_order_side_t;
  order_scope : dxf_order_scope_t;
  order_market_maker : option (list Z);
}.

(** Trade, also trade ETH *)
Record dxf_trade_t : Type := {
  trade_time : Z;
  trade_sequence : Z;
  trade_time_nanos : Z;
  trade_exchange_code : Z;
  trade_price : dxf_double_t;
  trade_size : dxf_double_t;
  trade_tick : Z;
  trade_change : dxf_double_t;
  trade_day_id : Z;
  trade_day_volume : dxf_double_t;
  trade_day_turnover : dxf_double_t;
  trade_raw_flags : Z;
  trade_direction : dxf_direction_t;
  trade_is_eth : Z;
  trade_scope : dxf_order_scope_t;
}.

(** Quote *)
Record dxf_quote_t : Type := {
  quote_time : Z;
  quote_sequence : Z;
  quote_time_nanos : Z;
  quote_bid_time : Z;
  quote_bid_exchange_code : Z;
  quote_bid_price : dxf_double_t;
  quote_bid_size : dxf_double_t;
  quote_ask_time : Z;
  quote_ask_exchange_code : Z;
  quote_ask_price : dxf_double_t;
  quote_ask_size : dxf_double_t;
  quote_scope : dxf_order_scope_t;
}.

(** Summary *)
Record dxf_summary_t : Type := {
  summary_day_id : Z;
  summary_day_open_price : dxf_double_t;
  summary_day_high_price : dxf_double_t;
  summary_day_low_price : dxf_double_t;
  summary_day_close_price : dxf_double_t;
  summary_prev_day_id : Z;
  summary_prev_day_close_price : dxf_double_t;
  summary_prev_day_volume : dxf_double_t;
  summary_open_interest : dxf_double_t;
  summary_raw_flags : Z;
  summary_exchange_code : Z;
  summary_day_close_price_type : dxf_price_type_t;
  summary_prev_day_close_price_type : dxf_price_type_t;
  summary_scope : dxf_order_scope_t;
}.

(** Profile *)
Record dxf_profile_t : Type := {
  profile_beta : dxf_double_t;
  profile_eps : dxf_double_t;
  profile_div_freq : dxf_double_t;
  profile_exd_div_amount : dxf_double_t;
  profile_exd_div_date : Z;
  profile_high_52_week_price : dxf_double_t;
  profile_low_52_week_price : dxf_double_t;
  profile_shares : dxf_double_t;
  profile_free_float : dxf_double_t;
  profile_high_limit_price : dxf_double_t;
  profile_low_limit_price : dxf_double_t;
  profile_halt_start_time : Z;
  profile_halt_end_time : Z;
  profile_raw_flags : Z;
  profile_description : option (list Z);
  profile_status_reason : option (list Z);
  profile_trading_status : dxf_trading_status_t;
  profile_ssr : dxf_short_sale_restriction_t;
}.

(** Time and sale *)
Record dxf_time_and_sale_t : Type := {
  tns_event_flags : Z;
  tns_index : Z;
  tns_time : Z;
  tns_exchange_code : Z;
  tns_price : dxf_double_t;
  tns_size : dxf_double_t;
  tns_bid_price : dxf_double_t;
  tns_ask_price : dxf_double_t;
  tns_exchange_sale_conditions : option (list Z);
  tns_raw_flags : Z;
  tns_buyer : option (list Z);
  tns_seller : option (list Z);
  tns_side : dxf_order_side_t;
  tns_type : dxf_tns_type_t;
  tns_is_valid_tick : Z;
  tns_is_eth_trade : Z;
  tns_trade_through_exempt : Z;
  tns_is_spread_leg : Z;
  tns_scope : dxf_order_scope_t;
}.

(** Candle *)
Record dxf_candle_t : Type := {
  candle_event_flags : Z;
  candle_index : Z;
  candle_time : Z;
  candle_sequence : Z;
  candle_count : dxf_double_t;
  candle_open : dxf_double_t;
  candle_high : dxf_double_t;
  candle_low : dxf_double_t;
  candle_close : dxf_double_t;
  candle_volume : dxf_double_t;
  candle_vwap : dxf_double_t;
  candle_bid_volume : dxf_double_t;
  candle_ask_volume : dxf_double_t;
  candle_open_interest : dxf_double_t;
  candle_imp_volatility : dxf_double_t;
}.

(** Greeks *)
Record dxf_greeks_t : Type := {
  greeks_event_flags : Z;
  greeks_index : Z;
  greeks_time : Z;
  greeks_price : dxf_double_t;
  greeks_volatility : dxf_double_t;
  greeks_delta : dxf_double_t;
  greeks_gamma : dxf_double_t;
  greeks_theta : dxf_double_t;
  greeks_rho : dxf_double_t;
  greeks_vega : dxf_double_t;
}.

(** Underlying *)
Record dxf_underlying_t : Type := {
  underlying_volatility : dxf_double_t;
  underlying_front_volatility : dxf_double_t;
  underlying_back_volatility : dxf_double_t;
  underlying_call_volume : dxf_double_t;
  underlying_put_volume : dxf_double_t;
  underlying_option_volume : dxf_double_t;
  underlying_put_call_ratio : dxf_double_t;
}.

(** Series *)
Record dxf_series_t : Type := {
  series_event_flags : Z;
  series_index : Z;
  series_time : Z;
  series_sequence : Z;
  series_expiration : Z;
  series_volatility : dxf_double_t;
  series_call_volume : dxf_double_t;
  series_put_volume : dxf_double_t;
  series_option_volume : dxf_double_t;
  series_put_call_ratio : dxf_double_t;
  series_forward_price : dxf_double_t;
  series_dividend : dxf_double_t;
  series_interest : dxf_double_t;
}.

(** Configuration *)
Record dxf_configuration_t : Type := {
  configuration_version : Z;
  configuration_object : option (list Z);
}.


(** Theoretical price ([dx_theo_price_t] of [include/RecordData.h]) *)
Record dxf_theo_price_t : Type := {
  theo_price_time : Z;
  theo_price_price : dxf_double_t;
  theo_price_underlying_price : dxf_double_t;
  theo_price_delta : dxf_double_t;
  theo_price_gamma : dxf_double_t;
  theo_price_dividend : dxf_double_t;
  theo_price_interest : dxf_double_t;
}.

(** ** Events *)

(** One level of a book. *)
Record dxf_price_level_element_t : Type := PriceLevel {
  level_price : dxf_double_t;
  level_size : dxf_double_t;
  level_time : Z;
}.

Inductive dx_event_id_t : Set :=
  | dx_eid_trade | dx_eid_quote | dx_eid_summary | dx_eid_profile | dx_eid_order
  | dx_eid_time_and_sale | dx_eid_candle | dx_eid_trade_eth | dx_eid_spread_order
  | dx_eid_greeks | dx_eid_theo_price | dx_eid_underlying | dx_eid_series
  | dx_eid_configuration.

#[export] Instance dx_event_id_t_eq_dec : EqDecision dx_event_id_t.
Proof. solve_decision. Defined.

Inductive dx_record_info_id_t : Set :=
  | dx_rid_trade | dx_rid_quote | dx_rid_summary | dx_rid_profile | dx_rid_market_maker
  | dx_rid_order | dx_rid_time_and_sale | dx_rid_candle | dx_rid_trade_eth
  | dx_rid_spread_order | dx_rid_greeks | dx_rid_theo_price | dx_rid_underlying
  | dx_rid_series | dx_rid_configuration.

#[export] Instance dx_record_info_id_t_eq_dec : EqDecision dx_record_info_id_t.
Proof. solve_decision. Defined.

(** The number of a record, as the C enumeration has it. *)
Definition record_info_number (r : dx_record_info_id_t) : Z :=
  match r with
  | dx_rid_trade => 0 | dx_rid_quote => 1 | dx_rid_summary => 2 | dx_rid_profile => 3
  | dx_rid_market_maker => 4 | dx_rid_order => 5 | dx_rid_time_and_sale => 6
  | dx_rid_candle => 7 | dx_rid_trade_eth => 8 | dx_rid_spread_order => 9
  | dx_rid_greeks => 10 | dx_rid_theo_price => 11 | dx_rid_underlying => 12
  | dx_rid_series => 13 | dx_rid_configuration => 14
  end.

(** What a [dxf_event_data_t] points to. *)
Inductive dxf_event_data_t : Type :=
  | ev_trade (x : dxf_trade_t) | ev_quote (x : dxf_quote_t) | ev_summary (x : dxf_summary_t)
  | ev_profile (x : dxf_profile_t) | ev_order (x : dxf_order_t)
  | ev_time_and_sale (x : dxf_time_and_sale_t) | ev_candle (x : dxf_candle_t)
  | ev_greeks (x : dxf_greeks_t) | ev_theo_price (x : dxf_theo_price_t)
  | ev_underlying (x : dxf_underlying_t) | ev_series (x : dxf_series_t)
  | ev_configuration (x : dxf_configuration_t).

Record dxf_event_params_t : Type := EventParams {
  params_flags : Z;
  params_time_int_field : Z;
  params_snapshot_key : Z;
}.

(** ** Copies of events ([EventManager.c])

    The state of a copy is the caller's [*string_buffer], which owns the copied
    strings; a string that cannot be allocated is stored as NULL, like the C
    code does. *)

Definition set_order_market_maker (s : option (list Z)) (o : dxf_order_t) : dxf_order_t :=
  Build_dxf_order_t (order_source o) (order_event_flags o) (order_index o) (order_time o)
    (order_sequence o) (order_time_nanos o) (order_action o) (order_action_time o)
    (order_order_id o) (order_aux_order_id o) (order_price o) (order_size o)
    (order_executed_size o) (order_count o) (order_trade_id o) (order_trade_price o)
    (order_trade_size o) (order_exchange_code o) (order_side o) (order_scope o) s.
Definition set_profile_description (s : option (list Z)) (p : dxf_profile_t) : dxf_profile_t :=
  Build_dxf_profile_t (profile_beta p) (profile_eps p) (profile_div_freq p)
    (profile_exd_div_amount p) (profile_exd_div_date p) (profile_high_52_week_price p)
    (profile_low_52_week_price p) (profile_shares p) (profile_free_float p)
    (profile_high_limit_price p) (profile_low_limit_price p) (profile_halt_start_time p)
    (profile_halt_end_time p) (profile_raw_flags p) s (profile_status_reason p)
    (profile_trading_status p) (profile_ssr p).
Definition set_profile_status_reason (s : option (list Z)) (p : dxf_profile_t) : dxf_profile_t :=
  Build_dxf_profile_t (profile_beta p) (profile_eps p) (profile_div_freq p)
    (profile_exd_div_amount p) (profile_exd_div_date p) (profile_high_52_week_price p)
    (profile_low_52_week_price p) (profile_shares p) (profile_free_float p)
    (profile_high_limit_price p) (profile_low_limit_price p) (profile_halt_start_time p)
    (profile_halt_end_time p) (profile_raw_flags p) (profile_description p) s
    (profile_trading_status p) (profile_ssr p).
Definition set_tns_exchange_sale_conditions (s : option (list Z)) (t : dxf_time_and_sale_t) : dxf_time_and_sale_t :=
  Build_dxf_time_and_sale_t (tns_event_flags t) (tns_index t) (tns_time t)
    (tns_exchange_code t) (tns_price t) (tns_size t) (tns_bid_price t) (tns_ask_price t) s
    (tns_raw_flags t) (tns_buyer t) (tns_seller t) (tns_side t) (tns_type t)
    (tns_is_valid_tick t) (tns_is_eth_trade t) (tns_trade_through_exempt t)
    (tns_is_spread_leg t) (tns_scope t).
Definition set_tns_buyer (s : option (list Z)) (t : dxf_time_and_sale_t) : dxf_time_and_sale_t :=
  Build_dxf_time_and_sale_t (tns_event_flags t) (tns_index t) (tns_time t)
    (tns_exchange_code t) (tns_price t) (tns_size t) (tns_bid_price t) (tns_ask_price t)
    (tns_exchange_sale_conditions t) (tns_raw_flags t) s (tns_seller t) (tns_side t)
    (tns_type t) (tns_is_valid_tick t) (tns_is_eth_trade t) (tns_trade_through_exempt t)
    (tns_is_spread_leg t) (tns_scope t).
Definition set_tns_seller (s : option (list Z)) (t : dxf_time_and_sale_t) : dxf_time_and_sale_t :=
  Build_dxf_time_and_sale_t (tns_event_flags t) (tns_index t) (tns_time t)
    (tns_exchange_code t) (tns_price t) (tns_size t) (tns_bid_price t) (tns_ask_price t)
    (tns_exchange_sale_conditions t) (tns_raw_flags t) (tns_buyer t) s (tns_side t)
    (tns_type t) (tns_is_valid_tick t) (tns_is_eth_trade t) (tns_trade_through_exempt t)
    (tns_is_spread_leg t) (tns_scope t).
Definition set_configuration_object (s : option (list Z)) (c : dxf_configuration_t) : dxf_configuration_t :=
  Build_dxf_configuration_t (configuration_version c) s.

Definition dx_string_array : Type := dx_array (option (list Z)).

Section copies.
(** Whether [dx_calloc] of so many elements succeeds. *)
Context (alloc : nat -> bool).

(** One string field: the copy that the new object gets.  When the second or
    the third field of an event ([first] is false) cannot be stored the strings
    in the buffer are freed. *)
Definition copy_string (first : bool) (src : option (list Z))
  : M (option dx_string_array) (option (list Z)) :=
  match src with
  | None => ret None
  | Some s =>
      string_buffer <-- get;;
      let temp_buf :=
        match string_buffer with
        | None => if alloc 1 then Some DX_EMPTY_ARRAY else None
        | Some b => Some b
        end in
      let temp_str := if alloc (length s + 1)%nat then Some s else None in
      match temp_buf with
      | None => dx_set_error_code dx_ec_invalid_func_param_internal
      | Some b =>
          r <-- of_option (DX_ARRAY_INSERT None alloc b temp_str (arr_size b));;
          let '(b, failed) := r in
          if (failed : bool) then
            (match string_buffer with
             | Some _ => put (Some (if first then b else DX_EMPTY_ARRAY))
             | None => ret tt
             end);;;
            dx_set_error_code dx_mec_insufficient_memory
          else put (Some b);;; ret temp_str
      end
  end.

(** The copy function of an event: [EVENT_COPY_FUNCTION_BODY] and its variants
    with one, two and three strings.  A function of another event than the
    object's would read it as the wrong structure. *)
Definition dx_event_copy (event_id : dx_event_id_t) (source : dxf_event_data_t)
  : M (option dx_string_array) dxf_event_data_t :=
  if negb (alloc 1) then dx_set_error_code dx_mec_insufficient_memory
  else
    match event_id, source with
    | dx_eid_trade, ev_trade _ | dx_eid_trade_eth, ev_trade _ | dx_eid_quote, ev_quote _
    | dx_eid_summary, ev_summary _ | dx_eid_candle, ev_candle _ | dx_eid_greeks, ev_greeks _
    | dx_eid_theo_price, ev_theo_price _ | dx_eid_underlying, ev_underlying _
    | dx_eid_series, ev_series _ => put None;;; ret source
    | dx_eid_order, ev_order o | dx_eid_spread_order, ev_order o =>
        s <-- copy_string true (order_market_maker o);; ret (ev_order (set_order_market_maker s o))
    | dx_eid_profile, ev_profile p =>
        s1 <-- copy_string true (profile_description p);;
        s2 <-- copy_string false (profile_status_reason p);;
        ret (ev_profile (set_profile_status_reason s2 (set_profile_description s1 p)))
    | dx_eid_time_and_sale, ev_time_and_sale t =>
        s1 <-- copy_string true (tns_exchange_sale_conditions t);;
        s2 <-- copy_string false (tns_buyer t);;
        s3 <-- copy_string false (tns_seller t);;
        ret (ev_time_and_sale (set_tns_seller s3 (set_tns_buyer s2
               (set_tns_exchange_sale_conditions s1 t))))
    | dx_eid_configuration, ev_configuration c =>
        s <-- copy_string true (configuration_object c);;
        ret (ev_configuration (set_configuration_object s c))
    | _, _ => undefined
    end.
End copies.

(** [dx_string_array_free]: the strings are freed, the descriptor emptied. *)
Definition dx_string_array_free (b : option dx_string_array) : option dx_string_array :=
  match b with Some _ => Some DX_EMPTY_ARRAY | None => None end.

Definition dx_string_array_add (alloc : nat -> bool) (b : dx_string_array)
  (obj : option (list Z)) : option (dx_string_array * bool) :=
  DX_ARRAY_INSERT None alloc b obj (arr_size b).

(** ** Copies are faithful when memory is available *)

(** An object of the structure the event's copy function expects. *)
Definition event_of (event_id : dx_event_id_t) (e : dxf_event_data_t) : bool :=
  match event_id, e with
  | dx_eid_trade, ev_trade _ | dx_eid_trade_eth, ev_trade _ | dx_eid_quote, ev_quote _
  | dx_eid_summary, ev_summary _ | dx_eid_candle, ev_candle _ | dx_eid_greeks, ev_greeks _
  | dx_eid_theo_price, ev_theo_price _ | dx_eid_underlying, ev_underlying _
  | dx_eid_series, ev_series _ | dx_eid_order, ev_order _ | dx_eid_spread_order, ev_order _
  | dx_eid_profile, ev_profile _ | dx_eid_time_and_sale, ev_time_and_sale _
  | dx_eid_configuration, ev_configuration _ => true
  | _, _ => false
  end.

Definition buffer_wf (b : option dx_string_array) : Prop :=
  match b with Some b => array_wf b | None => True end.

Lemma copy_string_spec alloc first src b :
  (forall n, alloc n = true) -> buffer_wf b ->
  exists b', copy_string alloc first src b = Ok src b' /\ buffer_wf b'.
Proof.
  intros Halloc Hb. destruct src as [s|]; [|by exists b].
  assert (exists b0, array_wf b0 /\ b0 = match b with Some b => b | None => DX_EMPTY_ARRAY end)
    as (b0 & Hb0 & E) by (destruct b; eexists; split; [|done| |done]; auto with dx).
  unfold copy_string, checked_call at 1, get. rewrite !Halloc.
  destruct (array_insert_spec None alloc b0 (Some s) (arr_size b0)) as (b' & Hi & Hwf & _);
    [done|lia|done|].
  exists (Some b'). split; [|done]. destruct b; subst b0; unfold checked_call; rewrite Hi; done.
Qed.

Lemma dx_event_copy_spec alloc eid e b :
  (forall n, alloc n = true) -> buffer_wf b -> event_of eid e = true ->
  exists b', dx_event_copy alloc eid e b = Ok e b' /\ buffer_wf b'.
Proof.
  intros Halloc Hb He. unfold dx_event_copy. rewrite Halloc. cbn [negb].
  destruct eid, e; try discriminate He; try (by eexists; split; [reflexivity|done]);
    unfold checked_call.
  - destruct (copy_string_spec alloc true (profile_description x) b Halloc Hb) as (b1 & -> & H1).
    destruct (copy_string_spec alloc false (profile_status_reason x) b1 Halloc H1) as (b2 & -> & H2).
    exists b2. split; [by destruct x|done].
  - destruct (copy_string_spec alloc true (order_market_maker x) b Halloc Hb) as (b1 & -> & H1).
    exists b1. split; [by destruct x|done].
  - destruct (copy_string_spec alloc true (tns_exchange_sale_conditions x) b Halloc Hb) as (b1 & -> & H1).
    destruct (copy_string_spec alloc false (tns_buyer x) b1 Halloc H1) as (b2 & -> & H2).
    destruct (copy_string_spec alloc false (tns_seller x) b2 Halloc H2) as (b3 & -> & H3).
    exists b3. split; [by destruct x|done].
  - destruct (copy_string_spec alloc true (order_market_maker x) b Halloc Hb) as (b1 & -> & H1).
    exists b1. split; [by destruct x|done].
  - destruct (copy_string_spec alloc true (configuration_object x) b Halloc Hb) as (b1 & -> & H1).
    exists b1. split; [by destruct x|done].
Qed.
