(* ===== verification/Snapshot.v ===== *)
(** * Snapshot: [src/Snapshot.c]

    The snapshot service: the records of one snapshot in three parallel arrays
    sorted by key, the state machine that follows the event flags, and the full
    and incremental listeners.  A call of a listener is a value of type
    [callback]; the event handler returns the calls it makes, in order.  The
    mutexes are not modelled: every operation runs as a whole. *)

From Stdlib Require Import SpecFloat.
From S2P Require Import Prelude Arrays EventData.
Local Open Scope Z_scope.
Local Open Scope c_scope.

Inductive dx_snapshot_status_t : Set :=
  | dx_status_unknown | dx_status_begin | dx_status_full | dx_status_pending.

#[export] Instance dx_snapshot_status_t_eq_dec : EqDecision dx_snapshot_status_t.
Proof. solve_decision. Defined.

Record dx_snapshot_listener_context_t : Type := ListenerContext {
  incremental : bool;
  full_snapshot_seen : bool;
  listener_function : Z;   (** the function pointer, either member of the union *)
  listener_user_data : Z;
}.

Record dx_snapshot_record_key_t : Type := RecordKey {
  key_time_int_field : Z;
  key_index : Z;
}.

Record dx_snapshot_records_t : Type := SnapshotRecords {
  records : dx_array dxf_event_data_t;
  record_keys : dx_array dx_snapshot_record_key_t;
  record_buffers : dx_array (option dx_string_array);
}.

Record dx_snapshot_data_t : Type := SnapshotData {
  sd_key : Z;
  sd_subscription : Z;
  sd_record_info_id : dx_record_info_id_t;
  sd_event_id : dx_event_id_t;
  sd_event_type : Z;
  sd_order_source : option (list Z);
  sd_symbol : option (list Z);
  sd_time : Z;
  sd_status : dx_snapshot_status_t;
  full_snapshot_published : bool;
  snapshot_records : dx_snapshot_records_t;
  last_tx_records : dx_snapshot_records_t;
  sd_listeners : dx_array dx_snapshot_listener_context_t;
  has_inc_listeners : bool;
}.

Definition set_status (x : dx_snapshot_status_t) (s : dx_snapshot_data_t) : dx_snapshot_data_t :=
  SnapshotData (sd_key s) (sd_subscription s) (sd_record_info_id s) (sd_event_id s)
    (sd_event_type s) (sd_order_source s) (sd_symbol s) (sd_time s) x
    (full_snapshot_published s) (snapshot_records s) (last_tx_records s) (sd_listeners s)
    (has_inc_listeners s).
Definition set_published (x : bool) (s : dx_snapshot_data_t) : dx_snapshot_data_t :=
  SnapshotData (sd_key s) (sd_subscription s) (sd_record_info_id s) (sd_event_id s)
    (sd_event_type s) (sd_order_source s) (sd_symbol s) (sd_time s) (sd_status s)
    x (snapshot_records s) (last_tx_records s) (sd_listeners s) (has_inc_listeners s).
Definition set_snapshot_records (x : dx_snapshot_records_t) (s : dx_snapshot_data_t)
  : dx_snapshot_data_t :=
  SnapshotData (sd_key s) (sd_subscription s) (sd_record_info_id s) (sd_event_id s)
    (sd_event_type s) (sd_order_source s) (sd_symbol s) (sd_time s) (sd_status s)
    (full_snapshot_published s) x (last_tx_records s) (sd_listeners s) (has_inc_listeners s).
Definition set_last_tx_records (x : dx_snapshot_records_t) (s : dx_snapshot_data_t)
  : dx_snapshot_data_t :=
  SnapshotData (sd_key s) (sd_subscription s) (sd_record_info_id s) (sd_event_id s)
    (sd_event_type s) (sd_order_source s) (sd_symbol s) (sd_time s) (sd_status s)
    (full_snapshot_published s) (snapshot_records s) x (sd_listeners s) (has_inc_listeners s).
Definition set_listeners (x : dx_array dx_snapshot_listener_context_t) (s : dx_snapshot_data_t)
  : dx_snapshot_data_t :=
  SnapshotData (sd_key s) (sd_subscription s) (sd_record_info_id s) (sd_event_id s)
    (sd_event_type s) (sd_order_source s) (sd_symbol s) (sd_time s) (sd_status s)
    (full_snapshot_published s) (snapshot_records s) (last_tx_records s) x (has_inc_listeners s).
Definition set_has_inc (x : bool) (s : dx_snapshot_data_t) : dx_snapshot_data_t :=
  SnapshotData (sd_key s) (sd_subscription s) (sd_record_info_id s) (sd_event_id s)
    (sd_event_type s) (sd_order_source s) (sd_symbol s) (sd_time s) (sd_status s)
    (full_snapshot_published s) (snapshot_records s) (last_tx_records s) (sd_listeners s) x.

(** A call of a listener: the data it is given, and for an incremental one
    the [new_snapshot] argument. *)
Record callback : Type := Callback {
  cb_listener : Z;
  cb_user_data : Z;
  cb_event_type : Z;
  cb_symbol : option (list Z);
  cb_records : list dxf_event_data_t;
  cb_new_snapshot : option bool;
}.

(** ** Comparators *)

Definition dx_snapshot_records_comparator (t1 t2 : Z) : Z :=
  if t2 <? t1 then -1 else if t1 <? t2 then 1 else 0.

Definition dx_snapshot_records_comparator2 (key1 key2 : dx_snapshot_record_key_t) : Z :=
  if key_time_int_field key2 <? key_time_int_field key1 then -1
  else if key_time_int_field key1 <? key_time_int_field key2 then 1
  else if key_index key1 <? key_index key2 then -1
  else if key_index key2 <? key_index key1 then 1 else 0.

Definition DX_FORCED_NUMERIC_COMPARATOR (l r : Z) : Z :=
  if u64 r <? u64 l then 1 else if u64 l <? u64 r then -1 else 0.

Definition dx_snapshot_listener_comparator (e1 e2 : dx_snapshot_listener_context_t) : Z :=
  if Bool.eqb (incremental e1) (incremental e2)
  then DX_FORCED_NUMERIC_COMPARATOR (listener_function e1) (listener_function e2) else -1.

(** ** Records *)

(** The event kinds the snapshot service stores. *)
Definition storable (event_id : dx_event_id_t) : bool :=
  match event_id with
  | dx_eid_order | dx_eid_candle | dx_eid_spread_order | dx_eid_time_and_sale | dx_eid_greeks
  | dx_eid_series => true
  | _ => false
  end.

Definition with_records (r : dx_snapshot_records_t) (x : dx_array dxf_event_data_t) :=
  SnapshotRecords x (record_keys r) (record_buffers r).
Definition with_keys (r : dx_snapshot_records_t) (x : dx_array dx_snapshot_record_key_t) :=
  SnapshotRecords (records r) x (record_buffers r).
Definition with_buffers (r : dx_snapshot_records_t) (x : dx_array (option dx_string_array)) :=
  SnapshotRecords (records r) (record_keys r) x.

Definition no_records : dx_snapshot_records_t :=
  SnapshotRecords DX_EMPTY_ARRAY DX_EMPTY_ARRAY DX_EMPTY_ARRAY.

Section snapshot.
(** Whether [dx_calloc] of so many elements succeeds, and a zeroed event. *)
Context (alloc : nat -> bool) (zero_event : dxf_event_data_t).

Definition zero_key : dx_snapshot_record_key_t := RecordKey 0 0.

Section one_snapshot.
(** The fields of the snapshot the record operations read. *)
Context (event_id : dx_event_id_t) (record_info_id : dx_record_info_id_t).

Definition dx_snapshot_insert_record (obj : dxf_event_data_t) (position : nat)
  : M dx_snapshot_records_t unit :=
  if storable event_id then
    recs <-- get;;
    r <-- of_option (DX_ARRAY_INSERT zero_event alloc (records recs) obj position);;
    let '(a, failed) := r in
    put (with_records recs a);;;
    if (failed : bool) then dx_set_error_code dx_mec_insufficient_memory else ret tt
  else dx_set_error_code dx_ssec_invalid_event_id.

Definition dx_snapshot_delete_record (position : nat) : M dx_snapshot_records_t unit :=
  if storable event_id then
    recs <-- get;;
    r <-- of_option (DX_ARRAY_DELETE zero_event alloc (records recs) position);;
    let '(a, failed) := r in
    put (with_records recs a);;;
    if (failed : bool) then dx_set_error_code dx_mec_insufficient_memory else ret tt
  else dx_set_error_code dx_ssec_invalid_event_id.

Definition dx_snapshot_set_record (obj : dxf_event_data_t) (position : nat)
  : M dx_snapshot_records_t unit :=
  if storable event_id then
    recs <-- get;;
    l <-- of_option (write_at (arr_elements (records recs)) position obj);;
    put (with_records recs (DxArray l (arr_size (records recs)) (arr_capacity (records recs))))
  else dx_set_error_code dx_ssec_invalid_event_id.

Definition dx_get_order_index (event_data : dxf_event_data_t) : M dx_snapshot_records_t Z :=
  if bool_decide (event_id = dx_eid_order) &&
     (bool_decide (record_info_id = dx_rid_market_maker) ||
      bool_decide (record_info_id = dx_rid_quote))
  then match event_data with ev_order o => ret (order_index o) | _ => undefined end
  else ret 0.

(** Run a call for its effect, whatever it returns. *)
Definition ignore_result {S A} (m : M S A) : M S unit := fun s =>
  match m s with Ok _ s' | Err _ s' => Ok tt s' | UB => UB end.

Definition insert_key (key : dx_snapshot_record_key_t) (position : nat)
  : M dx_snapshot_records_t bool :=
  recs <-- get;;
  r <-- of_option (DX_ARRAY_INSERT zero_key alloc (record_keys recs) key position);;
  let '(a, failed) := r in put (with_keys recs a);;; ret failed.

Definition delete_key (position : nat) : M dx_snapshot_records_t bool :=
  recs <-- get;;
  r <-- of_option (DX_ARRAY_DELETE zero_key alloc (record_keys recs) position);;
  let '(a, failed) := r in put (with_keys recs a);;; ret failed.

Definition insert_buffer (b : option dx_string_array) (position : nat)
  : M dx_snapshot_records_t bool :=
  recs <-- get;;
  r <-- of_option (DX_ARRAY_INSERT None alloc (record_buffers recs) b position);;
  let '(a, failed) := r in put (with_buffers recs a);;; ret failed.

Definition delete_buffer (position : nat) : M dx_snapshot_records_t bool :=
  recs <-- get;;
  r <-- of_option (DX_ARRAY_DELETE None alloc (record_buffers recs) position);;
  let '(a, failed) := r in put (with_buffers recs a);;; ret failed.

(** A clone of an event: the object and its string buffer. *)
Definition clone_event (source : dxf_event_data_t) (string_buffer : option dx_string_array)
  : M dx_snapshot_records_t (dxf_event_data_t * option dx_string_array) := fun recs =>
  match dx_event_copy alloc event_id source string_buffer with
  | Ok obj b => Ok (obj, b) recs
  | Err e _ => Err e recs
  | UB => UB
  end.

Definition dx_snapshot_add_event_record (time_int_field : Z) (event_data : dxf_event_data_t)
  (position : nat) : M dx_snapshot_records_t unit :=
  c <-- clone_event event_data None;;
  let '(obj, string_buffer) := c in
  dx_snapshot_insert_record obj position;;;
  index <-- dx_get_order_index event_data;;
  failed <-- insert_key (RecordKey time_int_field index) position;;
  if (failed : bool) then
    ignore_result (dx_snapshot_delete_record position);;;
    dx_set_error_code dx_mec_insufficient_memory
  else
    failed <-- insert_buffer string_buffer position;;
    if (failed : bool) then
      ignore_result (dx_snapshot_delete_record position);;;
      ignore_result (delete_key position);;;
      dx_set_error_code dx_mec_insufficient_memory
    else ret tt.

Definition dx_snapshot_remove_event_record (position : nat) : M dx_snapshot_records_t unit :=
  recs <-- get;;
  if (arr_size (records recs) <=? position)%nat
  then dx_set_error_code dx_ec_invalid_func_param_internal
  else
    b <-- of_option (arr_elements (record_buffers recs) !! position);;
    dx_snapshot_delete_record position;;;
    failed <-- delete_key position;;
    if (failed : bool) then dx_set_error_code dx_mec_insufficient_memory
    else
      failed <-- delete_buffer position;;
      if (failed : bool) then dx_set_error_code dx_mec_insufficient_memory else ret tt.

(** The search both kinds of updates start with. *)
Definition search_key (time_int_field : Z) (data : dxf_event_data_t)
  : M dx_snapshot_records_t (bool * nat) :=
  index <-- dx_get_order_index data;;
  recs <-- get;;
  of_option (DX_ARRAY_BINARY_SEARCH dx_snapshot_records_comparator2
    (arr_elements (record_keys recs)) 0 (arr_size (record_keys recs))
    (RecordKey time_int_field index)).

Definition dx_snapshot_remove_event_records (time_int_field : Z) (data : dxf_event_data_t)
  : M dx_snapshot_records_t unit :=
  r <-- search_key time_int_field data;;
  let '(found, index) := r in
  if (found : bool) then dx_snapshot_remove_event_record index else ret tt.

(** The clone goes to the string buffer the old record had. *)
Definition dx_snapshot_replace_record (position : nat) (new_record : dxf_event_data_t)
  : M dx_snapshot_records_t unit :=
  recs <-- get;;
  if (arr_size (records recs) <=? position)%nat
  then dx_set_error_code dx_ec_invalid_func_param_internal
  else
    b <-- of_option (arr_elements (record_buffers recs) !! position);;
    let set_buffer b' :=
      l <-- of_option (write_at (arr_elements (record_buffers recs)) position b');;
      put (with_buffers recs (DxArray l (arr_size (record_buffers recs))
                                (arr_capacity (record_buffers recs)))) in
    match dx_event_copy alloc event_id new_record (dx_string_array_free b) with
    | UB => undefined
    | Err e b' => set_buffer b';;; dx_set_error_code e
    | Ok new_obj b' => set_buffer b';;; dx_snapshot_set_record new_obj position
    end.

Definition dx_snapshot_update_event_records (time_int_field : Z) (data : dxf_event_data_t)
  : M dx_snapshot_records_t unit :=
  r <-- search_key time_int_field data;;
  let '(found, index) := r in
  if (found : bool) then dx_snapshot_replace_record index data
  else dx_snapshot_add_event_record time_int_field data index.

(** Every array is freed and its descriptor emptied. *)
Definition dx_snapshot_clear_records_array : M dx_snapshot_records_t unit := put no_records.
End one_snapshot.

(** ** Listeners *)

Definition full_data (s : dx_snapshot_data_t) : list dxf_event_data_t :=
  contents (records (snapshot_records s)).
Definition tx_data (s : dx_snapshot_data_t) : list dxf_event_data_t :=
  contents (records (last_tx_records s)).

(** One listener of [dx_snapshot_call_listeners]: its context afterwards and
    the call. *)
Definition call_listener (s : dx_snapshot_data_t) (new_snapshot : bool)
  (l : dx_snapshot_listener_context_t) : dx_snapshot_listener_context_t * callback :=
  let data := Callback (listener_function l) (listener_user_data l) (sd_event_type s) (sd_symbol s) in
  if incremental l then
    if new_snapshot || negb (full_snapshot_seen l) then
      (ListenerContext (incremental l) true (listener_function l) (listener_user_data l),
       data (full_data s) (Some true))
    else (l, data (tx_data s) (Some false))
  else (l, data (full_data s) None).

(** The loop over the listeners from index [i] on. *)
Fixpoint call_loop (fuel i : nat) (new_snapshot : bool) (calls : list callback)
  : M dx_snapshot_data_t (list callback) :=
  match fuel with
  | O => ret calls
  | S fuel' =>
      s <-- get;;
      let a := sd_listeners s in
      if (i <? arr_size a)%nat then
        l <-- of_option (arr_elements a !! i);;
        let '(l', call) := call_listener s new_snapshot l in
        elements <-- of_option (write_at (arr_elements a) i l');;
        put (set_listeners (DxArray elements (arr_size a) (arr_capacity a)) s);;;
        call_loop fuel' (S i) new_snapshot (calls ++ [call])
      else ret calls
  end.

Definition dx_snapshot_call_listeners (new_snapshot : bool)
  : M dx_snapshot_data_t (list callback) :=
  s <-- get;; call_loop (arr_size (sd_listeners s)) 0 new_snapshot [].

Definition dx_is_snapshot_event (s : dx_snapshot_data_t) (p : dxf_event_params_t) : bool :=
  sd_key s =? params_snapshot_key p.

Definition dx_is_zero_event (event_id : dx_event_id_t) (data : dxf_event_data_t) : option bool :=
  if bool_decide (event_id = dx_eid_order) then
    match data with ev_order o => Some (double_eqb (order_size o) double_zero) | _ => None end
  else Some false.

(** A record operation on one of the two record sets of the snapshot, its
    result dropped. *)
Definition on_snapshot_records (f : dx_snapshot_data_t -> M dx_snapshot_records_t unit)
  : M dx_snapshot_data_t unit := fun s =>
  match f s (snapshot_records s) with
  | Ok _ r | Err _ r => Ok tt (set_snapshot_records r s)
  | UB => UB
  end.
Definition on_last_tx_records (f : dx_snapshot_data_t -> M dx_snapshot_records_t unit)
  : M dx_snapshot_data_t unit := fun s =>
  match f s (last_tx_records s) with
  | Ok _ r | Err _ r => Ok tt (set_last_tx_records r s)
  | UB => UB
  end.

Definition update_records (data : dxf_event_data_t) (p : dxf_event_params_t)
  (s : dx_snapshot_data_t) : M dx_snapshot_records_t unit :=
  dx_snapshot_update_event_records (sd_event_id s) (sd_record_info_id s)
    (params_time_int_field p) data.
Definition remove_records (data : dxf_event_data_t) (p : dxf_event_params_t)
  (s : dx_snapshot_data_t) : M dx_snapshot_records_t unit :=
  dx_snapshot_remove_event_records (sd_event_id s) (sd_record_info_id s)
    (params_time_int_field p) data.

(** The state change at the end of an event's flags. *)
Definition next_status (se tx : bool) (st : dx_snapshot_status_t) : dx_snapshot_status_t :=
  let st := if se then dx_status_full else st in
  if tx && bool_decide (st = dx_status_full) then dx_status_pending
  else if negb tx && bool_decide (st = dx_status_pending) then dx_status_full
  else st.

(** The event handler; the result is the calls of listeners it makes. *)
Definition event_listener (data : dxf_event_data_t) (p : dxf_event_params_t)
  : M dx_snapshot_data_t (list callback) :=
  let sb := IS_FLAG_SET (params_flags p) dxf_ef_snapshot_begin in
  let se := IS_FLAG_SET (params_flags p) dxf_ef_snapshot_end ||
            IS_FLAG_SET (params_flags p) dxf_ef_snapshot_snip in
  let tx := IS_FLAG_SET (params_flags p) dxf_ef_tx_pending in
  s <-- get;;
  if negb (dx_is_snapshot_event s p) then ret []
  else
    zero <-- (if IS_FLAG_SET (params_flags p) dxf_ef_remove_event then ret true
              else of_option (dx_is_zero_event (sd_event_id s) data));;
    let rm : bool := zero in
    (if sb then
       on_snapshot_records (fun _ => dx_snapshot_clear_records_array);;;
       on_last_tx_records (fun _ => dx_snapshot_clear_records_array);;;
       s <-- get;;
       put (set_published false (set_status dx_status_begin s))
     else ret tt);;;
    s <-- get;;
    if bool_decide (sd_status s = dx_status_unknown) then ret []
    else
      on_snapshot_records (if rm then remove_records data p else update_records data p);;;
      s <-- get;;
      (if has_inc_listeners s && full_snapshot_published s
       then on_last_tx_records (update_records data p) else ret tt);;;
      s <-- get;;
      put (set_status (next_status se tx (sd_status s)) s);;;
      s <-- get;;
      if bool_decide (sd_status s = dx_status_full) then
        calls <-- dx_snapshot_call_listeners (negb (full_snapshot_published s));;
        s <-- get;;
        put (set_published true s);;;
        on_last_tx_records (fun _ => dx_snapshot_clear_records_array);;;
        ret calls
      else ret [].

Definition zero_listener : dx_snapshot_listener_context_t := ListenerContext false false 0 0.

Definition dx_find_snapshot_listener_in_array (a : dx_array dx_snapshot_listener_context_t)
  (inc : bool) (listener : Z) : option (bool * nat) :=
  DX_ARRAY_SEARCH dx_snapshot_listener_comparator (arr_elements a) 0 (arr_size a)
    (ListenerContext inc false listener 0) false.

(** The common part of the two functions that add a listener; a listener 0 is
    the NULL function. *)
Definition add_listener (inc : bool) (listener user_data : Z) : M dx_snapshot_data_t unit :=
  if listener =? 0 then dx_set_error_code dx_ssec_invalid_listener
  else
    s <-- get;;
    r <-- of_option (dx_find_snapshot_listener_in_array (sd_listeners s) inc listener);;
    let '(found, listener_index) := r in
    if (found : bool) then ret tt
    else
      r <-- of_option (DX_ARRAY_INSERT zero_listener alloc (sd_listeners s)
                         (ListenerContext inc false listener user_data) listener_index);;
      let '(a, failed) := r in
      put (set_listeners a s);;;
      (if inc then s <-- get;; put (set_has_inc true s) else ret tt);;;
      if (failed : bool) then dx_set_error_code dx_mec_insufficient_memory else ret tt.

Definition dx_add_snapshot_listener := add_listener false.
Definition dx_add_snapshot_inc_listener := add_listener true.

Definition dx_remove_snapshot_listener (listener : Z) : M dx_snapshot_data_t unit :=
  if listener =? 0 then dx_set_error_code dx_ssec_invalid_listener
  else
    s <-- get;;
    r <-- of_option (dx_find_snapshot_listener_in_array (sd_listeners s) false listener);;
    let '(found, listener_index) := r in
    if negb found then ret tt
    else
      r <-- of_option (DX_ARRAY_DELETE zero_listener alloc (sd_listeners s) listener_index);;
      let '(a, failed) := r in
      put (set_listeners a s);;;
      if (failed : bool) then dx_set_error_code dx_mec_insufficient_memory else ret tt.

(** The loop that looks for another incremental listener; it runs while
    [has_inc_listeners] is false. *)
Fixpoint inc_loop (l : list dx_snapshot_listener_context_t) (has_inc : bool) : bool :=
  if has_inc then has_inc
  else match l with
       | [] => has_inc
       | x :: l' => inc_loop l' (has_inc || incremental x)
       end.

Definition dx_remove_snapshot_inc_listener (listener : Z) : M dx_snapshot_data_t unit :=
  if listener =? 0 then dx_set_error_code dx_ssec_invalid_listener
  else
    s <-- get;;
    r <-- of_option (dx_find_snapshot_listener_in_array (sd_listeners s) true listener);;
    let '(found, listener_index) := r in
    if negb found then ret tt
    else
      r <-- of_option (DX_ARRAY_DELETE zero_listener alloc (sd_listeners s) listener_index);;
      let '(a, failed) := r in
      put (set_listeners a s);;;
      s <-- get;;
      put (set_has_inc (inc_loop (contents (sd_listeners s)) (has_inc_listeners s)) s);;;
      if (failed : bool) then dx_set_error_code dx_mec_insufficient_memory else ret tt.

(** A snapshot as [dx_create_snapshot] sets it up. *)
Definition SNAPSHOT_KEY_SOURCE_MASK : Z := 0xFFFFFF.

Section keys.
(** [dx_symbol_name_hasher]: the 64-bit hash of a wide string that the C++
    library computes. *)
Context (dx_symbol_name_hasher : list Z -> Z).

Definition dx_new_snapshot_key (rid : dx_record_info_id_t) (symbol : list Z)
  (order_source : option (list Z)) : Z :=
  let symbol_hash := u64 (dx_symbol_name_hasher symbol) in
  let order_source_hash :=
    match order_source with None => 0 | Some s => u64 (dx_symbol_name_hasher s) end in
  Z.lor (Z.lor (u64 (Z.shiftl (record_info_number rid) 56)) (u64 (Z.shiftl symbol_hash 24)))
    (Z.land order_source_hash SNAPSHOT_KEY_SOURCE_MASK).

Definition new_snapshot_data (subscription : Z) (event_id : dx_event_id_t)
  (rid : dx_record_info_id_t) (event_types : Z) (symbol : list Z)
  (order_source : option (list Z)) (time : Z) : dx_snapshot_data_t :=
  SnapshotData (dx_new_snapshot_key rid symbol order_source) subscription rid event_id
    event_types order_source (Some symbol) time dx_status_full true no_records no_records
    DX_EMPTY_ARRAY false.
End keys.
End snapshot.

(** ** The records as a map from keys to events *)

#[export] Instance record_key_eq_dec : EqDecision dx_snapshot_record_key_t.
Proof. solve_decision. Defined.

#[export] Instance record_key_countable : Countable dx_snapshot_record_key_t.
Proof.
  refine (inj_countable' (fun k => (key_time_int_field k, key_index k))
    (fun p => RecordKey p.1 p.2) _). by intros [].
Defined.

#[export] Instance records_comparator2 : Comparator dx_snapshot_records_comparator2.
Proof.
  split; unfold dx_snapshot_records_comparator2.
  - intros [t i]. simpl. decide_cmps. done.
  - intros [t1 i1] [t2 i2]. simpl. repeat destruct_match; bool_to_prop; simpl; lia.
  - intros [t1 i1] [t2 i2] [t3 i3]. simpl. repeat destruct_match; bool_to_prop; lia.
  - intros [t1 i1] [t2 i2] [t3 i3]. simpl. repeat destruct_match; bool_to_prop; simpl; lia.
Qed.

Lemma comparator2_eq k1 k2 : dx_snapshot_records_comparator2 k1 k2 = 0 -> k1 = k2.
Proof.
  destruct k1 as [t1 i1], k2 as [t2 i2]. unfold dx_snapshot_records_comparator2. simpl.
  intros H. repeat destruct_match; bool_to_prop; try lia. f_equal; lia.
Qed.

(** The entries in the order of the arrays, and as a map. *)
Definition entries (r : dx_snapshot_records_t) : list (dx_snapshot_record_key_t * dxf_event_data_t) :=
  zip (contents (record_keys r)) (contents (records r)).
Definition records_map (r : dx_snapshot_records_t)
  : gmap dx_snapshot_record_key_t dxf_event_data_t := list_to_map (entries r).

(** The three arrays are parallel and sorted by key. *)
Definition recs_wf (r : dx_snapshot_records_t) : Prop :=
  array_wf (records r) /\ array_wf (record_keys r) /\ array_wf (record_buffers r) /\
  arr_size (record_keys r) = arr_size (records r) /\
  arr_size (record_buffers r) = arr_size (records r) /\
  sorted_by dx_snapshot_records_comparator2 (contents (record_keys r)) /\
  Forall buffer_wf (contents (record_buffers r)).

Lemma recs_wf_empty : recs_wf no_records.
Proof. repeat split; simpl; try lia; constructor. Qed.

(** Two parallel lists split together. *)
Lemma zip_middle {A B} (k1 k2 : list A) (e1 e2 : list B) k e :
  length k1 = length e1 ->
  zip (k1 ++ k :: k2) (e1 ++ e :: e2) = zip k1 e1 ++ (k, e) :: zip k2 e2.
Proof. intros H. by rewrite zip_with_app. Qed.

(** The map after an insertion at the place of a new key. *)
Lemma add_map r r' k e k1 k2 :
  recs_wf r -> contents (record_keys r) = k1 ++ k2 ->
  sorted_by dx_snapshot_records_comparator2 (k1 ++ k :: k2) ->
  contents (record_keys r') = k1 ++ k :: k2 ->
  contents (records r') = take (length k1) (contents (records r)) ++
    e :: drop (length k1) (contents (records r)) ->
  records_map r' = <[k := e]> (records_map r) /\ records_map r !! k = None.
Proof.
  intros (H1 & H2 & _ & Hk & _) E Hs E' C. unfold records_map, entries. rewrite E, E', C.
  pose proof (length_contents _ H2) as Hl. rewrite E, length_app in Hl.
  pose proof (length_contents _ H1) as Hl1.
  set (e1 := take (length k1) (contents (records r))). set (e2 := drop (length k1) (contents (records r))).
  assert (contents (records r) = e1 ++ e2) as -> by (symmetry; apply take_drop).
  assert (length k1 = length e1) by (unfold e1; rewrite length_take; lia).
  assert (length k2 = length e2) by (unfold e2; rewrite length_drop; lia).
  rewrite zip_middle, zip_with_app by done. apply list_to_map_middle.
  rewrite fmap_app, fmap_cons, !fst_zip by lia. by apply (sorted_nodup dx_snapshot_records_comparator2).
Qed.

Section records_spec.
Context (alloc : nat -> bool) (zero_event : dxf_event_data_t).
Context (event_id : dx_event_id_t) (rid : dx_record_info_id_t).
Context (Halloc : forall n, alloc n = true) (Hstorable : storable event_id = true).

(** The key of an event of the right kind. *)
Definition event_index (data : dxf_event_data_t) : Z :=
  match event_id, rid, data with
  | dx_eid_order, dx_rid_market_maker, ev_order o | dx_eid_order, dx_rid_quote, ev_order o =>
      order_index o
  | _, _, _ => 0
  end.

Lemma get_order_index_spec data r :
  event_of event_id data = true ->
  dx_get_order_index event_id rid data r = Ok (event_index data) r.
Proof using Type.
  clear Halloc Hstorable alloc zero_event. intros He. unfold dx_get_order_index, event_index.
  destruct event_id, rid, data; try discriminate He; reflexivity.
Qed.

Lemma entries_length r : recs_wf r -> length (entries r) = arr_size (records r).
Proof using Type.
  clear Halloc Hstorable alloc zero_event. intros (H1 & H2 & _ & Hk & _). unfold entries.
  rewrite length_zip_with, !length_contents by done. lia.
Qed.

(** The search finds the entry of a key or the place for it. *)
Lemma search_key_spec r t data :
  recs_wf r -> event_of event_id data = true ->
  exists found i k1 k2, search_key event_id rid t data r = Ok (found, i) r /\
    length k1 = i /\ (i <= arr_size (records r))%nat /\
    (if (found : bool)
     then contents (record_keys r) = k1 ++ RecordKey t (event_index data) :: k2
     else contents (record_keys r) = k1 ++ k2 /\
       sorted_by dx_snapshot_records_comparator2 (k1 ++ RecordKey t (event_index data) :: k2)).
Proof using Type.
  clear Halloc Hstorable alloc zero_event. intros Hr He. pose proof Hr as (Hr1 & Hr2 & Hr3 & Hk & Hb & Hs & _).
  unfold search_key, checked_call, get. rewrite get_order_index_spec by done.
  pose proof (length_contents (record_keys r) Hr2) as Hl.
  destruct (sorted_search dx_snapshot_records_comparator2 (contents (record_keys r))
    (arr_elements (record_keys r)) (RecordKey t (event_index data)) Hs) as (f & i & Hsearch & Hi & Hres).
  { by rewrite Hl. }
  rewrite Hl in Hsearch, Hi. rewrite Hsearch. cbn [of_option ret]. destruct f.
  - destruct Hres as (l1 & x & l2 & E & E' & Hx). apply comparator2_eq in Hx as ->.
    exists true, i, l1, l2. split_and!; [done|done|lia|done].
  - destruct Hres as [Hlo Hhi].
    exists false, i, (take i (contents (record_keys r))), (drop i (contents (record_keys r))).
    rewrite length_take, Hl, take_drop. split_and!; [done|lia|lia|done|].
    apply sorted_by_insert_middle; [by rewrite take_drop|done|done].
Qed.

(** The entries split where the keys do. *)
Lemma entries_split r k1 k k2 :
  recs_wf r -> contents (record_keys r) = k1 ++ k :: k2 ->
  exists e1 e e2, contents (records r) = e1 ++ e :: e2 /\ length e1 = length k1 /\
    entries r = zip k1 e1 ++ (k, e) :: zip k2 e2.
Proof using Type.
  clear Halloc Hstorable alloc zero_event. intros (Hr1 & Hr2 & _ & Hk & _) E. unfold entries. rewrite E.
  pose proof (length_contents (records r) Hr1) as Hl. pose proof (length_contents (record_keys r) Hr2) as Hl'.
  rewrite E, length_app in Hl'. simpl in Hl'.
  destruct (lookup_lt_is_Some_2 (contents (records r)) (length k1) ltac:(lia)) as [e He].
  apply list_elem_of_split_length in He as (e1 & e2 & -> & Hlen).
  exists e1, e, e2. split_and!; [done|done|]. by rewrite zip_middle.
Qed.

Lemma recs_nodup r : recs_wf r -> NoDup (entries r).*1.
Proof using Type.
  clear Halloc Hstorable alloc zero_event. intros Hr. pose proof Hr as (Hr1 & Hr2 & _ & Hk & _ & Hs & _).
  unfold entries. rewrite fst_zip by (rewrite !length_contents by done; lia).
  by apply (sorted_nodup dx_snapshot_records_comparator2).
Qed.

Lemma insert_record_spec r e i :
  array_wf (records r) -> (i <= arr_size (records r))%nat ->
  exists a, dx_snapshot_insert_record alloc zero_event event_id e i r = Ok tt (with_records r a) /\
    array_wf a /\ contents a = take i (contents (records r)) ++ e :: drop i (contents (records r)).
Proof using Halloc Hstorable.
  intros Hr Hi. destruct (array_insert_spec zero_event alloc (records r) e i Hr Hi Halloc)
    as (a & E & Hwf & Hc).
  exists a. unfold dx_snapshot_insert_record, checked_call, get, of_option, put, ret.
  rewrite Hstorable, E. done.
Qed.

Lemma insert_key_spec r k i :
  array_wf (record_keys r) -> (i <= arr_size (record_keys r))%nat ->
  exists a, insert_key alloc k i r = Ok false (with_keys r a) /\
    array_wf a /\ contents a = take i (contents (record_keys r)) ++ k :: drop i (contents (record_keys r)).
Proof using Halloc.
  clear Hstorable. intros Hr Hi.
  destruct (array_insert_spec zero_key alloc (record_keys r) k i Hr Hi Halloc) as (a & E & Hwf & Hc).
  exists a. unfold insert_key, checked_call, get, of_option, put, ret. rewrite E. done.
Qed.

Lemma insert_buffer_spec r b i :
  array_wf (record_buffers r) -> (i <= arr_size (record_buffers r))%nat ->
  exists a, insert_buffer alloc b i r = Ok false (with_buffers r a) /\
    array_wf a /\
    contents a = take i (contents (record_buffers r)) ++ b :: drop i (contents (record_buffers r)).
Proof using Halloc.
  clear Hstorable. intros Hr Hi.
  destruct (array_insert_spec None alloc (record_buffers r) b i Hr Hi Halloc) as (a & E & Hwf & Hc).
  exists a. unfold insert_buffer, checked_call, get, of_option, put, ret. rewrite E. done.
Qed.

Lemma recs_wf_intro r :
  array_wf (records r) -> array_wf (record_keys r) -> array_wf (record_buffers r) ->
  length (contents (record_keys r)) = length (contents (records r)) ->
  length (contents (record_buffers r)) = length (contents (records r)) ->
  sorted_by dx_snapshot_records_comparator2 (contents (record_keys r)) ->
  Forall buffer_wf (contents (record_buffers r)) -> recs_wf r.
Proof using Type.
  clear Halloc Hstorable alloc zero_event. intros H1 H2 H3 Hl1 Hl2 Hs Hb.
  pose proof (length_contents _ H1). pose proof (length_contents _ H2). pose proof (length_contents _ H3).
  unfold recs_wf. split_and!; done || apply H1 || apply H2 || apply H3 || lia.
Qed.

(** A new key is inserted. *)
Lemma add_event_record_spec r t data k1 k2 :
  recs_wf r -> event_of event_id data = true ->
  contents (record_keys r) = k1 ++ k2 ->
  sorted_by dx_snapshot_records_comparator2 (k1 ++ RecordKey t (event_index data) :: k2) ->
  exists r', dx_snapshot_add_event_record alloc zero_event event_id rid t data (length k1) r = Ok tt r' /\
    recs_wf r' /\ records_map r' = <[RecordKey t (event_index data) := data]> (records_map r) /\
    records_map r !! RecordKey t (event_index data) = None.
Proof using Halloc Hstorable.
  intros Hr He Hk Hs. pose proof Hr as (Hr1 & Hr2 & Hr3 & Hek & Heb & _ & Hb).
  assert (length k1 <= arr_size (records r))%nat as Hi.
  { rewrite <- Hek, <- (length_contents _ Hr2), Hk, length_app. lia. }
  destruct (dx_event_copy_spec alloc event_id data None Halloc I He) as (b & Hcopy & Hbwf).
  destruct (insert_record_spec r data (length k1) Hr1 Hi) as (a1 & E1 & W1 & C1).
  destruct (insert_key_spec (with_records r a1) (RecordKey t (event_index data)) (length k1) Hr2)
    as (a2 & E2 & W2 & C2); [simpl; lia|].
  destruct (insert_buffer_spec (with_keys (with_records r a1) a2) b (length k1) Hr3)
    as (a3 & E3 & W3 & C3); [simpl; lia|].
  simpl in C2, C3. rewrite Hk, take_app_length, drop_app_length in C2.
  destruct (add_map r (SnapshotRecords a1 a2 a3) (RecordKey t (event_index data)) data k1 k2)
    as [Hmap Hnone]; [done..|].
  exists (SnapshotRecords a1 a2 a3). split; [|split; [|done]].
  - unfold dx_snapshot_add_event_record, checked_call, clone_event. rewrite Hcopy, E1.
    rewrite get_order_index_spec, E2, E3 by done. done.
  - pose proof (length_contents _ Hr1). pose proof (length_contents _ Hr3).
    pose proof (length_contents _ Hr2) as Hl2. rewrite Hk, length_app in Hl2.
    apply recs_wf_intro; cbn [records record_keys record_buffers]; try done.
    + rewrite C1, C2, !length_app. simpl. rewrite length_take, length_drop. lia.
    + rewrite C1, C3, !length_app. simpl. rewrite !length_take, !length_drop. lia.
    + by rewrite C2.
    + rewrite C3. apply Forall_app. split; [by apply Forall_take|].
      constructor; [done|by apply Forall_drop].
Qed.

(** A stored key's event is replaced. *)
Lemma replace_record_spec r data k1 k k2 :
  recs_wf r -> event_of event_id data = true -> contents (record_keys r) = k1 ++ k :: k2 ->
  exists r', dx_snapshot_replace_record alloc event_id (length k1) data r = Ok tt r' /\
    recs_wf r' /\ records_map r' = <[k := data]> (records_map r).
Proof using Halloc Hstorable.
  intros Hr He Hk. pose proof Hr as (Hr1 & Hr2 & Hr3 & Hek & Heb & Hs & Hb).
  destruct (entries_split r k1 k k2 Hr Hk) as (e1 & e & e2 & Ee & Hlen & Hent).
  pose proof (length_contents _ Hr1) as Hl1. pose proof (length_contents _ Hr3) as Hl3.
  rewrite Ee, length_app in Hl1. simpl in Hl1.
  assert (length k1 < arr_size (records r))%nat as Hi by lia.
  destruct (lookup_lt_is_Some_2 (contents (record_buffers r)) (length k1) ltac:(lia)) as [b Hbk].
  assert (arr_elements (record_buffers r) !! length k1 = Some b) as Hbk'.
  { unfold contents in Hbk. rewrite lookup_take_lt in Hbk by lia. done. }
  assert (buffer_wf (dx_string_array_free b)) as Hb0 by (destruct b; simpl; auto with dx).
  destruct (dx_event_copy_spec alloc event_id data _ Halloc Hb0 He) as (b' & Hcopy & Hbwf).
  unfold dx_snapshot_replace_record, checked_call at 1, get. decide_cmps.
  unfold checked_call at 1. rewrite Hbk'. cbn [of_option ret]. rewrite Hcopy.
  pose proof Hr1 as [Hsz1 Hel1]. pose proof Hr3 as [Hsz3 Hel3].
  unfold checked_call, dx_snapshot_set_record. rewrite Hstorable, !write_at_in by lia.
  cbn -[arr_size]. rewrite write_at_in by lia. cbn -[arr_size].
  eexists; split; [reflexivity|].
  set (r' := with_records _ _).
  assert (contents (records r') = e1 ++ data :: e2) as Cr.
  { unfold r', contents; cbn. rewrite take_insert_lt by done. fold (contents (records r)).
    by rewrite Ee, <- Hlen, insert_app_r_eq. }
  assert (contents (record_buffers r') = <[length k1 := b']> (contents (record_buffers r))) as Cb.
  { unfold r', contents; cbn. by rewrite take_insert_lt by lia. }
  split.
  - apply recs_wf_intro; try done.
    + by split; [|cbn; rewrite length_insert].
    + by split; [|cbn; rewrite length_insert].
    + rewrite Cr. change (record_keys r') with (record_keys r). rewrite length_contents by done.
      rewrite length_app. simpl. lia.
    + rewrite Cr, Cb, length_insert, length_app. simpl. lia.
    + rewrite Cb. by apply Forall_insert.
  - pose proof (recs_nodup r Hr) as Hnd. rewrite Hent in Hnd. unfold records_map. rewrite Hent.
    unfold entries. change (record_keys r') with (record_keys r). rewrite Cr, Hk, zip_middle by done.
    destruct (list_to_map_middle _ _ _ _ Hnd) as [-> _].
    destruct (list_to_map_middle (zip k1 e1) (zip k2 e2) k data) as [-> _].
    + rewrite fmap_app, fmap_cons in Hnd |- *. exact Hnd.
    + by rewrite insert_insert_eq.
Qed.

Lemma delete_record_specs r i :
  recs_wf r -> (i < arr_size (records r))%nat ->
  exists a1 a2 a3, dx_snapshot_remove_event_record alloc zero_event event_id i r =
      Ok tt (SnapshotRecords a1 a2 a3) /\
    array_wf a1 /\ array_wf a2 /\ array_wf a3 /\
    contents a1 = take i (contents (records r)) ++ drop (S i) (contents (records r)) /\
    contents a2 = take i (contents (record_keys r)) ++ drop (S i) (contents (record_keys r)) /\
    contents a3 = take i (contents (record_buffers r)) ++ drop (S i) (contents (record_buffers r)).
Proof using Halloc Hstorable.
  intros Hr Hi. pose proof Hr as (Hr1 & Hr2 & Hr3 & Hek & Heb & _).
  destruct (array_delete_spec zero_event alloc (records r) i Hr1 Hi Halloc) as (a1 & E1 & W1 & C1).
  destruct (array_delete_spec zero_key alloc (record_keys r) i Hr2 ltac:(lia) Halloc) as (a2 & E2 & W2 & C2).
  destruct (array_delete_spec None alloc (record_buffers r) i Hr3 ltac:(lia) Halloc) as (a3 & E3 & W3 & C3).
  exists a1, a2, a3. split; [|by split_and!].
  unfold dx_snapshot_remove_event_record, dx_snapshot_delete_record, delete_key, delete_buffer,
    checked_call, get. rewrite Hstorable. decide_cmps.
  destruct Hr3 as [? Hl3].
  destruct (lookup_lt_is_Some_2 (arr_elements (record_buffers r)) i ltac:(lia)) as [b Hb].
  rewrite Hb. cbn -[DX_ARRAY_DELETE]. rewrite E1. cbn -[DX_ARRAY_DELETE]. rewrite E2.
  cbn -[DX_ARRAY_DELETE]. rewrite E3. done.
Qed.

(** A stored key is removed. *)
Lemma remove_record_spec r k1 k k2 :
  recs_wf r -> contents (record_keys r) = k1 ++ k :: k2 ->
  exists r', dx_snapshot_remove_event_record alloc zero_event event_id (length k1) r = Ok tt r' /\
    recs_wf r' /\ records_map r' = delete k (records_map r).
Proof using Halloc Hstorable.
  intros Hr Hk. pose proof Hr as (Hr1 & Hr2 & Hr3 & Hek & Heb & Hs & Hb).
  destruct (entries_split r k1 k k2 Hr Hk) as (e1 & e & e2 & Ee & Hlen & Hent).
  pose proof (length_contents _ Hr1) as Hl1. pose proof (length_contents _ Hr3) as Hl3.
  rewrite Ee, length_app in Hl1. simpl in Hl1.
  destruct (delete_record_specs r (length k1) Hr ltac:(lia))
    as (a1 & a2 & a3 & -> & W1 & W2 & W3 & C1 & C2 & C3).
  rewrite Ee, <- Hlen, take_app_length, drop_app, drop_ge in C1 by lia.
  replace (S (length e1) - length e1)%nat with 1%nat in C1 by lia. cbn [drop app] in C1. rewrite drop_0 in C1.
  rewrite Hk, take_app_length, drop_app, drop_ge in C2 by lia.
  replace (S (length k1) - length k1)%nat with 1%nat in C2 by lia. cbn [drop app] in C2. rewrite drop_0 in C2.
  pose proof (length_contents _ Hr2) as Hl2. rewrite Hk, length_app in Hl2. simpl in Hl2.
  eexists; split; [reflexivity|]. split.
  - apply recs_wf_intro; cbn [records record_keys record_buffers]; try done.
    + rewrite C1, C2, !length_app. lia.
    + rewrite C1, C3, !length_app, length_take, length_drop. lia.
    + rewrite C2. rewrite Hk in Hs. by eapply sorted_by_delete_middle.
    + rewrite C3. apply Forall_app. split; [by apply Forall_take|by apply Forall_drop].
  - pose proof (recs_nodup r Hr) as Hnd. rewrite Hent in Hnd. unfold records_map. rewrite Hent.
    unfold entries; cbn [records record_keys]. rewrite C1, C2, zip_with_app by done.
    destruct (list_to_map_middle _ _ _ _ Hnd) as [-> Hnone]. by rewrite delete_insert_eq, delete_id.
Qed.

(** ** Updates and removals *)

Lemma update_event_records_spec r t data :
  recs_wf r -> event_of event_id data = true ->
  exists r', dx_snapshot_update_event_records alloc zero_event event_id rid t data r = Ok tt r' /\
    recs_wf r' /\ records_map r' = <[RecordKey t (event_index data) := data]> (records_map r).
Proof using Halloc Hstorable.
  intros Hr He. unfold dx_snapshot_update_event_records, checked_call.
  destruct (search_key_spec r t data Hr He) as (f & i & k1 & k2 & -> & Hi & _ & Hk). subst i.
  destruct f.
  - by apply (replace_record_spec r data k1 _ k2).
  - destruct Hk as [Hk Hs].
    destruct (add_event_record_spec r t data k1 k2 Hr He Hk Hs) as (r' & E & Hr' & Hm & _).
    by exists r'.
Qed.

Lemma remove_event_records_spec r t data :
  recs_wf r -> event_of event_id data = true ->
  exists r', dx_snapshot_remove_event_records alloc zero_event event_id rid t data r = Ok tt r' /\
    recs_wf r' /\ records_map r' = delete (RecordKey t (event_index data)) (records_map r).
Proof using Halloc Hstorable.
  intros Hr He. unfold dx_snapshot_remove_event_records, checked_call.
  destruct (search_key_spec r t data Hr He) as (f & i & k1 & k2 & -> & Hi & _ & Hk). subst i.
  destruct f.
  - by apply (remove_record_spec r k1 _ k2).
  - destruct Hk as [Hk Hs]. exists r. split; [done|]. split; [done|].
    rewrite delete_id; [done|]. unfold records_map. apply not_elem_of_list_to_map_1.
    pose proof Hr as (Hr1 & Hr2 & _ & Hek & _).
    unfold entries. rewrite fst_zip by (rewrite !length_contents by done; lia).
    rewrite Hk. apply (sorted_nodup dx_snapshot_records_comparator2), NoDup_app in Hs as (_ & Hd & Hnd).
    apply NoDup_cons in Hnd as [Hnd _]. rewrite elem_of_app. intros [H|H]; [|done].
    apply (Hd _ H). by left.
Qed.
End records_spec.

(** ** The abstract snapshot

    The specification of the event handler: a state machine over the status,
    whether the snapshot has been published, the map of the snapshot and the
    map of the current transaction.  An event that ends a transaction also
    says what the listeners are told. *)

Abbreviation key_map := (gmap dx_snapshot_record_key_t dxf_event_data_t).

Record view : Type := View {
  v_status : dx_snapshot_status_t;
  v_published : bool;
  v_map : key_map;
  v_tx : key_map;
}.

Definition ends_snapshot (flags : Z) : bool :=
  IS_FLAG_SET flags dxf_ef_snapshot_end || IS_FLAG_SET flags dxf_ef_snapshot_snip.

(** One event with the given flags and key, a removal when [rm]; [inc] says
    whether transactions are recorded.  The second result is [Some] of the
    [new_snapshot] argument and the transaction when the listeners are called. *)
Definition spec_handle (inc : bool) (flags : Z) (key : dx_snapshot_record_key_t)
  (data : dxf_event_data_t) (rm : bool) (v : view) : view * option (bool * key_map) :=
  if bool_decide (v_status v = dx_status_unknown) then (v, None)
  else
    let m := if rm then delete key (v_map v) else <[key := data]> (v_map v) in
    let tx := if inc && v_published v then <[key := data]> (v_tx v) else v_tx v in
    let st := next_status (ends_snapshot flags) (IS_FLAG_SET flags dxf_ef_tx_pending) (v_status v) in
    if bool_decide (st = dx_status_full)
    then (View st true m ∅, Some (negb (v_published v), tx))
    else (View st (v_published v) m tx, None).

(** The whole event: one that begins a snapshot first drops the old one. *)
Definition spec_step (inc : bool) (flags : Z) (key : dx_snapshot_record_key_t)
  (data : dxf_event_data_t) (rm : bool) (v : view) : view * option (bool * key_map) :=
  spec_handle inc flags key data rm
    (if IS_FLAG_SET flags dxf_ef_snapshot_begin then View dx_status_begin false ∅ ∅ else v).

Definition view_of (s : dx_snapshot_data_t) : view :=
  View (sd_status s) (full_snapshot_published s) (records_map (snapshot_records s))
    (records_map (last_tx_records s)).

(** [l] lists the events of [m] in the order of their keys. *)
Definition lists (m : key_map) (l : list dxf_event_data_t) : Prop :=
  exists ks, sorted_by dx_snapshot_records_comparator2 ks /\ length ks = length l /\
    list_to_map (zip ks l) = m.

(** What a listener is told of a snapshot [full] and a transaction [tx]. *)
Definition told (s : dx_snapshot_data_t) (full tx : list dxf_event_data_t) (new_snapshot : bool)
  (l : dx_snapshot_listener_context_t) : callback :=
  Callback (listener_function l) (listener_user_data l) (sd_event_type s) (sd_symbol s)
    (if incremental l && negb new_snapshot && full_snapshot_seen l then tx else full)
    (if incremental l then Some (new_snapshot || negb (full_snapshot_seen l)) else None).

(** A listener after a call. *)
Definition seen (new_snapshot : bool) (l : dx_snapshot_listener_context_t)
  : dx_snapshot_listener_context_t :=
  ListenerContext (incremental l) (incremental l || full_snapshot_seen l) (listener_function l)
    (listener_user_data l).

Definition snap_wf (s : dx_snapshot_data_t) : Prop :=
  recs_wf (snapshot_records s) /\ recs_wf (last_tx_records s) /\ array_wf (sd_listeners s) /\
  storable (sd_event_id s) = true.

Lemma call_listener_told s new l :
  call_listener s new l = (seen new l, told s (full_data s) (tx_data s) new l) \/
  incremental l = false /\ call_listener s new l = (l, told s (full_data s) (tx_data s) new l).
Proof.
  destruct l as [[] [] f u]; unfold call_listener, seen, told; destruct new; simpl; auto.
Qed.

Lemma recs_lists r : recs_wf r -> lists (records_map r) (contents (records r)).
Proof.
  intros (H1 & H2 & _ & Hk & _ & Hs & _). exists (contents (record_keys r)).
  split_and!; [done| |done]. rewrite !length_contents by done. done.
Qed.

(** The context a listener has after a call, told or not. *)
Definition after_call (s : dx_snapshot_data_t) (new : bool) (l : dx_snapshot_listener_context_t) :=
  (call_listener s new l).1.

Lemma call_loop_spec s new fuel i calls :
  array_wf (sd_listeners s) -> (arr_size (sd_listeners s) <= i + fuel)%nat ->
  exists a, call_loop fuel i new calls s =
      Ok (calls ++ map (told s (full_data s) (tx_data s) new) (drop i (contents (sd_listeners s))))
        (set_listeners a s) /\
    array_wf a /\ contents a = take i (contents (sd_listeners s)) ++
      map (after_call s new) (drop i (contents (sd_listeners s))).
Proof.
  revert s i calls. induction fuel as [|fuel IH]; intros s i calls Hwf Hf; cbn [call_loop].
  { exists (sd_listeners s). rewrite drop_ge, take_ge, !app_nil_r by (rewrite length_contents by done; lia).
    split; [by destruct s|done]. }
  unfold checked_call at 1, get. destruct (Nat.ltb_spec i (arr_size (sd_listeners s))) as [Hi|Hi].
  2:{ exists (sd_listeners s). rewrite drop_ge, take_ge, !app_nil_r by (rewrite length_contents by done; lia).
      split; [by destruct s|done]. }
  pose proof Hwf as [Hsz Hlen].
  destruct (lookup_lt_is_Some_2 (arr_elements (sd_listeners s)) i ltac:(lia)) as [l Hl].
  rewrite Hl. unfold checked_call at 1. cbn [of_option ret].
  assert (contents (sd_listeners s) !! i = Some l) as Hc
    by (unfold contents; by rewrite lookup_take_lt by lia).
  destruct (call_listener s new l) as [l' call] eqn:Ecall.
  assert (call = told s (full_data s) (tx_data s) new l) as ->.
  { destruct (call_listener_told s new l) as [H|[_ H]]; congruence. }
  unfold checked_call at 1. rewrite write_at_in by lia. cbn [of_option ret].
  unfold checked_call at 1, put. cbv iota.
  set (a1 := DxArray _ _ _). set (s1 := set_listeners a1 s).
  assert (array_wf a1) as Hwf1 by (split; cbn; rewrite ?length_insert; done).
  assert (contents a1 = <[i := l']> (contents (sd_listeners s))) as Hc1
    by (unfold a1, contents; cbn; by rewrite take_insert_lt by lia).
  destruct (IH s1 (S i) (calls ++ [told s (full_data s) (tx_data s) new l]) Hwf1) as (a & E & Hwfa & Ha);
    [cbn; lia|].
  exists a. cbn [sd_listeners s1 set_listeners] in Ha, E. split; [|split; [done|]].
  - rewrite E. rewrite (drop_S _ l i Hc), Hc1, drop_insert_lt, <- app_assoc by lia. done.
  - rewrite Ha, Hc1, (drop_S _ l i Hc), drop_insert_lt by lia. cbn [map].
    rewrite (take_S_r _ _ l'), take_insert_ge, <- app_assoc
      by (try apply list_lookup_insert_eq; try apply lookup_lt_is_Some_1; eauto).
    cbn [app]. unfold after_call at 2. by rewrite Ecall.
Qed.

Section listener_spec.
Context (alloc : nat -> bool) (zero_event : dxf_event_data_t).
Context (Halloc : forall n, alloc n = true).

(** Whether an event removes its key. *)
Definition event_removes (event_id : dx_event_id_t) (flags : Z) (data : dxf_event_data_t) : bool :=
  IS_FLAG_SET flags dxf_ef_remove_event ||
  match event_id, data with
  | dx_eid_order, ev_order o => double_eqb (order_size o) double_zero
  | _, _ => false
  end.

Definition event_key (s : dx_snapshot_data_t) (p : dxf_event_params_t) (data : dxf_event_data_t) :=
  RecordKey (params_time_int_field p) (event_index (sd_event_id s) (sd_record_info_id s) data).

Lemma removes_spec {S} eid flags data (st : S) :
  event_of eid data = true ->
  (if IS_FLAG_SET flags dxf_ef_remove_event then ret true
   else of_option (dx_is_zero_event eid data)) st = Ok (event_removes eid flags data) st.
Proof using Type.
  clear Halloc alloc zero_event. intros He. unfold event_removes, dx_is_zero_event.
  destruct (IS_FLAG_SET flags dxf_ef_remove_event); [done|].
  destruct eid, data; try discriminate He; reflexivity.
Qed.

(** The end of the handler: the new status, and the calls when it is [full]. *)
Definition finish (flags : Z) : M dx_snapshot_data_t (list callback) :=
  s <-- get;;
  put (set_status (next_status (ends_snapshot flags) (IS_FLAG_SET flags dxf_ef_tx_pending)
                     (sd_status s)) s);;;
  s <-- get;;
  if bool_decide (sd_status s = dx_status_full) then
    calls <-- dx_snapshot_call_listeners (negb (full_snapshot_published s));;
    s <-- get;;
    put (set_published true s);;;
    on_last_tx_records (fun _ => dx_snapshot_clear_records_array);;;
    ret calls
  else ret [].

(** The handler after the [snapshot_begin] part: it does what the abstract
    machine does from the view of its state. *)
Definition handle (data : dxf_event_data_t) (p : dxf_event_params_t) (rm : bool)
  : M dx_snapshot_data_t (list callback) :=
  s <-- get;;
  if bool_decide (sd_status s = dx_status_unknown) then ret []
  else
    on_snapshot_records (if rm then remove_records alloc zero_event data p
                         else update_records alloc zero_event data p);;;
    s <-- get;;
    (if has_inc_listeners s && full_snapshot_published s
     then on_last_tx_records (update_records alloc zero_event data p) else ret tt);;;
    finish (params_flags p).

(** What relates the outcome of the handler to the abstract one. *)
Definition handled (s s' : dx_snapshot_data_t) (calls : list callback)
  (out : view * option (bool * key_map)) : Prop :=
  snap_wf s' /\ view_of s' = out.1 /\ sd_key s' = sd_key s /\ sd_event_id s' = sd_event_id s /\
  sd_record_info_id s' = sd_record_info_id s /\ has_inc_listeners s' = has_inc_listeners s /\
  match out.2 with
  | None => calls = [] /\ sd_listeners s' = sd_listeners s
  | Some (new, tx) =>
      exists full txl, lists (v_map out.1) full /\ lists tx txl /\
        calls = map (told s full txl new) (contents (sd_listeners s)) /\
        length (contents (sd_listeners s')) = length (contents (sd_listeners s))
  end.

Lemma finish_spec s flags :
  snap_wf s ->
  exists calls s', finish flags s = Ok calls s' /\
    handled s s' calls
      (let st := next_status (ends_snapshot flags) (IS_FLAG_SET flags dxf_ef_tx_pending) (sd_status s) in
       if bool_decide (st = dx_status_full)
       then (View st true (v_map (view_of s)) ∅,
             Some (negb (full_snapshot_published s), v_tx (view_of s)))
       else (View st (full_snapshot_published s) (v_map (view_of s)) (v_tx (view_of s)), None)).
Proof using Type.
  clear Halloc alloc zero_event. intros (Hr & Ht & Hl & Hst).
  unfold finish, checked_call at 1, get at 1. unfold checked_call at 1, put at 1.
  set (st := next_status _ _ _). unfold checked_call at 1, get at 1. cbv iota zeta.
  cbn [sd_status set_status]. destruct (bool_decide (st = dx_status_full)).
  2:{ exists [], (set_status st s). split; [done|]. by split_and!. }
  unfold dx_snapshot_call_listeners. unfold checked_call at 1. unfold checked_call at 1, get at 1.
  cbn [set_status sd_listeners full_snapshot_published].
  destruct (call_loop_spec (set_status st s) (negb (full_snapshot_published s))
    (arr_size (sd_listeners s)) 0 [] Hl) as (a & -> & Hwf & Ha); [cbn; lia|].
  unfold checked_call, get, put. cbn [on_last_tx_records dx_snapshot_clear_records_array put].
  eexists _, _. split; [reflexivity|].
  cbn [set_status sd_listeners] in Ha. rewrite take_0, drop_0 in Ha. cbn [app] in Ha.
  split; [by split_and!; [| |apply Hwf|]; [| apply recs_wf_empty|]|].
  split; [done|]. do 4 (split; [done|]). cbn [snd].
  exists (contents (records (snapshot_records s))), (contents (records (last_tx_records s))).
  split; [by apply recs_lists|]. split; [by apply recs_lists|]. split.
  - cbn [app]. rewrite drop_0. reflexivity.
  - cbn. rewrite Ha. apply length_map.
Qed.

Lemma handle_spec s data p rm :
  snap_wf s -> event_of (sd_event_id s) data = true ->
  exists calls s', handle data p rm s = Ok calls s' /\
    handled s s' calls (spec_handle (has_inc_listeners s) (params_flags p) (event_key s p data)
                          data rm (view_of s)).
Proof using Halloc.
  intros (Hr & Ht & Hl & Hst) He. unfold handle, spec_handle. unfold checked_call at 1, get at 1.
  cbn [view_of v_status]. destruct (bool_decide (sd_status s = dx_status_unknown)).
  { exists [], s. split; [done|]. by split_and!. }
  (* the snapshot *)
  assert (exists r1, (if rm then remove_records alloc zero_event data p
      else update_records alloc zero_event data p) s (snapshot_records s) = Ok tt r1 /\ recs_wf r1 /\
    records_map r1 = (if rm then delete (event_key s p data) (records_map (snapshot_records s))
      else <[event_key s p data := data]> (records_map (snapshot_records s)))) as (r1 & E1 & Hr1 & M1).
  { destruct rm.
    - by apply (remove_event_records_spec alloc zero_event).
    - by apply (update_event_records_spec alloc zero_event). }
  unfold checked_call at 1, on_snapshot_records. rewrite E1. clear E1.
  set (s1 := set_snapshot_records r1 s).
  (* the transaction *)
  assert (exists r2, (if has_inc_listeners s1 && full_snapshot_published s1
      then on_last_tx_records (update_records alloc zero_event data p) else ret tt) s1 =
      Ok tt (set_last_tx_records r2 s1) /\ recs_wf r2 /\
    records_map r2 = (if has_inc_listeners s && full_snapshot_published s
      then <[event_key s p data := data]> (records_map (last_tx_records s))
      else records_map (last_tx_records s))) as (r2 & E2 & Hr2 & M2).
  { change (has_inc_listeners s1) with (has_inc_listeners s).
    change (full_snapshot_published s1) with (full_snapshot_published s).
    destruct (has_inc_listeners s && full_snapshot_published s).
    - destruct (update_event_records_spec alloc zero_event (sd_event_id s) (sd_record_info_id s)
        Halloc Hst (last_tx_records s) (params_time_int_field p) data Ht He) as (r2 & E2 & H2 & M2).
      exists r2. split; [|done]. unfold on_last_tx_records, update_records. unfold s1. cbn.
      by rewrite E2.
    - exists (last_tx_records s). split; [by destruct s|done]. }
  unfold checked_call at 1, get at 1. unfold checked_call at 1. rewrite E2. clear E2.
  destruct (finish_spec (set_last_tx_records r2 s1) (params_flags p)) as (calls & s' & -> & Hh);
    [by split_and!|].
  exists calls, s'. split; [done|]. revert Hh. unfold handled. cbn [view_of v_map v_tx v_status v_published].
  change (snapshot_records (set_last_tx_records r2 s1)) with r1.
  change (last_tx_records (set_last_tx_records r2 s1)) with r2. by rewrite M1, M2.
Qed.

Lemma event_listener_spec s data p :
  snap_wf s -> event_of (sd_event_id s) data = true -> sd_key s = params_snapshot_key p ->
  exists calls s', event_listener alloc zero_event data p s = Ok calls s' /\
    handled s s' calls (spec_step (has_inc_listeners s) (params_flags p) (event_key s p data)
      data (event_removes (sd_event_id s) (params_flags p) data) (view_of s)).
Proof using Halloc.
  intros Hwf He Hkey. unfold event_listener, dx_is_snapshot_event.
  unfold checked_call at 1, get at 1. rewrite Hkey, Z.eqb_refl. cbn [negb].
  unfold checked_call at 1. rewrite removes_spec by done.
  set (rm := event_removes _ _ _). cbv zeta. unfold spec_step.
  destruct (IS_FLAG_SET (params_flags p) dxf_ef_snapshot_begin).
  - set (s0 := set_published false (set_status dx_status_begin
      (set_last_tx_records no_records (set_snapshot_records no_records s)))).
    assert (snap_wf s0) as Hwf0.
    { destruct Hwf as (_ & _ & Hl & Hst). split_and!; [apply recs_wf_empty|apply recs_wf_empty|done|done]. }
    apply (handle_spec s0 data p rm Hwf0 He).
  - apply (handle_spec s data p rm Hwf He).
Qed.
End listener_spec.

(** ** Incremental listeners

    A transaction applied to a published snapshot: the last event of each key
    either removes it or is its new value. *)
Definition apply_tx (removal : dxf_event_data_t -> bool) (tx m : key_map) : key_map :=
  merge (fun t e => match t with
                    | Some d => if removal d then None else Some d
                    | None => e
                    end) tx m.

Lemma lookup_apply_tx removal tx m k :
  apply_tx removal tx m !! k =
    match tx !! k with Some d => if removal d then None else Some d | None => m !! k end.
Proof.
  unfold apply_tx. rewrite lookup_merge. by destruct (tx !! k), (m !! k).
Qed.

Lemma apply_tx_empty removal m : apply_tx removal ∅ m = m.
Proof. apply map_eq. intros k. by rewrite lookup_apply_tx, lookup_empty. Qed.

(** Recording an event in the transaction is applying it to the snapshot. *)
Lemma apply_tx_insert removal tx m k d rm :
  removal d = rm ->
  apply_tx removal (<[k := d]> tx) m =
    if rm then delete k (apply_tx removal tx m) else <[k := d]> (apply_tx removal tx m).
Proof.
  intros Hrm. apply map_eq. intros j. rewrite lookup_apply_tx.
  destruct (decide (k = j)) as [<-|Hne].
  - rewrite lookup_insert_eq, Hrm. destruct rm; [by rewrite lookup_delete_eq|by rewrite lookup_insert_eq].
  - rewrite lookup_insert_ne by done.
    destruct rm; [rewrite lookup_delete_ne by done|rewrite lookup_insert_ne by done];
      by rewrite lookup_apply_tx.
Qed.

(** The snapshot is the last published one with the current transaction applied. *)
Definition tracks (removal : dxf_event_data_t -> bool) (published : key_map) (v : view) : Prop :=
  v_published v = true -> v_map v = apply_tx removal (v_tx v) published.

Lemma spec_step_tracks removal flags key data rm v m0 :
  removal data = rm -> tracks removal m0 v ->
  match spec_step true flags key data rm v with
  | (v', None) => tracks removal m0 v'
  | (v', Some (new, tx)) =>
      tracks removal (v_map v') v' /\ (new = false -> v_map v' = apply_tx removal tx m0)
  end.
Proof.
  intros Hrm Ht. unfold spec_step.
  set (v0 := if IS_FLAG_SET flags dxf_ef_snapshot_begin then _ else v).
  assert (tracks removal m0 v0) as Ht0
    by (unfold v0; destruct (IS_FLAG_SET flags dxf_ef_snapshot_begin); [discriminate|done]).
  clearbody v0. clear Ht v. unfold spec_handle. destruct (bool_decide _); [done|]. cbn [andb].
  set (st := next_status _ _ _). unfold tracks in *.
  assert (v_published v0 = true -> (if rm then delete key (v_map v0) else <[key:=data]> (v_map v0)) =
    apply_tx removal (<[key := data]> (v_tx v0)) m0) as Hstep.
  { intros Hp. by rewrite (apply_tx_insert removal _ _ _ _ rm Hrm), <- Ht0. }
  destruct (bool_decide (st = dx_status_full)); cbn [v_map v_tx v_published].
  - split; [intros _; by rewrite apply_tx_empty|]. intros Hp. apply negb_false_iff in Hp.
    rewrite Hp. by apply Hstep.
  - intros Hp. rewrite Hp. by apply Hstep.
Qed.

(** ** Properties *)

(** C1: the event handler implements the abstract snapshot: on every
    well-formed snapshot and event of its kind, with memory available, the
    three parallel arrays stay well-formed and sorted and their map, the
    status and the transaction change as [spec_step] says; listeners are called
    exactly when it says so, each once and in order, with the events of the
    snapshot or of the transaction in the order of their keys. *)
Theorem event_listener_refines (alloc : nat -> bool) (zero_event : dxf_event_data_t)
  (s : dx_snapshot_data_t) (data : dxf_event_data_t) (p : dxf_event_params_t) :
  (forall n, alloc n = true) -> snap_wf s -> event_of (sd_event_id s) data = true ->
  sd_key s = params_snapshot_key p ->
  exists calls s', event_listener alloc zero_event data p s = Ok calls s' /\
    snap_wf s' /\
    let '(v', out) := spec_step (has_inc_listeners s) (params_flags p) (event_key s p data) data
                        (event_removes (sd_event_id s) (params_flags p) data) (view_of s) in
    view_of s' = v' /\
    match out with
    | None => calls = [] /\ sd_listeners s' = sd_listeners s
    | Some (new, tx) =>
        exists full txl, lists (v_map v') full /\ lists tx txl /\
          calls = map (told s full txl new) (contents (sd_listeners s))
    end.
Proof.
  intros Halloc Hwf He Hkey.
  destruct (event_listener_spec alloc zero_event Halloc s data p Hwf He Hkey)
    as (calls & s' & E & Hwf' & Hv & _ & _ & _ & _ & Hout).
  exists calls, s'. split; [done|]. split; [done|].
  destruct (spec_step _ _ _ _ _ _) as [v' [[new tx]|]]; cbn in *; split; try done.
  destruct Hout as (full & txl & Hf & Ht & Hc & _). by exists full, txl.
Qed.

(** An order, a snapshot of orders with one full and one incremental listener,
    and an event that updates it. *)
Definition order_example (index size : Z) : dxf_order_t := {|
  order_source := []; order_event_flags := 0; order_index := index; order_time := 0;
  order_sequence := 0; order_time_nanos := 0; order_action := dxf_oa_undefined;
  order_action_time := 0; order_order_id := 0; order_aux_order_id := 0;
  order_price := double_zero; order_size := binary_normalize 53 1024 size 0 false;
  order_executed_size := double_zero; order_count := double_zero; order_trade_id := 0;
  order_trade_price := double_zero; order_trade_size := double_zero; order_exchange_code := 0;
  order_side := dxf_osd_buy; order_scope := dxf_osc_order; order_market_maker := None |}.
Definition event_example : dxf_event_data_t := ev_order (order_example 7 5).

Definition snapshot_example : dx_snapshot_data_t :=
  SnapshotData 77 1 dx_rid_order dx_eid_order 16 None (Some [65]) 0 dx_status_full true
    no_records no_records
    (DxArray [ListenerContext false false 100 0; ListenerContext true true 200 0] 2 2) true.

Lemma snapshot_example_wf : snap_wf snapshot_example.
Proof. split; [apply recs_wf_empty|]. split; [apply recs_wf_empty|]. split; [split; simpl; lia|done]. Qed.

Lemma event_listener_refines_witness :
  exists calls s', event_listener (fun _ => true) event_example event_example
      (EventParams 0 9 77) snapshot_example = Ok calls s' /\
    snap_wf s' /\
    let '(v', out) := spec_step true 0 (RecordKey 9 0) event_example false
                        (view_of snapshot_example) in
    view_of s' = v' /\
    match out with
    | None => calls = [] /\ sd_listeners s' = sd_listeners snapshot_example
    | Some (new, tx) =>
        exists full txl, lists (v_map v') full /\ lists tx txl /\
          calls = map (told snapshot_example full txl new) (contents (sd_listeners snapshot_example))
    end.
Proof.
  apply (event_listener_refines (fun _ => true) event_example snapshot_example event_example
    (EventParams 0 9 77)); [done|apply snapshot_example_wf|done|done].
Defined.

(** C2: an incremental listener can follow the snapshot: suppose the current
    snapshot is the last published one, [m0], with the pending transaction
    applied.  Then after any event either nothing is published and this still
    holds, or every listener is called: one that has seen the snapshot before
    is given the events of a transaction that takes [m0] to the new snapshot,
    unless the snapshot is new, and any other the whole snapshot; and the
    property holds again of what has just been published. *)
Theorem incremental_listeners_track (alloc : nat -> bool) (zero_event : dxf_event_data_t)
  (removal : dxf_event_data_t -> bool) (s : dx_snapshot_data_t) (data : dxf_event_data_t)
  (p : dxf_event_params_t) (m0 : key_map) :
  (forall n, alloc n = true) -> snap_wf s -> event_of (sd_event_id s) data = true ->
  sd_key s = params_snapshot_key p -> has_inc_listeners s = true ->
  event_removes (sd_event_id s) (params_flags p) data = removal data ->
  tracks removal m0 (view_of s) ->
  exists calls s', event_listener alloc zero_event data p s = Ok calls s' /\
    has_inc_listeners s' = true /\
    (calls = [] /\ tracks removal m0 (view_of s') \/
     tracks removal (v_map (view_of s')) (view_of s') /\
     exists full txl (new : bool) (tx : key_map),
       lists (v_map (view_of s')) full /\ lists tx txl /\
       calls = map (told s full txl new) (contents (sd_listeners s)) /\
       (new = false -> v_map (view_of s') = apply_tx removal tx m0)).
Proof.
  intros Halloc Hwf He Hkey Hinc Hrm Ht.
  destruct (event_listener_spec alloc zero_event Halloc s data p Hwf He Hkey)
    as (calls & s' & E & Hwf' & Hv & _ & _ & _ & Hi & Hout).
  exists calls, s'. split; [done|]. split; [congruence|]. rewrite Hv, Hinc in *.
  pose proof (spec_step_tracks removal (params_flags p) (event_key s p data) data _ (view_of s) m0
    (eq_sym Hrm) Ht) as Hstep.
  destruct (spec_step _ _ _ _ _ _) as [v' [[new tx]|]]; cbn in *.
  - right. destruct Hstep as [H1 H2]. split; [done|].
    destruct Hout as (full & txl & Hf & Htx & Hc & _). by exists full, txl, new, tx.
  - left. split; [apply Hout|done].
Qed.

Lemma incremental_listeners_track_witness :
  exists calls s', event_listener (fun _ => true) event_example event_example
      (EventParams 0 9 77) snapshot_example = Ok calls s' /\
    has_inc_listeners s' = true /\
    (calls = [] /\ tracks (fun _ => false) ∅ (view_of s') \/
     tracks (fun _ => false) (v_map (view_of s')) (view_of s') /\
     exists full txl (new : bool) (tx : key_map),
       lists (v_map (view_of s')) full /\ lists tx txl /\
       calls = map (told snapshot_example full txl new) (contents (sd_listeners snapshot_example)) /\
       (new = false -> v_map (view_of s') = apply_tx (fun _ => false) tx ∅)).
Proof.
  apply (incremental_listeners_track (fun _ => true) event_example (fun _ => false)
    snapshot_example event_example (EventParams 0 9 77) ∅);
    [done|apply snapshot_example_wf|done|done|done|reflexivity|].
  intros _. symmetry. apply (apply_tx_empty (fun _ => false)).
Defined.

(** The search and update of the parallel arrays is a map update: the
    event's key is bound to the event and every other key keeps its value. *)
Theorem update_records_insert (alloc : nat -> bool) (zero_event : dxf_event_data_t)
  (eid : dx_event_id_t) (rid : dx_record_info_id_t) (r : dx_snapshot_records_t) (t : Z)
  (data : dxf_event_data_t) :
  (forall n, alloc n = true) -> storable eid = true -> recs_wf r -> event_of eid data = true ->
  exists r1 r2,
    dx_snapshot_update_event_records alloc zero_event eid rid t data r = Ok tt r1 /\
    recs_wf r1 /\ records_map r1 = <[RecordKey t (event_index eid rid data) := data]> (records_map r) /\
    dx_snapshot_remove_event_records alloc zero_event eid rid t data r1 = Ok tt r2 /\
    recs_wf r2 /\ records_map r2 = delete (RecordKey t (event_index eid rid data)) (records_map r).
Proof.
  intros Halloc Hst Hr He.
  destruct (update_event_records_spec alloc zero_event eid rid Halloc Hst r t data Hr He)
    as (r1 & E1 & Hr1 & M1).
  destruct (remove_event_records_spec alloc zero_event eid rid Halloc Hst r1 t data Hr1 He)
    as (r2 & E2 & Hr2 & M2).
  exists r1, r2. split_and!; try done. rewrite M2, M1. apply delete_insert_eq.
Qed.

Lemma update_records_insert_witness :
  exists r1 r2,
    dx_snapshot_update_event_records (fun _ => true) event_example dx_eid_order dx_rid_quote 9
      event_example no_records = Ok tt r1 /\
    recs_wf r1 /\ records_map r1 = <[RecordKey 9 7 := event_example]> (records_map no_records) /\
    dx_snapshot_remove_event_records (fun _ => true) event_example dx_eid_order dx_rid_quote 9
      event_example r1 = Ok tt r2 /\
    recs_wf r2 /\ records_map r2 = delete (RecordKey 9 7) (records_map no_records).
Proof.
  apply (update_records_insert (fun _ => true) event_example dx_eid_order dx_rid_quote no_records 9
    event_example); [done|done|apply recs_wf_empty|done].
Defined.

(** [DXF_IS_SPREAD_ORDER_REMOVAL], the documented test of a removal. *)
Definition DXF_IS_SPREAD_ORDER_REMOVAL (o : dxf_order_t) : bool :=
  IS_FLAG_SET (order_event_flags o) dxf_ef_remove_event || double_eqb (order_size o) double_zero.

(** A snapshot of spread orders does not treat an order of size 0 as a
    removal, as [DXF_IS_SPREAD_ORDER_REMOVAL] does: without the remove flag
    the event is stored. *)
Theorem spread_order_zero_size_stored (alloc : nat -> bool) (zero_event : dxf_event_data_t)
  (s : dx_snapshot_data_t) (o : dxf_order_t) (p : dxf_event_params_t) :
  (forall n, alloc n = true) -> snap_wf s -> sd_event_id s = dx_eid_spread_order ->
  sd_key s = params_snapshot_key p -> sd_status s <> dx_status_unknown ->
  params_flags p = 0 -> order_size o = double_zero ->
  DXF_IS_SPREAD_ORDER_REMOVAL o = true /\
  exists calls s', event_listener alloc zero_event (ev_order o) p s = Ok calls s' /\
    records_map (snapshot_records s') !! event_key s p (ev_order o) = Some (ev_order o).
Proof.
  intros Halloc Hwf Heid Hkey Hst Hf Hsz. split.
  { unfold DXF_IS_SPREAD_ORDER_REMOVAL. rewrite Hsz. apply orb_true_r. }
  assert (event_of (sd_event_id s) (ev_order o) = true) as He by (by rewrite Heid).
  destruct (event_listener_spec alloc zero_event Halloc s (ev_order o) p Hwf He Hkey)
    as (calls & s' & E & _ & Hv & _). exists calls, s'. split; [done|].
  assert (records_map (snapshot_records s') = v_map (view_of s')) as -> by done. rewrite Hv.
  unfold spec_step, spec_handle, event_removes. rewrite Hf, Heid.
  change (IS_FLAG_SET 0 dxf_ef_snapshot_begin) with false.
  change (IS_FLAG_SET 0 dxf_ef_remove_event) with false. cbn [orb].
  rewrite (bool_decide_eq_false_2 (v_status (view_of s) = dx_status_unknown)) by done.
  destruct (bool_decide _); cbn [fst v_map]; apply lookup_insert_eq.
Qed.

Lemma spread_order_zero_size_stored_witness :
  let s := SnapshotData 77 1 dx_rid_spread_order dx_eid_spread_order 16 None (Some [65]) 0
    dx_status_full true no_records no_records DX_EMPTY_ARRAY false in
  DXF_IS_SPREAD_ORDER_REMOVAL (order_example 7 0) = true /\
  exists calls s', event_listener (fun _ => true) event_example (ev_order (order_example 7 0))
      (EventParams 0 9 77) s = Ok calls s' /\
    records_map (snapshot_records s') !! RecordKey 9 0 = Some (ev_order (order_example 7 0)).
Proof.
  intros s. apply (spread_order_zero_size_stored (fun _ => true) event_example s (order_example 7 0)
    (EventParams 0 9 77)); try done.
  split; [apply recs_wf_empty|]. split; [apply recs_wf_empty|]. split; [split; simpl; lia|done].
Defined.

(** Removing an incremental listener never clears [has_inc_listeners]: the
    loop that should look for another one only runs while the flag is already
    false, so after the last one is gone transactions are still recorded. *)
Theorem inc_listeners_flag_sticks (alloc : nat -> bool) (s : dx_snapshot_data_t)
  (listener : Z) :
  (forall n, alloc n = true) -> array_wf (sd_listeners s) -> listener <> 0 ->
  has_inc_listeners s = true ->
  exists s', dx_remove_snapshot_inc_listener alloc listener s = Ok tt s' /\
    has_inc_listeners s' = true.
Proof.
  intros Halloc Hwf Hl Hinc. unfold dx_remove_snapshot_inc_listener. decide_cmps.
  unfold checked_call at 1, get at 1.
  pose proof Hwf as [Hsz Hlen].
  destruct (ls_loop_spec dx_snapshot_listener_comparator (arr_elements (sd_listeners s))
    (ListenerContext true false listener 0) (arr_size (sd_listeners s)) 0) as (f & i & E & Hi & _);
    [lia|].
  unfold checked_call at 1, dx_find_snapshot_listener_in_array, DX_ARRAY_SEARCH.
  rewrite Nat.sub_0_r, E. cbn [of_option ret]. destruct f; cbn [negb]; [|by exists s].
  destruct Hi as [Hi _].
  destruct (array_delete_spec zero_listener alloc (sd_listeners s) i Hwf ltac:(lia) Halloc)
    as (a & Ed & _ & _).
  unfold checked_call at 1. rewrite Ed. cbn [of_option ret].
  eexists. split; [reflexivity|]. cbn. rewrite Hinc. by destruct (contents a).
Qed.

Lemma inc_listeners_flag_sticks_witness :
  exists s', dx_remove_snapshot_inc_listener (fun _ => true) 200 snapshot_example = Ok tt s' /\
    has_inc_listeners s' = true.
Proof.
  apply inc_listeners_flag_sticks; [done|split; simpl; lia|lia|done].
Defined.

(** The layout of a snapshot key: the low 24 bits are those of the source's
    hash and the 32 bits above them the low ones of the symbol's hash, but the
    top byte is the record's number or-ed with bits 32 to 39 of the symbol's
    hash, so it is the number only when they are 0. *)
Theorem snapshot_key_layout (hash : list Z -> Z) (rid : dx_record_info_id_t) (symbol : list Z)
  (source : option (list Z)) :
  dx_new_snapshot_key hash rid symbol source =
    Z.lor (record_info_number rid) ((u64 (hash symbol) / 2 ^ 32) mod 2 ^ 8) * 2 ^ 56 +
    (u64 (hash symbol) mod 2 ^ 32) * 2 ^ 24 +
    match source with None => 0 | Some s => u64 (hash s) mod 2 ^ 24 end.
Proof.
  unfold dx_new_snapshot_key, SNAPSHOT_KEY_SOURCE_MASK. change 0xFFFFFF with (Z.ones 24).
  rewrite Z.land_ones, !shl_mul by lia.
  set (h := u64 (hash symbol)).
  assert (0 <= h < 18446744073709551616) by (unfold h; intlia). clearbody h.
  assert (u64 (h * 2 ^ 24) = (h / 2 ^ 32) mod 2 ^ 8 * 2 ^ 56 + (h mod 2 ^ 32) * 2 ^ 24) as ->
    by (simpl Z.pow; unfold u64; zlia).
  assert (u64 (record_info_number rid * 2 ^ 56) = record_info_number rid * 2 ^ 56 + 0) as ->
    by (destruct rid; reflexivity).
  rewrite lor_split, Z.lor_0_l by (simpl Z.pow; zlia).
  set (top := Z.lor (record_info_number rid) _).
  replace (top * 2 ^ 56 + h mod 2 ^ 32 * 2 ^ 24) with ((top * 2 ^ 32 + h mod 2 ^ 32) * 2 ^ 24)
    by (simpl Z.pow; lia).
  rewrite lor_add.
  - destruct source; simpl Z.pow; rewrite ?Z.mod_0_l by lia; lia.
  - lia.
  - apply Z.mod_pos_bound. lia.
Qed.
