(* ===== verification/Doubles.v ===== *)
(** * Doubles: the order of the [double] values

    The comparisons of [EventData] on binary64 values are a total order on the
    values that are not NaN: [double_key] embeds them in triples of integers
    ordered lexicographically (zeros of both signs have one key).  The books
    compare and add prices and sizes with these operations. *)

From Stdlib Require Import SpecFloat.
From S2P Require Import Prelude Arrays EventData.
Local Open Scope Z_scope.

Definition double_nan : dxf_double_t := S754_nan.
Definition double_isnan (x : dxf_double_t) : bool := match x with S754_nan => true | _ => false end.
Definition double_add (x y : dxf_double_t) : dxf_double_t := SFadd 53 1024 x y.
Definition double_sub (x y : dxf_double_t) : dxf_double_t := SFsub 53 1024 x y.
Definition double_leb (x y : dxf_double_t) : bool := SFleb x y.

(** The literal 1.0E38. *)
Definition double_1e38 : dxf_double_t := S754_finite false 5293955920339377 74.

(** [DX_NUMERIC_COMPARATOR] at two doubles. *)
Definition DX_DOUBLE_COMPARATOR (l r : dxf_double_t) : Z :=
  if double_ltb r l then 1 else if double_ltb l r then -1 else 0.

#[export] Instance double_eq_dec : EqDecision dxf_double_t.
Proof. unfold dxf_double_t. solve_decision. Defined.

#[export] Instance price_level_eq_dec : EqDecision dxf_price_level_element_t.
Proof. solve_decision. Defined.

(** ** The order of the keys *)

Record key : Set := Key { key_sign : Z; key_exponent : Z; key_mantissa : Z }.

Definition double_key (x : dxf_double_t) : key :=
  match x with
  | S754_zero _ | S754_nan => Key 0 0 0
  | S754_infinity s => Key (if s then -2 else 2) 0 0
  | S754_finite true m e => Key (-1) (- e) (Z.neg m)
  | S754_finite false m e => Key 1 e (Z.pos m)
  end.

Definition key_lt (k1 k2 : key) : Prop :=
  key_sign k1 < key_sign k2 \/
  (key_sign k1 = key_sign k2 /\
   (key_exponent k1 < key_exponent k2 \/
    (key_exponent k1 = key_exponent k2 /\ key_mantissa k1 < key_mantissa k2))).

Definition key_compare (k1 k2 : key) : comparison :=
  match key_sign k1 ?= key_sign k2 with
  | Eq =>
      match key_exponent k1 ?= key_exponent k2 with
      | Eq => key_mantissa k1 ?= key_mantissa k2
      | c => c
      end
  | c => c
  end.

Lemma key_eq k1 k2 :
  key_sign k1 = key_sign k2 -> key_exponent k1 = key_exponent k2 ->
  key_mantissa k1 = key_mantissa k2 -> k1 = k2.
Proof. destruct k1, k2. simpl. intros. by subst. Qed.

Lemma key_compare_spec k1 k2 :
  CompareSpec (k1 = k2) (key_lt k1 k2) (key_lt k2 k1) (key_compare k1 k2).
Proof.
  unfold key_compare, key_lt.
  destruct (Z.compare_spec (key_sign k1) (key_sign k2)); try (constructor; lia).
  destruct (Z.compare_spec (key_exponent k1) (key_exponent k2)); try (constructor; lia).
  destruct (Z.compare_spec (key_mantissa k1) (key_mantissa k2)); constructor; try lia.
  by apply key_eq.
Qed.

Lemma SFcompare_key x y :
  double_isnan x = false -> double_isnan y = false ->
  SFcompare x y = Some (key_compare (double_key x) (double_key y)).
Proof.
  intros Hx Hy.
  destruct x as [|[]| |[] mx ex]; try discriminate Hx;
    destruct y as [|[]| |[] my ey]; try discriminate Hy; try reflexivity; unfold key_compare; simpl.
  rewrite Z.compare_opp, (Z.compare_antisym ex ey). by destruct (ex ?= ey).
Qed.

Lemma double_ltb_key x y :
  double_isnan x = false -> double_isnan y = false ->
  double_ltb x y = true <-> key_lt (double_key x) (double_key y).
Proof.
  intros Hx Hy. unfold double_ltb, SFltb. rewrite SFcompare_key by done.
  destruct (key_compare_spec (double_key x) (double_key y)) as [E|H|H];
    unfold key_lt in *; rewrite ?E; split; try done; lia.
Qed.

Lemma double_eqb_key x y :
  double_isnan x = false -> double_isnan y = false ->
  double_eqb x y = true <-> double_key x = double_key y.
Proof.
  intros Hx Hy. unfold double_eqb, SFeqb. rewrite SFcompare_key by done.
  destruct (key_compare_spec (double_key x) (double_key y)) as [E|H|H];
    unfold key_lt in *; split; try done; intros E; rewrite E in H; lia.
Qed.

Lemma double_eqb_nan x y : double_eqb x y = true -> double_isnan x = false /\ double_isnan y = false.
Proof. by destruct x, y. Qed.

Lemma double_ltb_nan x y : double_ltb x y = true -> double_isnan x = false /\ double_isnan y = false.
Proof. by destruct x as [[]|[]| |[]], y as [[]|[]| |[]]. Qed.

(** ** The comparisons on values that are not NaN *)

Lemma double_ltb_trans x y z :
  double_ltb x y = true -> double_ltb y z = true -> double_ltb x z = true.
Proof.
  intros H1 H2. destruct (double_ltb_nan _ _ H1), (double_ltb_nan _ _ H2).
  rewrite double_ltb_key in * by done. unfold key_lt in *. lia.
Qed.

Lemma double_ltb_irrefl x : double_ltb x x = false.
Proof.
  destruct (double_ltb x x) eqn:E; [|done]. destruct (double_ltb_nan _ _ E).
  rewrite double_ltb_key in E by done. unfold key_lt in E. lia.
Qed.

Lemma double_ltb_asym x y : double_ltb x y = true -> double_ltb y x = false.
Proof.
  intros H. destruct (double_ltb y x) eqn:E; [|done].
  pose proof (double_ltb_trans _ _ _ H E). by rewrite double_ltb_irrefl in *.
Qed.

Lemma double_trichotomy x y :
  double_isnan x = false -> double_isnan y = false ->
  double_ltb x y = true \/ double_eqb x y = true \/ double_ltb y x = true.
Proof.
  intros Hx Hy. rewrite !double_ltb_key, double_eqb_key by done.
  destruct (key_compare_spec (double_key x) (double_key y)); auto.
Qed.

Lemma double_eqb_refl x : double_isnan x = false -> double_eqb x x = true.
Proof. intros H. by apply double_eqb_key. Qed.

Lemma double_eqb_sym x y : double_eqb x y = double_eqb y x.
Proof.
  apply eq_bool_prop_intro. rewrite !Is_true_true.
  split; intros H; destruct (double_eqb_nan _ _ H); rewrite double_eqb_key in * by done; congruence.
Qed.

Lemma double_eqb_trans x y z :
  double_eqb x y = true -> double_eqb y z = true -> double_eqb x z = true.
Proof.
  intros H1 H2. destruct (double_eqb_nan _ _ H1), (double_eqb_nan _ _ H2).
  rewrite double_eqb_key in * by done. congruence.
Qed.

Lemma double_eqb_ltb_l x y z : double_eqb x y = true -> double_ltb x z = double_ltb y z.
Proof.
  intros H. destruct (double_eqb_nan _ _ H) as [Hx Hy].
  destruct (double_isnan z) eqn:Hz; [by destruct x as [[]|[]| |[]], y as [[]|[]| |[]], z|].
  apply eq_bool_prop_intro. rewrite !Is_true_true, !double_ltb_key by done.
  rewrite double_eqb_key in H by done. by rewrite H.
Qed.

Lemma double_eqb_ltb_r x y z : double_eqb x y = true -> double_ltb z x = double_ltb z y.
Proof.
  intros H. destruct (double_eqb_nan _ _ H) as [Hx Hy].
  destruct (double_isnan z) eqn:Hz; [by destruct z|].
  apply eq_bool_prop_intro. rewrite !Is_true_true, !double_ltb_key by done.
  rewrite double_eqb_key in H by done. by rewrite H.
Qed.

Lemma double_eqb_not_ltb x y : double_eqb x y = true -> double_ltb x y = false.
Proof. intros H. rewrite (double_eqb_ltb_l _ _ _ H). apply double_ltb_irrefl. Qed.

(** The comparator is read as the order. *)
Lemma double_comparator_lt x y : DX_DOUBLE_COMPARATOR x y < 0 <-> double_ltb x y = true.
Proof.
  unfold DX_DOUBLE_COMPARATOR. destruct (double_ltb y x) eqn:E.
  - rewrite (double_ltb_asym _ _ E). split; [lia|done].
  - destruct (double_ltb x y); split; done || lia.
Qed.

Lemma double_comparator_gt x y : 0 < DX_DOUBLE_COMPARATOR x y <-> double_ltb y x = true.
Proof.
  unfold DX_DOUBLE_COMPARATOR. destruct (double_ltb y x) eqn:E; [split; done || lia|].
  destruct (double_ltb x y); split; done || lia.
Qed.

Lemma double_comparator_eq x y :
  double_isnan x = false -> double_isnan y = false ->
  DX_DOUBLE_COMPARATOR x y = 0 <-> double_eqb x y = true.
Proof.
  intros Hx Hy. unfold DX_DOUBLE_COMPARATOR. destruct (double_ltb y x) eqn:E1.
  - split; [lia|]. intros H. rewrite double_eqb_sym in H. by rewrite (double_eqb_not_ltb _ _ H) in E1.
  - destruct (double_ltb x y) eqn:E2.
    + split; [lia|]. intros H. by rewrite (double_eqb_not_ltb _ _ H) in E2.
    + split; [|done]. intros _. destruct (double_trichotomy x y Hx Hy) as [?|[?|?]]; congruence.
Qed.

#[export] Hint Resolve double_ltb_irrefl double_eqb_refl : dx.

(** ** A total comparator

    The comparison of the keys is a comparator on all the values, which agrees
    with the code's on those that are not NaN. *)

Definition double_total (x y : dxf_double_t) : Z :=
  match key_compare (double_key x) (double_key y) with Lt => -1 | Eq => 0 | Gt => 1 end.

#[export] Instance double_total_comparator : Comparator double_total.
Proof.
  split; unfold double_total; intros;
    repeat match goal with
    | |- context [key_compare ?a ?b] => destruct (key_compare_spec a b) as [?E|?E|?E]
    | H : context [key_compare ?a ?b] |- _ => destruct (key_compare_spec a b) as [?E|?E|?E]
    end; unfold key_lt in *; try congruence; try lia; simpl;
    repeat match goal with E : double_key _ = double_key _ |- _ => rewrite E in *; clear E end; lia.
Qed.

#[export] Instance comparator_flip {A} (cmp : A -> A -> Z) `{!Comparator cmp} :
  Comparator (fun x y => cmp y x).
Proof.
  split; intros.
  - apply cmp_refl.
  - apply cmp_sym.
  - by eapply cmp_trans.
  - rewrite (cmp_sym z x), (cmp_sym z y). f_equal. apply cmp_eq. by apply cmp_zero_sym.
Qed.

Lemma double_total_eq x y :
  double_isnan x = false -> double_isnan y = false -> DX_DOUBLE_COMPARATOR x y = double_total x y.
Proof.
  intros Hx Hy. unfold DX_DOUBLE_COMPARATOR, double_total.
  pose proof (double_ltb_key x y Hx Hy) as H1. pose proof (double_ltb_key y x Hy Hx) as H2.
  destruct (key_compare_spec (double_key x) (double_key y)) as [E|E|E];
    destruct (double_ltb y x), (double_ltb x y); try done; unfold key_lt in *;
    rewrite ?E in *; intuition lia.
Qed.

Lemma double_total_zero x y :
  double_isnan x = false -> double_isnan y = false ->
  double_total x y = 0 <-> double_eqb x y = true.
Proof. intros Hx Hy. rewrite <- double_total_eq by done. by apply double_comparator_eq. Qed.
