(* ===== verification/PriceLevelSource.v ===== *)
(** * PriceLevelSource: the sources of [src/PriceLevelBook.c]

    A source follows the orders of one symbol and one exchange: the orders it
    knows, sorted by index, and for each side the ten best price levels.
    [dx_plb_source_process_order] updates both with one order, the levels
    incrementally; [dx_plb_source_rebuild_levels] recomputes a side from the
    orders.  The theorems are about the rebuilt levels (the best ten of the
    aggregated prices), and about what an event does to the orders, the sides and what is
    published.  Mutexes are not modelled:
    the functions are the bodies that run under them. *)

From Stdlib Require Import SpecFloat.
From S2P Require Import Prelude Arrays EventData Doubles.
Local Open Scope Z_scope.
Local Open Scope c_scope.

Definition MAX_PRICE_LEVELS : nat := 10.

Inductive dx_plb_status_t : Set :=
  | plb_status_unknown | plb_status_begin | plb_status_full | plb_status_pending.

#[export] Instance dx_plb_status_t_eq_dec : EqDecision dx_plb_status_t.
Proof. solve_decision. Defined.

Record dx_plb_price_level_side_t : Type := PriceLevelSide {
  side_count : nat;
  side_levels : list dxf_price_level_element_t;   (** MAX_PRICE_LEVELS of them *)
  side_cmp : dxf_price_level_element_t -> dxf_price_level_element_t -> Z;
  side_rebuild : bool;
  side_updated : bool;
}.

(** A source; a slot of [ps_snapshot] points to an order the source owns.  The
    list of consumers is kept by the book. *)
Record dx_plb_source_t : Type := PlbSource {
  ps_symbol : list Z;
  ps_source : list Z;
  ps_snapshot : dx_array dxf_order_t;
  ps_snapshot_status : dx_plb_status_t;
  ps_bids : dx_plb_price_level_side_t;
  ps_final_bids : dx_plb_price_level_side_t;
  ps_asks : dx_plb_price_level_side_t;
  ps_final_asks : dx_plb_price_level_side_t;
}.

Definition set_ps_snapshot (x : dx_array dxf_order_t) (s : dx_plb_source_t) : dx_plb_source_t :=
  PlbSource (ps_symbol s) (ps_source s) x (ps_snapshot_status s) (ps_bids s) (ps_final_bids s)
    (ps_asks s) (ps_final_asks s).
Definition set_ps_status (x : dx_plb_status_t) (s : dx_plb_source_t) : dx_plb_source_t :=
  PlbSource (ps_symbol s) (ps_source s) (ps_snapshot s) x (ps_bids s) (ps_final_bids s)
    (ps_asks s) (ps_final_asks s).
Definition set_ps_bids (x : dx_plb_price_level_side_t) (s : dx_plb_source_t) : dx_plb_source_t :=
  PlbSource (ps_symbol s) (ps_source s) (ps_snapshot s) (ps_snapshot_status s) x
    (ps_final_bids s) (ps_asks s) (ps_final_asks s).
Definition set_ps_asks (x : dx_plb_price_level_side_t) (s : dx_plb_source_t) : dx_plb_source_t :=
  PlbSource (ps_symbol s) (ps_source s) (ps_snapshot s) (ps_snapshot_status s) (ps_bids s)
    (ps_final_bids s) x (ps_final_asks s).
Definition set_ps_final (bids asks : dx_plb_price_level_side_t) (s : dx_plb_source_t)
  : dx_plb_source_t :=
  PlbSource (ps_symbol s) (ps_source s) (ps_snapshot s) (ps_snapshot_status s) (ps_bids s) bids
    (ps_asks s) asks.

(** ** Comparators *)

Definition dx_plb_order_comparator (o1 o2 : dxf_order_t) : Z :=
  DX_NUMERIC_COMPARATOR (order_index o1) (order_index o2).
Definition dx_plb_pricelvel_comparator_ask (p1 p2 : dxf_price_level_element_t) : Z :=
  DX_DOUBLE_COMPARATOR (level_price p1) (level_price p2).
Definition dx_plb_pricelvel_comparator_bid (p1 p2 : dxf_price_level_element_t) : Z :=
  DX_DOUBLE_COMPARATOR (level_price p2) (level_price p1).

(** ** Levels *)

Definition zero_level : dxf_price_level_element_t := PriceLevel double_zero double_zero 0.
Definition zero_levels : list dxf_price_level_element_t := replicate MAX_PRICE_LEVELS zero_level.

(** The levels of [dx_plb_source_reset_snapshot]: zeroes, then NaN prices. *)
Definition nan_levels : list dxf_price_level_element_t :=
  replicate MAX_PRICE_LEVELS (PriceLevel double_nan double_zero 0).

Definition order_level (order : dxf_order_t) : dxf_price_level_element_t :=
  PriceLevel (order_price order) (order_size order) (order_time order).
Definition price_key (price : dxf_double_t) : dxf_price_level_element_t :=
  PriceLevel price double_zero 0.

Definition search_level (ob : dx_plb_price_level_side_t) (price : dxf_double_t)
  : option (bool * nat) :=
  DX_ARRAY_BINARY_SEARCH (side_cmp ob) (side_levels ob) 0 (side_count ob) (price_key price).

(** [None] is an access outside of the array of the levels. *)
Definition dx_plb_source_remove_order_from_levels (ob : dx_plb_price_level_side_t)
  (order : dxf_order_t) : option dx_plb_price_level_side_t :=
  r ← search_level ob (order_price order);
  let '(found, pos) := r in
  if negb found then Some ob
  else
    l ← side_levels ob !! pos;
    let l' := PriceLevel (level_price l) (double_sub (level_size l) (order_size order))
                (order_time order) in
    levels ← write_at (side_levels ob) pos l';
    Some (PriceLevelSide (side_count ob) levels (side_cmp ob)
            (side_rebuild ob || double_leb (level_size l') double_zero) true).

Definition dx_plb_source_add_order_to_levels (ob : dx_plb_price_level_side_t)
  (order : dxf_order_t) : option dx_plb_price_level_side_t :=
  r ← search_level ob (order_price order);
  let '(found, pos) := r in
  let count := side_count ob in
  if (found : bool) then
    l ← side_levels ob !! pos;
    levels ← write_at (side_levels ob) pos
      (PriceLevel (level_price l) (double_add (level_size l) (order_size order)) (order_time order));
    Some (PriceLevelSide count levels (side_cmp ob) (side_rebuild ob) true)
  else if (pos <? count)%nat && (count =? MAX_PRICE_LEVELS)%nat then
    levels ← blit (side_levels ob) pos (side_levels ob) (pos + 1) (count - pos - 1);
    levels ← write_at levels pos (order_level order);
    Some (PriceLevelSide count levels (side_cmp ob) (side_rebuild ob) true)
  else if (count <? MAX_PRICE_LEVELS)%nat then
    levels ← (if (pos <? count)%nat
              then blit (side_levels ob) pos (side_levels ob) (pos + 1) (count - pos)
              else Some (side_levels ob));
    levels ← write_at levels pos (order_level order);
    Some (PriceLevelSide (S count) levels (side_cmp ob) (side_rebuild ob) true)
  else Some ob.

(** The loop of [dx_plb_source_rebuild_levels] over the orders from one on. *)
Fixpoint rebuild_loop (orders : list dxf_order_t) (ob : dx_plb_price_level_side_t)
  (side : dxf_order_side_t) : option dx_plb_price_level_side_t :=
  match orders with
  | [] => Some ob
  | o :: orders' =>
      if negb (bool_decide (order_side o = side)) || double_eqb (order_size o) double_zero
      then rebuild_loop orders' ob side
      else
        ob ← dx_plb_source_add_order_to_levels ob o;
        rebuild_loop orders' ob side
  end.

Definition dx_plb_source_rebuild_levels (snapshot : dx_array dxf_order_t)
  (ob : dx_plb_price_level_side_t) (side : dxf_order_side_t) : option dx_plb_price_level_side_t :=
  ob ← rebuild_loop (contents snapshot)
         (PriceLevelSide 0 zero_levels (side_cmp ob) (side_rebuild ob) (side_updated ob)) side;
  Some (PriceLevelSide (side_count ob) (side_levels ob) (side_cmp ob) false true).

Definition reset_side (ob : dx_plb_price_level_side_t) : dx_plb_price_level_side_t :=
  PriceLevelSide 0 nan_levels (side_cmp ob) (side_rebuild ob) (side_updated ob).

(** The orders are freed and their slots set to NULL; only the size is kept. *)
Definition dx_plb_source_reset_snapshot (s : dx_plb_source_t) : dx_plb_source_t :=
  let bids := reset_side (ps_bids s) in
  let asks := reset_side (ps_asks s) in
  PlbSource (ps_symbol s) (ps_source s)
    (DxArray (arr_elements (ps_snapshot s)) 0 (arr_capacity (ps_snapshot s)))
    (ps_snapshot_status s) bids bids asks asks.

(** ** Orders *)

(** [dx_memset(oo, 0, sizeof( *oo))] and the index. *)
Definition zero_order (index : Z) : dxf_order_t :=
  Build_dxf_order_t [] 0 index 0 0 0 dxf_oa_undefined 0 0 0 double_zero double_zero double_zero
    double_zero 0 double_zero double_zero 0 dxf_osd_undefined dxf_osc_composite None.

(** The search for an order: first at the index itself, then by a binary
    search in the half that this slot leaves. *)
Definition find_order (snapshot : dx_array dxf_order_t) (order : dxf_order_t)
  : option (bool * nat) :=
  let search top bottom :=
    DX_ARRAY_BINARY_SEARCH dx_plb_order_comparator (arr_elements snapshot) top bottom order in
  let index := u32 (Z.land (order_index order) 0xFFFFFFFF) in
  if Z.of_nat (arr_size snapshot) <=? index then search 0%nat (arr_size snapshot)
  else
    let orderIdx := Z.to_nat index in
    e ← arr_elements snapshot !! orderIdx;
    if order_index e =? order_index order then Some (true, orderIdx)
    else if order_index e <? order_index order then search orderIdx (arr_size snapshot)
    else search 0%nat orderIdx.

(** The side an order belongs to, and an update of it. *)
Definition on_side (side : dxf_order_side_t)
  (f : dx_plb_price_level_side_t -> option dx_plb_price_level_side_t) (s : dx_plb_source_t)
  : option dx_plb_source_t :=
  if bool_decide (side = dxf_osd_buy)
  then ob ← f (ps_bids s); Some (set_ps_bids ob s)
  else ob ← f (ps_asks s); Some (set_ps_asks ob s).

Definition remove_from_side (o : dxf_order_t) : dx_plb_source_t -> option dx_plb_source_t :=
  on_side (order_side o) (fun ob => dx_plb_source_remove_order_from_levels ob o).
Definition add_to_side (o : dxf_order_t) : dx_plb_source_t -> option dx_plb_source_t :=
  on_side (order_side o) (fun ob => dx_plb_source_add_order_to_levels ob o).

Definition set_order (orderIdx : nat) (o : dxf_order_t) (s : dx_plb_source_t)
  : option dx_plb_source_t :=
  l ← write_at (arr_elements (ps_snapshot s)) orderIdx o;
  Some (set_ps_snapshot (DxArray l (arr_size (ps_snapshot s)) (arr_capacity (ps_snapshot s))) s).

Section source.
(** Whether [dx_calloc] of so many elements succeeds. *)
Context (alloc : nat -> bool).

(** When the deletion from the array fails the array keeps a pointer to the
    freed order: that is [None], since every later use of it is undefined. *)
Definition dx_plb_source_process_order (s : dx_plb_source_t) (order : dxf_order_t) (rm : bool)
  : option dx_plb_source_t :=
  r ← find_order (ps_snapshot s) order;
  let '(found, orderIdx) := r in
  let zero := double_eqb (order_size order) double_zero in
  if (found : bool) then
    oo ← arr_elements (ps_snapshot s) !! orderIdx;
    if rm || zero then
      s ← remove_from_side oo s;
      if rm then
        d ← DX_ARRAY_DELETE (zero_order 0) alloc (ps_snapshot s) orderIdx;
        let '(a, error) := d in
        if (error : bool) then None else Some (set_ps_snapshot a s)
      else set_order orderIdx (zero_order (order_index order)) s
    else
      s ← add_to_side order s;
      s ← remove_from_side oo s;
      set_order orderIdx order s
  else if negb rm && negb zero then
    if alloc 1 then
      d ← DX_ARRAY_INSERT (zero_order 0) alloc (ps_snapshot s) order orderIdx;
      let '(a, _) := d in
      add_to_side order (set_ps_snapshot a s)
    else Some s
  else Some s.

Definition DXF_ET_ORDER : Z := 16.

(** The state change at the end of the flags of an event. *)
Definition plb_next_status (se tx : bool) (st : dx_plb_status_t) : dx_plb_status_t :=
  let st := if se then plb_status_full else st in
  if tx && bool_decide (st = plb_status_full) then plb_status_pending
  else if negb tx && bool_decide (st = plb_status_pending) then plb_status_full
  else st.

(** The end of a transaction: the sides that need it are rebuilt and published. *)
Definition publish_sides (s : dx_plb_source_t) : option dx_plb_source_t :=
  bids ← (if side_rebuild (ps_bids s)
          then dx_plb_source_rebuild_levels (ps_snapshot s) (ps_bids s) dxf_osd_buy
          else Some (ps_bids s));
  asks ← (if side_rebuild (ps_asks s)
          then dx_plb_source_rebuild_levels (ps_snapshot s) (ps_asks s) dxf_osd_sell
          else Some (ps_asks s));
  Some (set_ps_final
          (if side_updated bids then bids else ps_final_bids s)
          (if side_updated asks then asks else ps_final_asks s)
          (set_ps_asks asks (set_ps_bids bids s))).

(** The event handler up to the loop over the consumers; the boolean tells
    whether that loop is reached. *)
Definition plb_event_listener (event_type : Z) (symbol_name : list Z) (data : dxf_event_data_t)
  (p : dxf_event_params_t) (s : dx_plb_source_t) : option (dx_plb_source_t * bool) :=
  if negb (event_type =? DXF_ET_ORDER) then Some (s, false)
  else if negb (bool_decide (ps_symbol s = symbol_name)) then Some (s, false)
  else
    order ← match data with ev_order o => Some o | _ => None end;
    let sb := IS_FLAG_SET (params_flags p) dxf_ef_snapshot_begin in
    let se := IS_FLAG_SET (params_flags p) dxf_ef_snapshot_end ||
              IS_FLAG_SET (params_flags p) dxf_ef_snapshot_snip in
    let tx := IS_FLAG_SET (params_flags p) dxf_ef_tx_pending in
    if negb (bool_decide (ps_source s = order_source order)) then Some (s, false)
    else
      let rm := IS_FLAG_SET (params_flags p) dxf_ef_remove_event ||
                double_eqb (order_size order) double_zero in
      let s := if sb then set_ps_status plb_status_begin (dx_plb_source_reset_snapshot s) else s in
      if bool_decide (ps_snapshot_status s = plb_status_unknown) then Some (s, false)
      else
        s ← dx_plb_source_process_order s order rm;
        let s := set_ps_status (plb_next_status se tx (ps_snapshot_status s)) s in
        if (side_updated (ps_asks s) || side_updated (ps_bids s)) &&
           bool_decide (ps_snapshot_status s = plb_status_full)
        then s ← publish_sides s; Some (s, true)
        else Some (s, false).
End source.

(** A source as [dx_plb_source_create] sets it up: room for 16 orders.  The
    published sides have no comparator, and none is ever called on them. *)
Definition new_side (cmp : dxf_price_level_element_t -> dxf_price_level_element_t -> Z)
  : dx_plb_price_level_side_t := PriceLevelSide 0 zero_levels cmp false false.


Definition new_source (symbol src : list Z) : dx_plb_source_t :=
  PlbSource symbol (take (DXF_RECORD_SUFFIX_SIZE - 1) src)
    (DxArray (replicate 16 (zero_order 0)) 0 16) plb_status_full
    (new_side dx_plb_pricelvel_comparator_bid) (new_side (fun _ _ => 0))
    (new_side dx_plb_pricelvel_comparator_ask) (new_side (fun _ _ => 0)).

(** ** The reference: a book of unbounded depth *)

Definition priced (l : dxf_price_level_element_t) : Prop := double_isnan (level_price l) = false.
Definition priced_order (o : dxf_order_t) : Prop := double_isnan (order_price o) = false.

(** The order of the levels of a side, best first, made total. *)
Definition level_cmp (bid : bool) (x y : dxf_price_level_element_t) : Z :=
  if bid then double_total (level_price y) (level_price x)
  else double_total (level_price x) (level_price y).

#[export] Instance level_comparator bid : Comparator (level_cmp bid).
Proof.
  destruct bid; unfold level_cmp.
  - apply (comparator_on level_price (fun x y => double_total y x)).
  - apply (comparator_on level_price double_total).
Qed.

Definition side_comparator (bid : bool) :=
  if bid then dx_plb_pricelvel_comparator_bid else dx_plb_pricelvel_comparator_ask.

Lemma side_comparator_total bid x y :
  priced x -> priced y -> side_comparator bid x y = level_cmp bid x y.
Proof.
  intros Hx Hy. destruct bid; simpl;
    unfold dx_plb_pricelvel_comparator_bid, dx_plb_pricelvel_comparator_ask;
    by apply double_total_eq.
Qed.

Lemma level_cmp_key bid x y y' :
  level_price y = level_price y' -> level_cmp bid x y = level_cmp bid x y'.
Proof. intros E. unfold level_cmp. by rewrite E. Qed.

Lemma level_cmp_zero bid x y :
  priced x -> priced y -> level_cmp bid x y = 0 <-> double_eqb (level_price x) (level_price y) = true.
Proof.
  intros Hx Hy. unfold level_cmp. destruct bid; rewrite double_total_zero by done; [|done].
  by rewrite double_eqb_sym.
Qed.

(** The level an order's price has, with the order's size added. *)
Definition join_level (l : dxf_price_level_element_t) (o : dxf_order_t) : dxf_price_level_element_t :=
  PriceLevel (level_price l) (double_add (level_size l) (order_size o)) (order_time o).

Fixpoint add_level (bid : bool) (o : dxf_order_t) (l : list dxf_price_level_element_t)
  : list dxf_price_level_element_t :=
  match l with
  | [] => [order_level o]
  | x :: l' =>
      let c := level_cmp bid x (order_level o) in
      if c =? 0 then join_level x o :: l'
      else if c <? 0 then x :: add_level bid o l'
      else order_level o :: l
  end.

(** The level of a price, and what the orders of that price add up to. *)
Fixpoint level_at (price : dxf_double_t) (l : list dxf_price_level_element_t)
  : option dxf_price_level_element_t :=
  match l with
  | [] => None
  | x :: l' => if double_eqb (level_price x) price then Some x else level_at price l'
  end.

Definition aggregate_step (price : dxf_double_t) (acc : option dxf_price_level_element_t)
  (o : dxf_order_t) : option dxf_price_level_element_t :=
  if double_eqb (order_price o) price
  then Some (match acc with None => order_level o | Some l => join_level l o end) else acc.
Definition aggregate (price : dxf_double_t) (orders : list dxf_order_t) :=
  fold_left (aggregate_step price) orders None.


Section reference.
Context (bid : bool).

Lemma add_level_found l1 x l2 o :
  (forall y, y ∈ l1 -> level_cmp bid y (order_level o) < 0) -> level_cmp bid x (order_level o) = 0 ->
  add_level bid o (l1 ++ x :: l2) = l1 ++ join_level x o :: l2.
Proof.
  intros H1 Hx. induction l1 as [|y l1 IH]; simpl; [by rewrite Hx|].
  pose proof (H1 y (list_elem_of_here _ _)).
  destruct (Z.eqb_spec (level_cmp bid y (order_level o)) 0); [lia|].
  destruct (Z.ltb_spec (level_cmp bid y (order_level o)) 0); [|lia].
  f_equal. apply IH. intros z Hz. apply H1. by right.
Qed.

Lemma add_level_new l1 l2 o :
  (forall y, y ∈ l1 -> level_cmp bid y (order_level o) < 0) ->
  (forall y, y ∈ l2 -> level_cmp bid (order_level o) y < 0) ->
  add_level bid o (l1 ++ l2) = l1 ++ order_level o :: l2.
Proof.
  intros H1 H2. induction l1 as [|y l1 IH]; simpl.
  - destruct l2 as [|y l2]; [done|]. simpl. pose proof (H2 y (list_elem_of_here _ _)) as H.
    apply (cmp_gt (level_cmp bid)) in H.
    destruct (Z.eqb_spec (level_cmp bid y (order_level o)) 0); [lia|].
    destruct (Z.ltb_spec (level_cmp bid y (order_level o)) 0); [lia|done].
  - pose proof (H1 y (list_elem_of_here _ _)).
    destruct (Z.eqb_spec (level_cmp bid y (order_level o)) 0); [lia|].
    destruct (Z.ltb_spec (level_cmp bid y (order_level o)) 0); [|lia].
    f_equal. apply IH. intros z Hz. apply H1. by right.
Qed.

(** What is below the best [n] levels never comes back. *)
Lemma take_add_level n o l : take n (add_level bid o l) = take n (add_level bid o (take n l)).
Proof.
  revert n. induction l as [|x l IH]; intros [|n]; try done. simpl.
  destruct (_ =? 0); simpl; [by rewrite take_take, Nat.min_id|].
  destruct (_ <? 0); simpl; [by rewrite <- IH|].
  f_equal. destruct n; [done|]. simpl. by rewrite take_take, (Nat.min_l n (S n)) by lia.
Qed.

(** The three shapes of an update of a sorted book. *)
Lemma add_level_cases o l :
  sorted_by (level_cmp bid) l ->
  (exists l1 x l2, l = l1 ++ x :: l2 /\ add_level bid o l = l1 ++ join_level x o :: l2 /\
     level_cmp bid x (order_level o) = 0) \/
  (exists l1 l2, l = l1 ++ l2 /\ add_level bid o l = l1 ++ order_level o :: l2 /\
     (forall y, y ∈ l1 -> level_cmp bid y (order_level o) < 0) /\
     (forall y, y ∈ l2 -> level_cmp bid (order_level o) y < 0)).
Proof.
  intros Hs. destruct (sorted_search (level_cmp bid) l l (order_level o) Hs) as (f & i & _ & Hi & H).
  { apply firstn_all. }
  destruct f.
  - left. destruct H as (l1 & x & l2 & -> & _ & Hx). exists l1, x, l2. split_and!; [done| |done].
    apply add_level_found; [|done]. intros y Hy. apply (cmp_lt_eq _ y x); [|done].
    apply sorted_by_app in Hs as (_ & _ & H). apply H; [done|by left].
  - right. exists (take i l), (drop i l). destruct H as [H1 H2].
    split_and!; [by rewrite take_drop| |done|done].
    rewrite <- (take_drop i l) at 1. by apply add_level_new.
Qed.

Lemma add_level_sorted o l :
  sorted_by (level_cmp bid) l -> sorted_by (level_cmp bid) (add_level bid o l).
Proof.
  intros Hs. destruct (add_level_cases o l Hs) as [(l1 & x & l2 & -> & -> & Hx)|(l1 & l2 & -> & -> & ? & ?)].
  - apply (sorted_by_replace_middle _ _ x); [|done]. unfold level_cmp. simpl.
    destruct bid; apply cmp_refl.
  - by apply sorted_by_insert_middle.
Qed.

Lemma add_level_priced o l :
  priced_order o -> Forall priced l -> Forall priced (add_level bid o l).
Proof.
  intros Ho Hl. induction Hl as [|x l Hx Hl IH]; simpl; [by repeat constructor|].
  destruct (_ =? 0); [by constructor|]. destruct (_ <? 0); by repeat constructor.
Qed.
Lemma level_at_none price l :
  (forall y, y ∈ l -> double_eqb (level_price y) price = false) -> level_at price l = None.
Proof.
  induction l as [|x l IH]; intros H; simpl; [done|]. rewrite H by left. apply IH.
  intros y Hy. apply H. by right.
Qed.

Lemma level_at_some price l y :
  y ∈ l -> double_eqb (level_price y) price = true -> is_Some (level_at price l).
Proof.
  intros H E. induction H as [l|y x l _ IH]; simpl; [by rewrite E|].
  destruct (double_eqb (level_price x) price); [done|by apply IH].
Qed.

(** Levels that differ in the order have different prices. *)
Lemma level_cmp_differ x y price :
  priced x -> priced y -> level_cmp bid x y < 0 ->
  double_eqb (level_price x) price = true -> double_eqb (level_price y) price = false.
Proof.
  intros Hx Hy Hlt Hp. destruct (double_eqb (level_price y) price) eqn:E; [|done].
  rewrite double_eqb_sym in E. pose proof (double_eqb_trans _ _ _ Hp E) as H.
  apply (level_cmp_zero bid) in H; [lia|done|done].
Qed.


Lemma level_at_add price o l :
  priced_order o -> Forall priced l -> sorted_by (level_cmp bid) l ->
  level_at price (add_level bid o l) = aggregate_step price (level_at price l) o.
Proof.
  intros Ho Hl Hs. unfold aggregate_step.
  induction l as [|x l IH]; simpl; [by destruct (double_eqb (order_price o) price)|].
  inversion_clear Hl as [|? ? Hx Hl']. inversion_clear Hs as [|? ? Hs' Hall].
  destruct (Z.eqb_spec (level_cmp bid x (order_level o)) 0) as [E|E].
  { apply level_cmp_zero in E; [|done|done]. cbn [level_price order_level] in E. cbn [level_at level_price join_level].
    destruct (double_eqb (level_price x) price) eqn:Ex.
    - rewrite double_eqb_sym in E. by rewrite (double_eqb_trans _ _ _ E Ex).
    - destruct (double_eqb (order_price o) price) eqn:Eo; [|done].
      by rewrite (double_eqb_trans _ _ _ E Eo) in Ex. }
  destruct (Z.ltb_spec (level_cmp bid x (order_level o)) 0) as [Hlt|Hge]; cbn [level_at].
  { destruct (double_eqb (level_price x) price) eqn:Ex; [|by apply IH].
    assert (double_eqb (order_price o) price = false) as ->; [|done].
    exact (level_cmp_differ x (order_level o) price Hx Ho Hlt Ex). }
  cbn [level_price order_level]. destruct (double_eqb (order_price o) price) eqn:Eo; [|done].
  assert (level_cmp bid (order_level o) x < 0) as Hox by (apply (cmp_gt (level_cmp bid)); lia).
  rewrite (level_cmp_differ (order_level o) x price Ho Hx Hox Eo), level_at_none; [done|].
  intros y Hy. rewrite Forall_forall in Hall, Hl'.
  apply (level_cmp_differ (order_level o) y); [done|by apply Hl'| |done].
  apply (cmp_trans (order_level o) x y); [done|by apply Hall].
Qed.

(** The complete book of some orders. *)
Definition full_book (orders : list dxf_order_t) : list dxf_price_level_element_t :=
  fold_left (fun l o => add_level bid o l) orders [].

Lemma full_book_spec orders :
  Forall priced_order orders ->
  Forall priced (full_book orders) /\ sorted_by (level_cmp bid) (full_book orders) /\
  forall price, level_at price (full_book orders) = aggregate price orders.
Proof.
  intros Ho. unfold full_book, aggregate.
  induction orders as [|o orders IH] using rev_ind; [split_and!; [done|constructor|done]|].
  apply Forall_app in Ho as [Ho1 Ho2]. inversion_clear Ho2. destruct (IH Ho1) as (H1 & H2 & H3).
  rewrite fold_left_app. simpl. split_and!.
  - by apply add_level_priced.
  - by apply add_level_sorted.
  - intros price. by rewrite level_at_add, fold_left_app, H3.
Qed.
End reference.

(** ** The operations on a side *)

Definition used (ob : dx_plb_price_level_side_t) : list dxf_price_level_element_t :=
  take (side_count ob) (side_levels ob).

(** The invariant of a side: at most ten levels, sorted, none with a NaN price. *)
Record side_ok (bid : bool) (ob : dx_plb_price_level_side_t) : Prop := {
  ok_cmp : side_cmp ob = side_comparator bid;
  ok_length : length (side_levels ob) = MAX_PRICE_LEVELS;
  ok_count : (side_count ob <= MAX_PRICE_LEVELS)%nat;
  ok_priced : Forall priced (used ob);
  ok_sorted : sorted_by (level_cmp bid) (used ob);
}.

(** A side as a list of levels: the levels, whether it has to be made anew from
    the orders, and whether it has changed. *)
Record side_view : Type := SideView {
  sv_levels : list dxf_price_level_element_t;
  sv_rebuild : bool;
  sv_updated : bool;
}.
Definition view (ob : dx_plb_price_level_side_t) : side_view :=
  SideView (used ob) (side_rebuild ob) (side_updated ob).

(** What an order that comes and one that goes do to a side: the one is added
    to the level of its price, of which the best ten are kept; the size of the
    other is subtracted, and a level of no size has the side made anew. *)
Definition view_add (bid : bool) (o : dxf_order_t) (v : side_view) : side_view :=
  let l := take MAX_PRICE_LEVELS (add_level bid o (sv_levels v)) in
  SideView l (sv_rebuild v) (sv_updated v || bool_decide (is_Some (level_at (order_price o) l))).

Section side.
Context (bid : bool).

Lemma length_used ob : side_ok bid ob -> length (used ob) = side_count ob.
Proof. intros [? ? ? ? ?]. unfold used. rewrite length_take. lia. Qed.

Lemma search_level_spec ob price :
  side_ok bid ob -> double_isnan price = false ->
  exists found pos, search_level ob price = Some (found, pos) /\ (pos <= side_count ob)%nat /\
    if found
    then exists l1 x l2, used ob = l1 ++ x :: l2 /\ length l1 = pos /\
      level_cmp bid x (price_key price) = 0
    else (forall y, y ∈ take pos (used ob) -> level_cmp bid y (price_key price) < 0) /\
         (forall y, y ∈ drop pos (used ob) -> level_cmp bid (price_key price) y < 0).
Proof.
  intros Hok Hp. pose proof (length_used ob Hok) as Hlen. destruct Hok as [Hcmp Hl Hc Hpr Hs].
  unfold search_level. rewrite Hcmp, (binary_search_ext _ (level_cmp bid)).
  - rewrite <- Hlen. apply (sorted_search (level_cmp bid) (used ob)); [done|]. by rewrite Hlen.
  - intros i x Hi Hx. apply side_comparator_total; [|done]. rewrite Forall_forall in Hpr.
    apply Hpr. apply list_elem_of_lookup. exists i. unfold used. by rewrite lookup_take_lt by lia.
Qed.

Lemma side_ok_make count levels rebuild updated :
  length levels = MAX_PRICE_LEVELS -> (count <= MAX_PRICE_LEVELS)%nat ->
  Forall priced (take count levels) -> sorted_by (level_cmp bid) (take count levels) ->
  side_ok bid (PriceLevelSide count levels (side_comparator bid) rebuild updated).
Proof. by constructor. Qed.

Lemma drop_used ob : exists rest, side_levels ob = used ob ++ rest.
Proof. exists (drop (side_count ob) (side_levels ob)). unfold used. by rewrite take_drop. Qed.

Lemma update_order_level x o : level_cmp bid x (price_key (order_price o)) = level_cmp bid x (order_level o).
Proof. by apply level_cmp_key. Qed.
Lemma update_order_level' y o : level_cmp bid (price_key (order_price o)) y = level_cmp bid (order_level o) y.
Proof. unfold level_cmp. by destruct bid. Qed.

(** Replacing a level by one of the same price. *)
Lemma side_replace ob l1 x x' l2 rebuild updated :
  side_ok bid ob -> used ob = l1 ++ x :: l2 -> level_price x' = level_price x ->
  exists levels,
    side_levels ob !! length l1 = Some x /\
    write_at (side_levels ob) (length l1) x' = Some levels /\
    take (side_count ob) levels = l1 ++ x' :: l2 /\
    side_ok bid (PriceLevelSide (side_count ob) levels (side_cmp ob) rebuild updated).
Proof.
  intros Hok Hu Hp. pose proof (length_used ob Hok) as Hlen.
  destruct (drop_used ob) as [rest Hr]. destruct Hok as [Hcmp Hl Hc Hpr Hso].
  rewrite Hu in Hlen, Hpr, Hso, Hr.
  assert (side_levels ob = l1 ++ x :: (l2 ++ rest)) as E by (rewrite Hr, <- app_assoc; done).
  rewrite E, list_lookup_middle, write_at_app, Hcmp by done.
  assert (take (side_count ob) (l1 ++ x' :: l2 ++ rest) = l1 ++ x' :: l2) as Ht.
  { change (x' :: l2 ++ rest) with ((x' :: l2) ++ rest). rewrite app_assoc, <- Hlen.
    apply take_app_length'. rewrite !length_app. done. }
  eexists. split_and!; [done|done|done|]. apply side_ok_make; rewrite ?Ht; [|done| |].
  - rewrite <- Hl, E, !length_app. done.
  - apply Forall_app in Hpr as [? H]. inversion_clear H. apply Forall_app. split; [done|].
    constructor; [|done]. unfold priced. by rewrite Hp.
  - apply (sorted_by_replace_middle _ _ x); [|done]. unfold level_cmp. rewrite Hp.
    destruct bid; apply cmp_refl.
Qed.

(** A price between two neighbours of a side has no level there. *)
Lemma level_differs ob o pos :
  side_ok bid ob -> priced_order o ->
  (forall y, y ∈ take pos (used ob) -> level_cmp bid y (price_key (order_price o)) < 0) ->
  (forall y, y ∈ drop pos (used ob) -> level_cmp bid (price_key (order_price o)) y < 0) ->
  level_at (order_price o) (used ob) = None.
Proof.
  intros [_ _ _ Hpr _] Ho H1 H2. apply level_at_none. intros y Hy.
  rewrite Forall_forall in Hpr. destruct (double_eqb (level_price y) _) eqn:E; [|done]. exfalso.
  apply (level_cmp_zero bid y (price_key (order_price o))) in E; [|by apply Hpr|done].
  rewrite <- (take_drop pos (used ob)) in Hy. apply elem_of_app in Hy as [Hy|Hy]; [specialize (H1 y Hy); lia|].
  specialize (H2 y Hy). apply (cmp_gt (level_cmp bid)) in H2. lia.
Qed.


(** Shifting [n] elements and storing at the gap. *)
Lemma blit_insert {A} (l : list A) pos n x :
  (pos + 1 + n <= length l)%nat ->
  exists l', blit l pos l (pos + 1) n = Some l' /\
    write_at l' pos x = Some (take pos l ++ x :: take n (drop pos l) ++ drop (pos + 1 + n) l).
Proof.
  intros Hl. eexists. rewrite blit_in by lia. split; [done|].
  destruct (lookup_lt_is_Some_2 l pos) as [y Hy]; [lia|].
  rewrite (Nat.add_1_r pos), (take_S_r _ _ _ Hy), <- (app_assoc _ [y]); simpl.
  by rewrite write_at_app by (rewrite length_take; lia).
Qed.

Lemma take_gap {A} (l : list A) pos n x :
  (pos + 1 + n <= length l)%nat ->
  take (pos + 1 + n) (take pos l ++ x :: take n (drop pos l) ++ drop (pos + 1 + n) l) =
    take pos l ++ x :: take n (drop pos l).
Proof.
  intros Hl. change (x :: take n (drop pos l) ++ drop (pos + 1 + n) l)
    with ((x :: take n (drop pos l)) ++ drop (pos + 1 + n) l).
  rewrite app_assoc. apply take_app_length'. rewrite length_app, length_take. simpl.
  rewrite length_take, length_drop. lia.
Qed.
Lemma sorted_take n l : sorted_by (level_cmp bid) l -> sorted_by (level_cmp bid) (take n l).
Proof. rewrite <- (take_drop n l) at 1. intros H. by apply sorted_by_app in H as (? & _). Qed.

(** Inserting the level of an order at its place, [n] levels of those behind
    it being kept. *)
Lemma insert_side ob o pos n rebuild updated :
  side_ok bid ob -> priced_order o -> (pos + n <= side_count ob)%nat ->
  (pos + 1 + n <= MAX_PRICE_LEVELS)%nat ->
  (forall y, y ∈ take pos (used ob) -> level_cmp bid y (order_level o) < 0) ->
  (forall y, y ∈ drop pos (used ob) -> level_cmp bid (order_level o) y < 0) ->
  let levels := take pos (side_levels ob) ++ order_level o :: take n (drop pos (side_levels ob)) ++
                drop (pos + 1 + n) (side_levels ob) in
  take (pos + 1 + n) levels = take (pos + 1 + n) (add_level bid o (used ob)) /\
  side_ok bid (PriceLevelSide (pos + 1 + n) levels (side_cmp ob) rebuild updated) /\
  order_level o ∈ take (pos + 1 + n) levels.
Proof.
  intros Hok Ho Hn Hmax H1 H2 levels.
  pose proof Hok as [Hcmp Hl Hc Hpr Hso]. unfold MAX_PRICE_LEVELS in *.
  assert (take (pos + 1 + n) levels = take (pos + 1 + n) (add_level bid o (used ob))) as E.
  { unfold levels. rewrite take_gap by lia. rewrite <- (take_drop pos (used ob)), add_level_new by done.
    assert (take pos (side_levels ob) = take pos (used ob)) as <-
      by (unfold used; rewrite take_take; f_equal; lia).
    rewrite take_app_ge by (rewrite length_take; lia). f_equal. rewrite length_take.
    replace (pos + 1 + n - pos `min` length (side_levels ob))%nat with (S n) by lia. simpl. f_equal.
    unfold used. rewrite <- (Nat.sub_add pos (side_count ob)) by lia.
    rewrite Nat.add_comm, <- take_drop_commute, take_take. f_equal. lia. }
  split; [done|]. split; [|unfold levels; rewrite take_gap by lia; set_solver].
  rewrite Hcmp. apply side_ok_make; rewrite ?E.
  - unfold levels, MAX_PRICE_LEVELS. rewrite length_app. simpl. rewrite length_app, !length_take, !length_drop. lia.
  - done.
  - apply Forall_take. by apply add_level_priced.
  - by apply sorted_take, add_level_sorted.
Qed.

(** The buffer of a side with room for one more level. *)
Lemma insert_with_room ob o pos :
  length (side_levels ob) = MAX_PRICE_LEVELS -> (pos <= side_count ob)%nat ->
  (side_count ob < MAX_PRICE_LEVELS)%nat ->
  exists l',
    (if (pos <? side_count ob)%nat
     then blit (side_levels ob) pos (side_levels ob) (pos + 1) (side_count ob - pos)
     else Some (side_levels ob)) = Some l' /\
    write_at l' pos (order_level o) = Some (take pos (side_levels ob) ++ order_level o ::
      take (side_count ob - pos) (drop pos (side_levels ob)) ++
      drop (pos + 1 + (side_count ob - pos)) (side_levels ob)).
Proof.
  unfold MAX_PRICE_LEVELS. intros Hl Hpos Hc. destruct (Nat.ltb_spec pos (side_count ob)).
  - apply blit_insert. lia.
  - eexists. split; [done|]. replace (side_count ob - pos)%nat with 0%nat by lia.
    rewrite Nat.add_0_r, Nat.add_1_r. rewrite write_at_in, insert_take_drop by lia. done.
Qed.

Lemma length_add_level o l : (length (add_level bid o l) <= S (length l))%nat.
Proof.
  induction l as [|x l IH]; simpl; [done|].
  destruct (_ =? 0); simpl; [lia|]. destruct (_ <? 0); simpl; lia.
Qed.

(** What is to be shown of a side to which an order is added. *)
Definition added (ob : dx_plb_price_level_side_t) (o : dxf_order_t)
  (ob' : dx_plb_price_level_side_t) : Prop :=
  side_ok bid ob' /\ view ob' = view_add bid o (view ob).

(** The level of an order is among those of a side that has it. *)
Lemma added_make ob o ob' y :
  side_ok bid ob' -> used ob' = take MAX_PRICE_LEVELS (add_level bid o (used ob)) ->
  side_rebuild ob' = side_rebuild ob -> side_updated ob' = true ->
  y ∈ used ob' -> priced_order o -> level_cmp bid y (order_level o) = 0 -> added ob o ob'.
Proof.
  intros Hok Hu Hr Hup Hy Ho Hc. split; [done|]. unfold view, view_add.
  cbn [sv_levels sv_rebuild sv_updated].
  rewrite <- Hu, Hr, Hup, (bool_decide_eq_true_2 (is_Some _)); [by rewrite orb_true_r|].
  apply (level_at_some _ _ y); [done|]. apply (level_cmp_zero bid y (order_level o)); [|done|done].
  destruct Hok as [_ _ _ Hpr _]. rewrite Forall_forall in Hpr. by apply Hpr.
Qed.

Lemma added_found ob o l1 x l2 :
  side_ok bid ob -> priced_order o -> used ob = l1 ++ x :: l2 ->
  level_cmp bid x (order_level o) = 0 ->
  exists levels, side_levels ob !! length l1 = Some x /\
    write_at (side_levels ob) (length l1) (join_level x o) = Some levels /\
    added ob o (PriceLevelSide (side_count ob) levels (side_cmp ob) (side_rebuild ob) true).
Proof.
  intros Hok Ho Hu Hx. pose proof (length_used ob Hok) as Hlen. pose proof Hok as [_ _ Hc _ Hso].
  destruct (side_replace ob l1 x (join_level x o) l2 (side_rebuild ob) true)
    as (levels & Hlk & Hw & Ht & Hok'); [done..|].
  exists levels. split_and!; [done|done|].
  apply (added_make _ _ _ (join_level x o)); try done; unfold used at 1; cbn [side_count side_levels];
    rewrite Ht; [|set_solver].
  rewrite Hu, add_level_found; [| |done].
  - symmetry. apply take_ge. rewrite Hu in Hlen. rewrite length_app in *. simpl in *. lia.
  - intros y Hy. apply (cmp_lt_eq (level_cmp bid) y x); [|done].
    rewrite Hu in Hso. apply sorted_by_app in Hso as (_ & _ & H). apply H; [done|by left].
Qed.

(** Adding an order keeps the best ten levels of the book with the order. *)
Lemma add_order_spec ob o :
  side_ok bid ob -> priced_order o ->
  exists ob', dx_plb_source_add_order_to_levels ob o = Some ob' /\ added ob o ob'.
Proof.
  intros Hok Ho. pose proof (length_used ob Hok) as Hlen. pose proof Hok as [Hcmp Hl Hc Hpr Hso].
  destruct (search_level_spec ob (order_price o) Hok Ho) as (f & pos & Hs & Hpos & Hf).
  unfold dx_plb_source_add_order_to_levels. rewrite Hs. cbn [mbind option_bind]. destruct f.
  { destruct Hf as (l1 & x & l2 & Hu & <- & Hx). rewrite update_order_level in Hx.
    destruct (added_found ob o l1 x l2 Hok Ho Hu Hx) as (levels & Hlk & Hw & Ha).
    unfold join_level in Hw. rewrite Hlk. cbn [mbind option_bind]. rewrite Hw. cbn [mbind option_bind].
    by eexists. }
  destruct Hf as [H1 H2]. pose proof (level_differs ob o pos Hok Ho H1 H2) as Hno.
  unfold MAX_PRICE_LEVELS in *.
  assert (forall y, y ∈ take pos (used ob) -> level_cmp bid y (order_level o) < 0) as H1'
    by (intros; rewrite <- update_order_level; auto).
  assert (forall y, y ∈ drop pos (used ob) -> level_cmp bid (order_level o) y < 0) as H2'
    by (intros; rewrite <- update_order_level'; auto). clear H1 H2.
  pose proof (insert_side ob o pos) as Hins. unfold MAX_PRICE_LEVELS in Hins.
  destruct (Nat.eqb_spec (side_count ob) 10) as [E|E].
  - destruct (Nat.ltb_spec pos (side_count ob)) as [Hlt|Hge]; cbn [andb].
    + destruct (blit_insert (side_levels ob) pos (side_count ob - pos - 1) (order_level o))
        as (l' & -> & Hw); [lia|]. cbn [mbind option_bind]. rewrite Hw. cbn [mbind option_bind].
      destruct (Hins (side_count ob - pos - 1)%nat (side_rebuild ob) true)
        as (Ht & Hok' & Hin); [done|done|lia|lia|done|done|].
      replace (pos + 1 + (side_count ob - pos - 1))%nat with (side_count ob) in * by lia.
      eexists. split; [done|]. apply (added_make _ _ _ (order_level o)); try done; [|apply cmp_refl].
      unfold used at 1; cbn [side_count side_levels]. by rewrite Ht, E.
    + rewrite E. cbn. exists ob. split; [done|]. split; [done|]. unfold view, view_add.
      cbn [sv_levels sv_rebuild sv_updated]. pose proof (add_level_new bid (used ob) [] o) as Hn.
      rewrite app_nil_r in Hn. rewrite Hn; [|by rewrite take_ge in H1' by lia|set_solver].
      unfold MAX_PRICE_LEVELS. rewrite take_app_le, take_ge, Hno by lia. by rewrite orb_false_r.
  - rewrite andb_false_r. destruct (Nat.ltb_spec (side_count ob) 10); [|lia].
    destruct (insert_with_room ob o pos) as (l' & -> & Hw); [done|done|done|].
    cbn [mbind option_bind]. rewrite Hw. cbn [mbind option_bind].
    destruct (Hins (side_count ob - pos)%nat (side_rebuild ob) true)
      as (Ht & Hok' & Hin); [done|done|lia|lia|done|done|].
    replace (pos + 1 + (side_count ob - pos))%nat with (S (side_count ob)) in * by lia.
    eexists. split; [done|]. apply (added_make _ _ _ (order_level o)); try done; [|apply cmp_refl].
    unfold used at 1; cbn [side_count side_levels]. rewrite Ht. unfold MAX_PRICE_LEVELS.
    pose proof (length_add_level o (used ob)).
    by rewrite !take_ge by lia.
Qed.
End side.

(** ** Rebuilding a side *)

Definition side_of (bid : bool) : dxf_order_side_t := if bid then dxf_osd_buy else dxf_osd_sell.

(** The orders a side is made of. *)
Definition side_orders (bid : bool) (orders : list dxf_order_t) : list dxf_order_t :=
  filter (fun o => order_side o = side_of bid /\ double_eqb (order_size o) double_zero = false) orders.

Lemma rebuild_loop_spec bid orders ob full :
  side_ok bid ob -> used ob = take MAX_PRICE_LEVELS full -> Forall priced_order orders ->
  exists ob', rebuild_loop orders ob (side_of bid) = Some ob' /\ side_ok bid ob' /\
    used ob' =
      take MAX_PRICE_LEVELS (fold_left (fun l o => add_level bid o l) (side_orders bid orders) full).
Proof.
  revert ob full. induction orders as [|o orders IH]; intros ob full Hok Hu Ho; [by exists ob|].
  inversion_clear Ho as [|? ? Hp Ho']. cbn [rebuild_loop]. unfold side_orders. cbn [filter list_filter].
  destruct (bool_decide_reflect (order_side o = side_of bid)) as [Es|Es];
    destruct (double_eqb (order_size o) double_zero) eqn:Ez; cbn [negb orb].
  1,3,4: destruct (decide _) as [[? ?]|_]; [congruence|]; by apply IH.
  destruct (decide _) as [_|H]; [|by destruct H].
  destruct (add_order_spec bid ob o Hok Hp) as (ob1 & -> & Hok1 & Hv).
  apply IH; [done| |done]. injection Hv as -> _ _. by rewrite Hu, <- take_add_level.
Qed.

Lemma used_empty cmp rebuild updated levels : used (PriceLevelSide 0 levels cmp rebuild updated) = [].
Proof. done. Qed.

Lemma side_ok_empty bid rebuild updated levels :
  length levels = MAX_PRICE_LEVELS ->
  side_ok bid (PriceLevelSide 0 levels (side_comparator bid) rebuild updated).
Proof. intros H. constructor; simpl; [done|done|lia|constructor|constructor]. Qed.

Lemma rebuild_levels_spec bid snapshot ob :
  side_cmp ob = side_comparator bid -> Forall priced_order (contents snapshot) ->
  exists ob', dx_plb_source_rebuild_levels snapshot ob (side_of bid) = Some ob' /\
    side_ok bid ob' /\ side_rebuild ob' = false /\ side_updated ob' = true /\
    used ob' = take MAX_PRICE_LEVELS (full_book bid (side_orders bid (contents snapshot))).
Proof.
  intros Hcmp Ho. unfold dx_plb_source_rebuild_levels. rewrite Hcmp.
  destruct (rebuild_loop_spec bid (contents snapshot)
    (PriceLevelSide 0 zero_levels (side_comparator bid) (side_rebuild ob) (side_updated ob)) [])
    as (ob' & -> & Hok & Hu); [by apply side_ok_empty|done|done|].
  cbn [mbind option_bind]. eexists. split; [done|]. split; [|done].
  destruct Hok. by constructor.
Qed.

(** ** The orders as a map *)







Section find.
Context (a : dx_array dxf_order_t) (o : dxf_order_t).
Context (Hwf : array_wf a) (Hs : sorted_by dx_plb_order_comparator (contents a)).


End find.








Section process.
Context (alloc : nat -> bool) (Halloc : forall n, alloc n = true).
















End process.

(** ** Properties *)

(** C5: rebuilding a side gives the best ten levels of the complete book: the
    book sorted by price in which the level of each price adds up the orders of
    that price on that side, and nothing else. *)
Theorem rebuild_best_levels (bid : bool) (snapshot : dx_array dxf_order_t)
  (ob : dx_plb_price_level_side_t) :
  side_cmp ob = side_comparator bid -> Forall priced_order (contents snapshot) ->
  exists ob' book, dx_plb_source_rebuild_levels snapshot ob (side_of bid) = Some ob' /\
    used ob' = take MAX_PRICE_LEVELS book /\
    sorted_by (level_cmp bid) book /\ Forall priced book /\
    (forall price, level_at price book = aggregate price (side_orders bid (contents snapshot))) /\
    side_rebuild ob' = false /\ side_updated ob' = true.
Proof.
  intros Hcmp Hp. destruct (rebuild_levels_spec bid snapshot ob Hcmp Hp) as (ob' & H1 & _ & H2 & H3 & H4).
  assert (Forall priced_order (side_orders bid (contents snapshot))) as Hs.
  { apply Forall_forall. intros o [_ Ho]%list_elem_of_filter. rewrite Forall_forall in Hp. by apply Hp. }
  destruct (full_book_spec bid _ Hs) as (H5 & H6 & H7).
  exists ob', (full_book bid (side_orders bid (contents snapshot))). by split_and!.
Qed.






(** An order of the source N with an index, a price, a size and a side, and the
    doubles 10, 0.1 and 0.2. *)
Definition order_example (index : Z) (price size : dxf_double_t) (side : dxf_order_side_t)
  : dxf_order_t :=
  Build_dxf_order_t [78] 0 index 0 0 0 dxf_oa_undefined 0 0 0 price size double_zero double_zero 0
    double_zero double_zero 0 side dxf_osc_order None.
Definition d10 : dxf_double_t := S754_finite false 5629499534213120 (-49).
Definition d0_1 : dxf_double_t := S754_finite false 7205759403792794 (-56).
Definition d0_2 : dxf_double_t := S754_finite false 7205759403792794 (-55).

Lemma rebuild_best_levels_witness :
  exists ob' book,
    dx_plb_source_rebuild_levels (DxArray [order_example 1 d10 d0_1 dxf_osd_buy] 1 1)
      (new_side dx_plb_pricelvel_comparator_bid) dxf_osd_buy = Some ob' /\
    used ob' = take MAX_PRICE_LEVELS book /\
    sorted_by (level_cmp true) book /\ Forall priced book /\
    (forall price, level_at price book =
       aggregate price (side_orders true [order_example 1 d10 d0_1 dxf_osd_buy])) /\
    side_rebuild ob' = false /\ side_updated ob' = true.
Proof.
  apply (rebuild_best_levels true (DxArray [order_example 1 d10 d0_1 dxf_osd_buy] 1 1)).
  - reflexivity.
  - by repeat constructor.
Defined.


(** Run the handler on events with flags. *)
Fixpoint run_orders (events : list (dxf_order_t * Z)) (s : dx_plb_source_t) (notify : bool)
  : option (dx_plb_source_t * bool) :=
  match events with
  | [] => Some (s, notify)
  | (o, flags) :: events' =>
      r ← plb_event_listener (fun _ => true) DXF_ET_ORDER (ps_symbol s) (ev_order o)
            (EventParams flags (order_index o) 0) s;
      let '(s, n) := r in run_orders events' s n
  end.

(** A level can outlive its orders.  Orders of 0.1 and 0.2 at one price are
    added and removed again: the sizes are subtracted as doubles, a rest of 2^-55
    stays, the side is not rebuilt, and the level is published although the
    source has no order left. *)
Theorem residual_level :
  exists s level,
    run_orders
      [(order_example 5 d10 d0_1 dxf_osd_buy, 0); (order_example 3 d10 d0_2 dxf_osd_buy, 0);
       (order_example 5 d10 d0_1 dxf_osd_buy, dxf_ef_remove_event);
       (order_example 3 d10 d0_2 dxf_osd_buy, dxf_ef_remove_event)]
      (new_source [65] [78]) false = Some (s, true) /\
    contents (ps_snapshot s) = [] /\ used (ps_final_bids s) = [level] /\
    level_price level = d10 /\ level_size level = S754_finite false 4503599627370496 (-107).
Proof. eexists _, _. vm_compute. repeat split; reflexivity. Qed.
