(* ===== verification/SourceTable.v ===== *)
(** * SourceTable: the hash table of sources of [src/PriceLevelBook.c]

    The sources of a connection are kept in an open-addressing table with
    linear probing.  [dx_plb_source_find_pos] is the probe,
    [dx_plb_ctx_add_source] and [dx_plb_ctx_remove_source] the updates, the
    latter shifting entries back into the hole it leaves.  An entry stands for
    a source: its address and the fields the table reads.  The theorems: the
    probe stops and finds what is in the table, removal loses no other entry,
    growing the table reads a null pointer, and clearing a connection misses
    sources. *)

From S2P Require Import Prelude.
Local Open Scope Z_scope.

Record src_entry : Type := SrcEntry {
  e_id : Z;
  e_hash : Z;
  e_symbol : list Z;
  e_source : list Z;
}.

#[export] Instance src_entry_eq_dec : EqDecision src_entry.
Proof. solve_decision. Defined.

(** [sources], [src_size] and [src_capacity] of the connection context. *)
Record dx_plb_connection_context_t : Type := PlbContext {
  ctx_sources : list (option src_entry);
  src_size : nat;
  src_capacity : nat;
}.

Section table.
(** [dx_symbol_name_hasher], the 64-bit hash of a string, and whether
    [dx_calloc] of so many elements succeeds. *)
Context (dx_symbol_name_hasher : list Z -> Z) (alloc : nat -> bool).

Definition dx_plb_source_hash (symbol src : list Z) : Z :=
  Z.lor (u64 (Z.shiftl (u64 (dx_symbol_name_hasher symbol)) 32)) (u64 (dx_symbol_name_hasher src)).

(** The slot a hash belongs to. *)
Definition home (capacity : nat) (hash : Z) : nat := Z.to_nat (hash mod Z.of_nat capacity).

Definition same_key (e : src_entry) (hash : Z) (symbol src : list Z) : bool :=
  (e_hash e =? hash) && bool_decide (e_symbol e = symbol) && bool_decide (e_source e = src).

(** The loop of the probe; [None] is an access outside of the table or, when
    the fuel runs out, a probe that does not stop. *)
Fixpoint find_pos_loop (fuel : nat) (slots : list (option src_entry)) (capacity : nat)
  (hash : Z) (symbol src : list Z) (i : nat) : option nat :=
  match fuel with
  | O => None
  | S fuel' =>
      s ← slots !! i;
      match s with
      | None => Some i
      | Some e =>
          if same_key e hash symbol src then Some i
          else find_pos_loop fuel' slots capacity hash symbol src ((i + 1) mod capacity)
      end
  end.

Definition dx_plb_source_find_pos (ctx : dx_plb_connection_context_t) (symbol src : list Z)
  : option nat :=
  let hash := dx_plb_source_hash symbol src in
  find_pos_loop (S (src_capacity ctx)) (ctx_sources ctx) (src_capacity ctx) hash symbol src
    (home (src_capacity ctx) hash).

Definition dx_plb_ctx_find_source (ctx : dx_plb_connection_context_t) (symbol src : list Z)
  : option (option src_entry) :=
  pos ← dx_plb_source_find_pos ctx symbol src; ctx_sources ctx !! pos.

(** A slot is read through, so an empty one is a null pointer dereference. *)
Fixpoint grow_loop (old : list (option src_entry)) (ctx : dx_plb_connection_context_t)
  : option dx_plb_connection_context_t :=
  match old with
  | [] => Some ctx
  | s :: old' =>
      e ← s;
      pos ← dx_plb_source_find_pos ctx (e_symbol e) (e_source e);
      slots ← write_at (ctx_sources ctx) pos (Some e);
      grow_loop old' (PlbContext slots (src_size ctx) (src_capacity ctx))
  end.

(** The boolean is the result of the C function. *)
Definition dx_plb_ctx_grow_sources_hashtable (ctx : dx_plb_connection_context_t)
  : option (dx_plb_connection_context_t * bool) :=
  let capacity := (src_capacity ctx * 2)%nat in
  if alloc capacity then
    ctx ← grow_loop (take (src_capacity ctx) (ctx_sources ctx))
            (PlbContext (replicate capacity None) (src_size ctx) capacity);
    Some (ctx, true)
  else Some (ctx, false).

Definition dx_plb_ctx_add_source (ctx : dx_plb_connection_context_t) (source : src_entry)
  : option (dx_plb_connection_context_t * bool) :=
  pos ← dx_plb_source_find_pos ctx (e_symbol source) (e_source source);
  let store ctx pos :=
    slots ← write_at (ctx_sources ctx) pos (Some source);
    Some (PlbContext slots (S (src_size ctx)) (src_capacity ctx), true) in
  if (src_capacity ctx / 2 <? src_size ctx)%nat then
    r ← dx_plb_ctx_grow_sources_hashtable ctx;
    let '(ctx, grown) := r in
    if negb grown then Some (ctx, false)
    else
      pos ← dx_plb_source_find_pos ctx (e_symbol source) (e_source source);
      store ctx pos
  else store ctx pos.

(** Whether the entry at [npos] may fill the hole at [pos], [tpos] being its
    first slot. *)
Definition may_move (pos npos tpos : nat) : bool :=
  ((pos <? npos) && ((tpos <=? pos) || (npos <? tpos)) ||
   (npos <? pos) && ((tpos <=? pos) && (npos <? tpos)))%nat.

(** The loop of the removal; the result is the table and the last hole. *)
Fixpoint shift_loop (fuel : nat) (slots : list (option src_entry)) (capacity pos npos : nat)
  : option (list (option src_entry) * nat) :=
  match fuel with
  | O => None
  | S fuel' =>
      let npos := ((npos + 1) mod capacity)%nat in
      s ← slots !! npos;
      match s with
      | None => Some (slots, pos)
      | Some e =>
          let tpos := home capacity (dx_plb_source_hash (e_symbol e) (e_source e)) in
          if may_move pos npos tpos then
            slots ← write_at slots pos (Some e);
            shift_loop fuel' slots capacity npos npos
          else shift_loop fuel' slots capacity pos npos
      end
  end.

Definition dx_plb_ctx_remove_source (ctx : dx_plb_connection_context_t) (source : src_entry)
  : option (dx_plb_connection_context_t * bool) :=
  pos ← dx_plb_source_find_pos ctx (e_symbol source) (e_source source);
  s ← ctx_sources ctx !! pos;
  if negb (match s with Some e => e_id e =? e_id source | None => false end)
  then Some (ctx, false)
  else
    r ← shift_loop (S (src_capacity ctx)) (ctx_sources ctx) (src_capacity ctx) pos pos;
    let '(slots, pos) := r in
    slots ← write_at slots pos None;
    Some (PlbContext slots (src_size ctx - 1) (src_capacity ctx), true).

(** The sweep over the table that removes the sources without consumers; the
    list is the sources that are cleared. *)
Fixpoint cleanup_loop (fuel : nat) (unused : Z -> bool) (ctx : dx_plb_connection_context_t) (i : nat)
  (cleared : list Z) : option (dx_plb_connection_context_t * list Z) :=
  match fuel with
  | O => None
  | S fuel' =>
      if (i <? src_capacity ctx)%nat then
        s ← ctx_sources ctx !! i;
        match s with
        | None => cleanup_loop fuel' unused ctx (S i) cleared
        | Some e =>
            if unused (e_id e) then
              r ← dx_plb_ctx_remove_source ctx e;
              cleanup_loop fuel' unused r.1 i (cleared ++ [e_id e])
            else cleanup_loop fuel' unused ctx (S i) cleared
        end
      else Some (ctx, cleared)
  end.

Definition dx_plb_ctx_cleanup_sources (unused : Z -> bool) (ctx : dx_plb_connection_context_t)
  : option (dx_plb_connection_context_t * list Z) :=
  cleanup_loop (S (src_capacity ctx + src_size ctx)) unused ctx 0 [].

(** The sources that closing a connection clears: the loop runs up to [src_size]. *)
Fixpoint clear_loop (n i : nat) (slots : list (option src_entry)) : option (list Z) :=
  match n with
  | O => Some []
  | S n' =>
      s ← slots !! i;
      rest ← clear_loop n' (S i) slots;
      Some (match s with Some e => e_id e :: rest | None => rest end)
  end.

Definition dx_plb_clear_connection_context (ctx : dx_plb_connection_context_t) : option (list Z) :=
  clear_loop (src_size ctx) 0 (ctx_sources ctx).

(** The context of a new connection. *)
Definition new_plb_context : dx_plb_connection_context_t :=
  PlbContext (replicate 1024 None) 0 1024.
End table.

(** ** Distances in a table *)

Section distance.
Context (c : nat).

(** How many steps of the probe lead from a slot to another. *)
Definition dist (a b : nat) : nat := if (a <=? b)%nat then b - a else b + c - a.

Ltac dist_lia := unfold dist in *; repeat destruct_match; bool_to_prop; lia.

Lemma next_slot i : (i < c)%nat -> ((i + 1) mod c)%nat = if (i + 1 =? c)%nat then 0%nat else (i + 1)%nat.
Proof.
  intros Hi. destruct (Nat.eqb_spec (i + 1) c) as [->|]; [by apply Nat.Div0.mod_same|].
  apply Nat.mod_small. lia.
Qed.

Lemma dist_next h i z :
  (h < c)%nat -> (i < c)%nat -> (z < c)%nat -> (dist h i < dist h z)%nat ->
  ((i + 1) mod c < c)%nat /\ dist h ((i + 1) mod c) = S (dist h i).
Proof. intros Hh Hi Hz. rewrite next_slot by done. dist_lia. Qed.

Lemma dist_inj h i j : (i < c)%nat -> (j < c)%nat -> (h < c)%nat -> dist h i = dist h j -> i = j.
Proof. dist_lia. Qed.

Lemma dist_next_toward i z :
  (i < c)%nat -> (z < c)%nat -> i <> z ->
  ((i + 1) mod c < c)%nat /\ S (dist ((i + 1) mod c) z) = dist i z.
Proof. intros Hi Hz. rewrite next_slot by done. dist_lia. Qed.

Lemma dist_self h : dist h h = 0%nat.
Proof. dist_lia. Qed.

Lemma dist_pos a b : (a < c)%nat -> (b < c)%nat -> a <> b -> (0 < dist a b)%nat.
Proof. dist_lia. Qed.

(** A path through [p] is made of two paths. *)
Lemma dist_through h p j k :
  (h < c)%nat -> (p < c)%nat -> (j < c)%nat -> (k < c)%nat ->
  (dist h p < dist h j)%nat -> (dist p k < dist p j)%nat -> (dist h k < dist h j)%nat.
Proof. dist_lia. Qed.

Lemma may_move_dist pos npos tpos :
  (pos < c)%nat -> (npos < c)%nat -> (tpos < c)%nat -> pos <> npos ->
  may_move pos npos tpos = true <-> (dist tpos pos < dist tpos npos)%nat.
Proof.
  intros. unfold may_move, dist.
  destruct (Nat.ltb_spec pos npos), (Nat.leb_spec tpos pos), (Nat.ltb_spec npos tpos),
    (Nat.ltb_spec npos pos), (Nat.leb_spec tpos npos); simpl; split; done || lia.
Qed.

Lemma dist_before_next p n k :
  (p < c)%nat -> (n < c)%nat -> (k < c)%nat -> ((n + 1) mod c)%nat <> p ->
  dist p ((n + 1) mod c) = S (dist p n) /\
  ((dist p k <= dist p ((n + 1) mod c))%nat <->
   (dist p k <= dist p n)%nat \/ k = ((n + 1) mod c)%nat).
Proof. intros Hp Hn Hk. rewrite next_slot by done. dist_lia. Qed.

Lemma dist_full p n k :
  (p < c)%nat -> (n < c)%nat -> (k < c)%nat -> ((n + 1) mod c)%nat = p -> (dist p k <= dist p n)%nat.
Proof. intros Hp Hn Hk. rewrite next_slot by done. dist_lia. Qed.
End distance.

(** ** The invariant of the table *)

Section invariant.
Context (hasher : list Z -> Z).

Abbreviation source_hash := (dx_plb_source_hash hasher).

Definition occupied (slots : list (option src_entry)) (k : nat) : Prop :=
  exists e, slots !! k = Some (Some e).

Definition key_of (e : src_entry) : list Z * list Z := (e_symbol e, e_source e).

(** The number of entries. *)
Fixpoint entry_count (slots : list (option src_entry)) : nat :=
  match slots with
  | [] => 0
  | Some _ :: slots' => S (entry_count slots')
  | None :: slots' => entry_count slots'
  end.

(** The entries of a table outside of a hole, which holds a stale copy. *)
Definition holds_but (slots : list (option src_entry)) (p : nat) (e : src_entry) : Prop :=
  exists j, j <> p /\ slots !! j = Some (Some e).

Definition holds (ctx : dx_plb_connection_context_t) (e : src_entry) : Prop :=
  exists j, ctx_sources ctx !! j = Some (Some e).

Section capacity.
Context (c : nat).

Definition first_slot (e : src_entry) : nat := home c (source_hash (e_symbol e) (e_source e)).

(** Every slot between an entry's first slot and its own is occupied. *)
Definition probing (slots : list (option src_entry)) : Prop :=
  forall j e k, slots !! j = Some (Some e) -> (k < c)%nat ->
    (dist c (first_slot e) k < dist c (first_slot e) j)%nat -> occupied slots k.

Definition distinct_but (slots : list (option src_entry)) (p : nat) : Prop :=
  forall j1 j2 e1 e2, j1 <> p -> j2 <> p -> slots !! j1 = Some (Some e1) ->
    slots !! j2 = Some (Some e2) -> key_of e1 = key_of e2 -> j1 = j2.

Lemma home_lt h : (0 < c)%nat -> (home c h < c)%nat.
Proof.
  intros Hc. unfold home. pose proof (Z.mod_pos_bound h (Z.of_nat c)). lia.
Qed.

Lemma find_loop_spec fuel slots hash symbol src i z :
  (i < c)%nat -> (home c hash < c)%nat -> (z < c)%nat -> slots !! z = Some None -> length slots = c ->
  (dist c (home c hash) i <= dist c (home c hash) z)%nat ->
  (dist c (home c hash) z - dist c (home c hash) i < fuel)%nat ->
  exists pos, find_pos_loop fuel slots c hash symbol src i = Some pos /\ (pos < c)%nat /\
    (forall k, (k < c)%nat ->
       (dist c (home c hash) i <= dist c (home c hash) k < dist c (home c hash) pos)%nat ->
       exists e, slots !! k = Some (Some e) /\ same_key e hash symbol src = false) /\
    (slots !! pos = Some None \/
     exists e, slots !! pos = Some (Some e) /\ same_key e hash symbol src = true).
Proof.
  intros Hi Hh Hz Ez Hlen. revert i Hi. induction fuel as [|fuel IH]; intros i Hi Hle Hf; [lia|].
  cbn [find_pos_loop]. destruct (lookup_lt_is_Some_2 slots i) as [s Hs]; [lia|]. rewrite Hs.
  cbn [mbind option_bind].
  destruct s as [e|]; [|exists i; split_and!; [done|done|lia|by left]].
  destruct (same_key e hash symbol src) eqn:Ek.
  { exists i. split_and!; [done|done|lia|]. right. by exists e. }
  assert (dist c (home c hash) i <> dist c (home c hash) z) as Hne.
  { intros E. apply dist_inj in E; [|done..]. subst. congruence. }
  destruct (dist_next c (home c hash) i z) as [Hn Ed]; [done..|lia|].
  destruct (IH ((i + 1) mod c)%nat Hn) as (pos & -> & Hpos & Hk & Hend); [lia|lia|].
  exists pos. split_and!; [done|done| |done]. intros k Hkc Hkd.
  destruct (decide (dist c (home c hash) k = dist c (home c hash) i)) as [E|E].
  - apply dist_inj in E; [|done..]. subst. by exists e.
  - apply Hk; [done|lia].
Qed.
End capacity.

(** The stored hash is the hash of the key. *)
Definition entry_ok (e : src_entry) : Prop := e_hash e = source_hash (e_symbol e) (e_source e).

(** The invariant; at least one slot is free. *)
Record table_ok (ctx : dx_plb_connection_context_t) : Prop := {
  table_length : length (ctx_sources ctx) = src_capacity ctx;
  table_size : entry_count (ctx_sources ctx) = src_size ctx;
  table_room : (src_size ctx < src_capacity ctx)%nat;
  table_entries : forall e, holds ctx e -> entry_ok e;
  table_probing : probing (src_capacity ctx) (ctx_sources ctx);
  table_distinct : distinct_but (ctx_sources ctx) (src_capacity ctx);
}.

Lemma free_slot (slots : list (option src_entry)) :
  (entry_count slots < length slots)%nat -> exists z, (z < length slots)%nat /\ slots !! z = Some None.
Proof.
  induction slots as [|[e|] slots IH]; simpl; intros H; [lia| |exists 0%nat; split; [lia|done]].
  destruct IH as (z & Hz & E); [lia|]. exists (S z). split; [lia|done].
Qed.

Lemma same_key_spec e symbol src :
  entry_ok e -> same_key e (source_hash symbol src) symbol src = true <-> key_of e = (symbol, src).
Proof.
  unfold entry_ok, same_key, key_of. intros He. rewrite !andb_true_iff, !bool_decide_eq_true.
  split; [intros [[_ ->] ->]; done|]. intros [= E1 E2]. split_and!; [|done|done].
  rewrite He, E1, E2. lia.
Qed.

(** The probe stops at the entry with the key, or at a free slot that the key
    could take when there is none. *)
Lemma find_pos_spec ctx symbol src :
  table_ok ctx ->
  exists pos, dx_plb_source_find_pos hasher ctx symbol src = Some pos /\
    (pos < src_capacity ctx)%nat /\
    (forall k, (k < src_capacity ctx)%nat ->
       (dist (src_capacity ctx) (home (src_capacity ctx) (source_hash symbol src)) k <
        dist (src_capacity ctx) (home (src_capacity ctx) (source_hash symbol src)) pos)%nat ->
       occupied (ctx_sources ctx) k) /\
    ((exists e, ctx_sources ctx !! pos = Some (Some e) /\ key_of e = (symbol, src)) \/
     (ctx_sources ctx !! pos = Some None /\ forall e, holds ctx e -> key_of e <> (symbol, src))).
Proof.
  intros [Hlen Hsz Hroom Hent Hpr Hd]. set (c := src_capacity ctx) in *.
  set (hash := source_hash symbol src).
  destruct (free_slot (ctx_sources ctx)) as (z & Hz & Ez); [lia|].
  assert (home c hash < c)%nat as Hh by (apply home_lt; lia).
  destruct (find_loop_spec c (S c) (ctx_sources ctx) hash symbol src (home c hash) z)
    as (pos & Hf & Hpos & Hk & Hend); try done; [lia|rewrite dist_self; lia| |].
  { rewrite dist_self. unfold dist. repeat destruct_match; bool_to_prop; lia. }
  exists pos. split_and!; [done|done| |].
  { intros k Hkc Hkd. destruct (Hk k Hkc) as (e & He & _); [rewrite dist_self; lia|by exists e]. }
  destruct Hend as [He|(e & He & Hsk)].
  2:{ left. exists e. split; [done|]. apply same_key_spec in Hsk; [done|]. apply Hent. by exists pos. }
  right. split; [done|]. intros e (j & Hj) Ekey.
  assert (j < c)%nat as Hjc by (apply lookup_lt_Some in Hj; lia).
  assert (first_slot c e = home c hash) as Eh by (unfold first_slot; by injection Ekey as -> ->).
  destruct (decide (j = pos)) as [->|Hne]; [congruence|].
  destruct (decide (dist c (home c hash) j < dist c (home c hash) pos)%nat) as [Hlt|Hge].
  - destruct (Hk j Hjc) as (e' & He' & Hsk); [rewrite dist_self; lia|].
    assert (e' = e) as -> by congruence.
    pose proof (proj2 (same_key_spec e symbol src (Hent e (ex_intro _ j Hj))) Ekey) as E.
    unfold hash in Hsk. congruence.
  - destruct (Hpr j e pos Hj Hpos) as (e' & ?); [rewrite Eh|congruence].
    assert (dist c (home c hash) j <> dist c (home c hash) pos); [|lia].
    intros E. by apply dist_inj in E.
Qed.
(** ** The removal *)

Section shift.
Context (c : nat).

(** The state of the removal: the hole [p], with a stale copy in it, and the
    last slot [n] that was looked at. *)
Record shifting (slots : list (option src_entry)) (p n : nat) : Prop := {
  sh_length : length slots = c;
  sh_hole : (p < c)%nat;
  sh_last : (n < c)%nat;
  sh_probing : forall j e k, j <> p -> slots !! j = Some (Some e) -> (k < c)%nat ->
    (dist c (first_slot c e) k < dist c (first_slot c e) j)%nat -> k <> p -> occupied slots k;
  sh_scanned : forall j e, j <> p -> slots !! j = Some (Some e) ->
    (dist c (first_slot c e) p < dist c (first_slot c e) j)%nat -> (dist c p n < dist c p j)%nat;
  sh_between : forall k, (k < c)%nat -> k <> p -> (dist c p k <= dist c p n)%nat -> occupied slots k;
  sh_stale : occupied slots p;
}.

Lemma first_slot_lt e : (0 < c)%nat -> (first_slot c e < c)%nat.
Proof. apply home_lt. Qed.

Lemma insert_lookup_slot (slots : list (option src_entry)) p x j :
  (p < length slots)%nat ->
  <[p := x]> slots !! j = if decide (j = p) then Some x else slots !! j.
Proof.
  intros Hp. destruct (decide (j = p)) as [->|]; [by rewrite list_lookup_insert_eq|].
  by rewrite list_lookup_insert_ne.
Qed.

(** Filling the hole with the entry at [n] makes [n] the hole. *)
Lemma shifting_move slots p n e :
  shifting slots p n -> ((n + 1) mod c)%nat <> p ->
  slots !! ((n + 1) mod c)%nat = Some (Some e) ->
  (dist c (first_slot c e) p < dist c (first_slot c e) ((n + 1) mod c))%nat ->
  shifting (<[p := Some e]> slots) ((n + 1) mod c) ((n + 1) mod c).
Proof.
  intros [Hlen Hp Hn Ha Hb Hc Hd] Hnp He Hmove. set (m := ((n + 1) mod c)%nat) in *.
  assert (m < c)%nat as Hm by (apply lookup_lt_Some in He; lia).
  assert (forall j, <[p := Some e]> slots !! j = if decide (j = p) then Some (Some e) else slots !! j)
    as Hlk by (intros j; apply insert_lookup_slot; lia).
  constructor.
  - by rewrite length_insert.
  - done.
  - done.
  - intros j e' k Hj Hlj Hk Hdk Hkm. unfold occupied. rewrite Hlk in *.
    destruct (decide (k = p)) as [->|Hkp]; [by exists e|].
    destruct (decide (j = p)) as [->|Hjp]; [|exact (Ha j e' k Hjp Hlj Hk Hdk Hkp)].
    injection Hlj as <-. apply (Ha m e); [done|done|done|lia|done].
  - intros j e' Hj Hlj _. rewrite Hlk in Hlj. rewrite dist_self.
    apply (dist_pos c m j); [done| |by apply not_eq_sym].
    destruct (decide (j = p)) as [->|]; [done|]. apply lookup_lt_Some in Hlj. lia.
  - intros k Hk Hkm Hdk. rewrite dist_self in Hdk.
    pose proof (dist_pos c m k Hm Hk (not_eq_sym Hkm)). lia.
  - exists e. rewrite Hlk. by destruct (decide (m = p)).
Qed.

Lemma shifting_skip slots p n e :
  shifting slots p n -> ((n + 1) mod c)%nat <> p ->
  slots !! ((n + 1) mod c)%nat = Some (Some e) ->
  ~ (dist c (first_slot c e) p < dist c (first_slot c e) ((n + 1) mod c))%nat ->
  shifting slots p ((n + 1) mod c).
Proof.
  intros [Hlen Hp Hn Ha Hb Hc Hd] Hnp He Hmove.
  assert ((n + 1) mod c < c)%nat as Hm by (apply lookup_lt_Some in He; lia).
  constructor; try done.
  - intros j e' Hj Hlj Hdj. assert (j < c)%nat as Hjc by (apply lookup_lt_Some in Hlj; lia).
    destruct (dist_before_next c p n j Hp Hn Hjc Hnp) as [_ Hiff].
    destruct (decide (dist c p j <= dist c p ((n + 1) mod c))%nat) as [Hle|]; [|lia].
    apply Hiff in Hle as [Hle| ->]; [pose proof (Hb j e' Hj Hlj Hdj); lia|].
    by simplify_eq.
  - intros k Hk Hkp Hdk. apply (dist_before_next c p n k) in Hdk as [Hdk| ->]; [|by exists e|done..].
    by apply Hc.
Qed.

(** At a free slot the hole can be emptied. *)
Lemma shifting_end slots p n :
  shifting slots p n -> slots !! ((n + 1) mod c)%nat = Some None -> probing c (<[p := None]> slots).
Proof.
  intros [Hlen Hp Hn Ha Hb Hc Hd] He.
  assert ((n + 1) mod c < c)%nat as Hm by (apply lookup_lt_Some in He; lia).
  assert (((n + 1) mod c)%nat <> p) as Hnp by (intros E; rewrite E in He; destruct Hd; congruence).
  intros j e k Hlj Hk Hdk. rewrite insert_lookup_slot in Hlj by lia.
  destruct (decide (j = p)) as [|Hjp]; [done|].
  assert (j < c)%nat as Hjc by (apply lookup_lt_Some in Hlj; lia).
  assert (first_slot c e < c)%nat as Hf by (apply first_slot_lt; lia).
  destruct (decide (k = p)) as [->|Hkp].
  - exfalso. pose proof (Hb j e Hjp Hlj Hdk) as Hlt.
    destruct (dist_before_next c p n j Hp Hn Hjc Hnp) as [E _].
    assert (dist c p ((n + 1) mod c) <> dist c p j) as Hne.
    { intros E'. apply dist_inj in E'; [|done..]. congruence. }
    assert (dist c (first_slot c e) ((n + 1) mod c) < dist c (first_slot c e) j)%nat as Hd'
      by (apply (dist_through c _ p); [done..|lia]).
    destruct (Ha j e _ Hjp Hlj Hm Hd' Hnp). congruence.
  - destruct (Ha j e k Hjp Hlj Hk Hdk Hkp) as [e' He'].
    exists e'. rewrite insert_lookup_slot by lia. by destruct (decide (k = p)).
Qed.
Lemma shifting_start slots p :
  length slots = c -> (p < c)%nat -> occupied slots p -> probing c slots -> shifting slots p p.
Proof.
  intros Hlen Hp Ho Hpr. constructor; try done.
  - intros j e k _ Hj Hk Hd _. by eapply Hpr.
  - intros j e Hjp Hj _. rewrite dist_self. apply (dist_pos c p j); [done| |by apply not_eq_sym].
    apply lookup_lt_Some in Hj. lia.
  - intros k Hk Hkp Hd. rewrite dist_self in Hd.
    pose proof (dist_pos c p k Hp Hk (not_eq_sym Hkp)). lia.
Qed.

Lemma entry_count_insert slots p x :
  occupied slots p ->
  entry_count (<[p := x]> slots) =
    (entry_count slots - match x with Some _ => 0 | None => 1 end)%nat /\
  (0 < entry_count slots)%nat.
Proof.
  intros [e He]. revert slots He. induction p as [|p IH]; intros [|s slots] He; try done; simpl in *.
  - simplify_eq. destruct x; lia.
  - destruct (IH slots He) as [IH1 IH2]. destruct s; rewrite IH1; destruct x; lia.
Qed.

(** What the loop leaves: a hole that can be emptied, the same entries and the
    same number of them. *)
Definition shifted (slots : list (option src_entry)) (p : nat) (slots' : list (option src_entry))
  (p' : nat) : Prop :=
  length slots' = c /\ (p' < c)%nat /\ occupied slots' p' /\
  probing c (<[p' := None]> slots') /\
  (forall e, holds_but slots' p' e <-> holds_but slots p e) /\
  (distinct_but slots p -> distinct_but slots' p') /\
  entry_count slots' = entry_count slots.

Lemma holds_but_move slots p m e :
  (p < length slots)%nat -> m <> p -> slots !! m = Some (Some e) ->
  (forall e', holds_but (<[p := Some e]> slots) m e' <-> holds_but slots p e') /\
  (distinct_but slots p -> distinct_but (<[p := Some e]> slots) m).
Proof.
  intros Hp Hm He. pose proof (insert_lookup_slot slots p (Some e)) as Hlk. split.
  - intros e'. split; intros (j & Hj & Hl).
    + rewrite Hlk in Hl by done. destruct (decide (j = p)) as [->|]; [|by exists j].
      exists m. split; [done|]. congruence.
    + destruct (decide (j = m)) as [->|Hjm].
      * exists p. split; [by apply not_eq_sym|]. rewrite Hlk by done.
        destruct (decide (p = p)); [congruence|done].
      * exists j. split; [done|]. rewrite Hlk by done. by destruct (decide (j = p)).
  - intros Hd j1 j2 e1 e2 H1 H2 L1 L2 Hkey. rewrite Hlk in L1, L2 by done.
    destruct (decide (j1 = p)) as [->|N1], (decide (j2 = p)) as [->|N2].
    + done.
    + exfalso. apply H2. symmetry. apply (Hd m j2 e1 e2); congruence.
    + exfalso. apply H1. apply (Hd j1 m e1 e2); congruence.
    + by apply (Hd j1 j2 e1 e2).
Qed.

Lemma shift_loop_spec fuel slots p n z :
  shifting slots p n -> slots !! z = Some None -> (dist c n z < fuel)%nat ->
  exists slots' p', shift_loop hasher fuel slots c p n = Some (slots', p') /\
    shifted slots p slots' p'.
Proof.
  revert slots p n. induction fuel as [|fuel IH]; intros slots p n Hsh Hz Hf; [lia|].
  pose proof Hsh as [Hlen Hp Hn Ha Hb Hc Hd].
  assert (z < c)%nat as Hzc by (apply lookup_lt_Some in Hz; lia).
  assert (z <> p) as Hzp by (intros ->; destruct Hd; congruence).
  assert (z <> n) as Hzn.
  { intros ->. destruct (Hc n); [done|done|lia|congruence]. }
  destruct (dist_next_toward c n z) as [Hm Hdz]; [done|done|by apply not_eq_sym|].
  assert (((n + 1) mod c)%nat <> p) as Hmp.
  { intros E. destruct (Hc z Hzc Hzp (dist_full c p n z Hp Hn Hzc E)). congruence. }
  cbn [shift_loop]. destruct (lookup_lt_is_Some_2 slots ((n + 1) mod c)%nat) as [s Hs]; [lia|].
  rewrite Hs. cbn [mbind option_bind]. destruct s as [e|].
  2:{ exists slots, p. split; [done|]. split_and!; try done. by eapply shifting_end. }
  change (home c _) with (first_slot c e).
  assert (first_slot c e < c)%nat as Hfc by (apply first_slot_lt; lia).
  pose proof (may_move_dist c p ((n + 1) mod c) (first_slot c e) Hp Hm Hfc (not_eq_sym Hmp)) as Hmv.
  destruct (may_move p ((n + 1) mod c) (first_slot c e)).
  - rewrite write_at_in by lia. cbn [mbind option_bind].
    destruct (IH (<[p := Some e]> slots) ((n + 1) mod c)%nat ((n + 1) mod c)%nat)
      as (slots' & p' & -> & H).
    + apply shifting_move; [done|done|done|by apply Hmv].
    + rewrite insert_lookup_slot by lia. by destruct (decide (z = p)).
    + lia.
    + exists slots', p'. split; [done|].
      destruct (holds_but_move slots p ((n + 1) mod c) e) as [Hh Hdi]; [lia|done|done|].
      destruct H as (H1 & H2 & H3 & H4 & H5 & H6 & H7). split_and!; try done.
      * intros e'. by rewrite H5, Hh.
      * auto.
      * rewrite H7. destruct (entry_count_insert slots p (Some e) Hd) as [-> _]. lia.
  - destruct (IH slots p ((n + 1) mod c)%nat) as (slots' & p' & -> & H); [|done|lia|by exists slots', p'].
    eapply shifting_skip; [done|done|done|]. intros Hlt%Hmv. done.
Qed.
End shift.
End invariant.

(** ** The operations implement a map *)

Section operations.
Context (hasher : list Z -> Z).

Lemma entry_count_store slots p e :
  slots !! p = Some None -> entry_count (<[p := Some e]> slots) = S (entry_count slots).
Proof.
  revert slots. induction p as [|p IH]; intros [|s slots] H; try done; simpl in *; [by simplify_eq|].
  rewrite IH by done. by destruct s.
Qed.

Lemma table_lookup_lt ctx j e :
  table_ok hasher ctx -> ctx_sources ctx !! j = Some (Some e) -> (j < src_capacity ctx)%nat.
Proof. intros Hok Hj%lookup_lt_Some. by rewrite (table_length _ _ Hok) in Hj. Qed.

Lemma table_key_unique ctx j1 j2 e1 e2 :
  table_ok hasher ctx -> ctx_sources ctx !! j1 = Some (Some e1) ->
  ctx_sources ctx !! j2 = Some (Some e2) -> key_of e1 = key_of e2 -> j1 = j2.
Proof.
  intros Hok H1 H2 Hk. pose proof (table_lookup_lt _ _ _ Hok H1). pose proof (table_lookup_lt _ _ _ Hok H2).
  apply (table_distinct _ _ Hok j1 j2 e1 e2); done || lia.
Qed.

Lemma find_source_spec ctx symbol src :
  table_ok hasher ctx ->
  exists s, dx_plb_ctx_find_source hasher ctx symbol src = Some s /\
    forall e, s = Some e <-> holds ctx e /\ key_of e = (symbol, src).
Proof.
  intros Hok. destruct (find_pos_spec hasher ctx symbol src Hok) as (pos & Hf & Hpos & _ & Hend).
  unfold dx_plb_ctx_find_source. rewrite Hf. cbn [mbind option_bind].
  destruct Hend as [(e & He & Hk)|[He Hno]]; rewrite He.
  - exists (Some e). split; [done|]. intros e'. split; [intros [= <-]; split; [by exists pos|done]|].
    intros [[j Hj] Hk']. assert (j = pos) as -> by (eapply table_key_unique; [done..|congruence]). congruence.
  - exists None. split; [done|]. intros e. split; [done|]. intros [Hh Hk]. by destruct (Hno e Hh).
Qed.

Lemma remove_source_spec ctx e :
  table_ok hasher ctx -> holds ctx e ->
  exists ctx', dx_plb_ctx_remove_source hasher ctx e = Some (ctx', true) /\ table_ok hasher ctx' /\
    S (src_size ctx') = src_size ctx /\ forall e', holds ctx' e' <-> holds ctx e' /\ e' <> e.
Proof.
  intros Hok [j Hj].
  destruct (find_pos_spec hasher ctx (e_symbol e) (e_source e) Hok) as (pos & Hf & Hpos & _ & Hend).
  destruct Hend as [(e0 & He & Hk)|[_ Hno]]; [|by destruct (Hno e (ex_intro _ j Hj))].
  assert (j = pos) as -> by (eapply table_key_unique; [done..|by rewrite Hk]).
  assert (e0 = e) as -> by congruence. clear Hj Hk.
  pose proof (fun j' e' => table_key_unique ctx j' pos e' e Hok) as Hu.
  destruct Hok as [Hlen Hsz Hroom Hent Hpr Hd].
  destruct (free_slot (ctx_sources ctx)) as (z & Hz & Ez); [lia|].
  assert (distinct_but (ctx_sources ctx) pos) as Hdp.
  { intros j1 j2 e1 e2 _ _ L1 L2. pose proof (lookup_lt_Some _ _ _ L1).
    pose proof (lookup_lt_Some _ _ _ L2). apply (Hd j1 j2 e1 e2); done || lia. }
  destruct (shift_loop_spec hasher (src_capacity ctx) (S (src_capacity ctx)) (ctx_sources ctx) pos pos z)
    as (slots & p & Hsh & H1 & H2 & H3 & H4 & H5 & H6 & H7);
    [apply shifting_start; [done|done|by exists e|done]|done| |].
  { unfold dist. repeat destruct_match; bool_to_prop; lia. }
  unfold dx_plb_ctx_remove_source. rewrite Hf. cbn [mbind option_bind]. rewrite He.
  cbn [mbind option_bind]. rewrite Z.eqb_refl. cbn [negb]. rewrite Hsh. cbn [mbind option_bind].
  rewrite write_at_in by lia. cbn [mbind option_bind]. eexists. split; [done|].
  destruct (entry_count_insert slots p None H3) as [Hc Hc'].
  assert (forall e', holds (PlbContext (<[p:=None]> slots) (src_size ctx - 1) (src_capacity ctx)) e' <->
    holds ctx e' /\ e' <> e) as Hh.
  { intros e'. transitivity (holds_but slots p e').
    - split; intros (k & Hk).
      + cbn [ctx_sources] in Hk. rewrite insert_lookup_slot in Hk by lia.
        destruct (decide (k = p)); [done|by exists k].
      + exists k. cbn [ctx_sources]. rewrite insert_lookup_slot by lia.
        destruct Hk as [Hkp Hk]. by destruct (decide (k = p)).
    - rewrite H5. split.
      + intros (k & Hkp & Hk). split; [by exists k|]. intros ->. by apply Hkp, (Hu k e).
      + intros [[k Hk] Hne]. exists k. split; [|done]. intros ->. congruence. }
  split; [|split; [cbn [src_size]; lia|exact Hh]].
  constructor; cbn [ctx_sources src_size src_capacity].
  - by rewrite length_insert.
  - rewrite Hc. lia.
  - lia.
  - intros e' He'. apply Hent. by apply Hh in He' as [? _].
  - done.
  - intros j1 j2 e1 e2 _ _ L1 L2. rewrite !insert_lookup_slot in L1, L2 by lia.
    destruct (decide (j1 = p)), (decide (j2 = p)); try done. by apply H6.
Qed.

Lemma add_source_spec alloc ctx e :
  table_ok hasher ctx -> (4 <= src_capacity ctx)%nat -> (src_size ctx <= src_capacity ctx / 2)%nat ->
  entry_ok hasher e -> (forall e', holds ctx e' -> key_of e' <> key_of e) ->
  exists ctx', dx_plb_ctx_add_source hasher alloc ctx e = Some (ctx', true) /\ table_ok hasher ctx' /\
    src_size ctx' = S (src_size ctx) /\ forall e', holds ctx' e' <-> holds ctx e' \/ e' = e.
Proof.
  intros Hok Hcap Hload He Hfresh.
  destruct (find_pos_spec hasher ctx (e_symbol e) (e_source e) Hok) as (pos & Hf & Hpos & Hpath & Hend).
  destruct Hend as [(e0 & He0 & Hk)|[Hnone _]]; [by destruct (Hfresh e0 (ex_intro _ pos He0))|].
  destruct Hok as [Hlen Hsz Hroom Hent Hpr Hd].
  unfold dx_plb_ctx_add_source. rewrite Hf. cbn [mbind option_bind].
  rewrite (proj2 (Nat.ltb_ge _ _) Hload), write_at_in by lia. cbn [mbind option_bind].
  eexists. split; [done|].
  pose proof (fun x j => insert_lookup_slot (ctx_sources ctx) pos x j ltac:(lia)) as Hlk.
  assert (forall e', holds (PlbContext (<[pos:=Some e]> (ctx_sources ctx)) (S (src_size ctx))
    (src_capacity ctx)) e' <-> holds ctx e' \/ e' = e) as Hh.
  { intros e'. unfold holds. cbn [ctx_sources]. split.
    - intros (k & Hk). rewrite Hlk in Hk. destruct (decide (k = pos)); [right; congruence|left; by exists k].
    - intros [[k Hk]| ->]; [exists k|exists pos]; rewrite Hlk; destruct (decide _); congruence. }
  pose proof (Nat.div_mod_eq (src_capacity ctx) 2). pose proof (Nat.mod_upper_bound (src_capacity ctx) 2).
  split; [|split; [done|exact Hh]]. constructor; cbn [ctx_sources src_size src_capacity].
  - by rewrite length_insert.
  - rewrite entry_count_store by done. lia.
  - lia.
  - intros e' [He'| ->]%Hh; [by apply Hent|done].
  - intros j e' k Hj Hk Hdk. unfold occupied. rewrite Hlk in *.
    destruct (decide (k = pos)); [by exists e|].
    destruct (decide (j = pos)) as [->|]; [|exact (Hpr j e' k Hj Hk Hdk)].
    injection Hj as <-. by apply Hpath.
  - intros j1 j2 e1 e2 N1 N2 L1 L2 Hkey. rewrite Hlk in L1, L2.
    destruct (decide (j1 = pos)) as [->|], (decide (j2 = pos)) as [->|].
    + done.
    + destruct (Hfresh e2); [by exists j2|congruence].
    + destruct (Hfresh e1); [by exists j1|congruence].
    + by apply (Hd j1 j2 e1 e2).
Qed.

Lemma grow_loop_null old ctx : None ∈ old -> grow_loop hasher old ctx = None.
Proof.
  revert ctx. induction old as [|[e|] old IH]; intros ctx H; [by apply elem_of_nil in H| |done].
  apply elem_of_cons in H as [|H]; [done|]. cbn [grow_loop mbind option_bind].
  destruct (dx_plb_source_find_pos _ _ _ _) as [pos|]; [|done]. cbn [mbind option_bind].
  destruct (write_at _ _ _); [|done]. by apply IH.
Qed.
End operations.

(** ** Properties *)

(** C33: the table is a map from the keys of the sources: the probe always stops
    and finds the source of a key or that there is none; removing a source
    keeps all the others, wherever the shifting moves them; adding one to a
    table at most half full adds it.  The invariant is kept. *)
Theorem source_table_refines (hasher : list Z -> Z) (alloc : nat -> bool)
  (ctx : dx_plb_connection_context_t) :
  table_ok hasher ctx ->
  (forall symbol src, exists s, dx_plb_ctx_find_source hasher ctx symbol src = Some s /\
     forall e, s = Some e <-> holds ctx e /\ key_of e = (symbol, src)) /\
  (forall e, holds ctx e ->
     exists ctx', dx_plb_ctx_remove_source hasher ctx e = Some (ctx', true) /\
       table_ok hasher ctx' /\ S (src_size ctx') = src_size ctx /\
       forall e', holds ctx' e' <-> holds ctx e' /\ e' <> e) /\
  (forall e, (4 <= src_capacity ctx)%nat -> (src_size ctx <= src_capacity ctx / 2)%nat ->
     entry_ok hasher e -> (forall e', holds ctx e' -> key_of e' <> key_of e) ->
     exists ctx', dx_plb_ctx_add_source hasher alloc ctx e = Some (ctx', true) /\
       table_ok hasher ctx' /\ src_size ctx' = S (src_size ctx) /\
       forall e', holds ctx' e' <-> holds ctx e' \/ e' = e).
Proof.
  intros Hok. split_and!.
  - intros symbol src. by apply find_source_spec.
  - intros e He. by apply remove_source_spec.
  - intros e H1 H2 H3 H4. by apply add_source_spec.
Qed.

(** The table cannot grow: once it is more than half full, adding a source
    dereferences the null pointer of a free slot. *)
Lemma grow_crashes (hasher : list Z -> Z) (alloc : nat -> bool)
  (ctx : dx_plb_connection_context_t) (e : src_entry) :
  table_ok hasher ctx -> (src_capacity ctx / 2 < src_size ctx)%nat ->
  alloc (src_capacity ctx * 2)%nat = true ->
  dx_plb_ctx_add_source hasher alloc ctx e = None.
Proof.
  intros Hok Hload Halloc.
  destruct (find_pos_spec hasher ctx (e_symbol e) (e_source e) Hok) as (pos & Hf & _).
  unfold dx_plb_ctx_add_source, dx_plb_ctx_grow_sources_hashtable. rewrite Hf. cbn [mbind option_bind].
  rewrite (proj2 (Nat.ltb_lt _ _) Hload), Halloc.
  destruct Hok as [Hlen Hsz Hroom _ _ _]. rewrite take_ge by lia.
  destruct (free_slot (ctx_sources ctx)) as (z & _ & Ez); [lia|].
  rewrite grow_loop_null; [done|]. by eapply list_elem_of_lookup_2.
Qed.

(** A table of three slots with two sources, all hashes being 0. *)
Definition entry_example (id : Z) : src_entry := SrcEntry id 0 [id] [78].
Definition context_example : dx_plb_connection_context_t :=
  PlbContext [Some (entry_example 65); Some (entry_example 66); None] 2 3.

Lemma context_example_ok : table_ok (fun _ => 0) context_example.
Proof.
  constructor; try reflexivity.
  - simpl. lia.
  - intros e [j Hj]. do 3 (destruct j as [|j]; [simpl in Hj; by simplify_eq|]). done.
  - intros j e k Hj Hk Hd. unfold occupied.
    do 3 (destruct j as [|j]; [simpl in Hj; simplify_eq;
      do 3 (destruct k as [|k]; [vm_compute in Hd; try (by eexists); lia|]); simpl in Hk; lia|]). done.
  - intros j1 j2 e1 e2 _ _ H1 H2 Hk.
    do 3 (destruct j1 as [|j1]; [simpl in H1; simplify_eq;
      do 3 (destruct j2 as [|j2]; [simpl in H2; simplify_eq; done|]); done|]). done.
Qed.

Lemma source_table_refines_witness :
  exists ctx', dx_plb_ctx_remove_source (fun _ => 0) context_example (entry_example 65) =
      Some (ctx', true) /\
    table_ok (fun _ => 0) ctx' /\ S (src_size ctx') = 2%nat /\
    forall e', holds ctx' e' <-> holds context_example e' /\ e' <> entry_example 65.
Proof.
  apply (source_table_refines (fun _ => 0) (fun _ => true) context_example context_example_ok).
  by exists 0%nat.
Defined.

Example grow_crashes_example :
  dx_plb_ctx_add_source (fun _ => 0) (fun _ => true) context_example (entry_example 67) = None.
Proof.
  apply (grow_crashes (fun _ => 0) (fun _ => true)).
  - apply context_example_ok.
  - simpl. lia.
  - reflexivity.
Defined.

(** Closing a connection clears sources of the first [src_size] slots only. *)
Lemma clear_loop_slots n i slots ids id :
  clear_loop n i slots = Some ids -> id ∈ ids ->
  exists j e, (i <= j < i + n)%nat /\ slots !! j = Some (Some e) /\ e_id e = id.
Proof.
  revert i ids. induction n as [|n IH]; intros i ids H Hin; simpl in H.
  { simplify_eq. by apply elem_of_nil in Hin. }
  destruct (slots !! i) as [s|] eqn:Hs; [|done]. cbn [mbind option_bind] in H.
  destruct (clear_loop n (S i) slots) as [rest|] eqn:Er; [|done]. cbn [mbind option_bind] in H.
  assert (id ∈ rest -> exists j e, (i <= j < i + S n)%nat /\ slots !! j = Some (Some e) /\ e_id e = id)
    as Hrest.
  { intros Hr. destruct (IH (S i) rest Er Hr) as (j & e & ? & ? & ?). exists j, e. split; [lia|done]. }
  destruct s as [e|]; simplify_eq; [|by apply Hrest].
  apply elem_of_cons in Hin as [->|Hin]; [|by apply Hrest]. exists i, e. split; [lia|done].
Qed.

Lemma clear_misses_sources ctx ids id :
  dx_plb_clear_connection_context ctx = Some ids -> id ∈ ids ->
  exists j e, (j < src_size ctx)%nat /\ ctx_sources ctx !! j = Some (Some e) /\ e_id e = id.
Proof.
  intros H Hin. destruct (clear_loop_slots _ _ _ _ _ H Hin) as (j & e & ? & ? & ?).
  exists j, e. split; [lia|done].
Qed.
