(* ===== verification/PriceLevelBook.v ===== *)
(** * PriceLevelBook: the books of [src/PriceLevelBook.c]

    A book merges the published sides of its sources into ten levels a side and
    calls its listeners when they change.  Sources and books are shared: they
    live in a store ([plb_world]) by address, a source listing the books that
    consume it and a book the sources it reads.  [plb_source_event] is the
    whole event handler, with the loop over the consumers.  The theorems: the
    merge is the best ten levels of the combined book, and levels that vanish
    from the end of a side are not reported. *)

From S2P Require Import Prelude Arrays EventData Doubles PriceLevelSource SourceTable.
Local Open Scope Z_scope.

Record dx_plb_listener_context_t : Type := PlbListener {
  pl_listener : Z;
  pl_user_data : Z;
}.

Record dx_price_level_book_t : Type := PlbBook {
  pb_symbol : list Z;
  pb_sources : list Z;        (** the addresses of the sources *)
  pb_listeners : dx_array dx_plb_listener_context_t;
  pb_bids : dx_plb_price_level_side_t;
  pb_asks : dx_plb_price_level_side_t;
  pb_bids_count : nat;        (** [book.bids_count], what listeners see *)
  pb_asks_count : nat;
}.

(** A call of a listener with the book it is given. *)
Record plb_callback : Type := PlbCallback {
  pc_listener : Z;
  pc_user_data : Z;
  pc_symbol : list Z;
  pc_bids : list dxf_price_level_element_t;
  pc_asks : list dxf_price_level_element_t;
}.

(** ** The merge *)

(** The level of a source at an index, if the index is in use. *)
Definition head_level (src : dx_plb_price_level_side_t) (idx : nat)
  : option (option dxf_price_level_element_t) :=
  if (idx <? side_count src)%nat then l ← side_levels src !! idx; Some (Some l) else Some None.

Definition merge_level (best l : dxf_price_level_element_t) : dxf_price_level_element_t :=
  PriceLevel (level_price best) (double_add (level_size best) (level_size l))
    (Z.max (level_time best) (level_time l)).

(** The first inner loop, over the sources and their indices. *)
Fixpoint best_loop (cmp : dxf_price_level_element_t -> dxf_price_level_element_t -> Z)
  (srcs : list dx_plb_price_level_side_t) (sidx : list nat) (best : dxf_price_level_element_t)
  : option dxf_price_level_element_t :=
  match srcs, sidx with
  | src :: srcs', idx :: sidx' =>
      h ← head_level src idx;
      let best :=
        match h with
        | None => best
        | Some l =>
            if double_isnan (level_price l) then best
            else
              let c := cmp best l in
              if c =? 0 then merge_level best l else if 0 <? c then l else best
        end in
      best_loop cmp srcs' sidx' best
  | _, _ => Some best
  end.

(** The second inner loop: the sources whose level was used advance. *)
Fixpoint advance_loop (srcs : list dx_plb_price_level_side_t) (sidx : list nat)
  (price : dxf_double_t) : option (list nat) :=
  match srcs, sidx with
  | src :: srcs', idx :: sidx' =>
      h ← head_level src idx;
      rest ← advance_loop srcs' sidx' price;
      let used := match h with None => false | Some l => double_eqb (level_price l) price end in
      Some ((if (used : bool) then S idx else idx) :: rest)
  | _, _ => Some []
  end.

(** The outer loop: the levels written so far, their number, and whether one
    of them changed. *)
Fixpoint merge_loop (fuel : nat) (cmp : dxf_price_level_element_t -> dxf_price_level_element_t -> Z)
  (srcs : list dx_plb_price_level_side_t) (sidx : list nat) (startValue : dxf_double_t)
  (levels : list dxf_price_level_element_t) (didx : nat) (changed : bool)
  : option (list dxf_price_level_element_t * nat * bool) :=
  match fuel with
  | O => Some (levels, didx, changed)
  | S fuel' =>
      best ← best_loop cmp srcs sidx (PriceLevel startValue double_zero 0);
      if double_eqb (level_size best) double_zero then Some (levels, didx, changed)
      else
        old ← levels !! didx;
        r ← (if bool_decide (old = best) then Some (levels, changed)
             else levels ← write_at levels didx best; Some (levels, true));
        sidx ← advance_loop srcs sidx (level_price best);
        merge_loop fuel' cmp srcs sidx startValue r.1 (S didx) r.2
  end.

Section book.
(** Whether [dx_calloc] of so many elements succeeds. *)
Context (alloc : nat -> bool).

(** The allocation of the indices is not checked. *)
Definition dx_plb_book_update_one_side (dst : dx_plb_price_level_side_t)
  (srcs : list dx_plb_price_level_side_t) (startValue : dxf_double_t)
  : option (dx_plb_price_level_side_t * bool) :=
  if negb (alloc (length srcs)) && (0 <? length srcs)%nat then None
  else
    r ← merge_loop MAX_PRICE_LEVELS (side_cmp dst) srcs (replicate (length srcs) 0%nat) startValue
          (side_levels dst) 0 false;
    let '(levels, didx, changed) := r in
    Some (PriceLevelSide didx levels (side_cmp dst) (side_rebuild dst) (side_updated dst), changed).

(** ** Books and sources in a store *)

Record plb_world : Type := PlbWorld {
  w_sources : gmap Z (dx_plb_source_t * list (Z * nat));  (** with the consumers *)
  w_books : gmap Z dx_price_level_book_t;
}.

Definition call_of (book : dx_price_level_book_t) (l : dx_plb_listener_context_t) : plb_callback :=
  PlbCallback (pl_listener l) (pl_user_data l) (pb_symbol book)
    (take (pb_bids_count book) (side_levels (pb_bids book)))
    (take (pb_asks_count book) (side_levels (pb_asks book))).

(** [dx_plb_book_update] after [src], one of the sources, has published. *)
Definition dx_plb_book_update (sources : gmap Z (dx_plb_source_t * list (Z * nat)))
  (book : dx_price_level_book_t) (src : dx_plb_source_t)
  : option (dx_price_level_book_t * list plb_callback) :=
  srcs ← mapM (fun h => fst <$> sources !! h) (pb_sources book);
  b ← (if side_updated (ps_bids src)
       then dx_plb_book_update_one_side (pb_bids book) (map ps_final_bids srcs) double_zero
       else Some (pb_bids book, false));
  a ← (if side_updated (ps_asks src)
       then dx_plb_book_update_one_side (pb_asks book) (map ps_final_asks srcs) double_1e38
       else Some (pb_asks book, false));
  let book := PlbBook (pb_symbol book) (pb_sources book) (pb_listeners book) b.1 a.1
                (pb_bids_count book) (pb_asks_count book) in
  if (b.2 : bool) || a.2 then
    let book := PlbBook (pb_symbol book) (pb_sources book) (pb_listeners book) b.1 a.1
                  (side_count b.1) (side_count a.1) in
    Some (book, map (call_of book) (contents (pb_listeners book)))
  else Some (book, []).

(** The loop over the consumers of a source. *)
Fixpoint consumers_loop (consumers : list (Z * nat)) (src : dx_plb_source_t) (w : plb_world)
  (calls : list plb_callback) : option (plb_world * list plb_callback) :=
  match consumers with
  | [] => Some (w, calls)
  | (h, _) :: consumers' =>
      book ← w_books w !! h;
      r ← dx_plb_book_update (w_sources w) book src;
      consumers_loop consumers' src (PlbWorld (w_sources w) (<[h := r.1]> (w_books w)))
        (calls ++ r.2)
  end.

(** An event for the source at address [h]: the handler and its consumers. *)
Definition plb_source_event (h : Z) (event_type : Z) (symbol_name : list Z)
  (data : dxf_event_data_t) (p : dxf_event_params_t) (w : plb_world)
  : option (plb_world * list plb_callback) :=
  sc ← w_sources w !! h;
  r ← plb_event_listener alloc event_type symbol_name data p sc.1;
  let w := PlbWorld (<[h := (r.1, sc.2)]> (w_sources w)) (w_books w) in
  if (r.2 : bool) then consumers_loop sc.2 r.1 w [] else Some (w, []).

(** ** Consumers and listeners *)

(** [None] is an access through a wrong address. *)
Definition dx_plb_source_add_book (source book : Z) (idx : nat) (w : plb_world)
  : option (plb_world * bool) :=
  if alloc 1 then
    sc ← w_sources w !! source;
    Some (PlbWorld (<[source := (sc.1, (book, idx) :: sc.2)]> (w_sources w)) (w_books w), true)
  else Some (w, false).

Fixpoint remove_consumer (book : Z) (consumers : list (Z * nat)) : list (Z * nat) :=
  match consumers with
  | [] => []
  | (b, i) :: consumers' =>
      if b =? book then consumers' else (b, i) :: remove_consumer book consumers'
  end.

Definition dx_plb_source_remove_book (source book : Z) (w : plb_world) : option plb_world :=
  sc ← w_sources w !! source;
  Some (PlbWorld (<[source := (sc.1, remove_consumer book sc.2)]> (w_sources w)) (w_books w)).

Definition dx_plb_listener_comparator (e1 e2 : dx_plb_listener_context_t) : Z :=
  if u64 (pl_listener e2) <? u64 (pl_listener e1) then 1
  else if u64 (pl_listener e1) <? u64 (pl_listener e2) then -1 else 0.

Definition set_pb_listeners (x : dx_array dx_plb_listener_context_t) (b : dx_price_level_book_t)
  : dx_price_level_book_t :=
  PlbBook (pb_symbol b) (pb_sources b) x (pb_bids b) (pb_asks b) (pb_bids_count b) (pb_asks_count b).

(** The boolean is the result of the C function. *)
Definition dx_add_price_level_book_listener (b : dx_price_level_book_t) (listener user_data : Z)
  : option (dx_price_level_book_t * bool) :=
  let ctx := PlbListener listener user_data in
  let a := pb_listeners b in
  r ← DX_ARRAY_SEARCH dx_plb_listener_comparator (arr_elements a) 0 (arr_size a) ctx false;
  let '(found, idx) := r in
  if (found : bool) then
    l ← arr_elements a !! idx;
    elements ← write_at (arr_elements a) idx (PlbListener (pl_listener l) user_data);
    Some (set_pb_listeners (DxArray elements (arr_size a) (arr_capacity a)) b, true)
  else
    d ← DX_ARRAY_INSERT (PlbListener 0 0) alloc a ctx idx;
    let '(a, error) := d in Some (set_pb_listeners a b, negb error).

Definition dx_remove_price_level_book_listener (b : dx_price_level_book_t) (listener : Z)
  : option (dx_price_level_book_t * bool) :=
  let a := pb_listeners b in
  r ← DX_ARRAY_SEARCH dx_plb_listener_comparator (arr_elements a) 0 (arr_size a)
        (PlbListener listener 0) false;
  let '(found, idx) := r in
  if negb found then Some (b, true)
  else
    d ← DX_ARRAY_DELETE (PlbListener 0 0) alloc a idx;
    let '(a, error) := d in Some (set_pb_listeners a b, negb error).

(** A book as [dx_create_price_level_book] sets it up, before its sources. *)
Definition new_book (symbol : list Z) : dx_price_level_book_t :=
  PlbBook symbol [] DX_EMPTY_ARRAY (new_side dx_plb_pricelvel_comparator_bid)
    (new_side dx_plb_pricelvel_comparator_ask) 0 0.
End book.

(** ** The merge as a function of the levels that remain *)

Section merge.
Context (bid : bool).

Abbreviation better := (fun x y => level_cmp bid x y < 0).

(** One source in the search for the best level. *)
Definition best_step (best : dxf_price_level_element_t) (r : list dxf_price_level_element_t)
  : dxf_price_level_element_t :=
  match r with
  | [] => best
  | l :: _ =>
      let c := level_cmp bid best l in
      if c =? 0 then merge_level best l else if 0 <? c then l else best
  end.

Definition advance (price : dxf_double_t) (r : list dxf_price_level_element_t)
  : list dxf_price_level_element_t :=
  match r with
  | [] => []
  | l :: r' => if double_eqb (level_price l) price then r' else r
  end.

Fixpoint merge (n : nat) (start : dxf_price_level_element_t)
  (rems : list (list dxf_price_level_element_t)) : list dxf_price_level_element_t :=
  match n with
  | O => []
  | S n' =>
      let best := fold_left best_step rems start in
      if double_eqb (level_size best) double_zero then []
      else best :: merge n' start (map (advance (level_price best)) rems)
  end.

(** What the levels of one price add up to, source by source. *)
Definition join_at (price : dxf_double_t) (acc : option dxf_price_level_element_t)
  (r : list dxf_price_level_element_t) : option dxf_price_level_element_t :=
  match level_at price r with
  | None => acc
  | Some l => Some (match acc with None => l | Some b => merge_level b l end)
  end.
Definition merged_at (price : dxf_double_t) (rems : list (list dxf_price_level_element_t)) :=
  fold_left (join_at price) rems None.

(** Levels as a source publishes them. *)
Definition book_ok (r : list dxf_price_level_element_t) : Prop :=
  Forall priced r /\ sorted_by (level_cmp bid) r.

Lemma merge_take n N start rems : (n <= N)%nat -> take n (merge N start rems) = merge n start rems.
Proof.
  revert n rems. induction N as [|N IH]; intros [|n] rems Hn; try done; [lia|]. cbn [merge].
  destruct (double_eqb _ _); [done|]. simpl. by rewrite IH by lia.
Qed.

Lemma level_cmp_price x x' y : level_price x = level_price x' -> level_cmp bid x y = level_cmp bid x' y.
Proof. intros E. unfold level_cmp. by rewrite E. Qed.

Lemma best_step_le b r :
  priced b -> Forall priced r ->
  priced (best_step b r) /\ level_cmp bid (best_step b r) b <= 0 /\
  forall l r', r = l :: r' -> level_cmp bid (best_step b r) l <= 0.
Proof.
  intros Hb Hr. destruct r as [|l r]; simpl; [split_and!; [done| |done]; by rewrite cmp_refl|].
  inversion_clear Hr. destruct (Z.eqb_spec (level_cmp bid b l) 0) as [E|E].
  - split_and!; [done| |].
    + rewrite (level_cmp_price _ b) by done. by rewrite cmp_refl.
    + intros ? ? [= <- <-]. rewrite (level_cmp_price _ b) by done. lia.
  - destruct (Z.ltb_spec 0 (level_cmp bid b l)) as [Hlt|Hge].
    + split_and!; [done| |intros ? ? [= <- <-]; by rewrite cmp_refl].
      apply (cmp_gt (level_cmp bid)) in Hlt. lia.
    + split_and!; [done|by rewrite cmp_refl|]. intros ? ? [= <- <-]. done.
Qed.

Lemma best_le rems b :
  priced b -> Forall book_ok rems ->
  priced (fold_left best_step rems b) /\ level_cmp bid (fold_left best_step rems b) b <= 0 /\
  forall l r, l :: r ∈ rems -> level_cmp bid (fold_left best_step rems b) l <= 0.
Proof.
  revert b. induction rems as [|r rems IH]; intros b Hb Hr; simpl.
  { split_and!; [done|by rewrite cmp_refl|]. intros l r H. by apply elem_of_nil in H. }
  inversion_clear Hr as [|? ? [Hp _] Hr']. destruct (best_step_le b r Hb Hp) as (Hb1 & Hle1 & Hh1).
  destruct (IH _ Hb1 Hr') as (Hb2 & Hle2 & Hh2). split_and!; [done| |].
  - by eapply (cmp_le_trans (level_cmp bid)).
  - intros l r1 [E|H]%elem_of_cons; [|by eapply Hh2].
    eapply (cmp_le_trans (level_cmp bid)); [done|]. by eapply Hh1.
Qed.

(** A price no better than the first level is looked up at that level only. *)
Lemma level_at_head l r b :
  book_ok (l :: r) -> priced b -> level_cmp bid b l <= 0 ->
  level_at (level_price b) (l :: r) =
    if double_eqb (level_price l) (level_price b) then Some l else None.
Proof.
  intros [Hp Hs] Hb Hle. cbn [level_at]. destruct (double_eqb (level_price l) (level_price b)) eqn:E; [done|].
  inversion_clear Hp as [|? ? Hl Hr]. inversion_clear Hs as [|? ? _ Hall]. apply level_at_none.
  intros y Hy. rewrite Forall_forall in Hall, Hr.
  apply (level_cmp_differ bid b y); [done|by apply Hr| |by apply double_eqb_refl].
  apply (cmp_le_lt_trans (level_cmp bid) b l y); [done|by apply Hall].
Qed.
(** The heads at one price. *)
Definition join_head (price : dxf_double_t) (acc : option dxf_price_level_element_t)
  (r : list dxf_price_level_element_t) : option dxf_price_level_element_t :=
  match r with
  | [] => acc
  | l :: _ =>
      if double_eqb (level_price l) price
      then Some (match acc with None => l | Some b => merge_level b l end) else acc
  end.

Definition at_price (price : dxf_double_t) (b : dxf_price_level_element_t) :=
  if double_eqb (level_price b) price then Some b else None.

Lemma eqb_better x y z :
  priced x -> priced y -> priced z -> level_cmp bid x y <= 0 -> level_cmp bid y z < 0 ->
  double_eqb (level_price z) (level_price x) = false.
Proof.
  intros Hx Hy Hz H1 H2. apply (level_cmp_differ bid x z); [done|done| |by apply double_eqb_refl].
  by apply (cmp_le_lt_trans (level_cmp bid) x y z).
Qed.

(** The best level is the join of the heads of its price, in order. *)
Lemma best_joins rems b :
  priced b -> Forall book_ok rems ->
  let best := fold_left best_step rems b in
  Some best = fold_left (join_head (level_price best)) rems (at_price (level_price best) b).
Proof.
  revert b. induction rems as [|r rems IH]; intros b Hb Hr best; simpl in *.
  { unfold at_price, best. by rewrite double_eqb_refl. }
  inversion_clear Hr as [|? ? [Hp Hs] Hr']. destruct (best_step_le b r Hb Hp) as (Hb1 & Hle1 & Hh1).
  destruct (best_le rems _ Hb1 Hr') as (Hbest & Hle & _). fold best in Hbest, Hle.
  specialize (IH _ Hb1 Hr'). cbv zeta in IH. fold best in IH. rewrite IH. f_equal. clear IH.
  unfold at_price. destruct r as [|l r]; [done|]. simpl in *.
  inversion_clear Hp as [|? ? Hl _].
  destruct (Z.eqb_spec (level_cmp bid b l) 0) as [E|E].
  - apply level_cmp_zero in E; [|done|done]. cbn [merge_level level_price].
    destruct (double_eqb (level_price b) (level_price best)) eqn:Eb.
    + rewrite double_eqb_sym in E. by rewrite (double_eqb_trans _ _ _ E Eb).
    + destruct (double_eqb (level_price l) (level_price best)) eqn:El; [|done].
      by rewrite (double_eqb_trans _ _ _ E El) in Eb.
  - destruct (Z.ltb_spec 0 (level_cmp bid b l)) as [Hlt|Hge].
    + apply (cmp_gt (level_cmp bid)) in Hlt.
      by rewrite (eqb_better best l b Hbest Hl Hb Hle Hlt).
    + assert (level_cmp bid b l < 0) as Hlt by lia.
      by rewrite (eqb_better best b l Hbest Hb Hl Hle Hlt).
Qed.

Lemma join_head_at rems best acc :
  priced best -> Forall book_ok rems -> (forall l r, l :: r ∈ rems -> level_cmp bid best l <= 0) ->
  fold_left (join_head (level_price best)) rems acc = fold_left (join_at (level_price best)) rems acc.
Proof.
  intros Hb. revert acc. induction rems as [|r rems IH]; intros acc Hr Hle; [done|]. simpl.
  inversion_clear Hr as [|? ? Hr1 Hr']. rewrite IH; [|done|intros; eapply Hle; by right]. f_equal.
  unfold join_at, join_head. destruct r as [|l r]; [done|].
  rewrite level_at_head; [|done|done|eapply Hle; by left]. by destruct (double_eqb _ _).
Qed.

Lemma merged_at_congr price price' rems :
  double_eqb price price' = true -> merged_at price rems = merged_at price' rems.
Proof.
  intros E. unfold merged_at. generalize (@None dxf_price_level_element_t).
  induction rems as [|r rems IH]; intros acc; [done|]. simpl. rewrite IH. f_equal.
  unfold join_at. replace (level_at price r) with (level_at price' r); [done|].
  induction r as [|l r IHr]; [done|]. simpl. rewrite IHr.
  destruct (double_eqb (level_price l) price) eqn:E1.
  - by rewrite (double_eqb_trans _ _ _ E1 E).
  - destruct (double_eqb (level_price l) price') eqn:E2; [|done].
    rewrite double_eqb_sym in E. by rewrite (double_eqb_trans _ _ _ E2 E) in E1.
Qed.

(** The best level found is the merged level of its price. *)
Lemma best_merged rems start :
  priced start -> Forall book_ok rems ->
  let best := fold_left best_step rems start in
  level_cmp bid best start < 0 -> merged_at (level_price best) rems = Some best.
Proof.
  intros Hst Hr best Hlt. destruct (best_le rems start Hst Hr) as (Hb & Hle & Hh).
  fold best in Hb, Hle, Hh.
  pose proof (best_joins rems start Hst Hr) as E. cbv zeta in E. fold best in E.
  unfold at_price in E. assert (double_eqb (level_price start) (level_price best) = false) as Es.
  { apply (level_cmp_differ bid best start); [done|done|done|by apply double_eqb_refl]. }
  rewrite Es in E. unfold merged_at. by rewrite <- join_head_at.
Qed.
(** *** One round of the merge *)

(** The levels that remain, each better than the start value. *)
Record rems_ok (start : dxf_price_level_element_t) (rems : list (list dxf_price_level_element_t))
  : Prop := {
  rems_books : Forall book_ok rems;
  rems_better : forall r l, r ∈ rems -> l ∈ r -> level_cmp bid l start < 0;
  rems_sizes : forall price l, merged_at price rems = Some l ->
    double_eqb (level_size l) double_zero = false;
}.

Lemma advance_sub price r l : l ∈ advance price r -> l ∈ r.
Proof. destruct r as [|x r]; simpl; [done|]. destruct (double_eqb _ _); [by right|done]. Qed.

Lemma advance_book_ok price r : book_ok r -> book_ok (advance price r).
Proof.
  intros [Hp Hs]. destruct r as [|x r]; [by split|]. simpl. destruct (double_eqb _ _); [|by split].
  inversion_clear Hp. inversion_clear Hs. by split.
Qed.

Lemma level_at_advance best r price :
  book_ok r -> priced best -> (forall l r', r = l :: r' -> level_cmp bid best l <= 0) ->
  level_at price (advance (level_price best) r) =
    if double_eqb price (level_price best) then None else level_at price r.
Proof.
  intros Hr Hb Hle. destruct r as [|x r]; [by destruct (double_eqb _ _)|]. cbn [advance].
  pose proof (level_at_head x r best Hr Hb (Hle x r eq_refl)) as Hh.
  destruct (double_eqb (level_price x) (level_price best)) eqn:Ex; cbn [level_at].
  - destruct (double_eqb price (level_price best)) eqn:Ep.
    + apply level_at_none. intros y Hy. destruct Hr as [Hp Hs]. inversion_clear Hp as [|? ? Hx Hr'].
      inversion_clear Hs as [|? ? _ Hall]. rewrite Forall_forall in Hall, Hr'.
      apply (level_cmp_differ bid x y); [done|by apply Hr'|by apply Hall|].
      rewrite double_eqb_sym in Ep. by apply (double_eqb_trans _ (level_price best)).
    + destruct (double_eqb (level_price x) price) eqn:Exp; [|done].
      rewrite double_eqb_sym in Exp. by rewrite (double_eqb_trans _ _ _ Exp Ex) in Ep.
  - destruct (double_eqb price (level_price best)) eqn:Ep; [|done].
    assert (level_at price (x :: r) = None) as E; [|exact E].
    rewrite <- Hh. cbn [level_at]. clear Hh.
    assert (forall l, level_at price l = level_at (level_price best) l) as E.
    { intros l. pose proof (merged_at_congr _ _ [l] Ep) as E. unfold merged_at, join_at in E. simpl in E.
      by destruct (level_at price l), (level_at (level_price best) l); simplify_eq. }
    apply (E (x :: r)).
Qed.

Lemma merged_at_advance best rems price :
  priced best -> Forall book_ok rems -> (forall l r, l :: r ∈ rems -> level_cmp bid best l <= 0) ->
  merged_at price (map (advance (level_price best)) rems) =
    if double_eqb price (level_price best) then None else merged_at price rems.
Proof.
  intros Hb Hr Hle. unfold merged_at.
  assert (forall acc, fold_left (join_at price) (map (advance (level_price best)) rems) acc =
    if double_eqb price (level_price best) then acc else fold_left (join_at price) rems acc) as H.
  { induction Hr as [|r rems Hr1 Hr IH]; intros acc; [by destruct (double_eqb _ _)|]. simpl.
    rewrite IH by (intros; eapply Hle; by right).
    assert (join_at price acc (advance (level_price best) r) =
      if double_eqb price (level_price best) then acc else join_at price acc r) as ->.
    { unfold join_at. rewrite level_at_advance; [|done|done|intros l r' ->; eapply Hle; by left].
      by destruct (double_eqb _ _). }
    by destruct (double_eqb _ _). }
  by rewrite H.
Qed.

Definition total (rems : list (list dxf_price_level_element_t)) : nat := length (concat rems).

Lemma total_advance_le price rems : (total (map (advance price) rems) <= total rems)%nat.
Proof.
  unfold total. induction rems as [|r rems IH]; simpl; [done|]. rewrite !length_app.
  destruct r as [|x r]; simpl; [lia|]. destruct (double_eqb _ _); simpl; lia.
Qed.

Lemma total_advance_lt price rems l r :
  l :: r ∈ rems -> double_eqb (level_price l) price = true ->
  (total (map (advance price) rems) < total rems)%nat.
Proof.
  intros Hin Hl. unfold total. induction rems as [|x rems IH]; [by apply elem_of_nil in Hin|].
  simpl. rewrite !length_app. apply elem_of_cons in Hin as [<-|Hin].
  - pose proof (total_advance_le price rems). unfold total in *. simpl. rewrite Hl. lia.
  - specialize (IH Hin). destruct x as [|y x]; simpl; [lia|].
    destruct (double_eqb (level_price y) price); simpl; lia.
Qed.

Lemma best_empty rems start : total rems = 0%nat -> fold_left best_step rems start = start.
Proof.
  unfold total. induction rems as [|[|x r] rems IH]; simpl; intros H; [done|by apply IH|done].
Qed.

Lemma total_pos rems : (0 < total rems)%nat -> exists l r, l :: r ∈ rems.
Proof.
  unfold total. induction rems as [|[|x r] rems IH]; simpl; intros H; [lia| |by exists x, r; left].
  destruct (IH H) as (l & r & Hin). exists l, r. by right.
Qed.

Lemma merged_at_empty price rems : total rems = 0%nat -> merged_at price rems = None.
Proof.
  unfold total, merged_at. induction rems as [|[|x r] rems IH]; simpl; intros H; [done|by apply IH|done].
Qed.
Lemma level_at_in price r l :
  l ∈ r -> double_eqb (level_price l) price = true -> is_Some (level_at price r).
Proof.
  induction r as [|x r IH]; intros Hin Hl; [by apply elem_of_nil in Hin|]. simpl.
  destruct (double_eqb (level_price x) price) eqn:E; [by eexists|].
  apply elem_of_cons in Hin as [->|Hin]; [congruence|by apply IH].
Qed.

Lemma level_at_elem price r l : level_at price r = Some l -> l ∈ r /\ double_eqb (level_price l) price = true.
Proof.
  induction r as [|x r IH]; simpl; [done|]. destruct (double_eqb (level_price x) price) eqn:E.
  - intros [= ->]. split; [by left|done].
  - intros H. destruct (IH H). split; [by right|done].
Qed.

Lemma merged_at_elem price rems :
  is_Some (merged_at price rems) ->
  exists r l, r ∈ rems /\ l ∈ r /\ double_eqb (level_price l) price = true.
Proof.
  unfold merged_at. intros H.
  assert (forall acc, is_Some (fold_left (join_at price) rems acc) -> is_Some acc \/
    exists r l, r ∈ rems /\ l ∈ r /\ double_eqb (level_price l) price = true) as Hg.
  { clear H. induction rems as [|r rems IH]; intros acc Hs; [by left|]. simpl in Hs.
    destruct (IH _ Hs) as [Hj|(r' & l & ? & ? & ?)]; [|right; exists r', l; split; [by right|done]].
    unfold join_at in Hj. destruct (level_at price r) as [l|] eqn:El; [|by left].
    apply level_at_elem in El as [? ?]. right. exists r, l. split; [by left|done]. }
  destruct (Hg None H) as [[? ?]|]; done.
Qed.

(** What is known of the best level while there are levels. *)
Record best_ok (start : dxf_price_level_element_t) (rems : list (list dxf_price_level_element_t))
  (best : dxf_price_level_element_t) : Prop := {
  best_priced : priced best;
  best_size : double_eqb (level_size best) double_zero = false;
  best_at : merged_at (level_price best) rems = Some best;
  best_rest : forall r l, r ∈ map (advance (level_price best)) rems -> l ∈ r ->
    level_cmp bid best l < 0;
  best_heads : forall l r, l :: r ∈ rems -> level_cmp bid best l <= 0;
  best_shorter : (total (map (advance (level_price best)) rems) < total rems)%nat;
}.

Lemma best_ok_intro start rems :
  priced start -> rems_ok start rems -> (0 < total rems)%nat ->
  best_ok start rems (fold_left best_step rems start).
Proof.
  intros Hst [Hr Hbet Hsz] Ht. set (best := fold_left best_step rems start).
  destruct (best_le rems start Hst Hr) as (Hb & Hle & Hh). fold best in Hb, Hle, Hh.
  destruct (total_pos rems Ht) as (l0 & r0 & Hin0).
  assert (level_cmp bid best start < 0) as Hlt.
  { apply (cmp_le_lt_trans (level_cmp bid) best l0 start); [by eapply Hh|]. eapply Hbet; [done|by left]. }
  pose proof (best_merged rems start Hst Hr Hlt) as Hm. fold best in Hm.
  constructor; try done; [by eapply Hsz| |].
  - intros r l (r1 & -> & Hin)%list_elem_of_fmap_1 Hl.
    rewrite Forall_forall in Hr. pose proof (Hr r1 Hin) as Hok.
    pose proof (advance_sub _ _ _ Hl) as Hl1.
    assert (priced l) as Hpl by (destruct Hok as [Hp _]; rewrite Forall_forall in Hp; by apply Hp).
    assert (level_cmp bid best l <= 0) as Hbl.
    { destruct r1 as [|x r1]; [by apply elem_of_nil in Hl1|]. specialize (Hh x r1 Hin).
      destruct Hok as [_ Hs]. inversion_clear Hs as [|? ? _ Hall]. rewrite Forall_forall in Hall.
      apply elem_of_cons in Hl1 as [->|Hl1]; [done|]. specialize (Hall l Hl1). unfold cmp_lt in Hall.
      apply Z.lt_le_incl. by apply (cmp_le_lt_trans (level_cmp bid) best x l). }
    destruct (decide (level_cmp bid best l = 0)) as [E|]; [|lia].
    apply level_cmp_zero in E; [|done|done]. rewrite double_eqb_sym in E.
    destruct (level_at_in _ _ l Hl E) as [y Hy].
    rewrite level_at_advance in Hy; [|done|done|intros x r' ->; by eapply Hh].
    by rewrite double_eqb_refl in Hy.
  - destruct (merged_at_elem (level_price best) rems) as (r & l & Hin & Hl & El); [by eexists|].
    destruct r as [|x r]; [by apply elem_of_nil in Hl|].
    apply (total_advance_lt _ _ x r); [done|]. rewrite Forall_forall in Hr.
    destruct (level_at_in _ _ l Hl El) as [y Hy].
    rewrite level_at_head in Hy; [|by apply Hr|done|by eapply Hh]. revert Hy. destruct (double_eqb (level_price x) (level_price best)); [done|discriminate].
Qed.

Lemma rems_ok_advance start rems best :
  rems_ok start rems -> best_ok start rems best ->
  rems_ok start (map (advance (level_price best)) rems).
Proof.
  intros [Hr Hbet Hsz] [Hb _ Hm Hrest Hh _]. constructor.
  - apply Forall_fmap. eapply Forall_impl; [done|]. intros r. apply advance_book_ok.
  - intros r l (r1 & -> & Hin)%list_elem_of_fmap_1 Hl. by eapply Hbet, advance_sub.
  - intros price l H. rewrite merged_at_advance in H; [|done|done|done].
    destruct (double_eqb _ _); [done|]. by eapply Hsz.
Qed.
Lemma merge_spec N start rems :
  priced start -> double_eqb (level_size start) double_zero = true -> rems_ok start rems ->
  (total rems <= N)%nat ->
  book_ok (merge N start rems) /\
  forall price, level_at price (merge N start rems) = merged_at price rems.
Proof.
  intros Hst Hz. revert rems. induction N as [|N IH]; intros rems Hok Ht.
  { split; [by repeat constructor|]. intros price. by rewrite merged_at_empty by lia. }
  cbn [merge]. destruct (decide (total rems = 0%nat)) as [E|E].
  { rewrite best_empty, Hz by done. split; [by repeat constructor|].
    intros price. by rewrite merged_at_empty. }
  pose proof (best_ok_intro start rems Hst Hok ltac:(lia)) as Hbest.
  set (best := fold_left best_step rems start) in *.
  pose proof (rems_ok_advance start rems best Hok Hbest) as Hok'.
  destruct Hbest as [Hb Hs Hat Hrest Hh Hsh]. rewrite Hs.
  destruct (IH _ Hok' ltac:(lia)) as [[Hp Hso] Hl]. split.
  - split; [by constructor|]. constructor; [done|]. apply Forall_forall. intros x Hx.
    rewrite Forall_forall in Hp. pose proof (Hp x Hx) as Hpx.
    destruct (level_at_in (level_price x) _ x Hx (double_eqb_refl _ Hpx)) as [y Hy].
    rewrite Hl in Hy. destruct (merged_at_elem (level_price x) (map (advance (level_price best)) rems))
      as (r & l & Hr & Hlr & E'); [by eexists|].
    assert (priced l) as Hpl.
    { destruct Hok' as [Hbk _ _]. rewrite Forall_forall in Hbk. destruct (Hbk r Hr) as [Hpr _].
      rewrite Forall_forall in Hpr. by apply Hpr. }
    apply (cmp_lt_eq (level_cmp bid) best l x); [by eapply Hrest|]. by apply level_cmp_zero.
  - intros price. cbn [level_at]. rewrite Hl, merged_at_advance; [|done|by destruct Hok|done].
    destruct (double_eqb (level_price best) price) eqn:E'.
    + by rewrite <- (merged_at_congr _ _ rems E').
    + rewrite double_eqb_sym in E'. by rewrite E'.
Qed.

(** ** The loops compute the merge *)

(** The levels of the sources from their indices on. *)
Definition rems_of (srcs : list dx_plb_price_level_side_t) (sidx : list nat)
  : list (list dxf_price_level_element_t) := zip_with (fun src idx => drop idx (used src)) srcs sidx.

Lemma head_level_spec src idx :
  side_ok bid src -> head_level src idx = Some (head (drop idx (used src))).
Proof.
  intros Hok. pose proof (length_used bid src Hok) as Hlen. destruct Hok as [_ Hl Hc _ _].
  unfold head_level. destruct (Nat.ltb_spec idx (side_count src)) as [Hlt|Hge].
  - destruct (lookup_lt_is_Some_2 (side_levels src) idx) as [x Hx]; [lia|]. rewrite Hx.
    rewrite (drop_S _ x) by (unfold used; by rewrite lookup_take_lt). done.
  - by rewrite drop_ge by lia.
Qed.

Lemma best_loop_spec srcs sidx best :
  Forall (side_ok bid) srcs -> length sidx = length srcs -> priced best ->
  best_loop (side_comparator bid) srcs sidx best = Some (fold_left best_step (rems_of srcs sidx) best).
Proof.
  intros Hs. revert sidx best. induction Hs as [|src srcs Hok Hs IH]; intros [|idx sidx] best Hlen Hb;
    try done. cbn [best_loop]. rewrite head_level_spec by done. cbn [mbind option_bind].
  unfold rems_of. cbn [zip_with fold_left]. fold (rems_of srcs sidx).
  assert (Forall priced (drop idx (used src))) as Hp by (apply Forall_drop, ok_priced with (1 := Hok)).
  simpl in Hlen. destruct (drop idx (used src)) as [|l r]; cbn [head best_step].
  { apply IH; [lia|done]. }
  inversion_clear Hp as [|? ? Hl _]. unfold priced in Hl. rewrite Hl, (side_comparator_total bid) by done.
  apply IH; [lia|]. by destruct (level_cmp bid best l =? 0), (0 <? level_cmp bid best l).
Qed.

Lemma advance_loop_spec srcs sidx price :
  Forall (side_ok bid) srcs -> length sidx = length srcs ->
  exists sidx', advance_loop srcs sidx price = Some sidx' /\ length sidx' = length srcs /\
    rems_of srcs sidx' = map (advance price) (rems_of srcs sidx).
Proof.
  intros Hs. revert sidx. induction Hs as [|src srcs Hok Hs IH]; intros [|idx sidx] Hlen;
    try done; [by exists []|]. cbn [advance_loop]. rewrite head_level_spec by done.
  cbn [mbind option_bind]. destruct (IH sidx) as (sidx' & -> & Hl & E); [simpl in Hlen; lia|].
  cbn [mbind option_bind]. eexists. split; [done|]. split; [simpl; lia|].
  unfold rems_of in *. cbn [zip_with map]. rewrite E. f_equal.
  unfold advance. destruct (drop idx (used src)) as [|l r] eqn:Ed; cbn [head]; [done|].
  destruct (double_eqb (level_price l) price); [|done].
  rewrite <- Nat.add_1_r, <- drop_drop, Ed. done.
Qed.

Lemma merge_loop_spec fuel srcs sidx startValue levels didx changed :
  Forall (side_ok bid) srcs -> length sidx = length srcs -> double_isnan startValue = false ->
  (didx + fuel <= length levels)%nat ->
  let out := merge fuel (PriceLevel startValue double_zero 0) (rems_of srcs sidx) in
  exists levels',
    merge_loop fuel (side_comparator bid) srcs sidx startValue levels didx changed =
      Some (levels', (didx + length out)%nat,
            changed || negb (bool_decide (take (length out) (drop didx levels) = out))) /\
    length levels' = length levels /\ take (didx + length out) levels' = take didx levels ++ out.
Proof.
  intros Hs. revert sidx levels didx changed.
  induction fuel as [|fuel IH]; intros sidx levels didx changed Hlen Hst Hd out.
  { exists levels. unfold out. cbn [merge merge_loop length take].
    rewrite bool_decide_true, orb_false_r, Nat.add_0_r, app_nil_r by done. done. }
  unfold out. cbn [merge merge_loop]. rewrite best_loop_spec by done. cbn [mbind option_bind].
  set (best := fold_left best_step _ _). destruct (double_eqb (level_size best) double_zero).
  { exists levels. cbn [length take].
    rewrite bool_decide_true, orb_false_r, Nat.add_0_r, app_nil_r by done. done. }
  rewrite store_changed by lia. cbn [fst snd].
  destruct (advance_loop_spec srcs sidx (level_price best) Hs Hlen) as (sidx' & -> & Hlen' & E).
  cbn [mbind option_bind].
  destruct (IH sidx' (<[didx := best]> levels) (S didx)
    (changed || negb (bool_decide (levels !! didx = Some best))))
    as (levels' & H1 & H2 & H3); [done|done|rewrite length_insert; lia|].
  rewrite E in H1, H3. exists levels'. cbn [length]. rewrite H1, H2, length_insert.
  rewrite stored_changed by lia. rewrite Nat.add_succ_comm. split_and!; [done|done|].
  apply stored_take; [lia|done].
Qed.
End merge.

(** ** Properties *)

(** C4: a side of a book is the best ten levels of the combined book of its
    sources: sorted by price, the level of a price joining those of all the
    sources (sizes added, the latest time).  It is reported as changed exactly
    when its levels are not those that the buffer already held.  The sources'
    prices are better than the start value (positive bids, asks below 1E38) and
    no joined size is zero. *)
Theorem book_merge_best_levels (bid : bool) (alloc : nat -> bool) (dst : dx_plb_price_level_side_t)
  (srcs : list dx_plb_price_level_side_t) (startValue : dxf_double_t) :
  (forall n, alloc n = true) -> side_cmp dst = side_comparator bid ->
  length (side_levels dst) = MAX_PRICE_LEVELS -> Forall (side_ok bid) srcs ->
  double_isnan startValue = false ->
  rems_ok bid (PriceLevel startValue double_zero 0) (map used srcs) ->
  exists dst' changed book,
    dx_plb_book_update_one_side alloc dst srcs startValue = Some (dst', changed) /\
    used dst' = take MAX_PRICE_LEVELS book /\ book_ok bid book /\
    (forall price, level_at price book = merged_at price (map used srcs)) /\
    (changed = false <-> take (side_count dst') (side_levels dst) = used dst').
Proof.
  intros Halloc Hcmp Hl Hs Hst Hok. set (start := PriceLevel startValue double_zero 0) in *.
  assert (rems_of srcs (replicate (length srcs) 0%nat) = map used srcs) as E.
  { unfold rems_of. clear. induction srcs as [|s srcs IH]; [done|]. simpl. by rewrite IH. }
  set (N := Nat.max MAX_PRICE_LEVELS (total (map used srcs))).
  destruct (merge_spec bid N start (map used srcs)) as [Hb Hat]; [exact Hst|reflexivity|exact Hok|lia|].
  destruct (merge_loop_spec bid MAX_PRICE_LEVELS srcs (replicate (length srcs) 0%nat) startValue
    (side_levels dst) 0 false) as (levels & Hm & Hl' & Ht); [exact Hs|apply length_replicate|exact Hst|lia|].
  fold start in Hm, Ht. rewrite E in Hm, Ht. set (out := merge bid MAX_PRICE_LEVELS start _) in *.
  unfold dx_plb_book_update_one_side. rewrite Halloc, Hcmp, Hm. cbn [negb andb mbind option_bind].
  eexists _, _, (merge bid N start (map used srcs)). split; [done|].
  unfold used; cbn [side_count side_levels]. rewrite Nat.add_0_l in *.
  rewrite Ht, merge_take by lia. cbn [take app orb]. rewrite drop_0.
  split_and!; [done|done|done|].
  destruct (bool_decide_reflect (take (length out) (side_levels dst) = out)); cbn; split; done.
Qed.

(** A side with one level, of price 10 and size 0.1. *)
Definition side_example : dx_plb_price_level_side_t :=
  PriceLevelSide 1 (PriceLevel d10 d0_1 0 :: replicate 9 zero_level) dx_plb_pricelvel_comparator_bid
    false true.

Lemma side_example_ok : side_ok true side_example.
Proof.
  constructor; simpl; [done|done|unfold MAX_PRICE_LEVELS; lia|by repeat constructor|by repeat constructor].
Qed.

Lemma book_merge_best_levels_witness :
  let dst := new_side dx_plb_pricelvel_comparator_bid in
  exists dst' changed book,
    dx_plb_book_update_one_side (fun _ => true) dst [side_example; dst] double_zero =
      Some (dst', changed) /\
    used dst' = take MAX_PRICE_LEVELS book /\ book_ok true book /\
    (forall price, level_at price book = merged_at price [[PriceLevel d10 d0_1 0]; []]) /\
    (changed = false <-> take (side_count dst') (side_levels dst) = used dst').
Proof.
  apply (book_merge_best_levels true).
  - reflexivity.
  - reflexivity.
  - reflexivity.
  - constructor; [apply side_example_ok|]. constructor; [by apply (side_ok_empty true)|constructor].
  - reflexivity.
  - constructor.
    + repeat constructor.
    + intros r l Hr Hl. simpl in Hr. apply elem_of_cons in Hr as [->|Hr].
      * apply list_elem_of_singleton in Hl as ->. vm_compute. reflexivity.
      * apply list_elem_of_singleton in Hr as ->. by apply elem_of_nil in Hl.
    + intros price l H. unfold merged_at, join_at in H. simpl in H.
      destruct (double_eqb d10 price); [injection H as <-; reflexivity|discriminate H].
Defined.

(** A world with one source (at address 1) and one book (at address 2), with a
    listener, that reads it. *)
Definition world_example : plb_world :=
  PlbWorld {[ 1 := (new_source [65] [78], [(2, 0%nat)]) ]}
    {[ 2 := PlbBook [65] [1] (DxArray [PlbListener 300 0] 1 1)
              (new_side dx_plb_pricelvel_comparator_bid) (new_side dx_plb_pricelvel_comparator_ask)
              0 0 ]}.

(** Two events: an order and its removal. *)
Definition order_then_removal (w : plb_world)
  : option (plb_world * list plb_callback * list plb_callback) :=
  let o := order_example 1 d10 d0_1 dxf_osd_buy in
  r1 ← plb_source_event (fun _ => true) 1 DXF_ET_ORDER [65] (ev_order o) (EventParams 0 1 0) w;
  r2 ← plb_source_event (fun _ => true) 1 DXF_ET_ORDER [65] (ev_order o)
         (EventParams dxf_ef_remove_event 1 0) r1.1;
  Some (r2.1, r1.2, r2.2).

(** A level that vanishes from the end of a side is not reported: after the
    only order of a book is removed the source publishes no level, but the
    listener, which was called with the order, is not called again and the
    book it can read still counts one bid. *)
Theorem vanished_level_not_reported :
  exists w calls source book,
    order_then_removal world_example = Some (w, calls, []) /\
    map pc_bids calls = [[PriceLevel d10 d0_1 0]] /\
    w_sources w !! 1 = Some (source, [(2, 0%nat)]) /\ used (ps_final_bids source) = [] /\
    w_books w !! 2 = Some book /\ used (pb_bids book) = [] /\ pb_bids_count book = 1%nat.
Proof. eexists _, _, _, _. vm_compute. repeat split; reflexivity. Qed.
