(* ===== verification/RegionalBook.v ===== *)
(** * RegionalBook: the books of [src/RegionalBook.c]

    A book of the best quotes of the 26 regions of a symbol: the quote events
    overwrite the bid and the ask of a region, the ten best levels of a side are
    selected from the regions, and the listeners are called with the quotes
    ([dx_rblv_v2]) or with the book ([dx_rblv_default]).  The theorems: what is
    shown of a side is sorted and its first level is exact; a selection pass
    uses up each region that was best so far, so levels are lost. *)

From Stdlib Require Import Sorted SpecFloat.
From S2P Require Import Prelude Arrays EventData Doubles PriceLevelSource.
Local Open Scope Z_scope.

(** ** Data *)

Inductive dx_rb_listener_version_t : Set := dx_rblv_default | dx_rblv_v2.
#[export] Instance dx_rb_listener_version_t_eq_dec : EqDecision dx_rb_listener_version_t.
Proof. solve_decision. Defined.

Record dx_rb_listener_context_t : Type := RbListener {
  rl_listener : Z;
  rl_version : dx_rb_listener_version_t;
  rl_user_data : Z;
}.

Record dx_rb_regional_t : Type := RbRegional {
  rr_bid : dxf_price_level_element_t;
  rr_ask : dxf_price_level_element_t;
}.

Record dx_regional_book_t : Type := RegionalBook {
  rb_symbol : list Z;
  rb_listeners : dx_array dx_rb_listener_context_t;
  rb_regions : list dx_rb_regional_t;
  rb_bids : list dxf_price_level_element_t;   (** [book.bids] *)
  rb_bids_count : nat;
  rb_asks : list dxf_price_level_element_t;
  rb_asks_count : nat;
}.

(** The calls of the listeners: of the quotes, and of the book as it is. *)
Inductive rb_callback : Type :=
  | quotes_call (listener user_data : Z) (symbol : list Z) (quotes : list dxf_event_data_t)
  | book_call (listener user_data : Z) (bids asks : list dxf_price_level_element_t).

Definition MAX_PRICE_LEVELS : nat := 10.
Definition dx_all_regional_count : nat := 26.

(** ** The selection of the levels *)

Section side.
Context (isBid : bool).

Definition region_side (r : dx_rb_regional_t) : dxf_price_level_element_t :=
  if isBid then rr_bid r else rr_ask r.

(** One pass over the regions from the [i]th on: the regions used up and the
    best level. *)
Fixpoint region_loop (regions : list dx_rb_regional_t) (i : nat) (rused : Z)
  (best : dxf_price_level_element_t) : Z * dxf_price_level_element_t :=
  match regions with
  | [] => (rused, best)
  | r :: regions' =>
      let bit := Z.shiftl 1 (Z.of_nat i) in
      if negb (Z.land rused bit =? 0) then region_loop regions' (S i) rused best
      else
        let reg := region_side r in
        if double_eqb (level_size reg) double_zero || double_isnan (level_price reg) then
          region_loop regions' (S i) (Z.lor rused bit) best
        else if double_eqb (level_price reg) (level_price best) then
          region_loop regions' (S i) (Z.lor rused bit)
            (PriceLevel (level_price best) (double_add (level_size best) (level_size reg))
               (level_time best))
        else if isBid && double_ltb (level_price best) (level_price reg) then
          region_loop regions' (S i) (Z.lor rused bit) reg
        else if negb isBid && double_ltb (level_price reg) (level_price best) then
          region_loop regions' (S i) (Z.lor rused bit) reg
        else region_loop regions' (S i) rused best
  end.

(** The loop over the levels, at most [fuel] of them from [didx] on. *)
Fixpoint levels_loop (fuel : nat) (regions : list dx_rb_regional_t) (startValue : dxf_double_t)
  (rused : Z) (dst : list dxf_price_level_element_t) (didx : nat) (changed : bool)
  : option (list dxf_price_level_element_t * nat * bool) :=
  match fuel with
  | O => Some (dst, didx, changed)
  | S fuel' =>
      let '(rused, best) := region_loop regions 0 rused (PriceLevel startValue double_zero 0) in
      if double_eqb (level_size best) double_zero then Some (dst, didx, changed)
      else
        old ← dst !! didx;
        r ← (if bool_decide (old = best) then Some (dst, changed)
             else dst ← write_at dst didx best; Some (dst, true));
        levels_loop fuel' regions startValue rused r.1 (S didx) r.2
  end.

(** The new levels, their number, and whether one of them changed. *)
Definition dx_rb_book_update_one_side (dst : list dxf_price_level_element_t) (dst_count : nat)
  (regions : list dx_rb_regional_t) (startValue : dxf_double_t)
  : option (list dxf_price_level_element_t * nat * bool) :=
  levels_loop dst_count regions startValue 0 dst 0 false.
End side.

(** ** Books *)

Definition notify_book_listeners (b : dx_regional_book_t) : list rb_callback :=
  (fun l => book_call (rl_listener l) (rl_user_data l)
     (take (rb_bids_count b) (rb_bids b)) (take (rb_asks_count b) (rb_asks b))) <$>
  filter (fun l => rl_version l = dx_rblv_default) (contents (rb_listeners b)).

Definition dx_rb_book_update (b : dx_regional_book_t)
  : option (dx_regional_book_t * list rb_callback) :=
  x ← dx_rb_book_update_one_side true (rb_bids b) MAX_PRICE_LEVELS (rb_regions b) double_zero;
  let '(bids, bids_count, changed1) := x in
  y ← dx_rb_book_update_one_side false (rb_asks b) MAX_PRICE_LEVELS (rb_regions b) double_1e38;
  let '(asks, asks_count, changed2) := y in
  let b := RegionalBook (rb_symbol b) (rb_listeners b) (rb_regions b) bids bids_count asks asks_count in
  Some (b, if (changed1 || changed2 : bool) then notify_book_listeners b else []).

Definition notify_regional_listeners (b : dx_regional_book_t) (quotes : list dxf_event_data_t)
  : list rb_callback :=
  (fun l => quotes_call (rl_listener l) (rl_user_data l) (rb_symbol b) quotes) <$>
  filter (fun l => rl_version l = dx_rblv_v2) (contents (rb_listeners b)).

Definition DXF_ET_QUOTE : Z := 2.

Definition set_region (f : dx_rb_regional_t -> dx_rb_regional_t) (code : Z) (b : dx_regional_book_t)
  : option dx_regional_book_t :=
  if (65 <=? code) && (code <=? 90) then
    let idx := Z.to_nat (code - 65) in
    r ← rb_regions b !! idx;
    regions ← write_at (rb_regions b) idx (f r);
    Some (RegionalBook (rb_symbol b) (rb_listeners b) regions (rb_bids b) (rb_bids_count b)
            (rb_asks b) (rb_asks_count b))
  else Some b.

(** [None] is undefined behaviour: reading the event as a quote that it is
    not, or a region out of bounds. *)
Definition rb_event_listener (event_type : Z) (symbol_name : list Z) (data : list dxf_event_data_t)
  (b : dx_regional_book_t) : option (dx_regional_book_t * list rb_callback) :=
  if negb (event_type =? DXF_ET_QUOTE) then Some (b, [])
  else if negb (bool_decide (rb_symbol b = symbol_name)) then Some (b, [])
  else
    let calls := notify_regional_listeners b data in
    match head data with
    | Some (ev_quote quote) =>
        b ← set_region (fun r => RbRegional (rr_bid r)
              (PriceLevel (quote_ask_price quote) (quote_ask_size quote) (quote_ask_time quote)))
              (quote_ask_exchange_code quote) b;
        b ← set_region (fun r => RbRegional
              (PriceLevel (quote_bid_price quote) (quote_bid_size quote) (quote_bid_time quote)) (rr_ask r))
              (quote_bid_exchange_code quote) b;
        r ← dx_rb_book_update b;
        Some (r.1, calls ++ r.2)
    | _ => None
    end.

(** A book as [dx_create_regional_book] allocates it. *)
Definition new_regional_book (symbol : list Z) : dx_regional_book_t :=
  RegionalBook symbol DX_EMPTY_ARRAY (replicate dx_all_regional_count (RbRegional zero_level zero_level))
    (replicate MAX_PRICE_LEVELS zero_level) 0 (replicate MAX_PRICE_LEVELS zero_level) 0.

(** ** Listeners *)

Section listeners.
Context (alloc : nat -> bool).

Definition zero_listener : dx_rb_listener_context_t := RbListener 0 dx_rblv_default 0.

Definition dx_rb_listener_comparator (e1 e2 : dx_rb_listener_context_t) : Z :=
  DX_NUMERIC_COMPARATOR (rl_listener e1) (rl_listener e2).

Definition set_rb_listeners (x : dx_array dx_rb_listener_context_t) (b : dx_regional_book_t)
  : dx_regional_book_t :=
  RegionalBook (rb_symbol b) x (rb_regions b) (rb_bids b) (rb_bids_count b) (rb_asks b) (rb_asks_count b).

Definition dx_add_regional_book_listener_impl (b : dx_regional_book_t) (listener : Z)
  (version : dx_rb_listener_version_t) (user_data : Z) : option (dx_regional_book_t * bool) :=
  let ctx := RbListener listener version user_data in
  let a := rb_listeners b in
  r ← DX_ARRAY_SEARCH dx_rb_listener_comparator (arr_elements a) 0 (arr_size a) ctx false;
  let '(found, idx) := r in
  if (found : bool) then
    l ← arr_elements a !! idx;
    elements ← write_at (arr_elements a) idx (RbListener (rl_listener l) (rl_version l) user_data);
    Some (set_rb_listeners (DxArray elements (arr_size a) (arr_capacity a)) b, true)
  else
    d ← DX_ARRAY_INSERT zero_listener alloc a ctx idx;
    let '(a, error) := d in Some (set_rb_listeners a b, negb error).

Definition dx_add_regional_book_listener (b : dx_regional_book_t) (book_listener user_data : Z) :=
  dx_add_regional_book_listener_impl b book_listener dx_rblv_default user_data.
Definition dx_add_regional_book_listener_v2 (b : dx_regional_book_t) (book_listener user_data : Z) :=
  dx_add_regional_book_listener_impl b book_listener dx_rblv_v2 user_data.

Definition dx_remove_regional_book_listener_impl (b : dx_regional_book_t) (listener : Z)
  : option (dx_regional_book_t * bool) :=
  let a := rb_listeners b in
  r ← DX_ARRAY_SEARCH dx_rb_listener_comparator (arr_elements a) 0 (arr_size a)
        (RbListener listener dx_rblv_default 0) false;
  let '(found, idx) := r in
  if negb found then Some (b, true)
  else
    d ← DX_ARRAY_DELETE zero_listener alloc a idx;
    let '(a, error) := d in Some (set_rb_listeners a b, negb error).
End listeners.

(** ** A pass over the regions that remain *)

Section passes.
Context (bid : bool).

(** The levels a pass looks at: of regions in use, neither empty nor NaN. *)
Definition showable (l : dxf_price_level_element_t) : bool :=
  negb (double_eqb (level_size l) double_zero || double_isnan (level_price l)).

Fixpoint live (regions : list dx_rb_regional_t) (i : nat) (rused : Z)
  : list dxf_price_level_element_t :=
  match regions with
  | [] => []
  | r :: regions' =>
      let l := region_side bid r in
      if negb (Z.testbit rused (Z.of_nat i)) && showable l
      then l :: live regions' (S i) rused else live regions' (S i) rused
  end.

Definition join_region (best l : dxf_price_level_element_t) : dxf_price_level_element_t :=
  PriceLevel (level_price best) (double_add (level_size best) (level_size l)) (level_time best).

Definition takes (best l : dxf_price_level_element_t) : bool := level_cmp bid l best <=? 0.
Definition region_step (best l : dxf_price_level_element_t) : dxf_price_level_element_t :=
  let c := level_cmp bid l best in
  if c =? 0 then join_region best l else if c <? 0 then l else best.

(** The levels that a pass leaves: those worse than the best so far. *)
Fixpoint losers (best : dxf_price_level_element_t) (l : list dxf_price_level_element_t)
  : list dxf_price_level_element_t :=
  match l with
  | [] => []
  | x :: l' =>
      if takes best x then losers (region_step best x) l'
      else x :: losers best l'
  end.

Fixpoint rb_levels (n : nat) (start : dxf_price_level_element_t) (l : list dxf_price_level_element_t)
  : list dxf_price_level_element_t :=
  match n with
  | O => []
  | S n' =>
      let best := fold_left region_step l start in
      if double_eqb (level_size best) double_zero then []
      else best :: rb_levels n' start (losers start l)
  end.

Lemma land_bit z i : negb (Z.land z (Z.shiftl 1 (Z.of_nat i)) =? 0) = Z.testbit z (Z.of_nat i).
Proof using Type.
  rewrite Z.shiftl_1_l. destruct (Z.testbit z (Z.of_nat i)) eqn:E.
  - apply negb_true_iff, Z.eqb_neq. intros H. apply (f_equal (fun x => Z.testbit x (Z.of_nat i))) in H.
    rewrite Z.land_spec, Z.pow2_bits_true, E, Z.bits_0 in H by lia. done.
  - apply negb_false_iff, Z.eqb_eq, Z.bits_inj'. intros j Hj. rewrite Z.land_spec, Z.bits_0.
    destruct (decide (j = Z.of_nat i)) as [->|]; [by rewrite E|].
    rewrite Z.pow2_bits_false by lia. apply andb_false_r.
Qed.

Lemma lor_bit z i j : 0 <= j ->
  Z.testbit (Z.lor z (Z.shiftl 1 (Z.of_nat i))) j = Z.testbit z j || bool_decide (j = Z.of_nat i).
Proof using Type.
  intros Hj. rewrite Z.lor_spec, Z.shiftl_1_l. f_equal. case_bool_decide as E.
  - subst. apply Z.pow2_bits_true. lia.
  - apply Z.pow2_bits_false. lia.
Qed.

Lemma live_ext regions i z z' :
  (forall j, (i <= j)%nat -> Z.testbit z (Z.of_nat j) = Z.testbit z' (Z.of_nat j)) ->
  live regions i z = live regions i z'.
Proof using Type.
  revert i. induction regions as [|r regions IH]; intros i H; [done|]. cbn [live].
  rewrite (H i) by lia. by rewrite (IH (S i)) by (intros; apply H; lia).
Qed.

Lemma live_above regions i z :
  live regions (S i) (Z.lor z (Z.shiftl 1 (Z.of_nat i))) = live regions (S i) z.
Proof using Type.
  apply live_ext. intros j Hj. rewrite lor_bit by lia. rewrite bool_decide_eq_false_2 by lia.
  apply orb_false_r.
Qed.

Lemma takes_better best l :
  priced best -> priced l ->
  (double_eqb (level_price l) (level_price best) = (level_cmp bid l best =? 0)) /\
  (bid && double_ltb (level_price best) (level_price l) || negb bid && double_ltb (level_price l) (level_price best)
     = (level_cmp bid l best <? 0)).
Proof using Type.
  intros Hb Hl. unfold level_cmp. split.
  - apply eq_true_iff_eq. rewrite Z.eqb_eq. destruct bid.
    + by rewrite double_total_zero, double_eqb_sym.
    + by rewrite double_total_zero.
  - apply eq_true_iff_eq. rewrite Z.ltb_lt. destruct bid; simpl; rewrite ?orb_false_r;
      rewrite <- double_total_eq by done; by rewrite double_comparator_lt.
Qed.

Lemma region_step_priced best l : priced best -> priced l -> priced (region_step best l).
Proof using Type. intros. unfold region_step. repeat destruct_match; done. Qed.

Lemma region_loop_spec regions i rused best :
  priced best ->
  let '(rused', best') := region_loop bid regions i rused best in
  best' = fold_left region_step (live regions i rused) best /\
  live regions i rused' = losers best (live regions i rused) /\
  (forall j, (j < i)%nat -> Z.testbit rused' (Z.of_nat j) = Z.testbit rused (Z.of_nat j)).
Proof using Type.
  revert i rused best. induction regions as [|r regions IH]; intros i rused best Hb; [done|].
  cbn [region_loop live]. rewrite land_bit. set (l := region_side bid r).
  assert (forall z best, priced best ->
    (forall j, (j < i)%nat -> Z.testbit z (Z.of_nat j) = Z.testbit rused (Z.of_nat j)) ->
    live regions (S i) z = live regions (S i) rused ->
    let '(rused', best') := region_loop bid regions (S i) z best in
    best' = fold_left region_step (live regions (S i) rused) best /\
    live regions (S i) rused' = losers best (live regions (S i) rused) /\
    (forall j, (j < i)%nat -> Z.testbit rused' (Z.of_nat j) = Z.testbit rused (Z.of_nat j)) /\
    Z.testbit rused' (Z.of_nat i) = Z.testbit z (Z.of_nat i)) as Hgo.
  { intros z b Hp Hz Hl. specialize (IH (S i) z b Hp). destruct region_loop as [rused' best'].
    destruct IH as (H1 & H2 & H3). rewrite Hl in H1, H2. split_and!; [done|done| |apply H3; lia].
    intros j Hj. rewrite H3 by lia. by apply Hz. }
  set (bit := Z.shiftl 1 (Z.of_nat i)).
  assert (Hset : forall b, priced b ->
    let '(rused', best') := region_loop bid regions (S i) (Z.lor rused bit) b in
    best' = fold_left region_step (live regions (S i) rused) b /\
    live regions (S i) rused' = losers b (live regions (S i) rused) /\
    (forall j, (j < i)%nat -> Z.testbit rused' (Z.of_nat j) = Z.testbit rused (Z.of_nat j)) /\
    Z.testbit rused' (Z.of_nat i) = true).
  { intros b Hp. specialize (Hgo (Z.lor rused bit) b Hp).
    destruct region_loop as [rused' best'].
    destruct Hgo as (H1 & H2 & H3 & H4); [|apply live_above|].
    - intros j Hj. unfold bit. rewrite lor_bit by lia. rewrite bool_decide_eq_false_2 by lia. apply orb_false_r.
    - split_and!; [done|done|done|]. rewrite H4. unfold bit. rewrite lor_bit by lia.
      rewrite bool_decide_eq_true_2 by done. apply orb_true_r. }
  destruct (Z.testbit rused (Z.of_nat i)) eqn:Et; cbn [negb andb].
  { specialize (Hgo rused best Hb (fun _ _ => eq_refl) eq_refl). destruct region_loop as [rused' best'].
    destruct Hgo as (H1 & H2 & H3 & H4). rewrite H4, Et. by split_and!. }
  unfold showable. destruct (_ || double_isnan _) eqn:Ev; cbn [negb].
  { specialize (Hset best Hb). destruct region_loop as [rused' best'].
    destruct Hset as (H1 & H2 & H3 & H4). rewrite H4. by split_and!. }
  apply orb_false_iff in Ev as [_ Hl].
  destruct (takes_better best l Hb Hl) as [Heq Hlt]. rewrite Heq.
  assert (forall x y : Z * dxf_price_level_element_t,
    (if bid && double_ltb (level_price best) (level_price l) then x
     else if negb bid && double_ltb (level_price l) (level_price best) then x else y) =
    if level_cmp bid l best <? 0 then x else y) as Hif.
  { intros x y. rewrite <- Hlt. by destruct (bid && _), (negb bid && _). }
  rewrite Hif. cbn [fold_left losers]. unfold takes, region_step at 2 3. clear Hif Heq Hlt.
  destruct (Z.eqb_spec (level_cmp bid l best) 0) as [E|E].
  { rewrite E. cbn [Z.leb Z.compare]. specialize (Hset (join_region best l) Hb).
    unfold join_region in Hset at 1. destruct region_loop as [rused' best'].
    destruct Hset as (H1 & H2 & H3 & H4). rewrite H4. by split_and!. }
  destruct (Z.ltb_spec (level_cmp bid l best) 0) as [Hlt|Hge].
  { rewrite (proj2 (Z.leb_le _ _)) by lia. specialize (Hset l Hl). destruct region_loop as [rused' best'].
    destruct Hset as (H1 & H2 & H3 & H4). rewrite H4. by split_and!. }
  rewrite (proj2 (Z.leb_gt _ _)) by lia.
  specialize (Hgo rused best Hb (fun _ _ => eq_refl) eq_refl). destruct region_loop as [rused' best'].
  destruct Hgo as (H1 & H2 & H3 & H4). rewrite H4, Et. cbn [negb andb]. rewrite H2. by split_and!.
Qed.

Lemma levels_loop_spec fuel regions startValue rused dst didx changed :
  double_isnan startValue = false -> (didx + fuel <= length dst)%nat ->
  let out := rb_levels fuel (PriceLevel startValue double_zero 0) (live regions 0 rused) in
  exists dst',
    levels_loop bid fuel regions startValue rused dst didx changed =
      Some (dst', (didx + length out)%nat,
            changed || negb (bool_decide (take (length out) (drop didx dst) = out))) /\
    length dst' = length dst /\ take (didx + length out) dst' = take didx dst ++ out.
Proof using Type.
  intros Hst. revert rused dst didx changed.
  induction fuel as [|fuel IH]; intros rused dst didx changed Hd out.
  { exists dst. unfold out. cbn [rb_levels levels_loop length take].
    rewrite bool_decide_true, orb_false_r, Nat.add_0_r, app_nil_r by done. done. }
  unfold out. cbn [rb_levels levels_loop]. set (start := PriceLevel startValue double_zero 0).
  pose proof (region_loop_spec regions 0 rused start Hst) as Hr.
  destruct (region_loop bid regions 0 rused start) as [rused' best]. destruct Hr as (<- & <- & _).
  destruct (double_eqb (level_size best) double_zero).
  { exists dst. cbn [length take].
    rewrite bool_decide_true, orb_false_r, Nat.add_0_r, app_nil_r by done. done. }
  rewrite store_changed by lia. cbn [fst snd].
  destruct (IH rused' (<[didx := best]> dst) (S didx) (changed || negb (bool_decide (dst !! didx = Some best))))
    as (dst' & H1 & H2 & H3); [rewrite length_insert; lia|].
  fold start in H1, H3. exists dst'. cbn [length]. rewrite H1, H2, length_insert.
  rewrite stored_changed by lia. rewrite Nat.add_succ_comm. split_and!; [done|done|].
  apply stored_take; [lia|done].
Qed.

(** The best level of a pass is no worse than what the pass saw. *)
Lemma region_step_le best l :
  level_cmp bid (region_step best l) best <= 0 /\ level_cmp bid (region_step best l) l <= 0 /\
  (level_price (region_step best l) = level_price best \/ region_step best l = l).
Proof using Type.
  unfold region_step. destruct (Z.eqb_spec (level_cmp bid l best) 0) as [E|E].
  - assert (level_cmp bid best (join_region best l) = 0) as H.
    { rewrite (level_cmp_key bid best _ best) by done. apply cmp_refl. }
    split_and!; [by rewrite (cmp_zero_sym (level_cmp bid) _ _ H)| |by left].
    apply (cmp_zero_sym (level_cmp bid)) in H, E.
    by rewrite (cmp_eq_trans (level_cmp bid) _ best l).
  - destruct (Z.ltb_spec (level_cmp bid l best) 0) as [Hlt|Hge].
    + split_and!; [lia|by rewrite cmp_refl|by right].
    + split_and!; [by rewrite cmp_refl| |by left].
      apply Z.lt_le_incl, (cmp_gt (level_cmp bid)). lia.
Qed.

Lemma fold_step_le l best :
  level_cmp bid (fold_left region_step l best) best <= 0 /\
  (forall x, x ∈ l -> level_cmp bid (fold_left region_step l best) x <= 0) /\
  (level_price (fold_left region_step l best) = level_price best \/
   exists x, x ∈ l /\ level_price (fold_left region_step l best) = level_price x).
Proof using Type.
  revert best. induction l as [|x l IH]; intros best; simpl.
  { split_and!; [by rewrite cmp_refl| |by left]. intros x H. by apply elem_of_nil in H. }
  destruct (region_step_le best x) as (H1 & H2 & H3). destruct (IH (region_step best x)) as (H4 & H5 & H6).
  split_and!.
  - by apply (cmp_le_trans (level_cmp bid) _ (region_step best x)).
  - intros y [->|Hy]%elem_of_cons; [|by apply H5].
    by apply (cmp_le_trans (level_cmp bid) _ (region_step best x)).
  - destruct H6 as [H6|(y & Hy & H6)]; [|by right; exists y; split; [by right|]].
    destruct H3 as [H3|H3]; [left; congruence|]. right. exists x. split; [by left|congruence].
Qed.

Lemma losers_worse best l x :
  x ∈ losers best l -> x ∈ l /\ level_cmp bid (fold_left region_step l best) x < 0.
Proof using Type.
  revert best. induction l as [|y l IH]; intros best Hx; simpl in *; [by apply elem_of_nil in Hx|].
  unfold takes in Hx. destruct (Z.leb_spec (level_cmp bid y best) 0) as [Hle|Hgt].
  - destruct (IH _ Hx). split; [by right|done].
  - assert (region_step best y = best) as E.
    { unfold region_step. rewrite (proj2 (Z.eqb_neq _ _)), (proj2 (Z.ltb_ge _ _)) by lia. done. }
    rewrite E. apply elem_of_cons in Hx as [->|Hx]; [|by destruct (IH _ Hx); split; [right|]].
    split; [by left|]. destruct (fold_step_le l best) as (H & _ & _).
    apply (cmp_le_lt_trans (level_cmp bid) _ best); [done|]. by apply (cmp_gt (level_cmp bid)).
Qed.

Lemma rb_levels_sorted n start l :
  (forall x, x ∈ l -> level_cmp bid x start < 0) -> level_size start = double_zero ->
  sorted_by (level_cmp bid) (rb_levels n start l) /\
  forall x, x ∈ rb_levels n start l -> exists y, y ∈ l /\ level_price x = level_price y.
Proof using Type.
  intros Hl Hz. revert l Hl. induction n as [|n IH]; intros l Hl; simpl.
  { split; [constructor|]. intros x H. by apply elem_of_nil in H. }
  destruct (double_eqb (level_size (fold_left region_step l start)) double_zero) eqn:E.
  { split; [constructor|]. intros x H. by apply elem_of_nil in H. }
  destruct (IH (losers start l)) as [H1 H2].
  { intros x Hx. by apply Hl, (losers_worse start). }
  split.
  - constructor; [done|]. apply Forall_forall. intros x (y & Hy & Ep)%H2. unfold cmp_lt.
    rewrite (level_cmp_key bid _ x y Ep). by apply losers_worse.
  - intros x [->|Hx]%elem_of_cons.
    + destruct (fold_step_le l start) as (_ & _ & [H|(y & Hy & H)]); [|by exists y].
      destruct l as [|z l]; [simpl in E; by rewrite Hz in E|]. exfalso.
      destruct (fold_step_le (z :: l) start) as (_ & H' & _).
      pose proof (H' z ltac:(by left)) as Hle. specialize (Hl z ltac:(by left)).
      pose proof (cmp_le_lt_trans (level_cmp bid) _ z start Hle Hl) as Hc.
      assert (level_cmp bid start start < 0); [|by rewrite cmp_refl in *].
      unfold level_cmp in Hc |- *. by rewrite H in Hc.
    + destruct (H2 x Hx) as (y & Hy & Ep). exists y. split; [|done]. by apply (losers_worse start).
Qed.

(** The levels of the regions that can be shown. *)
Definition showables (regions : list dx_rb_regional_t) : list dxf_price_level_element_t :=
  filter (fun l => showable l = true) (region_side bid <$> regions).

Lemma live_all regions i : live regions i 0 = showables regions.
Proof using Type.
  revert i. induction regions as [|r regions IH]; intros i; [done|].
  cbn [live]. rewrite Z.bits_0, IH. unfold showables. cbn [fmap list_fmap negb andb].
  rewrite filter_cons. by destruct (showable (region_side bid r)).
Qed.

(** The levels of one price, joined. *)
Definition joined (b : dxf_price_level_element_t) (l : list dxf_price_level_element_t)
  : dxf_price_level_element_t :=
  PriceLevel (level_price b) (fold_left (fun size x => double_add size (level_size x)) l (level_size b))
    (level_time b).

Lemma fold_step_joined l0 l b :
  level_cmp bid b l0 = 0 -> (forall x, x ∈ l -> level_cmp bid l0 x <= 0) ->
  fold_left region_step l b = joined b (filter (fun x => level_cmp bid x l0 = 0) l).
Proof using Type.
  revert b. induction l as [|x l IH]; intros b Hb Hl; simpl; [by destruct b|].
  rewrite filter_cons. unfold region_step at 2.
  assert (level_cmp bid l0 x <= 0) as Hx by (apply Hl; by left).
  assert (level_cmp bid l0 b = 0) as Hb' by by apply (cmp_zero_sym (level_cmp bid)).
  destruct (decide (level_cmp bid x l0 = 0)) as [E|E].
  - rewrite (cmp_eq_trans (level_cmp bid) x l0 b E Hb'). rewrite IH; [done|done|].
    intros y Hy. apply Hl. by right.
  - assert (0 < level_cmp bid x b) as Hgt.
    { apply (cmp_gt (level_cmp bid)). apply (cmp_eq_lt (level_cmp bid) b l0); [done|].
      destruct (decide (level_cmp bid l0 x = 0)) as [E'|]; [|lia].
      by apply (cmp_zero_sym (level_cmp bid)) in E'. }
    rewrite (proj2 (Z.eqb_neq _ _)), (proj2 (Z.ltb_ge _ _)) by lia. apply IH; [done|].
    intros y Hy. apply Hl. by right.
Qed.

Lemma fold_step_best l0 ls l b :
  level_cmp bid l0 b < 0 -> (forall x, x ∈ l -> level_cmp bid l0 x <= 0) ->
  filter (fun x => level_cmp bid x l0 = 0) l = l0 :: ls ->
  fold_left region_step l b = joined l0 ls.
Proof using Type.
  revert b. induction l as [|x l IH]; intros b Hb Hl Hf; [done|]. simpl. rewrite filter_cons in Hf.
  assert (forall y, y ∈ l -> level_cmp bid l0 y <= 0) as Hl' by (intros y Hy; apply Hl; by right).
  destruct (decide (level_cmp bid x l0 = 0)) as [E|E].
  - injection Hf as -> Hf. unfold region_step at 2.
    rewrite (proj2 (Z.eqb_neq _ _)), (proj2 (Z.ltb_lt _ _)) by lia.
    rewrite (fold_step_joined l0) by done. by rewrite Hf.
  - apply IH; [|done|done]. assert (level_cmp bid l0 x < 0) as Hx.
    { assert (level_cmp bid l0 x <= 0) by (apply Hl; by left).
      destruct (decide (level_cmp bid l0 x = 0)) as [E'|]; [|lia].
      by apply (cmp_zero_sym (level_cmp bid)) in E'. }
    destruct (region_step_le b x) as (_ & _ & [H|H]); [|by rewrite H].
    by rewrite (level_cmp_key bid l0 _ b H).
Qed.
End passes.

(** ** Properties *)

(** C6: what a regional book shows of a side: at most ten levels, in bounds,
    strictly sorted from the best, each at the price of a region in use; the
    first is exact, the best price with the sizes of all the regions of that
    price.  The side is reported as changed exactly when its levels are not
    those that the buffer held. *)
Theorem regional_side_levels (bid : bool) (dst : list dxf_price_level_element_t)
  (regions : list dx_rb_regional_t) (startValue : dxf_double_t) :
  length dst = MAX_PRICE_LEVELS -> double_isnan startValue = false ->
  (forall l, l ∈ showables bid regions -> level_cmp bid l (PriceLevel startValue double_zero 0) < 0) ->
  exists dst' n changed,
    dx_rb_book_update_one_side bid dst MAX_PRICE_LEVELS regions startValue = Some (dst', n, changed) /\
    length dst' = MAX_PRICE_LEVELS /\ (n <= MAX_PRICE_LEVELS)%nat /\
    sorted_by (level_cmp bid) (take n dst') /\
    (forall l, l ∈ take n dst' -> exists l', l' ∈ showables bid regions /\ level_price l = level_price l') /\
    (changed = false <-> take n dst = take n dst') /\
    (forall l0 ls, (forall l, l ∈ showables bid regions -> level_cmp bid l0 l <= 0) ->
       filter (fun l => level_cmp bid l l0 = 0) (showables bid regions) = l0 :: ls ->
       double_eqb (level_size (joined l0 ls)) double_zero = false ->
       head (take n dst') = Some (joined l0 ls)).
Proof.
  intros Hd Hst Hl. set (start := PriceLevel startValue double_zero 0) in *.
  destruct (levels_loop_spec bid MAX_PRICE_LEVELS regions startValue 0 dst 0 false Hst) as (dst' & H1 & H2 & H3);
    [lia|]. fold start in H1, H3. rewrite live_all in H1, H3.
  set (out := rb_levels bid MAX_PRICE_LEVELS start _) in *.
  rewrite Nat.add_0_l, drop_0 in *. cbn [take app orb] in H3.
  destruct (rb_levels_sorted bid MAX_PRICE_LEVELS start (showables bid regions) Hl eq_refl) as [Hs Hp].
  exists dst', (length out), (negb (bool_decide (take (length out) dst = out))). rewrite H3.
  split_and!; [done|congruence| |done|done| |].
  - assert (length (take (length out) dst') = length out) as H by (by rewrite H3).
    rewrite length_take in H. lia.
  - destruct (bool_decide_reflect (take (length out) dst = out)); cbn; split; done.
  - intros l0 ls Hmin Hf Hz. unfold out, MAX_PRICE_LEVELS. cbn [rb_levels].
    assert (l0 ∈ showables bid regions) as Hin.
    { eapply (list_elem_of_filter (fun l => level_cmp bid l l0 = 0)). rewrite Hf. by left. }
    rewrite (fold_step_best bid l0 ls) by (try done; by apply Hl). by rewrite Hz.
Qed.

(** A quote of a region with a bid and no ask, and its handling by a book. *)
Definition d20 : dxf_double_t := S754_finite false 5629499534213120 (-48).
Definition bid_quote (code : Z) (price : dxf_double_t) : dxf_event_data_t :=
  ev_quote (Build_dxf_quote_t 0 0 0 0 code price d0_1 0 0 double_nan double_nan dxf_osc_regional).
Definition after_bids (quotes : list (Z * dxf_double_t)) : option (list dxf_price_level_element_t) :=
  b ← fold_left (fun b q => b ← b; r ← rb_event_listener DXF_ET_QUOTE [65] [bid_quote q.1 q.2] b; Some r.1)
        quotes (Some (new_regional_book [65]));
  Some (take (rb_bids_count b) (rb_bids b)).

Lemma regional_side_levels_witness :
  let regions := [RbRegional (PriceLevel d10 d0_1 7) zero_level; RbRegional (PriceLevel d10 d0_1 8) zero_level] in
  exists dst' n changed,
    dx_rb_book_update_one_side true zero_levels MAX_PRICE_LEVELS regions double_zero = Some (dst', n, changed) /\
    length dst' = MAX_PRICE_LEVELS /\ (n <= MAX_PRICE_LEVELS)%nat /\
    sorted_by (level_cmp true) (take n dst') /\
    (forall l, l ∈ take n dst' -> exists l', l' ∈ showables true regions /\ level_price l = level_price l') /\
    (changed = false <-> take n zero_levels = take n dst') /\
    (forall l0 ls, (forall l, l ∈ showables true regions -> level_cmp true l0 l <= 0) ->
       filter (fun l => level_cmp true l l0 = 0) (showables true regions) = l0 :: ls ->
       double_eqb (level_size (joined l0 ls)) double_zero = false ->
       head (take n dst') = Some (joined l0 ls)).
Proof.
  apply (regional_side_levels true).
  - reflexivity.
  - reflexivity.
  - intros l Hl. assert (l = PriceLevel d10 d0_1 7 \/ l = PriceLevel d10 d0_1 8) as [-> | ->]; [|by_compute..].
    vm_compute in Hl. apply elem_of_cons in Hl as [->|Hl]; [by left|].
    apply list_elem_of_singleton in Hl as ->. by right.
Defined.

(** A region whose price is below the one of an earlier region keeps its
    level, but a region that is best until a later region is better is used up
    and not shown: the same two bids make two levels or one, as the regions
    that quote them. *)
Theorem regional_level_lost :
  after_bids [(65, d20); (66, d10)] = Some [PriceLevel d20 d0_1 0; PriceLevel d10 d0_1 0] /\
  after_bids [(65, d10); (66, d20)] = Some [PriceLevel d20 d0_1 0].
Proof. by vm_compute. Qed.
