(* ===== verification/TaskQueue.v ===== *)
(** * TaskQueue: the task queue of [src/TaskQueue.c]

    The queue of the tasks that the socket thread of a connection runs.  A task
    is a function pointer with its data; running it, which may change the queue
    itself, is a parameter.  The mutex of the queue is recursive and is not
    modelled: everything here happens while it is held. *)

From S2P Require Import Prelude Arrays EventData.
Local Open Scope Z_scope.
Local Open Scope c_scope.

(** ** Data *)

(** [dx_task_data_t]: the processor (0 is a null pointer) and the data. *)
Record dx_task_data_t : Set := Task { task_processor : Z; task_data : Z }.
#[export] Instance dx_task_data_t_eq_dec : EqDecision dx_task_data_t.
Proof. solve_decision. Defined.

Definition zero_task : dx_task_data_t := Task 0 0.

Definition dx_tes_success : Z := 1.
Definition dx_tes_dont_advance : Z := 2.
Definition dx_tes_pop_me : Z := 4.
Definition dx_tc_free_resources : Z := 1.

Section queue.
(** What the tasks work on, apart from the queue. *)
Context {World : Type}.

(** The queue and the rest of the program. *)
Record tq_state : Type := TqState { tq : dx_array dx_task_data_t; tq_world : World }.

(** Running a task with a command; [None] is undefined behaviour. *)
Context (run : dx_task_data_t -> Z -> tq_state -> option (Z * tq_state)).
(** Whether [dx_calloc] of so many elements succeeds. *)
Context (alloc : nat -> bool).

Definition call (task : dx_task_data_t) (command : Z) : M tq_state Z := fun s =>
  match run task command s with Some (r, s') => Ok r s' | None => UB end.

Definition get_size : M tq_state nat := fun s => Ok (arr_size (tq s)) s.
Definition get_task (i : nat) : M tq_state dx_task_data_t := fun s =>
  of_option (arr_elements (tq s) !! i) s.
Definition set_tq (a : dx_array dx_task_data_t) : M tq_state unit := fun s =>
  Ok tt (TqState a (tq_world s)).
Definition get_tq : M tq_state (dx_array dx_task_data_t) := fun s => Ok (tq s) s.

(** ** Operations

    [null] tells that the handle is a null pointer; the result is the returned
    value.  Fuel that runs out is [UB], which the theorems exclude. *)

(** The queue, unless the memory or the mutex cannot be had. *)
Definition dx_create_task_queue (null calloc_ok mutex_ok : bool)
  : M tq_state (option (dx_array dx_task_data_t)) :=
  if null then dx_set_error_code dx_ec_invalid_func_param_internal
  else if negb calloc_ok then ret None
  else if negb mutex_ok then ret None
  else ret (Some DX_EMPTY_ARRAY).

Fixpoint cleanup_loop (fuel : nat) (i : nat) (res : bool) : M tq_state bool :=
  match fuel with
  | O => undefined
  | S fuel' =>
      size <-- get_size;;
      if (i <? size)%nat then
        task <-- get_task i;;
        task_res <-- call task dx_tc_free_resources;;
        cleanup_loop fuel' (S i) (IS_FLAG_SET task_res dx_tes_success && res)
      else ret res
  end.

Definition dx_cleanup_task_queue (fuel : nat) (null : bool) : M tq_state bool :=
  if null then dx_set_error_code dx_ec_invalid_func_param_internal
  else
    res <-- cleanup_loop fuel 0 true;;
    a <-- get_tq;;
    set_tq (DxArray (arr_elements a) 0 (arr_capacity a));;;
    ret res.

(** [mutex_ok] is the result of destroying the mutex; the memory is freed. *)
Definition dx_destroy_task_queue (fuel : nat) (null mutex_ok : bool) : M tq_state bool :=
  if null then dx_set_error_code dx_ec_invalid_func_param_internal
  else
    res <-- dx_cleanup_task_queue fuel false;;
    ret (mutex_ok && res).

Definition dx_add_task_to_queue (null : bool) (processor data : Z) : M tq_state bool :=
  if null || (processor =? 0) then dx_set_error_code dx_ec_invalid_func_param_internal
  else
    a <-- get_tq;;
    r <-- of_option (DX_ARRAY_INSERT zero_task alloc a (Task processor data) (arr_size a));;
    set_tq r.1;;;
    ret (negb r.2).

Fixpoint execute_loop (fuel : nat) (i : nat) (res : bool) : M tq_state bool :=
  match fuel with
  | O => undefined
  | S fuel' =>
      size <-- get_size;;
      if (i <? size)%nat then
        task <-- get_task i;;
        task_res <-- call task 0;;
        let res := IS_FLAG_SET task_res dx_tes_success && res in
        res <-- (if IS_FLAG_SET task_res dx_tes_pop_me then
                   a <-- get_tq;;
                   r <-- of_option (DX_ARRAY_DELETE zero_task alloc a i);;
                   set_tq r.1;;;
                   ret (res && negb r.2)
                 else ret res);;
        if IS_FLAG_SET task_res dx_tes_dont_advance || negb res then ret res
        else if IS_FLAG_SET task_res dx_tes_pop_me then execute_loop fuel' i res
        else execute_loop fuel' (S i) res
      else ret res
  end.

Definition dx_execute_task_queue (fuel : nat) (null : bool) : M tq_state bool :=
  if null then dx_set_error_code dx_ec_invalid_func_param_internal
  else execute_loop fuel 0 true.

(** [res] is a null pointer when [null_res]. *)
Definition dx_is_queue_empty (null null_res : bool) : M tq_state bool :=
  if null || null_res then dx_set_error_code dx_ec_invalid_func_param_internal
  else size <-- get_size;; ret (size =? 0)%nat.
End queue.
Arguments tq_state : clear implicits.
Arguments TqState {World}.

(** ** What running the tasks means *)

Section semantics.
Context {World : Type}.
(** What a task does: its status, the tasks it adds to the queue, and the rest. *)
Context (job : dx_task_data_t -> World -> Z * list dx_task_data_t * World).

(** Whether the queue goes on after a task, and what remains of the task. *)
Definition stops (r : Z) : bool :=
  IS_FLAG_SET r dx_tes_dont_advance || negb (IS_FLAG_SET r dx_tes_success).
Definition kept (r : Z) (t : dx_task_data_t) : list dx_task_data_t :=
  if IS_FLAG_SET r dx_tes_pop_me then [] else [t].

(** [executes past todo w q w' b]: with the tasks [past] already run and the
    tasks [todo] waiting, the run ends with the queue [q]. *)
Inductive executes : list dx_task_data_t -> list dx_task_data_t -> World ->
    list dx_task_data_t -> World -> bool -> Prop :=
  | executes_end past w : executes past [] w past w true
  | executes_stop past t todo w r new w' :
      job t w = (r, new, w') -> stops r = true ->
      executes past (t :: todo) w (past ++ kept r t ++ todo ++ new) w' (IS_FLAG_SET r dx_tes_success)
  | executes_next past t todo w r new w' q w'' b :
      job t w = (r, new, w') -> stops r = false ->
      executes (past ++ kept r t) (todo ++ new) w' q w'' b ->
      executes past (t :: todo) w q w'' b.

(** Tasks that add only tasks of a lower rank do not run for ever. *)
Lemma executes_total (rank : dx_task_data_t -> nat) n past todo w :
  (forall t w t', t' ∈ (job t w).1.2 -> (rank t' < rank t)%nat) ->
  Forall (fun t => (rank t < n)%nat) todo ->
  exists q w' b, executes past todo w q w' b.
Proof.
  intros Hrank. revert past todo w. induction n as [|n IH]; intros past todo w Hn.
  { inversion Hn; [|lia]. by eexists _, _, _; constructor. }
  rewrite <- (app_nil_r todo). assert (Forall (fun t => (rank t < n)%nat) []) as Hlow by constructor.
  revert past w Hlow. generalize (@nil dx_task_data_t). induction Hn as [|t todo Ht _ IH'].
  { intros low past w Hlow. by apply IH. }
  intros low past w Hlow. destruct (job t w) as [[r new] w'] eqn:E. simpl.
  destruct (stops r) eqn:Es; [by eexists _, _, _; eapply executes_stop|].
  destruct (IH' (low ++ new) (past ++ kept r t) w') as (q & w'' & b & H).
  - apply Forall_app. split; [done|]. apply Forall_forall. intros t' Hin.
    specialize (Hrank t w t'). rewrite E in Hrank. specialize (Hrank Hin). lia.
  - exists q, w'', b. eapply executes_next; [done|done|]. by rewrite <- app_assoc.
Qed.

Context (run : dx_task_data_t -> Z -> tq_state World -> option (Z * tq_state World)).
Context (alloc : nat -> bool) (alloc_ok : forall n, alloc n = true).

(** A task that is run changes the queue only by adding its tasks. *)
Definition runs_job : Prop :=
  forall t s, array_wf (tq s) ->
    let '(r, new, w') := job t (tq_world s) in
    exists a, run t 0 s = Some (r, TqState a w') /\ array_wf a /\
      contents a = contents (tq s) ++ new.

(** One round of the loop, for a task that changes the queue only by adding to it. *)
Lemma execute_round past t todo w r new w' a a1 :
  run t 0 (TqState a w) = Some (r, TqState a1 w') -> array_wf a1 -> contents a1 = contents a ++ new ->
  array_wf a -> contents a = past ++ t :: todo ->
  exists a', array_wf a' /\ contents a' = past ++ kept r t ++ todo ++ new /\
    forall fuel, execute_loop run alloc (S fuel) (length past) true (TqState a w) =
      if stops r then Ok (IS_FLAG_SET r dx_tes_success) (TqState a' w')
      else execute_loop run alloc fuel (length (past ++ kept r t)) true (TqState a' w').
Proof using alloc_ok.
  clear job. intros Hr Ha1 Hc1 Ha Hc. rewrite Hc, <- app_assoc in Hc1. cbn in Hc1.
  assert (arr_elements a !! length past = Some t /\ (length past <? arr_size a)%nat = true) as [Ht Hlt].
  { assert (length past < arr_size a)%nat as Hi.
    { rewrite <- (length_contents a Ha), Hc, length_app. simpl. lia. }
    split; [|by apply Nat.ltb_lt]. rewrite <- contents_lookup, Hc by done.
    by apply list_lookup_middle. }
  assert (forall fuel, execute_loop run alloc (S fuel) (length past) true (TqState a w) =
    (res <-- (if IS_FLAG_SET r dx_tes_pop_me then
                x <-- get_tq;;
                y <-- of_option (DX_ARRAY_DELETE zero_task alloc x (length past));;
                set_tq y.1;;; ret (IS_FLAG_SET r dx_tes_success && true && negb y.2)
              else ret (IS_FLAG_SET r dx_tes_success && true));;
     if IS_FLAG_SET r dx_tes_dont_advance || negb res then ret res
     else if IS_FLAG_SET r dx_tes_pop_me then execute_loop run alloc fuel (length past) res
     else execute_loop run alloc fuel (S (length past)) res) (TqState a1 w')) as Hstep.
  { intros fuel. cbn [execute_loop]. unfold checked_call at 1, get_size. cbn [tq]. rewrite Hlt.
    unfold checked_call at 1, get_task. cbn [tq]. rewrite Ht. cbn [of_option ret].
    unfold checked_call at 1, call. by rewrite Hr. }
  unfold stops, kept. destruct (IS_FLAG_SET r dx_tes_pop_me) eqn:Ep.
  - assert (length past < arr_size a1)%nat as Hi.
    { rewrite <- (length_contents a1 Ha1), Hc1, length_app. simpl. lia. }
    destruct (array_delete_spec zero_task alloc a1 (length past) Ha1 Hi alloc_ok) as (a2 & Hd & Ha2 & Hc2).
    exists a2. split; [done|]. split.
    { rewrite Hc2, Hc1, take_app_length, drop_app_ge by lia.
      replace (S (length past) - length past)%nat with 1%nat by lia. done. }
    intros fuel. rewrite Hstep. unfold checked_call at 1, get_tq. cbn [checked_call tq of_option].
    rewrite Hd. cbn. rewrite app_nil_r, !andb_true_r.
    destruct (IS_FLAG_SET r dx_tes_dont_advance), (IS_FLAG_SET r dx_tes_success); done.
  - exists a1. split; [done|]. split; [by rewrite Hc1|]. intros fuel. rewrite Hstep. cbn.
    rewrite length_app, andb_true_r. cbn [length]. rewrite Nat.add_1_r.
    destruct (IS_FLAG_SET r dx_tes_dont_advance), (IS_FLAG_SET r dx_tes_success); done.
Qed.

(** A sequence of tasks that succeed, are done and leave the queue alone. *)
Inductive all_done : list dx_task_data_t -> World -> World -> Prop :=
  | all_done_nil w : all_done [] w w
  | all_done_cons t ts w w1 w' :
      (forall a, run t 0 (TqState a w) = Some (Z.lor dx_tes_pop_me dx_tes_success, TqState a w1)) ->
      all_done ts w1 w' -> all_done (t :: ts) w w'.

Lemma execute_all_done ts w w' :
  all_done ts w w' -> forall a, array_wf a -> contents a = ts ->
  exists a', array_wf a' /\ contents a' = [] /\
    forall fuel, (length ts < fuel)%nat -> execute_loop run alloc fuel 0 true (TqState a w) = Ok true (TqState a' w').
Proof using alloc_ok.
  clear job. induction 1 as [w|t ts w w1 w' Ht _ IH]; intros a Ha Hc.
  - exists a. split_and!; [done|done|]. intros [|fuel] Hf; [simpl in Hf; lia|]. cbn [execute_loop].
    unfold checked_call, get_size. cbn [tq]. by rewrite <- (length_contents a Ha), Hc.
  - destruct (execute_round [] t ts w _ [] w1 a a (Ht a) Ha) as (a1 & Ha1 & Hc1 & E); [by rewrite app_nil_r|done|done|].
    cbn in Hc1. rewrite app_nil_r in Hc1. destruct (IH a1 Ha1 Hc1) as (a' & Ha' & Hc' & E'). exists a'.
    split_and!; [done|done|]. intros [|fuel] Hf; [lia|]. etrans; [exact (E fuel)|]. apply E'. simpl in Hf. lia.
Qed.

Lemma execute_loop_spec past todo w q w' b :
  runs_job -> executes past todo w q w' b ->
  forall a, array_wf a -> contents a = past ++ todo ->
  exists fuel a', (forall fuel', (fuel <= fuel')%nat ->
      execute_loop run alloc fuel' (length past) true (TqState a w) = Ok b (TqState a' w')) /\
    array_wf a' /\ contents a' = q.
Proof using alloc_ok.
  intros Hrun Hx. induction Hx as [past w|past t todo w r new w' Hj Hs|past t todo w r new w' q w'' b Hj Hs _ IH];
    intros a Ha Hc.
  - exists 1%nat, a. rewrite app_nil_r in Hc. split; [|done]. intros [|fuel] Hf; [lia|].
    cbn [execute_loop]. unfold checked_call, get_size. cbn [tq].
    by rewrite <- (length_contents a Ha), Hc, Nat.ltb_irrefl.
  - pose proof (Hrun t (TqState a w) Ha) as Hr. cbn in Hr. rewrite Hj in Hr. destruct Hr as (a1 & Hr & Ha1 & Hc1).
    destruct (execute_round past t todo w r new w' a a1 Hr Ha1 Hc1 Ha Hc) as (a' & Ha' & Hc' & He).
    rewrite Hs in He. exists 1%nat, a'. split; [|done]. by intros [|fuel] Hf; [lia|].
  - pose proof (Hrun t (TqState a w) Ha) as Hr. cbn in Hr. rewrite Hj in Hr. destruct Hr as (a1 & Hr & Ha1 & Hc1).
    destruct (execute_round past t todo w r new w' a a1 Hr Ha1 Hc1 Ha Hc) as (a' & Ha' & Hc' & He).
    rewrite Hs in He. destruct (IH a' Ha') as (fuel & a'' & H1 & H2); [by rewrite Hc', <- app_assoc|].
    exists (S fuel), a''. split; [|done]. intros [|fuel'] Hf; [lia|]. rewrite He. apply H1. lia.
Qed.
End semantics.

(** ** The other operations *)

Section operations.
Context {World : Type} (run : dx_task_data_t -> Z -> tq_state World -> option (Z * tq_state World)).
Context (alloc : nat -> bool) (alloc_ok : forall n, alloc n = true).

Lemma add_task_spec (s : tq_state World) processor data :
  array_wf (tq s) -> processor <> 0 ->
  exists a, dx_add_task_to_queue alloc false processor data s = Ok true (TqState a (tq_world s)) /\
    array_wf a /\ contents a = contents (tq s) ++ [Task processor data].
Proof using alloc_ok.
  intros Hs Hp%Z.eqb_neq.
  destruct (array_append_spec zero_task alloc (tq s) (Task processor data) Hs alloc_ok) as (a & Hi & Ha & Hc).
  exists a. split; [|done]. unfold dx_add_task_to_queue. rewrite Hp.
  unfold checked_call, get_tq. cbn [orb]. rewrite Hi. done.
Qed.

(** Freeing the resources of a task, which leaves the queue alone. *)
Context (release : dx_task_data_t -> World -> Z * World).
Definition frees : Prop :=
  forall t s, run t dx_tc_free_resources s =
    Some ((release t (tq_world s)).1, TqState (tq s) (release t (tq_world s)).2).

Definition release_all (tasks : list dx_task_data_t) (acc : bool * World) : bool * World :=
  fold_left (fun acc t =>
    let '(r, w) := release t acc.2 in (IS_FLAG_SET r dx_tes_success && acc.1, w)) tasks acc.

Lemma cleanup_loop_spec past todo res w a fuel :
  frees -> array_wf a -> contents a = past ++ todo -> (length todo < fuel)%nat ->
  cleanup_loop run fuel (length past) res (TqState a w) =
    Ok (release_all todo (res, w)).1 (TqState a (release_all todo (res, w)).2).
Proof using Type.
  intros Hf Ha. revert past res w fuel. induction todo as [|t todo IH]; intros past res w fuel Hc Hl;
    (destruct fuel as [|fuel]; [simpl in Hl; lia|]); cbn [cleanup_loop];
    unfold checked_call at 1, get_size; cbn [tq]; rewrite <- (length_contents a Ha), Hc.
  { by rewrite app_nil_r, Nat.ltb_irrefl. }
  rewrite (proj2 (Nat.ltb_lt _ _)) by (rewrite length_app; simpl; lia).
  unfold checked_call at 1, get_task. cbn [tq].
  rewrite <- contents_lookup, Hc, list_lookup_middle
    by (try done; rewrite <- (length_contents a Ha), Hc, length_app; simpl; lia).
  cbn [of_option ret]. unfold checked_call at 1, call. rewrite Hf. cbn [tq tq_world].
  replace (S (length past)) with (length (past ++ [t])) by (rewrite length_app; simpl; lia).
  rewrite IH; [|by rewrite <- app_assoc|simpl in Hl; lia].
  unfold release_all; cbn [fold_left snd fst]. by destruct (release t w).
Qed.

(** Cleaning up frees every task once, in order, and empties the queue. *)
Lemma cleanup_spec (s : tq_state World) fuel :
  frees -> array_wf (tq s) -> (arr_size (tq s) < fuel)%nat ->
  exists a, dx_cleanup_task_queue run fuel false s =
      Ok (release_all (contents (tq s)) (true, tq_world s)).1
        (TqState a (release_all (contents (tq s)) (true, tq_world s)).2) /\
    array_wf a /\ contents a = [].
Proof using Type.
  intros Hf Hs Hl. destruct s as [a w]. cbn [tq tq_world] in *.
  exists (DxArray (arr_elements a) 0 (arr_capacity a)).
  split; [|split; [split; simpl; [apply Nat.le_0_l|by destruct Hs]|done]].
  unfold dx_cleanup_task_queue, checked_call.
  pose proof (cleanup_loop_spec [] (contents a) true w a fuel Hf Hs eq_refl) as H.
  rewrite (length_contents a Hs) in H. cbn [length] in H. by rewrite (H Hl).
Qed.
End operations.

(** ** Properties *)

(** C32: executing the queue runs its tasks in the order in which they were
    added, those that the running tasks add included, and stops at the first
    one that fails or asks to; exactly the tasks that ask to be popped leave the
    queue.  If the added tasks have a lower rank than the one that adds them,
    the execution ends. *)
Theorem execute_task_queue_terminates {World : Type}
  (job : dx_task_data_t -> World -> Z * list dx_task_data_t * World)
  (run : dx_task_data_t -> Z -> tq_state World -> option (Z * tq_state World))
  (alloc : nat -> bool) (rank : dx_task_data_t -> nat) (s : tq_state World) :
  (forall n, alloc n = true) -> runs_job job run -> array_wf (tq s) ->
  (forall t w t', t' ∈ (job t w).1.2 -> (rank t' < rank t)%nat) ->
  exists fuel q w' b a,
    (forall fuel', (fuel <= fuel')%nat ->
       dx_execute_task_queue run alloc fuel' false s = Ok b (TqState a w')) /\
    executes job [] (contents (tq s)) (tq_world s) q w' b /\ array_wf a /\ contents a = q.
Proof.
  intros Halloc Hrun Hs Hrank. destruct s as [a w]. cbn [tq tq_world] in *.
  destruct (executes_total job rank (S (list_max (rank <$> contents a))) [] (contents a) w Hrank)
    as (q & w' & b & Hx).
  { apply Forall_forall. intros t Ht.
    pose proof (proj1 (list_max_le (rank <$> contents a) _) (Nat.le_refl _)) as H.
    rewrite List.Forall_forall in H. specialize (H (rank t)).
    enough (rank t <= list_max (rank <$> contents a))%nat by lia.
    apply H, list_elem_of_In, list_elem_of_fmap. by exists t. }
  destruct (execute_loop_spec job run alloc Halloc [] (contents a) w q w' b Hrun Hx a Hs eq_refl)
    as (fuel & a' & H1 & H2 & H3).
  by exists fuel, q, w', b, a'.
Qed.

(** A job run on the queue itself. *)
Definition run_job {World} (job : dx_task_data_t -> World -> Z * list dx_task_data_t * World)
  (alloc : nat -> bool) (t : dx_task_data_t) (command : Z) (s : tq_state World)
  : option (Z * tq_state World) :=
  let '(r, new, w') := job t (tq_world s) in
  a ← fold_left (fun acc t' =>
        a ← acc; p ← DX_ARRAY_INSERT zero_task alloc a t' (arr_size a); Some p.1) new (Some (tq s));
  Some (r, TqState a w').

Lemma run_job_ok {World} (job : dx_task_data_t -> World -> Z * list dx_task_data_t * World) alloc :
  (forall n, alloc n = true) -> runs_job job (run_job job alloc).
Proof.
  intros Halloc t [a w] Ha. cbn [tq tq_world] in *. destruct (job t w) as [[r new] w'] eqn:E.
  unfold run_job. cbn [tq tq_world]. rewrite E. clear E. revert a Ha.
  induction new as [|t' new IH]; intros a Ha.
  { exists a. by rewrite app_nil_r. }
  cbn [fold_left mbind option_bind].
  destruct (array_append_spec zero_task alloc a t' Ha Halloc) as (a1 & -> & Ha1 & Hc1).
  cbn [mbind option_bind fst]. destruct (IH a1 Ha1) as (a2 & H & Ha2 & Hc2). exists a2.
  split; [done|]. split; [done|]. by rewrite Hc2, Hc1, <- app_assoc.
Qed.

(** A task that logs its data, adds the task of the next lower data, if that is
    positive, and is popped. *)
Definition countdown (t : dx_task_data_t) (log : list Z) : Z * list dx_task_data_t * list Z :=
  (5, if 1 <? task_data t then [Task 1 (task_data t - 1)] else [], log ++ [task_data t]).

Definition queue_example : tq_state (list Z) :=
  TqState (DxArray [Task 1 3; Task 1 2] 2 2) [].

Example countdown_run :
  dx_execute_task_queue (run_job countdown (fun _ => true)) (fun _ => true) 10 false queue_example =
    Ok true (TqState DX_EMPTY_ARRAY [3; 2; 2; 1; 1]).
Proof. vm_compute. reflexivity. Qed.

Lemma execute_task_queue_terminates_witness :
  exists fuel q w' b a,
    (forall fuel', (fuel <= fuel')%nat ->
       dx_execute_task_queue (run_job countdown (fun _ => true)) (fun _ => true) fuel' false queue_example =
         Ok b (TqState a w')) /\
    executes countdown [] [Task 1 3; Task 1 2] [] q w' b /\ array_wf a /\ contents a = q.
Proof.
  apply (execute_task_queue_terminates countdown _ _ (fun t => Z.to_nat (task_data t)) queue_example).
  - reflexivity.
  - by apply run_job_ok.
  - split; simpl; lia.
  - intros t w t'. unfold countdown. simpl. destruct (Z.ltb_spec 1 (task_data t)) as [H|H]; intros Hin.
    + apply list_elem_of_singleton in Hin as ->. simpl. lia.
    + by apply elem_of_nil in Hin.
Defined.
