(* ===== verification/DataStructures.v ===== *)
(** * DataStructures: the records of [src/DataStructures.c]

    The fields of the records the library knows, the registry of the records of
    a connection (a list that only grows, with the server support states and
    the digests of [ServerMessageProcessor.c] kept in step), the map of the
    record identifiers of the server and the subscription time.  A setter or
    getter of a field is named by the member of the record it accesses.  The
    mutex of the list is not modelled. *)

From Stdlib Require Import Ascii String Sorted.
From S2P Require Import Prelude Arrays Algorithms EventData.
Local Open Scope Z_scope.
Local Open Scope c_scope.

(** ** Field types *)

Definition dx_fid_void : Z := 0.
Definition dx_fid_byte : Z := 1.
Definition dx_fid_utf_char : Z := 2.
Definition dx_fid_short : Z := 3.
Definition dx_fid_int : Z := 4.
Definition dx_fid_compact_int : Z := 8.
Definition dx_fid_byte_array : Z := 9.
Definition dx_fid_utf_char_array : Z := 10.
Definition dx_fid_flag_int : Z := 0x00.
Definition dx_fid_flag_decimal : Z := 0x10.
Definition dx_fid_flag_short_string : Z := 0x20.
Definition dx_fid_flag_time_seconds : Z := 0x30.
Definition dx_fid_flag_sequence : Z := 0x40.
Definition dx_fid_flag_date : Z := 0x50.
Definition dx_fid_flag_long : Z := 0x60.
Definition dx_fid_flag_wide_decimal : Z := 0x70.
Definition dx_fid_flag_string : Z := 0x80.
Definition dx_fid_flag_time_millis : Z := 0x90.
Definition dx_fid_flag_time_nanos : Z := 0xa0.
Definition dx_fid_flag_custom_object : Z := 0xe0.
Definition dx_fid_flag_serial_object : Z := 0xf0.
Definition dx_fid_mask_serialization : Z := 0x0f.
Definition dx_fid_mask_representation : Z := 0xf0.

Inductive dx_scheme_field_time_t : Set :=
  | dx_ft_common_field | dx_ft_first_time_int_field | dx_ft_second_time_int_field.

Record dx_field_info_t : Type := FieldInfo {
  fi_type : Z;
  fi_name : list Z;
  fi_member : string;   (** the member that the setter and the getters access *)
  fi_time : dx_scheme_field_time_t;
}.

Definition field (type : Z) (name member : string) (time : dx_scheme_field_time_t) : dx_field_info_t :=
  FieldInfo type (chars_of name) member time.

(** ** The fields of the records *)

Local Open Scope string_scope.

Definition dx_fields_trade : list dx_field_info_t := [
  field dx_fid_compact_int "Last.Time" "time" dx_ft_common_field;
  field dx_fid_compact_int "Last.Sequence" "sequence" dx_ft_common_field;
  field dx_fid_compact_int "Last.TimeNanoPart" "time_nanos" dx_ft_common_field;
  field dx_fid_utf_char "Last.Exchange" "exchange_code" dx_ft_common_field;
  field (Z.lor dx_fid_compact_int dx_fid_flag_wide_decimal) "Last.Price" "price" dx_ft_common_field;
  field (Z.lor dx_fid_compact_int dx_fid_flag_wide_decimal) "Last.Size" "size" dx_ft_common_field;
  field dx_fid_compact_int "Last.Tick" "tick" dx_ft_common_field;
  field (Z.lor dx_fid_compact_int dx_fid_flag_wide_decimal) "Last.Change" "change" dx_ft_common_field;
  field (Z.lor dx_fid_compact_int dx_fid_flag_date) "DayId" "day_id" dx_ft_common_field;
  field (Z.lor dx_fid_compact_int dx_fid_flag_wide_decimal) "Volume" "day_volume" dx_ft_common_field;
  field (Z.lor dx_fid_compact_int dx_fid_flag_wide_decimal) "DayTurnover" "day_turnover" dx_ft_common_field;
  field dx_fid_compact_int "Last.Flags" "flags" dx_ft_common_field
].

Definition dx_fields_quote : list dx_field_info_t := [
  field dx_fid_compact_int "Sequence" "sequence" dx_ft_common_field;
  field dx_fid_compact_int "TimeNanoPart" "time_nanos" dx_ft_common_field;
  field dx_fid_compact_int "Bid.Time" "bid_time" dx_ft_common_field;
  field dx_fid_utf_char "Bid.Exchange" "bid_exchange_code" dx_ft_common_field;
  field (Z.lor dx_fid_compact_int dx_fid_flag_wide_decimal) "Bid.Price" "bid_price" dx_ft_common_field;
  field (Z.lor dx_fid_compact_int dx_fid_flag_wide_decimal) "Bid.Size" "bid_size" dx_ft_common_field;
  field dx_fid_compact_int "Ask.Time" "ask_time" dx_ft_common_field;
  field dx_fid_utf_char "Ask.Exchange" "ask_exchange_code" dx_ft_common_field;
  field (Z.lor dx_fid_compact_int dx_fid_flag_wide_decimal) "Ask.Price" "ask_price" dx_ft_common_field;
  field (Z.lor dx_fid_compact_int dx_fid_flag_wide_decimal) "Ask.Size" "ask_size" dx_ft_common_field
].

Definition dx_fields_summary : list dx_field_info_t := [
  field (Z.lor dx_fid_compact_int dx_fid_flag_date) "DayId" "day_id" dx_ft_common_field;
  field (Z.lor dx_fid_compact_int dx_fid_flag_wide_decimal) "DayOpen.Price" "day_open_price" dx_ft_common_field;
  field (Z.lor dx_fid_compact_int dx_fid_flag_wide_decimal) "DayHigh.Price" "day_high_price" dx_ft_common_field;
  field (Z.lor dx_fid_compact_int dx_fid_flag_wide_decimal) "DayLow.Price" "day_low_price" dx_ft_common_field;
  field (Z.lor dx_fid_compact_int dx_fid_flag_wide_decimal) "DayClose.Price" "day_close_price" dx_ft_common_field;
  field (Z.lor dx_fid_compact_int dx_fid_flag_date) "PrevDayId" "prev_day_id" dx_ft_common_field;
  field (Z.lor dx_fid_compact_int dx_fid_flag_wide_decimal) "PrevDayClose.Price" "prev_day_close_price" dx_ft_common_field;
  field (Z.lor dx_fid_compact_int dx_fid_flag_wide_decimal) "PrevDayVolume" "prev_day_volume" dx_ft_common_field;
  field (Z.lor dx_fid_compact_int dx_fid_flag_wide_decimal) "OpenInterest" "open_interest" dx_ft_common_field;
  field dx_fid_compact_int "Flags" "flags" dx_ft_common_field
].

Definition dx_fields_profile : list dx_field_info_t := [
  field (Z.lor dx_fid_compact_int dx_fid_flag_wide_decimal) "Beta" "beta" dx_ft_common_field;
  field (Z.lor dx_fid_compact_int dx_fid_flag_wide_decimal) "Eps" "eps" dx_ft_common_field;
  field (Z.lor dx_fid_compact_int dx_fid_flag_wide_decimal) "DivFreq" "div_freq" dx_ft_common_field;
  field (Z.lor dx_fid_compact_int dx_fid_flag_wide_decimal) "ExdDiv.Amount" "exd_div_amount" dx_ft_common_field;
  field (Z.lor dx_fid_compact_int dx_fid_flag_date) "ExdDiv.Date" "exd_div_date" dx_ft_common_field;
  field (Z.lor dx_fid_compact_int dx_fid_flag_wide_decimal) "52High.Price" "high_price_52" dx_ft_common_field;
  field (Z.lor dx_fid_compact_int dx_fid_flag_wide_decimal) "52Low.Price" "low_price_52" dx_ft_common_field;
  field (Z.lor dx_fid_compact_int dx_fid_flag_wide_decimal) "Shares" "shares" dx_ft_common_field;
  field (Z.lor dx_fid_compact_int dx_fid_flag_wide_decimal) "FreeFloat" "free_float" dx_ft_common_field;
  field (Z.lor dx_fid_compact_int dx_fid_flag_wide_decimal) "HighLimitPrice" "high_limit_price" dx_ft_common_field;
  field (Z.lor dx_fid_compact_int dx_fid_flag_wide_decimal) "LowLimitPrice" "low_limit_price" dx_ft_common_field;
  field (Z.lor dx_fid_compact_int dx_fid_flag_time_seconds) "Halt.StartTime" "halt_start_time" dx_ft_common_field;
  field (Z.lor dx_fid_compact_int dx_fid_flag_time_seconds) "Halt.EndTime" "halt_end_time" dx_ft_common_field;
  field dx_fid_compact_int "Flags" "flags" dx_ft_common_field;
  field dx_fid_utf_char_array "Description" "description" dx_ft_common_field;
  field dx_fid_utf_char_array "StatusReason" "status_reason" dx_ft_common_field
].

Definition dx_fields_market_maker : list dx_field_info_t := [
  field dx_fid_utf_char "MMExchange" "mm_exchange" dx_ft_first_time_int_field;
  field dx_fid_compact_int "MMID" "mm_id" dx_ft_second_time_int_field;
  field dx_fid_compact_int "MMBid.Time" "mmbid_time" dx_ft_common_field;
  field (Z.lor dx_fid_compact_int dx_fid_flag_wide_decimal) "MMBid.Price" "mmbid_price" dx_ft_common_field;
  field (Z.lor dx_fid_compact_int dx_fid_flag_wide_decimal) "MMBid.Size" "mmbid_size" dx_ft_common_field;
  field (Z.lor dx_fid_compact_int dx_fid_flag_wide_decimal) "MMBid.Count" "mmbid_count" dx_ft_common_field;
  field dx_fid_compact_int "MMAsk.Time" "mmask_time" dx_ft_common_field;
  field (Z.lor dx_fid_compact_int dx_fid_flag_wide_decimal) "MMAsk.Price" "mmask_price" dx_ft_common_field;
  field (Z.lor dx_fid_compact_int dx_fid_flag_wide_decimal) "MMAsk.Size" "mmask_size" dx_ft_common_field;
  field (Z.lor dx_fid_compact_int dx_fid_flag_wide_decimal) "MMAsk.Count" "mmask_count" dx_ft_common_field
].

Definition dx_fields_order : list dx_field_info_t := [
  field dx_fid_compact_int "Index" "index" dx_ft_second_time_int_field;
  field dx_fid_compact_int "Time" "time" dx_ft_common_field;
  field dx_fid_compact_int "Sequence" "sequence" dx_ft_common_field;
  field dx_fid_compact_int "TimeNanoPart" "time_nanos" dx_ft_common_field;
  field (Z.lor dx_fid_compact_int dx_fid_flag_time_millis) "ActionTime" "action_time" dx_ft_common_field;
  field (Z.lor dx_fid_compact_int dx_fid_flag_long) "OrderId" "order_id" dx_ft_common_field;
  field (Z.lor dx_fid_compact_int dx_fid_flag_long) "AuxOrderId" "aux_order_id" dx_ft_common_field;
  field (Z.lor dx_fid_compact_int dx_fid_flag_wide_decimal) "Price" "price" dx_ft_common_field;
  field (Z.lor dx_fid_compact_int dx_fid_flag_wide_decimal) "Size" "size" dx_ft_common_field;
  field (Z.lor dx_fid_compact_int dx_fid_flag_wide_decimal) "ExecutedSize" "executed_size" dx_ft_common_field;
  field (Z.lor dx_fid_compact_int dx_fid_flag_wide_decimal) "Count" "count" dx_ft_common_field;
  field dx_fid_compact_int "Flags" "flags" dx_ft_common_field;
  field (Z.lor dx_fid_compact_int dx_fid_flag_long) "TradeId" "trade_id" dx_ft_common_field;
  field (Z.lor dx_fid_compact_int dx_fid_flag_wide_decimal) "TradePrice" "trade_price" dx_ft_common_field;
  field (Z.lor dx_fid_compact_int dx_fid_flag_wide_decimal) "TradeSize" "trade_size" dx_ft_common_field;
  field dx_fid_compact_int "MarketMaker" "mmid" dx_ft_common_field
].

Definition dx_fields_time_and_sale : list dx_field_info_t := [
  field (Z.lor dx_fid_compact_int dx_fid_flag_time_seconds) "Time" "time" dx_ft_first_time_int_field;
  field (Z.lor dx_fid_compact_int dx_fid_flag_sequence) "Sequence" "sequence" dx_ft_second_time_int_field;
  field dx_fid_utf_char "Exchange" "exchange_code" dx_ft_common_field;
  field (Z.lor dx_fid_compact_int dx_fid_flag_wide_decimal) "Price" "price" dx_ft_common_field;
  field (Z.lor dx_fid_compact_int dx_fid_flag_wide_decimal) "Size" "size" dx_ft_common_field;
  field (Z.lor dx_fid_compact_int dx_fid_flag_wide_decimal) "BidPrice" "bid_price" dx_ft_common_field;
  field (Z.lor dx_fid_compact_int dx_fid_flag_wide_decimal) "AskPrice" "ask_price" dx_ft_common_field;
  field dx_fid_compact_int "SaleConditions" "exchange_sale_conditions" dx_ft_common_field;
  field dx_fid_compact_int "Flags" "flags" dx_ft_common_field;
  field dx_fid_utf_char_array "Buyer" "buyer" dx_ft_common_field;
  field dx_fid_utf_char_array "Seller" "seller" dx_ft_common_field
].

Definition dx_fields_candle : list dx_field_info_t := [
  field (Z.lor dx_fid_compact_int dx_fid_flag_time_seconds) "Time" "time" dx_ft_first_time_int_field;
  field (Z.lor dx_fid_compact_int dx_fid_flag_sequence) "Sequence" "sequence" dx_ft_second_time_int_field;
  field (Z.lor dx_fid_compact_int dx_fid_flag_wide_decimal) "Count" "count" dx_ft_common_field;
  field (Z.lor dx_fid_compact_int dx_fid_flag_wide_decimal) "Open" "open" dx_ft_common_field;
  field (Z.lor dx_fid_compact_int dx_fid_flag_wide_decimal) "High" "high" dx_ft_common_field;
  field (Z.lor dx_fid_compact_int dx_fid_flag_wide_decimal) "Low" "low" dx_ft_common_field;
  field (Z.lor dx_fid_compact_int dx_fid_flag_wide_decimal) "Close" "close" dx_ft_common_field;
  field (Z.lor dx_fid_compact_int dx_fid_flag_wide_decimal) "Volume" "volume" dx_ft_common_field;
  field (Z.lor dx_fid_compact_int dx_fid_flag_wide_decimal) "VWAP" "vwap" dx_ft_common_field;
  field (Z.lor dx_fid_compact_int dx_fid_flag_wide_decimal) "BidVolume" "bid_volume" dx_ft_common_field;
  field (Z.lor dx_fid_compact_int dx_fid_flag_wide_decimal) "AskVolume" "ask_volume" dx_ft_common_field;
  field (Z.lor dx_fid_compact_int dx_fid_flag_wide_decimal) "ImpVolatility" "imp_volatility" dx_ft_common_field;
  field (Z.lor dx_fid_compact_int dx_fid_flag_wide_decimal) "OpenInterest" "open_interest" dx_ft_common_field
].

Definition dx_fields_trade_eth : list dx_field_info_t := [
  field dx_fid_compact_int "ETHLast.Time" "time" dx_ft_common_field;
  field dx_fid_compact_int "ETHLast.Sequence" "sequence" dx_ft_common_field;
  field dx_fid_compact_int "Last.TimeNanoPart" "time_nanos" dx_ft_common_field;
  field dx_fid_utf_char "ETHLast.Exchange" "exchange_code" dx_ft_common_field;
  field (Z.lor dx_fid_compact_int dx_fid_flag_wide_decimal) "ETHLast.Price" "price" dx_ft_common_field;
  field (Z.lor dx_fid_compact_int dx_fid_flag_wide_decimal) "ETHLast.Size" "size" dx_ft_common_field;
  field (Z.lor dx_fid_compact_int dx_fid_flag_wide_decimal) "ETHLast.Change" "change" dx_ft_common_field;
  field (Z.lor dx_fid_compact_int dx_fid_flag_date) "DayId" "day_id" dx_ft_common_field;
  field (Z.lor dx_fid_compact_int dx_fid_flag_wide_decimal) "ETHVolume" "day_volume" dx_ft_common_field;
  field (Z.lor dx_fid_compact_int dx_fid_flag_wide_decimal) "ETHDayTurnover" "day_turnover" dx_ft_common_field;
  field dx_fid_compact_int "ETHLast.Flags" "flags" dx_ft_common_field
].

Definition dx_fields_spread_order : list dx_field_info_t := [
  field dx_fid_compact_int "Index" "index" dx_ft_second_time_int_field;
  field dx_fid_compact_int "Time" "time" dx_ft_common_field;
  field dx_fid_compact_int "Sequence" "sequence" dx_ft_common_field;
  field dx_fid_compact_int "TimeNanoPart" "time_nanos" dx_ft_common_field;
  field (Z.lor dx_fid_compact_int dx_fid_flag_time_millis) "ActionTime" "action_time" dx_ft_common_field;
  field (Z.lor dx_fid_compact_int dx_fid_flag_long) "OrderId" "order_id" dx_ft_common_field;
  field (Z.lor dx_fid_compact_int dx_fid_flag_long) "AuxOrderId" "aux_order_id" dx_ft_common_field;
  field (Z.lor dx_fid_compact_int dx_fid_flag_wide_decimal) "Price" "price" dx_ft_common_field;
  field (Z.lor dx_fid_compact_int dx_fid_flag_wide_decimal) "Size" "size" dx_ft_common_field;
  field (Z.lor dx_fid_compact_int dx_fid_flag_wide_decimal) "ExecutedSize" "executed_size" dx_ft_common_field;
  field (Z.lor dx_fid_compact_int dx_fid_flag_wide_decimal) "Count" "count" dx_ft_common_field;
  field dx_fid_compact_int "Flags" "flags" dx_ft_common_field;
  field (Z.lor dx_fid_compact_int dx_fid_flag_long) "TradeId" "trade_id" dx_ft_common_field;
  field (Z.lor dx_fid_compact_int dx_fid_flag_wide_decimal) "TradePrice" "trade_price" dx_ft_common_field;
  field (Z.lor dx_fid_compact_int dx_fid_flag_wide_decimal) "TradeSize" "trade_size" dx_ft_common_field;
  field dx_fid_utf_char_array "SpreadSymbol" "spread_symbol" dx_ft_common_field
].

Definition dx_fields_greeks : list dx_field_info_t := [
  field (Z.lor dx_fid_compact_int dx_fid_flag_time_seconds) "Time" "time" dx_ft_first_time_int_field;
  field (Z.lor dx_fid_compact_int dx_fid_flag_sequence) "Sequence" "sequence" dx_ft_second_time_int_field;
  field (Z.lor dx_fid_compact_int dx_fid_flag_wide_decimal) "Greeks.Price" "price" dx_ft_common_field;
  field (Z.lor dx_fid_compact_int dx_fid_flag_wide_decimal) "Volatility" "volatility" dx_ft_common_field;
  field (Z.lor dx_fid_compact_int dx_fid_flag_wide_decimal) "Delta" "delta" dx_ft_common_field;
  field (Z.lor dx_fid_compact_int dx_fid_flag_wide_decimal) "Gamma" "gamma" dx_ft_common_field;
  field (Z.lor dx_fid_compact_int dx_fid_flag_wide_decimal) "Theta" "theta" dx_ft_common_field;
  field (Z.lor dx_fid_compact_int dx_fid_flag_wide_decimal) "Rho" "rho" dx_ft_common_field;
  field (Z.lor dx_fid_compact_int dx_fid_flag_wide_decimal) "Vega" "vega" dx_ft_common_field
].

Definition dx_fields_theo_price : list dx_field_info_t := [
  field (Z.lor dx_fid_compact_int dx_fid_flag_time_seconds) "Theo.Time" "time" dx_ft_common_field;
  field (Z.lor dx_fid_compact_int dx_fid_flag_wide_decimal) "Theo.Price" "price" dx_ft_common_field;
  field (Z.lor dx_fid_compact_int dx_fid_flag_wide_decimal) "Theo.UnderlyingPrice" "underlying_price" dx_ft_common_field;
  field (Z.lor dx_fid_compact_int dx_fid_flag_wide_decimal) "Theo.Delta" "delta" dx_ft_common_field;
  field (Z.lor dx_fid_compact_int dx_fid_flag_wide_decimal) "Theo.Gamma" "gamma" dx_ft_common_field;
  field (Z.lor dx_fid_compact_int dx_fid_flag_wide_decimal) "Theo.Dividend" "dividend" dx_ft_common_field;
  field (Z.lor dx_fid_compact_int dx_fid_flag_wide_decimal) "Theo.Interest" "interest" dx_ft_common_field
].

Definition dx_fields_underlying : list dx_field_info_t := [
  field (Z.lor dx_fid_compact_int dx_fid_flag_wide_decimal) "Volatility" "volatility" dx_ft_common_field;
  field (Z.lor dx_fid_compact_int dx_fid_flag_wide_decimal) "FrontVolatility" "front_volatility" dx_ft_common_field;
  field (Z.lor dx_fid_compact_int dx_fid_flag_wide_decimal) "BackVolatility" "back_volatility" dx_ft_common_field;
  field (Z.lor dx_fid_compact_int dx_fid_flag_wide_decimal) "CallVolume" "call_volume" dx_ft_common_field;
  field (Z.lor dx_fid_compact_int dx_fid_flag_wide_decimal) "PutVolume" "put_volume" dx_ft_common_field;
  field (Z.lor dx_fid_compact_int dx_fid_flag_wide_decimal) "PutCallRatio" "put_call_ratio" dx_ft_common_field
].

Definition dx_fields_series : list dx_field_info_t := [
  field dx_fid_compact_int "Index" "index" dx_ft_second_time_int_field;
  field dx_fid_compact_int "Time" "time" dx_ft_common_field;
  field (Z.lor dx_fid_compact_int dx_fid_flag_sequence) "Sequence" "sequence" dx_ft_common_field;
  field (Z.lor dx_fid_compact_int dx_fid_flag_date) "Expiration" "expiration" dx_ft_common_field;
  field (Z.lor dx_fid_compact_int dx_fid_flag_wide_decimal) "Volatility" "volatility" dx_ft_common_field;
  field (Z.lor dx_fid_compact_int dx_fid_flag_wide_decimal) "CallVolume" "call_volume" dx_ft_common_field;
  field (Z.lor dx_fid_compact_int dx_fid_flag_wide_decimal) "PutVolume" "put_volume" dx_ft_common_field;
  field (Z.lor dx_fid_compact_int dx_fid_flag_wide_decimal) "PutCallRatio" "put_call_ratio" dx_ft_common_field;
  field (Z.lor dx_fid_compact_int dx_fid_flag_wide_decimal) "ForwardPrice" "forward_price" dx_ft_common_field;
  field (Z.lor dx_fid_compact_int dx_fid_flag_wide_decimal) "Dividend" "dividend" dx_ft_common_field;
  field (Z.lor dx_fid_compact_int dx_fid_flag_wide_decimal) "Interest" "interest" dx_ft_common_field
].

Definition dx_fields_configuration : list dx_field_info_t := [
  field dx_fid_compact_int "Version" "version" dx_ft_common_field;
  field (Z.lor dx_fid_byte_array dx_fid_flag_serial_object) "Configuration" "object" dx_ft_common_field
].

Local Close Scope string_scope.

Record dx_record_info_t : Type := RecordInfo {
  default_name : list Z;
  info_fields : list dx_field_info_t;
}.

Definition g_record_info (r : dx_record_info_id_t) : dx_record_info_t :=
  match r with
  | dx_rid_trade => RecordInfo (chars_of "Trade") dx_fields_trade
  | dx_rid_quote => RecordInfo (chars_of "Quote") dx_fields_quote
  | dx_rid_summary => RecordInfo (chars_of "Summary") dx_fields_summary
  | dx_rid_profile => RecordInfo (chars_of "Profile") dx_fields_profile
  | dx_rid_market_maker => RecordInfo (chars_of "MarketMaker") dx_fields_market_maker
  | dx_rid_order => RecordInfo (chars_of "Order") dx_fields_order
  | dx_rid_time_and_sale => RecordInfo (chars_of "TimeAndSale") dx_fields_time_and_sale
  | dx_rid_candle => RecordInfo (chars_of "Candle") dx_fields_candle
  | dx_rid_trade_eth => RecordInfo (chars_of "TradeETH") dx_fields_trade_eth
  | dx_rid_spread_order => RecordInfo (chars_of "SpreadOrder") dx_fields_spread_order
  | dx_rid_greeks => RecordInfo (chars_of "Greeks") dx_fields_greeks
  | dx_rid_theo_price => RecordInfo (chars_of "TheoPrice") dx_fields_theo_price
  | dx_rid_underlying => RecordInfo (chars_of "Underlying") dx_fields_underlying
  | dx_rid_series => RecordInfo (chars_of "Series") dx_fields_series
  | dx_rid_configuration => RecordInfo (chars_of "Configuration") dx_fields_configuration
  end.

(** ** The state *)

Definition RECORD_ID_VECTOR_SIZE : Z := 1000.
Definition DX_RECORD_ID_INVALID : Z := -1.
Definition INVALID_INDEX : Z := -1.

Record dx_record_id_pair_t : Set := RecordIdPair {
  server_record_id : Z;
  local_record_id : Z;
}.

Record dx_server_local_record_id_map_t : Type := RecordIdMap {
  frequent_ids : list Z;
  id_map : dx_array dx_record_id_pair_t;
}.

(** [ri_suffix] is the buffer of [DXF_RECORD_SUFFIX_SIZE] characters. *)
Record dx_record_item_t : Type := RecordItem {
  ri_name : option (list Z);
  ri_fields : list dx_field_info_t;
  ri_info_id : dx_record_info_id_t;
  ri_suffix : list Z;
  ri_exchange_code : Z;
}.

(** The digests of [ServerMessageProcessor.c]; [None] is a null pointer to a
    function. *)
Record dx_field_digest_t : Type := FieldDigest {
  fd_type : Z;
  fd_local_type : Z;
  fd_setter : option string;
  fd_def_val_getter : option string;
}.
Record dx_record_digest_t : Type := RecordDigest {
  rd_elements : list dx_field_digest_t;
  rd_in_sync_with_server : bool;
}.

Record dx_data_structures_connection_context_t : Type := Dscc {
  record_id_map : dx_server_local_record_id_map_t;
  record_server_support_states : dx_array Z;
  records_list : dx_array dx_record_item_t;
  new_record_id : Z;
  record_digests : dx_array dx_record_digest_t;
}.

Abbreviation dscc := dx_data_structures_connection_context_t.

Definition set_record_id_map (x : dx_server_local_record_id_map_t) (s : dscc) : dscc :=
  Dscc x (record_server_support_states s) (records_list s) (new_record_id s) (record_digests s).
Definition set_records_list (x : dx_array dx_record_item_t) (s : dscc) : dscc :=
  Dscc (record_id_map s) (record_server_support_states s) x (new_record_id s) (record_digests s).
Definition set_states (x : dx_array Z) (s : dscc) : dscc :=
  Dscc (record_id_map s) x (records_list s) (new_record_id s) (record_digests s).
Definition set_new_record_id (x : Z) (s : dscc) : dscc :=
  Dscc (record_id_map s) (record_server_support_states s) (records_list s) x (record_digests s).
Definition set_record_digests (x : dx_array dx_record_digest_t) (s : dscc) : dscc :=
  Dscc (record_id_map s) (record_server_support_states s) (records_list s) (new_record_id s) x.

(** The context of a new connection. *)
Definition new_dscc : dscc :=
  Dscc (RecordIdMap (replicate (Z.to_nat RECORD_ID_VECTOR_SIZE) DX_RECORD_ID_INVALID) DX_EMPTY_ARRAY)
    DX_EMPTY_ARRAY DX_EMPTY_ARRAY 0 DX_EMPTY_ARRAY.

(** ** The identifiers of the server *)

Section operations.
(** Whether [dx_calloc] of so many elements succeeds. *)
Context (alloc : nat -> bool).

Definition zero_pair : dx_record_id_pair_t := RecordIdPair 0 0.
Definition zero_item : dx_record_item_t := RecordItem None [] dx_rid_trade [0; 0; 0; 0; 0] 0.
Definition zero_digest : dx_record_digest_t := RecordDigest [] false.

Definition RECORD_ID_PAIR_COMPARATOR (left right : dx_record_id_pair_t) : Z :=
  DX_NUMERIC_COMPARATOR (server_record_id left) (server_record_id right).

Definition frequent (id : Z) : bool := (0 <=? id) && (id <? RECORD_ID_VECTOR_SIZE).

Definition dx_get_record_id (id : Z) : M dscc Z :=
  s <-- get;;
  let m := record_id_map s in
  if frequent id then of_option (frequent_ids m !! Z.to_nat id)
  else
    r <-- of_option (DX_ARRAY_SEARCH RECORD_ID_PAIR_COMPARATOR (arr_elements (id_map m)) 0
           (arr_size (id_map m)) (RecordIdPair id 0) true);;
    let '(found, idx) := r in
    if negb found then ret DX_RECORD_ID_INVALID
    else p <-- of_option (arr_elements (id_map m) !! idx);; ret (local_record_id p).

Definition set_id_map (a : dx_array dx_record_id_pair_t) : M dscc unit :=
  s <-- get;; put (set_record_id_map (RecordIdMap (frequent_ids (record_id_map s)) a) s).

Definition dx_assign_server_record_id (record_id id : Z) : M dscc bool :=
  s <-- get;;
  let m := record_id_map s in
  if frequent id then
    ids <-- of_option (write_at (frequent_ids m) (Z.to_nat id) record_id);;
    put (set_record_id_map (RecordIdMap ids (id_map m)) s);;;
    ret true
  else
    let rip := RecordIdPair id record_id in
    let a := id_map m in
    r <-- of_option (DX_ARRAY_SEARCH RECORD_ID_PAIR_COMPARATOR (arr_elements a) 0 (arr_size a) rip true);;
    let '(found, idx) := r in
    if (found : bool) then
      p <-- of_option (arr_elements a !! idx);;
      elements <-- of_option (write_at (arr_elements a) idx (RecordIdPair (server_record_id p) record_id));;
      set_id_map (DxArray elements (arr_size a) (arr_capacity a));;;
      ret true
    else
      d <-- of_option (DX_ARRAY_INSERT zero_pair alloc a rip idx);;
      set_id_map d.1;;;
      ret (negb d.2).

(** ** The list of the records *)

Definition dx_validate_record_id (record_id : Z) : M dscc unit :=
  s <-- get;;
  if (record_id <? 0) || (Z.of_nat (arr_size (records_list s)) <=? record_id)
  then dx_set_error_code dx_ec_invalid_func_param_internal else ret tt.

(** The pointer to a record, as the record it points to. *)
Definition dx_get_record_by_id (record_id : Z) : M dscc dx_record_item_t :=
  dx_validate_record_id record_id;;;
  s <-- get;; of_option (arr_elements (records_list s) !! Z.to_nat record_id).

Fixpoint by_name_loop (n : nat) (record_id : nat) (elements : list dx_record_item_t)
  (record_name : list Z) : option Z :=
  match n with
  | O => Some DX_RECORD_ID_INVALID
  | S n' =>
      item ← elements !! record_id;
      name ← ri_name item;
      if bool_decide (name = record_name) then Some (Z.of_nat record_id)
      else by_name_loop n' (S record_id) elements record_name
  end.

Definition dx_get_record_id_by_name (record_name : list Z) : M dscc Z :=
  s <-- get;;
  of_option (by_name_loop (arr_size (records_list s)) 0 (arr_elements (records_list s)) record_name).

Definition dx_get_next_unsubscribed_record_id (isUpdate : bool) : M dscc Z :=
  s <-- get;;
  (if (new_record_id s <? Z.of_nat (arr_size (records_list s))) && isUpdate
   then put (set_new_record_id (new_record_id s + 1) s) else ret tt);;;
  s <-- get;; ret (new_record_id s).

Definition dx_drop_unsubscribe_counter : M dscc unit :=
  s <-- get;; put (set_new_record_id 0 s).

Fixpoint find_field_loop (fields : list dx_field_info_t) (i : Z) (field_name : list Z)
  (field_type : Z) : Z :=
  match fields with
  | [] => INVALID_INDEX
  | f :: fields' =>
      if bool_decide (fi_name f = field_name) &&
         (Z.land (fi_type f) dx_fid_mask_serialization =? Z.land field_type dx_fid_mask_serialization)
      then i else find_field_loop fields' (i + 1) field_name field_type
  end.
Definition dx_find_record_field (record_info : dx_record_item_t) (field_name : list Z) (field_type : Z) : Z :=
  find_field_loop (ri_fields record_info) 0 field_name field_type.

(** 0 when the identifier is wrong. *)
Definition dx_get_record_exchange_code (record_id : Z) : M dscc Z := fun s =>
  match dx_get_record_by_id record_id s with
  | Ok item s => Ok (ri_exchange_code item) s
  | Err _ s => Ok 0 s
  | UB => UB
  end.

Definition dx_set_record_exchange_code (record_id exchange_code : Z) : M dscc unit :=
  item <-- dx_get_record_by_id record_id;;
  s <-- get;;
  let a := records_list s in
  elements <-- of_option (write_at (arr_elements a) (Z.to_nat record_id)
    (RecordItem (ri_name item) (ri_fields item) (ri_info_id item) (ri_suffix item) exchange_code));;
  put (set_records_list (DxArray elements (arr_size a) (arr_capacity a)) s).

(** The loop of [dx_create_subscription_time]: the time so far, which of its
    halves it has, and whether the record has a time. *)
Fixpoint subscription_time_loop (fields : list dx_field_info_t) (seconds millis : Z)
  (time : Z) (first second timed : bool) : Z * bool :=
  match fields with
  | [] => (time, timed)
  | f :: fields' =>
      let '(time, first, second, timed) :=
        match fi_time f with
        | dx_ft_first_time_int_field =>
            (i64 (Z.lor time (Z.shiftl seconds 32)), true, second,
             negb (Z.land (Z.land (fi_type f) dx_fid_flag_time_seconds) (Z.lnot dx_fid_flag_decimal) =? 0))
        | dx_ft_second_time_int_field => (Z.lor time millis, first, true, timed)
        | dx_ft_common_field => (time, first, second, timed)
        end in
      if first && second then (time, timed)
      else subscription_time_loop fields' seconds millis time first second timed
  end.

Definition dx_create_subscription_time (record_id time : Z) : M dscc Z :=
  let seconds := dx_get_seconds_from_time time in
  let millis := dx_get_millis_from_time time in
  if time =? 0 then ret 0
  else fun s =>
    match dx_get_record_by_id record_id s with
    | Ok record_info s =>
        let '(subscription_time, is_timed_record) :=
          subscription_time_loop (ri_fields record_info) seconds millis 0 false false false in
        Ok (if (is_timed_record : bool) then subscription_time else time) s
    | Err _ s => Err dx_ec_invalid_func_param_internal s
    | UB => UB
    end.

(** ** Adding records *)

(** [wcsncpy] to an array: the string, then zeros up to [n] characters. *)
Definition dx_copy_string_len (dest src : list Z) (n : nat) : option (list Z) :=
  blit (src ++ replicate n 0) 0 dest 0 n.

(** The prefixes in the order of the comparisons: [TradeETH] before [Trade]. *)
Definition record_info_order : list dx_record_info_id_t :=
  [dx_rid_trade_eth; dx_rid_trade; dx_rid_quote; dx_rid_summary; dx_rid_profile;
   dx_rid_market_maker; dx_rid_order; dx_rid_time_and_sale; dx_rid_candle; dx_rid_spread_order;
   dx_rid_greeks; dx_rid_theo_price; dx_rid_underlying; dx_rid_series; dx_rid_configuration].

(** [None] is [dx_rid_invalid]. *)
Definition dx_string_to_record_info (name : list Z) : option dx_record_info_id_t :=
  head (filter (fun r =>
    let d := default_name (g_record_info r) in take (length d) name = d) record_info_order).

(** The record of a name; the undefined behaviour is a null pointer for the
    name or a suffix that leaves its buffer. *)
Definition init_record_info (name : list Z) : M dscc dx_record_item_t :=
  match dx_string_to_record_info name with
  | None => dx_set_error_code dx_ec_invalid_func_param_internal
  | Some id =>
      let info := g_record_info id in
      let record_name := if alloc (length name + 1)%nat then Some name else None in
      let suffix := replicate DXF_RECORD_SUFFIX_SIZE 0 in
      let item suffix code := RecordItem record_name (info_fields info) id suffix code in
      let suffix_index := length (default_name info) in
      if (length name <? suffix_index + 1)%nat then ret (item suffix 0)
      else
        match id with
        | dx_rid_order | dx_rid_spread_order =>
            record_name <-- of_option record_name;;
            if negb (bool_decide (record_name !! suffix_index = Some 35)) then ret (item suffix 0)
            else
              suffix <-- of_option (dx_copy_string_len suffix (drop (suffix_index + 1) record_name)
                (length name - suffix_index));;
              ret (item suffix 0)
        | dx_rid_trade | dx_rid_quote | dx_rid_summary | dx_rid_trade_eth | dx_rid_time_and_sale =>
            record_name <-- of_option record_name;;
            if negb (bool_decide (record_name !! suffix_index = Some 38)) then ret (item suffix 0)
            else
              suffix <-- of_option (dx_copy_string_len suffix (drop (suffix_index + 1) record_name) 1);;
              ret (item suffix (default 0 (head suffix)))
        | _ => ret (item suffix 0)
        end
  end.

(** [dx_add_record_digest_to_list] of [ServerMessageProcessor.c] *)
Definition dx_add_record_digest_to_list (index : nat) : M dscc unit :=
  s <-- get;;
  let a := record_digests s in
  if (index <? arr_size a)%nat then ret tt
  else
    d <-- of_option (DX_ARRAY_INSERT zero_digest alloc a zero_digest index);;
    put (set_record_digests d.1 s);;;
    if (d.2 : bool) then dx_set_error_code dx_sec_not_enough_memory else ret tt.

Definition delete_record (index : nat) : M dscc unit :=
  s <-- get;;
  d <-- of_option (DX_ARRAY_DELETE zero_item alloc (records_list s) index);;
  put (set_records_list d.1 s).
Definition delete_state (index : nat) : M dscc unit :=
  s <-- get;;
  d <-- of_option (DX_ARRAY_DELETE 0 alloc (record_server_support_states s) index);;
  put (set_states d.1 s).

(** A call whose failure is undone before it is reported. *)
Definition on_error {A} (m : M dscc A) (undo : M dscc unit) : M dscc A := fun s =>
  match m s with
  | Err e s => match undo s with Ok _ s => Err e s | Err _ s => Err e s | UB => UB end
  | r => r
  end.

Definition dx_add_record_to_list (record : dx_record_item_t) (index : nat) : M dscc unit :=
  name <-- of_option (ri_name record);;
  let new_record :=
    RecordItem (if alloc (length name + 1)%nat then Some name else None)
      (ri_fields record) (ri_info_id record) (ri_suffix record) (ri_exchange_code record) in
  s <-- get;;
  d <-- of_option (DX_ARRAY_INSERT zero_item alloc (records_list s) new_record index);;
  put (set_records_list d.1 s);;;
  (if (d.2 : bool) then dx_set_error_code dx_sec_not_enough_memory else ret tt);;;
  s <-- get;;
  d <-- of_option (DX_ARRAY_INSERT 0 alloc (record_server_support_states s) 0 index);;
  put (set_states d.1 s);;;
  (if (d.2 : bool) then on_error (dx_set_error_code dx_sec_not_enough_memory) (delete_record index)
   else ret tt);;;
  on_error (dx_add_record_digest_to_list index) (delete_record index;;; delete_state index).

(** The linear search of the list by [dx_compare_strings]. *)
Fixpoint search_record (n : nat) (index : nat) (elements : list dx_record_item_t) (name : list Z)
  : option (bool * nat) :=
  match n with
  | O => Some (false, index)
  | S n' =>
      item ← elements !! index;
      name' ← ri_name item;
      if bool_decide (name' = name) then Some (true, index)
      else search_record n' (S index) elements name
  end.

(** The identifier of a record, which is added if it is new. *)
Definition dx_add_or_get_record_id (name : list Z) : M dscc Z := fun s =>
  match init_record_info name s with
  | Err _ s => Ok DX_RECORD_ID_INVALID s
  | UB => UB
  | Ok record s =>
      let add index :=
        match dx_add_record_to_list record index s with
        | Ok _ s => Ok (Z.of_nat index) s
        | Err _ s => Ok DX_RECORD_ID_INVALID s
        | UB => UB
        end in
      let a := records_list s in
      if bool_decide (arr_elements a = []) then add 0%nat
      else
        match (name ← ri_name record; search_record (arr_size a) 0 (arr_elements a) name) with
        | None => UB
        | Some (found, index) => if (found : bool) then Ok (Z.of_nat index) s else add index
        end
  end.

Definition dx_get_records_list_count : M dscc Z :=
  s <-- get;; ret (Z.of_nat (arr_size (records_list s))).
End operations.

(** ** The map of the identifiers of the server *)

#[export] Instance record_id_pair_comparator : Comparator RECORD_ID_PAIR_COMPARATOR.
Proof. apply (comparator_on server_record_id DX_NUMERIC_COMPARATOR). Qed.

Lemma pair_comparator_eq p q : RECORD_ID_PAIR_COMPARATOR p q = 0 <-> server_record_id p = server_record_id q.
Proof. unfold RECORD_ID_PAIR_COMPARATOR, DX_NUMERIC_COMPARATOR. repeat destruct_match; bool_to_prop; lia. Qed.

Record id_map_ok (m : dx_server_local_record_id_map_t) : Prop := {
  ok_frequent : length (frequent_ids m) = Z.to_nat RECORD_ID_VECTOR_SIZE;
  ok_map_wf : array_wf (id_map m);
  ok_map_sorted : sorted_by RECORD_ID_PAIR_COMPARATOR (contents (id_map m));
}.

(** The map that the vector and the sorted pairs represent. *)
Definition id_pairs (l : list dx_record_id_pair_t) : gmap Z Z :=
  list_to_map ((fun p => (server_record_id p, local_record_id p)) <$> l).
Definition local_id (m : dx_server_local_record_id_map_t) (id : Z) : Z :=
  default DX_RECORD_ID_INVALID
    (if frequent id then frequent_ids m !! Z.to_nat id else id_pairs (contents (id_map m)) !! id).

Lemma id_pairs_nodup l :
  sorted_by RECORD_ID_PAIR_COMPARATOR l ->
  NoDup ((fun p => (server_record_id p, local_record_id p)) <$> l).*1.
Proof.
  intros Hs. rewrite <- list_fmap_compose. induction Hs as [|p l Hs IH Hall]; [constructor|]. simpl.
  constructor; [|done]. intros (q & Hq & Hin)%list_elem_of_fmap. rewrite Forall_forall in Hall.
  specialize (Hall q Hin). unfold cmp_lt in Hall. simpl in Hq.
  rewrite (proj2 (pair_comparator_eq p q)) in Hall by done. lia.
Qed.

Lemma id_pairs_middle l1 p l2 :
  sorted_by RECORD_ID_PAIR_COMPARATOR (l1 ++ p :: l2) ->
  id_pairs (l1 ++ p :: l2) = <[server_record_id p := local_record_id p]> (id_pairs (l1 ++ l2)) /\
  id_pairs (l1 ++ l2) !! server_record_id p = None.
Proof.
  intros Hs%id_pairs_nodup. unfold id_pairs. rewrite fmap_app in Hs. rewrite !fmap_app.
  exact (list_to_map_middle _ _ _ _ Hs).
Qed.

Lemma frequent_lookup m id :
  id_map_ok m -> frequent id = true -> exists r, frequent_ids m !! Z.to_nat id = Some r.
Proof.
  intros [Hf _ _] Hid. apply lookup_lt_is_Some_2. rewrite Hf. unfold frequent in Hid. bool_to_prop.
  unfold RECORD_ID_VECTOR_SIZE in *. lia.
Qed.

Lemma get_record_id_spec id s :
  id_map_ok (record_id_map s) -> dx_get_record_id id s = Ok (local_id (record_id_map s) id) s.
Proof.
  intros Hok. unfold dx_get_record_id, local_id, checked_call, get. set (m := record_id_map s) in *.
  destruct (frequent id) eqn:Hid.
  { destruct (frequent_lookup m id Hok Hid) as [r ->]. done. }
  destruct Hok as [_ Hwf Hs].
  destruct (array_search_spec RECORD_ID_PAIR_COMPARATOR (id_map m) (RecordIdPair id 0) Hwf Hs)
    as (found & l1 & l2 & H1 & H2 & H3).
  unfold DX_ARRAY_SEARCH. rewrite H1. cbn [of_option ret]. rewrite H2 in *. destruct found; cbn [negb].
  - destruct H3 as (q & l3 & -> & Hq%pair_comparator_eq). simpl in Hq. subst id.
    assert (arr_elements (id_map m) !! length l1 = Some q) as ->.
    { rewrite <- contents_lookup, H2 by (rewrite <- length_contents, H2, length_app by done; simpl; lia).
      by apply list_lookup_middle. }
    destruct (id_pairs_middle l1 q l3 Hs) as [-> _]. by rewrite lookup_insert_eq.
  - destruct (id_pairs_middle l1 _ l2 H3) as [_ H4]. simpl in H4. by rewrite H4.
Qed.

Lemma local_id_map m a id :
  local_id (RecordIdMap (frequent_ids m) a) id =
  if frequent id then local_id m id else default DX_RECORD_ID_INVALID (id_pairs (contents a) !! id).
Proof. unfold local_id. simpl. by destruct (frequent id). Qed.

Lemma assign_record_id_spec alloc record_id id s :
  (forall n, alloc n = true) -> id_map_ok (record_id_map s) ->
  exists m, dx_assign_server_record_id alloc record_id id s = Ok true (set_record_id_map m s) /\
    id_map_ok m /\ forall id', local_id m id' = if decide (id' = id) then record_id else local_id (record_id_map s) id'.
Proof.
  intros Halloc Hok. unfold dx_assign_server_record_id, checked_call at 1, get.
  set (m := record_id_map s) in *. destruct (frequent id) eqn:Hid.
  - destruct (frequent_lookup m id Hok Hid) as [r Hr]. pose proof (lookup_lt_Some _ _ _ Hr) as Hlt.
    unfold checked_call at 1. rewrite write_at_in by done. eexists. split; [reflexivity|].
    split; [constructor; simpl; [by rewrite length_insert; apply Hok|apply Hok|apply Hok]|].
    intros id'. unfold local_id; simpl. destruct (decide (id' = id)) as [->|Hne].
    + by rewrite Hid, list_lookup_insert_eq.
    + destruct (frequent id') eqn:Hid'; [|done]. rewrite list_lookup_insert_ne; [done|].
      unfold frequent in *. bool_to_prop. lia.
  - destruct Hok as [Hf Hwf Hs].
    destruct (array_search_spec RECORD_ID_PAIR_COMPARATOR (id_map m) (RecordIdPair id record_id) Hwf Hs)
      as (found & l1 & l2 & H1 & H2 & H3).
    unfold checked_call at 1, DX_ARRAY_SEARCH. rewrite H1. cbn [of_option ret].
    assert (exists a, array_wf a /\ sorted_by RECORD_ID_PAIR_COMPARATOR (contents a) /\
      id_pairs (contents a) = <[id := record_id]> (id_pairs (contents (id_map m))) /\
      (if found : bool then
         (p <-- of_option (arr_elements (id_map m) !! length l1);;
          elements <-- of_option (write_at (arr_elements (id_map m)) (length l1)
            (RecordIdPair (server_record_id p) record_id));;
          set_id_map (DxArray elements (arr_size (id_map m)) (arr_capacity (id_map m)));;; ret true) s
       else
         (d <-- of_option (DX_ARRAY_INSERT zero_pair alloc (id_map m) (RecordIdPair id record_id) (length l1));;
          set_id_map d.1;;; ret (negb d.2)) s) =
      Ok true (set_record_id_map (RecordIdMap (frequent_ids m) a) s)) as (a & Ha & Has & Hap & He).
    { rewrite H2 in *. destruct found.
      - destruct H3 as (q & l3 & -> & Hq%pair_comparator_eq). simpl in Hq. subst id.
        destruct (array_set_spec (id_map m) l1 q l3 (RecordIdPair (server_record_id q) record_id) Hwf H2)
          as (Hlk & l & Hw & Ha & Hc).
        exists (DxArray l (arr_size (id_map m)) (arr_capacity (id_map m))). rewrite Hc.
        assert (sorted_by RECORD_ID_PAIR_COMPARATOR (l1 ++ RecordIdPair (server_record_id q) record_id :: l3)) as Hs'.
        { by apply (sorted_by_replace_middle _ l1 q); [apply pair_comparator_eq|]. }
        split_and!; [done|done| |by unfold checked_call, of_option; rewrite Hlk; simpl; rewrite Hw].
        destruct (id_pairs_middle _ _ _ Hs) as [-> _]. destruct (id_pairs_middle _ _ _ Hs') as [-> _].
        simpl. by rewrite insert_insert_eq.
      - destruct (array_insert_spec zero_pair alloc (id_map m) (RecordIdPair id record_id) (length l1))
          as (a & Hi & Ha & Hc); [done|rewrite <- length_contents, H2, length_app by done; lia|done|].
        rewrite H2, take_app_length, drop_app_length in Hc. exists a. rewrite Hc.
        split_and!; [done|done| |by unfold checked_call, of_option; rewrite Hi].
        by destruct (id_pairs_middle _ _ _ H3) as [-> _]. }
      exists (RecordIdMap (frequent_ids m) a). split; [by destruct found|]. split; [by constructor|]. intros id'. rewrite local_id_map, Hap.
    destruct (decide (id' = id)) as [->|Hne]; [by rewrite Hid, lookup_insert_eq|].
    destruct (frequent id') eqn:Hid'; [done|]. rewrite lookup_insert_ne by done.
    unfold local_id. by rewrite Hid'.
Qed.

(** ** The registry *)

(** A record is one the library knows: its fields are those of its kind. *)
Record item_ok (r : dx_record_item_t) : Prop := {
  ok_named : exists name, ri_name r = Some name /\ dx_string_to_record_info name = Some (ri_info_id r);
  ok_fields : ri_fields r = info_fields (g_record_info (ri_info_id r));
  ok_suffix : length (ri_suffix r) = DXF_RECORD_SUFFIX_SIZE;
}.

Record registry_ok (s : dscc) : Prop := {
  ok_records : array_wf (records_list s);
  ok_states : array_wf (record_server_support_states s);
  ok_digests : array_wf (record_digests s);
  ok_states_size : arr_size (record_server_support_states s) = arr_size (records_list s);
  ok_digests_size : arr_size (record_digests s) = arr_size (records_list s);
  ok_items : Forall item_ok (contents (records_list s));
  ok_unique : NoDup (ri_name <$> contents (records_list s));
  ok_next : 0 <= new_record_id s <= Z.of_nat (arr_size (records_list s));
}.

Lemma copy_suffix src n :
  (length src < n)%nat -> (n <= DXF_RECORD_SUFFIX_SIZE)%nat ->
  dx_copy_string_len (replicate DXF_RECORD_SUFFIX_SIZE 0) src n =
    Some (src ++ replicate (DXF_RECORD_SUFFIX_SIZE - length src) 0).
Proof.
  intros H1 H2. unfold dx_copy_string_len.
  rewrite blit_in by (rewrite ?length_app, ?length_replicate; lia). f_equal.
  rewrite take_0, drop_0, Nat.add_0_l. cbn [app].
  rewrite take_app_ge by lia. rewrite take_replicate, drop_replicate, <- app_assoc, <- replicate_add.
  f_equal. f_equal. lia.
Qed.

Section registry.
Context (alloc : nat -> bool) (alloc_ok : forall n, alloc n = true).

(** The room the suffix of an order needs. *)
Definition suffix_fits (name : list Z) (id : dx_record_info_id_t) : Prop :=
  match id with
  | dx_rid_order | dx_rid_spread_order =>
      let i := length (default_name (g_record_info id)) in
      name !! i = Some 35 -> (length name - i <= DXF_RECORD_SUFFIX_SIZE)%nat
  | _ => True
  end.

Lemma copy_first (l : list Z) :
  exists suffix, dx_copy_string_len (replicate DXF_RECORD_SUFFIX_SIZE 0) l 1 = Some suffix /\
    length suffix = DXF_RECORD_SUFFIX_SIZE.
Proof using Type.
  unfold dx_copy_string_len.
  rewrite blit_in by (rewrite ?length_app, ?length_replicate; unfold DXF_RECORD_SUFFIX_SIZE; lia).
  eexists. split; [reflexivity|]. rewrite drop_0. by destruct l.
Qed.

Lemma init_record_info_spec name id s :
  dx_string_to_record_info name = Some id -> suffix_fits name id ->
  exists item, init_record_info alloc name s = Ok item s /\ item_ok item /\ ri_name item = Some name /\
    ri_info_id item = id.
Proof using alloc_ok.
  intros Hid Hfit. unfold init_record_info. rewrite Hid, alloc_ok.
  set (d := length (default_name (g_record_info id))).
  assert (forall suffix code, length suffix = DXF_RECORD_SUFFIX_SIZE ->
    item_ok (RecordItem (Some name) (info_fields (g_record_info id)) id suffix code)) as Hok.
  { intros suffix code Hs. constructor; [by exists name|done|done]. }
  assert (Hz : length (replicate DXF_RECORD_SUFFIX_SIZE 0) = DXF_RECORD_SUFFIX_SIZE) by done.
  destruct (Nat.ltb_spec (length name) (d + 1)) as [Hl|Hl].
  { eexists. split; [reflexivity|]. split; [by apply Hok|done]. }
  assert (Ht : forall suffix code, length suffix = DXF_RECORD_SUFFIX_SIZE -> exists item,
    Ok (RecordItem (Some name) (info_fields (g_record_info id)) id suffix code) s = Ok item s /\ item_ok item /\
    ri_name item = Some name /\ ri_info_id item = id).
  { intros. eexists. split; [reflexivity|]. split; [by apply Hok|done]. }
  destruct (copy_first (drop (d + 1) name)) as (suffix1 & Hc1 & Hl1).
  assert (Ho : (name !! d = Some 35 -> (length name - d <= DXF_RECORD_SUFFIX_SIZE)%nat) ->
    name !! d = Some 35 -> exists suffix,
    dx_copy_string_len (replicate DXF_RECORD_SUFFIX_SIZE 0) (drop (d + 1) name) (length name - d) = Some suffix /\
    length suffix = DXF_RECORD_SUFFIX_SIZE).
  { intros Hf H%Hf. rewrite copy_suffix by (rewrite ?length_drop; lia). eexists. split; [done|].
    rewrite length_app, length_replicate, length_drop. lia. }
  destruct id; cbn [of_option checked_call ret]; unfold checked_call, ret, of_option; fold d;
    try (by apply Ht); case_bool_decide as E; cbn [negb]; try (by apply Ht);
    try (rewrite Hc1; by apply Ht); destruct (Ho Hfit E) as (suffix & -> & Hs); by apply Ht.
Qed.

Lemma search_record_spec elements n index name :
  (forall j, (index <= j < index + n)%nat -> exists item, elements !! j = Some item /\ is_Some (ri_name item)) ->
  exists found i, search_record n index elements name = Some (found, i) /\
    (if found then (index <= i < index + n)%nat /\ ri_name <$> elements !! i = Some (Some name)
     else i = (index + n)%nat /\
       forall j, (index <= j < index + n)%nat -> ri_name <$> elements !! j <> Some (Some name)).
Proof using Type.
  revert index. induction n as [|n IH]; intros index Hl; cbn [search_record].
  { exists false, index. split; [done|]. split; [lia|]. intros j Hj. lia. }
  destruct (Hl index) as (item & Hi & name' & Hn); [lia|]. rewrite Hi. cbn [mbind option_bind].
  rewrite Hn. cbn [mbind option_bind]. case_bool_decide as E.
  { exists true, index. subst. rewrite Hi. simpl. rewrite Hn. split; [done|]. split; [lia|done]. }
  destruct (IH (S index)) as (found & i & -> & H); [intros j Hj; apply Hl; lia|].
  exists found, i. split; [done|].
  destruct found; [split; [lia|by apply H]|]. destruct H as [-> H]. split; [lia|].
  intros j Hj. destruct (decide (j = index)) as [->|]; [|apply H; lia]. rewrite Hi. simpl. congruence.
Qed.

(** Adding a record at the end of the list. *)
Lemma add_record_spec item s :
  registry_ok s -> item_ok item -> (forall r, r ∈ contents (records_list s) -> ri_name r <> ri_name item) ->
  exists s', dx_add_record_to_list alloc item (arr_size (records_list s)) s = Ok tt s' /\
    registry_ok s' /\ contents (records_list s') = contents (records_list s) ++ [item] /\
    record_id_map s' = record_id_map s.
Proof using alloc_ok.
  intros [Hr Hst Hd Hsz Hdsz Hi Hu Hn] Hitem Hnew. pose proof Hitem as [(name & En & _) _ _].
  unfold dx_add_record_to_list. rewrite En. cbn [of_option]. unfold checked_call at 1. cbn [ret].
  rewrite alloc_ok.
  destruct (array_append_spec zero_item alloc (records_list s) item Hr alloc_ok) as (a1 & H1 & Ha1 & Hc1).
  destruct (array_append_spec 0 alloc (record_server_support_states s) 0 Hst alloc_ok) as (a2 & H2 & Ha2 & Hc2).
  destruct (array_append_spec zero_digest alloc (record_digests s) zero_digest Hd alloc_ok)
    as (a3 & H3 & Ha3 & Hc3).
  rewrite Hsz in H2. rewrite Hdsz in H3.
  unfold on_error, dx_add_record_digest_to_list, of_option, checked_call, get, put, ret.
  assert (RecordItem (Some name) (ri_fields item) (ri_info_id item) (ri_suffix item) (ri_exchange_code item) = item)
    as -> by (rewrite <- En; by destruct item).
  rewrite H1. cbn [fst snd record_server_support_states set_records_list]. rewrite H2.
  cbn [fst snd record_digests set_states set_records_list].
  rewrite (proj2 (Nat.ltb_ge _ _)) by lia. rewrite H3. cbn [fst snd].
  eexists. split; [reflexivity|]. split; [|by split].
  assert (forall {A} (a a' : dx_array A) x, array_wf a -> array_wf a' -> contents a' = contents a ++ [x] ->
    arr_size a' = S (arr_size a)) as Hsize.
  { intros A a a' x Hw Hw' E. rewrite <- (length_contents a Hw), <- (length_contents a' Hw'), E, length_app.
    simpl. lia. }
  constructor; cbn [records_list record_server_support_states record_digests new_record_id set_records_list
    set_states set_record_digests]; try done.
  - rewrite (Hsize _ _ _ _ Hst Ha2 Hc2), (Hsize _ _ _ _ Hr Ha1 Hc1). congruence.
  - rewrite (Hsize _ _ _ _ Hd Ha3 Hc3), (Hsize _ _ _ _ Hr Ha1 Hc1). congruence.
  - rewrite Hc1. apply Forall_app. by rewrite Forall_singleton.
  - rewrite Hc1, fmap_app. apply NoDup_app. split_and!; [done| |apply NoDup_singleton].
    intros n (r & -> & Hr')%list_elem_of_fmap Hin. apply list_elem_of_singleton in Hin. by apply (Hnew r).
  - rewrite (Hsize _ _ _ _ Hr Ha1 Hc1). lia.
Qed.
End registry.

(** ** Exchange codes *)

(** The exchange code of a record, 0 for a wrong identifier. *)
Definition exchange_code_of (s : dscc) (id : Z) : Z :=
  if id <? 0 then 0 else default 0 (ri_exchange_code <$> contents (records_list s) !! Z.to_nat id).

Lemma get_record_by_id_spec id s :
  array_wf (records_list s) ->
  dx_get_record_by_id id s =
    match (if id <? 0 then None else contents (records_list s) !! Z.to_nat id) with
    | Some item => Ok item s
    | None => Err dx_ec_invalid_func_param_internal s
    end.
Proof.
  intros Hwf. unfold dx_get_record_by_id, dx_validate_record_id. unfold_m.
  destruct (Z.ltb_spec id 0) as [|Hid]; cbn [orb]; [done|].
  destruct (Z.leb_spec (Z.of_nat (arr_size (records_list s))) id) as [Hsz|Hsz].
  - rewrite lookup_ge_None_2; [done|]. rewrite length_contents by done. lia.
  - destruct (lookup_lt_is_Some_2 (contents (records_list s)) (Z.to_nat id)) as [item Hi].
    { rewrite length_contents by done. lia. }
    rewrite Hi. rewrite contents_lookup in Hi by lia. by rewrite Hi.
Qed.

Lemma get_exchange_code_spec id s :
  array_wf (records_list s) -> dx_get_record_exchange_code id s = Ok (exchange_code_of s id) s.
Proof.
  intros Hwf. unfold dx_get_record_exchange_code, exchange_code_of. rewrite get_record_by_id_spec by done.
  destruct (id <? 0); [done|]. by destruct (contents (records_list s) !! Z.to_nat id).
Qed.

(** Setting an exchange code changes that one, and nothing for a wrong
    identifier. *)
Lemma set_exchange_code_correct id code s :
  registry_ok s ->
  exists s', match dx_set_record_exchange_code id code s with
             | Ok _ d | Err _ d => Some d
             | UB => None
             end = Some s' /\
    registry_ok s' /\
    (forall id', exchange_code_of s' id' =
       if bool_decide (id' = id /\ 0 <= id < Z.of_nat (arr_size (records_list s))) then code
       else exchange_code_of s id').
Proof.
  intros Hok. pose proof (ok_records s Hok) as Hwf. unfold dx_set_record_exchange_code.
  unfold checked_call at 1. rewrite get_record_by_id_spec by done.
  destruct (if id <? 0 then None else _) as [item|] eqn:Ei.
  2: { exists s. split; [done|]. split; [done|]. intros id'. rewrite bool_decide_eq_false_2; [done|].
       intros [-> Hid]. rewrite (proj2 (Z.ltb_ge id 0)) in Ei by lia. apply lookup_ge_None_1 in Ei.
       rewrite length_contents in Ei by done. lia. }
  destruct (Z.ltb_spec id 0) as [|Hid]; [done|].
  pose proof (take_drop_middle _ _ _ Ei) as Hc. symmetry in Hc.
  pose proof (lookup_lt_Some _ _ _ Ei) as Hlt. set (i := Z.to_nat id) in *.
  set (item' := RecordItem (ri_name item) (ri_fields item) (ri_info_id item) (ri_suffix item) code).
  set (l1 := take i (contents (records_list s))) in *. set (l2 := drop (S i) (contents (records_list s))) in *.
  assert (length l1 = i) as Hl1 by (unfold l1; rewrite length_take; lia).
  destruct (array_set_spec (records_list s) l1 item l2 item' Hwf Hc) as (_ & l & Hw & Ha & Hc').
  rewrite Hl1 in Hw. unfold_m. rewrite Hw.
  eexists. split; [reflexivity|]. cbn [records_list set_records_list].
  rewrite length_contents in Hlt by done. split.
  - destruct Hok as [_ H1 H2 H3 H4 H5 H6 H7].
    constructor; cbn [records_list record_server_support_states record_digests new_record_id set_records_list
      arr_size]; try done.
    + rewrite Hc'. rewrite Hc in H5. apply Forall_app in H5 as [H5 H5']. inversion_clear H5' as [|? ? Hit Hr].
      apply Forall_app. split; [done|]. constructor; [|done]. destruct Hit as [Hn Hf Hs].
      by constructor.
    + rewrite Hc', fmap_app. rewrite Hc, fmap_app in H6. done.
  - intros id'. unfold exchange_code_of. cbn [records_list set_records_list]. rewrite Hc', Hc.
    destruct (decide (id' = id)) as [->|Hne].
    + rewrite bool_decide_eq_true_2 by (unfold i in *; lia). rewrite (proj2 (Z.ltb_ge id 0)) by lia. fold i.
      by rewrite list_lookup_middle.
    + rewrite bool_decide_eq_false_2 by naive_solver. destruct (Z.ltb_spec id' 0); [done|].
      assert (Z.to_nat id' <> i) as Hni by (unfold i; lia).
      destruct (decide (Z.to_nat id' < i)%nat) as [Hl|Hg].
      * by rewrite !lookup_app_l by lia.
      * rewrite !lookup_app_r by lia. destruct (Z.to_nat id' - length l1)%nat eqn:E; [lia|]. done.
Qed.

(** ** Properties *)

(** The name of the record at an identifier. *)
Definition record_name (s : dscc) (id : Z) : option (list Z) :=
  if id <? 0 then None else item ← contents (records_list s) !! Z.to_nat id; ri_name item.

Lemma record_name_nat s n : record_name s (Z.of_nat n) = mjoin (ri_name <$> contents (records_list s) !! n).
Proof.
  unfold record_name. rewrite (proj2 (Z.ltb_ge _ _)), Nat2Z.id by lia.
  by destruct (contents (records_list s) !! n).
Qed.

(** The search finds the first record of a name, or none has it. *)
Lemma search_name_spec s name :
  registry_ok s -> exists found i,
  search_record (arr_size (records_list s)) 0 (arr_elements (records_list s)) name = Some (found, i) /\
  if found : bool then (i < arr_size (records_list s))%nat /\ record_name s (Z.of_nat i) = Some name
  else i = arr_size (records_list s) /\
    forall r, r ∈ contents (records_list s) -> ri_name r <> Some name.
Proof.
  intros [Hr _ _ _ _ Hi _ _].
  assert (Hlen := length_contents (records_list s) Hr). set (n := arr_size (records_list s)) in *.
  destruct (search_record_spec (arr_elements (records_list s)) n 0 name) as (found & i & Hs & Hf).
  { intros j Hj. destruct (lookup_lt_is_Some_2 (contents (records_list s)) j) as [r Hj']; [lia|]. exists r.
    rewrite <- contents_lookup by lia. split; [done|].
    rewrite Forall_forall in Hi. by destruct (ok_named _ (Hi r (list_elem_of_lookup_2 _ _ _ Hj'))) as (x & -> & _). }
  exists found, i. split; [done|]. destruct found.
  - destruct Hf as [Hi1 Hi2]. split; [lia|]. rewrite record_name_nat, contents_lookup by lia. by rewrite Hi2.
  - destruct Hf as [-> Hf]. split; [done|]. intros r (j & Hj)%list_elem_of_lookup E.
    pose proof (lookup_lt_Some _ _ _ Hj). apply (Hf j); [lia|].
    rewrite <- contents_lookup, Hj by lia. simpl. congruence.
Qed.

Lemma record_name_append s s' item name :
  array_wf (records_list s) -> contents (records_list s') = contents (records_list s) ++ [item] ->
  ri_name item = Some name ->
  let n := Z.of_nat (arr_size (records_list s)) in
  record_name s n = None /\ record_name s' n = Some name /\
  forall id', id' <> n -> record_name s' id' = record_name s id'.
Proof.
  intros Hr Hc Hn. pose proof (length_contents _ Hr) as Hlen. cbv zeta. split_and!.
  - by rewrite record_name_nat, lookup_ge_None_2 by lia.
  - rewrite record_name_nat, Hc, lookup_app_r, Hlen, Nat.sub_diag by lia. done.
  - intros id' Hne. unfold record_name. destruct (Z.ltb_spec id' 0) as [|Hge]; [done|]. rewrite Hc.
    destruct (decide (Z.to_nat id' < arr_size (records_list s))%nat); [by rewrite lookup_app_l by lia|].
    rewrite !lookup_ge_None_2; [done|lia|]. rewrite length_app. simpl. lia.
Qed.

(** Getting the identifier of a record by its name. *)
Lemma add_or_get_record_id_spec (alloc : nat -> bool) (s : dscc) (name : list Z) :
  (forall n, alloc n = true) -> registry_ok s ->
  match dx_string_to_record_info name with
  | None => dx_add_or_get_record_id alloc name s = Ok DX_RECORD_ID_INVALID s
  | Some info =>
      suffix_fits name info ->
      exists id s', dx_add_or_get_record_id alloc name s = Ok id s' /\ registry_ok s' /\
        record_name s' id = Some name /\
        (forall id', id' <> id \/ record_name s id <> None -> record_name s' id' = record_name s id') /\
        (record_name s id <> None -> s' = s) /\
        (record_name s id = None -> id = Z.of_nat (arr_size (records_list s))) /\
        (arr_size (records_list s') <= S (arr_size (records_list s)))%nat
  end.
Proof.
  intros Halloc Hok. destruct (dx_string_to_record_info name) as [info|] eqn:Ei.
  2: { unfold dx_add_or_get_record_id, init_record_info. by rewrite Ei. }
  intros Hfit. unfold dx_add_or_get_record_id.
  destruct (init_record_info_spec alloc Halloc name info s Ei Hfit) as (item & -> & Hitem & En & _).
  rewrite En. cbn [mbind option_bind]. pose proof (ok_records s Hok) as Hr.
  destruct (search_name_spec s name Hok) as (found & i & Hs & Hf). rewrite Hs. destruct found.
  - destruct Hf as [Hi Hin]. rewrite bool_decide_eq_false_2.
    2: { intros E. destruct Hr as [Hr1 Hr2]. rewrite E in Hr2. simpl in Hr2. lia. }
    exists (Z.of_nat i), s. split_and!; [done|done|done|done|done|by rewrite Hin|lia].
  - destruct Hf as [-> Hf].
    destruct (add_record_spec alloc Halloc item s Hok Hitem) as (s' & Hadd & Hok' & Hc & _).
    { intros r Hr' E. apply (Hf r Hr'). congruence. }
    destruct (record_name_append s s' item name Hr Hc En) as (Hnone & Hnew & Hold).
    exists (Z.of_nat (arr_size (records_list s))), s'. split.
    { case_bool_decide as E; [|by rewrite Hadd].
      assert (arr_size (records_list s) = 0%nat) as E0.
      { destruct Hr as [Hr1 Hr2]. rewrite E in Hr2. simpl in Hr2. lia. }
      rewrite E0 in *. by rewrite Hadd. }
    split_and!; [done|done| |by rewrite Hnone|done|].
    + intros id' [Hne|Hne]; [by apply Hold|by rewrite Hnone in Hne].
    + rewrite <- (length_contents _ (ok_records s' Hok')), <- (length_contents _ Hr), Hc, length_app. simpl. lia.
Qed.

(** C36: getting the identifier of a record by its name: a name that no record
    has by its prefix gives -1 and changes nothing; otherwise the record with
    that name is found, or added at the end, and no other identifier changes;
    the invariant of the registry is kept: unique names, the fields of the kind
    of each record, and the lists of the states and of the digests in step. *)
Theorem add_or_get_record_id_correct (alloc : nat -> bool) (s : dscc) (name : list Z) :
  (forall n, alloc n = true) -> registry_ok s ->
  match dx_string_to_record_info name with
  | None => dx_add_or_get_record_id alloc name s = Ok DX_RECORD_ID_INVALID s
  | Some info =>
      suffix_fits name info ->
      exists id s', dx_add_or_get_record_id alloc name s = Ok id s' /\ registry_ok s' /\
        record_name s' id = Some name /\
        (forall id', id' <> id \/ record_name s id <> None -> record_name s' id' = record_name s id') /\
        (record_name s id <> None -> s' = s) /\
        (record_name s id = None -> id = Z.of_nat (arr_size (records_list s)))
  end.
Proof.
  intros Halloc Hok. pose proof (add_or_get_record_id_spec alloc s name Halloc Hok) as H.
  destruct (dx_string_to_record_info name); [|done].
  intros Hfit. destruct (H Hfit) as (id & s' & H1 & H2 & H3 & H4 & H5 & H6 & _). by exists id, s'.
Qed.

(** The vector of the frequent identifiers and the sorted array of the others
    are one map from the identifiers of the server to local ones, -1 when there
    is none: reading it never fails, and assigning an identifier changes that one. *)
Theorem server_ids_refine (alloc : nat -> bool) (s : dscc) :
  (forall n, alloc n = true) -> id_map_ok (record_id_map s) ->
  (forall id, dx_get_record_id id s = Ok (local_id (record_id_map s) id) s) /\
  (forall record_id id, exists m,
     dx_assign_server_record_id alloc record_id id s = Ok true (set_record_id_map m s) /\ id_map_ok m /\
     forall id', local_id m id' =
       if decide (id' = id) then record_id else local_id (record_id_map s) id').
Proof. intros Halloc Hok. split; intros; [by apply get_record_id_spec|by apply assign_record_id_spec]. Qed.

Lemma timed_fields (info : dx_record_info_id_t) (seconds millis : Z) :
  is_i32 seconds -> 0 <= millis < 1000 ->
  let '(time, timed) :=
    subscription_time_loop (info_fields (g_record_info info)) seconds millis 0 false false false in
  timed = bool_decide (info ∈ [dx_rid_time_and_sale; dx_rid_candle; dx_rid_greeks]) /\
  (timed = true -> time = seconds * 2 ^ 32 + millis).
Proof.
  intros Hs Hm. assert (i64 (Z.lor 0 (Z.shiftl seconds 32)) = seconds * 2 ^ 32) as E.
  { rewrite Z.lor_0_l, shl_mul by lia. rewrite i64_id; [done|]. unfold is_i32, is_i64 in *. lia. }
  destruct info; cbn -[i64 Z.lor Z.shiftl Z.pow Z.mul]; rewrite ?E; (split; [done|]); try done;
    intros _; apply lor_add; lia.
Qed.

Lemma create_subscription_time_spec (s : dscc) (id time : Z) (item : dx_record_item_t) :
  registry_ok s -> 0 <= id -> contents (records_list s) !! Z.to_nat id = Some item ->
  is_i64 time -> is_i32 (time / 1000) ->
  dx_create_subscription_time id time s =
    Ok (if bool_decide (ri_info_id item ∈ [dx_rid_time_and_sale; dx_rid_candle; dx_rid_greeks])
        then (time / 1000) * 2 ^ 32 + time mod 1000 else time) s.
Proof.
  intros Hok Hid Hitem H64 H32. unfold dx_create_subscription_time.
  destruct (Z.eqb_spec time 0) as [->|Hne]; [by case_bool_decide|].
  destruct (seconds_millis_spec time H64) as [-> ->].
  replace (Z.max INT_MIN (Z.min (time / 1000) INT_MAX)) with (time / 1000) by (unfold is_i32, INT_MIN, INT_MAX in *; lia).
  pose proof (lookup_lt_Some _ _ _ Hitem) as Hlt. rewrite length_contents in Hlt by apply Hok.
  unfold dx_get_record_by_id, dx_validate_record_id, checked_call, get.
  rewrite (proj2 (Z.ltb_ge id 0)), (proj2 (Z.leb_gt _ id)) by lia. cbn [orb ret].
  unfold ret. rewrite <- contents_lookup, Hitem by done. cbn [of_option ret]. unfold ret.
  assert (item_ok item) as [_ -> _].
  { pose proof (ok_items _ Hok) as Hi. rewrite Forall_forall in Hi.
    by apply Hi, (list_elem_of_lookup_2 _ (Z.to_nat id)). }
  pose proof (timed_fields (ri_info_id item) (time / 1000) (time mod 1000) H32) as H.
  destruct (subscription_time_loop _ _ _ _ _ _ _) as [t timed].
  destruct H as [-> H]; [zlia|]. case_bool_decide; [by rewrite H|done].
Qed.

(** The subscription time of a record with a time, of the kinds time and
    sale, candle and Greeks, holds the seconds in its upper and the milliseconds
    in its lower half; for the other kinds it is the time itself. *)
Theorem subscription_time_correct (s : dscc) (id time : Z) (item : dx_record_item_t) :
  registry_ok s -> 0 <= id -> contents (records_list s) !! Z.to_nat id = Some item ->
  is_i64 time -> is_i32 (time / 1000) ->
  dx_create_subscription_time id time s =
    Ok (if bool_decide (ri_info_id item ∈ [dx_rid_time_and_sale; dx_rid_candle; dx_rid_greeks])
        then (time / 1000) * 2 ^ 32 + time mod 1000 else time) s.
Proof. apply create_subscription_time_spec. Qed.

(** The suffix of an order, what follows [#] in its name, is stored in a
    buffer of five characters that nothing guards: up to four it is stored with
    zeros behind it, and five or more leave the buffer. *)
Theorem order_suffix_bounds (alloc : nat -> bool) (s : dscc) (suffix : list Z) :
  (forall n, alloc n = true) ->
  ((length suffix <= 4)%nat -> exists item,
     init_record_info alloc (chars_of "Order#" ++ suffix) s = Ok item s /\
     ri_suffix item = suffix ++ replicate (5 - length suffix) 0) /\
  ((5 <= length suffix)%nat -> dx_add_or_get_record_id alloc (chars_of "Order#" ++ suffix) s = UB).
Proof.
  intros Halloc. unfold dx_add_or_get_record_id.
  assert (init_record_info alloc (chars_of "Order#" ++ suffix) s =
    (suffix' <-- of_option (dx_copy_string_len (replicate DXF_RECORD_SUFFIX_SIZE 0) suffix (S (length suffix)));;
     ret (RecordItem (Some (chars_of "Order#" ++ suffix)) dx_fields_order dx_rid_order suffix' 0)) s) as ->.
  { unfold init_record_info. cbn -[dx_copy_string_len dx_fields_order DXF_RECORD_SUFFIX_SIZE]. rewrite Halloc.
    done. }
  split; intros Hl.
  - rewrite copy_suffix by (unfold DXF_RECORD_SUFFIX_SIZE; lia). eexists. split; [reflexivity|]. done.
  - unfold dx_copy_string_len, blit. rewrite length_replicate.
    rewrite (proj2 (Nat.leb_gt (0 + S (length suffix)) DXF_RECORD_SUFFIX_SIZE)) by (unfold DXF_RECORD_SUFFIX_SIZE; lia).
    rewrite andb_false_r. done.
Qed.

(** A registry with one record. *)
Definition candle_item : dx_record_item_t :=
  RecordItem (Some (chars_of "Candle")) dx_fields_candle dx_rid_candle [0; 0; 0; 0; 0] 0.
Definition dscc_example : dscc :=
  Dscc (record_id_map new_dscc) (DxArray [0] 1 1) (DxArray [candle_item] 1 1) 0 (DxArray [zero_digest] 1 1).

Example dscc_example_added :
  dx_add_or_get_record_id (fun _ => true) (chars_of "Candle") new_dscc = Ok 0 dscc_example.
Proof. vm_compute. reflexivity. Qed.

Lemma dscc_example_ok : registry_ok dscc_example.
Proof.
  constructor; try (by split; simpl; lia); try done.
  - constructor; [|constructor]. constructor; [|done|done]. exists (chars_of "Candle"). by vm_compute.
  - apply NoDup_singleton.
Qed.

Lemma new_dscc_ok : registry_ok new_dscc /\ id_map_ok (record_id_map new_dscc).
Proof.
  split; constructor; try (by apply array_wf_empty); try done; try constructor; vm_compute; done.
Qed.

Lemma add_or_get_record_id_correct_witness :
  exists id s', dx_add_or_get_record_id (fun _ => true) (chars_of "Quote&Q") new_dscc = Ok id s' /\
    registry_ok s' /\ record_name s' id = Some (chars_of "Quote&Q").
Proof.
  pose proof (add_or_get_record_id_correct (fun _ => true) new_dscc (chars_of "Quote&Q") (fun _ => eq_refl)
    (proj1 new_dscc_ok)) as H.
  change (dx_string_to_record_info (chars_of "Quote&Q")) with (Some dx_rid_quote) in H.
  destruct (H I) as (id & s' & H1 & H2 & H3 & _). by exists id, s'.
Defined.

Lemma server_ids_refine_witness :
  exists m, dx_assign_server_record_id (fun _ => true) 3 1500 new_dscc = Ok true (set_record_id_map m new_dscc) /\
    id_map_ok m /\ forall id', local_id m id' =
      if decide (id' = 1500) then 3 else local_id (record_id_map new_dscc) id'.
Proof. apply (server_ids_refine (fun _ => true) new_dscc); [done|apply new_dscc_ok]. Defined.

Lemma subscription_time_correct_witness :
  dx_create_subscription_time 0 1500000000123 dscc_example = Ok (1500000000 * 2 ^ 32 + 123) dscc_example.
Proof.
  apply (subscription_time_correct dscc_example 0 1500000000123 candle_item).
  - apply dscc_example_ok.
  - lia.
  - reflexivity.
  - unfold is_i64; lia.
  - unfold is_i32; by_compute.
Defined.

Lemma order_suffix_bounds_witness :
  (exists item, init_record_info (fun _ => true) (chars_of "Order#NTV") new_dscc = Ok item new_dscc /\
     ri_suffix item = [78; 84; 86; 0; 0]) /\
  dx_add_or_get_record_id (fun _ => true) (chars_of "Order#ABCDE") new_dscc = UB.
Proof.
  split.
  - destruct (order_suffix_bounds (fun _ => true) new_dscc (chars_of "NTV") (fun _ => eq_refl)) as [H _].
    destruct H as (item & H1 & H2); [vm_compute; lia|]. by exists item.
  - apply (order_suffix_bounds (fun _ => true) new_dscc (chars_of "ABCDE")); [done|vm_compute; lia].
Defined.
