(* ===== verification/Subscription.v ===== *)
(** * Subscription: the records of an event ([src/EventData.c])

    Which records an event is subscribed with, and how.  A record is registered
    when it is first needed; the list of the parameters is a dynamic array.  A
    failure ends the list early and is not reported. *)

From Stdlib Require Import Ascii String.
From S2P Require Import Prelude Arrays Algorithms Input EventData DataStructures.
Local Open Scope Z_scope.
Local Open Scope c_scope.

Inductive dx_subscription_type_t : Set := dx_st_ticker | dx_st_stream | dx_st_history.

#[export] Instance dx_subscription_type_t_eq_dec : EqDecision dx_subscription_type_t.
Proof. solve_decision. Defined.

Definition dx_esf_single_record : Z := 0x1.
Definition dx_esf_sr_market_maker_order : Z := 0x2.
Definition dx_esf_time_series : Z := 0x4.
Definition dx_esf_quotes_regional : Z := 0x8.
Definition dx_esf_wildcard : Z := 0x10.
Definition dx_esf_force_ticker : Z := 0x20.
Definition dx_esf_force_stream : Z := 0x40.
Definition dx_esf_force_history : Z := 0x80.

Record dx_event_subscription_param_t : Set := SubscriptionParam {
  param_record_id : Z;
  param_subscription_type : dx_subscription_type_t;
}.
Definition zero_param : dx_event_subscription_param_t := SubscriptionParam 0 dx_st_ticker.

(** The registry of the connection and the list that is made. *)
Definition sub_ctx : Type := dscc * dx_array dx_event_subscription_param_t.

(** [Order#] and the others. *)
Definition g_quote_tmpl : list Z := chars_of "Quote&".
Definition g_order_tmpl : list Z := chars_of "Order#".
Definition g_trade_tmpl : list Z := chars_of "Trade&".
Definition g_summary_tmpl : list Z := chars_of "Summary&".
Definition g_trade_eth_tmpl : list Z := chars_of "TradeETH&".
Definition g_time_and_sale_tmpl : list Z := chars_of "TimeAndSale&".

(** The string at the start of an array of characters, which must end in it. *)
Definition string_of (buf : list Z) : option (list Z) :=
  if bool_decide (0 ∈ buf) then Some (c_string buf) else None.

(** [dx_copy_string], which is [wcscpy]. *)
Definition dx_copy_string (dest src : list Z) : option (list Z) :=
  blit (src ++ [0]) 0 dest 0 (length src + 1).

Definition dx_infer_subscription_type (subscr_flags : Z) (default_type : dx_subscription_type_t)
  : dx_subscription_type_t :=
  if IS_FLAG_SET subscr_flags dx_esf_wildcard || IS_FLAG_SET subscr_flags dx_esf_force_stream then dx_st_stream
  else if IS_FLAG_SET subscr_flags dx_esf_force_ticker then dx_st_ticker
  else if IS_FLAG_SET subscr_flags dx_esf_force_history then dx_st_history
  else default_type.

Section params.
(** Whether [dx_calloc] of so many elements succeeds. *)
Context (alloc : nat -> bool).

Definition dx_add_subscription_param_to_list (record_name : list Z) (subscription_type : dx_subscription_type_t)
  : M sub_ctx unit := fun '(s, list) =>
  match dx_add_or_get_record_id alloc record_name s with
  | Ok record_id s =>
      if record_id <? 0 then Err dx_esec_invalid_subscr_id (s, list)
      else
        match DX_ARRAY_INSERT zero_param alloc list (SubscriptionParam record_id subscription_type) (arr_size list) with
        | Some (list, failed) => if failed : bool then Err dx_sec_not_enough_memory (s, list) else Ok tt (s, list)
        | None => UB
        end
  | Err e s => Err e (s, list)
  | UB => UB
  end.

(** [for (; ch <= L'Z'; ch++)]: the character after the prefix of the name is
    replaced.  The fuel is more than the letters. *)
Fixpoint letters_loop (n : nat) (ch : Z) (name_buf : list Z) (tmpl_len : nat)
  (subscription_type : dx_subscription_type_t) : M sub_ctx unit :=
  match n with
  | O => undefined
  | S n' =>
      if ch <=? 90 then
        name_buf <-- of_option (write_at name_buf tmpl_len ch);;
        name <-- of_option (string_of name_buf);;
        dx_add_subscription_param_to_list name subscription_type;;;
        letters_loop n' (ch + 1) name_buf tmpl_len subscription_type
      else ret tt
  end.
Definition fill_letters (tmpl : list Z) (subscription_type : dx_subscription_type_t) : M sub_ctx unit :=
  name_buf <-- of_option (dx_copy_string (replicate (length tmpl + 2) 0) tmpl);;
  letters_loop 27 65 name_buf (length tmpl) subscription_type.

(** The name of an order record with a source; the buffer is used again. *)
Definition order_name (order_name_buf suffix : list Z) : option (list Z * list Z) :=
  rest ← dx_copy_string_len (drop (length g_order_tmpl) order_name_buf) (c_string suffix) DXF_RECORD_SUFFIX_SIZE;
  let buf := take (length g_order_tmpl) order_name_buf ++ rest in
  name ← string_of buf;
  Some (buf, name).
Definition order_name_buf : option (list Z) :=
  dx_copy_string (replicate (length g_order_tmpl + DXF_RECORD_SUFFIX_SIZE) 0) g_order_tmpl.

Definition dx_get_single_order_subscription_params (order_source : list (list Z)) (subscr_flags : Z)
  : M sub_ctx unit :=
  if negb (IS_FLAG_SET subscr_flags dx_esf_single_record) then fail
  else
    let subscription_type := dx_infer_subscription_type subscr_flags dx_st_history in
    if IS_FLAG_SET subscr_flags dx_esf_sr_market_maker_order
    then dx_add_subscription_param_to_list (chars_of "MarketMaker") subscription_type
    else
      match order_source with
      | [] => dx_add_subscription_param_to_list (chars_of "Order") subscription_type
      | [suffix] =>
          buf <-- of_option order_name_buf;;
          r <-- of_option (order_name buf suffix);;
          dx_add_subscription_param_to_list r.2 subscription_type
      | _ => fail
      end.

Definition dx_get_quote_subscription_params (subscr_flags : Z) : M sub_ctx unit :=
  let subscription_type := dx_infer_subscription_type subscr_flags dx_st_ticker in
  fill_letters g_quote_tmpl subscription_type;;;
  if negb (IS_FLAG_SET subscr_flags dx_esf_quotes_regional)
  then dx_add_subscription_param_to_list (chars_of "Quote") subscription_type
  else ret tt.

Fixpoint sources_loop (order_source : list (list Z)) (buf : list Z) (subscr_flags : Z) : M sub_ctx unit :=
  match order_source with
  | [] => ret tt
  | suffix :: order_source' =>
      r <-- of_option (order_name buf suffix);;
      dx_add_subscription_param_to_list r.2 (dx_infer_subscription_type subscr_flags dx_st_history);;;
      sources_loop order_source' r.1 subscr_flags
  end.

Definition dx_get_order_subscription_params (order_source : list (list Z)) (subscr_flags : Z) : M sub_ctx unit :=
  if IS_FLAG_SET subscr_flags dx_esf_single_record
  then dx_get_single_order_subscription_params order_source subscr_flags
  else
    dx_add_subscription_param_to_list (chars_of "Quote") (dx_infer_subscription_type subscr_flags dx_st_ticker);;;
    dx_add_subscription_param_to_list (chars_of "MarketMaker") (dx_infer_subscription_type subscr_flags dx_st_history);;;
    dx_add_subscription_param_to_list (chars_of "Order") (dx_infer_subscription_type subscr_flags dx_st_history);;;
    buf <-- of_option order_name_buf;;
    sources_loop order_source buf subscr_flags;;;
    fill_letters g_quote_tmpl (dx_infer_subscription_type subscr_flags dx_st_ticker).

Definition dx_get_trade_subscription_params (subscr_flags : Z) : M sub_ctx unit :=
  let subscription_type := dx_infer_subscription_type subscr_flags dx_st_ticker in
  dx_add_subscription_param_to_list (chars_of "Trade") subscription_type;;;
  fill_letters g_trade_tmpl subscription_type.

Definition dx_get_summary_subscription_params (subscr_flags : Z) : M sub_ctx unit :=
  let subscription_type := dx_infer_subscription_type subscr_flags dx_st_ticker in
  dx_add_subscription_param_to_list (chars_of "Summary") subscription_type;;;
  fill_letters g_summary_tmpl subscription_type.

Definition dx_get_profile_subscription_params (subscr_flags : Z) : M sub_ctx unit :=
  dx_add_subscription_param_to_list (chars_of "Profile") (dx_infer_subscription_type subscr_flags dx_st_ticker).

Definition dx_get_time_and_sale_subscription_params (subscr_flags : Z) : M sub_ctx unit :=
  let subscription_type := dx_infer_subscription_type subscr_flags
    (if IS_FLAG_SET subscr_flags dx_esf_time_series then dx_st_history else dx_st_stream) in
  dx_add_subscription_param_to_list (chars_of "TimeAndSale") subscription_type;;;
  fill_letters g_time_and_sale_tmpl subscription_type.

Definition dx_get_candle_subscription_params (subscr_flags : Z) : M sub_ctx unit :=
  dx_add_subscription_param_to_list (chars_of "Candle") (dx_infer_subscription_type subscr_flags dx_st_history).

Definition dx_get_trade_eth_subscription_params (subscr_flags : Z) : M sub_ctx unit :=
  let subscription_type := dx_infer_subscription_type subscr_flags dx_st_ticker in
  dx_add_subscription_param_to_list (chars_of "TradeETH") subscription_type;;;
  fill_letters g_trade_eth_tmpl subscription_type.

Definition dx_get_spread_order_subscription_params (subscr_flags : Z) : M sub_ctx unit :=
  let subscription_type := dx_infer_subscription_type subscr_flags dx_st_history in
  dx_add_subscription_param_to_list (chars_of "SpreadOrder") subscription_type;;;
  dx_add_subscription_param_to_list (chars_of "SpreadOrder#ISE") subscription_type.

Definition dx_get_greeks_subscription_params (subscr_flags : Z) : M sub_ctx unit :=
  dx_add_subscription_param_to_list (chars_of "Greeks") (dx_infer_subscription_type subscr_flags
    (if IS_FLAG_SET subscr_flags dx_esf_time_series then dx_st_history else dx_st_ticker)).

Definition dx_get_theo_price_subscription_params (subscr_flags : Z) : M sub_ctx unit :=
  dx_add_subscription_param_to_list (chars_of "TheoPrice") (dx_infer_subscription_type subscr_flags dx_st_ticker).

Definition dx_get_underlying_subscription_params (subscr_flags : Z) : M sub_ctx unit :=
  dx_add_subscription_param_to_list (chars_of "Underlying") (dx_infer_subscription_type subscr_flags dx_st_ticker).

Definition dx_get_series_subscription_params (subscr_flags : Z) : M sub_ctx unit :=
  dx_add_subscription_param_to_list (chars_of "Series") (dx_infer_subscription_type subscr_flags dx_st_history).

Definition dx_get_configuration_subscription_params (subscr_flags : Z) : M sub_ctx unit :=
  dx_add_subscription_param_to_list (chars_of "Configuration") (dx_infer_subscription_type subscr_flags dx_st_ticker).

(** The [switch] of [dx_get_event_subscription_params]. *)
Definition event_params (order_source : list (list Z)) (event_id : dx_event_id_t) (subscr_flags : Z) : M sub_ctx unit :=
  match event_id with
  | dx_eid_trade => dx_get_trade_subscription_params subscr_flags
  | dx_eid_quote => dx_get_quote_subscription_params subscr_flags
  | dx_eid_summary => dx_get_summary_subscription_params subscr_flags
  | dx_eid_profile => dx_get_profile_subscription_params subscr_flags
  | dx_eid_order => dx_get_order_subscription_params order_source subscr_flags
  | dx_eid_time_and_sale => dx_get_time_and_sale_subscription_params subscr_flags
  | dx_eid_candle => dx_get_candle_subscription_params subscr_flags
  | dx_eid_trade_eth => dx_get_trade_eth_subscription_params subscr_flags
  | dx_eid_spread_order => dx_get_spread_order_subscription_params subscr_flags
  | dx_eid_greeks => dx_get_greeks_subscription_params subscr_flags
  | dx_eid_theo_price => dx_get_theo_price_subscription_params subscr_flags
  | dx_eid_underlying => dx_get_underlying_subscription_params subscr_flags
  | dx_eid_series => dx_get_series_subscription_params subscr_flags
  | dx_eid_configuration => dx_get_configuration_subscription_params subscr_flags
  end.

(** The list as far as it was made. *)
Definition dx_get_event_subscription_params (order_source : list (list Z)) (event_id : dx_event_id_t)
  (subscr_flags : Z) : M dscc (dx_array dx_event_subscription_param_t) := fun s =>
  match event_params order_source event_id subscr_flags (s, DX_EMPTY_ARRAY) with
  | Ok _ (s, list) | Err _ (s, list) => Ok list s
  | UB => UB
  end.
End params.

(** [dx_get_event_id_by_bitmask]: the number of the event of a mask; [None] is
    [dx_eid_invalid].  The fuel is more than the bits of an [int]. *)
Fixpoint event_id_loop (n : nat) (event_bitmask event_id : Z) : option Z :=
  match n with
  | O => None
  | S n' =>
      let event_bitmask := Z.shiftr event_bitmask 1 in
      if event_bitmask =? 0 then Some event_id else event_id_loop n' event_bitmask (event_id + 1)
  end.
Definition dx_get_event_id_by_bitmask (event_bitmask : Z) : option Z :=
  if negb (dx_is_only_single_bit_set event_bitmask) then None else event_id_loop 32 event_bitmask 0.

(** [dx_event_type_to_string]: the name of the event with a mask. *)
Definition dx_event_type_to_string (event_type : Z) : list Z :=
  if event_type =? 1 then chars_of "Trade"
  else if event_type =? 2 then chars_of "Quote"
  else if event_type =? 4 then chars_of "Summary"
  else if event_type =? 8 then chars_of "Profile"
  else if event_type =? 16 then chars_of "Order"
  else if event_type =? 32 then chars_of "Time&Sale"
  else if event_type =? 64 then chars_of "Candle"
  else if event_type =? 128 then chars_of "TradeETH"
  else if event_type =? 256 then chars_of "SpreadOrder"
  else if event_type =? 512 then chars_of "Greeks"
  else if event_type =? 1024 then chars_of "TheoPrice"
  else if event_type =? 2048 then chars_of "Underlying"
  else if event_type =? 4096 then chars_of "Series"
  else if event_type =? 8192 then chars_of "Configuration"
  else [].

(** ** The records of an event

    What an event is subscribed with: the names of its records and the types of
    the subscriptions, in order. *)

Definition sub_entry : Type := list Z * dx_subscription_type_t.

Definition letters (tmpl : list Z) : list (list Z) := (fun ch => tmpl ++ [ch]) <$> seqZ 65 26.

Definition record_named (flags : Z) (name : string) (default_type : dx_subscription_type_t) : list sub_entry :=
  [(chars_of name, dx_infer_subscription_type flags default_type)].

Definition event_records (sources : list (list Z)) (event_id : dx_event_id_t) (flags : Z) : list sub_entry :=
  let all tmpl default_type := (., dx_infer_subscription_type flags default_type) <$> letters tmpl in
  let by_time default_type := if IS_FLAG_SET flags dx_esf_time_series then dx_st_history else default_type in
  match event_id with
  | dx_eid_trade => record_named flags "Trade" dx_st_ticker ++ all g_trade_tmpl dx_st_ticker
  | dx_eid_quote =>
      all g_quote_tmpl dx_st_ticker ++
      (if IS_FLAG_SET flags dx_esf_quotes_regional then [] else record_named flags "Quote" dx_st_ticker)
  | dx_eid_summary => record_named flags "Summary" dx_st_ticker ++ all g_summary_tmpl dx_st_ticker
  | dx_eid_profile => record_named flags "Profile" dx_st_ticker
  | dx_eid_order =>
      if IS_FLAG_SET flags dx_esf_single_record then
        if IS_FLAG_SET flags dx_esf_sr_market_maker_order then record_named flags "MarketMaker" dx_st_history
        else
          match sources with
          | [] => record_named flags "Order" dx_st_history
          | [source] => [(g_order_tmpl ++ source, dx_infer_subscription_type flags dx_st_history)]
          | _ => []
          end
      else
        record_named flags "Quote" dx_st_ticker ++ record_named flags "MarketMaker" dx_st_history ++ record_named flags "Order" dx_st_history ++
        ((fun source => (g_order_tmpl ++ source, dx_infer_subscription_type flags dx_st_history)) <$> sources) ++
        all g_quote_tmpl dx_st_ticker
  | dx_eid_time_and_sale =>
      record_named flags "TimeAndSale" (by_time dx_st_stream) ++ all g_time_and_sale_tmpl (by_time dx_st_stream)
  | dx_eid_candle => record_named flags "Candle" dx_st_history
  | dx_eid_trade_eth => record_named flags "TradeETH" dx_st_ticker ++ all g_trade_eth_tmpl dx_st_ticker
  | dx_eid_spread_order => record_named flags "SpreadOrder" dx_st_history ++ record_named flags "SpreadOrder#ISE" dx_st_history
  | dx_eid_greeks => record_named flags "Greeks" (by_time dx_st_ticker)
  | dx_eid_theo_price => record_named flags "TheoPrice" dx_st_ticker
  | dx_eid_underlying => record_named flags "Underlying" dx_st_ticker
  | dx_eid_series => record_named flags "Series" dx_st_history
  | dx_eid_configuration => record_named flags "Configuration" dx_st_ticker
  end.

(** ** Lists that name records *)

Definition subscribes (s : dscc) (p : dx_event_subscription_param_t) (e : sub_entry) : Prop :=
  record_name s (param_record_id p) = Some e.1 /\ param_subscription_type p = e.2.

Definition keeps_names (s s' : dscc) : Prop :=
  forall id name, record_name s id = Some name -> record_name s' id = Some name.

#[export] Instance keeps_names_preorder : PreOrder keeps_names.
Proof. split; [by intros s id name|]. intros s1 s2 s3 H1 H2 id name H. by apply H2, H1. Qed.

Record list_of (c : sub_ctx) (es : list sub_entry) : Prop := {
  lo_registry : registry_ok c.1;
  lo_wf : array_wf c.2;
  lo_entries : Forall2 (subscribes c.1) (contents c.2) es;
}.

Lemma subscribes_keeps s s' ps es :
  keeps_names s s' -> Forall2 (subscribes s) ps es -> Forall2 (subscribes s') ps es.
Proof. intros Hk H. eapply Forall2_impl; [done|]. intros p e [H1 H2]. split; [by apply Hk|done]. Qed.

(** The records of the entries are registered. *)
Definition registered (s : dscc) (es : list sub_entry) : Prop :=
  Forall (fun e => exists id, record_name s id = Some e.1) es.

(** A computation that extends the list by given entries, and registers their
    records where they are not. *)
Definition adds (m : M sub_ctx unit) (es : list sub_entry) : Prop :=
  forall c es0, list_of c es0 ->
  exists c', m c = Ok tt c' /\ list_of c' (es0 ++ es) /\ keeps_names c.1 c'.1 /\
    (registered c.1 es -> c'.1 = c.1) /\
    (arr_size (records_list c'.1) <= arr_size (records_list c.1) + length es)%nat.

(** The name is one of a record the library knows. *)
Definition known (name : list Z) : Prop :=
  match dx_string_to_record_info name with Some info => suffix_fits name info | None => False end.

Lemma record_name_inj s i j name :
  registry_ok s -> record_name s i = Some name -> record_name s j = Some name -> i = j.
Proof.
  intros Hok Hi Hj. unfold record_name in *. destruct (Z.ltb_spec i 0), (Z.ltb_spec j 0); try done.
  assert (Z.to_nat i = Z.to_nat j); [|lia].
  eapply (NoDup_lookup _ _ _ (Some name)); [apply (ok_unique s Hok)| |]; rewrite list_lookup_fmap.
  - by destruct (contents (records_list s) !! Z.to_nat i); [cbn in *; f_equal|].
  - by destruct (contents (records_list s) !! Z.to_nat j); [cbn in *; f_equal|].
Qed.

Lemma adds_nil : adds (ret tt) [].
Proof. intros c es0 H. exists c. rewrite app_nil_r. split_and!; try done. lia. Qed.

Lemma adds_seq m1 m2 es1 es2 : adds m1 es1 -> adds m2 es2 -> adds (m1;;; m2) (es1 ++ es2).
Proof.
  intros H1 H2 c es0 H. destruct (H1 c es0 H) as (c1 & E1 & L1 & K1 & S1 & N1).
  destruct (H2 c1 _ L1) as (c2 & E2 & L2 & K2 & S2 & N2). exists c2. unfold checked_call. rewrite E1.
  rewrite app_assoc. split_and!; [done|done|by etrans| |rewrite length_app; lia].
  intros [R1 R2]%Forall_app. specialize (S1 R1). rewrite <- S1. apply S2. by rewrite S1.
Qed.

Lemma adds_some {A} (o : option A) x k es : o = Some x -> adds (k x) es -> adds (a <-- of_option o;; k a) es.
Proof. by intros ->. Qed.

Lemma c_string_zero l r : 0 ∉ l -> c_string (l ++ 0 :: r) = l.
Proof.
  induction l as [|x l IH]; intros H; [done|]. apply not_elem_of_cons in H as [H1 H2]. cbn [c_string app].
  rewrite (proj2 (Z.eqb_neq x 0)) by done. by rewrite IH.
Qed.

Lemma c_string_nonzero l : 0 ∉ c_string l.
Proof.
  induction l as [|x l IH]; cbn [c_string]; [by apply not_elem_of_nil|]. destruct (Z.eqb_spec x 0); [by apply not_elem_of_nil|].
  by apply not_elem_of_cons.
Qed.

Lemma string_of_zero l r : 0 ∉ l -> string_of (l ++ 0 :: r) = Some l.
Proof. intros H. unfold string_of. rewrite bool_decide_eq_true_2 by set_solver. by rewrite c_string_zero. Qed.

Lemma order_name_spec rest suffix :
  length rest = DXF_RECORD_SUFFIX_SIZE -> (length (c_string suffix) <= 4)%nat ->
  exists rest', order_name (g_order_tmpl ++ rest) suffix = Some (g_order_tmpl ++ rest', g_order_tmpl ++ c_string suffix) /\
    length rest' = DXF_RECORD_SUFFIX_SIZE.
Proof.
  intros Hr Hs. unfold order_name. rewrite drop_app_length, take_app_length.
  exists (c_string suffix ++ 0 :: replicate (4 - length (c_string suffix)) 0). unfold dx_copy_string_len.
  rewrite blit_in by (rewrite ?length_app, ?length_replicate; lia). cbn [mbind option_bind].
  rewrite drop_0, take_0, Nat.add_0_l, <- Hr, drop_all, app_nil_r, take_app_ge, take_replicate by (rewrite Hr; unfold DXF_RECORD_SUFFIX_SIZE; lia).
  rewrite Hr. unfold DXF_RECORD_SUFFIX_SIZE.
  replace (5 - length (c_string suffix))%nat with (S (4 - length (c_string suffix))) by lia.
  replace (S _ `min` 5)%nat with (S (4 - length (c_string suffix))) by lia. cbn [replicate app].
  rewrite (app_assoc g_order_tmpl), string_of_zero.
  - rewrite <- app_assoc. cbn [mbind option_bind]. split; [done|]. rewrite length_app. simpl. rewrite length_replicate. lia.
  - apply not_elem_of_app. split; [by_compute|apply c_string_nonzero].
Qed.

Lemma known_source suffix : (length suffix <= 4)%nat -> known (g_order_tmpl ++ suffix).
Proof.
  intros H. unfold known. change (dx_string_to_record_info (g_order_tmpl ++ suffix)) with (Some dx_rid_order).
  intros _. rewrite length_app. unfold DXF_RECORD_SUFFIX_SIZE. change (length g_order_tmpl) with 6%nat.
  change (length (default_name (g_record_info dx_rid_order))) with 5%nat. lia.
Qed.
Section adds.
Context (alloc : nat -> bool) (alloc_ok : forall n, alloc n = true).

Lemma adds_param name ty : known name -> adds (dx_add_subscription_param_to_list alloc name ty) [(name, ty)].
Proof using alloc_ok.
  unfold known. intros Hname [s list] es0 [Hr Hw He]. cbn [fst snd] in *.
  pose proof (add_or_get_record_id_spec alloc s name alloc_ok Hr) as H.
  destruct (dx_string_to_record_info name); [|done].
  destruct (H Hname) as (id & s' & Hadd & Hr' & Hn & Ho & Hsame & Hid & Hsize). clear H.
  assert (keeps_names s s') as Hk.
  { intros id' name' H'. destruct (decide (record_name s id = None)) as [E|E].
    - rewrite Ho; [done|]. left. intros ->. congruence.
    - by rewrite Ho by auto. }
  assert (0 <= id) as Hge.
  { destruct (Z.ltb_spec id 0) as [Hlt|]; [|lia]. unfold record_name in Hn.
    by rewrite (proj2 (Z.ltb_lt _ _) Hlt) in Hn. }
  destruct (array_insert_spec zero_param alloc list (SubscriptionParam id ty) (arr_size list) Hw) as
    (list' & Hi & Hw' & Hc); [lia|done|].
  exists (s', list'). unfold dx_add_subscription_param_to_list. rewrite Hadd, (proj2 (Z.ltb_ge _ _)), Hi by done.
  rewrite <- length_contents, firstn_all, drop_all in Hc by done.
  split_and!; [done| |done| |cbn [length fst]; lia].
  2: { intros [[id0 Hid0] _]%Forall_cons. apply Hsame. intros E. specialize (Hk _ _ Hid0).
       rewrite (record_name_inj s' id id0 name) in E by done. congruence. }
  constructor; [done|done|]. cbn [fst snd]. rewrite Hc.
  apply Forall2_app; [by apply (subscribes_keeps s)|]. by repeat constructor.
Qed.

Section letters.
Context (tmpl : list Z) (ty : dx_subscription_type_t) (tmpl_ok : 0 ∉ tmpl).
Context (tmpl_known : forall ch, 65 <= ch < 91 -> known (tmpl ++ [ch])).

Lemma adds_letters_loop n ch x :
  65 <= ch <= 91 -> (Z.to_nat (91 - ch) < n)%nat ->
  adds (letters_loop alloc n ch (tmpl ++ [x; 0]) (length tmpl) ty)
    ((fun c => (tmpl ++ [c], ty)) <$> seqZ ch (91 - ch)).
Proof using alloc_ok tmpl_ok tmpl_known.
  revert ch x. induction n as [|n IH]; intros ch x Hch Hn; [lia|]. cbn [letters_loop].
  destruct (Z.leb_spec ch 90).
  - apply (adds_some _ (tmpl ++ [ch; 0])); [by apply write_at_app|].
    apply (adds_some _ (tmpl ++ [ch])).
    { change (tmpl ++ [ch; 0]) with (tmpl ++ [ch] ++ [0]). rewrite app_assoc. apply string_of_zero.
      apply not_elem_of_app. split; [done|]. apply not_elem_of_cons. split; [lia|apply not_elem_of_nil]. }
    rewrite seqZ_cons, fmap_cons by lia. apply (adds_seq _ _ [_]).
    + apply adds_param, tmpl_known. lia.
    + replace (Z.pred (91 - ch)) with (91 - (ch + 1)) by lia. apply (IH (ch + 1) ch); lia.
  - replace (91 - ch) with 0 by lia. apply adds_nil.
Qed.

Lemma adds_letters : adds (fill_letters alloc tmpl ty) ((., ty) <$> letters tmpl).
Proof using alloc_ok tmpl_ok tmpl_known.
  apply (adds_some _ (tmpl ++ [0; 0])).
  - unfold dx_copy_string. rewrite blit_in by (rewrite ?length_app, ?length_replicate; simpl; lia).
    rewrite drop_0, take_0, firstn_all2 by (rewrite length_app; simpl; lia). rewrite drop_replicate.
    replace (length tmpl + 2 - _)%nat with 1%nat by lia. by rewrite <- app_assoc.
  - unfold letters. rewrite <- list_fmap_compose. apply (adds_letters_loop 27 65 0); [lia|vm_compute; lia].
Qed.
End letters.
End adds.

Section event.
Context (alloc : nat -> bool) (alloc_ok : forall n, alloc n = true).

Ltac known_name := first [ exact I | vm_compute; intros; first [ done | lia ] ].

Lemma adds_one name default_type flags :
  known (chars_of name) ->
  adds (dx_add_subscription_param_to_list alloc (chars_of name) (dx_infer_subscription_type flags default_type))
    (record_named flags name default_type).
Proof using alloc_ok. by apply adds_param. Qed.

Lemma adds_sources sources flags rest :
  length rest = DXF_RECORD_SUFFIX_SIZE -> Forall (fun source => (length (c_string source) <= 4)%nat) sources ->
  adds (sources_loop alloc sources (g_order_tmpl ++ rest) flags)
    ((fun source => (g_order_tmpl ++ source, dx_infer_subscription_type flags dx_st_history)) <$> (c_string <$> sources)).
Proof using alloc_ok.
  intros Hr Hs. revert rest Hr. induction Hs as [|source sources Hl Hs IH]; intros rest Hr; [apply adds_nil|].
  destruct (order_name_spec rest source Hr Hl) as (rest' & E & Hr'). cbn [sources_loop fmap list_fmap].
  apply (adds_some _ _ _ _ E). cbn [fst snd]. apply (adds_seq _ _ [_]); [|by apply IH].
  by apply adds_param, known_source.
Qed.

Lemma order_buffer : order_name_buf = Some (g_order_tmpl ++ replicate DXF_RECORD_SUFFIX_SIZE 0).
Proof using Type. by vm_compute. Qed.

(** The events whose records are found without a failure. *)
Definition one_order (sources : list (list Z)) (event_id : dx_event_id_t) (flags : Z) : bool :=
  negb (bool_decide (event_id = dx_eid_order) && IS_FLAG_SET flags dx_esf_single_record &&
        negb (IS_FLAG_SET flags dx_esf_sr_market_maker_order) && (2 <=? length sources)%nat).

Lemma adds_order sources flags :
  one_order sources dx_eid_order flags = true ->
  Forall (fun source => (length (c_string source) <= 4)%nat) sources ->
  adds (dx_get_order_subscription_params alloc sources flags)
    (event_records (c_string <$> sources) dx_eid_order flags).
Proof using alloc_ok.
  unfold one_order, dx_get_order_subscription_params, dx_get_single_order_subscription_params, event_records.
  rewrite order_buffer. destruct (IS_FLAG_SET flags dx_esf_single_record); cbn [negb andb].
  - destruct (IS_FLAG_SET flags dx_esf_sr_market_maker_order); [intros _ _; by apply adds_one|].
    destruct sources as [|source [|]]; intros Ho Hs; [by apply adds_one| |done].
    inversion_clear Hs as [|? ? Hl _]. apply (adds_some _ _ _ _ eq_refl).
    destruct (order_name_spec (replicate DXF_RECORD_SUFFIX_SIZE 0) source) as (rest & E & _); [done..|].
    apply (adds_some _ _ _ _ E). by apply adds_param, known_source.
  - intros _ Hs. repeat (apply adds_seq; [apply adds_one; known_name|]).
    apply (adds_some _ _ _ _ eq_refl). apply adds_seq; [by apply adds_sources|].
    apply adds_letters; [done|by_compute|]. intros. exact I.
Qed.

Lemma event_params_adds sources event_id flags :
  one_order sources event_id flags = true ->
  Forall (fun source => (length (c_string source) <= 4)%nat) sources ->
  adds (event_params alloc sources event_id flags) (event_records (c_string <$> sources) event_id flags).
Proof using alloc_ok.
  intros Ho Hs. destruct event_id; cbn [event_params event_records].
  5: by apply adds_order.
  all: try (apply adds_one; known_name).
  all: try (apply adds_seq; [apply adds_one; known_name|apply adds_letters; [done|by_compute|intros; exact I]]).
  - apply adds_seq; [apply adds_letters; [done|by_compute|intros; exact I]|].
    destruct (IS_FLAG_SET flags dx_esf_quotes_regional); cbn [negb]; [apply adds_nil|by apply adds_one].
  - apply adds_seq; apply adds_one; known_name.
Qed.
End event.

Lemma event_subscription_spec (alloc : nat -> bool) (s : dscc) (sources : list (list Z))
  (event_id : dx_event_id_t) (flags : Z) :
  (forall n, alloc n = true) -> registry_ok s ->
  Forall (fun source => (length (c_string source) <= 4)%nat) sources ->
  exists list s', dx_get_event_subscription_params alloc sources event_id flags s = Ok list s' /\
    registry_ok s' /\ keeps_names s s' /\ array_wf list /\
    Forall2 (subscribes s') (contents list) (event_records (c_string <$> sources) event_id flags) /\
    (registered s (event_records (c_string <$> sources) event_id flags) -> s' = s) /\
    (arr_size (records_list s') <= arr_size (records_list s) +
       length (event_records (c_string <$> sources) event_id flags))%nat.
Proof.
  intros Halloc Hok Hs. unfold dx_get_event_subscription_params.
  assert (list_of (s, DX_EMPTY_ARRAY) []) as H0 by (split; [done|apply array_wf_empty|constructor]).
  destruct (one_order sources event_id flags) eqn:Ho.
  - destruct (event_params_adds alloc Halloc sources event_id flags Ho Hs _ [] H0)
      as ([s' list] & -> & [L1 L2 L3] & K & S & N).
    exists list, s'. by split_and!.
  - unfold one_order in Ho. destruct event_id; try done. exists DX_EMPTY_ARRAY, s.
    cbn [event_params event_records]. unfold dx_get_order_subscription_params, dx_get_single_order_subscription_params.
    destruct (IS_FLAG_SET flags dx_esf_single_record); [|done].
    destruct (IS_FLAG_SET flags dx_esf_sr_market_maker_order); [done|].
    destruct sources as [|? [|]]; [done..|]. split_and!; [done|done|reflexivity|apply array_wf_empty|constructor|done|lia].
Qed.

(** C27: subscribing to an event: while memory can be allocated and the sources of
    orders have four characters at most, the list that comes back names, in
    order, exactly the records of the event under its flags (the composite one,
    the 26 regional ones, one for each source of orders) with the types of their
    subscriptions; the records that were missing are registered, the others keep
    their identifiers; and more than one source for a single order record gives
    an empty list. *)
Theorem subscription_params_correct (alloc : nat -> bool) (s : dscc) (sources : list (list Z))
  (event_id : dx_event_id_t) (flags : Z) :
  (forall n, alloc n = true) -> registry_ok s ->
  Forall (fun source => (length (c_string source) <= 4)%nat) sources ->
  exists list s', dx_get_event_subscription_params alloc sources event_id flags s = Ok list s' /\
    registry_ok s' /\ keeps_names s s' /\ array_wf list /\
    Forall2 (fun p '(name, type) => record_name s' (param_record_id p) = Some name /\ param_subscription_type p = type)
      (contents list) (event_records (c_string <$> sources) event_id flags).
Proof.
  intros Halloc Hok Hs.
  destruct (event_subscription_spec alloc s sources event_id flags Halloc Hok Hs) as (list & s' & H1 & H2 & H3 & H4 & H5 & _).
  exists list, s'. split_and!; [done..|]. eapply Forall2_impl; [done|]. by intros p [name type] H.
Qed.

(** The records of the orders of one source, and the regional quotes. *)
Lemma subscription_params_correct_witness :
  exists list s', dx_get_event_subscription_params (fun _ => true) [[78; 84; 86; 0; 0]] dx_eid_order 0 new_dscc = Ok list s' /\
    exists p, contents list !! 3%nat = Some p /\ param_subscription_type p = dx_st_history /\
      record_name s' (param_record_id p) = Some (chars_of "Order#NTV").
Proof.
  destruct (subscription_params_correct (fun _ => true) new_dscc [[78; 84; 86; 0; 0]] dx_eid_order 0)
    as (list & s' & H1 & _ & _ & _ & H2); [done|apply new_dscc_ok|repeat constructor|].
  exists list, s'. split; [done|]. destruct (Forall2_lookup_r _ _ _ 3%nat (chars_of "Order#NTV", dx_st_history) H2)
    as (p & Hp & Hn & Ht); [reflexivity|]. exists p.
  split; [exact Hp|split; [exact Ht|exact Hn]].
Defined.
