(* ===== verification/ConfigurationDeserializer.v ===== *)
(** * ConfigurationDeserializer: [src/ConfigurationDeserializer.c]

    The object of a configuration record is a Java serialization stream, of
    which only strings are understood.  The conversion of multibyte strings,
    which depends on the locale, is a parameter ([None] is an invalid sequence).
    The theorems: short strings are read back; long strings are lost, since
    their length is read from two bytes of the eight; the length is not
    compared with the object. *)

From S2P Require Import Prelude Arrays EventData.
Local Open Scope Z_scope.
Local Open Scope c_scope.

(** [dxf_byte_array_t]: the elements are signed bytes. *)
Record dxf_byte_array_t : Type := ByteArray {
  ba_elements : list Z;
  ba_size : Z;
}.

Definition STREAM_MAGIC : Z := i16 0xACED.
Definition STREAM_VERSION : Z := 5.
Definition TC_NULL : Z := 0x70.
Definition TC_STRING : Z := 0x74.
Definition TC_LONGSTRING : Z := 0x7C.
Definition SIZE_MAX : Z := 18446744073709551615.

Section deserializer.
(** Whether [dx_calloc] of so many bytes succeeds, and [mbsrtowcs]. *)
Context (alloc : Z -> bool) (mbsrtowcs : list Z -> option (list Z)).

(** The result of the readers: [None] is the return value [false], and the
    state is [*pos]. *)
Definition element (object : dxf_byte_array_t) : M Z Z :=
  pos <-- get;; of_option (if pos <? 0 then None else ba_elements object !! Z.to_nat pos).

(** The loop of [READ_MULTIMBYTE_VALUE_BODY], [n] bytes. *)
Fixpoint multibyte_loop (n : nat) (conv : Z -> Z) (object : dxf_byte_array_t) (value : Z) : M Z Z :=
  match n with
  | O => ret value
  | S n' =>
      b <-- element object;;
      pos <-- get;;
      put (pos + 1);;;
      multibyte_loop n' conv object (conv (Z.lor (Z.shiftl value 8) (u8 b)))
  end.

(** [conv] is the conversion to the type that is read; the size is that of a
    short for every type. *)
Definition read_multibyte (conv : Z -> Z) (object : dxf_byte_array_t) : M Z (option Z) :=
  pos <-- get;;
  let last := pos + 2 in
  if ba_size object <=? last then ret None
  else value <-- multibyte_loop 2 conv object 0;; ret (Some value).
Definition read_short : dxf_byte_array_t -> M Z (option Z) := read_multibyte i16.
Definition read_long : dxf_byte_array_t -> M Z (option Z) := read_multibyte i64.

Definition read_byte (object : dxf_byte_array_t) : M Z (option Z) :=
  pos <-- get;;
  let last := pos + 1 in
  if ba_size object <=? last then ret None
  else b <-- element object;; put (pos + 1);;; ret (Some b).

(** [strncpy] to a zeroed buffer of [n + 1] bytes: the bytes up to a zero, at
    most [n]; [None] is a read past the source. *)
Fixpoint strncpy (src : list Z) (n : Z) : option (list Z) :=
  if n <=? 0 then Some []
  else
    match src with
    | [] => None
    | b :: src' => if b =? 0 then Some [] else rest ← strncpy src' (n - 1); Some (b :: rest)
    end.

(** The inner [None] is a null pointer. *)
Definition dx_ansi_to_unicode (ansi_str : list Z) : option (option (list Z)) :=
  wide ← mbsrtowcs ansi_str;
  Some (if (0 <? length wide)%nat && alloc (4 * (Z.of_nat (length wide) + 1)) then Some wide else None).

Definition read_string (object : dxf_byte_array_t) (length : Z) : M Z (option (option (list Z))) :=
  pos <-- get;;
  if length =? SIZE_MAX then undefined
  else if negb (alloc (length + 1)) then ret None
  else
    buf <-- of_option (strncpy (drop (Z.to_nat pos) (ba_elements object)) length);;
    value <-- of_option (dx_ansi_to_unicode buf);;
    ret (Some value).

(** The result is the OUT string, a null pointer as before where none is read. *)
Definition dx_configuration_deserialize_string (object : dxf_byte_array_t) : M Z (option (list Z)) :=
  put 0;;;
  short_value <-- read_short object;;
  if negb (bool_decide (short_value = Some STREAM_MAGIC)) then dx_set_error_code dx_csdec_protocol_error
  else
    short_value <-- read_short object;;
    if negb (bool_decide (short_value = Some STREAM_VERSION)) then dx_set_error_code dx_csdec_unsupported_version
    else
      serialize_type <-- read_byte object;;
      match serialize_type with
      | None => dx_set_error_code dx_csdec_protocol_error
      | Some serialize_type =>
          if serialize_type =? TC_STRING then
            short_value <-- read_short object;;
            match short_value with
            | None => dx_set_error_code dx_csdec_protocol_error
            | Some n =>
                s <-- read_string object (u64 n);;
                match s with None => dx_set_error_code dx_csdec_protocol_error | Some s => ret s end
            end
          else if serialize_type =? TC_LONGSTRING then
            long_value <-- read_long object;;
            match long_value with
            | None => dx_set_error_code dx_csdec_protocol_error
            | Some n =>
                if SIZE_MAX <=? u64 n then dx_set_error_code dx_ec_invalid_func_param_internal
                else
                  s <-- read_string object (u64 n);;
                  match s with None => dx_set_error_code dx_mec_insufficient_memory | Some s => ret s end
            end
          else ret None
      end.
End deserializer.

(** ** Properties *)

(** The stream of a string: the header, the tag, the length and the bytes. *)
Definition header : list Z := [i8 0xAC; i8 0xED; 0; 5].
Definition serialize (s : list Z) : dxf_byte_array_t :=
  let bytes := header ++ [TC_STRING; Z.of_nat (length s) / 256; i8 (Z.of_nat (length s) mod 256)] ++ s in
  ByteArray bytes (Z.of_nat (length bytes)).
Definition serialize_long (len : list Z) (s : list Z) : dxf_byte_array_t :=
  let bytes := header ++ [TC_LONGSTRING] ++ len ++ s in ByteArray bytes (Z.of_nat (length bytes)).

Definition is_ascii (s : list Z) : Prop := Forall (fun b => 1 <= b <= 127) s.

Lemma ansi_wide (alloc : Z -> bool) (mbsrtowcs : list Z -> option (list Z)) s :
  (forall n, alloc n = true) -> (forall s, is_ascii s -> mbsrtowcs s = Some s) -> is_ascii s -> length s <> 0%nat ->
  dx_ansi_to_unicode alloc mbsrtowcs s = Some (Some s).
Proof.
  intros Ha Hm Hs Hl. unfold dx_ansi_to_unicode. rewrite Hm by done. cbn [mbind option_bind].
  by rewrite Ha, (proj2 (Nat.ltb_lt _ _)) by lia.
Qed.

Lemma strncpy_ascii s rest : is_ascii s -> strncpy (s ++ rest) (Z.of_nat (length s)) = Some s.
Proof.
  induction 1 as [|b s Hb _ IH]; [by destruct rest|]. cbn [strncpy app length].
  rewrite (proj2 (Z.leb_gt _ 0)), (proj2 (Z.eqb_neq b 0)) by lia.
  replace (Z.of_nat (S (length s)) - 1) with (Z.of_nat (length s)) by lia. by rewrite IH.
Qed.

(** Two bytes at a position with more behind them. *)
Lemma read_multibyte_spec conv object (pos : nat) b1 b2 :
  ba_size object = Z.of_nat (length (ba_elements object)) ->
  (pos + 2 < length (ba_elements object))%nat ->
  ba_elements object !! pos = Some b1 -> ba_elements object !! S pos = Some b2 ->
  read_multibyte conv object (Z.of_nat pos) =
    Ok (Some (conv (Z.lor (Z.shiftl (conv (u8 b1)) 8) (u8 b2)))) (Z.of_nat (pos + 2)).
Proof.
  intros Hsz Hlt H1 H2. unfold read_multibyte, checked_call, get.
  rewrite (proj2 (Z.leb_gt _ _)) by lia. unfold multibyte_loop, element. unfold_m.
  rewrite (proj2 (Z.ltb_ge (Z.of_nat pos) 0)), Nat2Z.id, H1 by lia. cbn beta iota. rewrite Z.shiftl_0_l, Z.lor_0_l.
  rewrite (proj2 (Z.ltb_ge (Z.of_nat pos + 1) 0)) by lia.
  replace (Z.to_nat (Z.of_nat pos + 1)) with (S pos) by lia. rewrite H2. f_equal. lia.
Qed.

Section streams.
Context (alloc : Z -> bool) (mbsrtowcs : list Z -> option (list Z)).

(** The header and the tag of a stream that goes on. *)
Lemma deserialize_header tag b1 b2 rest :
  let bytes := header ++ [tag; b1; b2] ++ rest in
  let object := ByteArray bytes (Z.of_nat (length bytes)) in
  dx_configuration_deserialize_string alloc mbsrtowcs object 0 =
  (if tag =? TC_STRING then
     short_value <-- read_short object;;
     match short_value with
     | None => dx_set_error_code dx_csdec_protocol_error
     | Some n =>
         s <-- read_string alloc mbsrtowcs object (u64 n);;
         match s with None => dx_set_error_code dx_csdec_protocol_error | Some s => ret s end
     end
   else if tag =? TC_LONGSTRING then
     long_value <-- read_long object;;
     match long_value with
     | None => dx_set_error_code dx_csdec_protocol_error
     | Some n =>
         if SIZE_MAX <=? u64 n then dx_set_error_code dx_ec_invalid_func_param_internal
         else
           s <-- read_string alloc mbsrtowcs object (u64 n);;
           match s with None => dx_set_error_code dx_mec_insufficient_memory | Some s => ret s end
     end
   else ret None) 5.
Proof using Type.
  intros bytes object. unfold dx_configuration_deserialize_string.
  unfold checked_call at 1, put.
  pose proof (read_multibyte_spec i16 object 0 (i8 0xAC) (i8 0xED) eq_refl ltac:(simpl; lia) eq_refl eq_refl) as H1.
  pose proof (read_multibyte_spec i16 object 2 0 5 eq_refl ltac:(simpl; lia) eq_refl eq_refl) as H2.
  change (Z.of_nat 0) with 0 in H1. change (Z.of_nat (0 + 2)) with 2 in H1.
  change (Z.of_nat 2) with 2 in H2. change (Z.of_nat (2 + 2)) with 4 in H2.
  unfold checked_call at 1. unfold read_short at 1. rewrite H1. cbn beta iota.
  rewrite (bool_decide_eq_true_2 (Some _ = Some STREAM_MAGIC)) by reflexivity. cbn [negb].
  unfold checked_call at 1. unfold read_short at 1. rewrite H2. cbn beta iota.
  rewrite (bool_decide_eq_true_2 (Some _ = Some STREAM_VERSION)) by reflexivity. cbn [negb].
  unfold checked_call at 1.
  assert (read_byte object 4 = Ok (Some tag) 5) as ->; [|done].
  unfold read_byte. unfold_m. change (ba_size object) with (Z.of_nat (7 + length rest)).
  rewrite (proj2 (Z.leb_gt _ _)) by lia. done.
Qed.

Lemma read_string_ascii (bytes s rest : list Z) (pos : nat) :
  (forall n, alloc n = true) -> (forall s, is_ascii s -> mbsrtowcs s = Some s) -> is_ascii s ->
  drop pos bytes = s ++ rest -> Z.of_nat (length s) < SIZE_MAX ->
  read_string alloc mbsrtowcs (ByteArray bytes (Z.of_nat (length bytes))) (Z.of_nat (length s)) (Z.of_nat pos) =
    Ok (Some (match s with [] => None | _ => Some s end)) (Z.of_nat pos).
Proof using Type.
  intros Halloc Hmb Hs Hd Hl. unfold read_string. unfold_m.
  rewrite (proj2 (Z.eqb_neq _ _)), Halloc by lia. cbn [negb ba_elements].
  rewrite Nat2Z.id, Hd, strncpy_ascii by done. unfold dx_ansi_to_unicode. rewrite Hmb by done.
  cbn [mbind option_bind]. rewrite Halloc. by destruct s.
Qed.
End streams.

(** A string of up to 32767 characters is read back from its stream, if it
    is not empty: the empty string is refused, the stream ending where its
    length ends. *)
Theorem short_string_roundtrip (alloc : Z -> bool) (mbsrtowcs : list Z -> option (list Z)) (s : list Z) :
  (forall n, alloc n = true) -> (forall s, is_ascii s -> mbsrtowcs s = Some s) -> is_ascii s ->
  Z.of_nat (length s) <= 32767 ->
  dx_configuration_deserialize_string alloc mbsrtowcs (serialize s) 0 =
    match s with [] => Err dx_csdec_protocol_error 5 | _ => Ok (Some s) 7 end.
Proof.
  intros Halloc Hmb Hs Hl.
  pose proof (deserialize_header alloc mbsrtowcs TC_STRING (Z.of_nat (length s) / 256)
    (i8 (Z.of_nat (length s) mod 256)) s) as H. cbv zeta in H.
  unfold serialize. cbv zeta. rewrite H. clear H. change (TC_STRING =? TC_STRING) with true. cbn [negb].
  destruct s as [|b s]; [reflexivity|].
  unfold checked_call at 1, read_short. set (bytes := header ++ _). set (n := Z.of_nat (length (b :: s))) in *.
  assert (1 <= n <= 32767) as Hn by (unfold n in *; cbn [length] in *; lia).
  pose proof (read_multibyte_spec i16 (ByteArray bytes (Z.of_nat (length bytes))) 5 (n / 256) (i8 (n mod 256))
    eq_refl ltac:(simpl; lia) eq_refl eq_refl) as H.
  change (Z.of_nat 5) with 5 in H. change (Z.of_nat (5 + 2)) with 7 in H. rewrite H. cbn beta iota.
  assert (u64 (i16 (Z.lor (Z.shiftl (i16 (u8 (n / 256))) 8) (u8 (i8 (n mod 256))))) = n) as ->.
  { rewrite shl_mul by lia. assert (u8 (n / 256) = n / 256) as -> by (unfold u8; zlia).
    assert (i16 (n / 256) = n / 256) as -> by (apply i16_id; unfold is_i16; zlia).
    assert (u8 (i8 (n mod 256)) = n mod 256) as -> by (unfold u8, i8; zlia).
    rewrite lor_add by zlia. replace (n / 256 * 2 ^ 8 + n mod 256) with n by zlia.
    rewrite i16_id by (unfold is_i16; lia). apply u64_id. unfold is_u64. lia. }
  unfold checked_call. unfold n.
  pose proof (read_string_ascii alloc mbsrtowcs bytes (b :: s) [] 7 Halloc Hmb Hs) as Hr.
  change (Z.of_nat 7) with 7 in Hr. rewrite Hr; [done|by rewrite app_nil_r|unfold n, SIZE_MAX in *; lia].
Qed.

Lemma short_string_roundtrip_witness :
  dx_configuration_deserialize_string (fun _ => true) Some (serialize [72; 105]) 0 = Ok (Some [72; 105]) 7.
Proof.
  apply (short_string_roundtrip (fun _ => true) Some [72; 105]); [done|done| |by_compute].
  repeat constructor; lia.
Defined.

(** The length of a long string is read from the first two bytes of its eight
    (the size of a short is used for every type), so every long string of
    less than 2^48 characters is lost: the result is a null pointer. *)
Theorem long_string_lost (alloc : Z -> bool) (mbsrtowcs : list Z -> option (list Z)) (len s : list Z) :
  (forall n, alloc n = true) -> mbsrtowcs [] = Some [] -> length len = 8%nat -> take 2 len = [0; 0] ->
  dx_configuration_deserialize_string alloc mbsrtowcs (serialize_long len s) 0 = Ok None 7.
Proof.
  intros Halloc Hmb Hlen H0. destruct len as [|b1 [|b2 len]]; try done. simpl in H0. injection H0 as -> ->.
  pose proof (deserialize_header alloc mbsrtowcs TC_LONGSTRING 0 0 (len ++ s)) as H. cbv zeta in H.
  unfold serialize_long. cbv zeta.
  change (header ++ [TC_LONGSTRING] ++ (0 :: 0 :: len) ++ s) with (header ++ [TC_LONGSTRING; 0; 0] ++ len ++ s).
  rewrite H. clear H. set (bytes := header ++ _).
  change (TC_LONGSTRING =? TC_STRING) with false. change (TC_LONGSTRING =? TC_LONGSTRING) with true. cbn beta iota.
  unfold checked_call at 1, read_long.
  pose proof (read_multibyte_spec i64 (ByteArray bytes (Z.of_nat (length bytes))) 5 0 0 eq_refl) as H.
  change (Z.of_nat 5) with 5 in H. change (Z.of_nat (5 + 2)) with 7 in H.
  rewrite H; [|cbn; rewrite length_app; simpl in Hlen; lia|reflexivity|reflexivity].
  cbn beta iota. change (u64 _) with 0. change (SIZE_MAX <=? 0) with false. cbn beta iota.
  unfold read_string. unfold_m. change (0 =? SIZE_MAX) with false. rewrite Halloc. cbn [negb].
  cbn [ba_elements]. change (drop (Z.to_nat 7) bytes) with (len ++ s).
  destruct (len ++ s); cbn [strncpy Z.leb Z.compare]; unfold dx_ansi_to_unicode; rewrite Hmb; done.
Qed.

Lemma long_string_lost_witness :
  dx_configuration_deserialize_string (fun _ => true) Some (serialize_long [0; 0; 0; 0; 0; 0; 0; 2] [72; 105]) 0 =
    Ok None 7.
Proof. by apply (long_string_lost (fun _ => true) Some). Defined.

(** The length of a string is not compared with the object: reading one that
    has a longer length than bytes leaves it. *)
Lemma length_unchecked alloc mbsrtowcs :
  (forall n, alloc n = true) ->
  let bytes := header ++ [TC_STRING; 0; 9] ++ [72; 105] in
  dx_configuration_deserialize_string alloc mbsrtowcs (ByteArray bytes (Z.of_nat (length bytes))) 0 = UB.
Proof.
  intros Halloc bytes. unfold bytes. rewrite deserialize_header. fold bytes.
  change (TC_STRING =? TC_STRING) with true. cbn beta iota. unfold checked_call at 1, read_short.
  pose proof (read_multibyte_spec i16 (ByteArray bytes (Z.of_nat (length bytes))) 5 0 9 eq_refl
    ltac:(simpl; lia) eq_refl eq_refl) as H.
  change (Z.of_nat 5) with 5 in H. change (Z.of_nat (5 + 2)) with 7 in H. rewrite H. cbn beta iota.
  unfold read_string. unfold_m. change (u64 _ =? SIZE_MAX) with false. by rewrite Halloc.
Qed.
