(* ===== verification/RecordData.v ===== *)
(** * RecordData: the records of [include/RecordData.h]

    The records that the server sends, field by field, and the parameters that
    come with them ([dx_record_params_t] of [src/RecordTranscoder.h]).  The
    fields of a structure carry its name behind [r_].  A theoretical price is
    the structure of its event. *)

From S2P Require Import Prelude EventData ConfigurationDeserializer.
Local Open Scope Z_scope.

(** Trade *)
Record dx_trade_t : Type := {
  r_trade_time : Z;
  r_trade_sequence : Z;
  r_trade_time_nanos : Z;
  r_trade_exchange_code : Z;
  r_trade_price : dxf_double_t;
  r_trade_size : dxf_double_t;
  r_trade_tick : Z;
  r_trade_change : dxf_double_t;
  r_trade_day_id : Z;
  r_trade_day_volume : dxf_double_t;
  r_trade_day_turnover : dxf_double_t;
  r_trade_flags : Z;
}.

(** Quote *)
Record dx_quote_t : Type := {
  r_quote_sequence : Z;
  r_quote_time_nanos : Z;
  r_quote_bid_time : Z;
  r_quote_bid_exchange_code : Z;
  r_quote_bid_price : dxf_double_t;
  r_quote_bid_size : dxf_double_t;
  r_quote_ask_time : Z;
  r_quote_ask_exchange_code : Z;
  r_quote_ask_price : dxf_double_t;
  r_quote_ask_size : dxf_double_t;
}.

(** Summary *)
Record dx_summary_t : Type := {
  r_summary_day_id : Z;
  r_summary_day_open_price : dxf_double_t;
  r_summary_day_high_price : dxf_double_t;
  r_summary_day_low_price : dxf_double_t;
  r_summary_day_close_price : dxf_double_t;
  r_summary_prev_day_id : Z;
  r_summary_prev_day_close_price : dxf_double_t;
  r_summary_prev_day_volume : dxf_double_t;
  r_summary_open_interest : dxf_double_t;
  r_summary_flags : Z;
}.

(** Profile *)
Record dx_profile_t : Type := {
  r_profile_beta : dxf_double_t;
  r_profile_eps : dxf_double_t;
  r_profile_div_freq : dxf_double_t;
  r_profile_exd_div_amount : dxf_double_t;
  r_profile_exd_div_date : Z;
  r_profile_high_price_52 : dxf_double_t;
  r_profile_low_price_52 : dxf_double_t;
  r_profile_shares : dxf_double_t;
  r_profile_free_float : dxf_double_t;
  r_profile_high_limit_price : dxf_double_t;
  r_profile_low_limit_price : dxf_double_t;
  r_profile_halt_start_time : Z;
  r_profile_halt_end_time : Z;
  r_profile_flags : Z;
  r_profile_description : option (list Z);
  r_profile_status_reason : option (list Z);
}.

(** Market maker *)
Record dx_market_maker_t : Type := {
  r_mm_mm_exchange : Z;
  r_mm_mm_id : Z;
  r_mm_mmbid_time : Z;
  r_mm_mmbid_price : dxf_double_t;
  r_mm_mmbid_size : dxf_double_t;
  r_mm_mmbid_count : dxf_double_t;
  r_mm_mmask_time : Z;
  r_mm_mmask_price : dxf_double_t;
  r_mm_mmask_size : dxf_double_t;
  r_mm_mmask_count : dxf_double_t;
}.

(** Order *)
Record dx_order_t : Type := {
  r_order_index : Z;
  r_order_time : Z;
  r_order_time_nanos : Z;
  r_order_sequence : Z;
  r_order_action_time : Z;
  r_order_order_id : Z;
  r_order_aux_order_id : Z;
  r_order_price : dxf_double_t;
  r_order_size : dxf_double_t;
  r_order_executed_size : dxf_double_t;
  r_order_count : dxf_double_t;
  r_order_flags : Z;
  r_order_trade_id : Z;
  r_order_trade_price : dxf_double_t;
  r_order_trade_size : dxf_double_t;
  r_order_mmid : Z;
}.

(** Spread order *)
Record dx_spread_order_t : Type := {
  r_spread_index : Z;
  r_spread_time : Z;
  r_spread_time_nanos : Z;
  r_spread_sequence : Z;
  r_spread_action_time : Z;
  r_spread_order_id : Z;
  r_spread_aux_order_id : Z;
  r_spread_price : dxf_double_t;
  r_spread_size : dxf_double_t;
  r_spread_executed_size : dxf_double_t;
  r_spread_count : dxf_double_t;
  r_spread_flags : Z;
  r_spread_trade_id : Z;
  r_spread_trade_price : dxf_double_t;
  r_spread_trade_size : dxf_double_t;
  r_spread_spread_symbol : option (list Z);
}.

(** Time & sale *)
Record dx_time_and_sale_t : Type := {
  r_tns_time : Z;
  r_tns_sequence : Z;
  r_tns_exchange_code : Z;
  r_tns_price : dxf_double_t;
  r_tns_size : dxf_double_t;
  r_tns_bid_price : dxf_double_t;
  r_tns_ask_price : dxf_double_t;
  r_tns_exchange_sale_conditions : Z;
  r_tns_flags : Z;
  r_tns_buyer : option (list Z);
  r_tns_seller : option (list Z);
}.

(** Candle *)
Record dx_candle_t : Type := {
  r_candle_time : Z;
  r_candle_sequence : Z;
  r_candle_count : dxf_double_t;
  r_candle_open : dxf_double_t;
  r_candle_high : dxf_double_t;
  r_candle_low : dxf_double_t;
  r_candle_close : dxf_double_t;
  r_candle_volume : dxf_double_t;
  r_candle_vwap : dxf_double_t;
  r_candle_bid_volume : dxf_double_t;
  r_candle_ask_volume : dxf_double_t;
  r_candle_open_interest : dxf_double_t;
  r_candle_imp_volatility : dxf_double_t;
}.

(** Greeks *)
Record dx_greeks_t : Type := {
  r_greeks_time : Z;
  r_greeks_sequence : Z;
  r_greeks_price : dxf_double_t;
  r_greeks_volatility : dxf_double_t;
  r_greeks_delta : dxf_double_t;
  r_greeks_gamma : dxf_double_t;
  r_greeks_theta : dxf_double_t;
  r_greeks_rho : dxf_double_t;
  r_greeks_vega : dxf_double_t;
}.

(** Underlying *)
Record dx_underlying_t : Type := {
  r_underlying_volatility : dxf_double_t;
  r_underlying_front_volatility : dxf_double_t;
  r_underlying_back_volatility : dxf_double_t;
  r_underlying_call_volume : dxf_double_t;
  r_underlying_put_volume : dxf_double_t;
  r_underlying_put_call_ratio : dxf_double_t;
}.

(** Series *)
Record dx_series_t : Type := {
  r_series_index : Z;
  r_series_time : Z;
  r_series_sequence : Z;
  r_series_expiration : Z;
  r_series_volatility : dxf_double_t;
  r_series_call_volume : dxf_double_t;
  r_series_put_volume : dxf_double_t;
  r_series_put_call_ratio : dxf_double_t;
  r_series_forward_price : dxf_double_t;
  r_series_dividend : dxf_double_t;
  r_series_interest : dxf_double_t;
}.

(** Configuration *)
Record dx_configuration_t : Type := {
  r_configuration_version : Z;
  r_configuration_object : dxf_byte_array_t;
}.

(** A record of any kind; a trade of the extended hours is a trade. *)
Inductive dx_record_t : Type :=
  | rec_trade (r : dx_trade_t) | rec_quote (r : dx_quote_t) | rec_summary (r : dx_summary_t)
  | rec_profile (r : dx_profile_t) | rec_market_maker (r : dx_market_maker_t)
  | rec_order (r : dx_order_t) | rec_time_and_sale (r : dx_time_and_sale_t)
  | rec_candle (r : dx_candle_t) | rec_spread_order (r : dx_spread_order_t)
  | rec_greeks (r : dx_greeks_t) | rec_theo_price (r : dxf_theo_price_t)
  | rec_underlying (r : dx_underlying_t) | rec_series (r : dx_series_t)
  | rec_configuration (r : dx_configuration_t).

(** The kind of record that is read for an identifier. *)
Definition record_of (id : dx_record_info_id_t) (record : dx_record_t) : bool :=
  match id, record with
  | dx_rid_trade, rec_trade _ | dx_rid_trade_eth, rec_trade _ | dx_rid_quote, rec_quote _
  | dx_rid_summary, rec_summary _ | dx_rid_profile, rec_profile _ | dx_rid_market_maker, rec_market_maker _
  | dx_rid_order, rec_order _ | dx_rid_time_and_sale, rec_time_and_sale _ | dx_rid_candle, rec_candle _
  | dx_rid_spread_order, rec_spread_order _ | dx_rid_greeks, rec_greeks _
  | dx_rid_theo_price, rec_theo_price _ | dx_rid_underlying, rec_underlying _
  | dx_rid_series, rec_series _ | dx_rid_configuration, rec_configuration _ => true
  | _, _ => false
  end.

Record dx_record_params_t : Type := RecordParams {
  rp_record_id : Z;
  rp_record_info_id : dx_record_info_id_t;
  rp_suffix : option (list Z);
  rp_symbol_name : list Z;
  rp_symbol_cipher : Z;
  rp_flags : Z;
  rp_time_int_field : Z;
}.
