(* ===== verification/RecordTranscoder.v ===== *)
(** * RecordTranscoder: [src/RecordTranscoder.c] and [src/RecordBuffers.c]

    The records of the server become events: times and sequences are unpacked,
    the bits of the flags become enumerations, the indices of orders are made
    of their source, a quote or a market maker record becomes orders as well.
    Delivering an event ([dx_process_event_data] of [EventSubscription.cpp]) is a
    parameter: it may fail with an error.  The strings of the events are owned
    by the string buffers of the connection.  A transcoder has the record in its buffer,
    where the time of a theoretical price is changed in place. *)

From Stdlib Require Import SpecFloat.
From S2P Require Import Prelude Arrays Algorithms EventData Doubles DataStructures.
From S2P Require Import ConfigurationDeserializer RecordData.
Local Open Scope Z_scope.
Local Open Scope c_scope.

(** ** Bits *)

Definition DX_SEQUENCE_MASK : Z := 0x3FFFFF.
Definition DX_SEQUENCE_MS_SHIFT : Z := 22.
Definition DX_SEQUENCE_MS_MASK : Z := 0x3FF.
Definition DX_TIME_TO_MS : Z := 1000.

Definition DX_TIME_FIELD_TO_MS (field : Z) : Z := i64 (field * DX_TIME_TO_MS).
Definition DX_SEQUENCE_TO_MS (sequence : Z) : Z :=
  Z.land (Z.shiftr sequence DX_SEQUENCE_MS_SHIFT) DX_SEQUENCE_MS_MASK.
Definition DX_TIME_SEQ_TO_MS (time sequence : Z) : Z :=
  i64 (DX_TIME_FIELD_TO_MS time + DX_SEQUENCE_TO_MS sequence).
Definition DX_SEQUENCE (sequence : Z) : Z := Z.land sequence DX_SEQUENCE_MASK.

Definition int_to_bits (value : Z) : Z := u64 (u32 value).
Definition char_to_bits (value : Z) : Z :=
  let leading_zero_bits := 8 * (8 - 4) in
  Z.shiftr (u64 (Z.shiftl (u64 value) leading_zero_bits)) leading_zero_bits.

(** The bits of flags at a shift. *)
Definition bits (flags shift mask : Z) : Z := Z.land (Z.shiftr flags shift) mask.
Definition bool_int (b : bool) : Z := if b then 1 else 0.

Definition direction_of (n : Z) : dxf_direction_t :=
  match n with
  | 0 => dxf_dir_undefined | 1 => dxf_dir_down | 2 => dxf_dir_zero_down | 3 => dxf_dir_zero
  | 4 => dxf_dir_zero_up | 5 => dxf_dir_up | _ => dxf_dir_other n
  end.
Definition price_type_of (n : Z) : dxf_price_type_t :=
  match n with
  | 0 => dxf_pt_regular | 1 => dxf_pt_indicative | 2 => dxf_pt_preliminary | _ => dxf_pt_final
  end.
Definition trading_status_of (n : Z) : dxf_trading_status_t :=
  match n with 0 => dxf_ts_undefined | 1 => dxf_ts_halted | 2 => dxf_ts_active | _ => dxf_ts_other n end.
Definition ssr_of (n : Z) : dxf_short_sale_restriction_t :=
  match n with 0 => dxf_ssr_undefined | 1 => dxf_ssr_active | 2 => dxf_ssr_inactive | _ => dxf_ssr_other n end.
Definition scope_of (n : Z) : dxf_order_scope_t :=
  match n with
  | 0 => dxf_osc_composite | 1 => dxf_osc_regional | 2 => dxf_osc_aggregate | _ => dxf_osc_order
  end.
Definition side_of (n : Z) : dxf_order_side_t :=
  match n with 0 => dxf_osd_undefined | 1 => dxf_osd_buy | 2 => dxf_osd_sell | _ => dxf_osd_other n end.
Definition action_of (n : Z) : dxf_order_action_t :=
  match n with
  | 0 => dxf_oa_undefined | 1 => dxf_oa_new | 2 => dxf_oa_replace | 3 => dxf_oa_modify
  | 4 => dxf_oa_delete | 5 => dxf_oa_partial | 6 => dxf_oa_execute | 7 => dxf_oa_trade
  | 8 => dxf_oa_bust | _ => dxf_oa_other n
  end.
Definition tns_type_of (n : Z) : dxf_tns_type_t :=
  match n with 0 => dxf_tnst_new | 1 => dxf_tnst_correction | 2 => dxf_tnst_cancel | _ => dxf_tnst_other n end.

Definition DX_TRADE_GET_DIR (flags : Z) := direction_of (bits flags 1 0x7).
Definition DX_TRADE_GET_ETH (flags : Z) : bool := Z.land flags 1 =? 1.
Definition DX_SUMMARY_GET_DCPT (flags : Z) := price_type_of (bits flags 2 0x3).
Definition DX_SUMMARY_GET_PDCPT (flags : Z) := price_type_of (bits flags 0 0x3).
Definition DX_PROFILE_GET_TS (flags : Z) := trading_status_of (bits flags 0 0x3).
Definition DX_PROFILE_GET_SSR (flags : Z) := ssr_of (bits flags 2 0x3).
Definition DX_ORDER_GET_SCOPE (flags : Z) := scope_of (bits flags 0 0x03).
Definition DX_ORDER_GET_SIDE (flags : Z) := side_of (bits flags 2 0x03).
Definition DX_ORDER_GET_EXCHANGE (flags : Z) : Z := bits flags 4 0x7f.
Definition DX_ORDER_GET_ACTION (flags : Z) := action_of (bits flags 11 0x0f).
Definition DX_TNS_GET_TYPE (flags : Z) := tns_type_of (bits flags 0 0x3).
Definition DX_TNS_GET_VALID_TICK (flags : Z) : bool := Z.land flags 0x4 =? 0x4.
Definition DX_TNS_GET_ETH (flags : Z) : bool := Z.land flags 0x08 =? 0x08.
Definition DX_TNS_GET_SPREAD_LEG (flags : Z) : bool := Z.land flags 0x10 =? 0x10.
Definition DX_TNS_GET_SIDE (flags : Z) := side_of (bits flags 5 0x3).
Definition DX_TNS_GET_TTE (flags : Z) : Z := bits flags 8 0xff.

(** ** Indices of orders *)

Definition DX_ORDER_SOURCE_COMPOSITE_BID : Z := 1.
Definition DX_ORDER_SOURCE_COMPOSITE_ASK : Z := 2.
Definition DX_ORDER_SOURCE_REGIONAL_BID : Z := 3.
Definition DX_ORDER_SOURCE_REGIONAL_ASK : Z := 4.
Definition DX_ORDER_SOURCE_AGGREGATE_BID : Z := 5.
Definition DX_ORDER_SOURCE_AGGREGATE_ASK : Z := 6.
Definition DX_ORDER_INDEX_SSRC_SHIFT : Z := 48.
Definition DX_ORDER_INDEX_EXC_SHIFT : Z := 32.
Definition DX_ORDER_INDEX_TSRC_SHIFT : Z := 32.

Definition DX_ORDER_FROM_QUOTE_BID_INDEX (e : Z) : Z :=
  i64 (Z.lor (Z.shiftl (if e =? 0 then DX_ORDER_SOURCE_COMPOSITE_BID else DX_ORDER_SOURCE_REGIONAL_BID)
                DX_ORDER_INDEX_SSRC_SHIFT)
         (u64 (Z.shiftl (char_to_bits e) DX_ORDER_INDEX_EXC_SHIFT))).
Definition DX_ORDER_FROM_QUOTE_ASK_INDEX (e : Z) : Z :=
  i64 (Z.lor (Z.shiftl (if e =? 0 then DX_ORDER_SOURCE_COMPOSITE_ASK else DX_ORDER_SOURCE_REGIONAL_ASK)
                DX_ORDER_INDEX_SSRC_SHIFT)
         (u64 (Z.shiftl (char_to_bits e) DX_ORDER_INDEX_EXC_SHIFT))).
Definition mm_index (source mm_exchange mm_id : Z) : Z :=
  i64 (Z.lor (Z.lor (Z.shiftl source DX_ORDER_INDEX_SSRC_SHIFT)
                (u64 (Z.shiftl (char_to_bits mm_exchange) DX_ORDER_INDEX_EXC_SHIFT)))
         (int_to_bits mm_id)).
Definition DX_ORDER_FORM_MM_BID_INDEX (mm_exchange mm_id : Z) : Z :=
  mm_index DX_ORDER_SOURCE_AGGREGATE_BID mm_exchange mm_id.
Definition DX_ORDER_FORM_MM_ASK_INDEX (mm_exchange mm_id : Z) : Z :=
  mm_index DX_ORDER_SOURCE_AGGREGATE_ASK mm_exchange mm_id.
Definition DX_ORDER_INDEX (index suffix : Z) : Z :=
  i64 (Z.lor (i64 (Z.shiftl suffix DX_ORDER_INDEX_TSRC_SHIFT)) (int_to_bits index)).

Definition MAX_SUFFIX_LEN_FOR_INDEX : nat := 4.

(** The loop of [suffix_to_long], over the characters from [i] on. *)
Fixpoint suffix_loop (suffix : list Z) (ret : Z) : Z :=
  match suffix with
  | [] => ret
  | c :: suffix' => suffix_loop suffix' (Z.lor (i64 (Z.shiftl ret 8)) (Z.land c 0xFF))
  end.
Definition suffix_to_long (suffix : option (list Z)) : Z :=
  match suffix with
  | None => 0
  | Some s => suffix_loop (drop (length s - MAX_SUFFIX_LEN_FOR_INDEX) s) 0
  end.
Definition DX_EXCHANGE_FROM_RECORD (suffix : option (list Z)) : Z :=
  match suffix with None => 0 | Some s => default 0 (head s) end.

(** ** The state *)

(** An event as it is delivered. *)
Record tc_event : Type := TcEvent {
  te_id : dx_event_id_t;
  te_symbol : list Z;
  te_data : dxf_event_data_t;
  te_params : dxf_event_params_t;
}.

Record tc_state : Type := TcState {
  tc_buffers : list dx_event_id_t;   (** the events whose buffer is allocated *)
  tc_strings : dx_string_array;      (** [string_buffers] of [RecordBuffers.c] *)
  tc_dscc : dscc;
  tc_events : list tc_event;         (** what was delivered *)
}.

Definition set_tc_buffers (x : list dx_event_id_t) (s : tc_state) : tc_state :=
  TcState x (tc_strings s) (tc_dscc s) (tc_events s).
Definition set_tc_strings (x : dx_string_array) (s : tc_state) : tc_state :=
  TcState (tc_buffers s) x (tc_dscc s) (tc_events s).
Definition set_tc_dscc (x : dscc) (s : tc_state) : tc_state :=
  TcState (tc_buffers s) (tc_strings s) x (tc_events s).
Definition add_tc_event (x : tc_event) (s : tc_state) : tc_state :=
  TcState (tc_buffers s) (tc_strings s) (tc_dscc s) (tc_events s ++ [x]).

Section transcoder.
(** Whether [dx_calloc] of so many elements succeeds, its like for the bytes of
    a configuration, [mbsrtowcs], and the error of delivering an event. *)
Context (alloc : nat -> bool) (alloc_bytes : Z -> bool) (mbsrtowcs : list Z -> option (list Z)).
Context (process : tc_event -> option dx_error_code).

Definition dx_process_event_data (rp : dx_record_params_t) (id : dx_event_id_t) (data : dxf_event_data_t)
  (ep : dxf_event_params_t) : M tc_state unit := fun s =>
  let e := TcEvent id (rp_symbol_name rp) data ep in
  let s := add_tc_event e s in
  match process e with None => Ok tt s | Some err => Err err s end.

(** The buffer of one event is allocated when it is first used and zeroed
    afterwards: either way the event starts with zeros. *)
Definition dx_get_event_data_buffer (id : dx_event_id_t) : M tc_state unit :=
  s <-- get;;
  if bool_decide (id ∈ tc_buffers s) then ret tt
  else if alloc 1 then put (set_tc_buffers (id :: tc_buffers s) s)
  else dx_set_error_code dx_mec_insufficient_memory.

Definition dx_store_string_buffer (buf : option (list Z)) : M tc_state unit :=
  s <-- get;;
  r <-- of_option (dx_string_array_add alloc (tc_strings s) buf);;
  put (set_tc_strings r.1 s);;;
  if (r.2 : bool) then dx_set_error_code dx_mec_insufficient_memory else ret tt.

(** A string that is created and stored, if it could be created. *)
Definition store_created (s : list Z) : M tc_state (option (list Z)) :=
  if alloc (length s + 1)%nat then dx_store_string_buffer (Some s);;; ret (Some s) else ret None.
Definition store_copy (src : option (list Z)) : M tc_state (option (list Z)) :=
  match src with None => ret None | Some s => store_created s end.

(** The result of the call is ignored. *)
Definition set_exchange_code (rp : dx_record_params_t) (exchange_code : Z) : M tc_state unit := fun s =>
  match dx_set_record_exchange_code (rp_record_id rp) exchange_code (tc_dscc s) with
  | Ok _ d | Err _ d => Ok tt (set_tc_dscc d s)
  | UB => UB
  end.

Definition scope_of_exchange (exchange_code : Z) : dxf_order_scope_t :=
  if exchange_code =? 0 then dxf_osc_composite else dxf_osc_regional.

(** ** Transcoders *)

Definition dx_trade_t_transcoder_impl (rp : dx_record_params_t) (ep : dxf_event_params_t)
  (r : dx_trade_t) (id : dx_event_id_t) : M tc_state unit :=
  if negb (bool_decide (id = dx_eid_trade)) && negb (bool_decide (id = dx_eid_trade_eth))
  then dx_set_error_code dx_ec_internal_assert_violation
  else
    dx_get_event_data_buffer id;;;
    let exchange_code := DX_EXCHANGE_FROM_RECORD (rp_suffix rp) in
    (if exchange_code =? 0 then set_exchange_code rp exchange_code else ret tt);;;
    dx_process_event_data rp id (ev_trade (Build_dxf_trade_t
      (DX_TIME_SEQ_TO_MS (r_trade_time r) (r_trade_sequence r)) (DX_SEQUENCE (r_trade_sequence r))
      (r_trade_time_nanos r)
      (if r_trade_exchange_code r =? 0 then exchange_code else r_trade_exchange_code r)
      (r_trade_price r) (r_trade_size r)
      (if bool_decide (id = dx_eid_trade) then r_trade_tick r else 0)
      (r_trade_change r) (r_trade_day_id r) (r_trade_day_volume r) (r_trade_day_turnover r)
      (r_trade_flags r) (DX_TRADE_GET_DIR (r_trade_flags r)) (bool_int (DX_TRADE_GET_ETH (r_trade_flags r)))
      (scope_of_exchange exchange_code))) ep.

(** An order with zeros but for what a quote gives. *)
Definition quote_order (index time sequence time_nanos : Z) (price size : dxf_double_t)
  (exchange_code : Z) (side : dxf_order_side_t) (scope : dxf_order_scope_t) : dxf_order_t :=
  Build_dxf_order_t [] 0 index time sequence time_nanos dxf_oa_undefined 0 0 0 price size double_zero
    double_zero 0 double_zero double_zero exchange_code side scope None.

Definition dx_transcode_quote_to_order_bid (rp : dx_record_params_t) (ep : dxf_event_params_t)
  (r : dx_quote_t) : M tc_state unit :=
  dx_get_event_data_buffer dx_eid_order;;;
  let exchange_code := DX_EXCHANGE_FROM_RECORD (rp_suffix rp) in
  let time := DX_TIME_FIELD_TO_MS (r_quote_bid_time r) in
  let later := r_quote_ask_time r <? r_quote_bid_time r in
  dx_process_event_data rp dx_eid_order (ev_order (quote_order
    (DX_ORDER_FROM_QUOTE_BID_INDEX exchange_code)
    (if later then i64 (time + DX_SEQUENCE_TO_MS (r_quote_sequence r)) else time)
    (DX_SEQUENCE (r_quote_sequence r)) (if later then r_quote_time_nanos r else 0)
    (r_quote_bid_price r) (r_quote_bid_size r)
    (if exchange_code =? 0 then r_quote_bid_exchange_code r else exchange_code)
    dxf_osd_buy (scope_of_exchange exchange_code))) ep.

Definition dx_transcode_quote_to_order_ask (rp : dx_record_params_t) (ep : dxf_event_params_t)
  (r : dx_quote_t) : M tc_state unit :=
  dx_get_event_data_buffer dx_eid_order;;;
  let exchange_code := DX_EXCHANGE_FROM_RECORD (rp_suffix rp) in
  let time := DX_TIME_FIELD_TO_MS (r_quote_ask_time r) in
  let later := r_quote_bid_time r <? r_quote_ask_time r in
  dx_process_event_data rp dx_eid_order (ev_order (quote_order
    (DX_ORDER_FROM_QUOTE_ASK_INDEX exchange_code)
    (if later then i64 (time + DX_SEQUENCE_TO_MS (r_quote_sequence r)) else time)
    (DX_SEQUENCE (r_quote_sequence r)) (if later then r_quote_time_nanos r else 0)
    (r_quote_ask_price r) (r_quote_ask_size r)
    (if exchange_code =? 0 then r_quote_ask_exchange_code r else exchange_code)
    dxf_osd_sell (scope_of_exchange exchange_code))) ep.

Definition dx_transcode_quote (rp : dx_record_params_t) (ep : dxf_event_params_t)
  (r : dx_quote_t) : M tc_state unit :=
  dx_get_event_data_buffer dx_eid_quote;;;
  let exchange_code := DX_EXCHANGE_FROM_RECORD (rp_suffix rp) in
  (if exchange_code =? 0 then ret tt else set_exchange_code rp exchange_code);;;
  dx_process_event_data rp dx_eid_quote (ev_quote (Build_dxf_quote_t
    (i64 (DX_TIME_FIELD_TO_MS (if r_quote_ask_time r <? r_quote_bid_time r then r_quote_bid_time r
                               else r_quote_ask_time r) + DX_SEQUENCE_TO_MS (r_quote_sequence r)))
    (DX_SEQUENCE (r_quote_sequence r)) (r_quote_time_nanos r)
    (DX_TIME_FIELD_TO_MS (r_quote_bid_time r))
    (if exchange_code =? 0 then r_quote_bid_exchange_code r else exchange_code)
    (r_quote_bid_price r) (r_quote_bid_size r)
    (DX_TIME_FIELD_TO_MS (r_quote_ask_time r))
    (if exchange_code =? 0 then r_quote_ask_exchange_code r else exchange_code)
    (r_quote_ask_price r) (r_quote_ask_size r) (scope_of_exchange exchange_code))) ep.

(** The parameters of the first and of the last of the events of a record: the
    snapshot ends at the last and begins at the first. *)
Definition set_flags (flags : Z) (ep : dxf_event_params_t) : dxf_event_params_t :=
  EventParams flags (params_time_int_field ep) (params_snapshot_key ep).
Definition bid_event_params (ep : dxf_event_params_t) : dxf_event_params_t :=
  if Z.land (params_flags ep) dxf_ef_snapshot_end =? dxf_ef_snapshot_end
  then set_flags (Z.lxor (params_flags ep) dxf_ef_snapshot_end) ep else ep.
Definition ask_event_params (ep : dxf_event_params_t) : dxf_event_params_t :=
  if Z.land (params_flags ep) dxf_ef_snapshot_begin =? dxf_ef_snapshot_begin
  then set_flags (Z.lxor (params_flags ep) dxf_ef_snapshot_begin) ep else ep.

Definition dx_quote_t_transcoder (rp : dx_record_params_t) (ep : dxf_event_params_t)
  (r : dx_quote_t) : M tc_state unit :=
  dx_transcode_quote_to_order_bid rp (bid_event_params ep) r;;;
  dx_transcode_quote_to_order_ask rp (ask_event_params ep) r;;;
  dx_transcode_quote rp ep r.

Definition dx_summary_t_transcoder (rp : dx_record_params_t) (ep : dxf_event_params_t)
  (r : dx_summary_t) : M tc_state unit :=
  dx_get_event_data_buffer dx_eid_summary;;;
  let exchange_code := DX_EXCHANGE_FROM_RECORD (rp_suffix rp) in
  (if exchange_code =? 0 then ret tt else set_exchange_code rp exchange_code);;;
  dx_process_event_data rp dx_eid_summary (ev_summary (Build_dxf_summary_t
    (r_summary_day_id r) (r_summary_day_open_price r) (r_summary_day_high_price r)
    (r_summary_day_low_price r) (r_summary_day_close_price r) (r_summary_prev_day_id r)
    (r_summary_prev_day_close_price r) (r_summary_prev_day_volume r) (r_summary_open_interest r)
    (r_summary_flags r) exchange_code (DX_SUMMARY_GET_DCPT (r_summary_flags r))
    (DX_SUMMARY_GET_PDCPT (r_summary_flags r)) (scope_of_exchange exchange_code))) ep.

Definition dx_profile_t_transcoder (rp : dx_record_params_t) (ep : dxf_event_params_t)
  (r : dx_profile_t) : M tc_state unit :=
  dx_get_event_data_buffer dx_eid_profile;;;
  description <-- store_copy (r_profile_description r);;
  status_reason <-- store_copy (r_profile_status_reason r);;
  dx_process_event_data rp dx_eid_profile (ev_profile (Build_dxf_profile_t
    (r_profile_beta r) (r_profile_eps r) (r_profile_div_freq r) (r_profile_exd_div_amount r)
    (r_profile_exd_div_date r) (r_profile_high_price_52 r) (r_profile_low_price_52 r)
    (r_profile_shares r) (r_profile_free_float r) (r_profile_high_limit_price r)
    (r_profile_low_limit_price r) (DX_TIME_FIELD_TO_MS (r_profile_halt_start_time r))
    (DX_TIME_FIELD_TO_MS (r_profile_halt_end_time r)) (r_profile_flags r) description status_reason
    (DX_PROFILE_GET_TS (r_profile_flags r)) (DX_PROFILE_GET_SSR (r_profile_flags r)))) ep.

(** An order that removes: its flags, index and time, and the source. *)
Definition removed_order (source : list Z) (event_flags index time : Z) : dxf_order_t :=
  Build_dxf_order_t source event_flags index time 0 0 dxf_oa_undefined 0 0 0 double_zero double_zero
    double_zero double_zero 0 double_zero double_zero 0 dxf_osd_undefined dxf_osc_composite None.

(** The string of [dx_decode_from_integer]. *)
Definition decoded_string (code : Z) : option (list Z) :=
  let s := dx_decode_from_integer code in if alloc (length s + 1)%nat then Some s else None.

(** One side of a market maker. *)
Definition transcode_market_maker (rp : dx_record_params_t) (ep : dxf_event_params_t)
  (r : dx_market_maker_t) (index time : Z) (price size count : dxf_double_t) (side : dxf_order_side_t)
  : M tc_state unit :=
  dx_get_event_data_buffer dx_eid_order;;;
  set_exchange_code rp (r_mm_mm_exchange r);;;
  let time := DX_TIME_FIELD_TO_MS time in
  if IS_FLAG_SET (params_flags ep) dxf_ef_remove_event then
    dx_process_event_data rp dx_eid_order (ev_order (removed_order [] (params_flags ep) index time)) ep
  else
    let market_maker := decoded_string (r_mm_mm_id r) in
    (if IS_FLAG_SET (rp_flags rp) dxf_ef_remove_event then ret tt
     else match market_maker with
          | None => dx_set_error_code dx_mec_insufficient_memory
          | Some s => dx_store_string_buffer (Some s)
          end);;;
    dx_process_event_data rp dx_eid_order (ev_order (Build_dxf_order_t [] (params_flags ep) index time 0 0
      dxf_oa_undefined 0 0 0 price size double_zero count 0 double_zero double_zero
      (r_mm_mm_exchange r) side dxf_osc_aggregate market_maker)) ep.

Definition dx_transcode_market_maker_to_order_bid (rp : dx_record_params_t) (ep : dxf_event_params_t)
  (r : dx_market_maker_t) : M tc_state unit :=
  transcode_market_maker rp ep r (DX_ORDER_FORM_MM_BID_INDEX (r_mm_mm_exchange r) (r_mm_mm_id r))
    (r_mm_mmbid_time r) (r_mm_mmbid_price r) (r_mm_mmbid_size r) (r_mm_mmbid_count r) dxf_osd_buy.
Definition dx_transcode_market_maker_to_order_ask (rp : dx_record_params_t) (ep : dxf_event_params_t)
  (r : dx_market_maker_t) : M tc_state unit :=
  transcode_market_maker rp ep r (DX_ORDER_FORM_MM_ASK_INDEX (r_mm_mm_exchange r) (r_mm_mm_id r))
    (r_mm_mmask_time r) (r_mm_mmask_price r) (r_mm_mmask_size r) (r_mm_mmask_count r) dxf_osd_sell.

Definition dx_market_maker_t_transcoder (rp : dx_record_params_t) (ep : dxf_event_params_t)
  (r : dx_market_maker_t) : M tc_state unit :=
  dx_transcode_market_maker_to_order_bid rp (bid_event_params ep) r;;;
  dx_transcode_market_maker_to_order_ask rp (ask_event_params ep) r.

(** The source of an order, copied to its five characters: a null pointer for
    the suffix, or a longer one, is undefined. *)
Definition order_source_of (suffix : option (list Z)) : M tc_state (list Z) :=
  s <-- of_option suffix;;
  _ <-- of_option (dx_copy_string_len (replicate DXF_RECORD_SUFFIX_SIZE 0) s (length s));;
  ret s.

Definition dx_order_t_transcoder (rp : dx_record_params_t) (ep : dxf_event_params_t)
  (r : dx_order_t) : M tc_state unit :=
  let src := suffix_to_long (rp_suffix rp) in
  dx_get_event_data_buffer dx_eid_order;;;
  source <-- order_source_of (rp_suffix rp);;
  let flags := params_flags ep in
  let index := DX_ORDER_INDEX (r_order_index r) src in
  let time := DX_TIME_SEQ_TO_MS (r_order_time r) (r_order_sequence r) in
  if IS_FLAG_SET flags dxf_ef_remove_event then
    dx_process_event_data rp dx_eid_order (ev_order (removed_order source flags index time)) ep
  else
    market_maker <-- store_created (dx_decode_from_integer (r_order_mmid r));;
    dx_process_event_data rp dx_eid_order (ev_order (Build_dxf_order_t source flags index time
      (DX_SEQUENCE (r_order_sequence r)) (r_order_time_nanos r) (DX_ORDER_GET_ACTION (r_order_flags r))
      (r_order_action_time r) (r_order_order_id r) (r_order_aux_order_id r) (r_order_price r)
      (r_order_size r) (r_order_executed_size r) (r_order_count r) (r_order_trade_id r)
      (r_order_trade_price r) (r_order_trade_size r) (DX_ORDER_GET_EXCHANGE (r_order_flags r))
      (DX_ORDER_GET_SIDE (r_order_flags r)) (DX_ORDER_GET_SCOPE (r_order_flags r)) market_maker)) ep.

Definition dx_time_and_sale_t_transcoder (rp : dx_record_params_t) (ep : dxf_event_params_t)
  (r : dx_time_and_sale_t) : M tc_state unit :=
  dx_get_event_data_buffer dx_eid_time_and_sale;;;
  let exchange_code := DX_EXCHANGE_FROM_RECORD (rp_suffix rp) in
  let flags := params_flags ep in
  let index := i64 (Z.lor (u64 (Z.shiftl (int_to_bits (r_tns_time r)) 32)) (int_to_bits (r_tns_sequence r))) in
  let time := DX_TIME_SEQ_TO_MS (r_tns_time r) (r_tns_sequence r) in
  if IS_FLAG_SET flags dxf_ef_remove_event then
    dx_process_event_data rp dx_eid_time_and_sale (ev_time_and_sale (Build_dxf_time_and_sale_t flags index
      time 0 double_zero double_zero double_zero double_zero None 0 None None dxf_osd_undefined dxf_tnst_new
      0 0 0 0 dxf_osc_composite)) ep
  else
    exchange_sale_conditions <-- store_created (dx_decode_from_integer (r_tns_exchange_sale_conditions r));;
    buyer <-- store_copy (r_tns_buyer r);;
    seller <-- store_copy (r_tns_seller r);;
    let f := r_tns_flags r in
    dx_process_event_data rp dx_eid_time_and_sale (ev_time_and_sale (Build_dxf_time_and_sale_t flags index
      time (r_tns_exchange_code r) (r_tns_price r) (r_tns_size r) (r_tns_bid_price r) (r_tns_ask_price r)
      exchange_sale_conditions f buyer seller (DX_TNS_GET_SIDE f) (DX_TNS_GET_TYPE f)
      (bool_int (DX_TNS_GET_VALID_TICK f)) (bool_int (DX_TNS_GET_ETH f)) (DX_TNS_GET_TTE f)
      (bool_int (DX_TNS_GET_SPREAD_LEG f)) (scope_of_exchange exchange_code))) ep.

Definition dx_candle_t_transcoder (rp : dx_record_params_t) (ep : dxf_event_params_t)
  (r : dx_candle_t) : M tc_state unit :=
  dx_get_event_data_buffer dx_eid_candle;;;
  let flags := params_flags ep in
  let index := i64 (Z.lor (u64 (Z.shiftl (int_to_bits (r_candle_time r)) 32)) (int_to_bits (r_candle_sequence r))) in
  let time := DX_TIME_SEQ_TO_MS (r_candle_time r) (r_candle_sequence r) in
  if IS_FLAG_SET flags dxf_ef_remove_event then
    dx_process_event_data rp dx_eid_candle (ev_candle (Build_dxf_candle_t flags index time 0 double_zero
      double_zero double_zero double_zero double_zero double_zero double_zero double_zero double_zero
      double_zero double_zero)) ep
  else
    dx_process_event_data rp dx_eid_candle (ev_candle (Build_dxf_candle_t flags index time
      (DX_SEQUENCE (r_candle_sequence r)) (r_candle_count r) (r_candle_open r) (r_candle_high r)
      (r_candle_low r) (r_candle_close r) (r_candle_volume r) (r_candle_vwap r) (r_candle_bid_volume r)
      (r_candle_ask_volume r) (r_candle_open_interest r) (r_candle_imp_volatility r))) ep.

Definition dx_spread_order_t_transcoder (rp : dx_record_params_t) (ep : dxf_event_params_t)
  (r : dx_spread_order_t) : M tc_state unit :=
  let src := suffix_to_long (rp_suffix rp) in
  dx_get_event_data_buffer dx_eid_order;;;
  source <-- order_source_of (rp_suffix rp);;
  let flags := params_flags ep in
  let index := DX_ORDER_INDEX (r_spread_index r) src in
  let time := DX_TIME_SEQ_TO_MS (r_spread_time r) (r_spread_sequence r) in
  if IS_FLAG_SET flags dxf_ef_remove_event then
    dx_process_event_data rp dx_eid_spread_order (ev_order (removed_order source flags index time)) ep
  else
    spread_symbol <-- store_copy (r_spread_spread_symbol r);;
    dx_process_event_data rp dx_eid_spread_order (ev_order (Build_dxf_order_t source flags index time
      (DX_SEQUENCE (r_spread_sequence r)) (r_spread_time_nanos r) (DX_ORDER_GET_ACTION (r_spread_flags r))
      (r_spread_action_time r) (r_spread_order_id r) (r_spread_aux_order_id r) (r_spread_price r)
      (r_spread_size r) (r_spread_executed_size r) (r_spread_count r) (r_spread_trade_id r)
      (r_spread_trade_price r) (r_spread_trade_size r) (DX_ORDER_GET_EXCHANGE (r_spread_flags r))
      (DX_ORDER_GET_SIDE (r_spread_flags r)) (DX_ORDER_GET_SCOPE (r_spread_flags r)) spread_symbol)) ep.

Definition dx_greeks_t_transcoder (rp : dx_record_params_t) (ep : dxf_event_params_t)
  (r : dx_greeks_t) : M tc_state unit :=
  dx_get_event_data_buffer dx_eid_greeks;;;
  let flags := params_flags ep in
  let index := i64 (Z.lor (u64 (Z.shiftl (int_to_bits (r_greeks_time r)) 32)) (int_to_bits (r_greeks_sequence r))) in
  let time := DX_TIME_SEQ_TO_MS (r_greeks_time r) (r_greeks_sequence r) in
  if IS_FLAG_SET flags dxf_ef_remove_event then
    dx_process_event_data rp dx_eid_greeks (ev_greeks (Build_dxf_greeks_t flags index time double_zero
      double_zero double_zero double_zero double_zero double_zero double_zero)) ep
  else
    dx_process_event_data rp dx_eid_greeks (ev_greeks (Build_dxf_greeks_t flags index time (r_greeks_price r)
      (r_greeks_volatility r) (r_greeks_delta r) (r_greeks_gamma r) (r_greeks_theta r) (r_greeks_rho r)
      (r_greeks_vega r))) ep.

(** A transcoder that leaves the buffer of the record, the second part of the state,
    as it is. *)
Definition at_record {R A} (m : M tc_state A) : M (tc_state * R) A := on fst (fun t s => (t, s.2)) m.

(** The buffer of the record is the event: the time in milliseconds is written into it. *)
Definition set_theo_price_time (time : Z) (r : dxf_theo_price_t) : dxf_theo_price_t :=
  Build_dxf_theo_price_t time (theo_price_price r) (theo_price_underlying_price r)
    (theo_price_delta r) (theo_price_gamma r) (theo_price_dividend r) (theo_price_interest r).
Definition dx_theo_price_t_transcoder (rp : dx_record_params_t) (ep : dxf_event_params_t)
  : M (tc_state * dxf_theo_price_t) unit :=
  update (fun s => (s.1, set_theo_price_time (DX_TIME_FIELD_TO_MS (theo_price_time s.2)) s.2));;;
  s <-- get;;
  at_record (dx_process_event_data rp dx_eid_theo_price (ev_theo_price s.2) ep).

Definition option_volume (call put : dxf_double_t) : dxf_double_t :=
  if double_isnan put then call else if double_isnan call then put else double_add put call.

Definition dx_underlying_t_transcoder (rp : dx_record_params_t) (ep : dxf_event_params_t)
  (r : dx_underlying_t) : M tc_state unit :=
  dx_get_event_data_buffer dx_eid_underlying;;;
  dx_process_event_data rp dx_eid_underlying (ev_underlying (Build_dxf_underlying_t
    (r_underlying_volatility r) (r_underlying_front_volatility r) (r_underlying_back_volatility r)
    (r_underlying_call_volume r) (r_underlying_put_volume r)
    (option_volume (r_underlying_call_volume r) (r_underlying_put_volume r))
    (r_underlying_put_call_ratio r))) ep.

Definition dx_series_t_transcoder (rp : dx_record_params_t) (ep : dxf_event_params_t)
  (r : dx_series_t) : M tc_state unit :=
  dx_get_event_data_buffer dx_eid_series;;;
  let flags := params_flags ep in
  let time := DX_TIME_SEQ_TO_MS (r_series_time r) (r_series_sequence r) in
  if IS_FLAG_SET flags dxf_ef_remove_event then
    dx_process_event_data rp dx_eid_series (ev_series (Build_dxf_series_t flags (r_series_index r) time 0 0
      double_zero double_zero double_zero double_zero double_zero double_zero double_zero double_zero)) ep
  else
    dx_process_event_data rp dx_eid_series (ev_series (Build_dxf_series_t flags (r_series_index r) time
      (DX_SEQUENCE (r_series_sequence r)) (r_series_expiration r) (r_series_volatility r)
      (r_series_call_volume r) (r_series_put_volume r)
      (option_volume (r_series_call_volume r) (r_series_put_volume r)) (r_series_put_call_ratio r)
      (r_series_forward_price r) (r_series_dividend r) (r_series_interest r))) ep.

(** The deserializer runs on the object with its own position. *)
Definition deserialize_object (object : dxf_byte_array_t) : M tc_state (option (list Z)) := fun s =>
  match dx_configuration_deserialize_string alloc_bytes mbsrtowcs object 0 with
  | Ok r _ => Ok r s
  | Err e _ => Err e s
  | UB => UB
  end.

Definition dx_configuration_t_transcoder (rp : dx_record_params_t) (ep : dxf_event_params_t)
  (r : dx_configuration_t) : M tc_state unit :=
  dx_get_event_data_buffer dx_eid_configuration;;;
  object <-- deserialize_object (r_configuration_object r);;
  dx_store_string_buffer object;;;
  dx_process_event_data rp dx_eid_configuration
    (ev_configuration (Build_dxf_configuration_t (r_configuration_version r) object)) ep.

(** [g_record_transcoders]; a record of another kind would be read as the wrong
    structure.  The buffer of the record is the second part of the state. *)
Definition dx_transcode_record_data (rp : dx_record_params_t) (ep : dxf_event_params_t)
  : M (tc_state * dx_record_t) unit :=
  s <-- get;;
  match rp_record_info_id rp, s.2 with
  | dx_rid_trade, rec_trade r => at_record (dx_trade_t_transcoder_impl rp ep r dx_eid_trade)
  | dx_rid_quote, rec_quote r => at_record (dx_quote_t_transcoder rp ep r)
  | dx_rid_summary, rec_summary r => at_record (dx_summary_t_transcoder rp ep r)
  | dx_rid_profile, rec_profile r => at_record (dx_profile_t_transcoder rp ep r)
  | dx_rid_market_maker, rec_market_maker r => at_record (dx_market_maker_t_transcoder rp ep r)
  | dx_rid_order, rec_order r => at_record (dx_order_t_transcoder rp ep r)
  | dx_rid_time_and_sale, rec_time_and_sale r => at_record (dx_time_and_sale_t_transcoder rp ep r)
  | dx_rid_candle, rec_candle r => at_record (dx_candle_t_transcoder rp ep r)
  | dx_rid_trade_eth, rec_trade r => at_record (dx_trade_t_transcoder_impl rp ep r dx_eid_trade_eth)
  | dx_rid_spread_order, rec_spread_order r => at_record (dx_spread_order_t_transcoder rp ep r)
  | dx_rid_greeks, rec_greeks r => at_record (dx_greeks_t_transcoder rp ep r)
  | dx_rid_theo_price, rec_theo_price r => 
      on (fun s => (s.1, r)) (fun t _ => (t.1, rec_theo_price t.2)) (dx_theo_price_t_transcoder rp ep)
  | dx_rid_underlying, rec_underlying r => at_record (dx_underlying_t_transcoder rp ep r)
  | dx_rid_series, rec_series r => at_record (dx_series_t_transcoder rp ep r)
  | dx_rid_configuration, rec_configuration r => at_record (dx_configuration_t_transcoder rp ep r)
  | _, _ => undefined
  end.
End transcoder.

(** ** What a transcoder does *)

Definition tc_ok (s : tc_state) : Prop :=
  array_wf (tc_strings s) /\ registry_ok (tc_dscc s).

(** A computation that succeeds: [Q] tells of its result, of the strings that it
    stores and of the events that it delivers. *)
Definition runs {A} (m : M tc_state A) (Q : A -> list (option (list Z)) -> list tc_event -> Prop) : Prop :=
  forall s, tc_ok s -> exists a s' strs evs, m s = Ok a s' /\ tc_ok s' /\
    contents (tc_strings s') = contents (tc_strings s) ++ strs /\
    tc_events s' = tc_events s ++ evs /\ Q a strs evs.

Lemma runs_ret {A} (a : A) Q : Q a [] [] -> runs (ret a) Q.
Proof. intros H s Hs. exists a, s, [], []. by rewrite !app_nil_r. Qed.

Lemma runs_bind {A B} (m : M tc_state A) (k : A -> M tc_state B) Q R :
  runs m Q ->
  (forall a strs evs, Q a strs evs -> runs (k a) (fun b strs' evs' => R b (strs ++ strs') (evs ++ evs'))) ->
  runs (checked_call m k) R.
Proof.
  intros Hm Hk s Hs. destruct (Hm s Hs) as (a & s1 & strs1 & evs1 & E1 & Hs1 & Hc1 & He1 & HQ).
  destruct (Hk a strs1 evs1 HQ s1 Hs1) as (b & s2 & strs2 & evs2 & E2 & Hs2 & Hc2 & He2 & HR).
  exists b, s2, (strs1 ++ strs2), (evs1 ++ evs2). unfold checked_call. rewrite E1, E2, Hc2, Hc1, He2, He1.
  by rewrite !app_assoc.
Qed.

Lemma runs_weaken {A} (m : M tc_state A) (Q R : A -> list (option (list Z)) -> list tc_event -> Prop) :
  runs m Q -> (forall a strs evs, Q a strs evs -> R a strs evs) -> runs m R.
Proof.
  intros Hm HR s Hs. destruct (Hm s Hs) as (a & s1 & strs1 & evs1 & H1 & H2 & H3 & H4 & H5).
  exists a, s1, strs1, evs1. split_and!; auto.
Qed.

(** The strings that an event points to. *)
Definition event_strings (e : dxf_event_data_t) : list (list Z) :=
  match e with
  | ev_order o => option_list (order_market_maker o)
  | ev_profile p => option_list (profile_description p) ++ option_list (profile_status_reason p)
  | ev_time_and_sale t =>
      option_list (tns_exchange_sale_conditions t) ++ option_list (tns_buyer t) ++ option_list (tns_seller t)
  | ev_configuration c => option_list (configuration_object c)
  | _ => []
  end.

Section transcoder_spec.
Context (alloc : nat -> bool) (alloc_bytes : Z -> bool) (mbsrtowcs : list Z -> option (list Z)).
Context (process : tc_event -> option dx_error_code).
Context (alloc_ok : forall n, alloc n = true) (process_ok : forall e, process e = None).

Lemma process_runs rp id data ep :
  runs (dx_process_event_data process rp id data ep)
    (fun _ strs evs => strs = [] /\ evs = [TcEvent id (rp_symbol_name rp) data ep]).
Proof using process_ok.
  intros s Hs. eexists tt, _, [], _. unfold dx_process_event_data. rewrite process_ok, app_nil_r. done.
Qed.

Lemma buffer_runs id : runs (dx_get_event_data_buffer alloc id) (fun _ strs evs => strs = [] /\ evs = []).
Proof using alloc_ok.
  intros s Hs. unfold dx_get_event_data_buffer. unfold_m. rewrite alloc_ok.
  case_bool_decide; eexists tt, _, [], []; by rewrite !app_nil_r.
Qed.

Lemma store_runs buf :
  runs (dx_store_string_buffer alloc buf) (fun _ strs evs => strs = [buf] /\ evs = []).
Proof using alloc_ok.
  intros s [Hs Hd]. unfold dx_store_string_buffer, dx_string_array_add. unfold_m.
  destruct (array_append_spec None alloc (tc_strings s) buf Hs alloc_ok) as (a & -> & Ha & Hc). cbn [fst snd].
  eexists tt, _, [buf], []. split; [reflexivity|]. by rewrite app_nil_r.
Qed.

Lemma store_created_runs str :
  runs (store_created alloc str) (fun r strs evs => r = Some str /\ strs = [Some str] /\ evs = []).
Proof using alloc_ok.
  unfold store_created. rewrite alloc_ok. eapply runs_bind; [apply store_runs|].
  intros _ strs evs [-> ->]. by apply runs_ret.
Qed.

Lemma store_copy_runs src :
  runs (store_copy alloc src) (fun r strs evs => r = src /\ strs = Some <$> option_list src /\ evs = []).
Proof using alloc_ok.
  destruct src as [str|]; [|by apply runs_ret].
  eapply runs_weaken; [apply store_created_runs|]. by intros ? ? ? (-> & -> & ->).
Qed.

Lemma set_exchange_code_runs rp code :
  runs (set_exchange_code rp code) (fun _ strs evs => strs = [] /\ evs = []).
Proof using Type.
  intros s [Hs Hd]. unfold set_exchange_code.
  destruct (set_exchange_code_correct (rp_record_id rp) code (tc_dscc s) Hd) as (d & H & Hd' & _).
  destruct (dx_set_record_exchange_code _ _ _); try done; injection H as ->;
    eexists tt, _, [], []; by rewrite !app_nil_r.
Qed.
End transcoder_spec.

(** What is delivered of a record: events of its symbol, each with the data of
    its kind and with strings that are stored. *)
Definition delivered (rp : dx_record_params_t) (strs : list (option (list Z))) (evs : list tc_event) : Prop :=
  Forall (fun e => te_symbol e = rp_symbol_name rp /\ event_of (te_id e) (te_data e) = true /\
    Forall (fun str => Some str ∈ strs) (event_strings (te_data e))) evs.

Definition delivers (rp : dx_record_params_t) (m : M tc_state unit) (n : nat) : Prop :=
  runs m (fun _ strs evs => length evs = n /\ delivered rp strs evs).

Lemma delivered_mono rp strs strs' evs : strs ⊆ strs' -> delivered rp strs evs -> delivered rp strs' evs.
Proof.
  intros Hs H. eapply Forall_impl; [exact H|]. intros e (? & ? & He). split_and!; [done|done|].
  eapply Forall_impl; [exact He|]. intros str. apply Hs.
Qed.

Lemma delivers_seq rp m1 m2 n1 n2 :
  delivers rp m1 n1 -> delivers rp m2 n2 -> delivers rp (m1;;; m2) (n1 + n2).
Proof.
  intros H1 H2. eapply runs_bind; [exact H1|]. intros _ strs evs [Hn Hd].
  eapply runs_weaken; [exact H2|]. intros _ strs' evs' [Hn' Hd']. rewrite length_app. split; [lia|].
  apply Forall_app. split; eapply delivered_mono; try eassumption; set_solver.
Qed.

(** Computations that neither store nor deliver are skipped. *)
Lemma runs_skip {A B} (m : M tc_state A) (k : A -> M tc_state B) R :
  runs m (fun _ strs evs => strs = [] /\ evs = []) -> (forall a, runs (k a) R) -> runs (checked_call m k) R.
Proof. intros Hm Hk. eapply runs_bind; [exact Hm|]. intros a ? ? [-> ->]. apply Hk. Qed.

Lemma stored_strings strs (l : list (list Z)) : strs = Some <$> l -> Forall (fun str => Some str ∈ strs) l.
Proof. intros ->. apply Forall_forall. intros str. by apply list_elem_of_fmap_2. Qed.

(** The number of events of a record. *)
Definition event_count (record : dx_record_t) : nat :=
  match record with rec_quote _ => 3 | rec_market_maker _ => 2 | _ => 1 end.

(** What the transcoders rely on: an order has a source that fits its characters
    and a terminator, a market maker is removed by both its flags or by none,
    the object of a configuration is a string. *)
Definition transcodable (alloc_bytes : Z -> bool) (mbsrtowcs : list Z -> option (list Z))
  (rp : dx_record_params_t) (ep : dxf_event_params_t) (record : dx_record_t) : Prop :=
  match record with
  | rec_order _ | rec_spread_order _ =>
      exists suffix, rp_suffix rp = Some suffix /\ (length suffix < DXF_RECORD_SUFFIX_SIZE)%nat
  | rec_market_maker _ =>
      IS_FLAG_SET (rp_flags rp) dxf_ef_remove_event = IS_FLAG_SET (params_flags ep) dxf_ef_remove_event
  | rec_configuration r => exists str pos,
      dx_configuration_deserialize_string alloc_bytes mbsrtowcs (r_configuration_object r) 0 = Ok str pos
  | _ => True
  end.

(** The two ends of a snapshot are other flags than the removal. *)
Lemma land_lxor_other f a b : Z.land a b = 0 -> Z.land (Z.lxor f a) b = Z.land f b.
Proof.
  intros H. apply Z.bits_inj. intros n. assert (Z.testbit (Z.land a b) n = false) as Hn by by rewrite H, Z.bits_0.
  rewrite Z.land_spec in Hn. rewrite !Z.land_spec, Z.lxor_spec.
  by destruct (Z.testbit f n), (Z.testbit a n), (Z.testbit b n).
Qed.

Lemma params_keep_remove ep :
  IS_FLAG_SET (params_flags (bid_event_params ep)) dxf_ef_remove_event =
    IS_FLAG_SET (params_flags ep) dxf_ef_remove_event /\
  IS_FLAG_SET (params_flags (ask_event_params ep)) dxf_ef_remove_event =
    IS_FLAG_SET (params_flags ep) dxf_ef_remove_event.
Proof.
  unfold bid_event_params, ask_event_params, IS_FLAG_SET.
  split; destruct_match; cbn [set_flags params_flags]; try done; by rewrite land_lxor_other.
Qed.

Lemma source_runs suffix :
  (length suffix < DXF_RECORD_SUFFIX_SIZE)%nat ->
  runs (order_source_of (Some suffix)) (fun r strs evs => r = suffix /\ strs = [] /\ evs = []).
Proof.
  intros Hl s Hs. unfold order_source_of, dx_copy_string_len. unfold_m.
  rewrite blit_in. 2: { rewrite length_app. lia. } 2: { rewrite length_replicate. lia. }
  by eexists suffix, s, [], []; rewrite !app_nil_r.
Qed.

Section deliveries.
Context (alloc : nat -> bool).
Context (process : tc_event -> option dx_error_code).
Context (alloc_ok : forall n, alloc n = true) (process_ok : forall e, process e = None).

Lemma process_delivers rp id data ep strs0 :
  event_of id data = true -> Forall (fun str => Some str ∈ strs0) (event_strings data) ->
  runs (dx_process_event_data process rp id data ep)
    (fun _ strs evs => length evs = 1%nat /\ delivered rp (strs0 ++ strs) evs).
Proof using process_ok.
  intros He Hs. eapply runs_weaken; [by apply process_runs|]. intros _ ? ? [-> ->].
  split; [done|]. rewrite app_nil_r. by repeat constructor.
Qed.

Lemma process_delivers_plain rp id data ep :
  event_of id data = true -> event_strings data = [] ->
  delivers rp (dx_process_event_data process rp id data ep) 1.
Proof using process_ok. intros He Hs. apply (process_delivers rp id data ep []); [done|]. by rewrite Hs. Qed.

Lemma order_side_delivers rp ep index time sequence nanos price size exchange side scope :
  delivers rp (dx_get_event_data_buffer alloc dx_eid_order;;;
    dx_process_event_data process rp dx_eid_order
      (ev_order (quote_order index time sequence nanos price size exchange side scope)) ep) 1.
Proof using alloc_ok process_ok.
  apply runs_skip; [by apply buffer_runs|]. intros _. by apply process_delivers_plain.
Qed.

(** One event without strings behind the buffer and the exchange code. *)
Ltac skips := repeat (apply runs_skip; [first [by apply buffer_runs | apply set_exchange_code_runs
  | case_match; first [by apply runs_ret | apply set_exchange_code_runs]] | intros _]).
Ltac plain := skips; repeat case_match; by apply process_delivers_plain.

Lemma market_maker_delivers rp ep r index time price size count side :
  IS_FLAG_SET (rp_flags rp) dxf_ef_remove_event = IS_FLAG_SET (params_flags ep) dxf_ef_remove_event ->
  delivers rp (transcode_market_maker alloc process rp ep r index time price size count side) 1.
Proof using alloc_ok process_ok.
  intros Hf. unfold transcode_market_maker. skips. cbv zeta. unfold decoded_string. rewrite alloc_ok, Hf.
  destruct (IS_FLAG_SET (params_flags ep) _); [by apply process_delivers_plain|].
  eapply runs_bind; [by apply store_runs|]. intros _ ? ? [-> ->].
  apply process_delivers; [done|]. by repeat constructor.
Qed.

Lemma quote_delivers rp ep r : delivers rp (dx_quote_t_transcoder alloc process rp ep r) 3.
Proof using alloc_ok process_ok.
  apply (delivers_seq rp _ _ 1 2); [apply order_side_delivers|].
  apply (delivers_seq rp _ _ 1 1); [apply order_side_delivers|]. unfold dx_transcode_quote. plain.
Qed.

Lemma orders_deliver rp ep :
  (exists suffix, rp_suffix rp = Some suffix /\ (length suffix < DXF_RECORD_SUFFIX_SIZE)%nat) ->
  (forall r, delivers rp (dx_order_t_transcoder alloc process rp ep r) 1) /\
  (forall r, delivers rp (dx_spread_order_t_transcoder alloc process rp ep r) 1).
Proof using alloc_ok process_ok.
  intros (suffix & Hs & Hl). split; intros r.
  - unfold dx_order_t_transcoder. skips. rewrite Hs.
    eapply runs_bind; [by apply source_runs|]. intros ? ? ? (-> & -> & ->). cbv zeta.
    case_match; [by apply process_delivers_plain|].
    eapply runs_bind; [by apply store_created_runs|]. intros ? ? ? (-> & -> & ->).
    apply process_delivers; [done|]. by repeat constructor.
  - unfold dx_spread_order_t_transcoder. skips. rewrite Hs.
    eapply runs_bind; [by apply source_runs|]. intros ? ? ? (-> & -> & ->). cbv zeta.
    case_match; [by apply process_delivers_plain|].
    eapply runs_bind; [by apply store_copy_runs|]. intros ? ? ? (-> & -> & ->).
    apply process_delivers; [done|]. cbn. apply Forall_forall. set_solver.
Qed.
Ltac by_strings := cbn [te_data event_strings profile_description profile_status_reason
  tns_exchange_sale_conditions tns_buyer tns_seller]; by rewrite app_nil_r, !fmap_app.

Lemma strings_deliver rp ep :
  (forall r, delivers rp (dx_profile_t_transcoder alloc process rp ep r) 1) /\
  (forall r, delivers rp (dx_time_and_sale_t_transcoder alloc process rp ep r) 1).
Proof using alloc_ok process_ok.
  split; intros r.
  - unfold dx_profile_t_transcoder. skips.
    eapply runs_bind; [by apply store_copy_runs|]. intros ? ? ? (-> & -> & ->).
    eapply runs_bind; [by apply store_copy_runs|]. intros ? ? ? (-> & -> & ->).
    eapply runs_weaken; [by apply process_runs|]. intros _ ? ? [-> ->]. split; [done|].
    apply Forall_singleton. split_and!; [done|done|]. apply stored_strings. by_strings.
  - unfold dx_time_and_sale_t_transcoder. skips. cbv zeta.
    case_match; [by apply process_delivers_plain|].
    eapply runs_bind; [by apply store_created_runs|]. intros ? ? ? (-> & -> & ->).
    eapply runs_bind; [by apply store_copy_runs|]. intros ? ? ? (-> & -> & ->).
    eapply runs_bind; [by apply store_copy_runs|]. intros ? ? ? (-> & -> & ->).
    eapply runs_weaken; [by apply process_runs|]. intros _ ? ? [-> ->]. split; [done|].
    apply Forall_singleton. split_and!; [done|done|]. apply stored_strings. by_strings.
Qed.

Lemma configuration_delivers alloc_bytes mbsrtowcs rp ep r str pos :
  dx_configuration_deserialize_string alloc_bytes mbsrtowcs (r_configuration_object r) 0 = Ok str pos ->
  delivers rp (dx_configuration_t_transcoder alloc alloc_bytes mbsrtowcs process rp ep r) 1.
Proof using alloc_ok process_ok.
  intros Hd. unfold dx_configuration_t_transcoder. skips.
  apply (runs_bind _ _ (fun a strs evs => a = str /\ strs = [] /\ evs = [])).
  { intros s Hs. unfold deserialize_object. rewrite Hd. by eexists str, s, [], []; rewrite !app_nil_r. }
  intros ? ? ? (-> & -> & ->). eapply runs_bind; [by apply store_runs|]. intros _ ? ? (-> & ->).
  apply process_delivers; [done|]. apply Forall_forall. cbn. destruct str; set_solver.
Qed.

(** What is left in the buffer of the record. *)
Definition transcoded (record : dx_record_t) : dx_record_t :=
  match record with
  | rec_theo_price r => rec_theo_price (set_theo_price_time (DX_TIME_FIELD_TO_MS (theo_price_time r)) r)
  | r => r
  end.

(** A transcoder delivers the events of a record, and leaves it in the buffer. *)
Definition transcodes (rp : dx_record_params_t) (m : M (tc_state * dx_record_t) unit) (record : dx_record_t) : Prop :=
  exists m', delivers rp m' (event_count record) /\
    forall s s', m' s = Ok tt s' -> m (s, record) = Ok tt (s', transcoded record).
Lemma transcode_delivers alloc_bytes mbsrtowcs rp ep record :
  record_of (rp_record_info_id rp) record = true -> transcodable alloc_bytes mbsrtowcs rp ep record ->
  transcodes rp (dx_transcode_record_data alloc alloc_bytes mbsrtowcs process rp ep) record.
Proof using alloc_ok process_ok.
  intros Hr Ht. unfold transcodes, dx_transcode_record_data. unfold_m. cbn [snd].
  destruct (rp_record_info_id rp), record; try discriminate; cbn [event_count] in *;
    lazymatch goal with
    | |- context [at_record ?m] => exists m; split; [|by intros s s' E; unfold at_record, on; cbn; rewrite E]
    | _ => idtac
    end;
    unfold dx_trade_t_transcoder_impl, dx_summary_t_transcoder, dx_candle_t_transcoder, dx_greeks_t_transcoder,
      dx_underlying_t_transcoder, dx_series_t_transcoder;
    try first [by apply orders_deliver | by apply strings_deliver | by apply quote_delivers | plain].
  - destruct (params_keep_remove ep) as [Hb Ha]. cbn in Ht.
    apply (delivers_seq rp _ _ 1 1); apply market_maker_delivers; congruence.
  - eexists. split; [|intros s s' E; unfold on, dx_theo_price_t_transcoder, at_record, on, update; unfold_m; cbn; by rewrite E]. plain.
  - destruct Ht as (str & pos & Hd). by eapply configuration_delivers.
Qed.
End deliveries.

(** ** Where an index comes from *)

(** What makes an order: an order record of a source, a side of a quote of an
    exchange (0 for the composite quote), a side of a market maker. *)
Inductive index_origin : Type :=
  | from_order (source : list Z) (index : Z)
  | from_quote (bid : bool) (exchange_code : Z)
  | from_market_maker (bid : bool) (exchange_code id : Z).

Definition origin_index (o : index_origin) : Z :=
  match o with
  | from_order source index => DX_ORDER_INDEX index (suffix_to_long (Some source))
  | from_quote bid e => if bid then DX_ORDER_FROM_QUOTE_BID_INDEX e else DX_ORDER_FROM_QUOTE_ASK_INDEX e
  | from_market_maker bid e id =>
      if bid then DX_ORDER_FORM_MM_BID_INDEX e id else DX_ORDER_FORM_MM_ASK_INDEX e id
  end.

(** Sources are at most four printable characters, exchange codes are 16 bits
    and the rest is 32 bits. *)
Definition origin_ok (o : index_origin) : Prop :=
  match o with
  | from_order source index =>
      Forall (fun c => 33 <= c <= 126) source /\ (length source <= MAX_SUFFIX_LEN_FOR_INDEX)%nat /\ is_i32 index
  | from_quote _ e => 0 <= e < 65536
  | from_market_maker _ e id => 0 <= e < 65536 /\ is_i32 id
  end.

(** The halves of the index. *)
Definition source_number (source : list Z) : Z := foldl (fun n c => n * 256 + c) 0 source.
Definition origin_high (o : index_origin) : Z :=
  match o with
  | from_order source _ => source_number source
  | from_quote bid e => (if e =? 0 then if bid then 1 else 2 else if bid then 3 else 4) * 65536 + e
  | from_market_maker bid e _ => (if bid then 5 else 6) * 65536 + e
  end.
Definition origin_low (o : index_origin) : Z :=
  match o with from_order _ n | from_market_maker _ _ n => u32 n | from_quote _ _ => 0 end.

Lemma suffix_step ret c :
  0 <= ret < 2 ^ 24 -> 0 <= c < 256 -> Z.lor (i64 (Z.shiftl ret 8)) (Z.land c 0xFF) = ret * 256 + c.
Proof.
  intros Hr Hc. rewrite land_255, Z.mod_small, shl_mul, i64_id by (unfold_ints; lia).
  by rewrite (lor_add ret c 8).
Qed.

Lemma suffix_to_long_number source :
  Forall (fun c => 33 <= c <= 126) source -> (length source <= MAX_SUFFIX_LEN_FOR_INDEX)%nat ->
  suffix_to_long (Some source) = source_number source /\ 0 <= source_number source < 2 ^ 31.
Proof.
  intros Hs Hl. unfold suffix_to_long. replace (length source - MAX_SUFFIX_LEN_FOR_INDEX)%nat with 0%nat by lia.
  change (drop 0 source) with source. unfold source_number, MAX_SUFFIX_LEN_FOR_INDEX in *.
  destruct source as [|a [|b [|c [|d [|]]]]]; cbn [length] in Hl; try lia;
    rewrite ?Forall_cons in Hs; cbn [suffix_loop foldl]; [lia|..]; rewrite (suffix_step 0 a) by lia;
    [lia|rewrite (suffix_step _ b) by lia..]; [lia|rewrite (suffix_step _ c) by lia..];
    [lia|rewrite (suffix_step _ d) by lia]; lia.
Qed.

Lemma source_number_inj s1 s2 :
  Forall (fun c => 33 <= c <= 126) s1 -> Forall (fun c => 33 <= c <= 126) s2 ->
  source_number s1 = source_number s2 -> s1 = s2.
Proof.
  assert (forall s n, foldl (fun n c => n * 256 + c) 0 (s ++ [n]) = source_number s * 256 + n) as Hsnoc.
  { intros s n. by rewrite foldl_app. }
  assert (forall s, Forall (fun c => 33 <= c <= 126) s -> 0 <= source_number s) as Hpos.
  { intros s. induction s as [|c s IH] using rev_ind; intros Hs; [done|]. unfold source_number. rewrite Hsnoc.
    apply Forall_app in Hs as [Hs [Hc _]%Forall_cons]. specialize (IH Hs). lia. }
  intros H1 H2. revert s2 H2. induction s1 as [|c1 s1 IH] using rev_ind; intros s2 H2 E;
    destruct s2 as [|c2 s2 _] using rev_ind; [done| | |]; unfold source_number in E; rewrite ?Hsnoc in E;
    cbn [foldl] in E; try apply Forall_app in H1 as [H1 [Hc1 _]%Forall_cons];
    try apply Forall_app in H2 as [H2 [Hc2 _]%Forall_cons];
    try pose proof (Hpos s1 H1); try pose proof (Hpos s2 H2); try lia.
  assert (c1 = c2) as <- by lia. f_equal. apply IH; [done|done|lia].
Qed.

Lemma char_to_bits_id e : 0 <= e < 65536 -> char_to_bits e = e.
Proof.
  intros He. unfold char_to_bits. rewrite (u64_id e) by (unfold_ints; lia).
  rewrite shl_mul, shr_div, u64_id by (unfold_ints; lia). by rewrite Z.div_mul.
Qed.

Lemma u32_bounds z : 0 <= u32 z < 2 ^ 32.
Proof. apply Z.mod_pos_bound. lia. Qed.

Lemma low_bounds o : 0 <= origin_low o < 2 ^ 32.
Proof. destruct o; cbn; try apply u32_bounds; lia. Qed.

(** Three fields in the bits of an index. *)
Lemma index_bits source e low :
  0 <= source < 32768 -> 0 <= e < 65536 -> 0 <= low < 2 ^ 32 ->
  i64 (Z.lor (Z.lor (Z.shiftl source DX_ORDER_INDEX_SSRC_SHIFT)
     (u64 (Z.shiftl (char_to_bits e) DX_ORDER_INDEX_EXC_SHIFT))) low) = (source * 65536 + e) * 2 ^ 32 + low.
Proof.
  intros Hs He Hl. rewrite char_to_bits_id by done.
  change DX_ORDER_INDEX_SSRC_SHIFT with 48. change DX_ORDER_INDEX_EXC_SHIFT with 32.
  rewrite !shl_mul, (u64_id (e * _)) by (unfold_ints; lia).
  rewrite (lor_add source _ 48) by lia. replace (source * 2 ^ 48 + e * 2 ^ 32) with ((source * 65536 + e) * 2 ^ 32) by lia.
  rewrite lor_add, i64_id by (unfold_ints; lia). done.
Qed.

Lemma origin_index_halves o :
  origin_ok o -> origin_index o = origin_high o * 2 ^ 32 + origin_low o.
Proof.
  destruct o as [source index|bid e|bid e id]; cbn [origin_ok origin_index origin_high origin_low].
  - intros (Hs & Hl & Hi). destruct (suffix_to_long_number source Hs Hl) as [-> Hn].
    unfold DX_ORDER_INDEX, int_to_bits. pose proof (u32_bounds index). rewrite (u64_id (u32 _)) by (unfold_ints; lia).
    rewrite shl_mul by done. change DX_ORDER_INDEX_TSRC_SHIFT with 32.
    rewrite (i64_id (_ * _)), lor_add, i64_id by (unfold_ints; lia). done.
  - intros He. unfold DX_ORDER_FROM_QUOTE_BID_INDEX, DX_ORDER_FROM_QUOTE_ASK_INDEX.
    pose proof (fun source H => index_bits source e 0 H He) as Hb.
    destruct bid, (Z.eqb_spec e 0); rewrite <- Hb by (unfold_ints; lia); by rewrite Z.lor_0_r.
  - intros [He Hi]. unfold DX_ORDER_FORM_MM_BID_INDEX, DX_ORDER_FORM_MM_ASK_INDEX, mm_index, int_to_bits.
    pose proof (u32_bounds id). rewrite (u64_id (u32 _)) by (unfold_ints; lia).
    destruct bid; rewrite index_bits by first [lia | by (split; done)]; done.
Qed.

Lemma u32_i32_inj a b : is_i32 a -> is_i32 b -> u32 a = u32 b -> a = b.
Proof. intlia. Qed.

(** The first character of a source of four tells it from a quote. *)
Lemma source_number_long source :
  Forall (fun c => 33 <= c <= 126) source -> (length source <= MAX_SUFFIX_LEN_FOR_INDEX)%nat ->
  source_number source < 65536 \/ 33 * 65536 <= source_number source.
Proof.
  intros Hs Hl. unfold source_number, MAX_SUFFIX_LEN_FOR_INDEX in *.
  destruct source as [|a [|b [|c [|d [|]]]]]; cbn [length] in Hl; try lia;
    rewrite ?Forall_cons in Hs; cbn [foldl]; lia.
Qed.

(** ** Properties *)

(** C35: the index of an order identifies where it comes from: order records of
    different sources or indices, the sides of quotes and the sides of market
    makers never share an index, while sources have at most four printable
    characters and exchange codes 16 bits. *)
Theorem order_index_identifies (o1 o2 : index_origin) :
  origin_ok o1 -> origin_ok o2 -> origin_index o1 = origin_index o2 -> o1 = o2.
Proof.
  intros H1 H2. rewrite !origin_index_halves by done. pose proof (low_bounds o1). pose proof (low_bounds o2).
  intros E. assert (origin_high o1 = origin_high o2) as Eh by lia.
  assert (origin_low o1 = origin_low o2) as El by lia. clear E.
  destruct o1 as [s1 n1|[] e1|[] e1 n1], o2 as [s2 n2|[] e2|[] e2 n2];
    cbn [origin_ok origin_high origin_low] in *;
    repeat match goal with
    | H : Forall _ ?s /\ _ |- _ => destruct H as (? & ? & ?); pose proof (source_number_long s ltac:(done) ltac:(done))
    | H : _ /\ is_i32 _ |- _ => destruct H as [? ?]
    end;
    try (apply u32_i32_inj in El; [|done..]); repeat case_match; try lia; subst; f_equal; try lia.
  by apply source_number_inj.
Qed.

Lemma order_index_identifies_witness :
  origin_index (from_order [78; 84; 86] 5) <> origin_index (from_market_maker true 81 5).
Proof.
  intros E. refine (match order_index_identifies (from_order [78; 84; 86] 5) (from_market_maker true 81 5)
    _ _ E with eq_refl => I end).
  - by_compute.
  - by_compute.
Defined.

(** C34: a record is transcoded without leaving a block of memory: it delivers its
    one event (three for a quote, two for a market maker) under its symbol, each
    with the data of its kind, the strings of the events are stored in the
    buffers that own them, the state stays well formed, and the buffer of the
    record is as it was, but for the time of a theoretical price, which is then in
    milliseconds. *)
Theorem transcode_record_safe (alloc : nat -> bool) (alloc_bytes : Z -> bool)
  (mbsrtowcs : list Z -> option (list Z)) (process : tc_event -> option dx_error_code)
  (rp : dx_record_params_t) (ep : dxf_event_params_t) (record : dx_record_t) (s : tc_state) :
  (forall n, alloc n = true) -> (forall e, process e = None) -> tc_ok s ->
  record_of (rp_record_info_id rp) record = true -> transcodable alloc_bytes mbsrtowcs rp ep record ->
  exists s' strs evs,
    dx_transcode_record_data alloc alloc_bytes mbsrtowcs process rp ep (s, record) = Ok tt (s', transcoded record) /\ tc_ok s' /\
    contents (tc_strings s') = contents (tc_strings s) ++ strs /\
    tc_events s' = tc_events s ++ evs /\ length evs = event_count record /\ delivered rp strs evs.
Proof.
  intros Ha Hp Hs Hr Ht.
  destruct (transcode_delivers alloc process Ha Hp alloc_bytes mbsrtowcs rp ep record Hr Ht) as (m & Hm & Hrec).
  destruct (Hm s Hs) as ([] & s' & strs & evs & E & Hs' & Hc & He & Hn & Hd).
  exists s', strs, evs. by rewrite (Hrec s s' E).
Qed.

(** An order of the source [NTV]. *)
Definition example_params : dx_record_params_t :=
  RecordParams 0 dx_rid_order (Some [78; 84; 86]) [65; 66] 0 0 0.
Definition example_order : dx_record_t :=
  rec_order (Build_dx_order_t 7 100 0 0 0 0 0 double_zero double_zero double_zero double_zero 0 0
    double_zero double_zero 0).
Definition example_state : tc_state := TcState [] DX_EMPTY_ARRAY new_dscc [].

Lemma transcode_record_safe_witness :
  exists s' strs evs,
    dx_transcode_record_data (fun _ => true) (fun _ => true) Some (fun _ => None) example_params
      (EventParams 0 0 0) (example_state, example_order) = Ok tt (s', example_order) /\ tc_ok s' /\
    contents (tc_strings s') = [] ++ strs /\
    tc_events s' = [] ++ evs /\ length evs = 1%nat /\ delivered example_params strs evs.
Proof.
  apply (transcode_record_safe (fun _ => true) (fun _ => true) Some (fun _ => None) example_params
    (EventParams 0 0 0) example_order example_state); try done.
  - split; [apply array_wf_empty|apply new_dscc_ok].
  - exists [78; 84; 86]. split; [done|by_compute].
Defined.

(** The flags with which the events of a record are delivered. *)
Definition event_flags (record : dx_record_t) (flags : Z) : list (dx_event_id_t * Z) :=
  let begins := Z.ldiff flags dxf_ef_snapshot_end in
  let ends := Z.ldiff flags dxf_ef_snapshot_begin in
  match record with
  | rec_quote _ => [(dx_eid_order, begins); (dx_eid_order, ends); (dx_eid_quote, flags)]
  | rec_market_maker _ => [(dx_eid_order, begins); (dx_eid_order, ends)]
  | _ => []
  end.

Lemma xor_flag f flag n :
  flag = 2 ^ n -> 0 <= n -> (if Z.land f flag =? flag then Z.lxor f flag else f) = Z.ldiff f flag.
Proof.
  intros -> Hn. apply Z.bits_inj'. intros i Hi.
  assert (Z.testbit (Z.land f (2 ^ n)) n = Z.testbit f n) as Hb.
  { by rewrite Z.land_spec, Z.pow2_bits_true, andb_true_r. }
  destruct (Z.eqb_spec (Z.land f (2 ^ n)) (2 ^ n)) as [E|E]; rewrite ?Z.lxor_spec, Z.ldiff_spec, Z.pow2_bits_eqb by done;
    destruct (Z.eqb_spec n i) as [<-|]; rewrite ?xorb_false_r, ?andb_true_r; try done.
  - rewrite E, Z.pow2_bits_true in Hb by done. by rewrite <- Hb.
  - cbn. rewrite andb_false_r. destruct (Z.testbit f n) eqn:Ef; [|done]. destruct E. apply Z.bits_inj'. intros j Hj.
    rewrite Z.land_spec, Z.pow2_bits_eqb by done. destruct (Z.eqb_spec n j) as [<-|]; [by rewrite Ef|apply andb_false_r].
Qed.

Lemma params_flags_split ep :
  params_flags (bid_event_params ep) = Z.ldiff (params_flags ep) dxf_ef_snapshot_end /\
  params_flags (ask_event_params ep) = Z.ldiff (params_flags ep) dxf_ef_snapshot_begin.
Proof.
  rewrite <- (xor_flag _ dxf_ef_snapshot_end 3), <- (xor_flag _ dxf_ef_snapshot_begin 2) by done.
  unfold bid_event_params, ask_event_params. by split; destruct_match.
Qed.

Section event_flags.
Context (alloc : nat -> bool) (process : tc_event -> option dx_error_code).
Context (alloc_ok : forall n, alloc n = true) (process_ok : forall e, process e = None).

Definition flags_of (e : tc_event) : dx_event_id_t * Z := (te_id e, params_flags (te_params e)).
Definition gives_flags {A} (m : M tc_state A) (l : list (dx_event_id_t * Z)) : Prop :=
  runs m (fun _ _ evs => map flags_of evs = l).

Lemma gives_seq {A B} (m : M tc_state A) (k : A -> M tc_state B) l l' :
  gives_flags m l -> (forall a, gives_flags (k a) l') -> gives_flags (checked_call m k) (l ++ l').
Proof using Type.
  intros Hm Hk. eapply runs_bind; [exact Hm|]. intros a strs evs E. eapply runs_weaken; [apply Hk|].
  intros ? ? ? E'. by rewrite map_app, E, E'.
Qed.

Lemma gives_skip {A B} (m : M tc_state A) (k : A -> M tc_state B) Q l :
  runs m Q -> (forall a strs evs, Q a strs evs -> evs = []) -> (forall a, gives_flags (k a) l) ->
  gives_flags (checked_call m k) l.
Proof using Type.
  intros Hm HQ Hk. apply (gives_seq m k [] l); [|done]. eapply runs_weaken; [exact Hm|].
  intros a strs evs H%HQ. by rewrite H.
Qed.

Lemma process_flags rp id data ep :
  gives_flags (dx_process_event_data process rp id data ep) [(id, params_flags ep)].
Proof using process_ok. eapply runs_weaken; [by apply process_runs|]. by intros _ ? ? [-> ->]. Qed.

Lemma quote_order_flags rp ep e data :
  gives_flags (dx_get_event_data_buffer alloc e;;; dx_process_event_data process rp e data ep)
    [(e, params_flags ep)].
Proof using alloc_ok process_ok.
  eapply gives_skip; [by apply buffer_runs| |]; [by intros ? ? ? [_ ->]|]. intros _. apply process_flags.
Qed.

Lemma market_maker_flags rp ep r index time price size count side :
  gives_flags (transcode_market_maker alloc process rp ep r index time price size count side)
    [(dx_eid_order, params_flags ep)].
Proof using alloc_ok process_ok.
  unfold transcode_market_maker. eapply gives_skip; [by apply buffer_runs|by intros ? ? ? [_ ->]|]. intros _.
  eapply gives_skip; [apply set_exchange_code_runs|by intros ? ? ? [_ ->]|]. intros _. cbv zeta.
  case_match; [apply process_flags|]. unfold decoded_string. rewrite alloc_ok.
  apply (gives_skip _ _ (fun _ _ evs => evs = [])); [|done|intros _; apply process_flags].
  case_match; [by apply runs_ret|]. eapply runs_weaken; [by apply store_runs|]. by intros ? ? ? [_ ->].
Qed.

Lemma quote_flags rp ep r :
  gives_flags (dx_quote_t_transcoder alloc process rp ep r) (event_flags (rec_quote r) (params_flags ep)).
Proof using alloc_ok process_ok.
  destruct (params_flags_split ep) as [Hb Ha].
  apply (gives_seq _ _ [_] [_; _]); [rewrite <- Hb; apply quote_order_flags|]. intros _.
  apply (gives_seq _ _ [_] [_]); [rewrite <- Ha; apply quote_order_flags|]. intros _. unfold dx_transcode_quote.
  eapply gives_skip; [by apply buffer_runs|by intros ? ? ? [_ ->]|]. intros _. cbv zeta.
  apply (gives_skip _ _ (fun _ _ evs => evs = [])); [|done|intros _; apply process_flags].
  case_match; [by apply runs_ret|]. eapply runs_weaken; [by apply set_exchange_code_runs|]. by intros ? ? ? [_ ->].
Qed.
End event_flags.

(** The orders made of one quote or market maker record share the ends of its
    snapshot: the first never ends it, the last order never begins it, every
    other flag is passed on, and the quote event itself has the flags of the
    record. *)
Theorem snapshot_ends_split (alloc : nat -> bool) (process : tc_event -> option dx_error_code)
  (rp : dx_record_params_t) (ep : dxf_event_params_t) (s : tc_state) :
  (forall n, alloc n = true) -> (forall e, process e = None) -> tc_ok s ->
  (forall r, exists s' evs, dx_quote_t_transcoder alloc process rp ep r s = Ok tt s' /\
     tc_events s' = tc_events s ++ evs /\
     map flags_of evs = event_flags (rec_quote r) (params_flags ep)) /\
  (forall r, exists s' evs, dx_market_maker_t_transcoder alloc process rp ep r s = Ok tt s' /\
     tc_events s' = tc_events s ++ evs /\
     map flags_of evs = event_flags (rec_market_maker r) (params_flags ep)).
Proof.
  intros Ha Hp Hs. split; intros r.
  - destruct (quote_flags alloc process Ha Hp rp ep r s Hs) as ([] & s' & strs & evs & E & _ & _ & He & Hm). eauto.
  - assert (gives_flags (dx_market_maker_t_transcoder alloc process rp ep r)
      (event_flags (rec_market_maker r) (params_flags ep))) as H.
    { destruct (params_flags_split ep) as [H1 H2].
      apply (gives_seq _ _ [_] [_]); [rewrite <- H1; by apply market_maker_flags|]. intros _.
      rewrite <- H2. by apply market_maker_flags. }
    destruct (H s Hs) as ([] & s' & strs & evs & E & _ & _ & He & Hm). eauto.
Qed.

Lemma snapshot_ends_split_witness :
  tc_ok example_state /\ forall r, exists s' evs,
    dx_quote_t_transcoder (fun _ => true) (fun _ => None) example_params (EventParams 12 0 0) r example_state =
      Ok tt s' /\ tc_events s' = [] ++ evs /\
    map flags_of evs = [(dx_eid_order, 4); (dx_eid_order, 8); (dx_eid_quote, 12)].
Proof.
  assert (tc_ok example_state) as Hs by (split; [apply array_wf_empty|apply new_dscc_ok]). split; [done|].
  by apply (snapshot_ends_split (fun _ => true) (fun _ => None) example_params (EventParams 12 0 0) example_state).
Defined.

(** The exchange code of a trade is recorded when there is none: a trade of an
    exchange leaves the record as it was, and a composite trade resets it. *)
Lemma trade_exchange_not_recorded (alloc : nat -> bool) (process : tc_event -> option dx_error_code)
  (rp : dx_record_params_t) (ep : dxf_event_params_t) (r : dx_trade_t) (s : tc_state) :
  (forall n, alloc n = true) -> (forall e, process e = None) -> tc_ok s ->
  0 <= rp_record_id rp < Z.of_nat (arr_size (records_list (tc_dscc s))) ->
  exists s', dx_trade_t_transcoder_impl alloc process rp ep r dx_eid_trade s = Ok tt s' /\
    exchange_code_of (tc_dscc s') (rp_record_id rp) =
      if DX_EXCHANGE_FROM_RECORD (rp_suffix rp) =? 0 then 0 else exchange_code_of (tc_dscc s) (rp_record_id rp).
Proof.
  intros Ha Hp [_ Hd] Hid. unfold dx_trade_t_transcoder_impl, dx_get_event_data_buffer.
  destruct (set_exchange_code_correct (rp_record_id rp) (DX_EXCHANGE_FROM_RECORD (rp_suffix rp)) (tc_dscc s) Hd)
    as (d & H & _ & Hex). specialize (Hex (rp_record_id rp)). rewrite bool_decide_eq_true_2 in Hex by done.
  unfold_m. rewrite Ha. cbn [bool_decide negb andb]. rewrite bool_decide_eq_true_2 by done. cbn [negb andb].
  unfold dx_process_event_data, set_exchange_code.
  case_bool_decide; destruct (Z.eqb_spec (DX_EXCHANGE_FROM_RECORD (rp_suffix rp)) 0) as [E|E];
    cbn [tc_dscc set_tc_buffers]; try (destruct (dx_set_record_exchange_code _ _ _); try done; injection H as ->);
    rewrite Hp; eexists; (split; [reflexivity|]); cbn; by rewrite ?Hex.
Qed.
