(* ===== verification/MessageData.v ===== *)
(** * MessageData: [src/DXPMessageData.c]

    The types of the messages of the protocol, which of them are data or
    subscriptions, the rosters of the messages that the library sends and
    receives, and their names. *)

From Stdlib Require Import Ascii String.
From S2P Require Import Prelude Arrays Algorithms.
Local Open Scope Z_scope.
Local Open Scope c_scope.

(** ** Message types *)

Definition MESSAGE_HEARTBEAT : Z := 0.
Definition MESSAGE_DESCRIBE_PROTOCOL : Z := 1.
Definition MESSAGE_DESCRIBE_RECORDS : Z := 2.
Definition MESSAGE_DESCRIBE_RESERVED : Z := 3.
Definition MESSAGE_PART : Z := 4.
Definition MESSAGE_RAW_DATA : Z := 5.
Definition MESSAGE_TICKER_DATA : Z := 10.
Definition MESSAGE_TICKER_ADD_SUBSCRIPTION : Z := 11.
Definition MESSAGE_TICKER_REMOVE_SUBSCRIPTION : Z := 12.
Definition MESSAGE_STREAM_DATA : Z := 15.
Definition MESSAGE_STREAM_ADD_SUBSCRIPTION : Z := 16.
Definition MESSAGE_STREAM_REMOVE_SUBSCRIPTION : Z := 17.
Definition MESSAGE_HISTORY_DATA : Z := 20.
Definition MESSAGE_HISTORY_ADD_SUBSCRIPTION : Z := 21.
Definition MESSAGE_HISTORY_REMOVE_SUBSCRIPTION : Z := 22.
Definition MESSAGE_TEXT_FORMAT : Z := 0x3d.

Definition dx_is_message_type_valid (type : Z) : bool :=
  (type =? MESSAGE_HEARTBEAT) || (type =? MESSAGE_DESCRIBE_PROTOCOL) ||
  (type =? MESSAGE_DESCRIBE_RECORDS) || (type =? MESSAGE_DESCRIBE_RESERVED) ||
  (type =? MESSAGE_PART) || (type =? MESSAGE_RAW_DATA) ||
  (type =? MESSAGE_TICKER_DATA) || (type =? MESSAGE_TICKER_ADD_SUBSCRIPTION) ||
  (type =? MESSAGE_TICKER_REMOVE_SUBSCRIPTION) ||
  (type =? MESSAGE_STREAM_DATA) || (type =? MESSAGE_STREAM_ADD_SUBSCRIPTION) ||
  (type =? MESSAGE_STREAM_REMOVE_SUBSCRIPTION) ||
  (type =? MESSAGE_HISTORY_DATA) || (type =? MESSAGE_HISTORY_ADD_SUBSCRIPTION) ||
  (type =? MESSAGE_HISTORY_REMOVE_SUBSCRIPTION) || (type =? MESSAGE_TEXT_FORMAT).

Definition dx_is_data_message (type : Z) : bool :=
  (type =? MESSAGE_TICKER_DATA) || (type =? MESSAGE_STREAM_DATA) || (type =? MESSAGE_HISTORY_DATA).

Definition dx_is_subscription_message (type : Z) : bool :=
  (type =? MESSAGE_TICKER_ADD_SUBSCRIPTION) || (type =? MESSAGE_TICKER_REMOVE_SUBSCRIPTION) ||
  (type =? MESSAGE_STREAM_ADD_SUBSCRIPTION) || (type =? MESSAGE_STREAM_REMOVE_SUBSCRIPTION) ||
  (type =? MESSAGE_HISTORY_ADD_SUBSCRIPTION) || (type =? MESSAGE_HISTORY_REMOVE_SUBSCRIPTION).

(** ** Rosters *)

Definition g_send_msg_roster : list Z := [
  MESSAGE_TICKER_ADD_SUBSCRIPTION; MESSAGE_TICKER_REMOVE_SUBSCRIPTION;
  MESSAGE_STREAM_ADD_SUBSCRIPTION; MESSAGE_STREAM_REMOVE_SUBSCRIPTION;
  MESSAGE_HISTORY_ADD_SUBSCRIPTION; MESSAGE_HISTORY_REMOVE_SUBSCRIPTION].
Definition g_recv_msg_roster : list Z := [MESSAGE_TICKER_DATA; MESSAGE_STREAM_DATA; MESSAGE_HISTORY_DATA].

(** [INDEX_BITMASK] of the index of a message in a roster. *)
Definition INDEX_BITMASK (index : nat) : Z := Z.shiftl 1 (Z.of_nat index).

(** The linear search of a roster. *)
Definition search_roster (roster : list Z) (msg : Z) : option (bool * nat) :=
  DX_ARRAY_SEARCH DX_NUMERIC_COMPARATOR roster 0 (length roster) msg false.

Definition dx_get_message_type_name (type : Z) : list Z :=
  chars_of
    (if type =? MESSAGE_HEARTBEAT then "HEARTBEAT"%string
     else if type =? MESSAGE_DESCRIBE_PROTOCOL then "DESCRIBE_PROTOCOL"%string
     else if type =? MESSAGE_DESCRIBE_RECORDS then "DESCRIBE_RECORDS"%string
     else if type =? MESSAGE_TICKER_DATA then "TICKER_DATA"%string
     else if type =? MESSAGE_TICKER_ADD_SUBSCRIPTION then "TICKER_ADD_SUBSCRIPTION"%string
     else if type =? MESSAGE_TICKER_REMOVE_SUBSCRIPTION then "TICKER_REMOVE_SUBSCRIPTION"%string
     else if type =? MESSAGE_STREAM_DATA then "STREAM_DATA"%string
     else if type =? MESSAGE_STREAM_ADD_SUBSCRIPTION then "STREAM_ADD_SUBSCRIPTION"%string
     else if type =? MESSAGE_STREAM_REMOVE_SUBSCRIPTION then "STREAM_REMOVE_SUBSCRIPTION"%string
     else if type =? MESSAGE_HISTORY_DATA then "HISTORY_DATA"%string
     else if type =? MESSAGE_HISTORY_ADD_SUBSCRIPTION then "HISTORY_ADD_SUBSCRIPTION"%string
     else if type =? MESSAGE_HISTORY_REMOVE_SUBSCRIPTION then "HISTORY_REMOVE_SUBSCRIPTION"%string
     else "UNKNOWN MESSAGE TYPE"%string).

(** ** Lemmas *)

(** Where a message is in a roster. *)
Fixpoint roster_index (roster : list Z) (msg : Z) : option nat :=
  match roster with
  | [] => None
  | m :: roster' => if m =? msg then Some 0%nat else S <$> roster_index roster' msg
  end.

Lemma ls_loop_roster msg rest pre :
  ls_loop DX_NUMERIC_COMPARATOR (length rest) (pre ++ rest) msg (length pre) =
    Some (match roster_index rest msg with
          | Some i => (true, (length pre + i)%nat)
          | None => (false, (length pre + length rest)%nat)
          end).
Proof.
  revert pre. induction rest as [|m rest IH]; intros pre; cbn [ls_loop length roster_index].
  - by rewrite Nat.add_0_r.
  - rewrite list_lookup_middle by done. cbn [mbind option_bind].
    assert ((DX_NUMERIC_COMPARATOR m msg =? 0) = (m =? msg)) as ->.
    { unfold DX_NUMERIC_COMPARATOR. destruct (Z.ltb_spec msg m), (Z.ltb_spec m msg), (Z.eqb_spec m msg); lia || done. }
    destruct (m =? msg); [by rewrite Nat.add_0_r|].
    specialize (IH (pre ++ [m])). rewrite <- app_assoc, length_app in IH. cbn in IH.
    rewrite Nat.add_1_r in IH. rewrite IH. destruct (roster_index rest msg); cbn; repeat f_equal; lia.
Qed.

Lemma search_roster_spec roster msg :
  search_roster roster msg =
    Some (match roster_index roster msg with Some i => (true, i) | None => (false, length roster) end).
Proof.
  unfold search_roster, DX_ARRAY_SEARCH. rewrite Nat.sub_0_r. apply (ls_loop_roster msg roster []).
Qed.
