(* ===== verification/Properties.v ===== *)
(** * Properties: [src/DXProperties.c]

    The map of the properties of a connection or of a server: an array of pairs
    of strings sorted by their keys.  The strings are copies that the map owns;
    freeing them is not modelled, and a null pointer is [None]. *)

From Stdlib Require Import Sorted.
From S2P Require Import Prelude Arrays.
Local Open Scope Z_scope.
Local Open Scope c_scope.

(** [dx_compare_strings], which is [wcscmp]: the characters up to the first
    that differs or to a terminator, which the end of the list is too. *)
Fixpoint dx_compare_strings (s1 s2 : list Z) : Z :=
  match s1, s2 with
  | [], _ => DX_NUMERIC_COMPARATOR 0 (default 0 (head s2))
  | c :: _, [] => DX_NUMERIC_COMPARATOR c 0
  | c1 :: s1', c2 :: s2' =>
      if (c1 =? c2) && negb (c1 =? 0) then dx_compare_strings s1' s2' else DX_NUMERIC_COMPARATOR c1 c2
  end.

(** [dx_compare_strings_num]: at most [num] characters. *)
Definition dx_compare_strings_num (s1 s2 : list Z) (num : nat) : Z :=
  dx_compare_strings (take num s1) (take num s2).

Record dx_property_item_t : Type := PropertyItem {
  prop_key : list Z;
  prop_value : option (list Z);
}.

Abbreviation dx_property_map_t := (dx_array dx_property_item_t).

Definition dx_property_item_comparator (item1 item2 : dx_property_item_t) : Z :=
  dx_compare_strings (prop_key item1) (prop_key item2).

Definition dx_property_map_free_collection (props : dx_property_map_t) : dx_property_map_t := DX_EMPTY_ARRAY.

Section operations.
(** Whether [dx_calloc] of so many elements succeeds. *)
Context (alloc : nat -> bool).

Definition dx_create_string_src (src : list Z) : option (list Z) :=
  if alloc (length src + 1)%nat then Some src else None.
Definition dx_create_empty_string : option (list Z) := if alloc 1 then Some [] else None.
Definition value_copy (value : list Z) : option (list Z) :=
  if (0 <? length value)%nat then dx_create_string_src value else dx_create_empty_string.

Definition zero_property : dx_property_item_t := PropertyItem [] None.

(** The strings are copied one by one; a copy that fails is a null pointer. *)
Fixpoint clone_loop (src : list dx_property_item_t) (i : nat) (elements : list dx_property_item_t)
  : option (list dx_property_item_t) :=
  match src with
  | [] => Some elements
  | item :: src' =>
      key ← dx_create_string_src (prop_key item);
      value ← prop_value item;
      elements ← write_at elements i (PropertyItem key (dx_create_string_src value));
      clone_loop src' (S i) elements
  end.

(** The target of a clone is [dest]; the result is [false] where the array cannot
    be reserved.  A key that cannot be copied would be a null pointer, of which
    nothing is known. *)
Definition dx_property_map_clone (src : dx_property_map_t) : M dx_property_map_t bool :=
  put DX_EMPTY_ARRAY;;;
  dest <-- get;;
  r <-- of_option (DX_ARRAY_RESERVE zero_property alloc dest (arr_size src));;
  put r.1;;;
  if (r.2 : bool) then ret false
  else
    dest <-- get;;
    elements <-- of_option (clone_loop (contents src) 0 (arr_elements dest));;
    put (DxArray elements (arr_size dest) (arr_capacity dest));;;
    ret true.

Definition search_property (props : dx_property_map_t) (key : list Z) : option (bool * nat) :=
  DX_ARRAY_BINARY_SEARCH dx_property_item_comparator (arr_elements props) 0 (arr_size props)
    (PropertyItem key None).

(** Without an error code where the memory is short. *)
Definition dx_property_map_set (key value : option (list Z)) : M dx_property_map_t bool :=
  match key, value with
  | Some key, Some value =>
      props <-- get;;
      r <-- of_option (search_property props key);;
      let '(found, index) := r in
      if (found : bool) then
        item <-- of_option (arr_elements props !! index);;
        old <-- of_option (prop_value item);;
        if dx_compare_strings old value =? 0 then ret true
        else
          match value_copy value with
          | None => ret false
          | Some copy =>
              elements <-- of_option (write_at (arr_elements props) index (PropertyItem (prop_key item) (Some copy)));;
              put (DxArray elements (arr_size props) (arr_capacity props));;;
              ret true
          end
      else
        match dx_create_string_src key, value_copy value with
        | Some key, Some copy =>
            d <-- of_option (DX_ARRAY_INSERT zero_property alloc props (PropertyItem key (Some copy)) index);;
            put d.1;;;
            ret (negb d.2)
        | _, _ => ret false
        end
  | _, _ => dx_set_error_code dx_ec_invalid_func_param
  end.

(** The items of [other] are set in order; stops at the first that fails. *)
Fixpoint set_many_loop (other : list dx_property_item_t) : M dx_property_map_t bool :=
  match other with
  | [] => ret true
  | item :: other' =>
      r <-- dx_property_map_set (Some (prop_key item)) (prop_value item);;
      if (r : bool) then set_many_loop other' else ret false
  end.

(** All or nothing: the items are set in a clone, which replaces the map. *)
Definition dx_property_map_set_many (other : dx_property_map_t) : M dx_property_map_t bool := fun props =>
  match dx_property_map_clone props DX_EMPTY_ARRAY with
  | Ok true temp =>
      match set_many_loop (contents other) temp with
      | Ok true temp => Ok true temp
      | Ok false _ => Ok false props
      | Err e _ => Err e props
      | UB => UB
      end
  | Ok false _ => Ok false props
  | Err e _ => Err e props
  | UB => UB
  end.

Definition dx_property_map_contains (key : option (list Z)) : M dx_property_map_t bool :=
  props <-- get;;
  match key with
  | None => dx_set_error_code dx_ec_invalid_func_param
  | Some key => r <-- of_option (search_property props key);; ret r.1
  end.

(** The value where the key is found. *)
Definition dx_property_map_try_get_value (key : option (list Z)) : M dx_property_map_t (option (option (list Z))) :=
  props <-- get;;
  match key with
  | None => dx_set_error_code dx_ec_invalid_func_param
  | Some key =>
      r <-- of_option (search_property props key);;
      let '(found, index) := r in
      if (found : bool) then item <-- of_option (arr_elements props !! index);; ret (Some (prop_value item))
      else ret None
  end.
End operations.

(** ** The order of strings *)

(** Strings have no terminator inside. *)
Definition no_terminator (s : list Z) : Prop := Forall (fun c => c <> 0) s.

Ltac compare_cases :=
  repeat match goal with
  | |- context [?a <? ?b] => destruct (Z.ltb_spec a b)
  | |- context [?a =? ?b] => destruct (Z.eqb_spec a b)
  | H : context [?a <? ?b] |- _ => destruct (Z.ltb_spec a b)
  | H : context [?a =? ?b] |- _ => destruct (Z.eqb_spec a b)
  end; subst; cbn [andb negb] in *.

#[export] Instance strings_comparator : Comparator dx_compare_strings.
Proof.
  split.
  - intros x. induction x as [|c x IH]; [done|]. cbn. unfold DX_NUMERIC_COMPARATOR. compare_cases; lia || done.
  - intros x. induction x as [|c x IH]; intros [|d y]; cbn; unfold DX_NUMERIC_COMPARATOR; compare_cases;
      intros; try lia; try done; try (eapply IH; eassumption); try (apply IH; lia).
  - intros x. induction x as [|c x IH]; intros [|d y] [|e z]; cbn; unfold DX_NUMERIC_COMPARATOR;
      compare_cases; intros; try lia; try done; try (eapply IH; eassumption); try (apply IH; lia).
  - intros x. induction x as [|c x IH]; intros [|d y] [|e z]; cbn; unfold DX_NUMERIC_COMPARATOR;
      compare_cases; intros; try lia; try done; try (eapply IH; eassumption); try (apply IH; lia).
Qed.

#[export] Instance property_comparator : Comparator dx_property_item_comparator.
Proof.
  split; unfold dx_property_item_comparator; intros.
  - apply cmp_refl.
  - apply cmp_sym.
  - by eapply cmp_trans.
  - by apply cmp_eq.
Qed.

Lemma compare_strings_eq s1 s2 : no_terminator s1 -> no_terminator s2 -> dx_compare_strings s1 s2 = 0 -> s1 = s2.
Proof.
  intros H1. revert s2. induction H1 as [|c s1 Hc Hs IH]; intros [|d s2] H2; cbn; unfold DX_NUMERIC_COMPARATOR;
    [done|apply Forall_inv in H2|..|apply Forall_cons in H2 as [Hd H2]]; compare_cases; intros; try lia; try done.
  f_equal. by apply IH.
Qed.

(** ** The map *)

Definition item_ok (item : dx_property_item_t) : Prop :=
  no_terminator (prop_key item) /\ exists value, prop_value item = Some value /\ no_terminator value.

Record props_ok (props : dx_property_map_t) : Prop := {
  props_array : array_wf props;
  props_sorted : sorted_by dx_property_item_comparator (contents props);
  props_items : Forall item_ok (contents props);
}.

Definition entry (item : dx_property_item_t) : list Z * list Z :=
  (prop_key item, default [] (prop_value item)).
Definition items_map (items : list dx_property_item_t) : gmap (list Z) (list Z) :=
  list_to_map (entry <$> items).
Definition props_map (props : dx_property_map_t) : gmap (list Z) (list Z) := items_map (contents props).

Lemma items_nodup items : Forall item_ok items -> sorted_by dx_property_item_comparator items ->
  NoDup (entry <$> items).*1.
Proof.
  rewrite <- list_fmap_compose. intros _ H. induction H as [|i items Hs IH Hall]; [constructor|].
  constructor; [|done]. intros (j & E & Hj)%list_elem_of_fmap. rewrite Forall_forall in Hall.
  specialize (Hall j Hj). unfold cmp_lt, dx_property_item_comparator in Hall. cbn in E.
  rewrite E, cmp_refl in Hall. lia.
Qed.

Lemma items_map_middle l1 item l2 :
  Forall item_ok (l1 ++ item :: l2) -> sorted_by dx_property_item_comparator (l1 ++ item :: l2) ->
  items_map (l1 ++ item :: l2) = <[prop_key item := default [] (prop_value item)]> (items_map (l1 ++ l2)) /\
  items_map (l1 ++ l2) !! prop_key item = None.
Proof.
  intros Hi Hs. pose proof (items_nodup _ Hi Hs) as Hnd. unfold items_map.
  rewrite fmap_app, fmap_cons in *. rewrite fmap_app. by apply list_to_map_middle.
Qed.

(** The search of a key: its item, or where one belongs. *)
Lemma search_property_spec props key :
  props_ok props -> no_terminator key -> exists found l1 l2,
  search_property props key = Some (found, length l1) /\ contents props = l1 ++ l2 /\
  if found : bool then exists item l3, l2 = item :: l3 /\ prop_key item = key /\
    props_map props !! key = prop_value item
  else (forall value, sorted_by dx_property_item_comparator (l1 ++ PropertyItem key value :: l2)) /\
    props_map props !! key = None.
Proof.
  intros [Ha Hs Hi] Hk. unfold search_property.
  destruct (array_search_spec _ props (PropertyItem key None) Ha Hs) as (found & l1 & l2 & H1 & H2 & H3).
  exists found, l1, l2. split_and!; [done|done|]. unfold props_map. rewrite H2 in *. destruct found.
  - destruct H3 as (item & l3 & -> & E). exists item, l3. split; [done|].
    pose proof (items_map_middle _ _ _ Hi Hs) as [-> _].
    apply Forall_app in Hi as [_ Hi]. apply Forall_inv in Hi as [Hk' (value & Hv & _)].
    apply compare_strings_eq in E; [|done..]. cbn in E. subst key. by rewrite Hv, lookup_insert_eq.
  - assert (forall value, sorted_by dx_property_item_comparator (l1 ++ PropertyItem key value :: l2)) as Hins.
    { intros value. by apply (sorted_by_replace_middle _ l1 (PropertyItem key None)); [apply (cmp_refl (cmp := dx_compare_strings))|]. }
    split; [done|].
    assert (Forall item_ok (l1 ++ PropertyItem key (Some []) :: l2)) as Hi'.
    { apply Forall_app in Hi as [? ?]. apply Forall_app. split; [done|]. constructor; [|done].
      split; [done|]. exists []. split; [done|constructor]. }
    by destruct (items_map_middle _ _ _ Hi' (Hins (Some []))) as [_ Hn].
Qed.

Section properties.
Context (alloc : nat -> bool) (alloc_ok : forall n, alloc n = true).

Lemma value_copy_ok value : value_copy alloc value = Some value.
Proof using alloc_ok.
  unfold value_copy, dx_create_string_src, dx_create_empty_string. rewrite !alloc_ok. by destruct value.
Qed.

Lemma map_set_spec props key value :
  props_ok props -> no_terminator key -> no_terminator value ->
  exists props', dx_property_map_set alloc (Some key) (Some value) props = Ok true props' /\
    props_ok props' /\ props_map props' = <[key := value]> (props_map props).
Proof using alloc_ok.
  intros Hok Hk Hv. destruct (search_property_spec props key Hok Hk) as (found & l1 & l2 & H1 & H2 & H3).
  pose proof Hok as [Ha Hs Hi]. unfold dx_property_map_set. unfold_m. rewrite H1. cbn beta iota. destruct found.
  - destruct H3 as (item & l3 & -> & <- & Hm).
    destruct (array_set_spec props l1 item l3 (PropertyItem (prop_key item) (Some value)) Ha H2)
      as (Hlk & l & Hw & Ha' & Hc).
    rewrite Hlk, value_copy_ok. cbn beta iota.
    pose proof Hi as Hi0. rewrite H2 in Hi, Hs. apply Forall_app in Hi as [Hi1 [(Hk' & old & Ho & Hold) Hi3]%Forall_cons].
    rewrite Ho. cbn beta iota. destruct (Z.eqb_spec (dx_compare_strings old value) 0) as [E|E].
    { apply compare_strings_eq in E; [|done..]. subst old. exists props. split_and!; [done|done|].
      by rewrite insert_id by (by rewrite Hm, Ho). }
    rewrite Hw. cbn beta iota.
    set (item' := PropertyItem (prop_key item) (Some value)) in *.
    assert (sorted_by dx_property_item_comparator (l1 ++ item' :: l3)) as Hs'.
    { apply (sorted_by_replace_middle _ l1 item); [apply (cmp_refl (cmp := dx_compare_strings))|done]. }
    assert (Forall item_ok (l1 ++ item' :: l3)) as Hi'.
    { apply Forall_app. split; [done|]. constructor; [|done]. split; [done|]. by exists value. }
    eexists. split; [reflexivity|]. split; [split; by rewrite ?Hc|].
    unfold props_map. rewrite Hc, H2. rewrite H2 in Hi0.
    destruct (items_map_middle _ _ _ Hi' Hs') as [-> _]. destruct (items_map_middle _ _ _ Hi0 Hs) as [-> _].
    by rewrite insert_insert_eq.
  - destruct H3 as [Hins Hm]. unfold dx_create_string_src. rewrite alloc_ok, value_copy_ok.
    destruct (array_insert_spec zero_property alloc props (PropertyItem key (Some value)) (length l1) Ha)
      as (props' & Hp & Ha' & Hc); [rewrite <- length_contents, H2, length_app by done; lia|done|].
    rewrite Hp. cbn [fst snd negb]. rewrite H2, take_app_length, drop_app_length in Hc.
    rewrite H2 in Hi. apply Forall_app in Hi as [Hi1 Hi2].
    assert (Forall item_ok (l1 ++ PropertyItem key (Some value) :: l2)) as Hi'.
    { apply Forall_app. split; [done|]. constructor; [|done]. split; [done|]. by exists value. }
    exists props'. split; [done|]. split; [split; by rewrite ?Hc|].
    unfold props_map. rewrite Hc, H2. by destruct (items_map_middle _ _ _ Hi' (Hins (Some value))) as [-> _].
Qed.

Lemma try_get_spec props key :
  props_ok props -> no_terminator key ->
  dx_property_map_try_get_value (Some key) props = Ok (Some <$> props_map props !! key) props /\
  dx_property_map_contains (Some key) props = Ok (bool_decide (is_Some (props_map props !! key))) props.
Proof using Type.
  intros Hok Hk. destruct (search_property_spec props key Hok Hk) as (found & l1 & l2 & H1 & H2 & H3).
  pose proof Hok as [Ha Hs Hi]. unfold dx_property_map_try_get_value, dx_property_map_contains. unfold_m.
  rewrite H1. cbn beta iota. destruct found.
  - destruct H3 as (item & l3 & -> & <- & ->). rewrite H2 in Hi.
    apply Forall_app in Hi as [_ [_ (value & Hv & _)]%Forall_inv]. rewrite Hv.
    destruct (array_set_spec props l1 item l3 item Ha H2) as [-> _]. rewrite Hv. done.
  - destruct H3 as [_ ->]. done.
Qed.

Lemma clone_loop_spec items elements i :
  Forall item_ok items -> (i + length items <= length elements)%nat ->
  exists elements', clone_loop alloc items i elements = Some elements' /\ length elements' = length elements /\
    take i elements' = take i elements /\ take (length items) (drop i elements') = items.
Proof using alloc_ok.
  intros Hi. revert i elements. induction Hi as [|item items (Hk & value & Hv & Hvs) Hi IH]; intros i elements Hl.
  - by exists elements.
  - cbn [clone_loop]. unfold dx_create_string_src. rewrite alloc_ok. cbn [mbind option_bind].
    rewrite Hv. cbn [mbind option_bind]. rewrite alloc_ok.
    cbn [length] in Hl. rewrite write_at_in by lia. cbn [mbind option_bind].
    destruct (IH (S i) (<[i := PropertyItem (prop_key item) (Some value)]> elements)) as (e' & -> & Hl' & H1 & H2).
    { rewrite length_insert. lia. }
    rewrite length_insert in Hl'. exists e'. split_and!; [done|done| |].
    + apply (f_equal (take i)) in H1. rewrite !take_take, !Nat.min_l in H1 by lia. rewrite H1.
      by rewrite take_insert_ge by lia.
    + assert (e' !! i = Some item) as Hlk.
      { assert (take (S i) e' !! i = Some item) as H.
        { rewrite H1, lookup_take_lt, list_lookup_insert_eq by lia. rewrite <- Hv. by destruct item. }
        by rewrite lookup_take_lt in H by lia. }
      rewrite (drop_S e' item i) by done. cbn [length]. by rewrite firstn_cons, H2.
Qed.

Lemma clone_spec src dest :
  props_ok src -> exists props, dx_property_map_clone alloc src dest = Ok true props /\
    props_ok props /\ props_map props = props_map src.
Proof using alloc_ok.
  intros [Ha Hs Hi]. unfold dx_property_map_clone. unfold_m.
  destruct (array_reserve_spec zero_property alloc DX_EMPTY_ARRAY (arr_size src) array_wf_empty alloc_ok)
    as (a & -> & Ha' & Hsz & _). cbn beta iota. cbn [fst snd]. cbn [arr_size DX_EMPTY_ARRAY] in Hsz.
  rewrite Nat.max_0_r in Hsz. pose proof (length_contents src Ha) as Hl. destruct Ha' as [Hc1 Hc2].
  destruct (clone_loop_spec (contents src) (arr_elements a) 0 Hi) as (e & -> & He & _ & Hd); [lia|].
  cbn beta iota. eexists. split; [reflexivity|].
  assert (contents (DxArray e (arr_size a) (arr_capacity a)) = contents src) as Hc.
  { unfold contents at 1. cbn [arr_size arr_elements]. by rewrite Hsz, <- Hl. }
  split; [|unfold props_map; by rewrite Hc]. split; rewrite ?Hc; [|done..]. split; simpl; [done|]. by rewrite He.
Qed.

Lemma set_many_loop_spec items props :
  Forall item_ok items -> props_ok props -> exists props',
  set_many_loop alloc items props = Ok true props' /\ props_ok props' /\
  props_map props' = foldl (fun m item => <[prop_key item := default [] (prop_value item)]> m) (props_map props) items.
Proof using alloc_ok.
  intros Hi. revert props. induction Hi as [|item items (Hk & value & Hv & Hvs) Hi IH]; intros props Hok.
  - by exists props.
  - cbn [set_many_loop foldl]. rewrite Hv. unfold checked_call.
    destruct (map_set_spec props (prop_key item) value Hok Hk Hvs) as (p & -> & Hp & Hm).
    destruct (IH p Hp) as (p' & -> & Hp' & Hm'). exists p'. by rewrite Hm', Hm.
Qed.

(** Setting the items of a sorted array is the union of the maps. *)
Lemma set_items_union items m :
  Forall item_ok items -> sorted_by dx_property_item_comparator items ->
  foldl (fun m item => <[prop_key item := default [] (prop_value item)]> m) m items = items_map items ∪ m.
Proof using Type.
  intros Hi Hs. revert m. induction items as [|item items IH]; intros m; [by apply (symmetry (left_id_L ∅ (∪) m))|].
  pose proof (items_map_middle [] item items Hi Hs) as [E Hnone]. cbn [app] in E, Hnone.
  apply Forall_cons in Hi as [_ Hi]. inversion_clear Hs as [|? ? Hs' _].
  cbn [foldl]. rewrite IH by done. rewrite E, <- insert_union_l. by rewrite insert_union_r.
Qed.
End properties.

(** ** Properties *)

(** C31: the sorted array of properties is a finite map of strings: setting a
    property inserts it, setting many is a union that the new properties win,
    a clone is the same map, and reading a property looks it up; the array stays
    sorted and a failure is impossible while there is memory. *)
Theorem property_map_refines (alloc : nat -> bool) (props : dx_property_map_t) :
  (forall n, alloc n = true) -> props_ok props ->
  (forall key value, no_terminator key -> no_terminator value ->
     exists props', dx_property_map_set alloc (Some key) (Some value) props = Ok true props' /\
       props_ok props' /\ props_map props' = <[key := value]> (props_map props)) /\
  (forall other, props_ok other ->
     exists props', dx_property_map_set_many alloc other props = Ok true props' /\
       props_ok props' /\ props_map props' = props_map other ∪ props_map props) /\
  (forall key, no_terminator key ->
     dx_property_map_try_get_value (Some key) props = Ok (Some <$> props_map props !! key) props /\
     dx_property_map_contains (Some key) props = Ok (bool_decide (is_Some (props_map props !! key))) props).
Proof.
  intros Ha Hok. split_and!.
  - intros key value Hk Hv. by apply map_set_spec.
  - intros other [Ho1 Ho2 Ho3]. unfold dx_property_map_set_many.
    destruct (clone_spec alloc Ha props DX_EMPTY_ARRAY Hok) as (p & -> & Hp & Hm).
    destruct (set_many_loop_spec alloc Ha (contents other) p Ho3 Hp) as (p' & -> & Hp' & Hm').
    exists p'. split_and!; [done|done|]. rewrite Hm', Hm. by apply set_items_union.
  - intros key Hk. by apply try_get_spec.
Qed.

Lemma no_props_ok : props_ok DX_EMPTY_ARRAY.
Proof. split; [apply array_wf_empty|constructor|constructor]. Qed.

Lemma property_map_refines_witness :
  exists props', dx_property_map_set (fun _ => true) (Some [97]) (Some [98]) DX_EMPTY_ARRAY = Ok true props' /\
    props_ok props' /\ props_map props' = {[ [97] := [98] ]}.
Proof.
  apply (property_map_refines (fun _ => true) DX_EMPTY_ARRAY (fun _ => eq_refl) no_props_ok); by repeat constructor.
Defined.
