(* ===== verification/NetworkContext.v ===== *)
(** * NetworkContext: sending and the properties of the protocol ([src/DXNetwork.c])

    The context of a connection in the network, as far as the messages of the
    client use it: the flags of the fields that are set, the properties of the
    protocol with their backup, and the bytes that the socket has taken.  The
    socket is a parameter; TLS, which is an option of the build, and the mutexes
    are not modelled. *)

From Stdlib Require Import Ascii String.
From S2P Require Import Prelude Arrays Algorithms EventData Properties ConfigurationDeserializer.
Local Open Scope Z_scope.
Local Open Scope c_scope.

Definition SOCKET_FIELD_FLAG : Z := Z.shiftl 1 0.
Definition DUMPING_RAW_DATA_FIELD_FLAG : Z := Z.shiftl 1 5.
Definition PROPERTIES_BACKUP_FLAG : Z := Z.shiftl 1 8.

Definition DX_PROPERTY_AUTH : list Z := chars_of "authorization".
Definition DX_AUTH_BASIC_KEY : list Z := chars_of "Basic".

Record network_ctx : Type := NetworkCtx {
  nw_flags : Z;
  nw_properties : dx_property_map_t;
  nw_prop_backup : dx_property_map_t;
  nw_out : list Z;
}.

Definition set_nw_flags (x : Z) (s : network_ctx) : network_ctx :=
  NetworkCtx x (nw_properties s) (nw_prop_backup s) (nw_out s).
Definition set_nw_properties (x : dx_property_map_t) (s : network_ctx) : network_ctx :=
  NetworkCtx (nw_flags s) x (nw_prop_backup s) (nw_out s).
Definition set_nw_prop_backup (x : dx_property_map_t) (s : network_ctx) : network_ctx :=
  NetworkCtx (nw_flags s) (nw_properties s) x (nw_out s).
Definition set_nw_out (x : list Z) (s : network_ctx) : network_ctx :=
  NetworkCtx (nw_flags s) (nw_properties s) (nw_prop_backup s) x.

Section network.
(** Whether [dx_calloc] of so many bytes succeeds, [mbsrtowcs], and the socket:
    of a buffer, after the bytes that it has taken before, it takes a number of
    bytes or fails. *)
Context (calloc_ok : Z -> bool) (mbsrtowcs : list Z -> option (list Z)).
Context (dx_send : list Z -> list Z -> Z + dx_error_code).

Let alloc (n : nat) : bool := calloc_ok (Z.of_nat n).

(** ** Sending *)

(** Every round sends, where the socket takes a byte at least: the bytes are
    rounds enough.  Data is dropped while the raw data is read from a file. *)
Fixpoint send_loop (n : nat) (buffer : list Z) : M network_ctx unit :=
  match n with
  | O => undefined
  | S n' =>
      s <-- get;;
      if IS_FLAG_SET (nw_flags s) DUMPING_RAW_DATA_FIELD_FLAG then ret tt
      else
        match dx_send (nw_out s) buffer with
        | inr e => dx_set_error_code e
        | inl sent_count =>
            let k := Z.to_nat sent_count in
            put (set_nw_out (nw_out s ++ take k buffer) s);;;
            if (0 <? length (drop k buffer))%nat then send_loop n' (drop k buffer) else ret tt
        end
  end.

(** [None] is a null pointer. *)
Definition dx_send_data (buffer : option (list Z)) : M network_ctx unit :=
  match buffer with
  | None | Some [] => dx_set_error_code dx_ec_invalid_func_param_internal
  | Some buffer =>
      s <-- get;;
      if negb (IS_FLAG_SET (nw_flags s) (Z.lor SOCKET_FIELD_FLAG DUMPING_RAW_DATA_FIELD_FLAG))
      then dx_set_error_code dx_nec_connection_closed
      else send_loop (length buffer) buffer
  end.

(** ** The properties of the protocol *)

Definition on_properties {A} (m : M dx_property_map_t A) : M network_ctx A := fun s =>
  match m (nw_properties s) with
  | Ok a p => Ok a (set_nw_properties p s)
  | Err e p => Err e (set_nw_properties p s)
  | UB => UB
  end.

Definition dx_protocol_property_clear : M network_ctx unit :=
  s <-- get;;
  put (set_nw_prop_backup (dx_property_map_free_collection (nw_prop_backup s))
    (set_nw_properties (dx_property_map_free_collection (nw_properties s)) s)).

Definition dx_protocol_property_make_backup : M network_ctx bool := fun s =>
  match dx_property_map_clone alloc (nw_properties s) (nw_prop_backup s) with
  | Ok r p => Ok r (set_nw_prop_backup p s)
  | Err e p => Err e (set_nw_prop_backup p s)
  | UB => UB
  end.

Definition dx_protocol_property_restore_backup : M network_ctx bool :=
  s <-- get;;
  put (set_nw_properties (dx_property_map_free_collection (nw_properties s)) s);;;
  s <-- get;;
  on_properties (dx_property_map_clone alloc (nw_prop_backup s)).

Definition dx_protocol_property_set (key value : option (list Z)) : M network_ctx bool :=
  on_properties (dx_property_map_set alloc key value).
Definition dx_protocol_property_set_many (other : dx_property_map_t) : M network_ctx bool :=
  on_properties (dx_property_map_set_many alloc other).
Definition dx_protocol_property_get_all : M network_ctx dx_property_map_t :=
  s <-- get;; ret (nw_properties s).
Definition dx_protocol_property_contains (key : option (list Z)) : M network_ctx bool :=
  on_properties (dx_property_map_contains key).

(** A copy of the properties; a string that cannot be copied is a null pointer.
    A value that is a null pointer is read. *)
Fixpoint snapshot_loop (elements : list dx_property_item_t) : option (list (option (list Z) * option (list Z))) :=
  match elements with
  | [] => Some []
  | item :: elements' =>
      value ← prop_value item;
      rest ← snapshot_loop elements';
      Some ((dx_create_string_src alloc (prop_key item), dx_create_string_src alloc value) :: rest)
  end.
Definition dx_protocol_property_get_snapshot : M network_ctx (list (option (list Z) * option (list Z))) :=
  s <-- get;;
  if negb (alloc (arr_size (nw_properties s))) then dx_set_error_code dx_mec_insufficient_memory
  else of_option (snapshot_loop (contents (nw_properties s))).

(** ** Authorization *)

(** [None] is a null pointer for the user or the password, and for the result;
    the outer [None] of the result is a write through a null pointer. *)
Definition dx_protocol_get_basic_auth_data (user password : option (list Z)) : option (option (list Z)) :=
  match user, password with
  | Some user, Some password =>
      let credentials_size := (length user + length password + 1)%nat in
      if negb (calloc_ok (Z.of_nat credentials_size + 1)) then None
      else
        let credentials_buf := user ++ [58] ++ password in
        let base64_size := dx_base64_length (Z.of_nat credentials_size) in
        if negb (calloc_ok (base64_size + 1)) then None
        else Some (dx_base64_encode credentials_buf (Z.to_nat base64_size))
  | _, _ => Some None
  end.

(** The value is [<scheme> <data>]; a string that cannot be made is a null
    pointer, which [swprintf] reads or writes. *)
Definition dx_protocol_configure_custom_auth (authscheme authdata : option (list Z)) : M network_ctx bool :=
  match authscheme, authdata with
  | Some authscheme, Some authdata =>
      let buf_size := (length authscheme + length authdata + 2)%nat in
      if negb (calloc_ok (4 * (Z.of_nat buf_size + 1))) then undefined
      else
        w_authscheme <-- of_option (mjoin (dx_ansi_to_unicode calloc_ok mbsrtowcs authscheme));;
        w_authdata <-- of_option (mjoin (dx_ansi_to_unicode calloc_ok mbsrtowcs authdata));;
        let buf := w_authscheme ++ [32] ++ w_authdata in
        dx_protocol_property_set (Some DX_PROPERTY_AUTH) (Some (take (buf_size - 1) buf))
  | _, _ => dx_set_error_code dx_ec_invalid_func_param
  end.

Definition dx_protocol_configure_basic_auth (user password : option (list Z)) : M network_ctx bool :=
  match dx_protocol_get_basic_auth_data user password with
  | None => undefined
  | Some None => ret false
  | Some (Some base64_buf) => dx_protocol_configure_custom_auth (Some DX_AUTH_BASIC_KEY) (Some base64_buf)
  end.
End network.
