(* ===== verification/Decimals.v ===== *)
(** * Decimals: [src/Decimal.c] and [src/WideDecimal.cpp]

    The two encodings of decimal numbers in integers, read as doubles.  The
    powers of ten that multiply or divide are exact doubles.  The wide decimals
    that need more than one rounding go through the strings of the C++ library,
    which are a parameter. *)

From Stdlib Require Import SpecFloat.
From S2P Require Import Prelude EventData Doubles.
Local Open Scope Z_scope.

Definition double_of_int (n : Z) : dxf_double_t := binary_normalize 53 1024 n 0 false.
Definition double_mul (x y : dxf_double_t) : dxf_double_t := SFmul 53 1024 x y.
Definition double_div (x y : dxf_double_t) : dxf_double_t := SFdiv 53 1024 x y.
Definition double_infinity : dxf_double_t := S754_infinity false.

(** [(int)x]: towards zero, undefined when the result is no [int]. *)
Definition double_to_int (x : dxf_double_t) : option Z :=
  match x with
  | S754_zero _ => Some 0
  | S754_finite s m e =>
      let n := if 0 <=? e then Z.pos m * 2 ^ e else Z.pos m / 2 ^ (- e) in
      let n := if s then - n else n in
      if (-2147483648 <=? n) && (n <=? 2147483647) then Some n else None
  | _ => None
  end.

(** ** Decimals of 32 bits *)

Definition STANDARD_MANTISSA_SHIFT : Z := 4.
Definition EXTRA_PRECISION_MANTISSA_SHIFT : Z := 7.
Definition UNITY_POWER : Z := 9.

(** [MULTIPLIERS] up to [UNITY_POWER] and [DIVISORS] above. *)
Definition MULTIPLIERS (power : Z) : dxf_double_t :=
  if power =? 0 then double_infinity else double_of_int (10 ^ (9 - power)).
Definition DIVISORS (power : Z) : dxf_double_t := double_of_int (10 ^ (power - 9)).
Definition EXTRA_PRECISION_DIVISORS (i : Z) : Z :=
  if i =? 2 then 10000000 else if i =? 3 then 100000000 else if i =? 6 then 128 else 0.

Definition dx_decimal_int_to_double (integer : Z) : dxf_double_t :=
  let power := Z.land integer 0x0F in
  let divisor :=
    if power =? 0 then EXTRA_PRECISION_DIVISORS (Z.land (Z.shiftr integer STANDARD_MANTISSA_SHIFT) 0x07) else 0 in
  if negb (divisor =? 0)
  then double_div (double_of_int (Z.shiftr integer EXTRA_PRECISION_MANTISSA_SHIFT)) (double_of_int divisor)
  else
    let mantissa := double_of_int (Z.shiftr integer STANDARD_MANTISSA_SHIFT) in
    if power <=? UNITY_POWER then double_mul mantissa (MULTIPLIERS power) else double_div mantissa (DIVISORS power).

(** ** Wide decimals *)

Definition MAX_DOUBLE_SIGNIFICAND : Z := 2 ^ 53 - 1.
Definition BIAS : Z := 128.
Definition EXACT_DOUBLE_POWERS : Z := 22.

Section wide.
(** [Double::parseDouble(toString(wide))] *)
Context (parse_wide : Z -> dxf_double_t).

Definition dx_wide_decimal_long_to_double (wide : Z) : dxf_double_t :=
  let significand := Z.quot wide 256 in
  let rank := Z.land wide 0xFF in
  if (significand <=? MAX_DOUBLE_SIGNIFICAND) && (- significand <=? MAX_DOUBLE_SIGNIFICAND) then
    if BIAS <? rank then
      if rank <=? BIAS + EXACT_DOUBLE_POWERS
      then double_div (double_of_int significand) (double_of_int (10 ^ (rank - BIAS)))
      else parse_wide wide
    else if rank =? BIAS then double_of_int significand
    else if BIAS - EXACT_DOUBLE_POWERS <=? rank
    then double_mul (double_of_int significand) (double_of_int (10 ^ (BIAS - rank)))
    else if rank =? 0 then
      (if 0 <? significand then double_infinity
       else if significand <? 0 then S754_infinity true else double_nan)
    else parse_wide wide
  else parse_wide wide.
End wide.

(** ** Lemmas *)

(** The significand of a wide decimal is cut towards zero: the number whose
    bytes are a negative significand above a rank that is not 0 is read with the
    significand plus one. *)
Lemma negative_wide_significand significand rank :
  significand < 0 -> 0 < rank < 256 ->
  Z.quot (significand * 256 + rank) 256 = significand + 1 /\ Z.land (significand * 256 + rank) 0xFF = rank.
Proof.
  intros Hs Hr. split; [|rewrite land_255; zlia].
  apply Z.quot_unique_exact with (r := rank - 256) || symmetry; try zlia.
Qed.
