(* ===== verification/RecordFields.v ===== *)
(** * RecordFields: [src/RecordFieldSetters.c] and [src/RecordBuffers.c]

    The setters and the getters of the fields of the records.  They take a
    pointer to a value of the type of the field: here a tagged value, which is
    undefined ([None]) where its type is not that of the field.  An [int], a
    character and a day are one type of 32 bits.  The buffer of a kind of
    record is allocated with zeros when it is first used and keeps what the
    last record left in it. *)

From Stdlib Require Import Ascii String SpecFloat.
From S2P Require Import Prelude Algorithms EventData ConfigurationDeserializer RecordData.
Local Open Scope Z_scope.
Local Open Scope string_scope.

(** ** Values *)

Inductive field_value : Type :=
  | fv_byte (n : Z) | fv_short (n : Z) | fv_char (n : Z) | fv_int (n : Z) | fv_dayid (n : Z)
  | fv_long (n : Z) | fv_double (x : dxf_double_t) | fv_string (s : option (list Z))
  | fv_bytes (a : dxf_byte_array_t).

Inductive field_type : Set := ft_int | ft_char | ft_dayid | ft_long | ft_double | ft_string | ft_bytes.

(** A value read through a pointer to the type of the field. *)
Definition as_int (v : field_value) : option Z :=
  match v with fv_int n | fv_char n | fv_dayid n => Some n | _ => None end.
Definition as_char : field_value -> option Z := as_int.
Definition as_dayid : field_value -> option Z := as_int.
Definition as_long (v : field_value) : option Z := match v with fv_long n => Some n | _ => None end.
Definition as_double (v : field_value) : option dxf_double_t := match v with fv_double x => Some x | _ => None end.
Definition as_string (v : field_value) : option (option (list Z)) :=
  match v with fv_string s => Some s | _ => None end.
Definition as_bytes (v : field_value) : option dxf_byte_array_t :=
  match v with fv_bytes a => Some a | _ => None end.

(** [GENERIC_VALUE_GETTER_NAME_PROTO] of a type. *)
Definition generic_value_getter (t : field_type) : field_value :=
  match t with
  | ft_int => fv_int 0
  | ft_char => fv_char 0
  | ft_dayid => fv_dayid 0
  | ft_long => fv_long 0
  | ft_double => fv_double double_zero
  | ft_string => fv_string (Some (chars_of "<Default>"))
  | ft_bytes => fv_bytes (ByteArray [] 0)
  end.

(** ** Setters and getters

    [members] are the types of the default values of the fields, [None] is a
    member that the structure does not have or a value of another type. *)

(** dx_trade_t *)

Definition dx_trade_members : list (string * field_type) := [
  ("time", ft_int); ("sequence", ft_int); ("time_nanos", ft_int); ("exchange_code", ft_char);
  ("price", ft_double); ("size", ft_double); ("tick", ft_int); ("change", ft_double); ("day_id", ft_dayid);
  ("day_volume", ft_double); ("day_turnover", ft_double); ("flags", ft_int)].

Definition dx_trade_setter (member : string) (v : field_value) (r : dx_trade_t) : option dx_trade_t :=
  let '(Build_dx_trade_t time sequence time_nanos exchange_code price size tick change day_id
      day_volume day_turnover flags) := r in
  if (member =? "time")%string then
    x ← as_int v; Some (Build_dx_trade_t x sequence time_nanos exchange_code price size tick change day_id
      day_volume day_turnover flags)
  else if (member =? "sequence")%string then
    x ← as_int v; Some (Build_dx_trade_t time x time_nanos exchange_code price size tick change day_id
      day_volume day_turnover flags)
  else if (member =? "time_nanos")%string then
    x ← as_int v; Some (Build_dx_trade_t time sequence x exchange_code price size tick change day_id
      day_volume day_turnover flags)
  else if (member =? "exchange_code")%string then
    x ← as_char v; Some (Build_dx_trade_t time sequence time_nanos x price size tick change day_id
      day_volume day_turnover flags)
  else if (member =? "price")%string then
    x ← as_double v; Some (Build_dx_trade_t time sequence time_nanos exchange_code x size tick change
      day_id day_volume day_turnover flags)
  else if (member =? "size")%string then
    x ← as_double v; Some (Build_dx_trade_t time sequence time_nanos exchange_code price x tick change
      day_id day_volume day_turnover flags)
  else if (member =? "tick")%string then
    x ← as_int v; Some (Build_dx_trade_t time sequence time_nanos exchange_code price size x change day_id
      day_volume day_turnover flags)
  else if (member =? "change")%string then
    x ← as_double v; Some (Build_dx_trade_t time sequence time_nanos exchange_code price size tick x
      day_id day_volume day_turnover flags)
  else if (member =? "day_id")%string then
    x ← as_dayid v; Some (Build_dx_trade_t time sequence time_nanos exchange_code price size tick change x
      day_volume day_turnover flags)
  else if (member =? "day_volume")%string then
    x ← as_double v; Some (Build_dx_trade_t time sequence time_nanos exchange_code price size tick change
      day_id x day_turnover flags)
  else if (member =? "day_turnover")%string then
    x ← as_double v; Some (Build_dx_trade_t time sequence time_nanos exchange_code price size tick change
      day_id day_volume x flags)
  else if (member =? "flags")%string then
    x ← as_int v; Some (Build_dx_trade_t time sequence time_nanos exchange_code price size tick change
      day_id day_volume day_turnover x)
  else None.

Definition dx_trade_getter (member : string) (r : dx_trade_t) : option field_value :=
  if (member =? "time")%string then Some (fv_int (r_trade_time r))
  else if (member =? "sequence")%string then Some (fv_int (r_trade_sequence r))
  else if (member =? "time_nanos")%string then Some (fv_int (r_trade_time_nanos r))
  else if (member =? "exchange_code")%string then Some (fv_char (r_trade_exchange_code r))
  else if (member =? "price")%string then Some (fv_double (r_trade_price r))
  else if (member =? "size")%string then Some (fv_double (r_trade_size r))
  else if (member =? "tick")%string then Some (fv_int (r_trade_tick r))
  else if (member =? "change")%string then Some (fv_double (r_trade_change r))
  else if (member =? "day_id")%string then Some (fv_dayid (r_trade_day_id r))
  else if (member =? "day_volume")%string then Some (fv_double (r_trade_day_volume r))
  else if (member =? "day_turnover")%string then Some (fv_double (r_trade_day_turnover r))
  else if (member =? "flags")%string then Some (fv_int (r_trade_flags r))
  else None.

Definition zero_trade : dx_trade_t := Build_dx_trade_t 0 0 0 0 double_zero double_zero 0 double_zero 0
  double_zero double_zero 0.

(** dx_quote_t *)

Definition dx_quote_members : list (string * field_type) := [
  ("sequence", ft_int); ("time_nanos", ft_int); ("bid_time", ft_int); ("bid_exchange_code", ft_char);
  ("bid_price", ft_double); ("bid_size", ft_double); ("ask_time", ft_int); ("ask_exchange_code", ft_char);
  ("ask_price", ft_double); ("ask_size", ft_double)].

Definition dx_quote_setter (member : string) (v : field_value) (r : dx_quote_t) : option dx_quote_t :=
  let '(Build_dx_quote_t sequence time_nanos bid_time bid_exchange_code bid_price bid_size ask_time
      ask_exchange_code ask_price ask_size) := r in
  if (member =? "sequence")%string then
    x ← as_int v; Some (Build_dx_quote_t x time_nanos bid_time bid_exchange_code bid_price bid_size
      ask_time ask_exchange_code ask_price ask_size)
  else if (member =? "time_nanos")%string then
    x ← as_int v; Some (Build_dx_quote_t sequence x bid_time bid_exchange_code bid_price bid_size ask_time
      ask_exchange_code ask_price ask_size)
  else if (member =? "bid_time")%string then
    x ← as_int v; Some (Build_dx_quote_t sequence time_nanos x bid_exchange_code bid_price bid_size
      ask_time ask_exchange_code ask_price ask_size)
  else if (member =? "bid_exchange_code")%string then
    x ← as_char v; Some (Build_dx_quote_t sequence time_nanos bid_time x bid_price bid_size ask_time
      ask_exchange_code ask_price ask_size)
  else if (member =? "bid_price")%string then
    x ← as_double v; Some (Build_dx_quote_t sequence time_nanos bid_time bid_exchange_code x bid_size
      ask_time ask_exchange_code ask_price ask_size)
  else if (member =? "bid_size")%string then
    x ← as_double v; Some (Build_dx_quote_t sequence time_nanos bid_time bid_exchange_code bid_price x
      ask_time ask_exchange_code ask_price ask_size)
  else if (member =? "ask_time")%string then
    x ← as_int v; Some (Build_dx_quote_t sequence time_nanos bid_time bid_exchange_code bid_price bid_size
      x ask_exchange_code ask_price ask_size)
  else if (member =? "ask_exchange_code")%string then
    x ← as_char v; Some (Build_dx_quote_t sequence time_nanos bid_time bid_exchange_code bid_price
      bid_size ask_time x ask_price ask_size)
  else if (member =? "ask_price")%string then
    x ← as_double v; Some (Build_dx_quote_t sequence time_nanos bid_time bid_exchange_code bid_price
      bid_size ask_time ask_exchange_code x ask_size)
  else if (member =? "ask_size")%string then
    x ← as_double v; Some (Build_dx_quote_t sequence time_nanos bid_time bid_exchange_code bid_price
      bid_size ask_time ask_exchange_code ask_price x)
  else None.

Definition dx_quote_getter (member : string) (r : dx_quote_t) : option field_value :=
  if (member =? "sequence")%string then Some (fv_int (r_quote_sequence r))
  else if (member =? "time_nanos")%string then Some (fv_int (r_quote_time_nanos r))
  else if (member =? "bid_time")%string then Some (fv_int (r_quote_bid_time r))
  else if (member =? "bid_exchange_code")%string then Some (fv_char (r_quote_bid_exchange_code r))
  else if (member =? "bid_price")%string then Some (fv_double (r_quote_bid_price r))
  else if (member =? "bid_size")%string then Some (fv_double (r_quote_bid_size r))
  else if (member =? "ask_time")%string then Some (fv_int (r_quote_ask_time r))
  else if (member =? "ask_exchange_code")%string then Some (fv_char (r_quote_ask_exchange_code r))
  else if (member =? "ask_price")%string then Some (fv_double (r_quote_ask_price r))
  else if (member =? "ask_size")%string then Some (fv_double (r_quote_ask_size r))
  else None.

Definition zero_quote : dx_quote_t := Build_dx_quote_t 0 0 0 0 double_zero double_zero 0 0 double_zero
  double_zero.

(** dx_summary_t *)

Definition dx_summary_members : list (string * field_type) := [
  ("day_id", ft_dayid); ("day_open_price", ft_double); ("day_high_price", ft_double);
  ("day_low_price", ft_double); ("day_close_price", ft_double); ("prev_day_id", ft_dayid);
  ("prev_day_close_price", ft_double); ("prev_day_volume", ft_double); ("open_interest", ft_double);
  ("flags", ft_int)].

Definition dx_summary_setter (member : string) (v : field_value) (r : dx_summary_t) : option dx_summary_t :=
  let '(Build_dx_summary_t day_id day_open_price day_high_price day_low_price day_close_price
      prev_day_id prev_day_close_price prev_day_volume open_interest flags) := r in
  if (member =? "day_id")%string then
    x ← as_dayid v; Some (Build_dx_summary_t x day_open_price day_high_price day_low_price day_close_price
      prev_day_id prev_day_close_price prev_day_volume open_interest flags)
  else if (member =? "day_open_price")%string then
    x ← as_double v; Some (Build_dx_summary_t day_id x day_high_price day_low_price day_close_price
      prev_day_id prev_day_close_price prev_day_volume open_interest flags)
  else if (member =? "day_high_price")%string then
    x ← as_double v; Some (Build_dx_summary_t day_id day_open_price x day_low_price day_close_price
      prev_day_id prev_day_close_price prev_day_volume open_interest flags)
  else if (member =? "day_low_price")%string then
    x ← as_double v; Some (Build_dx_summary_t day_id day_open_price day_high_price x day_close_price
      prev_day_id prev_day_close_price prev_day_volume open_interest flags)
  else if (member =? "day_close_price")%string then
    x ← as_double v; Some (Build_dx_summary_t day_id day_open_price day_high_price day_low_price x
      prev_day_id prev_day_close_price prev_day_volume open_interest flags)
  else if (member =? "prev_day_id")%string then
    x ← as_dayid v; Some (Build_dx_summary_t day_id day_open_price day_high_price day_low_price
      day_close_price x prev_day_close_price prev_day_volume open_interest flags)
  else if (member =? "prev_day_close_price")%string then
    x ← as_double v; Some (Build_dx_summary_t day_id day_open_price day_high_price day_low_price
      day_close_price prev_day_id x prev_day_volume open_interest flags)
  else if (member =? "prev_day_volume")%string then
    x ← as_double v; Some (Build_dx_summary_t day_id day_open_price day_high_price day_low_price
      day_close_price prev_day_id prev_day_close_price x open_interest flags)
  else if (member =? "open_interest")%string then
    x ← as_double v; Some (Build_dx_summary_t day_id day_open_price day_high_price day_low_price
      day_close_price prev_day_id prev_day_close_price prev_day_volume x flags)
  else if (member =? "flags")%string then
    x ← as_int v; Some (Build_dx_summary_t day_id day_open_price day_high_price day_low_price
      day_close_price prev_day_id prev_day_close_price prev_day_volume open_interest x)
  else None.

Definition dx_summary_getter (member : string) (r : dx_summary_t) : option field_value :=
  if (member =? "day_id")%string then Some (fv_dayid (r_summary_day_id r))
  else if (member =? "day_open_price")%string then Some (fv_double (r_summary_day_open_price r))
  else if (member =? "day_high_price")%string then Some (fv_double (r_summary_day_high_price r))
  else if (member =? "day_low_price")%string then Some (fv_double (r_summary_day_low_price r))
  else if (member =? "day_close_price")%string then Some (fv_double (r_summary_day_close_price r))
  else if (member =? "prev_day_id")%string then Some (fv_dayid (r_summary_prev_day_id r))
  else if (member =? "prev_day_close_price")%string then Some (fv_double (r_summary_prev_day_close_price r))
  else if (member =? "prev_day_volume")%string then Some (fv_double (r_summary_prev_day_volume r))
  else if (member =? "open_interest")%string then Some (fv_double (r_summary_open_interest r))
  else if (member =? "flags")%string then Some (fv_int (r_summary_flags r))
  else None.

Definition zero_summary : dx_summary_t := Build_dx_summary_t 0 double_zero double_zero double_zero
  double_zero 0 double_zero double_zero double_zero 0.

(** dx_profile_t *)

Definition dx_profile_members : list (string * field_type) := [
  ("beta", ft_double); ("eps", ft_double); ("div_freq", ft_double); ("exd_div_amount", ft_double);
  ("exd_div_date", ft_dayid); ("high_price_52", ft_double); ("low_price_52", ft_double);
  ("shares", ft_double); ("free_float", ft_double); ("high_limit_price", ft_double);
  ("low_limit_price", ft_double); ("halt_start_time", ft_int); ("halt_end_time", ft_int);
  ("flags", ft_int); ("description", ft_string); ("status_reason", ft_string)].

Definition dx_profile_setter (member : string) (v : field_value) (r : dx_profile_t) : option dx_profile_t :=
  let '(Build_dx_profile_t beta eps div_freq exd_div_amount exd_div_date high_price_52 low_price_52
      shares free_float high_limit_price low_limit_price halt_start_time halt_end_time flags
      description status_reason) := r in
  if (member =? "beta")%string then
    x ← as_double v; Some (Build_dx_profile_t x eps div_freq exd_div_amount exd_div_date high_price_52
      low_price_52 shares free_float high_limit_price low_limit_price halt_start_time halt_end_time flags
      description status_reason)
  else if (member =? "eps")%string then
    x ← as_double v; Some (Build_dx_profile_t beta x div_freq exd_div_amount exd_div_date high_price_52
      low_price_52 shares free_float high_limit_price low_limit_price halt_start_time halt_end_time flags
      description status_reason)
  else if (member =? "div_freq")%string then
    x ← as_double v; Some (Build_dx_profile_t beta eps x exd_div_amount exd_div_date high_price_52
      low_price_52 shares free_float high_limit_price low_limit_price halt_start_time halt_end_time flags
      description status_reason)
  else if (member =? "exd_div_amount")%string then
    x ← as_double v; Some (Build_dx_profile_t beta eps div_freq x exd_div_date high_price_52 low_price_52
      shares free_float high_limit_price low_limit_price halt_start_time halt_end_time flags description
      status_reason)
  else if (member =? "exd_div_date")%string then
    x ← as_dayid v; Some (Build_dx_profile_t beta eps div_freq exd_div_amount x high_price_52 low_price_52
      shares free_float high_limit_price low_limit_price halt_start_time halt_end_time flags description
      status_reason)
  else if (member =? "high_price_52")%string then
    x ← as_double v; Some (Build_dx_profile_t beta eps div_freq exd_div_amount exd_div_date x low_price_52
      shares free_float high_limit_price low_limit_price halt_start_time halt_end_time flags description
      status_reason)
  else if (member =? "low_price_52")%string then
    x ← as_double v; Some (Build_dx_profile_t beta eps div_freq exd_div_amount exd_div_date high_price_52
      x shares free_float high_limit_price low_limit_price halt_start_time halt_end_time flags description
      status_reason)
  else if (member =? "shares")%string then
    x ← as_double v; Some (Build_dx_profile_t beta eps div_freq exd_div_amount exd_div_date high_price_52
      low_price_52 x free_float high_limit_price low_limit_price halt_start_time halt_end_time flags
      description status_reason)
  else if (member =? "free_float")%string then
    x ← as_double v; Some (Build_dx_profile_t beta eps div_freq exd_div_amount exd_div_date high_price_52
      low_price_52 shares x high_limit_price low_limit_price halt_start_time halt_end_time flags
      description status_reason)
  else if (member =? "high_limit_price")%string then
    x ← as_double v; Some (Build_dx_profile_t beta eps div_freq exd_div_amount exd_div_date high_price_52
      low_price_52 shares free_float x low_limit_price halt_start_time halt_end_time flags description
      status_reason)
  else if (member =? "low_limit_price")%string then
    x ← as_double v; Some (Build_dx_profile_t beta eps div_freq exd_div_amount exd_div_date high_price_52
      low_price_52 shares free_float high_limit_price x halt_start_time halt_end_time flags description
      status_reason)
  else if (member =? "halt_start_time")%string then
    x ← as_int v; Some (Build_dx_profile_t beta eps div_freq exd_div_amount exd_div_date high_price_52
      low_price_52 shares free_float high_limit_price low_limit_price x halt_end_time flags description
      status_reason)
  else if (member =? "halt_end_time")%string then
    x ← as_int v; Some (Build_dx_profile_t beta eps div_freq exd_div_amount exd_div_date high_price_52
      low_price_52 shares free_float high_limit_price low_limit_price halt_start_time x flags description
      status_reason)
  else if (member =? "flags")%string then
    x ← as_int v; Some (Build_dx_profile_t beta eps div_freq exd_div_amount exd_div_date high_price_52
      low_price_52 shares free_float high_limit_price low_limit_price halt_start_time halt_end_time x
      description status_reason)
  else if (member =? "description")%string then
    x ← as_string v; Some (Build_dx_profile_t beta eps div_freq exd_div_amount exd_div_date high_price_52
      low_price_52 shares free_float high_limit_price low_limit_price halt_start_time halt_end_time flags
      x status_reason)
  else if (member =? "status_reason")%string then
    x ← as_string v; Some (Build_dx_profile_t beta eps div_freq exd_div_amount exd_div_date high_price_52
      low_price_52 shares free_float high_limit_price low_limit_price halt_start_time halt_end_time flags
      description x)
  else None.

Definition dx_profile_getter (member : string) (r : dx_profile_t) : option field_value :=
  if (member =? "beta")%string then Some (fv_double (r_profile_beta r))
  else if (member =? "eps")%string then Some (fv_double (r_profile_eps r))
  else if (member =? "div_freq")%string then Some (fv_double (r_profile_div_freq r))
  else if (member =? "exd_div_amount")%string then Some (fv_double (r_profile_exd_div_amount r))
  else if (member =? "exd_div_date")%string then Some (fv_dayid (r_profile_exd_div_date r))
  else if (member =? "high_price_52")%string then Some (fv_double (r_profile_high_price_52 r))
  else if (member =? "low_price_52")%string then Some (fv_double (r_profile_low_price_52 r))
  else if (member =? "shares")%string then Some (fv_double (r_profile_shares r))
  else if (member =? "free_float")%string then Some (fv_double (r_profile_free_float r))
  else if (member =? "high_limit_price")%string then Some (fv_double (r_profile_high_limit_price r))
  else if (member =? "low_limit_price")%string then Some (fv_double (r_profile_low_limit_price r))
  else if (member =? "halt_start_time")%string then Some (fv_int (r_profile_halt_start_time r))
  else if (member =? "halt_end_time")%string then Some (fv_int (r_profile_halt_end_time r))
  else if (member =? "flags")%string then Some (fv_int (r_profile_flags r))
  else if (member =? "description")%string then Some (fv_string (r_profile_description r))
  else if (member =? "status_reason")%string then Some (fv_string (r_profile_status_reason r))
  else None.

Definition zero_profile : dx_profile_t := Build_dx_profile_t double_zero double_zero double_zero
  double_zero 0 double_zero double_zero double_zero double_zero double_zero double_zero 0 0 0 None None.

(** dx_market_maker_t *)

Definition dx_market_maker_members : list (string * field_type) := [
  ("mm_exchange", ft_char); ("mm_id", ft_int); ("mmbid_time", ft_int); ("mmbid_price", ft_double);
  ("mmbid_size", ft_double); ("mmbid_count", ft_double); ("mmask_time", ft_int);
  ("mmask_price", ft_double); ("mmask_size", ft_double); ("mmask_count", ft_double)].

Definition dx_market_maker_setter (member : string) (v : field_value) (r : dx_market_maker_t) : option dx_market_maker_t :=
  let '(Build_dx_market_maker_t mm_exchange mm_id mmbid_time mmbid_price mmbid_size mmbid_count
      mmask_time mmask_price mmask_size mmask_count) := r in
  if (member =? "mm_exchange")%string then
    x ← as_char v; Some (Build_dx_market_maker_t x mm_id mmbid_time mmbid_price mmbid_size mmbid_count
      mmask_time mmask_price mmask_size mmask_count)
  else if (member =? "mm_id")%string then
    x ← as_int v; Some (Build_dx_market_maker_t mm_exchange x mmbid_time mmbid_price mmbid_size
      mmbid_count mmask_time mmask_price mmask_size mmask_count)
  else if (member =? "mmbid_time")%string then
    x ← as_int v; Some (Build_dx_market_maker_t mm_exchange mm_id x mmbid_price mmbid_size mmbid_count
      mmask_time mmask_price mmask_size mmask_count)
  else if (member =? "mmbid_price")%string then
    x ← as_double v; Some (Build_dx_market_maker_t mm_exchange mm_id mmbid_time x mmbid_size mmbid_count
      mmask_time mmask_price mmask_size mmask_count)
  else if (member =? "mmbid_size")%string then
    x ← as_double v; Some (Build_dx_market_maker_t mm_exchange mm_id mmbid_time mmbid_price x mmbid_count
      mmask_time mmask_price mmask_size mmask_count)
  else if (member =? "mmbid_count")%string then
    x ← as_double v; Some (Build_dx_market_maker_t mm_exchange mm_id mmbid_time mmbid_price mmbid_size x
      mmask_time mmask_price mmask_size mmask_count)
  else if (member =? "mmask_time")%string then
    x ← as_int v; Some (Build_dx_market_maker_t mm_exchange mm_id mmbid_time mmbid_price mmbid_size
      mmbid_count x mmask_price mmask_size mmask_count)
  else if (member =? "mmask_price")%string then
    x ← as_double v; Some (Build_dx_market_maker_t mm_exchange mm_id mmbid_time mmbid_price mmbid_size
      mmbid_count mmask_time x mmask_size mmask_count)
  else if (member =? "mmask_size")%string then
    x ← as_double v; Some (Build_dx_market_maker_t mm_exchange mm_id mmbid_time mmbid_price mmbid_size
      mmbid_count mmask_time mmask_price x mmask_count)
  else if (member =? "mmask_count")%string then
    x ← as_double v; Some (Build_dx_market_maker_t mm_exchange mm_id mmbid_time mmbid_price mmbid_size
      mmbid_count mmask_time mmask_price mmask_size x)
  else None.

Definition dx_market_maker_getter (member : string) (r : dx_market_maker_t) : option field_value :=
  if (member =? "mm_exchange")%string then Some (fv_char (r_mm_mm_exchange r))
  else if (member =? "mm_id")%string then Some (fv_int (r_mm_mm_id r))
  else if (member =? "mmbid_time")%string then Some (fv_int (r_mm_mmbid_time r))
  else if (member =? "mmbid_price")%string then Some (fv_double (r_mm_mmbid_price r))
  else if (member =? "mmbid_size")%string then Some (fv_double (r_mm_mmbid_size r))
  else if (member =? "mmbid_count")%string then Some (fv_double (r_mm_mmbid_count r))
  else if (member =? "mmask_time")%string then Some (fv_int (r_mm_mmask_time r))
  else if (member =? "mmask_price")%string then Some (fv_double (r_mm_mmask_price r))
  else if (member =? "mmask_size")%string then Some (fv_double (r_mm_mmask_size r))
  else if (member =? "mmask_count")%string then Some (fv_double (r_mm_mmask_count r))
  else None.

Definition zero_market_maker : dx_market_maker_t := Build_dx_market_maker_t 0 0 0 double_zero double_zero
  double_zero 0 double_zero double_zero double_zero.

(** dx_order_t *)

Definition dx_order_members : list (string * field_type) := [
  ("index", ft_int); ("time", ft_int); ("sequence", ft_int); ("time_nanos", ft_int);
  ("action_time", ft_long); ("order_id", ft_long); ("aux_order_id", ft_long); ("price", ft_double);
  ("size", ft_double); ("executed_size", ft_double); ("count", ft_double); ("flags", ft_int);
  ("trade_id", ft_long); ("trade_price", ft_double); ("trade_size", ft_double); ("mmid", ft_int)].

Definition dx_order_setter (member : string) (v : field_value) (r : dx_order_t) : option dx_order_t :=
  let '(Build_dx_order_t index time time_nanos sequence action_time order_id aux_order_id price size
      executed_size count flags trade_id trade_price trade_size mmid) := r in
  if (member =? "index")%string then
    x ← as_int v; Some (Build_dx_order_t x time time_nanos sequence action_time order_id aux_order_id
      price size executed_size count flags trade_id trade_price trade_size mmid)
  else if (member =? "time")%string then
    x ← as_int v; Some (Build_dx_order_t index x time_nanos sequence action_time order_id aux_order_id
      price size executed_size count flags trade_id trade_price trade_size mmid)
  else if (member =? "sequence")%string then
    x ← as_int v; Some (Build_dx_order_t index time time_nanos x action_time order_id aux_order_id price
      size executed_size count flags trade_id trade_price trade_size mmid)
  else if (member =? "time_nanos")%string then
    x ← as_int v; Some (Build_dx_order_t index time x sequence action_time order_id aux_order_id price
      size executed_size count flags trade_id trade_price trade_size mmid)
  else if (member =? "action_time")%string then
    x ← as_long v; Some (Build_dx_order_t index time time_nanos sequence x order_id aux_order_id price
      size executed_size count flags trade_id trade_price trade_size mmid)
  else if (member =? "order_id")%string then
    x ← as_long v; Some (Build_dx_order_t index time time_nanos sequence action_time x aux_order_id price
      size executed_size count flags trade_id trade_price trade_size mmid)
  else if (member =? "aux_order_id")%string then
    x ← as_long v; Some (Build_dx_order_t index time time_nanos sequence action_time order_id x price size
      executed_size count flags trade_id trade_price trade_size mmid)
  else if (member =? "price")%string then
    x ← as_double v; Some (Build_dx_order_t index time time_nanos sequence action_time order_id
      aux_order_id x size executed_size count flags trade_id trade_price trade_size mmid)
  else if (member =? "size")%string then
    x ← as_double v; Some (Build_dx_order_t index time time_nanos sequence action_time order_id
      aux_order_id price x executed_size count flags trade_id trade_price trade_size mmid)
  else if (member =? "executed_size")%string then
    x ← as_double v; Some (Build_dx_order_t index time time_nanos sequence action_time order_id
      aux_order_id price size x count flags trade_id trade_price trade_size mmid)
  else if (member =? "count")%string then
    x ← as_double v; Some (Build_dx_order_t index time time_nanos sequence action_time order_id
      aux_order_id price size executed_size x flags trade_id trade_price trade_size mmid)
  else if (member =? "flags")%string then
    x ← as_int v; Some (Build_dx_order_t index time time_nanos sequence action_time order_id aux_order_id
      price size executed_size count x trade_id trade_price trade_size mmid)
  else if (member =? "trade_id")%string then
    x ← as_long v; Some (Build_dx_order_t index time time_nanos sequence action_time order_id aux_order_id
      price size executed_size count flags x trade_price trade_size mmid)
  else if (member =? "trade_price")%string then
    x ← as_double v; Some (Build_dx_order_t index time time_nanos sequence action_time order_id
      aux_order_id price size executed_size count flags trade_id x trade_size mmid)
  else if (member =? "trade_size")%string then
    x ← as_double v; Some (Build_dx_order_t index time time_nanos sequence action_time order_id
      aux_order_id price size executed_size count flags trade_id trade_price x mmid)
  else if (member =? "mmid")%string then
    x ← as_int v; Some (Build_dx_order_t index time time_nanos sequence action_time order_id aux_order_id
      price size executed_size count flags trade_id trade_price trade_size x)
  else None.

Definition dx_order_getter (member : string) (r : dx_order_t) : option field_value :=
  if (member =? "index")%string then Some (fv_int (r_order_index r))
  else if (member =? "time")%string then Some (fv_int (r_order_time r))
  else if (member =? "sequence")%string then Some (fv_int (r_order_sequence r))
  else if (member =? "time_nanos")%string then Some (fv_int (r_order_time_nanos r))
  else if (member =? "action_time")%string then Some (fv_long (r_order_action_time r))
  else if (member =? "order_id")%string then Some (fv_long (r_order_order_id r))
  else if (member =? "aux_order_id")%string then Some (fv_long (r_order_aux_order_id r))
  else if (member =? "price")%string then Some (fv_double (r_order_price r))
  else if (member =? "size")%string then Some (fv_double (r_order_size r))
  else if (member =? "executed_size")%string then Some (fv_double (r_order_executed_size r))
  else if (member =? "count")%string then Some (fv_double (r_order_count r))
  else if (member =? "flags")%string then Some (fv_int (r_order_flags r))
  else if (member =? "trade_id")%string then Some (fv_long (r_order_trade_id r))
  else if (member =? "trade_price")%string then Some (fv_double (r_order_trade_price r))
  else if (member =? "trade_size")%string then Some (fv_double (r_order_trade_size r))
  else if (member =? "mmid")%string then Some (fv_int (r_order_mmid r))
  else None.

Definition zero_order : dx_order_t := Build_dx_order_t 0 0 0 0 0 0 0 double_zero double_zero double_zero
  double_zero 0 0 double_zero double_zero 0.

(** dx_spread_order_t *)

Definition dx_spread_order_members : list (string * field_type) := [
  ("index", ft_int); ("time", ft_int); ("sequence", ft_int); ("time_nanos", ft_int);
  ("action_time", ft_long); ("order_id", ft_long); ("aux_order_id", ft_long); ("price", ft_double);
  ("size", ft_double); ("executed_size", ft_double); ("count", ft_double); ("flags", ft_int);
  ("trade_id", ft_long); ("trade_price", ft_double); ("trade_size", ft_double);
  ("spread_symbol", ft_string)].

Definition dx_spread_order_setter (member : string) (v : field_value) (r : dx_spread_order_t) : option dx_spread_order_t :=
  let '(Build_dx_spread_order_t index time time_nanos sequence action_time order_id aux_order_id
      price size executed_size count flags trade_id trade_price trade_size spread_symbol) := r in
  if (member =? "index")%string then
    x ← as_int v; Some (Build_dx_spread_order_t x time time_nanos sequence action_time order_id
      aux_order_id price size executed_size count flags trade_id trade_price trade_size spread_symbol)
  else if (member =? "time")%string then
    x ← as_int v; Some (Build_dx_spread_order_t index x time_nanos sequence action_time order_id
      aux_order_id price size executed_size count flags trade_id trade_price trade_size spread_symbol)
  else if (member =? "sequence")%string then
    x ← as_int v; Some (Build_dx_spread_order_t index time time_nanos x action_time order_id aux_order_id
      price size executed_size count flags trade_id trade_price trade_size spread_symbol)
  else if (member =? "time_nanos")%string then
    x ← as_int v; Some (Build_dx_spread_order_t index time x sequence action_time order_id aux_order_id
      price size executed_size count flags trade_id trade_price trade_size spread_symbol)
  else if (member =? "action_time")%string then
    x ← as_long v; Some (Build_dx_spread_order_t index time time_nanos sequence x order_id aux_order_id
      price size executed_size count flags trade_id trade_price trade_size spread_symbol)
  else if (member =? "order_id")%string then
    x ← as_long v; Some (Build_dx_spread_order_t index time time_nanos sequence action_time x aux_order_id
      price size executed_size count flags trade_id trade_price trade_size spread_symbol)
  else if (member =? "aux_order_id")%string then
    x ← as_long v; Some (Build_dx_spread_order_t index time time_nanos sequence action_time order_id x
      price size executed_size count flags trade_id trade_price trade_size spread_symbol)
  else if (member =? "price")%string then
    x ← as_double v; Some (Build_dx_spread_order_t index time time_nanos sequence action_time order_id
      aux_order_id x size executed_size count flags trade_id trade_price trade_size spread_symbol)
  else if (member =? "size")%string then
    x ← as_double v; Some (Build_dx_spread_order_t index time time_nanos sequence action_time order_id
      aux_order_id price x executed_size count flags trade_id trade_price trade_size spread_symbol)
  else if (member =? "executed_size")%string then
    x ← as_double v; Some (Build_dx_spread_order_t index time time_nanos sequence action_time order_id
      aux_order_id price size x count flags trade_id trade_price trade_size spread_symbol)
  else if (member =? "count")%string then
    x ← as_double v; Some (Build_dx_spread_order_t index time time_nanos sequence action_time order_id
      aux_order_id price size executed_size x flags trade_id trade_price trade_size spread_symbol)
  else if (member =? "flags")%string then
    x ← as_int v; Some (Build_dx_spread_order_t index time time_nanos sequence action_time order_id
      aux_order_id price size executed_size count x trade_id trade_price trade_size spread_symbol)
  else if (member =? "trade_id")%string then
    x ← as_long v; Some (Build_dx_spread_order_t index time time_nanos sequence action_time order_id
      aux_order_id price size executed_size count flags x trade_price trade_size spread_symbol)
  else if (member =? "trade_price")%string then
    x ← as_double v; Some (Build_dx_spread_order_t index time time_nanos sequence action_time order_id
      aux_order_id price size executed_size count flags trade_id x trade_size spread_symbol)
  else if (member =? "trade_size")%string then
    x ← as_double v; Some (Build_dx_spread_order_t index time time_nanos sequence action_time order_id
      aux_order_id price size executed_size count flags trade_id trade_price x spread_symbol)
  else if (member =? "spread_symbol")%string then
    x ← as_string v; Some (Build_dx_spread_order_t index time time_nanos sequence action_time order_id
      aux_order_id price size executed_size count flags trade_id trade_price trade_size x)
  else None.

Definition dx_spread_order_getter (member : string) (r : dx_spread_order_t) : option field_value :=
  if (member =? "index")%string then Some (fv_int (r_spread_index r))
  else if (member =? "time")%string then Some (fv_int (r_spread_time r))
  else if (member =? "sequence")%string then Some (fv_int (r_spread_sequence r))
  else if (member =? "time_nanos")%string then Some (fv_int (r_spread_time_nanos r))
  else if (member =? "action_time")%string then Some (fv_long (r_spread_action_time r))
  else if (member =? "order_id")%string then Some (fv_long (r_spread_order_id r))
  else if (member =? "aux_order_id")%string then Some (fv_long (r_spread_aux_order_id r))
  else if (member =? "price")%string then Some (fv_double (r_spread_price r))
  else if (member =? "size")%string then Some (fv_double (r_spread_size r))
  else if (member =? "executed_size")%string then Some (fv_double (r_spread_executed_size r))
  else if (member =? "count")%string then Some (fv_double (r_spread_count r))
  else if (member =? "flags")%string then Some (fv_int (r_spread_flags r))
  else if (member =? "trade_id")%string then Some (fv_long (r_spread_trade_id r))
  else if (member =? "trade_price")%string then Some (fv_double (r_spread_trade_price r))
  else if (member =? "trade_size")%string then Some (fv_double (r_spread_trade_size r))
  else if (member =? "spread_symbol")%string then Some (fv_string (r_spread_spread_symbol r))
  else None.

Definition zero_spread_order : dx_spread_order_t := Build_dx_spread_order_t 0 0 0 0 0 0 0 double_zero
  double_zero double_zero double_zero 0 0 double_zero double_zero None.

(** dx_time_and_sale_t *)

Definition dx_time_and_sale_members : list (string * field_type) := [
  ("time", ft_int); ("sequence", ft_int); ("exchange_code", ft_char); ("price", ft_double);
  ("size", ft_double); ("bid_price", ft_double); ("ask_price", ft_double);
  ("exchange_sale_conditions", ft_int); ("flags", ft_int); ("buyer", ft_string); ("seller", ft_string)].

Definition dx_time_and_sale_setter (member : string) (v : field_value) (r : dx_time_and_sale_t) : option dx_time_and_sale_t :=
  let '(Build_dx_time_and_sale_t time sequence exchange_code price size bid_price ask_price
      exchange_sale_conditions flags buyer seller) := r in
  if (member =? "time")%string then
    x ← as_int v; Some (Build_dx_time_and_sale_t x sequence exchange_code price size bid_price ask_price
      exchange_sale_conditions flags buyer seller)
  else if (member =? "sequence")%string then
    x ← as_int v; Some (Build_dx_time_and_sale_t time x exchange_code price size bid_price ask_price
      exchange_sale_conditions flags buyer seller)
  else if (member =? "exchange_code")%string then
    x ← as_char v; Some (Build_dx_time_and_sale_t time sequence x price size bid_price ask_price
      exchange_sale_conditions flags buyer seller)
  else if (member =? "price")%string then
    x ← as_double v; Some (Build_dx_time_and_sale_t time sequence exchange_code x size bid_price ask_price
      exchange_sale_conditions flags buyer seller)
  else if (member =? "size")%string then
    x ← as_double v; Some (Build_dx_time_and_sale_t time sequence exchange_code price x bid_price
      ask_price exchange_sale_conditions flags buyer seller)
  else if (member =? "bid_price")%string then
    x ← as_double v; Some (Build_dx_time_and_sale_t time sequence exchange_code price size x ask_price
      exchange_sale_conditions flags buyer seller)
  else if (member =? "ask_price")%string then
    x ← as_double v; Some (Build_dx_time_and_sale_t time sequence exchange_code price size bid_price x
      exchange_sale_conditions flags buyer seller)
  else if (member =? "exchange_sale_conditions")%string then
    x ← as_int v; Some (Build_dx_time_and_sale_t time sequence exchange_code price size bid_price
      ask_price x flags buyer seller)
  else if (member =? "flags")%string then
    x ← as_int v; Some (Build_dx_time_and_sale_t time sequence exchange_code price size bid_price
      ask_price exchange_sale_conditions x buyer seller)
  else if (member =? "buyer")%string then
    x ← as_string v; Some (Build_dx_time_and_sale_t time sequence exchange_code price size bid_price
      ask_price exchange_sale_conditions flags x seller)
  else if (member =? "seller")%string then
    x ← as_string v; Some (Build_dx_time_and_sale_t time sequence exchange_code price size bid_price
      ask_price exchange_sale_conditions flags buyer x)
  else None.

Definition dx_time_and_sale_getter (member : string) (r : dx_time_and_sale_t) : option field_value :=
  if (member =? "time")%string then Some (fv_int (r_tns_time r))
  else if (member =? "sequence")%string then Some (fv_int (r_tns_sequence r))
  else if (member =? "exchange_code")%string then Some (fv_char (r_tns_exchange_code r))
  else if (member =? "price")%string then Some (fv_double (r_tns_price r))
  else if (member =? "size")%string then Some (fv_double (r_tns_size r))
  else if (member =? "bid_price")%string then Some (fv_double (r_tns_bid_price r))
  else if (member =? "ask_price")%string then Some (fv_double (r_tns_ask_price r))
  else if (member =? "exchange_sale_conditions")%string then Some (fv_int (r_tns_exchange_sale_conditions r))
  else if (member =? "flags")%string then Some (fv_int (r_tns_flags r))
  else if (member =? "buyer")%string then Some (fv_string (r_tns_buyer r))
  else if (member =? "seller")%string then Some (fv_string (r_tns_seller r))
  else None.

Definition zero_time_and_sale : dx_time_and_sale_t := Build_dx_time_and_sale_t 0 0 0 double_zero
  double_zero double_zero double_zero 0 0 None None.

(** dx_candle_t *)

Definition dx_candle_members : list (string * field_type) := [
  ("time", ft_int); ("sequence", ft_int); ("count", ft_double); ("open", ft_double); ("high", ft_double);
  ("low", ft_double); ("close", ft_double); ("volume", ft_double); ("vwap", ft_double);
  ("bid_volume", ft_double); ("ask_volume", ft_double); ("imp_volatility", ft_double);
  ("open_interest", ft_double)].

Definition dx_candle_setter (member : string) (v : field_value) (r : dx_candle_t) : option dx_candle_t :=
  let '(Build_dx_candle_t time sequence count open high low close volume vwap bid_volume ask_volume
      open_interest imp_volatility) := r in
  if (member =? "time")%string then
    x ← as_int v; Some (Build_dx_candle_t x sequence count open high low close volume vwap bid_volume
      ask_volume open_interest imp_volatility)
  else if (member =? "sequence")%string then
    x ← as_int v; Some (Build_dx_candle_t time x count open high low close volume vwap bid_volume
      ask_volume open_interest imp_volatility)
  else if (member =? "count")%string then
    x ← as_double v; Some (Build_dx_candle_t time sequence x open high low close volume vwap bid_volume
      ask_volume open_interest imp_volatility)
  else if (member =? "open")%string then
    x ← as_double v; Some (Build_dx_candle_t time sequence count x high low close volume vwap bid_volume
      ask_volume open_interest imp_volatility)
  else if (member =? "high")%string then
    x ← as_double v; Some (Build_dx_candle_t time sequence count open x low close volume vwap bid_volume
      ask_volume open_interest imp_volatility)
  else if (member =? "low")%string then
    x ← as_double v; Some (Build_dx_candle_t time sequence count open high x close volume vwap bid_volume
      ask_volume open_interest imp_volatility)
  else if (member =? "close")%string then
    x ← as_double v; Some (Build_dx_candle_t time sequence count open high low x volume vwap bid_volume
      ask_volume open_interest imp_volatility)
  else if (member =? "volume")%string then
    x ← as_double v; Some (Build_dx_candle_t time sequence count open high low close x vwap bid_volume
      ask_volume open_interest imp_volatility)
  else if (member =? "vwap")%string then
    x ← as_double v; Some (Build_dx_candle_t time sequence count open high low close volume x bid_volume
      ask_volume open_interest imp_volatility)
  else if (member =? "bid_volume")%string then
    x ← as_double v; Some (Build_dx_candle_t time sequence count open high low close volume vwap x
      ask_volume open_interest imp_volatility)
  else if (member =? "ask_volume")%string then
    x ← as_double v; Some (Build_dx_candle_t time sequence count open high low close volume vwap
      bid_volume x open_interest imp_volatility)
  else if (member =? "imp_volatility")%string then
    x ← as_double v; Some (Build_dx_candle_t time sequence count open high low close volume vwap
      bid_volume ask_volume open_interest x)
  else if (member =? "open_interest")%string then
    x ← as_double v; Some (Build_dx_candle_t time sequence count open high low close volume vwap
      bid_volume ask_volume x imp_volatility)
  else None.

Definition dx_candle_getter (member : string) (r : dx_candle_t) : option field_value :=
  if (member =? "time")%string then Some (fv_int (r_candle_time r))
  else if (member =? "sequence")%string then Some (fv_int (r_candle_sequence r))
  else if (member =? "count")%string then Some (fv_double (r_candle_count r))
  else if (member =? "open")%string then Some (fv_double (r_candle_open r))
  else if (member =? "high")%string then Some (fv_double (r_candle_high r))
  else if (member =? "low")%string then Some (fv_double (r_candle_low r))
  else if (member =? "close")%string then Some (fv_double (r_candle_close r))
  else if (member =? "volume")%string then Some (fv_double (r_candle_volume r))
  else if (member =? "vwap")%string then Some (fv_double (r_candle_vwap r))
  else if (member =? "bid_volume")%string then Some (fv_double (r_candle_bid_volume r))
  else if (member =? "ask_volume")%string then Some (fv_double (r_candle_ask_volume r))
  else if (member =? "imp_volatility")%string then Some (fv_double (r_candle_imp_volatility r))
  else if (member =? "open_interest")%string then Some (fv_double (r_candle_open_interest r))
  else None.

Definition zero_candle : dx_candle_t := Build_dx_candle_t 0 0 double_zero double_zero double_zero
  double_zero double_zero double_zero double_zero double_zero double_zero double_zero double_zero.

(** dx_greeks_t *)

Definition dx_greeks_members : list (string * field_type) := [
  ("time", ft_int); ("sequence", ft_int); ("price", ft_double); ("volatility", ft_double);
  ("delta", ft_double); ("gamma", ft_double); ("theta", ft_double); ("rho", ft_double);
  ("vega", ft_double)].

Definition dx_greeks_setter (member : string) (v : field_value) (r : dx_greeks_t) : option dx_greeks_t :=
  let '(Build_dx_greeks_t time sequence price volatility delta gamma theta rho vega) := r in
  if (member =? "time")%string then
    x ← as_int v; Some (Build_dx_greeks_t x sequence price volatility delta gamma theta rho vega)
  else if (member =? "sequence")%string then
    x ← as_int v; Some (Build_dx_greeks_t time x price volatility delta gamma theta rho vega)
  else if (member =? "price")%string then
    x ← as_double v; Some (Build_dx_greeks_t time sequence x volatility delta gamma theta rho vega)
  else if (member =? "volatility")%string then
    x ← as_double v; Some (Build_dx_greeks_t time sequence price x delta gamma theta rho vega)
  else if (member =? "delta")%string then
    x ← as_double v; Some (Build_dx_greeks_t time sequence price volatility x gamma theta rho vega)
  else if (member =? "gamma")%string then
    x ← as_double v; Some (Build_dx_greeks_t time sequence price volatility delta x theta rho vega)
  else if (member =? "theta")%string then
    x ← as_double v; Some (Build_dx_greeks_t time sequence price volatility delta gamma x rho vega)
  else if (member =? "rho")%string then
    x ← as_double v; Some (Build_dx_greeks_t time sequence price volatility delta gamma theta x vega)
  else if (member =? "vega")%string then
    x ← as_double v; Some (Build_dx_greeks_t time sequence price volatility delta gamma theta rho x)
  else None.

Definition dx_greeks_getter (member : string) (r : dx_greeks_t) : option field_value :=
  if (member =? "time")%string then Some (fv_int (r_greeks_time r))
  else if (member =? "sequence")%string then Some (fv_int (r_greeks_sequence r))
  else if (member =? "price")%string then Some (fv_double (r_greeks_price r))
  else if (member =? "volatility")%string then Some (fv_double (r_greeks_volatility r))
  else if (member =? "delta")%string then Some (fv_double (r_greeks_delta r))
  else if (member =? "gamma")%string then Some (fv_double (r_greeks_gamma r))
  else if (member =? "theta")%string then Some (fv_double (r_greeks_theta r))
  else if (member =? "rho")%string then Some (fv_double (r_greeks_rho r))
  else if (member =? "vega")%string then Some (fv_double (r_greeks_vega r))
  else None.

Definition zero_greeks : dx_greeks_t := Build_dx_greeks_t 0 0 double_zero double_zero double_zero
  double_zero double_zero double_zero double_zero.

(** dx_theo_price_t *)

Definition dx_theo_price_members : list (string * field_type) := [
  ("time", ft_int); ("price", ft_double); ("underlying_price", ft_double); ("delta", ft_double);
  ("gamma", ft_double); ("dividend", ft_double); ("interest", ft_double)].

Definition dx_theo_price_setter (member : string) (v : field_value) (r : dxf_theo_price_t) : option dxf_theo_price_t :=
  let '(Build_dxf_theo_price_t time price underlying_price delta gamma dividend interest) := r in
  if (member =? "time")%string then
    x ← as_int v; Some (Build_dxf_theo_price_t x price underlying_price delta gamma dividend interest)
  else if (member =? "price")%string then
    x ← as_double v; Some (Build_dxf_theo_price_t time x underlying_price delta gamma dividend interest)
  else if (member =? "underlying_price")%string then
    x ← as_double v; Some (Build_dxf_theo_price_t time price x delta gamma dividend interest)
  else if (member =? "delta")%string then
    x ← as_double v; Some (Build_dxf_theo_price_t time price underlying_price x gamma dividend interest)
  else if (member =? "gamma")%string then
    x ← as_double v; Some (Build_dxf_theo_price_t time price underlying_price delta x dividend interest)
  else if (member =? "dividend")%string then
    x ← as_double v; Some (Build_dxf_theo_price_t time price underlying_price delta gamma x interest)
  else if (member =? "interest")%string then
    x ← as_double v; Some (Build_dxf_theo_price_t time price underlying_price delta gamma dividend x)
  else None.

Definition dx_theo_price_getter (member : string) (r : dxf_theo_price_t) : option field_value :=
  if (member =? "time")%string then Some (fv_long (theo_price_time r))
  else if (member =? "price")%string then Some (fv_double (theo_price_price r))
  else if (member =? "underlying_price")%string then Some (fv_double (theo_price_underlying_price r))
  else if (member =? "delta")%string then Some (fv_double (theo_price_delta r))
  else if (member =? "gamma")%string then Some (fv_double (theo_price_gamma r))
  else if (member =? "dividend")%string then Some (fv_double (theo_price_dividend r))
  else if (member =? "interest")%string then Some (fv_double (theo_price_interest r))
  else None.

Definition zero_theo_price : dxf_theo_price_t := Build_dxf_theo_price_t 0 double_zero double_zero
  double_zero double_zero double_zero double_zero.

(** dx_underlying_t *)

Definition dx_underlying_members : list (string * field_type) := [
  ("volatility", ft_double); ("front_volatility", ft_double); ("back_volatility", ft_double);
  ("call_volume", ft_double); ("put_volume", ft_double); ("put_call_ratio", ft_double)].

Definition dx_underlying_setter (member : string) (v : field_value) (r : dx_underlying_t) : option dx_underlying_t :=
  let '(Build_dx_underlying_t volatility front_volatility back_volatility call_volume put_volume
      put_call_ratio) := r in
  if (member =? "volatility")%string then
    x ← as_double v; Some (Build_dx_underlying_t x front_volatility back_volatility call_volume put_volume
      put_call_ratio)
  else if (member =? "front_volatility")%string then
    x ← as_double v; Some (Build_dx_underlying_t volatility x back_volatility call_volume put_volume
      put_call_ratio)
  else if (member =? "back_volatility")%string then
    x ← as_double v; Some (Build_dx_underlying_t volatility front_volatility x call_volume put_volume
      put_call_ratio)
  else if (member =? "call_volume")%string then
    x ← as_double v; Some (Build_dx_underlying_t volatility front_volatility back_volatility x put_volume
      put_call_ratio)
  else if (member =? "put_volume")%string then
    x ← as_double v; Some (Build_dx_underlying_t volatility front_volatility back_volatility call_volume x
      put_call_ratio)
  else if (member =? "put_call_ratio")%string then
    x ← as_double v; Some (Build_dx_underlying_t volatility front_volatility back_volatility call_volume
      put_volume x)
  else None.

Definition dx_underlying_getter (member : string) (r : dx_underlying_t) : option field_value :=
  if (member =? "volatility")%string then Some (fv_double (r_underlying_volatility r))
  else if (member =? "front_volatility")%string then Some (fv_double (r_underlying_front_volatility r))
  else if (member =? "back_volatility")%string then Some (fv_double (r_underlying_back_volatility r))
  else if (member =? "call_volume")%string then Some (fv_double (r_underlying_call_volume r))
  else if (member =? "put_volume")%string then Some (fv_double (r_underlying_put_volume r))
  else if (member =? "put_call_ratio")%string then Some (fv_double (r_underlying_put_call_ratio r))
  else None.

Definition zero_underlying : dx_underlying_t := Build_dx_underlying_t double_zero double_zero double_zero
  double_zero double_zero double_zero.

(** dx_series_t *)

Definition dx_series_members : list (string * field_type) := [
  ("index", ft_int); ("time", ft_int); ("sequence", ft_int); ("expiration", ft_dayid);
  ("volatility", ft_double); ("call_volume", ft_double); ("put_volume", ft_double);
  ("put_call_ratio", ft_double); ("forward_price", ft_double); ("dividend", ft_double);
  ("interest", ft_double)].

Definition dx_series_setter (member : string) (v : field_value) (r : dx_series_t) : option dx_series_t :=
  let '(Build_dx_series_t index time sequence expiration volatility call_volume put_volume
      put_call_ratio forward_price dividend interest) := r in
  if (member =? "index")%string then
    x ← as_int v; Some (Build_dx_series_t x time sequence expiration volatility call_volume put_volume
      put_call_ratio forward_price dividend interest)
  else if (member =? "time")%string then
    x ← as_int v; Some (Build_dx_series_t index x sequence expiration volatility call_volume put_volume
      put_call_ratio forward_price dividend interest)
  else if (member =? "sequence")%string then
    x ← as_int v; Some (Build_dx_series_t index time x expiration volatility call_volume put_volume
      put_call_ratio forward_price dividend interest)
  else if (member =? "expiration")%string then
    x ← as_dayid v; Some (Build_dx_series_t index time sequence x volatility call_volume put_volume
      put_call_ratio forward_price dividend interest)
  else if (member =? "volatility")%string then
    x ← as_double v; Some (Build_dx_series_t index time sequence expiration x call_volume put_volume
      put_call_ratio forward_price dividend interest)
  else if (member =? "call_volume")%string then
    x ← as_double v; Some (Build_dx_series_t index time sequence expiration volatility x put_volume
      put_call_ratio forward_price dividend interest)
  else if (member =? "put_volume")%string then
    x ← as_double v; Some (Build_dx_series_t index time sequence expiration volatility call_volume x
      put_call_ratio forward_price dividend interest)
  else if (member =? "put_call_ratio")%string then
    x ← as_double v; Some (Build_dx_series_t index time sequence expiration volatility call_volume
      put_volume x forward_price dividend interest)
  else if (member =? "forward_price")%string then
    x ← as_double v; Some (Build_dx_series_t index time sequence expiration volatility call_volume
      put_volume put_call_ratio x dividend interest)
  else if (member =? "dividend")%string then
    x ← as_double v; Some (Build_dx_series_t index time sequence expiration volatility call_volume
      put_volume put_call_ratio forward_price x interest)
  else if (member =? "interest")%string then
    x ← as_double v; Some (Build_dx_series_t index time sequence expiration volatility call_volume
      put_volume put_call_ratio forward_price dividend x)
  else None.

Definition dx_series_getter (member : string) (r : dx_series_t) : option field_value :=
  if (member =? "index")%string then Some (fv_int (r_series_index r))
  else if (member =? "time")%string then Some (fv_int (r_series_time r))
  else if (member =? "sequence")%string then Some (fv_int (r_series_sequence r))
  else if (member =? "expiration")%string then Some (fv_dayid (r_series_expiration r))
  else if (member =? "volatility")%string then Some (fv_double (r_series_volatility r))
  else if (member =? "call_volume")%string then Some (fv_double (r_series_call_volume r))
  else if (member =? "put_volume")%string then Some (fv_double (r_series_put_volume r))
  else if (member =? "put_call_ratio")%string then Some (fv_double (r_series_put_call_ratio r))
  else if (member =? "forward_price")%string then Some (fv_double (r_series_forward_price r))
  else if (member =? "dividend")%string then Some (fv_double (r_series_dividend r))
  else if (member =? "interest")%string then Some (fv_double (r_series_interest r))
  else None.

Definition zero_series : dx_series_t := Build_dx_series_t 0 0 0 0 double_zero double_zero double_zero
  double_zero double_zero double_zero double_zero.

(** dx_configuration_t *)

Definition dx_configuration_members : list (string * field_type) := [
  ("version", ft_int); ("object", ft_bytes)].

Definition dx_configuration_setter (member : string) (v : field_value) (r : dx_configuration_t) : option dx_configuration_t :=
  let '(Build_dx_configuration_t version object) := r in
  if (member =? "version")%string then
    x ← as_int v; Some (Build_dx_configuration_t x object)
  else if (member =? "object")%string then
    x ← as_bytes v; Some (Build_dx_configuration_t version x)
  else None.

Definition dx_configuration_getter (member : string) (r : dx_configuration_t) : option field_value :=
  if (member =? "version")%string then Some (fv_int (r_configuration_version r))
  else if (member =? "object")%string then Some (fv_bytes (r_configuration_object r))
  else None.

Definition zero_configuration : dx_configuration_t := Build_dx_configuration_t 0 (ByteArray [] 0).
(** ** Records of any kind *)

Fixpoint member_type (members : list (string * field_type)) (member : string) : option field_type :=
  match members with
  | [] => None
  | (m, t) :: members' => if (m =? member)%string then Some t else member_type members' member
  end.

Definition set_field (member : string) (v : field_value) (record : dx_record_t) : option dx_record_t :=
  match record with
  | rec_trade r => rec_trade <$> dx_trade_setter member v r
  | rec_quote r => rec_quote <$> dx_quote_setter member v r
  | rec_summary r => rec_summary <$> dx_summary_setter member v r
  | rec_profile r => rec_profile <$> dx_profile_setter member v r
  | rec_market_maker r => rec_market_maker <$> dx_market_maker_setter member v r
  | rec_order r => rec_order <$> dx_order_setter member v r
  | rec_time_and_sale r => rec_time_and_sale <$> dx_time_and_sale_setter member v r
  | rec_candle r => rec_candle <$> dx_candle_setter member v r
  | rec_spread_order r => rec_spread_order <$> dx_spread_order_setter member v r
  | rec_greeks r => rec_greeks <$> dx_greeks_setter member v r
  | rec_theo_price r => rec_theo_price <$> dx_theo_price_setter member v r
  | rec_underlying r => rec_underlying <$> dx_underlying_setter member v r
  | rec_series r => rec_series <$> dx_series_setter member v r
  | rec_configuration r => rec_configuration <$> dx_configuration_setter member v r
  end.

Definition get_field (member : string) (record : dx_record_t) : option field_value :=
  match record with
  | rec_trade r => dx_trade_getter member r
  | rec_quote r => dx_quote_getter member r
  | rec_summary r => dx_summary_getter member r
  | rec_profile r => dx_profile_getter member r
  | rec_market_maker r => dx_market_maker_getter member r
  | rec_order r => dx_order_getter member r
  | rec_time_and_sale r => dx_time_and_sale_getter member r
  | rec_candle r => dx_candle_getter member r
  | rec_spread_order r => dx_spread_order_getter member r
  | rec_greeks r => dx_greeks_getter member r
  | rec_theo_price r => dx_theo_price_getter member r
  | rec_underlying r => dx_underlying_getter member r
  | rec_series r => dx_series_getter member r
  | rec_configuration r => dx_configuration_getter member r
  end.

Definition record_members (id : dx_record_info_id_t) : list (string * field_type) :=
  match id with
  | dx_rid_trade | dx_rid_trade_eth => dx_trade_members
  | dx_rid_quote => dx_quote_members
  | dx_rid_summary => dx_summary_members
  | dx_rid_profile => dx_profile_members
  | dx_rid_market_maker => dx_market_maker_members
  | dx_rid_order => dx_order_members
  | dx_rid_time_and_sale => dx_time_and_sale_members
  | dx_rid_candle => dx_candle_members
  | dx_rid_spread_order => dx_spread_order_members
  | dx_rid_greeks => dx_greeks_members
  | dx_rid_theo_price => dx_theo_price_members
  | dx_rid_underlying => dx_underlying_members
  | dx_rid_series => dx_series_members
  | dx_rid_configuration => dx_configuration_members
  end.

(** [dx_record_field_def_val_getter_t] of a member. *)
Definition def_val_getter (id : dx_record_info_id_t) (member : string) : option field_value :=
  generic_value_getter <$> member_type (record_members id) member.

(** The buffer that [dx_calloc] gives a kind of record. *)
Definition zero_record (id : dx_record_info_id_t) : dx_record_t :=
  match id with
  | dx_rid_trade | dx_rid_trade_eth => rec_trade zero_trade
  | dx_rid_quote => rec_quote zero_quote
  | dx_rid_summary => rec_summary zero_summary
  | dx_rid_profile => rec_profile zero_profile
  | dx_rid_market_maker => rec_market_maker zero_market_maker
  | dx_rid_order => rec_order zero_order
  | dx_rid_time_and_sale => rec_time_and_sale zero_time_and_sale
  | dx_rid_candle => rec_candle zero_candle
  | dx_rid_spread_order => rec_spread_order zero_spread_order
  | dx_rid_greeks => rec_greeks zero_greeks
  | dx_rid_theo_price => rec_theo_price zero_theo_price
  | dx_rid_underlying => rec_underlying zero_underlying
  | dx_rid_series => rec_series zero_series
  | dx_rid_configuration => rec_configuration zero_configuration
  end.

(** ** Record buffers *)

(** [record_buffer_array]: [None] is a buffer that is not allocated. *)
Definition record_buffers : Type := dx_record_info_id_t -> option dx_record_t.

Definition set_record (id : dx_record_info_id_t) (record : dx_record_t) (b : record_buffers) : record_buffers :=
  fun id' => if bool_decide (id' = id) then Some record else b id'.

(** [GET_RECORD_PTR_BODY] at the index 0, the only one that is used: [None] is a
    null pointer. *)
Definition get_record_ptr (alloc : nat -> bool) (id : dx_record_info_id_t) (b : record_buffers)
  : option (dx_record_t * record_buffers) :=
  match b id with
  | Some record => Some (record, b)
  | None => if alloc 1%nat then Some (zero_record id, set_record id (zero_record id) b) else None
  end.
