(* ===== verification/Heartbeat.v ===== *)
(** * Heartbeat: the payload of heartbeats and the time marks of a connection

    [src/HeartbeatPayload.cpp], [src/BinaryQTPParser.cpp] and the heartbeats of
    [src/Connection.cpp], which the messages of [ServerProcessor] reach.  The
    current time is an argument; the notifier of the user, which the connection
    calls with the times, is the list of the calls. *)

From S2P Require Import Prelude Arrays Output Input Wire Loops Framing.
Local Open Scope Z_scope.
Local Open Scope c_scope.

(** ** [HeartbeatPayload] *)

Definition EMPTY : Z := 0x0.
Definition TIME_MILLIS : Z := 0x1.
Definition TIME_MARK : Z := 0x2.
Definition DELTA_MARK : Z := 0x4.
Definition LAG_MARK : Z := 0x8.

Record HeartbeatPayload : Set := Heartbeat {
  contentMask_ : Z;
  timeMillis_ : Z;
  timeMark_ : Z;
  deltaMark_ : Z;
  lagMark_ : Z;
}.

Definition empty_payload : HeartbeatPayload := Heartbeat EMPTY 0 0 0 0.

Definition has (content : Z) (p : HeartbeatPayload) : bool := negb (Z.land (contentMask_ p) content =? 0).
Definition hasTimeMillis : HeartbeatPayload -> bool := has TIME_MILLIS.
Definition hasTimeMark : HeartbeatPayload -> bool := has TIME_MARK.
Definition hasDeltaMark : HeartbeatPayload -> bool := has DELTA_MARK.
Definition hasLagMark : HeartbeatPayload -> bool := has LAG_MARK.

Definition setTimeMillis (x : Z) (p : HeartbeatPayload) : HeartbeatPayload :=
  Heartbeat (Z.lor (contentMask_ p) TIME_MILLIS) x (timeMark_ p) (deltaMark_ p) (lagMark_ p).
Definition setTimeMark (x : Z) (p : HeartbeatPayload) : HeartbeatPayload :=
  Heartbeat (Z.lor (contentMask_ p) TIME_MARK) (timeMillis_ p) x (deltaMark_ p) (lagMark_ p).
Definition setDeltaMark (x : Z) (p : HeartbeatPayload) : HeartbeatPayload :=
  Heartbeat (Z.lor (contentMask_ p) DELTA_MARK) (timeMillis_ p) (timeMark_ p) x (lagMark_ p).
Definition setLagMark (x : Z) (p : HeartbeatPayload) : HeartbeatPayload :=
  Heartbeat (Z.lor (contentMask_ p) LAG_MARK) (timeMillis_ p) (timeMark_ p) (deltaMark_ p) x.

(** A field that is read when the mask has it, else 0. *)
Definition read_if (b : bool) (m : M in_ctx Z) : M in_ctx Z := if b then m else ret 0.

(** The payload of a failed parse is thrown away by the caller. *)
Definition parseFrom : M in_ctx HeartbeatPayload :=
  contentMask <-- dx_read_compact_int;;
  let p := Heartbeat (u32 contentMask) 0 0 0 0 in
  timeMillis <-- read_if (hasTimeMillis p) (x <-- dx_read_compact_long;; ret (u64 x));;
  timeMark <-- read_if (hasTimeMark p) dx_read_compact_int;;
  deltaMark <-- read_if (hasDeltaMark p) dx_read_compact_int;;
  lagMark <-- read_if (hasLagMark p) dx_read_compact_int;;
  ret (Heartbeat (u32 contentMask) timeMillis timeMark deltaMark lagMark).

Section compose.
(** Whether [dx_malloc] of so many bytes succeeds. *)
Context (malloc_ok : Z -> bool).

Definition write_if (b : bool) (m : M out_ctx unit) : M out_ctx unit := if b then m else ret tt.

Definition composeTo (p : HeartbeatPayload) : M out_ctx unit :=
  dx_write_compact_int malloc_ok (i32 (contentMask_ p));;;
  write_if (hasTimeMillis p) (dx_write_compact_long malloc_ok (i64 (timeMillis_ p)));;;
  write_if (hasTimeMark p) (dx_write_compact_int malloc_ok (timeMark_ p));;;
  write_if (hasDeltaMark p) (dx_write_compact_int malloc_ok (deltaMark_ p));;;
  write_if (hasLagMark p) (dx_write_compact_int malloc_ok (lagMark_ p)).
End compose.

(** ** [Connection] *)

Definition DELTA_MARK_UNKNOWN : Z := INT_MAX.
Definition TIME_MARK_MASK : Z := 0x3fffffff.

(** [signedDeltaMark]: the shift to the right is of an [int]. *)
Definition signedDeltaMark (mark : Z) : Z := Z.shiftr (i32 (Z.shiftl (u32 mark) 2)) 2.

(** [parser_currentTimeMark_] is [currentTimeMark_] of the parser, [totalLag_] is
    that of the composer. *)
Record Connection : Set := ConnectionImpl {
  lastDeltaMark_ : Z;
  connectionRttMark_ : Z;
  incomingLagMark_ : Z;
  parser_currentTimeMark_ : Z;
  totalLag_ : Z;
  notified : list (Z * Z * Z);
}.

Definition new_connection : Connection := ConnectionImpl DELTA_MARK_UNKNOWN 0 0 0 0 [].

Definition computeTimeMark (currentTimeMark incomingLagMark : Z) : Z :=
  let mark := Z.land (u32 (i32 (currentTimeMark - incomingLagMark))) TIME_MARK_MASK in
  if mark =? 0 then 1 else mark.

(** [has_notifier] is whether the user set [on_server_heartbeat_notifier]. *)
Definition processIncomingHeartbeatPayload (currentTimeMark : Z) (has_notifier : bool)
  (p : HeartbeatPayload) (c : Connection) : Connection :=
  let lastDeltaMark :=
    if hasTimeMark p then signedDeltaMark (i32 (currentTimeMark - timeMark_ p)) else lastDeltaMark_ c in
  let rtt :=
    if hasTimeMark p && hasDeltaMark p then signedDeltaMark (i32 (lastDeltaMark + deltaMark_ p))
    else connectionRttMark_ c in
  let lag := i32 (lagMark_ p + rtt) in
  ConnectionImpl lastDeltaMark rtt lag (computeTimeMark currentTimeMark lag) (totalLag_ c)
    (if has_notifier then notified c ++ [(i64 (timeMillis_ p), lagMark_ p, rtt)] else notified c).

(** [createOutgoingHeartbeat] up to the composing of the message. *)
Definition outgoing_payload (currentTimeMillis currentTimeMark : Z) (c : Connection)
  : HeartbeatPayload * Connection :=
  let p := setLagMark (totalLag_ c) (setTimeMark currentTimeMark (setTimeMillis currentTimeMillis empty_payload)) in
  let c' := ConnectionImpl (lastDeltaMark_ c) (connectionRttMark_ c) (incomingLagMark_ c)
    (parser_currentTimeMark_ c) 0 (notified c) in
  (if lastDeltaMark_ c =? DELTA_MARK_UNKNOWN then p else setDeltaMark (lastDeltaMark_ c) p, c').

(** [parseHeartbeat], [processIncomingHeartbeat] and
    [dx_connection_process_incoming_heartbeat], which succeed whatever the
    payload is. *)
Definition dx_connection_process_incoming_heartbeat (currentTimeMark : Z) (has_notifier : bool)
  : M (in_ctx * Connection) unit := fun '(c, conn) =>
  if in_buffer_limit c =? current_in_buffer_position c then Ok tt (c, conn)
  else
    match parseFrom c with
    | Ok p c => Ok tt (c, processIncomingHeartbeatPayload currentTimeMark has_notifier p conn)
    | Err _ c => Ok tt (c, conn)
    | UB => UB
    end.

(** ** Lemmas *)

Definition bytes_if (b : bool) (bs : list Z) : list Z := if b then bs else [].

Lemma writes_if b m n bs : 0 <= n -> writes m n bs -> writes (write_if b m) n (bytes_if b bs).
Proof. intros Hn Hm. destruct b; [done|]. eapply writes_weaken; [apply writes_nil|done]. Qed.

Lemma reads_if (b : bool) m bs v : reads m bs v -> (b = false -> v = 0) -> reads (read_if b m) (bytes_if b bs) v.
Proof. intros Hm Hv. destruct b; [done|]. rewrite Hv by done. apply reads_ret. Qed.

(** A payload as the setters make it: what is not in the mask is 0. *)
Record payload_ok (p : HeartbeatPayload) : Prop := {
  ok_mask : is_u32 (contentMask_ p);
  ok_millis : 0 <= timeMillis_ p < 2 ^ 63;
  ok_marks : is_i32 (timeMark_ p) /\ is_i32 (deltaMark_ p) /\ is_i32 (lagMark_ p);
  ok_absent : (hasTimeMillis p = false -> timeMillis_ p = 0) /\ (hasTimeMark p = false -> timeMark_ p = 0) /\
    (hasDeltaMark p = false -> deltaMark_ p = 0) /\ (hasLagMark p = false -> lagMark_ p = 0);
}.

Definition payload_bytes (p : HeartbeatPayload) : list Z :=
  compact_int_bytes (i32 (contentMask_ p)) ++
  bytes_if (hasTimeMillis p) (compact_long_bytes (timeMillis_ p)) ++
  bytes_if (hasTimeMark p) (compact_int_bytes (timeMark_ p)) ++
  bytes_if (hasDeltaMark p) (compact_int_bytes (deltaMark_ p)) ++
  bytes_if (hasLagMark p) (compact_int_bytes (lagMark_ p)).

Lemma wire_if b bs : wire (bytes_if b bs) = bytes_if b (wire bs).
Proof. by destruct b. Qed.

Lemma length_compact_int v : zlen (compact_int_bytes v) <= 5.
Proof. unfold zlen, compact_int_bytes. repeat destruct_match; simpl; lia. Qed.
Lemma length_compact_long v : zlen (compact_long_bytes v) <= 9.
Proof.
  unfold zlen, compact_long_bytes, compact_int_bytes. repeat destruct_match; simpl; lia.
Qed.
Lemma length_if b bs n : 0 <= n -> zlen bs <= n -> zlen (bytes_if b bs) <= n.
Proof. intros. by destruct b. Qed.

#[export] Instance payload_codec (malloc_ok : Z -> bool) :
  Codec (composeTo malloc_ok) parseFrom payload_ok (fun p => p).
Proof.
  refine {| codec_need _ := 29; codec_bytes := payload_bytes |}.
  - intros p. unfold payload_bytes. rewrite !zlen_app.
    pose proof (length_compact_int (i32 (contentMask_ p))).
    pose proof (length_if (hasTimeMillis p) (compact_long_bytes (timeMillis_ p)) 9 ltac:(lia) (length_compact_long _)).
    pose proof (length_if (hasTimeMark p) _ 5 ltac:(lia) (length_compact_int (timeMark_ p))).
    pose proof (length_if (hasDeltaMark p) _ 5 ltac:(lia) (length_compact_int (deltaMark_ p))).
    pose proof (length_if (hasLagMark p) _ 5 ltac:(lia) (length_compact_int (lagMark_ p))). lia.
  - intros p [Hm Ht (H1 & H2 & H3) _]. unfold composeTo, payload_bytes. rewrite !wire_app, !wire_if.
    pose proof (length_compact_int (i32 (contentMask_ p))).
    assert (forall b v, zlen (bytes_if b (wire (compact_int_bytes v))) <= 5) as L5.
    { intros b v. apply length_if; [lia|]. rewrite length_wire. apply length_compact_int. }
    assert (zlen (bytes_if (hasTimeMillis p) (wire (compact_long_bytes (timeMillis_ p)))) <= 9).
    { apply length_if; [lia|]. rewrite length_wire. apply length_compact_long. }
    rewrite i64_id by (unfold is_i64; lia).
    assert (forall v, is_i32 v -> forall b, writes (write_if b (dx_write_compact_int malloc_ok v)) 5
      (bytes_if b (wire (compact_int_bytes v)))) as W.
    { intros v Hv b. apply writes_if; [lia|by apply writes_compact_int]. }
    pose proof (L5 (hasTimeMark p) (timeMark_ p)). pose proof (L5 (hasDeltaMark p) (deltaMark_ p)).
    eapply (writes_seq _ _ 5 24); [apply writes_compact_int, i32_range| |lia|rewrite length_wire; lia].
    eapply (writes_seq _ _ 9 15); [apply writes_if; [lia|apply writes_compact_long; unfold is_i64; lia]| |lia|lia].
    eapply (writes_seq _ _ 5 10); [by apply W| |lia|lia].
    eapply (writes_seq _ _ 5 5); [by apply W|by apply W|lia|lia].
  - intros p [Hm Ht (H1 & H2 & H3) (A1 & A2 & A3 & A4)]. unfold parseFrom, payload_bytes.
    rewrite !wire_app, !wire_if.
    eapply reads_bind; [apply reads_compact_int, i32_range|]. cbn zeta.
    replace (u32 (i32 (contentMask_ p))) with (contentMask_ p) by (unfold_ints; zlia).
    change (hasTimeMillis (Heartbeat (contentMask_ p) 0 0 0 0)) with (hasTimeMillis p).
    change (hasTimeMark (Heartbeat (contentMask_ p) 0 0 0 0)) with (hasTimeMark p).
    change (hasDeltaMark (Heartbeat (contentMask_ p) 0 0 0 0)) with (hasDeltaMark p).
    change (hasLagMark (Heartbeat (contentMask_ p) 0 0 0 0)) with (hasLagMark p).
    eapply reads_bind.
    { apply (reads_if _ _ _ (timeMillis_ p)); [|done].
      eapply reads_bind_ret; [apply reads_compact_long; unfold is_i64; lia|].
      rewrite compact_long_read_id by lia. apply u64_id. unfold is_u64. lia. }
    eapply reads_bind; [by apply reads_if; [apply reads_compact_int|]|].
    eapply reads_bind; [by apply reads_if; [apply reads_compact_int|]|].
    eapply reads_bind_ret; [by apply reads_if; [apply reads_compact_int|]|]. by destruct p.
Defined.

Lemma onward_heartbeat now notifier :
  onward (S := in_ctx * Connection) fst 0 (dx_connection_process_incoming_heartbeat now notifier).
Proof.
  intros [c conn] Hs. unfold onward_at, dx_connection_process_incoming_heartbeat. cbn [fst] in *.
  pose proof (further_refl c (proj1 Hs)).
  destruct (_ =? _); [split; [done|cbn [fst]; lia]|].
  assert (onward (fun c => c) 0 parseFrom) as Hp.
  { unfold parseFrom, read_if. onward_tac. }
  specialize (Hp c Hs). unfold onward_at in Hp.
  destruct (parseFrom c) as [p c'|e c'|]; [done| |done]. split; [done|]. cbn [fst].
  destruct Hp as (_ & _ & _ & _ & ?). lia.
Qed.

Lemma safe_parse : safe parseFrom.
Proof.
  assert (forall b m, safe m -> safe (read_if b m)) as Hif by (intros [] m Hm; [done|by apply safe_ret]).
  unfold parseFrom. repeat (apply safe_seq; [try apply Hif; safe_tac|intros]). by apply safe_ret.
Qed.
Lemma heartbeat_defined now notifier c conn : in_small c ->
  dx_connection_process_incoming_heartbeat now notifier (c, conn) <> UB.
Proof.
  intros Hs. cbn. destruct (_ =? _); [done|]. pose proof (safe_parse c Hs). by destruct (parseFrom c).
Qed.

(** ** Properties *)

(** C30: a heartbeat payload that is composed is parsed as the same payload: the
    mask, the fields it has, which may be any of the four, and zeros for the
    others; the parse ends where the composing did. *)
Theorem heartbeat_roundtrip (malloc_ok : Z -> bool) (p : HeartbeatPayload) (c : out_ctx) :
  payload_ok p -> out_wf c -> current_out_buffer_position c + 29 <= INT_MAX ->
  round_trips (composeTo malloc_ok) parseFrom (fun p => p) p c.
Proof.
  intros Hp Hc Hm. by apply (codec_round_trips _ _ payload_ok _ (Codec0 := payload_codec malloc_ok)).
Qed.

Lemma heartbeat_roundtrip_witness :
  round_trips (composeTo (fun _ => true)) parseFrom (fun p => p)
    (fst (outgoing_payload 1650000000000 123456789 (ConnectionImpl (-77) 0 0 0 5 []))) out_example.
Proof.
  apply heartbeat_roundtrip; [|apply out_example_wf|unfold INT_MAX; simpl; lia].
  constructor; vm_compute; repeat split; done.
Defined.
