(* ===== verification/ServerData.v ===== *)
(** * ServerData: the records of [src/ServerMessageProcessor.c]

    The descriptions of records that the server sends become digests: for each
    field of the server its type and the setter of the local field, and behind
    them the local fields that no description of the record has listed, which get a
    default value.  A data message is a sequence of symbols and records, read as their
    digests say into the record buffers and handed to the transcoders.  The
    mutexes are not modelled. *)

From Stdlib Require Import Ascii String SpecFloat.
From S2P Require Import Prelude Arrays Algorithms Output Input Wire SymbolCodec Loops EventData Snapshot.
From S2P Require Import Doubles DataStructures ConfigurationDeserializer RecordData RecordTranscoder.
From S2P Require Import Decimals RecordFields MessageData.
Local Open Scope Z_scope.
Local Open Scope c_scope.

Definition SYMBOL_BUFFER_LEN : Z := 2048.
Definition MIN_FIELD_TYPE_ID : Z := 0x00.
Definition MAX_FIELD_TYPE_ID : Z := 0xFF.
Definition ULLONG_MAX : Z := 2 ^ 64 - 1.

(** ** The state *)

(** The part of the context that data and descriptions use, with the input
    buffer, the transcoder (and the data structures in it) and the record
    buffers.  [dc_out] holds [symbol_result], [last_flags], [mru_event_flags] and
    [symbol_buffer]. *)
Record data_ctx : Type := DataCtx {
  dc_in : in_ctx;
  dc_out : symbol_out;
  dc_last_symbol : option (list Z);
  dc_last_cipher : Z;
  dc_tc : tc_state;
  dc_byte_arrays : dx_array dxf_byte_array_t;
  dc_records : record_buffers;
}.

Definition set_dc_symbol (symbol : option (list Z)) (cipher : Z) (s : data_ctx) : data_ctx :=
  DataCtx (dc_in s) (dc_out s) symbol cipher (dc_tc s) (dc_byte_arrays s) (dc_records s).
Definition set_dc_out (x : symbol_out) (s : data_ctx) : data_ctx :=
  DataCtx (dc_in s) x (dc_last_symbol s) (dc_last_cipher s) (dc_tc s) (dc_byte_arrays s) (dc_records s).
Definition set_dc_in (x : in_ctx) (s : data_ctx) : data_ctx :=
  DataCtx x (dc_out s) (dc_last_symbol s) (dc_last_cipher s) (dc_tc s) (dc_byte_arrays s) (dc_records s).
Definition set_dc_tc (x : tc_state) (s : data_ctx) : data_ctx :=
  DataCtx (dc_in s) (dc_out s) (dc_last_symbol s) (dc_last_cipher s) x (dc_byte_arrays s) (dc_records s).
Definition set_dc_byte_arrays (x : dx_array dxf_byte_array_t) (s : data_ctx) : data_ctx :=
  DataCtx (dc_in s) (dc_out s) (dc_last_symbol s) (dc_last_cipher s) (dc_tc s) x (dc_records s).
Definition set_dc_records (x : record_buffers) (s : data_ctx) : data_ctx :=
  DataCtx (dc_in s) (dc_out s) (dc_last_symbol s) (dc_last_cipher s) (dc_tc s) (dc_byte_arrays s) x.

Definition on_in {A} : M in_ctx A -> M data_ctx A := on dc_in set_dc_in.
Definition on_codec {A} : M codec_state A -> M data_ctx A :=
  on (fun s => (dc_in s, dc_out s)) (fun t s => set_dc_out t.2 (set_dc_in t.1 s)).
Definition on_tc {A} : M tc_state A -> M data_ctx A := on dc_tc set_dc_tc.
Definition on_dscc {A} : M dscc A -> M data_ctx A :=
  on (fun s => tc_dscc (dc_tc s)) (fun t s => set_dc_tc (set_tc_dscc t (dc_tc s)) s).

(** [while (position < limit) body]: every round reads, so that the bytes up to
    the limit are rounds enough. *)
Definition in_limit (s : data_ctx) : bool :=
  current_in_buffer_position (dc_in s) <? in_buffer_limit (dc_in s).
Definition while_input (body : M data_ctx unit) : M data_ctx unit :=
  s <-- get;;
  while in_limit (body;;; ret proceed) tt
    (Z.to_nat (in_buffer_limit (dc_in s) - current_in_buffer_position (dc_in s))).

Section data.
(** Whether [dx_calloc] of so many bytes succeeds, [mbsrtowcs], the error of
    delivering an event, the strings of wide decimals, the hash of a symbol and
    the tables of the symbol codec. *)
Context (calloc_ok : Z -> bool) (mbsrtowcs : list Z -> option (list Z)).
Context (process : tc_event -> option dx_error_code) (parse_wide : Z -> dxf_double_t).
Context (dx_symbol_name_hasher : list Z -> Z) (t : tables).

Let alloc (n : nat) : bool := calloc_ok (Z.of_nat n).

(** ** Digests of records *)

(** The place of the digest of a record, [None] is a null pointer. *)
Definition digest_index (record_id : Z) (s : dscc) : option nat :=
  if bool_decide (arr_elements (record_digests s) = []) || (record_id <? 0) ||
     (Z.of_nat (arr_size (record_digests s)) <=? record_id)
  then None else Some (Z.to_nat record_id).

Definition dx_get_record_digest (record_id : Z) : M dscc (option dx_record_digest_t) :=
  s <-- get;;
  match digest_index record_id s with
  | None => ret None
  | Some i => d <-- of_option (arr_elements (record_digests s) !! i);; ret (Some d)
  end.

(** A store through the pointer that [dx_get_record_digest] returned. *)
Definition put_digest (record_id : Z) (d : dx_record_digest_t) : M dscc unit :=
  s <-- get;;
  let a := record_digests s in
  l <-- of_option (write_at (arr_elements a) (Z.to_nat record_id) d);;
  put (set_record_digests (DxArray l (arr_size a) (arr_capacity a)) s).

(** The support state of a record; where there is none no error code is set, and
    [dx_ec_success] stands for the one of the last error. *)
Definition support_state (record_id : Z) : M dscc Z :=
  s <-- get;;
  let a := record_server_support_states s in
  if (record_id <? 0) || (Z.of_nat (arr_size a) <=? record_id)
  then dx_set_error_code dx_ec_success
  else of_option (arr_elements a !! Z.to_nat record_id).
Definition put_support_state (record_id state : Z) : M dscc unit :=
  s <-- get;;
  let a := record_server_support_states s in
  l <-- of_option (write_at (arr_elements a) (Z.to_nat record_id) state);;
  put (set_states (DxArray l (arr_size a) (arr_capacity a)) s).

(** The digest of the field that is read from the buffer, [None] for a record
    that is not known.  The test of the allocation looks at the pointer to the
    result, so that a failure is a null pointer that is written through. *)
Definition dx_create_field_digest (record_id : Z) (record_info : option dx_record_item_t)
  : M data_ctx (option dx_field_digest_t) :=
  field_name <-- on_in (dx_read_utf_string calloc_ok);;
  field_type <-- on_in dx_read_compact_int;;
  match c_string <$> field_name with
  | None | Some [] => dx_set_error_code dx_pec_descr_record_field_info_corrupted
  | Some field_name =>
      if (field_type <? MIN_FIELD_TYPE_ID) || (MAX_FIELD_TYPE_ID <? field_type)
      then dx_set_error_code dx_pec_descr_record_field_info_corrupted
      else
        match record_info with
        | None => ret None
        | Some info =>
            let field_index := dx_find_record_field info field_name field_type in
            if negb (alloc 1) then undefined
            else if field_index =? INVALID_INDEX then ret (Some (FieldDigest field_type 0 None None))
            else
              field <-- of_option (ri_fields info !! Z.to_nat field_index);;
              state <-- on_dscc (support_state record_id);;
              on_dscc (put_support_state record_id (Z.lor state (INDEX_BITMASK (Z.to_nat field_index))));;;
              ret (Some (FieldDigest field_type (fi_type field) (Some (fi_member field)) None))
        end
  end.

(** [record_digest->elements[size++] = field_digest] *)
Definition append_field (record_id : Z) (f : dx_field_digest_t) : M dscc unit :=
  d <-- dx_get_record_digest record_id;;
  d <-- of_option d;;
  put_digest record_id (RecordDigest (rd_elements d ++ [f]) (rd_in_sync_with_server d)).

Fixpoint unsupported_loop (record_id : Z) (fields : list dx_field_info_t) (field_index : nat)
  : M data_ctx unit :=
  match fields with
  | [] => ret tt
  | f :: fields' =>
      state <-- on_dscc (support_state record_id);;
      (if negb (Z.land state (INDEX_BITMASK field_index) =? 0) then ret tt
       else if alloc 1
       then on_dscc (append_field record_id (FieldDigest 0 0 (Some (fi_member f)) (Some (fi_member f))))
       else dx_set_error_code dx_mec_insufficient_memory);;;
      unsupported_loop record_id fields' (S field_index)
  end.

Definition dx_digest_unsupported_fields (record_id : Z) (record_info : option dx_record_item_t)
  : M data_ctx unit :=
  if record_id <? 0 then ret tt
  else
    d <-- on_dscc (dx_get_record_digest record_id);;
    match d, record_info with
    | None, _ => dx_set_error_code dx_ec_invalid_func_param_internal
    | Some _, None => undefined
    | Some _, Some info => unsupported_loop record_id (ri_fields info) 0
    end.

Fixpoint fill_loop (n : nat) (rid : Z) (record_info : option dx_record_item_t) : M data_ctx unit :=
  match n with
  | O => ret tt
  | S n' =>
      f <-- dx_create_field_digest rid record_info;;
      match f with None => ret tt | Some f => on_dscc (append_field rid f) end;;;
      fill_loop n' rid record_info
  end.

Definition dx_fill_record_digest (rid : Z) (record_info : option dx_record_item_t) (field_count : Z)
  : M data_ctx unit :=
  fill_loop (Z.to_nat field_count) rid record_info;;;
  dx_digest_unsupported_fields rid record_info;;;
  if rid <? 0 then ret tt
  else
    d <-- on_dscc (dx_get_record_digest rid);;
    match d with
    | None => dx_set_error_code dx_ec_invalid_func_param_internal
    | Some d => on_dscc (put_digest rid (RecordDigest (rd_elements d) true))
    end.

(** One description.  The new array has room for the fields of the server and
    all the local ones, and never holds more. *)
Definition describe_record : M data_ctx unit :=
  server_record_id <-- on_in dx_read_compact_int;;
  record_name <-- on_in (dx_read_utf_string calloc_ok);;
  server_field_count <-- on_in dx_read_compact_int;;
  match c_string <$> record_name with
  | None | Some [] => dx_set_error_code dx_pec_record_info_corrupted
  | Some record_name =>
      if server_field_count <? 0 then dx_set_error_code dx_pec_record_info_corrupted
      else
        local_record_id <-- on_dscc (dx_get_record_id_by_name record_name);;
        if local_record_id =? DX_RECORD_ID_INVALID
        then dx_fill_record_digest local_record_id None server_field_count
        else
          assigned <-- on_dscc (dx_assign_server_record_id alloc local_record_id server_record_id);;
          if negb assigned then dx_set_error_code dx_mec_insufficient_memory
          else
            record_info <-- on_dscc (dx_get_record_by_id local_record_id);;
            d <-- on_dscc (dx_get_record_digest local_record_id);;
            match d with
            | None => dx_set_error_code dx_ec_invalid_func_param_internal
            | Some _ =>
                on_dscc (put_digest local_record_id zero_digest);;;
                if alloc (Z.to_nat server_field_count + length (ri_fields record_info))
                then dx_fill_record_digest local_record_id (Some record_info) server_field_count
                else dx_set_error_code dx_mec_insufficient_memory
            end
  end.

Definition dx_process_describe_records : M data_ctx unit := while_input describe_record.

(** ** Records *)

Definition dx_store_byte_array_buffer (buf : dxf_byte_array_t) : M data_ctx unit :=
  s <-- get;;
  r <-- of_option (DX_ARRAY_INSERT (ByteArray [] 0) alloc (dc_byte_arrays s) buf (arr_size (dc_byte_arrays s)));;
  put (set_dc_byte_arrays r.1 s);;;
  if (r.2 : bool) then dx_set_error_code dx_mec_insufficient_memory else ret tt.

Definition dx_free_buffers : M data_ctx unit :=
  s <-- get;;
  put (set_dc_byte_arrays DX_EMPTY_ARRAY (set_dc_tc (set_tc_strings DX_EMPTY_ARRAY (dc_tc s)) s)).

(** A setter at the record buffer of a kind of record. *)
Definition call_setter (id : dx_record_info_id_t) (member : string) (v : field_value) : M data_ctx unit :=
  s <-- get;;
  record <-- of_option (dc_records s id);;
  record <-- of_option (set_field member v record);;
  put (set_dc_records (set_record id record (dc_records s)) s).

Definition CHECKED_SET_VALUE (id : dx_record_info_id_t) (setter : option string) (v : field_value)
  : M data_ctx unit :=
  match setter with None => ret tt | Some member => call_setter id member v end.

(** The time of a removed event is 64 bits, whatever the digest says. *)
Fixpoint set_times (id : dx_record_info_id_t) (fields : list dx_field_info_t) (high low : Z) : M data_ctx unit :=
  match fields with
  | [] => ret tt
  | f :: fields' =>
      match fi_time f with
      | dx_ft_first_time_int_field => call_setter id (fi_member f) (fv_int high)
      | dx_ft_second_time_int_field => call_setter id (fi_member f) (fv_int low)
      | dx_ft_common_field => ret tt
      end;;;
      set_times id fields' high low
  end.

Definition dx_read_qdtime_on_remove_event (record_id : Z) : M data_ctx unit :=
  record_info <-- on_dscc (dx_get_record_by_id record_id);;
  qdtime_signed <-- on_in dx_read_compact_long;;
  let qdtime := u64 qdtime_signed in
  let high := i32 (Z.shiftr qdtime 32) in
  let low := i32 (Z.land qdtime 0xFFFFFFFF) in
  set_times (ri_info_id record_info) (ri_fields record_info) high low.

Definition is_decimal (representation : Z) : bool :=
  (representation =? dx_fid_flag_decimal) || (representation =? dx_fid_flag_wide_decimal).

(** A number that may be a decimal. *)
Definition number_value (representation n : Z) (plain : field_value) : field_value :=
  if representation =? dx_fid_flag_decimal then fv_double (dx_decimal_int_to_double n)
  else if representation =? dx_fid_flag_wide_decimal then fv_double (dx_wide_decimal_long_to_double parse_wide n)
  else plain.

(** A decimal for a local field that is a decimal or an integer. *)
Definition decimal_value (local_representation : Z) (x : dxf_double_t) : option field_value :=
  if is_decimal local_representation then Some (fv_double x) else fv_int <$> double_to_int x.

Definition read_compact_field (representation local_representation : Z) : M data_ctx field_value :=
  if (representation =? dx_fid_flag_long) || (representation =? dx_fid_flag_time_millis) then
    n <-- on_in dx_read_compact_long;; ret (fv_long n)
  else if representation =? dx_fid_flag_wide_decimal then
    n <-- on_in dx_read_compact_long;;
    of_option (decimal_value local_representation (dx_wide_decimal_long_to_double parse_wide n))
  else
    n <-- on_in dx_read_compact_int;;
    if representation =? dx_fid_flag_decimal
    then of_option (decimal_value local_representation (dx_decimal_int_to_double n))
    else if is_decimal local_representation then ret (fv_double (double_of_int n))
    else ret (fv_int n).

(** The string of the buffer that is read; the result of storing is ignored. *)
Definition read_stored_string (read : M in_ctx (option (list Z))) : M data_ctx field_value :=
  s <-- on_in read;;
  let s := c_string <$> s in
  ignored (on_tc (dx_store_string_buffer alloc s));;;
  ret (fv_string s).

Definition byte_array_of (a : dx_array Z) : dxf_byte_array_t :=
  ByteArray (arr_elements a) (Z.of_nat (arr_size a)).

(** The value of a field of the server. *)
Definition read_field (type local_type : Z) : M data_ctx field_value :=
  let serialization := Z.land type dx_fid_mask_serialization in
  let representation := Z.land type dx_fid_mask_representation in
  let local_representation := Z.land local_type dx_fid_mask_representation in
  if serialization =? dx_fid_byte then
    n <-- on_in dx_read_byte;; ret (number_value representation n (fv_byte n))
  else if serialization =? dx_fid_utf_char then
    n <-- on_in dx_read_utf_char;; ret (fv_char n)
  else if serialization =? dx_fid_short then
    n <-- on_in dx_read_short;; ret (number_value representation n (fv_short n))
  else if serialization =? dx_fid_int then
    n <-- on_in dx_read_int;; ret (number_value representation n (fv_int n))
  else if serialization =? dx_fid_compact_int then read_compact_field representation local_representation
  else if serialization =? dx_fid_byte_array then
    if representation =? dx_fid_flag_string then read_stored_string (dx_read_utf_string calloc_ok)
    else
      a <-- on_in (dx_read_byte_array calloc_ok);;
      ignored (dx_store_byte_array_buffer (byte_array_of a));;;
      ret (fv_bytes (byte_array_of a))
  else if serialization =? dx_fid_utf_char_array then read_stored_string (dx_read_utf_char_array calloc_ok)
  else dx_set_error_code dx_pec_record_field_type_not_supported.

(** One element of the digest; a null setter or getter of a default value is
    called. *)
Definition process_field (id : dx_record_info_id_t) (f : dx_field_digest_t) : M data_ctx unit :=
  if Z.land (fd_type f) dx_fid_mask_serialization =? dx_fid_void then
    setter <-- of_option (fd_setter f);;
    getter <-- of_option (fd_def_val_getter f);;
    v <-- of_option (def_val_getter id getter);;
    call_setter id setter v
  else
    v <-- read_field (fd_type f) (fd_local_type f);;
    CHECKED_SET_VALUE id (fd_setter f) v.

Fixpoint process_fields (id : dx_record_info_id_t) (fields : list dx_field_digest_t) : M data_ctx unit :=
  match fields with
  | [] => ret tt
  | f :: fields' => process_field id f;;; process_fields id fields'
  end.

Definition dx_read_records (record_id : Z) (id : dx_record_info_id_t) : M data_ctx unit :=
  s <-- get;;
  if IS_FLAG_SET (flags (dc_out s)) dxf_ef_remove_event then dx_read_qdtime_on_remove_event record_id
  else
    d <-- on_dscc (dx_get_record_digest record_id);;
    match d with
    | None => dx_set_error_code dx_ec_invalid_func_param_internal
    | Some d => process_fields id (rd_elements d)
    end.

(** A getter stores the four or eight bytes of its field in a long of zeros. *)
Definition time_bits (v : field_value) : Z :=
  match v with
  | fv_int n | fv_char n | fv_dayid n => u32 n
  | fv_long n => u64 n
  | _ => 0
  end.
Fixpoint time_fields (record : dx_record_t) (fields : list dx_field_info_t) (high low : Z) : option (Z * Z) :=
  match fields with
  | [] => Some (high, low)
  | f :: fields' =>
      match fi_time f with
      | dx_ft_first_time_int_field => v ← get_field (fi_member f) record; time_fields record fields' (time_bits v) low
      | dx_ft_second_time_int_field => v ← get_field (fi_member f) record; time_fields record fields' high (time_bits v)
      | dx_ft_common_field => time_fields record fields' high low
      end
  end.
Definition dx_get_time_int_field (record_id : Z) (record : dx_record_t) : M dscc Z := fun s =>
  match dx_get_record_by_id record_id s with
  | Ok info s =>
      match time_fields record (ri_fields info) 0 0 with
      | Some (high, low) => Ok (Z.lor (u64 (Z.shiftl high 32)) (Z.land low 0xFFFFFFFF)) s
      | None => UB
      end
  | Err _ s => Ok ULLONG_MAX s
  | UB => UB
  end.

(** ** Data messages *)

Definition dx_read_symbol : M data_ctx unit :=
  on_codec (dx_codec_read_symbol calloc_ok calloc_ok t SYMBOL_BUFFER_LEN);;;
  s <-- get;;
  let r := cipher_result (dc_out s) in
  if negb (Z.land r dx_get_codec_valid_cipher =? 0) then put (set_dc_symbol None r s)
  else if 0 <? r then
    if alloc (Z.to_nat r + 1)
    then put (set_dc_symbol (Some (c_string (take (Z.to_nat r) (buffer (dc_out s))))) 0 s)
    else put (set_dc_symbol None 0 s);;; dx_set_error_code dx_mec_insufficient_memory
  else
    match result (dc_out s) with
    | Some symbol =>
        cipher <-- of_option (dx_encode_symbol_name t (Some (c_string symbol)));;
        put (set_dc_out (set_result None (dc_out s)) (set_dc_symbol (Some (c_string symbol)) cipher s))
    | None => ret tt
    end;;;
    s <-- get;;
    if (dc_last_cipher s =? 0) && bool_decide (dc_last_symbol s = None)
    then dx_set_error_code dx_pec_invalid_symbol else ret tt.

(** The symbol that a cipher stands for. *)
Definition decode_last_symbol : M data_ctx unit :=
  s <-- get;;
  match dc_last_symbol s with
  | Some _ => ret tt
  | None =>
      symbol <-- dx_decode_symbol_name calloc_ok t (dc_last_cipher s);;
      s <-- get;; put (set_dc_symbol (c_string <$> symbol) (dc_last_cipher s) s)
  end.

(** The record buffers are freed before an error is returned. *)
Definition freeing {A} (m : M data_ctx A) : M data_ctx A := fun s =>
  match m s with
  | Err e s => match dx_free_buffers s with Ok _ s => Err e s | Err _ s => Err e s | UB => UB end
  | r => r
  end.

(** [dx_string_length(suffix) > 0 ? suffix : NULL]; the length of a suffix that
    fills its buffer is read behind it. *)
Definition record_suffix (info : dx_record_item_t) : option (option (list Z)) :=
  if bool_decide (0 ∈ ri_suffix info)
  then Some (match c_string (ri_suffix info) with [] => None | s => Some s end)
  else None.

(** The transcoder with the record of the buffer of a kind. *)
Definition on_record {A} (id : dx_record_info_id_t) (record : dx_record_t) : M (tc_state * dx_record_t) A -> M data_ctx A :=
  on (fun s => (dc_tc s, record)) (fun t s => set_dc_records (set_record id t.2 (dc_records s)) (set_dc_tc t.1 s)).

Definition process_record (record_id : Z) : M data_ctx unit :=
  d <-- freeing (on_dscc (dx_get_record_digest record_id));;
  match d with
  | None => freeing (dx_set_error_code dx_ec_invalid_func_param_internal)
  | Some d =>
      if negb (rd_in_sync_with_server d)
      then freeing (dx_set_error_code dx_pec_record_description_not_received)
      else
        info <-- on_dscc (dx_get_record_by_id record_id);;
        let id := ri_info_id info in
        s <-- get;;
        let buffer := get_record_ptr alloc id (dc_records s) in
        suffix <-- of_option (record_suffix info);;
        match buffer with
        | None => freeing (dx_set_error_code dx_mec_insufficient_memory)
        | Some (_, records) =>
            put (set_dc_records records s);;;
            freeing (dx_read_records record_id id);;;
            s <-- get;;
            record <-- of_option (dc_records s id);;
            symbol <-- of_option (dc_last_symbol s);;
            time_int_field <-- on_dscc (dx_get_time_int_field record_id record);;
            let rp := RecordParams record_id id suffix symbol (dc_last_cipher s) (flags (dc_out s)) time_int_field in
            let ep := EventParams (flags (dc_out s)) time_int_field
              (dx_new_snapshot_key dx_symbol_name_hasher id symbol suffix) in
            freeing (on_record id record (dx_transcode_record_data alloc calloc_ok mbsrtowcs process rp ep));;;
            dx_free_buffers
        end
  end.

(** One round of the loop of [dx_process_data_message]. *)
Definition process_data : M data_ctx unit :=
  dx_read_symbol;;;
  decode_last_symbol;;;
  server_record_id <-- freeing (on_in dx_read_compact_int);;
  record_id <-- on_dscc (dx_get_record_id server_record_id);;
  if record_id <? 0 then freeing (dx_set_error_code dx_pec_record_not_supported)
  else process_record record_id.

Definition dx_process_data_message : M data_ctx unit :=
  update (fun s =>
    set_dc_out (set_mru dxf_ef_tx_pending (SymbolCodec.set_flags 0 (dc_out s))) (set_dc_symbol None 0 s));;;
  while_input process_data.
End data.

(** ** Every round reads *)

Lemma onward_on_in {A} n (m : M in_ctx A) : onward (fun c => c) n m -> onward dc_in n (on_in m).
Proof.
  intros Hm s Hs. specialize (Hm (dc_in s) Hs). unfold onward_at, on_in, on in *.
  by destruct (m (dc_in s)).
Qed.
Lemma onward_on_codec {A} n (m : M codec_state A) : onward fst n m -> onward dc_in n (on_codec m).
Proof.
  intros Hm s Hs. specialize (Hm (dc_in s, dc_out s) Hs). unfold onward_at, on_codec, on in *.
  by destruct (m (dc_in s, dc_out s)).
Qed.

(** An operation on another part of the state. *)
Lemma onward_on {T A} (part : data_ctx -> T) set (m : M T A) :
  (forall t s, dc_in (set t s) = dc_in s) -> onward dc_in 0 (on part set m).
Proof.
  intros Hset s [Hs _]. unfold onward_at, on.
  destruct (m (part s)); rewrite ?Hset; [split; [by apply further_refl|lia]|by apply further_refl|done].
Qed.
Lemma onward_on_dscc {A} (m : M dscc A) : onward dc_in 0 (on_dscc m).
Proof. by apply onward_on. Qed.
Lemma onward_on_tc {A} (m : M tc_state A) : onward dc_in 0 (on_tc m).
Proof. by apply onward_on. Qed.
Lemma onward_on_record {A} id record (m : M (tc_state * dx_record_t) A) : onward dc_in 0 (on_record id record m).
Proof. by apply onward_on. Qed.
Lemma onward_ignored {A} (m : M data_ctx A) : onward dc_in 0 m -> onward dc_in 0 (ignored m).
Proof.
  intros Hm s Hs. specialize (Hm s Hs). unfold onward_at, ignored in *.
  destruct (m s); [done| |done]. split; [done|]. destruct Hm as (_ & _ & _ & _ & ?). lia.
Qed.
#[export] Hint Resolve onward_on_dscc onward_on_tc onward_on_record : dx.
#[export] Hint Extern 1 (onward dc_in _ (on_in _)) => apply onward_on_in; solve [auto with dx] : dx.
#[export] Hint Extern 1 (onward dc_in _ (on_codec _)) => apply onward_on_codec; solve [auto with dx] : dx.
#[export] Hint Extern 1 (onward dc_in 0 (ignored _)) => apply onward_ignored; solve [auto with dx] : dx.

(** A loop whose rounds read. *)
Lemma while_input_runs (body : M data_ctx unit) s :
  onward dc_in 1 body -> in_small (dc_in s) ->
  loop_runs in_limit (body;;; ret proceed) tt s (while_input body s).
Proof.
  intros Hb Hs. unfold while_input, checked_call at 1, get.
  apply (while_runs _ _ _ (fun s => in_small (dc_in s))
    (fun s => in_buffer_limit (dc_in s) - current_in_buffer_position (dc_in s))).
  - intros s1 s2 H1 _ E. specialize (Hb s1 H1). unfold onward_at, checked_call, ret in *.
    destruct (body s1) as [[] s3|e s3|]; [|done|done]. injection E as <-. destruct Hb as [Hf Hn].
    split; [by eapply further_small|]. destruct Hf as (_ & _ & _ & -> & _). lia.
  - intros s1 _ E. unfold in_limit in E. bool_to_prop. lia.
  - done.
  - unfold in_limit. lia.
Qed.

Lemma onward_while_input (body : M data_ctx unit) : onward dc_in 1 body -> onward dc_in 0 (while_input body).
Proof.
  intros Hb. unfold while_input. apply onward_get. intros s Hs.
  assert (forall n, onward dc_in 0 (while in_limit (body;;; ret proceed) tt n)) as H; [|by apply H].
  clear s Hs.
  induction n as [|n IH]; intros s Hs; unfold onward_at; cbn [while].
  - destruct (in_limit s); [done|]. exact (onward_at_ret dc_in tt s Hs).
  - destruct (in_limit s); [|exact (onward_at_ret dc_in tt s Hs)]. specialize (Hb s Hs). unfold onward_at, checked_call, ret in *.
    destruct (body s) as [[] s'|e s'|]; [|done|done]. destruct Hb as [Hf Hn].
    specialize (IH s' (further_small _ _ Hs Hf)). unfold onward_at in IH.
    destruct (while _ _ _ _ _) as [[] s2|e s2|]; [destruct IH; split; [|lia]| |done]; by eapply further_trans.
Qed.

Section rounds.
Context (calloc_ok : Z -> bool) (mbsrtowcs : list Z -> option (list Z)).
Context (process : tc_event -> option dx_error_code) (parse_wide : Z -> dxf_double_t).
Context (dx_symbol_name_hasher : list Z -> Z) (t : tables).

Lemma onward_create_field_digest rid info : onward dc_in 0 (dx_create_field_digest calloc_ok rid info).
Proof. unfold dx_create_field_digest. onward_tac. Qed.
Hint Resolve onward_create_field_digest : dx.

Lemma onward_unsupported_loop rid fields i : onward dc_in 0 (unsupported_loop calloc_ok rid fields i).
Proof.
  revert i. induction fields as [|f fields IH]; intros i; cbn [unsupported_loop]; [auto with dx|].
  repeat first [apply IH | progress onward_tac].
Qed.
Hint Resolve onward_unsupported_loop : dx.

Lemma onward_fill_loop n rid info : onward dc_in 0 (fill_loop calloc_ok n rid info).
Proof.
  induction n as [|n IH]; cbn [fill_loop]; [auto with dx|]. repeat first [apply IH | progress onward_tac].
Qed.
Hint Resolve onward_fill_loop : dx.

Lemma onward_fill_record_digest rid info n : onward dc_in 0 (dx_fill_record_digest calloc_ok rid info n).
Proof. unfold dx_fill_record_digest, dx_digest_unsupported_fields. onward_tac. Qed.
Hint Resolve onward_fill_record_digest : dx.

Lemma onward_update f : (forall s, dc_in (f s) = dc_in s) -> onward dc_in 0 (update f).
Proof. intros Hf s [Hs _]. cbn. rewrite Hf. split; [by apply further_refl|lia]. Qed.

Lemma onward_free_buffers : onward dc_in 0 dx_free_buffers.
Proof. unfold dx_free_buffers. onward_tac. Qed.
Lemma onward_freeing {A} (m : M data_ctx A) : onward dc_in 0 m -> onward dc_in 0 (freeing m).
Proof.
  intros Hm s Hs. specialize (Hm s Hs). unfold onward_at, freeing in *.
  destruct (m s) as [| e s'|]; [done| |done]. exact Hm.
Qed.
Hint Resolve onward_free_buffers : dx.
Hint Extern 1 (onward dc_in 0 (freeing _)) => apply onward_freeing; solve [auto with dx] : dx.

Lemma onward_set_times id fields high low : onward dc_in 0 (set_times id fields high low).
Proof.
  induction fields as [|f fields IH]; cbn [set_times]; [auto with dx|].
  unfold call_setter. repeat first [apply IH | progress onward_tac].
Qed.
Hint Resolve onward_set_times : dx.

Lemma onward_store_byte_array a : onward dc_in 0 (dx_store_byte_array_buffer calloc_ok a).
Proof. unfold dx_store_byte_array_buffer. onward_tac. Qed.
Lemma onward_stored_string (m : M in_ctx (option (list Z))) :
  onward (fun c => c) 0 m -> onward dc_in 0 (read_stored_string calloc_ok m).
Proof. intros Hm. unfold read_stored_string. onward_tac. Qed.
Hint Resolve onward_store_byte_array onward_stored_string : dx.

Lemma onward_read_field type local_type : onward dc_in 0 (read_field calloc_ok parse_wide type local_type).
Proof. unfold read_field, read_compact_field. onward_tac. Qed.
Hint Resolve onward_read_field : dx.

Lemma onward_process_fields id fields : onward dc_in 0 (process_fields calloc_ok parse_wide id fields).
Proof.
  induction fields as [|f fields IH]; cbn [process_fields]; [auto with dx|].
  unfold process_field, CHECKED_SET_VALUE, call_setter. repeat first [apply IH | progress onward_tac].
Qed.
Hint Resolve onward_process_fields : dx.

Lemma onward_read_records rid id : onward dc_in 0 (dx_read_records calloc_ok parse_wide rid id).
Proof. unfold dx_read_records, dx_read_qdtime_on_remove_event. onward_tac. Qed.
Hint Resolve onward_read_records : dx.

Lemma onward_process_record rid :
  onward dc_in 0 (process_record calloc_ok mbsrtowcs process parse_wide dx_symbol_name_hasher rid).
Proof.
  unfold process_record. repeat first [apply onward_update; done | progress onward_tac].
Qed.
Hint Resolve onward_process_record : dx.

Lemma onward_decode_symbol_name {S} (inp : S -> in_ctx) cipher :
  onward inp 0 (dx_decode_symbol_name calloc_ok t cipher).
Proof. unfold dx_decode_symbol_name, dx_decode_cipher, dx_penta_to_string. onward_tac. Qed.
Hint Resolve onward_decode_symbol_name : dx.

Lemma onward_process_data :
  onward dc_in 1 (process_data calloc_ok mbsrtowcs process parse_wide dx_symbol_name_hasher t).
Proof.
  unfold process_data. apply onward_bind.
  - unfold dx_read_symbol. apply onward_bind; [auto with dx|intros ?]. onward_tac.
  - intros _. unfold decode_last_symbol. onward_tac.
Qed.

Lemma onward_describe_record : onward dc_in 1 (describe_record calloc_ok).
Proof. unfold describe_record. apply onward_bind; [auto with dx|intros ?]. onward_tac. Qed.
End rounds.

(** The state in which the loop of a data message starts. *)
Definition data_message_start (s : data_ctx) : data_ctx :=
  set_dc_out (set_mru dxf_ef_tx_pending (SymbolCodec.set_flags 0 (dc_out s))) (set_dc_symbol None 0 s).

(** The processing of a message ends.  On every input buffer the loops of
    [dx_process_describe_records] and [dx_process_data_message] run, as the C
    loops do, in finitely many rounds to the results of the definitions, because
    a round that does not fail reads at least one byte: the number of rounds that
    the definitions allow is never what stops them. *)
Theorem message_loops_terminate (calloc_ok : Z -> bool) (mbsrtowcs : list Z -> option (list Z))
  (process : tc_event -> option dx_error_code) (parse_wide : Z -> dxf_double_t)
  (dx_symbol_name_hasher : list Z -> Z) (t : tables) (s : data_ctx) :
  in_small (dc_in s) ->
  loop_runs in_limit (describe_record calloc_ok;;; ret proceed) tt s
    (dx_process_describe_records calloc_ok s) /\
  loop_runs in_limit
    (process_data calloc_ok mbsrtowcs process parse_wide dx_symbol_name_hasher t;;; ret proceed) tt
    (data_message_start s)
    (dx_process_data_message calloc_ok mbsrtowcs process parse_wide dx_symbol_name_hasher t s).
Proof.
  intros Hs. split.
  - apply while_input_runs, Hs. apply onward_describe_record.
  - apply (while_input_runs _ (data_message_start s)), Hs. apply onward_process_data.
Qed.

Lemma message_loops_terminate_witness :
  let s := DataCtx (InCtx (Some [7; 3; 65; 66; 67; 1; 0; 0]) 8 8 0) (SymbolOut None 0 0 0 (replicate 2049 0))
    None 0 example_state DX_EMPTY_ARRAY (fun _ => None) in
  loop_runs in_limit (describe_record (fun _ => true);;; ret proceed) tt s
    (dx_process_describe_records (fun _ => true) s) /\
  loop_runs in_limit
    (process_data (fun _ => true) Some (fun _ => None) double_of_int (fun _ => 0) codec_tables;;; ret proceed) tt
    (data_message_start s)
    (dx_process_data_message (fun _ => true) Some (fun _ => None) double_of_int (fun _ => 0) codec_tables s).
Proof.
  apply message_loops_terminate. split; [|unfold INT_MAX; vm_compute; done].
  split; [simpl; lia|]. split; [unfold INT_MAX; simpl; lia|]. by eexists.
Defined.
