(* ===== verification/FieldTables.v ===== *)
(** * FieldTables: the tables of fields against the structures

    The tables of [src/DataStructures.c] name, for each field of a record, its
    type in the protocol and the setter and the getter of a member of a
    structure of [src/RecordData.h].  Here what [ServerData] reads for a field and
    hands to its setter is shown to be of the type of the member, and the setters and
    getters of [RecordFields] are shown to be those of a record. *)

From Stdlib Require Import String SpecFloat.
From S2P Require Import Prelude Arrays Input Algorithms EventData ConfigurationDeserializer DataStructures RecordData.
From S2P Require Import SymbolCodec RecordTranscoder Decimals RecordFields ServerData.
Local Open Scope Z_scope.

#[export] Instance field_type_eq_dec : EqDecision field_type.
Proof. solve_decision. Defined.

(** ** Setters and getters of a record *)


(** A value that a field of a type takes. *)
Definition has_type (t : field_type) (v : field_value) : bool :=
  match t, v with
  | (ft_int | ft_char | ft_dayid), (fv_int _ | fv_char _ | fv_dayid _) => true
  | ft_long, fv_long _ | ft_double, fv_double _ | ft_string, fv_string _ | ft_bytes, fv_bytes _ => true
  | _, _ => false
  end.

(** A value but for the type of an integer: the getter of the time of a
    theoretical price stores 64 bits, its setter reads 32. *)
Definition plain_value (v : field_value) : field_value :=
  match v with fv_char n | fv_dayid n | fv_long n => fv_int n | v => v end.

(** What a setter of a structure does: the field is set, the others are kept. *)
Definition sets {R} (members : list (string * field_type)) (setter : string -> field_value -> R -> option R)
  (getter : string -> R -> option field_value) : Prop :=
  forall member t v r, member_type members member = Some t -> has_type t v = true ->
  exists r', setter member v r = Some r' /\
    plain_value <$> getter member r' = Some (plain_value v) /\
    forall m, m <> member -> getter m r' = getter m r.

Ltac other_members :=
  intros m Hne;
  repeat match goal with
  | |- (if (m =? ?a)%string then _ else _) = _ =>
      destruct (String.eqb_spec m a) as [->|_]; [solve [reflexivity|congruence]|]
  end; reflexivity.
Ltac prove_sets members getter :=
  intros member t v r Hm Hv; unfold members in Hm; cbn [member_type] in Hm;
  repeat match type of Hm with
  | (if (?a =? member)%string then _ else _) = _ =>
      destruct (String.eqb_spec a member) as [<-|_];
      [injection Hm as <-; destruct v; try discriminate Hv; destruct r; eexists;
       refine (conj eq_refl (conj eq_refl _)); unfold getter; other_members|]
  end; discriminate Hm.

Lemma trade_sets : sets dx_trade_members dx_trade_setter dx_trade_getter.
Proof. prove_sets dx_trade_members dx_trade_getter. Qed.
Lemma quote_sets : sets dx_quote_members dx_quote_setter dx_quote_getter.
Proof. prove_sets dx_quote_members dx_quote_getter. Qed.
Lemma summary_sets : sets dx_summary_members dx_summary_setter dx_summary_getter.
Proof. prove_sets dx_summary_members dx_summary_getter. Qed.
Lemma profile_sets : sets dx_profile_members dx_profile_setter dx_profile_getter.
Proof. prove_sets dx_profile_members dx_profile_getter. Qed.
Lemma market_maker_sets : sets dx_market_maker_members dx_market_maker_setter dx_market_maker_getter.
Proof. prove_sets dx_market_maker_members dx_market_maker_getter. Qed.
Lemma order_sets : sets dx_order_members dx_order_setter dx_order_getter.
Proof. prove_sets dx_order_members dx_order_getter. Qed.
Lemma spread_order_sets : sets dx_spread_order_members dx_spread_order_setter dx_spread_order_getter.
Proof. prove_sets dx_spread_order_members dx_spread_order_getter. Qed.
Lemma time_and_sale_sets : sets dx_time_and_sale_members dx_time_and_sale_setter dx_time_and_sale_getter.
Proof. prove_sets dx_time_and_sale_members dx_time_and_sale_getter. Qed.
Lemma candle_sets : sets dx_candle_members dx_candle_setter dx_candle_getter.
Proof. prove_sets dx_candle_members dx_candle_getter. Qed.
Lemma greeks_sets : sets dx_greeks_members dx_greeks_setter dx_greeks_getter.
Proof. prove_sets dx_greeks_members dx_greeks_getter. Qed.
Lemma theo_price_sets : sets dx_theo_price_members dx_theo_price_setter dx_theo_price_getter.
Proof. prove_sets dx_theo_price_members dx_theo_price_getter. Qed.
Lemma underlying_sets : sets dx_underlying_members dx_underlying_setter dx_underlying_getter.
Proof. prove_sets dx_underlying_members dx_underlying_getter. Qed.
Lemma series_sets : sets dx_series_members dx_series_setter dx_series_getter.
Proof. prove_sets dx_series_members dx_series_getter. Qed.
Lemma configuration_sets : sets dx_configuration_members dx_configuration_setter dx_configuration_getter.
Proof. prove_sets dx_configuration_members dx_configuration_getter. Qed.

(** [set_field] and [get_field] at a record of a kind. *)
Definition field_sets (id : dx_record_info_id_t) (member : string) (t : field_type) : Prop :=
  forall v record, has_type t v = true -> record_of id record = true ->
  exists record', set_field member v record = Some record' /\ record_of id record' = true /\
    plain_value <$> get_field member record' = Some (plain_value v) /\
    forall m, m <> member -> get_field m record' = get_field m record.

Ltac record_case law :=
  match goal with
  | Hm : member_type _ _ = Some _, Hv : has_type _ ?v = true |- context [set_field _ _ (?c ?r)] =>
      destruct (law _ _ v r Hm Hv) as (r' & Hs & Hg & Ho); exists (c r'); cbn [set_field get_field];
      rewrite Hs; split_and!; [reflexivity|reflexivity|exact Hg|exact Ho]
  end.

Lemma member_sets id member t :
  member_type (record_members id) member = Some t -> field_sets id member t.
Proof.
  intros Hm v record Hv Hr.
  destruct id, record; try discriminate Hr; cbn [record_members] in Hm;
  first [ record_case trade_sets | record_case quote_sets | record_case summary_sets
        | record_case profile_sets | record_case market_maker_sets | record_case order_sets
        | record_case spread_order_sets | record_case time_and_sale_sets | record_case candle_sets
        | record_case greeks_sets | record_case theo_price_sets | record_case underlying_sets
        | record_case series_sets | record_case configuration_sets ].
Qed.

(** ** The tables *)

(** A type of the server that is read like the local one: a field of the server stands
    for a local one of its serialization ([dx_find_record_field]); the values that are
    read differ when one is a 64-bit integer and the other is not, or one is a string of
    bytes and the other is an object. *)
Definition reads_long (type : Z) : bool :=
  let representation := Z.land type dx_fid_mask_representation in
  (representation =? dx_fid_flag_long) || (representation =? dx_fid_flag_time_millis).
Definition compatible (server local : Z) : bool :=
  let serialization := Z.land server dx_fid_mask_serialization in
  (serialization =? Z.land local dx_fid_mask_serialization) &&
  (if serialization =? dx_fid_compact_int then Bool.eqb (reads_long server) (reads_long local)
   else if serialization =? dx_fid_byte_array then
     Bool.eqb (Z.land server dx_fid_mask_representation =? dx_fid_flag_string)
       (Z.land local dx_fid_mask_representation =? dx_fid_flag_string)
   else true).

Lemma compatible_refl type : compatible type type = true.
Proof. unfold compatible. rewrite !eqb_reflx, Z.eqb_refl. by repeat destruct (_ =? _). Qed.

(** The values that are read for the local types of the tables. *)
Definition value_type (type : Z) : option field_type :=
  let serialization := Z.land type dx_fid_mask_serialization in
  let representation := Z.land type dx_fid_mask_representation in
  if serialization =? dx_fid_utf_char then Some ft_char
  else if serialization =? dx_fid_compact_int then
    if is_decimal representation then Some ft_double
    else if reads_long type then Some ft_long
    else Some (if representation =? dx_fid_flag_date then ft_dayid else ft_int)
  else if serialization =? dx_fid_utf_char_array then Some ft_string
  else if serialization =? dx_fid_byte_array
  then Some (if representation =? dx_fid_flag_string then ft_string else ft_bytes)
  else None.

Lemma tables_typed id :
  Forall (fun f => exists t, value_type (fi_type f) = Some t /\
            member_type (record_members id) (fi_member f) = Some t)
    (info_fields (g_record_info id)).
Proof. destruct id; repeat (constructor; [eexists; split; reflexivity|]); constructor. Qed.

Lemma zero_record_of id : record_of id (zero_record id) = true.
Proof. by destruct id. Qed.

Lemma default_typed id member v : def_val_getter id member = Some v ->
  exists t, member_type (record_members id) member = Some t /\ has_type t v = true.
Proof.
  unfold def_val_getter. destruct member_type as [t|]; [|done]. intros [= <-]. exists t. by destruct t.
Qed.

Lemma members_distinct id : NoDup (fi_member <$> info_fields (g_record_info id)).
Proof. destruct id; by_compute. Qed.

(** ** What is read *)

Section reading.
Context (calloc_ok : Z -> bool) (parse_wide : Z -> dxf_double_t).

Lemma compact_typed representation local s v s1 :
  let long := (representation =? dx_fid_flag_long) || (representation =? dx_fid_flag_time_millis) in
  read_compact_field parse_wide representation local s = Ok v s1 ->
  has_type (if long then ft_long else if is_decimal local then ft_double else ft_int) v = true.
Proof using Type.
  intros long. unfold read_compact_field, decimal_value, of_option. subst long.
  destruct (_ || _); [by intros (n & s2 & _ & [= <- _])%bind_inv|].
  destruct (is_decimal local).
  - destruct (representation =? dx_fid_flag_wide_decimal); intros (n & s2 & _ & H)%bind_inv; [by injection H as <- _|].
    destruct (_ =? _); by injection H as <- _.
  - destruct (representation =? dx_fid_flag_wide_decimal); intros (n & s2 & _ & H)%bind_inv.
    + destruct (double_to_int _); [|done]. by injection H as <- _.
    + destruct (_ =? _); [|by injection H as <- _]. destruct (double_to_int _); [|done]. by injection H as <- _.
Qed.
Lemma stored_typed read s v s1 : read_stored_string calloc_ok read s = Ok v s1 -> has_type ft_string v = true.
Proof using Type. unfold read_stored_string. intros (x & s2 & _ & (u & s3 & _ & [= <- _])%bind_inv)%bind_inv. done. Qed.

(** A value that is read for a field of the tables is one that its setter takes. *)
Lemma read_typed server local t s v s1 :
  value_type local = Some t -> compatible server local = true ->
  read_field calloc_ok parse_wide server local s = Ok v s1 -> has_type t v = true.
Proof using Type.
  unfold value_type, compatible, read_field. intros Ht [Es%Z.eqb_eq Hc]%andb_true_iff. rewrite <- Es in Ht. clear Es.
  revert Ht Hc. generalize (Z.land server dx_fid_mask_serialization) as serialization. intros n.
  destruct (Z.eqb_spec n dx_fid_utf_char) as [->|_].
  { intros [= <-] _ H. by apply bind_inv in H as (c & s2 & _ & [= <- _]). }
  destruct (Z.eqb_spec n dx_fid_compact_int) as [->|_].
  { intros Ht Hc%eqb_prop H%compact_typed. unfold reads_long in Ht, Hc. rewrite Hc in H.
    clear Hc. revert Ht H. generalize (Z.land local dx_fid_mask_representation) as m. intros m.
    destruct (_ || _) eqn:El; destruct (is_decimal m) eqn:Ed; intros [= <-] H; try done.
    - exfalso. unfold is_decimal in Ed.
      unfold dx_fid_flag_decimal, dx_fid_flag_wide_decimal, dx_fid_flag_long, dx_fid_flag_time_millis in *. lia.
    - destruct (m =? dx_fid_flag_date), v; try discriminate H; reflexivity. }
  destruct (Z.eqb_spec n dx_fid_utf_char_array) as [->|_].
  { intros [= <-] _. apply stored_typed. }
  destruct (Z.eqb_spec n dx_fid_byte_array) as [->|_]; [|done].
  intros [= <-] Hc%eqb_prop. rewrite <- Hc. cbn. destruct (_ =? dx_fid_flag_string); [apply stored_typed|].
  intros H. apply bind_inv in H as (a & s2 & _ & H). by apply bind_inv in H as (u & s3 & _ & [= <- _]).
Qed.
(** The record buffer of a kind has a record of the kind. *)
Definition has_buffer (id : dx_record_info_id_t) (s : data_ctx) : Prop :=
  exists record, dc_records s id = Some record /\ record_of id record = true.

(** A member of the record is set, and nothing else changes. *)
Definition member_set (id : dx_record_info_id_t) (member : string) (v : field_value) (s s' : data_ctx) : Prop :=
  exists record record', dc_records s id = Some record /\ record_of id record' = true /\
    s' = set_dc_records (set_record id record' (dc_records s)) s /\
    plain_value <$> get_field member record' = Some (plain_value v) /\
    forall m, m <> member -> get_field m record' = get_field m record.

Lemma setter_spec id member t v s :
  member_type (record_members id) member = Some t -> has_type t v = true -> has_buffer id s ->
  exists s', call_setter id member v s = Ok tt s' /\ member_set id member v s s'.
Proof using Type.
  intros Hm Hv (record & E & Hr). destruct (member_sets id member t Hm v record Hv Hr) as (record' & Hs & Hr' & Hg & Ho).
  unfold call_setter. unfold_m. rewrite E, Hs. eexists. split; [reflexivity|]. by exists record, record'.
Qed.
Lemma process_field_spec id member server local t s v s1 :
  member_type (record_members id) member = Some t -> value_type local = Some t -> compatible server local = true ->
  read_field calloc_ok parse_wide server local s = Ok v s1 -> has_buffer id s1 ->
  exists s', process_field calloc_ok parse_wide id (FieldDigest server local (Some member) None) s = Ok tt s' /\
    member_set id member v s1 s'.
Proof using Type.
  intros Hm Ht Hc E Hb. destruct (setter_spec id member t v s1 Hm (read_typed _ _ _ _ _ _ Ht Hc E) Hb) as (s' & Es & Hset).
  exists s'. split; [|done]. unfold process_field. cbn [fd_type fd_local_type fd_setter].
  destruct (Z.eqb_spec (Z.land server dx_fid_mask_serialization) dx_fid_void) as [Ev|_].
  - apply andb_true_iff in Hc as [Es'%Z.eqb_eq _]. unfold value_type in Ht. rewrite <- Es', Ev in Ht. discriminate.
  - by rewrite (bind_ok _ _ _ _ _ E).
Qed.
Lemma default_spec id member d t s :
  member_type (record_members id) member = Some t -> def_val_getter id member = Some d -> has_type t d = true -> has_buffer id s ->
  exists s', process_field calloc_ok parse_wide id (FieldDigest 0 0 (Some member) (Some member)) s = Ok tt s' /\
    member_set id member d s s'.
Proof using Type.
  intros Hm Ed Hd Hb. destruct (setter_spec id member t d s Hm Hd Hb) as (s' & Es & Hset). exists s'. split; [|done].
  unfold process_field. cbn. unfold_m. by rewrite Ed.
Qed.
End reading.

(** Bytes that every field of the tables can be read from. *)
Definition example_bytes : data_ctx :=
  DataCtx (InCtx (Some [4; 65; 66; 67; 68]) 5 5 0) (SymbolOut None 0 0 0 []) None 0 example_state DX_EMPTY_ARRAY (fun _ => None).
Lemma tables_read id :
  Forall (fun f => match read_field (fun _ => true) double_of_int (fi_type f) (fi_type f) example_bytes with Ok _ _ => True | _ => False end)
    (info_fields (g_record_info id)).
Proof. destruct id; repeat (constructor; [vm_compute; exact I|]); constructor. Qed.

(** C28: the tables of the fields are well typed.  In the table of every record no
    two fields name the same member; each field names a member of the structure of
    its record, and whatever is read from the server for the field, with its own type
    or with a type that is compatible with it, is a value of the type of that member:
    handling the field never reads through a pointer to another type, sets the member
    to the value, so that its getter returns it, and leaves the other members as they
    were.  The default value of the field is of that type too, and is what the member
    is set to when the server does not have the field. *)
Theorem field_tables_typed (calloc_ok : Z -> bool) (parse_wide : Z -> dxf_double_t) (id : dx_record_info_id_t) :
  NoDup (fi_member <$> info_fields (g_record_info id)) /\
  Forall (fun f => exists t d,
    member_type (record_members id) (fi_member f) = Some t /\
    field_sets id (fi_member f) t /\
    compatible (fi_type f) (fi_type f) = true /\
    (exists s v s1, read_field (fun _ => true) double_of_int (fi_type f) (fi_type f) s = Ok v s1) /\
    (forall server s v s1, compatible server (fi_type f) = true ->
       read_field calloc_ok parse_wide server (fi_type f) s = Ok v s1 ->
       has_type t v = true /\
       (has_buffer id s1 ->
        exists s', process_field calloc_ok parse_wide id (FieldDigest server (fi_type f) (Some (fi_member f)) None) s = Ok tt s' /\
          member_set id (fi_member f) v s1 s')) /\
    def_val_getter id (fi_member f) = Some d /\ has_type t d = true /\
    (forall s, has_buffer id s ->
       exists s', process_field calloc_ok parse_wide id (FieldDigest 0 0 (Some (fi_member f)) (Some (fi_member f))) s = Ok tt s' /\
         member_set id (fi_member f) d s s'))
    (info_fields (g_record_info id)).
Proof.
  split; [apply members_distinct|]. pose proof (tables_read id) as Hread.
  apply Forall_forall. intros f Hf. rewrite Forall_forall in Hread. specialize (Hread f Hf).
  destruct (proj1 (Forall_forall _ _) (tables_typed id) f Hf) as (t & Hk & Hm).
  assert (Ed : def_val_getter id (fi_member f) = Some (generic_value_getter t)) by (unfold def_val_getter; by rewrite Hm).
  assert (Hd : has_type t (generic_value_getter t) = true) by (by destruct t).
  exists t, (generic_value_getter t). split_and!; try done.
  - by apply member_sets.
  - apply compatible_refl.
  - destruct (read_field (fun _ => true) double_of_int (fi_type f) (fi_type f) example_bytes) as [v s1|e s1|] eqn:E; [by exists example_bytes, v, s1|done|done].
  - intros server s v s1 Hc E. split; [by eapply read_typed|]. intros Hb. by eapply process_field_spec.
  - intros s Hb. by eapply default_spec.
Qed.
