(* ===== verification/ServerProcessor.v ===== *)
(** * ServerProcessor: the messages of [src/ServerMessageProcessor.c]

    The bytes of the server are appended to a buffer, cut into messages by their
    lengths and dispatched by their types; what is left of an incomplete message
    waits for more bytes.  The description of the protocol says which messages
    the server knows, and a task counts down the time it has to send one.  The
    worker thread of the connection is a parameter, the mutexes are not
    modelled. *)

From Stdlib Require Import Ascii String.
From S2P Require Import Prelude Arrays Algorithms Output Input Wire SymbolCodec Loops EventData Doubles.
From S2P Require Import DataStructures RecordTranscoder RecordFields MessageData Properties TaskQueue.
From S2P Require Import Decimals Heartbeat Framing ServerData InnerLoops.
Local Open Scope Z_scope.
Local Open Scope c_scope.

Definition DEFAULT_BUFFER_CAPACITY : Z := 16000.
Definition DESCRIBE_PROTOCOL_TIMEOUT : Z := 3000.
Definition MRU_EVENT_FLAGS : Z := 1.
Definition DX_RECV_PROPERTY_AUTH : list Z := chars_of "authentication".
Definition DX_RECV_PROPERTY_LOGIN_REQUIRED : list Z := chars_of "LOGIN ".
Definition PROTOCOL_MAGIC : Z := 0x44585033.

Inductive dx_describe_protocol_status_t : Set :=
  | dx_dps_not_sent | dx_dps_received | dx_dps_not_received | dx_dps_pending.
Inductive dx_message_support_status_t : Set :=
  | dx_mss_supported | dx_mss_not_supported | dx_mss_pending | dx_mss_reconnection.
Inductive dxf_connection_status_t : Set :=
  | dxf_cs_not_connected | dxf_cs_connected | dxf_cs_login_required | dxf_cs_authorized.

(** ** The state *)

(** What belongs to the description of the protocol, and the status of the
    connection ([dx_connection_status_set]). *)
Record protocol_ctx : Type := ProtocolCtx {
  send_msgs_bitmask : Z;
  recv_msgs_bitmask : Z;
  describe_protocol_status : dx_describe_protocol_status_t;
  describe_protocol_timestamp : Z;
  recv_props : dx_property_map_t;
  connection_status : dxf_connection_status_t;
}.

(** The whole context.  [sv_buffer] is the block behind [buffer], of which the
    input buffer has a pointer; [sv_connection] is the C++ object of the heartbeats; [sv_last_error] is the error code of the thread
    after an error was handled. *)
Record server_ctx : Type := ServerCtx {
  sv_data : data_ctx;
  sv_buffer : list Z;
  sv_buffer_size : Z;
  sv_buffer_pos : Z;
  sv_buffer_capacity : Z;
  sv_protocol : protocol_ctx;
  sv_connection : Connection;
  sv_last_error : dx_error_code;
}.

Definition set_sv_data (x : data_ctx) (s : server_ctx) : server_ctx :=
  ServerCtx x (sv_buffer s) (sv_buffer_size s) (sv_buffer_pos s) (sv_buffer_capacity s) (sv_protocol s)
    (sv_connection s) (sv_last_error s).
Definition set_sv_protocol (x : protocol_ctx) (s : server_ctx) : server_ctx :=
  ServerCtx (sv_data s) (sv_buffer s) (sv_buffer_size s) (sv_buffer_pos s) (sv_buffer_capacity s) x
    (sv_connection s) (sv_last_error s).
Definition set_sv_connection (x : Connection) (s : server_ctx) : server_ctx :=
  ServerCtx (sv_data s) (sv_buffer s) (sv_buffer_size s) (sv_buffer_pos s) (sv_buffer_capacity s) (sv_protocol s)
    x (sv_last_error s).
Definition set_sv_error (x : dx_error_code) (s : server_ctx) : server_ctx :=
  ServerCtx (sv_data s) (sv_buffer s) (sv_buffer_size s) (sv_buffer_pos s) (sv_buffer_capacity s) (sv_protocol s)
    (sv_connection s) x.
Definition set_sv_pos (x : Z) (s : server_ctx) : server_ctx :=
  ServerCtx (sv_data s) (sv_buffer s) (sv_buffer_size s) x (sv_buffer_capacity s) (sv_protocol s)
    (sv_connection s) (sv_last_error s).

Definition set_bitmasks (send recv : Z) (p : protocol_ctx) : protocol_ctx :=
  ProtocolCtx send recv (describe_protocol_status p) (describe_protocol_timestamp p) (recv_props p) (connection_status p).
Definition set_describe_status (x : dx_describe_protocol_status_t) (p : protocol_ctx) : protocol_ctx :=
  ProtocolCtx (send_msgs_bitmask p) (recv_msgs_bitmask p) x (describe_protocol_timestamp p) (recv_props p) (connection_status p).
Definition set_timestamp (x : Z) (p : protocol_ctx) : protocol_ctx :=
  ProtocolCtx (send_msgs_bitmask p) (recv_msgs_bitmask p) (describe_protocol_status p) x (recv_props p) (connection_status p).
Definition set_recv_props (x : dx_property_map_t) (p : protocol_ctx) : protocol_ctx :=
  ProtocolCtx (send_msgs_bitmask p) (recv_msgs_bitmask p) (describe_protocol_status p) (describe_protocol_timestamp p) x
    (connection_status p).
Definition dx_connection_status_set (x : dxf_connection_status_t) (p : protocol_ctx) : protocol_ctx :=
  ProtocolCtx (send_msgs_bitmask p) (recv_msgs_bitmask p) (describe_protocol_status p) (describe_protocol_timestamp p)
    (recv_props p) x.

Definition on_data {A} : M data_ctx A -> M server_ctx A := on sv_data set_sv_data.
Definition on_protocol {A} : M protocol_ctx A -> M server_ctx A := on sv_protocol set_sv_protocol.
Definition on_bicc {A} (m : M in_ctx A) : M server_ctx A := on_data (on_in m).

Definition dx_get_in_buffer_limit : M in_ctx Z := c <-- get;; ret (in_buffer_limit c).
Definition dx_set_in_buffer_limit (new_limit : Z) : M in_ctx unit :=
  c <-- get;; put (InCtx (in_buffer c) (in_buffer_length c) new_limit (current_in_buffer_position c)).

Section server.
(** As in [ServerData], and for the heartbeats the current time and whether the
    user has set a notifier. *)
Context (calloc_ok : Z -> bool) (mbsrtowcs : list Z -> option (list Z)).
Context (process : tc_event -> option dx_error_code) (parse_wide : Z -> dxf_double_t).
Context (dx_symbol_name_hasher : list Z -> Z) (t : tables).
Context (currentTimeMark : Z) (has_notifier : bool).

Let alloc (n : nat) : bool := calloc_ok (Z.of_nat n).

(** ** Support of messages *)

Definition dx_get_msg_support_state (msg : Z) (roster : list Z) (bitmask : Z) : M protocol_ctx bool :=
  r <-- of_option (search_roster roster msg);;
  ret (r.1 && IS_FLAG_SET bitmask (INDEX_BITMASK r.2)).

Definition dx_is_message_supported_by_server (msg : Z) : M protocol_ctx dx_message_support_status_t :=
  if negb (dx_is_message_type_valid msg) then dx_set_error_code dx_ec_invalid_func_param_internal
  else
    p <-- get;;
    match describe_protocol_status p with
    | dx_dps_not_sent => ret dx_mss_reconnection
    | dx_dps_pending => ret dx_mss_pending
    | dx_dps_received | dx_dps_not_received =>
        send <-- dx_get_msg_support_state msg g_send_msg_roster (send_msgs_bitmask p);;
        recv <-- (if (send : bool) then ret false
                  else dx_get_msg_support_state msg g_recv_msg_roster (recv_msgs_bitmask p));;
        ret (if send || recv then dx_mss_supported else dx_mss_not_supported)
    end.

(** The bits of the legacy messages in a roster; the result is kept in a static
    variable, and is the same every time. *)
Fixpoint legacy_loop (msgs roster : list Z) (bitmask : Z) : M protocol_ctx Z :=
  match msgs with
  | [] => ret bitmask
  | msg :: msgs' =>
      r <-- of_option (search_roster roster msg);;
      if negb r.1 then dx_set_error_code dx_ec_internal_assert_violation
      else legacy_loop msgs' roster (Z.lor bitmask (INDEX_BITMASK r.2))
  end.
Definition dx_legacy_send_msg_bitmask : M protocol_ctx Z :=
  legacy_loop [MESSAGE_TICKER_ADD_SUBSCRIPTION; MESSAGE_TICKER_REMOVE_SUBSCRIPTION;
    MESSAGE_STREAM_ADD_SUBSCRIPTION; MESSAGE_STREAM_REMOVE_SUBSCRIPTION;
    MESSAGE_HISTORY_ADD_SUBSCRIPTION; MESSAGE_HISTORY_REMOVE_SUBSCRIPTION] g_send_msg_roster 0.
Definition dx_legacy_recv_msg_bitmask : M protocol_ctx Z :=
  legacy_loop [MESSAGE_TICKER_DATA; MESSAGE_STREAM_DATA; MESSAGE_HISTORY_DATA] g_recv_msg_roster 0.

(** The task of the worker thread, at the time [now]; its result is a set of
    the flags of [TaskQueue]. *)
Definition dx_describe_protocol_timeout_countdown_task (command now : Z) : M protocol_ctx Z :=
  if IS_FLAG_SET command dx_tc_free_resources then ret dx_tes_success
  else
    p <-- get;;
    match describe_protocol_status p with
    | dx_dps_not_sent | dx_dps_not_received => ret dx_tes_dont_advance
    | dx_dps_received => ret (Z.lor dx_tes_pop_me dx_tes_success)
    | dx_dps_pending =>
        if dx_millisecond_timestamp_diff now (describe_protocol_timestamp p) <? DESCRIBE_PROTOCOL_TIMEOUT
        then ret (Z.lor dx_tes_dont_advance dx_tes_success)
        else
          put (set_describe_status dx_dps_not_received p);;;
          send <-- catch dx_legacy_send_msg_bitmask;;
          match send with
          | inr _ => ret dx_tes_pop_me
          | inl send =>
              p <-- get;; put (set_bitmasks send (recv_msgs_bitmask p) p);;;
              recv <-- catch dx_legacy_recv_msg_bitmask;;
              match recv with
              | inr _ => ret dx_tes_pop_me
              | inl recv =>
                  p <-- get;; put (set_bitmasks (send_msgs_bitmask p) recv p);;;
                  ret (Z.lor dx_tes_pop_me dx_tes_success)
              end
          end
    end.

(** ** The description of the protocol *)

Fixpoint properties_loop (n : nat) : M server_ctx unit :=
  match n with
  | O => ret tt
  | S n' =>
      key <-- on_bicc (dx_read_utf_string calloc_ok);;
      value <-- on_bicc (dx_read_utf_string calloc_ok);;
      on_protocol (on recv_props set_recv_props
        (ignored (dx_property_map_set alloc (c_string <$> key) (c_string <$> value))));;;
      properties_loop n'
  end.
Definition dx_read_describe_protocol_properties : M server_ctx unit :=
  count <-- on_bicc dx_read_compact_int;;
  if count <? 0 then dx_set_error_code dx_pec_describe_protocol_message_corrupted
  else properties_loop (Z.to_nat count).

(** The messages that the server sends are those that the library receives, and
    the other way round; a name that is a null pointer is compared. *)
Definition message_bit (roster : list Z) (message_id : Z) (message_name : option (list Z)) : M protocol_ctx Z :=
  r <-- of_option (search_roster roster message_id);;
  if negb r.1 then ret 0
  else
    name <-- of_option message_name;;
    type <-- of_option (roster !! r.2);;
    ret (if dx_compare_strings name (dx_get_message_type_name type) =? 0 then INDEX_BITMASK r.2 else 0).
Definition dx_process_server_send_message_type (message_id : Z) (message_name : option (list Z)) : M protocol_ctx unit :=
  bit <-- message_bit g_recv_msg_roster message_id message_name;;
  p <-- get;; put (set_bitmasks (send_msgs_bitmask p) (Z.lor (recv_msgs_bitmask p) bit) p).
Definition dx_process_server_recv_message_type (message_id : Z) (message_name : option (list Z)) : M protocol_ctx unit :=
  bit <-- message_bit g_send_msg_roster message_id message_name;;
  p <-- get;; put (set_bitmasks (Z.lor (send_msgs_bitmask p) bit) (recv_msgs_bitmask p) p).

Fixpoint message_list_loop (processor : Z -> option (list Z) -> M protocol_ctx unit) (n : nat) : M server_ctx unit :=
  match n with
  | O => ret tt
  | S n' =>
      message_id <-- on_bicc dx_read_compact_int;;
      message_name <-- on_bicc (dx_read_utf_string calloc_ok);;
      on_protocol (processor message_id (c_string <$> message_name));;;
      dx_read_describe_protocol_properties;;;
      message_list_loop processor n'
  end.
Definition dx_read_describe_protocol_message_list (processor : Z -> option (list Z) -> M protocol_ctx unit)
  : M server_ctx unit :=
  count <-- on_bicc dx_read_compact_int;;
  if count <? 0 then dx_set_error_code dx_pec_describe_protocol_message_corrupted
  else message_list_loop processor (Z.to_nat count).

Definition dx_process_describe_protocol : M server_ctx unit :=
  on_protocol (update (fun p =>
    match describe_protocol_status p with dx_dps_not_received => set_bitmasks 0 0 p | _ => p end));;;
  magic <-- on_bicc dx_read_int;;
  if negb (magic =? PROTOCOL_MAGIC) then dx_set_error_code dx_pec_describe_protocol_message_corrupted
  else
    on_protocol (update (fun p => set_recv_props (dx_property_map_free_collection (recv_props p)) p));;;
    dx_read_describe_protocol_properties;;;
    dx_read_describe_protocol_message_list dx_process_server_send_message_type;;;
    dx_read_describe_protocol_message_list dx_process_server_recv_message_type;;;
    auth <-- on_protocol (on recv_props set_recv_props (dx_property_map_try_get_value (Some DX_RECV_PROPERTY_AUTH)));;
    match auth with
    | Some (Some (_ :: _ as prop_value)) =>
        if dx_compare_strings_num DX_RECV_PROPERTY_LOGIN_REQUIRED prop_value
             (length DX_RECV_PROPERTY_LOGIN_REQUIRED) =? 0
        then
          on_protocol (update (fun p => set_describe_status dx_dps_pending
            (dx_connection_status_set dxf_cs_login_required p)));;;
          s <-- get;; dx_set_error_code (sv_last_error s)
        else
          on_protocol (update (dx_connection_status_set dxf_cs_not_connected));;;
          dx_set_error_code dx_pec_authentication_error
    | _ =>
        on_protocol (update (fun p =>
          dx_connection_status_set dxf_cs_authorized (set_describe_status dx_dps_received p)));;;
        buf_pos <-- on_bicc dx_get_in_buffer_position;;
        buf_limit <-- on_bicc dx_get_in_buffer_limit;;
        if buf_pos <? buf_limit then on_bicc (dx_set_in_buffer_position buf_limit) else ret tt
    end.

(** ** A new synchronization with the server *)

Fixpoint clear_states (records_count rid : nat) : M dscc unit :=
  match records_count with
  | O => ret tt
  | S n =>
      support_state (Z.of_nat rid);;;
      put_support_state (Z.of_nat rid) 0;;;
      clear_states n (S rid)
  end.

Definition dx_clear_record_digests : M dscc unit := update (set_record_digests DX_EMPTY_ARRAY).

Fixpoint init_digests_loop (count i : nat) : M dscc unit :=
  match count with
  | O => ret tt
  | S n => ignored (dx_add_record_digest_to_list alloc i);;; init_digests_loop n (S i)
  end.
Definition dx_init_record_digests : M dscc unit :=
  count <-- dx_get_records_list_count;; init_digests_loop (Z.to_nat count) 0.

(** On the data structures and what belongs to the protocol. *)
Definition dx_clear_server_info : M (dscc * protocol_ctx) unit :=
  let on_registry {A} : M dscc A -> M (dscc * protocol_ctx) A := on fst (fun x s => (x, snd s)) in
  records_count <-- on_registry dx_get_records_list_count;;
  on_registry (clear_states (Z.to_nat records_count) 0);;;
  on_registry dx_clear_record_digests;;;
  on_registry dx_init_record_digests;;;
  on snd (fun x s => (fst s, x)) (update (fun p => set_describe_status dx_dps_not_sent (set_bitmasks 0 0 p)));;;
  on_registry dx_drop_unsubscribe_counter.

(** ** Messages *)

Definition dx_read_message_type : M in_ctx Z :=
  type <-- catch dx_read_compact_long;;
  match type with
  | inr dx_bioec_buffer_underflow => dx_set_error_code dx_pec_message_incomplete
  | inr e => dx_set_error_code e
  | inl type =>
      if negb (dx_is_message_type_valid (i32 type)) then dx_set_error_code dx_pec_unexpected_message_type
      else ret (i32 type)
  end.

Definition dx_read_message_length_and_set_buffer_limit (buffer_size : Z) : M in_ctx unit :=
  message_length <-- catch dx_read_compact_long;;
  match message_length with
  | inr _ => dx_set_error_code dx_pec_message_incomplete
  | inl message_length =>
      pos <-- dx_get_in_buffer_position;;
      if (message_length <? 0) || (INT_MAX - pos <? message_length)
      then dx_set_error_code dx_pec_invalid_message_length
      else
        let message_end_offset := pos + message_length in
        if buffer_size <? message_end_offset then dx_set_error_code dx_pec_message_incomplete
        else dx_set_in_buffer_limit message_end_offset
  end.

(** Underflow inside a message: its length is wrong. *)
Definition checked_length {A} (m : M server_ctx A) : M server_ctx A := fun s =>
  match m s with
  | Err dx_bioec_buffer_underflow s => Err dx_pec_invalid_message_length s
  | r => r
  end.

(** [dx_process_heartbeat_message] *)
Definition dx_process_heartbeat_message : M server_ctx unit :=
  on (fun s => (dc_in (sv_data s), sv_connection s))
    (fun t s => set_sv_connection t.2 (set_sv_data (set_dc_in t.1 (sv_data s)) s))
    (dx_connection_process_incoming_heartbeat currentTimeMark has_notifier).

Definition dx_process_message (message_type : Z) : M server_ctx unit :=
  if dx_is_data_message message_type then
    checked_length (on_data
      (dx_process_data_message calloc_ok mbsrtowcs process parse_wide dx_symbol_name_hasher t))
  else if dx_is_subscription_message message_type then dx_set_error_code dx_pec_unexpected_message_type
  else if message_type =? MESSAGE_DESCRIBE_RECORDS then
    checked_length (on_data (dx_process_describe_records calloc_ok))
  else if message_type =? MESSAGE_DESCRIBE_PROTOCOL then checked_length dx_process_describe_protocol
  else if message_type =? MESSAGE_HEARTBEAT then dx_process_heartbeat_message
  else dx_set_error_code dx_pec_server_message_not_supported.

(** ** The buffer *)

Definition set_sv_buffer (buffer : list Z) (size pos capacity : Z) (s : server_ctx) : server_ctx :=
  ServerCtx (sv_data s) buffer size pos capacity (sv_protocol s) (sv_connection s) (sv_last_error s).

(** The input buffer sees what is moved within the block that it points to. *)
Definition alias_buffer (buf : list Z) (c : in_ctx) : in_ctx :=
  InCtx (match in_buffer c with Some _ => Some buf | None => None end)
    (in_buffer_length c) (in_buffer_limit c) (current_in_buffer_position c).

(** The unread bytes are moved to the start of the buffer. *)
Definition move_unread : M server_ctx unit :=
  s <-- get;;
  if negb (sv_buffer_size s =? sv_buffer_pos s) then
    let rest := sv_buffer_size s - sv_buffer_pos s in
    buf <-- of_option (blit (sv_buffer s) (Z.to_nat (sv_buffer_pos s)) (sv_buffer s) 0 (Z.to_nat rest));;
    put (set_sv_buffer buf rest 0 (sv_buffer_capacity s) s);;;
    on_bicc (update (alias_buffer buf))
  else put (set_sv_buffer (sv_buffer s) 0 0 (sv_buffer_capacity s) s).

(** The capacity is stored before the allocation. *)
Definition enlarge (new_buffer_size : Z) : M server_ctx unit :=
  s <-- get;;
  let capacity := i32 (sv_buffer_size s + new_buffer_size) in
  if sv_buffer_capacity s <? capacity then
    if calloc_ok capacity then
      buf <-- of_option (blit (sv_buffer s) 0 (replicate (Z.to_nat capacity) 0) 0 (Z.to_nat (sv_buffer_size s)));;
      put (set_sv_buffer buf (sv_buffer_size s) (sv_buffer_pos s) capacity s)
    else
      put (set_sv_buffer (sv_buffer s) (sv_buffer_size s) (sv_buffer_pos s) capacity s);;;
      dx_set_error_code dx_mec_insufficient_memory
  else ret tt.

Definition dx_append_new_data (new_buffer : list Z) : M server_ctx unit :=
  let new_buffer_size := Z.of_nat (length new_buffer) in
  move_unread;;;
  enlarge new_buffer_size;;;
  s <-- get;;
  buf <-- of_option (blit new_buffer 0 (sv_buffer s) (Z.to_nat (sv_buffer_size s)) (length new_buffer));;
  put (set_sv_buffer buf (sv_buffer_size s + new_buffer_size) (sv_buffer_pos s) (sv_buffer_capacity s) s);;;
  on_bicc (dx_set_in_buffer (Some buf) (sv_buffer_size s + new_buffer_size));;;
  on_bicc (dx_set_in_buffer_position (sv_buffer_pos s)).

(** ** The loop over the messages *)

(** An error that skips the whole buffer. *)
Definition skip_buffer (e : dx_error_code) : M server_ctx (outcome bool) :=
  s <-- get;;
  on_bicc (dx_set_in_buffer_position (sv_buffer_size s));;;
  update (set_sv_error e);;;
  ret (leave false).

Definition skip_message : M server_ctx (outcome bool) :=
  limit <-- on_bicc dx_get_in_buffer_limit;;
  on_bicc (dx_set_in_buffer_position limit);;;
  update (set_sv_error dx_ec_success);;;
  ret proceed.

(** The type of a message that is not empty. *)
Definition read_type : M server_ctx (Z + dx_error_code) :=
  pos <-- on_bicc dx_get_in_buffer_position;;
  limit <-- on_bicc dx_get_in_buffer_limit;;
  if pos <? limit then catch (on_bicc dx_read_message_type) else ret (inl MESSAGE_HEARTBEAT).

(** A round after the limit of the message is set.  The last case leaves the
    switch and not the loop, whose condition is then false. *)
Definition process_limited : M server_ctx (outcome bool) :=
  type <-- read_type;;
  match type with
  | inr dx_pec_message_incomplete => skip_buffer dx_pec_invalid_message_length
  | inr dx_pec_unexpected_message_type => skip_message
  | inr e => skip_buffer e
  | inl message_type =>
      processed <-- catch (dx_process_message message_type);;
      match processed with
      | inr dx_pec_server_message_not_supported => skip_message
      | inr e => skip_buffer e
      | inl _ => ret proceed
      end
  end.

(** One round. *)
Definition process_one : M server_ctx (outcome bool) :=
  s <-- get;;
  message_start_pos <-- on_bicc dx_get_in_buffer_position;;
  limited <-- catch (on_bicc (dx_read_message_length_and_set_buffer_limit (sv_buffer_size s)));;
  match limited with
  | inr dx_pec_message_incomplete =>
      on_bicc (dx_set_in_buffer_position message_start_pos);;;
      update (set_sv_error dx_ec_success);;;
      ret (leave true)
  | inr e => skip_buffer e
  | inl _ => process_limited
  end.

Definition in_buffer_size (s : server_ctx) : bool :=
  current_in_buffer_position (dc_in (sv_data s)) <? sv_buffer_size s.

(** The result is [process_result]; every round reads, so that the bytes of the
    buffer are fuel enough. *)
Definition dx_process_server_data (data_buffer : list Z) : M server_ctx bool :=
  if (length data_buffer <=? 0)%nat then dx_set_error_code dx_ec_internal_assert_violation
  else
    dx_append_new_data data_buffer;;;
    s <-- get;;
    pos <-- on_bicc dx_get_in_buffer_position;;
    process_result <-- while in_buffer_size process_one true (Z.to_nat (sv_buffer_size s - pos));;
    pos <-- on_bicc dx_get_in_buffer_position;;
    update (set_sv_pos pos);;;
    ret process_result.
End server.

(** ** Every message is read on *)

Definition bicc (s : server_ctx) : in_ctx := dc_in (sv_data s).

Lemma onward_on_data {A} n (m : M data_ctx A) : onward dc_in n m -> onward bicc n (on_data m).
Proof.
  intros Hm s Hs. specialize (Hm (sv_data s) Hs). unfold onward_at, on_data, on in *.
  by destruct (m (sv_data s)).
Qed.
Lemma onward_on_bicc {A} n (m : M in_ctx A) : onward (fun c => c) n m -> onward bicc n (on_bicc m).
Proof. intros. by apply onward_on_data, onward_on_in. Qed.
Lemma onward_on_protocol {A} (m : M protocol_ctx A) : onward bicc 0 (on_protocol m).
Proof.
  intros s [Hs _]. unfold onward_at, on_protocol, on.
  destruct (m (sv_protocol s)); [split; [by apply further_refl|unfold bicc; simpl; lia]|by apply further_refl|done].
Qed.
#[export] Hint Resolve onward_on_protocol : dx.
#[export] Hint Extern 1 (onward bicc _ (on_bicc _)) => apply onward_on_bicc; solve [auto with dx] : dx.
#[export] Hint Extern 1 (onward bicc _ (on_data _)) => apply onward_on_data; solve [auto with dx] : dx.

Lemma bicc_position s :
  on_bicc dx_get_in_buffer_position s = Ok (current_in_buffer_position (bicc s)) s.
Proof. by destruct s as [[]]. Qed.
Lemma bicc_limit s : on_bicc dx_get_in_buffer_limit s = Ok (in_buffer_limit (bicc s)) s.
Proof. by destruct s as [[]]. Qed.

(** What only the receiving of bytes changes. *)
Definition sv_block (s : server_ctx) : list Z * Z * Z * Z :=
  (sv_buffer s, sv_buffer_size s, sv_buffer_pos s, sv_buffer_capacity s).
Lemma block_size s s' : sv_block s' = sv_block s -> sv_buffer_size s' = sv_buffer_size s.
Proof. by intros [= _ ? _ _]. Qed.

(** An operation that does not change a part of the state. *)
Definition keeps {S T A} (part : S -> T) (m : M S A) : Prop := forall s,
  match m s with Ok _ s' | Err _ s' => part s' = part s | UB => True end.

Lemma keeps_bind {S T A B} (part : S -> T) (m : M S A) (k : A -> M S B) :
  keeps part m -> (forall a, keeps part (k a)) -> keeps part (checked_call m k).
Proof.
  intros Hm Hk s. specialize (Hm s). unfold checked_call. destruct (m s) as [a s'|e s'|]; [|done|done].
  specialize (Hk a s'). destruct (k a s'); congruence || done.
Qed.
Lemma keeps_get {S T B} (part : S -> T) (k : S -> M S B) :
  (forall s, match k s s with Ok _ s' | Err _ s' => part s' = part s | UB => True end) ->
  keeps part (checked_call get k).
Proof. intros Hk s. apply Hk. Qed.
Lemma keeps_ret {S T A} (part : S -> T) (a : A) : keeps part (ret a).
Proof. done. Qed.
Lemma keeps_error {S T A} (part : S -> T) e : keeps part (A := A) (dx_set_error_code e).
Proof. done. Qed.
Lemma keeps_data {A} (m : M data_ctx A) : keeps sv_block (on_data m).
Proof. intros s. unfold on_data, on. by destruct (m (sv_data s)). Qed.
Lemma keeps_bicc {A} (m : M in_ctx A) : keeps sv_block (on_bicc m).
Proof. apply keeps_data. Qed.
Lemma keeps_protocol {A} (m : M protocol_ctx A) : keeps sv_block (on_protocol m).
Proof. intros s. unfold on_protocol, on. by destruct (m (sv_protocol s)). Qed.
#[export] Hint Resolve keeps_ret keeps_error keeps_data keeps_bicc keeps_protocol : dx.
Ltac keeps_tac := repeat first [ solve [auto with dx] | match goal with
  | |- keeps _ (checked_call get _) => apply keeps_get; intros ?
  | |- keeps _ (checked_call _ _) => apply keeps_bind; [|intros]
  | |- keeps _ (if ?b then _ else _) => destruct b
  | |- keeps _ (match ?x with _ => _ end) => destruct x
  | |- keeps _ (let _ := _ in _) => cbn zeta end ].

Lemma small_moved c n limit :
  in_small c -> 0 <= n <= in_buffer_length c -> in_small (InCtx (in_buffer c) (in_buffer_length c) limit n).
Proof. intros ((? & ? & ?) & ? & ?) Hn. split_and!; cbn; done || lia. Qed.

(** What the length of a message leaves: the position after it and the limit of
    the message in the buffer. *)
Lemma message_length_limits size c :
  in_small c ->
  match dx_read_message_length_and_set_buffer_limit size c with
  | Ok _ c' => in_small c' /\ in_buffer_length c' = in_buffer_length c /\ in_buffer c' = in_buffer c /\
      current_in_buffer_position c < current_in_buffer_position c' <= in_buffer_limit c' /\ in_buffer_limit c' <= size
  | Err _ c' => further c c'
  | UB => False
  end.
Proof.
  intros Hs. pose proof (onward_read_compact_long c Hs) as Ho. unfold onward_at in Ho.
  pose proof (safe_read_compact_long c Hs) as Hd.
  unfold dx_read_message_length_and_set_buffer_limit, catch, checked_call at 1.
  destruct (dx_read_compact_long c) as [n c1|e c1|]; [|done|done]. destruct Ho as [Hf Hp].
  pose proof (further_small _ _ Hs Hf) as Hs1. destruct Hf as (Hw & E1 & E2 & E3 & E4).
  unfold dx_get_in_buffer_position, dx_set_in_buffer_limit. unfold_m. cbn zeta.
  destruct (Z.ltb_spec n 0); [done|]. cbn [orb].
  destruct (Z.ltb_spec (INT_MAX - current_in_buffer_position c1) n); [done|].
  destruct (Z.ltb_spec size (current_in_buffer_position c1 + n)); [done|].
  cbn. pose proof Hs1 as ((? & _) & _). split_and!; done || lia.
Qed.

Section rounds.
Context (calloc_ok : Z -> bool) (mbsrtowcs : list Z -> option (list Z)).
Context (process : tc_event -> option dx_error_code) (parse_wide : Z -> dxf_double_t).
Context (dx_symbol_name_hasher : list Z -> Z) (t : tables) (currentTimeMark : Z) (has_notifier : bool).

Lemma properties_onward : onward bicc 0 (dx_read_describe_protocol_properties calloc_ok).
Proof.
  unfold dx_read_describe_protocol_properties. apply onward_bind; [auto with dx|intros n].
  destruct (n <? 0); [auto with dx|]. induction (Z.to_nat n); cbn [properties_loop]; [auto with dx|].
  repeat first [eassumption | progress onward_tac].
Qed.
Lemma properties_keep : keeps sv_block (dx_read_describe_protocol_properties calloc_ok).
Proof.
  unfold dx_read_describe_protocol_properties. apply keeps_bind; [auto with dx|intros n].
  destruct (n <? 0); [auto with dx|]. induction (Z.to_nat n); cbn [properties_loop]; [auto with dx|].
  repeat first [eassumption | progress keeps_tac].
Qed.
Hint Resolve properties_onward properties_keep : dx.

Lemma message_list_onward processor : onward bicc 0 (dx_read_describe_protocol_message_list calloc_ok processor).
Proof.
  unfold dx_read_describe_protocol_message_list. apply onward_bind; [auto with dx|intros n].
  destruct (n <? 0); [auto with dx|]. induction (Z.to_nat n); cbn [message_list_loop]; [auto with dx|].
  repeat first [eassumption | progress onward_tac].
Qed.
Lemma message_list_keep processor :
  keeps sv_block (dx_read_describe_protocol_message_list calloc_ok processor).
Proof.
  unfold dx_read_describe_protocol_message_list. apply keeps_bind; [auto with dx|intros n].
  destruct (n <? 0); [auto with dx|]. induction (Z.to_nat n); cbn [message_list_loop]; [auto with dx|].
  repeat first [eassumption | progress keeps_tac].
Qed.
Hint Resolve message_list_onward message_list_keep : dx.

(** The buffer of the input is that of the context, and the limit is in it. *)
Definition limited (s : server_ctx) : Prop :=
  in_small (bicc s) /\ in_buffer_length (bicc s) = sv_buffer_size s /\ 0 <= in_buffer_limit (bicc s) <= sv_buffer_size s.

Definition reads_on {A} (m : M server_ctx A) : Prop := forall s, limited s ->
  match m s with
  | Ok _ s' | Err _ s' => further (bicc s) (bicc s') /\ sv_block s' = sv_block s
  | UB => True
  end.

Lemma further_limited s s' :
  limited s -> further (bicc s) (bicc s') -> sv_block s' = sv_block s -> limited s'.
Proof.
  intros (Hs & Hl & Hm) Hf E%block_size. pose proof (further_small _ _ Hs Hf). destruct Hf as (_ & _ & E1 & E2 & _).
  split; [done|]. rewrite E1, E2, E. done.
Qed.

Lemma reads_on_parts {A} (m : M server_ctx A) : onward bicc 0 m -> keeps sv_block m -> reads_on m.
Proof.
  intros Ho Hk s (Hs & _). specialize (Ho s Hs). specialize (Hk s). unfold onward_at in Ho.
  destruct (m s); [by destruct Ho|done|done].
Qed.

Lemma reads_on_bind {A B} (m : M server_ctx A) (k : A -> M server_ctx B) :
  reads_on m -> (forall a, reads_on (k a)) -> reads_on (checked_call m k).
Proof.
  intros Hm Hk s Hs. specialize (Hm s Hs). unfold checked_call. destruct (m s) as [a s1|e s1|]; [|done|done].
  destruct Hm as [Hf E]. specialize (Hk a s1 (further_limited _ _ Hs Hf E)).
  destruct (k a s1); [| |done]; destruct Hk; (split; [by eapply further_trans|congruence]).
Qed.

(** Skipping to the limit from before it. *)
Lemma reads_on_to_limit :
  reads_on (buf_pos <-- on_bicc dx_get_in_buffer_position;;
    buf_limit <-- on_bicc dx_get_in_buffer_limit;;
    if buf_pos <? buf_limit then on_bicc (dx_set_in_buffer_position buf_limit) else ret tt).
Proof.
  intros s (Hs & Hl & Hm). pose proof (further_refl _ (proj1 Hs)) as Hr.
  unfold on_bicc, on_data, on_in, on, dx_get_in_buffer_position, dx_get_in_buffer_limit.
  unfold dx_set_in_buffer_position. unfold_m. unfold bicc in *. cbn.
  destruct (Z.ltb_spec (current_in_buffer_position (dc_in (sv_data s))) (in_buffer_limit (dc_in (sv_data s)))).
  - split; [|done]. destruct Hr as ((? & ? & ?) & _). split_and!; cbn; done || lia || idtac.
    split_and!; cbn; done || lia.
  - by split.
Qed.

Lemma reads_on_get : reads_on get.
Proof. intros s (Hs & _). split; [by apply further_refl, Hs|done]. Qed.

Ltac reads_on_tac := repeat first [ apply reads_on_to_limit | apply reads_on_get
  | solve [apply reads_on_parts; [onward_tac|keeps_tac]]
  | match goal with
    | |- reads_on (checked_call _ _) => apply reads_on_bind; [|intros]
    | |- reads_on (if ?b then _ else _) => destruct b
    | |- reads_on (match ?x with _ => _ end) => destruct x
    end ].

Lemma reads_on_checked {A} (m : M server_ctx A) : reads_on m -> reads_on (checked_length m).
Proof.
  intros Hm s Hs. specialize (Hm s Hs). unfold checked_length.
  destruct (m s) as [|e s'|]; [done|by destruct e|done].
Qed.

Lemma reads_on_describe_protocol : reads_on (dx_process_describe_protocol calloc_ok).
Proof. unfold dx_process_describe_protocol. reads_on_tac. Qed.

Lemma reads_on_heartbeat : reads_on (dx_process_heartbeat_message currentTimeMark has_notifier).
Proof.
  intros s (Hs & _). pose proof (onward_heartbeat currentTimeMark has_notifier (bicc s, sv_connection s) Hs) as H.
  unfold onward_at, dx_process_heartbeat_message, on, bicc in *.
  destruct (dx_connection_process_incoming_heartbeat _ _ _) as [[] [c x]|e [c x]|]; [by destruct H|done|done].
Qed.

Lemma reads_on_message message_type :
  reads_on (dx_process_message calloc_ok mbsrtowcs process parse_wide dx_symbol_name_hasher t currentTimeMark
    has_notifier message_type).
Proof.
  assert (onward dc_in 0 (dx_process_data_message calloc_ok mbsrtowcs process parse_wide dx_symbol_name_hasher t)).
  { apply onward_bind; [apply onward_update; done|intros _]. apply onward_while_input.
    by apply onward_process_data. }
  assert (onward dc_in 0 (dx_process_describe_records calloc_ok)).
  { apply onward_while_input, onward_describe_record. }
  unfold dx_process_message.
  repeat match goal with |- reads_on (if ?b then _ else _) => destruct b end;
    try apply reads_on_checked; try apply reads_on_heartbeat; try apply reads_on_describe_protocol;
    reads_on_tac.
Qed.

(** The invariant of the loop. *)
Definition loop_inv (s : server_ctx) : Prop :=
  in_small (bicc s) /\ in_buffer_length (bicc s) = sv_buffer_size s /\ in_buffer (bicc s) = Some (sv_buffer s).

Lemma inv_position n s :
  loop_inv s -> 0 <= n <= sv_buffer_size s ->
  exists s', on_bicc (dx_set_in_buffer_position n) s = Ok tt s' /\ loop_inv s' /\ sv_block s' = sv_block s /\
    current_in_buffer_position (bicc s') = n.
Proof.
  intros (Hs & Hl & Hb) Hn. eexists. split; [reflexivity|]. split; [|done]. split; [|done].
  apply small_moved; [done|]. unfold bicc in Hl. lia.
Qed.

Lemma inv_further s s' :
  loop_inv s -> further (bicc s) (bicc s') -> sv_block s' = sv_block s -> loop_inv s'.
Proof.
  intros (Hs & Hl & Hb) Hf [= E1 E2 _ _]. pose proof (further_small _ _ Hs Hf). destruct Hf as (_ & E3 & E4 & _).
  unfold loop_inv. split_and!; congruence || done.
Qed.

(** A round keeps the invariant, and one that goes on has read. *)
Definition round_post (s : server_ctx) (r : res server_ctx (outcome bool)) : Prop :=
  match r with
  | Ok o s' => loop_inv s' /\ sv_block s' = sv_block s /\
      (o = proceed -> current_in_buffer_position (bicc s) < current_in_buffer_position (bicc s'))
  | Err _ _ => False
  | UB => True
  end.

Lemma post_skip_message s s1 :
  limited s1 -> loop_inv s1 -> sv_block s1 = sv_block s ->
  current_in_buffer_position (bicc s) < in_buffer_limit (bicc s1) -> round_post s (skip_message s1).
Proof.
  intros (_ & _ & Hm) Hi E Hp. unfold skip_message. unfold checked_call at 1. rewrite bicc_limit.
  destruct (inv_position (in_buffer_limit (bicc s1)) s1 Hi Hm) as (s2 & E2 & Hi2 & Eb & Ep).
  unfold checked_call. rewrite E2. cbn. split; [exact Hi2|]. split; [unfold sv_block in *; cbn; congruence|].
  intros _. unfold bicc in *. cbn. lia.
Qed.

Lemma post_skip_buffer e s s1 :
  loop_inv s1 -> 0 <= sv_buffer_size s1 -> sv_block s1 = sv_block s -> round_post s (skip_buffer e s1).
Proof.
  intros Hi Hz E. unfold skip_buffer. unfold checked_call at 1, get.
  destruct (inv_position (sv_buffer_size s1) s1 Hi ltac:(lia)) as (s2 & E2 & Hi2 & Eb & Ep).
  unfold checked_call. rewrite E2. cbn. split; [exact Hi2|]. split; [unfold sv_block in *; cbn; congruence|done].
Qed.

Lemma read_type_reads : reads_on read_type.
Proof.
  unfold read_type. apply reads_on_bind; [reads_on_tac|intros pos]. apply reads_on_bind.
  - apply reads_on_parts; [|keeps_tac]. apply onward_on_bicc. unfold dx_get_in_buffer_limit. onward_tac.
  - intros limit. destruct (pos <? limit); [|reads_on_tac].
    assert (reads_on (on_bicc dx_read_message_type)) as H.
    { apply reads_on_parts; [|keeps_tac]. apply onward_on_bicc. intros c Hc.
      pose proof (safe_onward dx_read_compact_long ltac:(auto with dx) c Hc) as Ho. unfold onward_at in *.
      unfold dx_read_message_type, catch, checked_call.
      destruct (dx_read_compact_long c) as [n c'|e c'|]; [|by destruct e|done].
      destruct (negb _); [by destruct Ho|done]. }
    intros s Hs. specialize (H s Hs). unfold catch. by destruct (on_bicc dx_read_message_type s).
Qed.

Lemma read_type_total s e s' : read_type s <> Err e s'.
Proof.
  unfold read_type. unfold checked_call. rewrite bicc_position, bicc_limit.
  destruct (_ <? _); [|done]. unfold catch. by destruct (on_bicc dx_read_message_type s).
Qed.
Lemma catch_total {S A} (m : M S A) s e s' : catch m s <> Err e s'.
Proof. unfold catch. by destruct (m s). Qed.
Lemma catch_reads {A} (m : M server_ctx A) : reads_on m -> reads_on (catch m).
Proof. intros Hm s Hs. specialize (Hm s Hs). unfold catch. by destruct (m s). Qed.

(** The rest of a round after something of the message was read. *)
Definition after_length (s s1 : server_ctx) : Prop :=
  limited s1 /\ loop_inv s1 /\ sv_block s1 = sv_block s /\
  current_in_buffer_position (bicc s) < current_in_buffer_position (bicc s1) /\
  current_in_buffer_position (bicc s) < in_buffer_limit (bicc s1).

Lemma post_reads {A} (m : M server_ctx A) s s1 k :
  after_length s s1 -> reads_on m -> (forall s1 e s2, m s1 <> Err e s2) ->
  (forall a s2, after_length s s2 -> round_post s (k a s2)) -> round_post s (checked_call m k s1).
Proof.
  intros (Hl & Hi & E & Hp & Hp') Hm Ht Hk. specialize (Hm s1 Hl). specialize (Ht s1).
  unfold checked_call. destruct (m s1) as [a s2|e s2|]; [|by destruct (Ht e s2)|done]. destruct Hm as [Hf E2].
  apply Hk. split; [by apply (further_limited s1)|]. split; [by apply (inv_further s1)|].
  destruct Hf as (_ & _ & _ & El & Ep). split; [congruence|lia].
Qed.

Lemma post_skips s s1 (e : dx_error_code) (o : M server_ctx (outcome bool)) :
  after_length s s1 -> (o = skip_message \/ exists e', o = skip_buffer e') -> round_post s (o s1).
Proof.
  intros (Hl & Hi & E & Hp & Hp') [->|[e' ->]]; [by apply post_skip_message|].
  apply post_skip_buffer; [done| |done]. destruct Hl as (_ & _ & ?). lia.
Qed.

Let round := process_one calloc_ok mbsrtowcs process parse_wide dx_symbol_name_hasher t currentTimeMark
  has_notifier.

(** What reading the length leaves: it is never undefined. *)
Lemma length_read s : loop_inv s ->
  match on_bicc (dx_read_message_length_and_set_buffer_limit (sv_buffer_size s)) s with
  | Ok _ s1 => after_length s s1
  | Err _ s1 => loop_inv s1 /\ sv_block s1 = sv_block s
  | UB => False
  end.
Proof.
  intros Hi. pose proof Hi as (Hs & Hlen & Hbuf). pose proof Hs as ((Hpos & _) & _).
  pose proof (message_length_limits (sv_buffer_size s) (bicc s) Hs) as Hl.
  unfold on_bicc, on_data, on_in, on. fold (bicc s).
  destruct (dx_read_message_length_and_set_buffer_limit _ (bicc s)) as [[] c1|e c1|]; [| |done].
  - destruct Hl as (Hs1 & El & Hbe & [Hp0 Hp1] & Hp2). set (s1 := set_sv_data _ s).
    assert (bicc s1 = c1 /\ sv_block s1 = sv_block s /\ sv_buffer s1 = sv_buffer s) as (E1 & Eb1 & Eb2) by done.
    assert (limited s1) as Hlim.
    { split; [done|]. rewrite E1, (block_size _ _ Eb1), El. pose proof Hs1 as ((? & _) & _). split; [done|lia]. }
    assert (loop_inv s1) as Hi1.
    { destruct Hlim as (_ & ? & _). split_and!; try done. rewrite E1, Hbe, Eb2. done. }
    unfold after_length. rewrite E1. split_and!; done || lia.
  - split; [|done]. by apply (inv_further s).
Qed.

Lemma round_ok s : loop_inv s -> round_post s (round s).
Proof.
  intros Hi. pose proof Hi as (Hs & Hlen & _). pose proof Hs as ((Hpos & _) & _).
  unfold round, process_one, process_limited. unfold checked_call at 1, get. unfold checked_call at 1.
  rewrite bicc_position. unfold checked_call at 1, catch at 1. pose proof (length_read s Hi) as Ha.
  destruct (on_bicc _ s) as [[] s1|e s1|]; [| |done].
  - apply (post_reads _ s s1 _ Ha); [apply read_type_reads|apply read_type_total|].
    intros [ty|e] s2 Ha2; [|apply post_skips; [exact e|done|destruct e; eauto]].
    apply (post_reads _ s s2 _ Ha2); [apply catch_reads, reads_on_message|apply catch_total|].
    intros [[]|e] s3 Ha3; [|apply post_skips; [exact e|done|destruct e; eauto]].
    destruct Ha3 as (_ & ? & ? & ? & _). by split_and!.
  - destruct Ha as [Hi1 E1].
    assert (0 <= current_in_buffer_position (bicc s) <= sv_buffer_size s1) by (rewrite (block_size _ _ E1), <- Hlen; lia).
    destruct (inv_position (current_in_buffer_position (bicc s)) s1 Hi1 ltac:(lia)) as (s2 & E2 & Hi2 & Eb & Ep).
    destruct e; try (by apply post_skip_buffer; [done|lia|]).
    unfold checked_call. rewrite E2. split; [exact Hi2|]. split; [unfold sv_block in *; cbn; congruence|done].
Qed.

Lemma round_inv s s' : loop_inv s -> round s = Ok proceed s' -> loop_inv s'.
Proof. intros Hi E. pose proof (round_ok s Hi) as H. rewrite E in H. apply H. Qed.

(** The messages whose handlers do more than to read within the message. *)
Definition is_handled (message_type : Z) : bool :=
  dx_is_data_message message_type || (message_type =? MESSAGE_DESCRIBE_RECORDS) ||
  (message_type =? MESSAGE_DESCRIBE_PROTOCOL).

(** In a round of the loop from [s1] on, the length of a message was read, which
    is in the buffer, and its type, and then its handler did something
    undefined. *)
Inductive undefined_handler (s1 : server_ctx) : Prop :=
  | undefined_in_handler x y z message_type :
      loop_reaches in_buffer_size round s1 x -> in_buffer_size x = true ->
      on_bicc (dx_read_message_length_and_set_buffer_limit (sv_buffer_size x)) x = Ok tt y ->
      read_type y = Ok (inl message_type) z -> is_handled message_type = true ->
      dx_process_message calloc_ok mbsrtowcs process parse_wide dx_symbol_name_hasher t currentTimeMark has_notifier
        message_type z = UB -> undefined_handler s1.

Lemma read_type_defined s : limited s -> read_type s <> UB.
Proof.
  intros (Hs & _). unfold read_type, checked_call. rewrite bicc_position, bicc_limit. destruct (_ <? _); [|done].
  unfold catch, on_bicc, on_data, on_in, on. fold (bicc s). pose proof (safe_read_compact_long (bicc s) Hs) as H.
  unfold dx_read_message_type, catch, checked_call. destruct (dx_read_compact_long _) as [n c|e c|]; [|by destruct e|done].
  by destruct (negb _).
Qed.
Lemma process_message_defined message_type s : limited s -> is_handled message_type = false ->
  dx_process_message calloc_ok mbsrtowcs process parse_wide dx_symbol_name_hasher t currentTimeMark has_notifier
    message_type s <> UB.
Proof.
  intros (Hs & _) [[H1 H2]%orb_false_elim H3]%orb_false_elim. unfold dx_process_message. rewrite H1, H2, H3.
  destruct (dx_is_subscription_message _); [discriminate|]. destruct (_ =? MESSAGE_HEARTBEAT); [|discriminate].
  unfold dx_process_heartbeat_message, on. pose proof (heartbeat_defined currentTimeMark has_notifier _ (sv_connection s) Hs) as Hd.
  by destruct (dx_connection_process_incoming_heartbeat _ _ _).
Qed.

(** A round that is undefined is so in the handler of its message. *)
Lemma round_undefined s1 s :
  loop_reaches in_buffer_size round s1 s -> loop_inv s -> in_buffer_size s = true -> round s = UB ->
  undefined_handler s1.
Proof.
  intros Hr Hi Hin. pose proof (length_read s Hi) as Hl. unfold round, process_one, process_limited.
  unfold checked_call at 1, get. unfold checked_call at 1. rewrite bicc_position. unfold checked_call at 1, catch at 1.
  destruct (on_bicc _ s) as [[] y|e y|] eqn:El; [|by destruct e|done]. destruct Hl as (Hlim & _).
  pose proof (read_type_reads y Hlim) as Ht. pose proof (read_type_defined y Hlim) as Hd.
  unfold checked_call at 1. destruct (read_type y) as [[ty|e] z|e z|] eqn:Et; [|by destruct e|done..].
  pose proof (further_limited _ _ Hlim (proj1 Ht) (proj2 Ht)) as Hlz.
  unfold checked_call at 1, catch at 1. pose proof (process_message_defined ty z Hlz) as Hp.
  destruct (dx_process_message _ _ _ _ _ _ _ _ ty z) as [[]|[]|] eqn:Em; try done. intros _.
  econstructor; [exact Hr|done|exact El|exact Et| |exact Em]. destruct (is_handled ty); [done|by destruct Hp].
Qed.

Lemma loop_runs_server s :
  loop_inv s ->
  let fuel := Z.to_nat (sv_buffer_size s - current_in_buffer_position (bicc s)) in
  loop_runs in_buffer_size round true s (while in_buffer_size round true fuel s).
Proof.
  intros Hi. apply (while_runs _ _ _ loop_inv (fun s => sv_buffer_size s - current_in_buffer_position (bicc s))).
  - intros s1 s2 H1 _ E. pose proof (round_ok s1 H1) as H. rewrite E in H. destruct H as (H2 & Eb & Hp).
    split; [done|]. rewrite (block_size _ _ Eb). specialize (Hp eq_refl). lia.
  - intros s1 _ E. unfold in_buffer_size in E. bool_to_prop. unfold bicc. lia.
  - done.
  - lia.
Qed.

Lemma while_inv fuel s :
  loop_inv s ->
  match while in_buffer_size round true fuel s with
  | Ok _ s' => loop_inv s' /\ sv_block s' = sv_block s
  | Err _ _ => False
  | UB => True
  end.
Proof.
  revert s. induction fuel as [|fuel IH]; intros s Hi; cbn [while]; destruct (in_buffer_size s); try done.
  pose proof (round_ok s Hi) as H. destruct (round s) as [[|r] s'|e s'|]; unfold round_post in H; [|by destruct H as (? & ? & _)|done|done].
  destruct H as (Hi' & Eb & _). specialize (IH s' Hi'). destruct (while _ _ _ _ _); [|done|done].
  destruct IH. split; congruence.
Qed.
End rounds.

(** ** Receiving bytes *)

Record server_wf (s : server_ctx) : Prop := {
  wf_block : Z.of_nat (length (sv_buffer s)) = sv_buffer_capacity s;
  wf_pos : 0 <= sv_buffer_pos s <= sv_buffer_size s;
  wf_size : sv_buffer_size s <= sv_buffer_capacity s;
  wf_capacity : sv_buffer_capacity s <= INT_MAX;
}.

(** The bytes that were received and not processed. *)
Definition unread (s : server_ctx) : list Z :=
  take (Z.to_nat (sv_buffer_size s - sv_buffer_pos s)) (drop (Z.to_nat (sv_buffer_pos s)) (sv_buffer s)).

(** The rest of the context: all but the buffers and the last error. *)
Definition server_rest (s : server_ctx) :=
  (set_dc_in (InCtx None 0 0 0) (sv_data s), sv_protocol s, sv_connection s).

Lemma length_unread s : server_wf s -> zlen (unread s) = sv_buffer_size s - sv_buffer_pos s.
Proof. intros [H1 H2 H3 H4]. unfold unread, zlen. rewrite length_take, length_drop. lia. Qed.

(** What is left of the buffer when the unread bytes are at its start. *)
Definition at_start (bs : list Z) (s : server_ctx) : Prop :=
  sv_buffer_pos s = 0 /\ sv_buffer_size s = zlen bs /\
  exists junk, sv_buffer s = bs ++ junk /\ Z.of_nat (length (sv_buffer s)) = sv_buffer_capacity s /\
    sv_buffer_capacity s <= INT_MAX.

Section append.
Context (calloc_ok : Z -> bool) (calloc_works : forall n, calloc_ok n = true).

Lemma move_unread_spec s :
  server_wf s -> exists s1, move_unread s = Ok tt s1 /\ at_start (unread s) s1 /\
    server_rest s1 = server_rest s /\ in_buffer_limit (bicc s1) = in_buffer_limit (bicc s).
Proof using Type.
  intros Hwf. pose proof (length_unread s Hwf) as Hu. destruct Hwf as [H1 H2 H3 H4].
  unfold move_unread. unfold checked_call at 1, get.
  destruct (Z.eqb_spec (sv_buffer_size s) (sv_buffer_pos s)) as [E|E]; cbn [negb].
  - eexists. split; [reflexivity|]. split; [|done].
    assert (unread s = []) as -> by (unfold unread; rewrite E, Z.sub_diag; done).
    split_and!; try done. by exists (sv_buffer s).
  - rewrite blit_in by lia. eexists. split; [reflexivity|].
    split; [|by destruct s as [[] ? ? ? ? ? ? ?]].
    rewrite take_0, Nat.add_0_l. cbn [app]. fold (unread s).
    split_and!; [done|by rewrite Hu|]. eexists. split; [reflexivity|]. cbn. split; [|done].
    rewrite length_app, length_drop. unfold zlen in Hu. lia.
Qed.

Lemma enlarge_spec bs n s :
  at_start bs s -> 0 <= n -> zlen bs + n <= INT_MAX ->
  exists s1, enlarge calloc_ok n s = Ok tt s1 /\ at_start bs s1 /\ zlen bs + n <= sv_buffer_capacity s1 /\
    server_rest s1 = server_rest s /\ bicc s1 = bicc s.
Proof using calloc_works.
  intros (P1 & Z1 & junk1 & B1 & L1 & C1) Hn Hroom. pose proof (zlen_nonneg bs).
  unfold enlarge. unfold checked_call at 1, get. rewrite Z1, i32_id by (unfold is_i32, INT_MAX in *; lia).
  destruct (Z.ltb_spec (sv_buffer_capacity s) (zlen bs + n)).
  - rewrite calloc_works. rewrite B1 in *. unfold zlen in *.
    rewrite blit_in by (rewrite ?length_app, ?length_replicate; lia). eexists. split; [reflexivity|].
    split; [|by split_and!; [cbn; lia|..]].
    rewrite take_0, drop_0, Nat.add_0_l. cbn [app]. rewrite Nat2Z.id, take_app_length.
    split_and!; [done|done|]. eexists. split; [reflexivity|]. cbn.
    rewrite length_app, length_drop, length_replicate. lia.
  - exists s. split; [done|]. split; [|by split_and!; [lia|..]]. split_and!; try done. by exists junk1.
Qed.

Lemma append_new_data_spec s new :
  server_wf s -> zlen (unread s) + zlen new + 8 <= INT_MAX ->
  exists s1, dx_append_new_data calloc_ok new s = Ok tt s1 /\
    at_start (unread s ++ new) s1 /\ server_rest s1 = server_rest s /\
    bicc s1 = InCtx (Some (sv_buffer s1)) (sv_buffer_size s1) (in_buffer_limit (bicc s)) 0.
Proof using calloc_works.
  intros Hwf Hroom. pose proof (zlen_nonneg new).
  unfold dx_append_new_data. cbv zeta. fold (zlen new).
  destruct (move_unread_spec s Hwf) as (s1 & E1 & H1 & R1 & M1).
  destruct (enlarge_spec (unread s) (zlen new) s1 H1) as (s2 & E2 & H2 & C2 & R2 & M2); [done|lia|].
  unfold checked_call at 1. rewrite E1. unfold checked_call at 1. rewrite E2.
  unfold checked_call at 1, get. unfold checked_call at 1. destruct H2 as (P2 & Z2 & junk2 & B2 & L2 & C2').
  rewrite B2 in *. unfold zlen in *. rewrite length_app in *.
  rewrite blit_in by (rewrite ?length_app; lia). rewrite drop_0, firstn_all, Z2, Nat2Z.id, take_app_length.
  eexists. split; [reflexivity|]. split; [|split].
  - split_and!; [done|unfold zlen; cbn; rewrite length_app; lia|]. eexists. rewrite app_assoc. split; [reflexivity|].
    cbn. rewrite !length_app, length_drop, length_app. lia.
  - rewrite <- R1, <- R2. by destruct s2 as [[] ? ? ? ? ? ? ?].
  - unfold bicc in *. cbn. by rewrite M2, M1, P2.
Qed.
End append.

(** ** Properties *)

Lemma at_start_inv bs s limit :
  at_start bs s -> zlen bs + 8 <= INT_MAX -> bicc s = InCtx (Some (sv_buffer s)) (sv_buffer_size s) limit 0 ->
  server_wf s /\ unread s = bs /\ loop_inv s /\ remaining (bicc s) = bs.
Proof.
  intros (P & Z & junk & B & L & C) Hroom Hb. pose proof (zlen_nonneg bs).
  assert (zlen bs <= sv_buffer_capacity s) as Hc.
  { rewrite <- L, B, length_app. unfold zlen. lia. }
  assert (take (Z.to_nat (zlen bs)) (sv_buffer s) = bs) as Ht.
  { unfold zlen. by rewrite B, Nat2Z.id, take_app_length. }
  split_and!.
  - constructor; lia.
  - unfold unread. rewrite P, Z, Z.sub_0_r, drop_0. done.
  - unfold loop_inv. rewrite Hb. cbn. split; [|done]. rewrite Z. split; [|cbn; unfold zlen in *; lia].
    split; [cbn; lia|]. split; [cbn; lia|]. exists (sv_buffer s). cbn. unfold zlen in *. split; [done|lia].
  - rewrite Hb. unfold remaining. cbn. by rewrite Z, drop_0.
Qed.

(** C26: [dx_process_server_data] ends on any bytes.  Bytes that arrive are
    appended to those that were not processed, and the loop over the messages
    runs, as the C loop does, in finitely many rounds to the result of the
    definition.  So do the loops of the handlers over the records of a message,
    and the loops of the readers inside them are not cut short: more rounds than
    the definitions allow make no difference.  So what stops a loop is never the
    count of its rounds.  The loop over the messages does not fail; when it is
    defined the buffers are well formed and what it did not read is kept for the
    next bytes, and when it is not, the handler of a message of data or of a
    description is what did something undefined: reading lengths and types,
    skipping messages, and heartbeats are defined whatever the bytes are. *)
Theorem server_data_terminates (calloc_ok : Z -> bool) (mbsrtowcs : list Z -> option (list Z))
  (process : tc_event -> option dx_error_code) (parse_wide : Z -> dxf_double_t)
  (dx_symbol_name_hasher : list Z -> Z) (t : tables) (currentTimeMark : Z) (has_notifier : bool)
  (s : server_ctx) (data : list Z) :
  let process_one := process_one calloc_ok mbsrtowcs process parse_wide dx_symbol_name_hasher t currentTimeMark
    has_notifier in
  let process_server_data := dx_process_server_data calloc_ok mbsrtowcs process parse_wide dx_symbol_name_hasher t
    currentTimeMark has_notifier in
  (forall n, calloc_ok n = true) -> server_wf s -> data <> [] -> zlen (unread s) + zlen data + 8 <= INT_MAX ->
  (exists s1 r, dx_append_new_data calloc_ok data s = Ok tt s1 /\ unread s1 = unread s ++ data /\
    loop_runs in_buffer_size process_one true s1 r /\
    match r with
    | Ok result s2 => exists s3, process_server_data data s = Ok result s3 /\ server_wf s3 /\
        unread s3 = remaining (bicc s2) /\ server_rest s3 = server_rest s2
    | Err _ _ => False
    | UB => process_server_data data s = UB /\
        undefined_handler calloc_ok mbsrtowcs process parse_wide dx_symbol_name_hasher t currentTimeMark has_notifier s1
    end) /\
  (forall x, in_small (dc_in x) ->
    loop_runs in_limit (describe_record calloc_ok;;; ret proceed) tt x (dx_process_describe_records calloc_ok x) /\
    loop_runs in_limit
      (process_data calloc_ok mbsrtowcs process parse_wide dx_symbol_name_hasher t;;; ret proceed) tt
      (data_message_start x)
      (dx_process_data_message calloc_ok mbsrtowcs process parse_wide dx_symbol_name_hasher t x)) /\
  inner_loops_end calloc_ok calloc_ok t.
Proof.
  intros round process_server_data Hcalloc Hwf Hdata Hroom.
  split; [|split; [intros x Hx; by apply message_loops_terminate|apply inner_loops_spec]].
  destruct (append_new_data_spec calloc_ok Hcalloc s data Hwf Hroom) as (s1 & E1 & H1 & _ & Hb).
  destruct (at_start_inv _ s1 _ H1 ltac:(rewrite zlen_app; lia) Hb) as (Hwf1 & Hu & Hi & _).
  pose proof (loop_runs_server calloc_ok mbsrtowcs process parse_wide dx_symbol_name_hasher t currentTimeMark
    has_notifier s1 Hi) as Hr. cbv zeta in Hr. fold round in Hr.
  set (n := Z.to_nat (sv_buffer_size s1 - current_in_buffer_position (bicc s1))) in Hr.
  pose proof (while_inv calloc_ok mbsrtowcs process parse_wide dx_symbol_name_hasher t currentTimeMark
    has_notifier n s1 Hi) as Hw. fold round in Hw.
  assert (process_server_data data s = match while in_buffer_size round true n s1 with
    | Ok result s2 => Ok result (set_sv_pos (current_in_buffer_position (bicc s2)) s2)
    | Err e s2 => Err e s2
    | UB => UB
    end) as ->.
  { unfold process_server_data, dx_process_server_data.
    rewrite (proj2 (Nat.leb_gt _ _)) by (destruct data; [done|simpl; lia]).
    unfold checked_call at 1. rewrite E1. unfold checked_call at 1, get. unfold checked_call at 1.
    rewrite bicc_position. unfold checked_call at 1. fold round n.
    destruct (while _ _ _ _ s1); [|done|done]. unfold checked_call. by rewrite bicc_position. }
  exists s1. eexists. split; [done|]. split; [done|]. split; [exact Hr|].
  destruct (while _ _ _ _ s1) as [result s2|e s2|]; [|done|].
  2: { split; [done|]. destruct (loop_runs_undefined _ _ _ loop_inv (round_inv _ _ _ _ _ _ _ _) _ _ Hr Hi eq_refl) as (x & Hx & Hix & Hc & Eu).
    by eapply round_undefined. }
  destruct Hw as (Hi2 & Eb).
  eexists. split; [reflexivity|].
  destruct Hi2 as (((Hp & _) & _) & El & Eb2). injection Eb as B1 B2 B3 B4. destruct Hwf1.
  split; [constructor; cbn; lia || congruence|]. split; [|done].
  unfold unread, remaining. cbn. rewrite El, Eb2. cbn.
  by rewrite skipn_firstn_comm, Z2Nat.inj_sub by lia.
Qed.

(** A context before its first bytes: the block of [DEFAULT_BUFFER_CAPACITY]
    bytes is shorter here. *)
Definition example_data : data_ctx :=
  DataCtx (InCtx None 0 0 0) (SymbolOut None 0 0 0 (replicate 2049 0)) None 0 example_state DX_EMPTY_ARRAY
    (fun _ => None).
Definition example_protocol : protocol_ctx :=
  ProtocolCtx 0 0 dx_dps_pending 0 DX_EMPTY_ARRAY dxf_cs_connected.
Definition example_server : server_ctx :=
  ServerCtx example_data (replicate 16 0) 0 0 16 example_protocol new_connection dx_ec_success.

Lemma example_server_wf : server_wf example_server.
Proof. by constructor. Qed.

(** A length of five, two bytes of a message and nothing else. *)
Lemma server_data_terminates_witness :
  let process_one := process_one (fun _ => true) Some (fun _ => None) double_of_int (fun _ => 0) codec_tables 0 false in
  let process_server_data := dx_process_server_data (fun _ => true) Some (fun _ => None) double_of_int (fun _ => 0)
    codec_tables 0 false in
  (exists s1 r, dx_append_new_data (fun _ => true) [5; 61; 1] example_server = Ok tt s1 /\
    unread s1 = unread example_server ++ [5; 61; 1] /\ loop_runs in_buffer_size process_one true s1 r /\
    match r with
    | Ok result s2 => exists s3, process_server_data [5; 61; 1] example_server = Ok result s3 /\ server_wf s3 /\
        unread s3 = remaining (bicc s2) /\ server_rest s3 = server_rest s2
    | Err _ _ => False
    | UB => process_server_data [5; 61; 1] example_server = UB /\
        undefined_handler (fun _ => true) Some (fun _ => None) double_of_int (fun _ => 0) codec_tables 0 false s1
    end) /\
  (forall x, in_small (dc_in x) ->
    loop_runs in_limit (describe_record (fun _ => true);;; ret proceed) tt x (dx_process_describe_records (fun _ => true) x) /\
    loop_runs in_limit
      (process_data (fun _ => true) Some (fun _ => None) double_of_int (fun _ => 0) codec_tables;;; ret proceed) tt
      (data_message_start x)
      (dx_process_data_message (fun _ => true) Some (fun _ => None) double_of_int (fun _ => 0) codec_tables x)) /\
  inner_loops_end (fun _ => true) (fun _ => true) codec_tables.
Proof.
  apply (server_data_terminates (fun _ => true) Some (fun _ => None) double_of_int (fun _ => 0) codec_tables 0 false);
    [done|apply example_server_wf|done|unfold INT_MAX; vm_compute; done].
Defined.
