(* ===== verification/ServerStream.v ===== *)
(** * ServerStream: the bytes of the server in pieces of any size

    [handles]: what the messages of the server do to the context, apart from its
    buffers.  The bytes of a sequence of such messages may arrive cut anywhere:
    they are processed as they would be all at once. *)

From Stdlib Require Import Ascii String.
From S2P Require Import Prelude Arrays Algorithms Output Input Wire SymbolCodec Loops Framing.
From S2P Require Import EventData Doubles DataStructures RecordTranscoder RecordFields MessageData Properties.
From S2P Require Import Decimals Heartbeat ServerData ServerProcessor.
Local Open Scope Z_scope.
Local Open Scope c_scope.

(** What the messages change: data, protocol and connection. *)
Definition rest_state : Type := data_ctx * protocol_ctx * Connection.

Section stream.
Context (calloc_ok : Z -> bool) (mbsrtowcs : list Z -> option (list Z)).
Context (process : tc_event -> option dx_error_code) (parse_wide : Z -> dxf_double_t).
Context (dx_symbol_name_hasher : list Z -> Z) (t : tables) (currentTimeMark : Z) (has_notifier : bool).

Let limited_round := process_limited calloc_ok mbsrtowcs process parse_wide dx_symbol_name_hasher t currentTimeMark
  has_notifier.
Let round := process_one calloc_ok mbsrtowcs process parse_wide dx_symbol_name_hasher t currentTimeMark
  has_notifier.
Let process_data := dx_process_server_data calloc_ok mbsrtowcs process parse_wide dx_symbol_name_hasher t
  currentTimeMark has_notifier.

(** ** Messages that are handled *)

(** The context at the bytes [payload] of a message, whose end is the limit. *)
Definition at_message (payload tail : list Z) (s : server_ctx) : Prop :=
  loop_inv s /\ remaining (bicc s) = payload ++ tail /\
  in_buffer_limit (bicc s) = current_in_buffer_position (bicc s) + zlen payload.

(** The message [payload] takes the rest of the context from [x] to [x'], reads
    all of its bytes and none after them, whatever comes next. *)
Definition handles (payload : list Z) (x x' : rest_state) : Prop := forall s tail,
  at_message payload tail s -> server_rest s = x ->
  exists s', limited_round s = Ok proceed s' /\ server_rest s' = x' /\ loop_inv s' /\
    sv_block s' = sv_block s /\ remaining (bicc s') = tail.

Fixpoint handled (x : rest_state) (payloads : list (list Z)) (x' : rest_state) : Prop :=
  match payloads with
  | [] => x' = x
  | p :: ps => exists x1, handles p x x1 /\ handled x1 ps x'
  end.

Lemma handled_app x ps1 ps2 x' :
  handled x (ps1 ++ ps2) x' <-> exists x1, handled x ps1 x1 /\ handled x1 ps2 x'.
Proof.
  revert x. induction ps1 as [|p ps1 IH]; intros x; cbn.
  { split; [by exists x|]. by intros (x1 & -> & H). }
  setoid_rewrite IH. split; [intros (y & ? & z & ? & ?)|intros (z & (y & ? & ?) & ?)]; eauto.
Qed.

(** ** The length of a message *)

Lemma reads_length n :
  0 <= n <= INT_MAX -> reads dx_read_compact_long (wire (compact_int_bytes n)) n.
Proof.
  intros Hn. eapply reads_value; [apply reads_compact_long_narrow; unfold is_i32, INT_MAX in *; lia|].
  apply compact_long_read_id. lia.
Qed.

Lemma length_frame p : zlen (frame p) = zlen (compact_int_bytes (zlen p)) + zlen p.
Proof. unfold frame. by rewrite zlen_app, length_wire. Qed.

(** The length of a whole message sets the limit. *)
Lemma read_length_whole p tail c :
  in_small c -> remaining c = frame p ++ tail ->
  let pos := current_in_buffer_position c + zlen (compact_int_bytes (zlen p)) in
  dx_read_message_length_and_set_buffer_limit (in_buffer_length c) c =
    Ok tt (InCtx (in_buffer c) (in_buffer_length c) (pos + zlen p) pos).
Proof.
  intros Hs Hr. pose proof Hs as (Hc & Hroom & _). pose proof (length_remaining c Hc) as Hl.
  rewrite Hr, zlen_app, length_frame in Hl. pose proof (zlen_nonneg tail). pose proof (zlen_nonneg p).
  pose proof (zlen_nonneg (compact_int_bytes (zlen p))). pose proof Hc as (Hp & _).
  unfold frame in Hr. rewrite <- app_assoc in Hr. cbv zeta.
  pose proof (reads_length (zlen p) ltac:(lia) c _ Hc Hr) as E. rewrite length_wire in E.
  unfold dx_read_message_length_and_set_buffer_limit, catch, checked_call at 1. rewrite E.
  unfold dx_get_in_buffer_position, dx_set_in_buffer_limit. unfold_m. cbn.
  decide_cmps. cbn. done.
Qed.

(** A part of a message is incomplete. *)
Lemma read_length_part p part more c :
  in_small c -> remaining c = part -> frame p = part ++ more -> more <> [] ->
  current_in_buffer_position c + zlen (frame p) <= INT_MAX ->
  exists c', dx_read_message_length_and_set_buffer_limit (in_buffer_length c) c =
    Err dx_pec_message_incomplete c' /\ further c c'.
Proof.
  intros Hs Hr E Hmore Hmax. rewrite length_frame in Hmax. pose proof Hs as ((Hp & _) & _).
  pose proof (zlen_nonneg p). pose proof (zlen_nonneg (compact_int_bytes (zlen p))).
  pose proof (reads_length (zlen p) ltac:(lia)) as Hreads.
  unfold dx_read_message_length_and_set_buffer_limit, catch, checked_call at 1.
  destruct (decide (zlen part < zlen (compact_int_bytes (zlen p)))) as [Hlt|Hge].
  - (* not even the length *)
    assert (wire (compact_int_bytes (zlen p)) =
      remaining c ++ drop (length part) (wire (compact_int_bytes (zlen p)))) as E'.
    { rewrite Hr. rewrite <- (take_drop (length part) (wire _)) at 1. f_equal.
      assert (take (length part) (frame p) = part) as Ht by (by rewrite E, take_app_length).
      unfold frame in Ht. rewrite take_app_le in Ht; [done|].
      rewrite <- (length_wire (compact_int_bytes _)) in Hlt. unfold zlen in *. lia. }
    assert (zlen (wire (compact_int_bytes (zlen p))) <= INT_MAX) as Hw by (rewrite length_wire; lia).
    destruct (stable_prefix _ _ _ c _ stable_compact_long safe_read_compact_long Hreads Hw Hs E')
      as (e & c' & -> & Hf).
    { intros Hn. apply (f_equal length) in Hn. rewrite length_drop in Hn. rewrite <- (length_wire (compact_int_bytes _)) in Hlt.
      unfold zlen in *. simpl in Hn. lia. }
    by exists c'.
  - assert (exists tail, remaining c = wire (compact_int_bytes (zlen p)) ++ tail) as (tail & Hr').
    { exists (drop (length (wire (compact_int_bytes (zlen p)))) part). rewrite Hr.
      rewrite <- (take_drop (length (wire (compact_int_bytes (zlen p)))) part) at 1. f_equal.
      assert (take (length (wire (compact_int_bytes (zlen p)))) (frame p) = wire (compact_int_bytes (zlen p))) as Ht.
      { unfold frame. by rewrite take_app_length. }
      rewrite E, take_app_le in Ht; [exact Ht|]. rewrite <- (length_wire (compact_int_bytes _)) in Hge. unfold zlen in *. lia. }
    rewrite (Hreads c tail (proj1 Hs) Hr'). rewrite length_wire.
    pose proof Hs as (Hc & Hroom & _). pose proof (length_remaining c Hc) as Hl.
    assert (zlen (remaining c) < zlen (compact_int_bytes (zlen p)) + zlen p) as Hpart.
    { rewrite Hr. rewrite <- length_frame, E, zlen_app. destruct more; [done|]. rewrite zlen_cons.
      pose proof (zlen_nonneg more). lia. }
    rewrite Hr', zlen_app, length_wire in Hl. pose proof (zlen_nonneg tail).
    unfold dx_get_in_buffer_position, dx_set_in_buffer_limit. unfold_m. cbn.
    rewrite Hr', zlen_app, length_wire in Hpart.
    decide_cmps. eexists. split; [reflexivity|].
    destruct (further_advance c (zlen (compact_int_bytes (zlen p)))) as (? & ? & ? & ? & ?); [done|lia..|].
    by split_and!.
Qed.

(** ** Rounds *)

(** The result of the length in a round. *)
Lemma round_length s :
  round s = match dx_read_message_length_and_set_buffer_limit (sv_buffer_size s) (bicc s) with
    | Ok _ c => limited_round (set_sv_data (set_dc_in c (sv_data s)) s)
    | Err dx_pec_message_incomplete c =>
        Ok (leave true) (set_sv_error dx_ec_success
          (set_sv_data (set_dc_in (InCtx (in_buffer c) (in_buffer_length c) (in_buffer_limit c)
            (current_in_buffer_position (bicc s))) (sv_data s)) s))
    | Err e c => skip_buffer e (set_sv_data (set_dc_in c (sv_data s)) s)
    | UB => UB
    end.
Proof.
  unfold round, process_one. unfold checked_call at 1, get. unfold checked_call at 1. rewrite bicc_position.
  unfold checked_call at 1, catch. unfold on_bicc at 1, on_data, on_in, on. fold (bicc s).
  destruct (dx_read_message_length_and_set_buffer_limit _ _) as [[] c|e c|]; [done|by destruct e|done].
Qed.

Lemma round_message p tail x x' s :
  loop_inv s -> remaining (bicc s) = frame p ++ tail -> server_rest s = x -> handles p x x' ->
  exists s', round s = Ok proceed s' /\ server_rest s' = x' /\ loop_inv s' /\ sv_block s' = sv_block s /\
    remaining (bicc s') = tail.
Proof.
  intros (Hs & Hl & Hb) Hr Hx Hp. pose proof (read_length_whole p tail (bicc s) Hs Hr) as E. cbv zeta in E.
  rewrite round_length, <- Hl, E. set (pos := _ + _) in *. set (c := InCtx _ _ _ _).
  set (s1 := set_sv_data _ s).
  pose proof (message_length_limits (in_buffer_length (bicc s)) (bicc s) Hs) as H. rewrite E in H.
  destruct H as (Hs1 & _).
  pose proof Hs as (Hc & _). pose proof (length_remaining _ Hc) as Hlen. rewrite Hr, zlen_app, length_frame in Hlen.
  assert (remaining c = p ++ tail) as Hr1.
  { unfold frame in Hr. rewrite <- app_assoc in Hr.
    destruct (remaining_advance (bicc s) _ _ Hc Hr) as [_ Hr']. rewrite length_wire in Hr'. exact Hr'. }
  apply (Hp s1 tail); [|exact Hx]. split; [|done]. by split.
Qed.

Lemma round_part p part more s :
  loop_inv s -> remaining (bicc s) = part -> frame p = part ++ more -> more <> [] ->
  current_in_buffer_position (bicc s) + zlen (frame p) <= INT_MAX ->
  exists s', round s = Ok (leave true) s' /\ server_rest s' = server_rest s /\ loop_inv s' /\
    sv_block s' = sv_block s /\ remaining (bicc s') = part.
Proof.
  intros Hi Hr E Hmore Hmax. pose proof Hi as (Hs & Hl & Hb).
  destruct (read_length_part p part more (bicc s) Hs Hr E Hmore Hmax) as (c & Ec & Hf).
  rewrite round_length, <- Hl, Ec. eexists. split; [reflexivity|]. split; [done|].
  destruct Hf as (_ & E1 & E2 & E3 & _). pose proof Hs as ((Hp & _) & _).
  split; [|split; [done|]].
  - split; [|cbn; split; congruence]. cbn. rewrite E1, E2. apply small_moved; [done|lia].
  - unfold remaining in *. cbn. rewrite E1, E2. exact Hr.
Qed.

(** The loop goes through the messages and stops at an incomplete one. *)
Lemma loop_messages ps : forall x x' part s fuel,
  handled x ps x' -> loop_inv s -> server_rest s = x ->
  remaining (bicc s) = concat (frame <$> ps) ++ part ->
  (part = [] \/ exists p more, frame p = part ++ more /\ more <> [] /\
    sv_buffer_size s - zlen part + zlen (frame p) <= INT_MAX) ->
  sv_buffer_size s - current_in_buffer_position (bicc s) <= Z.of_nat fuel ->
  exists s', while in_buffer_size round true fuel s = Ok true s' /\ server_rest s' = x' /\ loop_inv s' /\
    sv_block s' = sv_block s /\ remaining (bicc s') = part.
Proof.
  induction ps as [|p ps IH]; intros x x' part s fuel Hh Hi Hx Hr Hpart Hfuel; cbn in Hr;
    pose proof Hi as ((Hc & _) & Hl & _); pose proof (length_remaining _ Hc) as Hlen; rewrite Hr, ?zlen_app in Hlen.
  - cbn in Hh. subst x'. destruct Hpart as [->|(p & more & E & Hmore & Hmax)].
    + assert (in_buffer_size s = false) as Ef.
      { unfold in_buffer_size. apply Z.ltb_ge. fold (bicc s). unfold zlen in Hlen. simpl in Hlen. lia. }
      exists s. split; [|by split_and!]. destruct fuel; cbn [while]; by rewrite Ef.
    + destruct (decide (part = [])) as [->|Hne].
      { exists s. split; [|by split_and!]. assert (in_buffer_size s = false) as Ef.
        { unfold in_buffer_size. apply Z.ltb_ge. fold (bicc s). unfold zlen in Hlen. simpl in Hlen. lia. }
        destruct fuel; cbn [while]; by rewrite Ef. }
      destruct part as [|b part]; [done|]. rewrite zlen_cons in Hlen. pose proof (zlen_nonneg part).
      destruct fuel as [|fuel]; [lia|]. cbn [while].
      assert (in_buffer_size s = true) as -> by (unfold in_buffer_size; fold (bicc s); apply Z.ltb_lt; lia).
      destruct (round_part p (b :: part) more s Hi Hr E Hmore) as (s' & -> & G1 & G2 & G3 & G4).
      { rewrite zlen_cons in Hmax. lia. }
      exists s'. split_and!; try done. congruence.
  - destruct Hh as (x1 & Hp & Hh). rewrite <- app_assoc in Hr.
    destruct (round_message p _ x x1 s Hi Hr Hx Hp) as (s1 & E1 & Hx1 & Hi1 & Eb & Hr1).
    pose proof (length_frame p) as Hf. pose proof (zlen_nonneg p). pose proof (zlen_nonneg part).
    pose proof (zlen_nonneg (concat (frame <$> ps))).
    pose proof (compact_int_nonempty (zlen p)).
    destruct fuel as [|fuel]; [lia|]. cbn [while].
    assert (in_buffer_size s = true) as -> by (unfold in_buffer_size; fold (bicc s); apply Z.ltb_lt; lia).
    rewrite E1. pose proof (block_size _ _ Eb) as Ez. pose proof Hi1 as ((Hc1 & _) & Hl1 & _).
    pose proof (length_remaining _ Hc1) as Hlen1. rewrite Hr1, zlen_app in Hlen1.
    destruct (IH x1 x' part s1 fuel Hh Hi1 Hx1 Hr1) as (s' & -> & G1 & G2 & G3 & G4).
    { by rewrite Ez. }
    { lia. }
    exists s'. split_and!; try done. congruence.
Qed.

(** ** Pieces *)

(** The pieces as they arrive; an error or a piece that was not processed ends it. *)
Fixpoint feed (pieces : list (list Z)) : M server_ctx bool :=
  match pieces with
  | [] => ret true
  | piece :: pieces' => ok <-- process_data piece;; if (ok : bool) then feed pieces' else ret false
  end.

(** Bytes that start a sequence of messages: some whole ones and a part. *)
Definition cut (ps : list (list Z)) (bs rest : list Z) : Prop := exists ps1 ps2 part,
  ps = ps1 ++ ps2 /\ bs = concat (frame <$> ps1) ++ part /\ part ++ rest = concat (frame <$> ps2) /\
  (part = [] \/ exists p ps' more, ps2 = p :: ps' /\ frame p = part ++ more /\ more <> []).

Lemma cut_anywhere ps bs rest : bs ++ rest = concat (frame <$> ps) -> cut ps bs rest.
Proof.
  revert bs. induction ps as [|p ps IH]; intros bs E; cbn in E.
  - apply app_nil in E as [-> ->]. exists [], [], []. split_and!; [done..|by left].
  - destruct (decide (length (frame p) <= length bs)%nat) as [Hle|Hlt].
    + assert (bs = frame p ++ drop (length (frame p)) bs) as Eb.
      { rewrite <- (take_drop (length (frame p)) bs) at 1. f_equal.
        apply (f_equal (take (length (frame p)))) in E. by rewrite take_app_length, take_app_le in E. }
      rewrite Eb, <- app_assoc in E. apply app_inv_head in E.
      destruct (IH _ E) as (ps1 & ps2 & part & -> & E1 & E2 & H). exists (p :: ps1), ps2, part.
      split_and!; [done| |done|done]. cbn. rewrite <- app_assoc, <- E1. exact Eb.
    + exists [], (p :: ps), bs. split_and!; [done..|].
      right. exists p, ps, (drop (length bs) (frame p)). split; [done|].
      assert (bs = take (length bs) (frame p)) as Eb.
      { apply (f_equal (take (length bs))) in E. rewrite take_app_length, take_app_le in E by lia. done. }
      split; [rewrite Eb at 1; by rewrite take_drop|].
      intros Hn. apply (f_equal length) in Hn. rewrite length_drop in Hn. simpl in Hn. lia.
Qed.

Section pieces.
Context (calloc_works : forall n, calloc_ok n = true).

(** One piece. *)
Lemma process_piece ps1 x x' part s piece :
  server_wf s -> server_rest s = x -> handled x ps1 x' -> piece <> [] ->
  unread s ++ piece = concat (frame <$> ps1) ++ part ->
  zlen (unread s) + zlen piece + 8 <= INT_MAX ->
  (part = [] \/ exists p more, frame p = part ++ more /\ more <> [] /\
    zlen (unread s ++ piece) + zlen more <= INT_MAX) ->
  exists s', process_data piece s = Ok true s' /\ server_wf s' /\ server_rest s' = x' /\ unread s' = part.
Proof using calloc_works.
  intros Hwf Hx Hh Hne E Hroom Hpart. unfold process_data, dx_process_server_data.
  rewrite (proj2 (Nat.leb_gt _ _)) by (destruct piece; [done|simpl; lia]).
  destruct (append_new_data_spec calloc_ok calloc_works s piece Hwf Hroom) as (s1 & E1 & H1 & Hx1 & Hb).
  destruct (at_start_inv _ s1 _ H1 ltac:(rewrite zlen_app; lia) Hb) as (Hwf1 & Hu & Hi & Hr).
  destruct H1 as (_ & Hz & _).
  unfold checked_call at 1. rewrite E1. unfold checked_call at 1, get. unfold checked_call at 1.
  rewrite bicc_position. unfold checked_call at 1. fold round.
  set (fuel := Z.to_nat (sv_buffer_size s1 - current_in_buffer_position (bicc s1))).
  destruct (loop_messages ps1 x x' part s1 fuel Hh Hi) as (s2 & E2 & Hx2 & Hi2 & Eb & Hr2).
  { congruence. }
  { congruence. }
  { destruct Hpart as [->|(p & more & Ep & Hmore & Hmax)]; [by left|]. right. exists p, more.
    split_and!; [done..|]. rewrite Hz, Ep, (zlen_app part). lia. }
  { unfold fuel. lia. }
  rewrite E2. unfold checked_call. rewrite bicc_position. eexists. split; [reflexivity|].
  destruct Hi2 as (((Hp & _) & _) & El & Eb2). injection Eb as B1 B2 B3 B4. destruct Hwf1.
  split; [constructor; cbn; lia || congruence|]. split; [exact Hx2|].
  rewrite <- Hr2. unfold unread, remaining. cbn. rewrite El, Eb2. cbn.
  by rewrite skipn_firstn_comm, Z2Nat.inj_sub by lia.
Qed.

Lemma feed_pieces pieces : forall x x' ps s,
  server_wf s -> server_rest s = x -> handled x ps x' -> Forall (fun piece => piece <> []) pieces ->
  unread s ++ concat pieces = concat (frame <$> ps) -> zlen (unread s ++ concat pieces) + 8 <= INT_MAX ->
  (unread s = [] \/ pieces <> []) ->
  exists s', feed pieces s = Ok true s' /\ server_wf s' /\ server_rest s' = x' /\ unread s' = [].
Proof using calloc_works.
  induction pieces as [|piece pieces IH]; intros x x' ps s Hwf Hx Hh Hne E Hroom Hstart; cbn in E, Hroom.
  - destruct Hstart as [Hu|]; [|done]. rewrite Hu in E. destruct ps as [|p ps].
    + exists s. cbn in Hh. by subst x'.
    + cbn in E. symmetry in E. apply app_nil in E as [E _]. exfalso.
      apply (f_equal zlen) in E. rewrite length_frame in E. pose proof (zlen_nonneg p).
      pose proof (compact_int_nonempty (zlen p)).
      change (zlen (@nil Z)) with 0 in E. lia.
  - apply Forall_cons in Hne as [Hp Hne]. rewrite app_assoc in E.
    destruct (cut_anywhere ps _ _ E) as (ps1 & ps2 & part & -> & E1 & E2 & Hpart).
    apply handled_app in Hh as (x1 & Hh1 & Hh2).
    rewrite !zlen_app in Hroom. pose proof (zlen_nonneg (concat pieces)).
    destruct (process_piece ps1 x x1 part s piece Hwf Hx Hh1 Hp E1) as (s1 & Es & Hwf1 & Hx1 & Hu1); [lia| |].
    { destruct Hpart as [->|(p & ps' & more & -> & Ep & Hmore)]; [by left|]. right. exists p, more.
      split_and!; [done..|]. cbn in E2. rewrite Ep, <- app_assoc in E2. apply app_inv_head in E2.
      rewrite zlen_app. apply (f_equal zlen) in E2. rewrite zlen_app in E2.
      pose proof (zlen_nonneg (concat (frame <$> ps'))). lia. }
    cbn [feed]. unfold checked_call. rewrite Es. rewrite <- Hu1 in E2.
    apply (IH x1 x' ps2 s1 Hwf1 Hx1 Hh2 Hne E2).
    + rewrite zlen_app, Hu1. apply (f_equal zlen) in E1. rewrite !zlen_app in E1.
      pose proof (zlen_nonneg (concat (frame <$> ps1))). lia.
    + destruct pieces; [|by right]. left. rewrite app_nil_r, Hu1 in E2. rewrite Hu1.
      destruct Hpart as [->|(p & ps' & more & -> & Ep & Hmore)]; [done|]. cbn in E2. rewrite Ep, <- app_assoc in E2.
      exfalso. apply (f_equal length) in E2. rewrite !length_app in E2. destruct more; [done|]. simpl in E2. lia.
Qed.
End pieces.

(** ** Messages *)

Lemma at_message_limited payload tail s : at_message payload tail s -> limited s.
Proof.
  intros ((Hs & Hl & Hb) & Hr & Hm). pose proof Hs as (Hc & _). pose proof (length_remaining _ Hc) as Hlen.
  rewrite Hr, zlen_app in Hlen. pose proof (zlen_nonneg payload). pose proof (zlen_nonneg tail).
  pose proof Hc as (Hp & _). split_and!; [done|done|lia|lia].
Qed.

(** Skipping the rest of the message. *)
Lemma skip_to_limit payload tail s :
  at_message payload tail s ->
  exists s', skip_message s = Ok proceed s' /\ server_rest s' = server_rest s /\ loop_inv s' /\
    sv_block s' = sv_block s /\ remaining (bicc s') = tail.
Proof.
  intros Ham. pose proof (at_message_limited _ _ _ Ham) as (_ & _ & Hlim). destruct Ham as (Hi & Hr & Hm).
  unfold skip_message. unfold checked_call at 1. rewrite bicc_limit.
  unfold on_bicc, on_data, on_in, on, dx_set_in_buffer_position, update. unfold_m. fold (bicc s).
  eexists. split; [reflexivity|]. split; [done|]. destruct Hi as (Hs & Hl & Hb). split; [|split; [done|]].
  - split; [|done]. apply small_moved; [done|]. rewrite Hl. lia.
  - destruct (remaining_advance (bicc s) payload tail (proj1 Hs) Hr) as [_ Hr']. rewrite <- Hr'.
    unfold advance. by rewrite <- Hm.
Qed.

Definition moved_on (n : Z) (s : server_ctx) : server_ctx :=
  set_sv_data (set_dc_in (advance (bicc s) n) (sv_data s)) s.

Lemma at_message_moved bs body tail s :
  at_message (bs ++ body) tail s -> at_message body tail (moved_on (zlen bs) s) /\
    sv_block (moved_on (zlen bs) s) = sv_block s /\ server_rest (moved_on (zlen bs) s) = server_rest s.
Proof.
  intros ((Hs & Hl & Hb) & Hr & Hm). rewrite <- app_assoc in Hr. split; [|done].
  destruct (remaining_advance (bicc s) bs _ (proj1 Hs) Hr) as [Hw Hr'].
  split; [split; [|done]|split; [exact Hr'|cbn; rewrite Hm, zlen_app; lia]].
  destruct Hs as (_ & Hs). by split.
Qed.

(** The type of the message. *)
Lemma message_type_read ty body tail s :
  0 <= ty <= INT_MAX -> at_message (wire (compact_int_bytes ty) ++ body) tail s ->
  read_type s = Ok (if dx_is_message_type_valid ty then inl ty else inr dx_pec_unexpected_message_type)
    (moved_on (zlen (wire (compact_int_bytes ty))) s).
Proof.
  intros Hty (Hi & Hr & Hm). rewrite <- app_assoc in Hr. pose proof Hi as ((Hc & _) & _).
  pose proof (reads_length ty Hty _ _ Hc Hr) as E.
  pose proof (compact_int_nonempty ty) as Hn. rewrite <- length_wire in Hn.
  rewrite zlen_app in Hm. pose proof (zlen_nonneg body).
  unfold read_type. unfold checked_call. rewrite bicc_position, bicc_limit. decide_cmps.
  unfold catch, on_bicc, on_data, on_in, on, dx_read_message_type, catch, checked_call. fold (bicc s). rewrite E.
  rewrite i32_id by (unfold is_i32, INT_MAX in *; lia). by destruct (dx_is_message_type_valid ty).
Qed.

(** An empty message is a heartbeat without a payload. *)
Lemma handles_empty x : handles [] x x.
Proof.
  intros s tail (Hi & Hr & Hm) Hx. change (zlen []) with 0 in Hm. rewrite Z.add_0_r in Hm.
  exists s. split; [|by split_and!].
  unfold limited_round, process_limited, read_type. unfold checked_call. rewrite bicc_position, bicc_limit, Hm.
  rewrite Z.ltb_irrefl. unfold ret. cbn. unfold catch, dx_process_heartbeat_message, on. fold (bicc s). cbn.
  rewrite (proj2 (Z.eqb_eq _ _) Hm). cbn. by destruct s as [[]].
Qed.

(** A message of a type that the library does not know or does not process. *)
Lemma handles_skipped ty body x :
  0 <= ty <= INT_MAX ->
  (dx_is_message_type_valid ty = false \/
   ty ∈ [MESSAGE_DESCRIBE_RESERVED; MESSAGE_PART; MESSAGE_RAW_DATA; MESSAGE_TEXT_FORMAT]) ->
  handles (wire (compact_int_bytes ty) ++ body) x x.
Proof.
  intros Hty Hkind s tail Ham Hx. pose proof (message_type_read ty body tail s Hty Ham) as E.
  destruct (at_message_moved _ _ _ _ Ham) as (Ham1 & Eb & Ex). set (s1 := moved_on _ s) in *.
  destruct (skip_to_limit _ _ _ Ham1) as (s' & Es & Hx' & Hi' & Eb' & Hr').
  exists s'. split; [|split_and!; congruence || done].
  unfold limited_round, process_limited, checked_call. rewrite E.
  destruct Hkind as [->|Hk]; [exact Es|].
  repeat (apply elem_of_cons in Hk as [->|Hk]; [exact Es|]). by apply not_elem_of_nil in Hk.
Qed.

Lemma heartbeat_message_spec p tail s :
  payload_ok p -> at_message (wire (payload_bytes p)) tail s ->
  dx_process_heartbeat_message currentTimeMark has_notifier s =
    Ok tt (set_sv_connection (processIncomingHeartbeatPayload currentTimeMark has_notifier p (sv_connection s))
      (moved_on (zlen (wire (payload_bytes p))) s)).
Proof.
  intros Hp ((Hs & _) & Hr & Hm).
  pose proof (codec_reads (Codec := payload_codec (fun _ => true)) p Hp (bicc s) tail (proj1 Hs) Hr) as Ep.
  cbn [codec_bytes payload_codec] in Ep.
  assert (1 <= zlen (wire (payload_bytes p))) as Hz.
  { rewrite length_wire. unfold payload_bytes. rewrite zlen_app. set (l := _ ++ _). pose proof (zlen_nonneg l).
    pose proof (compact_int_nonempty (i32 (contentMask_ p))). lia. }
  unfold dx_process_heartbeat_message, on, dx_connection_process_incoming_heartbeat. fold (bicc s).
  decide_cmps. by rewrite Ep.
Qed.

(** A message that is processed without an error to its end. *)
Lemma handles_type ty body x x' :
  0 <= ty <= INT_MAX -> dx_is_message_type_valid ty = true ->
  (forall s tail, at_message body tail s -> server_rest s = x ->
     exists s', dx_process_message calloc_ok mbsrtowcs process parse_wide dx_symbol_name_hasher t currentTimeMark
       has_notifier ty s = Ok tt s' /\ server_rest s' = x' /\
       bicc s' = advance (bicc s) (zlen body) /\ sv_block s' = sv_block s) ->
  handles (wire (compact_int_bytes ty) ++ body) x x'.
Proof.
  intros Hty Hvalid Hbody s tail Ham Hx. pose proof (message_type_read ty body tail s Hty Ham) as E.
  destruct (at_message_moved _ _ _ _ Ham) as (Ham1 & Eb & Ex). set (s1 := moved_on _ s) in *.
  destruct (Hbody s1 tail Ham1 ltac:(congruence)) as (s' & Es & Hx' & Eb' & Ek).
  exists s'. rewrite Hvalid in E. unfold limited_round, process_limited, checked_call, catch. rewrite E, Es.
  split; [done|]. split; [done|]. destruct Ham1 as (((Hc & Hs) & Hl & Hb) & Hr & Hm).
  destruct (remaining_advance (bicc s1) body tail Hc Hr) as [Hw Hr'].
  split_and!; [|congruence|by rewrite Eb']. clearbody s1. injection Ek as K1 K2 K3 K4.
  unfold loop_inv. rewrite Eb'. cbn. split_and!; [by split|congruence|congruence].
Qed.

(** A heartbeat with a payload. *)
Lemma handles_heartbeat p d pr conn :
  payload_ok p ->
  handles (wire (compact_int_bytes MESSAGE_HEARTBEAT) ++ wire (payload_bytes p)) (d, pr, conn)
    (d, pr, processIncomingHeartbeatPayload currentTimeMark has_notifier p conn).
Proof.
  intros Hp. apply handles_type; [done|done|]. intros s tail Ham Hx.
  pose proof (heartbeat_message_spec p tail s Hp Ham) as E. eexists. split; [exact E|].
  injection Hx as <- <- <-. by split_and!.
Qed.
End stream.

(** ** Properties *)

(** C20: it does not matter how the network cuts the bytes of the server.  Let a
    sequence of messages be handled, each one to its end, taking the context from
    [x] to [x'].  Their bytes, each message after its length, may arrive in any
    pieces that are not empty, which begin and end anywhere, inside a length too:
    every piece is processed without an error, all the messages are handled, once
    and in their order, so that the context ends in [x'], and no byte is left. *)
Theorem pieces_anywhere (calloc_ok : Z -> bool) (mbsrtowcs : list Z -> option (list Z))
  (process : tc_event -> option dx_error_code) (parse_wide : Z -> dxf_double_t)
  (dx_symbol_name_hasher : list Z -> Z) (t : tables) (currentTimeMark : Z) (has_notifier : bool)
  (payloads pieces : list (list Z)) (s : server_ctx) (x' : rest_state) :
  let feed := feed calloc_ok mbsrtowcs process parse_wide dx_symbol_name_hasher t currentTimeMark has_notifier in
  let handled := handled calloc_ok mbsrtowcs process parse_wide dx_symbol_name_hasher t currentTimeMark
    has_notifier in
  (forall n, calloc_ok n = true) ->
  server_wf s -> unread s = [] -> handled (server_rest s) payloads x' ->
  concat pieces = concat (frame <$> payloads) -> Forall (fun piece => piece <> []) pieces ->
  zlen (concat pieces) + 8 <= INT_MAX ->
  exists s', feed pieces s = Ok true s' /\ server_wf s' /\ server_rest s' = x' /\ unread s' = [].
Proof.
  intros feed handled Hcalloc Hwf Hu Hh E Hne Hroom.
  apply (feed_pieces calloc_ok mbsrtowcs process parse_wide dx_symbol_name_hasher t currentTimeMark has_notifier
    Hcalloc pieces (server_rest s) x' payloads s); rewrite ?Hu; try done. by left.
Qed.

(** A heartbeat with its times, an empty one and a message that is not known, a
    byte at a time. *)
Definition example_payload : HeartbeatPayload :=
  fst (outgoing_payload 1650000000000 123456789 (ConnectionImpl (-77) 0 0 0 5 [])).
Definition example_payloads : list (list Z) :=
  [wire (compact_int_bytes MESSAGE_HEARTBEAT) ++ wire (payload_bytes example_payload); [];
   wire (compact_int_bytes 7) ++ [1; 2; 3]].

Lemma pieces_anywhere_witness :
  exists s', feed (fun _ => true) Some (fun _ => None) double_of_int (fun _ => 0) codec_tables 1000 true
      ((fun b => [b]) <$> concat (frame <$> example_payloads)) example_server = Ok true s' /\
    server_wf s' /\
    server_rest s' = (sv_data example_server, sv_protocol example_server,
      processIncomingHeartbeatPayload 1000 true example_payload new_connection) /\
    unread s' = [].
Proof.
  apply (pieces_anywhere (fun _ => true) Some (fun _ => None) double_of_int (fun _ => 0) codec_tables 1000 true
    example_payloads); [done|apply example_server_wf|done| | | |vm_compute; done].
  - eexists. split; [apply handles_heartbeat; constructor; vm_compute; repeat split; done|].
    eexists. split; [apply handles_empty|].
    eexists. split; [apply (handles_skipped _ _ _ _ _ _ _ _ 7); [done|by left]|]. done.
  - generalize (concat (frame <$> example_payloads)). intros l. induction l; [done|]. cbn. by rewrite IHl.
  - apply Forall_fmap, Forall_true. done.
Defined.
