(* ===== verification/Describe.v ===== *)
(** * Describe: the descriptions of records

    What a description of a record in a message makes of the digest of the
    record, as a function of the fields that it lists. *)

From Stdlib Require Import Ascii String.
From S2P Require Import Prelude Arrays Algorithms Output Input Wire SymbolCodec Loops Framing EventData.
From S2P Require Import DataStructures RecordData RecordTranscoder RecordFields MessageData ServerData.
Local Open Scope Z_scope.
Local Open Scope c_scope.

(** ** The bytes of a description *)

Definition string_bytes (s : list Z) : list Z :=
  wire (compact_int_bytes (zlen (utf16_to_utf8 s)) ++ utf16_to_utf8 s).

(** A field is its name and its type. *)
Definition field_bytes (f : list Z * Z) : list Z := string_bytes f.1 ++ wire (compact_int_bytes f.2).

Definition description_bytes (server_id : Z) (name : list Z) (fields : list (list Z * Z)) : list Z :=
  wire (compact_int_bytes server_id) ++ string_bytes name ++ wire (compact_int_bytes (zlen fields)) ++
  concat (field_bytes <$> fields).

(** ** What a description means *)

(** The digest of a field of the server: it is that of a local field or of none. *)
Definition field_digest (item : dx_record_item_t) (f : list Z * Z) : dx_field_digest_t :=
  match ri_fields item !! Z.to_nat (dx_find_record_field item f.1 f.2) with
  | Some local => if dx_find_record_field item f.1 f.2 =? INVALID_INDEX then FieldDigest f.2 0 None None
                  else FieldDigest f.2 (fi_type local) (Some (fi_member local)) None
  | None => FieldDigest f.2 0 None None
  end.

(** The bits of the local fields that the server has. *)
Definition supported (item : dx_record_item_t) (state : Z) (f : list Z * Z) : Z :=
  let i := dx_find_record_field item f.1 f.2 in
  if i =? INVALID_INDEX then state else Z.lor state (INDEX_BITMASK (Z.to_nat i)).

(** The local fields without a bit, with their default values. *)
Fixpoint defaults (state : Z) (index : nat) (fields : list dx_field_info_t) : list dx_field_digest_t :=
  match fields with
  | [] => []
  | f :: fields' =>
      (if negb (Z.land state (INDEX_BITMASK index) =? 0) then []
       else [FieldDigest 0 0 (Some (fi_member f)) (Some (fi_member f))]) ++ defaults state (S index) fields'
  end.

(** ** The state *)

Definition with_digest (rid : Z) (d : dx_record_digest_t) (s : dscc) : dscc :=
  set_record_digests (DxArray (<[Z.to_nat rid := d]> (arr_elements (record_digests s)))
    (arr_size (record_digests s)) (arr_capacity (record_digests s))) s.
Definition with_state (rid state : Z) (s : dscc) : dscc :=
  set_states (DxArray (<[Z.to_nat rid := state]> (arr_elements (record_server_support_states s)))
    (arr_size (record_server_support_states s)) (arr_capacity (record_server_support_states s))) s.

(** The state of a record: its digest and its support state. *)
Definition with_record (rid : Z) (d : dx_record_digest_t) (state : Z) (s : dscc) : dscc :=
  with_state rid state (with_digest rid d s).

Section record.
Context (s0 : dscc) (Hok : registry_ok s0) (rid : Z) (Hrid : 0 <= rid < Z.of_nat (arr_size (records_list s0))).

Lemma digest_room : (Z.to_nat rid < length (arr_elements (record_digests s0)))%nat.
Proof using Hok Hrid.
  pose proof (ok_digests s0 Hok) as [H1 H2]. pose proof (ok_digests_size s0 Hok). lia.
Qed.
Lemma state_room : (Z.to_nat rid < length (arr_elements (record_server_support_states s0)))%nat.
Proof using Hok Hrid.
  pose proof (ok_states s0 Hok) as [H1 H2]. pose proof (ok_states_size s0 Hok). lia.
Qed.

Lemma get_digest_with d state : dx_get_record_digest rid (with_record rid d state s0) = Ok (Some d) (with_record rid d state s0).
Proof using Hok Hrid.
  pose proof digest_room as Hr. pose proof (ok_digests_size s0 Hok).
  unfold dx_get_record_digest, checked_call, get, digest_index, with_record. cbn.
  rewrite bool_decide_eq_false_2.
  2: { intros E. apply (f_equal length) in E. rewrite length_insert in E. simpl in E. lia. }
  decide_cmps. by rewrite list_lookup_insert_eq by done.
Qed.

Lemma put_digest_with d state d' :
  put_digest rid d' (with_record rid d state s0) = Ok tt (with_record rid d' state s0).
Proof using Hok Hrid.
  pose proof digest_room as Hr. unfold put_digest, checked_call, get, with_record. cbn.
  rewrite write_at_in by (by rewrite length_insert). cbn. by rewrite list_insert_insert_eq.
Qed.

Lemma support_state_with d state : support_state rid (with_record rid d state s0) = Ok state (with_record rid d state s0).
Proof using Hok Hrid.
  pose proof state_room as Hr. pose proof (ok_states_size s0 Hok).
  unfold support_state, checked_call, get, with_record. cbn. decide_cmps.
  by rewrite list_lookup_insert_eq by done.
Qed.

Lemma put_state_with d state state' :
  put_support_state rid state' (with_record rid d state s0) = Ok tt (with_record rid d state' s0).
Proof using Hok Hrid.
  pose proof state_room as Hr. unfold put_support_state, checked_call, get, with_record. cbn.
  rewrite write_at_in by (by rewrite length_insert). cbn. by rewrite list_insert_insert_eq.
Qed.

Lemma append_field_with d state f :
  append_field rid f (with_record rid d state s0) =
    Ok tt (with_record rid (RecordDigest (rd_elements d ++ [f]) (rd_in_sync_with_server d)) state s0).
Proof using Hok Hrid.
  unfold append_field, checked_call. rewrite get_digest_with. unfold of_option, ret. apply put_digest_with.
Qed.
End record.

(** What the record has in the state itself. *)
Lemma with_record_self (s0 : dscc) rid d state :
  arr_elements (record_digests s0) !! Z.to_nat rid = Some d ->
  arr_elements (record_server_support_states s0) !! Z.to_nat rid = Some state ->
  with_record rid d state s0 = s0.
Proof.
  intros Hd Hst. destruct s0 as [m [e1 n1 c1] l n [e2 n2 c2]]. unfold with_record, with_digest, with_state. cbn in *.
  by rewrite !list_insert_id by done.
Qed.

(** The whole context, with an input buffer and data structures of its own. *)
Definition ctx_at (s : data_ctx) (c : in_ctx) (x : dscc) : data_ctx :=
  set_dc_in c (set_dc_tc (set_tc_dscc x (dc_tc s)) s).

Lemma on_in_at {A} (m : M in_ctx A) s c x v c' :
  m c = Ok v c' -> on_in m (ctx_at s c x) = Ok v (ctx_at s c' x).
Proof. intros E. unfold on_in, on. cbn. by rewrite E. Qed.
Lemma on_dscc_at {A} (m : M dscc A) s c x v x' :
  m x = Ok v x' -> on_dscc m (ctx_at s c x) = Ok v (ctx_at s c x').
Proof. intros E. unfold on_dscc, on. cbn. by rewrite E. Qed.

(** ** The fields of a description *)

Section describe.
Context (calloc_ok : Z -> bool) (calloc_works : forall n, calloc_ok n = true).

(** The names and the types that are accepted. *)
Definition name_ok (name : list Z) : Prop :=
  bmp name /\ name <> [] /\ zlen (utf16_to_utf8 name) <= INT_MAX.
Definition field_ok (f : list Z * Z) : Prop := name_ok f.1 /\ 0 <= f.2 <= 0xFF.

Lemma reads_name name :
  name_ok name -> reads (dx_read_utf_string calloc_ok) (string_bytes name) (Some (string_buffer name)).
Proof using calloc_works. intros (H1 & H2 & H3). by apply reads_utf_string. Qed.

Lemma c_string_name name : name_ok name -> c_string (string_buffer name) = name.
Proof using Type. intros (H1 & _). by apply string_buffer_string. Qed.

(** Reading [bs] and then the rest. *)
Lemma reads_step {A} (m : M in_ctx A) bs v c tail :
  reads m bs v -> in_wf c -> remaining c = bs ++ tail ->
  m c = Ok v (advance c (zlen bs)) /\ in_wf (advance c (zlen bs)) /\ remaining (advance c (zlen bs)) = tail.
Proof using Type.
  intros Hr Hc E. split; [by apply (Hr c tail)|]. by apply remaining_advance.
Qed.

Lemma find_field_range item name type :
  let i := dx_find_record_field item name type in
  i = INVALID_INDEX \/ 0 <= i < zlen (ri_fields item).
Proof using Type.
  unfold dx_find_record_field. cbv zeta.
  assert (forall fields i, 0 <= i -> find_field_loop fields i name type = INVALID_INDEX \/
    i <= find_field_loop fields i name type < i + zlen fields) as H.
  { induction fields as [|f fields IH]; intros i Hi; cbn [find_field_loop]; [by left|]. rewrite zlen_cons.
    pose proof (zlen_nonneg fields). destruct (_ && _); [lia|]. destruct (IH (i + 1)); [lia|by left|right; lia]. }
  destruct (H (ri_fields item) 0); [lia|by left|right; lia].
Qed.

Section fields.
Context (s : data_ctx) (s0 : dscc) (Hok : registry_ok s0) (rid : Z).
Context (Hrid : 0 <= rid < Z.of_nat (arr_size (records_list s0))) (item : dx_record_item_t).

Lemma create_field_digest_spec f d state c tail :
  field_ok f -> in_wf c -> remaining c = field_bytes f ++ tail ->
  let c' := advance c (zlen (field_bytes f)) in
  dx_create_field_digest calloc_ok rid (Some item) (ctx_at s c (with_record rid d state s0)) =
    Ok (Some (field_digest item f)) (ctx_at s c' (with_record rid d (supported item state f) s0)) /\
  in_wf c' /\ remaining c' = tail.
Proof using Hok Hrid calloc_works.
  intros (Hname & Htype) Hc Hr. destruct f as [name type]. cbn [fst snd] in *.
  unfold field_bytes in *. cbn [fst snd] in *. rewrite <- app_assoc in Hr.
  destruct (reads_step _ _ _ c _ (reads_name name Hname) Hc Hr) as (E1 & Hc1 & Hr1).
  assert (is_i32 type) as Ht by (unfold is_i32; lia).
  destruct (reads_step _ _ _ _ _ (reads_compact_int type Ht) Hc1 Hr1) as (E2 & Hc2 & Hr2).
  rewrite advance_advance, <- zlen_app in E2, Hc2, Hr2. cbv zeta. split; [|done].
  unfold dx_create_field_digest. rewrite (bind_ok _ _ _ _ _ (on_in_at _ s _ _ _ _ E1)).
  rewrite (bind_ok _ _ _ _ _ (on_in_at _ s _ _ _ _ E2)). cbn [fmap option_fmap option_map].
  rewrite c_string_name by done. destruct name as [|ch name']; [by destruct Hname as (_ & ? & _)|].
  set (name := ch :: name') in *. unfold MIN_FIELD_TYPE_ID, MAX_FIELD_TYPE_ID. decide_cmps. cbn [orb].
  rewrite calloc_works. cbn [negb]. unfold field_digest, supported. cbn [fst snd].
  pose proof (find_field_range item name type) as Hi. cbv zeta in Hi.
  set (i := dx_find_record_field item name type) in *.
  destruct (Z.eqb_spec i INVALID_INDEX) as [Ei|Ei].
  - by destruct (ri_fields item !! Z.to_nat i).
  - destruct Hi as [|Hi]; [done|]. unfold zlen in Hi.
    destruct (lookup_lt_is_Some_2 (ri_fields item) (Z.to_nat i)) as [local El]; [lia|].
    rewrite El. cbn [of_option]. rewrite (bind_ok _ _ _ local _ eq_refl).
    rewrite (bind_ok _ _ _ _ _ (on_dscc_at _ s _ _ _ _ (support_state_with s0 Hok rid Hrid d state))).
    by rewrite (bind_ok _ _ _ _ _ (on_dscc_at _ s _ _ _ _ (put_state_with s0 Hok rid Hrid d state _))).
Qed.

Lemma fill_loop_spec fields : forall d state c tail,
  Forall field_ok fields -> in_wf c -> remaining c = concat (field_bytes <$> fields) ++ tail ->
  let c' := advance c (zlen (concat (field_bytes <$> fields))) in
  fill_loop calloc_ok (length fields) rid (Some item) (ctx_at s c (with_record rid d state s0)) =
    Ok tt (ctx_at s c' (with_record rid
      (RecordDigest (rd_elements d ++ (field_digest item <$> fields)) (rd_in_sync_with_server d))
      (foldl (supported item) state fields) s0)) /\
  in_wf c' /\ remaining c' = tail.
Proof using Hok Hrid calloc_works.
  induction fields as [|f fields IH]; intros d state c tail Hf Hc Hr; cbn in Hr |- *.
  - unfold advance. rewrite Z.add_0_r, app_nil_r. by destruct c, d.
  - apply Forall_cons in Hf as [Hf Hfs]. rewrite <- app_assoc in Hr.
    destruct (create_field_digest_spec f d state c _ Hf Hc Hr) as (E1 & Hc1 & Hr1).
    rewrite (bind_ok _ _ _ _ _ E1).
    rewrite (bind_ok _ _ _ _ _ (on_dscc_at _ s _ _ _ _ (append_field_with s0 Hok rid Hrid d _ _))).
    destruct (IH (RecordDigest (rd_elements d ++ [field_digest item f]) (rd_in_sync_with_server d))
      (supported item state f) _ _ Hfs Hc1 Hr1) as (E2 & Hc2 & Hr2).
    rewrite advance_advance, <- zlen_app in E2, Hc2, Hr2. split; [|done].
    rewrite E2. cbn. by rewrite <- app_assoc.
Qed.

Lemma unsupported_loop_spec fields : forall index d state c,
  unsupported_loop calloc_ok rid fields index (ctx_at s c (with_record rid d state s0)) =
    Ok tt (ctx_at s c (with_record rid
      (RecordDigest (rd_elements d ++ defaults state index fields) (rd_in_sync_with_server d)) state s0)).
Proof using Hok Hrid calloc_works.
  induction fields as [|f fields IH]; intros index d state c; cbn [unsupported_loop defaults].
  - rewrite app_nil_r. by destruct d.
  - rewrite (bind_ok _ _ _ _ _ (on_dscc_at _ s _ _ _ _ (support_state_with s0 Hok rid Hrid d state))).
    destruct (negb _).
    + rewrite (bind_ok _ _ _ tt _ eq_refl). apply IH.
    + rewrite calloc_works.
      rewrite (bind_ok _ _ _ _ _ (on_dscc_at _ s _ _ _ _ (append_field_with s0 Hok rid Hrid d state _))).
      rewrite IH. cbn. by rewrite <- app_assoc.
Qed.

(** The digest that the fields of a description make, from a support state. *)
Definition described (state : Z) (fields : list (list Z * Z)) : dx_record_digest_t :=
  RecordDigest ((field_digest item <$> fields) ++ defaults (foldl (supported item) state fields) 0 (ri_fields item))
    true.

Lemma fill_record_digest_spec fields state c tail :
  Forall field_ok fields -> in_wf c -> remaining c = concat (field_bytes <$> fields) ++ tail ->
  let c' := advance c (zlen (concat (field_bytes <$> fields))) in
  dx_fill_record_digest calloc_ok rid (Some item) (zlen fields) (ctx_at s c (with_record rid zero_digest state s0)) =
    Ok tt (ctx_at s c' (with_record rid (described state fields) (foldl (supported item) state fields) s0)) /\
  in_wf c' /\ remaining c' = tail.
Proof using Hok Hrid calloc_works.
  intros Hf Hc Hr. destruct (fill_loop_spec fields zero_digest state c tail Hf Hc Hr) as (E & Hc' & Hr').
  cbv zeta. split; [|done]. unfold dx_fill_record_digest. unfold zlen at 1. rewrite Nat2Z.id.
  rewrite (bind_ok _ _ _ _ _ E). set (state' := foldl _ _ _).
  assert (dx_digest_unsupported_fields calloc_ok rid (Some item)
    (ctx_at s (advance c (zlen (concat (field_bytes <$> fields))))
      (with_record rid (RecordDigest (field_digest item <$> fields) false) state' s0)) =
    Ok tt (ctx_at s (advance c (zlen (concat (field_bytes <$> fields))))
      (with_record rid (RecordDigest (rd_elements (described state fields)) false) state' s0))) as E2.
  { unfold dx_digest_unsupported_fields. decide_cmps.
    rewrite (bind_ok _ _ _ _ _ (on_dscc_at _ s _ _ _ _ (get_digest_with s0 Hok rid Hrid _ _))).
    by rewrite unsupported_loop_spec. }
  cbn [rd_elements zero_digest app rd_in_sync_with_server]. rewrite (bind_ok _ _ _ _ _ E2). decide_cmps.
  rewrite (bind_ok _ _ _ _ _ (on_dscc_at _ s _ _ _ _ (get_digest_with s0 Hok rid Hrid _ _))).
  apply on_dscc_at. by rewrite put_digest_with.
Qed.
End fields.
End describe.

(** ** The record of a description *)

Lemma by_name_search n i l name :
  by_name_loop n i l name = (fun r => if r.1 : bool then Z.of_nat r.2 else DX_RECORD_ID_INVALID) <$> search_record n i l name.
Proof.
  revert i. induction n as [|n IH]; intros i; cbn [by_name_loop search_record]; [done|].
  destruct (l !! i) as [item|]; [|done]. cbn. destruct (ri_name item) as [nm|]; [|done]. cbn.
  case_bool_decide; [done|]. apply IH.
Qed.

(** The name of a record finds it. *)
Lemma id_by_name s rid name :
  registry_ok s -> record_name s rid = Some name -> dx_get_record_id_by_name name s = Ok rid s.
Proof.
  intros Hok Hn. unfold dx_get_record_id_by_name, checked_call, get. rewrite by_name_search.
  destruct (search_name_spec s name Hok) as (found & i & -> & Hf). cbn.
  destruct (Z.ltb_spec rid 0) as [Hneg|Hpos]; [unfold record_name in Hn; by rewrite (proj2 (Z.ltb_lt _ _) Hneg) in Hn|].
  rewrite <- (Z2Nat.id rid), record_name_nat in Hn by lia.
  destruct (contents (records_list s) !! Z.to_nat rid) as [item|] eqn:Ei; [cbn in Hn|done].
  destruct found.
  - destruct Hf as [Hi Hin]. rewrite record_name_nat in Hin.
    destruct (contents (records_list s) !! i) as [item'|] eqn:Ei'; [cbn in Hin|done].
    assert (Z.to_nat rid = i) as <-; [|by rewrite Z2Nat.id by lia].
    apply (NoDup_lookup (ri_name <$> contents (records_list s)) _ _ (Some name)); [apply Hok|..];
      by rewrite list_lookup_fmap, ?Ei, ?Ei'; cbn; f_equal.
  - destruct Hf as [_ Hf]. by destruct (Hf item (list_elem_of_lookup_2 _ _ _ Ei)).
Qed.

Lemma id_by_unknown_name s name :
  registry_ok s -> (forall rid, record_name s rid <> Some name) ->
  dx_get_record_id_by_name name s = Ok DX_RECORD_ID_INVALID s.
Proof.
  intros Hok Hn. unfold dx_get_record_id_by_name, checked_call, get. rewrite by_name_search.
  destruct (search_name_spec s name Hok) as (found & i & -> & Hf). cbn.
  destruct found; [|done]. destruct Hf as [_ Hin]. by destruct (Hn _ Hin).
Qed.

(** The record of a name. *)
Lemma named_record s rid name :
  registry_ok s -> record_name s rid = Some name ->
  0 <= rid < Z.of_nat (arr_size (records_list s)) /\
  exists item, contents (records_list s) !! Z.to_nat rid = Some item /\ ri_name item = Some name /\
    item_ok item /\ dx_get_record_by_id rid s = Ok item s.
Proof.
  intros Hok Hn. unfold record_name in Hn. pose proof (get_record_by_id_spec rid s (ok_records s Hok)) as Hg.
  destruct (Z.ltb_spec rid 0) as [|Hpos]; [done|].
  destruct (contents (records_list s) !! Z.to_nat rid) as [item|] eqn:Ei; [|done]. cbn in Hn.
  split.
  - apply lookup_lt_Some in Ei. rewrite length_contents in Ei by apply Hok. lia.
  - exists item. split_and!; [done|done| |done]. pose proof (ok_items s Hok) as Hi. rewrite Forall_forall in Hi.
    apply Hi. by apply list_elem_of_lookup_2 in Ei.
Qed.

Lemma registry_ok_map s m : registry_ok s -> registry_ok (set_record_id_map m s).
Proof. by intros []; constructor. Qed.

(** ** Whole descriptions *)

(** What a description makes of the data structures, with the new map of
    identifiers [m] when the record is a local one. *)
Definition after_description (s : dscc) (rid : Z) (item : dx_record_item_t) (fields : list (list Z * Z))
  (m : dx_server_local_record_id_map_t) : dscc :=
  let state := default 0 (arr_elements (record_server_support_states s) !! Z.to_nat rid) in
  with_record rid (described item state fields) (foldl (supported item) state fields) (set_record_id_map m s).

Lemma after_description_ok s rid item fields m :
  registry_ok s -> registry_ok (after_description s rid item fields m).
Proof.
  intros [? [? ?] [? ?] ? ? ? ? ?]. constructor; try done; split; simpl; by rewrite ?length_insert.
Qed.

Section description.
Context (calloc_ok : Z -> bool) (calloc_works : forall n, calloc_ok n = true).

Lemma digest_of_record s rid :
  registry_ok s -> 0 <= rid < Z.of_nat (arr_size (records_list s)) ->
  exists d, arr_elements (record_digests s) !! Z.to_nat rid = Some d /\
    dx_get_record_digest rid s = Ok (Some d) s.
Proof using Type.
  intros Hok Hrid. pose proof (digest_room s Hok rid Hrid) as Hr. pose proof (ok_digests_size s Hok).
  destruct (lookup_lt_is_Some_2 _ _ Hr) as [d Ed]. exists d. split; [done|].
  unfold dx_get_record_digest, checked_call, get, digest_index.
  rewrite bool_decide_eq_false_2 by (intros E; rewrite E in Hr; simpl in Hr; lia).
  decide_cmps. by rewrite Ed.
Qed.

Lemma ctx_at_self s : s = ctx_at s (dc_in s) (tc_dscc (dc_tc s)).
Proof using Type. by destruct s as [? ? ? ? [] ? ?]. Qed.

(** The start of a description: the identifier, the name and the number of fields. *)
Lemma description_start server_id name fields c tail :
  is_i32 server_id -> name_ok name -> zlen fields <= INT_MAX -> in_wf c ->
  remaining c = description_bytes server_id name fields ++ tail ->
  exists c1 c2 c3, dx_read_compact_int c = Ok server_id c1 /\
    dx_read_utf_string calloc_ok c1 = Ok (Some (string_buffer name)) c2 /\
    dx_read_compact_int c2 = Ok (zlen fields) c3 /\ in_wf c3 /\
    remaining c3 = concat (field_bytes <$> fields) ++ tail /\
    advance c3 (zlen (concat (field_bytes <$> fields))) = advance c (zlen (description_bytes server_id name fields)).
Proof using calloc_works.
  intros Hid Hname Hn Hc Hr. unfold description_bytes in *. rewrite <- !app_assoc in Hr.
  pose proof (zlen_nonneg fields).
  destruct (reads_step _ _ _ c _ (reads_compact_int server_id Hid) Hc Hr) as (E1 & Hc1 & Hr1).
  destruct (reads_step _ _ _ _ _ (reads_name calloc_ok calloc_works name Hname) Hc1 Hr1) as (E2 & Hc2 & Hr2).
  assert (is_i32 (zlen fields)) as Hf by (unfold is_i32, INT_MAX in *; lia).
  destruct (reads_step _ _ _ _ _ (reads_compact_int _ Hf) Hc2 Hr2) as (E3 & Hc3 & Hr3).
  do 3 eexists. split_and!; [done..|]. by rewrite !advance_advance, !zlen_app, !Z.add_assoc.
Qed.

Lemma describe_record_known s0 server_id rid name item fields :
  registry_ok s0 -> id_map_ok (record_id_map s0) -> is_i32 server_id -> name_ok name ->
  Forall field_ok fields -> zlen fields <= INT_MAX -> record_name s0 rid = Some name ->
  contents (records_list s0) !! Z.to_nat rid = Some item ->
  exists m, id_map_ok m /\
    (forall id, local_id m id = if decide (id = server_id) then rid else local_id (record_id_map s0) id) /\
    forall s c tail, in_wf c -> remaining c = description_bytes server_id name fields ++ tail ->
    describe_record calloc_ok (ctx_at s c s0) =
      Ok tt (ctx_at s (advance c (zlen (description_bytes server_id name fields)))
        (after_description s0 rid item fields m)).
Proof using calloc_works.
  intros Hok Hm Hid Hname Hf Hn Hrec Hitem.
  destruct (named_record s0 rid name Hok Hrec) as (Hrid & item' & Ei & _ & _ & Eg). replace item' with item in * by congruence.
  destruct (assign_record_id_spec (fun n => calloc_ok (Z.of_nat n)) rid server_id s0) as (m & Em & Hm' & Hl);
    [intros; apply calloc_works|done|].
  exists m. split; [done|]. split; [done|]. intros s c tail Hc Hr.
  destruct (description_start server_id name fields c tail Hid Hname Hn Hc Hr)
    as (c1 & c2 & c3 & E1 & E2 & E3 & Hc3 & Hr3 & <-).
  unfold describe_record. rewrite (bind_ok _ _ _ _ _ (on_in_at _ s _ _ _ _ E1)).
  rewrite (bind_ok _ _ _ _ _ (on_in_at _ s _ _ _ _ E2)), (bind_ok _ _ _ _ _ (on_in_at _ s _ _ _ _ E3)).
  cbn [fmap option_fmap option_map]. rewrite c_string_name by done.
  destruct name as [|ch name']; [by destruct Hname as (_ & ? & _)|]. set (name := ch :: name') in *.
  pose proof (zlen_nonneg fields). decide_cmps.
  rewrite (bind_ok _ _ _ _ _ (on_dscc_at _ s _ _ _ _ (id_by_name s0 rid name Hok Hrec))).
  unfold DX_RECORD_ID_INVALID. decide_cmps. rewrite (bind_ok _ _ _ _ _ (on_dscc_at _ s _ _ _ _ Em)). cbn [negb].
  set (s1 := set_record_id_map m s0). pose proof (registry_ok_map s0 m Hok : registry_ok s1) as Hok1.
  assert (dx_get_record_by_id rid s1 = Ok item s1) as Eg1.
  { rewrite get_record_by_id_spec by apply Hok1. decide_cmps. change (records_list s1) with (records_list s0).
    by rewrite Hitem. }
  rewrite (bind_ok _ _ _ _ _ (on_dscc_at _ s _ _ _ _ Eg1)).
  destruct (digest_of_record s1 rid Hok1 Hrid) as (d & Ed & Egd).
  rewrite (bind_ok _ _ _ _ _ (on_dscc_at _ s _ _ _ _ Egd)).
  destruct (lookup_lt_is_Some_2 _ _ (state_room s1 Hok1 rid Hrid)) as [state Est].
  rewrite <- (with_record_self s1 rid d state Ed Est) at 1.
  rewrite (bind_ok _ _ _ _ _ (on_dscc_at _ s _ _ _ _ (put_digest_with s1 Hok1 rid Hrid d state zero_digest))).
  rewrite calloc_works.
  destruct (fill_record_digest_spec calloc_ok calloc_works s s1 Hok1 rid Hrid item fields state c3 tail Hf Hc3 Hr3)
    as (-> & _).
  unfold after_description. change (record_server_support_states s0) with (record_server_support_states s1).
  by rewrite Est.
Qed.

(** The descriptions of records that are not known are read and dropped. *)
Lemma drop_fields fields : forall s c tail x,
  Forall field_ok fields -> in_wf c -> remaining c = concat (field_bytes <$> fields) ++ tail ->
  fill_loop calloc_ok (length fields) DX_RECORD_ID_INVALID None (ctx_at s c x) =
    Ok tt (ctx_at s (advance c (zlen (concat (field_bytes <$> fields)))) x).
Proof using calloc_works.
  induction fields as [|[name type] fields IH]; intros s c tail x Hf Hc Hr; cbn [length fill_loop].
  { cbn. unfold advance. rewrite Z.add_0_r. by destruct c. }
  cbn [fmap list_fmap concat] in *. unfold field_bytes at 1 in Hr. cbn [fst snd] in Hr. rewrite <- !app_assoc in Hr.
  apply Forall_cons in Hf as [[Hname Htype] Hfs]. cbn [fst snd] in *.
  destruct (reads_step _ _ _ c _ (reads_name calloc_ok calloc_works name Hname) Hc Hr) as (E1 & Hc1 & Hr1).
  assert (is_i32 type) as Ht by (unfold is_i32; lia).
  destruct (reads_step _ _ _ _ _ (reads_compact_int type Ht) Hc1 Hr1) as (E2 & Hc2 & Hr2).
  assert (dx_create_field_digest calloc_ok DX_RECORD_ID_INVALID None (ctx_at s c x) =
    Ok None (ctx_at s (advance (advance c (zlen (string_bytes name))) (zlen (wire (compact_int_bytes type)))) x)) as E.
  { unfold dx_create_field_digest. rewrite (bind_ok _ _ _ _ _ (on_in_at _ s _ _ _ _ E1)).
    rewrite (bind_ok _ _ _ _ _ (on_in_at _ s _ _ _ _ E2)). cbn [fmap option_fmap option_map].
    rewrite c_string_name by done. destruct name as [|ch name']; [by destruct Hname as (_ & ? & _)|].
    unfold MIN_FIELD_TYPE_ID, MAX_FIELD_TYPE_ID. by decide_cmps. }
  rewrite (bind_ok _ _ _ _ _ E), (bind_ok _ _ _ tt _ eq_refl), (IH _ _ tail) by done.
  change (field_bytes (name, type)) with (string_bytes name ++ wire (compact_int_bytes type)).
  by rewrite !advance_advance, !zlen_app, !Z.add_assoc.
Qed.

Lemma describe_record_unknown s0 server_id name fields s c tail :
  in_wf c -> registry_ok s0 -> is_i32 server_id -> name_ok name ->
  Forall field_ok fields -> zlen fields <= INT_MAX -> (forall rid, record_name s0 rid <> Some name) ->
  remaining c = description_bytes server_id name fields ++ tail ->
  describe_record calloc_ok (ctx_at s c s0) =
    Ok tt (ctx_at s (advance c (zlen (description_bytes server_id name fields))) s0).
Proof using calloc_works.
  intros Hc Hok Hid Hname Hf Hn Hrec Hr.
  destruct (description_start server_id name fields c tail Hid Hname Hn Hc Hr)
    as (c1 & c2 & c3 & E1 & E2 & E3 & Hc3 & Hr3 & <-).
  unfold describe_record. rewrite (bind_ok _ _ _ _ _ (on_in_at _ s _ _ _ _ E1)).
  rewrite (bind_ok _ _ _ _ _ (on_in_at _ s _ _ _ _ E2)), (bind_ok _ _ _ _ _ (on_in_at _ s _ _ _ _ E3)).
  cbn [fmap option_fmap option_map]. rewrite c_string_name by done.
  destruct name as [|ch name']; [by destruct Hname as (_ & ? & _)|]. set (name := ch :: name') in *.
  pose proof (zlen_nonneg fields). decide_cmps.
  rewrite (bind_ok _ _ _ _ _ (on_dscc_at _ s _ _ _ _ (id_by_unknown_name s0 name Hok Hrec))).
  rewrite Z.eqb_refl. unfold dx_fill_record_digest.
  replace (Z.to_nat (zlen fields)) with (length fields) by (unfold zlen; lia).
  rewrite (bind_ok _ _ _ _ _ (drop_fields fields s c3 tail s0 Hf Hc3 Hr3)). done.
Qed.
End description.

(** ** The description that a client writes of its own record *)

Definition own_fields (info : dx_record_info_id_t) : list (list Z * Z) :=
  (fun f => (fi_name f, fi_type f)) <$> info_fields (g_record_info info).
Definition own_field_digest (f : dx_field_info_t) : dx_field_digest_t :=
  FieldDigest (fi_type f) (fi_type f) (Some (fi_member f)) None.


(** Every field is found at its own place: no other field has its name and type. *)
Definition own_places (info : dx_record_info_id_t) : bool :=
  let fields := info_fields (g_record_info info) in
  forallb (fun p => find_field_loop fields 0 (fi_name p.2) (fi_type p.2) =? Z.of_nat p.1) (imap pair fields).
Lemma own_places_all info : own_places info = true.
Proof. by destruct info; vm_compute. Qed.

Lemma own_place item i f :
  item_ok item -> ri_fields item !! i = Some f ->
  dx_find_record_field item (fi_name f) (fi_type f) = Z.of_nat i.
Proof.
  intros [_ Hf _] Hi. pose proof (own_places_all (ri_info_id item)) as H. unfold own_places in H. rewrite <- Hf in H.
  unfold dx_find_record_field. rewrite forallb_forall in H.
  assert (In (i, f) (imap pair (ri_fields item))) as Hin.
  { apply list_elem_of_In, list_elem_of_lookup. exists i. by rewrite list_lookup_imap, Hi. }
  specialize (H _ Hin). cbn in H. by apply Z.eqb_eq in H.
Qed.

Lemma testbit_INDEX_BITMASK i : Z.testbit (INDEX_BITMASK i) (Z.of_nat i) = true.
Proof. unfold INDEX_BITMASK. rewrite Z.shiftl_spec, Z.sub_diag by lia. done. Qed.

Lemma supported_keeps item fields state b :
  Z.testbit state b = true -> Z.testbit (foldl (supported item) state fields) b = true.
Proof.
  revert state. induction fields as [|f fields IH]; intros state Hb; cbn; [done|]. apply IH.
  unfold supported. destruct (_ =? _); [done|]. by rewrite Z.lor_spec, Hb.
Qed.

Lemma supported_own item fs state i f :
  item_ok item -> ri_fields item !! i = Some f -> f ∈ fs ->
  Z.testbit (foldl (supported item) state ((fun f => (fi_name f, fi_type f)) <$> fs)) (Z.of_nat i) = true.
Proof.
  intros Hok Hi. revert state. induction fs as [|g fs IH]; intros state Hin; [by apply not_elem_of_nil in Hin|].
  cbn [fmap list_fmap foldl]. apply elem_of_cons in Hin as [<-|Hin]; [|by apply IH].
  apply supported_keeps. unfold supported. cbn [fst snd]. rewrite (own_place item i f Hok Hi).
  unfold INVALID_INDEX. decide_cmps. by rewrite Z.lor_spec, Nat2Z.id, testbit_INDEX_BITMASK, orb_true_r.
Qed.

Lemma defaults_none state fields : forall index,
  (forall j, (j < length fields)%nat -> Z.testbit state (Z.of_nat (index + j)) = true) ->
  defaults state index fields = [].
Proof.
  induction fields as [|f fields IH]; intros index Hb; cbn [defaults]; [done|].
  destruct (Z.eqb_spec (Z.land state (INDEX_BITMASK index)) 0) as [E|E].
  - exfalso. apply (f_equal (fun z => Z.testbit z (Z.of_nat index))) in E.
    rewrite Z.land_spec, testbit_INDEX_BITMASK, Z.bits_0 in E. specialize (Hb 0%nat ltac:(simpl; lia)).
    rewrite Nat.add_0_r in Hb. by rewrite Hb in E.
  - cbn. apply IH. intros j Hj. replace (S index + j)%nat with (index + S j)%nat by lia. apply Hb. simpl. lia.
Qed.

(** The whole description of a record makes a digest that sets every field from
    the field itself, and nothing by default. *)
Lemma described_own item state :
  item_ok item ->
  described item state (own_fields (ri_info_id item)) = RecordDigest (own_field_digest <$> ri_fields item) true.
Proof.
  intros Hok. unfold described, own_fields. rewrite <- (ok_fields _ Hok). f_equal.
  rewrite defaults_none, app_nil_r.
  - rewrite <- list_fmap_compose. apply list_fmap_ext. intros i f Hi. unfold compose, field_digest. cbn [fst snd].
    rewrite (own_place item i f Hok Hi), Nat2Z.id, Hi. unfold INVALID_INDEX. by decide_cmps.
  - intros j Hj. destruct (lookup_lt_is_Some_2 _ _ Hj) as [f Hf].
    apply (supported_own item _ _ j f Hok Hf). by apply list_elem_of_lookup_2 in Hf.
Qed.

(** ** Messages of descriptions *)

Record description : Type := Description {
  d_server_id : Z;
  d_name : list Z;
  d_fields : list (list Z * Z);
}.
Definition bytes_of (d : description) : list Z := description_bytes (d_server_id d) (d_name d) (d_fields d).
Definition description_ok (d : description) : Prop :=
  is_i32 (d_server_id d) /\ name_ok (d_name d) /\ Forall field_ok (d_fields d) /\ zlen (d_fields d) <= INT_MAX.

(** Whether a description lists the local field at an index, and the local fields that
    are not had, each of which is set to its default value. *)
Definition listed (item : dx_record_item_t) (fields : list (list Z * Z)) (i : nat) : bool :=
  existsb (fun f => dx_find_record_field item f.1 f.2 =? Z.of_nat i) fields.
Fixpoint missing_from (had : nat -> bool) (index : nat) (fields : list dx_field_info_t) : list dx_field_info_t :=
  match fields with
  | [] => []
  | f :: fields' => (if had index then [] else [f]) ++ missing_from had (S index) fields'
  end.
Definition missing (item : dx_record_item_t) (had : nat -> bool) : list dx_field_info_t := missing_from had 0 (ri_fields item).
Definition default_digest (f : dx_field_info_t) : dx_field_digest_t := FieldDigest 0 0 (Some (fi_member f)) (Some (fi_member f)).

(** The local fields of a record that its descriptions have listed so far: there is no
    description that takes one away. *)
Definition support (s : dscc) (rid : Z) (i : nat) : bool :=
  Z.testbit (default 0 (arr_elements (record_server_support_states s) !! Z.to_nat rid)) (Z.of_nat i).

(** The digest that a description makes of a record, and what is listed from then on. *)
Record described_as (s s' : dscc) (rid : Z) (item : dx_record_item_t) (fields : list (list Z * Z)) : Prop := {
  da_digest : arr_elements (record_digests s') !! Z.to_nat rid = Some (RecordDigest
    ((field_digest item <$> fields) ++
     (default_digest <$> missing item (fun i => support s rid i || listed item fields i))) true);
  da_support i : support s' rid i = support s rid i || listed item fields i;
  da_first : (forall i, support s rid i = false) ->
    missing item (fun i => support s rid i || listed item fields i) = missing item (listed item fields);
}.

Lemma INDEX_BITMASK_spec i j : Z.testbit (INDEX_BITMASK j) (Z.of_nat i) = (j =? i)%nat.
Proof.
  unfold INDEX_BITMASK. rewrite Z.shiftl_1_l, Z.pow2_bits_eqb by lia.
  destruct (Nat.eqb_spec j i); [apply Z.eqb_eq|apply Z.eqb_neq]; lia.
Qed.
Lemma supported_spec item fields i : forall state,
  Z.testbit (foldl (supported item) state fields) (Z.of_nat i) = Z.testbit state (Z.of_nat i) || listed item fields i.
Proof.
  induction fields as [|f fields IH]; intros state; [by rewrite orb_false_r|]. cbn [foldl listed existsb]. rewrite IH, orb_assoc.
  f_equal. unfold supported.
  destruct (find_field_range item f.1 f.2) as [E|E].
  - rewrite E, Z.eqb_refl. unfold INVALID_INDEX. decide_cmps. by rewrite orb_false_r.
  - unfold INVALID_INDEX. decide_cmps. rewrite Z.lor_spec, INDEX_BITMASK_spec. f_equal.
    destruct (Nat.eqb_spec (Z.to_nat (dx_find_record_field item f.1 f.2)) i); symmetry; [apply Z.eqb_eq|apply Z.eqb_neq]; lia.
Qed.
Lemma missing_from_ext had had' fields : (forall i, had i = had' i) -> forall index, missing_from had index fields = missing_from had' index fields.
Proof. intros H. induction fields as [|f fields IH]; intros index; cbn; [done|]. by rewrite H, IH. Qed.
Lemma defaults_missing state fields : forall index,
  defaults state index fields = default_digest <$> missing_from (fun i => Z.testbit state (Z.of_nat i)) index fields.
Proof.
  induction fields as [|f fields IH]; intros index; cbn [defaults missing_from]; [done|]. rewrite fmap_app, <- IH. f_equal.
  assert (Z.land state (INDEX_BITMASK index) =? 0 = negb (Z.testbit state (Z.of_nat index))) as ->; [|by destruct (Z.testbit _ _)].
  destruct (Z.testbit state (Z.of_nat index)) eqn:E; cbn [negb].
  - apply Z.eqb_neq. intros H. apply (f_equal (fun z => Z.testbit z (Z.of_nat index))) in H.
    by rewrite Z.land_spec, E, INDEX_BITMASK_spec, Nat.eqb_refl, Z.bits_0 in H.
  - apply Z.eqb_eq, Z.bits_inj'. intros n Hn. rewrite Z.land_spec, Z.bits_0, <- (Z2Nat.id n), INDEX_BITMASK_spec by done.
    destruct (Nat.eqb_spec index (Z.to_nat n)) as [->|_]; [by rewrite E|apply andb_false_r].
Qed.
Lemma after_description_as s rid item fields m :
  registry_ok s -> 0 <= rid < Z.of_nat (arr_size (records_list s)) ->
  described_as s (after_description s rid item fields m) rid item fields.
Proof.
  intros Hok Hrid. pose proof (digest_room s Hok rid Hrid) as Hd. pose proof (state_room s Hok rid Hrid) as Hst.
  set (state := default 0 (arr_elements (record_server_support_states s) !! Z.to_nat rid)).
  assert (Hs : forall i, support (after_description s rid item fields m) rid i = support s rid i || listed item fields i).
  { intros i. unfold support at 1, after_description, with_record, with_state. cbn. rewrite list_lookup_insert_eq by done.
    cbn. apply supported_spec. }
  split; [|done|].
  - unfold after_description, with_record, with_digest. cbn. rewrite list_lookup_insert_eq by done. unfold described.
    rewrite defaults_missing. unfold missing. do 4 f_equal. apply missing_from_ext. intros i. apply supported_spec.
  - intros H. apply missing_from_ext. intros i. by rewrite H.
Qed.

(** What a description does: the local record of its name gets the identifier of
    the server and a digest, and nothing else changes; without such a record
    nothing changes at all. *)
Inductive describes (s : dscc) (d : description) : dscc -> Prop :=
  | describes_known rid item m :
      record_name s rid = Some (d_name d) -> contents (records_list s) !! Z.to_nat rid = Some item ->
      id_map_ok m ->
      (forall id, local_id m id = if decide (id = d_server_id d) then rid else local_id (record_id_map s) id) ->
      described_as s (after_description s rid item (d_fields d) m) rid item (d_fields d) ->
      describes s d (after_description s rid item (d_fields d) m)
  | describes_unknown : (forall rid, record_name s rid <> Some (d_name d)) -> describes s d s.

Inductive all_described : dscc -> list description -> dscc -> Prop :=
  | all_described_nil s : all_described s [] s
  | all_described_cons s d ds s1 s' : describes s d s1 -> all_described s1 ds s' -> all_described s (d :: ds) s'.

Definition dscc_ok (s : dscc) : Prop := registry_ok s /\ id_map_ok (record_id_map s).

Lemma describes_ok s d s' : dscc_ok s -> describes s d s' -> dscc_ok s'.
Proof.
  intros [H1 H2] [rid item m _ _ Hm _ _|_]; [|done]. split; [by apply after_description_ok|exact Hm].
Qed.

(** Whether there is a record of a name is decidable. *)
Lemma record_named_dec s name :
  registry_ok s -> (exists rid, record_name s rid = Some name) \/ (forall rid, record_name s rid <> Some name).
Proof.
  intros Hok. destruct (search_name_spec s name Hok) as (found & i & _ & Hf). destruct found; destruct Hf as [_ Hf].
  - left. by eexists.
  - right. intros rid H. destruct (named_record s rid name Hok H) as (_ & item & Hi & Hn & _).
    by destruct (Hf item (list_elem_of_lookup_2 _ _ _ Hi)).
Qed.

Section message.
Context (calloc_ok : Z -> bool) (calloc_works : forall n, calloc_ok n = true).

Lemma describe_record_spec x d :
  dscc_ok x -> description_ok d ->
  exists x1, describes x d x1 /\
    forall s c tail, in_wf c -> remaining c = bytes_of d ++ tail ->
    describe_record calloc_ok (ctx_at s c x) = Ok tt (ctx_at s (advance c (zlen (bytes_of d))) x1).
Proof using calloc_works.
  intros [Hok Hm] (Hid & Hn & Hf & Hl). destruct d as [id name fields]. cbn in *.
  destruct (record_named_dec _ name Hok) as [[rid Hrid]|Hno].
  - destruct (named_record _ rid name Hok Hrid) as (_ & item & Hi & _).
    destruct (describe_record_known calloc_ok calloc_works x id rid name item fields) as (m & H1 & H2 & E); [done..|].
    destruct (named_record _ rid name Hok Hrid) as (Hroom & _).
    eexists. split; [|exact E]. apply (describes_known _ (Description id name fields) rid item m); [done..|].
    by apply after_description_as.
  - exists x. split; [by apply describes_unknown|]. intros s c tail Hc Hr.
    by apply describe_record_unknown with (tail := tail).
Qed.

Lemma describe_loop ds : forall x,
  dscc_ok x -> Forall description_ok ds ->
  exists x1, all_described x ds x1 /\ dscc_ok x1 /\
    forall s c tail fuel, in_wf c -> remaining c = concat (bytes_of <$> ds) ++ tail ->
    in_buffer_limit c = current_in_buffer_position c + zlen (concat (bytes_of <$> ds)) ->
    zlen (concat (bytes_of <$> ds)) <= Z.of_nat fuel ->
    while in_limit (describe_record calloc_ok;;; ret proceed) tt fuel (ctx_at s c x) =
      Ok tt (ctx_at s (advance c (zlen (concat (bytes_of <$> ds)))) x1).
Proof using calloc_works.
  induction ds as [|d ds IH]; intros x Hok Hds.
  - exists x. split; [constructor|]. split; [done|]. intros s c tail fuel Hc Hr Hl _. cbn in *.
    unfold advance. rewrite Z.add_0_r.
    assert (in_limit (ctx_at s c x) = false) as E.
    { unfold in_limit. apply Z.ltb_ge. cbn. change (zlen []) with 0 in Hl. lia. }
    destruct fuel; cbn [while]; rewrite E; by destruct c.
  - apply Forall_cons in Hds as [Hd Hds]. destruct (describe_record_spec x d Hok Hd) as (x1 & Hx1 & E1).
    destruct (IH x1 (describes_ok _ _ _ Hok Hx1) Hds) as (x2 & Hx2 & Hok2 & E2).
    exists x2. split; [by econstructor|]. split; [done|]. intros s c tail fuel Hc Hr Hl Hfuel.
    cbn [fmap list_fmap concat] in *. rewrite <- app_assoc in Hr. rewrite zlen_app in *.
    assert (1 <= zlen (bytes_of d)) as H1.
    { unfold bytes_of, description_bytes. rewrite zlen_app, length_wire. set (l := _ ++ _). pose proof (zlen_nonneg l).
      pose proof (compact_int_nonempty (d_server_id d)). lia. }
    pose proof (zlen_nonneg (concat (bytes_of <$> ds))).
    destruct fuel as [|fuel]; [lia|]. cbn [while].
    assert (in_limit (ctx_at s c x) = true) as -> by (unfold in_limit; apply Z.ltb_lt; cbn; lia).
    rewrite (bind_ok _ _ _ _ _ (E1 s c _ Hc Hr)). cbn [ret]. destruct (remaining_advance _ _ _ Hc Hr) as [Hc1 Hr1].
    rewrite (E2 s _ tail fuel Hc1 Hr1), advance_advance; [done| |lia].
    unfold advance. cbn [current_in_buffer_position in_buffer_limit]. lia.
Qed.

Lemma describe_message x ds :
  dscc_ok x -> Forall description_ok ds ->
  exists x1, all_described x ds x1 /\ dscc_ok x1 /\
    forall s c tail, in_wf c -> remaining c = concat (bytes_of <$> ds) ++ tail ->
    in_buffer_limit c = current_in_buffer_position c + zlen (concat (bytes_of <$> ds)) ->
    dx_process_describe_records calloc_ok (ctx_at s c x) =
      Ok tt (ctx_at s (advance c (zlen (concat (bytes_of <$> ds)))) x1).
Proof using calloc_works.
  intros Hok Hds. destruct (describe_loop ds x Hok Hds) as (x1 & Hx1 & Hok1 & E). exists x1.
  split; [done|]. split; [done|]. intros s c tail Hc Hr Hl.
  unfold dx_process_describe_records, while_input, checked_call at 1, get.
  apply (E s c tail); [done..|]. cbn [dc_in ctx_at set_dc_in]. lia.
Qed.
End message.

(** C21: a message of descriptions is read to its end.  Every description gives
    the local record of its name the identifier of the server and a digest made
    of its fields ([described_as]): the digest reads each field of the server, in
    the order of the description, and sets the local field of the same name and
    kind of value where there is one; then it sets to its default value every
    local field that neither this nor an earlier description of the record has
    listed.  With the first description of a record these are all the local fields
    that the server does not have; a field that a later description leaves out gets
    no default value.  The descriptions of other records are read and dropped.
    Nothing else changes, and the tables stay well-formed. *)
Theorem describe_message_correct (calloc_ok : Z -> bool) (s : data_ctx) (ds : list description) (tail : list Z) :
  (forall n, calloc_ok n = true) ->
  in_wf (dc_in s) -> dscc_ok (tc_dscc (dc_tc s)) -> Forall description_ok ds ->
  remaining (dc_in s) = concat (bytes_of <$> ds) ++ tail ->
  in_buffer_limit (dc_in s) = current_in_buffer_position (dc_in s) + zlen (concat (bytes_of <$> ds)) ->
  exists s1, dx_process_describe_records calloc_ok s =
      Ok tt (ctx_at s (advance (dc_in s) (zlen (concat (bytes_of <$> ds)))) s1) /\
    all_described (tc_dscc (dc_tc s)) ds s1 /\ dscc_ok s1.
Proof.
  intros Hcalloc Hc Hok Hds Hr Hl. destruct (describe_message calloc_ok Hcalloc _ ds Hok Hds) as (s1 & H & Hok1 & E).
  exists s1. split; [|done]. rewrite (ctx_at_self s) at 1. by apply (E s _ tail).
Qed.

(** Descriptions of the record of the candles, without most of its fields, and of
    a record that is not known. *)
Definition example_descriptions : list description :=
  [Description 7 (chars_of "Candle") [(chars_of "Time", dx_fid_compact_int); (chars_of "Color", dx_fid_byte)];
   Description 70000 (chars_of "Nothing") []].
Definition example_described : data_ctx :=
  let bs := concat (bytes_of <$> example_descriptions) in
  DataCtx (InCtx (Some bs) (zlen bs) (zlen bs) 0) (SymbolOut None 0 0 0 (replicate 2049 0))
    None 0 (set_tc_dscc dscc_example example_state) DX_EMPTY_ARRAY (fun _ => None).

Lemma describe_message_correct_witness :
  exists s1, dx_process_describe_records (fun _ => true) example_described =
      Ok tt (ctx_at example_described (advance (dc_in example_described)
        (zlen (concat (bytes_of <$> example_descriptions)))) s1) /\
    all_described (tc_dscc (dc_tc example_described)) example_descriptions s1 /\ dscc_ok s1.
Proof.
  apply (describe_message_correct (fun _ => true) example_described example_descriptions []); try done.
  - split; [vm_compute; split; done|]. split; [by_compute|]. by eexists.
  - split; [apply dscc_example_ok|apply new_dscc_ok].
  - repeat (constructor || (split; [by_compute|])); by_compute.
Defined.
