(* ===== verification/ClientMessages.v ===== *)
(** * ClientMessages: the messages to the server ([src/ClientMessageProcessor.c])

    What the client sends: the descriptions of the protocol and of its records,
    the subscriptions of symbols to the records of events, and heartbeats, whose
    message is made by [src/BinaryQTPComposer.cpp].  A caller adds a task to the
    queue of the connection; the worker thread runs it, and the task sends.  The
    queue is the one of [TaskQueue]; a task is known by the number of its
    processor, and the data of a subscription by its place in a heap. *)

From Stdlib Require Import Ascii String.
From S2P Require Import Prelude Arrays Algorithms Output Input Wire SymbolCodec Framing Compose EventData.
From S2P Require Import DataStructures Subscription MessageData Properties TaskQueue NetworkContext.
From S2P Require Import Heartbeat ServerData ServerProcessor.
Local Open Scope Z_scope.
Local Open Scope c_scope.

Definition DX_LIBRARY_VERSION : list Z := chars_of "DXFeed.cpp v 8.0.1 (c) Devexperts LLC".

(** ** The state *)

Record dx_event_subscription_task_data_t : Type := SubscriptionTaskData {
  td_order_source : list (list Z);
  td_symbols : list (option (list Z));
  td_event_types : Z;
  td_unsubscribe : bool;
  td_subscr_flags : Z;
  td_time : Z;
}.

(** What the tasks work on: the parts of the connection, and the data of the
    subscription tasks, [None] when freed. *)
Record client_world : Type := ClientWorld {
  cl_out : out_ctx;
  cl_dscc : dscc;
  cl_protocol : protocol_ctx;
  cl_network : network_ctx;
  cl_connection : Connection;
  cl_heap : list (option dx_event_subscription_task_data_t);
}.
Abbreviation client := (tq_state client_world).

Definition set_cl_out (x : out_ctx) (w : client_world) : client_world :=
  ClientWorld x (cl_dscc w) (cl_protocol w) (cl_network w) (cl_connection w) (cl_heap w).
Definition set_cl_dscc (x : dscc) (w : client_world) : client_world :=
  ClientWorld (cl_out w) x (cl_protocol w) (cl_network w) (cl_connection w) (cl_heap w).
Definition set_cl_protocol (x : protocol_ctx) (w : client_world) : client_world :=
  ClientWorld (cl_out w) (cl_dscc w) x (cl_network w) (cl_connection w) (cl_heap w).
Definition set_cl_network (x : network_ctx) (w : client_world) : client_world :=
  ClientWorld (cl_out w) (cl_dscc w) (cl_protocol w) x (cl_connection w) (cl_heap w).
Definition set_cl_connection (x : Connection) (w : client_world) : client_world :=
  ClientWorld (cl_out w) (cl_dscc w) (cl_protocol w) (cl_network w) x (cl_heap w).
Definition set_cl_heap (x : list (option dx_event_subscription_task_data_t)) (w : client_world) : client_world :=
  ClientWorld (cl_out w) (cl_dscc w) (cl_protocol w) (cl_network w) (cl_connection w) x.

(** An operation on a part of the state. *)
Definition on_world {A} : M client_world A -> M client A := on tq_world (fun w s => TqState (tq s) w).
Definition on_registry {A} (m : M dscc A) : M client A := on_world (on cl_dscc set_cl_dscc m).
Definition on_messages {A} (m : M protocol_ctx A) : M client A := on_world (on cl_protocol set_cl_protocol m).
Definition on_network {A} (m : M network_ctx A) : M client A := on_world (on cl_network set_cl_network m).
Definition on_composing {A} (m : M (out_ctx * dscc) A) : M client A :=
  on_world (on (fun w => (cl_out w, cl_dscc w)) (fun x w => set_cl_dscc x.2 (set_cl_out x.1 w)) m).
Definition on_composer {A} (m : M (out_ctx * Connection) A) : M client A :=
  on_world (on (fun w => (cl_out w, cl_connection w)) (fun x w => set_cl_connection x.2 (set_cl_out x.1 w)) m).

(** ** Events *)

(** [for (eid = dx_eid_begin; eid < dx_eid_count; ++eid)] *)
Definition all_events : list dx_event_id_t :=
  [dx_eid_trade; dx_eid_quote; dx_eid_summary; dx_eid_profile; dx_eid_order; dx_eid_time_and_sale;
   dx_eid_candle; dx_eid_trade_eth; dx_eid_spread_order; dx_eid_greeks; dx_eid_theo_price;
   dx_eid_underlying; dx_eid_series; dx_eid_configuration].
Definition event_number (event_id : dx_event_id_t) : Z :=
  match event_id with
  | dx_eid_trade => 0 | dx_eid_quote => 1 | dx_eid_summary => 2 | dx_eid_profile => 3 | dx_eid_order => 4
  | dx_eid_time_and_sale => 5 | dx_eid_candle => 6 | dx_eid_trade_eth => 7 | dx_eid_spread_order => 8
  | dx_eid_greeks => 9 | dx_eid_theo_price => 10 | dx_eid_underlying => 11 | dx_eid_series => 12
  | dx_eid_configuration => 13
  end.
Definition DX_EVENT_BIT_MASK (event_id : dx_event_id_t) : Z := Z.shiftl 1 (event_number event_id).
Definition asked (event_types : Z) (event_id : dx_event_id_t) : bool :=
  negb (Z.land event_types (DX_EVENT_BIT_MASK event_id) =? 0).

Definition dx_string_null_or_empty (s : option (list Z)) : bool :=
  match s with None | Some [] => true | Some _ => false end.

Definition dx_to_subscription_message_type (subscribe : bool) (subscr_type : dx_subscription_type_t) : Z :=
  match subscr_type with
  | dx_st_ticker => if subscribe then MESSAGE_TICKER_ADD_SUBSCRIPTION else MESSAGE_TICKER_REMOVE_SUBSCRIPTION
  | dx_st_stream => if subscribe then MESSAGE_STREAM_ADD_SUBSCRIPTION else MESSAGE_STREAM_REMOVE_SUBSCRIPTION
  | dx_st_history => if subscribe then MESSAGE_HISTORY_ADD_SUBSCRIPTION else MESSAGE_HISTORY_REMOVE_SUBSCRIPTION
  end.

(** The numbers of the processors of the tasks. *)
Definition describe_protocol_timeout_countdown_ptr : Z := 1.
Definition describe_protocol_sender_ptr : Z := 2.
Definition describe_records_sender_ptr : Z := 3.
Definition heartbeat_sender_ptr : Z := 4.
Definition subscribe_symbols_to_events_ptr : Z := 5.

Section client.
(** Whether [dx_calloc] or [dx_malloc] of so many bytes succeeds, the socket, the
    tables of the symbol codec, and the clocks: [dx_millisecond_timestamp], the
    time in milliseconds and the time mark. *)
Context (calloc_ok : Z -> bool) (dx_send : list Z -> list Z -> Z + dx_error_code) (t : tables).
Context (now currentTimeMillis currentTimeMark : Z).

Let alloc (n : nat) : bool := calloc_ok (Z.of_nat n).

Definition dx_add_worker_thread_task (processor data : Z) : M client unit :=
  added <-- dx_add_task_to_queue alloc false processor data;;
  if (added : bool) then ret tt else fail.

(** ** The description of the records *)

Definition dx_write_record_field (field : dx_field_info_t) : M out_ctx unit :=
  dx_write_utf_string calloc_ok (Some (fi_name field));;;
  dx_write_compact_int calloc_ok (fi_type field).

Fixpoint fields_loop (fields : list dx_field_info_t) : M out_ctx unit :=
  match fields with
  | [] => ret tt
  | f :: fields' => dx_write_record_field f;;; fields_loop fields'
  end.
Definition dx_write_event_record (record : dx_record_item_t) (record_id : Z) : M out_ctx unit :=
  dx_write_compact_int calloc_ok record_id;;;
  dx_write_utf_string calloc_ok (ri_name record);;;
  dx_write_compact_int calloc_ok (i32 (Z.of_nat (length (ri_fields record))));;;
  fields_loop (ri_fields record).

(** The pointer to the record is not looked at before it is used. *)
Definition record_pointer (record_id : Z) : M dscc dx_record_item_t := fun s =>
  match dx_get_record_by_id record_id s with Ok r s => Ok r s | _ => UB end.

(** The identifiers that are left are rounds enough. *)
Fixpoint event_records_loop (n : nat) (record_id count : Z) : M (out_ctx * dscc) unit :=
  match n with
  | O => undefined
  | S n' =>
      if record_id <? count then
        record <-- on_state (record_pointer record_id);;
        on_out (dx_write_event_record record record_id);;;
        record_id <-- on_state (dx_get_next_unsubscribed_record_id true);;
        event_records_loop n' record_id count
      else ret tt
  end.
Definition dx_write_event_records : M (out_ctx * dscc) unit :=
  record_id <-- on_state (dx_get_next_unsubscribed_record_id false);;
  count <-- on_state dx_get_records_list_count;;
  event_records_loop (S (Z.to_nat (count - record_id))) record_id count.

Definition dx_send_record_description (task_mode : bool) : M client unit :=
  if negb task_mode then dx_add_worker_thread_task describe_records_sender_ptr 0
  else
    message <-- on_composing (compose_message calloc_ok 1024 MESSAGE_DESCRIBE_RECORDS dx_write_event_records);;
    on_network (dx_send_data dx_send (Some message)).

(** ** The description of the protocol *)

Definition dx_write_describe_protocol_magic : M out_ctx unit :=
  dx_write_byte calloc_ok 68;;;
  dx_write_byte calloc_ok 88;;;
  dx_write_byte calloc_ok 80;;;
  dx_write_byte calloc_ok 51.

Fixpoint write_properties_loop (items : list dx_property_item_t) : M out_ctx unit :=
  match items with
  | [] => ret tt
  | item :: items' =>
      dx_write_utf_string calloc_ok (Some (prop_key item));;;
      dx_write_utf_string calloc_ok (prop_value item);;;
      write_properties_loop items'
  end.
Definition dx_write_describe_protocol_properties (properties : dx_property_map_t) : M out_ctx unit :=
  dx_write_compact_int calloc_ok (i32 (Z.of_nat (arr_size properties)));;;
  write_properties_loop (contents properties).

Fixpoint message_data_loop (msg_roster : list Z) : M out_ctx unit :=
  match msg_roster with
  | [] => ret tt
  | msg :: msg_roster' =>
      dx_write_compact_int calloc_ok msg;;;
      dx_write_utf_string calloc_ok (Some (dx_get_message_type_name msg));;;
      dx_write_compact_int calloc_ok 0;;;
      message_data_loop msg_roster'
  end.
Definition dx_write_describe_protocol_message_data (msg_roster : list Z) : M out_ctx unit :=
  dx_write_compact_int calloc_ok (Z.of_nat (length msg_roster));;;
  message_data_loop msg_roster.
Definition dx_write_describe_protocol_sends : M out_ctx unit :=
  dx_write_describe_protocol_message_data g_send_msg_roster.
Definition dx_write_describe_protocol_recvs : M out_ctx unit :=
  dx_write_describe_protocol_message_data g_recv_msg_roster.

(** [dx_describe_protocol_sent] of [ServerMessageProcessor.c] *)
Definition dx_describe_protocol_sent : M client unit :=
  w <-- on_messages get;;
  match describe_protocol_status w with
  | dx_dps_not_received | dx_dps_pending => dx_set_error_code dx_ec_internal_assert_violation
  | dx_dps_not_sent =>
      on_messages (put (set_describe_status dx_dps_pending (set_timestamp now w)));;;
      dx_add_worker_thread_task describe_protocol_timeout_countdown_ptr 0
  | dx_dps_received => ret tt
  end.

(** A call that returns [false] without an error code is [fail]. *)
Definition checked {S} (m : M S bool) : M S unit := r <-- m;; if (r : bool) then ret tt else fail.

Definition dx_send_protocol_description (task_mode : bool) : M client unit :=
  if negb task_mode then
    dx_add_worker_thread_task describe_protocol_sender_ptr 0;;;
    dx_describe_protocol_sent
  else
    on_network (checked (dx_protocol_property_set calloc_ok (Some (chars_of "version")) (Some DX_LIBRARY_VERSION)));;;
    on_network (checked (dx_protocol_property_set calloc_ok (Some (chars_of "opt")) (Some (chars_of "hs"))));;;
    properties <-- on_network dx_protocol_property_get_all;;
    message <-- on_composing (compose_message calloc_ok 1024 MESSAGE_DESCRIBE_PROTOCOL (
      on_out dx_write_describe_protocol_magic;;;
      on_out (dx_write_describe_protocol_properties properties);;;
      on_out dx_write_describe_protocol_sends;;;
      on_out dx_write_describe_protocol_recvs));;
    on_network (dx_send_data dx_send (Some message)).

(** ** Heartbeats *)

(** [BinaryQTPComposer::writeMessageHeader], [moveMessageData] and
    [finishComposingMessage] are the functions of [Compose] once more. *)
Definition writeHeartbeatMessage (payload : HeartbeatPayload) : M (out_ctx * Connection) unit :=
  on_out (composeTo calloc_ok payload).

Definition createOutgoingHeartbeat : M (out_ctx * Connection) unit :=
  c <-- on_state get;;
  let '(payload, c) := outgoing_payload currentTimeMillis currentTimeMark c in
  on_state (put c);;;
  writeHeartbeatMessage payload.

Definition dx_send_heartbeat (task_mode : bool) : M client unit :=
  if negb task_mode then dx_add_worker_thread_task heartbeat_sender_ptr 0
  else
    message <-- on_composer (compose_message calloc_ok 1024 MESSAGE_HEARTBEAT createOutgoingHeartbeat);;
    on_network (dx_send_data dx_send (Some message)).

(** ** Subscriptions *)

Definition dx_compose_body (record_id cipher : Z) (symbol : option (list Z)) : M out_ctx unit :=
  match cipher =? 0, symbol with
  | true, None => dx_set_error_code dx_ec_invalid_func_param_internal
  | _, _ =>
      dx_codec_write_symbol calloc_ok t cipher symbol;;;
      dx_write_compact_int calloc_ok record_id
  end.

(** The result is the buffer with the message. *)
Definition dx_subscribe_symbol_to_record (type : Z) (symbol : option (list Z)) (cipher record_id time : Z)
  : M client (list Z) :=
  if negb (dx_is_subscription_message type) then dx_set_error_code dx_pec_unexpected_message_type_internal
  else
    on_composing (compose_message calloc_ok 100 type (
      on_out (dx_compose_body record_id cipher symbol);;;
      if type =? MESSAGE_HISTORY_ADD_SUBSCRIPTION then
        subscription_time <-- on_state (dx_create_subscription_time record_id time);;
        on_out (dx_write_compact_long calloc_ok subscription_time)
      else ret tt)).

Definition get_params (order_source : list (list Z)) (event_id : dx_event_id_t) (subscr_flags : Z)
  : M client (list dx_event_subscription_param_t) :=
  params <-- on_registry (dx_get_event_subscription_params alloc order_source event_id subscr_flags);;
  ret (contents params).

(** What an event is subscribed with is registered, and forgotten. *)
Fixpoint load_events_loop (events : list dx_event_id_t) (order_source : list (list Z)) (event_types subscr_flags : Z)
  : M client unit :=
  match events with
  | [] => ret tt
  | event_id :: events' =>
      (if asked event_types event_id then get_params order_source event_id subscr_flags;;; ret tt else ret tt);;;
      load_events_loop events' order_source event_types subscr_flags
  end.
Definition dx_load_events_for_subscription (order_source : list (list Z)) (event_types subscr_flags : Z)
  : M client unit := load_events_loop all_events order_source event_types subscr_flags.

(** The loops of [dx_get_event_server_support]: the first status that is not
    [dx_mss_supported] ends them. *)
Fixpoint params_support (params : list dx_event_subscription_param_t) (unsubscribe : bool)
  : M client dx_message_support_status_t :=
  match params with
  | [] => ret dx_mss_supported
  | cur_param :: params' =>
      message_support <-- on_messages (dx_is_message_supported_by_server
        (dx_to_subscription_message_type (negb unsubscribe) (param_subscription_type cur_param)));;
      match message_support with
      | dx_mss_supported => params_support params' unsubscribe
      | _ => ret message_support
      end
  end.
Fixpoint events_support (events : list dx_event_id_t) (order_source : list (list Z)) (event_types : Z)
  (unsubscribe : bool) (subscr_flags : Z) : M client dx_message_support_status_t :=
  match events with
  | [] => ret dx_mss_supported
  | event_id :: events' =>
      message_support <--
        (if asked event_types event_id then
           params <-- get_params order_source event_id subscr_flags;; params_support params unsubscribe
         else ret dx_mss_supported);;
      match message_support with
      | dx_mss_supported => events_support events' order_source event_types unsubscribe subscr_flags
      | _ => ret message_support
      end
  end.
Definition dx_get_event_server_support (order_source : list (list Z)) (event_types : Z) (unsubscribe : bool)
  (subscr_flags : Z) : M client dx_message_support_status_t :=
  events_support all_events order_source event_types unsubscribe subscr_flags.

(** The messages of a symbol are gathered in a buffer with its capacity, [None]
    is a null pointer.  A buffer that cannot be enlarged is a null pointer that
    is written to. *)
Definition append_message (buffer : option (list Z * Z)) (param_buffer : list Z) : M client (option (list Z * Z)) :=
  match buffer with
  | None => ret (Some (param_buffer, zlen param_buffer))
  | Some (buffer, buffer_capacity) =>
      let size := i32 (zlen buffer + zlen param_buffer) in
      if buffer_capacity <? size then
        let buffer_capacity := i32 (Z.shiftl size 1) in
        if calloc_ok buffer_capacity && (size <=? buffer_capacity)
        then ret (Some (buffer ++ param_buffer, buffer_capacity)) else undefined
      else ret (Some (buffer ++ param_buffer, buffer_capacity))
  end.

Fixpoint subscribe_params_loop (params : list dx_event_subscription_param_t) (symbol : option (list Z))
  (unsubscribe : bool) (time : Z) (buffer : option (list Z * Z)) : M client (option (list Z * Z)) :=
  match params with
  | [] => ret buffer
  | cur_param :: params' =>
      let msg_type := dx_to_subscription_message_type (negb unsubscribe) (param_subscription_type cur_param) in
      cipher <-- of_option (dx_encode_symbol_name t symbol);;
      param_buffer <-- dx_subscribe_symbol_to_record msg_type symbol cipher (param_record_id cur_param) time;;
      buffer <-- append_message buffer param_buffer;;
      subscribe_params_loop params' symbol unsubscribe time buffer
  end.
Fixpoint subscribe_events_loop (events : list dx_event_id_t) (symbol : option (list Z)) (order_source : list (list Z))
  (event_types : Z) (unsubscribe : bool) (subscr_flags time : Z) (buffer : option (list Z * Z))
  : M client (option (list Z * Z)) :=
  match events with
  | [] => ret buffer
  | event_id :: events' =>
      buffer <--
        (if asked event_types event_id then
           params <-- get_params order_source event_id subscr_flags;;
           subscribe_params_loop params symbol unsubscribe time buffer
         else ret buffer);;
      subscribe_events_loop events' symbol order_source event_types unsubscribe subscr_flags time buffer
  end.
Fixpoint subscribe_symbols_loop (symbols : list (option (list Z))) (order_source : list (list Z)) (event_types : Z)
  (unsubscribe : bool) (subscr_flags time : Z) : M client unit :=
  match symbols with
  | [] => ret tt
  | symbol :: symbols' =>
      (if dx_string_null_or_empty symbol then ret tt
       else
         buffer <-- subscribe_events_loop all_events symbol order_source event_types unsubscribe subscr_flags time None;;
         match buffer with
         | Some (buffer, _) => on_network (dx_send_data dx_send (Some buffer))
         | None => ret tt
         end);;;
      subscribe_symbols_loop symbols' order_source event_types unsubscribe subscr_flags time
  end.

(** ** The data of the subscription tasks *)

(** [dx_count_symbols] *)
Definition dx_count_symbols (symbols : list (option (list Z))) : nat :=
  length (filter (fun s => dx_string_null_or_empty s = false) symbols).

(** Freeing the data twice is undefined. *)
Definition dx_destroy_event_subscription_task_data (data : Z) : M client unit :=
  if data =? 0 then ret tt
  else
    w <-- on_world get;;
    _ <-- of_option (mjoin (cl_heap w !! Z.to_nat (data - 1)));;
    on_world (update (set_cl_heap (<[Z.to_nat (data - 1) := None]> (cl_heap w)))).

(** A pointer to the new data, 0 where the memory is short. *)
Definition dx_create_event_subscription_task_data (order_source : list (list Z)) (symbols : list (option (list Z)))
  (event_types : Z) (unsubscribe : bool) (subscr_flags time : Z) : M client Z :=
  let copies := filter (fun s => dx_string_null_or_empty s = false) symbols in
  if negb (calloc_ok 1 && alloc (dx_count_symbols symbols) &&
           forallb (fun s => alloc (length (default [] s) + 1)) copies &&
           (bool_decide (order_source = []) || alloc (length order_source)))
  then ret 0
  else
    w <-- on_world get;;
    on_world (update (set_cl_heap (cl_heap w ++
      [Some (SubscriptionTaskData order_source copies event_types unsubscribe subscr_flags time)])));;;
    ret (Z.of_nat (length (cl_heap w)) + 1).

Definition dx_subscribe_symbols_to_events (order_source : list (list Z)) (symbols : list (option (list Z)))
  (event_types : Z) (unsubscribe task_mode : bool) (subscr_flags time : Z) : M client unit :=
  msg_support_status <-- dx_get_event_server_support order_source event_types unsubscribe subscr_flags;;
  let go_on :=
    if negb task_mode then
      data <-- dx_create_event_subscription_task_data order_source symbols event_types unsubscribe subscr_flags time;;
      if data =? 0 then dx_set_error_code dx_mec_insufficient_memory
      else dx_add_worker_thread_task subscribe_symbols_to_events_ptr data
    else subscribe_symbols_loop symbols order_source event_types unsubscribe subscr_flags time in
  match msg_support_status with
  | dx_mss_not_supported => dx_set_error_code dx_pec_local_message_not_supported_by_server
  | dx_mss_reconnection => ret tt
  | dx_mss_pending => if task_mode then dx_set_error_code dx_ec_internal_assert_violation else go_on
  | dx_mss_supported => go_on
  end.

(** ** The tasks *)

(** A task that sends and is done. *)
Definition sender_task (send : M client unit) (command : Z) : M client Z :=
  if IS_FLAG_SET command dx_tc_free_resources then ret (Z.lor dx_tes_pop_me dx_tes_success)
  else
    sent <-- catch send;;
    ret (match sent with inl _ => Z.lor dx_tes_pop_me dx_tes_success | inr _ => dx_tes_pop_me end).

Definition dx_describe_records_sender_task : Z -> M client Z := sender_task (dx_send_record_description true).
Definition dx_describe_protocol_sender_task : Z -> M client Z := sender_task (dx_send_protocol_description true).
Definition dx_heartbeat_sender_task : Z -> M client Z := sender_task (dx_send_heartbeat true).

Definition dx_subscribe_symbols_to_events_task (data command : Z) : M client Z :=
  if data =? 0 then ret dx_tes_pop_me
  else if IS_FLAG_SET command dx_tc_free_resources then
    dx_destroy_event_subscription_task_data data;;;
    ret (Z.lor dx_tes_pop_me dx_tes_success)
  else
    w <-- on_world get;;
    d <-- of_option (mjoin (cl_heap w !! Z.to_nat (data - 1)));;
    sent <-- catch (dx_subscribe_symbols_to_events (td_order_source d) (td_symbols d) (td_event_types d)
      (td_unsubscribe d) true (td_subscr_flags d) (td_time d));;
    dx_destroy_event_subscription_task_data data;;;
    ret (match sent with inl _ => Z.lor dx_tes_pop_me dx_tes_success | inr _ => dx_tes_pop_me end).

(** The call of the processor of a task. *)
Definition processor_of (task : dx_task_data_t) (command : Z) : M client Z :=
  let p := task_processor task in
  if p =? describe_protocol_timeout_countdown_ptr
  then on_messages (dx_describe_protocol_timeout_countdown_task command now)
  else if p =? describe_protocol_sender_ptr then dx_describe_protocol_sender_task command
  else if p =? describe_records_sender_ptr then dx_describe_records_sender_task command
  else if p =? heartbeat_sender_ptr then dx_heartbeat_sender_task command
  else if p =? subscribe_symbols_to_events_ptr then dx_subscribe_symbols_to_events_task (task_data task) command
  else undefined.
Definition run_client_task (task : dx_task_data_t) (command : Z) (s : client) : option (Z * client) :=
  match processor_of task command s with Ok r s => Some (r, s) | _ => None end.
End client.
