(* ===== verification/ClientTheory.v ===== *)
(** * ClientTheory: what the messages of the client contain

    The bytes of the messages of [ClientMessages], whatever pieces the socket
    takes them in: the descriptions of the records, and the subscriptions of
    symbols to the records of events. *)

From Stdlib Require Import Ascii String.
From S2P Require Import Prelude Arrays Algorithms Output Input Wire SymbolCodec Framing Compose EventData.
From S2P Require Import DataStructures Subscription MessageData Properties TaskQueue NetworkContext.
From S2P Require Import Heartbeat RecordTranscoder ServerData ServerProcessor ServerStream Describe ClientMessages.
Local Open Scope Z_scope.
Local Open Scope c_scope.

(** ** Parts of the state *)

Lemma on_world_at {A} (m : M client_world A) a w v w' :
  m w = Ok v w' -> on_world m (TqState a w) = Ok v (TqState a w').
Proof. intros E. unfold on_world, on. cbn [tq_world]. by rewrite E. Qed.
Lemma on_registry_at {A} (m : M dscc A) a w v x :
  m (cl_dscc w) = Ok v x -> on_registry m (TqState a w) = Ok v (TqState a (set_cl_dscc x w)).
Proof. intros E. apply on_world_at. unfold on. by rewrite E. Qed.
Lemma on_messages_at {A} (m : M protocol_ctx A) a w v x :
  m (cl_protocol w) = Ok v x -> on_messages m (TqState a w) = Ok v (TqState a (set_cl_protocol x w)).
Proof. intros E. apply on_world_at. unfold on. by rewrite E. Qed.
Lemma on_network_at {A} (m : M network_ctx A) a w v x :
  m (cl_network w) = Ok v x -> on_network m (TqState a w) = Ok v (TqState a (set_cl_network x w)).
Proof. intros E. apply on_world_at. unfold on. by rewrite E. Qed.
Lemma on_composing_at {A} (m : M (out_ctx * dscc) A) a w v c x :
  m (cl_out w, cl_dscc w) = Ok v (c, x) ->
  on_composing m (TqState a w) = Ok v (TqState a (set_cl_dscc x (set_cl_out c w))).
Proof. intros E. apply on_world_at. unfold on. by rewrite E. Qed.

(** An operation on the world that leaves the queue of the tasks alone. *)
Definition evolves {A} (m : M client A) (w : client_world) (v : A) (w' : client_world) : Prop :=
  forall a, m (TqState a w) = Ok v (TqState a w').
Lemma evolves_ret {A} (v : A) w : evolves (ret v) w v w.
Proof. done. Qed.
Lemma evolves_bind {A B} (m : M client A) (k : A -> M client B) w v w1 v' w2 :
  evolves m w v w1 -> evolves (k v) w1 v' w2 -> evolves (checked_call m k) w v' w2.
Proof. intros H1 H2 a. rewrite (bind_ok _ _ _ _ _ (H1 a)). apply H2. Qed.

Lemma set_cl_dscc_same w : set_cl_dscc (cl_dscc w) w = w.
Proof. by destruct w. Qed.
Lemma set_cl_protocol_same w : set_cl_protocol (cl_protocol w) w = w.
Proof. by destruct w. Qed.

(** ** The socket *)

(** [send] of a buffer that is not empty takes some of it. *)
Definition socket_sends (dx_send : list Z -> list Z -> Z + dx_error_code) : Prop :=
  forall out buffer, buffer <> [] -> exists k, dx_send out buffer = inl k /\ 0 < k <= zlen buffer.

(** The socket is open, and no raw data is read from a file instead. *)
Definition sending (n : network_ctx) : Prop :=
  IS_FLAG_SET (nw_flags n) DUMPING_RAW_DATA_FIELD_FLAG = false /\ IS_FLAG_SET (nw_flags n) SOCKET_FIELD_FLAG = true.
Definition took (bs : list Z) (n : network_ctx) : network_ctx := set_nw_out (nw_out n ++ bs) n.

Section socket.
Context (dx_send : list Z -> list Z -> Z + dx_error_code) (Hsend : socket_sends dx_send).

Lemma send_loop_all fuel : forall bs n,
  sending n -> bs <> [] -> (length bs <= fuel)%nat -> send_loop dx_send fuel bs n = Ok tt (took bs n).
Proof using Hsend.
  induction fuel as [|fuel IH]; intros bs n Hn Hbs Hf; [destruct bs; simpl in Hf; [done|lia]|].
  cbn [send_loop]. unfold checked_call at 1, get. rewrite (proj1 Hn).
  destruct (Hsend (nw_out n) bs Hbs) as (k & -> & Hk). unfold checked_call, put.
  pose proof (length_drop bs (Z.to_nat k)) as Hd. unfold zlen in Hk.
  destruct (Nat.ltb_spec 0 (length (drop (Z.to_nat k) bs))) as [Hl|Hl].
  - rewrite IH; [|done|by intros E; rewrite E in Hl; simpl in Hl; lia|lia]. unfold took. cbn.
    by rewrite <- app_assoc, take_drop.
  - unfold took. by rewrite (firstn_all2 bs) by lia.
Qed.

Lemma send_data_all bs n :
  sending n -> bs <> [] -> dx_send_data dx_send (Some bs) n = Ok tt (took bs n).
Proof using Hsend.
  intros Hn Hbs. unfold dx_send_data. destruct bs as [|b bs]; [done|]. unfold checked_call at 1, get.
  replace (IS_FLAG_SET _ (Z.lor SOCKET_FIELD_FLAG DUMPING_RAW_DATA_FIELD_FLAG)) with true.
  - by apply send_loop_all.
  - unfold IS_FLAG_SET. destruct Hn as [_ Hs]. unfold IS_FLAG_SET in Hs. rewrite Z.land_lor_distr_r.
    symmetry. apply negb_true_iff, Z.eqb_neq. intros E%Z.lor_eq_0_iff. destruct E as [E _].
    by rewrite E in Hs.
Qed.
End socket.

Lemma took_sending bs n : sending n -> sending (took bs n).
Proof. done. Qed.
Lemma took_app b1 b2 n : took b2 (took b1 n) = took (b1 ++ b2) n.
Proof. unfold took. cbn. by rewrite app_assoc. Qed.
Lemma took_nil n : took [] n = n.
Proof. unfold took. rewrite app_nil_r. by destruct n. Qed.

(** ** What is written, with a margin *)

Section emits.
Context (malloc_ok : Z -> bool) (malloc_works : forall n, malloc_ok n = true).

Definition emits (m : M out_ctx unit) (bs : list Z) : Prop := sends m (zlen bs + 9) bs.
Definition body_emits {X} (body : M (out_ctx * X) unit) (x : X) (bs : list Z) (x' : X) : Prop :=
  body_sends body x (zlen bs + 9) bs x'.

Lemma emits_seq m1 m2 b1 b2 : emits m1 b1 -> emits m2 b2 -> emits (m1;;; m2) (b1 ++ b2).
Proof using Type.
  intros H1 H2. pose proof (zlen_nonneg b2). eapply sends_seq; [exact H1|exact H2|rewrite zlen_app; lia|rewrite zlen_app; lia].
Qed.
Lemma emits_nil : emits (ret tt) [].
Proof using Type. eapply sends_weaken; [apply sends_nil|by vm_compute]. Qed.
Lemma emits_byte v : emits (dx_write_byte malloc_ok v) (wire (be_bytes 1 v)).
Proof using malloc_works. eapply sends_weaken; [by apply sends_byte|]. rewrite length_wire. unfold zlen. simpl. lia. Qed.
Lemma emits_compact_int v : is_i32 v -> emits (dx_write_compact_int malloc_ok v) (wire (compact_int_bytes v)).
Proof using malloc_works.
  intros Hv. eapply sends_weaken; [by apply sends_compact_int|]. pose proof (zlen_nonneg (wire (compact_int_bytes v))). lia.
Qed.
Lemma emits_compact_long v : is_i64 v -> emits (dx_write_compact_long malloc_ok v) (wire (compact_long_bytes v)).
Proof using malloc_works.
  intros Hv. eapply sends_weaken; [by apply sends_compact_long|]. pose proof (zlen_nonneg (wire (compact_long_bytes v))). lia.
Qed.
Lemma emits_string s :
  utf16_units s -> zlen (utf16_to_utf8 s) <= INT_MAX -> emits (dx_write_utf_string malloc_ok (Some s)) (string_bytes s).
Proof using malloc_works.
  intros Hs Hl. eapply sends_weaken; [by apply sends_utf_string|]. unfold string_bytes. rewrite length_wire, zlen_app.
  pose proof (zlen_nonneg (compact_int_bytes (zlen (utf16_to_utf8 s)))). lia.
Qed.

Lemma body_emits_out {X} m (x : X) bs : emits m bs -> body_emits (on_out m) x bs x.
Proof using Type. intros H. apply body_out; [pose proof (zlen_nonneg bs); lia|exact H]. Qed.
Lemma body_emits_seq {X} m1 m2 (x1 x2 x3 : X) b1 b2 :
  body_emits m1 x1 b1 x2 -> body_emits m2 x2 b2 x3 -> body_emits (m1;;; m2) x1 (b1 ++ b2) x3.
Proof using Type.
  intros H1 H2. pose proof (zlen_nonneg b2). eapply body_seq; [exact H1|exact H2|rewrite zlen_app; lia|rewrite zlen_app; lia].
Qed.
Lemma body_emits_nil {X} (x : X) : body_emits (ret tt) x [] x.
Proof using Type. intros c Hc Hp. apply body_nil; [done|]. change (zlen []) with 0 in Hp. lia. Qed.
Lemma body_emits_state {X A} (m : M X A) (k : A -> M (out_ctx * X) unit) (x x' x'' : X) v bs :
  m x = Ok v x' -> body_emits (k v) x' bs x'' -> body_emits (checked_call (on_state m) k) x bs x''.
Proof using Type. apply body_state. Qed.

(** A message of at most 2^27 bytes. *)
Definition message_bytes (type : Z) (bs : list Z) : list Z := frame (wire (compact_int_bytes type) ++ bs).

Lemma compose_emits {X} size type (body : M (out_ctx * X) unit) x bs x' c :
  6 <= size <= 2 ^ 30 -> is_i32 type -> zlen bs <= 2 ^ 27 -> body_emits body x bs x' ->
  exists c', compose_message malloc_ok size type body (c, x) = Ok (message_bytes type bs) (c', x').
Proof using malloc_works.
  intros Hs Ht Hl Hb. pose proof (zlen_nonneg bs).
  eapply compose_sends; [done|done|done|exact Hb|lia|unfold MAX_POSITION; lia].
Qed.

Lemma frame_nonempty payload : frame payload <> [].
Proof using Type.
  unfold frame. intros E%app_nil. destruct E as [E _]. pose proof (compact_int_nonempty (zlen payload)) as H.
  rewrite <- length_wire, E in H. by vm_compute in H.
Qed.
Lemma message_nonempty type bs : message_bytes type bs <> [].
Proof using Type. apply frame_nonempty. Qed.
End emits.

(** ** The description of the records *)

Definition own_description (rid : nat) (item : dx_record_item_t) : description :=
  Description (Z.of_nat rid) (default [] (ri_name item)) (own_fields (ri_info_id item)).

(** What the client says of its records from the first that it did not yet. *)
Definition own_descriptions (s : dscc) : list description :=
  drop (Z.to_nat (new_record_id s)) (imap own_description (contents (records_list s))).
Definition descriptions_bytes (s : dscc) : list Z := concat (bytes_of <$> own_descriptions s).
Definition all_said (s : dscc) : dscc := set_new_record_id (Z.of_nat (arr_size (records_list s))) s.

(** The names of the records can be written: they are of the basic plane. *)
Definition names_ok (s : dscc) : Prop :=
  Forall (fun item => forall name, ri_name item = Some name -> name_ok name) (contents (records_list s)).

(** The fields of every kind of record can be written and are accepted. *)
Definition name_check (name : list Z) : bool :=
  forallb (fun c => (0 <? c) && (c <=? 0xFFFF) && negb (dx_is_high_surrogate c)) name &&
  negb (bool_decide (name = [])) && (zlen (utf16_to_utf8 name) <=? INT_MAX).
Lemma name_check_ok name : name_check name = true -> name_ok name.
Proof.
  unfold name_check. intros H. bool_to_prop. apply bool_decide_eq_false in H1. split_and!; [|done|done].
  apply Forall_forall. intros c Hc%list_elem_of_In. rewrite forallb_forall in H. specialize (H c Hc). bool_to_prop.
  by split; [lia|].
Qed.

Definition own_fields_check (info : dx_record_info_id_t) : bool :=
  forallb (fun f => name_check f.1 && (0 <=? f.2) && (f.2 <=? 0xFF)) (own_fields info) &&
  (zlen (own_fields info) <=? INT_MAX).
Lemma own_fields_checked info : own_fields_check info = true.
Proof. by destruct info; vm_compute. Qed.
Lemma own_fields_ok info : Forall field_ok (own_fields info) /\ zlen (own_fields info) <= INT_MAX.
Proof.
  pose proof (own_fields_checked info) as H. unfold own_fields_check in H. bool_to_prop. split; [|done].
  apply Forall_forall. intros f Hf%list_elem_of_In. rewrite forallb_forall in H. specialize (H f Hf). bool_to_prop.
  split; [by apply name_check_ok|lia].
Qed.

Lemma name_units name : name_ok name -> utf16_units name /\ zlen (utf16_to_utf8 name) <= INT_MAX.
Proof. intros (Hb & _ & Hl). split; [|done]. eapply Forall_impl; [exact Hb|]. by intros c [? _]. Qed.

Section descriptions.
Context (malloc_ok : Z -> bool) (malloc_works : forall n, malloc_ok n = true).

Lemma emits_fields fields :
  Forall field_ok ((fun f => (fi_name f, fi_type f)) <$> fields) ->
  emits (fields_loop malloc_ok fields) (concat (field_bytes <$> ((fun f => (fi_name f, fi_type f)) <$> fields))).
Proof using malloc_works.
  induction fields as [|f fields IH]; intros H; [apply emits_nil|]. apply Forall_cons in H as [[Hn Ht] H].
  cbn [fields_loop fmap list_fmap concat]. apply emits_seq; [|by apply IH]. unfold dx_write_record_field, field_bytes.
  cbn [fst snd] in *. destruct (name_units _ Hn). apply emits_seq; [by apply emits_string|].
  apply emits_compact_int; [done|]. unfold is_i32. lia.
Qed.

Lemma emits_record rid item name :
  DataStructures.item_ok item -> ri_name item = Some name -> name_ok name -> is_i32 (Z.of_nat rid) ->
  emits (dx_write_event_record malloc_ok item (Z.of_nat rid)) (bytes_of (own_description rid item)).
Proof using malloc_works.
  intros [_ Hf _] Hn Hok Hid. destruct (own_fields_ok (ri_info_id item)) as [Hfs Hlen]. destruct (name_units name Hok).
  unfold dx_write_event_record, own_description, bytes_of, description_bytes. cbn [d_server_id d_name d_fields]. rewrite Hn.
  apply emits_seq; [by apply emits_compact_int|]. apply emits_seq; [by apply emits_string|].
  unfold own_fields in *. rewrite <- Hf in *.
  replace (Z.of_nat (length (ri_fields item))) with (zlen ((fun f => (fi_name f, fi_type f)) <$> ri_fields item))
    by (unfold zlen; by rewrite length_fmap).
  pose proof (zlen_nonneg ((fun f => (fi_name f, fi_type f)) <$> ri_fields item)). unfold INT_MAX in *.
  rewrite i32_id by (unfold is_i32; lia). apply emits_seq; [|by apply emits_fields].
  apply emits_compact_int; [done|unfold is_i32; lia].
Qed.

Lemma own_descriptions_next s item :
  registry_ok s -> contents (records_list s) !! Z.to_nat (new_record_id s) = Some item ->
  own_descriptions s = own_description (Z.to_nat (new_record_id s)) item ::
    own_descriptions (set_new_record_id (new_record_id s + 1) s).
Proof using Type.
  intros Hok Hi. pose proof (ok_next s Hok). unfold own_descriptions. cbn [records_list new_record_id set_new_record_id].
  rewrite (drop_S _ (own_description (Z.to_nat (new_record_id s)) item)).
  - by replace (Z.to_nat (new_record_id s + 1)) with (S (Z.to_nat (new_record_id s))) by lia.
  - by rewrite list_lookup_imap, Hi.
Qed.

Lemma registry_ok_next s : registry_ok s -> new_record_id s < Z.of_nat (arr_size (records_list s)) ->
  registry_ok (set_new_record_id (new_record_id s + 1) s).
Proof using Type. intros [] Hlt. constructor; try done. cbn. lia. Qed.

Lemma body_emits_records fuel : forall s,
  registry_ok s -> names_ok s -> Z.of_nat (arr_size (records_list s)) <= INT_MAX ->
  (Z.to_nat (Z.of_nat (arr_size (records_list s)) - new_record_id s) < fuel)%nat ->
  body_emits (event_records_loop malloc_ok fuel (new_record_id s) (Z.of_nat (arr_size (records_list s)))) s
    (descriptions_bytes s) (all_said s).
Proof using malloc_works.
  induction fuel as [|fuel IH]; intros s Hok Hn Hmax Hf; [lia|]. pose proof (ok_next s Hok) as Hnext. cbn [event_records_loop].
  pose proof (length_contents _ (ok_records s Hok)) as Hl.
  destruct (Z.ltb_spec (new_record_id s) (Z.of_nat (arr_size (records_list s)))) as [Hlt|Hge].
  - destruct (lookup_lt_is_Some_2 (contents (records_list s)) (Z.to_nat (new_record_id s))) as [item Hi]; [lia|].
    assert (DataStructures.item_ok item) as Hit.
    { pose proof (ok_items s Hok) as H. rewrite Forall_forall in H. by apply H, (list_elem_of_lookup_2 _ _ _ Hi). }
    destruct (ok_named _ Hit) as (name & Hname & _).
    apply (body_emits_state _ _ _ s _ item).
    { unfold record_pointer. rewrite get_record_by_id_spec by apply Hok.
      decide_cmps. by rewrite Hi. }
    unfold descriptions_bytes. rewrite (own_descriptions_next s item Hok Hi). cbn [fmap list_fmap concat].
    apply (body_emits_seq _ _ _ s).
    { apply body_emits_out. rewrite <- (Z2Nat.id (new_record_id s)) at 1 by lia.
      apply (emits_record _ _ name); [done|done| |unfold is_i32, INT_MAX in *; lia].
      unfold names_ok in Hn. rewrite Forall_forall in Hn. by apply (Hn item (list_elem_of_lookup_2 _ _ _ Hi)). }
    apply (body_emits_state _ _ _ (set_new_record_id (new_record_id s + 1) s) _ (new_record_id s + 1)).
    { unfold dx_get_next_unsubscribed_record_id, checked_call, get, put, ret. rewrite (proj2 (Z.ltb_lt _ _)) by lia. done. }
    apply (IH (set_new_record_id (new_record_id s + 1) s)); [by apply registry_ok_next|done|done|cbn; lia].
  - assert (new_record_id s = Z.of_nat (arr_size (records_list s))) as E by lia.
    assert (descriptions_bytes s = []) as ->.
    { unfold descriptions_bytes, own_descriptions. rewrite drop_ge; [done|]. rewrite length_imap. lia. }
    assert (all_said s = s) as -> by (unfold all_said; rewrite <- E; by destruct s). apply body_emits_nil.
Qed.

Lemma body_emits_all_records s :
  registry_ok s -> names_ok s -> Z.of_nat (arr_size (records_list s)) <= INT_MAX ->
  body_emits (dx_write_event_records malloc_ok) s (descriptions_bytes s) (all_said s).
Proof using malloc_works.
  intros Hok Hn Hmax. unfold dx_write_event_records.
  apply (body_emits_state _ _ _ s _ (new_record_id s)).
  { unfold dx_get_next_unsubscribed_record_id, checked_call, get, put, ret. by rewrite andb_false_r. }
  apply (body_emits_state _ _ _ s _ (Z.of_nat (arr_size (records_list s)))); [done|].
  apply body_emits_records; [done..|lia].
Qed.
End descriptions.

(** ** Messages that are sent *)

Section sending.
Context (calloc_ok : Z -> bool) (calloc_works : forall n, calloc_ok n = true).
Context (dx_send : list Z -> list Z -> Z + dx_error_code) (Hsend : socket_sends dx_send).

(** The message is made, and the socket takes it. *)
Definition after_sending (c : out_ctx) (x : dscc) (bs : list Z) (w : client_world) : client_world :=
  set_cl_network (took bs (cl_network w)) (set_cl_dscc x (set_cl_out c w)).

Lemma send_at bs w :
  sending (cl_network w) -> bs <> [] ->
  evolves (on_network (dx_send_data dx_send (Some bs))) w tt (set_cl_network (took bs (cl_network w)) w).
Proof using Hsend. intros Hs Hbs a. apply on_network_at. by apply send_data_all. Qed.

Lemma send_records_spec w :
  registry_ok (cl_dscc w) -> names_ok (cl_dscc w) -> Z.of_nat (arr_size (records_list (cl_dscc w))) <= INT_MAX ->
  zlen (descriptions_bytes (cl_dscc w)) <= 2 ^ 27 -> sending (cl_network w) ->
  exists c, evolves (dx_send_record_description calloc_ok dx_send true) w tt
    (after_sending c (all_said (cl_dscc w))
      (message_bytes MESSAGE_DESCRIBE_RECORDS (descriptions_bytes (cl_dscc w))) w).
Proof using Hsend calloc_works.
  intros Hok Hn Hmax Hl Hs.
  destruct (compose_emits calloc_ok calloc_works 1024 MESSAGE_DESCRIBE_RECORDS (dx_write_event_records calloc_ok)
    (cl_dscc w) _ _ (cl_out w) ltac:(lia) ltac:(by_compute) Hl
    (body_emits_all_records calloc_ok calloc_works _ Hok Hn Hmax)) as (c & E).
  exists c. eapply evolves_bind; [intros a; exact (on_composing_at _ a w _ _ _ E)|].
  apply send_at; [done|apply message_nonempty].
Qed.

(** ** Subscriptions of symbols *)

(** The time of a subscription to the history of a record. *)
Definition record_time (name : list Z) (time : Z) : Z :=
  if bool_decide (dx_string_to_record_info name ∈
       [Some dx_rid_time_and_sale; Some dx_rid_candle; Some dx_rid_greeks])
  then time / 1000 * 2 ^ 32 + time mod 1000 else time.

Definition symbol_bytes (symbol : list Z) : list Z :=
  match dx_encode_symbol_name codec_tables (Some symbol) with
  | Some 0 | None => 0xFD :: compact_int_bytes (zlen symbol) ++ cesu_bytes symbol
  | Some cipher => penta_bytes (cipher_penta cipher)
  end.

(** The message for a symbol and a record: the symbol, the identifier of the
    record, and the time where a history is asked for. *)
Definition subscription_bytes (unsubscribe : bool) (symbol : list Z) (time : Z) (id : Z) (e : sub_entry) : list Z :=
  let type := dx_to_subscription_message_type (negb unsubscribe) e.2 in
  message_bytes type (wire (symbol_bytes symbol) ++ wire (compact_int_bytes id) ++
    if type =? MESSAGE_HISTORY_ADD_SUBSCRIPTION then wire (compact_long_bytes (record_time e.1 time)) else []).

(** Symbols that can be sent. *)
Definition symbol_ok (s : list Z) : Prop := plain_symbol s /\ s <> [] /\ zlen s <= 2 ^ 20.

Lemma zlen_cesu_le s : zlen (cesu_bytes s) <= 4 * zlen s.
Proof using Type.
  induction s as [|c s IH]; [by vm_compute|]. rewrite zlen_cesu, zlen_cons. pose proof (length_utf8_bytes c). lia.
Qed.

Lemma length_symbol symbol : symbol_ok symbol -> zlen (symbol_bytes symbol) <= 2 ^ 23.
Proof using Type.
  intros (_ & _ & Hl). unfold symbol_bytes.
  assert (zlen (0xFD :: compact_int_bytes (zlen symbol) ++ cesu_bytes symbol) <= 2 ^ 23) as H.
  { rewrite zlen_cons, zlen_app. pose proof (length_compact_int (zlen symbol)). pose proof (zlen_cesu_le symbol). lia. }
  assert (forall p, zlen (penta_bytes p) <= 2 ^ 23) as Hp.
  { intros p. unfold penta_bytes. repeat destruct_match; by vm_compute. }
  destruct (dx_encode_symbol_name codec_tables (Some symbol)) as [[]|]; done.
Qed.

Lemma emits_symbol symbol : symbol_ok symbol ->
  exists cipher, dx_encode_symbol_name codec_tables (Some symbol) = Some cipher /\
    sends (dx_codec_write_symbol calloc_ok codec_tables cipher (Some symbol)) (zlen (symbol_bytes symbol) + 9)
      (wire (symbol_bytes symbol)).
Proof using calloc_works.
  intros (Hs & Hne & Hl). destruct (encode_total symbol) as (cipher & E & Hc).
  { eapply Forall_impl; [exact Hs|]. simpl. lia. }
  exists cipher. split; [done|]. unfold symbol_bytes. rewrite E.
  pose proof (sends_writer calloc_ok calloc_works) as HW. destruct Hc as [->|Hc].
  - eapply sends_weaken; [apply (writer_symbol (W := sends)); [done|unfold INT_MAX; lia]|].
    rewrite zlen_cons, zlen_app. pose proof (compact_int_nonempty (zlen symbol)). lia.
  - pose proof (valid_cipher_nonzero cipher Hc).
    assert (match cipher with 0 => 0xFD :: compact_int_bytes (zlen symbol) ++ cesu_bytes symbol
      | _ => penta_bytes (cipher_penta cipher) end = penta_bytes (cipher_penta cipher)) as -> by (by destruct cipher).
    eapply sends_weaken; [exact (writer_cipher calloc_ok (W := sends) cipher (Some symbol) Hc)|].
    pose proof (zlen_nonneg (penta_bytes (cipher_penta cipher))). lia.
Qed.

Lemma record_of_name s id name :
  registry_ok s -> record_name s id = Some name ->
  0 <= id < Z.of_nat (arr_size (records_list s)) /\
  exists item, contents (records_list s) !! Z.to_nat id = Some item /\
    dx_string_to_record_info name = Some (ri_info_id item).
Proof using Type.
  intros Hok Hn. destruct (named_record s id name Hok Hn) as (Hid & item & Hi & Hname & Hit & _).
  split; [done|]. exists item. split; [done|]. destruct (ok_named _ Hit) as (name' & Hn' & E). congruence.
Qed.

Lemma subscription_time_at s id name time :
  registry_ok s -> record_name s id = Some name -> is_i64 time -> is_i32 (time / 1000) ->
  dx_create_subscription_time id time s = Ok (record_time name time) s /\ is_i64 (record_time name time).
Proof using Type.
  intros Hok Hn H64 H32. destruct (record_of_name s id name Hok Hn) as (Hid & item & Hi & E).
  rewrite (create_subscription_time_spec s id time item) by (done || lia). unfold record_time. rewrite E.
  assert (bool_decide (Some (ri_info_id item) ∈ [Some dx_rid_time_and_sale; Some dx_rid_candle; Some dx_rid_greeks]) =
    bool_decide (ri_info_id item ∈ [dx_rid_time_and_sale; dx_rid_candle; dx_rid_greeks])) as ->.
  { apply bool_decide_ext. exact (list_elem_of_fmap_inj Some [_; _; _] _). }
  split; [done|]. case_bool_decide; [|done]. unfold is_i32, is_i64 in *. zlia.
Qed.

Lemma subscription_type subscribe type :
  dx_is_subscription_message (dx_to_subscription_message_type subscribe type) = true /\
  is_i32 (dx_to_subscription_message_type subscribe type) /\
  dx_to_subscription_message_type subscribe type ∈ g_send_msg_roster.
Proof using Type. destruct subscribe, type; split_and!; by_compute. Qed.

(** The buffer of the messages so far. *)
Definition buffer_ok (b : option (list Z * Z)) (bs : list Z) : Prop :=
  match b with
  | None => bs = []
  | Some (x, cap) => x = bs /\ bs <> [] /\ zlen bs <= cap <= 2 ^ 30
  end.

Lemma append_message_spec b bs m w :
  buffer_ok b bs -> m <> [] -> zlen (bs ++ m) <= 2 ^ 29 ->
  exists b', evolves (append_message calloc_ok b m) w b' w /\ buffer_ok b' (bs ++ m).
Proof using calloc_works.
  intros Hb Hm Hl. unfold append_message. destruct b as [[x cap]|]; cbn in Hb.
  - destruct Hb as (-> & Hne & Hc). pose proof (zlen_nonneg bs). pose proof (zlen_nonneg m). rewrite zlen_app in Hl.
    rewrite i32_id by (unfold is_i32; lia).
    assert (bs ++ m <> []) by (intros [E _]%app_nil; done).
    destruct (Z.ltb_spec cap (zlen bs + zlen m)).
    + rewrite shl_mul by lia. rewrite i32_id, calloc_works by (unfold is_i32; lia).
      rewrite (proj2 (Z.leb_le _ _)) by lia. eexists. split; [apply evolves_ret|]. cbn. rewrite zlen_app. split_and!; [done|done|lia|lia].
    + eexists. split; [apply evolves_ret|]. cbn. rewrite zlen_app. split_and!; [done|done|lia|lia].
  - subst bs. cbn [app] in *. eexists. split; [apply evolves_ret|]. cbn. split_and!; [done|done|lia|lia].
Qed.

Section symbol.
Context (unsubscribe : bool) (time : Z) (time_64 : is_i64 time) (time_32 : is_i32 (time / 1000)).

Lemma subscribe_symbol_spec w symbol cipher id e :
  registry_ok (cl_dscc w) -> Z.of_nat (arr_size (records_list (cl_dscc w))) <= INT_MAX -> symbol_ok symbol ->
  dx_encode_symbol_name codec_tables (Some symbol) = Some cipher -> record_name (cl_dscc w) id = Some e.1 ->
  exists c, evolves (dx_subscribe_symbol_to_record calloc_ok codec_tables
      (dx_to_subscription_message_type (negb unsubscribe) e.2) (Some symbol) cipher id time) w
    (subscription_bytes unsubscribe symbol time id e) (set_cl_out c w).
Proof using calloc_works time_32 time_64.
  intros Hok Hmax Hs Hc Hn. destruct e as [name type]. cbn [fst snd] in *.
  destruct (subscription_type (negb unsubscribe) type) as (Ht & Hi & _). set (ty := dx_to_subscription_message_type _ _) in *.
  destruct (record_of_name _ id name Hok Hn) as (Hid & _). destruct (subscription_time_at _ id name time Hok Hn) as [Et Ht64]; [done..|].
  destruct (emits_symbol symbol Hs) as (cipher' & E' & Hsym). assert (cipher' = cipher) as -> by congruence.
  pose proof (length_symbol symbol Hs) as Hl.
  set (tail := if ty =? MESSAGE_HISTORY_ADD_SUBSCRIPTION then wire (compact_long_bytes (record_time name time)) else []).
  assert (zlen tail <= 9) as Htl.
  { unfold tail. destruct (_ =? _); [|by vm_compute]. rewrite length_wire. unfold zlen, compact_long_bytes, compact_int_bytes.
    repeat destruct_match; simpl; lia. }
  assert (is_i32 id) as Hid32 by (unfold is_i32, INT_MAX in *; lia).
  assert (body_emits (on_out (dx_compose_body calloc_ok codec_tables id cipher (Some symbol));;;
      (if ty =? MESSAGE_HISTORY_ADD_SUBSCRIPTION then
         subscription_time <-- on_state (dx_create_subscription_time id time);;
         on_out (dx_write_compact_long calloc_ok subscription_time)
       else ret tt)) (cl_dscc w) ((wire (symbol_bytes symbol) ++ wire (compact_int_bytes id)) ++ tail) (cl_dscc w)) as Hbody.
  { apply (body_emits_seq _ _ _ (cl_dscc w)).
    - apply body_emits_out. unfold dx_compose_body.
      assert (emits (dx_codec_write_symbol calloc_ok codec_tables cipher (Some symbol);;; dx_write_compact_int calloc_ok id)
        (wire (symbol_bytes symbol) ++ wire (compact_int_bytes id))) as H.
      { apply emits_seq; [by unfold emits; rewrite length_wire|by apply emits_compact_int]. }
      by destruct (cipher =? 0).
    - unfold tail. destruct (ty =? MESSAGE_HISTORY_ADD_SUBSCRIPTION); [|apply body_emits_nil].
      eapply body_emits_state; [exact Et|]. apply body_emits_out. by apply emits_compact_long. }
  rewrite <- app_assoc in Hbody.
  assert (zlen (wire (symbol_bytes symbol) ++ wire (compact_int_bytes id) ++ tail) <= 2 ^ 27) as Hlen.
  { rewrite !zlen_app, !length_wire. pose proof (length_compact_int id). lia. }
  destruct (compose_emits calloc_ok calloc_works 100 ty _ _ _ _ (cl_out w) ltac:(lia) Hi Hlen Hbody) as (c & E).
  exists c. intros a. unfold dx_subscribe_symbol_to_record. rewrite Ht. cbn [negb].
  rewrite (on_composing_at _ a w _ _ _ E). by destruct w.
Qed.

(** The identifiers of the records of the entries. *)
Definition named (s : dscc) (ids : list Z) (es : list sub_entry) : Prop :=
  Forall2 (fun id e => record_name s id = Some e.1) ids es.
Definition symbol_messages (ids : list Z) (es : list sub_entry) (symbol : list Z) : list Z :=
  concat (zip_with (subscription_bytes unsubscribe symbol time) ids es).

Lemma symbol_messages_app ids1 es1 ids2 es2 symbol :
  length ids1 = length es1 ->
  symbol_messages (ids1 ++ ids2) (es1 ++ es2) symbol = symbol_messages ids1 es1 symbol ++ symbol_messages ids2 es2 symbol.
Proof using Type. intros H. unfold symbol_messages. by rewrite zip_with_app, concat_app. Qed.

Lemma subscribe_params_spec symbol : forall ps ids es w b bs,
  registry_ok (cl_dscc w) -> Z.of_nat (arr_size (records_list (cl_dscc w))) <= INT_MAX -> symbol_ok symbol ->
  Forall2 (subscribes (cl_dscc w)) ps es -> named (cl_dscc w) ids es ->
  buffer_ok b bs -> zlen (bs ++ symbol_messages ids es symbol) <= 2 ^ 29 ->
  exists b' c, evolves (subscribe_params_loop calloc_ok codec_tables ps (Some symbol) unsubscribe time b) w b'
      (set_cl_out c w) /\ buffer_ok b' (bs ++ symbol_messages ids es symbol).
Proof using calloc_works time_32 time_64.
  induction ps as [|p ps IH]; intros ids es w b bs Hok Hmax Hs Hps Hids Hb Hl; inversion Hps; subst.
  { inversion Hids; subst. exists b, (cl_out w). cbn. rewrite app_nil_r. split; [by destruct w|done]. }
  inversion Hids as [|id e' ids' es' Hid Hids']; subst. destruct H1 as [Hn Ht].
  assert (param_record_id p = id) as Eid by (by eapply record_name_inj).
  destruct (emits_symbol symbol Hs) as (cipher & Ec & _). cbn [subscribe_params_loop].
  destruct (subscribe_symbol_spec w symbol cipher id y) as (c & E); [done..|].
  unfold symbol_messages in Hl |- *. cbn [zip_with concat] in Hl |- *. rewrite app_assoc in Hl |- *.
  set (m := subscription_bytes unsubscribe symbol time id y) in *.
  destruct (append_message_spec b bs m (set_cl_out c w) Hb (message_nonempty _ _)) as (b1 & E1 & Hb1).
  { rewrite zlen_app in Hl. pose proof (zlen_nonneg (concat (zip_with (subscription_bytes unsubscribe symbol time) ids' l'))). lia. }
  destruct (IH ids' l' (set_cl_out c w) b1 (bs ++ m)) as (b2 & c2 & E2 & Hb2); [done..|].
  exists b2, c2. split; [|exact Hb2]. rewrite Ec. cbn [of_option]. eapply evolves_bind; [apply evolves_ret|].
  rewrite Ht, Eid. eapply evolves_bind; [exact E|]. eapply evolves_bind; [exact E1|exact E2].
Qed.

Lemma set_cl_out_dscc c w : set_cl_dscc (cl_dscc w) (set_cl_out c w) = set_cl_out c w.
Proof using Type. by destruct w. Qed.

Section events.
Context (sources : list (list Z)) (sources_ok : Forall (fun source => (length (c_string source) <= 4)%nat) sources).
Context (event_types flags : Z).

(** What the events that are asked for are subscribed with. *)
Definition asked_entries (events : list dx_event_id_t) : list sub_entry :=
  concat ((fun e => if asked event_types e then event_records (c_string <$> sources) e flags else []) <$> events).

Lemma get_params_at w event_id :
  registry_ok (cl_dscc w) ->
  exists ps s', evolves (get_params calloc_ok sources event_id flags) w ps (set_cl_dscc s' w) /\
    registry_ok s' /\ keeps_names (cl_dscc w) s' /\
    Forall2 (subscribes s') ps (event_records (c_string <$> sources) event_id flags) /\
    (registered (cl_dscc w) (event_records (c_string <$> sources) event_id flags) -> s' = cl_dscc w) /\
    (arr_size (records_list s') <= arr_size (records_list (cl_dscc w)) +
       length (event_records (c_string <$> sources) event_id flags))%nat.
Proof using calloc_works sources_ok.
  intros Hok.
  destruct (event_subscription_spec (fun n => calloc_ok (Z.of_nat n)) (cl_dscc w) sources event_id flags
    (fun n => calloc_works _) Hok sources_ok) as (list & s' & E & Hok' & Hk & _ & Hps & Hsame).
  exists (contents list), s'. split; [|done].
  eapply evolves_bind; [intros a; exact (on_registry_at _ a w _ _ E)|apply evolves_ret].
Qed.

Lemma registered_named s es : registered s es -> exists ids, named s ids es.
Proof using Type.
  induction 1 as [|e es [id Hid] _ [ids IH]]; [by exists []; constructor|]. exists (id :: ids). by constructor.
Qed.

Lemma subscribe_events_spec symbol events : forall ids w b bs,
  registry_ok (cl_dscc w) -> Z.of_nat (arr_size (records_list (cl_dscc w))) <= INT_MAX -> symbol_ok symbol ->
  named (cl_dscc w) ids (asked_entries events) ->
  buffer_ok b bs -> zlen (bs ++ symbol_messages ids (asked_entries events) symbol) <= 2 ^ 29 ->
  exists b' c, evolves (subscribe_events_loop calloc_ok codec_tables events (Some symbol) sources event_types unsubscribe flags
      time b) w b' (set_cl_out c w) /\
    buffer_ok b' (bs ++ symbol_messages ids (asked_entries events) symbol).
Proof using calloc_works sources_ok time_32 time_64.
  induction events as [|event_id events IH]; intros ids w b bs Hok Hmax Hs Hids Hb Hl.
  { inversion Hids; subst. exists b, (cl_out w). cbn. rewrite app_nil_r. split; [by destruct w|done]. }
  unfold asked_entries in Hids, Hl |- *. cbn [fmap list_fmap concat] in Hids, Hl |- *. fold (asked_entries events) in Hids, Hl |- *.
  apply Forall2_app_inv_r in Hids as (ids1 & ids2 & Hids1 & Hids2 & ->).
  rewrite symbol_messages_app, app_assoc in Hl |- * by (by apply Forall2_length in Hids1).
  set (m1 := symbol_messages ids1 _ symbol) in *. set (m2 := symbol_messages ids2 _ symbol) in *.
  assert (exists b1 c1, evolves (if asked event_types event_id then
       params <-- get_params calloc_ok sources event_id flags;;
       subscribe_params_loop calloc_ok codec_tables params (Some symbol) unsubscribe time b
     else ret b) w b1 (set_cl_out c1 w) /\ buffer_ok b1 (bs ++ m1)) as (b1 & c1 & E1 & Hb1).
  { destruct (asked event_types event_id).
    - destruct (get_params_at w event_id Hok) as (ps & s' & E & _ & _ & Hps & Hsame & _).
      assert (s' = cl_dscc w) as ->.
      { apply Hsame. clear -Hids1. induction Hids1; constructor; [by eexists|done]. }
      rewrite set_cl_dscc_same in E.
      destruct (subscribe_params_spec symbol ps ids1 _ w b bs Hok Hmax Hs Hps Hids1 Hb) as (b1 & c1 & E1 & Hb1).
      { rewrite zlen_app in Hl. pose proof (zlen_nonneg m2). fold m1. lia. }
      exists b1, c1. split; [|done]. by eapply evolves_bind.
    - inversion Hids1; subst. exists b, (cl_out w). unfold m1, symbol_messages. cbn. rewrite app_nil_r. split; [by destruct w|done]. }
  destruct (IH ids2 (set_cl_out c1 w) b1 (bs ++ m1) Hok Hmax Hs Hids2 Hb1 Hl) as (b2 & c2 & E2 & Hb2).
  exists b2, c2. split; [|done]. by eapply evolves_bind.
Qed.

(** The messages of all the symbols that are not empty. *)
Definition all_messages (ids : list Z) (es : list sub_entry) (symbols : list (option (list Z))) : list Z :=
  concat ((fun s => if dx_string_null_or_empty s then [] else symbol_messages ids es (default [] s)) <$> symbols).

Lemma subscribe_symbols_spec symbols : forall ids w,
  registry_ok (cl_dscc w) -> Z.of_nat (arr_size (records_list (cl_dscc w))) <= INT_MAX ->
  Forall (fun s => dx_string_null_or_empty s = false -> symbol_ok (default [] s) /\
    zlen (symbol_messages ids (asked_entries all_events) (default [] s)) <= 2 ^ 29) symbols ->
  named (cl_dscc w) ids (asked_entries all_events) -> sending (cl_network w) ->
  exists c, evolves (subscribe_symbols_loop calloc_ok dx_send codec_tables symbols sources event_types unsubscribe flags time)
    w tt (set_cl_network (took (all_messages ids (asked_entries all_events) symbols) (cl_network w)) (set_cl_out c w)).
Proof using calloc_works Hsend sources_ok time_32 time_64.
  induction symbols as [|symbol symbols IH]; intros ids w Hok Hmax Hs Hids Hnet.
  { exists (cl_out w). unfold all_messages. cbn [subscribe_symbols_loop fmap list_fmap concat]. rewrite took_nil. by destruct w. }
  apply Forall_cons in Hs as [Hs0 Hs].
  assert (exists c, evolves (if dx_string_null_or_empty symbol then ret tt
     else
       buffer <-- subscribe_events_loop calloc_ok codec_tables all_events symbol sources event_types unsubscribe flags time None;;
       match buffer with
       | Some (buffer, _) => on_network (dx_send_data dx_send (Some buffer))
       | None => ret tt
       end) w tt (set_cl_network (took (if dx_string_null_or_empty symbol then []
         else symbol_messages ids (asked_entries all_events) (default [] symbol)) (cl_network w)) (set_cl_out c w))) as (c & E).
  { destruct (dx_string_null_or_empty symbol) eqn:En.
    { exists (cl_out w). rewrite took_nil. by destruct w. }
    destruct symbol as [symbol|]; [|done]. destruct (Hs0 eq_refl) as [Hsym Hlen]. cbn [default id] in *.
    destruct (subscribe_events_spec symbol all_events ids w None [] Hok Hmax Hsym Hids eq_refl Hlen) as (b & c & E & Hb).
    exists c. eapply evolves_bind; [exact E|]. destruct b as [[x cap]|]; cbn [buffer_ok app] in Hb.
    - destruct Hb as (-> & Hne & _). by apply (send_at _ (set_cl_out c w)).
    - rewrite Hb, took_nil. by destruct w. }
  set (m := if dx_string_null_or_empty symbol then ([] : list Z) else symbol_messages ids (asked_entries all_events) (default [] symbol)).
  destruct (IH ids (set_cl_network (took m (cl_network w)) (set_cl_out c w)) Hok Hmax Hs Hids Hnet) as (c' & E').
  exists c'. eapply evolves_bind; [exact E|]. cbn [cl_network set_cl_network set_cl_out] in E'.
  rewrite took_app in E'. exact E'.
Qed.

(** The server is known to take the messages of subscriptions. *)
Definition supports (p : protocol_ctx) : Prop :=
  forall msg, msg ∈ g_send_msg_roster -> dx_is_message_supported_by_server msg p = Ok dx_mss_supported p.

Lemma params_support_spec w ps :
  supports (cl_protocol w) -> evolves (params_support ps unsubscribe) w dx_mss_supported w.
Proof using Type.
  intros Hp. induction ps as [|p ps IH]; [done|]. cbn [params_support].
  destruct (subscription_type (negb unsubscribe) (param_subscription_type p)) as (_ & _ & Hin).
  apply (evolves_bind _ _ _ dx_mss_supported w); [|exact IH]. intros a.
  rewrite (on_messages_at _ a w _ _ (Hp _ Hin)). by rewrite set_cl_protocol_same.
Qed.

Lemma events_support_spec events : forall w,
  registry_ok (cl_dscc w) -> supports (cl_protocol w) ->
  exists s', evolves (events_support calloc_ok events sources event_types unsubscribe flags) w dx_mss_supported
      (set_cl_dscc s' w) /\
    registry_ok s' /\ keeps_names (cl_dscc w) s' /\ registered s' (asked_entries events) /\
    (arr_size (records_list s') <= arr_size (records_list (cl_dscc w)) + length (asked_entries events))%nat.
Proof using calloc_works sources_ok.
  clear time_64 time_32 time.
  induction events as [|event_id events IH]; intros w Hok Hp.
  { exists (cl_dscc w). rewrite set_cl_dscc_same. split_and!; [done|done|reflexivity|constructor|simpl; lia]. }
  unfold asked_entries. cbn [fmap list_fmap concat events_support]. fold (asked_entries events).
  assert (exists s1, evolves (if asked event_types event_id then
       params <-- get_params calloc_ok sources event_id flags;; params_support params unsubscribe
     else ret dx_mss_supported) w dx_mss_supported (set_cl_dscc s1 w) /\
     registry_ok s1 /\ keeps_names (cl_dscc w) s1 /\
     registered s1 (if asked event_types event_id then event_records (c_string <$> sources) event_id flags else []) /\
     (arr_size (records_list s1) <= arr_size (records_list (cl_dscc w)) +
       length (if asked event_types event_id then event_records (c_string <$> sources) event_id flags else []))%nat)
    as (s1 & E1 & Hok1 & K1 & R1 & N1).
  { destruct (asked event_types event_id).
    - destruct (get_params_at w event_id Hok) as (ps & s1 & E & Hok1 & K & Hps & _ & N).
      exists s1. split_and!; [|done|done| |done].
      { eapply evolves_bind; [exact E|by apply params_support_spec]. }
      clear -Hps. induction Hps as [|p e ps es [Hp _] _ IH]; constructor; [by eexists|done].
    - exists (cl_dscc w). rewrite set_cl_dscc_same. split_and!; [done|done|reflexivity|constructor|simpl; lia]. }
  destruct (IH (set_cl_dscc s1 w) Hok1 Hp) as (s2 & E2 & Hok2 & K2 & R2 & N2).
  exists s2. split_and!; [eapply evolves_bind; [exact E1|exact E2]|done|by etrans| |rewrite length_app; cbn in N2; lia].
  apply Forall_app. split; [|done]. eapply Forall_impl; [exact R1|]. intros e [id Hid]. exists id. by apply K2.
Qed.

(** Symbols whose messages fit together in a buffer. *)
Definition symbols_ok (symbols : list (option (list Z))) : Prop :=
  Forall (fun s => dx_string_null_or_empty s = false -> symbol_ok (default [] s) /\
    (zlen (symbol_bytes (default [] s)) + 30) * zlen (asked_entries all_events) <= 2 ^ 29) symbols.

Lemma length_messages ids es symbol :
  symbol_ok symbol -> length ids = length es ->
  zlen (symbol_messages ids es symbol) <= (zlen (symbol_bytes symbol) + 30) * zlen es.
Proof using Type.
  intros Hs. revert es. induction ids as [|id ids IH]; intros [|e es] Hl; try done.
  { cbn. change (zlen []) with 0. lia. }
  unfold symbol_messages. cbn [zip_with concat]. rewrite zlen_app, zlen_cons.
  specialize (IH es ltac:(by injection Hl)). unfold symbol_messages in IH.
  assert (zlen (subscription_bytes unsubscribe symbol time id e) <= zlen (symbol_bytes symbol) + 30); [|lia].
  unfold subscription_bytes, message_bytes, frame. rewrite !zlen_app, !length_wire.
  set (tail := if _ =? _ then _ else _).
  assert (zlen tail <= 9) as Htl.
  { unfold tail. destruct (_ =? _); [|by vm_compute]. rewrite length_wire. unfold zlen, compact_long_bytes, compact_int_bytes.
    repeat destruct_match; simpl; lia. }
  pose proof (length_compact_int id).
  pose proof (length_compact_int (dx_to_subscription_message_type (negb unsubscribe) e.2)).
  match goal with |- context [zlen (compact_int_bytes (?x + ?y))] => pose proof (length_compact_int (x + y)) end. lia.
Qed.

(** A subscription in task mode: the records of its events are registered, and the
    messages of all its symbols go to the socket. *)
Lemma subscribe_symbols_to_events_spec w symbols :
  registry_ok (cl_dscc w) ->
  Z.of_nat (arr_size (records_list (cl_dscc w))) + zlen (asked_entries all_events) <= INT_MAX ->
  symbols_ok symbols -> supports (cl_protocol w) -> sending (cl_network w) ->
  exists c s' ids, evolves (dx_subscribe_symbols_to_events calloc_ok dx_send codec_tables sources symbols event_types
      unsubscribe true flags time) w tt (after_sending c s' (all_messages ids (asked_entries all_events) symbols) w) /\
    registry_ok s' /\ keeps_names (cl_dscc w) s' /\ named s' ids (asked_entries all_events) /\
    (arr_size (records_list s') <= arr_size (records_list (cl_dscc w)) + length (asked_entries all_events))%nat.
Proof using calloc_works Hsend sources_ok time_32 time_64.
  intros Hok Hmax Hs Hp Hnet. unfold dx_subscribe_symbols_to_events, dx_get_event_server_support.
  destruct (events_support_spec all_events w Hok Hp) as (s' & E & Hok' & K & R & N).
  destruct (registered_named s' _ R) as [ids Hids].
  destruct (subscribe_symbols_spec symbols ids (set_cl_dscc s' w)) as (c & Ec).
  - done.
  - cbn. unfold zlen in Hmax. lia.
  - eapply Forall_impl; [exact Hs|]. intros symbol Hsym Hne. destruct (Hsym Hne) as [Hok1 Hlen]. split; [done|].
    pose proof (length_messages ids (asked_entries all_events) _ Hok1 (Forall2_length _ _ _ Hids)). lia.
  - done.
  - done.
  - exists c, s', ids. split; [|done]. eapply evolves_bind; [exact E|]. exact Ec.
Qed.
End events.
End symbol.
End sending.

(** ** Properties *)

(** C24: a subscription of symbols to events, in the worker thread, when the
    server is known to take subscriptions and the socket takes what it is given,
    in whatever pieces: the bytes that the socket has taken grow by exactly the
    messages of the symbols that are not empty, in their order; for each of them
    one message for every record of every event asked for, with the type of the
    subscription, the symbol, the identifier under which the record is registered,
    and the time where a history is asked for.  The records that were missing are
    registered, the others keep their identifiers. *)
Theorem subscription_sent (calloc_ok : Z -> bool) (dx_send : list Z -> list Z -> Z + dx_error_code)
  (sources : list (list Z)) (symbols : list (option (list Z))) (event_types flags : Z) (unsubscribe : bool) (time : Z)
  (a : dx_array dx_task_data_t) (w : client_world) :
  let entries := asked_entries sources event_types flags all_events in
  (forall n, calloc_ok n = true) -> socket_sends dx_send ->
  Forall (fun source => (length (c_string source) <= 4)%nat) sources ->
  is_i64 time -> is_i32 (time / 1000) -> registry_ok (cl_dscc w) ->
  Z.of_nat (arr_size (records_list (cl_dscc w))) + zlen entries <= INT_MAX ->
  symbols_ok sources event_types flags symbols -> supports (cl_protocol w) -> sending (cl_network w) ->
  exists w' ids, dx_subscribe_symbols_to_events calloc_ok dx_send codec_tables sources symbols event_types unsubscribe true
      flags time (TqState a w) = Ok tt (TqState a w') /\
    nw_out (cl_network w') = nw_out (cl_network w) ++ all_messages unsubscribe time ids entries symbols /\
    Forall2 (fun id e => record_name (cl_dscc w') id = Some e.1) ids entries /\
    registry_ok (cl_dscc w') /\ keeps_names (cl_dscc w) (cl_dscc w') /\ cl_protocol w' = cl_protocol w.
Proof.
  intros entries Hcalloc Hsend Hsources H64 H32 Hok Hmax Hs Hp Hnet.
  destruct (subscribe_symbols_to_events_spec calloc_ok Hcalloc dx_send Hsend unsubscribe time H64 H32 sources Hsources
    event_types flags w symbols Hok Hmax Hs Hp Hnet) as (c & s' & ids & E & Hok' & K & Hids & _).
  by exists (after_sending c s' (all_messages unsubscribe time ids entries symbols) w), ids.
Qed.

(** ** Examples *)

(** A socket that takes a byte at a time. *)
Definition slow_socket (out buffer : list Z) : Z + dx_error_code := inl 1.
Lemma slow_socket_sends : socket_sends slow_socket.
Proof.
  intros out buffer Hne. exists 1. split; [done|]. destruct buffer; [done|]. rewrite zlen_cons.
  pose proof (zlen_nonneg buffer). lia.
Qed.

Definition example_network : network_ctx := NetworkCtx SOCKET_FIELD_FLAG DX_EMPTY_ARRAY DX_EMPTY_ARRAY [].
Definition example_protocol : protocol_ctx :=
  ProtocolCtx 0x3F 0x7 dx_dps_received 0 DX_EMPTY_ARRAY dxf_cs_authorized.
Definition example_world : client_world :=
  ClientWorld (OutCtx None 0 0) new_dscc example_protocol example_network (new_connection) [].

Lemma example_supports : supports example_protocol.
Proof.
  intros msg Hin. unfold g_send_msg_roster in Hin.
  repeat (apply elem_of_cons in Hin as [->|Hin]; [by vm_compute|]). by apply not_elem_of_nil in Hin.
Qed.

(** The symbol [IBM] and the candles. *)
Lemma subscription_sent_witness :
  exists w' ids, dx_subscribe_symbols_to_events (fun _ => true) slow_socket codec_tables [] [Some (chars_of "IBM"); None] 64 false
      true 0 1500000000123 (TqState DX_EMPTY_ARRAY example_world) = Ok tt (TqState DX_EMPTY_ARRAY w') /\
    nw_out (cl_network w') = nw_out example_network ++
      all_messages false 1500000000123 ids [(chars_of "Candle", dx_st_history)] [Some (chars_of "IBM"); None].
Proof.
  destruct (subscription_sent (fun _ => true) slow_socket [] [Some (chars_of "IBM"); None] 64 0 false 1500000000123
    DX_EMPTY_ARRAY example_world) as (w' & ids & H1 & H2 & _).
  - done.
  - apply slow_socket_sends.
  - constructor.
  - by_compute.
  - by_compute.
  - apply (proj1 new_dscc_ok).
  - vm_compute. discriminate.
  - repeat constructor; try by_compute; done.
  - apply example_supports.
  - by split.
  - exists w', ids. exact (conj H1 H2).
Defined.
