(* ===== verification/ClientTasks.v ===== *)
(** * ClientTasks: the tasks of the client in the queue

    What the worker thread makes of the tasks that [ClientMessages] adds to the
    queue of [TaskQueue]: they wait for the server to describe its protocol, and
    the countdown of [ServerProcessor] ends the waiting. *)

From Stdlib Require Import Ascii String.
From S2P Require Import Prelude Arrays Algorithms Output Input Wire SymbolCodec Framing Compose EventData.
From S2P Require Import DataStructures Subscription MessageData Properties TaskQueue NetworkContext.
From S2P Require Import Heartbeat RecordTranscoder ServerData ServerProcessor ServerStream Describe.
From S2P Require Import ClientMessages ClientTheory.
Local Open Scope Z_scope.
Local Open Scope c_scope.

Definition countdown_task : dx_task_data_t := Task describe_protocol_timeout_countdown_ptr 0.
Definition records_task : dx_task_data_t := Task describe_records_sender_ptr 0.
Definition subscription_task (data : Z) : dx_task_data_t := Task subscribe_symbols_to_events_ptr data.

(** Without an answer the server is taken for one that knows the messages of
    subscriptions and of data. *)
Definition legacy (p : protocol_ctx) : protocol_ctx :=
  set_bitmasks 0x3F 0x7 (set_describe_status dx_dps_not_received p).

Lemma legacy_supports p : supports (legacy p).
Proof.
  intros msg Hin. unfold g_send_msg_roster in Hin.
  repeat (apply elem_of_cons in Hin as [->|Hin]; [reflexivity|]). by apply not_elem_of_nil in Hin.
Qed.

(** The time since the description of the protocol was sent. *)
Definition waited (now : Z) (p : protocol_ctx) : Z := dx_millisecond_timestamp_diff now (describe_protocol_timestamp p).

Lemma countdown_waits now p :
  describe_protocol_status p = dx_dps_pending -> waited now p < DESCRIBE_PROTOCOL_TIMEOUT ->
  dx_describe_protocol_timeout_countdown_task 0 now p = Ok (Z.lor dx_tes_dont_advance dx_tes_success) p.
Proof.
  intros Hp Hw. unfold dx_describe_protocol_timeout_countdown_task, checked_call at 1, get.
  change (IS_FLAG_SET 0 dx_tc_free_resources) with false. cbv beta iota. rewrite Hp. unfold waited in Hw.
  by rewrite (proj2 (Z.ltb_lt _ _)).
Qed.

Lemma countdown_ends now p :
  describe_protocol_status p = dx_dps_pending -> DESCRIBE_PROTOCOL_TIMEOUT <= waited now p ->
  dx_describe_protocol_timeout_countdown_task 0 now p = Ok (Z.lor dx_tes_pop_me dx_tes_success) (legacy p).
Proof.
  intros Hp Hw. unfold dx_describe_protocol_timeout_countdown_task, checked_call at 1, get.
  change (IS_FLAG_SET 0 dx_tc_free_resources) with false. cbv beta iota. rewrite Hp. unfold waited in Hw.
  rewrite (proj2 (Z.ltb_ge _ _)) by done. reflexivity.
Qed.

Lemma registry_ok_said s : registry_ok s -> registry_ok (all_said s).
Proof. intros []. constructor; try done. cbn. lia. Qed.

Section tasks.
Context (calloc_ok : Z -> bool) (calloc_works : forall n, calloc_ok n = true).
Context (dx_send : list Z -> list Z -> Z + dx_error_code) (Hsend : socket_sends dx_send).
Context (now currentTimeMillis currentTimeMark : Z).

Let run := run_client_task calloc_ok dx_send codec_tables now currentTimeMillis currentTimeMark.

Lemma run_countdown a w r p :
  dx_describe_protocol_timeout_countdown_task 0 now (cl_protocol w) = Ok r p ->
  run countdown_task 0 (TqState a w) = Some (r, TqState a (set_cl_protocol p w)).
Proof using Type.
  intros E. unfold run, run_client_task, processor_of. cbn [task_processor countdown_task].
  change (describe_protocol_timeout_countdown_ptr =? describe_protocol_timeout_countdown_ptr) with true. cbv iota.
  by rewrite (on_messages_at _ a w _ _ E).
Qed.


Lemma run_records w w' :
  evolves (dx_send_record_description calloc_ok dx_send true) w tt w' ->
  forall a, run records_task 0 (TqState a w) = Some (Z.lor dx_tes_pop_me dx_tes_success, TqState a w').
Proof using Type.
  intros E a. unfold run, run_client_task.
  change (processor_of calloc_ok dx_send codec_tables now currentTimeMillis currentTimeMark records_task 0)
    with (dx_describe_records_sender_task calloc_ok dx_send 0).
  unfold dx_describe_records_sender_task, sender_task.
  change (IS_FLAG_SET 0 dx_tc_free_resources) with false. cbv iota.
  by rewrite (bind_ok _ _ _ _ _ (catch_ok _ _ _ _ (E a))).
Qed.

(** ** Subscriptions in the queue *)

Definition task_entries (d : dx_event_subscription_task_data_t) : list sub_entry :=
  asked_entries (td_order_source d) (td_event_types d) (td_subscr_flags d) all_events.
Definition task_messages (ids : list Z) (d : dx_event_subscription_task_data_t) : list Z :=
  all_messages (td_unsubscribe d) (td_time d) ids (task_entries d) (td_symbols d).
Record task_ok (d : dx_event_subscription_task_data_t) : Prop := {
  ok_sources : Forall (fun source => (length (c_string source) <= 4)%nat) (td_order_source d);
  ok_time : is_i64 (td_time d) /\ is_i32 (td_time d / 1000);
  ok_symbols : symbols_ok (td_order_source d) (td_event_types d) (td_subscr_flags d) (td_symbols d);
}.

(** The data of the tasks are in the heap. *)
Definition heap_has (heap : list (option dx_event_subscription_task_data_t)) (data : Z)
  (d : dx_event_subscription_task_data_t) : Prop := 0 < data /\ heap !! Z.to_nat (data - 1) = Some (Some d).

(** The world can send, and has room for so many more records. *)
Record ready (w : client_world) (n : Z) : Prop := {
  ready_registry : registry_ok (cl_dscc w);
  ready_room : Z.of_nat (arr_size (records_list (cl_dscc w))) + n <= INT_MAX;
  ready_supports : supports (cl_protocol w);
  ready_sending : sending (cl_network w);
}.

Lemma run_subscription w data d :
  ready w (zlen (task_entries d)) -> task_ok d -> heap_has (cl_heap w) data d ->
  exists w' ids,
    (forall a, run (subscription_task data) 0 (TqState a w) =
      Some (Z.lor dx_tes_pop_me dx_tes_success, TqState a w')) /\
    cl_network w' = took (task_messages ids d) (cl_network w) /\ named (cl_dscc w') ids (task_entries d) /\
    cl_protocol w' = cl_protocol w /\ cl_heap w' = <[Z.to_nat (data - 1) := None]> (cl_heap w) /\
    registry_ok (cl_dscc w') /\ keeps_names (cl_dscc w) (cl_dscc w') /\
    (arr_size (records_list (cl_dscc w')) <= arr_size (records_list (cl_dscc w)) + length (task_entries d))%nat.
Proof using Hsend calloc_works.
  intros [Hok Hroom Hp Hnet] [Hsrc [H64 H32] Hs] [Hpos Hd].
  destruct (subscribe_symbols_to_events_spec calloc_ok calloc_works dx_send Hsend (td_unsubscribe d) (td_time d) H64 H32
    (td_order_source d) Hsrc (td_event_types d) (td_subscr_flags d) w (td_symbols d) Hok Hroom Hs Hp Hnet)
    as (c & s' & ids & E & Hok' & K & Hids & N).
  set (w1 := after_sending _ _ _ w) in E.
  exists (set_cl_heap (<[Z.to_nat (data - 1) := None]> (cl_heap w1)) w1), ids.
  split; [|by split_and!]. intros a. specialize (E a).
  unfold run, run_client_task.
  change (processor_of calloc_ok dx_send codec_tables now currentTimeMillis currentTimeMark (subscription_task data) 0)
    with (dx_subscribe_symbols_to_events_task calloc_ok dx_send codec_tables data 0).
  unfold dx_subscribe_symbols_to_events_task. rewrite (proj2 (Z.eqb_neq data 0)) by lia.
  change (IS_FLAG_SET 0 dx_tc_free_resources) with false. cbv iota.
  rewrite (bind_ok _ _ _ _ _ (on_world_at get a w _ _ eq_refl)). rewrite Hd. cbn [mjoin option_join].
  unfold of_option. unfold checked_call at 1, ret.
  rewrite (bind_ok _ _ _ _ _ (catch_ok _ _ _ _ E)).
  unfold dx_destroy_event_subscription_task_data. rewrite (proj2 (Z.eqb_neq data 0)) by lia.
  assert (cl_heap w1 !! Z.to_nat (data - 1) = Some (Some d)) as Hd1 by exact Hd.
  unfold checked_call. rewrite (on_world_at get a w1 _ _ eq_refl). rewrite Hd1. reflexivity.
Qed.

Lemma subscriptions_done datas : forall ds w,
  ready w (zlen (concat (task_entries <$> ds))) -> Forall task_ok ds ->
  Forall2 (heap_has (cl_heap w)) datas ds -> NoDup datas ->
  exists w' idss, all_done run (subscription_task <$> datas) w w' /\
    cl_network w' = took (concat (zip_with task_messages idss ds)) (cl_network w) /\
    Forall2 (fun ids d => named (cl_dscc w') ids (task_entries d)) idss ds /\
    cl_protocol w' = cl_protocol w /\ registry_ok (cl_dscc w') /\ keeps_names (cl_dscc w) (cl_dscc w').
Proof using Hsend calloc_works.
  induction datas as [|data datas IH]; intros ds w Hw Hds Hheap Hnd; inversion Hheap as [|? d ? ds' Hd Hrest]; subst.
  { exists w, []. cbn. rewrite took_nil. split_and!; [constructor|done|constructor|done|apply Hw|reflexivity]. }
  inversion_clear Hnd as [|? ? Hni Hnd']. apply Forall_cons in Hds as [Hdok Hds].
  cbn [fmap list_fmap concat] in *. pose proof (zlen_nonneg (concat (task_entries <$> ds'))) as Hz.
  destruct Hw as [Hok Hroom Hp Hnet]. rewrite zlen_app in Hroom.
  destruct (run_subscription w data d) as (w1 & ids & E & Hn1 & Hids & Hp1 & Hh1 & Hok1 & K1 & N1);
    [constructor; try done; lia|done|done|].
  destruct (IH ds' w1) as (w2 & idss & E2 & Hn2 & Hids2 & Hp2 & Hok2 & K2).
  - constructor; [done|unfold zlen in *; lia|by rewrite Hp1|by rewrite Hn1; apply took_sending].
  - done.
  - rewrite Hh1. clear -Hrest Hni Hd. destruct Hd as [Hpos _]. induction Hrest as [|data' d' datas ds [Hpos' Hd'] _ IH]; constructor.
    + split; [done|]. rewrite list_lookup_insert_ne; [done|]. apply not_elem_of_cons in Hni. lia.
    + apply IH. by apply not_elem_of_cons in Hni as [_ ?].
  - done.
  - exists w2, (ids :: idss). split_and!.
    + econstructor; [exact E|exact E2].
    + rewrite Hn2, Hn1, took_app. done.
    + constructor; [|done]. eapply Forall2_impl; [exact Hids|]. intros id e Hid. by apply K2.
    + congruence.
    + done.
    + by etrans.
Qed.
(** ** The whole queue *)

Let alloc (n : nat) : bool := calloc_ok (Z.of_nat n).
Let alloc_works n : alloc n = true := calloc_works (Z.of_nat n).
Let execute := dx_execute_task_queue run alloc.

(** The tasks of a connection whose protocol is described and not answered yet. *)
Definition waiting_tasks (datas : list Z) : list dx_task_data_t :=
  countdown_task :: records_task :: (subscription_task <$> datas).

(** The state of such a connection, with subscriptions to come. *)
Record waiting (datas : list Z) (ds : list dx_event_subscription_task_data_t) (s : client) : Prop := {
  wait_queue : array_wf (tq s) /\ contents (tq s) = waiting_tasks datas;
  wait_pending : describe_protocol_status (cl_protocol (tq_world s)) = dx_dps_pending;
  wait_registry : registry_ok (cl_dscc (tq_world s));
  wait_names : names_ok (cl_dscc (tq_world s));
  wait_room : Z.of_nat (arr_size (records_list (cl_dscc (tq_world s)))) + zlen (concat (task_entries <$> ds)) <= INT_MAX;
  wait_length : zlen (descriptions_bytes (cl_dscc (tq_world s))) <= 2 ^ 27;
  wait_sending : sending (cl_network (tq_world s));
  wait_tasks : Forall task_ok ds;
  wait_heap : Forall2 (heap_has (cl_heap (tq_world s))) datas ds /\ NoDup datas;
}.

Lemma execute_waits datas ds s fuel :
  waiting datas ds s -> waited now (cl_protocol (tq_world s)) < DESCRIBE_PROTOCOL_TIMEOUT ->
  exists a, execute (S fuel) false s = Ok true (TqState a (tq_world s)) /\ array_wf a /\ contents a = waiting_tasks datas.
Proof using calloc_works.
  intros [[Ha Hc] Hp _ _ _ _ _ _ _] Hw. destruct s as [a w]. cbn [tq tq_world] in *.
  pose proof (run_countdown a w _ _ (countdown_waits now _ Hp Hw)) as Hr. rewrite set_cl_protocol_same in Hr.
  destruct (execute_round run alloc alloc_works [] _ _ w _ [] w a a Hr Ha (eq_sym (app_nil_r _)) Ha Hc) as (a' & Ha' & Hc' & E).
  exists a'. split; [exact (E fuel)|split; [done|]]. rewrite Hc'. cbn. by rewrite app_nil_r.
Qed.

Lemma execute_ends datas ds s fuel :
  waiting datas ds s -> DESCRIBE_PROTOCOL_TIMEOUT <= waited now (cl_protocol (tq_world s)) ->
  (length datas + 2 < fuel)%nat ->
  exists a w' idss, execute fuel false s = Ok true (TqState a w') /\ contents a = [] /\
    cl_network w' = took (message_bytes MESSAGE_DESCRIBE_RECORDS (descriptions_bytes (cl_dscc (tq_world s))) ++
      concat (zip_with task_messages idss ds)) (cl_network (tq_world s)) /\
    Forall2 (fun ids d => named (cl_dscc w') ids (task_entries d)) idss ds /\
    cl_protocol w' = legacy (cl_protocol (tq_world s)) /\ registry_ok (cl_dscc w') /\
    keeps_names (cl_dscc (tq_world s)) (cl_dscc w').
Proof using Hsend calloc_works.
  intros [[Ha Hc] Hp Hok Hn Hroom Hlen Hs Hds [Hheap Hnd]] Hw Hf. destruct s as [a w]. cbn [tq tq_world] in *.
  set (w1 := set_cl_protocol (legacy (cl_protocol w)) w). pose proof (zlen_nonneg (concat (task_entries <$> ds))).
  destruct (send_records_spec calloc_ok calloc_works dx_send Hsend w1) as (c & E); [done|done|cbn; lia|done|done|].
  set (w2 := after_sending _ _ _ w1) in E.
  destruct (subscriptions_done datas ds w2) as (w3 & idss & E3 & Hn3 & Hids & Hp3 & Hok3 & K3).
  - constructor; [by apply registry_ok_said|done|apply legacy_supports|by apply took_sending].
  - done.
  - done.
  - done.
  - destruct (execute_all_done run alloc alloc_works (waiting_tasks datas) w w3) with (a := a) as (a' & _ & Hc' & E'); [|done|done|].
    + econstructor; [intros a0; apply run_countdown; by apply countdown_ends|].
      econstructor; [by apply run_records|exact E3].
    + exists a', w3, idss. split_and!.
      * apply E'. cbn [waiting_tasks length]. rewrite length_fmap. lia.
      * done.
      * rewrite Hn3. unfold w2, after_sending. cbn. by rewrite took_app.
      * done.
      * by rewrite Hp3.
      * done.
      * exact K3.
Qed.
End tasks.
