(* ===== verification/QueueThread.v ===== *)
(** * QueueThread: the thread of the tasks ([dx_queue_executor] of [src/DXNetwork.c])

    The loop that sends the heartbeats of the client, watches over those of the
    server, and executes the tasks of [ClientMessages].  A round of the loop is a
    function of the state and of the clocks; the other thread of the connection,
    the reader of the socket, is seen through the fields that it sets. *)

From Stdlib Require Import Ascii String.
From S2P Require Import Prelude Arrays Algorithms Output Input Wire SymbolCodec Framing Compose EventData.
From S2P Require Import DataStructures Subscription MessageData Properties TaskQueue NetworkContext.
From S2P Require Import Heartbeat RecordTranscoder ServerData ServerProcessor ServerStream Describe.
From S2P Require Import ClientMessages ClientTheory ClientTasks.
Local Open Scope Z_scope.
Local Open Scope c_scope.

(** ** The state *)

(** The fields of [dx_network_connection_context_t] that the thread uses; those
    that [NetworkContext] has are in the client. *)
Record executor : Type := Executor {
  ex_client : client;
  next_heartbeat : Z;
  last_server_heartbeat : Z;
  heartbeat_period : Z;
  heartbeat_timeout : Z;
  queue_thread_termination_trigger : bool;
  reader_thread_state : bool;
  queue_thread_state : bool;
  queue_thread_error : dx_error_code;
}.
Definition set_ex_client (x : client) (s : executor) : executor :=
  Executor x (next_heartbeat s) (last_server_heartbeat s) (heartbeat_period s) (heartbeat_timeout s)
    (queue_thread_termination_trigger s) (reader_thread_state s) (queue_thread_state s) (queue_thread_error s).
Definition set_next_heartbeat (x : Z) (s : executor) : executor :=
  Executor (ex_client s) x (last_server_heartbeat s) (heartbeat_period s) (heartbeat_timeout s)
    (queue_thread_termination_trigger s) (reader_thread_state s) (queue_thread_state s) (queue_thread_error s).
Definition queue_failed (error : dx_error_code) (s : executor) : executor :=
  Executor (ex_client s) (next_heartbeat s) (last_server_heartbeat s) (heartbeat_period s) (heartbeat_timeout s)
    (queue_thread_termination_trigger s) (reader_thread_state s) false error.

Definition on_client {A} (m : M client A) : M executor A := on ex_client set_ex_client m.

(** What a round sees of the clocks: [time(NULL)] at its three calls,
    [dx_millisecond_timestamp], and the time in milliseconds and the time mark of
    a heartbeat. *)
Record clocks : Set := Clocks {
  time_server : Z;
  time_check : Z;
  time_sent : Z;
  now_millis : Z;
  currentTimeMillis : Z;
  currentTimeMark : Z;
}.

Section executor.
Context (calloc_ok : Z -> bool) (dx_send : list Z -> list Z -> Z + dx_error_code) (t : tables).

Let alloc (n : nat) : bool := calloc_ok (Z.of_nat n).

(** [dx_close_socket]; closing the socket itself is [close_ok]. *)
Definition dx_close_socket (close_ok : bool) : M client bool :=
  on_messages (update (dx_connection_status_set dxf_cs_not_connected));;;
  n <-- on_network get;;
  if negb (IS_FLAG_SET (nw_flags n) SOCKET_FIELD_FLAG) then ret true
  else
    on_network (put (set_nw_flags (Z.land (nw_flags n) (Z.lnot SOCKET_FIELD_FLAG)) n));;;
    ret close_ok.

Definition s_idle_timeout : Z := 100.
Definition s_small_timeout : Z := 25.

(** The sending of the heartbeat that is due; [false] when it fails. *)
Definition heartbeat_step (c : clocks) : M executor bool :=
  s <-- get;;
  if 0 <=? time_check c - next_heartbeat s then
    sent <-- catch (on_client (dx_send_heartbeat calloc_ok dx_send (currentTimeMillis c) (currentTimeMark c) true));;
    match sent with
    | inr _ => ret false
    | inl _ =>
        update (fun s => set_next_heartbeat (time_sent c + heartbeat_period s) s);;;
        ret true
    end
  else ret true.

(** A round of the loop: the milliseconds that it sleeps before the next, 0 when
    it does not, [None] when the loop ends.  [error] is the last error of the
    thread after the tasks, and [fuel] the number of tasks that are run. *)
Definition dx_queue_executor_round (close_ok : bool) (error : dx_error_code) (fuel : nat) (c : clocks)
  : M executor (option Z) :=
  s <-- get;;
  if negb (last_server_heartbeat s =? 0) && (heartbeat_timeout s <=? time_server c - last_server_heartbeat s) then
    on_client (dx_close_socket close_ok);;;
    ret (Some s_idle_timeout)
  else
    sent <-- heartbeat_step c;;
    if negb sent then ret (Some s_idle_timeout)
    else
      s <-- get;;
      if queue_thread_termination_trigger s then ret None
      else if negb (reader_thread_state s) || negb (queue_thread_state s) then ret (Some s_idle_timeout)
      else
        queue_empty <-- on_client (dx_is_queue_empty false false);;
        if queue_empty then ret (Some s_idle_timeout)
        else
          executed <-- on_client (dx_execute_task_queue
            (run_client_task calloc_ok dx_send t (now_millis c) (currentTimeMillis c) (currentTimeMark c)) alloc fuel false);;
          if negb executed then
            update (queue_failed error);;;
            ret (Some 0)
          else ret (Some s_small_timeout).

(** Rounds one after the other, while the reader waits for data. *)
Fixpoint rounds (close_ok : bool) (error : dx_error_code) (fuel : nat) (cs : list clocks) : M executor bool :=
  match cs with
  | [] => ret true
  | c :: cs' =>
      slept <-- dx_queue_executor_round close_ok error fuel c;;
      match slept with
      | None => ret false
      | Some _ => rounds close_ok error fuel cs'
      end
  end.
End executor.

(** ** Heartbeats *)

Lemma emits_if (b : bool) m bs : emits m bs -> emits (write_if b m) (bytes_if b bs).
Proof. intros H. destruct b; [done|]. apply emits_nil. Qed.

Lemma emits_payload malloc_ok p :
  (forall n, malloc_ok n = true) -> payload_ok p -> emits (composeTo malloc_ok p) (wire (payload_bytes p)).
Proof.
  intros Hm [Hmask Ht (H1 & H2 & H3) _]. unfold composeTo, payload_bytes. rewrite !wire_app, !wire_if, i64_id by (unfold is_i64; lia).
  apply emits_seq; [apply emits_compact_int; [done|apply i32_range]|].
  apply emits_seq; [apply emits_if; apply emits_compact_long; [done|unfold is_i64; lia]|].
  repeat apply emits_seq; by apply emits_if, emits_compact_int.
Qed.

(** What the connection keeps for its heartbeats. *)
Definition marks_ok (c : Connection) : Prop := is_i32 (lastDeltaMark_ c) /\ is_i32 (totalLag_ c).
Definition clocks_ok (c : clocks) : Prop := 0 <= currentTimeMillis c < 2 ^ 63 /\ is_i32 (currentTimeMark c).

Lemma outgoing_ok c conn :
  clocks_ok c -> marks_ok conn ->
  payload_ok (outgoing_payload (currentTimeMillis c) (currentTimeMark c) conn).1 /\
  marks_ok (outgoing_payload (currentTimeMillis c) (currentTimeMark c) conn).2.
Proof.
  intros [Ht Hm] [Hd Hl]. unfold outgoing_payload. split; [|split; [done|by vm_compute]].
  cbn [fst]. destruct (_ =? _); constructor; done.
Qed.

Definition heartbeat_message (c : clocks) (conn : Connection) : list Z :=
  message_bytes MESSAGE_HEARTBEAT
    (wire (payload_bytes (outgoing_payload (currentTimeMillis c) (currentTimeMark c) conn).1)).

Section thread.
Context (calloc_ok : Z -> bool) (calloc_works : forall n, calloc_ok n = true).
Context (dx_send : list Z -> list Z -> Z + dx_error_code) (Hsend : socket_sends dx_send).

Lemma send_heartbeat_spec c w :
  clocks_ok c -> marks_ok (cl_connection w) -> sending (cl_network w) ->
  exists o, evolves (dx_send_heartbeat calloc_ok dx_send (currentTimeMillis c) (currentTimeMark c) true) w tt
    (set_cl_network (took (heartbeat_message c (cl_connection w)) (cl_network w))
      (set_cl_connection (outgoing_payload (currentTimeMillis c) (currentTimeMark c) (cl_connection w)).2 (set_cl_out o w))).
Proof using Hsend calloc_works.
  intros Hc Hm Hs. destruct (outgoing_ok c _ Hc Hm) as [Hp _].
  destruct (outgoing_payload (currentTimeMillis c) (currentTimeMark c) (cl_connection w)) as [p conn'] eqn:E. cbn [fst snd] in *.
  assert (body_emits (createOutgoingHeartbeat calloc_ok (currentTimeMillis c) (currentTimeMark c)) (cl_connection w)
    (wire (payload_bytes p)) conn') as Hb.
  { unfold createOutgoingHeartbeat. apply (body_emits_state _ _ _ (cl_connection w) _ (cl_connection w)); [done|].
    rewrite E. apply (body_emits_state _ _ _ conn' _ tt); [done|]. by apply body_emits_out, emits_payload. }
  assert (zlen (wire (payload_bytes p)) <= 2 ^ 27) as Hl.
  { rewrite length_wire. pose proof (codec_need_bound (Codec := payload_codec calloc_ok) p) as Hn.
    change (zlen (payload_bytes p) <= 29) in Hn. lia. }
  destruct (compose_emits calloc_ok calloc_works 1024 MESSAGE_HEARTBEAT _ _ _ _ (cl_out w) ltac:(lia) ltac:(by_compute) Hl Hb)
    as (o & Eo).
  exists o. eapply evolves_bind.
  { intros a. apply on_world_at. unfold on. by rewrite Eo. }
  unfold heartbeat_message. rewrite E. apply (send_at _ Hsend _ (set_cl_connection conn' (set_cl_out o w))); [done|apply message_nonempty].
Qed.
(** The messages of the heartbeats that rounds at these times may send. *)
Inductive heartbeats : list clocks -> list Z -> Prop :=
  | no_heartbeats : heartbeats [] []
  | heartbeat_not_due c cs bs : heartbeats cs bs -> heartbeats (c :: cs) bs
  | heartbeat_due c cs conn bs : heartbeats cs bs -> heartbeats (c :: cs) (heartbeat_message c conn ++ bs).

(** Nothing but heartbeats happened. *)
Record beats (bs : list Z) (w w' : client_world) : Prop := {
  beats_dscc : cl_dscc w' = cl_dscc w;
  beats_protocol : cl_protocol w' = cl_protocol w;
  beats_heap : cl_heap w' = cl_heap w;
  beats_network : cl_network w' = took bs (cl_network w);
  beats_marks : marks_ok (cl_connection w');
}.
Lemma beats_trans b1 b2 w w1 w2 : beats b1 w w1 -> beats b2 w1 w2 -> beats (b1 ++ b2) w w2.
Proof using Type. intros [] []. constructor; try congruence. by rewrite <- took_app; congruence. Qed.

(** The state of the executor when its client changes. *)
Definition moved (s s' : executor) : Prop :=
  exists h, s' = set_ex_client (ex_client s') (set_next_heartbeat h s).
Lemma moved_trans s s1 s2 : moved s s1 -> moved s1 s2 -> moved s s2.
Proof using Type. intros [h1 ->] [h2 ->]. by exists h2. Qed.

(** The thread goes on to the tasks. *)
Definition live (s : executor) (c : clocks) : Prop :=
  (last_server_heartbeat s = 0 \/ time_server c - last_server_heartbeat s < heartbeat_timeout s) /\
  queue_thread_termination_trigger s = false /\ reader_thread_state s = true /\ queue_thread_state s = true.
Lemma live_moved s s' c : moved s s' -> live s c -> live s' c.
Proof using Type. by intros [h ->]. Qed.

Lemma on_client_at {A} (m : M client A) s v x :
  m (ex_client s) = Ok v x -> on_client m s = Ok v (set_ex_client x s).
Proof using Type. intros E. unfold on_client, on. by rewrite E. Qed.

Lemma heartbeat_step_spec c s :
  clocks_ok c -> marks_ok (cl_connection (tq_world (ex_client s))) -> sending (cl_network (tq_world (ex_client s))) ->
  exists s' bs, heartbeat_step calloc_ok dx_send c s = Ok true s' /\ heartbeats [c] bs /\ moved s s' /\
    tq (ex_client s') = tq (ex_client s) /\ beats bs (tq_world (ex_client s)) (tq_world (ex_client s')).
Proof using Hsend calloc_works.
  intros Hc Hm Hs. unfold heartbeat_step. unfold checked_call at 1, get at 1. destruct (0 <=? time_check c - next_heartbeat s).
  - destruct s as [[a w] h l p hto tr rs qs e]. cbn [ex_client tq_world tq] in *.
    destruct (send_heartbeat_spec c w Hc Hm Hs) as (o & E). set (w1 := set_cl_network _ _) in E.
    eexists _, (heartbeat_message c (cl_connection w) ++ []). split_and!.
    + rewrite (bind_ok _ _ _ _ _ (catch_ok _ _ _ _ (on_client_at _ (Executor (TqState a w) h l p hto tr rs qs e) _ _ (E a)))). reflexivity.
    + do 2 constructor.
    + by eexists.
    + done.
    + constructor; try done; [cbn; by rewrite app_nil_r|exact (proj2 (outgoing_ok c _ Hc Hm))].
  - exists s, []. split_and!; [done|repeat constructor|by exists (next_heartbeat s); destruct s|done|].
    constructor; try done. by rewrite took_nil.
Qed.

(** The rest of a round, after the heartbeats. *)
Lemma round_after_heartbeat close_ok error fuel c s s1 b a w' :
  live s c -> heartbeat_step calloc_ok dx_send c s = Ok true s1 -> moved s s1 -> arr_size (tq (ex_client s1)) <> 0%nat ->
  dx_execute_task_queue (run_client_task calloc_ok dx_send codec_tables (now_millis c) (currentTimeMillis c)
    (currentTimeMark c)) (fun n => calloc_ok (Z.of_nat n)) fuel false (ex_client s1) = Ok b (TqState a w') ->
  b = true ->
  dx_queue_executor_round calloc_ok dx_send codec_tables close_ok error fuel c s =
    Ok (Some s_small_timeout) (set_ex_client (TqState a w') s1).
Proof using Type.
  intros (Hl & Ht & Hr & Hq) Eh Hmv Hne Ex ->. unfold dx_queue_executor_round. unfold checked_call at 1, get at 1.
  assert (negb (last_server_heartbeat s =? 0) && (heartbeat_timeout s <=? time_server c - last_server_heartbeat s) = false) as ->.
  { destruct (Z.eqb_spec (last_server_heartbeat s) 0); [done|]. destruct Hl; [done|]. cbn. lia. }
  rewrite (bind_ok _ _ _ _ _ Eh). cbn [negb]. unfold checked_call at 1, get at 1.
  destruct Hmv as [h Hmv]. rewrite Hmv in Hne, Ex |- *. destruct (ex_client s1) as [a1 w1]. clear Eh Hmv.
  destruct s as [cl h0 l p hto tr rs qs e]. cbn in Ht, Hr, Hq, Hne, Ex |- *. subst tr rs qs. cbn [negb orb].
  assert (on_client (size <-- get_size;; ret (size =? 0)%nat) (Executor (TqState a1 w1) h l p hto false true true e) =
    Ok false (Executor (TqState a1 w1) h l p hto false true true e)) as E0.
  { unfold on_client, on, checked_call, get_size. cbn. by rewrite (proj2 (Nat.eqb_neq _ _) Hne). }
  rewrite (bind_ok _ _ _ _ _ E0). by rewrite (bind_ok _ _ _ _ _ (on_client_at _ (Executor (TqState a1 w1) h l p hto false true true e) _ _ Ex)).
Qed.
(** ** Rounds that wait *)

Context (datas : list Z) (ds : list dx_event_subscription_task_data_t).
Context (close_ok : bool) (error : dx_error_code) (fuel : nat) (enough : (length datas + 2 < fuel)%nat).

Lemma waiting_beats s s' bs :
  waiting datas ds s -> array_wf (tq s') -> contents (tq s') = waiting_tasks datas ->
  beats bs (tq_world s) (tq_world s') -> waiting datas ds s'.
Proof using Type.
  intros [] Ha Hc []. constructor; try congruence; [done|]. rewrite beats_network0. by apply took_sending.
Qed.

Lemma waiting_size s : waiting datas ds s -> arr_size (tq s) <> 0%nat.
Proof using Type. intros [[Ha Hc] _ _ _ _ _ _ _ _] E. rewrite <- (length_contents _ Ha), Hc in E. done. Qed.

(** The state of the thread before the answer, and the times at which it runs. *)
Definition waiting_thread (s : executor) : Prop :=
  waiting datas ds (ex_client s) /\ marks_ok (cl_connection (tq_world (ex_client s))).
Definition runs (s : executor) (c : clocks) : Prop := live s c /\ clocks_ok c.
Definition early (s : executor) (c : clocks) : Prop :=
  waited (now_millis c) (cl_protocol (tq_world (ex_client s))) < DESCRIBE_PROTOCOL_TIMEOUT.

Let round := dx_queue_executor_round calloc_ok dx_send codec_tables close_ok error fuel.

Lemma heartbeat_first c s :
  waiting_thread s -> runs s c ->
  exists s1 bs, heartbeat_step calloc_ok dx_send c s = Ok true s1 /\ heartbeats [c] bs /\ moved s s1 /\
    beats bs (tq_world (ex_client s)) (tq_world (ex_client s1)) /\ waiting datas ds (ex_client s1).
Proof using Hsend calloc_works.
  intros [Hw Hm] [_ Hc]. destruct (heartbeat_step_spec c s Hc Hm (wait_sending _ _ _ Hw)) as (s1 & bs & E & Hb & Hmv & Hq & B).
  exists s1, bs. split_and!; [done|done|done|done|]. destruct (wait_queue _ _ _ Hw).
  by apply (waiting_beats (ex_client s) _ bs Hw); rewrite ?Hq.
Qed.

Lemma round_waits c s :
  waiting_thread s -> runs s c -> early s c ->
  exists s' bs, round c s = Ok (Some s_small_timeout) s' /\ heartbeats [c] bs /\ moved s s' /\ waiting_thread s' /\
    beats bs (tq_world (ex_client s)) (tq_world (ex_client s')).
Proof using Hsend calloc_works enough.
  intros Hs Hc He. destruct (heartbeat_first c s Hs Hc) as (s1 & bs & Eh & Hb & Hmv & B & Hw).
  destruct fuel as [|fuel']; [lia|].
  destruct (execute_waits calloc_ok calloc_works dx_send (now_millis c) (currentTimeMillis c) (currentTimeMark c)
    datas ds (ex_client s1) fuel' Hw) as (a & Ex & Ha & Hcont).
  { by rewrite (beats_protocol _ _ _ B). }
  exists (set_ex_client (TqState a (tq_world (ex_client s1))) s1), bs. split_and!.
  - by apply (round_after_heartbeat close_ok error (S fuel') c s s1 true); [apply Hc| | |by apply waiting_size| |].
  - done.
  - destruct Hmv as [h ->]. by exists h.
  - split; [|by apply B]. apply (waiting_beats (ex_client s1) _ []); [done..|]. cbn. constructor; try done; [by rewrite took_nil|apply B].
  - done.
Qed.

Lemma rounds_wait cs : forall s,
  waiting_thread s -> Forall (runs s) cs -> Forall (early s) cs ->
  exists s' bs, rounds calloc_ok dx_send codec_tables close_ok error fuel cs s = Ok true s' /\ heartbeats cs bs /\
    moved s s' /\ waiting_thread s' /\ beats bs (tq_world (ex_client s)) (tq_world (ex_client s')).
Proof using Hsend calloc_works enough.
  induction cs as [|c cs IH]; intros s Hs Hcs Hes.
  { exists s, []. split_and!; [done|constructor|exists (next_heartbeat s); by destruct s|done|].
    constructor; try done; [by rewrite took_nil|apply Hs]. }
  apply Forall_cons in Hcs as [Hc Hcs]. apply Forall_cons in Hes as [He Hes].
  destruct (round_waits c s Hs Hc He) as (s1 & b1 & E1 & H1 & M1 & W1 & B1).
  destruct (IH s1 W1) as (s2 & b2 & E2 & H2 & M2 & W2 & B2).
  - eapply Forall_impl; [exact Hcs|]. intros c' [Hl Hk]. split; [by eapply live_moved|done].
  - eapply Forall_impl; [exact Hes|]. intros c' Hc'. unfold early. by rewrite (beats_protocol _ _ _ B1).
  - exists s2, (b1 ++ b2). split_and!.
    + cbn [rounds]. by rewrite (bind_ok _ _ _ _ _ E1).
    + inversion H1 as [| ? ? ? H0|? ? conn ? H0]; subst; inversion H0; subst; [by constructor|].
      rewrite app_nil_r. by constructor.
    + by eapply moved_trans.
    + done.
    + by eapply beats_trans.
Qed.

Lemma round_ends c s :
  waiting_thread s -> runs s c -> ~ early s c ->
  exists s' bs idss, let w := tq_world (ex_client s) in let w' := tq_world (ex_client s') in
    round c s = Ok (Some s_small_timeout) s' /\ heartbeats [c] bs /\ contents (tq (ex_client s')) = [] /\
    cl_network w' = took (bs ++ message_bytes MESSAGE_DESCRIBE_RECORDS (descriptions_bytes (cl_dscc w)) ++
      concat (zip_with task_messages idss ds)) (cl_network w) /\
    Forall2 (fun ids d => named (cl_dscc w') ids (task_entries d)) idss ds /\
    cl_protocol w' = legacy (cl_protocol w) /\ keeps_names (cl_dscc w) (cl_dscc w').
Proof using Hsend calloc_works enough.
  intros Hs Hc He. destruct (heartbeat_first c s Hs Hc) as (s1 & bs & Eh & Hb & Hmv & B & Hw).
  destruct (execute_ends calloc_ok calloc_works dx_send Hsend (now_millis c) (currentTimeMillis c) (currentTimeMark c)
    datas ds (ex_client s1) fuel Hw) as (a & w' & idss & Ex & Hcont & Hn & Hids & Hp & _ & K); [|done|].
  { rewrite (beats_protocol _ _ _ B). unfold early in He. lia. }
  exists (set_ex_client (TqState a w') s1), bs, idss. cbn [ex_client set_ex_client tq tq_world].
  rewrite (beats_dscc _ _ _ B) in Hn, K. rewrite (beats_protocol _ _ _ B) in Hp. rewrite (beats_network _ _ _ B), took_app in Hn.
  split_and!; try done.
  by apply (round_after_heartbeat close_ok error fuel c s s1 true); [apply Hc| | |by apply (waiting_size (ex_client s1))| |].
Qed.
End thread.

(** ** Properties *)

(** C23: subscriptions that wait for the server are sent in the end.  The
    protocol is described and not answered; the queue has the countdown, the task
    that describes the records, and subscriptions.  In every round of the thread
    before the timeout the queue stays as it is, and only heartbeats are sent;
    the first round after the timeout takes the server for one that knows all
    messages, and runs every task: the queue is empty, and the socket has taken,
    after the heartbeats, the description of the records that were not described,
    then the messages of all the subscriptions in their order, with the
    identifiers of the registered records. *)
Theorem pending_subscriptions_sent (calloc_ok : Z -> bool) (dx_send : list Z -> list Z -> Z + dx_error_code)
  (datas : list Z) (ds : list dx_event_subscription_task_data_t) (close_ok : bool) (error : dx_error_code) (fuel : nat)
  (cs : list clocks) (c : clocks) (s : executor) :
  (forall n, calloc_ok n = true) -> socket_sends dx_send -> (length datas + 2 < fuel)%nat ->
  waiting_thread datas ds s -> Forall (runs s) (cs ++ [c]) -> Forall (early s) cs -> ~ early s c ->
  exists s1 s2 hb1 hb2 idss,
    let w := tq_world (ex_client s) in let w1 := tq_world (ex_client s1) in let w2 := tq_world (ex_client s2) in
    (rounds calloc_ok dx_send codec_tables close_ok error fuel cs s = Ok true s1 /\ heartbeats cs hb1 /\
     contents (tq (ex_client s1)) = waiting_tasks datas /\ nw_out (cl_network w1) = nw_out (cl_network w) ++ hb1) /\
    dx_queue_executor_round calloc_ok dx_send codec_tables close_ok error fuel c s1 = Ok (Some s_small_timeout) s2 /\
    heartbeats [c] hb2 /\ contents (tq (ex_client s2)) = [] /\
    nw_out (cl_network w2) = nw_out (cl_network w1) ++ hb2 ++
      message_bytes MESSAGE_DESCRIBE_RECORDS (descriptions_bytes (cl_dscc w)) ++ concat (zip_with task_messages idss ds) /\
    Forall2 (fun ids d => Forall2 (fun id e => record_name (cl_dscc w2) id = Some e.1) ids (task_entries d)) idss ds /\
    describe_protocol_status (cl_protocol w2) = dx_dps_not_received.
Proof.
  intros Hcalloc Hsend Hf Hs Hcs He Hc. apply Forall_app in Hcs as [Hcs Hr]. apply Forall_cons in Hr as [Hr _].
  destruct (rounds_wait calloc_ok Hcalloc dx_send Hsend datas ds close_ok error fuel Hf cs s Hs Hcs He)
    as (s1 & hb1 & E1 & H1 & M1 & W1 & B1).
  destruct (round_ends calloc_ok Hcalloc dx_send Hsend datas ds close_ok error fuel Hf c s1 W1) as
    (s2 & hb2 & idss & E2 & H2 & Hq & Hn & Hids & Hp & _).
  - destruct Hr as [Hl Hk]. split; [by eapply live_moved|done].
  - unfold early. by rewrite (beats_protocol _ _ _ B1).
  - rewrite (beats_dscc _ _ _ B1) in Hn. exists s1, s2, hb1, hb2, idss. cbn zeta. rewrite (beats_network _ _ _ B1) in Hn |- *.
    split; [split_and!; [exact E1|exact H1|apply (wait_queue _ _ _ (proj1 W1))|done]|]. split_and!; try done.
    + by rewrite Hn.
    + by rewrite Hp.
Qed.

(** ** Examples *)

Definition example_subscription : dx_event_subscription_task_data_t :=
  SubscriptionTaskData [] [Some (chars_of "IBM")] 64 false 0 1500000000123.
Definition example_executor : executor :=
  Executor
    (TqState (DxArray (waiting_tasks [1]) 3 3)
      (ClientWorld (OutCtx None 0 0) new_dscc (ProtocolCtx 0 0 dx_dps_pending 5000 DX_EMPTY_ARRAY dxf_cs_connected)
        example_network new_connection [Some example_subscription]))
    1600000005 0 10 120 false true true dx_ec_success.
Definition example_clocks (second millis : Z) : clocks :=
  Clocks second second second millis (1000 * second) (millis mod 2 ^ 30).

Lemma example_waiting : waiting_thread [1] [example_subscription] example_executor.
Proof.
  split; [|by vm_compute]. constructor.
  - split; [|done]. split; [apply Nat.le_refl|reflexivity].
  - reflexivity.
  - apply (proj1 new_dscc_ok).
  - constructor.
  - vm_compute. discriminate.
  - vm_compute. discriminate.
  - by split.
  - constructor; [|constructor]. constructor.
    + constructor.
    + split; by_compute.
    + repeat constructor; try by_compute; done.
  - split; [repeat constructor|]. repeat constructor. apply not_elem_of_nil.
Qed.

(** Three rounds, of which the last is late enough; the second and the third
    send heartbeats. *)
Lemma pending_subscriptions_sent_witness :
  exists s1 s2 hb ids,
    rounds (fun _ => true) slow_socket codec_tables true dx_ec_success 10
      [example_clocks 1600000004 5100; example_clocks 1600000005 6000] example_executor = Ok true s1 /\
    dx_queue_executor_round (fun _ => true) slow_socket codec_tables true dx_ec_success 10 (example_clocks 1600000015 16000) s1 =
      Ok (Some 25) s2 /\
    contents (tq (ex_client s2)) = [] /\
    nw_out (cl_network (tq_world (ex_client s2))) = nw_out (cl_network (tq_world (ex_client s1))) ++ hb ++
      message_bytes MESSAGE_DESCRIBE_RECORDS (descriptions_bytes new_dscc) ++
      concat (zip_with task_messages [ids] [example_subscription]).
Proof.
  destruct (pending_subscriptions_sent (fun _ => true) slow_socket [1] [example_subscription] true dx_ec_success 10
    [example_clocks 1600000004 5100; example_clocks 1600000005 6000] (example_clocks 1600000015 16000) example_executor)
    as (s1 & s2 & hb1 & hb2 & idss & (E1 & _) & E2 & _ & Hq & Ho & Hids & _).
  - done.
  - apply slow_socket_sends.
  - cbn. lia.
  - apply example_waiting.
  - repeat constructor; try by_compute; by left.
  - repeat constructor; by_compute.
  - intros H. by vm_compute in H.
  - apply Forall2_length in Hids as Hl. destruct idss as [|ids [|]]; try discriminate Hl.
    exists s1, s2, hb2, ids. exact (conj E1 (conj E2 (conj Hq Ho))).
Defined.
