(* ===== verification/ClientServer.v ===== *)
(** * ClientServer: the descriptions of a client at its peer

    What the message with the descriptions of the records, which [ClientMessages]
    sends, does at a peer that reads it as [ServerProcessor] reads the messages
    of the server: the peer knows the records by their names. *)

From Stdlib Require Import Ascii String.
From S2P Require Import Prelude Arrays Algorithms Output Input Wire SymbolCodec Loops Framing Compose EventData.
From S2P Require Import Doubles DataStructures Subscription RecordTranscoder RecordFields MessageData Properties TaskQueue.
From S2P Require Import NetworkContext Decimals Heartbeat ServerData ServerProcessor ServerStream Describe.
From S2P Require Import ClientMessages ClientTheory ClientTasks.
Local Open Scope Z_scope.
Local Open Scope c_scope.

(** ** The description of a record at a peer *)

(** The record [rid] is that of the identifier [id] of the other side, and its
    values are read field by field into the fields of the same name. *)
Definition knows (s : dscc) (id rid : Z) (item : dx_record_item_t) : Prop :=
  local_id (record_id_map s) id = rid /\
  arr_elements (record_digests s) !! Z.to_nat rid = Some (RecordDigest (own_field_digest <$> ri_fields item) true).

Definition record_at (s : dscc) (rid : Z) (name : list Z) (item : dx_record_item_t) : Prop :=
  record_name s rid = Some name /\ contents (records_list s) !! Z.to_nat rid = Some item.

(** Whole descriptions of records that the peer has under the same names. *)
Definition whole (s : dscc) (d : description) : Prop :=
  forall rid item, record_at s rid (d_name d) item -> d_fields d = own_fields (ri_info_id item).

Lemma record_at_list s s' rid name item :
  records_list s' = records_list s -> record_at s' rid name item <-> record_at s rid name item.
Proof. intros E. unfold record_at, record_name. by rewrite E. Qed.

Lemma record_at_item s rid name item : registry_ok s -> record_at s rid name item -> DataStructures.item_ok item /\
  (Z.to_nat rid < length (arr_elements (record_digests s)))%nat.
Proof.
  intros Hok [Hn Hi]. destruct (named_record s rid name Hok Hn) as (Hrid & item' & Hi' & _ & Hit & _).
  replace item' with item in * by congruence. split; [done|]. by apply digest_room.
Qed.

Lemma describes_list s d s1 : describes s d s1 -> records_list s1 = records_list s.
Proof. by intros [rid item m _ _ _ _ _|_]. Qed.

Lemma describes_known_record s d s1 rid item :
  dscc_ok s -> describes s d s1 -> whole s d -> record_at s rid (d_name d) item -> knows s1 (d_server_id d) rid item.
Proof.
  intros [Hok Hm] Hd Hw Hr. destruct (record_at_item s rid _ item Hok Hr) as [Hit Hroom]. pose proof (Hw _ _ Hr) as Hf.
  destruct Hd as [rid' item' m Hn Hi _ Hl _|Hno]; [|by destruct (Hno rid (proj1 Hr))].
  assert (rid' = rid) as -> by (eapply record_name_inj; [exact Hok|exact Hn|apply Hr]).
  assert (item' = item) as -> by (destruct Hr; congruence). split.
  - change (local_id m (d_server_id d) = rid). by rewrite Hl, decide_True by done.
  - unfold after_description, with_record, with_digest. cbn. rewrite list_lookup_insert_eq by done.
    by rewrite Hf, described_own.
Qed.

Lemma describes_other_id s d s1 id :
  describes s d s1 -> id <> d_server_id d -> local_id (record_id_map s1) id = local_id (record_id_map s) id.
Proof.
  intros [rid item m _ _ _ Hl _|_] Hne; [|done]. change (local_id m id = local_id (record_id_map s) id).
  by rewrite Hl, decide_False by done.
Qed.

Lemma describes_other_record s d s1 rid name item :
  registry_ok s -> describes s d s1 -> record_at s rid name item -> name <> d_name d ->
  arr_elements (record_digests s1) !! Z.to_nat rid = arr_elements (record_digests s) !! Z.to_nat rid.
Proof.
  intros Hok [rid' item' m Hn _ _ _ _|_] [Hr _] Hne; [|done]. unfold after_description, with_record, with_digest. cbn.
  apply list_lookup_insert_ne. intros E. apply Hne.
  destruct (named_record s rid name Hok Hr) as (H1 & _). destruct (named_record s rid' _ Hok Hn) as (H2 & _).
  assert (rid' = rid) as -> by lia. congruence.
Qed.

(** Descriptions with different identifiers and names are all known after. *)
Lemma all_described_known s ds s' :
  all_described s ds s' -> dscc_ok s -> NoDup (d_name <$> ds) -> NoDup (d_server_id <$> ds) -> Forall (whole s) ds ->
  records_list s' = records_list s /\
  (forall d rid item, d ∈ ds -> record_at s rid (d_name d) item -> knows s' (d_server_id d) rid item) /\
  (forall id, id ∉ d_server_id <$> ds -> local_id (record_id_map s') id = local_id (record_id_map s) id) /\
  (forall rid name item, record_at s rid name item -> name ∉ d_name <$> ds ->
     arr_elements (record_digests s') !! Z.to_nat rid = arr_elements (record_digests s) !! Z.to_nat rid).
Proof.
  induction 1 as [s|s d ds s1 s' Hd Hds IH]; intros Hok Hn Hid Hw.
  { split_and!; [done| |done|done]. intros d rid item Hin. by apply not_elem_of_nil in Hin. }
  cbn [fmap list_fmap] in Hn, Hid |- *. apply NoDup_cons in Hn as [Hn0 Hn]. apply NoDup_cons in Hid as [Hid0 Hid].
  apply Forall_cons in Hw as [Hw0 Hw]. pose proof (describes_list _ _ _ Hd) as El.
  destruct IH as (El' & Hk & Hids & Hrs); [by eapply describes_ok|done|done| |].
  { eapply Forall_impl; [exact Hw|]. intros d' Hd' rid item Hr. apply (Hd' rid). by apply (record_at_list s s1). }
  split_and!.
  - congruence.
  - intros d' rid item Hin Hr. apply elem_of_cons in Hin as [->|Hin].
    + destruct (describes_known_record s d s1 rid item Hok Hd Hw0 Hr) as [K1 K2]. split; [by rewrite Hids|].
      rewrite (Hrs rid (d_name d) item); [done|by apply (record_at_list s s1)|done].
    + apply Hk; [done|]. by apply (record_at_list s s1).
  - intros id Hni. apply not_elem_of_cons in Hni as [Hne Hni]. rewrite Hids by done.
    by eapply describes_other_id.
  - intros rid name item Hr Hni. apply not_elem_of_cons in Hni as [Hne Hni].
    rewrite (Hrs rid name item) by (done || by apply (record_at_list s s1)).
    eapply describes_other_record; [apply Hok|exact Hd|exact Hr|done].
Qed.

(** ** The descriptions of the client *)

Lemma names_of_own items n :
  d_name <$> imap (fun i => own_description (n + i)) items = (fun item => default [] (ri_name item)) <$> items.
Proof.
  revert n. induction items as [|item items IH]; intros n; [done|]. cbn [imap fmap list_fmap]. f_equal.
  rewrite <- (IH (S n)). f_equal. apply imap_ext. intros i x _. unfold compose. by rewrite Nat.add_succ_r.
Qed.
Lemma ids_of_own items n :
  d_server_id <$> imap (fun i => own_description (n + i)) items = Z.of_nat <$> seq n (length items).
Proof.
  revert n. induction items as [|item items IH]; intros n; [done|]. cbn [imap fmap list_fmap length seq].
  f_equal; [by rewrite Nat.add_0_r|]. rewrite <- (IH (S n)). f_equal. apply imap_ext. intros i x _.
  unfold compose. by rewrite Nat.add_succ_r.
Qed.

Section own.
Context (s : dscc) (Hok : registry_ok s).

Lemma own_unique : NoDup (d_name <$> own_descriptions s) /\ NoDup (d_server_id <$> own_descriptions s).
Proof using Hok.
  unfold own_descriptions. rewrite !fmap_drop. split.
  - eapply sublist_NoDup; [|apply sublist_drop].
    change (imap own_description (contents (records_list s))) with
      (imap (fun i => own_description (0 + i)) (contents (records_list s))). rewrite names_of_own.
    assert ((fun item => default [] (ri_name item)) <$> contents (records_list s) =
      (default []) <$> (ri_name <$> contents (records_list s))) as -> by (by rewrite <- list_fmap_compose).
    pose proof (ok_items s Hok) as Hi. pose proof (ok_unique s Hok) as Hu. clear Hok.
    induction Hi as [|item items Hit Hi IH]; [constructor|]. cbn [fmap list_fmap] in Hu |- *.
    apply NoDup_cons in Hu as [Hni Hu]. constructor; [|by apply IH]. intros Hin. apply Hni.
    apply list_elem_of_fmap in Hin as (nm & En & Hin). destruct (ok_named _ Hit) as (name & Hname & _).
    apply list_elem_of_fmap in Hin as (item' & -> & Hin).
    destruct (ok_named item') as (name' & Hname' & _); [by eapply Forall_forall in Hi|].
    apply list_elem_of_fmap. exists item'. split; [|done]. rewrite Hname, Hname' in *. cbn in En. congruence.
  - eapply sublist_NoDup; [|apply sublist_drop].
    change (imap own_description (contents (records_list s))) with
      (imap (fun i => own_description (0 + i)) (contents (records_list s))). rewrite ids_of_own.
    apply NoDup_fmap_2; [apply _|apply NoDup_seq].
Qed.

(** What is described: the records of the registry from the next one on. *)
Lemma own_lookup d : d ∈ own_descriptions s <->
  exists rid item, (Z.to_nat (new_record_id s) <= rid)%nat /\ contents (records_list s) !! rid = Some item /\
    d = own_description rid item.
Proof using Type.
  unfold own_descriptions. rewrite list_elem_of_lookup. setoid_rewrite lookup_drop. setoid_rewrite list_lookup_imap.
  split.
  - intros [i Hi]. destruct (contents (records_list s) !! _) as [item|] eqn:E; [|done]. injection Hi as <-.
    exists (Z.to_nat (new_record_id s) + i)%nat, item. split_and!; [lia|done|done].
  - intros (rid & item & Hl & Hi & ->). exists (rid - Z.to_nat (new_record_id s))%nat.
    replace (Z.to_nat (new_record_id s) + (rid - Z.to_nat (new_record_id s)))%nat with rid by lia. by rewrite Hi.
Qed.

Lemma own_description_ok :
  names_ok s -> Z.of_nat (arr_size (records_list s)) <= INT_MAX -> Forall description_ok (own_descriptions s).
Proof using Hok.
  intros Hn Hmax. apply Forall_forall. intros d (rid & item & _ & Hi & ->)%own_lookup.
  pose proof (ok_items s Hok) as Hit. rewrite Forall_forall in Hit. specialize (Hit item (list_elem_of_lookup_2 _ _ _ Hi)).
  destruct (ok_named _ Hit) as (name & Hname & _). destruct (own_fields_ok (ri_info_id item)) as [Hf Hl].
  apply lookup_lt_Some in Hi as Hlt. rewrite length_contents in Hlt by apply Hok.
  unfold description_ok, own_description. cbn [d_server_id d_name d_fields]. rewrite Hname.
  split_and!; [unfold is_i32, INT_MAX in *; lia| |done|done].
  unfold names_ok in Hn. rewrite Forall_forall in Hn. by apply (Hn item (list_elem_of_lookup_2 _ _ _ Hi)).
Qed.

(** A peer whose record has the same name has the same fields. *)
Lemma own_whole peer : registry_ok peer -> Forall (whole peer) (own_descriptions s).
Proof using Hok.
  intros Hpeer. apply Forall_forall. intros d (rid & item & _ & Hi & ->)%own_lookup rid' item' Hr.
  pose proof (ok_items s Hok) as Hit. rewrite Forall_forall in Hit. specialize (Hit item (list_elem_of_lookup_2 _ _ _ Hi)).
  destruct (ok_named _ Hit) as (name & Hname & Hinfo). destruct Hr as [Hn' Hi']. cbn [own_description d_name d_fields] in *.
  rewrite Hname in Hn'. destruct (named_record peer rid' name Hpeer Hn') as (_ & item2 & Hi2 & Hname2 & Hit2 & _).
  replace item2 with item' in * by congruence. destruct (ok_named _ Hit2) as (name3 & Hname3 & Hinfo3). congruence.
Qed.
End own.

(** ** The message at the peer *)

Section peer.
Context (calloc_ok : Z -> bool) (calloc_works : forall n, calloc_ok n = true) (mbsrtowcs : list Z -> option (list Z)).
Context (process : tc_event -> option dx_error_code) (parse_wide : Z -> dxf_double_t).
Context (dx_symbol_name_hasher : list Z -> Z) (t : tables) (currentTimeMark : Z) (has_notifier : bool).

(** The context of the data with other data structures. *)
Definition with_dscc (x : dscc) (d : data_ctx) : data_ctx := set_dc_tc (set_tc_dscc x (dc_tc d)) d.

Lemma handles_descriptions ds d pr conn :
  dscc_ok (tc_dscc (dc_tc d)) -> Forall description_ok ds ->
  exists x1, all_described (tc_dscc (dc_tc d)) ds x1 /\ dscc_ok x1 /\
    handles calloc_ok mbsrtowcs process parse_wide dx_symbol_name_hasher t currentTimeMark has_notifier
      (wire (compact_int_bytes MESSAGE_DESCRIBE_RECORDS) ++ concat (bytes_of <$> ds)) (d, pr, conn)
      (with_dscc x1 d, pr, conn).
Proof using calloc_works.
  intros Hok Hds. destruct (describe_message calloc_ok calloc_works _ ds Hok Hds) as (x1 & Hx & Hok1 & E).
  exists x1. split; [done|]. split; [done|]. apply handles_type; [done|done|].
  intros s tail ((Hs & _) & Hr & Hm) Hx0. specialize (E (sv_data s) (bicc s) tail (proj1 Hs) Hr Hm).
  injection Hx0 as <- <- <-.
  exists (set_sv_data (ctx_at (sv_data s) (advance (bicc s) (zlen (concat (bytes_of <$> ds)))) x1) s).
  split; [|by split_and!].
  unfold dx_process_message.
  change (dx_is_data_message MESSAGE_DESCRIBE_RECORDS) with false.
  change (dx_is_subscription_message MESSAGE_DESCRIBE_RECORDS) with false. cbv iota. rewrite Z.eqb_refl.
  unfold checked_length, on_data, on. fold (bicc s).
  assert (sv_data s = ctx_at (sv_data s) (bicc s) (tc_dscc (dc_tc (set_dc_in (InCtx None 0 0 0) (sv_data s))))) as E0.
  { by destruct s as [[? ? ? ? [] ? ?]]. }
  rewrite E0 at 1. by rewrite E.
Qed.
End peer.

(** ** Properties *)

(** C25: what a client describes, a peer understands.  The client writes the
    descriptions of the records that it did not describe before into a message,
    which the socket takes; the peer, who has a registry of its own, gets the
    bytes in pieces that begin and end anywhere.  Then the peer knows every record
    that was described and that it has under the same name: the identifier of the
    client means its own record, and the values of the client are read field by
    field, in order, each into the field of the same name, with nothing by
    default.  Other identifiers mean what they meant, and no byte is left. *)
Theorem records_understood (calloc_ok : Z -> bool) (dx_send : list Z -> list Z -> Z + dx_error_code)
  (mbsrtowcs : list Z -> option (list Z)) (process : tc_event -> option dx_error_code)
  (parse_wide : Z -> dxf_double_t) (dx_symbol_name_hasher : list Z -> Z) (t : tables) (currentTimeMark : Z)
  (has_notifier : bool) (a : dx_array dx_task_data_t) (w : client_world) (s : server_ctx) :
  let mine := cl_dscc w in let peer s := tc_dscc (dc_tc (sv_data s)) in
  let feed := feed calloc_ok mbsrtowcs process parse_wide dx_symbol_name_hasher t currentTimeMark has_notifier in
  (forall n, calloc_ok n = true) -> socket_sends dx_send -> sending (cl_network w) ->
  registry_ok mine -> names_ok mine -> Z.of_nat (arr_size (records_list mine)) <= INT_MAX ->
  zlen (descriptions_bytes mine) <= 2 ^ 27 ->
  server_wf s -> unread s = [] -> dscc_ok (peer s) ->
  exists w' bs, dx_send_record_description calloc_ok dx_send true (TqState a w) = Ok tt (TqState a w') /\
    nw_out (cl_network w') = nw_out (cl_network w) ++ bs /\
    forall pieces, concat pieces = bs -> Forall (fun piece => piece <> []) pieces ->
    exists s', feed pieces s = Ok true s' /\ server_wf s' /\ unread s' = [] /\
      records_list (peer s') = records_list (peer s) /\
      (forall id rid name item, new_record_id mine <= id -> record_name mine id = Some name ->
         record_at (peer s) rid name item -> knows (peer s') id rid item) /\
      (forall id, id < new_record_id mine \/ Z.of_nat (arr_size (records_list mine)) <= id ->
         local_id (record_id_map (peer s')) id = local_id (record_id_map (peer s)) id).
Proof.
  intros mine peer feed Hcalloc Hsend Hnet Hok Hn Hmax Hlen Hwf Hu Hpeer.
  destruct (send_records_spec calloc_ok Hcalloc dx_send Hsend w Hok Hn Hmax Hlen Hnet) as (c & E).
  eexists _, (message_bytes MESSAGE_DESCRIBE_RECORDS (descriptions_bytes mine)). split; [apply E|]. split; [done|].
  intros pieces Epieces Hne. pose proof (own_description_ok mine Hok Hn Hmax) as Hds.
  destruct (handles_descriptions calloc_ok Hcalloc mbsrtowcs process parse_wide dx_symbol_name_hasher t currentTimeMark
    has_notifier (own_descriptions mine) (set_dc_in (InCtx None 0 0 0) (sv_data s)) (sv_protocol s) (sv_connection s))
    as (x1 & Hx & Hok1 & Hh); [exact Hpeer|done|].
  destruct (feed_pieces calloc_ok mbsrtowcs process parse_wide dx_symbol_name_hasher t currentTimeMark has_notifier
    Hcalloc pieces (server_rest s) _ [_] s Hwf eq_refl (ex_intro _ _ (conj Hh eq_refl)) Hne) as (s' & Ef & Hwf' & Hrest & Hu').
  { rewrite Hu, Epieces. cbn. by rewrite app_nil_r. }
  { rewrite Hu. cbn [app]. rewrite Epieces. unfold message_bytes. rewrite length_frame, zlen_app, length_wire.
    match goal with |- context [compact_int_bytes (?x + ?y)] => pose proof (length_compact_int (x + y)) end.
    pose proof (length_compact_int MESSAGE_DESCRIBE_RECORDS). unfold descriptions_bytes in *. unfold INT_MAX. lia. }
  { by left. }
  assert (peer s' = x1) as Ex by exact (f_equal (fun r : rest_state => tc_dscc (dc_tc r.1.1)) Hrest).
  destruct (own_unique mine Hok) as [Hn1 Hn2].
  destruct (all_described_known _ _ _ Hx Hpeer Hn1 Hn2 (own_whole mine Hok _ (proj1 Hpeer))) as (El & Hk & Hids & _).
  exists s'. split_and!; [done|done|done|by rewrite Ex| |]; rewrite Ex.
  - intros id rid name item Hid Hname Hr. destruct (record_of_name mine id name Hok Hname) as (Hrange & it & Hi & _).
    pose proof (ok_next mine Hok). rewrite <- (Z2Nat.id id) by lia. apply (Hk (own_description (Z.to_nat id) it)).
    + apply own_lookup. exists (Z.to_nat id), it. split_and!; [lia|done|done].
    + destruct (named_record mine id name Hok Hname) as (_ & it' & Hi' & En & _). replace it' with it in * by congruence.
      cbn [own_description d_name]. by rewrite En.
  - intros id Hid. apply Hids. intros (d & -> & (rid & it & Hl & Hi & ->)%own_lookup)%list_elem_of_fmap.
    apply lookup_lt_Some in Hi. rewrite length_contents in Hi by apply Hok. pose proof (ok_next mine Hok).
    cbn [own_description d_server_id] in Hid. lia.
Qed.

(** The record of the candles, described to a peer that has it too, a byte at a
    time. *)
Definition candle_world : client_world := set_cl_dscc dscc_example example_world.
Definition candle_server : server_ctx :=
  set_sv_data (set_dc_tc (set_tc_dscc dscc_example (dc_tc (sv_data example_server))) (sv_data example_server)) example_server.

Lemma records_understood_witness :
  exists w' bs s', dx_send_record_description (fun _ => true) slow_socket true (TqState DX_EMPTY_ARRAY candle_world) =
      Ok tt (TqState DX_EMPTY_ARRAY w') /\
    nw_out (cl_network w') = nw_out example_network ++ bs /\
    feed (fun _ => true) Some (fun _ => None) double_of_int (fun _ => 0) codec_tables 1000 true
      ((fun b => [b]) <$> bs) candle_server = Ok true s' /\ unread s' = [].
Proof.
  destruct (records_understood (fun _ => true) slow_socket Some (fun _ => None) double_of_int (fun _ => 0) codec_tables
    1000 true DX_EMPTY_ARRAY candle_world candle_server) as (w' & bs & E & Eo & H).
  - done.
  - apply slow_socket_sends.
  - by split.
  - apply dscc_example_ok.
  - constructor; [|constructor]. intros name Hname. injection Hname as <-. by apply name_check_ok.
  - vm_compute. discriminate.
  - vm_compute. discriminate.
  - destruct example_server_wf; by constructor.
  - by_compute.
  - split; [apply dscc_example_ok|apply new_dscc_ok].
  - destruct (H ((fun b => [b]) <$> bs)) as (s' & Ef & _ & Hu & _).
    + clear. induction bs; [done|]. cbn. by rewrite IHbs.
    + apply Forall_fmap, Forall_true. done.
    + exists w', bs, s'. exact (conj E (conj Eo (conj Ef Hu))).
Defined.
