(* ===== verification/AddressParser.v ===== *)
(** * AddressParser: the addresses of a connection ([src/DXAddressParser.c])

    A collection of addresses is a string; the parser moves pointers in it.  A
    pointer is a position in the string, whose end reads as the null symbol;
    [None] is a null pointer where there may be one.  Out parameters are results.
    The strings are lists of characters without null symbols. *)

From Stdlib Require Import Ascii String.
From S2P Require Import Prelude Arrays Algorithms Output EventData.
Local Open Scope Z_scope.
Local Open Scope c_scope.

(** ** Data *)

Record dx_codec_tls_t : Type := CodecTls {
  tls_enabled : bool;
  tls_key_store : option (list Z);
  tls_key_store_password : option (list Z);
  tls_trust_store : option (list Z);
  tls_trust_store_password : option (list Z);
}.
Record dx_address_t : Type := Address {
  ad_host : option (list Z);
  ad_port : option (list Z);
  ad_username : option (list Z);
  ad_password : option (list Z);
  ad_tls : dx_codec_tls_t;
  ad_gzip : bool;
}.
Definition no_tls : dx_codec_tls_t := CodecTls false None None None None.
Definition zero_address : dx_address_t := Address None None None None no_tls false.

Definition set_host_port (host port : option (list Z)) (a : dx_address_t) : dx_address_t :=
  Address host port (ad_username a) (ad_password a) (ad_tls a) (ad_gzip a).
Definition set_username (x : option (list Z)) (a : dx_address_t) : dx_address_t :=
  Address (ad_host a) (ad_port a) x (ad_password a) (ad_tls a) (ad_gzip a).
Definition set_password (x : option (list Z)) (a : dx_address_t) : dx_address_t :=
  Address (ad_host a) (ad_port a) (ad_username a) x (ad_tls a) (ad_gzip a).
Definition set_tls (x : dx_codec_tls_t) (a : dx_address_t) : dx_address_t :=
  Address (ad_host a) (ad_port a) (ad_username a) (ad_password a) x (ad_gzip a).
Definition set_gzip (a : dx_address_t) : dx_address_t :=
  Address (ad_host a) (ad_port a) (ad_username a) (ad_password a) (ad_tls a) true.

Definition null_symbol : Z := 0.
Definition port_min : Z := 0.
Definition port_max : Z := 65535.
Definition host_port_splitter : Z := 58.
Definition entry_begin_symbol : Z := 40.
Definition entry_end_symbol : Z := 41.
Definition whitespace : Z := 32.
Definition codec_splitter : Z := 43.
Definition properties_begin_symbol : Z := 91.
Definition properties_end_symbol : Z := 93.
Definition properties_splitter : Z := 44.
Definition property_value_splitter : Z := 61.
Definition schemes : list (list Z) := [chars_of "file:/"; chars_of "http://"; chars_of "https://"].

(** ** Pointers into a string *)

Definition char_at (s : list Z) (p : Z) : Z := nth (Z.to_nat p) s null_symbol.

(** [strchr] from a position on, and [strrchr]. *)
Fixpoint chr_loop (l : list Z) (i ch : Z) : option Z :=
  match l with
  | [] => None
  | c :: l' => if c =? ch then Some i else chr_loop l' (i + 1) ch
  end.
Definition strchr (s : list Z) (from ch : Z) : option Z := chr_loop (drop (Z.to_nat from) s) from ch.
Fixpoint rchr_loop (l : list Z) (i ch : Z) (found : option Z) : option Z :=
  match l with
  | [] => found
  | c :: l' => rchr_loop l' (i + 1) ch (if c =? ch then Some i else found)
  end.
Definition strrchr (s : list Z) (ch : Z) : option Z := rchr_loop s 0 ch None.

Definition to_lower (c : Z) : Z := if (65 <=? c) && (c <=? 90) then c + 32 else c.
Definition same_case (a b : list Z) : bool := bool_decide (to_lower <$> a = to_lower <$> b).

(** The positions before the end are rounds enough. *)
Fixpoint empty_loop (n : nat) (s : list Z) (entry_begin entry_end : Z) : bool :=
  match n with
  | O => false
  | S n' =>
      if char_at s entry_begin =? whitespace then
        if entry_begin =? entry_end then true else empty_loop n' s (entry_begin + 1) entry_end
      else false
  end.
Definition dx_is_empty_entry (s : list Z) (entry_begin entry_end : Z) : bool :=
  if entry_end <=? entry_begin then true
  else empty_loop (S (Z.to_nat (zlen s - entry_begin))) s entry_begin entry_end.

Definition dx_find_first (s : list Z) (from to ch : Z) : option Z :=
  pos ← strchr s from ch;
  if to <? pos then None else Some pos.

Definition dx_find_first_of_values (s : list Z) (from to first second : Z) : option Z :=
  match dx_find_first s from to first, dx_find_first s from to second with
  | None, second_pos => second_pos
  | first_pos, None => first_pos
  | Some a, Some b => Some (Z.min a b)
  end.

Definition dx_has_next (s : list Z) (next : option Z) : bool :=
  match next with None => false | Some p => negb (char_at s p =? null_symbol) end.

Definition is_digit (c : Z) : bool := (48 <=? c) && (c <=? 57).
Definition dx_is_numeric (str : list Z) : bool := negb (bool_decide (str = [])) && forallb is_digit str.
Definition digits_value (str : list Z) : Z := fold_left (fun v c => 10 * v + (c - 48)) str 0.

Section parser.
(** Whether [dx_calloc] of so many bytes succeeds, and the codecs of the build. *)
Context (calloc_ok : Z -> bool) (DX_CODEC_TLS_STATUS DX_CODEC_GZIP_STATUS : bool).

Let alloc (n : nat) : bool := calloc_ok (Z.of_nat n).

(** The copy has room for the rest of the string; [strncpy] fills it up to [len]
    with null symbols. *)
Definition dx_ansi_create_string_src_len (s : list Z) (src len : Z) : M unit (option (list Z)) :=
  let size := zlen s - src in
  if len =? 0 then ret None
  else if negb (calloc_ok (size + 1)) then ret None
  else if (0 <=? len) && (len <=? size + 1) then ret (Some (take (Z.to_nat len) (drop (Z.to_nat src) s)))
  else undefined.

Definition dx_find_last (s : list Z) (from to ch : Z) : M unit (option Z) :=
  substr <-- dx_ansi_create_string_src_len s from (to - from);;
  ret (substr ← substr; pos ← strrchr substr ch; Some (from + pos)).

(** The rest to parse, and the entry with its size.  Every round moves on. *)
Fixpoint next_entry_loop (n : nat) (s : list Z) (next : Z) : M unit (Z * option (Z * Z)) :=
  match n with
  | O => undefined
  | S n' =>
      if negb (dx_has_next s (Some next)) then ret (next, None)
      else
        let next_len := zlen s - next in
        match strchr s next entry_begin_symbol, strchr s next entry_end_symbol with
        | None, None =>
            ret (next + next_len,
              if negb (dx_is_empty_entry s next (next + next_len)) then Some (next, next_len) else None)
        | Some entry_begin, Some entry_end =>
            let entry_begin := entry_begin + 1 in
            if dx_is_empty_entry s entry_begin entry_end then next_entry_loop n' s (entry_end + 1)
            else ret (entry_end + 1, Some (entry_begin, entry_end - entry_begin))
        | _, _ => dx_set_error_code dx_ec_invalid_func_param
        end
  end.
Definition dx_get_next_entry (s : list Z) (next : Z) : M unit (Z * option (Z * Z)) :=
  next_entry_loop (S (length s)) s next.

Fixpoint next_codec_loop (n : nat) (s : list Z) (next next_end : Z) : M unit (Z * option (Z * Z)) :=
  match n with
  | O => undefined
  | S n' =>
      if negb (dx_has_next s (Some next)) then ret (next, None)
      else
        match dx_find_first s next next_end codec_splitter with
        | None => ret (zlen s, None)
        | Some codec_end =>
            if dx_is_empty_entry s next codec_end then next_codec_loop n' s (codec_end + 1) next_end
            else ret (codec_end + 1, Some (next, codec_end - next))
        end
  end.
Definition dx_get_next_codec (s : list Z) (next next_end : Z) : M unit (Z * option (Z * Z)) :=
  next_codec_loop (S (length s)) s next next_end.

(** The size of the name, which is at the start of the codec. *)
Definition dx_get_codec_name (s : list Z) (codec codec_size : Z) : Z :=
  if codec_size =? 0 then 0
  else
    match strchr s codec properties_begin_symbol with
    | None => codec_size
    | Some e => if codec + codec_size <=? e then codec_size else e - codec
    end.

(** The properties with the size of their list. *)
Definition dx_get_codec_properties (s : list Z) (codec codec_size : Z) : M unit (option Z * Z) :=
  let name_size := dx_get_codec_name s codec codec_size in
  if codec_size =? name_size then ret (None, 0)
  else
    let props_begin := codec + name_size in
    let props_end := codec + codec_size - 1 in
    if negb (char_at s props_begin =? properties_begin_symbol) || negb (char_at s props_end =? properties_end_symbol)
    then dx_set_error_code dx_ec_invalid_func_param
    else if negb (dx_is_empty_entry s props_begin props_end)
    then ret (Some props_begin, props_end - props_begin + 1)
    else ret (None, 0).

Fixpoint next_property_loop (n : nat) (s : list Z) (next : option Z) (next_size : Z)
  : M unit (option Z * Z * option (Z * Z)) :=
  match n with
  | O => undefined
  | S n' =>
      match next with
      | Some collection_begin =>
          if negb (dx_has_next s next && (0 <? next_size)) then ret (next, next_size, None)
          else
            let collection_end := collection_begin + next_size - 1 in
            let c := char_at s collection_begin in
            if (c =? properties_begin_symbol) || (c =? properties_splitter) then
              let prop_begin := collection_begin + 1 in
              match dx_find_first_of_values s prop_begin collection_end properties_end_symbol properties_splitter with
              | None => dx_set_error_code dx_ec_invalid_func_param
              | Some prop_end =>
                  let next := if char_at s prop_end =? properties_end_symbol then prop_end + 1 else prop_end in
                  let next_size := u64 (next_size - (next - collection_begin)) in
                  if dx_is_empty_entry s prop_begin prop_end then next_property_loop n' s (Some next) next_size
                  else ret (Some next, next_size, Some (prop_begin, prop_end - prop_begin))
              end
            else dx_set_error_code dx_ec_invalid_func_param
      | None => ret (next, next_size, None)
      end
  end.
Definition dx_get_next_property (s : list Z) (next : option Z) (next_size : Z)
  : M unit (option Z * Z * option (Z * Z)) := next_property_loop (S (length s)) s next next_size.

Definition dx_get_host_port_string (s : list Z) (entry entry_size : Z) : M unit (Z * Z) :=
  let entry_end := entry + entry_size in
  splitter <-- dx_find_last s entry entry_end codec_splitter;;
  let address := match splitter with None => entry | Some p => p + 1 end in
  ret (address,
    match dx_find_first s address entry_end properties_begin_symbol with
    | None => entry_end - address
    | Some e => e - address
    end).

Definition dx_get_properties (s : list Z) (entry entry_size : Z) : M unit (option Z * Z) :=
  host <-- dx_get_host_port_string s entry entry_size;;
  let props_begin := host.1 + host.2 in
  let props_end := entry + entry_size - 1 in
  if negb (dx_has_next s (Some props_begin)) || (props_end <=? props_begin) then ret (None, 0)
  else if negb (char_at s props_begin =? properties_begin_symbol) || negb (char_at s props_end =? properties_end_symbol)
  then dx_set_error_code dx_ec_invalid_func_param
  else if negb (dx_is_empty_entry s props_begin props_end) then ret (Some props_begin, props_end - props_begin + 1)
  else ret (None, 0).

(** The key and the value. *)
Definition dx_parse_property (s : list Z) (str size : Z) : M unit (list Z * list Z) :=
  match dx_find_first s str (str + size) property_value_splitter with
  | None => dx_set_error_code dx_nec_invalid_function_arg
  | Some splitter =>
      if dx_is_empty_entry s str (splitter - 1) || dx_is_empty_entry s (splitter + 1) (str + size)
      then dx_set_error_code dx_nec_invalid_function_arg
      else
        let key_size := splitter - str in
        let value_size := size - key_size - 1 in
        key <-- dx_ansi_create_string_src_len s str key_size;;
        value <-- dx_ansi_create_string_src_len s (splitter + 1) value_size;;
        match key, value with
        | Some key, Some value => ret (key, value)
        | _, _ => fail
        end
  end.

(** ** Codecs *)

(** A copy that fails leaves a null pointer. *)
Definition copied_string (s : option (list Z)) : option (list Z) :=
  s ← s; if (length s =? 0)%nat || negb (alloc (length s + 1)) then None else Some s.
Definition dx_codec_tls_copy (src : dx_codec_tls_t) : dx_codec_tls_t :=
  CodecTls (tls_enabled src) (copied_string (tls_key_store src)) (copied_string (tls_key_store_password src))
    (copied_string (tls_trust_store src)) (copied_string (tls_trust_store_password src)).

Definition tls_property (key value : list Z) (tls : dx_codec_tls_t) : M unit dx_codec_tls_t :=
  if bool_decide (key = chars_of "keyStore") then
    ret (CodecTls (tls_enabled tls) (Some value) (tls_key_store_password tls) (tls_trust_store tls) (tls_trust_store_password tls))
  else if bool_decide (key = chars_of "keyStorePassword") then
    ret (CodecTls (tls_enabled tls) (tls_key_store tls) (Some value) (tls_trust_store tls) (tls_trust_store_password tls))
  else if bool_decide (key = chars_of "trustStore") then
    ret (CodecTls (tls_enabled tls) (tls_key_store tls) (tls_key_store_password tls) (Some value) (tls_trust_store_password tls))
  else if bool_decide (key = chars_of "trustStorePassword") then
    ret (CodecTls (tls_enabled tls) (tls_key_store tls) (tls_key_store_password tls) (tls_trust_store tls) (Some value))
  else dx_set_error_code dx_nec_invalid_function_arg.

(** The loop over a list of properties, which [set] puts where they belong; every
    round shortens the list. *)
Fixpoint props_loop {X} (set : list Z -> list Z -> X -> M unit X) (n : nat) (s : list Z)
  (next : option Z) (next_size : Z) (x : X) : M unit X :=
  match n with
  | O => undefined
  | S n' =>
      r <-- dx_get_next_property s next next_size;;
      let '(next, next_size, str) := r in
      x <-- match str with
            | None => ret x
            | Some (str, str_size) =>
                prop <-- dx_parse_property s str str_size;;
                set prop.1 prop.2 x
            end;;
      if dx_has_next s next && (0 <? next_size) then props_loop set n' s next next_size x else ret x
  end.

Definition dx_codec_tls_parser (s : list Z) (codec size : Z) (addr : dx_address_t) : M unit dx_address_t :=
  props <-- dx_get_codec_properties s codec size;;
  tls <-- props_loop tls_property (S (length s)) s props.1 props.2 (CodecTls true None None None None);;
  ret (set_tls tls addr).

Definition dx_codec_gzip_parser (s : list Z) (codec size : Z) (addr : dx_address_t) : M unit dx_address_t :=
  ret (set_gzip addr).

Definition codecs : list (list Z * bool * (list Z -> Z -> Z -> dx_address_t -> M unit dx_address_t)) :=
  [(chars_of "tls", DX_CODEC_TLS_STATUS, dx_codec_tls_parser);
   (chars_of "ssl", DX_CODEC_TLS_STATUS, dx_codec_tls_parser);
   (chars_of "gzip", DX_CODEC_GZIP_STATUS, dx_codec_gzip_parser)].

Fixpoint codec_loop (infos : list (list Z * bool * (list Z -> Z -> Z -> dx_address_t -> M unit dx_address_t)))
  (s : list Z) (codec codec_size : Z) (addr : dx_address_t) : M unit dx_address_t :=
  match infos with
  | [] => dx_set_error_code dx_nec_unknown_codec
  | (name, supported, parser) :: infos' =>
      let codec_name_size := dx_get_codec_name s codec codec_size in
      if negb (zlen name =? codec_name_size) ||
         negb (same_case name (take (Z.to_nat codec_name_size) (drop (Z.to_nat codec) s)))
      then codec_loop infos' s codec codec_size addr
      else if negb supported then dx_set_error_code dx_nec_unknown_codec
      else parser s codec codec_size addr
  end.
Definition dx_codec_parse (s : list Z) (codec codec_size : Z) (addr : dx_address_t) : M unit dx_address_t :=
  codec_loop codecs s codec codec_size addr.

(** ** Addresses *)

Fixpoint skip_scheme (schemes : list (list Z)) (host : list Z) : Z :=
  match schemes with
  | [] => 0
  | scheme :: schemes' =>
      if same_case scheme (take (length scheme) host) then zlen scheme else skip_scheme schemes' host
  end.

(** [sscanf] of a number that is not an [int] is undefined. *)
Definition dx_parse_host_port (s : list Z) (host size : Z) (addr : dx_address_t) : M unit dx_address_t :=
  copy <-- dx_ansi_create_string_src_len s host size;;
  match copy with
  | None => fail
  | Some copy =>
      let host_start := skip_scheme schemes copy in
      port_start <-- dx_find_last copy host_start (size - 1) host_port_splitter;;
      match port_start with
      | None => ret (set_host_port (Some copy) None addr)
      | Some p =>
          let port := drop (Z.to_nat (p + 1)) copy in
          if negb (dx_is_numeric port) then dx_set_error_code dx_nec_invalid_port_value
          else if INT_MAX <? digits_value port then undefined
          else if (digits_value port <? port_min) || (port_max <? digits_value port)
          then dx_set_error_code dx_nec_invalid_port_value
          else ret (set_host_port (Some (take (Z.to_nat p) copy)) (Some port) addr)
      end
  end.

Definition address_property (key value : list Z) (addr : dx_address_t) : M unit dx_address_t :=
  if bool_decide (key = chars_of "username") then ret (set_username (Some value) addr)
  else if bool_decide (key = chars_of "password") then ret (set_password (Some value) addr)
  else dx_set_error_code dx_nec_invalid_function_arg.

Fixpoint codecs_loop (n : nat) (s : list Z) (next next_end : Z) (addr : dx_address_t) : M unit dx_address_t :=
  match n with
  | O => undefined
  | S n' =>
      r <-- dx_get_next_codec s next next_end;;
      addr <-- match r.2 with
               | None => ret addr
               | Some (codec, codec_size) => dx_codec_parse s codec codec_size addr
               end;;
      if dx_has_next s (Some r.1) then codecs_loop n' s r.1 next_end addr else ret addr
  end.

Definition dx_parse_address (s : list Z) (entry : option (Z * Z)) : M unit dx_address_t :=
  match entry with
  | None => dx_set_error_code dx_ec_invalid_func_param
  | Some (entry, entry_size) =>
      if entry_size =? 0 then dx_set_error_code dx_ec_invalid_func_param
      else
        addr <-- codecs_loop (S (length s)) s entry (entry + entry_size) zero_address;;
        host <-- dx_get_host_port_string s entry entry_size;;
        addr <-- dx_parse_host_port s host.1 host.2 addr;;
        props <-- dx_get_properties s entry entry_size;;
        props_loop address_property (S (length s)) s props.1 props.2 addr
  end.

Fixpoint addresses_loop (n : nat) (s : list Z) (next : Z) (addresses : dx_array dx_address_t)
  : M unit (dx_array dx_address_t) :=
  match n with
  | O => undefined
  | S n' =>
      entry <-- dx_get_next_entry s next;;
      addr <-- dx_parse_address s entry.2;;
      r <-- of_option (DX_ARRAY_INSERT zero_address alloc addresses addr (arr_size addresses));;
      if (r.2 : bool) then fail
      else if dx_has_next s (Some entry.1) then addresses_loop n' s entry.1 r.1 else ret r.1
  end.
Definition dx_get_addresses_from_collection (collection : list Z) : M unit (dx_array dx_address_t) :=
  copied <-- dx_ansi_create_string_src_len collection 0 (zlen collection);;
  match copied with
  | None => fail
  | Some _ => addresses_loop (S (length collection)) collection 0 DX_EMPTY_ARRAY
  end.

Definition dx_clear_address_array (addresses : dx_array dx_address_t) : dx_array dx_address_t := DX_EMPTY_ARRAY.
End parser.

Definition parsed (collection : string) : res unit (list dx_address_t) :=
  match dx_get_addresses_from_collection (fun _ => true) true true (chars_of collection) tt with
  | Ok a _ => Ok (contents a) tt
  | Err e _ => Err e tt
  | UB => UB
  end.

Example parse_two : parsed "(ssl[keyStore=k.pem]+gzip+demo.dxfeed.com:7300[username=demo,password=d])(h:1)" =
  Ok [Address (Some (chars_of "demo.dxfeed.com")) (Some (chars_of "7300")) (Some (chars_of "demo")) (Some (chars_of "d"))
        (CodecTls true (Some (chars_of "k.pem")) None None None) true;
      Address (Some (chars_of "h")) (Some (chars_of "1")) None None no_tls false] tt.
Proof. vm_compute. reflexivity. Qed.
