(* ===== verification/AddressTheory.v ===== *)
(** * AddressTheory: addresses are read as they are written

    A notation of addresses with their codecs and properties, and the proof that
    the parser of [AddressParser] reads it back; what the parser does at the
    edges. *)

From Stdlib Require Import Ascii String.
From S2P Require Import Prelude Arrays Algorithms Output EventData AddressParser.
Local Open Scope Z_scope.
Local Open Scope c_scope.

(** ** Parts of a string *)

(** [x] stands at the position [p] of [s]. *)
Definition stands (s : list Z) (p : Z) (x : list Z) : Prop := exists pre post, s = pre ++ x ++ post /\ p = zlen pre.

Lemma stands_app s p x y : stands s p (x ++ y) <-> stands s p x /\ stands s (p + zlen x) y.
Proof.
  split.
  - intros (pre & post & -> & ->). split.
    + exists pre, (y ++ post). by rewrite <- app_assoc.
    + exists (pre ++ x), post. by rewrite zlen_app, <- !app_assoc.
  - intros ((pre & post & -> & ->) & (pre' & post' & E & Ep)). exists pre, post'. split; [|done].
    rewrite <- zlen_app in Ep. unfold zlen in Ep. rewrite (app_assoc pre x post) in E.
    apply app_inj_1 in E as [<- ->]; [by rewrite <- !app_assoc|lia].
Qed.
Lemma stands_cons s p c x : stands s p (c :: x) -> stands s (p + 1) x.
Proof. intros (pre & post & -> & ->). exists (pre ++ [c]), post. rewrite zlen_app, <- app_assoc. done. Qed.
Lemma stands_bounds s p x : stands s p x -> 0 <= p /\ p + zlen x <= zlen s.
Proof.
  intros (pre & post & -> & ->). rewrite !zlen_app. pose proof (zlen_nonneg pre). pose proof (zlen_nonneg post). lia.
Qed.
Lemma stands_drop s p x : stands s p x -> exists post, drop (Z.to_nat p) s = x ++ post.
Proof. intros (pre & post & -> & ->). exists post. unfold zlen. by rewrite Nat2Z.id, drop_app_length. Qed.
Lemma stands_take s p x n : stands s p x -> n = zlen x -> take (Z.to_nat n) (drop (Z.to_nat p) s) = x.
Proof. intros H ->. destruct (stands_drop s p x H) as [post ->]. unfold zlen. by rewrite Nat2Z.id, take_app_length. Qed.
Lemma stands_char s p c x : stands s p (c :: x) -> char_at s p = c.
Proof.
  intros (pre & post & -> & ->). unfold char_at, zlen. rewrite Nat2Z.id, app_nth2 by lia. by rewrite Nat.sub_diag.
Qed.
Lemma stands_whole s : stands s 0 s.
Proof. exists [], []. by rewrite app_nil_r. Qed.
Lemma char_at_end s : char_at s (zlen s) = 0.
Proof. unfold char_at, zlen. rewrite Nat2Z.id. by apply nth_overflow. Qed.

(** ** Searching *)

Lemma chr_loop_skip x y i ch : ch ∉ x -> chr_loop (x ++ y) i ch = chr_loop y (i + zlen x) ch.
Proof.
  revert i. induction x as [|c x IH]; intros i Hx; cbn [chr_loop app].
  { change (zlen []) with 0. by rewrite Z.add_0_r. }
  apply not_elem_of_cons in Hx as [Hc Hx]. destruct (Z.eqb_spec c ch); [done|]. rewrite IH by done. f_equal.
  rewrite zlen_cons. lia.
Qed.
Lemma chr_loop_range l ch : forall i p, chr_loop l i ch = Some p -> i <= p < i + zlen l.
Proof.
  induction l as [|c l IH]; intros i p; cbn [chr_loop]; [done|]. rewrite zlen_cons. pose proof (zlen_nonneg l).
  destruct (c =? ch); [intros [= <-]; lia|]. intros H1%IH. lia.
Qed.
Lemma strchr_found s p x ch y : stands s p (x ++ ch :: y) -> ch ∉ x -> strchr s p ch = Some (p + zlen x).
Proof.
  intros H Hx. unfold strchr. destruct (stands_drop _ _ _ H) as [post ->]. rewrite <- app_assoc.
  rewrite chr_loop_skip by done. cbn [app chr_loop]. by rewrite Z.eqb_refl.
Qed.
Lemma strchr_later s p x ch q : stands s p x -> ch ∉ x -> strchr s p ch = Some q -> p + zlen x <= q.
Proof.
  intros H Hx. unfold strchr. destruct (stands_drop _ _ _ H) as [post ->]. rewrite chr_loop_skip by done.
  intros Hq%chr_loop_range. lia.
Qed.

Lemma find_first_found s p x ch y to :
  stands s p (x ++ ch :: y) -> ch ∉ x -> p + zlen x <= to -> dx_find_first s p to ch = Some (p + zlen x).
Proof. intros H Hx Ht. unfold dx_find_first. rewrite (strchr_found s p x ch y) by done. cbn. by decide_cmps. Qed.
Lemma find_first_none s p x ch to :
  stands s p x -> ch ∉ x -> to < p + zlen x -> dx_find_first s p to ch = None.
Proof.
  intros H Hx Ht. unfold dx_find_first. destruct (strchr s p ch) as [q|] eqn:E; [|done]. cbn.
  pose proof (strchr_later _ _ _ _ _ H Hx E). by decide_cmps.
Qed.

Lemma rchr_loop_app x y ch : forall i f, rchr_loop (x ++ y) i ch f = rchr_loop y (i + zlen x) ch (rchr_loop x i ch f).
Proof.
  induction x as [|c x IH]; intros i f; cbn [app rchr_loop].
  { change (zlen []) with 0. by rewrite Z.add_0_r. }
  rewrite IH, zlen_cons. f_equal. lia.
Qed.
Lemma rchr_loop_absent x ch : forall i f, ch ∉ x -> rchr_loop x i ch f = f.
Proof.
  induction x as [|c x IH]; intros i f Hx; cbn [rchr_loop]; [done|]. apply not_elem_of_cons in Hx as [Hc Hx].
  destruct (Z.eqb_spec c ch); [done|]. by apply IH.
Qed.
Lemma strrchr_found x y ch : ch ∉ y -> strrchr (x ++ ch :: y) ch = Some (zlen x).
Proof.
  intros Hy. unfold strrchr. rewrite rchr_loop_app. cbn [rchr_loop]. by rewrite Z.eqb_refl, rchr_loop_absent by done.
Qed.
Lemma strrchr_absent x ch : ch ∉ x -> strrchr x ch = None.
Proof. by apply rchr_loop_absent. Qed.

Lemma not_empty s p c x e : stands s p (c :: x) -> c <> whitespace -> p < e -> dx_is_empty_entry s p e = false.
Proof.
  intros H Hc Hp. unfold dx_is_empty_entry. decide_cmps. cbn [empty_loop]. rewrite (stands_char _ _ _ _ H).
  by rewrite (proj2 (Z.eqb_neq _ _) Hc).
Qed.

(** Only an entry without characters, or one of spaces that a space follows, is
    empty to the parser. *)
Lemma empty_entry_spec s p e :
  0 <= p -> e <= zlen s ->
  dx_is_empty_entry s p e = true <-> e <= p \/ (forall i, p <= i <= e -> char_at s i = whitespace).
Proof.
  intros Hp He. unfold dx_is_empty_entry. destruct (Z.leb_spec e p) as [Hle|Hlt]; [by split; [left|]|].
  assert (forall n p, 0 <= p <= e -> (Z.to_nat (e - p) < n)%nat ->
    empty_loop n s p e = true <-> (forall i, p <= i <= e -> char_at s i = whitespace)) as H.
  { clear p Hp Hlt. induction n as [|n IH]; intros p Hp Hn; [lia|]. cbn [empty_loop].
    destruct (Z.eqb_spec (char_at s p) whitespace) as [Ec|Ec].
    - destruct (Z.eqb_spec p e) as [->|Hne].
      + split; [|done]. intros _ i Hi. by replace i with e by lia.
      + rewrite IH by lia. split; intros Hall i Hi; [|apply Hall; lia].
        destruct (decide (i = p)) as [->|]; [done|]. apply Hall. lia.
    - split; [done|]. intros Hall. destruct Ec. apply Hall. lia. }
  rewrite H by lia. split; [by right|intros [?|?]; [lia|done]].
Qed.

(** ** The notation of properties *)

(** The characters that the parser gives a meaning to, and the null symbol. *)
Definition special : list Z :=
  [entry_begin_symbol; entry_end_symbol; properties_begin_symbol; properties_end_symbol; properties_splitter;
   property_value_splitter; codec_splitter; host_port_splitter; whitespace; null_symbol].
Definition plain (x : list Z) : Prop := x <> [] /\ Forall (fun c => c ∉ special) x.

Lemma plain_absent x c : plain x -> c ∈ special -> c ∉ x.
Proof. intros [_ Hx] Hc Hin. rewrite Forall_forall in Hx. by apply (Hx c). Qed.
Lemma plain_start x : plain x -> exists c x', x = c :: x' /\ c ∉ special.
Proof. intros [Hne Hx]. destruct x as [|c x]; [done|]. apply Forall_cons in Hx as [Hc _]. by exists c, x. Qed.
Lemma plain_length x : plain x -> 1 <= zlen x.
Proof. intros (c & x' & -> & _)%plain_start. rewrite zlen_cons. pose proof (zlen_nonneg x'). lia. Qed.

Ltac absent := first [ apply plain_absent; [done|unfold special; repeat constructor] | done ].

Lemma not_special c d : c ∉ special -> d ∈ special -> c <> d.
Proof. by intros H1 H2 ->. Qed.
Lemma plain_not_empty s p x e : stands s p x -> plain x -> p < e -> dx_is_empty_entry s p e = false.
Proof.
  intros H (c & x' & -> & Hc)%plain_start. apply (not_empty s p c x' e H). apply (not_special c); [done|].
  unfold special. repeat constructor.
Qed.

Definition property : Type := list Z * list Z.
(** Keys of one character are not accepted. *)
Definition property_ok (kv : property) : Prop := plain kv.1 /\ 2 <= zlen kv.1 /\ plain kv.2.
Definition print_property (kv : property) : list Z := kv.1 ++ property_value_splitter :: kv.2.
Fixpoint print_rest (ps : list property) : list Z :=
  match ps with
  | [] => [properties_end_symbol]
  | kv :: ps' => properties_splitter :: print_property kv ++ print_rest ps'
  end.
Definition print_properties (ps : list property) : list Z :=
  match ps with
  | [] => []
  | kv :: ps' => properties_begin_symbol :: print_property kv ++ print_rest ps'
  end.

Lemma not_in_app (c : Z) x y : c ∉ x -> c ∉ y -> c ∉ x ++ y.
Proof. intros Hx Hy [?|?]%elem_of_app; done. Qed.
Lemma property_absent kv c : property_ok kv -> c ∈ special -> c <> property_value_splitter -> c ∉ print_property kv.
Proof.
  intros (H1 & _ & H2) Hc Hne. unfold print_property. apply not_in_app; [by apply plain_absent|].
  apply not_elem_of_cons. split; [done|by apply plain_absent].
Qed.
Lemma rest_absent ps c :
  Forall property_ok ps -> c ∈ special -> c ∉ [property_value_splitter; properties_splitter; properties_end_symbol] ->
  c ∉ print_rest ps.
Proof.
  intros Hps Hc Hn. apply not_elem_of_cons in Hn as [Hn1 Hn]. apply not_elem_of_cons in Hn as [Hn2 Hn].
  apply not_elem_of_cons in Hn as [Hn3 _]. induction Hps as [|kv ps Hkv _ IH]; cbn [print_rest].
  { apply not_elem_of_cons. split; [done|apply not_elem_of_nil]. }
  apply not_elem_of_cons. split; [done|]. apply not_in_app; [by apply property_absent|done].
Qed.
Lemma properties_absent ps c :
  Forall property_ok ps -> c ∈ special ->
  c ∉ [property_value_splitter; properties_splitter; properties_begin_symbol; properties_end_symbol] ->
  c ∉ print_properties ps.
Proof.
  intros Hps Hc Hn. apply not_elem_of_cons in Hn as [Hn1 Hn]. apply not_elem_of_cons in Hn as [Hn2 Hn].
  apply not_elem_of_cons in Hn as [Hn3 Hn]. destruct Hps as [|kv ps Hkv Hps]; [apply not_elem_of_nil|].
  cbn [print_properties]. apply not_elem_of_cons. split; [done|]. apply not_in_app; [by apply property_absent|].
  apply rest_absent; [done|done|]. apply not_elem_of_cons. split; [done|]. apply not_elem_of_cons. by split.
Qed.

Section read.
Context (calloc_ok : Z -> bool) (calloc_works : forall n, calloc_ok n = true).

Lemma create_string s p x n :
  stands s p x -> n = zlen x -> dx_ansi_create_string_src_len calloc_ok s p n = ret (if n =? 0 then None else Some x).
Proof using calloc_works.
  intros H ->. unfold dx_ansi_create_string_src_len. destruct (_ =? 0); [done|]. rewrite calloc_works. cbn [negb].
  pose proof (stands_bounds _ _ _ H). pose proof (zlen_nonneg x). decide_cmps. by rewrite (stands_take s p x).
Qed.

Lemma bind_ret {S A B} (v : A) (k : A -> M S B) s : checked_call (ret v) k s = k v s.
Proof using Type. done. Qed.

Lemma parse_property_spec s p kv :
  property_ok kv -> stands s p (print_property kv) ->
  dx_parse_property calloc_ok s p (zlen (print_property kv)) tt = Ok kv tt.
Proof using calloc_works.
  intros (Hk & Hk2 & Hv) Hs. destruct kv as [k v]. unfold print_property in *. cbn [fst snd] in *.
  pose proof (plain_length v Hv). pose proof Hs as Hs0. apply stands_app in Hs as [Hs1 Hs2]. apply stands_cons in Hs2.
  unfold dx_parse_property. rewrite zlen_app, zlen_cons.
  rewrite (find_first_found s p k _ v) by (done || lia || absent).
  rewrite (plain_not_empty s p k) by (done || lia). rewrite (plain_not_empty s _ v) by (done || lia). cbn [orb].
  rewrite (create_string s p k) by (done || lia). rewrite bind_ret.
  rewrite (create_string s _ v) by (done || lia). rewrite bind_ret. by decide_cmps.
Qed.

(** The rest of a list of properties, from the symbol before the next one. *)
Definition opens (c : Z) : Prop := c = properties_begin_symbol \/ c = properties_splitter.
Definition rest_next (p : Z) (ps : list property) : option Z :=
  Some (if ps is [] then p + 1 else p).
Definition rest_size (ps : list property) : Z := if ps is [] then 0 else zlen (print_rest ps).

Lemma opens_next s p c x n : stands s p (c :: x) -> opens c -> 0 < n -> dx_has_next s (Some p) && (0 <? n) = true.
Proof using Type.
  intros H Hc Hn. unfold dx_has_next. rewrite (stands_char _ _ _ _ H). decide_cmps. by destruct Hc as [->| ->].
Qed.

Lemma next_property_spec s p c kv ps :
  opens c -> property_ok kv -> Forall property_ok ps -> zlen s < 2 ^ 63 ->
  stands s p (c :: print_property kv ++ print_rest ps) ->
  dx_get_next_property s (Some p) (1 + zlen (print_property kv) + zlen (print_rest ps)) tt =
    Ok (rest_next (p + 1 + zlen (print_property kv)) ps, rest_size ps, Some (p + 1, zlen (print_property kv))) tt.
Proof using Type.
  intros Hc Hkv Hps Hlen Hs. pose proof (stands_bounds _ _ _ Hs) as [Hp Hb]. rewrite zlen_cons, zlen_app in Hb.
  pose proof (zlen_nonneg (print_property kv)). pose proof (zlen_nonneg (print_rest ps)).
  unfold dx_get_next_property. cbn [next_property_loop].
  rewrite (opens_next s p c _ _ Hs Hc) by lia. rewrite (stands_char _ _ _ _ Hs). cbn [negb].
  replace ((c =? properties_begin_symbol) || (c =? properties_splitter)) with true by (by destruct Hc as [->| ->]).
  apply stands_cons in Hs. pose proof Hs as Hs0. apply stands_app in Hs as [Hs1 Hs2].
  assert (properties_end_symbol ∉ print_property kv) as He by (apply property_absent; [done|unfold special; repeat constructor|done]).
  assert (properties_splitter ∉ print_property kv) as Hsp by (apply property_absent; [done|unfold special; repeat constructor|done]).
  assert (dx_find_first_of_values s (p + 1) (p + (1 + zlen (print_property kv) + zlen (print_rest ps)) - 1)
    properties_end_symbol properties_splitter = Some (p + 1 + zlen (print_property kv))) as ->.
  { unfold dx_find_first_of_values. destruct ps as [|kv' ps]; cbn [print_rest] in *.
    - rewrite zlen_cons. change (zlen []) with 0.
      rewrite (find_first_found s (p + 1) (print_property kv) _ []) by (done || lia).
      rewrite (find_first_none s (p + 1) (print_property kv ++ [properties_end_symbol])); [done|done| |].
      + apply not_in_app; [done|]. apply not_elem_of_cons. split; [done|apply not_elem_of_nil].
      + rewrite zlen_app. change (zlen [properties_end_symbol]) with 1. lia.
    - rewrite zlen_cons in *. pose proof (zlen_nonneg (print_property kv' ++ print_rest ps)).
      rewrite (find_first_found s (p + 1) (print_property kv) properties_splitter (print_property kv' ++ print_rest ps)) by (done || lia).
      destruct (dx_find_first s (p + 1) _ properties_end_symbol) as [q|] eqn:Eq; [|done]. f_equal.
      unfold dx_find_first in Eq. destruct (strchr s (p + 1) properties_end_symbol) as [q'|] eqn:Eq'; [|done].
      pose proof (strchr_later _ _ _ _ _ Hs1 He Eq'). cbn in Eq. destruct (_ <? q'); [done|]. injection Eq as <-. lia. }
  assert (char_at s (p + 1 + zlen (print_property kv)) = if ps is [] then properties_end_symbol else properties_splitter) as ->.
  { destruct ps; by apply stands_char in Hs2. }
  destruct (plain_start kv.1) as (k & k' & Ek & Hk); [by destruct Hkv|].
  assert (dx_is_empty_entry s (p + 1) (p + 1 + zlen (print_property kv)) = false) as ->.
  { unfold print_property in Hs1. apply stands_app in Hs1 as [Hs1 _].
    apply (plain_not_empty s _ kv.1); [done|by destruct Hkv|].
    unfold print_property. rewrite zlen_app, zlen_cons. pose proof (zlen_nonneg kv.1). pose proof (zlen_nonneg kv.2). lia. }
  destruct ps as [|kv' ps]; cbn [print_rest rest_next rest_size] in *.
  - change (zlen [properties_end_symbol]) with 1. cbn.
    replace (1 + zlen (print_property kv) + 1 - _) with 0 by lia.
    by replace (p + 1 + zlen (print_property kv) - (p + 1)) with (zlen (print_property kv)) by lia.
  - change (properties_splitter =? properties_end_symbol) with false. cbv iota. set (rest := _ :: _ ++ _) in *.
    replace (1 + zlen (print_property kv) + zlen rest - _) with (zlen rest) by lia.
    rewrite u64_id by (unfold is_u64; lia).
    by replace (p + 1 + zlen (print_property kv) - (p + 1)) with (zlen (print_property kv)) by lia.
Qed.

(** The loop over the properties. *)
Lemma props_loop_spec {X} (set : list Z -> list Z -> X -> M unit X) (f : X -> property -> X) s ps :
  zlen s < 2 ^ 63 -> forall p c kv x n,
  opens c -> Forall property_ok (kv :: ps) -> stands s p (c :: print_property kv ++ print_rest ps) ->
  Forall (fun kv => forall x, set kv.1 kv.2 x tt = Ok (f x kv) tt) (kv :: ps) -> (length ps < n)%nat ->
  props_loop calloc_ok set n s (Some p) (1 + zlen (print_property kv) + zlen (print_rest ps)) x tt =
    Ok (fold_left f (kv :: ps) x) tt.
Proof using calloc_works.
  intros Hlen. induction ps as [|kv' ps IH]; intros p c kv x n Hc Hok Hs Hset Hn; (destruct n as [|n]; [simpl in Hn; lia|]).
  - apply Forall_cons in Hok as [Hkv Hps]. apply Forall_cons in Hset as [Hset _]. cbn [props_loop fold_left].
    rewrite (bind_ok _ _ _ _ _ (next_property_spec s p c kv [] Hc Hkv Hps Hlen Hs)).
    apply stands_cons in Hs. apply stands_app in Hs as [Hs _].
    unfold checked_call at 1 2. rewrite (parse_property_spec s _ kv Hkv Hs), Hset.
    cbn [rest_size]. rewrite Z.ltb_irrefl, andb_false_r. done.
  - apply Forall_cons in Hok as [Hkv Hps]. apply Forall_cons in Hset as [Hset0 Hset]. cbn [props_loop].
    rewrite (bind_ok _ _ _ _ _ (next_property_spec s p c kv (kv' :: ps) Hc Hkv Hps Hlen Hs)).
    apply stands_cons in Hs. apply stands_app in Hs as [Hs Hs2].
    unfold checked_call at 1 2. rewrite (parse_property_spec s _ kv Hkv Hs), Hset0.
    cbn [rest_size rest_next print_rest] in *.
    assert (opens properties_splitter) as Hsep by by right. rewrite zlen_cons, zlen_app.
    pose proof (zlen_nonneg (print_property kv')). pose proof (zlen_nonneg (print_rest ps)).
    rewrite (opens_next s _ _ _ _ Hs2 Hsep) by lia.
    rewrite Z.add_assoc.
    rewrite (IH _ _ kv' _ n Hsep Hps Hs2 Hset); [done|simpl in Hn; lia].
Qed.

(** A list of properties, which may be empty. *)
Lemma properties_spec {X} (set : list Z -> list Z -> X -> M unit X) (f : X -> property -> X) s ps p x :
  zlen s < 2 ^ 63 -> Forall property_ok ps -> stands s p (print_properties ps) ->
  Forall (fun kv => forall x, set kv.1 kv.2 x tt = Ok (f x kv) tt) ps ->
  props_loop calloc_ok set (S (length s)) s (if ps is [] then None else Some p) (zlen (print_properties ps)) x tt =
    Ok (fold_left f ps x) tt.
Proof using calloc_works.
  intros Hlen Hok Hs Hset. destruct ps as [|kv ps]; [done|]. pose proof (stands_bounds _ _ _ Hs) as [Hp Hb].
  cbn [print_properties] in *. rewrite zlen_cons, zlen_app in Hb |- *. pose proof (zlen_nonneg (print_property kv)).
  rewrite Z.add_assoc.
  apply (props_loop_spec set f s ps Hlen p properties_begin_symbol); [by left|done|done|done|].
  assert (length ps <= length (print_rest ps))%nat as Hl.
  { clear. induction ps as [|kv ps IH]; [simpl; lia|]. cbn [print_rest length]. rewrite length_app. lia. }
  unfold zlen in Hb. lia.
Qed.
End read.

(** ** The notation of addresses *)

Definition named_value (key : string) (value : option (list Z)) : list property :=
  match value with Some v => [(chars_of key, v)] | None => [] end.
Definition tls_properties (tls : dx_codec_tls_t) : list property :=
  named_value "keyStore" (tls_key_store tls) ++ named_value "keyStorePassword" (tls_key_store_password tls) ++
  named_value "trustStore" (tls_trust_store tls) ++ named_value "trustStorePassword" (tls_trust_store_password tls).
Definition address_properties (a : dx_address_t) : list property :=
  named_value "username" (ad_username a) ++ named_value "password" (ad_password a).

Definition tls_text (tls : dx_codec_tls_t) : list Z := chars_of "tls" ++ print_properties (tls_properties tls).
Definition print_codecs (a : dx_address_t) : list Z :=
  (if tls_enabled (ad_tls a) then tls_text (ad_tls a) ++ [codec_splitter] else []) ++
  (if ad_gzip a then chars_of "gzip" ++ [codec_splitter] else []).
Definition print_host (a : dx_address_t) : list Z :=
  default [] (ad_host a) ++ match ad_port a with Some port => host_port_splitter :: port | None => [] end.
Definition print_address (a : dx_address_t) : list Z :=
  print_codecs a ++ print_host a ++ print_properties (address_properties a).
Definition print_addresses (l : list dx_address_t) : list Z :=
  concat ((fun a => entry_begin_symbol :: print_address a ++ [entry_end_symbol]) <$> l).

Definition value_ok (v : option (list Z)) : Prop := forall x, v = Some x -> plain x.
Definition tls_ok (tls : dx_codec_tls_t) : Prop :=
  value_ok (tls_key_store tls) /\ value_ok (tls_key_store_password tls) /\
  value_ok (tls_trust_store tls) /\ value_ok (tls_trust_store_password tls).
Definition port_ok (port : list Z) : Prop :=
  port <> [] /\ forallb is_digit port = true /\ digits_value port <= port_max.

(** Addresses that can be written: the texts have none of the characters with a
    meaning, and the codecs are in the build. *)
Record address_ok (tls_status gzip_status : bool) (a : dx_address_t) : Prop := {
  ok_host : exists host, ad_host a = Some host /\ plain host;
  ok_port : forall port, ad_port a = Some port -> port_ok port;
  ok_credentials : value_ok (ad_username a) /\ value_ok (ad_password a);
  ok_tls : if tls_enabled (ad_tls a) then tls_status = true /\ tls_ok (ad_tls a) else ad_tls a = no_tls;
  ok_gzip : ad_gzip a = true -> gzip_status = true;
}.

Lemma named_value_ok key v :
  plain (chars_of key) -> 2 <= zlen (chars_of key) -> value_ok v -> Forall property_ok (named_value key v).
Proof. intros Hk Hl Hv. destruct v as [v|]; constructor; [|constructor]. split_and!; [done|done|by apply Hv]. Qed.

Definition plain_check (x : list Z) : bool :=
  negb (bool_decide (x = [])) && forallb (fun c => negb (bool_decide (c ∈ special))) x.
Lemma plain_checked x : plain_check x = true -> plain x.
Proof.
  unfold plain_check. intros [H1 H2]%andb_prop. apply negb_true_iff, bool_decide_eq_false in H1. split; [done|].
  apply Forall_forall. intros c Hc%list_elem_of_In. rewrite forallb_forall in H2. specialize (H2 c Hc).
  by apply negb_true_iff, bool_decide_eq_false in H2.
Qed.

Lemma tls_properties_ok tls : tls_ok tls -> Forall property_ok (tls_properties tls).
Proof.
  intros (H1 & H2 & H3 & H4). unfold tls_properties.
  repeat apply Forall_app_2; apply named_value_ok; try done; by (apply plain_checked; vm_compute).
Qed.
Lemma address_properties_ok tls gzip a : address_ok tls gzip a -> Forall property_ok (address_properties a).
Proof.
  intros [_ _ [H1 H2] _ _]. unfold address_properties.
  apply Forall_app_2; apply named_value_ok; try done; by (apply plain_checked; vm_compute).
Qed.

Lemma properties_last ps : ps <> [] -> exists x, print_properties ps = x ++ [properties_end_symbol].
Proof.
  destruct ps as [|kv ps]; [done|]. intros _. cbn [print_properties].
  assert (exists x, print_rest ps = x ++ [properties_end_symbol]) as [x ->].
  { induction ps as [|kv' ps [x IH]]; [by exists []|]. cbn [print_rest]. rewrite IH.
    exists (properties_splitter :: print_property kv' ++ x). cbn [app]. by rewrite <- app_assoc. }
  exists (properties_begin_symbol :: print_property kv ++ x). cbn [app]. by rewrite <- app_assoc.
Qed.

(** A list of properties between its brackets. *)
Lemma bracketed s p ps :
  ps <> [] -> Forall property_ok ps -> stands s p (print_properties ps) ->
  char_at s p = properties_begin_symbol /\ char_at s (p + zlen (print_properties ps) - 1) = properties_end_symbol /\
  dx_is_empty_entry s p (p + zlen (print_properties ps) - 1) = false /\ 3 < zlen (print_properties ps).
Proof.
  intros Hne Hok Hs. destruct (properties_last ps Hne) as [x Ex]. split_and!.
  - destruct ps; [done|]. by apply stands_char in Hs.
  - rewrite Ex in Hs |- *. apply stands_app in Hs as [_ Hs]. rewrite zlen_app. change (zlen [_]) with 1.
    replace (p + (zlen x + 1) - 1) with (p + zlen x) by lia. by apply stands_char in Hs.
  - destruct ps as [|kv ps]; [done|]. cbn [print_properties] in *.
    apply (not_empty s p _ _ _ Hs); [done|]. rewrite zlen_cons, zlen_app. apply Forall_cons in Hok as [(_ & Hk & _) _].
    unfold print_property. rewrite zlen_app, zlen_cons. pose proof (zlen_nonneg kv.2). pose proof (zlen_nonneg (print_rest ps)). lia.
  - destruct ps as [|kv ps]; [done|]. cbn [print_properties]. rewrite zlen_cons, zlen_app. apply Forall_cons in Hok as [(_ & Hk & _) _].
    unfold print_property. rewrite zlen_app, zlen_cons. pose proof (zlen_nonneg kv.2). pose proof (zlen_nonneg (print_rest ps)). lia.
Qed.

Section addresses.
Context (calloc_ok : Z -> bool) (calloc_works : forall n, calloc_ok n = true).
Context (tls_status gzip_status : bool).

(** ** Codecs *)

Lemma next_codec_found s p codec x next_end :
  stands s p (codec ++ codec_splitter :: x) -> (exists c codec', codec = c :: codec' /\ c <> whitespace /\ c <> 0) ->
  codec_splitter ∉ codec -> p + zlen codec <= next_end ->
  dx_get_next_codec s p next_end tt = Ok (p + zlen codec + 1, Some (p, zlen codec)) tt.
Proof using Type.
  intros Hs (c & codec' & E & Hc & H0) Ha Hl. unfold dx_get_next_codec. cbn [next_codec_loop].
  rewrite (find_first_found s p codec _ x) by done.
  rewrite E in Hs. cbn [app] in Hs.
  unfold dx_has_next. rewrite (stands_char _ _ _ _ Hs). unfold null_symbol. rewrite (proj2 (Z.eqb_neq _ _)) by done. cbn [negb].
  rewrite (not_empty s p c _ _ Hs Hc).
  2: { rewrite E, zlen_cons. pose proof (zlen_nonneg codec'). lia. }
  by replace (p + zlen codec - p) with (zlen codec) by lia.
Qed.
Lemma next_codec_none s p x c :
  stands s p (x ++ [c]) -> x <> [] -> 0 ∉ x -> codec_splitter ∉ x -> c <> codec_splitter ->
  dx_get_next_codec s p (p + zlen x) tt = Ok (zlen s, None) tt.
Proof using Type.
  intros Hs Hne H0 Ha Hc. unfold dx_get_next_codec. cbn [next_codec_loop].
  rewrite (find_first_none s p (x ++ [c])).
  - destruct x as [|c' x]; [done|]. unfold dx_has_next. rewrite (stands_char _ _ _ _ Hs).
    apply not_elem_of_cons in H0 as [H0 _]. by rewrite (proj2 (Z.eqb_neq _ _)) by done.
  - done.
  - apply not_in_app; [done|]. apply not_elem_of_cons. split; [done|apply not_elem_of_nil].
  - rewrite zlen_app. change (zlen [c]) with 1. lia.
Qed.

Lemma codec_name_spec s p name ps x :
  stands s p (name ++ print_properties ps ++ codec_splitter :: x) -> properties_begin_symbol ∉ name -> 0 < zlen name ->
  dx_get_codec_name s p (zlen (name ++ print_properties ps)) = zlen name.
Proof using Type.
  intros Hs Ha Hn. unfold dx_get_codec_name. rewrite zlen_app. pose proof (zlen_nonneg (print_properties ps)).
  rewrite (proj2 (Z.eqb_neq _ _)) by lia. destruct ps as [|kv ps].
  - cbn [print_properties app] in *. change (zlen []) with 0. rewrite Z.add_0_r.
    destruct (strchr s p properties_begin_symbol) as [e|] eqn:E; [|done].
    rewrite cons_middle, app_assoc in Hs. apply stands_app in Hs as [Hs _].
    assert (properties_begin_symbol ∉ name ++ [codec_splitter]) as Ha'.
    { apply not_in_app; [done|]. apply not_elem_of_cons. split; [done|apply not_elem_of_nil]. }
    pose proof (strchr_later _ _ _ _ _ Hs Ha' E) as Hl.
    rewrite zlen_app in Hl. change (zlen [_]) with 1 in Hl. by decide_cmps.
  - cbn [print_properties app] in *. rewrite (strchr_found s p name _ _ Hs Ha). rewrite zlen_cons in *.
    pose proof (zlen_nonneg (print_property kv ++ print_rest ps)).
    rewrite (proj2 (Z.leb_gt _ _)) by lia. lia.
Qed.

Lemma codec_properties_spec s p name ps x :
  stands s p (name ++ print_properties ps ++ codec_splitter :: x) -> properties_begin_symbol ∉ name -> 0 < zlen name ->
  Forall property_ok ps ->
  dx_get_codec_properties s p (zlen (name ++ print_properties ps)) tt =
    Ok (if ps is [] then None else Some (p + zlen name), zlen (print_properties ps)) tt.
Proof using Type.
  intros Hs Ha Hn Hok. unfold dx_get_codec_properties. rewrite (codec_name_spec s p name ps x) by done. rewrite zlen_app.
  destruct ps as [|kv ps].
  { change (zlen (print_properties [])) with 0. by rewrite Z.add_0_r, Z.eqb_refl. }
  apply stands_app in Hs as [_ Hs]. apply stands_app in Hs as [Hs _].
  destruct (bracketed s _ (kv :: ps) ltac:(done) Hok Hs) as (E1 & E2 & E3 & Hl). set (l := zlen (print_properties _)) in *.
  rewrite (proj2 (Z.eqb_neq _ _)) by lia. replace (p + (zlen name + l) - 1) with (p + zlen name + l - 1) by lia.
  rewrite E1, E2, E3. cbn. unfold ret. f_equal. f_equal. lia.
Qed.

(** What a property does to the codec, or to the address. *)
Definition put_tls (tls : dx_codec_tls_t) (kv : property) : dx_codec_tls_t :=
  match tls_property kv.1 kv.2 tls tt with Ok x _ => x | _ => tls end.
Definition put_address (a : dx_address_t) (kv : property) : dx_address_t :=
  match address_property kv.1 kv.2 a tt with Ok x _ => x | _ => a end.

Lemma tls_properties_set tls :
  Forall (fun kv => forall x, tls_property kv.1 kv.2 x tt = Ok (put_tls x kv) tt) (tls_properties tls) /\
  (tls_enabled tls = true -> fold_left put_tls (tls_properties tls) (CodecTls true None None None None) = tls).
Proof using Type.
  destruct tls as [e ks ksp ts tsp]. split.
  - unfold tls_properties. repeat apply Forall_app_2; (destruct ks, ksp, ts, tsp; repeat constructor).
  - intros He. cbn in He. subst e. by destruct ks, ksp, ts, tsp.
Qed.
Lemma address_properties_set a :
  Forall (fun kv => forall x, address_property kv.1 kv.2 x tt = Ok (put_address x kv) tt) (address_properties a) /\
  forall x, ad_username x = None -> ad_password x = None ->
    fold_left put_address (address_properties a) x = set_username (ad_username a) (set_password (ad_password a) x).
Proof using Type.
  destruct a as [h po u pw t g]. split.
  - unfold address_properties. apply Forall_app_2; (destruct u, pw; repeat constructor).
  - intros [h' po' u' pw' t' g'] Hu Hp. cbn in Hu, Hp. subst. by destruct u, pw.
Qed.

Lemma parse_tls s p tls x addr :
  tls_status = true -> tls_ok tls -> tls_enabled tls = true -> zlen s < 2 ^ 63 ->
  stands s p (tls_text tls ++ codec_splitter :: x) ->
  dx_codec_parse calloc_ok tls_status gzip_status s p (zlen (tls_text tls)) addr tt = Ok (set_tls tls addr) tt.
Proof using calloc_works.
  intros -> Hok He Hlen Hs. unfold tls_text in *. rewrite <- app_assoc in Hs. pose proof (tls_properties_ok tls Hok) as Hps.
  assert (properties_begin_symbol ∉ chars_of "tls") as Ha 
    by (apply plain_absent; [by apply plain_checked; vm_compute|unfold special; repeat constructor]).
  unfold dx_codec_parse, codecs. cbn [codec_loop].
  rewrite (codec_name_spec s p (chars_of "tls") _ x Hs Ha) by done.
  apply stands_app in Hs as Hs'. destruct Hs' as [Hs1 Hs2]. apply stands_app in Hs2 as [Hs2 _].
  rewrite (stands_take s p (chars_of "tls")) by done.
  change (negb (zlen (chars_of "tls") =? zlen (chars_of "tls")) || negb (same_case (chars_of "tls") (chars_of "tls"))) with false.
  cbn [negb]. unfold dx_codec_tls_parser.
  rewrite (bind_ok _ _ _ _ _ (codec_properties_spec s p (chars_of "tls") _ x Hs Ha eq_refl Hps)). cbn [fst snd].
  destruct (tls_properties_set tls) as [Hset Hfold].
  erewrite bind_ok; [|by apply (properties_spec calloc_ok calloc_works tls_property put_tls s (tls_properties tls))].
  by rewrite Hfold.
Qed.

Lemma parse_gzip s p x addr :
  gzip_status = true -> stands s p (chars_of "gzip" ++ codec_splitter :: x) ->
  dx_codec_parse calloc_ok tls_status gzip_status s p (zlen (chars_of "gzip")) addr tt = Ok (set_gzip addr) tt.
Proof using Type.
  intros -> Hs.
  assert (properties_begin_symbol ∉ chars_of "gzip") as Ha 
    by (apply plain_absent; [by apply plain_checked; vm_compute|unfold special; repeat constructor]).
  unfold dx_codec_parse, codecs. cbn [codec_loop].
  pose proof (codec_name_spec s p (chars_of "gzip") [] x Hs Ha eq_refl) as En. rewrite app_nil_r in En. rewrite En.
  apply stands_app in Hs as [Hs _]. rewrite (stands_take s p (chars_of "gzip")) by done. by vm_compute.
Qed.
Lemma codecs_loop_codec n s p codec x e addr addr' :
  stands s p (codec ++ codec_splitter :: x) -> (exists c codec', codec = c :: codec' /\ c <> whitespace /\ c <> 0) ->
  codec_splitter ∉ codec -> p + zlen codec <= e -> (exists c x', x = c :: x' /\ c <> 0) ->
  dx_codec_parse calloc_ok tls_status gzip_status s p (zlen codec) addr tt = Ok addr' tt ->
  codecs_loop calloc_ok tls_status gzip_status (S n) s p e addr tt =
    codecs_loop calloc_ok tls_status gzip_status n s (p + zlen codec + 1) e addr' tt.
Proof using Type.
  intros Hs Hc Ha He (c & x' & -> & Hx) Ep. cbn [codecs_loop].
  rewrite (bind_ok _ _ _ _ _ (next_codec_found s p codec (c :: x') e Hs Hc Ha He)). cbn [snd fst]. rewrite (bind_ok _ _ _ _ _ Ep).
  apply stands_app in Hs as [_ Hs]. apply stands_cons in Hs.
  unfold dx_has_next. rewrite (stands_char _ _ _ _ Hs). unfold null_symbol. by rewrite (proj2 (Z.eqb_neq _ _)) by done.
Qed.

Lemma codecs_loop_none n s p x c addr :
  stands s p (x ++ [c]) -> x <> [] -> 0 ∉ x -> codec_splitter ∉ x -> c <> codec_splitter ->
  codecs_loop calloc_ok tls_status gzip_status (S n) s p (p + zlen x) addr tt = Ok addr tt.
Proof using Type.
  intros Hs Hne H0 Ha Hc. cbn [codecs_loop]. rewrite (bind_ok _ _ _ _ _ (next_codec_none s p x c Hs Hne H0 Ha Hc)).
  cbn [snd fst]. rewrite bind_ret. unfold dx_has_next. by rewrite char_at_end.
Qed.

Lemma tls_text_start tls : exists c x, tls_text tls = c :: x /\ c <> whitespace /\ c <> 0.
Proof using Type. by exists 116, (chars_of "ls" ++ print_properties (tls_properties tls)). Qed.
Lemma tls_text_absent tls c :
  tls_ok tls -> c ∈ special ->
  c ∉ [property_value_splitter; properties_splitter; properties_begin_symbol; properties_end_symbol] -> c ∉ tls_text tls.
Proof using Type.
  intros Hok Hc Hn. apply not_in_app; [by apply plain_absent; [apply plain_checked; vm_compute|]|].
  apply properties_absent; [by apply tls_properties_ok|done|done].
Qed.

Ltac not_in_list := repeat (apply not_elem_of_cons; split; [done|]); apply not_elem_of_nil.
Ltac in_special := unfold special; repeat constructor.

Lemma codecs_spec s p a x :
  address_ok tls_status gzip_status a -> zlen s < 2 ^ 63 -> x <> [] -> 0 ∉ x -> codec_splitter ∉ x ->
  stands s p (print_codecs a ++ x ++ [entry_end_symbol]) ->
  codecs_loop calloc_ok tls_status gzip_status (S (length s)) s p (p + zlen (print_codecs a ++ x)) zero_address tt =
    Ok (Address None None None None (ad_tls a) (ad_gzip a)) tt.
Proof using calloc_works.
  intros Hok Hlen Hne H0 Ha Hs. pose proof (stands_bounds _ _ _ Hs) as [Hp Hb]. rewrite !zlen_app in Hb.
  change (zlen [_]) with 1 in Hb. pose proof (zlen_nonneg (print_codecs a)).
  assert (1 <= zlen x) as Hx by (destruct x; [done|rewrite zlen_cons; pose proof (zlen_nonneg x); lia]).
  assert (exists n, length s = S (S n)) as [n ->] by (exists (length s - 2)%nat; unfold zlen in *; lia).
  assert (exists c x', x ++ [entry_end_symbol] = c :: x' /\ c <> 0) as Hstart.
  { destruct x as [|c x']; [done|]. exists c, (x' ++ [entry_end_symbol]). split; [done|].
    apply not_elem_of_cons in H0 as [? _]. done. }
  assert (exists p1 addr1 n1,
    codecs_loop calloc_ok tls_status gzip_status (S (S (S n))) s p (p + zlen (print_codecs a ++ x)) zero_address tt =
    codecs_loop calloc_ok tls_status gzip_status (S (S n1)) s p1 (p + zlen (print_codecs a ++ x)) addr1 tt /\
    addr1 = Address None None None None (ad_tls a) false /\
    stands s p1 ((if ad_gzip a then chars_of "gzip" ++ [codec_splitter] else []) ++ x ++ [entry_end_symbol]) /\
    p1 + zlen ((if ad_gzip a then chars_of "gzip" ++ [codec_splitter] else []) ++ x) = p + zlen (print_codecs a ++ x))
    as (p1 & addr1 & n1 & -> & -> & Hs1 & Ep1).
  { pose proof (ok_tls _ _ _ Hok) as Ht. unfold print_codecs in Hs |- *. destruct (tls_enabled (ad_tls a)) eqn:Et.
    - destruct Ht as [Hst Htls]. rewrite <- !app_assoc in Hs |- *. cbn [app] in Hs |- *.
      eexists _, _, _. split_and!.
      + eapply codecs_loop_codec; [exact Hs|apply tls_text_start| | | |by eapply parse_tls].
        * apply tls_text_absent; [done|in_special|not_in_list].
        * rewrite zlen_app. pose proof (zlen_nonneg (codec_splitter :: (if ad_gzip a then chars_of "gzip" ++ [codec_splitter] else []) ++ x)).
          lia.
        * destruct (ad_gzip a); [by exists 103, (chars_of "zip" ++ [codec_splitter] ++ x ++ [entry_end_symbol])|exact Hstart].
      + done.
      + apply stands_app in Hs as [_ Hs]. by apply stands_cons in Hs.
      + rewrite !zlen_app, zlen_cons, zlen_app. lia.
    - exists p, zero_address, (S n). cbn [app] in Hs |- *. by rewrite Ht. }
  destruct (ad_gzip a) eqn:Eg.
  - rewrite <- app_assoc in Hs1. cbn [app] in Hs1. rewrite zlen_app in Ep1. rewrite zlen_app in Ep1. change (zlen [codec_splitter]) with 1 in Ep1.
    erewrite codecs_loop_codec; [| exact Hs1 |by exists 103, (chars_of "zip")| | |exact Hstart|eapply parse_gzip; [by apply Hok|exact Hs1]].
    + apply stands_app in Hs1 as [_ Hs1]. apply stands_cons in Hs1.
      rewrite <- Ep1. replace (p1 + (zlen (chars_of "gzip") + 1 + zlen x)) with (p1 + zlen (chars_of "gzip") + 1 + zlen x) by lia.
      by rewrite (codecs_loop_none n1 s _ x entry_end_symbol).
    + apply plain_absent; [by apply plain_checked; vm_compute|in_special].
    + rewrite <- Ep1. lia.
  - cbn [app] in Hs1, Ep1. rewrite <- Ep1. by rewrite (codecs_loop_none (S n1) s _ x entry_end_symbol).
Qed.
(** ** The host and the port *)

Lemma codecs_last a : print_codecs a = [] \/ exists x, print_codecs a = x ++ [codec_splitter].
Proof using Type.
  unfold print_codecs. destruct (tls_enabled (ad_tls a)), (ad_gzip a); rewrite ?app_nil_r.
  - right. eexists. by rewrite app_assoc.
  - right. by eexists.
  - right. by eexists.
  - by left.
Qed.

Lemma host_port_string_spec s p codecs host ps :
  (codecs = [] \/ exists x, codecs = x ++ [codec_splitter]) -> codec_splitter ∉ host -> properties_begin_symbol ∉ host ->
  host <> [] -> Forall property_ok ps ->
  stands s p (codecs ++ host ++ print_properties ps ++ [entry_end_symbol]) ->
  dx_get_host_port_string calloc_ok s p (zlen (codecs ++ host ++ print_properties ps)) tt =
    Ok (p + zlen codecs, zlen host) tt.
Proof using calloc_works.
  intros Hcodecs Hh Hb Hne Hps Hs. set (entry := codecs ++ host ++ print_properties ps).
  assert (stands s p (entry ++ [entry_end_symbol])) as He by (unfold entry; by rewrite <- !app_assoc).
  apply stands_app in He as [He _].
  assert (codec_splitter ∉ host ++ print_properties ps) as Ha.
  { apply not_in_app; [done|]. apply properties_absent; [done|in_special|not_in_list]. }
  assert (zlen entry <> 0) as Hz.
  { unfold entry. rewrite !zlen_app. destruct host; [done|]. rewrite zlen_cons. pose proof (zlen_nonneg host).
    pose proof (zlen_nonneg codecs). pose proof (zlen_nonneg (print_properties ps)). lia. }
  assert (dx_find_last calloc_ok s p (p + zlen entry) codec_splitter tt =
    Ok (if bool_decide (codecs = []) then None else Some (p + zlen codecs - 1)) tt) as E.
  { unfold dx_find_last. rewrite (create_string calloc_ok calloc_works s p entry) by (done || lia).
    rewrite bind_ret. replace (p + zlen entry - p) with (zlen entry) by lia. rewrite (proj2 (Z.eqb_neq _ _)) by done.
    destruct Hcodecs as [->|[x ->]].
    - rewrite bool_decide_true by done. unfold entry. cbn [app mbind option_bind]. by rewrite strrchr_absent.
    - rewrite bool_decide_false by (by destruct x). unfold entry. rewrite <- app_assoc. cbn [app mbind option_bind].
      rewrite strrchr_found by done. cbn. unfold ret. f_equal. f_equal. rewrite zlen_app. change (zlen [_]) with 1. lia. }
  unfold dx_get_host_port_string. rewrite (bind_ok _ _ _ _ _ E).
  assert (match (if bool_decide (codecs = []) then None else Some (p + zlen codecs - 1)) with
    None => p | Some q => q + 1 end = p + zlen codecs) as ->.
  { case_bool_decide as Hc; [rewrite Hc; change (zlen []) with 0; lia|lia]. }
  apply stands_app in Hs as [_ Hs]. unfold ret. f_equal. f_equal. destruct ps as [|kv ps].
  - cbn [print_properties app] in Hs. unfold entry. cbn [print_properties]. rewrite app_nil_r, zlen_app.
    rewrite (find_first_none s _ (host ++ [entry_end_symbol])); [lia|done| |].
    + apply not_in_app; [done|not_in_list].
    + rewrite zlen_app. change (zlen [_]) with 1. lia.
  - cbn [print_properties app] in Hs. rewrite (find_first_found s _ host _ _ _ Hs Hb); [lia|].
    unfold entry. rewrite !zlen_app. pose proof (zlen_nonneg (print_properties (kv :: ps))). lia.
Qed.

Lemma digits_nonneg l : forallb is_digit l = true -> 0 <= digits_value l.
Proof using Type.
  unfold digits_value. assert (forall v, 0 <= v -> forallb is_digit l = true -> 0 <= fold_left (fun v c => 10 * v + (c - 48)) l v) as H.
  { induction l as [|c l IH]; intros v Hv Hl; [done|]. cbn [forallb fold_left] in *. apply andb_prop in Hl as [Hc Hl].
    apply IH; [|done]. unfold is_digit in Hc. bool_to_prop. lia. }
  by apply H.
Qed.
Lemma digits_absent l c : forallb is_digit l = true -> is_digit c = false -> c ∉ l.
Proof using Type.
  intros Hl Hc Hin. rewrite forallb_forall in Hl. apply list_elem_of_In in Hin. by rewrite (Hl c Hin) in Hc.
Qed.

Lemma to_lower_symbol c d : to_lower c = d -> 33 <= d < 65 -> c = d.
Proof using Type. unfold to_lower. destruct ((65 <=? c) && (c <=? 90)) eqn:E; bool_to_prop; lia. Qed.

(** No scheme: the colon of a host is before its port. *)
Lemma no_scheme host port scheme i :
  host_port_splitter ∉ host -> forallb is_digit (default [] port) = true ->
  scheme !! i = Some 58 -> scheme !! S i = Some 47 -> to_lower <$> scheme = scheme ->
  let copy := host ++ match port with Some port => host_port_splitter :: port | None => [] end in
  same_case scheme (take (length scheme) copy) = false.
Proof using Type.
  intros Hh Hp H1 H2 Hl copy. unfold same_case. apply bool_decide_eq_false. intros E. rewrite Hl in E.
  assert (forall j d, scheme !! j = Some d -> 33 <= d < 65 -> copy !! j = Some d) as Hc.
  { intros j d Hj Hd. rewrite E, list_lookup_fmap in Hj. destruct (take _ copy !! j) as [c|] eqn:Ec; [|done].
    apply lookup_take_Some in Ec as [Ec _]. rewrite Ec. f_equal. injection Hj as Hj. by apply to_lower_symbol. }
  pose proof (Hc _ _ H1 ltac:(lia)) as C1. pose proof (Hc _ _ H2 ltac:(lia)) as C2. unfold copy in C1, C2.
  apply lookup_app_Some in C1 as [C1|[Hi C1]].
  { by apply list_elem_of_lookup_2 in C1. }
  rewrite lookup_app_r in C2 by lia. destruct port as [port|]; [|done]. cbn [default id] in Hp.
  replace (S i - length host)%nat with (S (i - length host)) in C2 by lia. cbn [lookup list_lookup] in C2.
  apply list_elem_of_lookup_2 in C2. by apply (digits_absent port 47) in C2.
Qed.

Lemma skip_no_scheme host port :
  host_port_splitter ∉ host -> forallb is_digit (default [] port) = true ->
  skip_scheme schemes (host ++ match port with Some port => host_port_splitter :: port | None => [] end) = 0.
Proof using Type.
  intros Hh Hp. unfold schemes. cbn [skip_scheme].
  rewrite (no_scheme host port (chars_of "file:/") 4), (no_scheme host port (chars_of "http://") 4),
    (no_scheme host port (chars_of "https://") 5); by vm_compute.
Qed.

Lemma parse_host_port_spec s p a addr host :
  address_ok tls_status gzip_status a -> ad_host a = Some host -> stands s p (print_host a) ->
  dx_parse_host_port calloc_ok s p (zlen (print_host a)) addr tt = Ok (set_host_port (Some host) (ad_port a) addr) tt.
Proof using calloc_works.
  intros [(host' & Eh & Hh) Hport _ _ _] Ehost Hs. assert (host' = host) as -> by congruence. clear Eh.
  assert (host_port_splitter ∉ host) as Hc by (by apply plain_absent; [|in_special]).
  pose proof (plain_length host Hh) as Hl. unfold print_host in *. rewrite Ehost in *. cbn [default id] in *.
  unfold dx_parse_host_port. set (copy := host ++ _) in *.
  assert (zlen copy <> 0) as Hz.
  { unfold copy. rewrite zlen_app. set (y := match ad_port a with Some _ => _ | None => _ end). pose proof (zlen_nonneg y). lia. }
  rewrite (create_string calloc_ok calloc_works s p copy _ Hs eq_refl), bind_ret, (proj2 (Z.eqb_neq _ _)) by done.
  assert (skip_scheme schemes copy = 0) as ->.
  { apply (skip_no_scheme host (ad_port a)); [done|]. destruct (ad_port a); [by apply Hport|done]. }
  assert (dx_find_last calloc_ok copy 0 (zlen copy - 1) host_port_splitter tt =
    Ok (match ad_port a with Some _ => Some (zlen host) | None => None end) tt) as E.
  { unfold dx_find_last. destruct (ad_port a) as [port|] eqn:Ea.
    - destruct (Hport port eq_refl) as (Hne & Hd & _). destruct (exists_last Hne) as (y & d & ->).
      assert (stands copy 0 (host ++ host_port_splitter :: y)) as Hsub.
      { exists [], [d]. unfold copy. by rewrite <- app_assoc. }
      assert (zlen copy - 1 - 0 = zlen host + 1 + zlen y) as ->.
      { unfold copy. rewrite !zlen_app, !zlen_cons, zlen_app. change (zlen [d]) with 1. lia. }
      rewrite (create_string calloc_ok calloc_works copy 0 _ _ Hsub) by (rewrite zlen_app, zlen_cons; lia).
      pose proof (zlen_nonneg y). rewrite (proj2 (Z.eqb_neq _ _)), bind_ret by lia. cbn [mbind option_bind].
      rewrite strrchr_found; [done|]. intros Hin. apply (digits_absent (y ++ [d]) host_port_splitter Hd eq_refl).
      by apply elem_of_app; left.
    - assert (stands copy 0 (take (length host - 1) host)) as Hsub.
      { exists [], (drop (length host - 1) host). unfold copy. by rewrite app_nil_r, take_drop. }
      rewrite (create_string calloc_ok calloc_works copy 0 _ (zlen copy - 1 - 0) Hsub).
      2: { unfold copy, zlen. rewrite app_nil_r, length_take. unfold zlen in Hl. lia. }
      rewrite bind_ret. destruct (_ =? 0); [done|]. cbn [mbind option_bind].
      rewrite strrchr_absent; [done|]. intros Hin. apply Hc. by eapply subseteq_take. }
  rewrite (bind_ok _ _ _ _ _ E). destruct (ad_port a) as [port|] eqn:Ea.
  - destruct (Hport port eq_refl) as (Hne & Hd & Hv). pose proof (digits_nonneg port Hd).
    assert (drop (Z.to_nat (zlen host + 1)) copy = port) as ->.
    { unfold copy, zlen. replace (Z.to_nat _) with (length host + 1)%nat by lia. rewrite drop_app_add. done. }
    assert (take (Z.to_nat (zlen host)) copy = host) as ->.
    { unfold copy, zlen. rewrite Nat2Z.id. apply take_app_length. }
    unfold dx_is_numeric. rewrite bool_decide_false by done. rewrite Hd. cbn [negb andb].
    unfold port_max, port_min, INT_MAX in *. by decide_cmps.
  - unfold copy. by rewrite app_nil_r.
Qed.
(** ** The whole address *)

Lemma get_properties_spec s p codecs host ps :
  (codecs = [] \/ exists x, codecs = x ++ [codec_splitter]) -> codec_splitter ∉ host -> properties_begin_symbol ∉ host ->
  host <> [] -> Forall property_ok ps ->
  stands s p (codecs ++ host ++ print_properties ps ++ [entry_end_symbol]) ->
  dx_get_properties calloc_ok s p (zlen (codecs ++ host ++ print_properties ps)) tt =
    Ok (if ps is [] then None else Some (p + zlen codecs + zlen host), zlen (print_properties ps)) tt.
Proof using calloc_works.
  intros Hcodecs Hh Hb Hne Hps Hs. unfold dx_get_properties.
  rewrite (bind_ok _ _ _ _ _ (host_port_string_spec s p codecs host ps Hcodecs Hh Hb Hne Hps Hs)). cbn [fst snd].
  apply stands_app in Hs as [_ Hs]. apply stands_app in Hs as [_ Hs]. rewrite !zlen_app.
  set (q := p + zlen codecs + zlen host) in *.
  replace (p + (zlen codecs + (zlen host + zlen (print_properties ps))) - 1) with (q + zlen (print_properties ps) - 1) by (unfold q; lia).
  destruct ps as [|kv ps].
  - cbn [print_properties]. change (zlen []) with 0. rewrite (proj2 (Z.leb_le _ _)), orb_true_r by lia. done.
  - apply stands_app in Hs as [Hs _]. destruct (bracketed s q (kv :: ps) ltac:(done) Hps Hs) as (E1 & E2 & E3 & Hl).
    unfold dx_has_next. rewrite E1, E2, E3. rewrite (proj2 (Z.leb_gt _ _)) by lia. cbn. unfold ret. f_equal. f_equal. lia.
Qed.

Lemma print_host_ok a :
  address_ok tls_status gzip_status a ->
  print_host a <> [] /\ (forall c, c ∈ special -> c <> host_port_splitter -> c ∉ print_host a).
Proof using Type.
  intros [(host & Eh & Hh) Hport _ _ _]. unfold print_host. rewrite Eh. cbn [default id]. split.
  - destruct Hh as [Hne _]. by destruct host.
  - intros c Hc Hn. apply not_in_app; [by apply plain_absent|]. destruct (ad_port a) as [port|]; [|apply not_elem_of_nil].
    destruct (Hport port eq_refl) as (_ & Hd & _). apply not_elem_of_cons. split; [done|].
    apply (digits_absent port c Hd). unfold special in Hc. clear -Hc.
    repeat (apply elem_of_cons in Hc as [->|Hc]; [done|]). by apply not_elem_of_nil in Hc.
Qed.

Lemma print_address_absent a c :
  address_ok tls_status gzip_status a ->
  c ∈ [entry_begin_symbol; entry_end_symbol; null_symbol] -> c ∉ print_address a.
Proof using Type.
  intros Hok Hin.
  assert (c ∈ special /\ c <> host_port_splitter /\ c <> codec_splitter /\
    c ∉ [property_value_splitter; properties_splitter; properties_begin_symbol; properties_end_symbol]) as (Hc & H1 & H2 & H3).
  { repeat (apply elem_of_cons in Hin as [->|Hin]; [split; [in_special|split; [done|split; [done|not_in_list]]]|]).
    by apply not_elem_of_nil in Hin. }
  unfold print_address, print_codecs. apply not_in_app; apply not_in_app.
  - destruct (tls_enabled (ad_tls a)) eqn:Et; [|apply not_elem_of_nil]. pose proof (ok_tls _ _ _ Hok) as Ht. rewrite Et in Ht.
    destruct Ht as [_ Ht]. apply not_in_app; [by apply tls_text_absent|]. apply not_elem_of_cons. split; [done|apply not_elem_of_nil].
  - destruct (ad_gzip a); [|apply not_elem_of_nil]. apply not_in_app; [by apply plain_absent; [apply plain_checked; vm_compute|]|].
    apply not_elem_of_cons. split; [done|apply not_elem_of_nil].
  - by apply print_host_ok.
  - apply properties_absent; [by eapply address_properties_ok|done|done].
Qed.

Lemma parse_address_spec s p a :
  address_ok tls_status gzip_status a -> zlen s < 2 ^ 63 -> stands s p (print_address a ++ [entry_end_symbol]) ->
  dx_parse_address calloc_ok tls_status gzip_status s (Some (p, zlen (print_address a))) tt = Ok a tt.
Proof using calloc_works.
  intros Hok Hlen Hs. destruct (print_host_ok a Hok) as [Hne Hh]. pose proof (address_properties_ok _ _ a Hok) as Hps.
  pose proof (ok_host _ _ _ Hok) as (host & Eh & _).
  unfold print_address in Hs |- *. rewrite <- !app_assoc in Hs. set (ps := address_properties a) in *.
  assert (zlen (print_codecs a ++ print_host a ++ print_properties ps) <> 0) as Hz.
  { rewrite !zlen_app. destruct (print_host a) as [|c h]; [done|]. rewrite zlen_cons. pose proof (zlen_nonneg h).
    pose proof (zlen_nonneg (print_codecs a)). pose proof (zlen_nonneg (print_properties ps)). lia. }
  assert (codec_splitter ∉ print_host a) as Hcs by (by apply Hh; [in_special|]).
  assert (properties_begin_symbol ∉ print_host a) as Hpb by (by apply Hh; [in_special|]).
  unfold dx_parse_address. rewrite (proj2 (Z.eqb_neq _ _)) by done.
  erewrite bind_ok; [|apply (codecs_spec s p a (print_host a ++ print_properties ps) Hok Hlen)].
  - rewrite (bind_ok _ _ _ _ _ (host_port_string_spec s p _ _ ps (codecs_last a) Hcs Hpb Hne Hps Hs)). cbn [fst snd].
    apply stands_app in Hs as Hs'. destruct Hs' as [_ Hs1]. apply stands_app in Hs1 as [Hs1 Hs2]. apply stands_app in Hs2 as [Hs2 _].
    rewrite (bind_ok _ _ _ _ _ (parse_host_port_spec s _ a _ host Hok Eh Hs1)).
    rewrite (bind_ok _ _ _ _ _ (get_properties_spec s p _ _ ps (codecs_last a) Hcs Hpb Hne Hps Hs)). cbn [fst snd].
    destruct (address_properties_set a) as [Hset Hfold].
    rewrite (properties_spec calloc_ok calloc_works address_property put_address s ps) by done.
    unfold ps. rewrite Hfold by done. unfold set_username, set_password, set_host_port. cbn. rewrite <- Eh. by destruct a.
  - by intros [? _]%app_nil.
  - apply not_in_app; [by apply Hh; [in_special|]|apply properties_absent; [done|in_special|not_in_list]].
  - apply not_in_app; [done|apply properties_absent; [done|in_special|not_in_list]].
  - by rewrite <- app_assoc.
Qed.

(** ** Collections *)

Lemma next_entry_spec s p x y :
  stands s p (entry_begin_symbol :: x ++ entry_end_symbol :: y) -> entry_end_symbol ∉ x ->
  (exists c x', x = c :: x' /\ c <> whitespace) ->
  dx_get_next_entry s p tt = Ok (p + 1 + zlen x + 1, Some (p + 1, zlen x)) tt.
Proof using Type.
  intros Hs Ha (c & x' & Ex & Hc). unfold dx_get_next_entry. cbn [next_entry_loop].
  unfold dx_has_next. rewrite (stands_char _ _ _ _ Hs). change (negb (negb (entry_begin_symbol =? null_symbol))) with false. cbv iota.
  rewrite (strchr_found s p [] _ _ Hs (not_elem_of_nil _)). change (zlen []) with 0. rewrite Z.add_0_r.
  assert (strchr s p entry_end_symbol = Some (p + 1 + zlen x)) as ->.
  { rewrite (strchr_found s p (entry_begin_symbol :: x) _ y); [f_equal; rewrite zlen_cons; lia|exact Hs|].
    apply not_elem_of_cons. by split. }
  apply stands_cons in Hs. rewrite Ex in Hs at 1. cbn [app] in Hs.
  rewrite (not_empty s _ c _ _ Hs Hc) by (rewrite Ex, zlen_cons; pose proof (zlen_nonneg x'); lia).
  unfold ret. f_equal. f_equal. f_equal. f_equal. lia.
Qed.

Lemma print_address_start a : address_ok tls_status gzip_status a ->
  exists c x, print_address a = c :: x /\ c <> whitespace.
Proof using Type.
  intros Hok. unfold print_address, print_codecs. destruct (tls_enabled (ad_tls a)).
  { destruct (tls_text_start (ad_tls a)) as (c & x & -> & Hc & _). cbn [app]. by eauto. }
  destruct (ad_gzip a); [cbn; by eauto|]. cbn [app]. destruct (ok_host _ _ _ Hok) as (host & Eh & Hh).
  unfold print_host. rewrite Eh. destruct (plain_start host Hh) as (c & x & -> & Hc). cbn [default id app].
  exists c. eexists. split; [done|]. apply (not_special c); [done|in_special].
Qed.

Lemma addresses_round s p a x n addresses :
  zlen s < 2 ^ 63 -> address_ok tls_status gzip_status a -> array_wf addresses ->
  stands s p (entry_begin_symbol :: print_address a ++ entry_end_symbol :: x) ->
  let q := p + zlen (print_address a) + 2 in
  exists a1, array_wf a1 /\ contents a1 = contents addresses ++ [a] /\ stands s q x /\
    addresses_loop calloc_ok tls_status gzip_status (S n) s p addresses tt =
      (if dx_has_next s (Some q) then addresses_loop calloc_ok tls_status gzip_status n s q a1 else ret a1) tt.
Proof using calloc_works.
  intros Hlen Ha Hwf Hs q.
  destruct (array_append_spec zero_address (fun n => calloc_ok (Z.of_nat n)) addresses a Hwf (fun n => calloc_works _))
    as (a1 & Ei & Hwf1 & Hc1). exists a1. split; [done|]. split; [done|].
  assert (entry_end_symbol ∉ print_address a) as He by (apply print_address_absent; [done|repeat constructor]).
  pose proof (next_entry_spec s p _ x Hs He (print_address_start a Ha)) as En.
  replace (p + 1 + zlen (print_address a) + 1) with q in En by (unfold q; lia).
  apply stands_cons in Hs. rewrite cons_middle, app_assoc in Hs. apply stands_app in Hs as [Hs Hx]. split.
  { rewrite zlen_app in Hx. change (zlen [_]) with 1 in Hx. by replace q with (p + 1 + (zlen (print_address a) + 1)) by (unfold q; lia). }
  cbn [addresses_loop]. rewrite (bind_ok _ _ _ _ _ En). cbn [fst snd].
  rewrite (bind_ok _ _ _ _ _ (parse_address_spec s _ a Ha Hlen Hs)). rewrite Ei. done.
Qed.

Lemma print_addresses_cons a l :
  print_addresses (a :: l) = entry_begin_symbol :: print_address a ++ entry_end_symbol :: print_addresses l.
Proof using Type. unfold print_addresses. cbn [fmap list_fmap concat]. by rewrite <- app_comm_cons, <- app_assoc. Qed.

Lemma addresses_loop_spec s l : forall a p n addresses,
  zlen s < 2 ^ 63 -> Forall (address_ok tls_status gzip_status) (a :: l) -> (length l < n)%nat -> array_wf addresses ->
  stands s p (print_addresses (a :: l)) -> zlen s = p + zlen (print_addresses (a :: l)) ->
  exists addresses', addresses_loop calloc_ok tls_status gzip_status n s p addresses tt = Ok addresses' tt /\
    contents addresses' = contents addresses ++ a :: l.
Proof using calloc_works.
  induction l as [|a' l IH]; intros a p n addresses Hlen Hok Hn Hwf Hs Hend; (destruct n as [|n]; [simpl in Hn; lia|]);
    apply Forall_cons in Hok as [Ha Hok]; rewrite print_addresses_cons in Hs, Hend;
    rewrite zlen_cons, zlen_app, zlen_cons in Hend;
    destruct (addresses_round s p a _ n addresses Hlen Ha Hwf Hs) as (a1 & Hwf1 & Hc1 & Hx & ->).
  - exists a1. change (zlen (print_addresses [])) with 0 in Hend.
    replace (p + zlen (print_address a) + 2) with (zlen s) by lia. unfold dx_has_next. by rewrite char_at_end.
  - pose proof Hx as Hx0. rewrite print_addresses_cons in Hx0. unfold dx_has_next. rewrite (stands_char _ _ _ _ Hx0). cbn [negb].
    destruct (IH a' _ n a1 Hlen Hok ltac:(simpl in Hn; lia) Hwf1 Hx) as (a2 & E2 & Hc2); [lia|].
    exists a2. split; [exact E2|]. by rewrite Hc2, Hc1, <- app_assoc.
Qed.
End addresses.

(** ** Properties *)

(** C29: addresses that are written are read back: a collection of entries, each
    in its brackets, with the codecs that the build has and their properties,
    the host, the port if there is one, and the credentials, is parsed into the
    same addresses in the same order, whatever their texts are, as long as these
    have none of the characters with a meaning. *)
Theorem addresses_roundtrip (calloc_ok : Z -> bool) (tls_status gzip_status : bool) (l : list dx_address_t) :
  (forall n, calloc_ok n = true) -> l <> [] -> Forall (address_ok tls_status gzip_status) l ->
  zlen (print_addresses l) < 2 ^ 63 ->
  exists addresses, dx_get_addresses_from_collection calloc_ok tls_status gzip_status (print_addresses l) tt =
    Ok addresses tt /\ contents addresses = l.
Proof.
  intros Hcalloc Hne Hok Hlen. destruct l as [|a l]; [done|]. set (s := print_addresses (a :: l)) in *.
  assert (zlen s <> 0) as Hz.
  { unfold s. rewrite print_addresses_cons, zlen_cons. pose proof (zlen_nonneg (print_address a ++ entry_end_symbol :: print_addresses l)). lia. }
  assert (length l < S (length s))%nat as Hn.
  { unfold s. clear. revert a. induction l as [|a' l IH]; intros a; [simpl; lia|]. rewrite print_addresses_cons. cbn [length].
    rewrite length_app. cbn [length]. specialize (IH a'). lia. }
  unfold dx_get_addresses_from_collection.
  rewrite (create_string calloc_ok Hcalloc s 0 s _ (stands_whole s) eq_refl), (proj2 (Z.eqb_neq _ _)), bind_ret by done.
  apply (addresses_loop_spec calloc_ok Hcalloc tls_status gzip_status s l a 0 _ DX_EMPTY_ARRAY Hlen Hok Hn); [by split|apply stands_whole|done].
Qed.

Definition example_address : dx_address_t :=
  Address (Some (chars_of "demo.dxfeed.com")) (Some (chars_of "7300")) (Some (chars_of "demo")) None
    (CodecTls true (Some (chars_of "k.pem")) None (Some (chars_of "t.pem")) None) true.
Definition bare_address : dx_address_t := Address (Some (chars_of "localhost")) None None None no_tls false.

Lemma addresses_roundtrip_witness :
  exists addresses, dx_get_addresses_from_collection (fun _ => true) true true
      (print_addresses [example_address; bare_address]) tt = Ok addresses tt /\
    contents addresses = [example_address; bare_address].
Proof.
  apply addresses_roundtrip; [done|done| |by vm_compute].
  constructor; [|constructor; [|constructor]].
  - constructor.
    + exists (chars_of "demo.dxfeed.com"). split; [done|by apply plain_checked; vm_compute].
    + intros port [= <-]. by vm_compute.
    + split; [|done]. intros x [= <-]. by apply plain_checked; vm_compute.
    + split; [done|]. split_and!; intros x H; try done; injection H as <-; by apply plain_checked; vm_compute.
    + done.
  - constructor.
    + exists (chars_of "localhost"). split; [done|by apply plain_checked; vm_compute].
    + done.
    + done.
    + done.
    + done.
Defined.

(** ** What the parser does at the edges *)

(** A host that is a scheme only makes the parser copy a string of a negative
    length. *)
Lemma scheme_only_undefined scheme :
  scheme ∈ schemes ->
  dx_get_addresses_from_collection (fun _ => true) false false scheme tt = UB.
Proof. intros H. unfold schemes in H. repeat (apply elem_of_cons in H as [->|H]; [by vm_compute|]). by apply not_elem_of_nil in H. Qed.

(** Spaces only are taken for the name of a host when a bracket follows. *)
Example blank_entry_is_a_host :
  parsed "(  )" = Ok [Address (Some (chars_of "  ")) None None None no_tls false] tt.
Proof. vm_compute. reflexivity. Qed.
