(* ===== verification/Network.v ===== *)
(** * Network: connecting and reconnecting ([src/DXNetwork.c])

    The addresses of a connection with what they are resolved to, the attempts to
    connect to them in their order, and what is done when a connection is lost:
    the queue of the tasks is emptied, and the descriptions and the subscriptions
    are scheduled once more.  The operating system and TLS, which is an option of
    the build, are outside: looking a host up, connecting to what it is resolved
    to and opening the file of an address are parameters. *)

From Stdlib Require Import Ascii String.
From S2P Require Import Prelude Arrays Algorithms SymbolCodec EventData DataStructures Properties TaskQueue NetworkContext.
From S2P Require Import ServerData ServerProcessor ClientMessages AddressParser QueueThread.
Local Open Scope Z_scope.
Local Open Scope c_scope.

(** ** Data *)

(** An address with what it is resolved to, each a number for an [addrinfo]. *)
Record dx_ext_address_t : Type := ExtAddress {
  ea_address : dx_address_t;
  ea_elements : dx_array Z;
  ea_cur_info_index : nat;
  is_connection_failed : bool;
}.
Definition set_ea_elements (x : dx_array Z) (a : dx_ext_address_t) : dx_ext_address_t :=
  ExtAddress (ea_address a) x (ea_cur_info_index a) (is_connection_failed a).
Definition set_cur_info_index (x : nat) (a : dx_ext_address_t) : dx_ext_address_t :=
  ExtAddress (ea_address a) (ea_elements a) x (is_connection_failed a).
Definition set_failed (a : dx_ext_address_t) : dx_ext_address_t :=
  ExtAddress (ea_address a) (ea_elements a) (ea_cur_info_index a) true.
Definition zero_ext_address : dx_ext_address_t := ExtAddress zero_address DX_EMPTY_ARRAY 0 false.

Record dx_address_resolution_context_t : Type := AddressResolution {
  ar_elements : dx_array dx_ext_address_t;
  last_resolution_timestamp : Z;
  cur_addr_index : nat;
}.
Definition set_ar_elements (x : dx_array dx_ext_address_t) (r : dx_address_resolution_context_t)
  : dx_address_resolution_context_t := AddressResolution x (last_resolution_timestamp r) (cur_addr_index r).
Definition set_cur_addr_index (x : nat) (r : dx_address_resolution_context_t) : dx_address_resolution_context_t :=
  AddressResolution (ar_elements r) (last_resolution_timestamp r) x.
Definition set_resolution_timestamp (x : Z) (r : dx_address_resolution_context_t) : dx_address_resolution_context_t :=
  AddressResolution (ar_elements r) x (cur_addr_index r).

(** The context of a connection in the network: [raw_dump_file] is whether the
    file is open, and the notifier of the user counts its calls. *)
Record net : Type := Net {
  nt_client : client;
  nt_address : list Z;
  addr_context : dx_address_resolution_context_t;
  raw_dump_file : bool;
  nt_notified : nat;
}.
Definition set_nt_client (x : client) (s : net) : net :=
  Net x (nt_address s) (addr_context s) (raw_dump_file s) (nt_notified s).
Definition set_addr_context (x : dx_address_resolution_context_t) (s : net) : net :=
  Net (nt_client s) (nt_address s) x (raw_dump_file s) (nt_notified s).
Definition set_raw_dump_file (x : bool) (s : net) : net :=
  Net (nt_client s) (nt_address s) (addr_context s) x (nt_notified s).
Definition notify (s : net) : net :=
  Net (nt_client s) (nt_address s) (addr_context s) (raw_dump_file s) (S (nt_notified s)).

Definition on_nt_client {A} (m : M client A) : M net A := on nt_client set_nt_client m.
Definition on_nt_network {A} (m : M network_ctx A) : M net A := on_nt_client (on_network m).
Definition on_nt_messages {A} (m : M protocol_ctx A) : M net A := on_nt_client (on_messages m).
Definition on_addresses {A} (m : M dx_address_resolution_context_t A) : M net A := on addr_context set_addr_context m.

(** A subscription as the getters of [EventSubscription.cpp] give it. *)
Record dx_event_subscription_view : Type := EventSubscription {
  es_order_source : list (list Z);
  es_symbols : list (option (list Z));
  es_event_types : Z;
  es_flags : Z;
  es_time : Z;
}.

Section network.
Context (calloc_ok : Z -> bool) (mbsrtowcs : list Z -> option (list Z)).
Context (dx_send : list Z -> list Z -> Z + dx_error_code) (t : tables).
Context (tls_status gzip_status : bool).
(** The clocks: [dx_millisecond_timestamp], and those of the heartbeats. *)
Context (now currentTimeMillis currentTimeMark : Z).

Let alloc (n : nat) : bool := calloc_ok (Z.of_nat n).

(** ** Resolving *)

(** A string that is not a null pointer must be copied. *)
Definition copied_field (s : option (list Z)) : option (option (list Z)) :=
  match s with
  | None => Some None
  | Some _ => s ← copied_string calloc_ok s; Some (Some s)
  end.
Definition dx_create_ext_address (source : dx_address_t) : option dx_ext_address_t :=
  host ← copied_field (ad_host source);
  port ← copied_field (ad_port source);
  username ← copied_field (ad_username source);
  password ← copied_field (ad_password source);
  Some (ExtAddress (Address host port username password (dx_codec_tls_copy calloc_ok (ad_tls source)) (ad_gzip source))
    DX_EMPTY_ARRAY 0 false).

Definition dx_clear_addr_context_data : M dx_address_resolution_context_t unit :=
  update (fun r => if (arr_capacity (ar_elements r) =? 0)%nat then r
                   else AddressResolution DX_EMPTY_ARRAY (last_resolution_timestamp r) 0).

(** The time after the sleep. *)
Definition dx_sleep_before_resolve : M dx_address_resolution_context_t unit := update (set_resolution_timestamp now).

Definition dx_shuffle_addrs (rand : nat -> nat) : M dx_address_resolution_context_t unit :=
  r <-- get;;
  l <-- of_option (DX_ARRAY_SHUFFLE rand (contents (ar_elements r)));;
  put (set_ar_elements (DxArray (l ++ drop (length l) (arr_elements (ar_elements r))) (arr_size (ar_elements r))
    (arr_capacity (ar_elements r))) r).

(** The list of an address that is looked up, put into the last element. *)
Fixpoint infos_loop (infos : list Z) (elements : dx_array Z) : M dx_address_resolution_context_t (dx_array Z) :=
  match infos with
  | [] => ret elements
  | cur_addr :: infos' =>
      r <-- of_option (DX_ARRAY_INSERT 0 alloc elements cur_addr (arr_size elements));;
      if (r.2 : bool) then dx_clear_addr_context_data;;; fail
      else infos_loop infos' r.1
  end.

(** The number of the addresses that are resolved to. *)
Fixpoint resolve_loop (getaddrinfo : option (list Z) -> option (list Z) -> option (list Z))
  (addresses : list dx_address_t) (resolved_count : Z) : M dx_address_resolution_context_t Z :=
  match addresses with
  | [] => ret resolved_count
  | source :: addresses' =>
      match dx_create_ext_address source with
      | None => dx_clear_addr_context_data;;; fail
      | Some address =>
          r <-- get;;
          i <-- of_option (DX_ARRAY_INSERT zero_ext_address alloc (ar_elements r) address (arr_size (ar_elements r)));;
          if (i.2 : bool) then dx_clear_addr_context_data;;; fail
          else
            put (set_ar_elements i.1 r);;;
            match getaddrinfo (ad_host source) (ad_port source) with
            | None => resolve_loop getaddrinfo addresses' resolved_count
            | Some infos =>
                elements <-- infos_loop infos DX_EMPTY_ARRAY;;
                r <-- get;;
                let last := (arr_size (ar_elements r) - 1)%nat in
                l <-- of_option (write_at (arr_elements (ar_elements r)) last (set_ea_elements elements address));;
                put (set_ar_elements (DxArray l (arr_size (ar_elements r)) (arr_capacity (ar_elements r))) r);;;
                resolve_loop getaddrinfo addresses' (resolved_count + Z.of_nat (length infos))
            end
      end
  end.

(** What the system answers: whether the file of the address can be opened, what
    a host and a port are looked up as, and the random numbers. *)
Definition dx_resolve_address (file_opens : bool) (getaddrinfo : option (list Z) -> option (list Z) -> option (list Z))
  (rand : nat -> nat) : M net unit :=
  s <-- get;;
  n <-- on_nt_network get;;
  if IS_FLAG_SET (nw_flags n) DUMPING_RAW_DATA_FIELD_FLAG then ret tt
  else if file_opens then on_nt_network (put (set_nw_flags (Z.lor (nw_flags n) DUMPING_RAW_DATA_FIELD_FLAG) n))
  else
    on_addresses dx_sleep_before_resolve;;;
    match dx_get_addresses_from_collection calloc_ok tls_status gzip_status (nt_address s) tt with
    | UB => undefined
    | Err e _ => dx_set_error_code e
    | Ok addresses _ =>
        if (arr_size addresses =? 0)%nat then fail
        else if negb (alloc (arr_size addresses)) then fail
        else
          resolved_count <-- on_addresses (resolve_loop getaddrinfo (contents addresses) 0);;
          if resolved_count =? 0 then fail else on_addresses (dx_shuffle_addrs rand)
    end.

(** ** Connecting *)

(** The index of the first of the elements that can be connected to, or the
    number of the elements. *)
Fixpoint connect_loop (connects : Z -> bool) (n : nat) (elements : dx_array Z) (i : nat) : option nat :=
  match n with
  | O => None
  | S n' =>
      if (i <? arr_size elements)%nat then
        cur_addr ← arr_elements elements !! i;
        if connects cur_addr then Some i else connect_loop connects n' elements (S i)
      else Some i
  end.
(** The address with its index, and whether the connection is made. *)
Definition dx_connect_via_socket (connects : Z -> bool) (address : dx_ext_address_t) : option (dx_ext_address_t * bool) :=
  i ← connect_loop connects (S (arr_size (ea_elements address))) (ea_elements address) (ea_cur_info_index address);
  Some (set_cur_info_index i address, (i <? arr_size (ea_elements address))%nat).

(** The properties before an attempt: as the user has set them. *)
Definition prepare_properties : M network_ctx unit :=
  n <-- get;;
  if negb (IS_FLAG_SET (nw_flags n) PROPERTIES_BACKUP_FLAG) then
    made <-- dx_protocol_property_make_backup calloc_ok;;
    if negb made then fail
    else update (fun n => set_nw_flags (Z.lor (nw_flags n) PROPERTIES_BACKUP_FLAG) n)
  else
    restored <-- dx_protocol_property_restore_backup calloc_ok;;
    if negb restored then fail else ret tt.

(** The credentials of an address, where the user has not set any. *)
Definition add_credentials (address : dx_address_t) : M network_ctx unit :=
  match ad_username address, ad_password address with
  | Some username, Some password =>
      contains <-- dx_protocol_property_contains (Some DX_PROPERTY_AUTH);;
      if (contains : bool) then ret tt
      else
        configured <-- dx_protocol_configure_basic_auth calloc_ok mbsrtowcs (Some username) (Some password);;
        if negb configured then fail else ret tt
  | _, _ => ret tt
  end.

(** The addresses that are left are rounds enough. *)
Fixpoint connect_addresses_loop (connects : Z -> bool) (n : nat) : M net unit :=
  match n with
  | O => undefined
  | S n' =>
      s <-- get;;
      let ctx := addr_context s in
      let next := update (set_addr_context (set_cur_addr_index (S (cur_addr_index ctx)) ctx)) in
      if (cur_addr_index ctx <? arr_size (ar_elements ctx))%nat then
        cur_addr <-- of_option (arr_elements (ar_elements ctx) !! cur_addr_index ctx);;
        if is_connection_failed cur_addr then
          next;;;
          connect_addresses_loop connects n'
        else
          on_nt_network prepare_properties;;;
          on_nt_network (add_credentials (ea_address cur_addr));;;
          c <-- of_option (dx_connect_via_socket connects cur_addr);;
          l <-- of_option (write_at (arr_elements (ar_elements ctx)) (cur_addr_index ctx) c.1);;
          let ctx' := set_ar_elements (DxArray l (arr_size (ar_elements ctx)) (arr_capacity (ar_elements ctx))) ctx in
          update (set_addr_context ctx');;;
          if (c.2 : bool) then on_nt_messages (update (dx_connection_status_set dxf_cs_connected))
          else
            update (set_addr_context (set_cur_addr_index (S (cur_addr_index ctx)) ctx'));;;
            connect_addresses_loop connects n'
      else ret tt
  end.

Definition dx_connect_to_resolved_addresses (file_opens : bool) (connects : Z -> bool) : M net unit :=
  n <-- on_nt_network get;;
  if IS_FLAG_SET (nw_flags n) DUMPING_RAW_DATA_FIELD_FLAG then
    s <-- get;;
    if raw_dump_file s then ret tt
    else if file_opens then put (set_raw_dump_file true s) else fail
  else
    s <-- get;;
    connect_addresses_loop connects (S (arr_size (ar_elements (addr_context s)) - cur_addr_index (addr_context s)));;;
    s <-- get;;
    let ctx := addr_context s in
    if (cur_addr_index ctx =? arr_size (ar_elements ctx))%nat then dx_set_error_code dx_nec_open_connection_error
    else on_nt_network (update (fun n => set_nw_flags (Z.lor (nw_flags n) SOCKET_FIELD_FLAG) n)).

(** ** A connection that is lost *)

Definition dx_have_credentials : M net bool :=
  on_nt_network (dx_protocol_property_contains (Some DX_PROPERTY_AUTH)).

(** [dx_get_current_address], which is written to. *)
Definition fail_current_address : M net unit :=
  s <-- get;;
  let ctx := addr_context s in
  a <-- of_option (arr_elements (ar_elements ctx) !! cur_addr_index ctx);;
  l <-- of_option (write_at (arr_elements (ar_elements ctx)) (cur_addr_index ctx) (set_failed a));;
  put (set_addr_context (set_ar_elements (DxArray l (arr_size (ar_elements ctx)) (arr_capacity (ar_elements ctx))) ctx) s).

(** Whether the thread goes idle; [error] is the last error of the thread. *)
Definition dx_notify_conn_termination (has_notifier close_ok : bool) (error : dx_error_code) : M net bool :=
  p <-- on_nt_messages get;;
  let rest (error : dx_error_code) : M net bool :=
    update (fun s => if has_notifier then notify s else s);;;
    (if decide (error = dx_pec_authentication_error) then fail_current_address else ret tt);;;
    on_nt_client (dx_close_socket close_ok);;;
    ret true in
  match connection_status p with
  | dxf_cs_login_required =>
      credentials <-- dx_have_credentials;;
      if (credentials : bool) then ret false
      else
        fail_current_address;;;
        rest dx_pec_credentials_required
  | _ => rest error
  end.

(** [dx_server_event_subscription_refresher] for every subscription: their order
    is that of a hash table. *)
Definition dx_server_event_subscription_refresher (e : dx_event_subscription_view) : M client unit :=
  dx_subscribe_symbols_to_events calloc_ok dx_send t (es_order_source e) (es_symbols e) (es_event_types e) false false
    (es_flags e) (es_time e).
Fixpoint dx_process_connection_subscriptions (subscriptions : list dx_event_subscription_view) : M client unit :=
  match subscriptions with
  | [] => ret tt
  | e :: subscriptions' =>
      dx_server_event_subscription_refresher e;;;
      dx_process_connection_subscriptions subscriptions'
  end.

(** What is scheduled for a new connection. *)
Definition schedule_descriptions (subscriptions : list dx_event_subscription_view) : M client unit :=
  dx_send_protocol_description calloc_ok dx_send now false;;;
  dx_send_record_description calloc_ok dx_send false;;;
  dx_process_connection_subscriptions subscriptions.

Definition clear_server_info : M client unit :=
  on_world (on (fun w => (cl_dscc w, cl_protocol w)) (fun x w => set_cl_protocol x.2 (set_cl_dscc x.1 w))
    (dx_clear_server_info calloc_ok)).

(** Each attempt to connect has its own answers of the system. *)
Definition dx_reestablish_connection (subscriptions : list dx_event_subscription_view)
  (file_opens : bool) (getaddrinfo : option (list Z) -> option (list Z) -> option (list Z)) (rand : nat -> nat)
  (connects connects_again : Z -> bool) : M net unit :=
  s <-- get;;
  ignored (on_nt_client (dx_cleanup_task_queue (run_client_task calloc_ok dx_send t now currentTimeMillis currentTimeMark)
    (S (arr_size (tq (nt_client s)))) false));;;
  p <-- on_nt_messages get;;
  match connection_status p with
  | dxf_cs_login_required => on_nt_client (schedule_descriptions subscriptions)
  | _ =>
      on_nt_client clear_server_info;;;
      connected <-- catch (dx_connect_to_resolved_addresses file_opens connects);;
      match connected with
      | inl _ => ret tt
      | inr _ =>
          on_addresses dx_clear_addr_context_data;;;
          dx_resolve_address file_opens getaddrinfo rand;;;
          dx_connect_to_resolved_addresses file_opens connects_again
      end;;;
      on_nt_client (schedule_descriptions subscriptions)
  end.
End network.
