(* ===== verification/NetworkTheory.v ===== *)
(** * NetworkTheory: which address is connected to, and with which properties

    The connection that [Network] makes: the first address, in their order, that
    has not failed and one of whose hosts takes the connection, with the
    properties that the user has set and the credentials of that address only. *)

From Stdlib Require Import Ascii String.
From S2P Require Import Prelude Arrays Algorithms Output EventData DataStructures Properties TaskQueue ConfigurationDeserializer.
From S2P Require Import NetworkContext Heartbeat ServerData ServerProcessor Describe ClientMessages AddressParser Network.
Local Open Scope Z_scope.
Local Open Scope c_scope.

(** ** Flags *)

Lemma flag_bit f j : 0 <= j -> IS_FLAG_SET f (Z.shiftl 1 j) = Z.testbit f j.
Proof.
  intros Hj. unfold IS_FLAG_SET. rewrite Z.shiftl_1_l. destruct (Z.testbit f j) eqn:E.
  - apply negb_true_iff, Z.eqb_neq. intros H. apply (f_equal (fun x => Z.testbit x j)) in H.
    by rewrite Z.land_spec, Z.pow2_bits_true, E, Z.bits_0 in H by done.
  - apply negb_false_iff, Z.eqb_eq, Z.bits_inj'. intros i Hi. rewrite Z.land_spec, Z.bits_0.
    destruct (decide (i = j)) as [->|]; [by rewrite E|]. rewrite Z.pow2_bits_false by lia. apply andb_false_r.
Qed.

(** A flag that is set, and another. *)
Lemma flag_set f j : 0 <= j -> IS_FLAG_SET (Z.lor f (Z.shiftl 1 j)) (Z.shiftl 1 j) = true.
Proof. intros Hj. rewrite flag_bit, Z.lor_spec, Z.shiftl_1_l, Z.pow2_bits_true by done. apply orb_true_r. Qed.
Lemma flag_other f i j : 0 <= i -> 0 <= j -> i <> j ->
  IS_FLAG_SET (Z.lor f (Z.shiftl 1 i)) (Z.shiftl 1 j) = IS_FLAG_SET f (Z.shiftl 1 j).
Proof. intros Hi Hj Hij. rewrite !flag_bit, Z.lor_spec, Z.shiftl_1_l, Z.pow2_bits_false by lia. apply orb_false_r. Qed.

(** ** The text of the credentials *)

Lemma base64_char_ascii n : 0 <= n < 64 -> 1 <= base64_char n <= 127.
Proof.
  intros Hn. apply (finite_check (fun n => (1 <=? base64_char n) && (base64_char n <=? 127)) 0 64) in Hn; [|by vm_compute].
  bool_to_prop. lia.
Qed.
Lemma sextet_ascii n i : 1 <= sextet n i <= 127.
Proof. apply base64_char_ascii, Z.mod_pos_bound. lia. Qed.
Lemma base64_ascii data n : is_ascii (base64_spec data ++ base64_padding n).
Proof.
  apply Forall_app. split.
  - induction data as [|a|a b|a b c l IH] using list_ind3; repeat constructor; by try apply sextet_ascii.
  - unfold base64_padding. destruct (_ <? _)%nat; [|constructor]. apply Forall_replicate. lia.
Qed.
Lemma ascii_terminator s : is_ascii s -> no_terminator s.
Proof. intros H. eapply Forall_impl; [exact H|]. cbn. intros c Hc ->. lia. Qed.

(** ** The properties that are sent *)

(** What the user has set: once there is a backup of it, the backup. *)
Definition user_properties (n : network_ctx) : gmap (list Z) (list Z) :=
  props_map (if IS_FLAG_SET (nw_flags n) PROPERTIES_BACKUP_FLAG then nw_prop_backup n else nw_properties n).

Definition basic_auth (user password : list Z) : list Z :=
  let data := user ++ [58] ++ password in
  DX_AUTH_BASIC_KEY ++ [32] ++ base64_spec data ++ base64_padding (length data).

(** The credentials of an address count where the user has not authorized. *)
Definition sent_properties (user : gmap (list Z) (list Z)) (a : dx_address_t) : gmap (list Z) (list Z) :=
  match ad_username a, ad_password a with
  | Some username, Some password =>
      if decide (is_Some (user !! DX_PROPERTY_AUTH)) then user
      else <[DX_PROPERTY_AUTH := basic_auth username password]> user
  | _, _ => user
  end.

Definition network_ok (n : network_ctx) : Prop := props_ok (nw_properties n) /\ props_ok (nw_prop_backup n).
Definition short_bytes (s : option (list Z)) : Prop := forall l, s = Some l -> bytes l /\ Z.of_nat (length l) < 2 ^ 59.
Definition credentials_ok (a : dx_address_t) : Prop := short_bytes (ad_username a) /\ short_bytes (ad_password a).

(** What an attempt to connect leaves alone. *)
Record steady (n n' : network_ctx) : Prop := {
  steady_ok : network_ok n';
  steady_user : user_properties n' = user_properties n;
  steady_out : nw_out n' = nw_out n;
  steady_flags : forall j, 0 <= j -> j <> 8 -> IS_FLAG_SET (nw_flags n') (Z.shiftl 1 j) = IS_FLAG_SET (nw_flags n) (Z.shiftl 1 j);
}.
Lemma steady_refl n : network_ok n -> steady n n.
Proof. by split. Qed.
Lemma steady_trans n n1 n2 : steady n n1 -> steady n1 n2 -> steady n n2.
Proof. intros [_ H1 H2 H3] [H0 H4 H5 H6]. split; [done|congruence..|]. intros j Hj H. by rewrite H6, H3. Qed.

Section properties.
Context (calloc_ok : Z -> bool) (calloc_works : forall n, calloc_ok n = true).
Context (mbsrtowcs : list Z -> option (list Z)) (mbsrtowcs_ascii : forall s, is_ascii s -> mbsrtowcs s = Some s).

Lemma auth_key_ok : no_terminator DX_PROPERTY_AUTH.
Proof using Type. by_compute. Qed.

Lemma prepare_spec n : network_ok n -> exists n', prepare_properties calloc_ok n = Ok tt n' /\ steady n n' /\
  props_map (nw_properties n') = user_properties n /\ IS_FLAG_SET (nw_flags n') PROPERTIES_BACKUP_FLAG = true.
Proof using calloc_works.
  intros [Hp Hb]. unfold prepare_properties. unfold checked_call at 1, get.
  assert (forall k : nat, calloc_ok (Z.of_nat k) = true) as Halloc by done.
  destruct (IS_FLAG_SET (nw_flags n) PROPERTIES_BACKUP_FLAG) eqn:E; cbn [negb].
  - destruct (clone_spec _ Halloc (nw_prop_backup n) DX_EMPTY_ARRAY Hb) as (p & Ep & Hpok & Hm).
    assert (dx_protocol_property_restore_backup calloc_ok n = Ok true (set_nw_properties p n)) as E1.
    { unfold dx_protocol_property_restore_backup, on_properties. unfold_m. cbn [nw_properties nw_prop_backup set_nw_properties].
      unfold dx_property_map_free_collection. by rewrite Ep. }
    rewrite (bind_ok _ _ _ _ _ E1).
    exists (set_nw_properties p n). unfold user_properties. rewrite E. split_and!; try done. split; try done.
    unfold user_properties. cbn. by rewrite E.
  - destruct (clone_spec _ Halloc (nw_properties n) (nw_prop_backup n) Hp) as (p & Ep & Hpok & Hm).
    assert (dx_protocol_property_make_backup calloc_ok n = Ok true (set_nw_prop_backup p n)) as E1.
    { unfold dx_protocol_property_make_backup. by rewrite Ep. }
    rewrite (bind_ok _ _ _ _ _ E1).
    eexists. split; [reflexivity|]. unfold user_properties. rewrite E. cbn. unfold PROPERTIES_BACKUP_FLAG.
    rewrite flag_set by done. split_and!; try done. split; cbn; try done.
    + unfold user_properties. rewrite E. cbn. unfold PROPERTIES_BACKUP_FLAG. by rewrite flag_set.
    + intros j Hj Hne. by apply flag_other.
Qed.

Lemma basic_auth_data username password :
  short_bytes (Some username) -> short_bytes (Some password) ->
  dx_protocol_get_basic_auth_data calloc_ok (Some username) (Some password) =
    Some (Some (base64_spec (username ++ [58] ++ password) ++
      base64_padding (length (username ++ [58] ++ password)))).
Proof using calloc_works.
  intros Hu Hp. destruct (Hu _ eq_refl) as [Hub Hul], (Hp _ eq_refl) as [Hpb Hpl].
  unfold dx_protocol_get_basic_auth_data. rewrite !calloc_works. cbn [negb]. do 2 f_equal.
  assert (length (username ++ [58] ++ password) = (length username + length password + 1)%nat) as Hlen
    by (rewrite !length_app; simpl; lia).
  rewrite base64_encode_closed; [|repeat (apply Forall_app; split); [done|by_compute|done]].
  rewrite Hlen, dx_base64_length_eq by lia. rewrite (proj2 (Nat.leb_le _ _)) by zlia. done.
Qed.

Lemma configure_auth_spec n username password :
  network_ok n -> short_bytes (Some username) -> short_bytes (Some password) ->
  exists p, dx_protocol_configure_basic_auth calloc_ok mbsrtowcs (Some username) (Some password) n =
      Ok true (set_nw_properties p n) /\ props_ok p /\
    props_map p = <[DX_PROPERTY_AUTH := basic_auth username password]> (props_map (nw_properties n)).
Proof using calloc_works mbsrtowcs_ascii.
  intros [Hn _] Hu Hp. unfold dx_protocol_configure_basic_auth. rewrite basic_auth_data by done.
  set (data := base64_spec _ ++ _). unfold dx_protocol_configure_custom_auth. rewrite calloc_works. cbn [negb].
  assert (is_ascii data) as Hascii by apply base64_ascii.
  assert (length data <> 0%nat) as Hne.
  { unfold data. rewrite length_base64_spec, !length_app. cbn [length].
    pose proof (Nat.div_str_pos (length username + (1 + length password) + 2) 3). lia. }
  assert (is_ascii DX_AUTH_BASIC_KEY) as Hkey by by_compute.
  rewrite !(ansi_wide _ _ _ calloc_works mbsrtowcs_ascii) by done. cbn [mjoin option_join of_option]. rewrite !(bind_ok (ret _) _ n _ n eq_refl).
  rewrite firstn_all2 by (rewrite !length_app; simpl; lia).
  assert (no_terminator (DX_AUTH_BASIC_KEY ++ [32] ++ data)) as Hv.
  { apply Forall_app_2; [by apply ascii_terminator|]. apply Forall_app_2; [by repeat constructor|by apply ascii_terminator]. }
  destruct (map_set_spec _ (fun k => calloc_works (Z.of_nat k)) _ _ _ Hn auth_key_ok Hv) as (p & E & Hpok & Hm).
  exists p. unfold dx_protocol_property_set, on_properties. rewrite E. done.
Qed.

Lemma credentials_spec n a : network_ok n -> credentials_ok a ->
  exists p, add_credentials calloc_ok mbsrtowcs a n = Ok tt (set_nw_properties p n) /\ props_ok p /\
    props_map p = sent_properties (props_map (nw_properties n)) a.
Proof using calloc_works mbsrtowcs_ascii.
  intros Hn [Hu Hp]. unfold add_credentials, sent_properties.
  assert (set_nw_properties (nw_properties n) n = n) as Hsame by by destruct n.
  destruct (ad_username a) as [username|]; [destruct (ad_password a) as [password|]|];
    [|exists (nw_properties n); rewrite Hsame; split_and!; [done|apply Hn|done]..].
  destruct (try_get_spec _ DX_PROPERTY_AUTH (proj1 Hn) auth_key_ok) as [_ Hc].
  assert (dx_protocol_property_contains (Some DX_PROPERTY_AUTH) n =
    Ok (bool_decide (is_Some (props_map (nw_properties n) !! DX_PROPERTY_AUTH))) n) as E1.
  { unfold dx_protocol_property_contains, on_properties. rewrite Hc. by rewrite Hsame. }
  rewrite (bind_ok _ _ _ _ _ E1).
  case_bool_decide as Hauth.
  - exists (nw_properties n). rewrite Hsame, decide_True by done. split_and!; [done|apply Hn|done].
  - destruct (configure_auth_spec n username password Hn Hu Hp) as (p & E & Hpok & Hm). rewrite (bind_ok _ _ _ _ _ E).
    exists p. rewrite decide_False by done. done.
Qed.
End properties.

(** ** The addresses *)

Definition network_of (s : net) : network_ctx := cl_network (tq_world (nt_client s)).
Definition protocol_of (s : net) : protocol_ctx := cl_protocol (tq_world (nt_client s)).

(** The state with what an attempt to connect writes to. *)
Definition with_connection (n : network_ctx) (p : protocol_ctx) (c : dx_address_resolution_context_t) (s : net) : net :=
  set_addr_context c (set_nt_client
    (TqState (tq (nt_client s)) (set_cl_protocol p (set_cl_network n (tq_world (nt_client s))))) s).

Lemma with_connection_same s : with_connection (network_of s) (protocol_of s) (addr_context s) s = s.
Proof. by destruct s as [[? []] ? ? ? ?]. Qed.

Lemma on_nt_network_at {A} (m : M network_ctx A) v n' n p c s :
  m n = Ok v n' -> on_nt_network m (with_connection n p c s) = Ok v (with_connection n' p c s).
Proof. intros E. unfold on_nt_network, on_nt_client, on_network, on_world, on. cbn. by rewrite E. Qed.
Lemma on_nt_messages_at {A} (m : M protocol_ctx A) v p' n p c s :
  m p = Ok v p' -> on_nt_messages m (with_connection n p c s) = Ok v (with_connection n p' c s).
Proof. intros E. unfold on_nt_messages, on_nt_client, on_messages, on_world, on. cbn. by rewrite E. Qed.

Section addresses.
(** Whether a host takes the connection. *)
Context (connects : Z -> bool).

(** The hosts that an address still has. *)
Definition hosts_left (a : dx_ext_address_t) : list Z := drop (ea_cur_info_index a) (contents (ea_elements a)).
Definition refused (hosts : list Z) : Prop := Forall (fun x => connects x = false) hosts.
Definition unreachable (a : dx_ext_address_t) : Prop := is_connection_failed a = true \/ refused (hosts_left a).
(** The first host that takes the connection has the index [k]. *)
Definition reachable (a : dx_ext_address_t) (k : nat) : Prop :=
  is_connection_failed a = false /\ exists before x after, hosts_left a = before ++ x :: after /\
    refused before /\ connects x = true /\ k = (ea_cur_info_index a + length before)%nat.
(** An address that was tried in vain, or not at all. *)
Definition exhausted (a : dx_ext_address_t) : dx_ext_address_t :=
  if is_connection_failed a then a else set_cur_info_index (arr_size (ea_elements a)) a.

Record ext_address_ok (a : dx_ext_address_t) : Prop := {
  ext_elements : array_wf (ea_elements a);
  ext_index : (ea_cur_info_index a <= arr_size (ea_elements a))%nat;
  ext_credentials : credentials_ok (ea_address a);
}.

Lemma connect_loop_spec (elements : dx_array Z) n : forall i,
  array_wf elements -> (i <= arr_size elements)%nat -> (arr_size elements - i < n)%nat ->
  (refused (drop i (contents elements)) /\ connect_loop connects n elements i = Some (arr_size elements)) \/
  exists before x after, drop i (contents elements) = before ++ x :: after /\ refused before /\ connects x = true /\
    (i + length before < arr_size elements)%nat /\ connect_loop connects n elements i = Some (i + length before)%nat.
Proof using Type.
  induction n as [|n IH]; intros i Hwf Hi Hn; [lia|]. cbn [connect_loop].
  pose proof (length_contents elements Hwf) as Hlen. destruct (Nat.ltb_spec i (arr_size elements)) as [Hlt|Hge].
  - destruct (lookup_lt_is_Some_2 (contents elements) i) as [x Hx]; [lia|].
    rewrite (drop_S _ x i Hx). rewrite <- contents_lookup, Hx by done. cbn [mbind option_bind].
    destruct (connects x) eqn:Ex.
    { right. exists [], x, (drop (S i) (contents elements)). rewrite Nat.add_0_r. split_and!; [done|constructor|done|done|done]. }
    destruct (IH (S i)) as [[Hr E]|(before & y & after & Hd & Hb & Hy & Hl & E)]; [done|lia|lia|..].
    + left. split; [by constructor|done].
    + right. exists (x :: before), y, after. rewrite Hd, E. cbn [length].
      split_and!; [done|by constructor|done|lia|f_equal; lia].
  - left. rewrite drop_ge by lia. split; [constructor|f_equal; lia].
Qed.

Lemma via_socket_spec a :
  ext_address_ok a -> is_connection_failed a = false ->
  (unreachable a /\ dx_connect_via_socket connects a = Some (exhausted a, false)) \/
  exists k, reachable a k /\ dx_connect_via_socket connects a = Some (set_cur_info_index k a, true).
Proof using Type.
  intros [Hwf Hi _] Hf. unfold dx_connect_via_socket, exhausted. rewrite Hf.
  destruct (connect_loop_spec (ea_elements a) (S (arr_size (ea_elements a))) (ea_cur_info_index a) Hwf Hi)
    as [[Hr ->]|(before & x & after & Hd & Hb & Hx & Hl & ->)]; [lia|..]; cbn [mbind option_bind].
  - left. rewrite (proj2 (Nat.ltb_ge _ _)) by lia. split; [by right|done].
  - right. exists (ea_cur_info_index a + length before)%nat. rewrite (proj2 (Nat.ltb_lt _ _)) by done.
    split; [|done]. split; [done|]. by exists before, x, after.
Qed.

End addresses.

(** The addresses up to the current one, which have been tried, and the rest. *)
Record at_address (c : dx_address_resolution_context_t) (tried rest : list dx_ext_address_t) : Prop := {
  at_wf : array_wf (ar_elements c);
  at_contents : contents (ar_elements c) = tried ++ rest;
  at_index : cur_addr_index c = length tried;
}.
Lemma at_size c tried rest : at_address c tried rest -> arr_size (ar_elements c) = (length tried + length rest)%nat.
Proof. intros [Hwf Hc _]. by rewrite <- length_app, <- Hc, length_contents. Qed.

(** Writing to the current address, and going on to the next. *)
Lemma at_write c tried a b rest : at_address c tried (a :: rest) ->
  arr_elements (ar_elements c) !! cur_addr_index c = Some a /\
  exists l, write_at (arr_elements (ar_elements c)) (cur_addr_index c) b = Some l /\
    at_address (set_ar_elements (DxArray l (arr_size (ar_elements c)) (arr_capacity (ar_elements c))) c) tried (b :: rest).
Proof.
  intros [Hwf Hc Hi]. rewrite Hi. destruct (array_set_spec _ tried a rest b Hwf Hc) as (Hl & l & Hw & Hwf' & Hc').
  split; [done|]. exists l. by split.
Qed.
Lemma at_next c tried a rest : at_address c tried (a :: rest) ->
  at_address (set_cur_addr_index (S (cur_addr_index c)) c) (tried ++ [a]) rest.
Proof. intros [Hwf Hc Hi]. split; cbn; [done|by rewrite <- app_assoc|]. rewrite length_app, Hi. simpl. lia. Qed.

(** The outcomes of the attempts to connect: no address of [rest] can be connected
    to, or the first that can be is the current one. *)
Section attempt.
Context (connects : Z -> bool).

Definition none_reached (n n' : network_ctx) (tried rest : list dx_ext_address_t) (c' : dx_address_resolution_context_t) : Prop :=
  Forall (unreachable connects) rest /\ steady n n' /\ at_address c' (tried ++ (exhausted <$> rest)) [].
Definition first_reached (n n' : network_ctx) (tried rest : list dx_ext_address_t) (c' : dx_address_resolution_context_t) : Prop :=
  exists before a k after, rest = before ++ a :: after /\ Forall (unreachable connects) before /\ reachable connects a k /\
    steady n n' /\ at_address c' (tried ++ (exhausted <$> before)) (set_cur_info_index k a :: after) /\
    props_map (nw_properties n') = sent_properties (user_properties n) (ea_address a).
Definition attempted n n' tried rest c' (p p' : protocol_ctx) : Prop :=
  (none_reached n n' tried rest c' /\ p' = p) \/
  (first_reached n n' tried rest c' /\ p' = dx_connection_status_set dxf_cs_connected p).

Lemma attempted_skip n n1 n' tried a rest c' p p' :
  unreachable connects a -> steady n n1 -> attempted n1 n' (tried ++ [exhausted a]) rest c' p p' ->
  attempted n n' tried (a :: rest) c' p p'.
Proof using Type.
  intros Ha Hs [[(Hr & Hs' & Hc) ->]|[(before & b & k & after & -> & Hb & Hk & Hs' & Hc & Hm) ->]].
  - left. split; [|done]. rewrite <- app_assoc in Hc. split_and!; [by constructor|by eapply steady_trans|done].
  - right. split; [|done]. exists (a :: before), b, k, after. rewrite <- app_assoc in Hc. rewrite (steady_user _ _ Hs) in Hm.
    split_and!; [done|by constructor|done|by eapply steady_trans|done|done].
Qed.
End attempt.

Section connect.
Context (calloc_ok : Z -> bool) (calloc_works : forall n, calloc_ok n = true).
Context (mbsrtowcs : list Z -> option (list Z)) (mbsrtowcs_ascii : forall s, is_ascii s -> mbsrtowcs s = Some s).
Context (connects : Z -> bool).

Abbreviation loop := (connect_addresses_loop calloc_ok mbsrtowcs connects).

(** The properties are made anew for every address that is tried. *)
Lemma round_properties n p c s a : network_ok n -> credentials_ok a ->
  exists n', steady n n' /\ props_map (nw_properties n') = sent_properties (user_properties n) a /\
    forall (k : M net unit), checked_call (on_nt_network (prepare_properties calloc_ok)) (fun _ =>
      checked_call (on_nt_network (add_credentials calloc_ok mbsrtowcs a)) (fun _ => k)) (with_connection n p c s) =
      k (with_connection n' p c s).
Proof using calloc_works mbsrtowcs_ascii.
  intros Hn Ha. destruct (prepare_spec calloc_ok calloc_works n Hn) as (n1 & E1 & H1 & Hm1 & Hf).
  pose proof (steady_ok _ _ H1) as Hn1.
  destruct (credentials_spec calloc_ok calloc_works mbsrtowcs mbsrtowcs_ascii n1 a Hn1 Ha) as (q & E2 & Hq & Hm2).
  exists (set_nw_properties q n1). split_and!.
  - apply (steady_trans _ _ _ H1). split; try done; [by split; [|apply Hn1]|].
    unfold user_properties. cbn. by rewrite Hf.
  - cbn. by rewrite Hm2, Hm1.
  - intros k. rewrite (bind_ok _ _ _ _ _ (on_nt_network_at _ _ _ _ p c s E1)).
    by rewrite (bind_ok _ _ _ _ _ (on_nt_network_at _ _ _ _ p c s E2)).
Qed.

Lemma connect_addresses_spec fuel : forall n p c s tried rest,
  network_ok n -> at_address c tried rest -> Forall ext_address_ok rest -> (length rest < fuel)%nat ->
  exists n' p' c', attempted connects n n' tried rest c' p p' /\
    loop fuel (with_connection n p c s) = Ok tt (with_connection n' p' c' s).
Proof using calloc_works mbsrtowcs_ascii.
  induction fuel as [|fuel IH]; intros n p c s tried rest Hn Hc Hrest Hf; [lia|].
  cbn [connect_addresses_loop]. unfold checked_call at 1, get. cbn [addr_context with_connection set_addr_context].
  rewrite (at_size _ _ _ Hc), (at_index _ _ _ Hc). destruct rest as [|a rest]; cbn [length] in Hf |- *.
  { exists n, p, c. rewrite (proj2 (Nat.ltb_ge _ _)) by lia. split; [|done]. left. split; [|done].
    split_and!; [done|by apply steady_refl|]. by rewrite app_nil_r. }
  rewrite (proj2 (Nat.ltb_lt _ _)) by lia. apply Forall_cons in Hrest as [Ha Hrest].
  destruct (at_write c tried a a rest Hc) as [Hlk _]. rewrite (at_index _ _ _ Hc) in Hlk.
  rewrite Hlk. cbn [of_option]. rewrite (bind_ok (ret a) _ _ a _ eq_refl).
  destruct (is_connection_failed a) eqn:Hfail.
  { destruct (IH n p _ s (tried ++ [a]) rest Hn (at_next _ _ _ _ Hc) Hrest ltac:(lia)) as (n' & p' & c' & H & E).
    rewrite (at_index _ _ _ Hc) in E. exists n', p', c'. split; [|exact E].
    apply (attempted_skip _ _ n); [by left|by apply steady_refl|]. unfold exhausted. by rewrite Hfail. }
  destruct (round_properties n p c s (ea_address a) Hn (ext_credentials _ Ha)) as (n1 & Hs1 & Hm1 & ->).
  destruct (via_socket_spec connects a Ha Hfail) as [[Hu ->]|(k & Hk & ->)]; cbn [of_option];
    rewrite (bind_ok (ret _) _ _ _ _ eq_refl); cbn [fst snd].
  - destruct (at_write c tried a (exhausted a) rest Hc) as [_ (l & Hw & Hc1)]. rewrite (at_index _ _ _ Hc) in Hw.
    rewrite Hw. cbn [of_option]. rewrite (bind_ok (ret l) _ _ _ _ eq_refl).
    destruct (IH n1 p _ s (tried ++ [exhausted a]) rest (steady_ok _ _ Hs1) (at_next _ _ _ _ Hc1) Hrest ltac:(lia))
      as (n' & p' & c' & H & E).
    exists n', p', c'. split; [by apply (attempted_skip _ _ n1)|].
    cbn [cur_addr_index set_ar_elements] in E. rewrite (at_index _ _ _ Hc), (at_size _ _ _ Hc) in E. exact E.
  - destruct (at_write c tried a (set_cur_info_index k a) rest Hc) as [_ (l & Hw & Hc1)]. rewrite (at_index _ _ _ Hc) in Hw.
    rewrite Hw. cbn [of_option]. rewrite (bind_ok (ret l) _ _ _ _ eq_refl). rewrite (at_size _ _ _ Hc) in Hc1. eexists n1, _, _. split; [|reflexivity].
    right. split; [|done]. exists [], a, k, rest. split_and!; [done|constructor|done|done| |done]. by rewrite app_nil_r.
Qed.
End connect.

(** ** Connecting *)

(** The connection that is open. *)
Definition opened (n : network_ctx) : network_ctx := set_nw_flags (Z.lor (nw_flags n) SOCKET_FIELD_FLAG) n.

Record addresses_ok (c : dx_address_resolution_context_t) : Prop := {
  addresses_wf : array_wf (ar_elements c);
  addresses_index : (cur_addr_index c <= arr_size (ar_elements c))%nat;
  addresses_each : Forall ext_address_ok (contents (ar_elements c));
}.

Lemma connect_resolved_spec (calloc_ok : Z -> bool) (mbsrtowcs : list Z -> option (list Z))
  (file_opens : bool) (connects : Z -> bool) (s : net) :
  (forall n, calloc_ok n = true) -> (forall s, is_ascii s -> mbsrtowcs s = Some s) ->
  network_ok (network_of s) -> IS_FLAG_SET (nw_flags (network_of s)) DUMPING_RAW_DATA_FIELD_FLAG = false ->
  addresses_ok (addr_context s) ->
  let tried := take (cur_addr_index (addr_context s)) (contents (ar_elements (addr_context s))) in
  let rest := drop (cur_addr_index (addr_context s)) (contents (ar_elements (addr_context s))) in
  exists n' c',
    (none_reached connects (network_of s) n' tried rest c' /\
     dx_connect_to_resolved_addresses calloc_ok mbsrtowcs file_opens connects s =
       Err dx_nec_open_connection_error (with_connection n' (protocol_of s) c' s)) \/
    (first_reached connects (network_of s) n' tried rest c' /\
     dx_connect_to_resolved_addresses calloc_ok mbsrtowcs file_opens connects s =
       Ok tt (with_connection (opened n') (dx_connection_status_set dxf_cs_connected (protocol_of s)) c' s)).
Proof.
  intros Hcalloc Hmb Hn Hd [Hwf Hi He] tried rest. pose proof (length_contents _ Hwf) as Hlen.
  assert (length tried = cur_addr_index (addr_context s)) as Htried by (unfold tried; rewrite length_take; lia).
  assert (at_address (addr_context s) tried rest) as Hat by (split; [done|symmetry; apply take_drop|done]).
  pose proof (at_size _ _ _ Hat) as Hsize.
  destruct (connect_addresses_spec calloc_ok Hcalloc mbsrtowcs Hmb connects (S (arr_size (ar_elements (addr_context s)) -
      cur_addr_index (addr_context s))) (network_of s) (protocol_of s) _ s tried rest Hn Hat) as (n' & p' & c' & H & E);
    [by apply Forall_drop|lia|]. rewrite with_connection_same in E.
  assert (on_nt_network get s = Ok (network_of s) s) as Eget.
  { rewrite <- (with_connection_same s) at 1 3. apply on_nt_network_at. done. }
  exists n', c'. destruct H as [[H ->]|[H ->]]; [left|right]; (split; [done|]);
    unfold dx_connect_to_resolved_addresses; rewrite (bind_ok _ _ _ _ _ Eget), Hd;
    unfold checked_call at 1, get at 1; rewrite (bind_ok _ _ _ _ _ E);
    unfold checked_call at 1, get; cbn [addr_context with_connection set_addr_context].
  - destruct H as (_ & _ & Hc). rewrite (at_size _ _ _ Hc), (at_index _ _ _ Hc).
    by rewrite Nat.add_0_r, Nat.eqb_refl.
  - destruct H as (before & a & k & after & _ & _ & _ & _ & Hc & _).
    rewrite (at_size _ _ _ Hc), (at_index _ _ _ Hc). cbn [length]. by rewrite (proj2 (Nat.eqb_neq _ _)) by lia.
Qed.

(** ** Properties *)

(** C22: a connection is made to the first address, from the current one on, that
    has not failed before and one of whose hosts, from its current one on, takes
    it.  The addresses and hosts before are used up, and the later ones are left
    for the next attempts.  The properties are then those that the user has set,
    with the credentials of that address alone and only where the user has not
    authorized: those of the addresses that were tried before are gone.  Where
    every address is used up the result is an error, the connection stays as it
    was, and what the user has set is still known. *)
Theorem first_address_connected (calloc_ok : Z -> bool) (mbsrtowcs : list Z -> option (list Z))
  (file_opens : bool) (connects : Z -> bool) (s : net) :
  (forall n, calloc_ok n = true) -> (forall s, is_ascii s -> mbsrtowcs s = Some s) ->
  network_ok (network_of s) -> IS_FLAG_SET (nw_flags (network_of s)) DUMPING_RAW_DATA_FIELD_FLAG = false ->
  addresses_ok (addr_context s) ->
  let tried := take (cur_addr_index (addr_context s)) (contents (ar_elements (addr_context s))) in
  let rest := drop (cur_addr_index (addr_context s)) (contents (ar_elements (addr_context s))) in
  exists n' c',
    (none_reached connects (network_of s) n' tried rest c' /\
     dx_connect_to_resolved_addresses calloc_ok mbsrtowcs file_opens connects s =
       Err dx_nec_open_connection_error (with_connection n' (protocol_of s) c' s)) \/
    (first_reached connects (network_of s) n' tried rest c' /\
     dx_connect_to_resolved_addresses calloc_ok mbsrtowcs file_opens connects s =
       Ok tt (with_connection (opened n') (dx_connection_status_set dxf_cs_connected (protocol_of s)) c' s)).
Proof. apply connect_resolved_spec. Qed.

(** ** Examples *)

(** An address with credentials whose host refuses, and one without, the second of
    whose hosts takes the connection. *)
Definition example_addresses : list dx_ext_address_t :=
  [ExtAddress (Address (Some (chars_of "one")) None (Some (chars_of "me")) (Some (chars_of "secret")) no_tls false)
     (DxArray [1] 1 1) 0 false;
   ExtAddress (Address (Some (chars_of "two")) None None None no_tls false) (DxArray [2; 3] 2 2) 0 false].
Definition example_net : net :=
  Net (TqState DX_EMPTY_ARRAY
      (ClientWorld (OutCtx None 0 0) new_dscc (ProtocolCtx 0 0 dx_dps_not_sent 0 DX_EMPTY_ARRAY dxf_cs_not_connected)
        (NetworkCtx 0 DX_EMPTY_ARRAY DX_EMPTY_ARRAY []) new_connection []))
    (chars_of "one,two") (AddressResolution (DxArray example_addresses 2 2) 1 0) false 0.

Lemma example_net_ok : network_ok (network_of example_net) /\ addresses_ok (addr_context example_net).
Proof.
  split; [split; apply no_props_ok|]. split; [by split|cbn; lia|].
  constructor; [|constructor; [|constructor]]; (split; [by split|cbn; lia|]); split; intros l; try done;
    intros [= <-]; split; by_compute.
Qed.

Lemma first_address_connected_witness :
  exists n' c', first_reached (Z.eqb 3) (network_of example_net) n' [] example_addresses c' /\
    dx_connect_to_resolved_addresses (fun _ => true) Some false (Z.eqb 3) example_net =
      Ok tt (with_connection (opened n') (dx_connection_status_set dxf_cs_connected (protocol_of example_net)) c' example_net).
Proof.
  destruct (first_address_connected (fun _ => true) Some false (Z.eqb 3) example_net) as (n' & c' & [[H E]|[H E]]).
  - done.
  - done.
  - apply example_net_ok.
  - done.
  - apply example_net_ok.
  - exfalso. vm_compute in E. discriminate E.
  - exists n', c'. exact (conj H E).
Defined.
