(* ===== verification/DescribeProtocol.v ===== *)
(** * DescribeProtocol: the description of the protocol

    The bytes of the message with which [ClientMessages] describes the protocol:
    its properties, in the order of their keys, and the messages of the client. *)

From Stdlib Require Import Ascii String.
From S2P Require Import Prelude Arrays Algorithms Output Input Wire SymbolCodec Framing Compose EventData.
From S2P Require Import DataStructures MessageData Properties TaskQueue NetworkContext Heartbeat ServerData ServerProcessor.
From S2P Require Import ServerStream Describe ClientMessages ClientTheory ClientTasks.
Local Open Scope Z_scope.
Local Open Scope c_scope.

(** ** The bytes *)

Definition property_bytes (kv : list Z * list Z) : list Z := string_bytes kv.1 ++ string_bytes kv.2.
Definition roster_bytes (roster : list Z) : list Z :=
  wire (compact_int_bytes (Z.of_nat (length roster))) ++
  concat ((fun msg => wire (compact_int_bytes msg) ++ string_bytes (dx_get_message_type_name msg) ++
    wire (compact_int_bytes 0)) <$> roster).
Definition magic_bytes : list Z := wire (be_bytes 1 68) ++ wire (be_bytes 1 88) ++ wire (be_bytes 1 80) ++ wire (be_bytes 1 51).
Definition properties_bytes (properties : list (list Z * list Z)) : list Z :=
  wire (compact_int_bytes (zlen properties)) ++ concat (property_bytes <$> properties).
Definition protocol_bytes (properties : list (list Z * list Z)) : list Z :=
  magic_bytes ++ properties_bytes properties ++ roster_bytes g_send_msg_roster ++ roster_bytes g_recv_msg_roster.

(** Texts of at most 2^16 bytes. *)
Definition text_ok (s : list Z) : Prop := utf16_units s /\ zlen (utf16_to_utf8 s) <= 2 ^ 16.
#[export] Instance text_ok_dec s : Decision (text_ok s).
Proof. unfold text_ok, utf16_units. apply _. Defined.

Section emission.
Context (malloc_ok : Z -> bool) (malloc_works : forall n, malloc_ok n = true).

Lemma emits_text s : text_ok s -> emits (dx_write_utf_string malloc_ok (Some s)) (string_bytes s).
Proof using malloc_works. intros [Hs Hl]. apply emits_string; [done..|unfold INT_MAX; lia]. Qed.

Lemma emits_properties items :
  Forall item_ok items -> Forall (fun kv => text_ok kv.1 /\ text_ok kv.2) (entry <$> items) ->
  emits (write_properties_loop malloc_ok items) (concat (property_bytes <$> (entry <$> items))).
Proof using malloc_works.
  induction items as [|item items IH]; intros Hi Ht; [apply emits_nil|].
  apply Forall_cons in Hi as [(_ & value & Hv & _) Hi]. cbn [fmap list_fmap concat] in Ht |- *.
  apply Forall_cons in Ht as [[Hk Ht1] Ht]. cbn [write_properties_loop]. unfold entry, property_bytes in *. cbn [fst snd] in *.
  rewrite Hv in Ht1 |- *. rewrite <- app_assoc.
  apply emits_seq; [by apply emits_text|]. apply emits_seq; [by apply emits_text|by apply IH].
Qed.

Lemma emits_roster_loop roster :
  Forall (fun msg => is_i32 msg /\ text_ok (dx_get_message_type_name msg)) roster ->
  emits (message_data_loop malloc_ok roster)
    (concat ((fun msg => wire (compact_int_bytes msg) ++ string_bytes (dx_get_message_type_name msg) ++
      wire (compact_int_bytes 0)) <$> roster)).
Proof using malloc_works.
  induction roster as [|msg roster IH]; intros H; [apply emits_nil|]. apply Forall_cons in H as [[Hm Ht] H].
  cbn [message_data_loop fmap list_fmap concat]. rewrite <- !app_assoc.
  apply emits_seq; [by apply emits_compact_int|]. apply emits_seq; [by apply emits_text|].
  apply emits_seq; [by apply emits_compact_int|by apply IH].
Qed.
Lemma emits_roster roster :
  Forall (fun msg => is_i32 msg /\ text_ok (dx_get_message_type_name msg)) roster ->
  is_i32 (Z.of_nat (length roster)) ->
  emits (dx_write_describe_protocol_message_data malloc_ok roster) (roster_bytes roster).
Proof using malloc_works.
  intros H Hl. apply emits_seq; [by apply emits_compact_int|by apply emits_roster_loop].
Qed.
Lemma rosters_ok :
  Forall (fun msg => is_i32 msg /\ text_ok (dx_get_message_type_name msg)) (g_send_msg_roster ++ g_recv_msg_roster).
Proof using Type. by_compute. Qed.

(** ** The message *)

Definition protocol_body (properties : dx_property_map_t) : M (out_ctx * dscc) unit :=
  on_out (dx_write_describe_protocol_magic malloc_ok);;;
  on_out (dx_write_describe_protocol_properties malloc_ok properties);;;
  on_out (dx_write_describe_protocol_sends malloc_ok);;;
  on_out (dx_write_describe_protocol_recvs malloc_ok).

Lemma emits_protocol props (x : dscc) :
  props_ok props -> Forall (fun kv => text_ok kv.1 /\ text_ok kv.2) (entry <$> contents props) ->
  zlen (contents props) <= 2 ^ 16 ->
  body_emits (protocol_body props) x (protocol_bytes (entry <$> contents props)) x.
Proof using malloc_works.
  intros [Ha _ Hi] Ht Hl. pose proof rosters_ok as [Hr1 Hr2]%Forall_app.
  assert (zlen (entry <$> contents props) = Z.of_nat (arr_size props)) as Hlen
    by (unfold zlen; by rewrite length_fmap, length_contents).
  unfold zlen in Hl. rewrite length_contents in Hl by done.
  apply body_emits_seq with x.
  { apply body_emits_out. repeat apply emits_seq; by apply emits_byte. }
  apply body_emits_seq with x.
  { apply body_emits_out. unfold dx_write_describe_protocol_properties, properties_bytes. rewrite Hlen.
    rewrite i32_id by (unfold is_i32; lia).
    apply emits_seq; [apply emits_compact_int; [done|unfold is_i32; lia]|by apply emits_properties]. }
  apply body_emits_seq with x; apply body_emits_out; by apply emits_roster.
Qed.
End emission.

(** ** Sending it *)

Definition VERSION_KEY : list Z := chars_of "version".
Definition OPT_KEY : list Z := chars_of "opt".
(** The properties with what the client says of itself. *)
Definition said_properties (m : gmap (list Z) (list Z)) : gmap (list Z) (list Z) :=
  <[OPT_KEY := chars_of "hs"]> (<[VERSION_KEY := DX_LIBRARY_VERSION]> m).

(** Properties that fit into a message. *)
Definition texts_ok (n : Z) (m : gmap (list Z) (list Z)) : Prop :=
  map_Forall (fun k v => text_ok k /\ text_ok v) m /\ Z.of_nat (size m) <= n.

Lemma texts_insert n m k v : text_ok k -> text_ok v -> texts_ok n m -> texts_ok (n + 1) (<[k := v]> m).
Proof.
  intros Hk Hv [Hm Hn]. split; [by apply map_Forall_insert_2|]. destruct (m !! k) eqn:E.
  - rewrite map_size_insert_Some by (by eexists). lia.
  - rewrite map_size_insert_None by done. lia.
Qed.
Lemma texts_said m : texts_ok (2 ^ 8) m -> texts_ok (2 ^ 9) (said_properties m).
Proof.
  intros Hm. destruct (texts_insert (2 ^ 8 + 1) (<[VERSION_KEY := DX_LIBRARY_VERSION]> m) OPT_KEY (chars_of "hs")) as [H1 H2].
  1-2: by_compute.
  { apply texts_insert; [by_compute|by_compute|done]. }
  split; [exact H1|unfold said_properties; lia].
Qed.

Lemma properties_texts props n : props_ok props -> texts_ok n (props_map props) ->
  Forall (fun kv => text_ok kv.1 /\ text_ok kv.2) (entry <$> contents props) /\ zlen (entry <$> contents props) <= n.
Proof.
  intros [_ Hs Hi] [Hm Hn]. pose proof (items_nodup _ Hi Hs) as Hnd. split.
  - apply Forall_forall. intros [k v] Hin. apply (Hm k v). by apply elem_of_list_to_map.
  - unfold props_map, items_map in Hn. by rewrite map_size_list_to_map in Hn.
Qed.

Lemma length_property kv : text_ok kv.1 /\ text_ok kv.2 -> zlen (property_bytes kv) <= 2 ^ 17 + 10.
Proof.
  intros [[_ H1] [_ H2]]. unfold property_bytes, string_bytes. rewrite zlen_app, !length_wire, !zlen_app.
  pose proof (length_compact_int (zlen (utf16_to_utf8 kv.1))). pose proof (length_compact_int (zlen (utf16_to_utf8 kv.2))). lia.
Qed.
Lemma length_protocol es : Forall (fun kv => text_ok kv.1 /\ text_ok kv.2) es -> zlen es <= 2 ^ 9 ->
  zlen (protocol_bytes es) <= 2 ^ 27.
Proof.
  intros Ht Hn. unfold protocol_bytes, properties_bytes. rewrite !zlen_app, length_wire.
  pose proof (length_compact_int (zlen es)).
  assert (zlen magic_bytes + zlen (roster_bytes g_send_msg_roster) + zlen (roster_bytes g_recv_msg_roster) <= 2 ^ 12) as Hr
    by by_compute.
  assert (zlen (concat (property_bytes <$> es)) <= (2 ^ 17 + 10) * zlen es) as Hp; [|lia].
  clear -Ht. induction Ht as [|kv es Hkv _ IH]; [done|]. cbn [fmap list_fmap concat].
  rewrite zlen_app, zlen_cons. pose proof (length_property kv Hkv). lia.
Qed.

Section sending.
Context (calloc_ok : Z -> bool) (calloc_works : forall n, calloc_ok n = true).
Context (dx_send : list Z -> list Z -> Z + dx_error_code) (Hsend : socket_sends dx_send) (now : Z).

Lemma set_property_at w key value :
  props_ok (nw_properties (cl_network w)) -> no_terminator key -> no_terminator value ->
  exists p, evolves (on_network (checked (dx_protocol_property_set calloc_ok (Some key) (Some value)))) w tt
      (set_cl_network (set_nw_properties p (cl_network w)) w) /\
    props_ok p /\ props_map p = <[key := value]> (props_map (nw_properties (cl_network w))).
Proof using calloc_works.
  intros Hp Hk Hv. destruct (map_set_spec _ (fun k => calloc_works (Z.of_nat k)) _ _ _ Hp Hk Hv) as (p & E & H).
  exists p. split; [|done]. intros a. apply on_network_at. unfold checked, dx_protocol_property_set, on_properties.
  unfold checked_call. by rewrite E.
Qed.

Lemma send_protocol_spec w :
  props_ok (nw_properties (cl_network w)) -> texts_ok (2 ^ 8) (props_map (nw_properties (cl_network w))) ->
  sending (cl_network w) ->
  exists c p, evolves (dx_send_protocol_description calloc_ok dx_send now true) w tt
      (set_cl_network (took (message_bytes MESSAGE_DESCRIBE_PROTOCOL (protocol_bytes (entry <$> contents p)))
        (set_nw_properties p (cl_network w))) (set_cl_out c w)) /\
    props_ok p /\ props_map p = said_properties (props_map (nw_properties (cl_network w))).
Proof using calloc_works Hsend.
  intros Hp Ht Hs. destruct (set_property_at w VERSION_KEY DX_LIBRARY_VERSION) as (p1 & E1 & Hp1 & Hm1); [done|by_compute..|].
  set (w1 := set_cl_network (set_nw_properties p1 (cl_network w)) w) in E1.
  destruct (set_property_at w1 OPT_KEY (chars_of "hs")) as (p & E2 & Hpok & Hm); [done|by_compute..|].
  set (w2 := set_cl_network (set_nw_properties p (cl_network w1)) w1) in E2. cbn in Hm. rewrite Hm1 in Hm.
  destruct (properties_texts p (2 ^ 9) Hpok) as [Htp Hn].
  { rewrite Hm. by apply texts_said. }
  destruct (compose_emits calloc_ok calloc_works 1024 MESSAGE_DESCRIBE_PROTOCOL (protocol_body calloc_ok p)
    (cl_dscc w2) (protocol_bytes (entry <$> contents p)) (cl_dscc w2) (cl_out w2)) as (c & E);
    [lia|by_compute|by apply length_protocol| |].
  { apply emits_protocol; [done|done|done|]. unfold zlen in *. rewrite length_fmap in Hn. lia. }
  exists c, p. split; [|done]. unfold dx_send_protocol_description. cbn [negb].
  eapply evolves_bind; [exact E1|]. eapply evolves_bind; [exact E2|].
  eapply (evolves_bind _ _ _ p w2); [intros a; by apply (on_network_at _ a w2)|].
  eapply evolves_bind; [intros a; exact (on_composing_at _ a w2 _ _ _ E)|].
  apply (send_at dx_send Hsend _ (set_cl_dscc (cl_dscc w2) (set_cl_out c w2))); [done|apply message_nonempty].
Qed.
End sending.
