(* ===== verification/Reconnect.v ===== *)
(** * Reconnect: the subscriptions of the user after a connection is lost

    [dx_reestablish_connection] of [Network], and the rounds of the thread of the
    tasks of [QueueThread] after it: the tasks of the lost connection are freed,
    what the server said is forgotten, and on the new connection the protocol, the
    records and every subscription are sent again. *)

From Stdlib Require Import Ascii String.
From S2P Require Import Prelude Arrays Algorithms Output Input Wire SymbolCodec Framing Compose EventData.
From S2P Require Import DataStructures Subscription MessageData Properties TaskQueue ConfigurationDeserializer NetworkContext.
From S2P Require Import Heartbeat RecordTranscoder ServerData ServerProcessor ServerStream Describe.
From S2P Require Import ClientMessages ClientTheory ClientTasks QueueThread AddressParser Network NetworkTheory DescribeProtocol.
Local Open Scope Z_scope.
Local Open Scope c_scope.

(** ** Freeing the tasks *)

Section freeing.
Context (calloc_ok : Z -> bool) (dx_send : list Z -> list Z -> Z + dx_error_code) (t : tables).
Context (now currentTimeMillis currentTimeMark : Z).

Let run := run_client_task calloc_ok dx_send t now currentTimeMillis currentTimeMark.

(** Freeing tasks one after the other, each of which leaves the queue alone. *)
Inductive freed : list dx_task_data_t -> client_world -> client_world -> Prop :=
  | freed_nil w : freed [] w w
  | freed_cons task tasks w w1 w2 :
      (forall a, exists r, run task dx_tc_free_resources (TqState a w) = Some (r, TqState a w1)) ->
      freed tasks w1 w2 -> freed (task :: tasks) w w2.

Lemma cleanup_loop_freed past todo res w w' a fuel :
  freed todo w w' -> array_wf a -> contents a = past ++ todo -> (length todo < fuel)%nat ->
  exists r, cleanup_loop run fuel (length past) res (TqState a w) = Ok r (TqState a w').
Proof using Type.
  intros H. revert past res fuel. induction H as [w|task todo w w1 w2 E _ IH]; intros past res fuel Ha Hc Hl;
    (destruct fuel as [|fuel]; [simpl in Hl; lia|]); cbn [cleanup_loop];
    unfold checked_call at 1, get_size; cbn [tq]; rewrite <- (length_contents a Ha), Hc.
  { exists res. by rewrite app_nil_r, Nat.ltb_irrefl. }
  rewrite (proj2 (Nat.ltb_lt _ _)) by (rewrite length_app; simpl; lia).
  unfold checked_call at 1, get_task. cbn [tq].
  rewrite <- contents_lookup, Hc, list_lookup_middle
    by (try done; rewrite <- (length_contents a Ha), Hc, length_app; simpl; lia).
  cbn [of_option ret]. unfold checked_call at 1, call. destruct (E a) as [r ->].
  replace (S (length past)) with (length (past ++ [task])) by (rewrite length_app; simpl; lia).
  apply IH; [done|by rewrite <- app_assoc|simpl in Hl; lia].
Qed.

Lemma cleanup_freed s w' :
  array_wf (tq s) -> freed (contents (tq s)) (tq_world s) w' ->
  exists a, ignored (dx_cleanup_task_queue run (S (arr_size (tq s))) false) s = Ok tt (TqState a w') /\
    array_wf a /\ contents a = [].
Proof using Type.
  intros Ha Hf. destruct s as [a w]. cbn [tq tq_world] in *. exists (DxArray (arr_elements a) 0 (arr_capacity a)).
  split; [|split; [split; simpl; [apply Nat.le_0_l|by destruct Ha]|done]].
  destruct (cleanup_loop_freed [] (contents a) true w w' a (S (arr_size a)) Hf Ha eq_refl) as [r E];
    [rewrite length_contents by done; lia|].
  unfold ignored, dx_cleanup_task_queue. cbn [length] in E. by rewrite (bind_ok _ _ _ _ _ E).
Qed.

(** The tasks of a connection: what a subscription task owns is in the heap, and
    no other task owns it. *)
Definition owned (task : dx_task_data_t) : list Z :=
  if task_processor task =? subscribe_symbols_to_events_ptr then [task_data task] else [].
Definition known_task (task : dx_task_data_t) : Prop :=
  1 <= task_processor task <= subscribe_symbols_to_events_ptr.
Record tasks_ok (heap : list (option dx_event_subscription_task_data_t)) (tasks : list dx_task_data_t) : Prop := {
  tasks_known : Forall known_task tasks;
  tasks_owned : Forall (fun data => exists d, heap_has heap data d) (concat (owned <$> tasks));
  tasks_distinct : NoDup (concat (owned <$> tasks));
}.

Lemma free_plain a w task :
  known_task task -> owned task = [] -> exists r, run task dx_tc_free_resources (TqState a w) = Some (r, TqState a w).
Proof using Type.
  intros Hk Ho. unfold known_task, owned in *. destruct task as [p data]. cbn [task_processor task_data] in *.
  unfold subscribe_symbols_to_events_ptr in *. destruct (Z.eqb_spec p 5); [done|].
  assert (p = 1 \/ p = 2 \/ p = 3 \/ p = 4) as [->|[->|[->| ->]]] by lia; eexists; destruct w; reflexivity.
Qed.

Lemma free_subscription a w data d :
  heap_has (cl_heap w) data d ->
  exists r, run (subscription_task data) dx_tc_free_resources (TqState a w) =
    Some (r, TqState a (set_cl_heap (<[Z.to_nat (data - 1) := None]> (cl_heap w)) w)).
Proof using Type.
  intros [Hpos Hd]. eexists. unfold run, run_client_task.
  change (processor_of calloc_ok dx_send t now currentTimeMillis currentTimeMark (subscription_task data) dx_tc_free_resources)
    with (dx_subscribe_symbols_to_events_task calloc_ok dx_send t data dx_tc_free_resources).
  unfold dx_subscribe_symbols_to_events_task. rewrite (proj2 (Z.eqb_neq data 0)) by lia.
  change (IS_FLAG_SET dx_tc_free_resources dx_tc_free_resources) with true. cbv iota.
  unfold dx_destroy_event_subscription_task_data. rewrite (proj2 (Z.eqb_neq data 0)) by lia.
  unfold checked_call. rewrite (on_world_at get a w _ _ eq_refl). rewrite Hd. reflexivity.
Qed.

Lemma tasks_freed tasks : forall w, tasks_ok (cl_heap w) tasks ->
  exists heap, freed tasks w (set_cl_heap heap w) /\ length heap = length (cl_heap w).
Proof using Type.
  induction tasks as [|task tasks IH]; intros w [Hk Ho Hd].
  { exists (cl_heap w). split; [|done]. destruct w. constructor. }
  apply Forall_cons in Hk as [Ht Hk]. cbn [fmap list_fmap concat] in Ho, Hd. apply Forall_app in Ho as [Ho1 Ho].
  apply NoDup_app in Hd as (Hd1 & Hdis & Hd). destruct (owned task) as [|data rest] eqn:Eo.
  - destruct (IH w) as (heap & Hf & Hl); [by split|]. exists heap. split; [|done].
    econstructor; [|exact Hf]. intros a. by apply free_plain.
  - assert (task = subscription_task data /\ rest = []) as [-> ->].
    { destruct task as [p x]. unfold owned in Eo. cbn [task_processor task_data] in Eo.
      destruct (Z.eqb_spec p subscribe_symbols_to_events_ptr) as [->|]; [|done]. by injection Eo as -> <-. }
    apply Forall_inv in Ho1 as [d Hh]. set (heap1 := <[Z.to_nat (data - 1) := None]> (cl_heap w)).
    destruct (IH (set_cl_heap heap1 w)) as (heap & Hf & Hl).
    { split; [done| |done]. rewrite Forall_forall in Ho. apply Forall_forall. intros data' Hin.
      destruct (Ho _ Hin) as (d' & Hpos' & Hd'). exists d'. split; [done|]. cbn. unfold heap1. rewrite list_lookup_insert_ne; [done|].
      destruct Hh as [Hpos _]. intros E. apply (Hdis data); [by constructor|]. by replace data with data' by lia. }
    exists heap. split; [|by rewrite Hl; apply length_insert].
    econstructor; [|exact Hf]. intros a. by eapply free_subscription.
Qed.
End freeing.

(** ** What the server said *)

(** What is known of the server is forgotten, and the records are as before. *)
Record forgets (s s' : dscc) : Prop := {
  forgets_ok : registry_ok s';
  forgets_records : records_list s' = records_list s;
  forgets_next : new_record_id s' = 0;
  forgets_states : contents (record_server_support_states s') = replicate (arr_size (records_list s)) 0;
  forgets_digests : contents (record_digests s') = replicate (arr_size (records_list s)) zero_digest;
}.

Section forgetting.
Context (calloc_ok : Z -> bool) (calloc_works : forall n, calloc_ok n = true).

Lemma clear_states_spec l2 : forall l1 s,
  array_wf (record_server_support_states s) -> contents (record_server_support_states s) = l1 ++ l2 ->
  exists a, clear_states (length l2) (length l1) s = Ok tt (set_states a s) /\ array_wf a /\
    contents a = l1 ++ replicate (length l2) 0.
Proof using Type.
  induction l2 as [|x l2 IH]; intros l1 s Ha Hc.
  { exists (record_server_support_states s). destruct s. by split_and!. }
  cbn [length clear_states]. destruct (array_set_spec _ l1 x l2 0 Ha Hc) as (Hl & l & Hw & Ha' & Hc').
  pose proof (length_contents _ Ha) as Hlen. rewrite Hc, length_app in Hlen. cbn [length] in Hlen.
  assert (support_state (Z.of_nat (length l1)) s = Ok x s) as E1.
  { unfold support_state. unfold checked_call, get. decide_cmps. rewrite Nat2Z.id, Hl. done. }
  rewrite (bind_ok _ _ _ _ _ E1). set (a := DxArray l _ _) in *.
  assert (put_support_state (Z.of_nat (length l1)) 0 s = Ok tt (set_states a s)) as E2.
  { unfold put_support_state. unfold checked_call, get. rewrite Nat2Z.id, Hw. done. }
  rewrite (bind_ok _ _ _ _ _ E2).
  destruct (IH (l1 ++ [0]) (set_states a s) Ha') as (a' & E & Ha2 & Hc2); [by rewrite <- app_assoc|].
  exists a'. rewrite length_app, Nat.add_1_r in E. split_and!; [exact E|done|]. by rewrite Hc2, <- app_assoc.
Qed.

Lemma init_digests_spec n : forall s,
  array_wf (record_digests s) ->
  exists a, init_digests_loop calloc_ok n (arr_size (record_digests s)) s = Ok tt (set_record_digests a s) /\
    array_wf a /\ contents a = contents (record_digests s) ++ replicate n zero_digest.
Proof using calloc_works.
  induction n as [|n IH]; intros s Ha.
  { exists (record_digests s). destruct s. rewrite app_nil_r. by split_and!. }
  cbn [init_digests_loop].
  destruct (array_append_spec zero_digest _ (record_digests s) zero_digest Ha (fun k => calloc_works (Z.of_nat k)))
    as (a & E & Ha' & Hc).
  assert (ignored (dx_add_record_digest_to_list (fun k => calloc_ok (Z.of_nat k)) (arr_size (record_digests s))) s =
    Ok tt (set_record_digests a s)) as E1.
  { unfold ignored, dx_add_record_digest_to_list. unfold checked_call, get. rewrite Nat.ltb_irrefl, E. done. }
  rewrite (bind_ok _ _ _ _ _ E1). destruct (IH (set_record_digests a s) Ha') as (a' & E2 & Ha2 & Hc2).
  assert (arr_size a = S (arr_size (record_digests s))) as Hsz.
  { rewrite <- (length_contents _ Ha'), Hc, length_app, length_contents by done. simpl. lia. }
  cbn [record_digests set_record_digests] in E2, Hc2. rewrite Hsz in E2. exists a'.
  split_and!; [exact E2|done|]. by rewrite Hc2, Hc, <- app_assoc.
Qed.

Definition unsynchronized (p : protocol_ctx) : protocol_ctx := set_describe_status dx_dps_not_sent (set_bitmasks 0 0 p).

Lemma on_fst {A} (m : M dscc A) s (p : protocol_ctx) v s' :
  m s = Ok v s' -> on fst (fun x s => (x, snd s)) m (s, p) = Ok v (s', p).
Proof using Type. intros E. unfold on. cbn. by rewrite E. Qed.

Lemma clear_server_info_spec s p : registry_ok s ->
  exists s', dx_clear_server_info calloc_ok (s, p) = Ok tt (s', unsynchronized p) /\ forgets s s'.
Proof using calloc_works.
  intros Hok. pose proof (length_contents _ (ok_states s Hok)) as Hl. rewrite (ok_states_size s Hok) in Hl.
  destruct (clear_states_spec (contents (record_server_support_states s)) [] s (ok_states s Hok) eq_refl)
    as (a & E1 & Ha & Hc). rewrite Hl in E1, Hc.
  set (s1 := set_record_digests DX_EMPTY_ARRAY (set_states a s)).
  destruct (init_digests_spec (arr_size (records_list s)) s1 array_wf_empty) as (d & E2 & Hd & Hcd).
  exists (set_new_record_id 0 (set_record_digests d s1)). split.
  - unfold dx_clear_server_info.
    assert (forall x, dx_get_records_list_count x = Ok (Z.of_nat (arr_size (records_list x))) x) as E0 by done.
    rewrite (bind_ok _ _ _ _ _ (on_fst _ _ p _ _ (E0 s))), Nat2Z.id.
    rewrite (bind_ok _ _ _ _ _ (on_fst _ _ p _ _ E1)).
    rewrite (bind_ok _ _ _ _ _ (on_fst dx_clear_record_digests (set_states a s) p tt s1 eq_refl)).
    assert (dx_init_record_digests calloc_ok s1 = Ok tt (set_record_digests d s1)) as E3.
    { unfold dx_init_record_digests. rewrite (bind_ok _ _ _ _ _ (E0 s1)), Nat2Z.id. exact E2. }
    rewrite (bind_ok _ _ _ _ _ (on_fst _ _ p _ _ E3)). reflexivity.
  - cbn in Hc, Hcd. destruct Hok. pose proof (length_contents _ Hd) as Hld. rewrite Hcd, length_replicate in Hld.
    pose proof (length_contents _ Ha) as Hla. rewrite Hc, length_replicate in Hla.
    split; cbn; [constructor; cbn; try done; lia|done|done|done|done].
Qed.
End forgetting.

(** ** Scheduling *)

Definition view_task (v : dx_event_subscription_view) : dx_event_subscription_task_data_t :=
  SubscriptionTaskData (es_order_source v) (filter (fun s => dx_string_null_or_empty s = false) (es_symbols v))
    (es_event_types v) false (es_flags v) (es_time v).

(** The pointers to the data of so many new tasks. *)
Definition new_datas (heap : list (option dx_event_subscription_task_data_t)) (n : nat) : list Z :=
  seqZ (Z.of_nat (length heap) + 1) (Z.of_nat n).

Lemma new_datas_has heap (ds : list dx_event_subscription_task_data_t) :
  Forall2 (heap_has (heap ++ (Some <$> ds))) (new_datas heap (length ds)) ds /\ NoDup (new_datas heap (length ds)).
Proof.
  split; [|apply NoDup_seqZ]. apply Forall2_same_length_lookup. unfold new_datas. rewrite length_seqZ. split; [lia|].
  intros i data d Hi Hd. apply lookup_seqZ in Hi as [-> Hi]. split; [lia|].
  rewrite lookup_app_r by lia. rewrite list_lookup_fmap.
  replace (Z.to_nat (Z.of_nat (length heap) + 1 + Z.of_nat i - 1) - length heap)%nat with i by lia. by rewrite Hd.
Qed.

Section scheduling.
Context (calloc_ok : Z -> bool) (calloc_works : forall n, calloc_ok n = true).
Context (dx_send : list Z -> list Z -> Z + dx_error_code).

Let alloc (n : nat) : bool := calloc_ok (Z.of_nat n).

Lemma add_worker_task (a : dx_array dx_task_data_t) w processor data : array_wf a -> processor <> 0 ->
  exists a', dx_add_worker_thread_task calloc_ok processor data (TqState a w) = Ok tt (TqState a' w) /\
    array_wf a' /\ contents a' = contents a ++ [Task processor data].
Proof using calloc_works.
  intros Ha Hp. destruct (add_task_spec alloc (fun n => calloc_works (Z.of_nat n)) (TqState a w) processor data Ha Hp)
    as (a' & E & H). exists a'. split; [|done]. unfold dx_add_worker_thread_task. by rewrite (bind_ok _ _ _ _ _ E).
Qed.

(** The server is not known yet, and the records are known. *)
Section view.
Context (v : dx_event_subscription_view).
Context (sources_ok : Forall (fun source => (length (c_string source) <= 4)%nat) (es_order_source v)).

Lemma params_pending w ps : describe_protocol_status (cl_protocol w) = dx_dps_pending ->
  exists r, evolves (params_support ps false) w r w /\ (r = dx_mss_pending \/ r = dx_mss_supported).
Proof using Type.
  intros Hp. destruct ps as [|p ps]; [exists dx_mss_supported; split; [done|by right]|].
  exists dx_mss_pending. split; [|by left]. cbn [params_support].
  apply (evolves_bind _ _ _ dx_mss_pending w); [|done]. intros a. rewrite <- (set_cl_protocol_same w) at 2.
  apply on_messages_at. unfold dx_is_message_supported_by_server.
  replace (dx_is_message_type_valid _) with true by (by destruct (param_subscription_type p)). cbn [negb].
  unfold checked_call, get. by rewrite Hp.
Qed.

Lemma events_pending w events :
  registry_ok (cl_dscc w) -> describe_protocol_status (cl_protocol w) = dx_dps_pending ->
  registered (cl_dscc w) (asked_entries (es_order_source v) (es_event_types v) (es_flags v) events) ->
  exists r, evolves (events_support calloc_ok events (es_order_source v) (es_event_types v) false (es_flags v)) w r w /\
    (r = dx_mss_pending \/ r = dx_mss_supported).
Proof using calloc_works sources_ok.
  intros Hok Hp. induction events as [|event_id events IH]; intros Hr.
  { exists dx_mss_supported. split; [done|by right]. }
  unfold asked_entries in Hr. cbn [fmap list_fmap concat] in Hr. apply Forall_app in Hr as [Hr1 Hr2].
  destruct (IH Hr2) as (r2 & E2 & H2). cbn [events_support].
  assert (exists r, evolves (if asked (es_event_types v) event_id then
       params <-- get_params calloc_ok (es_order_source v) event_id (es_flags v);; params_support params false
     else ret dx_mss_supported) w r w /\ (r = dx_mss_pending \/ r = dx_mss_supported)) as (r & E & [->| ->]).
  { destruct (asked (es_event_types v) event_id); [|exists dx_mss_supported; split; [done|by right]].
    destruct (get_params_at calloc_ok calloc_works (es_order_source v) sources_ok (es_flags v) w event_id Hok)
      as (ps & s' & E & _ & _ & _ & Hsame & _). rewrite (Hsame Hr1), set_cl_dscc_same in E.
    destruct (params_pending w ps Hp) as (r & Er & Hr). exists r. split; [|done]. by eapply evolves_bind. }
  - exists dx_mss_pending. split; [|by left]. by eapply evolves_bind.
  - exists r2. split; [|done]. by eapply evolves_bind.
Qed.

Lemma schedule_view a w :
  array_wf a -> registry_ok (cl_dscc w) -> describe_protocol_status (cl_protocol w) = dx_dps_pending ->
  registered (cl_dscc w) (asked_entries (es_order_source v) (es_event_types v) (es_flags v) all_events) ->
  exists a', dx_server_event_subscription_refresher calloc_ok dx_send codec_tables v (TqState a w) =
      Ok tt (TqState a' (set_cl_heap (cl_heap w ++ [Some (view_task v)]) w)) /\
    array_wf a' /\ contents a' = contents a ++ [subscription_task (Z.of_nat (length (cl_heap w)) + 1)].
Proof using calloc_works sources_ok.
  intros Ha Hok Hp Hr. destruct (events_pending w all_events Hok Hp Hr) as (r & E & Hres).
  destruct (add_worker_task a (set_cl_heap (cl_heap w ++ [Some (view_task v)]) w) subscribe_symbols_to_events_ptr
    (Z.of_nat (length (cl_heap w)) + 1) Ha) as (a' & Ea & H); [done|]. exists a'. split; [|done].
  unfold dx_server_event_subscription_refresher, dx_subscribe_symbols_to_events, dx_get_event_server_support.
  rewrite (bind_ok _ _ _ _ _ (E a)).
  assert (dx_create_event_subscription_task_data calloc_ok (es_order_source v) (es_symbols v) (es_event_types v) false
    (es_flags v) (es_time v) (TqState a w) = Ok (Z.of_nat (length (cl_heap w)) + 1)
      (TqState a (set_cl_heap (cl_heap w ++ [Some (view_task v)]) w))) as Ec.
  { unfold dx_create_event_subscription_task_data. rewrite !calloc_works.
    rewrite (proj2 (forallb_forall _ _)) by (intros; apply calloc_works). rewrite orb_true_r. reflexivity. }
  destruct Hres as [->| ->]; cbn [negb]; rewrite (bind_ok _ _ _ _ _ Ec);
    rewrite (proj2 (Z.eqb_neq _ _)) by lia; exact Ea.
Qed.
End view.

(** A subscription of the user: its records are known, as it was made before. *)
Definition view_ok (s : dscc) (v : dx_event_subscription_view) : Prop :=
  task_ok (view_task v) /\
  registered s (asked_entries (es_order_source v) (es_event_types v) (es_flags v) all_events).

Lemma schedule_views views : forall a w,
  array_wf a -> registry_ok (cl_dscc w) -> describe_protocol_status (cl_protocol w) = dx_dps_pending ->
  Forall (view_ok (cl_dscc w)) views ->
  exists a', dx_process_connection_subscriptions calloc_ok dx_send codec_tables views (TqState a w) =
      Ok tt (TqState a' (set_cl_heap (cl_heap w ++ ((fun v => Some (view_task v)) <$> views)) w)) /\
    array_wf a' /\ contents a' = contents a ++ (subscription_task <$> new_datas (cl_heap w) (length views)).
Proof using calloc_works.
  induction views as [|v views IH]; intros a w Ha Hok Hp Hv.
  { exists a. cbn. rewrite !app_nil_r. split_and!; [by destruct w|done|done]. }
  apply Forall_cons in Hv as [[Htask Hr] Hv]. cbn [dx_process_connection_subscriptions].
  destruct (schedule_view v (ok_sources _ Htask) a w Ha Hok Hp Hr) as (a1 & E1 & Ha1 & Hc1). rewrite (bind_ok _ _ _ _ _ E1).
  destruct (IH a1 (set_cl_heap (cl_heap w ++ [Some (view_task v)]) w) Ha1 Hok Hp Hv) as (a2 & E2 & Ha2 & Hc2).
  exists a2. cbn [cl_heap set_cl_heap] in E2, Hc2. rewrite <- app_assoc in E2. split_and!; [exact E2|done|].
  rewrite Hc2, Hc1, <- app_assoc. cbn [app]. do 2 f_equal. unfold new_datas.
  rewrite (seqZ_cons _ (Z.of_nat (length (v :: views)))) by (cbn [length]; lia). cbn [fmap list_fmap]. do 2 f_equal.
  f_equal; rewrite ?length_app; cbn [length]; lia.
Qed.

Definition described (now : Z) (p : protocol_ctx) : protocol_ctx := set_describe_status dx_dps_pending (set_timestamp now p).
Definition protocol_task : dx_task_data_t := Task describe_protocol_sender_ptr 0.

Lemma schedule_spec now views a w :
  array_wf a -> contents a = [] -> registry_ok (cl_dscc w) ->
  describe_protocol_status (cl_protocol w) = dx_dps_not_sent -> Forall (view_ok (cl_dscc w)) views ->
  exists a', schedule_descriptions calloc_ok dx_send codec_tables now views (TqState a w) =
      Ok tt (TqState a' (set_cl_heap (cl_heap w ++ (Some <$> (view_task <$> views)))
        (set_cl_protocol (described now (cl_protocol w)) w))) /\
    array_wf a' /\ contents a' = protocol_task :: waiting_tasks (new_datas (cl_heap w) (length views)).
Proof using calloc_works.
  intros Ha Hc Hok Hp Hv. set (w1 := set_cl_protocol (described now (cl_protocol w)) w).
  destruct (add_worker_task a w describe_protocol_sender_ptr 0 Ha) as (a1 & E1 & Ha1 & Hc1); [done|].
  destruct (add_worker_task a1 w1 describe_protocol_timeout_countdown_ptr 0 Ha1) as (a2 & E2 & Ha2 & Hc2); [done|].
  destruct (add_worker_task a2 w1 describe_records_sender_ptr 0 Ha2) as (a3 & E3 & Ha3 & Hc3); [done|].
  destruct (schedule_views views a3 w1 Ha3 Hok eq_refl Hv) as (a4 & E4 & Ha4 & Hc4).
  exists a4. split_and!; [|done|by rewrite Hc4, Hc3, Hc2, Hc1, Hc].
  assert (dx_send_protocol_description calloc_ok dx_send now false (TqState a w) = Ok tt (TqState a2 w1)) as Ed.
  { unfold dx_send_protocol_description. cbn [negb]. rewrite (bind_ok _ _ _ _ _ E1). unfold dx_describe_protocol_sent.
    assert (on_messages get (TqState a1 w) = Ok (cl_protocol w) (TqState a1 w)) as Eg.
    { rewrite <- (set_cl_protocol_same w) at 3. by apply on_messages_at. }
    rewrite (bind_ok _ _ _ _ _ Eg), Hp.
    rewrite (bind_ok _ _ _ _ _ (on_messages_at _ a1 w _ _ (eq_refl : put _ (cl_protocol w) = Ok tt (described now (cl_protocol w))))).
    exact E2. }
  unfold schedule_descriptions. rewrite (bind_ok _ _ _ _ _ Ed).
  assert (dx_send_record_description calloc_ok dx_send false (TqState a2 w1) = Ok tt (TqState a3 w1)) as Er by exact E3.
  rewrite (bind_ok _ _ _ _ _ Er), E4. cbn [cl_heap set_cl_protocol w1]. by rewrite <- list_fmap_compose.
Qed.
End scheduling.

(** ** The new connection *)

Definition client_of (s : net) : client_world := tq_world (nt_client s).

(** The descriptions of all the records. *)
Definition all_descriptions (s : dscc) : list Z := descriptions_bytes (set_new_record_id 0 s).

(** The connection that is lost: its tasks, its registry and its addresses are
    well formed, one of the addresses that are left can be connected to, and what
    would be sent to it fits into a message. *)
Record lost (connects : Z -> bool) (views : list dx_event_subscription_view) (s : net) : Prop := {
  lost_queue : array_wf (tq (nt_client s));
  lost_tasks : tasks_ok (cl_heap (client_of s)) (contents (tq (nt_client s)));
  lost_registry : registry_ok (cl_dscc (client_of s));
  lost_status : connection_status (protocol_of s) <> dxf_cs_login_required;
  lost_views : Forall (view_ok (cl_dscc (client_of s))) views;
  lost_network : network_ok (network_of s);
  lost_dumping : IS_FLAG_SET (nw_flags (network_of s)) DUMPING_RAW_DATA_FIELD_FLAG = false;
  lost_addresses : addresses_ok (addr_context s);
  lost_reachable : ~ Forall (unreachable connects)
    (drop (cur_addr_index (addr_context s)) (contents (ar_elements (addr_context s))));
  lost_texts : Forall (fun a => texts_ok (2 ^ 8) (sent_properties (user_properties (network_of s)) (ea_address a)))
    (contents (ar_elements (addr_context s)));
  lost_names : names_ok (cl_dscc (client_of s));
  lost_room : Z.of_nat (arr_size (records_list (cl_dscc (client_of s)))) +
    zlen (concat (task_entries <$> (view_task <$> views))) <= INT_MAX;
  lost_length : zlen (all_descriptions (cl_dscc (client_of s))) <= 2 ^ 27;
}.

(** The first address that can be connected to. *)
Definition first_address (connects : Z -> bool) (s : net) (address : dx_address_t) : Prop :=
  exists before a k after,
    drop (cur_addr_index (addr_context s)) (contents (ar_elements (addr_context s))) = before ++ a :: after /\
    Forall (unreachable connects) before /\ reachable connects a k /\ address = ea_address a.

(** The connection that is made: [address] is the one that was reached. *)
Record reestablished (connects : Z -> bool) (now : Z) (views : list dx_event_subscription_view) (s s' : net) (address : dx_address_t)
  (datas : list Z) : Prop := {
  re_queue : array_wf (tq (nt_client s')) /\ contents (tq (nt_client s')) = protocol_task :: waiting_tasks datas;
  re_heap : Forall2 (heap_has (cl_heap (client_of s'))) datas (view_task <$> views) /\ NoDup datas;
  re_registry : forgets (cl_dscc (client_of s)) (cl_dscc (client_of s'));
  re_protocol : protocol_of s' = described now (dx_connection_status_set dxf_cs_connected (unsynchronized (protocol_of s)));
  re_sending : sending (network_of s');
  re_out : nw_out (network_of s') = nw_out (network_of s);
  re_properties : props_ok (nw_properties (network_of s')) /\
    props_map (nw_properties (network_of s')) = sent_properties (user_properties (network_of s)) address;
  re_texts : texts_ok (2 ^ 8) (props_map (nw_properties (network_of s')));
  re_address : first_address connects s address;
  re_connection : cl_connection (client_of s') = cl_connection (client_of s);
}.

Section reestablish.
Context (calloc_ok : Z -> bool) (calloc_works : forall n, calloc_ok n = true).
Context (mbsrtowcs : list Z -> option (list Z)) (mbsrtowcs_ascii : forall s, is_ascii s -> mbsrtowcs s = Some s).
Context (dx_send : list Z -> list Z -> Z + dx_error_code).

Lemma on_nt_client_at {A} (m : M client A) s v c :
  m (nt_client s) = Ok v c -> on_nt_client m s = Ok v (set_nt_client c s).
Proof using Type. intros E. unfold on_nt_client, on. by rewrite E. Qed.

Lemma on_nt_client_ignored {A} (m : M client A) s c :
  ignored m (nt_client s) = Ok tt c -> ignored (on_nt_client m) s = Ok tt (set_nt_client c s).
Proof using Type. unfold ignored, on_nt_client, on. by destruct (m (nt_client s)); intros [= ->]. Qed.
Lemma protocol_at s : on_nt_messages get s = Ok (protocol_of s) s.
Proof using Type. rewrite <- (with_connection_same s) at 1 3. by apply on_nt_messages_at. Qed.
Lemma clear_server_info_at a w x : dx_clear_server_info calloc_ok (cl_dscc w, cl_protocol w) = Ok tt x ->
  clear_server_info calloc_ok (TqState a w) = Ok tt (TqState a (set_cl_protocol x.2 (set_cl_dscc x.1 w))).
Proof using Type. intros E. unfold clear_server_info. apply on_world_at. unfold on. by rewrite E. Qed.

Lemma opened_sending n n' :
  steady n n' -> IS_FLAG_SET (nw_flags n) DUMPING_RAW_DATA_FIELD_FLAG = false -> sending (opened n').
Proof using Type.
  intros Hs Hd. unfold sending, opened, SOCKET_FIELD_FLAG, DUMPING_RAW_DATA_FIELD_FLAG in *. cbn [nw_flags set_nw_flags].
  rewrite flag_other, (steady_flags _ _ Hs), flag_set by done. done.
Qed.

Lemma forgets_names s s' : forgets s s' -> record_name s' = record_name s.
Proof using Type. intros [_ H _ _ _]. unfold record_name. by rewrite H. Qed.

Lemma view_ok_forgets s s' v : forgets s s' -> view_ok s v -> view_ok s' v.
Proof using Type.
  intros H [Ht Hr]. split; [done|]. unfold registered in *. by rewrite (forgets_names _ _ H).
Qed.

Lemma reestablish_spec now currentTimeMillis currentTimeMark tls gzip views file_opens getaddrinfo rand
  connects connects_again s :
  lost connects views s ->
  exists s' address datas,
    dx_reestablish_connection calloc_ok mbsrtowcs dx_send codec_tables tls gzip now currentTimeMillis currentTimeMark
      views file_opens getaddrinfo rand connects connects_again s = Ok tt s' /\
    length datas = length views /\ reestablished connects now views s s' address datas.
Proof using calloc_works mbsrtowcs_ascii.
  intros [Hq Ht Hok Hst Hv Hn Hd Ha Hreach Htexts _ _ _]. set (w := client_of s) in *.
  destruct (tasks_freed calloc_ok dx_send codec_tables now currentTimeMillis currentTimeMark _ _ Ht) as (heap & Hf & Hl).
  destruct (cleanup_freed calloc_ok dx_send codec_tables now currentTimeMillis currentTimeMark _ _ Hq Hf) as (a1 & E1 & Ha1 & Hc1).
  destruct (clear_server_info_spec calloc_ok calloc_works (cl_dscc w) (cl_protocol w) Hok) as (x & Ex & Hx).
  set (w2 := set_cl_protocol (unsynchronized (cl_protocol w)) (set_cl_dscc x (set_cl_heap heap w))).
  set (s2 := set_nt_client (TqState a1 w2) s).
  destruct (connect_resolved_spec calloc_ok mbsrtowcs file_opens connects s2 calloc_works mbsrtowcs_ascii Hn Hd Ha)
    as (n' & c' & [[[Hnone _] _]|[(before & b & k & after & Er & Hu & Hk & Hs & _ & Hm) E3]]); [by destruct Hreach|].
  set (s3 := with_connection _ _ c' s2) in E3. set (w3 := client_of s3).
  destruct (schedule_spec calloc_ok calloc_works dx_send now views a1 w3 Ha1 Hc1 (forgets_ok _ _ Hx) eq_refl)
    as (a4 & E4 & Ha4 & Hc4).
  { eapply Forall_impl; [exact Hv|]. intros v. apply view_ok_forgets, Hx. }
  eexists (set_nt_client (TqState a4 _) s3), (ea_address b), (new_datas heap (length views)). split; [|split].
  - unfold dx_reestablish_connection. unfold checked_call at 1, get at 1.
    rewrite (bind_ok _ _ _ _ _ (on_nt_client_ignored _ _ _ E1)), (bind_ok _ _ _ _ _ (protocol_at _)).
    change (protocol_of (set_nt_client (TqState a1 (set_cl_heap heap w)) s)) with (protocol_of s).
    assert (on_nt_client (clear_server_info calloc_ok) (set_nt_client (TqState a1 (set_cl_heap heap w)) s) = Ok tt s2) as E2
      by exact (on_nt_client_at _ _ _ _ (clear_server_info_at a1 (set_cl_heap heap w) _ Ex)).
    destruct (connection_status (protocol_of s)) eqn:Es; try done;
      rewrite (bind_ok _ _ _ _ _ E2), (bind_ok _ _ _ _ _ (catch_ok _ _ _ _ E3)), (bind_ok (ret tt) _ s3 tt s3 eq_refl);
      exact (on_nt_client_at _ s3 _ _ E4).
  - unfold new_datas. rewrite length_seqZ. lia.
  - split; cbn -[Z.shiftl].
    + done.
    + destruct (new_datas_has heap (view_task <$> views)) as [H1 H2]. by rewrite length_fmap in H1, H2.
    + done.
    + done.
    + by apply (opened_sending (network_of s)).
    + apply (steady_out _ _ Hs).
    + split; [apply (steady_ok _ _ Hs)|exact Hm].
    + cbn in Hm, Er. rewrite Hm. rewrite <- (take_drop (cur_addr_index (addr_context s)) (contents _)), Er in Htexts.
      apply Forall_app in Htexts as [_ [_ Hb%Forall_inv]%Forall_app]. exact Hb.
    + by exists before, b, k, after.
    + done.
Qed.

(** Where the server requires a login its description has been read, and another
    is awaited: the protocol cannot be described again. *)
Lemma login_not_sent now currentTimeMillis currentTimeMark tls gzip views file_opens getaddrinfo rand
  connects connects_again s :
  array_wf (tq (nt_client s)) -> tasks_ok (cl_heap (client_of s)) (contents (tq (nt_client s))) ->
  connection_status (protocol_of s) = dxf_cs_login_required ->
  describe_protocol_status (protocol_of s) = dx_dps_pending ->
  exists s',
    dx_reestablish_connection calloc_ok mbsrtowcs dx_send codec_tables tls gzip now currentTimeMillis currentTimeMark
      views file_opens getaddrinfo rand connects connects_again s = Err dx_ec_internal_assert_violation s' /\
    nw_out (network_of s') = nw_out (network_of s) /\ contents (tq (nt_client s')) = [protocol_task].
Proof using calloc_works.
  intros Hq Ht Hst Hp.
  destruct (tasks_freed calloc_ok dx_send codec_tables now currentTimeMillis currentTimeMark _ _ Ht) as (heap & Hf & _).
  destruct (cleanup_freed calloc_ok dx_send codec_tables now currentTimeMillis currentTimeMark _ _ Hq Hf) as (a1 & E1 & Ha1 & Hc1).
  set (w := set_cl_heap heap (client_of s)) in *. set (s1 := set_nt_client (TqState a1 w) s).
  destruct (add_worker_task calloc_ok calloc_works a1 w describe_protocol_sender_ptr 0 Ha1) as (a2 & E2 & _ & Hc2); [done|].
  assert (schedule_descriptions calloc_ok dx_send codec_tables now views (TqState a1 w) =
    Err dx_ec_internal_assert_violation (TqState a2 w)) as E3.
  { unfold schedule_descriptions, dx_send_protocol_description. cbn [negb]. unfold checked_call at 1.
    rewrite (bind_ok _ _ _ _ _ E2). unfold dx_describe_protocol_sent.
    assert (on_messages get (TqState a2 w) = Ok (cl_protocol w) (TqState a2 w)) as Eg.
    { rewrite <- (set_cl_protocol_same w) at 3. by apply on_messages_at. }
    rewrite (bind_ok _ _ _ _ _ Eg). change (cl_protocol w) with (protocol_of s). by rewrite Hp. }
  exists (set_nt_client (TqState a2 w) s1). split_and!; [|done|by cbn; rewrite Hc2, Hc1].
  unfold dx_reestablish_connection. unfold checked_call at 1, get at 1.
  rewrite (bind_ok _ _ _ _ _ (on_nt_client_ignored _ _ _ E1)), (bind_ok _ _ _ _ _ (protocol_at _)).
  change (protocol_of (set_nt_client (TqState a1 w) s)) with (protocol_of s). rewrite Hst.
  unfold on_nt_client, on. change (nt_client (set_nt_client (TqState a1 w) s)) with (TqState a1 w). by rewrite E3.
Qed.
End reestablish.

(** ** The rounds of the thread after it *)

Section rounds.
Context (calloc_ok : Z -> bool) (calloc_works : forall n, calloc_ok n = true).
Context (dx_send : list Z -> list Z -> Z + dx_error_code) (Hsend : socket_sends dx_send).

Lemma forgets_descriptions s s' : forgets s s' -> descriptions_bytes s' = all_descriptions s.
Proof using Type. intros [_ H1 H2 _ _]. unfold all_descriptions, descriptions_bytes, own_descriptions. cbn. by rewrite H1, H2. Qed.
Lemma forgets_names_ok s s' : forgets s s' -> names_ok s -> names_ok s'.
Proof using Type. intros [_ H _ _ _]. unfold names_ok. by rewrite H. Qed.

Lemma run_protocol now currentTimeMillis currentTimeMark w w' :
  evolves (dx_send_protocol_description calloc_ok dx_send now true) w tt w' ->
  forall a, run_client_task calloc_ok dx_send codec_tables now currentTimeMillis currentTimeMark protocol_task 0 (TqState a w) =
    Some (Z.lor dx_tes_pop_me dx_tes_success, TqState a w').
Proof using Type.
  intros E a. unfold run_client_task.
  change (processor_of calloc_ok dx_send codec_tables now currentTimeMillis currentTimeMark protocol_task 0)
    with (dx_describe_protocol_sender_task calloc_ok dx_send now 0).
  unfold dx_describe_protocol_sender_task, sender_task.
  change (IS_FLAG_SET 0 dx_tc_free_resources) with false. cbv iota.
  by rewrite (bind_ok _ _ _ _ _ (catch_ok _ _ _ _ (E a))).
Qed.

(** The protocol is described, and the rest waits. *)
Lemma execute_describes now currentTimeMillis currentTimeMark datas a w w' fuel :
  array_wf a -> contents a = protocol_task :: waiting_tasks datas ->
  evolves (dx_send_protocol_description calloc_ok dx_send now true) w tt w' ->
  describe_protocol_status (cl_protocol w') = dx_dps_pending -> waited now (cl_protocol w') < DESCRIBE_PROTOCOL_TIMEOUT ->
  exists a', dx_execute_task_queue (run_client_task calloc_ok dx_send codec_tables now currentTimeMillis currentTimeMark)
      (fun n => calloc_ok (Z.of_nat n)) (S (S fuel)) false (TqState a w) = Ok true (TqState a' w') /\
    array_wf a' /\ contents a' = waiting_tasks datas.
Proof using calloc_works.
  intros Ha Hc E Hp Hw. set (run := run_client_task _ _ _ _ _ _). set (alloc := fun n : nat => calloc_ok (Z.of_nat n)).
  assert (forall n, alloc n = true) as Halloc by (intros n; apply calloc_works).
  pose proof (run_protocol now currentTimeMillis currentTimeMark w w' E a) as Hr.
  destruct (execute_round run alloc Halloc [] _ _ w _ [] w' a a Hr Ha (eq_sym (app_nil_r _)) Ha Hc) as (a1 & Ha1 & Hc1 & E1).
  cbn [kept app] in Hc1. rewrite app_nil_r in Hc1.
  pose proof (run_countdown calloc_ok dx_send now currentTimeMillis currentTimeMark a1 w' _ _ (countdown_waits now _ Hp Hw)) as Hr2.
  rewrite set_cl_protocol_same in Hr2.
  destruct (execute_round run alloc Halloc [] _ _ w' _ [] w' a1 a1 Hr2 Ha1 (eq_sym (app_nil_r _)) Ha1 Hc1) as (a2 & Ha2 & Hc2 & E2).
  exists a2. split; [|split; [done|by rewrite Hc2, app_nil_r]].
  unfold dx_execute_task_queue. etrans; [exact (E1 (S fuel))|]. exact (E2 fuel).
Qed.

Section thread.
Context (connects : Z -> bool) (now : Z) (views : list dx_event_subscription_view) (s s' : net) (address : dx_address_t).
Context (datas : list Z) (Hlost : lost connects views s) (Hre : reestablished connects now views s s' address datas).
Context (Hmarks : marks_ok (cl_connection (client_of s))).
Context (close_ok : bool) (error : dx_error_code) (fuel : nat) (enough : (length datas + 2 < fuel)%nat).

Let ds := view_task <$> views.
Let round := dx_queue_executor_round calloc_ok dx_send codec_tables close_ok error fuel.

(** What the client says of itself on the new connection. *)
Definition new_properties (properties : dx_property_map_t) : Prop :=
  props_ok properties /\
  props_map properties = said_properties (sent_properties (user_properties (network_of s)) address).

Lemma described_waits a w : array_wf a -> contents a = waiting_tasks datas ->
  cl_dscc w = cl_dscc (client_of s') -> cl_protocol w = protocol_of s' -> cl_heap w = cl_heap (client_of s') ->
  sending (cl_network w) -> waiting datas ds (TqState a w).
Proof using Hlost Hre.
  intros Ha Hc Hd Hp Hh Hs. destruct Hlost, Hre. constructor; cbn [tq tq_world]; rewrite ?Hd, ?Hh; try done.
  - rewrite Hp, re_protocol0. done.
  - apply re_registry0.
  - by eapply forgets_names_ok.
  - rewrite (forgets_records _ _ re_registry0). done.
  - rewrite (forgets_descriptions _ _ re_registry0). done.
  - unfold ds. apply Forall_fmap. eapply Forall_impl; [exact lost_views0|]. by intros v [Hv _].
Qed.

Lemma first_round c e :
  ex_client e = nt_client s' -> runs e c -> early e c ->
  exists e' hb p, round c e = Ok (Some s_small_timeout) e' /\ heartbeats [c] hb /\ moved e e' /\
    waiting_thread datas ds e' /\ new_properties p /\
    nw_out (cl_network (tq_world (ex_client e'))) = nw_out (network_of s) ++ hb ++
      message_bytes MESSAGE_DESCRIBE_PROTOCOL (protocol_bytes (entry <$> contents p)) /\
    cl_dscc (tq_world (ex_client e')) = cl_dscc (client_of s') /\ cl_protocol (tq_world (ex_client e')) = protocol_of s'.
Proof using Hsend calloc_works Hlost Hre Hmarks enough.
  intros He [Hl Hk] Hearly. pose proof Hre as [[Hq Hqc] Hh _ Hp Hs Ho [Hpok Hpm] Ht _ Hc].
  destruct (heartbeat_step_spec calloc_ok calloc_works dx_send Hsend c e Hk) as (e1 & hb & Eh & Hb & Hmv & Hq1 & B);
    [rewrite He; unfold client_of in Hc; by rewrite Hc|by rewrite He|].
  rewrite He in B, Hq1. destruct (ex_client e1) as [a1 w1] eqn:E1. cbn [tq tq_world] in B, Hq1. subst a1. destruct B as [Bd Bp Bh Bn Bm].
  change (cl_network w1 = took hb (network_of s')) in Bn. change (cl_protocol w1 = protocol_of s') in Bp.
  destruct (send_protocol_spec calloc_ok calloc_works dx_send Hsend (now_millis c) w1) as (o & p & E & Hpok' & Hpm');
    [rewrite Bn; exact Hpok|rewrite Bn; exact Ht|rewrite Bn; by apply took_sending|].
  set (w2 := set_cl_network _ _) in E.
  destruct fuel as [|[|fuel']] eqn:Ef; [lia..|].
  destruct (execute_describes (now_millis c) (currentTimeMillis c) (currentTimeMark c) datas _ w1 w2 fuel' Hq Hqc E)
    as (a2 & E2 & Ha2 & Hc2).
  { cbn. rewrite Bp, Hp. done. }
  { cbn. unfold early in Hearly. rewrite He in Hearly. rewrite Bp. exact Hearly. }
  exists (set_ex_client (TqState a2 w2) e1), hb, p. split_and!.
  - apply (round_after_heartbeat calloc_ok dx_send close_ok error (S (S fuel')) c e e1 true a2 w2 Hl Eh Hmv); [|by rewrite E1|done].
    rewrite E1. cbn [tq]. intros Hz. rewrite <- (length_contents _ Hq), Hqc in Hz. done.
  - done.
  - destruct Hmv as [h ->]. by exists h.
  - split; [|exact Bm]. apply described_waits; try done. cbn. rewrite Bn. by apply took_sending, took_sending.
  - split; [done|]. rewrite Hpm', Bn. cbn. by rewrite Hpm.
  - cbn. rewrite Bn. cbn. by rewrite Ho, <- app_assoc.
  - exact Bd.
  - exact Bp.
Qed.
End thread.
End rounds.

(** ** Properties *)

Lemma rounds_app calloc_ok dx_send close_ok error fuel cs1 cs2 e e1 r :
  rounds calloc_ok dx_send codec_tables close_ok error fuel cs1 e = Ok true e1 ->
  rounds calloc_ok dx_send codec_tables close_ok error fuel cs2 e1 = r ->
  rounds calloc_ok dx_send codec_tables close_ok error fuel (cs1 ++ cs2) e = r.
Proof.
  revert e. induction cs1 as [|c cs1 IH]; intros e H1 H2; cbn [rounds app] in *.
  { unfold ret in H1. injection H1 as <-. exact H2. }
  unfold checked_call in *. destruct (dx_queue_executor_round _ _ _ _ _ _ _ _) as [[slept|] e'|err e'|]; try done.
  by apply IH.
Qed.

(** A connection that is lost is made again, and the subscriptions of the user
    are sent on it.  [dx_reestablish_connection] frees the tasks of the lost
    connection, forgets what the server said and connects to the first address
    that takes the connection; nothing is sent yet.  The thread of the tasks then
    describes the protocol in its first round, with the properties that the user
    has set and the credentials of the new address; when the server does not
    answer in time, the first round after that describes all the records and
    sends the messages of every subscription, with the identifiers of the
    registered records, and the queue is empty.  Besides heartbeats nothing else
    is sent. *)
Theorem lost_connection_resubscribes (calloc_ok : Z -> bool) (mbsrtowcs : list Z -> option (list Z))
  (dx_send : list Z -> list Z -> Z + dx_error_code) (now millis mark : Z) (tls gzip : bool)
  (views : list dx_event_subscription_view) (file_opens : bool)
  (getaddrinfo : option (list Z) -> option (list Z) -> option (list Z)) (rand : nat -> nat)
  (connects connects_again : Z -> bool) (s : net) :
  (forall n, calloc_ok n = true) -> (forall s, is_ascii s -> mbsrtowcs s = Some s) -> socket_sends dx_send ->
  lost connects views s -> marks_ok (cl_connection (client_of s)) ->
  exists s' address,
    dx_reestablish_connection calloc_ok mbsrtowcs dx_send codec_tables tls gzip now millis mark views file_opens
      getaddrinfo rand connects connects_again s = Ok tt s' /\
    first_address connects s address /\ nw_out (network_of s') = nw_out (network_of s) /\
    describe_protocol_timestamp (protocol_of s') = now /\ connection_status (protocol_of s') = dxf_cs_connected /\
    forall close_ok error fuel e c0 cs c,
      (length views + 2 < fuel)%nat -> ex_client e = nt_client s' ->
      Forall (runs e) (c0 :: cs ++ [c]) -> Forall (early e) (c0 :: cs) -> ~ early e c ->
      exists e' properties hb0 hb1 hb2 idss,
        rounds calloc_ok dx_send codec_tables close_ok error fuel (c0 :: cs ++ [c]) e = Ok true e' /\
        contents (tq (ex_client e')) = [] /\ new_properties s address properties /\
        heartbeats [c0] hb0 /\ heartbeats cs hb1 /\ heartbeats [c] hb2 /\
        nw_out (cl_network (tq_world (ex_client e'))) = nw_out (network_of s) ++ hb0 ++
          message_bytes MESSAGE_DESCRIBE_PROTOCOL (protocol_bytes (entry <$> contents properties)) ++ hb1 ++ hb2 ++
          message_bytes MESSAGE_DESCRIBE_RECORDS (all_descriptions (cl_dscc (client_of s))) ++
          concat (zip_with task_messages idss (view_task <$> views)) /\
        Forall2 (fun ids d => Forall2 (fun id x => record_name (cl_dscc (tq_world (ex_client e'))) id = Some x.1) ids
          (task_entries d)) idss (view_task <$> views).
Proof.
  intros Hcalloc Hmb Hsend Hlost Hmarks.
  destruct (reestablish_spec calloc_ok Hcalloc mbsrtowcs Hmb dx_send now millis mark tls gzip views file_opens getaddrinfo
    rand connects connects_again s Hlost) as (s' & address & datas & E & Hl & Hre).
  exists s', address. split_and!; [exact E|apply (re_address _ _ _ _ _ _ _ Hre)|apply (re_out _ _ _ _ _ _ _ Hre)|
    by rewrite (re_protocol _ _ _ _ _ _ _ Hre)..|].
  intros close_ok error fuel e c0 cs c Hf He [Hc0 [Hcs [Hc _]%Forall_cons]%Forall_app]%Forall_cons [He0 Hes]%Forall_cons Hlate.
  rewrite <- Hl in Hf.
  destruct (first_round calloc_ok Hcalloc dx_send Hsend connects now views s s' address datas Hlost Hre Hmarks close_ok
    error fuel Hf c0 e He Hc0 He0) as (e1 & hb0 & p & E0 & H0 & M0 & W0 & Hp & Hn0 & Hd0 & Hpr0).
  assert (cl_protocol (tq_world (ex_client e1)) = cl_protocol (tq_world (ex_client e))) as Hpr by (by rewrite Hpr0, He).
  destruct (rounds_wait calloc_ok Hcalloc dx_send Hsend datas _ close_ok error fuel Hf cs e1 W0)
    as (e2 & hb1 & E1 & H1 & M1 & W1 & B1).
  { eapply Forall_impl; [exact Hcs|]. intros c' [Hlv Hk]. split; [by eapply live_moved|done]. }
  { eapply Forall_impl; [exact Hes|]. intros c' Hc'. unfold early. by rewrite Hpr. }
  destruct (round_ends calloc_ok Hcalloc dx_send Hsend datas _ close_ok error fuel Hf c e2 W1)
    as (e3 & hb2 & idss & E2 & H2 & Hq & Hn & Hids & _ & _).
  { destruct Hc as [Hlv Hk]. split; [|done]. eapply live_moved; [exact M1|]. by eapply live_moved. }
  { unfold early. by rewrite (beats_protocol _ _ _ B1), Hpr. }
  exists e3, p, hb0, hb1, hb2, idss. split_and!; try done.
  - change (c0 :: cs ++ [c]) with ([c0] ++ cs ++ [c]). apply (rounds_app _ _ _ _ _ [c0] _ e e1).
    { cbn [rounds]. by rewrite (bind_ok _ _ _ _ _ E0). }
    apply (rounds_app _ _ _ _ _ cs _ e1 e2 _ E1). cbn [rounds]. by rewrite (bind_ok _ _ _ _ _ E2).
  - rewrite Hn, (beats_network _ _ _ B1), (beats_dscc _ _ _ B1), Hd0. unfold took. cbn. rewrite Hn0.
    rewrite (forgets_descriptions _ _ (re_registry _ _ _ _ _ _ _ Hre)). by rewrite <- !app_assoc.
Qed.

(** ** Examples *)

(** The connection to a server is lost with two tasks in the queue; the host of
    the first address refuses now. *)
Definition example_view : dx_event_subscription_view :=
  EventSubscription [] [Some (chars_of "IBM"); None] 64 0 1500000000123.
Definition lost_net : net :=
  Net (TqState (DxArray [countdown_task; subscription_task 1] 2 2)
      (ClientWorld (OutCtx None 0 0) dscc_example (ProtocolCtx 0x3F 0x7 dx_dps_not_received 100 DX_EMPTY_ARRAY dxf_cs_not_connected)
        (NetworkCtx PROPERTIES_BACKUP_FLAG DX_EMPTY_ARRAY DX_EMPTY_ARRAY [1; 2; 3]) new_connection [Some example_subscription]))
    (nt_address example_net) (addr_context example_net) false 0.

Lemma lost_net_ok : lost (Z.eqb 3) [example_view] lost_net.
Proof.
  constructor.
  - split; [apply Nat.le_refl|reflexivity].
  - split; [by_compute| |by_compute]. constructor; [|constructor]. by exists example_subscription.
  - apply dscc_example_ok.
  - done.
  - constructor; [|constructor]. split.
    + constructor; [constructor|split; by_compute|repeat constructor; try by_compute; done].
    + change (registered dscc_example [(chars_of "Candle", dx_st_history)]). constructor; [by exists 0|constructor].
  - split; apply no_props_ok.
  - done.
  - apply example_net_ok.
  - intros [_ [Hu|Hu]%Forall_inv]%Forall_cons; [done|]. by apply Forall_cons in Hu as [_ Hu%Forall_inv].
  - constructor; [|constructor; [|constructor]]; (split; [by_compute|vm_compute; discriminate]).
  - constructor; [|constructor]. intros name Hname. injection Hname as <-. by apply name_check_ok.
  - vm_compute. discriminate.
  - vm_compute. discriminate.
Qed.

Definition new_executor (s : net) : executor := Executor (nt_client s) 1600000005 0 10 120 false true true dx_ec_success.

Lemma second_reached address :
  first_address (Z.eqb 3) lost_net address -> address = ea_address (nth 1 example_addresses zero_ext_address).
Proof.
  intros (before & a & k & after & E & _ & (_ & hosts & x & rest & Eh & _ & Hx & _) & ->).
  change (example_addresses = before ++ a :: after) in E. destruct before as [|b [|b' before]].
  - injection E as <- <-. change ([1] = hosts ++ x :: rest) in Eh. destruct hosts as [|h [|]]; [|done..].
    by injection Eh as <- <-.
  - by injection E as <- <- <-.
  - injection E as _ _ E. by destruct before.
Qed.

(** Three rounds, of which the last is late enough. *)
Lemma lost_connection_resubscribes_witness :
  exists s' e' properties hb0 hb1 hb2 ids,
    dx_reestablish_connection (fun _ => true) Some slow_socket codec_tables true true 5000 1600000004000 7 [example_view]
      false (fun _ _ => None) (fun _ => 0%nat) (Z.eqb 3) (Z.eqb 3) lost_net = Ok tt s' /\
    rounds (fun _ => true) slow_socket codec_tables true dx_ec_success 10
      [example_clocks 1600000004 5100; example_clocks 1600000005 6000; example_clocks 1600000015 16000] (new_executor s') =
      Ok true e' /\
    contents (tq (ex_client e')) = [] /\ new_properties lost_net (ea_address (nth 1 example_addresses zero_ext_address)) properties /\
    nw_out (cl_network (tq_world (ex_client e'))) = [1; 2; 3] ++ hb0 ++
      message_bytes MESSAGE_DESCRIBE_PROTOCOL (protocol_bytes (entry <$> contents properties)) ++ hb1 ++ hb2 ++
      message_bytes MESSAGE_DESCRIBE_RECORDS (all_descriptions dscc_example) ++
      concat (zip_with task_messages [ids] [example_subscription]).
Proof.
  destruct (lost_connection_resubscribes (fun _ => true) Some slow_socket 5000 1600000004000 7 true true [example_view] false
    (fun _ _ => None) (fun _ => 0%nat) (Z.eqb 3) (Z.eqb 3) lost_net) as (s' & address & E & Ha & _ & Ht & _ & H).
  - done.
  - done.
  - apply slow_socket_sends.
  - apply lost_net_ok.
  - by_compute.
  - destruct (H true dx_ec_success 10%nat (new_executor s') (example_clocks 1600000004 5100)
      [example_clocks 1600000005 6000] (example_clocks 1600000015 16000))
      as (e' & p & hb0 & hb1 & hb2 & idss & E' & Hq & Hp & _ & _ & _ & Ho & Hids).
    + cbn. lia.
    + done.
    + repeat constructor; try by_compute; by left.
    + constructor; [|constructor; [|constructor]]; unfold early; cbn [ex_client new_executor];
        change (cl_protocol (tq_world (nt_client s'))) with (protocol_of s'); unfold waited; rewrite Ht; by_compute.
    + unfold early. cbn [ex_client new_executor]. change (cl_protocol (tq_world (nt_client s'))) with (protocol_of s').
      unfold waited. rewrite Ht. by_compute.
    + assert (address = ea_address (nth 1 example_addresses zero_ext_address)) as ->.
      { by apply second_reached. }
      apply Forall2_length in Hids as Hl. destruct idss as [|ids [|]]; try discriminate Hl.
      exists s', e', p, hb0, hb1, hb2, ids. exact (conj E (conj E' (conj Hq (conj Hp Ho)))).
Defined.
