(* ===== verification/Candle.v ===== *)
(** * Candle: the symbols of candles ([src/Candle.c])

    The attributes of a candle as the text of its symbol.  The text is built in a
    buffer of a thousand characters on the stack, which is not initialized.  The
    numbers are printed by [swprintf] with [%g]; the characters are those of the C
    locale. *)

From Stdlib Require Import Ascii String SpecFloat.
From S2P Require Import Prelude Algorithms Input EventData Subscription Decimals.
Local Open Scope Z_scope.
Local Open Scope c_scope.

(** ** [%g]: six significant digits, without the zeros at the end *)

(** Whether [num / den] is at least a power of ten. *)
Definition ge_pow10 (num den x : Z) : bool :=
  if 0 <=? x then 10 ^ x * den <=? num else den <=? num * 10 ^ (- x).
Fixpoint up_loop (n : nat) (num den x : Z) : Z :=
  match n with
  | O => x
  | S n' => if ge_pow10 num den (x + 1) then up_loop n' num den (x + 1) else x
  end.
(** The power of ten that is not greater, from an estimate by the binary
    logarithms that is less by three at most. *)
Definition exponent10 (num den : Z) : Z :=
  up_loop 5 num den ((Z.log2 num - Z.log2 den - 1) * 30103 / 100000 - 1).

(** Rounded to the nearest, ties to even. *)
Definition round_div (num den : Z) : Z :=
  let q := num / den in
  match 2 * (num mod den) ?= den with
  | Lt => q
  | Gt => q + 1
  | Eq => if Z.even q then q else q + 1
  end.

Fixpoint digits (n : nat) (d : Z) : list Z :=
  match n with
  | O => []
  | S n' => digits n' (d / 10) ++ [48 + d mod 10]
  end.
Fixpoint strip_zeros (l : list Z) : list Z :=
  match l with
  | [] => []
  | c :: l' => match strip_zeros l' with [] => if c =? 48 then [] else [c] | r => c :: r end
  end.
Definition fraction (l : list Z) : list Z := match strip_zeros l with [] => [] | r => 46 :: r end.

Definition format_exponent (x : Z) : list Z :=
  101 :: (if x <? 0 then 45 else 43) :: digits (if Z.abs x <? 100 then 2 else 3) (Z.abs x).
Definition format_digits (d x : Z) : list Z :=
  let ds := digits 6 d in
  if (x <? -4) || (6 <=? x) then take 1 ds ++ fraction (drop 1 ds) ++ format_exponent x
  else if 0 <=? x then take (Z.to_nat (x + 1)) ds ++ fraction (drop (Z.to_nat (x + 1)) ds)
  else 48 :: fraction (replicate (Z.to_nat (- x - 1)) 48 ++ ds).
Definition format_positive (num den : Z) : list Z :=
  let x := exponent10 num den in
  let d := round_div (num * 10 ^ Z.max (5 - x) 0) (den * 10 ^ Z.max (x - 5) 0) in
  if d =? 1000000 then format_digits 100000 (x + 1) else format_digits d x.

(** The sign of a NaN is not modelled. *)
Definition format_g (v : dxf_double_t) : list Z :=
  match v with
  | S754_zero s => (if s then [45] else []) ++ [48]
  | S754_infinity s => (if s then [45] else []) ++ chars_of "inf"
  | S754_nan => chars_of "nan"
  | S754_finite s m e =>
      (if s then [45] else []) ++ format_positive (Z.pos m * 2 ^ (Z.max e 0)) (2 ^ (Z.max (- e) 0))
  end.

Example format_g_examples :
  format_g (double_of_int 5) = chars_of "5" /\ format_g (double_div (double_of_int 1) (double_of_int 10)) = chars_of "0.1" /\
  format_g (double_of_int 1000000) = chars_of "1e+06" /\ format_g (double_of_int 123456789) = chars_of "1.23457e+08" /\
  format_g (double_of_int 999999) = chars_of "999999" /\ format_g (double_of_int 9999995) = chars_of "1e+07" /\
  format_g (double_div (double_of_int 1) (double_of_int 3000)) = chars_of "0.000333333" /\
  format_g (double_div (double_of_int (-1)) (double_of_int 30000)) = chars_of "-3.33333e-05" /\
  format_g (S754_finite false 1 (-1074)) = chars_of "4.94066e-324" /\
  format_g (S754_finite false 9007199254740991 971) = chars_of "1.79769e+308" /\ format_g (S754_infinity true) = chars_of "-inf".
Proof. vm_compute. repeat split. Qed.

(** ** The attributes *)

Inductive dxf_candle_price_attribute : Set :=
  | dxf_cpa_last | dxf_cpa_bid | dxf_cpa_ask | dxf_cpa_mark | dxf_cpa_settlement.
Inductive dxf_candle_session_attribute : Set := dxf_csa_any | dxf_csa_regular.
Inductive dxf_candle_type_period_attribute : Set :=
  | dxf_ctpa_tick | dxf_ctpa_second | dxf_ctpa_minute | dxf_ctpa_hour | dxf_ctpa_day | dxf_ctpa_week
  | dxf_ctpa_month | dxf_ctpa_optexp | dxf_ctpa_year | dxf_ctpa_volume | dxf_ctpa_price
  | dxf_ctpa_price_momentum | dxf_ctpa_price_renko.
Inductive dxf_candle_alignment_attribute : Set := dxf_caa_midnight | dxf_caa_session.
#[export] Instance dxf_candle_price_attribute_eq_dec : EqDecision dxf_candle_price_attribute.
Proof. solve_decision. Defined.
#[export] Instance dxf_candle_session_attribute_eq_dec : EqDecision dxf_candle_session_attribute.
Proof. solve_decision. Defined.
#[export] Instance dxf_candle_type_period_attribute_eq_dec : EqDecision dxf_candle_type_period_attribute.
Proof. solve_decision. Defined.
#[export] Instance dxf_candle_alignment_attribute_eq_dec : EqDecision dxf_candle_alignment_attribute.
Proof. solve_decision. Defined.

Record dx_candle_attributes_data_t : Set := CandleAttributes {
  base_symbol : list Z;
  exchange_code : Z;
  period_value : dxf_double_t;
  period_type : dxf_candle_type_period_attribute;
  price : dxf_candle_price_attribute;
  session : dxf_candle_session_attribute;
  alignment : dxf_candle_alignment_attribute;
  price_level : dxf_double_t;
}.

Definition DXF_CANDLE_PERIOD_VALUE_ATTRIBUTE_DEFAULT : dxf_double_t := double_of_int 1.

Record dx_candle_type : Set := CandleType { type_string : list Z; period_interval_millis : Z }.
Definition g_candle_type_period (t : dxf_candle_type_period_attribute) : dx_candle_type :=
  match t with
  | dxf_ctpa_tick => CandleType (chars_of "t") 0
  | dxf_ctpa_second => CandleType (chars_of "s") 1000
  | dxf_ctpa_minute => CandleType (chars_of "m") (60 * 1000)
  | dxf_ctpa_hour => CandleType (chars_of "h") (60 * 60 * 1000)
  | dxf_ctpa_day => CandleType (chars_of "d") (24 * 60 * 60 * 1000)
  | dxf_ctpa_week => CandleType (chars_of "w") (7 * 24 * 60 * 60 * 1000)
  | dxf_ctpa_month => CandleType (chars_of "mo") (30 * 24 * 60 * 60 * 1000)
  | dxf_ctpa_optexp => CandleType (chars_of "o") (30 * 24 * 60 * 60 * 1000)
  | dxf_ctpa_year => CandleType (chars_of "y") (365 * 24 * 60 * 60 * 1000)
  | dxf_ctpa_volume => CandleType (chars_of "v") 0
  | dxf_ctpa_price => CandleType (chars_of "p") 0
  | dxf_ctpa_price_momentum => CandleType (chars_of "pm") 0
  | dxf_ctpa_price_renko => CandleType (chars_of "pr") 0
  end.
Definition g_candle_price (p : dxf_candle_price_attribute) : list Z :=
  match p with
  | dxf_cpa_last => chars_of "last" | dxf_cpa_bid => chars_of "bid" | dxf_cpa_ask => chars_of "ask"
  | dxf_cpa_mark => chars_of "mark" | dxf_cpa_settlement => chars_of "s"
  end.
Definition g_candle_session (s : dxf_candle_session_attribute) : list Z :=
  match s with dxf_csa_any => chars_of "false" | dxf_csa_regular => chars_of "true" end.
Definition g_candle_alignment (a : dxf_candle_alignment_attribute) : list Z :=
  match a with dxf_caa_midnight => chars_of "m" | dxf_caa_session => chars_of "s" end.

Definition iswalpha (c : Z) : bool := ((65 <=? c) && (c <=? 90)) || ((97 <=? c) && (c <=? 122)).
Definition isnan (v : dxf_double_t) : bool := match v with S754_nan => true | _ => false end.

Section candle.
(** Whether [dx_calloc] of so many bytes succeeds; a structure of attributes has 48. *)
Context (calloc_ok : Z -> bool).

Definition created_string (s : list Z) : option (list Z) :=
  if calloc_ok (4 * (Z.of_nat (length s) + 1)) then Some s else None.

(** [null] tells that the pointer to the result is a null pointer. *)
Definition dxf_create_candle_symbol_attributes (symbol : list Z) (exchange : Z) (value : dxf_double_t)
  (type : dxf_candle_type_period_attribute) (cpa : dxf_candle_price_attribute) (csa : dxf_candle_session_attribute)
  (caa : dxf_candle_alignment_attribute) (level : dxf_double_t) (null : bool) : M unit dx_candle_attributes_data_t :=
  if null then dx_set_error_code dx_ec_invalid_func_param
  else if double_ltb value (double_of_int 0) then dx_set_error_code dx_ceec_invalid_candle_period_value
  else if negb (calloc_ok 48) then dx_set_error_code dx_mec_insufficient_memory
  else
    match created_string symbol with
    | None => dx_set_error_code dx_mec_insufficient_memory
    | Some symbol => ret (CandleAttributes symbol exchange value type cpa csa caa level)
    end.

(** ** The text *)

(** [wcscat] *)
Definition dx_concatenate_strings (dest src : list Z) : option (list Z) :=
  s ← string_of dest; blit (src ++ [0]) 0 dest (length s) (length src + 1).

(** The state is the buffer. *)
Definition cat (s : list Z) : M (list Z) unit :=
  buffer_str <-- get;;
  buffer_str <-- of_option (dx_concatenate_strings buffer_str s);;
  put buffer_str.
Definition comma (put_comma : bool) : M (list Z) unit := if put_comma then cat (chars_of ",") else ret tt.

Definition copy_of_buffer : M (list Z) (list Z) :=
  buffer_str <-- get;;
  s <-- of_option (string_of buffer_str);;
  match created_string s with None => dx_set_error_code dx_mec_insufficient_memory | Some s => ret s end.

Definition default_period (a : dx_candle_attributes_data_t) : bool :=
  double_eqb (period_value a) DXF_CANDLE_PERIOD_VALUE_ATTRIBUTE_DEFAULT && bool_decide (period_type a = dxf_ctpa_tick).
Definition default_candle (a : dx_candle_attributes_data_t) : bool :=
  default_period a && bool_decide (alignment a = dxf_caa_midnight) && bool_decide (price a = dxf_cpa_last) &&
  bool_decide (session a = dxf_csa_any) && isnan (price_level a).

(** The attributes one by one, each with whether a comma is due after it. *)
Definition put_period (a : dx_candle_attributes_data_t) : M (list Z) bool :=
  if negb (default_period a) then
    cat (chars_of "=");;;
    (if negb (double_eqb (period_value a) DXF_CANDLE_PERIOD_VALUE_ATTRIBUTE_DEFAULT) then cat (format_g (period_value a))
     else ret tt);;;
    cat (type_string (g_candle_type_period (period_type a)));;;
    ret true
  else ret false.
Definition put_alignment (a : dx_candle_attributes_data_t) (put_comma : bool) : M (list Z) bool :=
  if bool_decide (alignment a = dxf_caa_midnight) then ret put_comma
  else
    comma put_comma;;;
    cat (chars_of "a=");;;
    cat (g_candle_alignment (alignment a));;;
    ret true.
Definition put_price_level (a : dx_candle_attributes_data_t) (put_comma : bool) : M (list Z) bool :=
  if isnan (price_level a) then ret put_comma
  else
    comma put_comma;;;
    cat (chars_of "pl=");;;
    cat (format_g (price_level a));;;
    ret put_comma.
Definition put_price (a : dx_candle_attributes_data_t) (put_comma : bool) : M (list Z) bool :=
  if bool_decide (price a = dxf_cpa_last) then ret put_comma
  else
    comma put_comma;;;
    cat (chars_of "price=");;;
    cat (g_candle_price (price a));;;
    ret true.
Definition put_session (a : dx_candle_attributes_data_t) (put_comma : bool) : M (list Z) bool :=
  if bool_decide (session a = dxf_csa_any) then ret put_comma
  else
    comma put_comma;;;
    cat (chars_of "tho=");;;
    cat (g_candle_session (session a));;;
    ret true.

Definition dx_candle_symbol_to_string (attributes : option dx_candle_attributes_data_t) : M (list Z) (list Z) :=
  match attributes with
  | None => dx_set_error_code dx_ec_invalid_func_param_internal
  | Some a =>
      buffer_str <-- get;;
      buffer_str <-- of_option (dx_copy_string buffer_str (base_symbol a));;
      put buffer_str;;;
      (if iswalpha (exchange_code a) then cat [38; exchange_code a] else ret tt);;;
      if default_candle a then copy_of_buffer
      else
        cat (chars_of "{");;;
        put_comma <-- put_period a;;
        put_comma <-- put_alignment a put_comma;;
        put_comma <-- put_price_level a put_comma;;
        put_comma <-- put_price a put_comma;;
        put_session a put_comma;;;
        cat (chars_of "}");;;
        copy_of_buffer
  end.
End candle.

(** ** What the text should be *)

(** The attributes that are not the default, in the order of their names. *)
Definition when {A} (b : bool) (x : A) : list A := if b then [x] else [].
Definition period_text (a : dx_candle_attributes_data_t) : list Z :=
  chars_of "=" ++ (if double_eqb (period_value a) DXF_CANDLE_PERIOD_VALUE_ATTRIBUTE_DEFAULT then []
                   else format_g (period_value a)) ++ type_string (g_candle_type_period (period_type a)).
Definition candle_attributes (a : dx_candle_attributes_data_t) : list (list Z) :=
  when (negb (default_period a)) (period_text a) ++
  when (negb (bool_decide (alignment a = dxf_caa_midnight))) (chars_of "a=" ++ g_candle_alignment (alignment a)) ++
  when (negb (isnan (price_level a))) (chars_of "pl=" ++ format_g (price_level a)) ++
  when (negb (bool_decide (price a = dxf_cpa_last))) (chars_of "price=" ++ g_candle_price (price a)) ++
  when (negb (bool_decide (session a = dxf_csa_any))) (chars_of "tho=" ++ g_candle_session (session a)).
Fixpoint with_commas (l : list (list Z)) : list Z :=
  match l with
  | [] => []
  | [x] => x
  | x :: l' => x ++ chars_of "," ++ with_commas l'
  end.
Definition candle_text (a : dx_candle_attributes_data_t) : list Z :=
  base_symbol a ++ (if iswalpha (exchange_code a) then [38; exchange_code a] else []) ++
  match candle_attributes a with
  | [] => []
  | l => chars_of "{" ++ with_commas l ++ chars_of "}"
  end.

(** ** The code writes that text *)

Definition holds (buf s : list Z) : Prop := exists r, buf = s ++ 0 :: r.

(** With [s] in the buffer, [m] writes [t] after it and returns [x]. *)
Definition writes {A} (m : M (list Z) A) (s t : list Z) (x : A) : Prop :=
  forall buf, holds buf s -> 0 ∉ s -> (length s + length t < length buf)%nat ->
    exists buf', m buf = Ok x buf' /\ holds buf' (s ++ t) /\ length buf' = length buf.
Definition appends {A} (m : M (list Z) A) (t : list Z) (x : A) : Prop := forall s, writes m s t x.

Lemma appends_ret {A} (x : A) : appends (ret x) [] x.
Proof. intros s buf H _ _. exists buf. by rewrite app_nil_r. Qed.

Lemma copy_holds buf s : (length s < length buf)%nat -> exists r, dx_copy_string buf s = Some (s ++ 0 :: r) /\ length (s ++ 0 :: r) = length buf.
Proof.
  intros H. unfold dx_copy_string. rewrite blit_in by (rewrite ?length_app; simpl; lia).
  rewrite drop_0, take_0, firstn_all2 by (rewrite length_app; simpl; lia). cbn [app]. rewrite <- app_assoc. cbn [app].
  eexists. split; [done|]. rewrite length_app. cbn [length]. rewrite length_drop. lia.
Qed.

Lemma appends_cat t : appends (cat t) t tt.
Proof.
  intros s buf [r ->] Hs Hl. unfold cat. rewrite (bind_ok _ _ _ (s ++ 0 :: r) (s ++ 0 :: r)) by done.
  rewrite length_app in Hl. cbn [length] in Hl. unfold dx_concatenate_strings. rewrite string_of_zero by done. cbn [mbind option_bind].
  rewrite blit_in by (rewrite ?length_app; simpl; lia).
  rewrite take_app_length, drop_0, firstn_all2 by (rewrite length_app; simpl; lia).
  exists (s ++ t ++ 0 :: drop (length s + (length t + 1)) (s ++ 0 :: r)). split; [|split].
  - unfold checked_call, of_option, ret, put. by rewrite <- (app_assoc t).
  - eexists. by rewrite <- app_assoc.
  - rewrite !length_app. cbn [length]. rewrite length_drop, length_app. cbn [length]. lia.
Qed.

Lemma writes_bind {A B} (m : M (list Z) A) (k : A -> M (list Z) B) s t1 t2 x y :
  0 ∉ t1 -> appends m t1 x -> writes (k x) (s ++ t1) t2 y -> writes (checked_call m k) s (t1 ++ t2) y.
Proof.
  intros H1 Hm Hk buf H Hs Hl. rewrite length_app in Hl.
  destruct (Hm s buf H Hs) as (buf1 & E1 & H2 & L1); [lia|].
  destruct (Hk buf1) as (buf2 & E2 & H3 & L2); [done|set_solver|rewrite length_app; lia|].
  exists buf2. rewrite (bind_ok _ _ _ _ _ E1). rewrite app_assoc. split_and!; [done|done|lia].
Qed.
Lemma appends_bind {A B} (m : M (list Z) A) (k : A -> M (list Z) B) t1 t2 x y :
  0 ∉ t1 -> appends m t1 x -> appends (k x) t2 y -> appends (checked_call m k) (t1 ++ t2) y.
Proof. intros H1 Hm Hk s. by eapply writes_bind. Qed.

Lemma appends_eq {A} (m : M (list Z) A) t t' x : appends m t x -> t = t' -> appends m t' x.
Proof. by intros H <-. Qed.

(** No number has a zero character. *)
Definition visible (c : Z) : Prop := 0 < c.
Lemma visible_zero l : Forall visible l -> 0 ∉ l.
Proof. intros H H0. rewrite Forall_forall in H. apply H in H0. unfold visible in H0. lia. Qed.
Lemma digits_visible n d : Forall visible (digits n d).
Proof.
  revert d. induction n as [|n IH]; intros d; cbn [digits]; [constructor|]. apply Forall_app. split; [apply IH|].
  repeat constructor. unfold visible. pose proof (Z.mod_pos_bound d 10). lia.
Qed.
Lemma strip_zeros_visible l : Forall visible l -> Forall visible (strip_zeros l).
Proof.
  induction 1 as [|c l Hc _ IH]; cbn [strip_zeros]; [constructor|]. destruct (strip_zeros l); [|by constructor].
  destruct (c =? 48); repeat constructor. done.
Qed.
Lemma fraction_visible l : Forall visible l -> Forall visible (fraction l).
Proof. intros H. apply strip_zeros_visible in H. unfold fraction. destruct (strip_zeros l); [constructor|]. by constructor. Qed.
Create HintDb candle.
#[local] Hint Resolve digits_visible fraction_visible Forall_take Forall_drop Forall_nil_2 Forall_cons_2 Forall_app_2 : candle.
#[local] Hint Extern 1 (visible _) => reflexivity : candle.
#[local] Hint Extern 2 (Forall visible (replicate _ _)) => (apply Forall_replicate; reflexivity) : candle.
#[local] Hint Extern 3 (Forall visible (if ?b then _ else _)) => destruct b : candle.
#[local] Hint Extern 3 (visible (if ?b then _ else _)) => destruct b : candle.
Lemma format_digits_visible d x : Forall visible (format_digits d x).
Proof. unfold format_digits, format_exponent. repeat case_match; eauto 8 with candle. Qed.
Lemma chars_of_visible s : forallb (fun c => 0 <? c) (chars_of s) = true -> Forall visible (chars_of s).
Proof. intros H. rewrite forallb_forall in H. apply List.Forall_forall. intros c Hc. apply H in Hc. unfold visible. lia. Qed.
Lemma format_g_visible v : Forall visible (format_g v).
Proof.
  destruct v as [b|b| |b m e]; unfold format_g, format_positive; try (apply Forall_app_2; [by auto with candle|]).
  1: by auto with candle. 1-2: by apply chars_of_visible. case_match; apply format_digits_visible.
Qed.

(** *** The attributes one by one *)

(** A text with the comma before it. *)
Definition piece (put_comma due : bool) (t : list Z) : list Z :=
  if due then (if put_comma then chars_of "," else []) ++ t else [].

Lemma texts_visible a :
  Forall visible (period_text a) /\ Forall visible (chars_of "a=" ++ g_candle_alignment (alignment a)) /\
  Forall visible (chars_of "pl=" ++ format_g (price_level a)) /\
  Forall visible (chars_of "price=" ++ g_candle_price (price a)) /\
  Forall visible (chars_of "tho=" ++ g_candle_session (session a)).
Proof.
  unfold period_text. split_and!; repeat apply Forall_app_2; try apply format_g_visible; try by apply chars_of_visible.
  - case_match; [constructor|apply format_g_visible].
  - destruct (period_type a); by apply chars_of_visible.
  - destruct (alignment a); by apply chars_of_visible.
  - destruct (price a); by apply chars_of_visible.
  - destruct (session a); by apply chars_of_visible.
Qed.

Lemma writes_step {A} t (k : M (list Z) A) s t2 y :
  Forall visible t -> writes k (s ++ t) t2 y -> writes (cat t;;; k) s (t ++ t2) y.
Proof. intros H Hk. apply (writes_bind _ (fun _ => k) _ _ _ tt); [by apply visible_zero|apply appends_cat|done]. Qed.
Lemma appends_step {A} t (k : M (list Z) A) t2 y :
  Forall visible t -> appends k t2 y -> appends (cat t;;; k) (t ++ t2) y.
Proof. intros H Hk s. by apply writes_step. Qed.
Lemma appends_end {A} t (x : A) : Forall visible t -> appends (cat t;;; ret x) t x.
Proof. intros H. eapply appends_eq; [apply appends_step; [done|apply appends_ret]|by rewrite app_nil_r]. Qed.

(** An attribute with a name. *)
Lemma appends_named (c x : bool) l r :
  Forall visible (chars_of l ++ r) ->
  appends (comma c;;; cat (chars_of l);;; cat r;;; ret x) ((if c then chars_of "," else []) ++ chars_of l ++ r) x.
Proof.
  intros [H1 H2]%Forall_app. pose proof (appends_step _ _ _ _ H1 (appends_end r x H2)) as H.
  destruct c; [|done]. by apply appends_step; [apply chars_of_visible|].
Qed.

Lemma appends_period a : appends (put_period a) (piece false (negb (default_period a)) (period_text a)) (negb (default_period a)).
Proof.
  unfold put_period, piece, period_text. destruct (default_period a); [apply appends_ret|]. cbn [negb app].
  apply appends_step; [by apply chars_of_visible|]. destruct (texts_visible a) as ((_ & [H1 H2]%Forall_app)%Forall_app & _).
  destruct (double_eqb _ _); cbn [negb].
  - by apply appends_end.
  - by apply appends_step; [|apply appends_end].
Qed.
Lemma appends_alignment a c :
  appends (put_alignment a c) (piece c (negb (bool_decide (alignment a = dxf_caa_midnight))) (chars_of "a=" ++ g_candle_alignment (alignment a)))
    (c || negb (bool_decide (alignment a = dxf_caa_midnight))).
Proof.
  unfold put_alignment, piece. case_bool_decide; cbn [negb]; rewrite ?orb_false_r, ?orb_true_r; [apply appends_ret|].
  apply appends_named, texts_visible.
Qed.
Lemma appends_price_level a c :
  appends (put_price_level a c) (piece c (negb (isnan (price_level a))) (chars_of "pl=" ++ format_g (price_level a))) c.
Proof. unfold put_price_level, piece. destruct (isnan _); [apply appends_ret|]. apply appends_named, texts_visible. Qed.
Lemma appends_price a c :
  appends (put_price a c) (piece c (negb (bool_decide (price a = dxf_cpa_last))) (chars_of "price=" ++ g_candle_price (price a)))
    (c || negb (bool_decide (price a = dxf_cpa_last))).
Proof.
  unfold put_price, piece. case_bool_decide; cbn [negb]; rewrite ?orb_false_r, ?orb_true_r; [apply appends_ret|].
  apply appends_named, texts_visible.
Qed.
Lemma appends_session a c :
  appends (put_session a c) (piece c (negb (bool_decide (session a = dxf_csa_any))) (chars_of "tho=" ++ g_candle_session (session a)))
    (c || negb (bool_decide (session a = dxf_csa_any))).
Proof.
  unfold put_session, piece. case_bool_decide; cbn [negb]; rewrite ?orb_false_r, ?orb_true_r; [apply appends_ret|].
  apply appends_named, texts_visible.
Qed.
Lemma piece_visible c b t : Forall visible t -> Forall visible (piece c b t).
Proof. intros H. unfold piece. destruct b, c; [apply Forall_app_2; [by apply chars_of_visible|done]|done|constructor|constructor]. Qed.

(** What stands between the braces. *)
Definition written (a : dx_candle_attributes_data_t) : list Z :=
  let b1 := negb (default_period a) in
  let b2 := b1 || negb (bool_decide (alignment a = dxf_caa_midnight)) in
  let b4 := b2 || negb (bool_decide (price a = dxf_cpa_last)) in
  piece false b1 (period_text a) ++
  piece b1 (negb (bool_decide (alignment a = dxf_caa_midnight))) (chars_of "a=" ++ g_candle_alignment (alignment a)) ++
  piece b2 (negb (isnan (price_level a))) (chars_of "pl=" ++ format_g (price_level a)) ++
  piece b2 (negb (bool_decide (price a = dxf_cpa_last))) (chars_of "price=" ++ g_candle_price (price a)) ++
  piece b4 (negb (bool_decide (session a = dxf_csa_any))) (chars_of "tho=" ++ g_candle_session (session a)).

(** A price level comes first with no attribute after it, or not at all, or after
    another attribute. *)
Definition comma_kept (a : dx_candle_attributes_data_t) : bool :=
  isnan (price_level a) || negb (default_period a) || negb (bool_decide (alignment a = dxf_caa_midnight)) ||
  (bool_decide (price a = dxf_cpa_last) && bool_decide (session a = dxf_csa_any)).

Lemma written_commas a : comma_kept a = true -> written a = with_commas (candle_attributes a).
Proof.
  unfold comma_kept, written, candle_attributes, piece, when.
  destruct (default_period a), (bool_decide (alignment a = _)), (isnan _), (bool_decide (price a = _)), (bool_decide (session a = _));
    cbn [negb orb andb app]; intros H; try discriminate; cbn [with_commas app]; by rewrite ?app_nil_r, <- ?app_assoc.
Qed.
Lemma written_visible a : Forall visible (written a).
Proof.
  destruct (texts_visible a) as (H1 & H2 & H3 & H4 & H5). unfold written.
  repeat apply Forall_app_2; by apply piece_visible.
Qed.

Lemma default_candle_attributes a : default_candle a = true <-> candle_attributes a = [].
Proof.
  unfold default_candle, candle_attributes, when.
  by destruct (default_period a), (bool_decide (alignment a = _)), (isnan _), (bool_decide (price a = _)), (bool_decide (session a = _)).
Qed.

Lemma writes_braces {A} a (k : M (list Z) A) s y :
  writes k (s ++ chars_of "{" ++ written a ++ chars_of "}") [] y ->
  writes (cat (chars_of "{");;;
        put_comma <-- put_period a;;
        put_comma <-- put_alignment a put_comma;;
        put_comma <-- put_price_level a put_comma;;
        put_comma <-- put_price a put_comma;;
        put_session a put_comma;;;
        cat (chars_of "}");;;
        k) s (chars_of "{" ++ written a ++ chars_of "}") y.
Proof.
  destruct (texts_visible a) as (H1 & H2 & H3 & H4 & H5). unfold written. rewrite <- !app_assoc. intros Hk.
  apply writes_step; [by apply chars_of_visible|].
  eapply writes_bind; [by apply visible_zero, piece_visible|apply appends_period|].
  eapply writes_bind; [by apply visible_zero, piece_visible|apply appends_alignment|].
  eapply writes_bind; [by apply visible_zero, piece_visible|apply appends_price_level|].
  eapply writes_bind; [by apply visible_zero, piece_visible|apply appends_price|].
  eapply writes_bind; [by apply visible_zero, piece_visible|apply appends_session|].
  rewrite <- (app_nil_r (chars_of "}")). apply writes_step; [by apply chars_of_visible|]. by rewrite <- !app_assoc.
Qed.

(** The symbol that the code makes. *)
Definition made_symbol (a : dx_candle_attributes_data_t) : list Z :=
  base_symbol a ++ (if iswalpha (exchange_code a) then [38; exchange_code a] else []) ++
  (if default_candle a then [] else chars_of "{" ++ written a ++ chars_of "}").

Lemma made_symbol_text a : comma_kept a = true -> made_symbol a = candle_text a.
Proof.
  intros H. unfold made_symbol, candle_text. pose proof (default_candle_attributes a) as Hd. rewrite (written_commas a H).
  destruct (candle_attributes a); [by rewrite (proj2 Hd eq_refl)|]. destruct (default_candle a); [discriminate (proj1 Hd eq_refl)|done].
Qed.

Section symbol.
Context (calloc_ok : Z -> bool).

Lemma writes_copy s : calloc_ok (4 * (Z.of_nat (length s) + 1)) = true -> writes (copy_of_buffer calloc_ok) s [] s.
Proof using Type.
  intros Hc buf [r ->] Hs _. unfold copy_of_buffer. rewrite (bind_ok get _ _ _ _ eq_refl), string_of_zero by done.
  rewrite (bind_ok (of_option (Some _)) _ _ _ _ eq_refl). unfold created_string. rewrite Hc. eexists. split; [done|]. rewrite app_nil_r. split; [by exists r|done].
Qed.

Lemma symbol_made a buf :
  length buf = 1000%nat -> 0 ∉ base_symbol a -> (length (made_symbol a) < 1000)%nat ->
  calloc_ok (4 * (Z.of_nat (length (made_symbol a)) + 1)) = true ->
  exists buf', dx_candle_symbol_to_string calloc_ok (Some a) buf = Ok (made_symbol a) buf'.
Proof using Type.
  intros Hbuf Hbase Hlen Hc. pose proof (writes_copy _ Hc) as Hk. unfold made_symbol in Hlen. unfold made_symbol at 1 in Hk.
  destruct (copy_holds buf (base_symbol a)) as (r & E & L); [rewrite length_app in Hlen; lia|].
  unfold dx_candle_symbol_to_string. rewrite (bind_ok get _ _ _ _ eq_refl), E, (bind_ok (of_option (Some _)) _ _ _ _ eq_refl), (bind_ok (put _) _ _ _ _ eq_refl).
  set (m := checked_call _ _). enough (H : writes m (base_symbol a)
    ((if iswalpha (exchange_code a) then [38; exchange_code a] else []) ++
     (if default_candle a then [] else chars_of "{" ++ written a ++ chars_of "}")) (made_symbol a)).
  { rewrite length_app in Hlen. destruct (H (base_symbol a ++ 0 :: r)) as (buf' & Eb & _); [by exists r|done|lia|by exists buf']. }
  apply (writes_bind _ _ _ _ _ tt).
  - apply visible_zero. destruct (iswalpha _) eqn:W; [|constructor]. repeat constructor. unfold iswalpha in W. unfold visible. lia.
  - destruct (iswalpha _); [apply appends_cat|apply appends_ret].
  - destruct (default_candle a); [rewrite !app_nil_r in Hk; exact Hk|]. apply writes_braces. by rewrite <- app_assoc.
Qed.
End symbol.

(** ** The symbol of a candle *)

(** C37: Attributes that are made with a value of the period that is not negative give
    the symbol with the base, the exchange after an ampersand when it is a letter, and
    in braces, with commas between, the attributes that differ from the default, in
    the order of their names; nothing is in braces when all are the default.  The
    symbol has to fit the thousand characters of the buffer, whatever they held, and a
    price level must not be the first of several attributes: then the code leaves
    out the comma. *)
Theorem candle_symbol_text calloc_ok symbol exchange value type cpa csa caa level buf :
  let a := CandleAttributes symbol exchange value type cpa csa caa level in
  (forall n, n <= 4000 -> calloc_ok n = true) ->
  double_ltb value (double_of_int 0) = false -> 0 ∉ symbol -> (length (candle_text a) < 1000)%nat ->
  comma_kept a = true -> length buf = 1000%nat ->
  dxf_create_candle_symbol_attributes calloc_ok symbol exchange value type cpa csa caa level false tt = Ok a tt /\
  exists buf', dx_candle_symbol_to_string calloc_ok (Some a) buf = Ok (candle_text a) buf'.
Proof.
  intros a Hc Hv Hs Hl Hk Hb. pose proof (made_symbol_text a Hk) as Hm. split.
  - unfold dxf_create_candle_symbol_attributes, created_string. rewrite Hv, (Hc 48) by lia. rewrite Hc; [done|].
    unfold candle_text in Hl. rewrite length_app in Hl. cbn [base_symbol a] in Hl. lia.
  - rewrite <- Hm in *. apply symbol_made; [done|done|done|apply Hc; lia].
Qed.

Lemma candle_symbol_text_witness :
  exists buf',
    dx_candle_symbol_to_string (fun _ => true)
      (Some (CandleAttributes (chars_of "AAPL") 81 (double_of_int 5) dxf_ctpa_minute dxf_cpa_bid dxf_csa_regular
               dxf_caa_session (double_div (double_of_int 1) (double_of_int 10))))
      (replicate 1000 7) = Ok (chars_of "AAPL&Q{=5m,a=s,pl=0.1,price=bid,tho=true}") buf'.
Proof.
  assert (Hs : 0 ∉ chars_of "AAPL") by (apply visible_zero, chars_of_visible; reflexivity).
  destruct (candle_symbol_text (fun _ => true) (chars_of "AAPL") 81 (double_of_int 5) dxf_ctpa_minute dxf_cpa_bid dxf_csa_regular
    dxf_caa_session (double_div (double_of_int 1) (double_of_int 10)) (replicate 1000 7)) as (_ & buf' & E).
  - reflexivity.
  - vm_compute; reflexivity.
  - exact Hs.
  - apply Nat.ltb_lt. vm_compute; reflexivity.
  - vm_compute; reflexivity.
  - apply length_replicate.
  - exists buf'. rewrite E. f_equal.
Defined.

(** A price level that is the first attribute has no comma after it. *)
Lemma comma_lost :
  exists buf',
    dx_candle_symbol_to_string (fun _ => true)
      (Some (CandleAttributes (chars_of "AAPL") 0 (double_of_int 1) dxf_ctpa_tick dxf_cpa_bid dxf_csa_any
               dxf_caa_midnight (double_div (double_of_int 1) (double_of_int 10))))
      (replicate 1000 0) = Ok (chars_of "AAPL{pl=0.1price=bid}") buf'.
Proof.
  match goal with |- context [CandleAttributes ?b ?x ?v ?t ?p ?s ?al ?l] => pose (a := CandleAttributes b x v t p s al l) end.
  destruct (symbol_made (fun _ => true) a (replicate 1000 0)) as (buf' & E).
  - apply length_replicate.
  - apply visible_zero, chars_of_visible. reflexivity.
  - apply Nat.ltb_lt. vm_compute; reflexivity.
  - reflexivity.
  - exists buf'. exact E.
Qed.

(** A base symbol of a thousand characters or more leaves the buffer. *)
Lemma symbol_overflows calloc_ok a buf :
  (length buf <= length (base_symbol a))%nat -> dx_candle_symbol_to_string calloc_ok (Some a) buf = UB.
Proof.
  intros H. unfold dx_candle_symbol_to_string. rewrite (bind_ok get _ _ _ _ eq_refl).
  unfold dx_copy_string, blit. destruct (Nat.leb_spec (0 + (length (base_symbol a) + 1)) (length buf)); [lia|].
  by rewrite andb_false_r.
Qed.
