(* ===== verification/EventSubscription.v ===== *)
(** * EventSubscription: the subscriptions of the user ([src/EventSubscription.cpp])

    The objects are shared: a symbol points to the subscriptions that have it, and a
    subscription to its symbols.  They are blocks of a store, and a block that has
    been deleted is not in it any more, so that following a pointer to it is [UB].
    The hash tables of the C++ library are finite maps and sets; the order in which
    one is walked through is a parameter.

    The listeners are called while the lock of the context is held, which is
    recursive: a listener may use the library.  What the listeners do, in the order of
    all their calls so far, is a parameter, so that a call runs the operations that
    the listener asks for. *)

From Stdlib Require Import Ascii String.
From S2P Require Import Prelude Arrays Algorithms Input EventData Properties DataStructures Subscription ClientMessages PriceLevelSource.
Local Open Scope Z_scope.
Local Open Scope c_scope.

(** ** The objects *)

Definition addr : Set := positive.

(** The blocks of the events hold zeros until an event is stored: no entry. *)
Record SymbolData : Type := MakeSymbolData {
  name : list Z;
  refCount : Z;
  subscriptions : gset addr;
  lastEvents : gmap Z dxf_event_data_t;
  lastEventsAccessed : gmap Z dxf_event_data_t;
}.

Inductive EventListenerVersion : Set := Default | V2.
#[export] Instance EventListenerVersion_eq_dec : EqDecision EventListenerVersion.
Proof. solve_decision. Defined.

(** Two contexts of listeners are equal when their pointers are, so that a set of
    them is a map from the pointers. *)
Record ListenerContext : Set := MakeListenerContext { version : EventListenerVersion; userData : Z }.

Record SubscriptionData : Type := MakeSubscriptionData {
  event_types : Z;
  symbols : gmap (list Z) addr;
  listeners : gmap Z ListenerContext;
  orderSource : dx_array (list Z);
  subscriptionFlags : Z;
  time : Z;
}.

(** A call of a listener. *)
Record listener_call : Type := ListenerCall {
  lc_subscription : addr;
  lc_listener : Z;
  lc_version : EventListenerVersion;
  lc_event_bitmask : Z;
  lc_symbol_name : list Z;
  lc_data : dxf_event_data_t;
  lc_event_params : option dxf_event_params_t;   (** only for [V2] *)
  lc_userData : Z;
}.

(** The context with the store of both kinds of objects, and the calls so far. *)
Record EventSubscriptionConnectionContext : Type := MakeContext {
  ctx_symbols : gmap (list Z) addr;
  ctx_subscriptions : gset addr;
  symbol_heap : gmap addr SymbolData;
  subscription_heap : gmap addr SubscriptionData;
  calls : list listener_call;
}.
Abbreviation context := EventSubscriptionConnectionContext.

Definition set_ctx_symbols (x : gmap (list Z) addr) (c : context) : context :=
  MakeContext x (ctx_subscriptions c) (symbol_heap c) (subscription_heap c) (calls c).
Definition set_ctx_subscriptions (x : gset addr) (c : context) : context :=
  MakeContext (ctx_symbols c) x (symbol_heap c) (subscription_heap c) (calls c).
Definition set_symbol_heap (x : gmap addr SymbolData) (c : context) : context :=
  MakeContext (ctx_symbols c) (ctx_subscriptions c) x (subscription_heap c) (calls c).
Definition set_subscription_heap (x : gmap addr SubscriptionData) (c : context) : context :=
  MakeContext (ctx_symbols c) (ctx_subscriptions c) (symbol_heap c) x (calls c).
Definition add_call (x : listener_call) (c : context) : context :=
  MakeContext (ctx_symbols c) (ctx_subscriptions c) (symbol_heap c) (subscription_heap c) (calls c ++ [x]).

Definition set_refCount (x : Z) (d : SymbolData) : SymbolData :=
  MakeSymbolData (name d) x (subscriptions d) (lastEvents d) (lastEventsAccessed d).
Definition set_subscriptions (x : gset addr) (d : SymbolData) : SymbolData :=
  MakeSymbolData (name d) (refCount d) x (lastEvents d) (lastEventsAccessed d).
Definition set_lastEvents (x : gmap Z dxf_event_data_t) (d : SymbolData) : SymbolData :=
  MakeSymbolData (name d) (refCount d) (subscriptions d) x (lastEventsAccessed d).
Definition set_lastEventsAccessed (x : gmap Z dxf_event_data_t) (d : SymbolData) : SymbolData :=
  MakeSymbolData (name d) (refCount d) (subscriptions d) (lastEvents d) x.

Definition set_symbols (x : gmap (list Z) addr) (d : SubscriptionData) : SubscriptionData :=
  MakeSubscriptionData (event_types d) x (listeners d) (orderSource d) (subscriptionFlags d) (time d).
Definition set_listeners (x : gmap Z ListenerContext) (d : SubscriptionData) : SubscriptionData :=
  MakeSubscriptionData (event_types d) (symbols d) x (orderSource d) (subscriptionFlags d) (time d).
Definition set_orderSource (x : dx_array (list Z)) (d : SubscriptionData) : SubscriptionData :=
  MakeSubscriptionData (event_types d) (symbols d) (listeners d) x (subscriptionFlags d) (time d).
Definition set_subscriptionFlags (x : Z) (d : SubscriptionData) : SubscriptionData :=
  MakeSubscriptionData (event_types d) (symbols d) (listeners d) (orderSource d) x (time d).

(** ** The store *)

Definition symbol_at (a : addr) : M context SymbolData := c <-- get;; of_option (symbol_heap c !! a).
Definition change_symbol (a : addr) (f : SymbolData -> SymbolData) : M context unit :=
  d <-- symbol_at a;;
  update (fun c => set_symbol_heap (<[a := f d]> (symbol_heap c)) c).
Definition delete_symbol (a : addr) : M context unit :=
  symbol_at a;;;
  update (fun c => set_symbol_heap (delete a (symbol_heap c)) c).

Definition subscription_at (s : addr) : M context SubscriptionData :=
  c <-- get;; of_option (subscription_heap c !! s).
Definition change_subscription (s : addr) (f : SubscriptionData -> SubscriptionData) : M context unit :=
  d <-- subscription_at s;;
  update (fun c => set_subscription_heap (<[s := f d]> (subscription_heap c)) c).
Definition delete_subscription (s : addr) : M context unit :=
  subscription_at s;;;
  update (fun c => set_subscription_heap (delete s (subscription_heap c)) c).

Definition dx_all_order_sources : list (list Z) :=
  chars_of <$> ["NTV"; "ntv"; "NFX"; "ESPD"; "XNFI"; "ICE"; "ISE"; "DEA"; "DEX"; "BYX"; "BZX"; "BATE"; "CHIX"; "CEUX";
    "BXTR"; "IST"; "BI20"; "ABE"; "FAIR"; "GLBX"; "glbx"; "ERIS"; "XEUR"; "xeur"; "CFE"; "C2OX"; "SMFE"; "smfe"; "iex";
    "MEMX"; "memx"]%string.

(** [DXF_ET_UNUSED], the bits of an [unsigned] above those of the events. *)
Definition DXF_ET_UNUSED : Z := Z.lxor (2 ^ 32 - 1) (2 ^ 14 - 1).
Definition wildcard : list Z := chars_of "*".

(** The orders in which the elements of the hash tables are visited. *)
Class Iteration : Type := {
  symbols_order : gset (list Z) -> list (list Z);
  subscriptions_order : gset addr -> list addr;
  listeners_order : gset Z -> list Z;
  symbols_order_elements X : symbols_order X ≡ₚ elements X;
  subscriptions_order_elements X : subscriptions_order X ≡ₚ elements X;
  listeners_order_elements X : listeners_order X ≡ₚ elements X;
}.

(** ** Symbols *)

Section objects.
(** Whether the blocks of a new symbol are allocated. *)
Context (create_ok : list Z -> bool).

Definition SymbolData_cleanup (a : addr) : M context unit := delete_symbol a.

(** A new block has an address that is not in use; what is allocated before an
    allocation fails is freed again. *)
Definition SymbolData_create (symbol : list Z) : M context (option addr) :=
  if create_ok symbol then
    c <-- get;;
    let a := fresh (dom (symbol_heap c)) in
    put (set_symbol_heap (<[a := MakeSymbolData symbol 0 ∅ ∅ ∅]> (symbol_heap c)) c);;;
    ret (Some a)
  else ret None.

Definition storeLastSymbolEvent (a : addr) (eventId : dx_event_id_t) (data : dxf_event_data_t) : M context unit :=
  change_symbol a (fun d => set_lastEvents (<[event_number eventId := data]> (lastEvents d)) d).

Definition subscribeSymbol (symbolName : list Z) (owner : addr) : M context (option addr) :=
  c <-- get;;
  found <--
    match ctx_symbols c !! symbolName with
    | None =>
        res <-- SymbolData_create symbolName;;
        match res with
        | None => ret None
        | Some a => update (fun c => set_ctx_symbols (<[symbolName := a]> (ctx_symbols c)) c);;; ret (Some a)
        end
    | Some a => ret (Some a)
    end;;
  match found with
  | None => ret None
  | Some a =>
      d <-- symbol_at a;;
      if bool_decide (owner ∈ subscriptions d) then ret (Some a)
      else
        change_symbol a (fun d => set_subscriptions ({[owner]} ∪ subscriptions d) d);;;
        change_symbol a (fun d => set_refCount (refCount d + 1) d);;;
        ret (Some a)
  end.

Definition removeSymbolData (a : addr) : M context unit :=
  d <-- symbol_at a;;
  update (fun c => set_ctx_symbols (delete (name d) (ctx_symbols c)) c);;;
  SymbolData_cleanup a.

(** [false] comes with [dx_ec_internal_assert_violation]. *)
Definition unsubscribeSymbol (a owner : addr) : M context bool :=
  d <-- symbol_at a;;
  res <-- (if bool_decide (owner ∈ subscriptions d) then
             change_symbol a (fun d => set_subscriptions (subscriptions d ∖ {[owner]}) d);;; ret true
           else ret false);;
  change_symbol a (fun d => set_refCount (refCount d - 1) d);;;
  d <-- symbol_at a;;
  (if refCount d =? 0 then removeSymbolData a else ret tt);;;
  ret res.

Definition findSymbol (symbolName : list Z) : M context (option addr) :=
  c <-- get;; ret (ctx_symbols c !! symbolName).

Definition addSubscription (s : addr) : M context unit :=
  update (fun c => set_ctx_subscriptions ({[s]} ∪ ctx_subscriptions c) c).
Definition removeSubscription (s : addr) : M context unit :=
  update (fun c => set_ctx_subscriptions (ctx_subscriptions c ∖ {[s]}) c).

Definition hasAnySymbol : M context bool := c <-- get;; ret (negb (bool_decide (ctx_symbols c = ∅))).
End objects.

(** ** Subscriptions *)

(** A handle of a subscription; [None] is [dx_invalid_subscription]. *)
Definition dxf_subscription_t : Set := option addr.
Definition with_subscription {A} (subscr_id : dxf_subscription_t) (k : addr -> M context A) : M context A :=
  match subscr_id with None => dx_set_error_code dx_esec_invalid_subscr_id | Some s => k s end.

Section subscription.
Context `{!Iteration} (create_ok : list Z -> bool).
(** Whether [new] gives a block for a subscription, and [dx_calloc] one for so many
    order sources. *)
Context (new_ok : bool) (alloc : nat -> bool).

Definition clearOrderSource (s : addr) : M context unit := change_subscription s (set_orderSource DX_EMPTY_ARRAY).

(** [SubscriptionData::free] *)
Definition free_subscription (s : addr) : M context unit :=
  clearOrderSource s;;;
  delete_subscription s.

Fixpoint unsubscribe_loop (names : list (list Z)) (subscriptionData : addr) : M context bool :=
  match names with
  | [] => ret true
  | n :: names' =>
      d <-- subscription_at subscriptionData;;
      a <-- of_option (symbols d !! n);;
      res <-- unsubscribeSymbol a subscriptionData;;
      rest <-- unsubscribe_loop names' subscriptionData;;
      ret (res && rest)
  end.

Definition closeEventSubscription (subscriptionId : dxf_subscription_t) (remove_from_context : bool) : M context unit :=
  with_subscription subscriptionId (fun s =>
    d <-- subscription_at s;;
    res <-- unsubscribe_loop (symbols_order (dom (symbols d))) s;;
    change_subscription s (set_symbols ∅);;;
    change_subscription s (set_listeners ∅);;;
    (if remove_from_context then removeSubscription s else ret tt);;;
    free_subscription s;;;
    if (res : bool) then ret tt else dx_set_error_code dx_ec_internal_assert_violation).
Definition dx_close_event_subscription (subscr_id : dxf_subscription_t) : M context unit :=
  closeEventSubscription subscr_id true.

(** The destructor of the context; the results are ignored. *)
Fixpoint close_loop (l : list addr) : M context unit :=
  match l with
  | [] => ret tt
  | s :: l' => ignored (closeEventSubscription (Some s) false);;; close_loop l'
  end.
Definition destroy_context : M context unit :=
  c <-- get;; close_loop (subscriptions_order (ctx_subscriptions c)).

(** *** Order sources: buffers of [DXF_RECORD_SUFFIX_SIZE] characters *)

(** The comparison reads up to a zero. *)
Definition terminated (sources : list (list Z)) : bool := forallb (fun s => bool_decide (0 ∈ s)) sources.
Definition DX_ORDER_SOURCE_COMPARATOR (l r : list Z) : Z := dx_compare_strings (c_string l) (c_string r).
Definition search_source (sources : dx_array (list Z)) (source : list Z) : option (bool * nat) :=
  if terminated (contents sources)
  then DX_ARRAY_SEARCH DX_ORDER_SOURCE_COMPARATOR (arr_elements sources) 0 (arr_size sources) source false
  else None.

Definition dx_add_order_source (s : addr) (source : list Z) : M context unit :=
  d <-- subscription_at s;;
  new_source <-- of_option (dx_copy_string_len (replicate DXF_RECORD_SUFFIX_SIZE 0) source DXF_RECORD_SUFFIX_SIZE);;
  found <--
    (match arr_elements (orderSource d) with
     | [] => ret (false, O)
     | _ => of_option (if terminated [new_source] then search_source (orderSource d) new_source else None)
     end);;
  if (found.1 : bool) then ret tt
  else
    inserted <-- of_option (DX_ARRAY_INSERT (replicate DXF_RECORD_SUFFIX_SIZE 0) alloc (orderSource d) new_source found.2);;
    change_subscription s (set_orderSource inserted.1);;;
    if (inserted.2 : bool) then dx_set_error_code dx_sec_not_enough_memory else ret tt.
Definition dx_clear_order_source (subscr_id : dxf_subscription_t) : M context unit :=
  match subscr_id with None => ret tt | Some s => clearOrderSource s end.
Definition dx_get_order_source (s : addr) : M context (list (list Z)) :=
  d <-- subscription_at s;; ret (contents (orderSource d)).

Fixpoint add_sources_loop (sources : list (list Z)) (s : addr) : M context unit :=
  match sources with
  | [] => ret tt
  | source :: sources' => dx_add_order_source s source;;; add_sources_loop sources' s
  end.

(** The subscription is freed again when its order sources cannot be added. *)
Definition dx_create_event_subscription (types subscr_flags subscription_time : Z) : M context addr :=
  if negb (Z.land types DXF_ET_UNUSED =? 0) then dx_set_error_code dx_esec_invalid_event_type
  else if negb new_ok then fail
  else
    c <-- get;;
    let s := fresh (dom (subscription_heap c)) in
    put (set_subscription_heap
           (<[s := MakeSubscriptionData types ∅ ∅ DX_EMPTY_ARRAY subscr_flags subscription_time]> (subscription_heap c)) c);;;
    added <-- (if Z.land types DXF_ET_ORDER =? 0 then ret (inl tt)
               else catch (add_sources_loop (dx_all_order_sources ++ [[]]) s));;
    match added with
    | inl _ => addSubscription s;;; ret s
    | inr e => free_subscription s;;; dx_set_error_code e
    end.

(** *** Symbols of a subscription *)

Definition add_symbol (symbol : list Z) (s : addr) : M context unit :=
  d <-- subscription_at s;;
  match symbols d !! symbol with
  | Some _ => ret tt
  | None =>
      symbol_data <-- subscribeSymbol create_ok symbol s;;
      match symbol_data with
      | None => fail
      | Some a => change_subscription s (fun d => set_symbols (<[symbol := a]> (symbols d)) d)
      end
  end.
Fixpoint add_symbols_loop (l : list (option (list Z))) (s : addr) : M context unit :=
  match l with
  | [] => ret tt
  | symbol :: l' =>
      (if dx_string_null_or_empty symbol then ret tt else add_symbol (default [] symbol) s);;;
      add_symbols_loop l' s
  end.
Definition dx_add_symbols (subscr_id : dxf_subscription_t) (l : list (option (list Z))) : M context unit :=
  with_subscription subscr_id (add_symbols_loop l).

Definition remove_symbol (symbol : list Z) (s : addr) : M context unit :=
  d <-- subscription_at s;;
  match symbols d !! symbol with
  | None => ret tt
  | Some a =>
      unsubscribed <-- unsubscribeSymbol a s;;
      if (unsubscribed : bool) then change_subscription s (fun d => set_symbols (delete symbol (symbols d)) d)
      else dx_set_error_code dx_ec_internal_assert_violation
  end.
Fixpoint remove_symbols_loop (l : list (option (list Z))) (s : addr) : M context unit :=
  match l with
  | [] => ret tt
  | symbol :: l' =>
      (if dx_string_null_or_empty symbol then ret tt else remove_symbol (default [] symbol) s);;;
      remove_symbols_loop l' s
  end.
Definition dx_remove_symbols (subscr_id : dxf_subscription_t) (l : list (option (list Z))) : M context unit :=
  with_subscription subscr_id (remove_symbols_loop l).

(** *** Listeners; a null pointer is 0 *)

Definition emplace_listener (listener : Z) (v : EventListenerVersion) (user_data : Z) (d : SubscriptionData) : SubscriptionData :=
  match listeners d !! listener with
  | None => set_listeners (<[listener := MakeListenerContext v user_data]> (listeners d)) d
  | Some _ => d
  end.
Definition dx_add_listener_impl (subscr_id : dxf_subscription_t) (listener : Z) (v : EventListenerVersion) (user_data : Z)
  : M context unit :=
  with_subscription subscr_id (fun s =>
    if listener =? 0 then dx_set_error_code dx_esec_invalid_listener
    else change_subscription s (emplace_listener listener v user_data)).
Definition dx_add_listener (subscr_id : dxf_subscription_t) (listener user_data : Z) : M context unit :=
  dx_add_listener_impl subscr_id listener Default user_data.
Definition dx_add_listener_v2 (subscr_id : dxf_subscription_t) (listener user_data : Z) : M context unit :=
  dx_add_listener_impl subscr_id listener V2 user_data.
Definition dx_remove_listener_impl (subscr_id : dxf_subscription_t) (listener : Z) : M context unit :=
  with_subscription subscr_id (fun s =>
    if listener =? 0 then dx_set_error_code dx_esec_invalid_listener
    else change_subscription s (fun d => set_listeners (delete listener (listeners d)) d)).
Definition dx_remove_listener : dxf_subscription_t -> Z -> M context unit := dx_remove_listener_impl.
Definition dx_remove_listener_v2 : dxf_subscription_t -> Z -> M context unit := dx_remove_listener_impl.

(** *** What a subscription is; [out] tells that the pointers to the results are not null *)

Definition getter {A} (field : SubscriptionData -> A) (subscr_id : dxf_subscription_t) (out : bool) : M context A :=
  with_subscription subscr_id (fun s =>
    if out then d <-- subscription_at s;; ret (field d)
    else dx_set_error_code dx_ec_invalid_func_param_internal).
Definition dx_get_event_subscription_event_types : dxf_subscription_t -> bool -> M context Z := getter event_types.
Definition dx_get_event_subscription_symbols_count : dxf_subscription_t -> bool -> M context nat :=
  getter (fun d => size (symbols d)).
Definition dx_get_event_subscription_flags : dxf_subscription_t -> bool -> M context Z := getter subscriptionFlags.
Definition dx_get_event_subscription_time : dxf_subscription_t -> bool -> M context Z := getter time.
Definition dx_set_event_subscription_flags (subscr_id : dxf_subscription_t) (subscr_flags : Z) : M context unit :=
  with_subscription subscr_id (fun s => change_subscription s (set_subscriptionFlags subscr_flags)).

(** The names are those of the symbols the table points to. *)
Fixpoint names_loop (l : list (list Z)) (d : SubscriptionData) : M context (list (list Z)) :=
  match l with
  | [] => ret []
  | n :: l' =>
      a <-- of_option (symbols d !! n);;
      sd <-- symbol_at a;;
      rest <-- names_loop l' d;;
      ret (name sd :: rest)
  end.
Definition dx_get_event_subscription_symbols (subscr_id : dxf_subscription_t) (out : bool) : M context (list (list Z)) :=
  with_subscription subscr_id (fun s =>
    if out then d <-- subscription_at s;; names_loop (symbols_order (dom (symbols d))) d
    else dx_set_error_code dx_ec_invalid_func_param_internal).
End subscription.

(** ** Delivery *)

(** What a listener may do with the library. *)
Inductive user_op : Type :=
  | user_add_symbols (subscr_id : dxf_subscription_t) (l : list (option (list Z)))
  | user_remove_symbols (subscr_id : dxf_subscription_t) (l : list (option (list Z)))
  | user_add_listener (subscr_id : dxf_subscription_t) (listener : Z) (v : EventListenerVersion) (user_data : Z)
  | user_remove_listener (subscr_id : dxf_subscription_t) (listener : Z)
  | user_set_flags (subscr_id : dxf_subscription_t) (subscr_flags : Z)
  | user_create (types subscr_flags subscription_time : Z)
  | user_close (subscr_id : dxf_subscription_t).

Section delivery.
Context `{!Iteration} (create_ok : list Z -> bool) (new_ok : bool) (alloc : nat -> bool).
(** What the listener of the last call asks for. *)
Context (answer : list listener_call -> list user_op).

Definition run_user_op (op : user_op) : M context unit :=
  match op with
  | user_add_symbols s l => dx_add_symbols create_ok s l
  | user_remove_symbols s l => dx_remove_symbols s l
  | user_add_listener s listener v user_data => dx_add_listener_impl s listener v user_data
  | user_remove_listener s listener => dx_remove_listener_impl s listener
  | user_set_flags s flags => dx_set_event_subscription_flags s flags
  | user_create types flags subscription_time => ignored (dx_create_event_subscription new_ok alloc types flags subscription_time)
  | user_close s => dx_close_event_subscription s
  end.
Fixpoint run_user_ops (ops : list user_op) : M context unit :=
  match ops with [] => ret tt | op :: ops' => ignored (run_user_op op);;; run_user_ops ops' end.
Definition notify_listener (x : listener_call) : M context unit :=
  update (add_call x);;;
  c <-- get;;
  run_user_ops (answer (calls c)).

(** The loop over the listeners of a subscription: the iterator is advanced after
    the call, when the subscription and the listener have to be there still.  A
    listener that was added may have rehashed the table. *)
Definition iterator_valid (before after : gmap Z ListenerContext) (listener : Z) : bool :=
  bool_decide (listener ∈ dom after) && bool_decide (dom after ⊆ dom before).
Fixpoint listeners_loop (l : list Z) (subscr_data : addr) (event_bitmask : Z) (symbol_name : list Z)
  (data : dxf_event_data_t) (event_params : dxf_event_params_t) : M context unit :=
  match l with
  | [] => ret tt
  | listener :: l' =>
      d <-- subscription_at subscr_data;;
      match listeners d !! listener with
      | None => ret tt
      | Some lc =>
          notify_listener (ListenerCall subscr_data listener (version lc) event_bitmask symbol_name data
                  (match version lc with Default => None | V2 => Some event_params end) (userData lc));;;
          after <-- subscription_at subscr_data;;
          if iterator_valid (listeners d) (listeners after) listener then ret tt else undefined
      end;;;
      listeners_loop l' subscr_data event_bitmask symbol_name data event_params
  end.
Definition dx_call_subscr_listeners (subscr_data : addr) (event_bitmask : Z) (symbol_name : list Z)
  (data : dxf_event_data_t) (event_params : dxf_event_params_t) : M context unit :=
  d <-- subscription_at subscr_data;;
  match symbols d !! symbol_name with
  | None => ret tt
  | Some _ => listeners_loop (listeners_order (dom (listeners d))) subscr_data event_bitmask symbol_name data event_params
  end.

Definition DX_ORDER_SOURCE_COMPARATOR_NONSYM (l r : list Z) : Z := dx_compare_strings (c_string l) (c_string r).
Fixpoint subscriptions_loop (l : list addr) (event_id : dx_event_id_t) (symbol_name : list Z)
  (data : dxf_event_data_t) (event_params : dxf_event_params_t) : M context unit :=
  match l with
  | [] => ret tt
  | s :: l' =>
      (d <-- subscription_at s;;
       if negb (asked (event_types d) event_id) then ret tt
       else if bool_decide (event_id = dx_eid_order) && (0 <? arr_size (orderSource d))%nat then
         match data with
         | ev_order order =>
             found <-- of_option (if terminated (contents (orderSource d)) then
                 DX_ARRAY_SEARCH DX_ORDER_SOURCE_COMPARATOR_NONSYM (arr_elements (orderSource d)) 0
                   (arr_size (orderSource d)) (order_source order) false
               else None);;
             if (found.1 : bool) then dx_call_subscr_listeners s (DX_EVENT_BIT_MASK event_id) symbol_name data event_params
             else ret tt
         | _ => undefined
         end
       else dx_call_subscr_listeners s (DX_EVENT_BIT_MASK event_id) symbol_name data event_params);;;
      subscriptions_loop l' event_id symbol_name data event_params
  end.

(** The subscriptions are copied first; the symbol cannot be deleted meanwhile. *)
Definition pass_event_data_to_listeners (symbol_data : addr) (event_id : dx_event_id_t) (symbol_name : list Z)
  (data : dxf_event_data_t) (event_params : dxf_event_params_t) : M context unit :=
  change_symbol symbol_data (fun d => set_refCount (refCount d + 1) d);;;
  d <-- symbol_at symbol_data;;
  subscriptions_loop (subscriptions_order (subscriptions d)) event_id symbol_name data event_params;;;
  change_symbol symbol_data (fun d => set_refCount (refCount d - 1) d);;;
  d <-- symbol_at symbol_data;;
  if refCount d =? 0 then removeSymbolData symbol_data else ret tt.

Definition deliver_to (found : list Z) (event_id : dx_event_id_t) (symbol_name : list Z)
  (data : dxf_event_data_t) (event_params : dxf_event_params_t) : M context unit :=
  symbol_data <-- findSymbol found;;
  match symbol_data with
  | None => ret tt
  | Some a =>
      storeLastSymbolEvent a event_id data;;;
      pass_event_data_to_listeners a event_id symbol_name data event_params
  end.
Definition dx_process_event_data (event_id : dx_event_id_t) (symbol_name : list Z)
  (data : dxf_event_data_t) (event_params : dxf_event_params_t) : M context unit :=
  deliver_to symbol_name event_id symbol_name data event_params;;;
  deliver_to wildcard event_id symbol_name data event_params.
End delivery.

(** The last event of a symbol; [None] are the zeros of a block that has had none.
    There are blocks for the fourteen events. *)
Definition dx_get_last_symbol_event (symbol_name : list Z) (event_type : Z) (out : bool)
  : M context (option dxf_event_data_t) :=
  if negb out then dx_set_error_code dx_ec_invalid_func_param
  else if negb (dx_is_only_single_bit_set event_type) then dx_set_error_code dx_esec_invalid_event_type
  else
    event_id <-- of_option (dx_get_event_id_by_bitmask event_type);;
    found <-- findSymbol symbol_name;;
    match found with
    | None => dx_set_error_code dx_esec_invalid_symbol_name
    | Some a =>
        (if event_id <? 14 then ret tt else undefined);;;
        change_symbol a (fun d =>
          set_lastEventsAccessed (match lastEvents d !! event_id with
                                  | Some e => <[event_id := e]> (lastEventsAccessed d)
                                  | None => delete event_id (lastEventsAccessed d)
                                  end) d);;;
        d <-- symbol_at a;;
        ret (lastEventsAccessed d !! event_id)
    end.
