(* ===== verification/SubscriptionTheory.v ===== *)
(** * SubscriptionTheory: the tables of the subscriptions stay linked

    A symbol and the subscriptions that have it point to each other, the number of
    the references of a symbol is that of its subscriptions and of the delivery that
    is going on, and a symbol without references is deleted. *)

From S2P Require Import Prelude Arrays Algorithms Input EventData Properties DataStructures Subscription ClientMessages EventSubscription.
Local Open Scope Z_scope.
Local Open Scope c_scope.

(** ** The links *)

(** The symbol whose event is being delivered has a reference more. *)
Definition references (busy : option addr) (a : addr) (d : SymbolData) : Z :=
  Z.of_nat (size (subscriptions d)) + (if bool_decide (busy = Some a) then 1 else 0).

(** [tables] are the tables of the symbols of the subscriptions. *)
Record linked (busy : option addr) (syms : gmap (list Z) addr) (heap : gmap addr SymbolData)
  (tables : gmap addr (gmap (list Z) addr)) : Prop := {
  named n a : syms !! n = Some a -> exists d, heap !! a = Some d /\ name d = n;
  known_name a d : heap !! a = Some d -> syms !! name d = Some a;
  counted a d : heap !! a = Some d -> refCount d = references busy a d;
  subscribed a d s : heap !! a = Some d -> s ∈ subscriptions d -> exists m, tables !! s = Some m /\ m !! name d = Some a;
  subscribes_to s m n a : tables !! s = Some m -> m !! n = Some a ->
    exists d, heap !! a = Some d /\ name d = n /\ s ∈ subscriptions d;
  busy_alive a : busy = Some a -> is_Some (heap !! a);
}.

(** The last events of a symbol. *)
Definition last_of (syms : gmap (list Z) addr) (heap : gmap addr SymbolData) (n : list Z) : option (gmap Z dxf_event_data_t) :=
  a ← syms !! n; d ← heap !! a; Some (lastEvents d).

Lemma linked_name_inj busy syms heap tables a a' d d' :
  linked busy syms heap tables -> heap !! a = Some d -> heap !! a' = Some d' -> name d = name d' -> a = a'.
Proof. intros H E E' N. apply (known_name _ _ _ _ H) in E, E'. congruence. Qed.

(** A symbol and a table are changed together: what they are to the others stays. *)
Lemma linked_update busy syms heap tables a d d' s m m' :
  linked busy syms heap tables -> heap !! a = Some d -> tables !! s = Some m -> name d' = name d ->
  refCount d' = references busy a d' ->
  (forall s', s' <> s -> s' ∈ subscriptions d' <-> s' ∈ subscriptions d) ->
  (forall n, n <> name d -> m' !! n = m !! n) ->
  (forall a', m' !! name d = Some a' <-> a' = a /\ s ∈ subscriptions d') ->
  linked busy syms (<[a := d']> heap) (<[s := m']> tables).
Proof.
  intros H Ha Hs N C Hsub Hm Hl. split.
  - intros n a' E. destruct (named _ _ _ _ H n a' E) as (d0 & E' & N'). destruct (decide (a' = a)) as [->|].
    + rewrite lookup_insert_eq. exists d'. split; [done|]. simplify_eq. congruence.
    + rewrite lookup_insert_ne by done. eauto.
  - intros a' d0 [[<- <-]|[? E]]%lookup_insert_Some; [rewrite N|]; by apply (known_name _ _ _ _ H).
  - intros a' d0 [[<- <-]|[? E]]%lookup_insert_Some; [done|by apply (counted _ _ _ _ H)].
  - intros a' d0 s' [[<- <-]|[Hne E]]%lookup_insert_Some Hin.
    + rewrite N. destruct (decide (s' = s)) as [->|]; [rewrite lookup_insert_eq; eexists; split; [done|]; by apply Hl|].
      rewrite lookup_insert_ne by done. apply (subscribed _ _ _ _ H a d s' Ha). by apply Hsub.
    + destruct (subscribed _ _ _ _ H a' d0 s' E Hin) as (m0 & E1 & E2). destruct (decide (s' = s)) as [->|].
      * rewrite lookup_insert_eq. simplify_eq. eexists. split; [done|]. rewrite Hm; [done|]. intros N'.
        by apply Hne, (linked_name_inj _ _ _ _ a a' d d0 H).
      * rewrite lookup_insert_ne by done. eauto.
  - intros s' m0 n a' [[<- <-]|[? E]]%lookup_insert_Some E2.
    + destruct (decide (n = name d)) as [->|Hne].
      * apply Hl in E2 as [-> Hin]. rewrite lookup_insert_eq. eauto.
      * rewrite Hm in E2 by done. destruct (subscribes_to _ _ _ _ H s m n a' Hs E2) as (d0 & E3 & N' & I).
        destruct (decide (a' = a)) as [->|]; [by simplify_eq|]. rewrite lookup_insert_ne by done. eauto.
    + destruct (subscribes_to _ _ _ _ H s' m0 n a' E E2) as (d0 & E3 & N' & I). destruct (decide (a' = a)) as [->|].
      * rewrite lookup_insert_eq. simplify_eq. exists d'. split_and!; [done|congruence|]. by apply Hsub.
      * rewrite lookup_insert_ne by done. eauto.
  - intros a' Hb. destruct (busy_alive _ _ _ _ H a' Hb) as [d0 E]. destruct (decide (a' = a)) as [->|].
    + rewrite lookup_insert_eq. eauto.
    + rewrite lookup_insert_ne by done. eauto.
Qed.

(** A symbol keeps its subscriptions, and the delivery may begin or end. *)
Lemma linked_symbol busy busy' syms heap tables a d d' :
  linked busy syms heap tables -> heap !! a = Some d -> name d' = name d -> subscriptions d' = subscriptions d ->
  refCount d' = references busy' a d' -> (forall a', a' <> a -> busy' = Some a' <-> busy = Some a') ->
  linked busy' syms (<[a := d']> heap) tables.
Proof.
  intros H Ha N S C Hb. split.
  - intros n a' E. destruct (named _ _ _ _ H n a' E) as (d0 & E' & N'). destruct (decide (a' = a)) as [->|].
    + rewrite lookup_insert_eq. exists d'. split; [done|]. simplify_eq. congruence.
    + rewrite lookup_insert_ne by done. eauto.
  - intros a' d0 [[<- <-]|[? E]]%lookup_insert_Some; [rewrite N|]; by apply (known_name _ _ _ _ H).
  - intros a' d0 [[<- <-]|[? E]]%lookup_insert_Some; [done|]. rewrite (counted _ _ _ _ H a' d0 E).
    unfold references. rewrite (bool_decide_ext (busy = Some a') (busy' = Some a')); [done|]. symmetry. by apply Hb.
  - intros a' d0 s' [[<- <-]|[Hne E]]%lookup_insert_Some Hin; [rewrite N|by eapply (subscribed _ _ _ _ H)].
    rewrite S in Hin. by apply (subscribed _ _ _ _ H).
  - intros s' m0 n a' E E2. destruct (subscribes_to _ _ _ _ H s' m0 n a' E E2) as (d0 & E3 & N' & I).
    destruct (decide (a' = a)) as [->|].
    + rewrite lookup_insert_eq. simplify_eq. exists d'. rewrite S. split_and!; [done|congruence|done].
    + rewrite lookup_insert_ne by done. eauto.
  - intros a' E. destruct (decide (a' = a)) as [->|]; [rewrite lookup_insert_eq; eauto|].
    rewrite lookup_insert_ne by done. apply (busy_alive _ _ _ _ H). by apply Hb.
Qed.

(** The last subscription of a symbol goes, and the symbol with it. *)
Lemma linked_delete busy busy' syms heap tables a d :
  linked busy syms heap tables -> heap !! a = Some d -> (forall a', a' <> a -> busy' = Some a' <-> busy = Some a') ->
  busy' <> Some a -> subscriptions d = ∅ -> linked busy' (delete (name d) syms) (delete a heap) tables.
Proof.
  intros H Ha Hb Hnb Hs. split.
  - intros n a' [Hn E]%lookup_delete_Some. destruct (named _ _ _ _ H n a' E) as (d0 & E' & N').
    exists d0. split; [|done]. rewrite lookup_delete_ne; [done|]. intros ->. congruence.
  - intros a' d0 [Hne E]%lookup_delete_Some. rewrite lookup_delete_ne; [by apply (known_name _ _ _ _ H)|].
    intros N. by apply Hne, (linked_name_inj _ _ _ _ a a' d d0 H).
  - intros a' d0 [Hne E]%lookup_delete_Some. rewrite (counted _ _ _ _ H a' d0 E).
    unfold references. rewrite (bool_decide_ext (busy = Some a') (busy' = Some a')); [done|]. symmetry. by apply Hb.
  - intros a' d0 s' [Hne E]%lookup_delete_Some Hin. by apply (subscribed _ _ _ _ H a' d0).
  - intros s' m0 n a' E E2. destruct (subscribes_to _ _ _ _ H s' m0 n a' E E2) as (d0 & E3 & N' & I).
    exists d0. split; [|done]. rewrite lookup_delete_ne; [done|]. intros ->. simplify_eq. rewrite Hs in I. set_solver.
  - intros a' E. rewrite lookup_delete_ne by congruence. apply (busy_alive _ _ _ _ H). apply Hb; congruence.
Qed.

(** A new symbol has no subscription yet. *)
Lemma linked_new busy syms heap tables n a :
  linked busy syms heap tables -> heap !! a = None -> syms !! n = None ->
  linked busy (<[n := a]> syms) (<[a := MakeSymbolData n 0 ∅ ∅ ∅]> heap) tables.
Proof.
  intros H Ha Hn. assert (Hb : busy <> Some a).
  { intros E. destruct (busy_alive _ _ _ _ H a E). congruence. }
  split.
  - intros n' a' [[<- <-]|[? E]]%lookup_insert_Some; [rewrite lookup_insert_eq; eauto|].
    destruct (named _ _ _ _ H n' a' E) as (d0 & E' & N). rewrite lookup_insert_ne by congruence. eauto.
  - intros a' d0 [[<- <-]|[Hne E]]%lookup_insert_Some; [by rewrite lookup_insert_eq|].
    apply (known_name _ _ _ _ H) in E. rewrite lookup_insert_ne by congruence. done.
  - intros a' d0 [[<- <-]|[Hne E]]%lookup_insert_Some; [|by apply (counted _ _ _ _ H)].
    unfold references. cbn. by rewrite size_empty, bool_decide_eq_false_2.
  - intros a' d0 s [[<- <-]|[Hne E]]%lookup_insert_Some Hin; [set_solver|by apply (subscribed _ _ _ _ H a' d0)].
  - intros s m n' a' E E2. destruct (subscribes_to _ _ _ _ H s m n' a' E E2) as (d0 & E3 & N' & I).
    rewrite lookup_insert_ne by congruence. eauto.
  - intros a' E. rewrite lookup_insert_ne by congruence. by apply (busy_alive _ _ _ _ H).
Qed.

(** ** Symbols are created and deleted with their subscriptions *)

Definition used (heap : gmap addr SymbolData) : Prop := forall a d, heap !! a = Some d -> 0 < refCount d.
Definition symbol_tables (c : context) : gmap addr (gmap (list Z) addr) := symbols <$> subscription_heap c.
Definition last (c : context) : list Z -> option (gmap Z dxf_event_data_t) := last_of (ctx_symbols c) (symbol_heap c).

(** The order sources of a subscription end within their buffers. *)
Definition sources_ok (a : dx_array (list Z)) : Prop := array_wf a /\ terminated (contents a) = true.

Record consistent (busy : option addr) (c : context) : Prop := {
  consistent_linked : linked busy (ctx_symbols c) (symbol_heap c) (symbol_tables c);
  consistent_used : used (symbol_heap c);
  consistent_alive : ctx_subscriptions c = dom (subscription_heap c);
  consistent_sources : map_Forall (fun _ d => sources_ok (orderSource d)) (subscription_heap c);
}.

(** The symbols with the store of their blocks. *)
Definition set_objects (syms : gmap (list Z) addr) (heap : gmap addr SymbolData) (c : context) : context :=
  set_symbol_heap heap (set_ctx_symbols syms c).

(** What becomes of the last events when symbols are added, and when they are removed. *)
Definition grows (l l' : list Z -> option (gmap Z dxf_event_data_t)) : Prop :=
  forall n, l' n = l n \/ (l n = None /\ l' n = Some ∅).
Definition shrinks (l l' : list Z -> option (gmap Z dxf_event_data_t)) : Prop := forall n, l' n = l n \/ l' n = None.
#[export] Instance grows_preorder : PreOrder grows.
Proof.
  split; [by left|]. intros l1 l2 l3 H1 H2 n. destruct (H1 n) as [E|[E E']], (H2 n) as [F|[F F']]; try (right; split; congruence).
  left. congruence.
Qed.
#[export] Instance shrinks_preorder : PreOrder shrinks.
Proof. split; [by left|]. intros l1 l2 l3 H1 H2 n. destruct (H1 n), (H2 n); [left|right|right|right]; congruence. Qed.

Lemma symbol_at_ok c a d : symbol_heap c !! a = Some d -> symbol_at a c = Ok d c.
Proof. intros E. unfold symbol_at. rewrite (bind_ok get _ _ _ _ eq_refl). by rewrite E. Qed.
Lemma change_symbol_ok c a d f :
  symbol_heap c !! a = Some d -> change_symbol a f c = Ok tt (set_symbol_heap (<[a := f d]> (symbol_heap c)) c).
Proof. intros E. unfold change_symbol. by rewrite (bind_ok _ _ _ _ _ (symbol_at_ok c a d E)). Qed.
Lemma subscription_at_ok c s d : subscription_heap c !! s = Some d -> subscription_at s c = Ok d c.
Proof. intros E. unfold subscription_at. rewrite (bind_ok get _ _ _ _ eq_refl). by rewrite E. Qed.
Lemma change_subscription_ok c s d f :
  subscription_heap c !! s = Some d ->
  change_subscription s f c = Ok tt (set_subscription_heap (<[s := f d]> (subscription_heap c)) c).
Proof. intros E. unfold change_subscription. by rewrite (bind_ok _ _ _ _ _ (subscription_at_ok c s d E)). Qed.
Lemma removeSymbolData_ok c a d :
  symbol_heap c !! a = Some d ->
  removeSymbolData a c = Ok tt (set_objects (delete (name d) (ctx_symbols c)) (delete a (symbol_heap c)) c).
Proof.
  intros E. unfold removeSymbolData. rewrite (bind_ok _ _ _ _ _ (symbol_at_ok c a d E)).
  rewrite (bind_ok (update _) _ _ _ _ eq_refl). unfold SymbolData_cleanup, delete_symbol.
  by rewrite (bind_ok _ _ _ _ _ (symbol_at_ok (set_ctx_symbols (delete (name d) (ctx_symbols c)) c) a d E)).
Qed.

Lemma last_of_insert syms heap a d d' n :
  heap !! a = Some d -> lastEvents d' = lastEvents d -> last_of syms (<[a := d']> heap) n = last_of syms heap n.
Proof.
  intros E L. unfold last_of. destruct (syms !! n) as [a'|]; [|done]. cbn [mbind option_bind].
  destruct (decide (a' = a)) as [->|]; [rewrite lookup_insert_eq, E; cbn; by rewrite L|by rewrite lookup_insert_ne].
Qed.

(** A symbol that is in the table gets the subscription. *)
Lemma subscribe_known busy c tbls s m a d :
  linked busy (ctx_symbols c) (symbol_heap c) tbls -> tbls !! s = Some m -> symbol_heap c !! a = Some d -> m !! name d = None ->
  let d' := set_refCount (refCount d + 1) (set_subscriptions ({[s]} ∪ subscriptions d) d) in
  s ∉ subscriptions d /\ linked busy (ctx_symbols c) (<[a := d']> (symbol_heap c)) (<[s := <[name d := a]> m]> tbls).
Proof.
  intros H Hs Ha Hm. assert (Hn : s ∉ subscriptions d).
  { intros Hin. destruct (subscribed _ _ _ _ H a d s Ha Hin) as (m' & E & E'). simplify_eq. }
  split; [done|]. apply (linked_update busy _ _ _ a d _ s m); [done|done|done|done| | | |].
  - unfold references. cbn. rewrite size_union, size_singleton, (counted _ _ _ _ H a d Ha) by set_solver. unfold references. lia.
  - cbn. set_solver.
  - intros n N. by rewrite lookup_insert_ne.
  - intros a'. rewrite lookup_insert_eq. cbn. split; [intros ?; simplify_eq; set_solver|by intros [-> _]].
Qed.

Definition with_owner (s : addr) (d : SymbolData) : SymbolData :=
  set_refCount (refCount d + 1) (set_subscriptions ({[s]} ∪ subscriptions d) d).
Lemma add_owner_ok c a d s :
  symbol_heap c !! a = Some d -> s ∉ subscriptions d ->
  (d <-- symbol_at a;;
   if bool_decide (s ∈ subscriptions d) then ret (Some a)
   else
     change_symbol a (fun d => set_subscriptions ({[s]} ∪ subscriptions d) d);;;
     change_symbol a (fun d => set_refCount (refCount d + 1) d);;;
     ret (Some a)) c = Ok (Some a) (set_symbol_heap (<[a := with_owner s d]> (symbol_heap c)) c).
Proof.
  intros E Hn. rewrite (bind_ok _ _ _ _ _ (symbol_at_ok c a d E)), bool_decide_eq_false_2 by done.
  rewrite (bind_ok _ _ _ _ _ (change_symbol_ok c a d _ E)).
  rewrite (bind_ok _ _ _ _ _ (change_symbol_ok _ a _ _ (lookup_insert_eq _ _ _))). unfold ret. cbn. by rewrite insert_insert_eq.
Qed.

Section subscribe.
Context (create_ok : list Z -> bool).

Lemma subscribe_spec busy c tbls s m n :
  linked busy (ctx_symbols c) (symbol_heap c) tbls -> used (symbol_heap c) -> tbls !! s = Some m -> m !! n = None ->
  (exists a syms heap, subscribeSymbol create_ok n s c = Ok (Some a) (set_objects syms heap c) /\
     linked busy syms heap (<[s := <[n := a]> m]> tbls) /\ used heap /\ grows (last c) (last_of syms heap)) \/
  (create_ok n = false /\ subscribeSymbol create_ok n s c = Ok None c).
Proof.
  intros H Hu Hs Hm. unfold subscribeSymbol. rewrite (bind_ok get _ _ _ _ eq_refl).
  assert (Huse : forall heap a d, used heap -> 0 <= refCount d -> used (<[a := with_owner s d]> heap)).
  { intros heap a d Hh Hd a' d' [[<- <-]|[_ E]]%lookup_insert_Some; [cbn; lia|by apply (Hh a')]. }
  destruct (ctx_symbols c !! n) as [a|] eqn:En.
  - destruct (named _ _ _ _ H n a En) as (d & Ea & <-). left.
    destruct (subscribe_known busy c tbls s m a d H Hs Ea Hm) as [Hn Hl]. eexists a, _, _.
    rewrite (bind_ok (ret _) _ _ _ _ eq_refl). split_and!; [by apply (add_owner_ok c a d s)|done| |].
    + apply Huse; [done|]. pose proof (Hu a d Ea). lia.
    + intros n. left. by apply (last_of_insert _ _ a d).
  - unfold SymbolData_create. destruct (create_ok n) eqn:Hok; [left|by right].
    set (a := fresh (dom (symbol_heap c))). set (d := MakeSymbolData n 0 ∅ ∅ ∅).
    assert (Ha : symbol_heap c !! a = None) by (apply not_elem_of_dom, is_fresh).
    set (c1 := set_objects (<[n := a]> (ctx_symbols c)) (<[a := d]> (symbol_heap c)) c).
    pose proof (linked_new busy _ _ _ n a H Ha En) as H1.
    assert (Ea : symbol_heap c1 !! a = Some d) by apply lookup_insert_eq.
    destruct (subscribe_known busy c1 tbls s m a d H1 Hs Ea Hm) as [Hn Hl]. exists a, (ctx_symbols c1), (<[a := with_owner s d]> (symbol_heap c1)).
    split_and!; [|done| |].
    + unfold checked_call at 1 2 3. cbn -[c1 checked_call symbol_at change_symbol]. apply (add_owner_ok c1 a d s); done.
    + cbn. rewrite insert_insert_eq. apply Huse; [done|cbn; lia].
    + intros n'. rewrite (last_of_insert _ _ a d) by done. unfold last, last_of. cbn. destruct (decide (n' = n)) as [->|].
      * right. rewrite En, lookup_insert_eq. cbn. by rewrite lookup_insert_eq.
      * left. rewrite lookup_insert_ne by done. destruct (ctx_symbols c !! n') as [a'|] eqn:E'; [|done]. cbn.
        destruct (named _ _ _ _ H n' a' E') as (d' & E2 & _). by rewrite lookup_insert_ne by congruence.
Qed.

Lemma size_remove (X : gset addr) s : s ∈ X -> size X = S (size (X ∖ {[s]})).
Proof using Type. intros H. rewrite (union_difference_singleton_L s X) at 1 by done. rewrite size_union by set_solver. by rewrite size_singleton. Qed.

(** The symbol loses the subscription; without references it is deleted. *)
Lemma unsubscribe_spec busy c tbls s m n a :
  linked busy (ctx_symbols c) (symbol_heap c) tbls -> used (symbol_heap c) -> tbls !! s = Some m -> m !! n = Some a ->
  exists syms heap, unsubscribeSymbol a s c = Ok true (set_objects syms heap c) /\
    linked busy syms heap (<[s := delete n m]> tbls) /\ used heap /\ shrinks (last c) (last_of syms heap).
Proof using Type.
  intros H Hu Hs Hm. destruct (subscribes_to _ _ _ _ H s m n a Hs Hm) as (d & Ea & <- & Hin).
  set (d' := set_refCount (refCount d - 1) (set_subscriptions (subscriptions d ∖ {[s]}) d)).
  assert (Hl : linked busy (ctx_symbols c) (<[a := d']> (symbol_heap c)) (<[s := delete (name d) m]> tbls)).
  { apply (linked_update busy _ _ _ a d _ s m); [done|done|done|done| | | |].
    - cbn. rewrite (counted _ _ _ _ H a d Ea). unfold references. cbn. rewrite (size_remove (subscriptions d) s) by done. lia.
    - cbn. set_solver.
    - intros n N. by rewrite lookup_delete_ne.
    - intros a'. rewrite lookup_delete_eq. cbn. set_solver. }
  assert (Hlast : forall n, last_of (ctx_symbols c) (<[a := d']> (symbol_heap c)) n = last c n) by (intros n; by apply (last_of_insert _ _ a d)).
  unfold unsubscribeSymbol. rewrite (bind_ok _ _ _ _ _ (symbol_at_ok c a d Ea)), bool_decide_eq_true_2 by done.
  rewrite (bind_ok _ _ c true (set_symbol_heap (<[a := set_subscriptions (subscriptions d ∖ {[s]}) d]> (symbol_heap c)) c))
    by (by rewrite (bind_ok _ _ _ _ _ (change_symbol_ok c a d _ Ea))).
  rewrite (bind_ok _ _ _ _ _ (change_symbol_ok _ a _ _ (lookup_insert_eq _ _ _))). cbn. rewrite insert_insert_eq. fold d'.
  set (c1 := set_symbol_heap _ _). assert (Ea1 : symbol_heap c1 !! a = Some d') by apply lookup_insert_eq.
  rewrite (bind_ok _ _ _ _ _ (symbol_at_ok c1 a d' Ea1)). destruct (Z.eqb_spec (refCount d') 0) as [E0|E0].
  - rewrite (bind_ok _ _ _ _ _ (removeSymbolData_ok c1 a d' Ea1)).
    exists (delete (name d) (ctx_symbols c)), (delete a (<[a := d']> (symbol_heap c))). split; [done|].
    rewrite (counted _ _ _ _ Hl a d') in E0 by apply lookup_insert_eq. unfold references in E0. case_bool_decide; [lia|].
    assert (Hs0 : subscriptions d' = ∅) by (apply leibniz_equiv, size_empty_inv; lia). split_and!.
    + apply (linked_delete busy busy _ _ _ a d'); [done|apply lookup_insert_eq|done|done|done].
    + intros a' d0 [Hne E]%lookup_delete_Some. cbn in E. rewrite lookup_insert_ne in E by done. by apply (Hu a').
    + intros n. unfold last_of. destruct (decide (n = name d)) as [->|Hn]; [right; by rewrite lookup_delete_eq|].
      left. rewrite lookup_delete_ne by done. unfold last, last_of. destruct (ctx_symbols c !! n) as [a'|] eqn:E'; [|done].
      cbn. destruct (named _ _ _ _ H n a' E') as (d0 & E2 & N). by rewrite lookup_delete_ne, lookup_insert_ne by congruence.
  - exists (ctx_symbols c), (<[a := d']> (symbol_heap c)). split_and!; [done|done| |by intros n; left].
    intros a' d0 [[<- <-]|[_ E]]%lookup_insert_Some; [|by apply (Hu a')]. pose proof (Hu a d Ea). subst d'. cbn in *. lia.
Qed.
End subscribe.
