(* ===== verification/SubscriptionRefinement.v ===== *)
(** * SubscriptionRefinement: what the operations of a subscription do

    Seen from outside, a context has subscriptions with names of symbols, and the last
    events of the symbols that some subscription has. *)

From S2P Require Import Prelude Arrays Algorithms Input EventData Properties DataStructures Subscription ClientMessages PriceLevelSource EventSubscription SubscriptionTheory.
Local Open Scope Z_scope.
Local Open Scope c_scope.

(** ** The abstract context *)

Record subscription_view : Type := SubscriptionView {
  v_types : Z;
  v_names : gset (list Z);
  v_listeners : gmap Z ListenerContext;
  v_sources : list (list Z);
  v_flags : Z;
  v_time : Z;
}.
Record context_view : Type := ContextView {
  v_subscriptions : gmap addr subscription_view;
  v_last : gmap (list Z) (gmap Z dxf_event_data_t);
}.

Definition view_of (d : SubscriptionData) : subscription_view :=
  SubscriptionView (event_types d) (dom (symbols d)) (listeners d) (contents (orderSource d)) (subscriptionFlags d) (time d).
Definition subs (c : context) : gmap addr subscription_view := view_of <$> subscription_heap c.
Definition view (c : context) : context_view :=
  ContextView (subs c) (omap (fun a => lastEvents <$> symbol_heap c !! a) (ctx_symbols c)).

Definition with_names (X : gset (list Z)) (v : subscription_view) : subscription_view :=
  SubscriptionView (v_types v) X (v_listeners v) (v_sources v) (v_flags v) (v_time v).
Definition with_listeners (X : gmap Z ListenerContext) (v : subscription_view) : subscription_view :=
  SubscriptionView (v_types v) (v_names v) X (v_sources v) (v_flags v) (v_time v).
Definition with_flags (x : Z) (v : subscription_view) : subscription_view :=
  SubscriptionView (v_types v) (v_names v) (v_listeners v) (v_sources v) x (v_time v).
Definition with_sources (x : list (list Z)) (v : subscription_view) : subscription_view :=
  SubscriptionView (v_types v) (v_names v) (v_listeners v) x (v_flags v) (v_time v).

(** The last events are those of the symbols that are subscribed to; a symbol that
    is new has none. *)
Definition all_names (m : gmap addr subscription_view) : gset (list Z) := ⋃ (v_names <$> (map_to_list m).*2).
Definition renewed (m : gmap addr subscription_view) (l : gmap (list Z) (gmap Z dxf_event_data_t))
  : gmap (list Z) (gmap Z dxf_event_data_t) :=
  map_imap (fun n (_ : unit) => Some (default ∅ (l !! n))) (gset_to_gmap tt (all_names m)).
Definition with_subscriptions (m : gmap addr subscription_view) (v : context_view) : context_view :=
  ContextView m (renewed m (v_last v)).

(** The names in the arguments: empty ones and null pointers are passed over. *)
Definition symbol_names (l : list (option (list Z))) : gset (list Z) :=
  list_to_set (omap (fun o => match o with Some (_ :: _) => o | _ => None end) l).

(** ** The last events follow the names *)

Lemma v_last_lookup c n : v_last (view c) !! n = last c n.
Proof.
  cbn. rewrite lookup_omap. unfold last, last_of. destruct (ctx_symbols c !! n) as [a|]; [|done]. cbn.
  by destruct (symbol_heap c !! a).
Qed.

Lemma elem_of_all_names m n : n ∈ all_names m <-> exists s v, m !! s = Some v /\ n ∈ v_names v.
Proof.
  unfold all_names. rewrite elem_of_union_list. split.
  - intros (X & HX & Hn). apply list_elem_of_fmap in HX as (v & -> & Hv).
    apply list_elem_of_fmap in Hv as ([s v'] & -> & E%elem_of_map_to_list). eauto.
  - intros (s & v & E & Hn). exists (v_names v). split; [|done]. apply list_elem_of_fmap. exists v. split; [done|].
    apply list_elem_of_fmap. exists (s, v). split; [done|]. by apply elem_of_map_to_list.
Qed.

Lemma subs_tables c s v : subs c !! s = Some v -> exists m, symbol_tables c !! s = Some m /\ dom m = v_names v.
Proof.
  unfold subs, symbol_tables. rewrite !lookup_fmap. destruct (subscription_heap c !! s) as [d|] eqn:E; [|done].
  intros [= <-]. by exists (symbols d).
Qed.
Lemma tables_subs c s m : symbol_tables c !! s = Some m -> exists v, subs c !! s = Some v /\ v_names v = dom m.
Proof.
  unfold subs, symbol_tables. rewrite !lookup_fmap. destruct (subscription_heap c !! s) as [d|] eqn:E; [|done].
  intros [= <-]. by exists (view_of d).
Qed.

Lemma names_have_last c n : consistent None c -> n ∈ all_names (subs c) <-> is_Some (last c n).
Proof.
  intros [H Hu _ _]. rewrite elem_of_all_names. unfold last, last_of. split.
  - intros (s & v & E & Hn). destruct (subs_tables c s v E) as (m & Em & N).
    rewrite <- N in Hn. apply elem_of_dom in Hn as [a Ea]. destruct (subscribes_to _ _ _ _ H s m n a Em Ea) as (d & E1 & <- & _).
    rewrite (known_name _ _ _ _ H a d E1). cbn. rewrite E1. by eexists.
  - destruct (ctx_symbols c !! n) as [a|] eqn:E; [|by intros [? ?]]. intros _.
    destruct (named _ _ _ _ H n a E) as (d & Ea & <-). pose proof (Hu a d Ea) as P.
    rewrite (counted _ _ _ _ H a d Ea) in P. unfold references in P. rewrite bool_decide_eq_false_2 in P by done.
    assert (subscriptions d <> ∅) as (s & Hs)%set_choose_L by (intros E0; rewrite E0, size_empty in P; lia).
    destruct (subscribed _ _ _ _ H a d s Ea Hs) as (m & Em & E2). destruct (tables_subs c s m Em) as (v & Ev & N).
    exists s, v. split; [exact Ev|]. rewrite N. by apply elem_of_dom_2 in E2.
Qed.

Lemma view_changed c c' m :
  consistent None c' -> subs c' = m ->
  grows (last c) (last c') \/ shrinks (last c) (last c') -> view c' = with_subscriptions m (view c).
Proof.
  intros H <- Hl. unfold with_subscriptions. unfold view at 1. f_equal. apply map_eq. intros n.
  change (v_last (view c') !! n = renewed (subs c') (v_last (view c)) !! n). rewrite v_last_lookup.
  unfold renewed. rewrite map_lookup_imap, lookup_gset_to_gmap, v_last_lookup.
  pose proof (names_have_last c' n H) as Hd. case_guard as G; cbn.
  - apply Hd in G as [x E]. rewrite E. destruct Hl as [Hl|Hl]; destruct (Hl n) as [E1|E1]; try congruence.
    + by rewrite <- E1, E.
    + destruct E1 as [-> E1]. cbn. congruence.
    + by rewrite <- E1, E.
  - destruct (last c' n); [|done]. exfalso. apply G, Hd. eauto.
Qed.

(** ** Names are added and removed *)

(** The context with a subscription changed, after its symbols were. *)
Lemma consistent_put busy c syms heap s d d' :
  consistent busy c -> subscription_heap c !! s = Some d -> linked busy syms heap (<[s := symbols d']> (symbol_tables c)) -> used heap ->
  (sources_ok (orderSource d) -> sources_ok (orderSource d')) ->
  consistent busy (set_subscription_heap (<[s := d']> (subscription_heap c)) (set_objects syms heap c)).
Proof.
  intros [_ _ Ha Hso] Es Hl Hu Hd. split; [|done| |].
  - unfold symbol_tables. cbn. by rewrite fmap_insert.
  - cbn. rewrite dom_insert_L, Ha. apply elem_of_dom_2 in Es. set_solver.
  - apply map_Forall_insert_2; [|done]. apply Hd. exact (Hso s d Es).
Qed.
Lemma subs_put c syms heap s d' :
  subs (set_subscription_heap (<[s := d']> (subscription_heap c)) (set_objects syms heap c)) = <[s := view_of d']> (subs c).
Proof. unfold subs. cbn. by rewrite fmap_insert. Qed.
Lemma subs_lookup c s d : subscription_heap c !! s = Some d -> subs c !! s = Some (view_of d).
Proof. unfold subs. rewrite lookup_fmap. by intros ->. Qed.
Lemma live_lookup c s v : subs c !! s = Some v -> exists d, subscription_heap c !! s = Some d /\ view_of d = v.
Proof. unfold subs. rewrite lookup_fmap. destruct (subscription_heap c !! s); intros [= <-]; eauto. Qed.

(** What an operation may change besides the subscriptions. *)
Record changed (busy : option addr) (l : (list Z -> option (gmap Z dxf_event_data_t)) -> (list Z -> option (gmap Z dxf_event_data_t)) -> Prop)
  (m : gmap addr subscription_view) (c c' : context) : Prop := {
  changed_consistent : consistent busy c';
  changed_subs : subs c' = m;
  changed_calls : calls c' = calls c;
  changed_last : l (last c) (last c');
}.
Lemma changed_same busy l `{!Reflexive l} c : consistent busy c -> changed busy l (subs c) c c.
Proof. by split. Qed.
Lemma changed_trans busy l `{!Transitive l} m1 m2 c c1 c2 :
  changed busy l m1 c c1 -> changed busy l m2 c1 c2 -> changed busy l m2 c c2.
Proof. intros [? ? E1 L1] [? ? E2 L2]. split; [done|done|congruence|by etrans]. Qed.

Section names.
Context (create_ok : list Z -> bool).

Lemma add_symbol_spec busy c s v n :
  consistent busy c -> subs c !! s = Some v ->
  (exists c', add_symbol create_ok n s c = Ok tt c' /\ changed busy grows (<[s := with_names ({[n]} ∪ v_names v) v]> (subs c)) c c') \/
  (create_ok n = false /\ add_symbol create_ok n s c = Err dx_ec_success c).
Proof.
  intros H (d & Es & <-)%live_lookup. unfold add_symbol. rewrite (bind_ok _ _ _ _ _ (subscription_at_ok c s d Es)).
  destruct (symbols d !! n) as [a|] eqn:En.
  - left. exists c. split; [done|]. replace (<[s := _]> (subs c)) with (subs c).
    { apply changed_same; [apply _|done]. }
    rewrite insert_id; [done|]. rewrite (subs_lookup c s d Es). f_equal. unfold with_names, view_of. cbn. f_equal.
    apply elem_of_dom_2 in En. set_solver.
  - assert (Et : symbol_tables c !! s = Some (symbols d)) by (unfold symbol_tables; by rewrite lookup_fmap, Es).
    pose proof H as [Hli Hu _ _]. destruct (subscribe_spec create_ok busy c (symbol_tables c) s (symbols d) n Hli Hu Et En)
      as [(a & syms & heap & E & Hl & Hu' & Hg)|[Hc E]]; [left|right; by rewrite (bind_ok _ _ _ _ _ E)].
    rewrite (bind_ok _ _ _ _ _ E), (change_subscription_ok (set_objects syms heap c) s d) by done. eexists. split; [done|].
    split; [by apply (consistent_put busy c syms heap s d)| |done|done].
    rewrite (subs_put c syms heap s). f_equal. unfold with_names, view_of. cbn. by rewrite dom_insert_L.
Qed.

(** A list of names, added or removed one after the other. *)
Lemma add_loop_spec busy l s c v :
  consistent busy c -> subs c !! s = Some v ->
  exists c' X, changed busy grows (<[s := with_names (X ∪ v_names v) v]> (subs c)) c c' /\ X ⊆ symbol_names l /\
    ignored (add_symbols_loop create_ok l s) c = Ok tt c' /\
    ((forall n, create_ok n = true) -> add_symbols_loop create_ok l s c = Ok tt c' /\ X = symbol_names l).
Proof.
  revert c v. induction l as [|o l IH]; intros c v H Es.
  - exists c, ∅. split_and!; [|set_solver|done|done]. rewrite union_empty_l_L. rewrite insert_id by (by destruct v).
    by apply changed_same; [apply _|].
  - cbn [add_symbols_loop]. destruct o as [[|x n]|]; cbn [dx_string_null_or_empty from_option id]; [by apply IH| |by apply IH].
    destruct (add_symbol_spec busy c s v (x :: n) H Es) as [(c1 & E1 & H1)|[Hc E1]].
    + destruct (IH c1 (with_names ({[x :: n]} ∪ v_names v) v)) as (c2 & X & H2 & HX & E2 & E3).
      * apply (changed_consistent _ _ _ _ _ H1).
      * rewrite (changed_subs _ _ _ _ _ H1). apply lookup_insert_eq.
      * exists c2, ({[x :: n]} ∪ X). rewrite (changed_subs _ _ _ _ _ H1), insert_insert_eq in H2. split_and!.
        -- replace (with_names ({[x :: n]} ∪ X ∪ v_names v) v) with (with_names (X ∪ v_names (with_names ({[x :: n]} ∪ v_names v) v)) (with_names ({[x :: n]} ∪ v_names v) v)).
           ++ by eapply changed_trans; [apply _| |].
           ++ unfold with_names. cbn. f_equal. set_solver.
        -- unfold symbol_names in *. cbn. set_solver.
        -- unfold ignored in *. by rewrite (bind_ok _ _ _ _ _ E1).
        -- intros Hok. rewrite (bind_ok _ _ _ _ _ E1). destruct (E3 Hok) as [-> ->]. done.
    + exists c, ∅. split_and!; [|set_solver| |].
      * rewrite union_empty_l_L, insert_id by (by destruct v). by apply changed_same; [apply _|].
      * unfold ignored, checked_call. by rewrite E1.
      * intros Hok. by rewrite Hok in Hc.
Qed.

End names.

Lemma remove_symbol_spec busy c s v n :
  consistent busy c -> subs c !! s = Some v ->
  exists c', remove_symbol n s c = Ok tt c' /\ changed busy shrinks (<[s := with_names (v_names v ∖ {[n]}) v]> (subs c)) c c'.
Proof.
  intros H (d & Es & <-)%live_lookup. unfold remove_symbol. rewrite (bind_ok _ _ _ _ _ (subscription_at_ok c s d Es)).
  destruct (symbols d !! n) as [a|] eqn:En.
  - assert (Et : symbol_tables c !! s = Some (symbols d)) by (unfold symbol_tables; by rewrite lookup_fmap, Es).
    pose proof H as [Hli Hu _ _]. destruct (unsubscribe_spec busy c (symbol_tables c) s (symbols d) n a Hli Hu Et En)
      as (syms & heap & E & Hl & Hu' & Hg).
    rewrite (bind_ok _ _ _ _ _ E), (change_subscription_ok (set_objects syms heap c) s d) by done. eexists. split; [done|].
    split; [by apply (consistent_put busy c syms heap s d)| |done|done].
    rewrite (subs_put c syms heap s). f_equal. unfold with_names, view_of. cbn. by rewrite dom_delete_L.
  - exists c. split; [done|]. replace (<[s := _]> (subs c)) with (subs c).
    { apply changed_same; [apply _|done]. }
    rewrite insert_id; [done|]. rewrite (subs_lookup c s d Es). f_equal. unfold with_names, view_of. cbn. f_equal.
    apply not_elem_of_dom in En. set_solver.
Qed.
Lemma remove_loop_spec busy l s c v :
  consistent busy c -> subs c !! s = Some v ->
  exists c', remove_symbols_loop l s c = Ok tt c' /\
    changed busy shrinks (<[s := with_names (v_names v ∖ symbol_names l) v]> (subs c)) c c'.
Proof.
  revert c v. induction l as [|o l IH]; intros c v H Es.
  - exists c. split; [done|]. unfold symbol_names. cbn. rewrite difference_empty_L, insert_id by (by destruct v).
    by apply changed_same; [apply _|].
  - cbn [remove_symbols_loop]. destruct o as [[|x n]|]; cbn [dx_string_null_or_empty from_option id]; [by apply IH| |by apply IH].
    destruct (remove_symbol_spec busy c s v (x :: n) H Es) as (c1 & E1 & H1).
    destruct (IH c1 (with_names (v_names v ∖ {[x :: n]}) v)) as (c2 & E2 & H2).
    + apply (changed_consistent _ _ _ _ _ H1).
    + rewrite (changed_subs _ _ _ _ _ H1). apply lookup_insert_eq.
    + exists c2. rewrite (bind_ok _ _ _ _ _ E1). split; [done|]. rewrite (changed_subs _ _ _ _ _ H1), insert_insert_eq in H2.
      replace (with_names (v_names v ∖ symbol_names _) v) with
        (with_names (v_names (with_names (v_names v ∖ {[x :: n]}) v) ∖ symbol_names l) (with_names (v_names v ∖ {[x :: n]}) v)).
      * by eapply changed_trans; [apply _| |].
      * unfold with_names, symbol_names. cbn. f_equal. set_solver.
Qed.
(** ** Closing *)

Section close.
Context {It : Iteration}.

(** The table of the subscription keeps its names while its symbols are given up. *)
Lemma unsubscribe_loop_spec busy names c s d m :
  subscription_heap c !! s = Some d -> NoDup names ->
  linked busy (ctx_symbols c) (symbol_heap c) (<[s := m]> (symbol_tables c)) -> used (symbol_heap c) ->
  (forall n, n ∈ names -> is_Some (m !! n) /\ m !! n = symbols d !! n) ->
  exists syms heap, unsubscribe_loop names s c = Ok true (set_objects syms heap c) /\
    linked busy syms heap (<[s := filter (fun x => x.1 ∉ names) m]> (symbol_tables c)) /\ used heap /\ shrinks (last c) (last_of syms heap).
Proof using Type.
  revert c m. induction names as [|n names IH]; intros c m Es Hd Hl Hu Hm.
  - exists (ctx_symbols c), (symbol_heap c). split_and!; [by destruct c| |done|by left].
    rewrite map_filter_id; [done|]. intros n a _. apply not_elem_of_nil.
  - apply NoDup_cons in Hd as [Hn Hd]. cbn [unsubscribe_loop]. rewrite (bind_ok _ _ _ _ _ (subscription_at_ok c s d Es)).
    destruct (Hm n) as [[a Ea] Ed]; [by left|]. rewrite Ea in Ed. rewrite <- Ed.
    rewrite (bind_ok (of_option (Some _)) _ _ _ _ eq_refl).
    destruct (unsubscribe_spec busy c _ s m n a Hl Hu (lookup_insert_eq _ _ _) Ea) as (syms & heap & E & Hl' & Hu' & Hg).
    rewrite (bind_ok _ _ _ _ _ E). rewrite insert_insert_eq in Hl'.
    destruct (IH (set_objects syms heap c) (delete n m)) as (syms2 & heap2 & E2 & Hl2 & Hu2 & Hg2); [done|done|done|done| |].
    { intros n' Hin. rewrite lookup_delete_ne by (intros ->; done). apply Hm. by right. }
    exists syms2, heap2. rewrite (bind_ok _ _ _ _ _ E2). split_and!; [done| |done|by etrans].
    replace (filter _ m) with (filter (fun x => x.1 ∉ names) (delete n m)); [done|].
    apply map_eq. intros n'. rewrite !map_lookup_filter. destruct (decide (n' = n)) as [->|].
    + rewrite lookup_delete_eq, Ea. cbn. rewrite option_guard_False; [done|]. set_solver.
    + rewrite lookup_delete_ne by done. destruct (m !! n'); [|done]. cbn. apply option_guard_iff. set_solver.
Qed.

Lemma linked_drop busy syms heap tbls s : linked busy syms heap (<[s := ∅]> tbls) -> linked busy syms heap (delete s tbls).
Proof using Type.
  intros [H1 H2 H3 H4 H5 H6]. split; try done.
  - intros a d s' E Hin. destruct (H4 a d s' E Hin) as (m & Em & En). exists m. split; [|done].
    apply lookup_insert_Some in Em as [[<- <-]|[Hne Em]]; [by rewrite lookup_empty in En|]. by rewrite lookup_delete_ne.
  - intros s' m n a [Hne E]%lookup_delete_Some E2. apply (H5 s' m n a); [|done]. by rewrite lookup_insert_ne.
Qed.

Definition closed_context (syms : gmap (list Z) addr) (heap : gmap addr SymbolData) (s : addr) (remove_from_context : bool)
  (c : context) : context :=
  set_subscription_heap (delete s (subscription_heap c))
    (set_ctx_subscriptions (if remove_from_context then ctx_subscriptions c ∖ {[s]} else ctx_subscriptions c) (set_objects syms heap c)).

Lemma close_ok busy c s d b :
  linked busy (ctx_symbols c) (symbol_heap c) (symbol_tables c) -> used (symbol_heap c) -> subscription_heap c !! s = Some d ->
  exists syms heap, closeEventSubscription (Some s) b c = Ok tt (closed_context syms heap s b c) /\
    linked busy syms heap (delete s (symbol_tables c)) /\ used heap /\ shrinks (last c) (last_of syms heap).
Proof using Type.
  intros H Hu Es. unfold closeEventSubscription, with_subscription. rewrite (bind_ok _ _ _ _ _ (subscription_at_ok c s d Es)).
  pose proof (symbols_order_elements (dom (symbols d))) as Hp. set (names := symbols_order _) in *.
  assert (Hin : forall n, n ∈ names <-> is_Some (symbols d !! n)) by (intros n; by rewrite Hp, elem_of_elements, elem_of_dom).
  destruct (unsubscribe_loop_spec busy names c s d (symbols d) Es) as (syms & heap & E & Hl & Hu' & Hg).
  { rewrite Hp. apply NoDup_elements. }
  { rewrite insert_id; [done|]. unfold symbol_tables. by rewrite lookup_fmap, Es. }
  { done. }
  { intros n Hn. by apply Hin in Hn. }
  replace (filter _ _) with (∅ : gmap (list Z) addr) in Hl.
  2:{ symmetry. apply map_empty_filter_2. intros n a En Hx. apply Hx, Hin. by exists a. }
  exists syms, heap. split; [|by split; [apply linked_drop|]]. rewrite (bind_ok _ _ _ _ _ E).
  rewrite (bind_ok _ _ _ _ _ (change_subscription_ok (set_objects syms heap c) s d _ Es)).
  rewrite (bind_ok _ _ _ _ _ (change_subscription_ok _ s _ _ (lookup_insert_eq _ _ _))).
  set (c1 := set_subscription_heap _ _). assert (Ec : exists d1, subscription_heap c1 !! s = Some d1) by (eexists; apply lookup_insert_eq).
  destruct Ec as [d1 Ec].
  set (c2 := set_ctx_subscriptions (if b then ctx_subscriptions c ∖ {[s]} else ctx_subscriptions c) c1).
  rewrite (bind_ok _ _ c1 tt c2) by (by destruct b). unfold free_subscription, clearOrderSource, delete_subscription.
  assert (Ec2 : subscription_heap c2 !! s = Some d1) by done.
  unfold checked_call at 1 2. rewrite (change_subscription_ok c2 s d1 _ Ec2).
  rewrite (bind_ok _ _ _ _ _ (subscription_at_ok _ s _ (lookup_insert_eq _ _ _))).
  unfold update, closed_context, ret. cbn. f_equal. unfold set_subscription_heap, set_ctx_subscriptions, set_objects. cbn. f_equal.
  by rewrite !delete_insert_eq.
Qed.

Lemma close_spec busy c s v :
  consistent busy c -> subs c !! s = Some v ->
  exists c', dx_close_event_subscription (Some s) c = Ok tt c' /\ changed busy shrinks (delete s (subs c)) c c'.
Proof using Type.
  intros [H Hu Ha Hso] (d & Es & _)%live_lookup. destruct (close_ok busy c s d true H Hu Es) as (syms & heap & E & Hl & Hu' & Hg).
  eexists. split; [exact E|]. split; [split| |done|done].
  - unfold symbol_tables. cbn. by rewrite fmap_delete.
  - done.
  - cbn. by rewrite Ha, dom_delete_L.
  - by apply map_Forall_delete.
  - unfold subs. cbn. by rewrite fmap_delete.
Qed.

(** The destructor closes every subscription and leaves no symbol. *)
Lemma close_loop_spec l c :
  linked None (ctx_symbols c) (symbol_heap c) (symbol_tables c) -> used (symbol_heap c) -> NoDup l ->
  (forall s, s ∈ l <-> s ∈ dom (subscription_heap c)) ->
  exists c', close_loop l c = Ok tt c' /\ subscription_heap c' = ∅ /\ symbol_heap c' = ∅ /\ ctx_symbols c' = ∅.
Proof using Type.
  revert c. induction l as [|s l IH]; intros c H Hu Hd Hin.
  - exists c. split; [done|]. assert (Es : subscription_heap c = ∅).
    { apply dom_empty_inv_L. apply set_eq. intros s. rewrite <- Hin. set_solver. }
    assert (Eh : symbol_heap c = ∅).
    { apply map_empty. intros a. destruct (symbol_heap c !! a) as [d|] eqn:E; [|done]. exfalso.
      pose proof (Hu a d E) as P. rewrite (counted _ _ _ _ H a d E) in P. unfold references in P.
      rewrite bool_decide_eq_false_2 in P by done.
      assert (subscriptions d <> ∅) as (s & Hs)%set_choose_L by (intros E0; rewrite E0, size_empty in P; lia).
      destruct (subscribed _ _ _ _ H a d s E Hs) as (m & Em & _). unfold symbol_tables in Em. by rewrite Es, fmap_empty, lookup_empty in Em. }
    split_and!; [done|done|]. apply map_empty. intros n. destruct (ctx_symbols c !! n) as [a|] eqn:E; [|done].
    destruct (named _ _ _ _ H n a E) as (d & Ed & _). by rewrite Eh, lookup_empty in Ed.
  - apply NoDup_cons in Hd as [Hs Hd]. assert (Hdom : s ∈ dom (subscription_heap c)) by (apply Hin; by left).
    apply elem_of_dom in Hdom as [d Es]. destruct (close_ok None c s d false H Hu Es) as (syms & heap & E & Hl & Hu' & _).
    cbn [close_loop]. unfold ignored. unfold checked_call. rewrite E. apply IH; [|done|done|].
    + unfold symbol_tables, closed_context. cbn. by rewrite fmap_delete.
    + intros s'. cbn. rewrite dom_delete_L, elem_of_difference, not_elem_of_singleton, <- Hin, elem_of_cons.
      split; [intros Hl2; split; [by right|congruence]|intros [[->|?] ?]; done].
Qed.
End close.

(** ** Order sources *)

(** A source as it is stored. *)
Definition stored (source : list Z) : list Z := source ++ replicate (DXF_RECORD_SUFFIX_SIZE - length source) 0.

Lemma c_string_no_terminator l : no_terminator (c_string l).
Proof. apply Forall_forall. intros c Hc ->. by apply (c_string_nonzero l). Qed.
Lemma compare_c_strings l r : dx_compare_strings (c_string l) (c_string r) = 0 <-> c_string l = c_string r.
Proof.
  split; [apply compare_strings_eq; apply c_string_no_terminator|]. intros ->.
  apply (cmp_refl (cmp := dx_compare_strings)).
Qed.

Lemma search_source_spec a source :
  sources_ok a ->
  exists found idx, search_source a source = Some (found, idx) /\
    (found = bool_decide (c_string source ∈ c_string <$> contents a)) /\ (found = false -> idx = arr_size a).
Proof.
  intros [Hwf Ht]. unfold search_source, DX_ARRAY_SEARCH. rewrite Ht.
  destruct (ls_loop_spec DX_ORDER_SOURCE_COMPARATOR (arr_elements a) source (arr_size a - 0) 0) as (found & idx & E & Hf & Hn).
  { destruct Hwf. lia. }
  exists found, idx. rewrite E. split; [done|]. destruct found; [|split; [|intros _; lia]].
  - split; [|done]. destruct Hf as [Hi (x & Ex & Hx)]. symmetry. apply bool_decide_eq_true_2. apply compare_c_strings in Hx.
    rewrite <- Hx. apply list_elem_of_fmap_2. apply (list_elem_of_lookup_2 _ idx). by rewrite contents_lookup by lia.
  - symmetry. apply bool_decide_eq_false_2. intros (x & Ex & Hx)%list_elem_of_fmap.
    apply list_elem_of_lookup in Hx as [i Hi]. pose proof (lookup_lt_Some _ _ _ Hi) as Hlt. rewrite length_contents in Hlt by done.
    rewrite contents_lookup in Hi by done. apply (Hn i x); [lia|done|]. by apply compare_c_strings.
Qed.

Lemma change_subscription_spec busy l `{!Reflexive l} c s d f :
  consistent busy c -> subscription_heap c !! s = Some d -> symbols (f d) = symbols d ->
  (sources_ok (orderSource d) -> sources_ok (orderSource (f d))) ->
  exists c', change_subscription s f c = Ok tt c' /\ changed busy l (<[s := view_of (f d)]> (subs c)) c c'.
Proof.
  intros H Es Hf Hso. eexists. split; [by apply change_subscription_ok|]. split; [| |done|by unfold last].
  - pose proof (consistent_put busy c (ctx_symbols c) (symbol_heap c) s d (f d) H Es) as Hp. destruct c. apply Hp; [|by destruct H|done].
    rewrite Hf, insert_id; [by destruct H|]. unfold symbol_tables. by rewrite lookup_fmap, Es.
  - unfold subs. cbn. by rewrite fmap_insert.
Qed.

(** A new subscription has no symbols. *)
Lemma linked_fresh busy syms heap tbls s : linked busy syms heap tbls -> tbls !! s = None -> linked busy syms heap (<[s := ∅]> tbls).
Proof.
  intros [H1 H2 H3 H4 H5 H6] Hs. split; try done.
  - intros a d s' E Hin. destruct (H4 a d s' E Hin) as (m & Em & En). exists m. split; [|done]. rewrite lookup_insert_ne; congruence.
  - intros s' m n a [[<- <-]|[_ E]]%lookup_insert_Some E2; [by rewrite lookup_empty in E2|by apply (H5 s' m n a)].
Qed.

Section sources.
Context (alloc : nat -> bool) (alloc_ok : forall n, alloc n = true).

Lemma add_source_ok s c d source :
  subscription_heap c !! s = Some d -> sources_ok (orderSource d) -> (length source < DXF_RECORD_SUFFIX_SIZE)%nat -> 0 ∉ source ->
  source ∉ c_string <$> contents (orderSource d) ->
  exists a, dx_add_order_source alloc s source c =
      Ok tt (set_subscription_heap (<[s := set_orderSource a d]> (subscription_heap c)) c) /\
    sources_ok a /\ contents a = contents (orderSource d) ++ [stored source].
Proof using alloc_ok.
  intros Es Hso Hl H0 Hn.
  unfold dx_add_order_source. rewrite (bind_ok _ _ _ _ _ (subscription_at_ok c s d Es)).
  rewrite copy_suffix by (done || lia).
  change (source ++ replicate (DXF_RECORD_SUFFIX_SIZE - length source) 0) with (stored source).
  rewrite (bind_ok (of_option (Some _)) _ _ _ _ eq_refl).
  assert (Hst : c_string (stored source) = source /\ 0 ∈ stored source).
  { unfold stored. destruct (DXF_RECORD_SUFFIX_SIZE - length source)%nat eqn:E; [lia|]. cbn. split; [by apply c_string_zero|set_solver]. }
  destruct Hst as [Hc Hz].
  destruct (search_source_spec (orderSource d) (stored source) Hso) as (found & idx & Ef & Hf & Hi).
  rewrite Hc in Hf. rewrite bool_decide_eq_false_2 in Hf by done. subst found.
  match goal with |- context [checked_call ?m _ c] => assert (Em : m c = Ok (false, arr_size (orderSource d)) c) end.
  { destruct (arr_elements (orderSource d)) eqn:Ea; [destruct Hso as [[? Hlen] _]; rewrite Ea in Hlen; cbn in Hlen; unfold ret; repeat f_equal; lia|].
    unfold terminated at 1. cbn [forallb]. rewrite bool_decide_eq_true_2 by done. cbn. by rewrite Ef, Hi. }
  rewrite (bind_ok _ _ _ _ _ Em). cbn [fst snd].
  destruct (array_append_spec (replicate DXF_RECORD_SUFFIX_SIZE 0) alloc (orderSource d) (stored source)) as (a' & Ea & Hwf & Hcon); [apply Hso|done|].
  rewrite Ea, (bind_ok (of_option (Some _)) _ _ _ _ eq_refl). cbn [fst snd].
  exists a'. rewrite (bind_ok _ _ _ _ _ (change_subscription_ok c s d (set_orderSource a') Es)). split_and!; [done| |done].
  destruct Hso as [_ Ht]. split; [done|]. rewrite Hcon. unfold terminated. rewrite forallb_app. cbn.
  by rewrite bool_decide_eq_true_2, andb_true_r.
Qed.

Lemma c_string_stored source : (length source < DXF_RECORD_SUFFIX_SIZE)%nat -> 0 ∉ source -> c_string (stored source) = source.
Proof using Type.
  intros H H0. unfold stored. destruct (DXF_RECORD_SUFFIX_SIZE - length source)%nat eqn:E; [lia|]. by apply c_string_zero.
Qed.

Lemma add_sources_ok l s c d :
  subscription_heap c !! s = Some d -> sources_ok (orderSource d) ->
  Forall (fun source => (length source < DXF_RECORD_SUFFIX_SIZE)%nat /\ 0 ∉ source) l ->
  NoDup ((c_string <$> contents (orderSource d)) ++ l) ->
  exists a, add_sources_loop alloc l s c = Ok tt (set_subscription_heap (<[s := set_orderSource a d]> (subscription_heap c)) c) /\
    sources_ok a /\ contents a = contents (orderSource d) ++ (stored <$> l).
Proof using alloc_ok.
  revert c d. induction l as [|source l IH]; intros c d Es Hso Hl Hd.
  - exists (orderSource d). cbn. rewrite app_nil_r. split; [|done]. unfold ret. f_equal. destruct c. cbn in *.
    unfold set_subscription_heap. cbn. f_equal. rewrite insert_id; [done|]. by rewrite Es; destruct d.
  - apply Forall_cons in Hl as [[Hlen H0] Hl]. destruct (add_source_ok s c d source Es Hso Hlen H0) as (a & E & Hso' & Ha).
    { apply NoDup_app in Hd as (_ & Hd & _). intros Hin. apply (Hd source Hin). by left. }
    cbn [add_sources_loop]. rewrite (bind_ok _ _ _ _ _ E).
    destruct (IH (set_subscription_heap (<[s := set_orderSource a d]> (subscription_heap c)) c) (set_orderSource a d) (lookup_insert_eq _ _ _) Hso' Hl) as (a' & E' & Hso2 & Ha').
    { cbn. rewrite Ha, fmap_app. cbn. rewrite c_string_stored by done. by rewrite <- app_assoc. }
    exists a'. rewrite E'. cbn in *. rewrite insert_insert_eq. split_and!; [done|done|]. by rewrite Ha', Ha, <- app_assoc.
Qed.

(** The sources a new subscription to orders has. *)
Definition created_sources (types : Z) : list (list Z) :=
  if Z.land types DXF_ET_ORDER =? 0 then [] else stored <$> dx_all_order_sources ++ [[]].
Lemma all_sources_ok :
  Forall (fun source => (length source < DXF_RECORD_SUFFIX_SIZE)%nat /\ 0 ∉ source) (dx_all_order_sources ++ [[]]) /\
  NoDup (dx_all_order_sources ++ [[]]).
Proof using Type. split; apply (bool_decide_unpack _); vm_compute; exact I. Qed.

Lemma create_spec busy l `{!Reflexive l} types flags subscription_time c :
  consistent busy c -> Z.land types DXF_ET_UNUSED = 0 ->
  exists s c', dx_create_event_subscription true alloc types flags subscription_time c = Ok s c' /\ subs c !! s = None /\
    changed busy l (<[s := SubscriptionView types ∅ ∅ (created_sources types) flags subscription_time]> (subs c)) c c'.
Proof using alloc_ok.
  intros H Ht. unfold dx_create_event_subscription. rewrite Ht. cbn [negb Z.eqb]. rewrite (bind_ok get _ _ _ _ eq_refl).
  set (s := fresh (dom (subscription_heap c))). assert (Hs : subscription_heap c !! s = None) by (apply not_elem_of_dom, is_fresh).
  set (d := MakeSubscriptionData types ∅ ∅ DX_EMPTY_ARRAY flags subscription_time).
  set (c1 := set_subscription_heap (<[s := d]> (subscription_heap c)) c). rewrite (bind_ok (put _) _ _ tt c1 eq_refl).
  assert (Ha : exists a c2, (if Z.land types DXF_ET_ORDER =? 0 then ret (inl tt)
      else catch (add_sources_loop alloc (dx_all_order_sources ++ [[]]) s)) c1 = Ok (inl tt) c2 /\
    c2 = set_subscription_heap (<[s := set_orderSource a d]> (subscription_heap c)) c /\ sources_ok a /\ contents a = created_sources types).
  { unfold created_sources. destruct (_ =? 0).
    - exists DX_EMPTY_ARRAY, c1. split_and!; [done|done|by split; [apply array_wf_empty|]|done].
    - destruct all_sources_ok as [Hf Hd].
      destruct (add_sources_ok _ s c1 d (lookup_insert_eq _ _ _) ltac:(by split; [apply array_wf_empty|]) Hf Hd) as (a & E & Hso & Hc).
      exists a. eexists. rewrite (catch_ok _ _ _ _ E). split; [done|]. cbn. by rewrite insert_insert_eq. }
  destruct Ha as (a & c2 & E & -> & Hso & Hc). rewrite (bind_ok _ _ _ _ _ E). unfold addSubscription. rewrite (bind_ok (update _) _ _ _ _ eq_refl).
  exists s. eexists. split; [done|]. split; [unfold subs; by rewrite lookup_fmap, Hs|]. destruct H as [H Hu Hal Hsrc]. split; [split| |done|by unfold last].
  - unfold symbol_tables. cbn. rewrite fmap_insert. cbn. apply linked_fresh; [done|]. unfold symbol_tables. by rewrite lookup_fmap, Hs.
  - done.
  - cbn. by rewrite Hal, dom_insert_L.
  - cbn. by apply map_Forall_insert_2.
  - unfold subs. cbn. rewrite fmap_insert. f_equal. unfold view_of. cbn. by rewrite Hc, dom_empty_L.
Qed.
End sources.

(** ** The operations of the user *)

(** An operation is allowed for subscriptions that are not closed, a listener that
    is not null and events that there are. *)
Definition live (m : gmap addr subscription_view) (s : dxf_subscription_t) : Prop := exists x, s = Some x /\ is_Some (m !! x).
Definition allowed (m : gmap addr subscription_view) (op : user_op) : Prop :=
  match op with
  | user_add_symbols s _ | user_remove_symbols s _ | user_set_flags s _ | user_close s => live m s
  | user_add_listener s listener _ _ | user_remove_listener s listener => live m s /\ listener <> 0
  | user_create types _ _ => Z.land types DXF_ET_UNUSED = 0
  end.

(** What it does to the subscriptions. *)
Definition changes_subscription (s : dxf_subscription_t) (f : subscription_view -> subscription_view)
  (m m' : gmap addr subscription_view) : Prop :=
  exists x v, s = Some x /\ m !! x = Some v /\ m' = <[x := f v]> m.
Definition abstract_op (op : user_op) (m m' : gmap addr subscription_view) : Prop :=
  match op with
  | user_add_symbols s l => changes_subscription s (fun v => with_names (symbol_names l ∪ v_names v) v) m m'
  | user_remove_symbols s l => changes_subscription s (fun v => with_names (v_names v ∖ symbol_names l) v) m m'
  | user_add_listener s listener ver user_data =>
      changes_subscription s (fun v => with_listeners (v_listeners v ∪ {[listener := MakeListenerContext ver user_data]}) v) m m'
  | user_remove_listener s listener => changes_subscription s (fun v => with_listeners (delete listener (v_listeners v)) v) m m'
  | user_set_flags s flags => changes_subscription s (with_flags flags) m m'
  | user_create types flags subscription_time =>
      exists s, m !! s = None /\ m' = <[s := SubscriptionView types ∅ ∅ (created_sources types) flags subscription_time]> m
  | user_close s => exists x, s = Some x /\ m' = delete x m
  end.

Section operations.
Context {It : Iteration} (create_ok : list Z -> bool) (alloc : nat -> bool).
Context (create_always : forall n, create_ok n = true) (alloc_ok : forall n, alloc n = true).

Definition either (l l' : list Z -> option (gmap Z dxf_event_data_t)) : Prop := grows l l' \/ shrinks l l'.
#[local] Instance either_reflexive : Reflexive either.
Proof using Type. by left. Qed.

Lemma changed_either busy (l : relation _) m c c' :
  (forall x y, l x y -> either x y) -> changed busy l m c c' -> changed busy either m c c'.
Proof using Type. intros Hl [? ? ? ?]. split; auto. Qed.

Lemma change_view_spec busy c s v f g :
  consistent busy c -> subs c !! s = Some v -> (forall d, symbols (f d) = symbols d /\ orderSource (f d) = orderSource d) ->
  (forall d, view_of (f d) = g (view_of d)) ->
  exists c', change_subscription s f c = Ok tt c' /\ changed busy either (<[s := g v]> (subs c)) c c'.
Proof using Type.
  intros H (d & Es & <-)%live_lookup Hf Hg. rewrite <- Hg. destruct (Hf d) as [Hs Ho].
  apply (change_subscription_spec busy either c s d f H Es Hs). by rewrite Ho.
Qed.

Lemma run_user_op_spec busy op c :
  consistent busy c -> allowed (subs c) op ->
  exists c' m, run_user_op create_ok true alloc op c = Ok tt c' /\ abstract_op op (subs c) m /\ changed busy either m c c'.
Proof using alloc_ok create_always.
  intros H Ha. destruct op as [s l|s l|s p ver ud|s p|s flags|types flags t|s]; cbn [allowed] in Ha.
  - destruct Ha as (x & -> & v & Ev). destruct (add_loop_spec create_ok busy l x c v H Ev) as (c' & X & Hc & _ & _ & E).
    destruct (E create_always) as [E1 ->]. exists c'. eexists. split; [exact E1|]. split; [by exists x, v|].
    eapply changed_either, Hc. by left.
  - destruct Ha as (x & -> & v & Ev). destruct (remove_loop_spec busy l x c v H Ev) as (c' & E & Hc).
    exists c'. eexists. split; [exact E|]. split; [by exists x, v|]. eapply changed_either, Hc. by right.
  - destruct Ha as [(x & -> & v & Ev) Hp]. cbn [run_user_op]. unfold dx_add_listener_impl, with_subscription.
    rewrite (proj2 (Z.eqb_neq p 0)) by done.
    destruct (change_view_spec busy c x v (emplace_listener p ver ud) (fun v => with_listeners (v_listeners v ∪ {[p := MakeListenerContext ver ud]}) v) H Ev) as (c' & E & Hc).
    3: { exists c'. eexists. split; [exact E|]. split; [by exists x, v|done]. }
    + intros d. unfold emplace_listener. by destruct (listeners d !! p).
    + intros d. unfold emplace_listener, view_of, with_listeners. cbn. destruct (listeners d !! p) eqn:El; cbn; f_equal.
      * apply map_eq. intros i. rewrite lookup_union. destruct (decide (i = p)) as [->|].
        -- by rewrite El, lookup_singleton_eq.
        -- rewrite lookup_singleton_ne by done. by destruct (listeners d !! i).
      * rewrite <- insert_union_singleton_r; done.
  - destruct Ha as [(x & -> & v & Ev) Hp]. cbn [run_user_op]. unfold dx_remove_listener_impl, with_subscription.
    rewrite (proj2 (Z.eqb_neq p 0)) by done.
    destruct (change_view_spec busy c x v (fun d => set_listeners (delete p (listeners d)) d)
      (fun v => with_listeners (delete p (v_listeners v)) v) H Ev) as (c' & E & Hc); [done|done|].
    exists c'. eexists. split; [exact E|]. split; [by exists x, v|done].
  - destruct Ha as (x & -> & v & Ev).
    destruct (change_view_spec busy c x v (set_subscriptionFlags flags) (with_flags flags) H Ev) as (c' & E & Hc); [done|done|].
    exists c'. eexists. split; [exact E|]. split; [by exists x, v|done].
  - destruct (create_spec alloc alloc_ok busy either types flags t c H Ha) as (x & c' & E & Hx & Hc).
    exists c'. eexists. split; [by unfold run_user_op, ignored; rewrite E|]. split; [by exists x|done].
  - destruct Ha as (x & -> & v & Ev). destruct (close_spec busy c x v H Ev) as (c' & E & Hc).
    exists c'. eexists. split; [exact E|]. split; [by exists x|]. eapply changed_either, Hc. by right.
Qed.
End operations.
