(* ===== verification/Delivery.v ===== *)
(** * Delivery: an event and the listeners it reaches

    Which listeners an event is passed to, and what the listeners may do with the
    subscriptions while they are called. *)

From S2P Require Import Prelude Arrays Algorithms Input EventData Properties DataStructures Subscription ClientMessages PriceLevelSource EventSubscription SubscriptionTheory SubscriptionRefinement.
Local Open Scope Z_scope.
Local Open Scope c_scope.

(** ** Who gets an event *)

(** Whether a subscription is to an event: its type, and for an order its source,
    unless the subscription has no sources. *)
Definition wanted (v : subscription_view) (event_id : dx_event_id_t) (data : dxf_event_data_t) : bool :=
  asked (v_types v) event_id &&
  (negb (bool_decide (event_id = dx_eid_order)) || bool_decide (v_sources v = []) ||
   match data with ev_order order => bool_decide (c_string (order_source order) ∈ c_string <$> v_sources v) | _ => false end).

Section event.
Context (event_id : dx_event_id_t) (symbol_name : list Z) (data : dxf_event_data_t) (event_params : dxf_event_params_t).

Definition event_call (s : addr) (listener : Z) (lc : ListenerContext) : listener_call :=
  ListenerCall s listener (version lc) (DX_EVENT_BIT_MASK event_id) symbol_name data
    (match version lc with Default => None | V2 => Some event_params end) (userData lc).
Definition listener_calls (s : addr) (m : gmap Z ListenerContext) (l : list Z) : list listener_call :=
  omap (fun p => event_call s p <$> m !! p) l.

(** The calls of the listeners of a subscription. *)
Definition subscription_calls (m : gmap addr subscription_view) (listeners_in : gset Z -> list Z) (s : addr) : list listener_call :=
  match m !! s with
  | Some v =>
      if bool_decide (symbol_name ∈ v_names v) && wanted v event_id data
      then listener_calls s (v_listeners v) (listeners_in (dom (v_listeners v))) else []
  | None => []
  end.
Definition subscribers (m : gmap addr subscription_view) (found : list Z) : gset addr :=
  dom (filter (fun p => found ∈ v_names p.2) m).
Definition deliveries (m : gmap addr subscription_view) (found : list Z) : list listener_call :=
  elements (subscribers m found) ≫= subscription_calls m elements.

(** The last event of a symbol. *)
Definition stored_event (found : list Z) (l : gmap (list Z) (gmap Z dxf_event_data_t)) : gmap (list Z) (gmap Z dxf_event_data_t) :=
  alter (<[event_number event_id := data]>) found l.
End event.

Definition add_calls (l : list listener_call) (c : context) : context :=
  MakeContext (ctx_symbols c) (ctx_subscriptions c) (symbol_heap c) (subscription_heap c) (calls c ++ l).
Lemma add_calls_nil c : add_calls [] c = c.
Proof. destruct c. unfold add_calls. cbn. by rewrite app_nil_r. Qed.
Lemma add_calls_app l1 l2 c : add_calls l2 (add_calls l1 c) = add_calls (l1 ++ l2) c.
Proof. unfold add_calls. cbn. by rewrite app_assoc. Qed.

(** ** Listeners that only listen *)

Section quiet.
Context {It : Iteration} (create_ok : list Z -> bool) (new_ok : bool) (alloc : nat -> bool).
Context (answer : list listener_call -> list user_op) (quiet : forall l, answer l = []).
Context (event_id : dx_event_id_t) (symbol_name : list Z) (data : dxf_event_data_t) (event_params : dxf_event_params_t).
Context (data_ok : event_of event_id data = true).

Lemma call_quiet x c : notify_listener create_ok new_ok alloc answer x c = Ok tt (add_calls [x] c).
Proof using quiet. unfold notify_listener. rewrite (bind_ok (update _) _ _ _ _ eq_refl), (bind_ok get _ _ _ _ eq_refl). by rewrite quiet. Qed.

Lemma listeners_loop_quiet l s d c :
  subscription_heap c !! s = Some d -> (forall p, p ∈ l -> p ∈ dom (listeners d)) ->
  listeners_loop create_ok new_ok alloc answer l s (DX_EVENT_BIT_MASK event_id) symbol_name data event_params c =
    Ok tt (add_calls (listener_calls event_id symbol_name data event_params s (listeners d) l) c).
Proof using quiet.
  revert c. induction l as [|p l IH]; intros c Es Hl; [cbn; by rewrite add_calls_nil|].
  cbn [listeners_loop]. assert (exists lc, listeners d !! p = Some lc) as [lc Ep] by (apply elem_of_dom, Hl; by left).
  set (x := event_call event_id symbol_name data event_params s p lc).
  rewrite (bind_ok _ _ _ _ _ (subscription_at_ok c s d Es)), Ep.
  match goal with |- checked_call ?m _ _ = _ => assert (E : m c = Ok tt (add_calls [x] c)) end.
  { rewrite (bind_ok _ _ _ _ _ (call_quiet x c)), (bind_ok _ _ _ _ _ (subscription_at_ok (add_calls [x] c) s d Es)).
    unfold iterator_valid. rewrite !bool_decide_eq_true_2; [done|set_solver|by apply elem_of_dom_2 in Ep]. }
  rewrite (bind_ok _ _ _ _ _ E), IH; [|done|intros; apply Hl; by right].
  unfold listener_calls. cbn [omap list_omap]. rewrite Ep. cbn. by rewrite add_calls_app.
Qed.

Lemma call_subscr_quiet s d c :
  subscription_heap c !! s = Some d ->
  dx_call_subscr_listeners create_ok new_ok alloc answer s (DX_EVENT_BIT_MASK event_id) symbol_name data event_params c =
    Ok tt (add_calls (if bool_decide (symbol_name ∈ dom (symbols d))
      then listener_calls event_id symbol_name data event_params s (listeners d) (listeners_order (dom (listeners d))) else []) c).
Proof using quiet.
  intros Es. unfold dx_call_subscr_listeners. rewrite (bind_ok _ _ _ _ _ (subscription_at_ok c s d Es)).
  destruct (symbols d !! symbol_name) eqn:E.
  - rewrite bool_decide_eq_true_2 by by apply elem_of_dom_2 in E. apply listeners_loop_quiet; [done|].
    intros p. by rewrite listeners_order_elements, elem_of_elements.
  - rewrite bool_decide_eq_false_2 by by apply not_elem_of_dom. by rewrite add_calls_nil.
Qed.

(** The sources are searched as [wanted] says. *)
Lemma search_order_source d order :
  sources_ok (orderSource d) ->
  exists idx, (if terminated (contents (orderSource d))
    then DX_ARRAY_SEARCH DX_ORDER_SOURCE_COMPARATOR_NONSYM (arr_elements (orderSource d)) 0 (arr_size (orderSource d)) (order_source order) false
    else None) = Some (bool_decide (c_string (order_source order) ∈ c_string <$> contents (orderSource d)), idx).
Proof using Type.
  intros H. destruct (search_source_spec (orderSource d) (order_source order) H) as (found & idx & E & -> & _). by exists idx.
Qed.

Lemma no_sources d : sources_ok (orderSource d) -> (0 <? arr_size (orderSource d))%nat = negb (bool_decide (contents (orderSource d) = [])).
Proof using Type.
  intros [H _]. pose proof (length_contents _ H) as L. destruct (contents (orderSource d)); cbn in L; rewrite <- L; [done|].
  by rewrite bool_decide_eq_false_2.
Qed.

(** The condition of a subscription, whatever is done with it then. *)
Lemma subscription_condition {A} d (yes no : M context A) c :
  sources_ok (orderSource d) ->
  (if negb (asked (event_types d) event_id) then no
   else if bool_decide (event_id = dx_eid_order) && (0 <? arr_size (orderSource d))%nat then
     match data with
     | ev_order order =>
         found <-- of_option (if terminated (contents (orderSource d)) then
             DX_ARRAY_SEARCH DX_ORDER_SOURCE_COMPARATOR_NONSYM (arr_elements (orderSource d)) 0
               (arr_size (orderSource d)) (order_source order) false
           else None);;
         if (found.1 : bool) then yes else no
     | _ => undefined
     end
   else yes) c = (if wanted (view_of d) event_id data then yes else no) c.
Proof using data_ok.
  intros Hso. unfold wanted. cbn [v_types v_sources view_of]. destruct (asked _ _); [|done]. cbn [negb andb].
  rewrite no_sources by done. case_bool_decide as Ho; [|done]. cbn [andb negb orb].
  case_bool_decide as Hs; [done|]. cbn [negb orb]. subst. destruct data; try done.
  destruct (search_order_source d x Hso) as [idx E]. by rewrite E.
Qed.

Lemma subscriptions_loop_quiet l c :
  map_Forall (fun _ d => sources_ok (orderSource d)) (subscription_heap c) -> (forall s, s ∈ l -> s ∈ dom (subscription_heap c)) ->
  subscriptions_loop create_ok new_ok alloc answer l event_id symbol_name data event_params c =
    Ok tt (add_calls (l ≫= subscription_calls event_id symbol_name data event_params (subs c) listeners_order) c).
Proof using quiet data_ok.
  revert c. induction l as [|s l IH]; intros c Hso Hl; [cbn; by rewrite add_calls_nil|].
  cbn [subscriptions_loop]. assert (exists d, subscription_heap c !! s = Some d) as [d Es] by (apply elem_of_dom, Hl; by left).
  set (ys := subscription_calls event_id symbol_name data event_params (subs c) listeners_order s).
  match goal with |- checked_call ?m _ _ = _ => assert (E : m c = Ok tt (add_calls ys c)) end.
  { rewrite (bind_ok _ _ _ _ _ (subscription_at_ok c s d Es)). rewrite subscription_condition by exact (Hso s d Es).
    unfold ys, subscription_calls. rewrite (subs_lookup c s d Es). cbn [v_names v_listeners view_of].
    destruct (wanted _ _ _); [|by rewrite andb_false_r, add_calls_nil]. rewrite andb_true_r. by apply call_subscr_quiet. }
  rewrite (bind_ok _ _ _ _ _ E), IH; [|done|intros s' Hs'; apply Hl; by right]. rewrite add_calls_app. done.
Qed.
End quiet.

(** ** The symbol during a delivery *)

Lemma consistent_symbol busy busy' c a d d' :
  consistent busy c -> symbol_heap c !! a = Some d -> name d' = name d -> subscriptions d' = subscriptions d ->
  refCount d' = references busy' a d' -> 0 < refCount d' -> (forall a', a' <> a -> busy' = Some a' <-> busy = Some a') ->
  consistent busy' (set_symbol_heap (<[a := d']> (symbol_heap c)) c).
Proof.
  intros [H Hu Ha Hso] Ea N S C P Hb. split; [|by apply map_Forall_insert_2|done|done].
  by apply (linked_symbol busy busy' _ _ _ a d d').
Qed.

Lemma begin_delivery c a d :
  consistent None c -> symbol_heap c !! a = Some d ->
  let c' := set_symbol_heap (<[a := set_refCount (refCount d + 1) d]> (symbol_heap c)) c in
  consistent (Some a) c' /\ (forall n, last c' n = last c n).
Proof.
  intros H Ea c'. pose proof (counted _ _ _ _ (consistent_linked _ _ H) a d Ea) as C. pose proof (consistent_used _ _ H a d Ea) as P.
  split.
  - apply (consistent_symbol None (Some a) c a d); [done|done|done|done| |cbn; lia|].
    + unfold references in *. cbn. rewrite bool_decide_eq_true_2 by done. rewrite bool_decide_eq_false_2 in C by done. lia.
    + intros a' Hne. split; congruence.
  - intros n. by apply (last_of_insert _ _ a d).
Qed.

(** The end of [pass_event_data_to_listeners]. *)
Definition finish_delivery (a : addr) : M context unit :=
  change_symbol a (fun d => set_refCount (refCount d - 1) d);;;
  d <-- symbol_at a;;
  if refCount d =? 0 then removeSymbolData a else ret tt.
Lemma finish_delivery_spec c a :
  consistent (Some a) c ->
  exists c', finish_delivery a c = Ok tt c' /\ consistent None c' /\ subs c' = subs c /\ calls c' = calls c /\ shrinks (last c) (last c').
Proof.
  intros H. destruct (busy_alive _ _ _ _ (consistent_linked _ _ H) a eq_refl) as [d Ea].
  pose proof (counted _ _ _ _ (consistent_linked _ _ H) a d Ea) as C. unfold references in C. rewrite bool_decide_eq_true_2 in C by done.
  set (d' := set_refCount (refCount d - 1) d). set (c1 := set_symbol_heap (<[a := d']> (symbol_heap c)) c).
  assert (Ea1 : symbol_heap c1 !! a = Some d') by apply lookup_insert_eq.
  assert (H1 : linked None (ctx_symbols c) (symbol_heap c1) (symbol_tables c)).
  { apply (linked_symbol (Some a) None _ _ _ a d); [apply H|done|done|done| |].
    - unfold references. rewrite bool_decide_eq_false_2 by done. cbn. lia.
    - intros a' Hne. split; congruence. }
  unfold finish_delivery. rewrite (bind_ok _ _ _ _ _ (change_symbol_ok c a d _ Ea)). fold d' c1.
  rewrite (bind_ok _ _ _ _ _ (symbol_at_ok c1 a d' Ea1)). destruct (Z.eqb_spec (refCount d') 0) as [E0|E0].
  - rewrite (removeSymbolData_ok c1 a d' Ea1). eexists. split; [done|].
    assert (Hs : subscriptions d' = ∅) by (cbn in *; apply leibniz_equiv, size_empty_inv; lia). split_and!; [|done|done|].
    + split; [by apply (linked_delete None None _ _ _ a d')| |apply H|apply H].
      intros a' d0 E. change (delete a (<[a := d']> (symbol_heap c)) !! a' = Some d0) in E.
      apply lookup_delete_Some in E as [Hne E]. rewrite lookup_insert_ne in E by done. by apply (consistent_used _ _ H a').
    + intros n. unfold last, last_of. cbn [ctx_symbols symbol_heap set_objects set_symbol_heap set_ctx_symbols c1].
      destruct (decide (n = name d)) as [->|Hn]; [right; by rewrite lookup_delete_eq|].
      left. rewrite lookup_delete_ne by done. destruct (ctx_symbols c !! n) as [a'|] eqn:E'; [|done]. cbn.
      destruct (named _ _ _ _ (consistent_linked _ _ H) n a' E') as (d0 & E2 & N).
      assert (a' <> a) by (intros ->; simplify_eq). by rewrite lookup_delete_ne, lookup_insert_ne by done.
  - exists c1. split_and!; [done| |done|done|].
    + split; [done| |apply H|apply H]. apply map_Forall_insert_2; [|apply H]. cbn in *. lia.
    + intros n. left. by apply (last_of_insert _ _ a d).
Qed.

(** Contexts with the same subscriptions know the same symbols. *)
Lemma same_last c c' : consistent None c -> consistent None c' -> subs c' = subs c -> shrinks (last c) (last c') -> forall n, last c' n = last c n.
Proof.
  intros H H' Hs Hl n. destruct (Hl n) as [E|E]; [done|].
  pose proof (names_have_last c n H) as Hd. pose proof (names_have_last c' n H') as Hd'. rewrite Hs, E in Hd'.
  destruct (last c n) as [l|] eqn:El; [|done]. rewrite Hd in Hd'. destruct (proj1 Hd' ltac:(eauto)) as [? ?]. done.
Qed.

Lemma store_spec c a d found event_id data :
  consistent None c -> ctx_symbols c !! found = Some a -> symbol_heap c !! a = Some d ->
  exists c', storeLastSymbolEvent a event_id data c = Ok tt c' /\ consistent None c' /\ subs c' = subs c /\ calls c' = calls c /\
    ctx_symbols c' = ctx_symbols c /\ v_last (view c') = stored_event event_id data found (v_last (view c)) /\
    symbol_heap c' !! a = Some (set_lastEvents (<[event_number event_id := data]> (lastEvents d)) d).
Proof.
  intros H Ef Ea. eexists. split; [by apply change_symbol_ok|]. split_and!; [|done|done|done| |apply lookup_insert_eq].
  - apply (consistent_symbol None None c a d); [done|done|done|done| |exact (consistent_used _ _ H a d Ea)|done].
    exact (counted _ _ _ _ (consistent_linked _ _ H) a d Ea).
  - apply map_eq. intros n. unfold stored_event. rewrite v_last_lookup. destruct (named _ _ _ _ (consistent_linked _ _ H) found a Ef) as (d0 & E0 & N).
    simplify_eq. destruct (decide (n = name d)) as [->|Hn].
    + rewrite lookup_alter_eq, v_last_lookup. unfold last, last_of. cbn [ctx_symbols symbol_heap set_symbol_heap]. rewrite Ef. cbn.
      by rewrite lookup_insert_eq, Ea.
    + rewrite lookup_alter_ne, v_last_lookup by done. unfold last, last_of. cbn [ctx_symbols symbol_heap set_symbol_heap].
      destruct (ctx_symbols c !! n) as [a'|] eqn:E'; [|done]. cbn.
      destruct (named _ _ _ _ (consistent_linked _ _ H) n a' E') as (d' & E2 & N2).
      rewrite lookup_insert_ne; [done|]. intros ->. simplify_eq.
Qed.

(** ** The calls of an event *)

Lemma subscribers_of c found a d :
  consistent None c -> ctx_symbols c !! found = Some a -> symbol_heap c !! a = Some d ->
  subscriptions d = subscribers (subs c) found.
Proof.
  intros H Ef Ea. destruct (named _ _ _ _ (consistent_linked _ _ H) found a Ef) as (d0 & E0 & N). simplify_eq.
  apply set_eq. intros s. unfold subscribers. rewrite elem_of_dom. split.
  - intros Hs. destruct (subscribed _ _ _ _ (consistent_linked _ _ H) a d s Ea Hs) as (m & Em & En).
    destruct (tables_subs c s m Em) as (v & Ev & Nv). exists v. apply map_lookup_filter_Some. split; [done|]. cbn. rewrite Nv.
    by apply elem_of_dom_2 in En.
  - intros [v Hv]. apply map_lookup_filter_Some in Hv as [Ev Hn]. cbn in Hn. destruct (subs_tables c s v Ev) as (m & Em & Nm).
    rewrite <- Nm in Hn. apply elem_of_dom in Hn as [a' E']. destruct (subscribes_to _ _ _ _ (consistent_linked _ _ H) s m _ a' Em E') as (d' & E1 & N & Hin).
    assert (a' = a) as -> by (by apply (linked_name_inj _ _ _ _ a' a d' d (consistent_linked _ _ H))). by simplify_eq.
Qed.
Lemma no_subscribers c found : consistent None c -> ctx_symbols c !! found = None -> subscribers (subs c) found = ∅.
Proof.
  intros H Ef. apply set_eq. intros s. unfold subscribers. rewrite elem_of_dom. split; [|set_solver].
  intros [v Hv]. apply map_lookup_filter_Some in Hv as [Ev Hn]. cbn in Hn.
  assert (Ha : found ∈ all_names (subs c)) by (apply elem_of_all_names; eauto). apply (names_have_last c found H) in Ha as [l El].
  unfold last, last_of in El. by rewrite Ef in El.
Qed.

#[local] Instance omap_permutation {A B} (f : A -> option B) : Proper (Permutation ==> Permutation) (omap f : list A -> list B).
Proof.
  intros l l' H. induction H as [|x l l' _ IH|x y l|l1 l2 l3 _ IH1 _ IH2]; [done| | |by etrans]; cbn; destruct (f x); try done.
  - by constructor.
  - by destruct (f y); [constructor|].
Qed.

Section delivered.
Context {It : Iteration} (create_ok : list Z -> bool) (new_ok : bool) (alloc : nat -> bool).
Context (answer : list listener_call -> list user_op).
Context (event_id : dx_event_id_t) (symbol_name : list Z) (data : dxf_event_data_t) (event_params : dxf_event_params_t).

(** The orders of the tables only give the order of the calls. *)
Lemma deliveries_order m found (X : gset addr) :
  X = subscribers m found ->
  subscriptions_order X ≫= subscription_calls event_id symbol_name data event_params m listeners_order ≡ₚ
  deliveries event_id symbol_name data event_params m found.
Proof using Type.
  intros ->. unfold deliveries. rewrite subscriptions_order_elements. generalize (elements (subscribers m found)) as l.
  induction l as [|s l IH]; [done|]. cbn. apply Permutation_app; [|done]. unfold subscription_calls.
  destruct (m !! s) as [v|]; [|done]. destruct (_ && _); [|done]. unfold listener_calls. by rewrite listeners_order_elements.
Qed.

Context (quiet : forall l, answer l = []) (data_ok : event_of event_id data = true).

Lemma deliver_quiet found c :
  consistent None c ->
  exists c', deliver_to create_ok new_ok alloc answer found event_id symbol_name data event_params c = Ok tt c' /\
    consistent None c' /\ subs c' = subs c /\ calls c' ≡ₚ calls c ++ deliveries event_id symbol_name data event_params (subs c) found /\
    v_last (view c') = stored_event event_id data found (v_last (view c)).
Proof using quiet data_ok.
  intros H. unfold deliver_to, findSymbol. rewrite (bind_ok _ _ c (ctx_symbols c !! found) c) by done.
  destruct (ctx_symbols c !! found) as [a|] eqn:Ef.
  - destruct (named _ _ _ _ (consistent_linked _ _ H) found a Ef) as (d & Ea & _).
    destruct (store_spec c a d found event_id data H Ef Ea) as (c1 & E1 & H1 & S1 & K1 & Y1 & V1 & Ea1).
    rewrite (bind_ok _ _ _ _ _ E1). unfold pass_event_data_to_listeners. rewrite (bind_ok _ _ _ _ _ (change_symbol_ok c1 a _ _ Ea1)).
    set (d1 := set_lastEvents _ d) in *. destruct (begin_delivery c1 a d1 H1 Ea1) as [H2 L2]. set (c2 := set_symbol_heap _ c1) in *.
    rewrite (bind_ok _ _ _ _ _ (symbol_at_ok c2 a _ (lookup_insert_eq _ _ _))).
    pose proof (subscriptions_loop_quiet create_ok new_ok alloc answer quiet event_id symbol_name data event_params data_ok
      (subscriptions_order (subscriptions d)) c2 (consistent_sources _ _ H2)) as El.
    assert (Hsub : subscriptions d = subscribers (subs c) found) by (by apply (subscribers_of c found a d)).
    assert (Hlive : forall s, s ∈ subscriptions_order (subscriptions d) -> s ∈ dom (subscription_heap c2)).
    { intros s. rewrite subscriptions_order_elements, elem_of_elements. intros Hs.
      destruct (subscribed _ _ _ _ (consistent_linked _ _ H) a d s Ea Hs) as (m & Em & _). destruct (tables_subs c s m Em) as (v & Ev & _).
      rewrite <- S1 in Ev. apply live_lookup in Ev as (sd & Es & _). by apply elem_of_dom_2 in Es. }
    rewrite (bind_ok _ _ _ _ _ (El Hlive)). set (c3 := add_calls _ c2). assert (H3 : consistent (Some a) c3) by (by destruct H2).
    destruct (finish_delivery_spec c3 a H3) as (c4 & E4 & H4 & S4 & K4 & L4). exists c4. unfold finish_delivery in E4. rewrite E4.
    assert (S4' : subs c4 = subs c1) by (by rewrite S4). split_and!; [done|done|congruence| |].
    + rewrite K4. cbn [calls c3 add_calls c2 set_symbol_heap]. rewrite K1. apply Permutation_app_head.
      rewrite <- (deliveries_order (subs c) found (subscriptions d)) by done. by rewrite <- S1.
    + rewrite <- V1. apply map_eq. intros n. rewrite !v_last_lookup. apply (same_last c1 c4 H1 H4 S4'). intros n'. destruct (L4 n') as [->|]; [left; exact (L2 n')|by right].
  - exists c. split_and!; [done|done|done| |].
    + unfold deliveries. by rewrite (no_subscribers c found H Ef), elements_empty, app_nil_r.
    + apply map_eq. intros n. unfold stored_event. destruct (decide (n = found)) as [->|]; [|by rewrite lookup_alter_ne].
      rewrite lookup_alter_eq, v_last_lookup. unfold last, last_of. by rewrite Ef.
Qed.
End delivered.

(** ** Listeners that use the library *)

(** What a listener may ask for while it is called: not to close a subscription, nor
    to change the listeners that are being walked through, except that others of them
    may be removed. *)
Definition tame (m : gmap addr subscription_view) (x : listener_call) (op : user_op) : Prop :=
  allowed m op /\
  match op with
  | user_close _ => False
  | user_add_listener s _ _ _ => s <> Some (lc_subscription x)
  | user_remove_listener s listener => s <> Some (lc_subscription x) \/ listener <> lc_listener x
  | _ => True
  end.

(** Subscriptions stay, and the listeners of [s] lose none of [keep] and get none. *)
Record preserved (s : addr) (keep : Z) (c c' : context) : Prop := {
  preserved_live : dom (subs c) ⊆ dom (subs c');
  preserved_listeners v : subs c !! s = Some v -> exists v', subs c' !! s = Some v' /\
    dom (v_listeners v') ⊆ dom (v_listeners v) /\ (keep ∈ dom (v_listeners v) -> keep ∈ dom (v_listeners v'));
}.
#[export] Instance preserved_preorder s keep : PreOrder (preserved s keep).
Proof.
  split.
  - intros c. split; [done|]. intros v E. eauto.
  - intros c1 c2 c3 [D1 L1] [D2 L2]. split; [by etrans|]. intros v E. destruct (L1 v E) as (v2 & E2 & S2 & K2).
    destruct (L2 v2 E2) as (v3 & E3 & S3 & K3). exists v3. split_and!; [done|by etrans|auto].
Qed.

Lemma allowed_mono m m' op : dom m ⊆ dom m' -> allowed m op -> allowed m' op.
Proof.
  intros Hd. assert (Hl : forall s, live m s -> live m' s).
  { intros s (x & -> & Hx). exists x. split; [done|]. apply elem_of_dom, Hd. by apply elem_of_dom. }
  destruct op; cbn; naive_solver.
Qed.

Lemma changes_preserved s keep c c' x f :
  changes_subscription x f (subs c) (subs c') ->
  (x = Some s -> forall v, dom (v_listeners (f v)) ⊆ dom (v_listeners v) /\ (keep ∈ dom (v_listeners v) -> keep ∈ dom (v_listeners (f v)))) ->
  preserved s keep c c'.
Proof.
  intros (y & v & -> & Ey & Em) Hf. split; rewrite Em.
  - rewrite dom_insert_L. set_solver.
  - intros w Ew. destruct (decide (y = s)) as [->|Hne].
    + rewrite lookup_insert_eq. simplify_eq. exists (f v). split; [done|]. by apply Hf.
    + rewrite lookup_insert_ne by done. exists w. done.
Qed.

Lemma abstract_op_preserved x op c c' :
  tame (subs c) x op -> abstract_op op (subs c) (subs c') -> preserved (lc_subscription x) (lc_listener x) c c'.
Proof.
  intros [_ Ht] Ha. destruct op; cbn [abstract_op] in Ha; try (eapply changes_preserved; [exact Ha|]).
  - intros _ v. done.
  - intros _ v. done.
  - intros ->. done.
  - intros -> v. destruct Ht as [Ht|Ht]; [done|]. unfold with_listeners. cbn. rewrite dom_delete_L. set_solver.
  - intros _ v. done.
  - destruct Ha as (s & Hs & Em). split; rewrite Em; [rewrite dom_insert_L; set_solver|].
    intros v Ev. exists v. split; [|done]. rewrite lookup_insert_ne; [done|]. congruence.
  - done.
Qed.

Section tame.
Context {It : Iteration} (create_ok : list Z -> bool) (alloc : nat -> bool).
Context (create_always : forall n, create_ok n = true) (alloc_ok : forall n, alloc n = true).

Lemma run_user_ops_safe busy x ops c :
  consistent busy c -> Forall (tame (subs c) x) ops ->
  exists c', run_user_ops create_ok true alloc ops c = Ok tt c' /\ consistent busy c' /\
    preserved (lc_subscription x) (lc_listener x) c c'.
Proof using create_always alloc_ok.
  revert c. induction ops as [|op ops IH]; intros c H Ht; [by exists c|]. apply Forall_cons in Ht as [Hop Ht].
  destruct (run_user_op_spec create_ok alloc create_always alloc_ok busy op c H (proj1 Hop)) as (c1 & m & E & Ha & Hc).
  pose proof (changed_subs _ _ _ _ _ Hc) as <-. pose proof (abstract_op_preserved x op c c1 Hop Ha) as Hp.
  destruct (IH c1) as (c2 & E2 & H2 & Hp2); [apply Hc| |].
  - eapply Forall_impl; [exact Ht|]. intros op' [Hal Hop']. split; [|done]. eapply allowed_mono; [apply Hp|done].
  - exists c2. cbn [run_user_ops]. rewrite (bind_ok _ _ c tt c1) by (unfold ignored; by rewrite E). split_and!; [done|done|by etrans].
Qed.

Context (answer : list listener_call -> list user_op) (m : gmap addr subscription_view).
Context (answers_tame : forall l x, Forall (tame m x) (answer (l ++ [x]))).

Lemma call_safe busy x c :
  consistent busy c -> dom m ⊆ dom (subs c) ->
  exists c', notify_listener create_ok true alloc answer x c = Ok tt c' /\ consistent busy c' /\
    preserved (lc_subscription x) (lc_listener x) c c'.
Proof using create_always alloc_ok answers_tame.
  intros H Hm. unfold notify_listener. rewrite (bind_ok (update _) _ _ _ _ eq_refl), (bind_ok get _ _ _ _ eq_refl).
  destruct (run_user_ops_safe busy x (answer (calls (add_call x c))) (add_call x c)) as (c' & E & H' & Hp); [by destruct H| |].
  - eapply Forall_impl; [apply answers_tame|]. intros op [Ha Ht]. split; [by eapply allowed_mono|done].
  - exists c'. split_and!; [done|done|]. destruct Hp as [Hd Hl]. split; [exact Hd|exact Hl].
Qed.

Section event.
Context (event_id : dx_event_id_t) (symbol_name : list Z) (data : dxf_event_data_t) (event_params : dxf_event_params_t).
Context (data_ok : event_of event_id data = true).

(** Every step keeps the context consistent and the subscriptions alive. *)
Definition stays (busy : option addr) (k : M context unit) : Prop :=
  forall c, consistent busy c -> dom m ⊆ dom (subs c) ->
    exists c', k c = Ok tt c' /\ consistent busy c' /\ dom (subs c) ⊆ dom (subs c').

Lemma listeners_loop_safe busy l s c :
  consistent busy c -> dom m ⊆ dom (subs c) -> s ∈ dom (subs c) ->
  exists c', listeners_loop create_ok true alloc answer l s (DX_EVENT_BIT_MASK event_id) symbol_name data event_params c = Ok tt c' /\
    consistent busy c' /\ dom (subs c) ⊆ dom (subs c').
Proof using create_always alloc_ok answers_tame.
  revert c. induction l as [|p l IH]; intros c H Hm Hs; [by exists c|]. cbn [listeners_loop].
  apply elem_of_dom in Hs as [v Ev]. pose proof Ev as (d & Es & <-)%live_lookup.
  rewrite (bind_ok _ _ _ _ _ (subscription_at_ok c s d Es)). destruct (listeners d !! p) as [lc|] eqn:Ep.
  - set (x := event_call event_id symbol_name data event_params s p lc).
    destruct (call_safe busy x c H Hm) as (c1 & E1 & H1 & [D1 L1]). destruct (L1 (view_of d) Ev) as (v1 & Ev1 & S1 & K1).
    pose proof Ev1 as (d1 & Es1 & <-)%live_lookup. cbn [v_listeners view_of lc_listener x event_call] in S1, K1.
    destruct (IH c1 H1) as (c2 & E2 & H2 & D2); [by etrans|by apply elem_of_dom_2 in Ev1|].
    exists c2. split_and!; [|done|by etrans].
    rewrite (bind_ok _ _ c tt c1); [done|]. rewrite (bind_ok _ _ _ _ _ E1), (bind_ok _ _ _ _ _ (subscription_at_ok c1 s d1 Es1)).
    unfold iterator_valid. rewrite !bool_decide_eq_true_2; [done|done|]. apply K1. by apply elem_of_dom_2 in Ep.
  - rewrite (bind_ok (ret tt) _ _ _ _ eq_refl). apply IH; [done|done|]. by apply elem_of_dom_2 in Ev.
Qed.

Lemma subscriptions_loop_safe busy l c :
  consistent busy c -> dom m ⊆ dom (subs c) -> (forall s, s ∈ l -> s ∈ dom (subs c)) ->
  exists c', subscriptions_loop create_ok true alloc answer l event_id symbol_name data event_params c = Ok tt c' /\
    consistent busy c' /\ dom (subs c) ⊆ dom (subs c').
Proof using create_always alloc_ok answers_tame data_ok.
  revert c. induction l as [|s l IH]; intros c H Hm Hl; [by exists c|]. cbn [subscriptions_loop].
  assert (exists v, subs c !! s = Some v) as [v Ev] by (apply elem_of_dom, Hl; by left).
  pose proof Ev as (d & Es & <-)%live_lookup.
  match goal with |- exists c', checked_call ?k _ _ = _ /\ _ =>
    assert (Hk : exists c1, k c = Ok tt c1 /\ consistent busy c1 /\ dom (subs c) ⊆ dom (subs c1)) end.
  { rewrite (bind_ok _ _ _ _ _ (subscription_at_ok c s d Es)).
    rewrite (subscription_condition event_id data data_ok) by exact (consistent_sources _ _ H s d Es).
    destruct (wanted _ _ _); [|by exists c]. unfold dx_call_subscr_listeners. rewrite (bind_ok _ _ _ _ _ (subscription_at_ok c s d Es)).
    destruct (symbols d !! symbol_name); [|by exists c]. apply listeners_loop_safe; [done|done|]. by apply elem_of_dom_2 in Ev. }
  destruct Hk as (c1 & E1 & H1 & D1). rewrite (bind_ok _ _ _ _ _ E1).
  destruct (IH c1 H1) as (c2 & E2 & H2 & D2); [by etrans|intros s' Hs'; apply D1, Hl; by right|].
  exists c2. split_and!; [done|done|by etrans].
Qed.

Lemma deliver_safe found : stays None (deliver_to create_ok true alloc answer found event_id symbol_name data event_params).
Proof using create_always alloc_ok answers_tame data_ok.
  intros c H Hm. unfold deliver_to, findSymbol. rewrite (bind_ok _ _ c (ctx_symbols c !! found) c) by done.
  destruct (ctx_symbols c !! found) as [a|] eqn:Ef; [|by exists c].
  destruct (named _ _ _ _ (consistent_linked _ _ H) found a Ef) as (d & Ea & _).
  destruct (store_spec c a d found event_id data H Ef Ea) as (c1 & E1 & H1 & S1 & _ & _ & _ & Ea1).
  rewrite (bind_ok _ _ _ _ _ E1). unfold pass_event_data_to_listeners. rewrite (bind_ok _ _ _ _ _ (change_symbol_ok c1 a _ _ Ea1)).
  set (d1 := set_lastEvents _ d) in *. destruct (begin_delivery c1 a d1 H1 Ea1) as [H2 _]. set (c2 := set_symbol_heap _ c1) in *.
  rewrite (bind_ok _ _ _ _ _ (symbol_at_ok c2 a _ (lookup_insert_eq _ _ _))).
  assert (S2 : subs c2 = subs c) by done.
  destruct (subscriptions_loop_safe (Some a) (subscriptions_order (subscriptions d)) c2 H2) as (c3 & E3 & H3 & D3).
  { by rewrite S2. }
  { intros s. rewrite subscriptions_order_elements, elem_of_elements, S2. intros Hs.
    destruct (subscribed _ _ _ _ (consistent_linked _ _ H) a d s Ea Hs) as (t & Et & _). destruct (tables_subs c s t Et) as (v & Ev & _).
    by apply elem_of_dom_2 in Ev. }
  rewrite (bind_ok _ _ _ _ _ E3). destruct (finish_delivery_spec c3 a H3) as (c4 & E4 & H4 & S4 & _ & _).
  exists c4. unfold finish_delivery in E4. rewrite E4. split_and!; [done|done|]. by rewrite S4, <- S2.
Qed.
End event.
End tame.

(** ** Runs *)

Definition empty_context : context := MakeContext ∅ ∅ ∅ ∅ [].
Lemma empty_consistent : consistent None empty_context.
Proof.
  split; [|by intros a d|done|by intros s d]. split; try (by intros); intros * E; cbn in E; by rewrite ?lookup_empty in E.
Qed.

#[export] Instance live_dec m s : Decision (live m s).
Proof.
  destruct s as [x|]; [destruct (m !! x) eqn:E; [left|right]|right].
  - exists x. rewrite E. eauto.
  - intros (y & [= <-] & H). rewrite E in H. by destruct H.
  - by intros (y & ? & _).
Defined.
#[export] Instance allowed_dec m op : Decision (allowed m op).
Proof. destruct op; cbn; apply _. Defined.

Section runs.
Context {It : Iteration} (create_ok : list Z -> bool) (alloc : nat -> bool).
Context (create_always : forall n, create_ok n = true) (alloc_ok : forall n, alloc n = true).

(** An operation of the user, or an event while the listeners are tame. *)
Inductive context_step (c c' : context) : Prop :=
  | step_op op : allowed (subs c) op -> run_user_op create_ok true alloc op c = Ok tt c' -> context_step c c'
  | step_event answer event_id symbol_name data event_params :
      event_of event_id data = true -> (forall l x, Forall (tame (subs c) x) (answer (l ++ [x]))) ->
      dx_process_event_data create_ok true alloc answer event_id symbol_name data event_params c = Ok tt c' -> context_step c c'.

Lemma process_safe answer event_id symbol_name data event_params c :
  consistent None c -> event_of event_id data = true -> (forall l x, Forall (tame (subs c) x) (answer (l ++ [x]))) ->
  exists c', dx_process_event_data create_ok true alloc answer event_id symbol_name data event_params c = Ok tt c' /\
    consistent None c' /\ dom (subs c) ⊆ dom (subs c').
Proof using create_always alloc_ok.
  intros H Hd Ht. unfold dx_process_event_data.
  pose proof (deliver_safe create_ok alloc create_always alloc_ok answer (subs c) Ht event_id symbol_name data event_params Hd) as Hs.
  destruct (Hs symbol_name c H) as (c1 & E1 & H1 & D1); [done|]. rewrite (bind_ok _ _ _ _ _ E1).
  destruct (Hs wildcard c1 H1 D1) as (c2 & E2 & H2 & D2). exists c2. split_and!; [done|done|by etrans].
Qed.

Lemma step_consistent c c' : consistent None c -> context_step c c' -> consistent None c'.
Proof using create_always alloc_ok.
  intros H [op Ha E|answer event_id symbol_name data event_params Hd Ht E].
  - destruct (run_user_op_spec create_ok alloc create_always alloc_ok None op c H Ha) as (c1 & m & E1 & _ & Hc).
    rewrite E in E1. injection E1 as <-. apply Hc.
  - destruct (process_safe answer event_id symbol_name data event_params c H Hd Ht) as (c1 & E1 & H1 & _).
    rewrite E in E1. by injection E1 as <-.
Qed.
Lemma reachable_consistent c : rtc context_step empty_context c -> consistent None c.
Proof using create_always alloc_ok.
  apply (rtc_ind_r (fun c => consistent None c)); [apply empty_consistent|]. intros c1 c2 _ Hs H. by apply (step_consistent c1).
Qed.

Lemma destroy_spec c :
  consistent None c ->
  exists c', destroy_context c = Ok tt c' /\ subscription_heap c' = ∅ /\ symbol_heap c' = ∅ /\ ctx_symbols c' = ∅.
Proof using Type.
  intros [H Hu Ha _]. unfold destroy_context. rewrite (bind_ok get _ _ _ _ eq_refl). apply close_loop_spec; [done|done| |].
  - rewrite subscriptions_order_elements. apply NoDup_elements.
  - intros s. by rewrite subscriptions_order_elements, elem_of_elements, Ha.
Qed.

(** A run of operations that are allowed one after the other. *)
Fixpoint run_allowed (ops : list user_op) (c : context) : option context :=
  match ops with
  | [] => Some c
  | op :: ops' =>
      if bool_decide (allowed (subs c) op) then
        match run_user_op create_ok true alloc op c with Ok _ c' => run_allowed ops' c' | _ => None end
      else None
  end.
Lemma run_allowed_reaches ops c c' : run_allowed ops c = Some c' -> rtc context_step c c'.
Proof using Type.
  revert c. induction ops as [|op ops IH]; intros c E; cbn in E; [by simplify_eq|].
  case_bool_decide as Ha; [|done]. destruct (run_user_op _ _ _ op c) as [[] c1| |] eqn:E1; [|done|done].
  eapply rtc_l; [by eapply step_op|by apply IH].
Qed.
End runs.

(** The tables walked through in the order of their keys. *)
#[export] Instance ordered_tables : Iteration.
Proof. by refine {| symbols_order := elements; subscriptions_order := elements; listeners_order := elements |}. Defined.
