(* ===== verification/SubscriptionClaims.v ===== *)
(** * SubscriptionClaims: what holds of the subscriptions of the user

    The operations are those of an abstract context, every context that can be
    reached is consistent and leaves nothing behind, an event reaches its listeners,
    and the listeners may use the library meanwhile; and what they may not do. *)

From Stdlib Require Import Ascii String.
From S2P Require Import Prelude Arrays Algorithms Input EventData Properties DataStructures Subscription ClientMessages PriceLevelSource EventSubscription SubscriptionTheory SubscriptionRefinement Delivery.
Local Open Scope Z_scope.
Local Open Scope c_scope.

(** ** Contexts to look at *)

Definition run (ops : list user_op) : option context := run_allowed (fun _ => true) (fun _ => true) ops empty_context.
Definition aapl : list Z := chars_of "AAPL".
Definition ibm : list Z := chars_of "IBM".
Definition first_subscription : dxf_subscription_t := Some 1%positive.
Definition second_subscription : dxf_subscription_t := Some 2%positive.

(** A subscription to quotes of two symbols with a listener of the second version,
    and one to quotes and orders of one of the symbols. *)
Definition two_subscriptions : list user_op :=
  [user_create 2 0 0; user_add_symbols first_subscription [Some aapl; None; Some ibm]; user_add_listener first_subscription 7 V2 5;
   user_create 18 0 0; user_add_symbols second_subscription [Some aapl; Some []]; user_add_listener second_subscription 8 Default 6].
Definition two_context : context := default empty_context (run two_subscriptions).
Definition a_quote : dxf_event_data_t :=
  ev_quote (Build_dxf_quote_t 1 0 0 0 81 double_zero double_zero 0 81 double_zero double_zero dxf_osc_regional).
Definition no_params : dxf_event_params_t := EventParams 0 0 0.

Lemma run_consistent ops c : run ops = Some c -> consistent None c.
Proof. intros E. eapply reachable_consistent; [done|done|]. by eapply run_allowed_reaches. Qed.
Lemma two_consistent : consistent None two_context.
Proof. apply (run_consistent two_subscriptions). vm_compute. reflexivity. Qed.

(** ** The operations *)

(** C18: Adding and removing symbols and listeners, changing the flags, creating and
    closing do to the tables what they do to an abstract context, in which a
    subscription has a set of names: names are united and subtracted, whatever empty
    ones are among them, the first listener of a pointer stays, a new subscription to
    orders has every source, and the last events are kept of exactly the symbols that
    some subscription has.  The tables stay linked, and nothing is called. *)
Theorem operations_refine {It : Iteration} create_ok alloc op c :
  (forall n, create_ok n = true) -> (forall n, alloc n = true) -> consistent None c -> allowed (subs c) op ->
  exists c', run_user_op create_ok true alloc op c = Ok tt c' /\ consistent None c' /\ calls c' = calls c /\
    abstract_op op (v_subscriptions (view c)) (v_subscriptions (view c')) /\
    view c' = with_subscriptions (v_subscriptions (view c')) (view c).
Proof.
  intros Hc Ha H Hop. destruct (run_user_op_spec create_ok alloc Hc Ha None op c H Hop) as (c' & m & E & Habs & [H' Hm K L]).
  exists c'. split_and!; [done|done|done| |].
  - cbn. by rewrite Hm.
  - apply view_changed; [done|done|exact L].
Qed.

Lemma operations_refine_witness :
  exists c', run_user_op (fun _ => true) true (fun _ => true) (user_remove_symbols first_subscription [Some ibm; Some aapl]) two_context = Ok tt c' /\
    dom (v_last (view c')) = {[aapl]}.
Proof.
  destruct (operations_refine (fun _ => true) (fun _ => true) (user_remove_symbols first_subscription [Some ibm; Some aapl]) two_context)
    as (c' & E & _ & _ & _ & V); [done|done|apply two_consistent|apply (bool_decide_unpack _); vm_compute; exact I|].
  exists c'. split; [exact E|]. assert (E2 : exists c2, run_user_op (fun _ => true) true (fun _ => true)
    (user_remove_symbols first_subscription [Some ibm; Some aapl]) two_context = Ok tt c2 /\ bool_decide (dom (v_last (view c2)) = {[aapl]}) = true).
  { eexists. split; [vm_compute; reflexivity|vm_compute; reflexivity]. }
  destruct E2 as (c2 & E2 & D). rewrite E in E2. injection E2 as <-. by apply bool_decide_eq_true in D.
Defined.

(** C19: Whatever the user does with subscriptions that are open, and whatever events
    come while the listeners do what they may, closing the connection deletes every
    symbol and every subscription, and follows no pointer to what is deleted. *)
Theorem context_destroyed {It : Iteration} create_ok alloc c :
  (forall n, create_ok n = true) -> (forall n, alloc n = true) -> rtc (context_step create_ok alloc) empty_context c ->
  exists c', destroy_context c = Ok tt c' /\ subscription_heap c' = ∅ /\ symbol_heap c' = ∅ /\ ctx_symbols c' = ∅.
Proof. intros Hc Ha Hr. apply destroy_spec. by apply (reachable_consistent create_ok alloc). Qed.

Lemma context_destroyed_witness :
  exists c', destroy_context two_context = Ok tt c' /\ subscription_heap c' = ∅ /\ symbol_heap c' = ∅ /\ ctx_symbols c' = ∅.
Proof.
  apply (context_destroyed (fun _ => true) (fun _ => true)); [done|done|].
  apply (run_allowed_reaches (fun _ => true) (fun _ => true) two_subscriptions). vm_compute. reflexivity.
Defined.

(** ** Events *)

(** C16: When its listeners only listen, an event of a symbol is passed, in some order,
    to every listener of every subscription that has the symbol and wants the event:
    once for the symbol, and once more when the subscription has the wildcard as well.
    It becomes the last event of the symbol and of the wildcard, and nothing else
    changes. *)
Theorem event_delivered {It : Iteration} create_ok new_ok alloc answer event_id symbol_name data event_params c :
  (forall l, answer l = []) -> event_of event_id data = true -> consistent None c ->
  exists c', dx_process_event_data create_ok new_ok alloc answer event_id symbol_name data event_params c = Ok tt c' /\
    consistent None c' /\ v_subscriptions (view c') = v_subscriptions (view c) /\
    v_last (view c') = stored_event event_id data wildcard (stored_event event_id data symbol_name (v_last (view c))) /\
    calls c' ≡ₚ calls c ++ deliveries event_id symbol_name data event_params (subs c) symbol_name ++
                          deliveries event_id symbol_name data event_params (subs c) wildcard.
Proof.
  intros Hq Hd H. unfold dx_process_event_data.
  destruct (deliver_quiet create_ok new_ok alloc answer event_id symbol_name data event_params Hq Hd symbol_name c H)
    as (c1 & E1 & H1 & S1 & K1 & V1).
  destruct (deliver_quiet create_ok new_ok alloc answer event_id symbol_name data event_params Hq Hd wildcard c1 H1)
    as (c2 & E2 & H2 & S2 & K2 & V2). exists c2. rewrite (bind_ok _ _ _ _ _ E1). split_and!; [done|done| | |].
  - cbn. congruence.
  - by rewrite V2, V1.
  - by rewrite K2, K1, S1, app_assoc.
Qed.

Lemma event_delivered_witness :
  exists c', dx_process_event_data (fun _ => true) true (fun _ => true) (fun _ => []) dx_eid_quote aapl a_quote no_params two_context = Ok tt c' /\
    calls c' ≡ₚ [ListenerCall 1%positive 7 V2 2 aapl a_quote (Some no_params) 5; ListenerCall 2%positive 8 Default 2 aapl a_quote None 6].
Proof.
  destruct (event_delivered (fun _ => true) true (fun _ => true) (fun _ => []) dx_eid_quote aapl a_quote no_params two_context)
    as (c' & E & _ & _ & _ & K); [done|done|apply two_consistent|].
  exists c'. split; [exact E|]. rewrite K. vm_compute. by apply Permutation_swap.
Defined.

(** C17: The listeners may use the library while an event is passed to them: whatever
    symbols they add and remove, of this and of other subscriptions, whatever
    subscriptions they create and whatever other listeners they change, no deleted
    symbol is looked at, the tables stay linked and no subscription is lost. *)
Theorem delivery_safe {It : Iteration} create_ok alloc answer event_id symbol_name data event_params c :
  (forall n, create_ok n = true) -> (forall n, alloc n = true) -> consistent None c -> event_of event_id data = true ->
  (forall l x, Forall (tame (subs c) x) (answer (l ++ [x]))) ->
  exists c', dx_process_event_data create_ok true alloc answer event_id symbol_name data event_params c = Ok tt c' /\
    consistent None c' /\ dom (subs c) ⊆ dom (subs c').
Proof. intros Hc Ha H Hd Ht. by apply (process_safe create_ok alloc Hc Ha). Qed.

(** A listener that gives up the symbol for both subscriptions. *)
Definition gives_up (l : list listener_call) : list user_op :=
  [user_remove_symbols first_subscription [Some aapl]; user_remove_symbols second_subscription [Some aapl]].
Lemma delivery_safe_witness :
  exists c', dx_process_event_data (fun _ => true) true (fun _ => true) gives_up dx_eid_quote aapl a_quote no_params two_context = Ok tt c' /\
    consistent None c' /\ dom (subs two_context) ⊆ dom (subs c').
Proof.
  apply delivery_safe; [done|done|apply two_consistent|done|].
  assert (A : bool_decide (Forall (allowed (subs two_context)) (gives_up [])) = true) by (vm_compute; reflexivity).
  apply bool_decide_eq_true in A. intros l x. unfold gives_up in *.
  apply Forall_cons in A as [A1 A]. apply Forall_cons in A as [A2 _]. repeat constructor; assumption.
Defined.

(** ** What goes wrong *)

Definition outcome (ops : list user_op) (answer : list listener_call -> list user_op) : option (option (list listener_call)) :=
  c ← run ops;
  Some (match dx_process_event_data (fun _ => true) true (fun _ => true) answer dx_eid_quote aapl a_quote no_params c with
        | Ok _ c' => Some (calls c')
        | _ => None
        end).

(** A subscription to the wildcard gets no event of a symbol. *)
Lemma wildcard_gets_nothing :
  outcome [user_create 2 0 0; user_add_symbols first_subscription [Some wildcard]; user_add_listener first_subscription 7 Default 0] (fun _ => []) = Some (Some []).
Proof. vm_compute. reflexivity. Qed.

(** With the symbol besides the wildcard it gets each of them twice. *)
Lemma wildcard_gets_twice :
  option_map length <$> outcome [user_create 2 0 0; user_add_symbols first_subscription [Some wildcard; Some aapl]; user_add_listener first_subscription 7 Default 0] (fun _ => []) =
    Some (Some 2%nat).
Proof. vm_compute. reflexivity. Qed.

(** A listener that removes itself invalidates the iterator over the listeners, and
    one that closes its subscription has it deleted under the loop. *)
Lemma removing_itself_undefined :
  outcome [user_create 2 0 0; user_add_symbols first_subscription [Some aapl]; user_add_listener first_subscription 7 Default 0]
    (fun _ => [user_remove_listener first_subscription 7]) = Some None.
Proof. vm_compute. reflexivity. Qed.
Lemma closing_undefined :
  outcome two_subscriptions (fun _ => [user_close second_subscription]) = Some None.
Proof. vm_compute. reflexivity. Qed.
