(* ===== verification/Feed.v ===== *)
(** * Feed: the interface of the library ([src/DXFeed.c])

    A connection has the subscriptions of the user and the context of the network,
    whose tasks send what the user asks for; the operations of the interface work on
    both.  On subscriptions of their own are built the regional books of
    [RegionalBook.c] and the snapshots of [Snapshot.c], which are told events through
    a listener whose user data is a pointer to them.

    An operation of the code first resets the last error of the thread and closes the
    connections that wait for it ([dx_perform_common_actions]): an error here is that of
    the operation that fails, and the queue of the connections is in [Lifecycle]. *)

From Stdlib Require Import Ascii String.
From S2P Require Import Prelude Arrays Algorithms Output Input SymbolCodec EventData Snapshot RegionalBook DataStructures Subscription Properties TaskQueue ConfigurationDeserializer NetworkContext.
From S2P Require Import ServerData ServerProcessor ClientMessages Network Candle PriceLevelSource EventSubscription.
Local Open Scope Z_scope.
Local Open Scope c_scope.

(** ** The state of a connection *)

(** The snapshots, in an array of pointers sorted by their keys, and the regional
    books with their subscriptions; a block that is freed is not there any more. *)
Record connection : Type := MakeConnection {
  cn_context : EventSubscriptionConnectionContext;
  cn_net : net;
  snapshots_array : dx_array addr;
  snapshot_heap : gmap addr dx_snapshot_data_t;
  book_heap : gmap addr (dx_regional_book_t * dxf_subscription_t);
}.
Definition set_cn_context (x : EventSubscriptionConnectionContext) (c : connection) : connection :=
  MakeConnection x (cn_net c) (snapshots_array c) (snapshot_heap c) (book_heap c).
Definition set_cn_net (x : net) (c : connection) : connection :=
  MakeConnection (cn_context c) x (snapshots_array c) (snapshot_heap c) (book_heap c).
Definition set_snapshots (a : dx_array addr) (h : gmap addr dx_snapshot_data_t) (c : connection) : connection :=
  MakeConnection (cn_context c) (cn_net c) a h (book_heap c).
Definition set_books (h : gmap addr (dx_regional_book_t * dxf_subscription_t)) (c : connection) : connection :=
  MakeConnection (cn_context c) (cn_net c) (snapshots_array c) (snapshot_heap c) h.

Definition on_context {A} (m : M EventSubscriptionConnectionContext A) : M connection A := on cn_context set_cn_context m.
Definition on_cn_client {A} (m : M client A) : M connection A := on cn_net set_cn_net (on_nt_client m).

(** What is cleaned up after an error; its own error would be the last one. *)
Definition fail_after {S A} (e : dx_error_code) (cleanup : M S unit) : M S A :=
  r <-- catch cleanup;;
  dx_set_error_code (match r with inl _ => e | inr e' => if decide (e' = dx_ec_success) then e else e' end).
Definition or_else {S A} (m : M S A) (cleanup : dx_error_code -> M S A) : M S A :=
  r <-- catch m;; match r with inl v => ret v | inr e => cleanup e end.

(** The loop of [DX_ARRAY_SEARCH] with [DX_WILDCARD_COMPARATOR]; a null pointer is
    followed. *)
Fixpoint search_wildcard (symbols : list (option (list Z))) : option bool :=
  match symbols with
  | [] => Some false
  | None :: _ => None
  | Some symbol :: symbols' =>
      if dx_compare_strings_num symbol wildcard 1 =? 0 then Some true else search_wildcard symbols'
  end.

Section feed.
Context {It : Iteration} (create_ok : list Z -> bool) (new_ok : bool).
Context (calloc_ok : Z -> bool) (mbsrtowcs : list Z -> option (list Z)).
Context (dx_send : list Z -> list Z -> Z + dx_error_code) (t : tables).

Let alloc (n : nat) : bool := calloc_ok (Z.of_nat n).

(** ** Subscribing over the network *)

Definition dx_subscribe (order_source : list (list Z)) (symbols : list (option (list Z))) (event_types subscr_flags time : Z)
  : M connection unit :=
  on_cn_client (dx_subscribe_symbols_to_events calloc_ok dx_send t order_source symbols event_types false false subscr_flags time).
Definition dx_unsubscribe (order_source : list (list Z)) (symbols : list (option (list Z))) (event_types subscr_flags time : Z)
  : M connection unit :=
  on_cn_client (dx_subscribe_symbols_to_events calloc_ok dx_send t order_source symbols event_types true false subscr_flags time).

(** The records of the events are registered, their description is scheduled, and
    the subscription. *)
Definition load_and_subscribe (order_source : M connection (list (list Z))) (symbols : list (option (list Z)))
  (event_types subscr_flags time : Z) : M connection unit :=
  sources <-- order_source;;
  on_cn_client (dx_load_events_for_subscription calloc_ok sources event_types subscr_flags);;;
  on_cn_client (dx_send_record_description calloc_ok dx_send false);;;
  sources <-- order_source;;
  dx_subscribe sources symbols event_types subscr_flags time.

(** The handle of a subscription. *)
Definition valid_subscription {A} (subscription : dxf_subscription_t) (k : addr -> M connection A) : M connection A :=
  match subscription with
  | None => dx_set_error_code dx_ec_invalid_func_param
  | Some s => k s
  end.
(** [dx_get_subscription_connection]: the connection is the one that the
    subscription is in. *)
Definition dx_get_subscription_connection (subscription : dxf_subscription_t) : M connection unit :=
  on_context (with_subscription subscription (fun s => subscription_at s;;; ret tt)).
Definition source_of (s : addr) : M connection (list (list Z)) := on_context (dx_get_order_source s).
Definition types_of (subscription : dxf_subscription_t) : M connection Z :=
  on_context (dx_get_event_subscription_event_types subscription true).
Definition symbols_of (subscription : dxf_subscription_t) : M connection (list (option (list Z))) :=
  names <-- on_context (dx_get_event_subscription_symbols subscription true);; ret (Some <$> names).
Definition flags_of (subscription : dxf_subscription_t) : M connection Z :=
  on_context (dx_get_event_subscription_flags subscription true).
Definition time_of (subscription : dxf_subscription_t) : M connection Z :=
  on_context (dx_get_event_subscription_time subscription true).

(** ** Making a connection again *)

(** A subscription as [dx_process_connection_subscriptions] reads it; the number that
    tells the kinds of the events becomes a signed one. *)
Definition read_subscription (s : addr) : M connection dx_event_subscription_view :=
  symbols <-- symbols_of (Some s);;
  events <-- types_of (Some s);;
  subscr_flags <-- flags_of (Some s);;
  time <-- time_of (Some s);;
  sources <-- source_of s;;
  ret (EventSubscription sources symbols (i32 events) subscr_flags time).
Fixpoint read_subscriptions (l : list addr) : M connection (list dx_event_subscription_view) :=
  match l with
  | [] => ret []
  | s :: l' => view <-- read_subscription s;; views <-- read_subscriptions l';; ret (view :: views)
  end.

(** What the socket thread does when it has lost the connection: nothing changes the
    subscriptions meanwhile, which are read first here. *)
Definition reestablish (tls_status gzip_status : bool) (now currentTimeMillis currentTimeMark : Z) (file_opens : bool)
  (getaddrinfo : option (list Z) -> option (list Z) -> option (list Z)) (rand : nat -> nat) (connects connects_again : Z -> bool)
  : M connection unit :=
  c <-- get;;
  views <-- read_subscriptions (subscriptions_order (ctx_subscriptions (cn_context c)));;
  on cn_net set_cn_net (dx_reestablish_connection calloc_ok mbsrtowcs dx_send t tls_status gzip_status now currentTimeMillis
    currentTimeMark views file_opens getaddrinfo rand connects connects_again).

(** ** Subscriptions *)

Definition dx_close_subscription (subscription : dxf_subscription_t) : M connection unit :=
  valid_subscription subscription (fun s =>
    dx_get_subscription_connection subscription;;;
    events <-- types_of subscription;;
    symbols <-- symbols_of subscription;;
    subscr_flags <-- flags_of subscription;;
    time <-- time_of subscription;;
    sources <-- source_of s;;
    dx_unsubscribe sources symbols (i32 events) subscr_flags time;;;
    on_context (dx_close_event_subscription subscription)).
Definition dxf_close_subscription : dxf_subscription_t -> M connection unit := dx_close_subscription.

(** [dx_init_codec] fills in the tables of the symbol codec once, see
    [SymbolCodec.init_tables]; [out] tells that the pointer to the result is not null. *)
Definition dxf_create_subscription_impl (event_types subscr_flags time : Z) (out : bool) : M connection addr :=
  if negb out then dx_set_error_code dx_ec_invalid_func_param
  else on_context (dx_create_event_subscription new_ok alloc (u32 event_types) subscr_flags time).
Definition DEFAULT_SUBSCRIPTION_TIME : Z := 0.
Definition dxf_create_subscription (event_types : Z) : bool -> M connection addr :=
  dxf_create_subscription_impl event_types 0 DEFAULT_SUBSCRIPTION_TIME.
Definition dxf_create_subscription_with_flags (event_types subscr_flags : Z) : bool -> M connection addr :=
  dxf_create_subscription_impl event_types subscr_flags DEFAULT_SUBSCRIPTION_TIME.
Definition dxf_create_subscription_timed (event_types time : Z) : bool -> M connection addr :=
  dxf_create_subscription_impl event_types dx_esf_time_series time.
Definition dxf_create_subscription_timed_with_flags (event_types time subscr_flags : Z) : bool -> M connection addr :=
  dxf_create_subscription_impl event_types (Z.lor dx_esf_time_series subscr_flags) time.

(** ** Symbols *)

Definition dxf_clear_symbols (subscription : dxf_subscription_t) : M connection unit :=
  valid_subscription subscription (fun s =>
    symbols <-- symbols_of subscription;;
    dx_get_subscription_connection subscription;;;
    events <-- types_of subscription;;
    subscr_flags <-- flags_of subscription;;
    time <-- time_of subscription;;
    sources <-- source_of s;;
    dx_unsubscribe sources symbols (i32 events) subscr_flags time;;;
    on_context (dx_remove_symbols subscription symbols);;;
    if IS_FLAG_SET subscr_flags dx_esf_wildcard
    then on_context (dx_set_event_subscription_flags subscription (Z.lxor subscr_flags dx_esf_wildcard))
    else ret tt).

(** The array of the symbols with their number; the elements behind the array are
    not there to be read. *)
Definition symbol_array {A} (subscription : dxf_subscription_t) (symbols : option (list (option (list Z)))) (symbol_count : Z)
  (k : addr -> list (option (list Z)) -> M connection A) : M connection A :=
  match subscription, symbols with
  | Some s, Some l =>
      if symbol_count <? 0 then dx_set_error_code dx_ec_invalid_func_param
      else if zlen l <? symbol_count then undefined
      else k s (take (Z.to_nat symbol_count) l)
  | _, _ => dx_set_error_code dx_ec_invalid_func_param
  end.

Definition dxf_add_symbols (subscription : dxf_subscription_t) (symbols : option (list (option (list Z)))) (symbol_count : Z)
  : M connection unit :=
  symbol_array subscription symbols symbol_count (fun s symbols =>
    if symbol_count =? 0 then ret tt
    else
      dx_get_subscription_connection subscription;;;
      events <-- types_of subscription;;
      subscr_flags <-- flags_of subscription;;
      if IS_FLAG_SET subscr_flags dx_esf_wildcard then ret tt
      else
        found_wildcard <-- of_option (search_wildcard symbols);;
        subscr <--
          (if (found_wildcard : bool) then
             dxf_clear_symbols subscription;;;
             ret ([Some wildcard], Z.lxor subscr_flags dx_esf_wildcard)
           else ret (symbols, subscr_flags));;
        time <-- time_of subscription;;
        on_context (dx_add_symbols create_ok subscription subscr.1);;;
        load_and_subscribe (source_of s) subscr.1 (i32 events) subscr.2 time).
Definition dxf_add_symbol (subscription : dxf_subscription_t) (symbol : option (list Z)) : M connection unit :=
  dxf_add_symbols subscription (Some [symbol]) 1.

Definition dxf_remove_symbols (subscription : dxf_subscription_t) (symbols : option (list (option (list Z)))) (symbol_count : Z)
  : M connection unit :=
  symbol_array subscription symbols symbol_count (fun s symbols =>
    current_symbol_count <-- on_context (dx_get_event_subscription_symbols_count subscription true);;
    if (current_symbol_count =? 0)%nat then ret tt
    else
      found_wildcard <-- of_option (search_wildcard symbols);;
      if (found_wildcard : bool) then dxf_clear_symbols subscription
      else
        dx_get_subscription_connection subscription;;;
        events <-- types_of subscription;;
        subscr_flags <-- flags_of subscription;;
        if IS_FLAG_SET subscr_flags dx_esf_wildcard then ret tt
        else
          time <-- time_of subscription;;
          sources <-- source_of s;;
          dx_unsubscribe sources symbols (i32 events) subscr_flags time;;;
          on_context (dx_remove_symbols subscription symbols)).
Definition dxf_remove_symbol (subscription : dxf_subscription_t) (symbol : option (list Z)) : M connection unit :=
  dxf_remove_symbols subscription (Some [symbol]) 1.

Definition dxf_get_symbols (subscription : dxf_subscription_t) (out : bool) : M connection (list (option (list Z)) * Z) :=
  valid_subscription subscription (fun _ =>
    if negb out then dx_set_error_code dx_ec_invalid_func_param
    else symbols <-- symbols_of subscription;; ret (symbols, i32 (zlen symbols))).

Definition dxf_set_symbols (subscription : dxf_subscription_t) (symbols : option (list (option (list Z)))) (symbol_count : Z)
  : M connection unit :=
  symbol_array subscription symbols symbol_count (fun _ _ =>
    dxf_clear_symbols subscription;;;
    dxf_add_symbols subscription symbols symbol_count).

(** The symbols of candles ([Candle.c]); the buffer is one of the stack. *)
Definition candle_symbol (candle_attributes : option dx_candle_attributes_data_t) (buffer : list Z) : M connection (list Z) :=
  fun c => match dx_candle_symbol_to_string calloc_ok candle_attributes buffer with
           | Ok symbol _ => Ok symbol c | Err e _ => Err e c | UB => UB end.
Definition dxf_add_candle_symbol (buffer : list Z) (subscription : dxf_subscription_t)
  (candle_attributes : option dx_candle_attributes_data_t) : M connection unit :=
  candle_symbol <-- candle_symbol candle_attributes buffer;; dxf_add_symbol subscription (Some candle_symbol).
Definition dxf_remove_candle_symbol (buffer : list Z) (subscription : dxf_subscription_t)
  (candle_attributes : option dx_candle_attributes_data_t) : M connection unit :=
  candle_symbol <-- candle_symbol candle_attributes buffer;; dxf_remove_symbol subscription (Some candle_symbol).

(** ** Listeners and what a subscription is *)

Definition with_listener (subscription : dxf_subscription_t) (event_listener : Z) (m : M EventSubscriptionConnectionContext unit)
  : M connection unit :=
  valid_subscription subscription (fun _ =>
    if event_listener =? 0 then dx_set_error_code dx_ec_invalid_func_param else on_context m).
Definition dxf_attach_event_listener (subscription : dxf_subscription_t) (event_listener user_data : Z) : M connection unit :=
  with_listener subscription event_listener (dx_add_listener subscription event_listener user_data).
Definition dxf_detach_event_listener (subscription : dxf_subscription_t) (event_listener : Z) : M connection unit :=
  with_listener subscription event_listener (dx_remove_listener subscription event_listener).
Definition dxf_attach_event_listener_v2 (subscription : dxf_subscription_t) (event_listener user_data : Z) : M connection unit :=
  with_listener subscription event_listener (dx_add_listener_v2 subscription event_listener user_data).
Definition dxf_detach_event_listener_v2 (subscription : dxf_subscription_t) (event_listener : Z) : M connection unit :=
  with_listener subscription event_listener (dx_remove_listener_v2 subscription event_listener).

Definition dxf_get_subscription_event_types (subscription : dxf_subscription_t) (out : bool) : M connection Z :=
  valid_subscription subscription (fun _ =>
    if negb out then dx_set_error_code dx_ec_invalid_func_param
    else events <-- types_of subscription;; ret (i32 events)).

Definition dxf_get_last_event (event_type : Z) (symbol : list Z) (out : bool) : M connection (option dxf_event_data_t) :=
  if negb out then dx_set_error_code dx_ec_invalid_func_param
  else on_context (dx_get_last_symbol_event symbol event_type out).

(** ** Sources of orders *)

(** The length of a source, 0 for a null pointer. *)
Definition valid_source {A} (source : option (list Z)) (k : list Z -> M connection A) : M connection A :=
  let source_len := match source with None => 0 | Some s => zlen s end in
  if (source_len =? 0) || (Z.of_nat DXF_RECORD_SUFFIX_SIZE <=? source_len)
  then dx_set_error_code dx_ec_invalid_func_param
  else k (default [] source).
(** The wide string, whose null pointer would be followed. *)
Definition wide_source (source : list Z) : M connection (list Z) := of_option (mjoin (dx_ansi_to_unicode calloc_ok mbsrtowcs source)).

Definition dxf_set_order_source (subscription : dxf_subscription_t) (source : option (list Z)) : M connection unit :=
  valid_subscription subscription (fun s => valid_source source (fun source =>
    dx_get_subscription_connection subscription;;;
    symbols <-- symbols_of subscription;;
    events <-- types_of subscription;;
    subscr_flags <-- flags_of subscription;;
    time <-- time_of subscription;;
    sources <-- source_of s;;
    dx_unsubscribe sources symbols (i32 events) subscr_flags time;;;
    on_context (dx_clear_order_source subscription);;;
    str <-- wide_source source;;
    on_context (dx_add_order_source alloc s str);;;
    load_and_subscribe (source_of s) symbols (i32 events) subscr_flags time)).

Definition dxf_add_order_source (subscription : dxf_subscription_t) (source : option (list Z)) : M connection unit :=
  valid_subscription subscription (fun s => valid_source source (fun source =>
    wide <-- wide_source source;;
    elem <-- of_option (dx_copy_string_len (replicate DXF_RECORD_SUFFIX_SIZE 0) wide (length source));;
    inserted <-- of_option (DX_ARRAY_INSERT (replicate DXF_RECORD_SUFFIX_SIZE 0) alloc DX_EMPTY_ARRAY elem 0);;
    if (inserted.2 : bool) then fail
    else
      dx_get_subscription_connection subscription;;;
      symbols <-- symbols_of subscription;;
      events <-- types_of subscription;;
      subscr_flags <-- flags_of subscription;;
      time <-- time_of subscription;;
      load_and_subscribe (ret (contents inserted.1)) symbols (i32 events) subscr_flags time;;;
      on_context (dx_add_order_source alloc s (c_string elem)))).

(** ** Regional books ([RegionalBook.c]) *)

(** The functions that are attached to the subscriptions. *)
Definition rb_event_listener_ptr : Z := 1.
Definition event_listener_ptr : Z := 2.

Definition dx_rb_book_free (book : addr) : M connection unit := update (fun c => set_books (delete book (book_heap c)) c).
Definition rb_book_at (book : addr) : M connection (dx_regional_book_t * dxf_subscription_t) :=
  c <-- get;; of_option (book_heap c !! book).
Definition free_book {A} (book : addr) (e : dx_error_code) : M connection A := fail_after e (dx_rb_book_free book).

(** [alloc_book] is whether the blocks of the book are allocated; a book has no
    subscription until one is created. *)
Definition dx_create_regional_book (alloc_book : bool) (symbol : list Z) : M connection addr :=
  if negb alloc_book then dx_set_error_code dx_mec_insufficient_memory
  else
    c <-- get;;
    let book := fresh (dom (book_heap c)) in
    put (set_books (<[book := (new_regional_book symbol, None)]> (book_heap c)) c);;;
    s <-- or_else (on_context (dx_create_event_subscription new_ok alloc DXF_ET_QUOTE dx_esf_quotes_regional 0))
      (fun _ => free_book book dx_mec_insufficient_memory);;
    update (fun c => set_books (<[book := (new_regional_book symbol, Some s)]> (book_heap c)) c);;;
    or_else (dxf_attach_event_listener_v2 (Some s) rb_event_listener_ptr (Zpos book)) (free_book book);;;
    or_else (on_context (dx_add_symbols create_ok (Some s) [Some symbol])) (free_book book);;;
    or_else (load_and_subscribe (source_of s) [Some symbol] DXF_ET_QUOTE dx_esf_quotes_regional 0) (free_book book);;;
    ret book.
Definition dxf_create_regional_book (alloc_book : bool) (symbol : option (list Z)) (out : bool) : M connection addr :=
  if negb out then dx_set_error_code dx_ec_invalid_func_param
  else if dx_string_null_or_empty symbol then dx_set_error_code dx_ssec_invalid_symbol
  else dx_create_regional_book alloc_book (default [] symbol).

(** [dx_rb_book_clear] *)
Definition dx_close_regional_book (book : addr) : M connection unit :=
  b <-- rb_book_at book;;
  (match b.2 with None => ret tt | Some _ => ignored (dxf_close_subscription b.2) end);;;
  dx_rb_book_free book.
Definition dxf_close_regional_book (book : option addr) : M connection unit :=
  match book with None => dx_set_error_code dx_ec_invalid_func_param | Some b => dx_close_regional_book b end.

(** ** Snapshots ([Snapshot.c]) *)

(** [dx_symbol_name_hasher], and whether a snapshot is allocated. *)
Context (dx_symbol_name_hasher : list Z -> Z) (alloc_snapshot : bool).

Definition snapshot_at (p : addr) : M connection dx_snapshot_data_t := c <-- get;; of_option (snapshot_heap c !! p).
Definition dx_free_snapshot_data (p : addr) : M connection unit :=
  snapshot_at p;;;
  update (fun c => set_snapshots (snapshots_array c) (delete p (snapshot_heap c)) c).
Definition free_snapshot {A} (p : addr) (e : dx_error_code) : M connection A := fail_after e (dx_free_snapshot_data p).

(** The search by [dx_snapshots_comparator], on the keys the pointers lead to. *)
Definition search_snapshot (key : Z) : M connection (bool * nat) :=
  c <-- get;;
  keys <-- of_option (mapM (fun p => sd_key <$> snapshot_heap c !! p) (contents (snapshots_array c)));;
  of_option (DX_ARRAY_SEARCH DX_NUMERIC_COMPARATOR keys 0 (length keys) key true).

Definition dx_create_snapshot (s : addr) (event_id : dx_event_id_t) (record_info_id : dx_record_info_id_t)
  (symbol : list Z) (order_source : option (list Z)) (time : Z) : M connection addr :=
  event_types <-- types_of (Some s);;
  if negb alloc_snapshot then fail
  else
    c <-- get;;
    let p := fresh (dom (snapshot_heap c)) in
    let snapshot_data := new_snapshot_data dx_symbol_name_hasher (Zpos s) event_id record_info_id (i32 event_types) symbol order_source time in
    put (set_snapshots (snapshots_array c) (<[p := snapshot_data]> (snapshot_heap c)) c);;;
    or_else (on_context (dx_add_listener_v2 (Some s) event_listener_ptr (Zpos p))) (free_snapshot p);;;
    c <-- get;;
    found <-- (if (0 <? arr_size (snapshots_array c))%nat then search_snapshot (sd_key snapshot_data) else ret (false, O));;
    if (found.1 : bool) then free_snapshot p dx_ssec_snapshot_exist
    else
      inserted <-- of_option (DX_ARRAY_INSERT 1%positive alloc (snapshots_array c) p found.2);;
      put (set_snapshots inserted.1 (snapshot_heap c) c);;;
      if (inserted.2 : bool) then free_snapshot p dx_ec_success else ret p.

Definition dx_close_snapshot (p : addr) : M connection unit :=
  snapshot_data <-- snapshot_at p;;
  found <-- search_snapshot (sd_key snapshot_data);;
  if (found.1 : bool) then
    c <-- get;;
    deleted <-- of_option (DX_ARRAY_DELETE 1%positive alloc (snapshots_array c) found.2);;
    put (set_snapshots deleted.1 (snapshot_heap c) c);;;
    dx_free_snapshot_data p;;;
    if (deleted.2 : bool) then dx_set_error_code dx_mec_insufficient_memory else ret tt
  else dx_set_error_code dx_ssec_invalid_snapshot_id.

(** What a snapshot of the events of a kind is made of: its records, the flags of
    its subscription and the source of its orders. *)
Definition snapshot_source (event_id : dx_event_id_t) (source : option (list Z))
  : option (dx_record_info_id_t * Z * option (list Z)) :=
  match event_id with
  | dx_eid_order =>
      let flags := Z.lor dx_esf_time_series dx_esf_single_record in
      match source with
      | Some (c :: s) =>
          if (dx_compare_strings (c :: s) (chars_of "AGGREGATE_BID") =? 0) || (dx_compare_strings (c :: s) (chars_of "AGGREGATE_ASK") =? 0)
          then Some (dx_rid_market_maker, Z.lor flags dx_esf_sr_market_maker_order, None)
          else Some (dx_rid_order, flags, source)
      | _ => Some (dx_rid_order, flags, None)
      end
  | dx_eid_candle => Some (dx_rid_candle, dx_esf_time_series, None)
  | dx_eid_spread_order => Some (dx_rid_spread_order, dx_esf_time_series, None)
  | dx_eid_time_and_sale => Some (dx_rid_time_and_sale, dx_esf_time_series, None)
  | dx_eid_greeks => Some (dx_rid_greeks, dx_esf_time_series, None)
  | dx_eid_series => Some (dx_rid_series, dx_esf_time_series, None)
  | _ => None
  end.

(** The errors of [dx_close_subscription] with [DX_KEEP_ERROR] and of
    [dxf_close_subscription], which resets what was before. *)
Definition dxf_create_snapshot_impl (event_id : dx_event_id_t) (symbol source : option (list Z)) (time : Z) (out : bool)
  : M connection addr :=
  match snapshot_source event_id source with
  | None => dx_set_error_code dx_ssec_invalid_event_id
  | Some (record_info_id, subscr_flags, order_source_value) =>
      if negb out then dx_set_error_code dx_ec_invalid_func_param
      else if dx_string_null_or_empty symbol then dx_set_error_code dx_ssec_invalid_symbol
      else
        s <-- dxf_create_subscription_impl (DX_EVENT_BIT_MASK event_id) subscr_flags time true;;
        (if bool_decide (record_info_id = dx_rid_order) then
           on_context (dx_clear_order_source (Some s));;;
           match order_source_value with
           | Some source => ignored (on_context (dx_add_order_source alloc s source))
           | None => ret tt
           end
         else ret tt);;;
        snapshot <-- or_else (dx_create_snapshot s event_id record_info_id (default [] symbol) order_source_value time)
          (fun e => fail_after e (dx_close_subscription (Some s)));;
        or_else (dxf_add_symbol (Some s) symbol;;; ret snapshot)
          (fun _ =>
            ignored (dx_close_snapshot snapshot);;;
            fail_after dx_ec_success (dxf_close_subscription (Some s)))
  end.

Definition dxf_create_snapshot (event_id : dx_event_id_t) (symbol source : option (list Z)) (time : Z) (out : bool)
  : M connection addr :=
  source_str <--
    (match source with
     | Some s => of_option (dx_ansi_to_unicode calloc_ok mbsrtowcs s)
     | None => ret None
     end);;
  dxf_create_snapshot_impl event_id symbol source_str time out.
Definition dxf_create_order_snapshot (symbol source : option (list Z)) (time : Z) (out : bool) : M connection addr :=
  dxf_create_snapshot dx_eid_order symbol source time out.
Definition dxf_create_candle_snapshot (buffer : list Z) (candle_attributes : option dx_candle_attributes_data_t) (time : Z) (out : bool)
  : M connection addr :=
  candle_symbol <-- candle_symbol candle_attributes buffer;;
  dxf_create_snapshot_impl dx_eid_candle (Some candle_symbol) None time out.

Definition dxf_close_snapshot (snapshot : option addr) : M connection unit :=
  match snapshot with
  | None => dx_set_error_code dx_ec_invalid_func_param
  | Some p =>
      snapshot_data <-- snapshot_at p;;
      dxf_close_subscription (match sd_subscription snapshot_data with Zpos s => Some s | _ => None end);;;
      dx_close_snapshot p
  end.
End feed.
