(* ===== verification/FeedTheory.v ===== *)
(** * FeedTheory: what the operations of the interface ask for

    The operations of [Feed] on the subscriptions of the user, with the tasks that they
    add to the queue of the connection: the names and the flags of a subscription
    change as in [SubscriptionRefinement], and every change is followed by a request to
    the server. *)

From Stdlib Require Import Ascii String.
From S2P Require Import Prelude Arrays Algorithms Output Input SymbolCodec EventData DataStructures Subscription Properties TaskQueue.
From S2P Require Import MessageData ConfigurationDeserializer NetworkContext ServerData ServerProcessor ClientMessages ClientTheory ClientTasks Network Reconnect.
From S2P Require Import PriceLevelSource EventSubscription SubscriptionTheory SubscriptionRefinement Delivery Feed.
Local Open Scope Z_scope.
Local Open Scope c_scope.

(** ** Subscribing outside of the worker thread *)

(** What is known of the support of the messages of subscriptions. *)
Definition says (p : protocol_ctx) (r : dx_message_support_status_t) : Prop :=
  forall msg, msg ∈ g_send_msg_roster -> dx_is_message_supported_by_server msg p = Ok r p.

Lemma pending_says p : describe_protocol_status p = dx_dps_pending -> says p dx_mss_pending.
Proof.
  intros Hp msg Hin. unfold dx_is_message_supported_by_server.
  assert (dx_is_message_type_valid msg = true) as ->.
  { unfold g_send_msg_roster in Hin. repeat (apply elem_of_cons in Hin as [->|Hin]; [reflexivity|]). by apply not_elem_of_nil in Hin. }
  cbn [negb]. unfold checked_call, get. by rewrite Hp.
Qed.

(** The records may have become more. *)
Record knows (s s' : dscc) (n : nat) : Prop := {
  knows_ok : registry_ok s';
  knows_names : keeps_names s s';
  knows_size : (arr_size (records_list s') <= arr_size (records_list s) + n)%nat;
}.
Lemma knows_same s n : registry_ok s -> knows s s n.
Proof. split; [done|reflexivity|lia]. Qed.
Lemma knows_trans s s1 s2 n1 n2 : knows s s1 n1 -> knows s1 s2 n2 -> knows s s2 (n1 + n2).
Proof. intros [? K1 ?] [? K2 ?]. split; [done|by etrans|lia]. Qed.
Lemma registered_mono s s' es : keeps_names s s' -> registered s es -> registered s' es.
Proof. intros K H. eapply Forall_impl; [exact H|]. intros e [id Hid]. exists id. by apply K. Qed.
Lemma subscribes_registered s ps es : Forall2 (subscribes s) ps es -> registered s es.
Proof. induction 1 as [|p e ps es [Hp _] _ IH]; constructor; [by eexists|done]. Qed.

(** The data of a task for a subscription. *)
Definition new_task (sources : list (list Z)) (symbols : list (option (list Z))) (event_types : Z) (unsubscribe : bool)
  (flags time : Z) : dx_event_subscription_task_data_t :=
  SubscriptionTaskData sources (filter (fun s => dx_string_null_or_empty s = false) symbols) event_types unsubscribe flags time.

Section asking.
Context (calloc_ok : Z -> bool) (calloc_works : forall n, calloc_ok n = true).
Context (dx_send : list Z -> list Z -> Z + dx_error_code).
Context (sources : list (list Z)) (sources_ok : Forall (fun source => (length (c_string source) <= 4)%nat) sources).
Context (event_types flags : Z).

Let entries := asked_entries sources event_types flags.
Let event_entries (event_id : dx_event_id_t) : list sub_entry :=
  if asked event_types event_id then event_records (c_string <$> sources) event_id flags else [].

(** The records of an event, if it is asked for. *)
Lemma asked_params event_id w : registry_ok (cl_dscc w) ->
  exists ps s', (if asked event_types event_id then evolves (get_params calloc_ok sources event_id flags) w ps (set_cl_dscc s' w)
                 else s' = cl_dscc w /\ ps = []) /\
    knows (cl_dscc w) s' (length (event_entries event_id)) /\ registered s' (event_entries event_id) /\
    length ps = length (event_entries event_id) /\ (registered (cl_dscc w) (event_entries event_id) -> s' = cl_dscc w).
Proof using calloc_works sources_ok.
  intros Hok. unfold event_entries. destruct (asked event_types event_id).
  - destruct (get_params_at calloc_ok calloc_works sources sources_ok flags w event_id Hok) as (ps & s' & E & Hok' & K & Hps & Hsame & N).
    exists ps, s'. split; [exact E|]. split; [by split|]. split; [by eapply subscribes_registered|]. split; [by eapply Forall2_length|done].
  - exists [], (cl_dscc w). split; [done|]. split; [by apply knows_same|]. split; [constructor|done].
Qed.

Lemma load_events_spec events : forall w, registry_ok (cl_dscc w) ->
  exists s', evolves (load_events_loop calloc_ok events sources event_types flags) w tt (set_cl_dscc s' w) /\
    knows (cl_dscc w) s' (length (entries events)) /\ registered s' (entries events).
Proof using calloc_works sources_ok.
  induction events as [|event_id events IH]; intros w Hok.
  { exists (cl_dscc w). rewrite set_cl_dscc_same. split; [done|]. split; [by apply knows_same|constructor]. }
  destruct (asked_params event_id w Hok) as (ps & s1 & E1 & K1 & R1 & _).
  destruct (IH (set_cl_dscc s1 w) (knows_ok _ _ _ K1)) as (s2 & E2 & K2 & R2). exists s2. split_and!.
  - cbn [load_events_loop]. eapply evolves_bind; [|exact E2].
    destruct (asked event_types event_id); [by eapply evolves_bind|]. destruct E1 as [-> _]. by rewrite set_cl_dscc_same.
  - unfold entries, asked_entries. cbn [fmap list_fmap concat]. rewrite length_app. by eapply knows_trans.
  - unfold entries, asked_entries. cbn [fmap list_fmap concat]. apply Forall_app. split; [|done].
    by apply (registered_mono s1); [apply K2|].
Qed.

Lemma params_says r u w ps : says (cl_protocol w) r ->
  evolves (params_support ps u) w (match ps with [] => dx_mss_supported | _ => r end) w.
Proof using Type.
  intros Hr. induction ps as [|p ps IH]; [done|]. cbn [params_support].
  apply (evolves_bind _ _ _ r w).
  { intros a. rewrite (on_messages_at _ a w _ _ (Hr _ (proj2 (proj2 (subscription_type (negb u) (param_subscription_type p)))))).
    by rewrite set_cl_protocol_same. }
  destruct r; try done. by destruct ps.
Qed.

(** The status is that of the messages, where there are any. *)
Lemma support_says r u events : forall w, registry_ok (cl_dscc w) -> says (cl_protocol w) r ->
  exists s', evolves (events_support calloc_ok events sources event_types u flags) w
      (match entries events with [] => dx_mss_supported | _ => r end) (set_cl_dscc s' w) /\
    knows (cl_dscc w) s' (length (entries events)) /\ (registered (cl_dscc w) (entries events) -> s' = cl_dscc w).
Proof using calloc_works sources_ok.
  induction events as [|event_id events IH]; intros w Hok Hr.
  { exists (cl_dscc w). rewrite set_cl_dscc_same. split; [done|]. split; [by apply knows_same|done]. }
  destruct (asked_params event_id w Hok) as (ps & s1 & E1 & K1 & R1 & Hl & Hsame).
  set (es := event_entries event_id) in *.
  assert (Ees : entries (event_id :: events) = es ++ entries events) by done. rewrite Ees, length_app.
  assert (E : evolves (if asked event_types event_id then
       params <-- get_params calloc_ok sources event_id flags;; params_support params u
     else ret dx_mss_supported) w (match es with [] => dx_mss_supported | _ => r end) (set_cl_dscc s1 w)).
  { unfold es, event_entries in *. destruct (asked event_types event_id).
    - eapply evolves_bind; [exact E1|]. pose proof (params_says r u (set_cl_dscc s1 w) ps Hr) as Hps.
      destruct ps, (event_records _ _ _); done.
    - destruct E1 as [-> _]. by rewrite set_cl_dscc_same. }
  cbn [events_support].
  assert ((es <> [] /\ r <> dx_mss_supported) \/ match es with [] => dx_mss_supported | _ => r end = dx_mss_supported)
    as [[Hes Hne]|Em] by (destruct es; [by right|]; destruct r; first [by right|by left]).
  - exists s1. split_and!.
    + eapply evolves_bind; [exact E|]. by destruct es, r.
    + destruct K1 as [? ? ?]. split; [done|done|lia].
    + intros [Hreg _]%Forall_app. by apply Hsame.
  - destruct (IH (set_cl_dscc s1 w) (knows_ok _ _ _ K1) Hr) as (s2 & E2 & K2 & H2). exists s2. split_and!.
    + rewrite Em in E. eapply evolves_bind; [exact E|]. destruct es; [exact E2|].
      rewrite Em in *. cbn [app]. by destruct (entries events).
    + by eapply knows_trans.
    + intros [Hr1 Hr2]%Forall_app. pose proof (Hsame Hr1) as ->. by apply H2.
Qed.

Context (t : tables) (symbols : list (option (list Z))) (u : bool) (time : Z).

Lemma task_data_at a w :
  dx_create_event_subscription_task_data calloc_ok sources symbols event_types u flags time (TqState a w) =
    Ok (Z.of_nat (length (cl_heap w)) + 1)
      (TqState a (set_cl_heap (cl_heap w ++ [Some (new_task sources symbols event_types u flags time)]) w)).
Proof using calloc_works.
  unfold dx_create_event_subscription_task_data. rewrite !calloc_works.
  rewrite (proj2 (forallb_forall _ _)) by (intros; apply calloc_works). rewrite orb_true_r. reflexivity.
Qed.

(** A server that may know the messages: the subscription is put into the queue. *)
Lemma schedule_subscription r a w :
  array_wf a -> registry_ok (cl_dscc w) -> says (cl_protocol w) r -> r = dx_mss_supported \/ r = dx_mss_pending ->
  exists a' s', dx_subscribe_symbols_to_events calloc_ok dx_send t sources symbols event_types u false flags time (TqState a w) =
      Ok tt (TqState a' (set_cl_heap (cl_heap w ++ [Some (new_task sources symbols event_types u flags time)]) (set_cl_dscc s' w))) /\
    array_wf a' /\ contents a' = contents a ++ [subscription_task (Z.of_nat (length (cl_heap w)) + 1)] /\
    knows (cl_dscc w) s' (length (entries all_events)) /\ (registered (cl_dscc w) (entries all_events) -> s' = cl_dscc w).
Proof using calloc_works sources_ok.
  intros Ha Hok Hr Hres. destruct (support_says r u all_events w Hok Hr) as (s' & E & K & Hsame).
  set (w1 := set_cl_heap (cl_heap w ++ [Some (new_task sources symbols event_types u flags time)]) (set_cl_dscc s' w)).
  destruct (add_worker_task calloc_ok calloc_works a w1 subscribe_symbols_to_events_ptr
    (Z.of_nat (length (cl_heap w)) + 1) Ha) as (a' & Ea & Ha' & Hc'); [done|].
  exists a', s'. split; [|done]. unfold dx_subscribe_symbols_to_events, dx_get_event_server_support.
  rewrite (bind_ok _ _ _ _ _ (E a)). pose proof (task_data_at a (set_cl_dscc s' w)) as Ec.
  assert (Hm : match entries all_events with [] => dx_mss_supported | _ => r end = dx_mss_supported \/
    match entries all_events with [] => dx_mss_supported | _ => r end = dx_mss_pending) by (destruct (entries all_events); auto).
  destruct Hm as [->| ->]; cbn [negb]; rewrite (bind_ok _ _ _ _ _ Ec);
    cbn [cl_heap set_cl_dscc]; rewrite (proj2 (Z.eqb_neq _ _)) by lia; exact Ea.
Qed.

(** A server that does not: the subscription fails. *)
Lemma refused_subscription a w :
  registry_ok (cl_dscc w) -> says (cl_protocol w) dx_mss_not_supported -> entries all_events <> [] ->
  exists s', dx_subscribe_symbols_to_events calloc_ok dx_send t sources symbols event_types u false flags time (TqState a w) =
      Err dx_pec_local_message_not_supported_by_server (TqState a (set_cl_dscc s' w)) /\
    knows (cl_dscc w) s' (length (entries all_events)) /\ (registered (cl_dscc w) (entries all_events) -> s' = cl_dscc w).
Proof using calloc_works sources_ok.
  intros Hok Hr Hne. destruct (support_says _ u all_events w Hok Hr) as (s' & E & K). exists s'. split; [|done].
  unfold dx_subscribe_symbols_to_events, dx_get_event_server_support. rewrite (bind_ok _ _ _ _ _ (E a)).
  by destruct (entries all_events).
Qed.
End asking.

(** ** Parts of a connection *)

Definition client_at (c : connection) : client := nt_client (cn_net c).
Definition world_at (c : connection) : client_world := tq_world (client_at c).
Definition with_client (x : client) (c : connection) : connection := set_cn_net (set_nt_client x (cn_net c)) c.
Definition subs_at (c : connection) : gmap addr subscription_view := subs (cn_context c).

Lemma on_cn_client_at {A} (m : M client A) c v x : m (client_at c) = Ok v x -> on_cn_client m c = Ok v (with_client x c).
Proof. unfold client_at. intros E. unfold on_cn_client, on_nt_client, on. by rewrite E. Qed.
Lemma on_cn_client_err {A} (m : M client A) c e x : m (client_at c) = Err e x -> on_cn_client m c = Err e (with_client x c).
Proof. unfold client_at. intros E. unfold on_cn_client, on_nt_client, on. by rewrite E. Qed.
Lemma on_context_at {A} (m : M EventSubscriptionConnectionContext A) c v x :
  m (cn_context c) = Ok v x -> on_context m c = Ok v (set_cn_context x c).
Proof. intros E. unfold on_context, on. by rewrite E. Qed.
Lemma set_cn_context_same c : set_cn_context (cn_context c) c = c.
Proof. by destruct c. Qed.
Lemma on_context_reads {A} (m : M EventSubscriptionConnectionContext A) c v :
  m (cn_context c) = Ok v (cn_context c) -> on_context m c = Ok v c.
Proof. intros E. rewrite (on_context_at m c v _ E). by rewrite set_cn_context_same. Qed.

Section reading.
Context {It : Iteration}.

(** What is asked of a subscription. *)
Record subscription_reads (c : connection) (s : addr) (v : subscription_view) (names : list (list Z)) : Prop := {
  reads_connection : dx_get_subscription_connection (Some s) c = Ok tt c;
  reads_types : types_of (Some s) c = Ok (v_types v) c;
  reads_flags : flags_of (Some s) c = Ok (v_flags v) c;
  reads_time : time_of (Some s) c = Ok (v_time v) c;
  reads_sources : source_of s c = Ok (v_sources v) c;
  reads_symbols : symbols_of (Some s) c = Ok (Some <$> names) c;
  reads_count : on_context (dx_get_event_subscription_symbols_count (Some s) true) c = Ok (size (v_names v)) c;
}.

Lemma names_loop_ok busy c s d l :
  linked busy (ctx_symbols c) (symbol_heap c) (symbol_tables c) -> subscription_heap c !! s = Some d ->
  (forall n, n ∈ l -> is_Some (symbols d !! n)) -> names_loop l d c = Ok l c.
Proof using Type.
  intros H Es. induction l as [|n l IH]; intros Hl; [done|]. cbn [names_loop].
  destruct (Hl n) as [a Ea]; [by left|]. rewrite Ea. rewrite (bind_ok (of_option (Some a)) _ _ a _ eq_refl).
  destruct (subscribes_to _ _ _ _ H s (symbols d) n a) as (sd & Eh & N & _); [unfold symbol_tables; by rewrite lookup_fmap, Es|done|].
  rewrite (bind_ok _ _ _ _ _ (symbol_at_ok c a sd Eh)). rewrite (bind_ok _ _ _ l c); [by rewrite N|].
  apply IH. intros n' Hn'. apply Hl. by right.
Qed.

Lemma reads c s v : consistent None (cn_context c) -> subs_at c !! s = Some v ->
  exists names, subscription_reads c s v names /\ names ≡ₚ elements (v_names v).
Proof using Type.
  intros H (d & Es & <-)%live_lookup. exists (symbols_order (dom (symbols d))).
  pose proof (subscription_at_ok _ s d Es) as E. split; [|apply symbols_order_elements].
  assert (G : forall A (f : SubscriptionData -> A), on_context (getter f (Some s) true) c = Ok (f d) c).
  { intros A f. apply on_context_reads. cbn. by rewrite (bind_ok _ _ _ _ _ E). }
  split; try apply G.
  - unfold symbols_of. rewrite (bind_ok _ _ _ (symbols_order (dom (symbols d))) c); [done|]. apply on_context_reads. cbn.
    rewrite (bind_ok _ _ _ _ _ E). apply (names_loop_ok None _ s); [apply H|done|].
    intros n. rewrite symbols_order_elements, elem_of_elements, elem_of_dom. done.
  - unfold dx_get_event_subscription_symbols_count. rewrite G. cbn. by rewrite size_dom.
Qed.
End reading.

(** ** Requests *)

(** The tasks of a request: a new subscription is preceded by the records. *)
Definition request_tasks (data : Z) (d : dx_event_subscription_task_data_t) : list dx_task_data_t :=
  (if td_unsubscribe d then [] else [records_task]) ++ [subscription_task data].
Definition requests_tasks (heap : list (option dx_event_subscription_task_data_t))
  (reqs : list dx_event_subscription_task_data_t) : list dx_task_data_t :=
  concat (zip_with request_tasks (new_datas heap (length reqs)) reqs).
Definition requests_entries (reqs : list dx_event_subscription_task_data_t) : list sub_entry := concat (task_entries <$> reqs).

Lemma requests_tasks_app heap r1 r2 :
  requests_tasks heap (r1 ++ r2) = requests_tasks heap r1 ++ requests_tasks (heap ++ (Some <$> r1)) r2.
Proof.
  unfold requests_tasks, new_datas. rewrite !length_app, length_fmap, Nat2Z.inj_add, seqZ_app by lia.
  rewrite zip_with_app by (by rewrite length_seqZ, Nat2Z.id). rewrite concat_app. do 4 f_equal. lia.
Qed.

(** An operation asks for this, and leaves the subscriptions so. *)
Record requested (reqs : list dx_event_subscription_task_data_t) (m : gmap addr subscription_view) (c c' : connection) : Prop := {
  rq_consistent : consistent None (cn_context c');
  rq_subs : subs_at c' = m;
  rq_calls : calls (cn_context c') = calls (cn_context c);
  rq_queue : array_wf (tq (client_at c')) /\
    contents (tq (client_at c')) = contents (tq (client_at c)) ++ requests_tasks (cl_heap (world_at c)) reqs;
  rq_world : world_at c' = set_cl_heap (cl_heap (world_at c) ++ (Some <$> reqs)) (set_cl_dscc (cl_dscc (world_at c')) (world_at c));
  rq_knows : knows (cl_dscc (world_at c)) (cl_dscc (world_at c')) (length (requests_entries reqs));
  rq_registered : Forall (fun d => td_unsubscribe d = false -> registered (cl_dscc (world_at c')) (task_entries d)) reqs;
  rq_rest : c' = with_client (client_at c') (set_cn_context (cn_context c') c);
}.

Lemma requested_trans r1 r2 m1 m2 c c1 c2 :
  requested r1 m1 c c1 -> requested r2 m2 c1 c2 -> requested (r1 ++ r2) m2 c c2.
Proof.
  intros [H1 S1 C1 [Q1 T1] W1 K1 R1 E1] [H2 S2 C2 [Q2 T2] W2 K2 R2 E2].
  assert (Hh : cl_heap (world_at c1) = cl_heap (world_at c) ++ (Some <$> r1)) by (by rewrite W1).
  split; [done|done|congruence| | | | |].
  - split; [done|]. by rewrite T2, T1, Hh, requests_tasks_app, app_assoc.
  - rewrite W2 at 1. rewrite Hh, W1. cbn. by rewrite fmap_app, app_assoc.
  - unfold requests_entries. rewrite fmap_app, concat_app, length_app. by eapply knows_trans.
  - apply Forall_app. split; [|done]. eapply Forall_impl; [exact R1|]. intros d Hd Hu.
    eapply registered_mono; [apply (knows_names _ _ _ K2)|auto].
  - rewrite E2, E1. done.
Qed.

(** A connection on which the user can work. *)
Definition view_fits (v : subscription_view) : Prop :=
  Forall (fun source => (length (c_string source) <= 4)%nat) (v_sources v) /\ [] ∉ v_names v.
Record usable (c : connection) : Prop := {
  us_consistent : consistent None (cn_context c);
  us_queue : array_wf (tq (client_at c));
  us_registry : registry_ok (cl_dscc (world_at c));
  us_answers : says (cl_protocol (world_at c)) dx_mss_supported \/ says (cl_protocol (world_at c)) dx_mss_pending;
  us_fits : map_Forall (fun _ => view_fits) (subs_at c);
}.

Lemma usable_after reqs m c c' : usable c -> requested reqs m c c' -> map_Forall (fun _ => view_fits) m -> usable c'.
Proof.
  intros [_ _ _ Hs _] [H1 S1 _ [Q1 _] W1 K1 _ _] Hm. split; [done|done|apply K1| |by rewrite S1].
  assert (cl_protocol (world_at c') = cl_protocol (world_at c)) as -> by (by rewrite W1). done.
Qed.

Lemma set_cl_heap_same w : set_cl_heap (cl_heap w) w = w.
Proof. by destruct w. Qed.
Lemma with_client_same c : with_client (client_at c) c = c.
Proof. by destruct c as [? []]. Qed.

(** Only the context changes. *)
Lemma requested_context c x m :
  array_wf (tq (client_at c)) -> registry_ok (cl_dscc (world_at c)) -> consistent None x -> subs x = m -> calls x = calls (cn_context c) ->
  requested [] m c (set_cn_context x c).
Proof.
  intros Hq Hr H S C. split; [done|done|done| | | |constructor|].
  - split; [done|]. unfold requests_tasks. cbn. by rewrite app_nil_r.
  - cbn. rewrite app_nil_r. change (world_at (set_cn_context x c)) with (world_at c). by rewrite set_cl_dscc_same, set_cl_heap_same.
  - by apply knows_same.
  - cbn. change (client_at (set_cn_context x c)) with (client_at (set_cn_context x c)). by destruct c as [? []].
Qed.
Lemma requested_same c : usable c -> requested [] (subs_at c) c c.
Proof.
  intros [H Hq Hr _ _]. rewrite <- (set_cn_context_same c) at 3. by apply requested_context.
Qed.

Section operations.
Context {It : Iteration} (calloc_ok : Z -> bool) (calloc_works : forall n, calloc_ok n = true).
Context (dx_send : list Z -> list Z -> Z + dx_error_code) (t : tables).

(** ** Subscribing over the network *)

(** The client after a task for a subscription is added. *)
Definition with_request (a : dx_array dx_task_data_t) (s : dscc) (d : dx_event_subscription_task_data_t) (c : connection) : connection :=
  with_client (TqState a (set_cl_heap (cl_heap (world_at c) ++ [Some d]) (set_cl_dscc s (world_at c)))) c.

Lemma requested_one a s d tasks c :
  usable c -> array_wf a -> contents a = contents (tq (client_at c)) ++ tasks ++ [subscription_task (Z.of_nat (length (cl_heap (world_at c))) + 1)] ->
  tasks = (if td_unsubscribe d then [] else [records_task]) ->
  knows (cl_dscc (world_at c)) s (length (task_entries d)) -> (td_unsubscribe d = false -> registered s (task_entries d)) ->
  requested [d] (subs_at c) c (with_request a s d c).
Proof using Type.
  intros [H _ _ _ _] Ha Hc -> K R. split; [done|done|done| |done| |by repeat constructor|by destruct c as [? []]].
  - split; [done|]. unfold requests_tasks, new_datas, request_tasks. change (contents (tq (client_at (with_request a s d c)))) with (contents a).
    rewrite seqZ_cons by (cbn [length]; lia). cbn [zip_with concat]. by rewrite app_nil_r.
  - unfold requests_entries. cbn [fmap list_fmap concat]. by rewrite app_nil_r.
Qed.

(** A subscription, or the end of one, whose records are registered if it is new. *)
Lemma ask_spec (sources : list (list Z)) (symbols : list (option (list Z))) (event_types : Z) (u : bool) (flags time : Z) tasks c a :
  usable c -> Forall (fun source => (length (c_string source) <= 4)%nat) sources ->
  array_wf a -> contents a = contents (tq (client_at c)) ++ tasks ->
  tasks = (if u then [] else [records_task]) ->
  forall s, knows (cl_dscc (world_at c)) s (length (asked_entries sources event_types flags all_events)) ->
  (if u then s = cl_dscc (world_at c) else registered s (asked_entries sources event_types flags all_events)) ->
  exists c', on_cn_client (dx_subscribe_symbols_to_events calloc_ok dx_send t sources symbols event_types u false flags time)
      (with_client (TqState a (set_cl_dscc s (world_at c))) c) = Ok tt c' /\
    requested [new_task sources symbols event_types u flags time] (subs_at c) c c'.
Proof using calloc_works.
  intros Hus Hsrc Ha Hc Et s K R. set (w := set_cl_dscc s (world_at c)).
  assert (exists r, says (cl_protocol w) r /\ (r = dx_mss_supported \/ r = dx_mss_pending)) as (r & Hr & Hres).
  { destruct (us_answers c Hus) as [Hs|Hs]; eexists; (split; [exact Hs|auto]). }
  destruct (schedule_subscription calloc_ok calloc_works dx_send sources Hsrc event_types flags t symbols u time r a w Ha
    (knows_ok _ _ _ K) Hr Hres) as (a' & s' & E & Ha' & Hc' & K' & Hsame).
  eexists. split; [apply on_cn_client_at; exact E|].
  apply (requested_one a' s' _ tasks c Hus Ha'); [by rewrite Hc', Hc, <- app_assoc|done| |].
  - destruct u; [by subst s|]. by rewrite (Hsame R).
  - intros Hu. change (u = false) in Hu. subst u. by rewrite (Hsame R).
Qed.

Lemma unsubscribe_request (sources : list (list Z)) symbols event_types flags time c :
  usable c -> Forall (fun source => (length (c_string source) <= 4)%nat) sources ->
  exists c', dx_unsubscribe calloc_ok dx_send t sources symbols event_types flags time c = Ok tt c' /\
    requested [new_task sources symbols event_types true flags time] (subs_at c) c c'.
Proof using calloc_works.
  intros Hus Hsrc. pose proof (us_queue c Hus) as Ha.
  destruct (ask_spec sources symbols event_types true flags time [] c (tq (client_at c)) Hus Hsrc Ha (eq_sym (app_nil_r _)) eq_refl
    (cl_dscc (world_at c)) (knows_same _ _ (us_registry c Hus)) eq_refl) as (c' & E & H).
  exists c'. split; [|done]. rewrite set_cl_dscc_same in E. unfold dx_unsubscribe.
  replace (with_client _ c) with c in E; [done|]. by destruct c as [? [[]]].
Qed.

Lemma subscribe_request order_source (sources : list (list Z)) symbols event_types flags time c :
  usable c -> Forall (fun source => (length (c_string source) <= 4)%nat) sources ->
  (forall c1, cn_context c1 = cn_context c -> order_source c1 = Ok sources c1) ->
  exists c', load_and_subscribe calloc_ok dx_send t order_source symbols event_types flags time c = Ok tt c' /\
    requested [new_task sources symbols event_types false flags time] (subs_at c) c c'.
Proof using calloc_works.
  intros Hus Hsrc Hos. pose proof (us_queue c Hus) as Ha. unfold load_and_subscribe. rewrite (bind_ok _ _ _ _ _ (Hos c eq_refl)).
  destruct (load_events_spec calloc_ok calloc_works sources Hsrc event_types flags all_events (world_at c) (us_registry c Hus))
    as (s & E & K & R).
  assert (Ec : client_at c = TqState (tq (client_at c)) (world_at c)) by (unfold world_at; by destruct (client_at c)).
  rewrite (bind_ok _ _ _ _ _ (on_cn_client_at _ c _ _ ltac:(rewrite Ec; apply E))).
  set (c1 := with_client (TqState _ _) c).
  destruct (add_worker_task calloc_ok calloc_works (tq (client_at c)) (set_cl_dscc s (world_at c)) describe_records_sender_ptr 0 Ha)
    as (a1 & E1 & Ha1 & Hc1); [done|].
  rewrite (bind_ok _ _ _ _ _ (on_cn_client_at (dx_send_record_description calloc_ok dx_send false) c1 _ _ E1)).
  set (c2 := with_client _ c1). rewrite (bind_ok _ _ _ _ _ (Hos c2 eq_refl)).
  destruct (ask_spec sources symbols event_types false flags time [records_task] c a1 Hus Hsrc Ha1 Hc1 eq_refl s K R) as (c' & E2 & H).
  exists c'. split; [exact E2|done].
Qed.

(** ** The operations *)

(** What is asked for a subscription. *)
Definition request (unsubscribe : bool) (symbols : list (option (list Z))) (flags : Z) (v : subscription_view)
  : dx_event_subscription_task_data_t :=
  new_task (v_sources v) symbols (i32 (v_types v)) unsubscribe flags (v_time v).
Definition without_wildcard (flags : Z) : Z :=
  if IS_FLAG_SET flags dx_esf_wildcard then Z.lxor flags dx_esf_wildcard else flags.

Lemma changed_request l m c x : usable c -> changed None l m (cn_context c) x -> requested [] m c (set_cn_context x c).
Proof using Type. intros [H Hq Hr _ _] [Hc Hs Hk _]. by apply requested_context. Qed.

(** An operation on the context comes after a request. *)
Lemma then_context {A} l m reqs (k : M EventSubscriptionConnectionContext A) v c c1 x :
  usable c1 -> requested reqs (subs_at c1) c c1 -> changed None l m (cn_context c1) x -> k (cn_context c1) = Ok v x ->
  on_context k c1 = Ok v (set_cn_context x c1) /\ requested reqs m c (set_cn_context x c1).
Proof using Type.
  intros Hus H Hc E. split; [by apply on_context_at|]. rewrite <- (app_nil_r reqs).
  eapply requested_trans; [exact H|]. by eapply changed_request.
Qed.

Lemma symbol_names_all (X : gset (list Z)) names : names ≡ₚ elements X -> [] ∉ X -> symbol_names (Some <$> names) = X.
Proof using Type.
  intros Hp Hne. unfold symbol_names. apply set_eq. intros n. rewrite elem_of_list_to_set, list_elem_of_omap. split.
  - intros (o & (n' & -> & Hin)%list_elem_of_fmap & E). rewrite Hp, elem_of_elements in Hin. by destruct n'; simplify_eq.
  - intros Hin. exists (Some n). split; [apply list_elem_of_fmap; exists n; split; [done|]; by rewrite Hp, elem_of_elements|].
    destruct n; [done|done].
Qed.

Lemma requested_subs reqs m c c' : requested reqs m c c' -> requested reqs (subs_at c') c c'.
Proof using Type. intros []. by split. Qed.

Lemma clear_spec c s v : usable c -> subs_at c !! s = Some v ->
  exists names c', names ≡ₚ elements (v_names v) /\ dxf_clear_symbols calloc_ok dx_send t (Some s) c = Ok tt c' /\
    requested [request true (Some <$> names) (v_flags v) v]
      (<[s := with_flags (without_wildcard (v_flags v)) (with_names ∅ v)]> (subs_at c)) c c'.
Proof using calloc_works.
  intros Hus Es. destruct (us_fits c Hus s v Es) as [Hsrc Hne].
  destruct (reads c s v (us_consistent c Hus) Es) as (names & [Rc Rt Rf Rti Rs Rn _] & Hp).
  unfold dxf_clear_symbols, valid_subscription.
  rewrite (bind_ok _ _ _ _ _ Rn), (bind_ok _ _ _ _ _ Rc), (bind_ok _ _ _ _ _ Rt), (bind_ok _ _ _ _ _ Rf), (bind_ok _ _ _ _ _ Rti),
    (bind_ok _ _ _ _ _ Rs).
  destruct (unsubscribe_request (v_sources v) (Some <$> names) (i32 (v_types v)) (v_flags v) (v_time v) c Hus Hsrc) as (c1 & E1 & H1).
  rewrite (bind_ok _ _ _ _ _ E1). pose proof (usable_after _ _ _ _ Hus H1 (us_fits c Hus)) as Hus1.
  pose proof (rq_subs _ _ _ _ H1) as S1. assert (Es1 : subs (cn_context c1) !! s = Some v) by (unfold subs_at in S1; by rewrite S1).
  destruct (remove_loop_spec None (Some <$> names) s (cn_context c1) v (us_consistent c1 Hus1) Es1) as (x & E2 & H2).
  rewrite (symbol_names_all (v_names v)) in H2 by done. rewrite difference_diag_L in H2.
  change (subs (cn_context c1)) with (subs_at c1) in H2. rewrite S1 in H2.
  destruct (then_context _ _ _ (dx_remove_symbols (Some s) (Some <$> names)) tt c c1 x Hus1 (requested_subs _ _ _ _ H1) H2 E2) as [E3 H3].
  rewrite (bind_ok _ _ _ _ _ E3). exists names. unfold without_wildcard. destruct (IS_FLAG_SET (v_flags v) dx_esf_wildcard).
  - set (c2 := set_cn_context x c1) in *.
    assert (Hus2 : usable c2).
    { apply (usable_after _ _ c c2 Hus H3). apply map_Forall_insert_2; [|apply us_fits; done]. split; [done|set_solver]. }
    assert (Es2 : subs (cn_context c2) !! s = Some (with_names ∅ v)).
    { pose proof (rq_subs _ _ _ _ H3) as S3. unfold subs_at in S3. rewrite S3. apply lookup_insert_eq. }
    destruct (change_view_spec None (cn_context c2) s _ (set_subscriptionFlags (Z.lxor (v_flags v) dx_esf_wildcard))
      (with_flags (Z.lxor (v_flags v) dx_esf_wildcard)) (us_consistent c2 Hus2) Es2) as (y & E4 & H4); [done|done|].
    destruct (then_context _ _ _ (dx_set_event_subscription_flags (Some s) (Z.lxor (v_flags v) dx_esf_wildcard)) tt c c2 y Hus2
      (requested_subs _ _ _ _ H3) H4 E4) as [E5 H5].
    eexists. split_and!; [done|exact E5|]. change (subs (cn_context c2)) with (subs_at c2) in H5.
    by rewrite (rq_subs _ _ _ _ H3), insert_insert_eq in H5.
  - eexists. split_and!; [done|reflexivity|]. replace (with_flags _ _) with (with_names ∅ v) by (by destruct v). exact H3.
Qed.
Context (create_ok : list Z -> bool) (create_always : forall n, create_ok n = true).

Lemma symbol_array_all {A} s (l : list (option (list Z))) (k : addr -> list (option (list Z)) -> M connection A) :
  symbol_array (Some s) (Some l) (zlen l) k = k s l.
Proof using Type.
  unfold symbol_array. rewrite (proj2 (Z.ltb_ge _ _)) by apply zlen_nonneg. rewrite Z.ltb_irrefl. unfold zlen. by rewrite Nat2Z.id, firstn_all.
Qed.
Lemma symbol_names_nonempty l : [] ∉ symbol_names l.
Proof using Type.
  unfold symbol_names. rewrite elem_of_list_to_set, list_elem_of_omap. by intros ([[|? ?]|] & _ & E).
Qed.

Lemma get_at_context c s v (H : consistent None (cn_context c)) : subs_at c !! s = Some v ->
  time_of (Some s) c = Ok (v_time v) c /\ source_of s c = Ok (v_sources v) c.
Proof using It. intros Es. by destruct (reads c s v H Es) as (names & [] & _). Qed.

(** The names are added, and asked for with these flags. *)
Lemma add_and_subscribe c s v l flags : usable c -> subs_at c !! s = Some v ->
  exists c', (time <-- time_of (Some s);;
       on_context (dx_add_symbols create_ok (Some s) l);;;
       load_and_subscribe calloc_ok dx_send t (source_of s) l (i32 (v_types v)) flags time) c = Ok tt c' /\
    requested [request false l flags v] (<[s := with_names (symbol_names l ∪ v_names v) v]> (subs_at c)) c c'.
Proof using It calloc_works create_always.
  intros Hus Es. destruct (us_fits c Hus s v Es) as [Hsrc Hne].
  destruct (get_at_context c s v (us_consistent c Hus) Es) as [Rti _]. rewrite (bind_ok _ _ _ _ _ Rti).
  destruct (add_loop_spec create_ok None l s (cn_context c) v (us_consistent c Hus) Es) as (x & X & H1 & _ & _ & E).
  destruct (E create_always) as [E1 ->]. clear E. pose proof (changed_request _ _ c x Hus H1) as H1'. change (subs (cn_context c)) with (subs_at c) in H1'.
  rewrite (bind_ok _ _ _ _ _ (on_context_at (dx_add_symbols create_ok (Some s) l) c tt x E1)). set (c1 := set_cn_context x c) in *.
  assert (Hus1 : usable c1).
  { apply (usable_after _ _ c c1 Hus H1'). apply map_Forall_insert_2; [|apply us_fits; done]. split; [done|].
    cbn. rewrite elem_of_union. intros [Hx|Hx]; [by apply symbol_names_nonempty in Hx|done]. }
  destruct (subscribe_request (source_of s) (v_sources v) l (i32 (v_types v)) flags (v_time v) c1 Hus1 Hsrc)
    as (c' & E2 & H2).
  { intros c2 Ec. apply (get_at_context c2 s (with_names (symbol_names l ∪ v_names v) v)); [rewrite Ec; apply Hus1|].
    unfold subs_at. rewrite Ec. pose proof (rq_subs _ _ _ _ H1') as S1. unfold subs_at in S1. rewrite S1. apply lookup_insert_eq. }
  exists c'. split; [exact E2|]. rewrite <- (rq_subs _ _ _ _ H1'). exact (requested_trans [] _ _ _ _ _ _ H1' H2).
Qed.

Lemma add_spec c s v l : usable c -> subs_at c !! s = Some v -> IS_FLAG_SET (v_flags v) dx_esf_wildcard = false -> l <> [] ->
  search_wildcard l = Some false ->
  exists c', dxf_add_symbols create_ok calloc_ok dx_send t (Some s) (Some l) (zlen l) c = Ok tt c' /\
    requested [request false l (v_flags v) v] (<[s := with_names (symbol_names l ∪ v_names v) v]> (subs_at c)) c c'.
Proof using It calloc_works create_always.
  intros Hus Es Hf Hl Hw. destruct (reads c s v (us_consistent c Hus) Es) as (names & [Rc Rt Rf Rti Rs Rn _] & Hp).
  unfold dxf_add_symbols. rewrite symbol_array_all. destruct (Z.eqb_spec (zlen l) 0) as [E|_]; [by destruct l|].
  rewrite (bind_ok _ _ _ _ _ Rc), (bind_ok _ _ _ _ _ Rt), (bind_ok _ _ _ _ _ Rf), Hf, Hw.
  rewrite (bind_ok (of_option (Some false)) _ _ _ _ eq_refl), (bind_ok (ret (l, v_flags v)) _ _ _ _ eq_refl).
  by apply add_and_subscribe.
Qed.

(** A wildcard takes the place of all the names. *)
Lemma add_wildcard_spec c s v l : usable c -> subs_at c !! s = Some v -> IS_FLAG_SET (v_flags v) dx_esf_wildcard = false -> l <> [] ->
  search_wildcard l = Some true ->
  exists names c', names ≡ₚ elements (v_names v) /\ dxf_add_symbols create_ok calloc_ok dx_send t (Some s) (Some l) (zlen l) c = Ok tt c' /\
    requested [request true (Some <$> names) (v_flags v) v; request false [Some wildcard] (Z.lxor (v_flags v) dx_esf_wildcard) v]
      (<[s := with_names {[wildcard]} v]> (subs_at c)) c c'.
Proof using It calloc_works create_always.
  intros Hus Es Hf Hl Hw. destruct (reads c s v (us_consistent c Hus) Es) as (old & [Rc Rt Rf Rti Rs Rn _] & _).
  unfold dxf_add_symbols. rewrite symbol_array_all. destruct (Z.eqb_spec (zlen l) 0) as [E|_]; [by destruct l|].
  rewrite (bind_ok _ _ _ _ _ Rc), (bind_ok _ _ _ _ _ Rt), (bind_ok _ _ _ _ _ Rf), Hf, Hw.
  rewrite (bind_ok (of_option (Some true)) _ _ _ _ eq_refl).
  destruct (clear_spec c s v Hus Es) as (names & c1 & Hp & E1 & H1). unfold without_wildcard in H1. rewrite Hf in H1.
  replace (with_flags _ _) with (with_names ∅ v) in H1 by (by destruct v).
  rewrite (bind_ok _ _ c (Some <$> [wildcard], Z.lxor (v_flags v) dx_esf_wildcard) c1) by (by rewrite (bind_ok _ _ _ _ _ E1)).
  pose proof (us_fits c Hus) as Hfit.
  assert (Hus1 : usable c1).
  { apply (usable_after _ _ c c1 Hus H1). apply map_Forall_insert_2; [|done]. split; [by destruct (Hfit s v Es)|set_solver]. }
  destruct (add_and_subscribe c1 s (with_names ∅ v) [Some wildcard] (Z.lxor (v_flags v) dx_esf_wildcard) Hus1) as (c2 & E2 & H2).
  { rewrite (rq_subs _ _ _ _ H1). apply lookup_insert_eq. }
  exists names, c2. split_and!; [done|exact E2|]. rewrite (rq_subs _ _ _ _ H1), insert_insert_eq in H2.
  replace (with_names (symbol_names [Some wildcard] ∪ _) _) with (with_names {[wildcard]} v) in H2
    by (unfold with_names; cbn; f_equal; set_solver).
  exact (requested_trans [_] [_] _ _ _ _ _ H1 H2).
Qed.
End operations.
