(* ===== verification/FeedRefinement.v ===== *)
(** * FeedRefinement: the interface implements an abstract one

    Every operation of the interface on the subscriptions of a connection changes an
    abstract map of subscriptions and asks the server for something; the requests are
    tasks in the queue of the connection, in their order. *)

From Stdlib Require Import Ascii String.
From S2P Require Import Prelude Arrays Algorithms Output Input SymbolCodec EventData DataStructures Subscription Properties TaskQueue.
From S2P Require Import MessageData ConfigurationDeserializer NetworkContext ServerData ServerProcessor ClientMessages ClientTheory ClientTasks Network Reconnect.
From S2P Require Import PriceLevelSource EventSubscription SubscriptionTheory SubscriptionRefinement Delivery Feed FeedTheory.
Local Open Scope Z_scope.
Local Open Scope c_scope.

(** The sources after one is added. *)
Definition with_source (source : list Z) (l : list (list Z)) : list (list Z) :=
  if bool_decide (source ∈ c_string <$> l) then l else l ++ [stored source].
Definition source_ok (source : list Z) : Prop := is_ascii source /\ (1 <= length source <= 4)%nat.

Lemma source_terminator source : source_ok source -> 0 ∉ source.
Proof. intros [Ha _] Hin. unfold is_ascii in Ha. rewrite Forall_forall in Ha. specialize (Ha 0 Hin). lia. Qed.
Lemma stored_short source : source_ok source -> c_string (stored source) = source /\ (length (c_string (stored source)) <= 4)%nat.
Proof.
  intros Hs. pose proof (source_terminator source Hs). destruct Hs as [_ Hl].
  rewrite c_string_stored by (try done; unfold DXF_RECORD_SUFFIX_SIZE; lia). split; [done|lia].
Qed.

Lemma valid_source_ok {A} source (k : list Z -> M connection A) : source_ok source -> valid_source (Some source) k = k source.
Proof.
  intros [_ Hl]. unfold valid_source, zlen, DXF_RECORD_SUFFIX_SIZE.
  rewrite (proj2 (Z.eqb_neq _ _)), (proj2 (Z.leb_gt _ _)) by lia. done.
Qed.

Lemma wide_source_ok calloc_ok mbsrtowcs source c : (forall n, calloc_ok n = true) -> (forall s, is_ascii s -> mbsrtowcs s = Some s) ->
  source_ok source -> wide_source calloc_ok mbsrtowcs source c = Ok source c.
Proof. intros Hc Hm [Ha Hl]. unfold wide_source. by rewrite (ansi_wide _ _ _ Hc Hm) by (try done; lia). Qed.

(** A source is added to those of a subscription. *)
Lemma add_order_source_spec (alloc : nat -> bool) c s v source : (forall n, alloc n = true) -> usable c -> subs_at c !! s = Some v -> source_ok source ->
  exists x, dx_add_order_source alloc s source (cn_context c) = Ok tt x /\
    changed None grows (<[s := with_sources (with_source source (v_sources v)) v]> (subs_at c)) (cn_context c) x.
Proof.
  intros Halloc Hus (d & Es & <-)%live_lookup Hsrc. pose proof (source_terminator source Hsrc) as H0. pose proof (us_consistent c Hus) as H.
  assert (Hso : sources_ok (orderSource d)) by apply (consistent_sources _ _ H s d Es).
  unfold with_source. cbn [v_sources view_of]. case_bool_decide as Hin.
  - exists (cn_context c). split.
    + unfold dx_add_order_source. rewrite (bind_ok _ _ _ _ _ (subscription_at_ok _ s d Es)).
      rewrite copy_suffix by (destruct Hsrc; unfold DXF_RECORD_SUFFIX_SIZE; lia).
      change (source ++ replicate (DXF_RECORD_SUFFIX_SIZE - length source) 0) with (stored source).
      rewrite (bind_ok (of_option (Some _)) _ _ _ _ eq_refl).
      destruct (search_source_spec (orderSource d) (stored source) Hso) as (found & idx & Ef & Hf & _).
      rewrite (proj1 (stored_short source Hsrc)), bool_decide_eq_true_2 in Hf by done. subst found.
      destruct (arr_elements (orderSource d)) eqn:Ea.
      { unfold contents in Hin. rewrite Ea, take_nil in Hin. by apply elem_of_nil in Hin. }
      unfold terminated. cbn [forallb]. rewrite bool_decide_eq_true_2; [cbn [andb]; by rewrite Ef|].
      unfold stored, DXF_RECORD_SUFFIX_SIZE. destruct Hsrc as [_ Hl]. destruct (5 - length source)%nat eqn:E5; [lia|]. cbn. set_solver.
    + replace (<[s := _]> (subs_at c)) with (subs (cn_context c)); [by apply changed_same; [apply _|]|].
      symmetry. apply insert_id. rewrite (subs_lookup _ s d Es). by destruct d.
  - destruct (add_source_ok alloc Halloc s (cn_context c) d source Es Hso) as (a & E & Ha & Hc);
      [destruct Hsrc; unfold DXF_RECORD_SUFFIX_SIZE; lia|done|done|].
    destruct (change_subscription_spec None grows (cn_context c) s d (set_orderSource a) H Es eq_refl (fun _ => Ha)) as (x & E2 & Hx).
    exists x. rewrite (change_subscription_ok _ s d _ Es) in E2. rewrite E, <- E2. split; [done|].
    unfold view_of in Hx at 1. cbn in Hx. rewrite Hc in Hx. exact Hx.
Qed.

Section operations.
Context {It : Iteration} (calloc_ok : Z -> bool) (calloc_works : forall n, calloc_ok n = true).
Context (dx_send : list Z -> list Z -> Z + dx_error_code) (t : tables).

Lemma remove_spec c s v l : usable c -> subs_at c !! s = Some v -> IS_FLAG_SET (v_flags v) dx_esf_wildcard = false ->
  v_names v <> ∅ -> search_wildcard l = Some false ->
  exists c', dxf_remove_symbols calloc_ok dx_send t (Some s) (Some l) (zlen l) c = Ok tt c' /\
    requested [request true l (v_flags v) v] (<[s := with_names (v_names v ∖ symbol_names l) v]> (subs_at c)) c c'.
Proof using It calloc_works.
  intros Hus Es Hf Hne Hw. destruct (us_fits c Hus s v Es) as [Hsrc _].
  destruct (reads c s v (us_consistent c Hus) Es) as (names & [Rc Rt Rf Rti Rs Rn Rk] & _).
  unfold dxf_remove_symbols. rewrite symbol_array_all, (bind_ok _ _ _ _ _ Rk).
  rewrite (proj2 (Nat.eqb_neq _ _)) by (by intros E%size_empty_inv%leibniz_equiv). rewrite Hw.
  rewrite (bind_ok (of_option (Some false)) _ _ _ _ eq_refl), (bind_ok _ _ _ _ _ Rc), (bind_ok _ _ _ _ _ Rt), (bind_ok _ _ _ _ _ Rf), Hf.
  rewrite (bind_ok _ _ _ _ _ Rti), (bind_ok _ _ _ _ _ Rs).
  destruct (unsubscribe_request calloc_ok calloc_works dx_send t (v_sources v) l (i32 (v_types v)) (v_flags v) (v_time v) c Hus Hsrc)
    as (c1 & E1 & H1).
  rewrite (bind_ok _ _ _ _ _ E1). pose proof (usable_after _ _ _ _ Hus H1 (us_fits c Hus)) as Hus1.
  pose proof (rq_subs _ _ _ _ H1) as S1. assert (Es1 : subs (cn_context c1) !! s = Some v) by (unfold subs_at in S1; by rewrite S1).
  destruct (remove_loop_spec None l s (cn_context c1) v (us_consistent c1 Hus1) Es1) as (x & E2 & H2).
  change (subs (cn_context c1)) with (subs_at c1) in H2. rewrite S1 in H2.
  destruct (then_context _ _ _ (dx_remove_symbols (Some s) l) tt c c1 x Hus1 (requested_subs _ _ _ _ H1) H2 E2) as [E3 H3].
  by exists (set_cn_context x c1).
Qed.

Lemma close_subscription_spec c s v : usable c -> subs_at c !! s = Some v ->
  exists names c', names ≡ₚ elements (v_names v) /\ dxf_close_subscription calloc_ok dx_send t (Some s) c = Ok tt c' /\
    requested [request true (Some <$> names) (v_flags v) v] (delete s (subs_at c)) c c'.
Proof using It calloc_works.
  intros Hus Es. destruct (us_fits c Hus s v Es) as [Hsrc _].
  destruct (reads c s v (us_consistent c Hus) Es) as (names & [Rc Rt Rf Rti Rs Rn _] & Hp).
  unfold dxf_close_subscription, dx_close_subscription, valid_subscription.
  rewrite (bind_ok _ _ _ _ _ Rc), (bind_ok _ _ _ _ _ Rt), (bind_ok _ _ _ _ _ Rn), (bind_ok _ _ _ _ _ Rf), (bind_ok _ _ _ _ _ Rti),
    (bind_ok _ _ _ _ _ Rs).
  destruct (unsubscribe_request calloc_ok calloc_works dx_send t (v_sources v) (Some <$> names) (i32 (v_types v)) (v_flags v) (v_time v) c Hus Hsrc)
    as (c1 & E1 & H1).
  rewrite (bind_ok _ _ _ _ _ E1). pose proof (usable_after _ _ _ _ Hus H1 (us_fits c Hus)) as Hus1.
  pose proof (rq_subs _ _ _ _ H1) as S1. assert (Es1 : subs (cn_context c1) !! s = Some v) by (unfold subs_at in S1; by rewrite S1).
  destruct (close_spec None (cn_context c1) s v (us_consistent c1 Hus1) Es1) as (x & E2 & H2).
  change (subs (cn_context c1)) with (subs_at c1) in H2. rewrite S1 in H2.
  destruct (then_context _ _ _ (dx_close_event_subscription (Some s)) tt c c1 x Hus1 (requested_subs _ _ _ _ H1) H2 E2) as [E3 H3].
  by exists names, (set_cn_context x c1).
Qed.

Lemma created_fits types : Forall (fun source => (length (c_string source) <= 4)%nat) (created_sources types).
Proof using Type.
  unfold created_sources. destruct (_ =? 0); [constructor|]. apply (bool_decide_unpack _). vm_compute. exact I.
Qed.

Lemma create_subscription_spec c types flags time : usable c -> Z.land (u32 types) DXF_ET_UNUSED = 0 ->
  exists s c', dxf_create_subscription_impl true calloc_ok types flags time true c = Ok s c' /\ subs_at c !! s = None /\
    requested [] (<[s := SubscriptionView (u32 types) ∅ ∅ (created_sources (u32 types)) flags time]> (subs_at c)) c c'.
Proof using calloc_works.
  intros Hus Ht. destruct (create_spec (fun n => calloc_ok (Z.of_nat n)) (fun n => calloc_works _) None grows (u32 types) flags time
    (cn_context c) (us_consistent c Hus) Ht) as (s & x & E & Es & H).
  exists s, (set_cn_context x c). split; [|split; [done|by eapply changed_request]]. unfold dxf_create_subscription_impl. cbn [negb].
  by apply on_context_at.
Qed.

(** ** Sources of orders *)

Context (mbsrtowcs : list Z -> option (list Z)) (mbsrtowcs_ascii : forall s, is_ascii s -> mbsrtowcs s = Some s).

Lemma add_one_source_spec c s v source : usable c -> subs_at c !! s = Some v -> source_ok source ->
  exists names c', names ≡ₚ elements (v_names v) /\ dxf_add_order_source calloc_ok mbsrtowcs dx_send t (Some s) (Some source) c = Ok tt c' /\
    requested [request false (Some <$> names) (v_flags v) (with_sources [stored source] v)]
      (<[s := with_sources (with_source source (v_sources v)) v]> (subs_at c)) c c'.
Proof using It calloc_works mbsrtowcs_ascii.
  intros Hus Es Hsrc. destruct (reads c s v (us_consistent c Hus) Es) as (names & [Rc Rt Rf Rti Rs Rn _] & Hp).
  unfold dxf_add_order_source, valid_subscription. rewrite valid_source_ok by done. rewrite (bind_ok _ _ _ _ _ (wide_source_ok _ _ source c calloc_works mbsrtowcs_ascii Hsrc)).
  assert (Ee : dx_copy_string_len (replicate DXF_RECORD_SUFFIX_SIZE 0) source (length source) = Some (stored source)).
  { destruct Hsrc as [_ Hl]. unfold dx_copy_string_len. rewrite blit_in by (rewrite ?length_app, ?length_replicate; unfold DXF_RECORD_SUFFIX_SIZE; lia).
    rewrite take_0, drop_0, Nat.add_0_l, take_app_length, drop_replicate. done. }
  rewrite Ee, (bind_ok (of_option (Some _)) _ _ _ _ eq_refl).
  destruct (array_append_spec (replicate DXF_RECORD_SUFFIX_SIZE 0) (fun n => calloc_ok (Z.of_nat n)) DX_EMPTY_ARRAY (stored source)
    array_wf_empty (fun n => calloc_works _)) as (a & Ea & Ha & Hca).
  change (arr_size DX_EMPTY_ARRAY) with O in Ea. rewrite Ea, (bind_ok (of_option (Some _)) _ _ _ _ eq_refl). cbn [snd fst].
  rewrite (bind_ok _ _ _ _ _ Rc), (bind_ok _ _ _ _ _ Rn), (bind_ok _ _ _ _ _ Rt), (bind_ok _ _ _ _ _ Rf), (bind_ok _ _ _ _ _ Rti).
  change (contents a = [stored source]) in Hca. rewrite Hca. destruct (stored_short source Hsrc) as [Hs Hl].
  destruct (subscribe_request calloc_ok calloc_works dx_send t (ret [stored source]) [stored source] (Some <$> names) (i32 (v_types v)) (v_flags v)
    (v_time v) c Hus ltac:(constructor; [exact Hl|constructor]) (fun _ _ => eq_refl)) as (c1 & E1 & H1).
  rewrite (bind_ok _ _ _ _ _ E1), Hs. pose proof (usable_after _ _ _ _ Hus H1 (us_fits c Hus)) as Hus1.
  pose proof (rq_subs _ _ _ _ H1) as S1.
  destruct (add_order_source_spec (fun n => calloc_ok (Z.of_nat n)) c1 s v source (fun n => calloc_works _) Hus1) as (x & E2 & H2); [by rewrite S1|done|]. rewrite S1 in H2.
  destruct (then_context _ _ _ (dx_add_order_source _ s source) tt c c1 x Hus1 (requested_subs _ _ _ _ H1) H2 E2) as [E3 H3].
  by exists names, (set_cn_context x c1).
Qed.

Lemma set_source_spec c s v source : usable c -> subs_at c !! s = Some v -> source_ok source ->
  exists names c', names ≡ₚ elements (v_names v) /\ dxf_set_order_source calloc_ok mbsrtowcs dx_send t (Some s) (Some source) c = Ok tt c' /\
    requested [request true (Some <$> names) (v_flags v) v; request false (Some <$> names) (v_flags v) (with_sources [stored source] v)]
      (<[s := with_sources [stored source] v]> (subs_at c)) c c'.
Proof using It calloc_works mbsrtowcs_ascii.
  intros Hus Es Hsrc. destruct (us_fits c Hus s v Es) as [Hvs Hne].
  destruct (reads c s v (us_consistent c Hus) Es) as (names & [Rc Rt Rf Rti Rs Rn _] & Hp).
  unfold dxf_set_order_source, valid_subscription. rewrite valid_source_ok by done.
  rewrite (bind_ok _ _ _ _ _ Rc), (bind_ok _ _ _ _ _ Rn), (bind_ok _ _ _ _ _ Rt), (bind_ok _ _ _ _ _ Rf), (bind_ok _ _ _ _ _ Rti),
    (bind_ok _ _ _ _ _ Rs).
  destruct (unsubscribe_request calloc_ok calloc_works dx_send t (v_sources v) (Some <$> names) (i32 (v_types v)) (v_flags v) (v_time v) c Hus Hvs)
    as (c1 & E1 & H1). rewrite (bind_ok _ _ _ _ _ E1).
  pose proof (usable_after _ _ _ _ Hus H1 (us_fits c Hus)) as Hus1. pose proof (rq_subs _ _ _ _ H1) as S1.
  pose proof Es as Es1. rewrite <- S1 in Es1. apply live_lookup in Es1 as (d & Ed & <-).
  destruct (change_subscription_spec None grows (cn_context c1) s d (set_orderSource DX_EMPTY_ARRAY) (us_consistent c1 Hus1) Ed eq_refl
    (fun _ => conj array_wf_empty eq_refl)) as (x & E2 & H2).
  change (subs (cn_context c1)) with (subs_at c1) in H2. rewrite S1 in H2.
  destruct (then_context _ _ _ (dx_clear_order_source (Some s)) tt c c1 x Hus1 (requested_subs _ _ _ _ H1) H2 E2) as [E3 H3].
  rewrite (bind_ok _ _ _ _ _ E3). set (c2 := set_cn_context x c1) in *.
  rewrite (bind_ok _ _ _ _ _ (wide_source_ok _ _ source c2 calloc_works mbsrtowcs_ascii Hsrc)).
  change (view_of (set_orderSource DX_EMPTY_ARRAY d)) with (with_sources [] (view_of d)) in H3. pose proof (rq_subs _ _ _ _ H3) as S3.
  assert (Hus2 : usable c2).
  { apply (usable_after _ _ c c2 Hus H3). apply map_Forall_insert_2; [by split|apply us_fits; done]. }
  destruct (add_order_source_spec (fun n => calloc_ok (Z.of_nat n)) c2 s (with_sources [] (view_of d)) source (fun n => calloc_works _) Hus2)
    as (y & E4 & H4); [rewrite S3; apply lookup_insert_eq|done|]. rewrite S3, insert_insert_eq in H4.
  change (with_sources (with_source source (v_sources (with_sources [] (view_of d)))) (with_sources [] (view_of d)))
    with (with_sources [stored source] (view_of d)) in H4.
  destruct (then_context _ _ _ (dx_add_order_source (fun n => calloc_ok (Z.of_nat n)) s source) tt c c2 y Hus2 (requested_subs _ _ _ _ H3) H4 E4) as [E5 H5].
  rewrite (bind_ok _ _ _ _ _ E5). set (c3 := set_cn_context y c2) in *. pose proof (rq_subs _ _ _ _ H5) as S5.
  assert (Hl : Forall (fun source => (length (c_string source) <= 4)%nat) [stored source]) by (constructor; [by apply stored_short|constructor]).
  assert (Hus3 : usable c3).
  { apply (usable_after _ _ c c3 Hus H5). apply map_Forall_insert_2; [by split|apply us_fits; done]. }
  destruct (subscribe_request calloc_ok calloc_works dx_send t (source_of s) [stored source] (Some <$> names) (i32 (v_types (view_of d)))
    (v_flags (view_of d)) (v_time (view_of d)) c3 Hus3 Hl) as (c4 & E6 & H6).
  { intros c' Ec. apply (get_at_context c' s (with_sources [stored source] (view_of d))); [rewrite Ec; apply Hus3|].
    unfold subs_at in *. rewrite Ec, S5. apply lookup_insert_eq. }
  exists names, c4. split_and!; [done|exact E6|]. rewrite S5 in H6. exact (requested_trans [_] [_] _ _ _ _ _ H5 H6).
Qed.
End operations.

(** ** The abstract interface *)

(** What the user may do, with arrays of as many symbols as are there. *)
Inductive feed_op : Type :=
  | feed_create (event_types subscr_flags time : Z)
  | feed_close (s : addr)
  | feed_add (s : addr) (l : list (option (list Z)))
  | feed_remove (s : addr) (l : list (option (list Z)))
  | feed_clear (s : addr)
  | feed_set_source (s : addr) (source : list Z)
  | feed_add_source (s : addr) (source : list Z).

(** A subscription that is open; a symbol that is not there to be compared with the
    wildcard is not allowed, nor sources longer than four characters. *)
Definition feed_allowed (m : gmap addr subscription_view) (op : feed_op) : Prop :=
  match op with
  | feed_create event_types _ _ => Z.land (u32 event_types) DXF_ET_UNUSED = 0
  | feed_close s | feed_clear s => is_Some (m !! s)
  | feed_add s l | feed_remove s l => is_Some (m !! s) /\ is_Some (search_wildcard l)
  | feed_set_source s source | feed_add_source s source => is_Some (m !! s) /\ source_ok source
  end.

(** A subscription becomes another one, with requests that are made of its names. *)
Definition changes (s : addr) (m m' : gmap addr subscription_view) (reqs : list dx_event_subscription_task_data_t)
  (f : subscription_view -> subscription_view)
  (asks : subscription_view -> list (option (list Z)) -> list dx_event_subscription_task_data_t) : Prop :=
  exists v names, m !! s = Some v /\ names ≡ₚ elements (v_names v) /\ m' = <[s := f v]> m /\ reqs = asks v (Some <$> names).

Definition clears (s : addr) (m m' : gmap addr subscription_view) (reqs : list dx_event_subscription_task_data_t) : Prop :=
  changes s m m' reqs (fun v => with_flags (without_wildcard (v_flags v)) (with_names ∅ v))
    (fun v names => [request true names (v_flags v) v]).

Definition has_wildcard (m : gmap addr subscription_view) (s : addr) : bool :=
  match m !! s with Some v => IS_FLAG_SET (v_flags v) dx_esf_wildcard | None => false end.
Definition is_wildcard (l : list (option (list Z))) : bool := default false (search_wildcard l).

Definition abstract_feed (op : feed_op) (m m' : gmap addr subscription_view) (reqs : list dx_event_subscription_task_data_t) : Prop :=
  match op with
  | feed_create event_types subscr_flags time =>
      exists s, m !! s = None /\ reqs = [] /\
        m' = <[s := SubscriptionView (u32 event_types) ∅ ∅ (created_sources (u32 event_types)) subscr_flags time]> m
  | feed_close s =>
      exists v names, m !! s = Some v /\ names ≡ₚ elements (v_names v) /\ m' = delete s m /\ reqs = [request true (Some <$> names) (v_flags v) v]
  | feed_add s l =>
      if bool_decide (l = []) || has_wildcard m s then m' = m /\ reqs = []
      else if is_wildcard l then
        changes s m m' reqs (with_names {[wildcard]})
          (fun v names => [request true names (v_flags v) v; request false [Some wildcard] (Z.lxor (v_flags v) dx_esf_wildcard) v])
      else changes s m m' reqs (fun v => with_names (symbol_names l ∪ v_names v) v) (fun v _ => [request false l (v_flags v) v])
  | feed_remove s l =>
      if bool_decide (v_names <$> m !! s = Some ∅) then m' = m /\ reqs = []
      else if is_wildcard l then clears s m m' reqs
      else if has_wildcard m s then m' = m /\ reqs = []
      else changes s m m' reqs (fun v => with_names (v_names v ∖ symbol_names l) v) (fun v _ => [request true l (v_flags v) v])
  | feed_clear s => clears s m m' reqs
  | feed_set_source s source =>
      changes s m m' reqs (with_sources [stored source])
        (fun v names => [request true names (v_flags v) v; request false names (v_flags v) (with_sources [stored source] v)])
  | feed_add_source s source =>
      changes s m m' reqs (fun v => with_sources (with_source source (v_sources v)) v)
        (fun v names => [request false names (v_flags v) (with_sources [stored source] v)])
  end.

Definition run_feed_op {It : Iteration} (create_ok : list Z -> bool) (calloc_ok : Z -> bool) (mbsrtowcs : list Z -> option (list Z))
  (dx_send : list Z -> list Z -> Z + dx_error_code) (t : tables) (op : feed_op) : M connection unit :=
  match op with
  | feed_create event_types subscr_flags time =>
      dxf_create_subscription_impl true calloc_ok event_types subscr_flags time true;;; ret tt
  | feed_close s => dxf_close_subscription calloc_ok dx_send t (Some s)
  | feed_add s l => dxf_add_symbols create_ok calloc_ok dx_send t (Some s) (Some l) (zlen l)
  | feed_remove s l => dxf_remove_symbols calloc_ok dx_send t (Some s) (Some l) (zlen l)
  | feed_clear s => dxf_clear_symbols calloc_ok dx_send t (Some s)
  | feed_set_source s source => dxf_set_order_source calloc_ok mbsrtowcs dx_send t (Some s) (Some source)
  | feed_add_source s source => dxf_add_order_source calloc_ok mbsrtowcs dx_send t (Some s) (Some source)
  end.

Section refinement.
Context {It : Iteration} (create_ok : list Z -> bool) (create_always : forall n, create_ok n = true).
Context (calloc_ok : Z -> bool) (calloc_works : forall n, calloc_ok n = true).
Context (mbsrtowcs : list Z -> option (list Z)) (mbsrtowcs_ascii : forall s, is_ascii s -> mbsrtowcs s = Some s).
Context (dx_send : list Z -> list Z -> Z + dx_error_code) (t : tables).

Let run := run_feed_op create_ok calloc_ok mbsrtowcs dx_send t.

(** The operation does what the abstract one does. *)
Definition implements (op : feed_op) (c : connection) : Prop :=
  exists c' m reqs, run op c = Ok tt c' /\ abstract_feed op (subs_at c) m reqs /\ requested reqs m c c'.

Lemma implements_nothing op c : usable c -> run op c = Ok tt c -> abstract_feed op (subs_at c) (subs_at c) [] -> implements op c.
Proof using Type. intros Hus E Ha. exists c, (subs_at c), []. split_and!; [done|done|by apply requested_same]. Qed.

Lemma add_implements c s l : usable c -> feed_allowed (subs_at c) (feed_add s l) -> implements (feed_add s l) c.
Proof using calloc_works create_always.
  intros Hus [[v Es] [w Hw]]. destruct (reads c s v (us_consistent c Hus) Es) as (names & [Rc Rt Rf _ _ _ _] & Hp).
  assert (Ew : has_wildcard (subs_at c) s = IS_FLAG_SET (v_flags v) dx_esf_wildcard) by (unfold has_wildcard; by rewrite Es).
  destruct (bool_decide_reflect (l = [])) as [->|Hl]; [|destruct (has_wildcard (subs_at c) s) eqn:Hf].
  - by apply implements_nothing.
  - apply implements_nothing; [done| |cbn; by rewrite Hf, orb_true_r].
    unfold run, run_feed_op, dxf_add_symbols. rewrite symbol_array_all. destruct (zlen l =? 0); [done|].
    by rewrite (bind_ok _ _ _ _ _ Rc), (bind_ok _ _ _ _ _ Rt), (bind_ok _ _ _ _ _ Rf), <- Ew.
  - assert (Ha : forall m reqs, (if is_wildcard l then
        changes s (subs_at c) m reqs (with_names {[wildcard]})
          (fun v names => [request true names (v_flags v) v; request false [Some wildcard] (Z.lxor (v_flags v) dx_esf_wildcard) v])
      else changes s (subs_at c) m reqs (fun v => with_names (symbol_names l ∪ v_names v) v) (fun v _ => [request false l (v_flags v) v])) ->
      abstract_feed (feed_add s l) (subs_at c) m reqs).
    { intros m reqs H. cbn. by rewrite bool_decide_eq_false_2, Hf by done. }
    unfold is_wildcard in Ha. rewrite Hw in Ha. destruct w.
    + destruct (add_wildcard_spec calloc_ok calloc_works dx_send t create_ok create_always c s v l Hus Es (eq_sym Ew) Hl Hw)
        as (names' & c' & Hp' & E & H). exists c'. eexists _, _. split_and!; [exact E|apply Ha; by exists v, names'|exact H].
    + destruct (add_spec calloc_ok calloc_works dx_send t create_ok create_always c s v l Hus Es (eq_sym Ew) Hl Hw) as (c' & E & H).
      exists c'. eexists _, _. split_and!; [exact E|apply Ha; by exists v, names|exact H].
Qed.

Lemma remove_implements c s l : usable c -> feed_allowed (subs_at c) (feed_remove s l) -> implements (feed_remove s l) c.
Proof using calloc_works.
  intros Hus [[v Es] [w Hw]]. destruct (reads c s v (us_consistent c Hus) Es) as (names & [Rc Rt Rf _ _ _ Rk] & Hp).
  assert (Ew : has_wildcard (subs_at c) s = IS_FLAG_SET (v_flags v) dx_esf_wildcard) by (unfold has_wildcard; by rewrite Es).
  assert (E : run (feed_remove s l) c = if (size (v_names v) =? 0)%nat then Ok tt c
    else if w then dxf_clear_symbols calloc_ok dx_send t (Some s) c
    else if IS_FLAG_SET (v_flags v) dx_esf_wildcard then Ok tt c else run (feed_remove s l) c).
  { destruct (size (v_names v) =? 0)%nat eqn:Hz; [|destruct w; [|destruct (IS_FLAG_SET (v_flags v) dx_esf_wildcard) eqn:Hf; [|done]]];
      unfold run, run_feed_op, dxf_remove_symbols; rewrite symbol_array_all, (bind_ok _ _ _ _ _ Rk), Hz; [done|..];
      rewrite Hw, (bind_ok (of_option (Some _)) _ _ _ _ eq_refl); [done|].
    by rewrite (bind_ok _ _ _ _ _ Rc), (bind_ok _ _ _ _ _ Rt), (bind_ok _ _ _ _ _ Rf), Hf. }
  destruct (decide (v_names v = ∅)) as [Hne|Hne].
  - apply implements_nothing; [done| |cbn; rewrite bool_decide_eq_true_2; [done|by rewrite Es; cbn; rewrite Hne]].
    by rewrite E, Hne, size_empty.
  - assert (Hd : bool_decide (v_names <$> subs_at c !! s = Some ∅) = false) by (apply bool_decide_eq_false_2; rewrite Es; cbn; congruence).
    rewrite (proj2 (Nat.eqb_neq _ _)) in E
      by (by intros E0%size_empty_inv%leibniz_equiv).
    destruct w; [|destruct (IS_FLAG_SET (v_flags v) dx_esf_wildcard) eqn:Hf].
    + destruct (clear_spec calloc_ok calloc_works dx_send t c s v Hus Es) as (names' & c' & Hp' & E' & H).
      exists c'. eexists _, _. split_and!; [by rewrite E| |exact H]. cbn. rewrite Hd. unfold is_wildcard. rewrite Hw. by exists v, names'.
    + apply implements_nothing; [done|by rewrite E|]. cbn. rewrite Hd. unfold is_wildcard. by rewrite Hw, Ew.
    + destruct (remove_spec calloc_ok calloc_works dx_send t c s v l Hus Es Hf Hne Hw) as (c' & E' & H).
      exists c'. eexists _, _. split_and!; [exact E'| |exact H]. cbn. rewrite Hd. unfold is_wildcard. rewrite Hw, Ew. by exists v, names.
Qed.

Lemma feed_implements op c : usable c -> feed_allowed (subs_at c) op -> implements op c.
Proof using calloc_works create_always mbsrtowcs_ascii.
  intros Hus Hop. destruct op as [types flags time|s|s l|s l|s|s source|s source].
  - destruct (create_subscription_spec calloc_ok calloc_works c types flags time Hus Hop) as (s & c' & E & Es & H).
    exists c'. eexists _, _. split_and!; [unfold run, run_feed_op; by rewrite (bind_ok _ _ _ _ _ E)|by exists s|exact H].
  - destruct Hop as [v Es]. destruct (close_subscription_spec calloc_ok calloc_works dx_send t c s v Hus Es) as (names & c' & Hp & E & H).
    exists c'. eexists _, _. split_and!; [exact E|by exists v, names|exact H].
  - by apply add_implements.
  - by apply remove_implements.
  - destruct Hop as [v Es]. destruct (clear_spec calloc_ok calloc_works dx_send t c s v Hus Es) as (names & c' & Hp & E & H).
    exists c'. eexists _, _. split_and!; [exact E|by exists v, names|exact H].
  - destruct Hop as [[v Es] Hs].
    destruct (set_source_spec calloc_ok calloc_works dx_send t mbsrtowcs mbsrtowcs_ascii c s v source Hus Es Hs) as (names & c' & Hp & E & H).
    exists c'. eexists _, _. split_and!; [exact E|by exists v, names|exact H].
  - destruct Hop as [[v Es] Hs].
    destruct (add_one_source_spec calloc_ok calloc_works dx_send t mbsrtowcs mbsrtowcs_ascii c s v source Hus Es Hs) as (names & c' & Hp & E & H).
    exists c'. eexists _, _. split_and!; [exact E|by exists v, names|exact H].
Qed.
End refinement.

(** ** What fits *)

Lemma with_source_fits source l : source_ok source -> Forall (fun source => (length (c_string source) <= 4)%nat) l ->
  Forall (fun source => (length (c_string source) <= 4)%nat) (with_source source l).
Proof.
  intros Hs Hl. unfold with_source. case_bool_decide; [done|]. apply Forall_app. split; [done|].
  constructor; [by apply stored_short|constructor].
Qed.

Lemma changes_fits s m m' reqs f asks :
  changes s m m' reqs f asks -> (forall v, view_fits v -> view_fits (f v)) -> map_Forall (fun _ => view_fits) m -> map_Forall (fun _ => view_fits) m'.
Proof.
  intros (v & names & E & _ & -> & _) Hf Hm. apply map_Forall_insert_2; [|done]. apply Hf. by apply (Hm s).
Qed.

Lemma abstract_fits op m m' reqs :
  abstract_feed op m m' reqs -> feed_allowed m op -> map_Forall (fun _ => view_fits) m -> map_Forall (fun _ => view_fits) m'.
Proof.
  intros Ha Hop Hm. destruct op as [types flags time|s|s l|s l|s|s source|s source]; cbn [abstract_feed] in Ha.
  - destruct Ha as (s & _ & _ & ->). apply map_Forall_insert_2; [|done]. split; [apply created_fits|]. cbn. set_solver.
  - destruct Ha as (v & names & _ & _ & -> & _). by apply map_Forall_delete.
  - destruct (_ || _); [by destruct Ha as [-> _]|]. destruct (is_wildcard l); (eapply changes_fits; [exact Ha| |done]).
    + intros v [Hs _]. split; [done|]. cbn. set_solver.
    + intros v [Hs Hn]. split; [done|]. cbn. rewrite elem_of_union. intros [H|H]; [by apply symbol_names_nonempty in H|done].
  - destruct (bool_decide _); [by destruct Ha as [-> _]|]. destruct (is_wildcard l); [|destruct (has_wildcard m s); [by destruct Ha as [-> _]|]];
      (eapply changes_fits; [exact Ha| |done]).
    + intros v [Hs _]. split; [done|]. cbn. set_solver.
    + intros v [Hs Hn]. split; [done|]. cbn. set_solver.
  - eapply changes_fits; [exact Ha| |done]. intros v [Hs _]. split; [done|]. cbn. set_solver.
  - eapply changes_fits; [exact Ha| |done]. intros v [_ Hn]. split; [|done]. cbn. constructor; [by apply stored_short, Hop|constructor].
  - eapply changes_fits; [exact Ha| |done]. intros v [Hs Hn]. split; [|done]. by apply with_source_fits; [apply Hop|].
Qed.
