(* ===== verification/FeedClaims.v ===== *)
(** * FeedClaims: what holds of the interface

    The interface is the abstract one, what it asks for is sent by the thread of the
    tasks, a server that does not know the messages is reported, and a connection that
    is made again asks for everything the user had asked for. *)

From Stdlib Require Import Ascii String.
From S2P Require Import Prelude Arrays Algorithms Output Input Wire SymbolCodec Framing Compose EventData DataStructures Subscription Properties TaskQueue.
From S2P Require Import MessageData ConfigurationDeserializer NetworkContext Heartbeat ServerData ServerProcessor Describe ClientMessages ClientTheory ClientTasks QueueThread Network Reconnect.
From S2P Require Import PriceLevelSource EventSubscription SubscriptionTheory SubscriptionRefinement Delivery SubscriptionClaims Feed FeedTheory FeedRefinement.
Local Open Scope Z_scope.
Local Open Scope c_scope.

(** ** A connection to look at *)

(** The two subscriptions of [SubscriptionClaims] on a connection whose server is
    known. *)
Definition example_connection : connection :=
  MakeConnection two_context (set_nt_client (TqState DX_EMPTY_ARRAY example_world) lost_net) DX_EMPTY_ARRAY ∅ ∅.
Lemma two_fits : map_Forall (fun _ => view_fits) (subs_at example_connection).
Proof.
  assert (H : map_Forall (fun _ v => Forall (fun source => (length (c_string source) <= 4)%nat) (v_sources v) /\ [] ∉ v_names v)
    (subs_at example_connection)) by (apply (bool_decide_unpack _); vm_compute; exact I). exact H.
Qed.
Lemma example_usable : usable example_connection.
Proof.
  split; [apply two_consistent|split; simpl; lia|apply new_dscc_ok|left; apply example_supports|apply two_fits].
Qed.

Definition first_view : subscription_view := SubscriptionView 2 {[aapl; ibm]} {[7 := MakeListenerContext V2 5]} [] 0 0.
Lemma first_lookup : subs_at example_connection !! 1%positive = Some first_view.
Proof. vm_compute. reflexivity. Qed.

(** ** The interface *)

(** C7: Every operation of the interface on open subscriptions - creating and closing,
    adding, removing and clearing symbols, setting and adding sources of orders -
    succeeds and does to the subscriptions what the abstract operation does; what the
    abstract operation asks of the server is put into the queue, in order: each new
    subscription after a task that describes its records, with exactly the sources,
    the symbols, the events, the flags and the time of the subscription.  Nothing is
    sent, and the records that are asked for are registered. *)
Theorem interface_refines {It : Iteration} create_ok calloc_ok mbsrtowcs dx_send t op c :
  (forall n, create_ok n = true) -> (forall n, calloc_ok n = true) -> (forall s, is_ascii s -> mbsrtowcs s = Some s) ->
  usable c -> feed_allowed (subs_at c) op ->
  exists c' reqs, run_feed_op create_ok calloc_ok mbsrtowcs dx_send t op c = Ok tt c' /\ usable c' /\
    abstract_feed op (subs_at c) (subs_at c') reqs /\ calls (cn_context c') = calls (cn_context c) /\
    contents (tq (client_at c')) = contents (tq (client_at c)) ++ requests_tasks (cl_heap (world_at c)) reqs /\
    cl_heap (world_at c') = cl_heap (world_at c) ++ (Some <$> reqs) /\
    cl_network (world_at c') = cl_network (world_at c) /\ keeps_names (cl_dscc (world_at c)) (cl_dscc (world_at c')) /\
    Forall (fun d => td_unsubscribe d = false -> registered (cl_dscc (world_at c')) (task_entries d)) reqs.
Proof.
  intros Hcr Hc Hm Hus Hop. destruct (feed_implements create_ok Hcr calloc_ok Hc mbsrtowcs Hm dx_send t op c Hus Hop) as (c' & m & reqs & E & Ha & H).
  pose proof (usable_after _ _ _ _ Hus H (abstract_fits _ _ _ _ Ha Hop (us_fits c Hus))) as Hus'.
  exists c', reqs. destruct H as [Hcons Hs Hk [Hq Hqc] Hw Hn Hr _]. split_and!; try done.
  - by rewrite Hs.
  - by rewrite Hw.
  - by rewrite Hw.
  - apply Hn.
Qed.

(** The symbols of the first subscription are removed but for one. *)
Lemma interface_refines_witness :
  exists c' reqs, run_feed_op (fun _ => true) (fun _ => true) Some slow_socket codec_tables (feed_remove 1%positive [Some ibm; Some []]) example_connection
      = Ok tt c' /\ v_names <$> subs_at c' !! 1%positive = Some {[aapl]} /\
    contents (tq (client_at c')) = [subscription_task 1] /\ reqs = [SubscriptionTaskData [] [Some ibm] 2 true 0 0] /\
    cl_heap (world_at c') = Some <$> reqs.
Proof.
  destruct (interface_refines (fun _ => true) (fun _ => true) Some slow_socket codec_tables (feed_remove 1%positive [Some ibm; Some []]) example_connection)
    as (c' & reqs & E & _ & Ha & _ & Hq & Hh & _); [done|done|done|apply example_usable|by split; eexists; [vm_compute; reflexivity|reflexivity]|].
  exists c', reqs. assert (Hn : v_names <$> subs_at example_connection !! 1%positive <> Some ∅)
    by (apply (bool_decide_eq_false_1 _); vm_compute; reflexivity).
  unfold abstract_feed in Ha. rewrite bool_decide_eq_false_2 in Ha by exact Hn. change (is_wildcard [Some ibm; Some []]) with false in Ha.
  change (has_wildcard (subs_at example_connection) 1%positive) with false in Ha. destruct Ha as (v & names & Ev & _ & Em & ->).
  pose proof (eq_trans (eq_sym Ev) first_lookup) as Ev'. injection Ev' as ->.
  assert (Er : request true [Some ibm; Some []] (v_flags first_view) first_view = SubscriptionTaskData [] [Some ibm] 2 true 0 0) by reflexivity.
  rewrite Er in *. split_and!; [exact E| |exact Hq|done|exact Hh]. rewrite Em, lookup_insert_eq. vm_compute. reflexivity.
Defined.

(** ** What is asked for is sent *)

(** What is described and subscribed to fits into messages. *)
Record sendable (s : dscc) (d : dx_event_subscription_task_data_t) : Prop := {
  send_names : names_ok s;
  send_room : Z.of_nat (arr_size (records_list s)) + zlen (task_entries d) <= INT_MAX;
  send_length : zlen (descriptions_bytes s) <= 2 ^ 27;
}.

Section sent.
Context (calloc_ok : Z -> bool) (calloc_works : forall n, calloc_ok n = true).
Context (dx_send : list Z -> list Z -> Z + dx_error_code) (Hsend : socket_sends dx_send).

(** The two tasks of a new subscription in an empty queue. *)
Lemma new_subscription_done now millis mark data d w :
  registry_ok (cl_dscc w) -> supports (cl_protocol w) -> sending (cl_network w) -> sendable (cl_dscc w) d -> task_ok d ->
  heap_has (cl_heap w) data d ->
  exists w' ids, all_done (run_client_task calloc_ok dx_send codec_tables now millis mark) [records_task; subscription_task data] w w' /\
    cl_network w' = took (message_bytes MESSAGE_DESCRIBE_RECORDS (descriptions_bytes (cl_dscc w)) ++ task_messages ids d) (cl_network w) /\
    ClientTheory.named (cl_dscc w') ids (task_entries d).
Proof using Hsend calloc_works.
  intros Hok Hp Hs [Hn Hroom Hl] Hd Hh. pose proof (zlen_nonneg (task_entries d)).
  destruct (send_records_spec calloc_ok calloc_works dx_send Hsend w Hok Hn ltac:(lia) Hl Hs) as (o & E).
  set (w1 := after_sending _ _ _ w) in E.
  destruct (run_subscription calloc_ok calloc_works dx_send Hsend now millis mark w1 data d) as (w2 & ids & E2 & Hn2 & Hids & _);
    [constructor; [by apply registry_ok_said|done|done|by apply took_sending]|done|done|].
  exists w2, ids. split_and!; [|rewrite Hn2; unfold w1, after_sending; cbn; by rewrite took_app|done].
  econstructor; [by apply run_records|]. econstructor; [exact E2|constructor].
Qed.

Lemma new_subscription_round data d close_ok error fuel e clk :
  array_wf (tq (ex_client e)) -> contents (tq (ex_client e)) = [records_task; subscription_task data] ->
  let w := tq_world (ex_client e) in
  registry_ok (cl_dscc w) -> supports (cl_protocol w) -> sending (cl_network w) -> marks_ok (cl_connection w) ->
  sendable (cl_dscc w) d -> task_ok d -> heap_has (cl_heap w) data d -> runs e clk -> (2 < fuel)%nat ->
  exists e' hb ids, dx_queue_executor_round calloc_ok dx_send codec_tables close_ok error fuel clk e = Ok (Some s_small_timeout) e' /\
    heartbeats [clk] hb /\ contents (tq (ex_client e')) = [] /\
    nw_out (cl_network (tq_world (ex_client e'))) = nw_out (cl_network w) ++ hb ++
      message_bytes MESSAGE_DESCRIBE_RECORDS (descriptions_bytes (cl_dscc w)) ++ task_messages ids d /\
    ClientTheory.named (cl_dscc (tq_world (ex_client e'))) ids (task_entries d).
Proof using Hsend calloc_works.
  intros Ha Hc w Hok Hp Hs Hm Hsd Hd Hh [Hlive Hclk] Hf.
  destruct (heartbeat_step_spec calloc_ok calloc_works dx_send Hsend clk e Hclk Hm Hs) as (e1 & hb & Eh & Hb & Hmv & Hq & [Bd Bp Bh Bn _]).
  fold w in Bd, Bp, Bh, Bn. set (w1 := tq_world (ex_client e1)) in *.
  destruct (new_subscription_done (now_millis clk) (currentTimeMillis clk) (currentTimeMark clk) data d w1)
    as (w2 & ids & Hdone & Hn2 & Hids); rewrite ?Bd, ?Bp, ?Bh, ?Bn; try done.
  destruct (execute_all_done _ (fun n => calloc_ok (Z.of_nat n)) (fun n => calloc_works _) _ w1 w2 Hdone (tq (ex_client e1))) as (a & _ & Hca & Ex);
    [by rewrite Hq|by rewrite Hq|].
  exists (set_ex_client (TqState a w2) e1), hb, ids. split_and!; [|done|done| |done].
  - apply (round_after_heartbeat calloc_ok dx_send close_ok error fuel clk e e1 true a w2 Hlive Eh Hmv); [|..|done].
    + rewrite Hq. intros Hz. rewrite <- (length_contents _ Ha), Hc in Hz. done.
    + unfold w1 in Ex. destruct (ex_client e1) as [q x]. by apply Ex.
  - cbn. rewrite Hn2, Bn, Bd. unfold took. cbn. by rewrite <- !app_assoc.
Qed.
End sent.

(** C14: Symbols that the user adds to an open subscription are asked for on the wire.
    On a connection whose server is known and whose queue is empty the call only adds
    tasks; the next round of the thread of the tasks sends, after a heartbeat where one
    is due, the descriptions of the records that were not described yet and, for every
    symbol and every record of every event of the subscription, the message that
    subscribes to it with its sources, flags and time; and the queue is empty again. *)
Theorem added_symbols_sent {It : Iteration} create_ok calloc_ok dx_send c s v l :
  (forall n, create_ok n = true) -> (forall n, calloc_ok n = true) -> socket_sends dx_send ->
  usable c -> subs_at c !! s = Some v -> IS_FLAG_SET (v_flags v) dx_esf_wildcard = false -> l <> [] -> search_wildcard l = Some false ->
  contents (tq (client_at c)) = [] -> supports (cl_protocol (world_at c)) -> sending (cl_network (world_at c)) ->
  marks_ok (cl_connection (world_at c)) -> task_ok (request false l (v_flags v) v) ->
  exists c', dxf_add_symbols create_ok calloc_ok dx_send codec_tables (Some s) (Some l) (zlen l) c = Ok tt c' /\
    subs_at c' = <[s := with_names (symbol_names l ∪ v_names v) v]> (subs_at c) /\
    cl_network (world_at c') = cl_network (world_at c) /\
    forall close_ok error fuel e clk,
      ex_client e = client_at c' -> runs e clk -> (2 < fuel)%nat -> sendable (cl_dscc (world_at c')) (request false l (v_flags v) v) ->
      exists e' hb ids, dx_queue_executor_round calloc_ok dx_send codec_tables close_ok error fuel clk e = Ok (Some s_small_timeout) e' /\
        heartbeats [clk] hb /\ contents (tq (ex_client e')) = [] /\
        nw_out (cl_network (tq_world (ex_client e'))) = nw_out (cl_network (world_at c)) ++ hb ++
          message_bytes MESSAGE_DESCRIBE_RECORDS (descriptions_bytes (cl_dscc (world_at c'))) ++
          task_messages ids (request false l (v_flags v) v) /\
        Forall2 (fun id x => record_name (cl_dscc (tq_world (ex_client e'))) id = Some x.1) ids
          (asked_entries (v_sources v) (i32 (v_types v)) (v_flags v) all_events).
Proof.
  intros Hcr Hc Hsend Hus Es Hf Hl Hw Hq Hsup Hs Hm Hd.
  destruct (add_spec calloc_ok Hc dx_send codec_tables create_ok Hcr c s v l Hus Es Hf Hl Hw) as (c' & E & H).
  destruct H as [_ Hsubs _ [Hq' Hqc] Hworld Hk _ _].
  assert (Hn : cl_network (world_at c') = cl_network (world_at c)) by (by rewrite Hworld).
  exists c'. split_and!; [exact E|exact Hsubs|exact Hn|]. intros close_ok error fuel e clk He Hr Hfuel Hsd.
  rewrite Hq in Hqc. cbn [app] in Hqc.
  assert (Ht : requests_tasks (cl_heap (world_at c)) [request false l (v_flags v) v] =
    [records_task; subscription_task (Z.of_nat (length (cl_heap (world_at c))) + 1)]).
  { unfold requests_tasks, new_datas. rewrite seqZ_cons by (cbn [length]; lia). done. }
  assert (Hprot : cl_protocol (world_at c') = cl_protocol (world_at c) /\ cl_connection (world_at c') = cl_connection (world_at c) /\
    cl_heap (world_at c') = cl_heap (world_at c) ++ [Some (request false l (v_flags v) v)]) by (by rewrite Hworld).
  destruct Hprot as (Hp & Hco & Hh). rewrite <- Hn.
  unfold world_at in *. rewrite <- He in *.
  apply (new_subscription_round calloc_ok Hc dx_send Hsend (Z.of_nat (length (cl_heap (tq_world (client_at c)))) + 1)
    (request false l (v_flags v) v) close_ok error fuel e clk); try done.
  - apply Hk.
  - by rewrite Hp.
  - by rewrite Hn.
  - by rewrite Hco.
  - split; [lia|]. rewrite Hh, lookup_app_r by lia.
    by replace (Z.to_nat _ - _)%nat with O by lia.
Qed.

Definition state_of {S A} (d : S) (r : res S A) : S := match r with Ok _ s => s | _ => d end.
Definition after_add : connection :=
  state_of example_connection (dxf_add_symbols (fun _ => true) (fun _ => true) slow_socket codec_tables (Some 1%positive) (Some [Some ibm]) 1 example_connection).
Definition example_request : dx_event_subscription_task_data_t := SubscriptionTaskData [] [Some ibm] 2 false 0 0.

Lemma after_add_sendable : sendable (cl_dscc (world_at after_add)) example_request.
Proof.
  assert (H : forallb (fun item => match ri_name item with Some n => name_check n | None => true end)
      (contents (records_list (cl_dscc (world_at after_add)))) = true) by (vm_compute; reflexivity).
  split; [|vm_compute; discriminate|vm_compute; discriminate].
  apply Forall_forall. intros item Hin name Hname. rewrite forallb_forall in H. apply list_elem_of_In in Hin. specialize (H item Hin).
  rewrite Hname in H. by apply name_check_ok.
Qed.
Lemma example_request_ok : task_ok example_request.
Proof.
  split; [constructor|split; by_compute|repeat constructor; try by_compute; done].
Qed.

(** One symbol, and a round in which a heartbeat is due. *)
Lemma added_symbols_sent_witness :
  exists c' e' hb ids, dxf_add_symbols (fun _ => true) (fun _ => true) slow_socket codec_tables (Some 1%positive) (Some [Some ibm]) 1 example_connection = Ok tt c' /\
    dx_queue_executor_round (fun _ => true) slow_socket codec_tables true dx_ec_success 5 (example_clocks 1600000005 6000)
      (Executor (client_at c') 1600000005 0 10 120 false true true dx_ec_success) = Ok (Some s_small_timeout) e' /\
    nw_out (cl_network (tq_world (ex_client e'))) = hb ++
      message_bytes MESSAGE_DESCRIBE_RECORDS (descriptions_bytes (cl_dscc (world_at c'))) ++ task_messages ids example_request.
Proof.
  destruct (added_symbols_sent (fun _ => true) (fun _ => true) slow_socket example_connection 1%positive first_view [Some ibm])
    as (c' & E & _ & _ & H).
  - done.
  - done.
  - apply slow_socket_sends.
  - apply example_usable.
  - apply first_lookup.
  - reflexivity.
  - discriminate.
  - reflexivity.
  - reflexivity.
  - apply example_supports.
  - split; reflexivity.
  - by_compute.
  - apply example_request_ok.
  - assert (c' = after_add) as Ec by exact (eq_sym (f_equal (state_of example_connection) E)).
    destruct (H true dx_ec_success 5%nat (Executor (client_at c') 1600000005 0 10 120 false true true dx_ec_success)
      (example_clocks 1600000005 6000)) as (e' & hb & ids & E' & _ & _ & Ho & _).
    + done.
    + split; [|by_compute]. repeat constructor; try by_compute; by left.
    + lia.
    + rewrite Ec. exact after_add_sendable.
    + exists c', e', hb, ids. exact (conj E (conj E' Ho)).
Defined.

(** ** A server that does not know the messages *)

Section refused.
Context (calloc_ok : Z -> bool) (calloc_works : forall n, calloc_ok n = true).
Context (dx_send : list Z -> list Z -> Z + dx_error_code) (t : tables).

Lemma refused_request order_source sources symbols event_types flags time c :
  array_wf (tq (client_at c)) -> registry_ok (cl_dscc (world_at c)) -> says (cl_protocol (world_at c)) dx_mss_not_supported ->
  Forall (fun source => (length (c_string source) <= 4)%nat) sources -> asked_entries sources event_types flags all_events <> [] ->
  (forall c1, cn_context c1 = cn_context c -> order_source c1 = Ok sources c1) ->
  exists a s, load_and_subscribe calloc_ok dx_send t order_source symbols event_types flags time c =
      Err dx_pec_local_message_not_supported_by_server (with_client (TqState a (set_cl_dscc s (world_at c))) c) /\
    contents a = contents (tq (client_at c)) ++ [records_task].
Proof using calloc_works.
  intros Ha Hok Hr Hsrc Hne Hos. unfold load_and_subscribe. rewrite (bind_ok _ _ _ _ _ (Hos c eq_refl)).
  destruct (load_events_spec calloc_ok calloc_works sources Hsrc event_types flags all_events (world_at c) Hok) as (s & E & K & R).
  assert (Ec : client_at c = TqState (tq (client_at c)) (world_at c)) by (unfold world_at; by destruct (client_at c)).
  rewrite (bind_ok _ _ _ _ _ (on_cn_client_at _ c _ _ ltac:(rewrite Ec; apply E))). set (c1 := with_client (TqState _ _) c).
  destruct (add_worker_task calloc_ok calloc_works (tq (client_at c)) (set_cl_dscc s (world_at c)) describe_records_sender_ptr 0 Ha)
    as (a1 & E1 & _ & Hc1); [done|].
  rewrite (bind_ok _ _ _ _ _ (on_cn_client_at (dx_send_record_description calloc_ok dx_send false) c1 _ _ E1)).
  set (c2 := with_client _ c1). rewrite (bind_ok _ _ _ _ _ (Hos c2 eq_refl)).
  destruct (refused_subscription calloc_ok calloc_works dx_send sources Hsrc event_types flags t symbols false time a1
    (set_cl_dscc s (world_at c)) (knows_ok _ _ _ K) Hr Hne) as (s' & E2 & _ & Hsame).
  exists a1, s. split; [|exact Hc1]. rewrite (Hsame R) in E2. exact (on_cn_client_err _ c2 _ _ E2).
Qed.
End refused.

(** C40: When the server has said that it does not know the messages of subscriptions,
    adding symbols fails with that error: nothing is sent and no subscription is put
    into the queue.  The symbols stay in the subscription of the user, and a task that
    describes the records stays in the queue. *)
Theorem unsupported_server_reported {It : Iteration} create_ok calloc_ok dx_send t c s v l :
  (forall n, create_ok n = true) -> (forall n, calloc_ok n = true) -> consistent None (cn_context c) -> array_wf (tq (client_at c)) ->
  registry_ok (cl_dscc (world_at c)) -> says (cl_protocol (world_at c)) dx_mss_not_supported ->
  subs_at c !! s = Some v -> view_fits v -> asked_entries (v_sources v) (i32 (v_types v)) (v_flags v) all_events <> [] ->
  IS_FLAG_SET (v_flags v) dx_esf_wildcard = false -> l <> [] -> search_wildcard l = Some false ->
  exists c', dxf_add_symbols create_ok calloc_ok dx_send t (Some s) (Some l) (zlen l) c = Err dx_pec_local_message_not_supported_by_server c' /\
    subs_at c' = <[s := with_names (symbol_names l ∪ v_names v) v]> (subs_at c) /\
    contents (tq (client_at c')) = contents (tq (client_at c)) ++ [records_task] /\
    cl_heap (world_at c') = cl_heap (world_at c) /\ cl_network (world_at c') = cl_network (world_at c).
Proof.
  intros Hcr Hc H Ha Hok Hr Es [Hsrc _] Hne Hf Hl Hw. destruct (reads c s v H Es) as (names & [Rc Rt Rf Rti _ _ _] & _).
  unfold dxf_add_symbols. rewrite symbol_array_all. destruct (Z.eqb_spec (zlen l) 0) as [E|_]; [by destruct l|].
  rewrite (bind_ok _ _ _ _ _ Rc), (bind_ok _ _ _ _ _ Rt), (bind_ok _ _ _ _ _ Rf), Hf, Hw.
  rewrite (bind_ok (of_option (Some false)) _ _ _ _ eq_refl), (bind_ok (ret (l, v_flags v)) _ _ _ _ eq_refl), (bind_ok _ _ _ _ _ Rti).
  destruct (add_loop_spec create_ok None l s (cn_context c) v H Es) as (x & X & [Hx Hs _ _] & _ & _ & E).
  destruct (E Hcr) as [E1 ->]. rewrite (bind_ok _ _ _ _ _ (on_context_at (dx_add_symbols create_ok (Some s) l) c tt x E1)).
  set (c1 := set_cn_context x c).
  destruct (refused_request calloc_ok Hc dx_send t (source_of s) (v_sources v) l (i32 (v_types v)) (v_flags v) (v_time v) c1 Ha Hok Hr Hsrc Hne)
    as (a & s' & E2 & Hca).
  { intros c2 Ec. apply (get_at_context c2 s (with_names (symbol_names l ∪ v_names v) v)); [by rewrite Ec|].
    unfold subs_at. rewrite Ec. change (cn_context c1) with x. rewrite Hs. apply lookup_insert_eq. }
  eexists. split_and!; [exact E2|exact Hs|exact Hca|done|done].
Qed.

(** A server that knows nothing. *)
Definition unknowing_connection : connection :=
  MakeConnection two_context (set_nt_client (TqState DX_EMPTY_ARRAY
    (set_cl_protocol (ProtocolCtx 0 0 dx_dps_received 0 DX_EMPTY_ARRAY dxf_cs_authorized) example_world)) lost_net) DX_EMPTY_ARRAY ∅ ∅.
Lemma unsupported_server_reported_witness :
  exists c', dxf_add_symbols (fun _ => true) (fun _ => true) slow_socket codec_tables (Some 1%positive) (Some [Some (chars_of "MSFT")]) 1 unknowing_connection =
      Err dx_pec_local_message_not_supported_by_server c' /\
    subs_at c' = <[1%positive := with_names (symbol_names [Some (chars_of "MSFT")] ∪ v_names first_view) first_view]> (subs_at unknowing_connection) /\
    contents (tq (client_at c')) = [records_task].
Proof.
  destruct (unsupported_server_reported (fun _ => true) (fun _ => true) slow_socket codec_tables unknowing_connection 1%positive first_view
    [Some (chars_of "MSFT")]) as (c' & E & Hs & Hq & _).
  - done.
  - done.
  - apply two_consistent.
  - split; simpl; lia.
  - apply new_dscc_ok.
  - intros msg Hin. unfold g_send_msg_roster in Hin.
    repeat (apply elem_of_cons in Hin as [->|Hin]; [reflexivity|]). by apply not_elem_of_nil in Hin.
  - apply first_lookup.
  - exact (two_fits 1%positive first_view first_lookup).
  - vm_compute. discriminate.
  - reflexivity.
  - discriminate.
  - reflexivity.
  - exists c'. exact (conj E (conj Hs Hq)).
Defined.

(** ** What goes wrong *)

Definition run_op : feed_op -> M connection unit := run_feed_op (fun _ => true) (fun _ => true) Some slow_socket codec_tables.

(** What the tasks in the queue subscribe to and unsubscribe from: the symbols, with
    the kinds of the subscriptions to records. *)
Definition asked_kinds (c : connection) : list (bool * list (option (list Z)) * list dx_subscription_type_t) :=
  (fun d => (td_unsubscribe d, td_symbols d, remove_dups (snd <$> task_entries d))) <$> omap id (cl_heap (world_at c)).

(** The wildcard is subscribed to as a stream, but the flag is not stored: when the
    symbols are cleared the tickers are unsubscribed from, and the stream goes on. *)
Lemma wildcard_never_unsubscribed :
  match (run_op (feed_add 1%positive [Some wildcard]);;; run_op (feed_clear 1%positive)) example_connection with
  | Ok _ c => drop 1 (asked_kinds c) = [(false, [Some wildcard], [dx_st_stream]); (true, [Some wildcard], [dx_st_ticker])] /\
      v_names <$> subs_at c !! 1%positive = Some ∅
  | _ => False
  end.
Proof. vm_compute. split; reflexivity. Qed.

(** Adding a symbol after the wildcard is not ignored. *)
Lemma wildcard_not_kept :
  match (run_op (feed_add 1%positive [Some wildcard]);;; run_op (feed_add 1%positive [Some ibm])) example_connection with
  | Ok _ c => v_names <$> subs_at c !! 1%positive = Some {[wildcard; ibm]}
  | _ => False
  end.
Proof. vm_compute. reflexivity. Qed.

(** Any symbol that begins with an asterisk is taken for the wildcard. *)
Lemma asterisk_is_wildcard : is_wildcard [Some ibm; Some (chars_of "*A")] = true.
Proof. reflexivity. Qed.

(** A symbol that is removed from one subscription is unsubscribed from although
    another one has it: the other gets no events any more. *)
Lemma shared_symbol_unsubscribed :
  match run_op (feed_remove 1%positive [Some aapl]) example_connection with
  | Ok _ c => asked_kinds c = [(true, [Some aapl], [dx_st_ticker])] /\ v_names <$> subs_at c !! 2%positive = Some {[aapl]}
  | _ => False
  end.
Proof. vm_compute. split; reflexivity. Qed.

(** When the subscription of a regional book or of a snapshot fails, its memory is
    freed, and a subscription stays whose listener leads to it. *)
Definition dangling (listener : Z) (alive : connection -> addr -> bool) (r : res connection addr) : bool :=
  match r with
  | Err _ c => existsb (fun sv => match v_listeners sv.2 !! listener with
                                  | Some lc => match userData lc with Zpos p => negb (alive c p) | _ => false end
                                  | None => false
                                  end) (map_to_list (subs_at c))
  | _ => false
  end.

Lemma failed_book_still_listens :
  dangling rb_event_listener_ptr (fun c p => bool_decide (is_Some (book_heap c !! p)))
    (dxf_create_regional_book (fun _ => true) true (fun _ => true) slow_socket codec_tables true (Some ibm) true unknowing_connection) = true.
Proof. vm_compute. reflexivity. Qed.

Lemma failed_snapshot_still_listens :
  dangling event_listener_ptr (fun c p => bool_decide (is_Some (snapshot_heap c !! p)))
    (dxf_create_snapshot_impl (fun _ => true) true (fun _ => true) slow_socket codec_tables (fun _ => 0) true
      dx_eid_time_and_sale (Some ibm) None 0 true unknowing_connection) = true.
Proof. vm_compute. reflexivity. Qed.
