(* ===== verification/Restored.v ===== *)
(** * Restored: the subscriptions of the user on a new connection

    [reestablish] of [Feed] reads the subscriptions of the user for
    [dx_reestablish_connection] of [Network]: what [Reconnect] shows of the views of
    subscriptions holds of the subscriptions themselves. *)

From Stdlib Require Import Ascii String.
From S2P Require Import Prelude Arrays Algorithms Output Input Wire SymbolCodec Framing Compose EventData DataStructures Subscription Properties TaskQueue.
From S2P Require Import MessageData ConfigurationDeserializer NetworkContext Heartbeat ServerData ServerProcessor Describe ClientMessages ClientTheory ClientTasks QueueThread.
From S2P Require Import AddressParser Network NetworkTheory DescribeProtocol Reconnect PriceLevelSource EventSubscription SubscriptionTheory SubscriptionRefinement Delivery SubscriptionClaims Feed FeedTheory FeedRefinement FeedClaims.
Local Open Scope Z_scope.
Local Open Scope c_scope.

(** ** Reading the subscriptions *)

(** A view of a subscription has its names in some order, and the views of all the
    subscriptions are in some order. *)
Definition shows (v : subscription_view) (view : dx_event_subscription_view) : Prop :=
  exists names, names ≡ₚ elements (v_names v) /\
    view = EventSubscription (v_sources v) (Some <$> names) (i32 (v_types v)) (v_flags v) (v_time v).
Definition shows_all (m : gmap addr subscription_view) (views : list dx_event_subscription_view) : Prop :=
  exists order, order ≡ₚ (map_to_list m).*2 /\ Forall2 shows order views.

Section reading.
Context {It : Iteration}.

Lemma read_subscription_spec c s v : consistent None (cn_context c) -> subs_at c !! s = Some v ->
  exists view, read_subscription s c = Ok view c /\ shows v view.
Proof using Type.
  intros H Es. destruct (reads c s v H Es) as (names & [_ Rt Rf Rti Rso Rsy _] & Hp).
  eexists. split; [|by exists names].
  unfold read_subscription. by rewrite (bind_ok _ _ _ _ _ Rsy), (bind_ok _ _ _ _ _ Rt), (bind_ok _ _ _ _ _ Rf),
    (bind_ok _ _ _ _ _ Rti), (bind_ok _ _ _ _ _ Rso).
Qed.

Lemma read_subscriptions_spec c l vs : consistent None (cn_context c) ->
  Forall2 (fun s v => subs_at c !! s = Some v) l vs ->
  exists views, read_subscriptions l c = Ok views c /\ Forall2 shows vs views.
Proof using Type.
  intros H Hl. induction Hl as [|s v l vs Es _ (views & E & Hv)]; [by exists []|].
  destruct (read_subscription_spec c s v H Es) as (view & E1 & Hv1). exists (view :: views). split; [|by constructor].
  cbn [read_subscriptions]. by rewrite (bind_ok _ _ _ _ _ E1), (bind_ok _ _ _ _ _ E).
Qed.

Lemma read_all_spec c : consistent None (cn_context c) ->
  exists views, read_subscriptions (subscriptions_order (ctx_subscriptions (cn_context c))) c = Ok views c /\
    shows_all (subs_at c) views.
Proof using Type.
  intros H. set (order := subscriptions_order _).
  assert (Hp : order ≡ₚ (map_to_list (subs_at c)).*1).
  { unfold order. rewrite subscriptions_order_elements, (consistent_alive _ _ H). unfold subs_at, subs.
    rewrite <- (dom_fmap_L view_of), (dom_alt (view_of <$> _)). apply elements_list_to_set, NoDup_fst_map_to_list. }
  assert (Hl : exists kvs, order = kvs.*1 /\ kvs ≡ₚ map_to_list (subs_at c)).
  { apply Permutation_map_inv in Hp as (kvs & -> & Hk). by exists kvs. }
  destruct Hl as (kvs & -> & Hk).
  destruct (read_subscriptions_spec c kvs.*1 kvs.*2 H) as (views & E & Hv).
  { apply Forall2_fmap_l, Forall2_fmap_r, Forall_Forall2_diag, Forall_forall. intros [s v] Hin.
    rewrite Hk in Hin. by apply elem_of_map_to_list in Hin. }
  exists views. split; [done|]. exists kvs.*2. split; [by rewrite Hk|done].
Qed.
End reading.

(** ** The connection is made again *)

(** What the messages ask for, for a subscription of the user. *)
Definition restores (v : subscription_view) (d : dx_event_subscription_task_data_t) : Prop :=
  exists names, names ≡ₚ elements (v_names v) /\ d = request false (Some <$> names) (v_flags v) v.

Lemma shows_restores vs views : Forall2 shows vs views -> Forall2 restores vs (view_task <$> views).
Proof.
  intros H. apply Forall2_fmap_r. eapply Forall2_impl; [exact H|]. intros v view (names & Hp & ->). by exists names.
Qed.

(** C15: A connection that is lost is made again, and everything the user is subscribed
    to is asked for on it.  The tasks of the lost connection are freed, what the server
    said is forgotten and the first address that takes the connection is connected to;
    the subscriptions of the user stay as they are and nothing is sent yet.  The thread
    of the tasks then describes the protocol in its first round, and, when the server
    does not answer in time, the first round after that describes all the records and
    sends, for every subscription of the user in some order, the messages for exactly
    its symbols, events, sources, flags and time; the queue is empty then, and besides
    heartbeats nothing else is sent. *)
Theorem subscriptions_restored {It : Iteration} (calloc_ok : Z -> bool) (mbsrtowcs : list Z -> option (list Z))
  (dx_send : list Z -> list Z -> Z + dx_error_code) (now millis mark : Z) (tls gzip file_opens : bool)
  (getaddrinfo : option (list Z) -> option (list Z) -> option (list Z)) (rand : nat -> nat)
  (connects connects_again : Z -> bool) (c : connection) :
  (forall n, calloc_ok n = true) -> (forall s, is_ascii s -> mbsrtowcs s = Some s) -> socket_sends dx_send ->
  consistent None (cn_context c) -> (forall views, shows_all (subs_at c) views -> lost connects views (cn_net c)) ->
  marks_ok (cl_connection (world_at c)) ->
  exists c' address,
    reestablish calloc_ok mbsrtowcs dx_send codec_tables tls gzip now millis mark file_opens getaddrinfo rand connects connects_again c =
      Ok tt c' /\ first_address connects (cn_net c) address /\ cn_context c' = cn_context c /\
      nw_out (cl_network (world_at c')) = nw_out (cl_network (world_at c)) /\ describe_protocol_timestamp (cl_protocol (world_at c')) = now /\
      connection_status (cl_protocol (world_at c')) = dxf_cs_connected /\ forall close_ok error fuel e c0 cs ck,
      (size (subs_at c) + 2 < fuel)%nat -> ex_client e = client_at c' ->
      Forall (runs e) (c0 :: cs ++ [ck]) -> Forall (early e) (c0 :: cs) -> ~ early e ck ->
      exists e' properties hb0 hb1 hb2 order reqs idss,
        rounds calloc_ok dx_send codec_tables close_ok error fuel (c0 :: cs ++ [ck]) e = Ok true e' /\ contents (tq (ex_client e')) = [] /\
        new_properties (cn_net c) address properties /\ heartbeats [c0] hb0 /\ heartbeats cs hb1 /\ heartbeats [ck] hb2 /\
        order ≡ₚ (map_to_list (subs_at c)).*2 /\ Forall2 restores order reqs /\
        nw_out (cl_network (tq_world (ex_client e'))) = nw_out (cl_network (world_at c)) ++ hb0 ++
          message_bytes MESSAGE_DESCRIBE_PROTOCOL (protocol_bytes (entry <$> contents properties)) ++ hb1 ++ hb2 ++
          message_bytes MESSAGE_DESCRIBE_RECORDS (all_descriptions (cl_dscc (world_at c))) ++
          concat (zip_with task_messages idss reqs) /\
          Forall2 (fun ids d => Forall2 (fun id x => record_name (cl_dscc (tq_world (ex_client e'))) id = Some x.1) ids
          (task_entries d)) idss reqs.
Proof.
  intros Hc Hm Hsend Hcons Hlost Hmarks. destruct (read_all_spec c Hcons) as (views & Er & Hs).
  destruct (lost_connection_resubscribes calloc_ok mbsrtowcs dx_send now millis mark tls gzip views file_opens getaddrinfo rand
    connects connects_again (cn_net c) Hc Hm Hsend (Hlost views Hs) Hmarks) as (s' & address & E & Ha & Ho & Ht & Hst & H).
  exists (set_cn_net s' c), address. split_and!; [|exact Ha|done|exact Ho|exact Ht|exact Hst|].
  { unfold reestablish. rewrite (bind_ok get _ _ _ _ eq_refl), (bind_ok _ _ _ _ _ Er). unfold on. by rewrite E. }
  destruct Hs as (order & Hp & Hs). intros close_ok error fuel e c0 cs ck Hf He Hruns Hearly Hlate.
  assert (Hl : length views = size (subs_at c))
    by (rewrite <- (Forall2_length _ _ _ Hs), Hp, length_fmap; apply length_map_to_list).
  destruct (H close_ok error fuel e c0 cs ck) as (e' & p & hb0 & hb1 & hb2 & idss & E' & Hq & Hpr & H0 & H1 & H2 & Hout & Hids);
    [by rewrite Hl|done..|].
  exists e', p, hb0, hb1, hb2, order, (view_task <$> views), idss. split_and!; try done. by apply shows_restores.
Qed.

(** ** An example *)

(** What is lost of a connection depends on what is asked for again only. *)
Lemma view_ok_same s v v' : view_task v = view_task v' -> view_ok s v -> view_ok s v'.
Proof.
  intros E [Ht Hr]. split; [by rewrite <- E|]. injection E as Es _ Ee Ef _. by rewrite <- Es, <- Ee, <- Ef.
Qed.
Lemma lost_same connects views views' s :
  view_task <$> views = view_task <$> views' -> lost connects views s -> lost connects views' s.
Proof.
  intros E H. destruct H as [H1 H2 H3 H4 Hv H6 H7 H8 H9 H10 H11 Hr H13]. split; try done.
  - clear Hr. revert views' E. induction Hv as [|v views Hv _ IH]; intros [|v' views'] E; try done.
    cbn [fmap list_fmap] in E. constructor; [apply (view_ok_same _ v); congruence|apply IH; congruence].
  - by rewrite <- E.
Qed.

(** The lost connection of [Reconnect], with a subscription of the user to candles. *)
Definition candles_context : context :=
  default empty_context (run [user_create 64 0 1500000000123; user_add_symbols first_subscription [Some ibm; Some []]]).
Lemma candles_consistent : consistent None candles_context.
Proof.
  apply (run_consistent [user_create 64 0 1500000000123; user_add_symbols first_subscription [Some ibm; Some []]]). vm_compute. reflexivity.
Qed.
Definition candles_connection : connection := MakeConnection candles_context lost_net DX_EMPTY_ARRAY ∅ ∅.
Definition candles_view : subscription_view := SubscriptionView 64 {[ibm]} ∅ [] 0 1500000000123.

Lemma candles_subs : (map_to_list (subs_at candles_connection)).*2 = [candles_view].
Proof. vm_compute. reflexivity. Qed.
Lemma candles_restored order ds :
  order ≡ₚ (map_to_list (subs_at candles_connection)).*2 -> Forall2 restores order ds -> ds = [example_subscription].
Proof.
  rewrite candles_subs. intros ->%Permutation_singleton_r H. inversion H as [|v d vs ds' (names & Hp & ->) Hr]; subst.
  inversion Hr; subst. change (elements (v_names candles_view)) with [ibm] in Hp. by apply Permutation_singleton_r in Hp as ->.
Qed.
Lemma candles_lost views : shows_all (subs_at candles_connection) views -> lost (Z.eqb 3) views lost_net.
Proof.
  intros (order & Hp & Hs%shows_restores). apply (lost_same _ [example_view]); [|apply lost_net_ok].
  by rewrite (candles_restored _ _ Hp Hs).
Qed.

Lemma subscriptions_restored_witness :
  exists c' e' properties hb0 hb1 hb2 ids,
    reestablish (fun _ => true) Some slow_socket codec_tables true true 5000 1600000004000 7 false (fun _ _ => None) (fun _ => 0%nat)
      (Z.eqb 3) (Z.eqb 3) candles_connection = Ok tt c' /\
    cn_context c' = candles_context /\
    rounds (fun _ => true) slow_socket codec_tables true dx_ec_success 10
      [example_clocks 1600000004 5100; example_clocks 1600000005 6000; example_clocks 1600000015 16000]
      (Executor (client_at c') 1600000005 0 10 120 false true true dx_ec_success) = Ok true e' /\
    nw_out (cl_network (tq_world (ex_client e'))) = [1; 2; 3] ++ hb0 ++
      message_bytes MESSAGE_DESCRIBE_PROTOCOL (protocol_bytes (entry <$> contents properties)) ++ hb1 ++ hb2 ++
      message_bytes MESSAGE_DESCRIBE_RECORDS (all_descriptions dscc_example) ++
      concat (zip_with task_messages [ids] [example_subscription]).
Proof.
  destruct (subscriptions_restored (fun _ => true) Some slow_socket 5000 1600000004000 7 true true false
    (fun _ _ => None) (fun _ => 0%nat) (Z.eqb 3) (Z.eqb 3) candles_connection) as (c' & address & E & _ & Ec & _ & Ht & _ & H).
  - done.
  - done.
  - apply slow_socket_sends.
  - apply candles_consistent.
  - apply candles_lost.
  - by_compute.
  - destruct (H true dx_ec_success 10%nat (Executor (client_at c') 1600000005 0 10 120 false true true dx_ec_success)
      (example_clocks 1600000004 5100) [example_clocks 1600000005 6000] (example_clocks 1600000015 16000))
      as (e' & p & hb0 & hb1 & hb2 & order & reqs & idss & E' & _ & _ & _ & _ & _ & Hp & Hr & Ho & Hids).
    + by_compute.
    + done.
    + repeat constructor; try by_compute; by left.
    + constructor; [|constructor; [|constructor]]; unfold early; cbn [ex_client];
        change (cl_protocol (tq_world (client_at c'))) with (cl_protocol (world_at c')); unfold waited; rewrite Ht; by_compute.
    + unfold early. cbn [ex_client]. change (cl_protocol (tq_world (client_at c'))) with (cl_protocol (world_at c')).
      unfold waited. rewrite Ht. by_compute.
    + pose proof (candles_restored _ _ Hp Hr) as ->.
      apply Forall2_length in Hids as Hl. destruct idss as [|ids [|]]; try discriminate Hl.
      exists c', e', p, hb0, hb1, hb2, ids. exact (conj E (conj Ec (conj E' Ho))).
Defined.
