(* ===== verification/Books.v ===== *)
(** * Books: the price level books of a connection ([src/PriceLevelBook.c], [DXFeed.c])

    The sources of the orders of a symbol are shared by the books that are made of
    them: they are in the hash table of [SourceTable], each with a subscription of its
    own, with the books that consume it, and the books with the sources they are made
    of are in the store of [PriceLevelBook].  Creating a book finds its sources or
    makes them, closing it removes the sources that no other book has. *)

From S2P Require Import Prelude Arrays Algorithms Output Input SymbolCodec EventData DataStructures Subscription Properties TaskQueue ConfigurationDeserializer NetworkContext.
From S2P Require Import ServerData ServerProcessor ClientMessages Network PriceLevelSource SourceTable PriceLevelBook EventSubscription Feed.
Local Open Scope Z_scope.
Local Open Scope c_scope.

(** ** The state *)

(** The subscription of a source is [None] once it is closed. *)
Record books : Type := MakeBooks {
  bk_connection : connection;
  bk_table : dx_plb_connection_context_t;
  bk_world : plb_world;
  bk_subscriptions : gmap Z addr;
}.
Definition set_bk_connection (x : connection) (b : books) : books :=
  MakeBooks x (bk_table b) (bk_world b) (bk_subscriptions b).
Definition set_bk_table (x : dx_plb_connection_context_t) (b : books) : books :=
  MakeBooks (bk_connection b) x (bk_world b) (bk_subscriptions b).
Definition set_bk_world (x : plb_world) (b : books) : books :=
  MakeBooks (bk_connection b) (bk_table b) x (bk_subscriptions b).
Definition set_bk_subscriptions (x : gmap Z addr) (b : books) : books :=
  MakeBooks (bk_connection b) (bk_table b) (bk_world b) x.
Definition set_bk_sources (x : gmap Z (dx_plb_source_t * list (Z * nat))) (b : books) : books :=
  set_bk_world (PlbWorld x (w_books (bk_world b))) b.
Definition set_bk_books (x : gmap Z dx_price_level_book_t) (b : books) : books :=
  set_bk_world (PlbWorld (w_sources (bk_world b)) x) b.
Definition sources_of (b : books) : gmap Z (dx_plb_source_t * list (Z * nat)) := w_sources (bk_world b).
Definition books_of (b : books) : gmap Z dx_price_level_book_t := w_books (bk_world b).

Definition on_connection {A} (m : M connection A) : M books A := on bk_connection set_bk_connection m.

(** The last error of the thread after calls that reset it: [None] when nothing did. *)
Definition later (r r' : option dx_error_code) : option dx_error_code := match r' with None => r | Some _ => r' end.
Fixpoint each (f : Z -> M books (option dx_error_code)) (l : list Z) : M books (option dx_error_code) :=
  match l with
  | [] => ret None
  | h :: l' => r <-- f h;; r' <-- each f l';; ret (later r r')
  end.

Section books.
Context {It : Iteration} (create_ok : list Z -> bool) (new_ok : bool).
Context (calloc_ok : Z -> bool) (mbsrtowcs : list Z -> option (list Z)).
Context (dx_send : list Z -> list Z -> Z + dx_error_code) (t : tables).
(** [dx_symbol_name_hasher], and whether the blocks of a source and of a book are
    allocated. *)
Context (dx_symbol_name_hasher : list Z -> Z) (alloc_source : bool) (alloc_book : bool).

Let alloc (n : nat) : bool := calloc_ok (Z.of_nat n).

(** ** Sources *)

(** The function that is attached to the subscriptions. *)
Definition plb_event_listener_ptr : Z := 3.
Definition dx_plb_subscr_flags : Z := Z.lor dx_esf_single_record dx_esf_time_series.

Definition source_at (h : Z) : M books (dx_plb_source_t * list (Z * nat)) := b <-- get;; of_option (sources_of b !! h).
Definition book_at (h : Z) : M books dx_price_level_book_t := b <-- get;; of_option (books_of b !! h).
Definition entry_of (h : Z) (source : dx_plb_source_t) : src_entry :=
  SrcEntry h (dx_plb_source_hash dx_symbol_name_hasher (ps_symbol source) (ps_source source)) (ps_symbol source) (ps_source source).

(** [dxf_close_subscription] resets the last error and may set it. *)
Definition closing (subscription : dxf_subscription_t) : M books (bool * dx_error_code) :=
  r <-- catch (on_connection (dxf_close_subscription calloc_ok dx_send t subscription));;
  ret (match r with inl _ => (true, dx_ec_success) | inr e => (false, e) end).

Definition dx_plb_source_free (h : Z) : M books (option dx_error_code) :=
  source_at h;;;
  b <-- get;;
  r <-- (match bk_subscriptions b !! h with
         | None => ret None
         | s => r <-- closing s;; ret (Some r.2)
         end);;
  update (fun b => set_bk_subscriptions (delete h (bk_subscriptions b)) (set_bk_sources (delete h (sources_of b)) b));;;
  ret r.
(** The source is freed, and what that leaves is the last error. *)
Definition free_source {A} (h : Z) (e : dx_error_code) : M books A :=
  r <-- dx_plb_source_free h;; dx_set_error_code (default e r).

Definition dx_plb_book_free (b : Z) : M books unit :=
  book_at b;;;
  update (fun x => set_bk_books (delete b (books_of x)) x).

(** The books are freed by their first source only. *)
Fixpoint free_consumers (consumers : list (Z * nat)) : M books unit :=
  match consumers with
  | [] => ret tt
  | (b, idx) :: consumers' => (if (idx =? 0)%nat then dx_plb_book_free b else ret tt);;; free_consumers consumers'
  end.
Definition dx_plb_source_clear (h : Z) (force : bool) : M books (bool * option dx_error_code) :=
  sc <-- source_at h;;
  if negb force && negb (bool_decide (sc.2 = [])) then ret (false, None)
  else
    b <-- get;;
    err <-- closing (bk_subscriptions b !! h);;
    update (fun b => set_bk_subscriptions (delete h (bk_subscriptions b)) b);;;
    free_consumers sc.2;;;
    dx_plb_source_free h;;;
    ret (err.1, Some err.2).

Definition dx_plb_source_cleanup (h : Z) : M books (option dx_error_code) :=
  sc <-- source_at h;;
  match sc.2 with
  | _ :: _ => ret None
  | [] =>
      b <-- get;;
      removed <-- of_option (dx_plb_ctx_remove_source dx_symbol_name_hasher (bk_table b) (entry_of h sc.1));;
      update (set_bk_table removed.1);;;
      r <-- dx_plb_source_clear h false;;
      ret r.2
  end.

(** [dx_plb_ctx_cleanup_sources]: the removal from the table and the clearing of the
    sources do not depend on each other. *)
Definition unused (b : books) (h : Z) : bool := match sources_of b !! h with Some (_, []) => true | _ => false end.
Definition cleanup_sources : M books (option dx_error_code) :=
  b <-- get;;
  swept <-- of_option (dx_plb_ctx_cleanup_sources dx_symbol_name_hasher (unused b) (bk_table b));;
  update (set_bk_table swept.1);;;
  each (fun h => r <-- dx_plb_source_clear h false;; ret r.2) swept.2.

Definition dx_plb_source_create (symbol src : list Z) : M books Z :=
  if negb alloc_source then dx_set_error_code dx_mec_insufficient_memory
  else
    b <-- get;;
    let h := fresh (dom (sources_of b)) in
    put (set_bk_sources (<[h := (new_source symbol src, [])]> (sources_of b)) b);;;
    s <-- or_else (on_connection (on_context (dx_create_event_subscription new_ok alloc DXF_ET_ORDER dx_plb_subscr_flags 0)))
      (fun e => dx_plb_source_free h;;; dx_set_error_code dx_mec_insufficient_memory);;
    update (fun b => set_bk_subscriptions (<[h := s]> (bk_subscriptions b)) b);;;
    or_else (on_connection (dxf_attach_event_listener_v2 (Some s) plb_event_listener_ptr h)) (free_source h);;;
    on_connection (on_context (dx_clear_order_source (Some s)));;;
    or_else (on_connection (on_context (dx_add_order_source alloc s (ps_source (new_source symbol src))))) (free_source h);;;
    or_else (on_connection (on_context (dx_add_symbols create_ok (Some s) [Some symbol]))) (free_source h);;;
    or_else (on_connection (load_and_subscribe calloc_ok dx_send t (source_of s) [Some symbol] DXF_ET_ORDER dx_plb_subscr_flags 0))
      (free_source h);;;
    ret h.

(** ** Books *)

Definition remove_book (b h : Z) : M books (option dx_error_code) :=
  x <-- get;;
  w <-- of_option (PriceLevelBook.dx_plb_source_remove_book h b (bk_world x));;
  put (set_bk_world w x);;;
  ret None.
Definition dx_plb_book_clear (b : Z) : M books (option dx_error_code) :=
  book <-- book_at b;;
  each (remove_book b) (pb_sources book);;;
  r <-- each dx_plb_source_cleanup (pb_sources book);;
  dx_plb_book_free b;;;
  ret r.

(** The source of a book in the table, or a new one. *)
Definition source_for (symbol src : list Z) : M books Z :=
  b <-- get;;
  found <-- of_option (dx_plb_ctx_find_source dx_symbol_name_hasher (bk_table b) symbol src);;
  match found with
  | Some e => ret (e_id e)
  | None =>
      h <-- dx_plb_source_create symbol src;;
      sc <-- source_at h;;
      b <-- get;;
      added <-- of_option (dx_plb_ctx_add_source dx_symbol_name_hasher alloc (bk_table b) (entry_of h sc.1));;
      update (set_bk_table added.1);;;
      if (added.2 : bool) then ret h else dx_set_error_code dx_mec_insufficient_memory
  end.

Definition set_pb_sources (x : list Z) (b : dx_price_level_book_t) : dx_price_level_book_t :=
  PlbBook (pb_symbol b) x (pb_listeners b) (pb_bids b) (pb_asks b) (pb_bids_count b) (pb_asks_count b).
(** The arrays of a book have [srccount] elements. *)
Definition add_source (b : Z) (srccount : nat) (h : Z) : M books unit :=
  book <-- book_at b;;
  if (srccount <=? length (pb_sources book))%nat then undefined
  else
    update (fun x => set_bk_books (<[b := set_pb_sources (pb_sources book ++ [h]) book]> (books_of x)) x);;;
    x <-- get;;
    added <-- of_option (dx_plb_source_add_book alloc h b (length (pb_sources book)) (bk_world x));;
    put (set_bk_world added.1 x);;;
    if (added.2 : bool) then ret tt else dx_set_error_code dx_mec_insufficient_memory.

Definition abandon_book {A} (b : Z) (e : dx_error_code) : M books A :=
  r <-- dx_plb_book_clear b;; r' <-- cleanup_sources;; dx_set_error_code (default e (later r r')).

Fixpoint sources_loop (srcs : list (list Z)) (i : Z) (b : Z) (symbol : list Z) (srccount : nat) (srcflags : Z) : M books unit :=
  match srcs with
  | [] => ret tt
  | src :: srcs' =>
      (if Z.testbit srcflags i then
         or_else (h <-- source_for symbol src;; add_source b srccount h) (abandon_book b)
       else ret tt);;;
      sources_loop srcs' (i + 1) b symbol srccount srcflags
  end.
Definition dx_create_price_level_book (symbol : list Z) (srccount : nat) (srcflags : Z) : M books Z :=
  if negb alloc_book then dx_set_error_code dx_mec_insufficient_memory
  else
    x <-- get;;
    let b := fresh (dom (books_of x)) in
    put (set_bk_books (<[b := new_book symbol]> (books_of x)) x);;;
    sources_loop dx_all_order_sources 0 b symbol srccount srcflags;;;
    ret b.
Definition dx_close_price_level_book (b : Z) : M books unit := dx_plb_book_clear b;;; ret tt.

(** ** The interface ([DXFeed.c]) *)

(** The number of a source among those of the library. *)
Fixpoint known_source (source : list Z) (known : list (list Z)) (i : Z) : option Z :=
  match known with
  | [] => None
  | k :: known' => if dx_compare_strings source k =? 0 then Some i else known_source source known' (i + 1)
  end.
Fixpoint check_sources (n : nat) (sources : list (option (list Z))) (sources_count : nat) (sources_flags : Z) : M books (nat * Z) :=
  match n, sources with
  | O, _ => ret (sources_count, sources_flags)
  | S _, [] => undefined
  | S _, None :: _ => dx_set_error_code dx_ec_invalid_func_param
  | S n', Some source :: sources' =>
      if (zlen source <? 1) || (4 <? zlen source) then dx_set_error_code dx_ec_invalid_func_param
      else
        source_wide <-- of_option (mjoin (dx_ansi_to_unicode calloc_ok mbsrtowcs source));;
        match known_source source_wide dx_all_order_sources 0 with
        | None => dx_set_error_code dx_ec_invalid_func_param
        | Some i =>
            check_sources n' sources' (if Z.testbit sources_flags i then sources_count else S sources_count)
              (Z.lor sources_flags (Z.shiftl 1 i))
        end
  end.
Definition dxf_create_price_level_book_impl (symbol : option (list Z)) (sources : option (list (option (list Z))))
  (sources_count_unchecked : Z) (out : bool) : M books Z :=
  if negb out then dx_set_error_code dx_ec_invalid_func_param
  else if dx_string_null_or_empty symbol then dx_set_error_code dx_ssec_invalid_symbol
  else
    checked <--
      (match sources with
       | Some l =>
           if sources_count_unchecked =? 0 then ret (length dx_all_order_sources, 2 ^ 64 - 1)
           else check_sources (Z.to_nat sources_count_unchecked) l 0 0
       | None => ret (length dx_all_order_sources, 2 ^ 64 - 1)
       end);;
    if (checked.1 =? 0)%nat then dx_set_error_code dx_ec_invalid_func_param
    else dx_create_price_level_book (default [] symbol) checked.1 checked.2.

(** The sources up to a null pointer. *)
Fixpoint dx_get_sources_count (sources : list (option (list Z))) (i : Z) : option Z :=
  match sources with
  | [] => None
  | None :: _ => Some i
  | Some _ :: sources' => dx_get_sources_count sources' (i + 1)
  end.
Definition dxf_create_price_level_book (symbol : option (list Z)) (sources : option (list (option (list Z)))) (out : bool) : M books Z :=
  sources_count <-- of_option (match sources with None => Some 0 | Some l => dx_get_sources_count l 0 end);;
  dxf_create_price_level_book_impl symbol sources sources_count out.
Definition dxf_create_price_level_book_v2 : option (list Z) -> option (list (option (list Z))) -> Z -> bool -> M books Z :=
  dxf_create_price_level_book_impl.

Definition valid_book {A} (book : option Z) (k : Z -> M books A) : M books A :=
  match book with None => dx_set_error_code dx_ec_invalid_func_param | Some b => k b end.
Definition dxf_close_price_level_book (book : option Z) : M books unit := valid_book book dx_close_price_level_book.
(** A change of the listeners of a book. *)
Definition change_book (b : Z) (f : dx_price_level_book_t -> option (dx_price_level_book_t * bool)) : M books unit :=
  book <-- book_at b;;
  changed <-- of_option (f book);;
  update (fun x => set_bk_books (<[b := changed.1]> (books_of x)) x);;;
  if (changed.2 : bool) then ret tt else fail.
Definition dxf_attach_price_level_book_listener (book : option Z) (book_listener user_data : Z) : M books unit :=
  valid_book book (fun b => change_book b (fun book => dx_add_price_level_book_listener alloc book book_listener user_data)).
Definition dxf_detach_price_level_book_listener (book : option Z) (book_listener : Z) : M books unit :=
  valid_book book (fun b => change_book b (fun book => dx_remove_price_level_book_listener alloc book book_listener)).

(** ** Closing the connection: the sources are cleared with their books *)

Definition dx_plb_clear_books : M books unit :=
  b <-- get;;
  hs <-- of_option (dx_plb_clear_connection_context (bk_table b));;
  each (fun h => r <-- dx_plb_source_clear h true;; ret r.2) hs;;;
  ret tt.
End books.
