(* ===== verification/BooksTheory.v ===== *)
(** * BooksTheory: how the sources of the price level books are linked

    A source is in the table and in the store of the sources, with a subscription of its
    own whose listener is called with the source; the consumers of the sources are the
    books that have them.  Creating a source, finding one for a book, and removing a
    book from its sources keep this. *)

From S2P Require Import Prelude Arrays Algorithms Output Input SymbolCodec EventData DataStructures Subscription Properties TaskQueue ConfigurationDeserializer NetworkContext.
From S2P Require Import ServerData ServerProcessor ClientMessages Network PriceLevelSource SourceTable PriceLevelBook EventSubscription SubscriptionTheory SubscriptionRefinement Delivery.
From S2P Require Import Feed FeedTheory FeedRefinement Books.
Local Open Scope Z_scope.
Local Open Scope c_scope.

(** ** Steps *)

Lemma on_connection_at {A} (m : M connection A) x v c : m (bk_connection x) = Ok v c -> on_connection m x = Ok v (set_bk_connection c x).
Proof. intros E. unfold on_connection, on. by rewrite E. Qed.
Lemma or_else_ok {S A} (m : M S A) k s v s' : m s = Ok v s' -> or_else m k s = Ok v s'.
Proof. intros E. unfold or_else, catch. unfold checked_call. by rewrite E. Qed.
Lemma source_at_ok x h sc : sources_of x !! h = Some sc -> source_at h x = Ok sc x.
Proof. intros E. unfold source_at. rewrite (bind_ok get _ _ _ _ eq_refl), E. done. Qed.
Lemma book_at_ok x b book : books_of x !! b = Some book -> book_at b x = Ok book x.
Proof. intros E. unfold book_at. rewrite (bind_ok get _ _ _ _ eq_refl), E. done. Qed.

(** The next call is on the connection. *)
Ltac on_conn E := erewrite bind_ok; [|first [apply or_else_ok|idtac]; apply on_connection_at; exact E].

(** An operation on the context of the connection, after requests. *)
Lemma then_changed {A} l m reqs (k : M EventSubscriptionConnectionContext A) v c c1 x :
  map_Forall (fun _ => view_fits) m -> usable c -> usable c1 -> requested reqs (subs_at c1) c c1 ->
  changed None l m (cn_context c1) x -> k (cn_context c1) = Ok v x ->
  exists c2, on_context k c1 = Ok v c2 /\ requested reqs m c c2 /\ subs_at c2 = m /\ usable c2.
Proof.
  intros Hm Hus Hus1 H Hc E. destruct (then_context l m reqs k v c c1 x Hus1 H Hc E) as [E2 H2].
  exists (set_cn_context x c1). split_and!; [exact E2|exact H2|apply (rq_subs _ _ _ _ H2)|by apply (usable_after reqs m c)].
Qed.

(** ** Making a source *)

(** The subscription of a source, and what it asks for. *)
Definition source_view (h : Z) (symbol source : list Z) : subscription_view :=
  SubscriptionView DXF_ET_ORDER {[symbol]} {[plb_event_listener_ptr := MakeListenerContext V2 h]} [stored source] dx_plb_subscr_flags 0.
Definition source_request (unsubscribe : bool) (symbol source : list Z) : dx_event_subscription_task_data_t :=
  SubscriptionTaskData [stored source] [Some symbol] DXF_ET_ORDER unsubscribe dx_plb_subscr_flags 0.

Lemma source_view_fits h symbol source : source_ok source -> symbol <> [] -> view_fits (source_view h symbol source).
Proof.
  intros Hs Hn. split; [constructor; [by apply stored_short|constructor]|]. cbn. set_solver.
Qed.
Lemma take_source source : source_ok source -> take (DXF_RECORD_SUFFIX_SIZE - 1) source = source.
Proof. intros [_ Hl]. unfold DXF_RECORD_SUFFIX_SIZE. apply take_ge. lia. Qed.

Lemma symbol_names_one symbol : symbol <> [] -> symbol_names [Some symbol] = {[symbol]}.
Proof. intros H. unfold symbol_names. destruct symbol; [done|]. cbn. set_solver. Qed.

Section attaching.
Context {It : Iteration} (create_ok : list Z -> bool) (create_always : forall n, create_ok n = true).

(** The listener of a subscription is attached, and its sources are cleared. *)
Lemma attach_spec reqs c c1 s v p data : usable c -> usable c1 -> requested reqs (subs_at c1) c c1 -> subs_at c1 !! s = Some v -> view_fits v -> p <> 0 ->
  exists c2, dxf_attach_event_listener_v2 (Some s) p data c1 = Ok tt c2 /\
    requested reqs (<[s := with_listeners (v_listeners v ∪ {[p := MakeListenerContext V2 data]}) v]> (subs_at c1)) c c2 /\
    subs_at c2 = <[s := with_listeners (v_listeners v ∪ {[p := MakeListenerContext V2 data]}) v]> (subs_at c1) /\ usable c2.
Proof using It.
  intros Hus Hus1 H Es Hv Hp. unfold dxf_attach_event_listener_v2, with_listener, valid_subscription. rewrite (proj2 (Z.eqb_neq p 0)) by done.
  destruct (run_user_op_spec (fun _ => true) (fun _ => true) (fun _ => eq_refl) (fun _ => eq_refl) None (user_add_listener (Some s) p V2 data)
    (cn_context c1) (us_consistent c1 Hus1)) as (x & m & E & (s' & v' & [= <-] & Ev & ->) & Hx).
  { split; [by exists s; split; [|exists v]|done]. }
  assert (v' = v) as -> by (unfold subs_at in Es; congruence).
  eapply (then_changed _ _ reqs (dx_add_listener_v2 (Some s) p data)); [|exact Hus|exact Hus1|exact H|exact Hx|exact E].
  apply map_Forall_insert_2; [exact Hv|apply (us_fits c1 Hus1)].
Qed.

Lemma clear_source_spec reqs c c1 s v : usable c -> usable c1 -> requested reqs (subs_at c1) c c1 -> subs_at c1 !! s = Some v -> view_fits v ->
  exists c2, on_context (dx_clear_order_source (Some s)) c1 = Ok tt c2 /\
    requested reqs (<[s := with_sources [] v]> (subs_at c1)) c c2 /\
    subs_at c2 = <[s := with_sources [] v]> (subs_at c1) /\ usable c2.
Proof using Type.
  intros Hus Hus1 H (d & Es & <-)%live_lookup [_ Hv].
  destruct (change_subscription_spec None grows (cn_context c1) s d (set_orderSource DX_EMPTY_ARRAY) (us_consistent c1 Hus1) Es eq_refl
    (fun _ => conj array_wf_empty eq_refl)) as (x & E2 & H2).
  eapply (then_changed _ _ reqs (dx_clear_order_source (Some s))); [|exact Hus|exact Hus1|exact H|exact H2|exact E2].
  apply map_Forall_insert_2; [by split; [constructor|]|apply (us_fits c1 Hus1)].
Qed.

Lemma add_first_symbol_spec reqs c c1 s v symbol : usable c -> usable c1 -> requested reqs (subs_at c1) c c1 -> subs_at c1 !! s = Some v -> view_fits v -> symbol <> [] ->
  exists c2, on_context (dx_add_symbols create_ok (Some s) [Some symbol]) c1 = Ok tt c2 /\
    requested reqs (<[s := with_names ({[symbol]} ∪ v_names v) v]> (subs_at c1)) c c2 /\
    subs_at c2 = <[s := with_names ({[symbol]} ∪ v_names v) v]> (subs_at c1) /\ usable c2.
Proof using It create_always.
  intros Hus Hus1 H Es [Hv1 Hv2] Hn.
  destruct (add_loop_spec create_ok None [Some symbol] s (cn_context c1) v (us_consistent c1 Hus1) Es) as (x & X & Hx & _ & _ & E).
  destruct (E create_always) as [E1 ->]. rewrite symbol_names_one in Hx by done.
  eapply (then_changed _ _ reqs (dx_add_symbols create_ok (Some s) [Some symbol])); [|exact Hus|exact Hus1|exact H|exact Hx|exact E1].
  apply map_Forall_insert_2; [split; [done|cbn; set_solver]|apply (us_fits c1 Hus1)].
Qed.
End attaching.

Section sources.
Context {It : Iteration} (create_ok : list Z -> bool) (create_always : forall n, create_ok n = true).
Context (calloc_ok : Z -> bool) (calloc_works : forall n, calloc_ok n = true).
Context (dx_send : list Z -> list Z -> Z + dx_error_code) (t : tables).
Lemma create_source_spec x symbol src :
  usable (bk_connection x) -> symbol <> [] -> source_ok src ->
  exists h s c', let x' := MakeBooks c' (bk_table x) (PlbWorld (<[h := (new_source symbol src, [])]> (sources_of x)) (books_of x))
      (<[h := s]> (bk_subscriptions x)) in
    dx_plb_source_create create_ok true calloc_ok dx_send t true symbol src x = Ok h x' /\
    sources_of x !! h = None /\ subs_at (bk_connection x) !! s = None /\ usable c' /\
    requested [source_request false symbol src] (<[s := source_view h symbol src]> (subs_at (bk_connection x))) (bk_connection x) c'.
Proof using It create_always calloc_works.
  intros Hus Hn Hsrc. set (c := bk_connection x) in *. set (alloc := fun n : nat => calloc_ok (Z.of_nat n)).
  set (h := fresh (dom (sources_of x))). assert (Hh : sources_of x !! h = None) by (apply not_elem_of_dom, is_fresh).
  destruct (create_spec alloc (fun n => calloc_works _) None grows DXF_ET_ORDER dx_plb_subscr_flags 0 (cn_context c) (us_consistent c Hus) eq_refl)
    as (s & x0 & E0 & Hs & H0).
  set (v0 := SubscriptionView DXF_ET_ORDER ∅ ∅ (created_sources DXF_ET_ORDER) dx_plb_subscr_flags 0) in *.
  assert (Hv0 : view_fits v0) by (split; [apply created_fits|cbn; set_solver]).
  destruct (then_changed grows _ [] (dx_create_event_subscription true alloc DXF_ET_ORDER dx_plb_subscr_flags 0) s c c x0
    ltac:(apply map_Forall_insert_2; [exact Hv0|apply (us_fits c Hus)]) Hus Hus (requested_same c Hus) H0 E0) as (c1 & E1 & R1 & S1 & U1).
  rewrite <- S1 in R1.
  destruct (attach_spec [] c c1 s v0 plb_event_listener_ptr h Hus U1 R1) as (c2 & E2 & R2 & S2 & U2); [by rewrite S1, lookup_insert_eq|done|done|].
  rewrite <- S2 in R2.
  set (v1 := with_listeners _ v0) in *. rewrite S1, insert_insert_eq in S2.
  destruct (clear_source_spec [] c c2 s v1 Hus U2 R2) as (c3 & E3 & R3 & S3 & U3); [by rewrite S2, lookup_insert_eq|exact Hv0|].
  rewrite <- S3 in R3. rewrite S2, insert_insert_eq in S3. set (v2 := with_sources [] v1) in *.
  destruct (add_order_source_spec alloc c3 s v2 src (fun n => calloc_works _) U3) as (x4 & E4 & H4); [by rewrite S3, lookup_insert_eq|done|].
  change (with_source src (v_sources v2)) with [stored src] in H4. rewrite S3, insert_insert_eq in H4. set (v3 := with_sources [stored src] v2) in *.
  assert (Hv3 : view_fits v3) by (split; [constructor; [by apply stored_short|constructor]|cbn; set_solver]).
  destruct (then_changed _ _ [] (dx_add_order_source alloc s src) tt c c3 x4
    ltac:(apply map_Forall_insert_2; [exact Hv3|apply (us_fits c Hus)]) Hus U3 R3 H4 E4) as (c4 & E5 & R4 & S4 & U4).
  rewrite <- S4 in R4.
  destruct (add_first_symbol_spec create_ok create_always [] c c4 s v3 symbol Hus U4 R4) as (c5 & E6 & R5 & S5 & U5); [by rewrite S4, lookup_insert_eq|done|done|].
  rewrite <- S5 in R5. rewrite S4, insert_insert_eq in S5.
  assert (Ev : with_names ({[symbol]} ∪ v_names v3) v3 = source_view h symbol src).
  { unfold with_names, source_view. cbn. f_equal. set_solver. }
  rewrite Ev in S5.
  destruct (subscribe_request calloc_ok calloc_works dx_send t (source_of s) [stored src] [Some symbol] DXF_ET_ORDER dx_plb_subscr_flags 0 c5 U5)
    as (c6 & E7 & R6); [constructor; [by apply stored_short|constructor]| |].
  { intros c' Ec. apply (get_at_context c' s (source_view h symbol src)); [rewrite Ec; apply U5|].
    unfold subs_at in *. rewrite Ec, S5. apply lookup_insert_eq. }
  exists h, s, c6. cbv zeta. split_and!; [|exact Hh|exact Hs|by apply (usable_after _ _ _ _ U5 R6), (us_fits c5 U5)|].
  - unfold dx_plb_source_create. cbn [negb]. rewrite (bind_ok get _ _ _ _ eq_refl), (bind_ok (put _) _ _ _ _ eq_refl).
    on_conn E1. rewrite (bind_ok (update _) _ _ _ _ eq_refl). on_conn E2. on_conn E3.
    change (ps_source (new_source symbol src)) with (take (DXF_RECORD_SUFFIX_SIZE - 1) src). rewrite take_source by done.
    on_conn E5. on_conn E6. on_conn E7. reflexivity.
  - rewrite <- S5 in *. replace (source_request false symbol src) with (new_task [stored src] [Some symbol] DXF_ET_ORDER false dx_plb_subscr_flags 0)
      by (by destruct symbol). exact (requested_trans [] [_] _ _ _ _ _ R5 R6).
Qed.
End sources.

(** ** How sources, books and subscriptions are linked *)

Abbreviation source_store := (gmap Z (dx_plb_source_t * list (Z * nat))).

(** The consumers of the sources are the books that have them. *)
Record wired (sources : source_store) (bks : gmap Z dx_price_level_book_t) : Prop := {
  wired_nodup h sc : sources !! h = Some sc -> NoDup sc.2.*1;
  wired_consumer h sc b i : sources !! h = Some sc ->
    (b, i) ∈ sc.2 <-> exists book, bks !! b = Some book /\ pb_sources book !! i = Some h;
  wired_once b book : bks !! b = Some book -> NoDup (pb_sources book);
  wired_sources b book h : bks !! b = Some book -> h ∈ pb_sources book ->
    exists sc, sources !! h = Some sc /\ ps_symbol sc.1 = pb_symbol book;
}.

(** Every source has its subscription, which is for the orders of the source with the
    symbol and calls the source. *)
Definition subscribed_sources (sources : source_store) (subscribed : gmap Z addr) (m : gmap addr subscription_view) : Prop :=
  dom subscribed = dom sources /\
  forall h sc, sources !! h = Some sc -> exists s, subscribed !! h = Some s /\
    m !! s = Some (source_view h (ps_symbol sc.1) (ps_source sc.1)).

(** The table has the sources. *)
Record tabled (hasher : list Z -> Z) (table : dx_plb_connection_context_t) (sources : source_store) : Prop := {
  tabled_ok : table_ok hasher table;
  tabled_capacity : src_capacity table = 1024%nat;
  tabled_holds e : holds table e <-> exists sc, sources !! e_id e = Some sc /\ e = entry_of hasher (e_id e) sc.1;
}.

(** The books are the given ones; the sources outside of [idle] have some book. *)
Record linked_books (hasher : list Z -> Z) (idle : gset Z) (bks : gmap Z dx_price_level_book_t) (x : books) : Prop := {
  lb_usable : usable (bk_connection x);
  lb_tabled : tabled hasher (bk_table x) (sources_of x);
  lb_wired : wired (sources_of x) bks;
  lb_subscribed : subscribed_sources (sources_of x) (bk_subscriptions x) (subs_at (bk_connection x));
  lb_used h sc : sources_of x !! h = Some sc -> h ∉ idle -> sc.2 <> [];
  lb_sources h sc : sources_of x !! h = Some sc -> ps_source sc.1 ∈ dx_all_order_sources /\ ps_symbol sc.1 <> [];
}.

(** The sources that a symbol has. *)
Definition sources_named (symbol : list Z) (sources : source_store) : gset (list Z) :=
  list_to_set ((fun hsc => ps_source hsc.2.1) <$> filter (fun hsc => ps_symbol hsc.2.1 = symbol) (map_to_list sources)).
Lemma elem_of_sources_named symbol sources src :
  src ∈ sources_named symbol sources <-> exists h sc, sources !! h = Some sc /\ ps_symbol sc.1 = symbol /\ ps_source sc.1 = src.
Proof.
  unfold sources_named. rewrite elem_of_list_to_set, list_elem_of_fmap. split.
  - intros ([h sc] & -> & [Hs Hin%elem_of_map_to_list]%list_elem_of_filter). by exists h, sc.
  - intros (h & sc & E & Hs & <-). exists (h, sc). split; [done|]. apply list_elem_of_filter. split; [done|]. by apply elem_of_map_to_list.
Qed.

Lemma add_source_capacity hasher alloc table e table' b :
  (src_size table <= src_capacity table / 2)%nat -> dx_plb_ctx_add_source hasher alloc table e = Some (table', b) ->
  src_capacity table' = src_capacity table.
Proof.
  intros Hl. unfold dx_plb_ctx_add_source. rewrite (proj2 (Nat.ltb_ge _ _) Hl).
  destruct (dx_plb_source_find_pos _ _ _ _); [|done]. cbn. destruct (write_at _ _ _); [|done]. cbn. by intros [= <- _].
Qed.
Lemma remove_source_capacity hasher table e table' b :
  dx_plb_ctx_remove_source hasher table e = Some (table', b) -> src_capacity table' = src_capacity table.
Proof.
  unfold dx_plb_ctx_remove_source. destruct (dx_plb_source_find_pos _ _ _ _) as [pos|]; [|done]. cbn [mbind option_bind].
  destruct (ctx_sources table !! pos) as [o|]; [|done]. cbn [mbind option_bind]. destruct (negb _); [by intros [= <- _]|].
  destruct (shift_loop _ _ _ _ _ _) as [[slots p]|]; [|done]. cbn [mbind option_bind].
  destruct (write_at _ _ _); [|done]. cbn [mbind option_bind]. by intros [= <- _].
Qed.

Lemma known_source_ok src : src ∈ dx_all_order_sources -> source_ok src.
Proof.
  revert src. apply Forall_forall. apply (bool_decide_unpack _). vm_compute. exact I.
Qed.

Section linking.
Context (hasher : list Z -> Z).

Lemma tabled_add alloc table sources h src :
  tabled hasher table sources -> sources !! h = None -> (src_size table <= 512)%nat ->
  (forall e, holds table e -> key_of e <> (ps_symbol src, ps_source src)) ->
  exists table', dx_plb_ctx_add_source hasher alloc table (entry_of hasher h src) = Some (table', true) /\
    tabled hasher table' (<[h := (src, [])]> sources) /\ src_size table' = S (src_size table).
Proof using Type.
  intros [Hok Hcap Hh] Hn Hsz Hk. assert (Hhalf : (src_size table <= src_capacity table / 2)%nat) by (rewrite Hcap; exact Hsz).
  destruct (add_source_spec hasher alloc table (entry_of hasher h src) Hok) as (table' & E & Hok' & Hs & Hholds);
    [rewrite Hcap; apply Nat.leb_le; reflexivity|done|reflexivity|exact Hk|].
  exists table'. split; [done|]. split; [|done]. split; [done| |].
  - rewrite <- Hcap. by eapply add_source_capacity.
  - intros e. rewrite Hholds, Hh. split.
    + intros [(sc & Es & Ee)| ->]; [|exists (src, []); split; [apply lookup_insert_eq|done]].
      exists sc. split; [|done]. rewrite lookup_insert_ne; [done|]. intros E1. by rewrite <- E1, Hn in Es.
    + intros (sc & Es & Ee). apply lookup_insert_Some in Es as [[E1 E2]|[Hne Es]]; [|left; eauto].
      right. subst sc. rewrite E1. exact Ee.
Qed.

Lemma tabled_remove table sources h sc :
  tabled hasher table sources -> sources !! h = Some sc ->
  exists table', dx_plb_ctx_remove_source hasher table (entry_of hasher h sc.1) = Some (table', true) /\
    tabled hasher table' (delete h sources) /\ S (src_size table') = src_size table.
Proof using Type.
  intros [Hok Hcap Hh] Hs. assert (Hin : holds table (entry_of hasher h sc.1)) by (apply Hh; by exists sc).
  destruct (remove_source_spec hasher table _ Hok Hin) as (table' & E & Hok' & Hsz & Hholds).
  exists table'. split; [done|]. split; [|done]. split; [done|by rewrite <- Hcap; eapply remove_source_capacity|].
  intros e. rewrite Hholds, Hh. split.
  - intros [(sc' & Es & Ee) Hne]. exists sc'. split; [|done]. rewrite lookup_delete_ne; [done|].
    intros E1. rewrite <- E1, Hs in Es. injection Es as <-. apply Hne. rewrite E1. exact Ee.
  - intros (sc' & Es & Ee). apply lookup_delete_Some in Es as [Hne Es]. split; [by exists sc'|]. intros ->. by apply Hne.
Qed.

Lemma wired_new sources bks h src : wired sources bks -> sources !! h = None -> wired (<[h := (src, [])]> sources) bks.
Proof using Type.
  intros [Hd Hc Ho Hs] Hn. split; [| |done|].
  - intros h' sc [[<- <-]|[_ E]]%lookup_insert_Some; [constructor|by eapply Hd].
  - intros h' sc b i [[<- <-]|[_ E]]%lookup_insert_Some; [|by apply Hc]. split; [by intros ?%elem_of_nil|].
    intros (book & Eb & Ei). destruct (Hs b book h Eb) as (sc & E & _); [by eapply list_elem_of_lookup_2|]. congruence.
  - intros b book h' Eb Hin. destruct (Hs b book h' Eb Hin) as (sc & E & Es). exists sc. split; [|done].
    rewrite lookup_insert_ne; [done|]. intros <-. congruence.
Qed.

Lemma subscribed_new sources subscribed m h s symbol src :
  subscribed_sources sources subscribed m -> m !! s = None -> src ∈ dx_all_order_sources ->
  subscribed_sources (<[h := (new_source symbol src, [])]> sources) (<[h := s]> subscribed) (<[s := source_view h symbol src]> m).
Proof using Type.
  intros [Hd Hs] Hn Hsrc. split; [by rewrite !dom_insert_L, Hd|].
  intros h' sc [[<- <-]|[Hne E]]%lookup_insert_Some.
  - exists s. rewrite !lookup_insert_eq. split; [done|]. change (ps_source (new_source symbol src, []).1) with (take (DXF_RECORD_SUFFIX_SIZE - 1) src).
    by rewrite take_source by by apply known_source_ok.
  - destruct (Hs h' sc E) as (s' & E1 & E2). exists s'. rewrite lookup_insert_ne by done. split; [done|].
    rewrite lookup_insert_ne; [done|]. intros <-. congruence.
Qed.

Lemma wired_add sources bks h sc b book :
  wired sources bks -> sources !! h = Some sc -> bks !! b = Some book -> h ∉ pb_sources book -> ps_symbol sc.1 = pb_symbol book ->
  wired (<[h := (sc.1, (b, length (pb_sources book)) :: sc.2)]> sources) (<[b := set_pb_sources (pb_sources book ++ [h]) book]> bks).
Proof using Type.
  intros [Hd Hc Ho Hs] Es Eb Hin Hsym.
  assert (Hb : b ∉ sc.2.*1).
  { intros ([b' i] & E1 & Hi)%list_elem_of_fmap. cbn in E1. subst b'. apply (Hc h sc _ _ Es) in Hi as (book' & Eb' & Hi).
    rewrite Eb in Eb'. injection Eb' as <-. by apply list_elem_of_lookup_2 in Hi. }
  split.
  - intros h' sc' [[<- <-]|[_ E]]%lookup_insert_Some; [cbn; apply NoDup_cons; split; [done|by eapply Hd]|by eapply Hd].
  - intros h' sc' b' i [[<- <-]|[Hne E]]%lookup_insert_Some; cbn [snd].
    + rewrite elem_of_cons, (Hc h sc b' i Es). split.
      * intros [[= -> ->]|(book' & Eb' & Hi)].
        -- exists (set_pb_sources (pb_sources book ++ [h]) book). rewrite lookup_insert_eq. split; [done|]. cbn. by rewrite list_lookup_middle.
        -- exists book'. rewrite lookup_insert_ne; [done|]. intros E1. apply Hin. eapply list_elem_of_lookup_2.
           rewrite <- E1, Eb in Eb'. injection Eb' as <-. exact Hi.
      * intros (book' & [[<- <-]|[Hne Eb']]%lookup_insert_Some & Hi); [left|right; eauto].
        cbn in Hi. apply lookup_app_Some in Hi as [Hi|[Hl Hi]]; [by apply list_elem_of_lookup_2 in Hi|].
        apply list_lookup_singleton_Some in Hi as [Hi _]. f_equal. lia.
    + rewrite (Hc h' sc' b' i E). split.
      * intros (book' & Eb' & Hi). destruct (decide (b' = b)) as [->|Hnb].
        -- exists (set_pb_sources (pb_sources book ++ [h]) book). rewrite lookup_insert_eq. split; [done|]. cbn.
           replace book with book' by congruence. by apply lookup_app_l_Some.
        -- exists book'. by rewrite lookup_insert_ne.
      * intros (book' & [[<- <-]|[Hnb Eb']]%lookup_insert_Some & Hi); [|eauto]. exists book. split; [done|].
        cbn in Hi. apply lookup_app_Some in Hi as [Hi|[_ Hi]]; [done|]. apply list_lookup_singleton_Some in Hi as [_ Hi]. congruence.
  - intros b' book' [[<- <-]|[_ E]]%lookup_insert_Some; [|by eapply Ho]. cbn. apply NoDup_app. split_and!; [by eapply Ho| |apply NoDup_singleton].
    intros h' H1 H2%list_elem_of_singleton. congruence.
  - assert (G : forall h' sc', sources !! h' = Some sc' -> exists sc'', <[h := (sc.1, (b, length (pb_sources book)) :: sc.2)]> sources !! h' = Some sc'' /\
      sc''.1 = sc'.1).
    { intros h' sc' E. destruct (decide (h' = h)) as [->|Hne]; [|exists sc'; by rewrite lookup_insert_ne].
      rewrite lookup_insert_eq. eexists. split; [done|]. cbn. congruence. }
    intros b' book' h' [[<- <-]|[_ E]]%lookup_insert_Some Hh.
    + cbn in Hh. apply elem_of_app in Hh as [Hh| ->%list_elem_of_singleton].
      * destruct (Hs b book h' Eb Hh) as (sc' & E' & Hs'). destruct (G h' sc' E') as (sc'' & E2 & E3). exists sc''. by rewrite E3.
      * destruct (G h sc Es) as (sc'' & E2 & E3). exists sc''. by rewrite E3.
    + destruct (Hs b' book' h' E Hh) as (sc' & E' & Hs'). destruct (G h' sc' E') as (sc'' & E2 & E3). exists sc''. by rewrite E3.
Qed.
End linking.

Lemma linked_idle hasher idle idle' bks x : idle ⊆ idle' -> linked_books hasher idle bks x -> linked_books hasher idle' bks x.
Proof. intros Hi [? ? ? ? Hu ?]. split; try done. intros h sc E Hh. apply (Hu h sc E). set_solver. Qed.

(** A source that has just been made is named. *)
Lemma sources_named_new symbol sources h src : sources !! h = None -> source_ok src ->
  sources_named symbol (<[h := (new_source symbol src, [])]> sources) = {[src]} ∪ sources_named symbol sources.
Proof.
  intros Hn Hsrc. apply set_eq. intros src'. rewrite elem_of_union, elem_of_singleton, !elem_of_sources_named. split.
  - intros (h' & sc & [[<- <-]|[_ E]]%lookup_insert_Some & Es & <-); [|right; eauto].
    left. change (take (DXF_RECORD_SUFFIX_SIZE - 1) src = src). by apply take_source.
  - intros [->|(h' & sc & E & Es & <-)].
    + exists h, (new_source symbol src, []). rewrite lookup_insert_eq. split_and!; [done|done|]. by apply take_source.
    + exists h', sc. rewrite lookup_insert_ne; [done|]. intros <-. congruence.
Qed.
(** Only the consumers change. *)
Lemma same_source (sources sources' : source_store) h sc : fst <$> sources' = fst <$> sources -> sources' !! h = Some sc ->
  exists sc0, sources !! h = Some sc0 /\ sc0.1 = sc.1.
Proof.
  intros H E. assert (Eh : (fst <$> sources) !! h = Some sc.1) by (by rewrite <- H, lookup_fmap, E).
  rewrite lookup_fmap in Eh. destruct (sources !! h) as [sc0|]; [|done]. exists sc0. split; [done|]. by injection Eh.
Qed.
Lemma sources_named_same symbol sources sources' :
  fst <$> sources' = fst <$> sources -> sources_named symbol sources' = sources_named symbol sources.
Proof.
  intros H. apply set_eq. intros src. rewrite !elem_of_sources_named. split; intros (h & sc & E & Es & <-).
  - destruct (same_source sources sources' h sc H E) as (sc' & E' & E3). exists h, sc'. by rewrite E3.
  - destruct (same_source sources' sources h sc (eq_sym H) E) as (sc' & E' & E3). exists h, sc'. by rewrite E3.
Qed.

Lemma tabled_same hasher table sources sources' :
  fst <$> sources' = fst <$> sources -> tabled hasher table sources -> tabled hasher table sources'.
Proof.
  intros H [Hok Hcap Hh]. split; [done|done|]. intros e. rewrite (Hh e). split; intros (sc & E & Ee).
  - destruct (same_source sources' sources (e_id e) sc (eq_sym H) E) as (sc' & E' & E1). exists sc'. by rewrite E1.
  - destruct (same_source sources sources' (e_id e) sc H E) as (sc' & E' & E1). exists sc'. by rewrite E1.
Qed.
Lemma subscribed_same sources sources' subscribed m :
  fst <$> sources' = fst <$> sources -> subscribed_sources sources subscribed m -> subscribed_sources sources' subscribed m.
Proof.
  intros H [Hd Hs]. split; [by rewrite Hd, <- (dom_fmap_L fst sources'), H, dom_fmap_L|].
  intros h sc E. destruct (same_source sources sources' h sc H E) as (sc0 & E0 & <-). by apply Hs.
Qed.

Section linked.
Context {It : Iteration} (create_ok : list Z -> bool) (create_always : forall n, create_ok n = true).
Context (calloc_ok : Z -> bool) (calloc_works : forall n, calloc_ok n = true).
Context (dx_send : list Z -> list Z -> Z + dx_error_code) (t : tables) (hasher : list Z -> Z).

(** What is asked for when a book of a symbol gets a source. *)
Definition source_asked (symbol src : list Z) (x : books) : list dx_event_subscription_task_data_t :=
  if decide (src ∈ sources_named symbol (sources_of x)) then [] else [source_request false symbol src].

(** A source of a book, found or made. *)
Record found_source (symbol src : list Z) (x : books) (h : Z) (x' : books) : Prop := {
  fs_books : books_of x' = books_of x;
  fs_source : exists sc, sources_of x' !! h = Some sc /\ ps_symbol sc.1 = symbol /\ ps_source sc.1 = src;
  fs_kept : sources_of x ⊆ sources_of x';
  fs_named : sources_named symbol (sources_of x') = {[src]} ∪ sources_named symbol (sources_of x);
  fs_asked : requested (source_asked symbol src x) (subs_at (bk_connection x')) (bk_connection x) (bk_connection x');
  fs_size : (src_size (bk_table x') <= S (src_size (bk_table x)))%nat;
}.

Lemma source_for_spec idle bks x symbol src :
  linked_books hasher idle bks x -> symbol <> [] -> src ∈ dx_all_order_sources -> (src_size (bk_table x) <= 512)%nat ->
  exists h x', source_for create_ok true calloc_ok dx_send t hasher true symbol src x = Ok h x' /\
    linked_books hasher ({[h]} ∪ idle) bks x' /\ found_source symbol src x h x'.
Proof using It create_always calloc_works.
  intros [Hus Ht Hw Hs Hu Hss] Hsym Hsrc Hsz. pose proof (known_source_ok src Hsrc) as Hok.
  destruct (find_source_spec hasher (bk_table x) symbol src (tabled_ok _ _ _ Ht)) as (found & Ef & Hf).
  unfold source_for. rewrite (bind_ok get _ _ _ _ eq_refl), Ef, (bind_ok (of_option (Some found)) _ _ _ _ eq_refl). destruct found as [e|].
  - destruct (proj1 (Hf e) eq_refl) as [He Hk]. apply (tabled_holds _ _ _ Ht) in He as (sc & Es & Ee).
    rewrite Ee in Hk. injection Hk as Hk1 Hk2. exists (e_id e), x. split; [done|]. split; [by apply (linked_idle hasher idle); [set_solver|]|].
    assert (Hin : src ∈ sources_named symbol (sources_of x)) by (apply elem_of_sources_named; eauto).
    split; [done|by exists sc|done|set_solver| |lia]. unfold source_asked. rewrite decide_True by done. by apply requested_same.
  - destruct (create_source_spec create_ok create_always calloc_ok calloc_works dx_send t x symbol src Hus Hsym Hok) as (h & s & c' & E & Hn & Hsn & Hus' & Hr).
    rewrite (bind_ok _ _ _ _ _ E). set (x1 := MakeBooks _ _ _ _) in *.
    assert (Eh : sources_of x1 !! h = Some (new_source symbol src, [])) by apply lookup_insert_eq.
    rewrite (bind_ok _ _ _ _ _ (source_at_ok x1 h _ Eh)), (bind_ok get _ _ _ _ eq_refl).
    assert (Hfresh : forall e, holds (bk_table x) e -> key_of e <> (ps_symbol (new_source symbol src), ps_source (new_source symbol src))).
    { intros e He Hk. change (ps_source (new_source symbol src)) with (take (DXF_RECORD_SUFFIX_SIZE - 1) src) in Hk. rewrite take_source in Hk by done.
      discriminate (proj2 (Hf e) (conj He Hk)). }
    destruct (tabled_add hasher (fun n => calloc_ok (Z.of_nat n)) (bk_table x) (sources_of x) h (new_source symbol src) Ht Hn Hsz Hfresh)
      as (table' & Ea & Ht' & Hsz').
    change (bk_table x1) with (bk_table x). cbn [fst]. rewrite Ea, (bind_ok (of_option (Some _)) _ _ _ _ eq_refl), (bind_ok (update _) _ _ _ _ eq_refl).
    assert (Es1 : sources_of (set_bk_table table' x1) = <[h := (new_source symbol src, [])]> (sources_of x)) by done.
    exists h, (set_bk_table table' x1). split; [done|]. pose proof (rq_subs _ _ _ _ Hr) as Hm. split.
    + split; [exact Hus'|exact Ht'|by apply wired_new| | |].
      * change (subs_at (bk_connection (set_bk_table table' x1))) with (subs_at c'). rewrite Hm. by apply subscribed_new.
      * rewrite Es1. intros h' sc [[<- <-]|[_ E']]%lookup_insert_Some Hh; [set_solver|]. apply (Hu h' sc E'). set_solver.
      * rewrite Es1. intros h' sc [[<- <-]|[_ E']]%lookup_insert_Some; [|by apply (Hss h' sc)].
        change (ps_source (new_source symbol src, []).1) with (take (DXF_RECORD_SUFFIX_SIZE - 1) src). by rewrite take_source.
    + split; [done| |by apply insert_subseteq|by apply sources_named_new| |cbn; lia].
      * exists (new_source symbol src, []). split_and!; [exact Eh|done|by apply take_source].
      * unfold source_asked. rewrite decide_False.
        -- change (subs_at (bk_connection (set_bk_table table' x1))) with (subs_at c'). by rewrite Hm.
        -- intros (h' & sc & Es & Hs1 & Hs2)%elem_of_sources_named.
           assert (He : holds (bk_table x) (entry_of hasher h' sc.1)) by (apply (tabled_holds _ _ _ Ht); by exists sc).
           assert (Hk : key_of (entry_of hasher h' sc.1) = (symbol, src)) by (unfold key_of; cbn; congruence).
           discriminate (proj2 (Hf _) (conj He Hk)).
Qed.

(** The sources stay, but for their consumers. *)
Definition kept (x x' : books) : Prop :=
  forall h sc, sources_of x !! h = Some sc -> exists sc', sources_of x' !! h = Some sc' /\ sc'.1 = sc.1.
Lemma kept_trans x x1 x2 : kept x x1 -> kept x1 x2 -> kept x x2.
Proof using Type.
  intros H1 H2 h sc E. destruct (H1 h sc E) as (sc1 & E1 & <-). destruct (H2 h sc1 E1) as (sc2 & E2 & <-). eauto.
Qed.
(** The sources of a book have these names. *)
Definition made_of (x : books) (hs : list Z) (names : list (list Z)) : Prop :=
  Forall2 (fun h src => exists sc, sources_of x !! h = Some sc /\ ps_source sc.1 = src) hs names.
Lemma made_of_kept x x' hs names : kept x x' -> made_of x hs names -> made_of x' hs names.
Proof using Type.
  intros Hk H. eapply Forall2_impl; [exact H|]. intros h src (sc & E & <-). destruct (Hk h sc E) as (sc' & E' & <-). eauto.
Qed.

(** A source that no book has yet, or others have, is added to a book. *)
Lemma add_source_to_book x b book h src srccount :
  linked_books hasher {[h]} (books_of x) x -> books_of x !! b = Some book -> h ∉ pb_sources book ->
  (exists sc, sources_of x !! h = Some sc /\ ps_symbol sc.1 = pb_symbol book /\ ps_source sc.1 = src) ->
  (length (pb_sources book) < srccount)%nat ->
  exists x', add_source calloc_ok b srccount h x = Ok tt x' /\ linked_books hasher ∅ (books_of x') x' /\
    books_of x' = <[b := set_pb_sources (pb_sources book ++ [h]) book]> (books_of x) /\ kept x x' /\
    fst <$> sources_of x' = fst <$> sources_of x /\ bk_connection x' = bk_connection x /\ bk_table x' = bk_table x.
Proof using calloc_works.
  intros [Hus Ht Hw Hs Hu Hss] Eb Hin (sc & Es & Hsym & Hsrc) Hl.
  unfold add_source. rewrite (bind_ok _ _ _ _ _ (book_at_ok x b book Eb)), (proj2 (Nat.leb_gt _ _)) by done.
  rewrite (bind_ok (update _) _ _ _ _ eq_refl), (bind_ok get _ _ _ _ eq_refl). unfold dx_plb_source_add_book at 1. rewrite calloc_works.
  set (x1 := set_bk_books _ x). change (w_sources (bk_world x1)) with (sources_of x). rewrite Es. cbn [mbind option_bind].
  rewrite (bind_ok (of_option (Some _)) _ _ _ _ eq_refl), (bind_ok (put _) _ _ _ _ eq_refl). cbn [fst snd].
  set (sources := <[h := (sc.1, (b, length (pb_sources book)) :: sc.2)]> (sources_of x)).
  eexists. split; [reflexivity|].
  assert (Hfst : fst <$> sources = fst <$> sources_of x).
  { unfold sources. rewrite fmap_insert. apply insert_id. by rewrite lookup_fmap, Es. }
  split; [|split; [done|split; [|done]]].
  - split; [exact Hus|by apply (tabled_same hasher _ (sources_of x))|by apply wired_add|by apply (subscribed_same (sources_of x))| |].
    + intros h' sc' E _. change (sources !! h' = Some sc') in E. apply lookup_insert_Some in E as [[<- <-]|[Hne E]]; [done|]. apply (Hu h' sc' E). by apply not_elem_of_singleton.
    + intros h' sc' E. destruct (same_source _ sources h' sc' Hfst E) as (sc0 & E0 & <-). by apply (Hss h' sc0).
  - intros h' sc' E. by apply (same_source sources (sources_of x) h' sc' (eq_sym Hfst)).
Qed.
End linked.
