(* ===== verification/BooksCreation.v ===== *)
(** * BooksCreation: creating a price level book

    The sources that the user names are checked and become a mask; the book gets the
    sources of the mask in the order of the library, those of other books of the symbol
    and new ones. *)

From S2P Require Import Prelude Arrays Algorithms Output Input SymbolCodec EventData DataStructures Subscription Properties TaskQueue ConfigurationDeserializer NetworkContext.
From S2P Require Import ServerData ServerProcessor ClientMessages Network PriceLevelSource SourceTable PriceLevelBook EventSubscription SubscriptionTheory SubscriptionRefinement Delivery.
From S2P Require Import Feed FeedTheory FeedRefinement Books BooksTheory.
Local Open Scope Z_scope.
Local Open Scope c_scope.

(** ** The mask *)

(** The sources whose bits are set. *)
Fixpoint chosen (srcs : list (list Z)) (i : Z) (flags : Z) : list (list Z) :=
  match srcs with
  | [] => []
  | src :: srcs' => (if Z.testbit flags i then [src] else []) ++ chosen srcs' (i + 1) flags
  end.

Lemma chosen_all srcs : forall i, 0 <= i -> i + zlen srcs <= 64 -> chosen srcs i (2 ^ 64 - 1) = srcs.
Proof.
  induction srcs as [|src srcs IH]; intros i Hi Hl; [done|]. unfold zlen in *. cbn [length] in Hl. cbn [chosen].
  replace (2 ^ 64 - 1) with (Z.ones 64) in * by reflexivity. rewrite Z.ones_spec_low by lia. cbn [app]. rewrite IH by (unfold zlen; lia). done.
Qed.

Lemma chosen_filter (srcs names : list (list Z)) flags : forall i,
  (forall k src, srcs !! k = Some src -> Z.testbit flags (i + Z.of_nat k) = bool_decide (src ∈ names)) ->
  chosen srcs i flags = filter (fun src => src ∈ names) srcs.
Proof.
  induction srcs as [|src srcs IH]; intros i H; [done|]. cbn [chosen]. rewrite filter_cons.
  pose proof (H O src eq_refl) as H0. rewrite Z.add_0_r in H0. rewrite (IH (i + 1)).
  - rewrite H0. case_bool_decide; [by rewrite decide_True|by rewrite decide_False].
  - intros k src' E. rewrite <- (H (S k) src' E). f_equal. lia.
Qed.

Lemma all_known : Forall source_ok dx_all_order_sources /\ NoDup dx_all_order_sources.
Proof. split; [apply Forall_forall, known_source_ok|apply (bool_decide_unpack _); vm_compute; exact I]. Qed.
Lemma source_plain src : source_ok src -> no_terminator src.
Proof. intros H. apply Forall_forall. intros c Hc ->. by apply (source_terminator src). Qed.

Lemma known_source_at source known : forall i k, known !! k = Some source -> NoDup known -> Forall source_ok known ->
  known_source source known i = Some (i + Z.of_nat k).
Proof.
  induction known as [|x known IH]; intros i k E Hd Hk; [done|]. apply NoDup_cons in Hd as [Hx Hd].
  assert (Hsrc : source_ok source) by (eapply Forall_lookup_1; [exact Hk|exact E]).
  apply Forall_cons in Hk as [Hxo Hk]. cbn [known_source]. destruct k as [|k].
  - injection E as ->. rewrite (proj2 (Z.eqb_eq _ _)) by apply (cmp_refl (cmp := dx_compare_strings)). f_equal. lia.
  - cbn in E. destruct (Z.eqb_spec (dx_compare_strings source x) 0) as [E0|E0].
    + apply compare_strings_eq in E0 as ->; [|by apply source_plain..]. destruct Hx. by eapply list_elem_of_lookup_2.
    + rewrite (IH (i + 1) k E Hd Hk). f_equal. lia.
Qed.

Lemma filter_seen seen a (l : list (list Z)) : NoDup l -> a ∈ l ->
  length (filter (fun x => x ∈ seen ++ [a]) l) =
    if decide (a ∈ seen) then length (filter (fun x => x ∈ seen) l) else S (length (filter (fun x => x ∈ seen) l)).
Proof.
  assert (G : forall l : list (list Z), a ∉ l -> filter (fun x => x ∈ seen ++ [a]) l = filter (fun x => x ∈ seen) l).
  { clear l. induction l as [|x l IH]; intros Ha; [done|]. apply not_elem_of_cons in Ha as [Hx Ha]. rewrite !filter_cons, IH by done.
    destruct (decide (x ∈ seen)) as [H|H]; [rewrite decide_True by (apply elem_of_app; by left); done|].
    rewrite decide_False; [done|]. rewrite elem_of_app, list_elem_of_singleton. intros [?| ->]; done. }
  induction l as [|x l IH]; [by intros _ ?%elem_of_nil|]. intros [Hx Hd]%NoDup_cons Ha. rewrite !filter_cons.
  destruct (decide (x = a)) as [->|Hne].
  - rewrite decide_True by (apply elem_of_app; right; by apply list_elem_of_singleton). rewrite G by done. by destruct (decide (a ∈ seen)).
  - apply elem_of_cons in Ha as [->|Ha]; [done|]. specialize (IH Hd Ha). destruct (decide (x ∈ seen)) as [H|H].
    + rewrite decide_True by (apply elem_of_app; by left). cbn [length]. rewrite IH. by destruct (decide (a ∈ seen)).
    + rewrite decide_False; [exact IH|]. rewrite elem_of_app, list_elem_of_singleton. intros [?| ->]; done.
Qed.

Lemma one_bit n : n <> 0 -> Z.testbit 1 n = false.
Proof. intros H. destruct (Z.ltb_spec n 0) as [Hn|Hn]; [by apply Z.testbit_neg_r|]. apply (Z.bits_above_log2 1); [done|cbn; lia]. Qed.

(** The bits of the flags are the sources. *)
Definition marks (flags : Z) (names : list (list Z)) : Prop :=
  forall k src, dx_all_order_sources !! k = Some src -> Z.testbit flags (Z.of_nat k) = bool_decide (src ∈ names).

Lemma marks_add flags names src k : marks flags names -> dx_all_order_sources !! k = Some src ->
  marks (Z.lor flags (Z.shiftl 1 (Z.of_nat k))) (names ++ [src]).
Proof.
  intros H Ek k' src' Ek'. rewrite Z.lor_spec, (H k' src' Ek'), Z.shiftl_spec by lia.
  destruct (decide (k' = k)) as [->|Hne].
  - assert (src' = src) as -> by congruence. rewrite Z.sub_diag, orb_true_r. symmetry. apply bool_decide_eq_true_2, elem_of_app.
    right. by apply list_elem_of_singleton.
  - rewrite (one_bit (Z.of_nat k' - Z.of_nat k)) by lia.
    rewrite orb_false_r. apply bool_decide_ext. rewrite elem_of_app, list_elem_of_singleton. split; [by left|].
    intros [?| ->]; [done|]. destruct Hne. eapply NoDup_lookup; [apply all_known|done|done].
Qed.

Lemma check_sources_spec calloc_ok mbsrtowcs names : forall seen flags x,
  (forall n, calloc_ok n = true) -> (forall s, is_ascii s -> mbsrtowcs s = Some s) ->
  Forall (fun src => src ∈ dx_all_order_sources) names -> marks flags seen ->
  exists flags', marks flags' (seen ++ names) /\ forall rest,
    check_sources calloc_ok mbsrtowcs (length names) ((Some <$> names) ++ rest)
      (length (filter (fun src => src ∈ seen) dx_all_order_sources)) flags x =
    Ok (length (filter (fun src => src ∈ seen ++ names) dx_all_order_sources), flags') x.
Proof.
  induction names as [|src names IH]; intros seen flags x Hc Hm Hn Hb; [by exists flags; rewrite app_nil_r|].
  apply Forall_cons in Hn as [Hsrc Hn]. pose proof (known_source_ok src Hsrc) as [Ha Hl].
  apply list_elem_of_lookup_1 in Hsrc as Hk. destruct Hk as [k Ek].
  destruct (IH (seen ++ [src]) _ x Hc Hm Hn (marks_add flags seen src k Hb Ek)) as (flags' & Hb' & E). rewrite <- app_assoc in Hb', E.
  change ([src] ++ names) with (src :: names) in Hb', E. exists flags'. split; [done|]. intros rest. cbn [fmap list_fmap app length check_sources]. unfold zlen.
  rewrite (proj2 (Z.ltb_ge _ _)), (proj2 (Z.ltb_ge _ _)) by lia. cbn [orb].
  rewrite (ansi_wide _ _ _ Hc Hm) by (done || lia). cbn [mjoin option_join]. rewrite (bind_ok (of_option (Some src)) _ _ _ _ eq_refl).
  rewrite (known_source_at src _ 0 k Ek) by apply all_known. rewrite Z.add_0_l, (Hb k src Ek). rewrite <- (E rest).
  rewrite filter_seen by (done || apply all_known). case_bool_decide; [by rewrite decide_True|by rewrite decide_False].
Qed.

(** The sources that a user asks for: all of them when there are none. *)
Definition asked_sources (sources : option (list (list Z))) : list (list Z) :=
  match sources with
  | None | Some [] => dx_all_order_sources
  | Some names => filter (fun src => src ∈ names) dx_all_order_sources
  end.
Definition source_array (sources : option (list (list Z))) : option (list (option (list Z))) :=
  (fun names => (Some <$> names) ++ [None]) <$> sources.

Lemma count_sources names : forall i, dx_get_sources_count ((Some <$> names) ++ [None]) i = Some (i + zlen names).
Proof.
  induction names as [|n names IH]; intros i; unfold zlen in *; cbn; [f_equal; lia|]. rewrite IH. f_equal. lia.
Qed.

(** ** The sources of a book *)

Lemma filter_new (names : gset (list Z)) src (l : list (list Z)) : src ∉ l ->
  filter (fun s => s ∉ {[src]} ∪ names) l = filter (fun s => s ∉ names) l.
Proof.
  induction l as [|x l IH]; intros Hn; [done|]. apply not_elem_of_cons in Hn as [Hx Hn]. rewrite !filter_cons, IH by done.
  destruct (decide (x ∉ names)) as [H|H].
  - rewrite decide_True; [done|]. rewrite elem_of_union, elem_of_singleton. intros [->|?]; done.
  - rewrite decide_False; [done|]. intros H1. apply H. intros H2. apply H1, elem_of_union. by right.
Qed.

(** A book that has no sources yet. *)
Lemma wired_book sources bks b symbol : wired sources bks -> bks !! b = None -> wired sources (<[b := new_book symbol]> bks).
Proof.
  intros [Hd Hc Ho Hs] Hn. split; [done| | |].
  - intros h sc b' i E. rewrite (Hc h sc b' i E). split.
    + intros (book & Eb & Ei). exists book. rewrite lookup_insert_ne; [done|]. intros <-. congruence.
    + intros (book & [[<- <-]|[_ Eb]]%lookup_insert_Some & Ei); [done|eauto].
  - intros b' book [[<- <-]|[_ Eb]]%lookup_insert_Some; [constructor|by eapply Ho].
  - intros b' book h [[<- <-]|[_ Eb]]%lookup_insert_Some Hin; [by apply elem_of_nil in Hin|by eapply Hs].
Qed.

Lemma asked_some n names : Forall (fun src => src ∈ dx_all_order_sources) (n :: names) ->
  asked_sources (Some (n :: names)) = filter (fun src => src ∈ n :: names) dx_all_order_sources /\ asked_sources (Some (n :: names)) <> [].
Proof.
  intros [Hn _]%Forall_cons. split; [done|]. intros E.
  assert (Hin : n ∈ asked_sources (Some (n :: names))) by (apply list_elem_of_filter; split; [by left|done]).
  rewrite E in Hin. by apply elem_of_nil in Hin.
Qed.

Section creation.
Context {It : Iteration} (create_ok : list Z -> bool) (create_always : forall n, create_ok n = true).
Context (calloc_ok : Z -> bool) (calloc_works : forall n, calloc_ok n = true).
Context (dx_send : list Z -> list Z -> Z + dx_error_code) (t : tables) (hasher : list Z -> Z).

(** What is asked for the sources that are new. *)
Definition sources_asked (symbol : list Z) (srcs : list (list Z)) (x : books) : list dx_event_subscription_task_data_t :=
  source_request false symbol <$> filter (fun src => src ∉ sources_named symbol (sources_of x)) srcs.

Lemma sources_asked_cons symbol src srcs x x' :
  src ∉ srcs -> sources_named symbol (sources_of x') = {[src]} ∪ sources_named symbol (sources_of x) ->
  sources_asked symbol (src :: srcs) x = source_asked symbol src x ++ sources_asked symbol srcs x'.
Proof using Type.
  intros Hn E. unfold sources_asked, source_asked. rewrite E, filter_new, filter_cons by done.
  destruct (decide (src ∈ sources_named symbol (sources_of x))) as [H|H]; [rewrite decide_False by (intros ?; done)|rewrite decide_True by done]; done.
Qed.

(** A book whose sources are these, and which gets more. *)
Record growing (symbol : list Z) (srcs names : list (list Z)) (srccount : nat) (b : Z) (book : dx_price_level_book_t) (x : books) : Prop := {
  gr_linked : linked_books hasher ∅ (books_of x) x;
  gr_book : books_of x !! b = Some book;
  gr_symbol : pb_symbol book = symbol /\ symbol <> [];
  gr_made : made_of x (pb_sources book) names;
  gr_distinct : NoDup (names ++ srcs);
  gr_known : Forall (fun src => src ∈ dx_all_order_sources) srcs;
  gr_count : (length names + length srcs <= srccount)%nat;
  gr_size : (src_size (bk_table x) + length srcs <= 513)%nat;
}.

Lemma next_source symbol src srcs names srccount b book x :
  growing symbol (src :: srcs) names srccount b book x ->
  exists h x', (h <-- source_for create_ok true calloc_ok dx_send t hasher true symbol src;; add_source calloc_ok b srccount h) x = Ok tt x' /\
    growing symbol srcs (names ++ [src]) srccount b (set_pb_sources (pb_sources book ++ [h]) book) x' /\
    books_of x' = <[b := set_pb_sources (pb_sources book ++ [h]) book]> (books_of x) /\ kept x x' /\
    requested (source_asked symbol src x) (subs_at (bk_connection x')) (bk_connection x) (bk_connection x') /\
    sources_named symbol (sources_of x') = {[src]} ∪ sources_named symbol (sources_of x).
Proof using It create_always calloc_works.
  intros [Hl Hb [Hsym Hne] Hm Hd Hk Hc Hsz]. apply Forall_cons in Hk as [Hsrc Hk]. cbn [length] in Hc, Hsz.
  destruct (source_for_spec create_ok create_always calloc_ok calloc_works dx_send t hasher ∅ (books_of x) x symbol src Hl Hne Hsrc ltac:(lia))
    as (h & x1 & E1 & Hl1 & [Fb Fs Fk Fn Fa Fz]).
  rewrite (right_id_L ∅ (∪)), <- Fb in Hl1. rewrite <- Fb in Hb.
  assert (Hkept : kept x x1) by (intros h' sc' E; exists sc'; split; [by eapply lookup_weaken|done]).
  pose proof (made_of_kept x x1 _ _ Hkept Hm) as Hm1.
  assert (Hin : h ∉ pb_sources book).
  { intros Hin. apply list_elem_of_lookup_1 in Hin as [i Ei]. destruct (Forall2_lookup_l _ _ _ _ _ Hm1 Ei) as (src' & Ei' & sc' & Es' & <-).
    destruct Fs as (sc & Es & _ & Hs). assert (sc' = sc) as -> by congruence.
    apply NoDup_app in Hd as (_ & Hd & _). apply (Hd (ps_source sc.1)); [by eapply list_elem_of_lookup_2|]. rewrite Hs. by left. }
  pose proof (Forall2_length _ _ _ Hm) as Hlen.
  destruct (add_source_to_book calloc_ok calloc_works hasher x1 b book h src srccount Hl1 Hb Hin) as (x2 & E2 & Hl2 & Hb2 & Hk2 & Hf2 & Hc2 & Ht2);
    [by rewrite Hsym|lia|].
  rewrite Fb in Hb2. exists h, x2. split_and!; [by rewrite (bind_ok _ _ _ _ _ E1)| |done|by eapply kept_trans|by rewrite Hc2|
    by rewrite (sources_named_same symbol _ _ Hf2)].
  assert (Hx : exists sc, sources_of x2 !! h = Some sc /\ ps_source sc.1 = src).
  { destruct Fs as (sc & Es & _ & Hs). destruct (Hk2 h sc Es) as (sc' & Es' & E3). exists sc'. by rewrite E3. }
  split; [done|by rewrite Hb2; apply lookup_insert_eq|done| |by rewrite <- app_assoc|done|rewrite length_app; cbn [length]; lia|rewrite Ht2; lia].
  apply Forall2_app; [by eapply made_of_kept|]. constructor; [exact Hx|constructor].
Qed.

Lemma sources_loop_spec symbol srcs : forall i flags names srccount b book x,
  growing symbol (chosen srcs i flags) names srccount b book x ->
  exists x' hs, sources_loop create_ok true calloc_ok dx_send t hasher true srcs i b symbol srccount flags x = Ok tt x' /\
    growing symbol [] (names ++ chosen srcs i flags) srccount b (set_pb_sources hs book) x' /\
    books_of x' = <[b := set_pb_sources hs book]> (books_of x) /\ kept x x' /\
    requested (sources_asked symbol (chosen srcs i flags) x) (subs_at (bk_connection x')) (bk_connection x) (bk_connection x').
Proof using It create_always calloc_works.
  induction srcs as [|src srcs IH]; intros i flags names srccount b book x H.
  { exists x, (pb_sources book). assert (E : set_pb_sources (pb_sources book) book = book) by (by destruct book).
    cbn [chosen] in *. rewrite app_nil_r, E. split_and!; [done|done| |by intros h sc Eh; exists sc|].
    - symmetry. apply insert_id, (gr_book _ _ _ _ _ _ _ H).
    - apply requested_same, (gr_linked _ _ _ _ _ _ _ H). }
  cbn [sources_loop chosen] in *. destruct (Z.testbit flags i) eqn:Et; cbn [app] in *.
  2: { rewrite (bind_ok (ret tt) _ _ _ _ eq_refl). by apply IH. }
  destruct (next_source symbol src _ names srccount b book x H) as (h & x1 & E1 & H1 & Hb1 & Hk1 & Ha1 & Hn1).
  rewrite (bind_ok _ _ _ _ _ (or_else_ok _ _ _ _ _ E1)).
  destruct (IH (i + 1) flags _ srccount b _ x1 H1) as (x2 & hs & E2 & H2 & Hb2 & Hk2 & Ha2).
  exists x2, hs. rewrite <- app_assoc in H2. split_and!; [exact E2|exact H2|by rewrite Hb2, Hb1, insert_insert_eq|by eapply kept_trans|].
  rewrite (sources_asked_cons symbol src (chosen srcs (i + 1) flags) x x1).
  - by eapply requested_trans.
  - pose proof (gr_distinct _ _ _ _ _ _ _ H) as Hd. apply NoDup_app in Hd as (_ & _ & Hd). by apply NoDup_cons in Hd as [Hd _].
  - done.
Qed.

Lemma create_book_spec x symbol srccount srcflags :
  linked_books hasher ∅ (books_of x) x -> symbol <> [] -> srccount = length (chosen dx_all_order_sources 0 srcflags) ->
  (src_size (bk_table x) + length (chosen dx_all_order_sources 0 srcflags) <= 513)%nat ->
  NoDup (chosen dx_all_order_sources 0 srcflags) -> Forall (fun src => src ∈ dx_all_order_sources) (chosen dx_all_order_sources 0 srcflags) ->
  exists b x' hs, dx_create_price_level_book create_ok true calloc_ok dx_send t hasher true true symbol srccount srcflags x = Ok b x' /\
    books_of x !! b = None /\ books_of x' = <[b := set_pb_sources hs (new_book symbol)]> (books_of x) /\
    growing symbol [] (chosen dx_all_order_sources 0 srcflags) srccount b (set_pb_sources hs (new_book symbol)) x' /\ kept x x' /\
    requested (sources_asked symbol (chosen dx_all_order_sources 0 srcflags) x) (subs_at (bk_connection x')) (bk_connection x) (bk_connection x').
Proof using It create_always calloc_works.
  intros [Hus Ht Hw Hs Hu Hss] Hne Hcount Hsz Hd Hk. unfold dx_create_price_level_book. cbn [negb].
  rewrite (bind_ok get _ _ _ _ eq_refl), (bind_ok (put _) _ _ _ _ eq_refl). set (b := fresh (dom (books_of x))).
  assert (Hb : books_of x !! b = None) by (apply not_elem_of_dom, is_fresh). set (x1 := set_bk_books _ x).
  destruct (sources_loop_spec symbol dx_all_order_sources 0 srcflags [] srccount b (new_book symbol) x1) as (x' & hs & E & Hg & Eb & Hk' & Hr).
  { split; [|apply lookup_insert_eq|done|constructor|done|done|rewrite Hcount; cbn [length]; lia|exact Hsz].
    split; [exact Hus|exact Ht|by apply wired_book|exact Hs|exact Hu|exact Hss]. }
  exists b, x', hs. rewrite (bind_ok _ _ _ _ _ E). split_and!; [done|done| |exact Hg|exact Hk'|exact Hr].
  rewrite Eb. change (books_of x1) with (<[b := new_book symbol]> (books_of x)). by rewrite insert_insert_eq.
Qed.

(** What is asked for, as the mask and the number that are passed on. *)
Lemma mask_spec mbsrtowcs sources x :
  (forall s, is_ascii s -> mbsrtowcs s = Some s) -> Forall (fun src => src ∈ dx_all_order_sources) (default [] sources) ->
  exists srcflags, asked_sources sources = chosen dx_all_order_sources 0 srcflags /\ asked_sources sources <> [] /\ forall symbol,
    dxf_create_price_level_book create_ok true calloc_ok mbsrtowcs dx_send t hasher true true (Some symbol) (source_array sources) true x =
    if dx_string_null_or_empty (Some symbol) then Err dx_ssec_invalid_symbol x
    else dx_create_price_level_book create_ok true calloc_ok dx_send t hasher true true symbol (length (asked_sources sources)) srcflags x.
Proof using calloc_works.
  intros Hm Hn. unfold dxf_create_price_level_book.
  assert (Hall : chosen dx_all_order_sources 0 (2 ^ 64 - 1) = dx_all_order_sources) by (apply chosen_all; [done|by vm_compute]).
  destruct sources as [[|n names]|].
  - exists (2 ^ 64 - 1). split_and!; [by rewrite Hall|done|]. intros symbol. cbn [source_array fmap option_fmap option_map list_fmap app].
    cbn [dx_get_sources_count]. rewrite (bind_ok (of_option (Some 0)) _ _ _ _ eq_refl). unfold dxf_create_price_level_book_impl. cbn [negb].
    by destruct (dx_string_null_or_empty _).
  - destruct (check_sources_spec calloc_ok mbsrtowcs (n :: names) [] 0 x calloc_works Hm Hn) as (srcflags & Hb & E).
    { intros k src _. by rewrite Z.testbit_0_l, bool_decide_eq_false_2 by apply not_elem_of_nil. }
    destruct (asked_some n names Hn) as [Ha Hne]. exists srcflags.
    assert (Ec : asked_sources (Some (n :: names)) = chosen dx_all_order_sources 0 srcflags).
    { rewrite Ha. symmetry. apply chosen_filter. intros k src Ek. rewrite Z.add_0_l. by apply Hb. }
    split_and!; [done|done|]. intros symbol. change (source_array (Some (n :: names))) with (Some ((Some <$> n :: names) ++ [None])).
    cbv iota. rewrite count_sources, (bind_ok (of_option (Some _)) _ _ _ _ eq_refl), Z.add_0_l. unfold dxf_create_price_level_book_impl. cbn [negb].
    destruct (dx_string_null_or_empty _); [done|]. unfold zlen. rewrite (proj2 (Z.eqb_neq _ 0)) by (cbn [length]; lia). rewrite Nat2Z.id.
    assert (E0 : length (filter (fun src => src ∈ []) dx_all_order_sources) = O) by by vm_compute.
    specialize (E [None]). rewrite E0 in E. rewrite (bind_ok _ _ _ _ _ E). cbn [fst snd app]. rewrite <- Ha.
    rewrite (proj2 (Nat.eqb_neq _ _)); [done|]. by intros ?%nil_length_inv.
  - exists (2 ^ 64 - 1). split_and!; [by rewrite Hall|done|]. intros symbol. cbn [source_array fmap option_fmap option_map].
    rewrite (bind_ok (of_option (Some 0)) _ _ _ _ eq_refl). unfold dxf_create_price_level_book_impl. cbn [negb].
    by destruct (dx_string_null_or_empty _).
Qed.
End creation.
