(* ===== verification/BooksClosing.v ===== *)
(** * BooksClosing: closing a price level book

    The book is removed from its sources, and the sources that no other book has are
    removed from the table, their subscriptions closed. *)

From S2P Require Import Prelude Arrays Algorithms Output Input SymbolCodec EventData DataStructures Subscription Properties TaskQueue ConfigurationDeserializer NetworkContext.
From S2P Require Import ServerData ServerProcessor ClientMessages Network PriceLevelSource SourceTable PriceLevelBook EventSubscription SubscriptionTheory SubscriptionRefinement Delivery.
From S2P Require Import Feed FeedTheory FeedRefinement Books BooksTheory.
Local Open Scope Z_scope.
Local Open Scope c_scope.

(** ** Consumers *)

Lemma remove_consumer_other b cs : b ∉ cs.*1 -> remove_consumer b cs = cs.
Proof.
  induction cs as [|[b' i] cs IH]; intros H; [done|]. apply not_elem_of_cons in H as [Hb H]. cbn in Hb. cbn [remove_consumer].
  rewrite (proj2 (Z.eqb_neq _ _)) by congruence. by rewrite IH.
Qed.
Lemma elem_of_remove_consumer b cs x : NoDup cs.*1 -> x ∈ remove_consumer b cs <-> x.1 <> b /\ x ∈ cs.
Proof.
  induction cs as [|[b' i] cs IH]; cbn [remove_consumer]; intros Hd; [rewrite elem_of_nil; tauto|].
  apply NoDup_cons in Hd as [Hb Hd]. cbn in Hb. destruct (Z.eqb_spec b' b) as [->|Hne].
  - rewrite elem_of_cons. split.
    + intros Hin. split; [|by right]. intros <-. apply Hb. apply list_elem_of_fmap. by exists x.
    + intros [Hx [->|Hin]]; [done|done].
  - rewrite !elem_of_cons, IH by done. split; [intros [->|[? ?]]; auto|tauto].
Qed.
Lemma remove_consumer_nodup b cs : NoDup cs.*1 -> NoDup (remove_consumer b cs).*1.
Proof.
  induction cs as [|[b' i] cs IH]; cbn [remove_consumer]; intros Hd; [done|].
  apply NoDup_cons in Hd as [Hb Hd]. destruct (Z.eqb_spec b' b) as [->|Hne]; [done|]. cbn. apply NoDup_cons. split; [|by apply IH].
  intros (x & E & Hin)%list_elem_of_fmap. cbn in Hb, E. subst b'. apply Hb. apply elem_of_remove_consumer in Hin as [_ Hin]; [|done].
  apply list_elem_of_fmap. by exists x.
Qed.

(** A source without the book. *)
Definition drop_book (b : Z) (sc : dx_plb_source_t * list (Z * nat)) : dx_plb_source_t * list (Z * nat) :=
  (sc.1, remove_consumer b sc.2).
Lemma drop_book_fst b (sources : source_store) : fst <$> (drop_book b <$> sources) = fst <$> sources.
Proof. rewrite <- map_fmap_compose. by apply map_fmap_ext. Qed.

Lemma wired_not_consumer sources bks h sc b book :
  wired sources bks -> sources !! h = Some sc -> bks !! b = Some book -> h ∉ pb_sources book -> b ∉ sc.2.*1.
Proof.
  intros H Es Eb Hh ([b' i] & -> & Hin)%list_elem_of_fmap. cbn in *. apply (wired_consumer _ _ H h sc b' i Es) in Hin as (book' & Eb' & Ei).
  assert (book' = book) as -> by congruence. by apply list_elem_of_lookup_2 in Ei.
Qed.

Lemma wired_drop sources bks b : wired sources bks -> wired (drop_book b <$> sources) (delete b bks).
Proof.
  intros [Hd Hc Ho Hs]. split.
  - intros h sc E. apply lookup_fmap_Some in E as (sc0 & <- & E). apply remove_consumer_nodup. by eapply Hd.
  - intros h sc b' i E. apply lookup_fmap_Some in E as (sc0 & <- & E). cbn [drop_book snd].
    rewrite elem_of_remove_consumer by (by eapply Hd). rewrite (Hc h sc0 b' i E). cbn [fst]. split.
    + intros [Hne (book & Eb & Ei)]. exists book. by rewrite lookup_delete_ne.
    + intros (book & [Hne Eb]%lookup_delete_Some & Ei). split; [done|eauto].
  - intros b' book [_ Eb]%lookup_delete_Some. by eapply Ho.
  - intros b' book h [_ Eb]%lookup_delete_Some Hin. destruct (Hs b' book h Eb Hin) as (sc & E & Hsym).
    exists (drop_book b sc). by rewrite lookup_fmap, E.
Qed.

(** The sources of the book lose it. *)
Lemma remove_books_spec b l : forall x, NoDup l -> Forall (fun h => is_Some (sources_of x !! h)) l ->
  exists sources, each (remove_book b) l x = Ok None (set_bk_sources sources x) /\
    forall h, sources !! h = if decide (h ∈ l) then drop_book b <$> sources_of x !! h else sources_of x !! h.
Proof.
  induction l as [|h l IH]; intros x Hd Hl.
  { exists (sources_of x). split; [by destruct x as [? ? [] ?]|done]. }
  apply NoDup_cons in Hd as [Hh Hd]. apply Forall_cons in Hl as [[sc Es] Hl]. cbn [each].
  set (x1 := set_bk_sources (<[h := drop_book b sc]> (sources_of x)) x).
  assert (E1 : remove_book b h x = Ok None x1).
  { unfold remove_book. rewrite (bind_ok get _ _ _ _ eq_refl). unfold dx_plb_source_remove_book.
    change (w_sources (bk_world x)) with (sources_of x). rewrite Es. reflexivity. }
  rewrite (bind_ok _ _ _ _ _ E1). destruct (IH x1 Hd) as (sources & E & Hs).
  { eapply Forall_impl; [exact Hl|]. intros h' [sc' E']. change (sources_of x1) with (<[h := drop_book b sc]> (sources_of x)).
    destruct (decide (h' = h)) as [->|Hne]; [rewrite lookup_insert_eq|rewrite lookup_insert_ne by done]; eauto. }
  exists sources. split; [by rewrite (bind_ok _ _ _ _ _ E)|]. intros h'. rewrite Hs.
  change (sources_of x1) with (<[h := drop_book b sc]> (sources_of x)). destruct (decide (h' = h)) as [->|Hne].
  - rewrite lookup_insert_eq, decide_False, decide_True by (done || by left). by rewrite Es.
  - rewrite lookup_insert_ne by done. destruct (decide (h' ∈ l)) as [Hin|Hin]; [by rewrite decide_True by by right|].
    rewrite decide_False; [done|]. by intros [?|?]%elem_of_cons.
Qed.

Lemma remove_all_spec hasher x b book :
  linked_books hasher ∅ (books_of x) x -> books_of x !! b = Some book ->
  exists x', each (remove_book b) (pb_sources book) x = Ok None x' /\ sources_of x' = drop_book b <$> sources_of x /\
    books_of x' = books_of x /\ bk_connection x' = bk_connection x /\ bk_subscriptions x' = bk_subscriptions x /\
    linked_books hasher (list_to_set (pb_sources book)) (delete b (books_of x)) x'.
Proof.
  intros [Hus Ht Hw Hs Hu Hss] Eb.
  destruct (remove_books_spec b (pb_sources book) x (wired_once _ _ Hw b book Eb)) as (sources & E & Hl).
  { apply Forall_forall. intros h Hh. destruct (wired_sources _ _ Hw b book h Eb Hh) as (sc & Es & _). eauto. }
  assert (Esources : sources = drop_book b <$> sources_of x).
  { apply map_eq. intros h. rewrite Hl, lookup_fmap. destruct (decide (h ∈ pb_sources book)) as [Hh|Hh]; [done|].
    destruct (sources_of x !! h) as [sc|] eqn:Es; [|done]. cbn. f_equal. unfold drop_book. rewrite remove_consumer_other; [by destruct sc|].
    by apply (wired_not_consumer _ _ h sc b book Hw). }
  subst sources. pose proof (drop_book_fst b (sources_of x)) as Hfst. exists (set_bk_sources (drop_book b <$> sources_of x) x). split_and!; try done.
  split; [exact Hus|by apply (tabled_same hasher _ (sources_of x))|by apply wired_drop|by apply (subscribed_same (sources_of x))| |].
  - intros h sc E1 Hh. apply lookup_fmap_Some in E1 as (sc0 & <- & E1). cbn [drop_book snd]. rewrite elem_of_list_to_set in Hh.
    rewrite remove_consumer_other; [by apply (Hu h sc0 E1), not_elem_of_empty|]. by apply (wired_not_consumer _ _ h sc0 b book Hw).
  - intros h sc E1. apply lookup_fmap_Some in E1 as (sc0 & <- & E1). by apply (Hss h sc0).
Qed.

(** ** Cleaning up *)

Lemma wired_delete sources bks h sc : wired sources bks -> sources !! h = Some sc -> sc.2 = [] -> wired (delete h sources) bks.
Proof.
  intros [Hd Hc Ho Hs] Es En. split; [| |done|].
  - intros h' sc' [_ E]%lookup_delete_Some. by eapply Hd.
  - intros h' sc' b i [_ E]%lookup_delete_Some. by apply Hc.
  - intros b book h' Eb Hin. destruct (Hs b book h' Eb Hin) as (sc' & E & Hsym). exists sc'. rewrite lookup_delete_ne; [done|]. intros <-.
    apply list_elem_of_lookup_1 in Hin as [i Ei]. assert (H : (b, i) ∈ sc.2) by (apply (Hc h sc b i Es); eauto).
    rewrite En in H. by apply elem_of_nil in H.
Qed.

Lemma subscribed_delete sources subscribed m h s :
  subscribed_sources sources subscribed m -> is_Some (sources !! h) -> subscribed !! h = Some s ->
  subscribed_sources (delete h sources) (delete h subscribed) (delete s m).
Proof.
  intros [Hd Hs] [sc0 E0] Ess. split; [by rewrite !dom_delete_L, Hd|]. intros h' sc [Hne E]%lookup_delete_Some.
  destruct (Hs h' sc E) as (s' & E1 & E2). exists s'. rewrite lookup_delete_ne by done. split; [done|].
  rewrite lookup_delete_ne; [done|]. intros <-. destruct (Hs h sc0 E0) as (s0 & E3 & E4). assert (s0 = s) as -> by congruence.
  assert (El : source_view h (ps_symbol sc0.1) (ps_source sc0.1) = source_view h' (ps_symbol sc.1) (ps_source sc.1)) by congruence.
  apply (f_equal (fun v => userData <$> v_listeners v !! plb_event_listener_ptr)) in El. by injection El.
Qed.

(** What is asked when a source may not be needed any more. *)
Definition source_dropped (sc : dx_plb_source_t * list (Z * nat)) : list dx_event_subscription_task_data_t :=
  match sc.2 with [] => [source_request true (ps_symbol sc.1) (ps_source sc.1)] | _ => [] end.
Definition without_unused (h : Z) (sc : dx_plb_source_t * list (Z * nat)) (sources : source_store) : source_store :=
  match sc.2 with [] => delete h sources | _ => sources end.

(** The requests for the sources of a list, in order. *)
Definition all_dropped (l : list Z) (sources : source_store) : list dx_event_subscription_task_data_t :=
  concat ((fun h => match sources !! h with Some sc => source_dropped sc | None => [] end) <$> l).
Definition still_used (l : list Z) (sources : source_store) : source_store :=
  filter (fun hsc => hsc.1 ∉ l \/ hsc.2.2 <> []) sources.

Lemma without_unused_other h h' sc sources : h' <> h -> without_unused h sc sources !! h' = sources !! h'.
Proof. intros Hne. unfold without_unused. destruct sc.2; [by rewrite lookup_delete_ne|done]. Qed.
Lemma still_used_cons h l sc sources : sources !! h = Some sc -> h ∉ l ->
  still_used l (without_unused h sc sources) = still_used (h :: l) sources.
Proof.
  intros Es Hh. apply map_eq. intros k. apply option_eq. intros x. unfold still_used.
  rewrite !map_lookup_filter_Some. cbn [fst snd]. destruct (decide (k = h)) as [->|Hne].
  - unfold without_unused. split.
    + intros [E H]. destruct sc.2 as [|c cs] eqn:Ec; [by rewrite lookup_delete_eq in E|]. split; [done|]. right.
      replace x with sc by congruence. by rewrite Ec.
    + intros [E [H|H]]; [destruct H; by left|]. assert (x = sc) as -> by congruence.
      destruct sc.2 as [|c cs] eqn:Ec; [done|]. split; [done|by left].
  - rewrite without_unused_other by done. rewrite not_elem_of_cons. split; intros [E [H|H]]; (split; [done|]); tauto.
Qed.

Section closing.
Context {It : Iteration} (calloc_ok : Z -> bool) (calloc_works : forall n, calloc_ok n = true).
Context (dx_send : list Z -> list Z -> Z + dx_error_code) (t : tables) (hasher : list Z -> Z).

Lemma closing_spec x s h symbol source :
  usable (bk_connection x) -> subs_at (bk_connection x) !! s = Some (source_view h symbol source) -> symbol <> [] ->
  exists c', closing calloc_ok dx_send t (Some s) x = Ok (true, dx_ec_success) (set_bk_connection c' x) /\ usable c' /\
    requested [source_request true symbol source] (delete s (subs_at (bk_connection x))) (bk_connection x) c'.
Proof using It calloc_works.
  intros Hus Es Hn. destruct (close_subscription_spec calloc_ok calloc_works dx_send t _ s _ Hus Es) as (names & c' & Hp & E & H).
  exists c'. cbn [v_names source_view] in Hp. rewrite elements_singleton in Hp. apply Permutation_singleton_r in Hp as ->. split_and!.
  - unfold closing, catch. unfold checked_call at 1. by rewrite (on_connection_at _ _ _ _ E).
  - apply (usable_after _ _ _ _ Hus H). apply map_Forall_delete, us_fits, Hus.
  - replace (source_request true symbol source) with
      (request true (Some <$> [symbol]) (v_flags (source_view h symbol source)) (source_view h symbol source)) by (by destruct symbol). done.
Qed.

Lemma source_cleanup_spec idle bks x h sc :
  linked_books hasher idle bks x -> sources_of x !! h = Some sc ->
  exists r x', dx_plb_source_cleanup calloc_ok dx_send t hasher h x = Ok r x' /\ linked_books hasher (idle ∖ {[h]}) bks x' /\
    books_of x' = books_of x /\ sources_of x' = without_unused h sc (sources_of x) /\
    requested (source_dropped sc) (subs_at (bk_connection x')) (bk_connection x) (bk_connection x').
Proof using It calloc_works.
  intros [Hus Ht Hw Hs Hu Hss] Es. unfold dx_plb_source_cleanup, source_dropped, without_unused.
  rewrite (bind_ok _ _ _ _ _ (source_at_ok x h sc Es)). destruct (sc.2) as [|c cs] eqn:Ec.
  2: { exists None, x. split_and!; [done| |done|done|by apply requested_same]. split; try done. intros h' sc' E Hh.
       destruct (decide (h' = h)) as [->|Hne]; [by replace sc' with sc by congruence; rewrite Ec|].
       apply (Hu h' sc' E). intros Hin. apply Hh, elem_of_difference. split; [done|]. by apply not_elem_of_singleton. }
  destruct (tabled_remove hasher (bk_table x) (sources_of x) h sc Ht Es) as (table' & Er & Ht' & _).
  rewrite (bind_ok get _ _ _ _ eq_refl), Er, (bind_ok (of_option (Some _)) _ _ _ _ eq_refl), (bind_ok (update _) _ _ _ _ eq_refl).
  cbn [fst]. set (x1 := set_bk_table table' x). destruct (proj2 Hs h sc Es) as (s & Ess & Ev). destruct (Hss h sc Es) as [_ Hsym].
  destruct (closing_spec x1 s h (ps_symbol sc.1) (ps_source sc.1) Hus Ev Hsym) as (c' & E & Hus' & Hr).
  set (x2 := set_bk_subscriptions (delete h (bk_subscriptions x)) (set_bk_connection c' x1)).
  set (x3 := set_bk_subscriptions (delete h (bk_subscriptions x)) (set_bk_sources (delete h (sources_of x)) x2)).
  exists (Some dx_ec_success), x3. pose proof (rq_subs _ _ _ _ Hr) as Hm.
  assert (Ef : dx_plb_source_free calloc_ok dx_send t h x2 = Ok None x3).
  { unfold dx_plb_source_free. rewrite (bind_ok _ _ _ _ _ (source_at_ok x2 h sc Es)), (bind_ok get _ _ _ _ eq_refl).
    change (bk_subscriptions x2) with (delete h (bk_subscriptions x)). rewrite lookup_delete_eq, (bind_ok (ret None) _ _ _ _ eq_refl).
    rewrite (bind_ok (update _) _ _ _ _ eq_refl). change (bk_subscriptions x2) with (delete h (bk_subscriptions x)). by rewrite delete_delete_eq. }
  split_and!; [| |done|done|].
  - unfold dx_plb_source_clear. rewrite (bind_ok _ _ x1 (true, Some dx_ec_success) x3); [done|].
    rewrite (bind_ok _ _ _ _ _ (source_at_ok x1 h sc Es)), bool_decide_eq_true_2 by done. cbn [negb andb].
    rewrite (bind_ok get _ _ _ _ eq_refl). change (bk_subscriptions x1) with (bk_subscriptions x). rewrite Ess.
    rewrite (bind_ok _ _ _ _ _ E), (bind_ok (update _) _ _ _ _ eq_refl), Ec, (bind_ok (free_consumers []) _ _ _ _ eq_refl).
    by rewrite (bind_ok _ _ _ _ _ Ef).
  - split; [exact Hus'|exact Ht'|by apply (wired_delete _ _ h sc)| | |].
    + change (subs_at (bk_connection x3)) with (subs_at c'). rewrite Hm. apply subscribed_delete; [exact Hs|by eexists|exact Ess].
    + intros h' sc' E' Hh. change (delete h (sources_of x) !! h' = Some sc') in E'. apply lookup_delete_Some in E' as [Hne E']. apply (Hu h' sc' E'). intros Hin. apply Hh, elem_of_difference.
      split; [done|]. by apply not_elem_of_singleton.
    + intros h' sc' E'. change (delete h (sources_of x) !! h' = Some sc') in E'. apply lookup_delete_Some in E' as [Hne E']. by apply (Hss h' sc').
  - change (subs_at (bk_connection x3)) with (subs_at c'). by rewrite Hm.
Qed.

Lemma cleanup_all_spec bks l : forall idle x, linked_books hasher idle bks x -> NoDup l -> Forall (fun h => is_Some (sources_of x !! h)) l ->
  exists r x', each (dx_plb_source_cleanup calloc_ok dx_send t hasher) l x = Ok r x' /\
    linked_books hasher (idle ∖ list_to_set l) bks x' /\ books_of x' = books_of x /\ sources_of x' = still_used l (sources_of x) /\
    requested (all_dropped l (sources_of x)) (subs_at (bk_connection x')) (bk_connection x) (bk_connection x').
Proof using It calloc_works.
  induction l as [|h l IH]; intros idle x H Hd Hl.
  { exists None, x. cbn [each list_to_set]. rewrite difference_empty_L. split_and!; [done|done|done| |by apply requested_same, H].
    symmetry. apply map_filter_id. intros ? ? _. left. apply not_elem_of_nil. }
  apply NoDup_cons in Hd as [Hh Hd]. apply Forall_cons in Hl as [[sc Es] Hl].
  destruct (source_cleanup_spec idle bks x h sc H Es) as (r & x1 & E & H1 & Hb1 & Hs1 & Hr1).
  assert (Hsame : forall h', h' ∈ l -> sources_of x1 !! h' = sources_of x !! h').
  { intros h' Hin. rewrite Hs1. apply without_unused_other. by intros ->. }
  destruct (IH _ x1 H1 Hd) as (r' & x2 & E2 & H2 & Hb2 & Hs2 & Hr2).
  { rewrite Forall_forall in Hl |- *. intros h' Hin. rewrite Hsame by done. by apply Hl. }
  exists (later r r'), x2. cbn [each]. rewrite (bind_ok _ _ _ _ _ E), (bind_ok _ _ _ _ _ E2). split_and!; [done| |congruence| |].
  - cbn [list_to_set]. replace (idle ∖ ({[h]} ∪ list_to_set l)) with (idle ∖ {[h]} ∖ list_to_set l) by (by rewrite difference_difference_l_L). done.
  - rewrite Hs2, Hs1. by apply still_used_cons.
  - assert (Ed : all_dropped (h :: l) (sources_of x) = source_dropped sc ++ all_dropped l (sources_of x1)).
    { unfold all_dropped. cbn [fmap list_fmap concat]. rewrite Es. do 2 f_equal. apply list_fmap_ext. intros i h' E'.
      by rewrite Hsame by by eapply list_elem_of_lookup_2. }
    rewrite Ed. by eapply requested_trans.
Qed.

(** The book is closed. *)
Lemma close_book_spec x b book :
  linked_books hasher ∅ (books_of x) x -> books_of x !! b = Some book ->
  exists x', dxf_close_price_level_book calloc_ok dx_send t hasher (Some b) x = Ok tt x' /\
    linked_books hasher ∅ (books_of x') x' /\ books_of x' = delete b (books_of x) /\
    sources_of x' = still_used (pb_sources book) (drop_book b <$> sources_of x) /\
    requested (all_dropped (pb_sources book) (drop_book b <$> sources_of x)) (subs_at (bk_connection x')) (bk_connection x) (bk_connection x').
Proof using It calloc_works.
  intros H Eb. destruct (remove_all_spec hasher x b book H Eb) as (x1 & E1 & Hs1 & Hb1 & Hc1 & Hsub1 & H1).
  destruct (cleanup_all_spec (delete b (books_of x)) (pb_sources book) _ x1 H1 (wired_once _ _ (lb_wired _ _ _ _ H) b book Eb))
    as (r & x2 & E2 & H2 & Hb2 & Hs2 & Hr2).
  { apply Forall_forall. intros h Hh. destruct (wired_sources _ _ (lb_wired _ _ _ _ H) b book h Eb Hh) as (sc & Es & _).
    rewrite Hs1, lookup_fmap, Es. by eexists. }
  rewrite difference_diag_L in H2. rewrite Hs1, Hc1 in *. set (x3 := set_bk_books (delete b (books_of x2)) x2). exists x3.
  assert (Eb3 : books_of x3 = delete b (books_of x)) by (change (delete b (books_of x2) = delete b (books_of x)); congruence).
  split_and!; [|rewrite Eb3; by destruct H2|done|exact Hs2|exact Hr2].
  unfold dxf_close_price_level_book, valid_book, dx_close_price_level_book. rewrite (bind_ok _ _ x r x3); [done|].
  unfold dx_plb_book_clear. rewrite (bind_ok _ _ _ _ _ (book_at_ok x b book Eb)), (bind_ok _ _ _ _ _ E1), (bind_ok _ _ _ _ _ E2).
  unfold dx_plb_book_free. rewrite (bind_ok _ _ x2 tt x3); [done|].
  assert (Eb2 : books_of x2 !! b = Some book) by congruence. by rewrite (bind_ok _ _ _ _ _ (book_at_ok x2 b book Eb2)).
Qed.
End closing.

(** ** The sources that only the book has *)

Definition orphans (b : Z) (sources : source_store) (l : list Z) : list Z :=
  filter (fun h => (snd ∘ drop_book b <$> sources !! h) = Some []) l.

Lemma orphans_dropped x b symbol l :
  Forall (fun h => exists sc, sources_of x !! h = Some sc /\ ps_symbol sc.1 = symbol) l ->
  exists names, made_of x (orphans b (sources_of x) l) names /\
    all_dropped l (drop_book b <$> sources_of x) = source_request true symbol <$> names.
Proof.
  induction l as [|h l IH]; intros Hl; [exists []; split; [constructor|done]|].
  apply Forall_cons in Hl as [(sc & Es & Hsym) Hl]. destruct (IH Hl) as (names & Hn & E). unfold orphans, all_dropped in *.
  cbn [fmap list_fmap concat]. rewrite E, filter_cons, lookup_fmap, Es. unfold source_dropped. cbn.
  destruct (remove_consumer b sc.2) as [|c cs] eqn:Ec; cbn.
  - exists (ps_source sc.1 :: names). rewrite Hsym. split; [|done]. constructor; [by exists sc|exact Hn].
  - exists names. by split.
Qed.

Lemma wired_sole sources bks b book h : wired sources bks -> bks !! b = Some book -> h ∈ pb_sources book ->
  (snd ∘ drop_book b <$> sources !! h) = Some [] <-> forall b' book', bks !! b' = Some book' -> h ∈ pb_sources book' -> b' = b.
Proof.
  intros Hw Eb Hh. destruct (wired_sources _ _ Hw b book h Eb Hh) as (sc & Es & _). rewrite Es. cbn. split.
  - intros [= E] b' book' Eb' Hh'. apply list_elem_of_lookup_1 in Hh' as [i Ei].
    assert (Hin : (b', i) ∈ sc.2) by (apply (wired_consumer _ _ Hw h sc b' i Es); eauto).
    destruct (decide (b' = b)) as [|Hne]; [done|].
    assert (H : (b', i) ∈ remove_consumer b sc.2) by (apply elem_of_remove_consumer; [by eapply wired_nodup|done]).
    rewrite E in H. by apply elem_of_nil in H.
  - intros H. f_equal. apply elem_of_nil_inv. intros [b' i] [Hne Hin]%elem_of_remove_consumer; [|by eapply wired_nodup].
    apply Hne. cbn. apply (wired_consumer _ _ Hw h sc b' i Es) in Hin as (book' & Eb' & Ei). eapply H; [done|by eapply list_elem_of_lookup_2].
Qed.

(** What is left. *)
Lemma left_kept x b l h sc : still_used l (drop_book b <$> sources_of x) !! h = Some sc ->
  exists sc0, sources_of x !! h = Some sc0 /\ sc0.1 = sc.1.
Proof.
  unfold still_used. intros [(sc0 & <- & E)%lookup_fmap_Some _]%map_lookup_filter_Some. by exists sc0.
Qed.
Lemma left_sources x b book h hasher :
  linked_books hasher ∅ (books_of x) x -> books_of x !! b = Some book ->
  is_Some (still_used (pb_sources book) (drop_book b <$> sources_of x) !! h) <->
  exists b' book', delete b (books_of x) !! b' = Some book' /\ h ∈ pb_sources book'.
Proof.
  intros H Eb. pose proof (lb_wired _ _ _ _ H) as Hw. pose proof (wired_drop _ _ b Hw) as Hd. split.
  - intros [sc Es]. unfold still_used in Es. apply map_lookup_filter_Some in Es as [Es Hor]. cbn in Hor.
    assert (Hne : sc.2 <> []).
    { destruct Hor as [Hh|]; [|done]. apply lookup_fmap_Some in Es as (sc0 & <- & Es). cbn.
      rewrite remove_consumer_other by (by apply (wired_not_consumer _ _ h sc0 b book Hw)).
      by apply (lb_used _ _ _ _ H h sc0 Es), not_elem_of_empty. }
    destruct sc.2 as [|[b' i] cs] eqn:Ec; [done|].
    destruct (proj1 (wired_consumer _ _ Hd h sc b' i Es)) as (book' & Eb' & Ei); [rewrite Ec; by left|].
    exists b', book'. split; [done|]. by eapply list_elem_of_lookup_2.
  - intros (b' & book' & Eb' & Hh). destruct (wired_sources _ _ Hd b' book' h Eb' Hh) as (sc & Es & _).
    exists sc. apply map_lookup_filter_Some. split; [done|]. right. cbn. intros En.
    apply list_elem_of_lookup_1 in Hh as [i Ei]. assert (Hin : (b', i) ∈ sc.2) by (apply (wired_consumer _ _ Hd h sc b' i Es); eauto).
    rewrite En in Hin. by apply elem_of_nil in Hin.
Qed.
