(* ===== verification/BooksEvents.v ===== *)
(** * BooksEvents: the price level books while events arrive

    An event changes the orders of its source and the levels of the books of that
    source, not how they are linked. *)

From S2P Require Import Prelude Arrays Algorithms Output Input SymbolCodec EventData DataStructures Subscription Properties TaskQueue ConfigurationDeserializer NetworkContext.
From S2P Require Import ServerData ServerProcessor ClientMessages Network PriceLevelSource SourceTable PriceLevelBook EventSubscription SubscriptionTheory SubscriptionRefinement Delivery.
From S2P Require Import Feed FeedTheory FeedRefinement Books BooksTheory BooksCreation BooksClosing.
Local Open Scope Z_scope.
Local Open Scope c_scope.

(** ** What an event leaves alone *)

Definition source_key (s : dx_plb_source_t) : list Z * list Z := (ps_symbol s, ps_source s).

Lemma on_side_key side f s s' : on_side side f s = Some s' -> source_key s' = source_key s.
Proof. unfold on_side. destruct (bool_decide _); destruct (f _); cbn; by intros [= <-]. Qed.
Lemma set_order_key i o s s' : set_order i o s = Some s' -> source_key s' = source_key s.
Proof. unfold set_order. destruct (write_at _ _ _); cbn; by intros [= <-]. Qed.
Lemma process_order_key alloc s o rm s' : dx_plb_source_process_order alloc s o rm = Some s' -> source_key s' = source_key s.
Proof.
  unfold dx_plb_source_process_order. destruct (find_order _ _) as [[found i]|]; [|done]. cbn [mbind option_bind]. destruct found.
  - destruct (arr_elements _ !! i) as [oo|]; [|done]. cbn [mbind option_bind]. destruct (rm || _).
    + destruct (remove_from_side oo s) as [s1|] eqn:E1; [|done]. apply on_side_key in E1 as <-. cbn [mbind option_bind]. destruct rm.
      * destruct (DX_ARRAY_DELETE _ _ _ _) as [[a e]|]; [|done]. cbn [mbind option_bind]. by destruct e; intros [= <-].
      * apply set_order_key.
    + destruct (add_to_side o s) as [s1|] eqn:E1; [|done]. apply on_side_key in E1 as <-. cbn [mbind option_bind].
      destruct (remove_from_side oo s1) as [s2|] eqn:E2; [|done]. apply on_side_key in E2 as <-. apply set_order_key.
  - destruct (negb rm && _); [|by intros [= <-]]. destruct (alloc 1%nat); [|by intros [= <-]].
    destruct (DX_ARRAY_INSERT _ _ _ _ _) as [[a e]|]; [|done]. cbn [mbind option_bind]. by intros ->%on_side_key.
Qed.
Lemma publish_key s s' : publish_sides s = Some s' -> source_key s' = source_key s.
Proof.
  unfold publish_sides. destruct (if side_rebuild (ps_bids s) then _ else _) as [bids|]; [|done]. cbn [mbind option_bind].
  destruct (if side_rebuild (ps_asks s) then _ else _) as [asks|]; [|done]. cbn. by intros [= <-].
Qed.
Lemma event_key alloc event_type symbol_name data p s r : plb_event_listener alloc event_type symbol_name data p s = Some r -> source_key r.1 = source_key s.
Proof.
  unfold plb_event_listener. destruct (negb (event_type =? _)); [by intros [= <-]|]. destruct (negb (bool_decide (ps_symbol s = _))); [by intros [= <-]|].
  destruct (match data with ev_order o => Some o | _ => None end) as [o|]; [|done]. cbn [mbind option_bind].
  destruct (negb (bool_decide (ps_source s = _))); [by intros [= <-]|].
  set (s1 := if IS_FLAG_SET _ _ then _ else s). assert (H1 : source_key s1 = source_key s) by (unfold s1; by destruct (IS_FLAG_SET _ _)).
  rewrite <- H1. clearbody s1. destruct (bool_decide _); [by intros [= <-]|].
  destruct (dx_plb_source_process_order _ _ _ _) as [s2|] eqn:E2; [|done]. apply process_order_key in E2 as <-. cbn [mbind option_bind].
  set (s3 := set_ps_status _ s2). change (source_key s2) with (source_key s3). clearbody s3.
  destruct (_ && _); [|by intros [= <-]]. destruct (publish_sides s3) as [s4|] eqn:E4; [|done]. apply publish_key in E4 as <-. by intros [= <-].
Qed.

(** What a book is made of. *)
Definition book_key (b : dx_price_level_book_t) : list Z * list Z := (pb_symbol b, pb_sources b).
Lemma update_key alloc sources b src r : dx_plb_book_update alloc sources b src = Some r -> book_key r.1 = book_key b.
Proof.
  unfold dx_plb_book_update. destruct (mapM _ _) as [srcs|]; [|done]. cbn [mbind option_bind].
  destruct (if side_updated (ps_bids src) then _ else _) as [bids|]; [|done]. cbn [mbind option_bind].
  destruct (if side_updated (ps_asks src) then _ else _) as [asks|]; [|done]. cbn [mbind option_bind].
  destruct (_ || _); by intros [= <-].
Qed.
Lemma consumers_key alloc consumers src : forall w calls r, consumers_loop alloc consumers src w calls = Some r ->
  w_sources r.1 = w_sources w /\ book_key <$> w_books r.1 = book_key <$> w_books w.
Proof.
  induction consumers as [|[h i] consumers IH]; intros w calls r; cbn [consumers_loop]; [by intros [= <-]|].
  destruct (w_books w !! h) as [book|] eqn:Eb; [|done]. cbn [mbind option_bind].
  destruct (dx_plb_book_update _ _ _ _) as [r1|] eqn:E1; [|done]. cbn [mbind option_bind]. intros E%IH. destruct E as [-> ->]. split; [done|].
  cbn. rewrite fmap_insert, (update_key _ _ _ _ _ E1). apply insert_id. by rewrite lookup_fmap, Eb.
Qed.

Lemma wired_keys sources sources' bks bks' :
  prod_map source_key id <$> sources' = prod_map source_key id <$> sources -> book_key <$> bks' = book_key <$> bks ->
  wired sources bks -> wired sources' bks'.
Proof.
  intros Hs Hb [Hd Hc Ho Hws].
  assert (Gs : forall h sc, sources' !! h = Some sc -> exists sc0, sources !! h = Some sc0 /\ source_key sc0.1 = source_key sc.1 /\ sc0.2 = sc.2).
  { intros h [s cs] E. assert (Eh : (prod_map source_key id <$> sources) !! h = Some (source_key s, cs)) by (by rewrite <- Hs, lookup_fmap, E).
    apply lookup_fmap_Some in Eh as (sc0 & E1 & Eh). exists sc0. split_and!; [done|exact (f_equal fst E1)|exact (f_equal snd E1)]. }
  assert (Gs' : forall h sc, sources !! h = Some sc -> exists sc0, sources' !! h = Some sc0 /\ source_key sc0.1 = source_key sc.1).
  { intros h [s cs] E. assert (Eh : (prod_map source_key id <$> sources') !! h = Some (source_key s, cs)) by (by rewrite Hs, lookup_fmap, E).
    apply lookup_fmap_Some in Eh as (sc0 & E1 & Eh). exists sc0. split; [done|exact (f_equal fst E1)]. }
  assert (Gb : forall m m' : gmap Z dx_price_level_book_t, book_key <$> m' = book_key <$> m -> forall b book, m' !! b = Some book ->
    exists book0, m !! b = Some book0 /\ book_key book0 = book_key book).
  { intros m m' E b book Eb. assert (Eh : (book_key <$> m) !! b = Some (book_key book)) by (by rewrite <- E, lookup_fmap, Eb).
    apply lookup_fmap_Some in Eh as (book0 & E1 & Eh). by exists book0. }
  split.
  - intros h sc E. destruct (Gs h sc E) as (sc0 & E0 & _ & <-). by eapply Hd.
  - intros h sc b i E. destruct (Gs h sc E) as (sc0 & E0 & _ & <-). rewrite (Hc h sc0 b i E0). split.
    + intros (book & Eb & Ei). destruct (Gb bks' bks (eq_sym Hb) b book Eb) as (book0 & Eb0 & Ek). exists book0. by rewrite (f_equal snd Ek : pb_sources book0 = pb_sources book).
    + intros (book & Eb & Ei). destruct (Gb bks bks' Hb b book Eb) as (book0 & Eb0 & Ek). exists book0. by rewrite (f_equal snd Ek : pb_sources book0 = pb_sources book).
  - intros b book Eb. destruct (Gb bks bks' Hb b book Eb) as (book0 & Eb0 & Ek). rewrite <- (f_equal snd Ek : pb_sources book0 = pb_sources book). by eapply Ho.
  - intros b book h Eb Hh. destruct (Gb bks bks' Hb b book Eb) as (book0 & Eb0 & Ek). rewrite <- (f_equal snd Ek : pb_sources book0 = pb_sources book) in Hh.
    destruct (Hws b book0 h Eb0 Hh) as (sc & E & Hsym). destruct (Gs' h sc E) as (sc' & E' & Ek'). exists sc'. split; [done|].
    rewrite (f_equal fst Ek' : ps_symbol sc'.1 = ps_symbol sc.1), Hsym. exact (f_equal fst Ek).
Qed.

(** ** An event for a source *)

Definition source_event (alloc : nat -> bool) (h event_type : Z) (symbol_name : list Z) (data : dxf_event_data_t) (p : dxf_event_params_t)
  : M books (list plb_callback) :=
  x <-- get;;
  r <-- of_option (plb_source_event alloc h event_type symbol_name data p (bk_world x));;
  put (set_bk_world r.1 x);;;
  ret r.2.

Lemma source_event_keys alloc h event_type symbol_name data p w r :
  plb_source_event alloc h event_type symbol_name data p w = Some r ->
  prod_map source_key id <$> w_sources r.1 = prod_map source_key id <$> w_sources w /\ book_key <$> w_books r.1 = book_key <$> w_books w.
Proof.
  unfold plb_source_event. destruct (w_sources w !! h) as [sc|] eqn:Es; [|done]. cbn [mbind option_bind].
  destruct (plb_event_listener _ _ _ _ _ _) as [[s' notify]|] eqn:Ee; [|done]. apply event_key in Ee. cbn [mbind option_bind fst snd] in *.
  assert (Hk : prod_map source_key id <$> <[h := (s', sc.2)]> (w_sources w) = prod_map source_key id <$> w_sources w).
  { rewrite fmap_insert. apply insert_id. rewrite lookup_fmap, Es. cbn. unfold prod_map. by rewrite <- Ee. }
  destruct notify; [|by intros [= <-]]. intros E. destruct (consumers_key _ _ _ _ _ _ E) as [-> ->]. by split.
Qed.

Lemma linked_keys hasher idle bks bks' x x' :
  bk_connection x' = bk_connection x -> bk_table x' = bk_table x -> bk_subscriptions x' = bk_subscriptions x ->
  prod_map source_key id <$> sources_of x' = prod_map source_key id <$> sources_of x -> book_key <$> bks' = book_key <$> bks ->
  linked_books hasher idle bks x -> linked_books hasher idle bks' x'.
Proof.
  intros Ec Et Eb Hs Hb [Hus Ht Hw [Hd Hsub] Hu Hss].
  assert (G : forall (s s' : source_store), prod_map source_key id <$> s' = prod_map source_key id <$> s ->
    forall h sc, s' !! h = Some sc -> exists sc0, s !! h = Some sc0 /\ source_key sc0.1 = source_key sc.1 /\ sc0.2 = sc.2).
  { intros s s' E h sc El. assert (Eh : (prod_map source_key id <$> s) !! h = Some (source_key sc.1, sc.2)) by (by rewrite <- E, lookup_fmap, El).
    apply lookup_fmap_Some in Eh as (sc0 & E1 & Eh). exists sc0. split_and!; [done|exact (f_equal fst E1)|exact (f_equal snd E1)]. }
  assert (Gk : forall h sc sc0, source_key sc0.1 = source_key sc.1 -> entry_of hasher h sc.1 = entry_of hasher h sc0.1 /\
    ps_symbol sc0.1 = ps_symbol (sc : dx_plb_source_t * list (Z * nat)).1 /\ ps_source (sc0 : dx_plb_source_t * list (Z * nat)).1 = ps_source sc.1).
  { intros h sc sc0 [= E1 E2]. unfold entry_of. by rewrite E1, E2. }
  split; rewrite ?Ec, ?Et, ?Eb.
  - exact Hus.
  - destruct Ht as [Hok Hcap Hh]. split; [done|done|]. intros e. rewrite (Hh e). split; intros (sc & E & Ee).
    + destruct (G _ _ (eq_sym Hs) _ sc E) as (sc' & E' & Ek & _). exists sc'. split; [done|]. by rewrite <- (proj1 (Gk (e_id e) _ _ Ek)).
    + destruct (G _ _ Hs _ sc E) as (sc' & E' & Ek & _). exists sc'. split; [done|]. by rewrite <- (proj1 (Gk (e_id e) _ _ Ek)).
  - by apply (wired_keys (sources_of x) (sources_of x') bks bks').
  - split; [by rewrite Hd, <- (dom_fmap_L (prod_map source_key id) (sources_of x')), Hs, dom_fmap_L|]. intros h sc E.
    destruct (G _ _ Hs h sc E) as (sc0 & E0 & Ek & _). destruct (Gk h _ _ Ek) as (_ & <- & <-). by apply Hsub.
  - intros h sc E Hh. destruct (G _ _ Hs h sc E) as (sc0 & E0 & _ & <-). by apply (Hu h sc0).
  - intros h sc E. destruct (G _ _ Hs h sc E) as (sc0 & E0 & Ek & _). destruct (Gk h _ _ Ek) as (_ & <- & <-). by apply (Hss h sc0).
Qed.

(** Whatever event a source is given, everything stays linked. *)
Lemma event_stays_linked hasher alloc h event_type symbol_name data p x x' calls :
  linked_books hasher ∅ (books_of x) x -> source_event alloc h event_type symbol_name data p x = Ok calls x' ->
  linked_books hasher ∅ (books_of x') x'.
Proof.
  intros H. unfold source_event. rewrite (bind_ok get _ _ _ _ eq_refl).
  destruct (plb_source_event _ _ _ _ _ _ _) as [r|] eqn:E; [|done]. apply source_event_keys in E as [Es Eb].
  rewrite (bind_ok (of_option (Some r)) _ _ _ _ eq_refl), (bind_ok (put _) _ _ _ _ eq_refl). intros [= _ <-].
  by apply (linked_keys hasher ∅ (books_of x) _ x).
Qed.
