(* ===== verification/BooksClaims.v ===== *)
(** * BooksClaims: what holds of the price level books of a connection

    Creating a book gives it the sources that are asked for, shared with the other
    books of the symbol, and closing it leaves exactly the sources that other books
    have; every source has its subscription. *)

From Stdlib Require Import Ascii String.
From S2P Require Import Prelude Arrays Algorithms Output Input SymbolCodec EventData DataStructures Subscription Properties TaskQueue ConfigurationDeserializer NetworkContext.
From S2P Require Import ServerData ServerProcessor ClientMessages ClientTheory ClientTasks QueueThread Network PriceLevelSource SourceTable PriceLevelBook EventSubscription SubscriptionTheory SubscriptionRefinement Delivery.
From S2P Require Import SubscriptionClaims Feed FeedTheory FeedRefinement FeedClaims Books BooksTheory BooksCreation BooksClosing.
Local Open Scope Z_scope.
Local Open Scope c_scope.

(** ** A connection without books *)

Lemma new_table_ok hasher : table_ok hasher new_plb_context.
Proof.
  assert (Hn : forall k s, ctx_sources new_plb_context !! k = Some s -> s = None) by (intros k s E; by apply lookup_replicate in E as [-> _]).
  assert (Hh : forall e, ~ holds new_plb_context e) by (intros e [k E]; discriminate (Hn k _ E)).
  split.
  - apply length_replicate.
  - vm_compute. reflexivity.
  - cbn. lia.
  - intros e He. by destruct (Hh e).
  - intros j e k E. discriminate (Hn j _ E).
  - intros j1 j2 e1 e2 _ _ E. discriminate (Hn j1 _ E).
Qed.

Definition new_books (c : connection) : books := MakeBooks c new_plb_context (PlbWorld ∅ ∅) ∅.
Lemma new_books_linked hasher c : usable c -> linked_books hasher ∅ (books_of (new_books c)) (new_books c).
Proof.
  intros Hus. change (books_of (new_books c)) with (∅ : gmap Z dx_price_level_book_t).
  split; change (sources_of (new_books c)) with (∅ : source_store).
  - exact Hus.
  - split; [apply new_table_ok|done|]. intros e. split; [|by intros (sc & E%lookup_empty_Some & _)].
    intros [k E]. by apply lookup_replicate in E as [E _].
  - split; by intros ? ? ?.
  - split; [done|]. by intros h sc E%lookup_empty_Some.
  - by intros h sc E%lookup_empty_Some.
  - by intros h sc E%lookup_empty_Some.
Qed.

(** ** Creating and closing *)

Lemma asked_known sources : Forall (fun src => src ∈ dx_all_order_sources) (asked_sources sources) /\ NoDup (asked_sources sources).
Proof.
  assert (Hall : Forall (fun src => src ∈ dx_all_order_sources) dx_all_order_sources) by (by apply Forall_forall).
  destruct sources as [[|n names]|]; cbn [asked_sources]; [split; [done|apply all_known]| |split; [done|apply all_known]].
  split; [apply Forall_forall; by intros src [_ H]%list_elem_of_filter|apply NoDup_filter, all_known].
Qed.

(** C8: Creating a price level book of a symbol, with sources of orders that the
    library knows or with all of them, succeeds while the table of the sources is at
    most half full.  The book has exactly the sources that are asked for, in the order
    of the library; a source that the symbol has already is shared, and for each new
    one its orders are asked for on a subscription of its own, after the records.  The
    other books and the orders of the sources stay, and sources, books, table and
    subscriptions stay linked. *)
Theorem book_created {It : Iteration} create_ok calloc_ok mbsrtowcs dx_send t hasher x symbol sources :
  (forall n, create_ok n = true) -> (forall n, calloc_ok n = true) -> (forall s, is_ascii s -> mbsrtowcs s = Some s) ->
  linked_books hasher ∅ (books_of x) x -> symbol <> [] -> Forall (fun src => src ∈ dx_all_order_sources) (default [] sources) ->
  (src_size (bk_table x) + length (asked_sources sources) <= 513)%nat ->
  exists b x' hs,
    dxf_create_price_level_book create_ok true calloc_ok mbsrtowcs dx_send t hasher true true (Some symbol) (source_array sources) true x = Ok b x' /\
    books_of x !! b = None /\ books_of x' = <[b := set_pb_sources hs (new_book symbol)]> (books_of x) /\
    made_of x' hs (asked_sources sources) /\ kept x x' /\ linked_books hasher ∅ (books_of x') x' /\
    requested (source_request false symbol <$> filter (fun src => src ∉ sources_named symbol (sources_of x)) (asked_sources sources))
      (subs_at (bk_connection x')) (bk_connection x) (bk_connection x').
Proof.
  intros Hcr Hc Hm Hl Hne Hs Hsz. destruct (asked_known sources) as [Hk Hd].
  destruct (mask_spec create_ok calloc_ok Hc dx_send t hasher mbsrtowcs sources x Hm Hs) as (srcflags & Ea & _ & E). rewrite Ea in *.
  destruct (create_book_spec create_ok Hcr calloc_ok Hc dx_send t hasher x symbol _ srcflags Hl Hne eq_refl Hsz Hd Hk)
    as (b & x' & hs & E' & Hb & Eb & [Hl' _ _ Hmade _ _ _ _] & Hkept & Hr).
  exists b, x', hs. split_and!; [rewrite E; by destruct symbol|done|done|exact Hmade|exact Hkept|exact Hl'|exact Hr].
Qed.

(** C9: Closing a price level book removes it from its sources.  A source that no other
    book has is removed from the table and its subscription is closed and unsubscribed
    from on the server; a source stays exactly when some other book has it, with its
    orders.  The other books stay, and sources, books, table and subscriptions stay
    linked. *)
Theorem book_closed {It : Iteration} calloc_ok dx_send t hasher x b book :
  (forall n, calloc_ok n = true) -> linked_books hasher ∅ (books_of x) x -> books_of x !! b = Some book ->
  exists x' hs names,
    dxf_close_price_level_book calloc_ok dx_send t hasher (Some b) x = Ok tt x' /\
    books_of x' = delete b (books_of x) /\ linked_books hasher ∅ (books_of x') x' /\ kept x' x /\
    (forall h, is_Some (sources_of x' !! h) <-> exists b' book', books_of x' !! b' = Some book' /\ h ∈ pb_sources book') /\
    (forall h, h ∈ hs <-> h ∈ pb_sources book /\ forall b' book', books_of x !! b' = Some book' -> h ∈ pb_sources book' -> b' = b) /\
    made_of x hs names /\
    requested (source_request true (pb_symbol book) <$> names) (subs_at (bk_connection x')) (bk_connection x) (bk_connection x').
Proof.
  intros Hc Hl Eb. destruct (close_book_spec calloc_ok Hc dx_send t hasher x b book Hl Eb) as (x' & E & Hl' & Ebooks & Es & Hr).
  pose proof (lb_wired _ _ _ _ Hl) as Hw.
  destruct (orphans_dropped x b (pb_symbol book) (pb_sources book)) as (names & Hn & Ed).
  { apply Forall_forall. intros h Hh. by apply (wired_sources _ _ Hw b). }
  exists x', (orphans b (sources_of x) (pb_sources book)), names. rewrite <- Ed. split_and!; [exact E|exact Ebooks|exact Hl'| | | |exact Hn|exact Hr].
  - intros h sc Eh. rewrite Es in Eh. by eapply left_kept.
  - intros h. rewrite Es, Ebooks. by eapply left_sources.
  - intros h. unfold orphans. rewrite list_elem_of_filter. split.
    + intros [H Hh]. split; [done|]. by apply (wired_sole _ _ b book h Hw Eb Hh).
    + intros [Hh H]. split; [|done]. by apply (wired_sole _ _ b book h Hw Eb Hh).
Qed.

(** ** Examples *)

Definition example_books : books := new_books example_connection.
Definition no_hash (s : list Z) : Z := 0.
Definition ntv : list Z := chars_of "NTV".
Definition dex : list Z := chars_of "DEX".

(** Two sources, which are new, in the order of the library. *)
Lemma book_created_witness :
  exists b x' hs,
    dxf_create_price_level_book (fun _ => true) true (fun _ => true) Some slow_socket codec_tables no_hash true true (Some ibm)
      (Some [Some dex; Some ntv; None]) true example_books = Ok b x' /\
    books_of x' = {[b := set_pb_sources hs (new_book ibm)]} /\ made_of x' hs [ntv; dex] /\
    cl_heap (world_at (bk_connection x')) = [Some (source_request false ibm ntv); Some (source_request false ibm dex)].
Proof.
  destruct (book_created (fun _ => true) (fun _ => true) Some slow_socket codec_tables no_hash example_books ibm (Some [dex; ntv]))
    as (b & x' & hs & E & _ & Eb & Hm & _ & _ & Hr).
  - done.
  - done.
  - done.
  - apply new_books_linked, example_usable.
  - discriminate.
  - apply (bool_decide_unpack _). vm_compute. exact I.
  - apply Nat.leb_le. vm_compute. reflexivity.
  - exists b, x', hs. pose proof (f_equal cl_heap (rq_world _ _ _ _ Hr)) as Hh. exact (conj E (conj Eb (conj Hm Hh))).
Defined.

(** The only book is closed: nothing is left. *)
Lemma book_closed_witness :
  exists b x1 x2, dx_create_price_level_book (fun _ => true) true (fun _ => true) slow_socket codec_tables no_hash true true ibm 1 1 example_books = Ok b x1 /\
    dxf_close_price_level_book (fun _ => true) slow_socket codec_tables no_hash (Some b) x1 = Ok tt x2 /\ books_of x2 = ∅.
Proof.
  destruct (create_book_spec (fun _ => true) (fun _ => eq_refl) (fun _ => true) (fun _ => eq_refl) slow_socket codec_tables no_hash example_books ibm 1 1)
    as (b & x1 & hs & E & _ & Eb & [Hl Eb1 _ _ _ _ _ _] & _).
  - apply new_books_linked, example_usable.
  - discriminate.
  - reflexivity.
  - apply Nat.leb_le. vm_compute. reflexivity.
  - apply (bool_decide_unpack _). vm_compute. exact I.
  - apply (bool_decide_unpack _). vm_compute. exact I.
  - destruct (book_closed (fun _ => true) slow_socket codec_tables no_hash x1 b _ (fun _ => eq_refl) Hl Eb1) as (x2 & _ & _ & E2 & Eb2 & _).
    exists b, x1, x2. split_and!; [exact E|exact E2|]. rewrite Eb2, Eb. apply (delete_insert_id ∅), lookup_empty.
Defined.

(** A source that the library does not know is refused. *)
Lemma unknown_source_refused :
  dxf_create_price_level_book (fun _ => true) true (fun _ => true) Some slow_socket codec_tables no_hash true true (Some ibm)
    (Some [Some dex; Some aapl; None]) true example_books = Err dx_ec_invalid_func_param example_books.
Proof. vm_compute. reflexivity. Qed.

(** ** What goes wrong *)

(** When a source cannot be subscribed to it is freed, but its subscription, which
    cannot be unsubscribed either, stays with a listener whose data is the source. *)
Lemma failed_source_still_listens :
  match dxf_create_price_level_book (fun _ => true) true (fun _ => true) Some slow_socket codec_tables no_hash true true (Some ibm)
      (Some [Some ntv; None]) true (new_books unknowing_connection) with
  | Err _ x =>
      existsb (fun sv => match v_listeners sv.2 !! plb_event_listener_ptr with
                         | Some lc => bool_decide (sources_of x !! userData lc = None)
                         | None => false
                         end) (map_to_list (subs_at (bk_connection x))) = true
  | _ => False
  end.
Proof. vm_compute. reflexivity. Qed.

(** When the connection is closed the subscriptions are deleted before the price level
    books ([g_deinitializer_queue]), whose sources then close subscriptions that do not
    exist. *)
Lemma closing_with_book_undefined :
  match dxf_create_price_level_book (fun _ => true) true (fun _ => true) Some slow_socket codec_tables no_hash true true (Some ibm)
      (Some [Some ntv; None]) true example_books with
  | Ok _ x => (on_connection (on_context destroy_context);;; dx_plb_clear_books (fun _ => true) slow_socket codec_tables) x = UB
  | _ => False
  end.
Proof. vm_compute. reflexivity. Qed.
