(* ===== verification/Errors.v ===== *)
(** * Errors: the last error of a thread ([src/DXErrorHandling.c])

    The thread that uses the library first is the master, whose error is a global
    variable; every other thread has a block under a key of the thread-specific
    storage, which is made when it first asks for it.  An abstract map from threads to
    codes is what the functions implement. *)

From S2P Require Import Prelude.
Local Open Scope Z_scope.
Local Open Scope c_scope.

(** ** The state *)

(** What a thread has stored under the key: the address of the error of the master, or
    a block of its own with a code. *)
Inductive error_data : Set :=
  | of_master
  | own_block (code : Z).

(** The key exists once it has been made; [thread_data] has the threads with a value. *)
Record errors : Type := MakeErrors {
  g_initialization_attempted : bool;
  g_last_error_data_key : bool;
  g_master_thread_id : Z;
  g_master_thread_last_error_code : Z;
  thread_data : gmap Z error_data;
}.
Definition initial_errors : errors := MakeErrors false false 0 0 ∅.
Definition set_attempted (x : bool) (s : errors) : errors :=
  MakeErrors x (g_last_error_data_key s) (g_master_thread_id s) (g_master_thread_last_error_code s) (thread_data s).
Definition set_key (x : bool) (s : errors) : errors :=
  MakeErrors (g_initialization_attempted s) x (g_master_thread_id s) (g_master_thread_last_error_code s) (thread_data s).
Definition set_master (x : Z) (s : errors) : errors :=
  MakeErrors (g_initialization_attempted s) (g_last_error_data_key s) x (g_master_thread_last_error_code s) (thread_data s).
Definition set_master_code (x : Z) (s : errors) : errors :=
  MakeErrors (g_initialization_attempted s) (g_last_error_data_key s) (g_master_thread_id s) x (thread_data s).
Definition set_thread_data (x : gmap Z error_data) (s : errors) : errors :=
  MakeErrors (g_initialization_attempted s) (g_last_error_data_key s) (g_master_thread_id s) (g_master_thread_last_error_code s) x.

Inductive dx_error_function_result_t : Set :=
  | dx_efr_success
  | dx_efr_invalid_error_code
  | dx_efr_error_subsys_init_failure.
#[export] Instance error_function_result_eq_dec : EqDecision dx_error_function_result_t.
Proof. solve_decision. Defined.

(** The codes of [DXErrorCodes.h], as numbers. *)
Definition code_success : Z := 0.
Definition code_internal_assert_violation : Z := 4.
Definition dx_ec_count : Z := 105.

Definition dx_check_error_code (error_code : Z) : dx_error_function_result_t :=
  if (error_code <? 0) || (dx_ec_count <=? error_code) then dx_efr_invalid_error_code else dx_efr_success.

(** The thread that calls, and what the system grants it: a key, room for the value of
    a key, a block. *)
Section thread.
Context (self : Z) (key_ok data_ok calloc_ok : bool).

Definition dx_mark_thread_master : M errors unit := update (set_master self).
Definition dx_is_thread_master : M errors bool := s <-- get;; ret (self =? g_master_thread_id s).

(** A key that was never made is undefined. *)
Definition with_key {A} (m : M errors A) : M errors A :=
  s <-- get;; if g_last_error_data_key s then m else undefined.
Definition dx_thread_data_key_create : M errors bool :=
  if key_ok then update (set_key true);;; ret true else ret false.
Definition dx_set_thread_data (data : error_data) : M errors bool :=
  with_key (if data_ok then update (fun s => set_thread_data (<[self := data]> (thread_data s)) s);;; ret true else ret false).
Definition dx_get_thread_data : M errors (option error_data) :=
  with_key (s <-- get;; ret (thread_data s !! self)).

Definition dx_init_error_subsystem : M errors bool :=
  s <-- get;;
  if negb (g_initialization_attempted s) then
    update (set_attempted true);;;
    dx_mark_thread_master;;;
    created <-- dx_thread_data_key_create;;
    if negb created then ret false else dx_set_thread_data of_master
  else
    master <-- dx_is_thread_master;;
    if (master : bool) then ret true
    else
      data <-- dx_get_thread_data;;
      match data with
      | Some _ => ret true
      | None => if negb calloc_ok then ret false else dx_set_thread_data (own_block code_success)
      end.

(** The variable of the thread. *)
Definition read_data (d : error_data) : M errors Z :=
  match d with of_master => s <-- get;; ret (g_master_thread_last_error_code s) | own_block code => ret code end.
Definition write_data (d : error_data) (code : Z) : M errors unit :=
  match d with
  | of_master => update (set_master_code code)
  | own_block _ => update (fun s => set_thread_data (<[self := own_block code]> (thread_data s)) s)
  end.
Definition error_variable : M errors (option error_data) :=
  master <-- dx_is_thread_master;;
  if (master : bool) then ret (Some of_master) else dx_get_thread_data.

Definition dx_set_last_error_impl (error_code : Z) : M errors dx_error_function_result_t :=
  let res := if error_code =? code_success then dx_efr_success else dx_check_error_code error_code in
  if negb (bool_decide (res = dx_efr_success)) then ret res
  else
    initialized <-- dx_init_error_subsystem;;
    if negb initialized then ret dx_efr_error_subsys_init_failure
    else
      data <-- error_variable;;
      match data with
      | None => ret dx_efr_error_subsys_init_failure
      | Some d => write_data d error_code;;; ret dx_efr_success
      end.
Definition dx_set_last_error : Z -> M errors dx_error_function_result_t := dx_set_last_error_impl.

(** The code is [None] where it is not written. *)
Definition dx_get_last_error (out : bool) : M errors (dx_error_function_result_t * option Z) :=
  if negb out then ret (dx_efr_invalid_error_code, None)
  else
    initialized <-- dx_init_error_subsystem;;
    if negb initialized then ret (dx_efr_error_subsys_init_failure, None)
    else
      data <-- error_variable;;
      match data with
      | None => ret (dx_efr_error_subsys_init_failure, None)
      | Some d => code <-- read_data d;; ret (dx_efr_success, Some code)
      end.

Definition dx_pop_last_error : M errors bool :=
  res <-- dx_set_last_error code_success;; ret (bool_decide (res = dx_efr_success)).
Definition dx_get_error_code : M errors Z :=
  r <-- dx_get_last_error true;;
  match r with
  | (dx_efr_error_subsys_init_failure, _) => ret code_internal_assert_violation
  | (_, Some code) => ret code
  | (_, None) => undefined
  end.
(** [dx_set_error_code]: always false. *)
Definition set_error_code (code : Z) : M errors bool := dx_set_last_error_impl code;;; ret false.

(** The destructor of the key when the thread ends: its own block is freed. *)
Definition dx_key_data_destructor : M errors unit :=
  s <-- get;;
  match thread_data s !! self with
  | Some (own_block _) => put (set_thread_data (delete self (thread_data s)) s)
  | _ => ret tt
  end.
Definition dx_key_remover : M errors unit :=
  s <-- get;;
  if g_initialization_attempted s then
    update (set_key false);;; update (set_thread_data ∅);;; update (set_attempted false)
  else ret tt.
End thread.

(** ** Calls of threads, and what they mean *)

Inductive error_call : Set :=
  | call_set (code : Z)
  | call_pop
  | call_get
  | call_end.
(** A call with its result as a number: a code, or whether it succeeded. *)
Definition run_call (self : Z) (calloc_ok : bool) (c : error_call) : M errors Z :=
  match c with
  | call_set code => r <-- dx_set_last_error self true true calloc_ok code;; ret (if bool_decide (r = dx_efr_success) then 1 else 0)
  | call_pop => r <-- dx_pop_last_error self true true calloc_ok;; ret (if (r : bool) then 1 else 0)
  | call_get => dx_get_error_code self true true calloc_ok
  | call_end => dx_key_data_destructor self;;; ret 0
  end.
Fixpoint run_calls (cs : list (Z * bool * error_call)) : M errors (list Z) :=
  match cs with
  | [] => ret []
  | (self, calloc_ok, c) :: cs' => r <-- run_call self calloc_ok c;; rs <-- run_calls cs';; ret (r :: rs)
  end.

(** The master and the codes of the threads that have an error variable. *)
Record error_view : Type := ErrorView {
  ev_master : option Z;
  ev_codes : gmap Z Z;
}.
Definition can_store (self : Z) (calloc_ok : bool) (v : error_view) : bool :=
  bool_decide (ev_master v = None) || bool_decide (is_Some (ev_codes v !! self)) || calloc_ok.
Definition store (self code : Z) (v : error_view) : error_view :=
  ErrorView (Some (default self (ev_master v))) (<[self := code]> (ev_codes v)).
Definition spec_call (self : Z) (calloc_ok : bool) (c : error_call) (v : error_view) : Z * error_view :=
  match c with
  | call_set code =>
      if (0 <=? code) && (code <? dx_ec_count) && can_store self calloc_ok v then (1, store self code v) else (0, v)
  | call_pop => if can_store self calloc_ok v then (1, store self code_success v) else (0, v)
  | call_get =>
      if can_store self calloc_ok v then
        let code := default code_success (ev_codes v !! self) in (code, store self code v)
      else (code_internal_assert_violation, v)
  | call_end => (0, if bool_decide (ev_master v = Some self) then v else ErrorView (ev_master v) (delete self (ev_codes v)))
  end.
Fixpoint spec_calls (cs : list (Z * bool * error_call)) (v : error_view) : list Z * error_view :=
  match cs with
  | [] => ([], v)
  | (self, calloc_ok, c) :: cs' =>
      let r := spec_call self calloc_ok c v in let rs := spec_calls cs' r.2 in (r.1 :: rs.1, rs.2)
  end.

Definition data_code (s : errors) (d : error_data) : Z :=
  match d with of_master => g_master_thread_last_error_code s | own_block code => code end.
Definition view_errors (s : errors) : error_view :=
  ErrorView (if g_initialization_attempted s then Some (g_master_thread_id s) else None) (data_code s <$> thread_data s).

(** Once a thread has asked for its error there is a key, and a master, which alone has
    the global variable. *)
Record errors_ok (s : errors) : Prop := {
  ok_none : g_initialization_attempted s = false -> thread_data s = ∅ /\ g_master_thread_last_error_code s = code_success;
  ok_key : g_initialization_attempted s = true -> g_last_error_data_key s = true;
  ok_master : forall tid, g_initialization_attempted s = true ->
    thread_data s !! tid = Some of_master <-> tid = g_master_thread_id s;
}.

Lemma initial_errors_ok : errors_ok initial_errors.
Proof. by split. Qed.

(** What it means that a thread has its variable. *)
Record granted (self : Z) (calloc_ok : bool) (s s' : errors) (d : error_data) : Prop := {
  gr_init : dx_init_error_subsystem self true true calloc_ok s = Ok true s';
  gr_ok : errors_ok s';
  gr_variable : error_variable self s' = Ok (Some d) s';
  gr_data : thread_data s' !! self = Some d;
  gr_code : data_code s' d = default code_success (ev_codes (view_errors s) !! self);
  gr_view : view_errors s' = store self (default code_success (ev_codes (view_errors s) !! self)) (view_errors s);
}.

Ltac run_errors := unfold dx_init_error_subsystem, error_variable, dx_is_thread_master, dx_thread_data_key_create, dx_get_thread_data,
  dx_set_thread_data, with_key, dx_mark_thread_master; unfold_m; cbn.

Lemma store_same self v tid code : ev_master v = Some tid -> ev_codes v !! self = Some code -> store self code v = v.
Proof. destruct v as [m l]. cbn. intros -> E. unfold store. cbn. by rewrite insert_id. Qed.

(** A thread that has a variable already. *)
Lemma granted_known self calloc_ok s d : errors_ok s -> thread_data s !! self = Some d -> granted self calloc_ok s s d.
Proof.
  intros Hs E. pose proof Hs as [Hn Hk Hm]. destruct s as [att key master mcode data]. cbn in *. destruct att.
  2: { destruct (Hn eq_refl) as [-> _]. by apply lookup_empty_Some in E. }
  rewrite (Hk eq_refl) in *. specialize (Hm self eq_refl). split; cbn.
  - run_errors. destruct (self =? master); cbn; [done|]. by rewrite E.
  - done.
  - run_errors. destruct (Z.eqb_spec self master) as [->|Hne]; cbn; [|by rewrite E]. pose proof (proj2 Hm eq_refl). congruence.
  - done.
  - by rewrite lookup_fmap, E.
  - rewrite lookup_fmap, E. cbn. symmetry. apply (store_same _ _ master); [done|]. cbn. by rewrite lookup_fmap, E.
Qed.

(** The first thread becomes the master. *)
Lemma granted_first self calloc_ok s : errors_ok s -> g_initialization_attempted s = false ->
  exists s', granted self calloc_ok s s' of_master.
Proof.
  intros [Hn _ _] Ha. destruct s as [att key master mcode data]. cbn in *. subst att. destruct (Hn eq_refl) as [-> ->].
  eexists. split; [by run_errors|..]; cbn.
  - split; cbn; [done|done|]. intros tid _. rewrite lookup_insert. case_decide; [by subst|]. split; [done|congruence].
  - run_errors. by rewrite Z.eqb_refl.
  - by rewrite lookup_insert, decide_True.
  - done.
  - unfold view_errors, store. cbn. f_equal. by rewrite fmap_insert, !fmap_empty.
Qed.

(** Another thread that has none yet. *)
Lemma granted_new self s : errors_ok s -> g_initialization_attempted s = true -> thread_data s !! self = None ->
  exists s', granted self true s s' (own_block code_success).
Proof.
  intros [_ Hk Hm] Ha E. destruct s as [att key master mcode data]. cbn in *. subst att. rewrite (Hk eq_refl). specialize (fun tid => Hm tid eq_refl) as Hd.
  assert (Hne : self <> master) by (intros ->; pose proof (proj2 (Hd master) eq_refl); congruence). apply Z.eqb_neq in Hne as Hb.
  eexists. split; [by run_errors; rewrite Hb; cbn; rewrite E|..]; cbn.
  - split; cbn; [done|done|]. intros tid _. rewrite lookup_insert. case_decide; [by subst|]. apply Hd.
  - run_errors. rewrite Hb. cbn. by rewrite lookup_insert, decide_True.
  - by rewrite lookup_insert, decide_True.
  - by rewrite lookup_fmap, E.
  - unfold view_errors, store. cbn. f_equal. by rewrite fmap_insert, lookup_fmap, E.
Qed.

(** The subsystem is initialised for a thread when it can have its variable. *)
Lemma init_spec self calloc_ok s : errors_ok s ->
  if can_store self calloc_ok (view_errors s) then exists s' d, granted self calloc_ok s s' d
  else dx_init_error_subsystem self true true calloc_ok s = Ok false s.
Proof.
  intros H. unfold can_store. destruct (thread_data s !! self) as [d|] eqn:E.
  { rewrite (bool_decide_true (is_Some _)) by (cbn; rewrite lookup_fmap, E; by eexists). rewrite orb_true_r. exists s, d. by apply granted_known. }
  rewrite (bool_decide_false (is_Some _)) by (cbn; rewrite lookup_fmap, E; by intros [? ?]). cbn [view_errors ev_master].
  destruct (g_initialization_attempted s) eqn:Ha; cbn [bool_decide orb].
  - rewrite bool_decide_false by done. cbn [orb]. destruct calloc_ok.
    + destruct (granted_new self s H Ha E) as [s' Hg]. by eexists _, _.
    + pose proof H as [_ Hk Hm]. destruct s as [att key master mcode data]. cbn in *. subst att. rewrite (Hk eq_refl).
      assert (Hb : self =? master = false). { apply Z.eqb_neq. intros ->. pose proof (proj2 (Hm master eq_refl) eq_refl). congruence. }
      run_errors. rewrite Hb. cbn. by rewrite E.
  - rewrite bool_decide_true by done. destruct (granted_first self calloc_ok s H Ha) as [s' Hg]. by eexists _, _.
Qed.

(** ** The functions *)

Lemma view_store self code code' v : store self code (store self code' v) = store self code v.
Proof. unfold store. cbn. by rewrite insert_insert_eq. Qed.

Lemma write_spec self calloc_ok s s' d code : granted self calloc_ok s s' d ->
  exists s2, write_data self d code s' = Ok tt s2 /\ errors_ok s2 /\ view_errors s2 = store self code (view_errors s).
Proof.
  intros [_ Hok _ Hd _ Hv]. rewrite <- (view_store self code (default code_success (ev_codes (view_errors s) !! self)) (view_errors s)), <- Hv. clear Hv s. pose proof Hok as [Hn Hk Hm].
  destruct s' as [att key master mcode data]. cbn in *. destruct att; [|destruct (Hn eq_refl) as [-> _]; by apply lookup_empty_Some in Hd].
  specialize (fun tid => Hm tid eq_refl) as Hm'. destruct d as [|c]; eexists; (split; [done|]); unfold view_errors, store; cbn.
  - split; [split; cbn; [done|done|by intros tid _]|]. f_equal. apply map_eq. intros tid. rewrite lookup_fmap, lookup_insert, lookup_fmap.
    case_decide as Ht; [subst tid; by rewrite Hd|]. destruct (data !! tid) as [[|c]|] eqn:E; [|done|done].
    apply Hm' in E, Hd. congruence.
  - split; [|by rewrite fmap_insert]. split; cbn; [done|done|]. intros tid _. rewrite lookup_insert. case_decide as Ht; [|apply Hm']. subst tid.
    split; [done|]. intros E%Hm'. congruence.
Qed.

Lemma valid_code code : ((0 <=? code) && (code <? dx_ec_count)) = true ->
  (if code =? code_success then dx_efr_success else dx_check_error_code code) = dx_efr_success.
Proof.
  intros [H1%Z.leb_le H2%Z.ltb_lt]%andb_true_iff. unfold dx_check_error_code.
  rewrite (proj2 (Z.ltb_ge _ _)), (proj2 (Z.leb_gt _ _)) by lia. by destruct (code =? _).
Qed.
Lemma invalid_code code : ((0 <=? code) && (code <? dx_ec_count)) = false ->
  (if code =? code_success then dx_efr_success else dx_check_error_code code) = dx_efr_invalid_error_code.
Proof.
  intros H. unfold dx_check_error_code, code_success, dx_ec_count in *. destruct (Z.eqb_spec code 0) as [->|]; [done|].
  destruct (Z.ltb_spec code 0); [done|]. destruct (Z.leb_spec 105 code); [done|]. cbn in H.
  apply andb_false_iff in H as [H%Z.leb_gt|H%Z.ltb_ge]; lia.
Qed.

Lemma set_spec self calloc_ok s code : errors_ok s ->
  exists r s', dx_set_last_error self true true calloc_ok code s = Ok r s' /\ errors_ok s' /\
    if (0 <=? code) && (code <? dx_ec_count) && can_store self calloc_ok (view_errors s)
    then r = dx_efr_success /\ view_errors s' = store self code (view_errors s)
    else r <> dx_efr_success /\ s' = s.
Proof.
  intros H. unfold dx_set_last_error, dx_set_last_error_impl. destruct ((0 <=? code) && (code <? dx_ec_count)) eqn:Hc; cbn [andb].
  2: { rewrite (invalid_code _ Hc). by eexists _, s. }
  rewrite (valid_code _ Hc). cbn [bool_decide negb]. rewrite bool_decide_true by done. cbn [negb].
  pose proof (init_spec self calloc_ok s H) as Hi. destruct (can_store _ _ _).
  - destruct Hi as (s' & d & Hg). destruct (write_spec _ _ _ _ _ code Hg) as (s2 & E & H2 & Hv).
    exists dx_efr_success, s2. rewrite (bind_ok _ _ _ _ _ (gr_init _ _ _ _ _ Hg)). cbn [negb].
    rewrite (bind_ok _ _ _ _ _ (gr_variable _ _ _ _ _ Hg)), (bind_ok _ _ _ _ _ E). by split_and!.
  - exists dx_efr_error_subsys_init_failure, s. by rewrite (bind_ok _ _ _ _ _ Hi).
Qed.

Lemma end_spec self s : errors_ok s ->
  exists s', dx_key_data_destructor self s = Ok tt s' /\ errors_ok s' /\ view_errors s' = (spec_call self false call_end (view_errors s)).2.
Proof.
  intros H. pose proof H as [Hn Hk Hm]. unfold dx_key_data_destructor. unfold_m. destruct s as [att key master mcode data]. cbn in *.
  destruct (data !! self) as [[|c]|] eqn:E.
  - eexists. split; [done|]. split; [done|]. destruct att; [|destruct (Hn eq_refl) as [-> _]; by apply lookup_empty_Some in E].
    apply Hm in E as ->; [|done]. by rewrite bool_decide_true.
  - eexists. split; [done|]. destruct att; [|destruct (Hn eq_refl) as [-> _]; by apply lookup_empty_Some in E].
    specialize (fun tid => Hm tid eq_refl) as Hm'. assert (Hne : self <> master) by (intros ->; pose proof (proj2 (Hm' master) eq_refl); congruence).
    split; [|rewrite bool_decide_false by congruence; unfold view_errors; cbn; by rewrite fmap_delete].
    split; cbn; [done|done|]. intros tid _. rewrite lookup_delete. case_decide as Ht; [|apply Hm']. subst tid. by split.
  - eexists. split; [done|]. split; [done|]. destruct (bool_decide _); [done|]. unfold view_errors. cbn. f_equal.
    symmetry. apply delete_id. by rewrite lookup_fmap, E.
Qed.

Lemma call_spec self calloc_ok c s : errors_ok s ->
  exists s', run_call self calloc_ok c s = Ok (spec_call self calloc_ok c (view_errors s)).1 s' /\ errors_ok s' /\
    view_errors s' = (spec_call self calloc_ok c (view_errors s)).2.
Proof.
  intros H. destruct c as [code| | |]; cbn [run_call spec_call].
  - destruct (set_spec self calloc_ok s code H) as (r & s' & E & H' & Hr). rewrite (bind_ok _ _ _ _ _ E). exists s'.
    destruct (_ && _); destruct Hr as [Hr Hv]; [rewrite bool_decide_true by done|rewrite bool_decide_false by done; subst s']; by split_and!.
  - destruct (set_spec self calloc_ok s code_success H) as (r & s' & E & H' & Hr). unfold dx_pop_last_error. exists s'.
    rewrite (bind_ok _ _ _ (bool_decide (r = dx_efr_success)) s') by (by rewrite (bind_ok _ _ _ _ _ E)). cbn [Z.leb Z.ltb andb code_success dx_ec_count] in Hr. cbn in Hr.
    destruct (can_store _ _ _); destruct Hr as [Hr Hv]; [rewrite bool_decide_true by done|rewrite bool_decide_false by done; subst s']; by split_and!.
  - unfold dx_get_error_code, dx_get_last_error. cbn [negb]. pose proof (init_spec self calloc_ok s H) as Hi. destruct (can_store _ _ _).
    + destruct Hi as (s' & d & [Ei Hok Ev Hd Hcode Hv]). exists s'. split_and!; [|done|exact Hv].
      rewrite (bind_ok _ _ _ (dx_efr_success, Some (data_code s' d)) s'); [cbn [fst]; by rewrite <- Hcode|].
      rewrite (bind_ok _ _ _ _ _ Ei). cbn [negb]. rewrite (bind_ok _ _ _ _ _ Ev). by destruct d.
    + exists s. split_and!; [|done|done]. rewrite (bind_ok _ _ _ (dx_efr_error_subsys_init_failure, None) s); [done|]. by rewrite (bind_ok _ _ _ _ _ Hi).
  - destruct (end_spec self s H) as (s' & E & H' & Hv). exists s'. rewrite (bind_ok _ _ _ _ _ E). by split_and!.
Qed.

(** C13: Each thread has a last error of its own.  Whatever calls of whatever threads are
    made in whatever order, with blocks for new threads granted or not, the functions
    return what the map of the codes says, and the map changes only at the thread that
    calls: setting stores a valid code and refuses others, reading gives the code that was
    stored last or success, a new thread without memory is told that the subsystem failed,
    and a thread that ends forgets its code unless it is the master. *)
Theorem errors_refine cs s : errors_ok s ->
  exists s', run_calls cs s = Ok (spec_calls cs (view_errors s)).1 s' /\ errors_ok s' /\ view_errors s' = (spec_calls cs (view_errors s)).2.
Proof.
  revert s. induction cs as [|[[self calloc_ok] c] cs IH]; intros s H; [by exists s|].
  destruct (call_spec self calloc_ok c s H) as (s1 & E1 & H1 & Hv1). destruct (IH s1 H1) as (s2 & E2 & H2 & Hv2).
  exists s2. cbn [run_calls spec_calls fst snd]. rewrite (bind_ok _ _ _ _ _ E1), (bind_ok _ _ _ _ _ E2), <- Hv1. by split_and!.
Qed.

(** Two threads: each reads its own error; the second ends and has forgotten it. *)
Lemma errors_refine_witness :
  exists s', run_calls [(7, true, call_set 2); (9, true, call_set 5); (7, true, call_get); (9, true, call_get); (8, false, call_get);
    (9, true, call_end); (9, true, call_get); (7, true, call_set 105); (7, true, call_get)] initial_errors = Ok [1; 1; 2; 5; 4; 0; 0; 0; 2] s'.
Proof.
  destruct (errors_refine [(7, true, call_set 2); (9, true, call_set 5); (7, true, call_get); (9, true, call_get); (8, false, call_get);
    (9, true, call_end); (9, true, call_get); (7, true, call_set 105); (7, true, call_get)] initial_errors initial_errors_ok) as (s' & E & _).
  exists s'. exact E.
Defined.

(** ** What goes wrong *)

(** When the key cannot be made the first call fails, but the attempt is remembered: the
    master goes on as if nothing had happened and another thread uses a key that does not
    exist. *)
Lemma failed_key_undefined :
  match dx_set_last_error 7 false true true 2 initial_errors with
  | Ok r s => r = dx_efr_error_subsys_init_failure /\ (exists s', dx_set_last_error 7 true true true 2 s = Ok dx_efr_success s') /\
      dx_set_last_error 9 true true true 2 s = UB
  | _ => False
  end.
Proof. cbn. split_and!; [done|by eexists|done]. Qed.
