(* ===== verification/Memory.v ===== *)
(** * Memory: blocks and mutexes ([src/DXMemory.c], [src/DXThreads.c])

    What the library has allocated, for the code that makes and releases the contexts of
    a connection: freeing a block twice, or a mutex that does not exist, is undefined.
    [releases] is the specification of code that frees exactly the blocks and mutexes of
    a list, with rules for its parts. *)

From S2P Require Import Prelude.
Local Open Scope Z_scope.
Local Open Scope c_scope.

(** ** The state *)

(** What a block is for: the context of a subsystem and what goes with it. *)
Inductive block_kind : Set :=
  | for_context
  | for_connection
  | for_task_queue
  | for_buffer
  | for_source_table
  | for_object.
#[export] Instance block_kind_eq_dec : EqDecision block_kind.
Proof. solve_decision. Defined.

(** A mutex is a member of a block. *)
Definition dx_mutex_t : Type := Z * Z.

(** The blocks that are allocated, the mutexes that exist, the addresses that were ever
    given, which are not given again, and how many blocks and mutexes were asked for. *)
Record memory : Type := Memory {
  blocks : gset Z;
  mutexes : gset dx_mutex_t;
  used : gset Z;
  requests : nat;
}.

Section memory.
(** Whether a request is granted. *)
Context (calloc_ok : nat -> block_kind -> bool) (mutex_ok : nat -> bool).

Definition requested : M memory nat :=
  m <-- get;; put (Memory (blocks m) (mutexes m) (used m) (S (requests m)));;; ret (requests m).

(** [dx_calloc] and [dx_malloc], with the test of their result. *)
Definition dx_calloc (kind : block_kind) : M memory Z :=
  n <-- requested;;
  if calloc_ok n kind then
    m <-- get;;
    let a := fresh (used m) in
    put (Memory ({[a]} ∪ blocks m) (mutexes m) ({[a]} ∪ used m) (requests m));;;
    ret a
  else dx_set_error_code dx_mec_insufficient_memory.

Definition dx_free (a : Z) : M memory unit :=
  m <-- get;;
  if decide (a ∈ blocks m) then put (Memory (blocks m ∖ {[a]}) (mutexes m) (used m) (requests m)) else undefined.
(** [CHECKED_FREE]; a null pointer may also be given to [dx_free]. *)
Definition CHECKED_FREE (a : option Z) : M memory unit := match a with None => ret tt | Some a => dx_free a end.
Fixpoint free_each (l : list Z) : M memory unit := match l with [] => ret tt | a :: l' => dx_free a;;; free_each l' end.

Definition dx_mutex_create (x : dx_mutex_t) : M memory unit :=
  n <-- requested;;
  if mutex_ok n then update (fun m => Memory (blocks m) ({[x]} ∪ mutexes m) (used m) (requests m))
  else dx_set_error_code dx_tec_generic_error.
Definition dx_mutex_destroy (x : dx_mutex_t) : M memory unit :=
  m <-- get;;
  if decide (x ∈ mutexes m) then put (Memory (blocks m) (mutexes m ∖ {[x]}) (used m) (requests m)) else undefined.
End memory.

(** ** Releasing *)

Definition without (bs : list Z) (ms : list dx_mutex_t) (m : memory) : memory :=
  Memory (blocks m ∖ list_to_set bs) (mutexes m ∖ list_to_set ms) (used m) (requests m).
Definition has (bs : list Z) (ms : list dx_mutex_t) (m : memory) : Prop :=
  NoDup bs /\ NoDup ms /\ Forall (fun a => a ∈ blocks m) bs /\ Forall (fun x => x ∈ mutexes m) ms.

(** Whatever else there is, the blocks and the mutexes are released and nothing else. *)
Definition releases {A} (c : M memory A) (bs : list Z) (ms : list dx_mutex_t) : Prop :=
  forall m, has bs ms m -> exists a, c m = Ok a (without bs ms m).

Lemma without_nil m : without [] [] m = m.
Proof. destruct m. unfold without. cbn. by rewrite !difference_empty_L. Qed.
Lemma without_app bs1 bs2 ms1 ms2 m : without bs2 ms2 (without bs1 ms1 m) = without (bs1 ++ bs2) (ms1 ++ ms2) m.
Proof. unfold without. cbn. rewrite !list_to_set_app_L. f_equal; set_solver. Qed.
Lemma has_app bs1 bs2 ms1 ms2 m : has (bs1 ++ bs2) (ms1 ++ ms2) m -> has bs1 ms1 m /\ has bs2 ms2 (without bs1 ms1 m).
Proof.
  unfold has. rewrite !NoDup_app, !Forall_app. intros ((Hb1 & Hbd & Hb2) & (Hm1 & Hmd & Hm2) & (Fb1 & Fb2) & (Fm1 & Fm2)).
  split; [done|]. split_and!; [done|done| |]; cbn.
  - apply Forall_forall. intros a Ha. apply elem_of_difference. split; [by rewrite Forall_forall in Fb2; apply Fb2|].
    rewrite elem_of_list_to_set. intros H. by apply (Hbd a).
  - apply Forall_forall. intros a Ha. apply elem_of_difference. split; [by rewrite Forall_forall in Fm2; apply Fm2|].
    rewrite elem_of_list_to_set. intros H. by apply (Hmd a).
Qed.

Lemma releases_ret {A} (a : A) : releases (ret a) [] [].
Proof. intros m _. exists a. by rewrite without_nil. Qed.
Lemma releases_bind {A B} (c : M memory A) (k : A -> M memory B) bs1 bs2 ms1 ms2 :
  releases c bs1 ms1 -> (forall a, releases (k a) bs2 ms2) -> releases (checked_call c k) (bs1 ++ bs2) (ms1 ++ ms2).
Proof.
  intros Hc Hk m Hm. apply has_app in Hm as [H1 H2]. destruct (Hc m H1) as [a E]. destruct (Hk a _ H2) as [b E'].
  exists b. by rewrite (bind_ok _ _ _ _ _ E), E', without_app.
Qed.
Lemma releases_free a : releases (dx_free a) [a] [].
Proof.
  intros m (_ & _ & Hb & _). rewrite Forall_singleton in Hb. exists tt. unfold dx_free. rewrite (bind_ok get _ _ _ _ eq_refl), decide_True by done.
  unfold put, without. cbn. by rewrite union_empty_r_L, difference_empty_L.
Qed.
Lemma releases_checked a : releases (CHECKED_FREE a) (option_list a) [].
Proof. destruct a; [apply releases_free|apply releases_ret]. Qed.
Lemma releases_each l : releases (free_each l) l [].
Proof. induction l as [|a l IH]; [apply releases_ret|]. apply (releases_bind _ _ [a] l [] []); [apply releases_free|done]. Qed.
Lemma releases_mutex x : releases (dx_mutex_destroy x) [] [x].
Proof.
  intros m (_ & _ & _ & Hm). rewrite Forall_singleton in Hm. exists tt. unfold dx_mutex_destroy. rewrite (bind_ok get _ _ _ _ eq_refl), decide_True by done.
  unfold put, without. cbn. by rewrite union_empty_r_L, difference_empty_L.
Qed.
(** A loop that releases what each of its elements has. *)
Fixpoint for_each {T} (f : T -> M memory unit) (l : list T) : M memory unit :=
  match l with [] => ret tt | x :: l' => f x;;; for_each f l' end.
Lemma releases_for_each {T} (f : T -> M memory unit) owned l :
  (forall x, releases (f x) (owned x) []) -> releases (for_each f l) (concat (owned <$> l)) [].
Proof. intros Hf. induction l as [|x l IH]; [apply releases_ret|]. apply (releases_bind _ _ (owned x) _ [] []); [apply Hf|done]. Qed.

Lemma releases_ext {A} (c : M memory A) bs bs' ms ms' : releases c bs ms -> bs = bs' -> ms = ms' -> releases c bs' ms'.
Proof. by intros ? <- <-. Qed.

Create HintDb releases.
#[export] Hint Resolve releases_ret releases_bind releases_free releases_checked releases_each releases_mutex releases_for_each : releases.
(** The blocks are those of the parts, in their order. *)
Ltac solve_releases := eapply releases_ext; [eauto 40 with releases|cbn; rewrite ?app_nil_r; auto|cbn; rewrite ?app_nil_r; auto].

(** ** Allocating *)

(** Addresses in use were given. *)
Record memory_ok (m : memory) : Prop := {
  mo_blocks : blocks m ⊆ used m;
  mo_mutexes : forall x, x ∈ mutexes m -> x.1 ∈ used m;
}.

(** The memory [m'] is [m] with the blocks and the mutexes of a list, which are new. *)
Record grown (bs : list Z) (ms : list dx_mutex_t) (m m' : memory) : Prop := {
  gn_nodup : NoDup bs;
  gn_nodup_mutexes : NoDup ms;
  gn_new a : a ∈ bs -> a ∉ used m;
  gn_new_mutexes x : x ∈ ms -> x ∉ mutexes m;
  gn_blocks : blocks m' = list_to_set bs ∪ blocks m;
  gn_mutexes : mutexes m' = list_to_set ms ∪ mutexes m;
  gn_used : list_to_set bs ∪ used m ⊆ used m';
}.

Lemma grown_nil m m' : blocks m' = blocks m -> mutexes m' = mutexes m -> used m ⊆ used m' -> grown [] [] m m'.
Proof. intros Eb Em Eu. split; [constructor|constructor|by intros a ?%elem_of_nil|by intros x ?%elem_of_nil|..]; cbn; set_solver. Qed.
Lemma grown_app bs1 bs2 ms1 ms2 m m1 m2 : grown bs1 ms1 m m1 -> grown bs2 ms2 m1 m2 -> grown (bs1 ++ bs2) (ms1 ++ ms2) m m2.
Proof.
  intros [Nb1 Nm1 Fb1 Fm1 Eb1 Em1 Eu1] [Nb2 Nm2 Fb2 Fm2 Eb2 Em2 Eu2]. split.
  - apply NoDup_app. split_and!; [done| |done]. intros a H1 H2. apply (Fb2 a H2). set_solver.
  - apply NoDup_app. split_and!; [done| |done]. intros a H1 H2. apply (Fm2 a H2). set_solver.
  - intros a [Ha|Ha]%elem_of_app Hm; [by apply (Fb1 a)|]. apply (Fb2 a Ha). set_solver.
  - intros a [Ha|Ha]%elem_of_app Hm; [by apply (Fm1 a)|]. apply (Fm2 a Ha). set_solver.
  - rewrite Eb2, Eb1, list_to_set_app_L. set_solver.
  - rewrite Em2, Em1, list_to_set_app_L. set_solver.
  - rewrite list_to_set_app_L. set_solver.
Qed.
Lemma grown_perm bs bs' ms ms' m m' : bs ≡ₚ bs' -> ms ≡ₚ ms' -> grown bs ms m m' -> grown bs' ms' m m'.
Proof.
  intros Hb Hm [Nb Nm Fb Fm Eb Em Eu]. split; rewrite <- ?Hb, <- ?Hm; try done.
  - intros a. rewrite <- Hb. apply Fb.
  - intros x. rewrite <- Hm. apply Fm.
Qed.
Lemma grown_has bs ms m m' : grown bs ms m m' -> has bs ms m'.
Proof. intros [Nb Nm _ _ Eb Em _]. split_and!; [done|done| |]; apply Forall_forall; set_solver. Qed.
Lemma has_perm bs bs' ms ms' m : bs ≡ₚ bs' -> ms ≡ₚ ms' -> has bs ms m -> has bs' ms' m.
Proof. intros Hb Hm. unfold has. by rewrite Hb, Hm. Qed.
Lemma without_perm bs bs' ms ms' m : bs ≡ₚ bs' -> ms ≡ₚ ms' -> without bs ms m = without bs' ms' m.
Proof. intros Hb Hm. unfold without. by rewrite (list_to_set_perm_L _ _ Hb), (list_to_set_perm_L _ _ Hm). Qed.
(** A new mutex of a block that is new. *)
Lemma grown_new_mutex bs ms m m' a i : memory_ok m -> grown bs ms m m' -> a ∉ used m -> (a, i) ∉ ms -> (a, i) ∉ mutexes m'.
Proof. intros [_ Hm] [_ _ _ _ _ Em _] Ha Hi. rewrite Em. intros [H|H]%elem_of_union; [set_solver|]. by apply Ha, (Hm (a, i)). Qed.
Lemma grown_ok bs ms m m' : memory_ok m -> grown bs ms m m' -> (forall x, x ∈ ms -> x.1 ∈ used m') -> memory_ok m'.
Proof.
  intros [Hb Hm] [_ _ _ _ Eb Em Eu] Hx. split; [set_solver|]. rewrite Em. intros x [H|H]%elem_of_union; [apply Hx; set_solver|].
  apply Eu, elem_of_union_r. by apply Hm.
Qed.

Section allocation.
Context (calloc_ok : nat -> block_kind -> bool) (mutex_ok : nat -> bool).

Lemma calloc_spec kind m : memory_ok m ->
  (exists a m', dx_calloc calloc_ok kind m = Ok a m' /\ grown [a] [] m m') \/
  (exists m' n, dx_calloc calloc_ok kind m = Err dx_mec_insufficient_memory m' /\ grown [] [] m m' /\ calloc_ok n kind = false).
Proof.
  intros Hm. unfold dx_calloc, requested. unfold_m. destruct (calloc_ok (requests m) kind) eqn:E.
  - left. eexists _, _. split; [done|]. cbn. pose proof (is_fresh (used m)).
    split; cbn; [apply NoDup_singleton|constructor|set_solver|by intros x ?%elem_of_nil|set_solver..].
  - right. eexists _, _. split; [done|]. split; [|done]. by apply grown_nil.
Qed.
Lemma mutex_spec x m : (forall n, mutex_ok n = true) -> x ∉ mutexes m ->
  exists m', dx_mutex_create mutex_ok x m = Ok tt m' /\ grown [] [x] m m'.
Proof.
  intros H Hx. eexists. unfold dx_mutex_create, requested, update. unfold_m. rewrite H. split; [done|].
  split; cbn; [constructor|apply NoDup_singleton|by intros a ?%elem_of_nil|set_solver..].
Qed.
End allocation.
