(* ===== verification/Contexts.v ===== *)
(** * Contexts: what the subsystems of a connection allocate and release

    The context of each subsystem with the blocks that it owns, the function that makes
    it ([DX_CONNECTION_SUBSYS_INIT_PROTO]) and those that release it
    ([DX_CONNECTION_SUBSYS_DEINIT_PROTO]), of [src/DXNetwork.c], [TaskQueue.c],
    [DXProperties.c], [ServerMessageProcessor.c], [DataStructures.c], [RecordBuffers.c],
    [ObjectArray.c], [RecordTranscoder.c], [BufferedInput.c], [BufferedOutput.c],
    [Connection.cpp], [EventSubscription.cpp], [Snapshot.c], [PriceLevelBook.c] and
    [RegionalBook.c].  The contents of the blocks are in the files of the subsystems;
    the price level books that are open have their sources and consumers here, as the
    release of their context walks through them. *)

From S2P Require Import Prelude Memory.
Local Open Scope Z_scope.
Local Open Scope c_scope.

(** The mutex of a context; the number is that of the member. *)
Definition mutex_of (a i : Z) : dx_mutex_t := (a, i).
Definition guard (a : Z) : dx_mutex_t := mutex_of a 0.

(** ** Parts *)

(** [dx_property_map_t]: its array, and the key and the value of each item. *)
Record property_blocks : Type := PropertyBlocks {
  pm_elements : option Z;
  pm_items : list (option Z * option Z);
}.
Definition no_properties : property_blocks := PropertyBlocks None [].
Definition dx_property_map_free_item (item : option Z * option Z) : M memory unit := CHECKED_FREE item.1;;; CHECKED_FREE item.2.
Definition dx_property_map_free_collection (p : property_blocks) : M memory unit :=
  for_each dx_property_map_free_item (pm_items p);;; CHECKED_FREE (pm_elements p).
Definition item_blocks (item : option Z * option Z) : list Z := option_list item.1 ++ option_list item.2.
Definition property_list (p : property_blocks) : list Z := concat (item_blocks <$> pm_items p) ++ option_list (pm_elements p).

(** [dx_ext_address_t]. *)
Record address_blocks : Type := AddressBlocks {
  ab_host : option Z;
  ab_port : option Z;
  ab_username : option Z;
  ab_password : option Z;
  ab_key_store : option Z;
  ab_key_store_password : option Z;
  ab_trust_store : option Z;
  ab_trust_store_password : option Z;
  ab_elements : option Z;
}.
Definition dx_codec_tls_free (a : address_blocks) : M memory unit :=
  CHECKED_FREE (ab_key_store a);;; CHECKED_FREE (ab_key_store_password a);;;
  CHECKED_FREE (ab_trust_store a);;; CHECKED_FREE (ab_trust_store_password a).
Definition free_address (a : address_blocks) : M memory unit :=
  CHECKED_FREE (ab_host a);;; CHECKED_FREE (ab_port a);;; CHECKED_FREE (ab_username a);;; CHECKED_FREE (ab_password a);;;
  dx_codec_tls_free a;;; CHECKED_FREE (ab_elements a).
Definition tls_list (a : address_blocks) : list Z :=
  option_list (ab_key_store a) ++ option_list (ab_key_store_password a) ++
  option_list (ab_trust_store a) ++ option_list (ab_trust_store_password a).
Definition address_list (a : address_blocks) : list Z :=
  option_list (ab_host a) ++ option_list (ab_port a) ++ option_list (ab_username a) ++ option_list (ab_password a) ++
  tls_list a ++ option_list (ab_elements a).

(** [dx_address_resolution_context_t]; the lists of [getaddrinfo] are blocks too. *)
Record resolution_blocks : Type := ResolutionBlocks {
  rs_to_free : option (Z * list Z);
  rs_elements : option (Z * list address_blocks);
}.
Definition no_resolution : resolution_blocks := ResolutionBlocks None None.
Definition dx_clear_addr_context_data (r : resolution_blocks) : M memory unit :=
  (match rs_to_free r with None => ret tt | Some (a, infos) => free_each infos;;; dx_free a end);;;
  (match rs_elements r with None => ret tt | Some (a, addresses) => for_each free_address addresses;;; dx_free a end).
Definition resolution_list (r : resolution_blocks) : list Z :=
  (match rs_to_free r with None => [] | Some (a, infos) => infos ++ [a] end) ++
  (match rs_elements r with None => [] | Some (a, addresses) => concat (address_list <$> addresses) ++ [a] end).

(** [dx_task_queue_data_t]: its array and the blocks that the processor of each task
    frees for [dx_tc_free_resources]; the mutex exists when its flag is set. *)
Record task_queue_blocks : Type := TaskQueueBlocks {
  tq_block : Z;
  tq_elements : option Z;
  tq_tasks : list (list Z);
  tq_mutex : bool;
}.
(** The mutex that is destroyed only when its flag is set. *)
Definition destroy_if (flag : bool) (x : dx_mutex_t) : M memory unit := if flag then dx_mutex_destroy x else ret tt.
Definition mutex_if (flag : bool) (x : dx_mutex_t) : list dx_mutex_t := if flag then [x] else [].
Definition dx_cleanup_task_queue (q : task_queue_blocks) : M memory unit :=
  for_each free_each (tq_tasks q).
Definition dx_clear_task_queue_data (q : task_queue_blocks) : M memory unit :=
  destroy_if (tq_mutex q) (guard (tq_block q));;; CHECKED_FREE (tq_elements q);;; dx_free (tq_block q).
Definition dx_destroy_task_queue (q : task_queue_blocks) : M memory unit := dx_cleanup_task_queue q;;; dx_clear_task_queue_data q.
Definition task_queue_list (q : task_queue_blocks) : list Z := concat (tq_tasks q) ++ option_list (tq_elements q) ++ [tq_block q].

(** An array of [ObjectArray.c] with the blocks that its elements point to. *)
Record object_blocks : Type := ObjectBlocks {
  ob_elements : option Z;
  ob_objects : list (option Z);
}.
Definition no_objects : object_blocks := ObjectBlocks None [].
Definition dx_object_array_free (o : object_blocks) : M memory unit :=
  for_each CHECKED_FREE (ob_objects o);;; CHECKED_FREE (ob_elements o).
Definition object_list (o : object_blocks) : list Z := concat (option_list <$> ob_objects o) ++ option_list (ob_elements o).

(** ** The contexts *)

(** [dx_network_connection_context_t]; the flags are those of [set_fields_flags], and
    the numbers of the threads are 0 until they run. *)
Record network_blocks : Type := NetworkBlocks {
  nc_block : Z;
  nc_queue : option task_queue_blocks;
  nc_status_guard : bool;
  nc_socket_guard : bool;
  nc_socket : bool;
  nc_queue_thread : option Z;
  nc_reader_thread : option Z;
  nc_addresses : resolution_blocks;
  nc_address : option Z;
  nc_properties : property_blocks;
  nc_prop_backup : property_blocks;
}.
Definition status_guard (a : Z) : dx_mutex_t := mutex_of a 0.
Definition socket_guard (a : Z) : dx_mutex_t := mutex_of a 1.
Definition dx_protocol_property_clear (c : network_blocks) : M memory unit :=
  dx_property_map_free_collection (nc_properties c);;; dx_property_map_free_collection (nc_prop_backup c).
Definition dx_clear_connection_data (c : network_blocks) : M memory unit :=
  dx_clear_addr_context_data (nc_addresses c);;;
  destroy_if (nc_socket_guard c) (socket_guard (nc_block c));;;
  (match nc_queue c with None => ret tt | Some q => dx_destroy_task_queue q end);;;
  destroy_if (nc_status_guard c) (status_guard (nc_block c));;;
  CHECKED_FREE (nc_address c);;;
  dx_protocol_property_clear c;;;
  dx_free (nc_block c).
Definition network_list (c : network_blocks) : list Z :=
  resolution_list (nc_addresses c) ++ from_option task_queue_list [] (nc_queue c) ++ option_list (nc_address c) ++
  (property_list (nc_properties c) ++ property_list (nc_prop_backup c)) ++ [nc_block c].
Definition network_mutexes (c : network_blocks) : list dx_mutex_t :=
  mutex_if (nc_socket_guard c) (socket_guard (nc_block c)) ++
  from_option (fun q => mutex_if (tq_mutex q) (guard (tq_block q))) [] (nc_queue c) ++
  mutex_if (nc_status_guard c) (status_guard (nc_block c)).

(** [dx_server_msg_proc_connection_context_t]; a digest has its fields and their array. *)
Record server_blocks : Type := ServerBlocks {
  sm_block : Z;
  sm_buffer : option Z;
  sm_last_symbol : option Z;
  sm_raw_dump_file_name : option Z;
  sm_digests : option (Z * list object_blocks);
  sm_recv_props : property_blocks;
}.
(** Two mutexes of the context, which nothing destroys. *)
Definition record_digests_guard (a : Z) : dx_mutex_t := mutex_of a 2.
Definition describe_protocol_guard (a : Z) : dx_mutex_t := mutex_of a 3.
Definition server_mutexes (c : server_blocks) : list dx_mutex_t := [record_digests_guard (sm_block c); describe_protocol_guard (sm_block c)].
Definition dx_clear_record_digest : object_blocks -> M memory unit := dx_object_array_free.
Definition dx_clear_record_digests (c : server_blocks) : M memory unit :=
  match sm_digests c with None => ret tt | Some (a, digests) => for_each dx_clear_record_digest digests;;; dx_free a end.
Definition server_deinit (c : server_blocks) : M memory unit :=
  CHECKED_FREE (sm_buffer c);;; CHECKED_FREE (sm_last_symbol c);;; CHECKED_FREE (sm_raw_dump_file_name c);;;
  dx_clear_record_digests c;;;
  dx_property_map_free_collection (sm_recv_props c);;;
  dx_free (sm_block c).
Definition digests_list (d : option (Z * list object_blocks)) : list Z :=
  match d with None => [] | Some (a, digests) => concat (object_list <$> digests) ++ [a] end.
Definition server_list (c : server_blocks) : list Z :=
  option_list (sm_buffer c) ++ option_list (sm_last_symbol c) ++ option_list (sm_raw_dump_file_name c) ++
  digests_list (sm_digests c) ++ property_list (sm_recv_props c) ++ [sm_block c].

(** [dx_data_structures_connection_context_t]; a record has its name. *)
Record structures_blocks : Type := StructuresBlocks {
  ds_block : Z;
  ds_id_map : option Z;
  ds_support_states : option Z;
  ds_records : object_blocks;
}.
Definition dx_clear_records_list (c : structures_blocks) : M memory unit := dx_object_array_free (ds_records c).
Definition dx_free_data_structures_context (c : structures_blocks) : M memory unit :=
  CHECKED_FREE (ds_support_states c);;; dx_clear_records_list c;;; dx_mutex_destroy (guard (ds_block c));;; dx_free (ds_block c).
Definition structures_deinit (c : structures_blocks) : M memory unit := CHECKED_FREE (ds_id_map c);;; dx_free_data_structures_context c.
Definition structures_list (c : structures_blocks) : list Z :=
  option_list (ds_id_map c) ++ option_list (ds_support_states c) ++ object_list (ds_records c) ++ [ds_block c].

(** [dx_record_buffers_connection_context_t]. *)
Record record_blocks : Type := RecordBlocks {
  rb_block : Z;
  rb_record_buffers : list (option Z);
  rb_strings : object_blocks;
  rb_byte_arrays : object_blocks;
}.
Definition dx_clear_record_buffers (l : list (option Z)) : M memory unit := for_each CHECKED_FREE l.
Definition record_buffers_deinit (c : record_blocks) : M memory unit :=
  dx_clear_record_buffers (rb_record_buffers c);;; dx_object_array_free (rb_strings c);;;
  dx_object_array_free (rb_byte_arrays c);;; dx_free (rb_block c).
Definition record_list (c : record_blocks) : list Z :=
  concat (option_list <$> rb_record_buffers c) ++ object_list (rb_strings c) ++ object_list (rb_byte_arrays c) ++ [rb_block c].

(** [dx_record_transcoder_connection_context_t]. *)
Record transcoder_blocks : Type := TranscoderBlocks {
  rt_block : Z;
  rt_event_buffers : list (option Z);
}.
Definition transcoder_deinit (c : transcoder_blocks) : M memory unit := for_each CHECKED_FREE (rt_event_buffers c);;; dx_free (rt_block c).
Definition transcoder_list (c : transcoder_blocks) : list Z := concat (option_list <$> rt_event_buffers c) ++ [rt_block c].

(** [dx_buffered_output_connection_context_t]; the one of the input is a block alone. *)
Record output_blocks : Type := OutputBlocks {
  bo_block : Z;
  bo_mutex : bool;
}.
Definition dx_clear_buffered_output_context_data (c : output_blocks) : M memory unit :=
  destroy_if (bo_mutex c) (guard (bo_block c));;; dx_free (bo_block c).

(** [dx::EventSubscriptionConnectionContext] with its symbols and subscriptions, which
    its destructor deletes ([context_destroyed] of [SubscriptionClaims]), and
    [dx::Connection] with its composer and parser. *)
Record object_context : Type := ObjectContext {
  oc_block : Z;
  oc_objects : list Z;
}.
Definition delete_context (c : object_context) : M memory unit := free_each (oc_objects c);;; dx_free (oc_block c).
Definition context_list (c : object_context) : list Z := oc_objects c ++ [oc_block c].

(** [dx_snapshot_data_t]: listeners, two arrays of records with their keys and strings,
    symbol and source. *)
Record snapshot_records : Type := SnapshotRecords {
  sr_records : option Z;
  sr_keys : option Z;
  sr_strings : list (object_blocks * Z);
  sr_buffers : option Z;
}.
Record snapshot_blocks : Type := SnapshotBlocks {
  sn_block : Z;
  sn_listeners : option Z;
  sn_records : snapshot_records;
  sn_last_tx : snapshot_records;
  sn_symbol : option Z;
  sn_order_source : option Z;
}.
Definition free_strings (x : object_blocks * Z) : M memory unit := dx_object_array_free x.1;;; dx_free x.2.
Definition dx_snapshot_clear_records_array (r : snapshot_records) : M memory unit :=
  CHECKED_FREE (sr_records r);;; CHECKED_FREE (sr_keys r);;; for_each free_strings (sr_strings r);;; CHECKED_FREE (sr_buffers r).
Definition dx_free_snapshot_data (s : snapshot_blocks) : M memory unit :=
  CHECKED_FREE (sn_listeners s);;;
  dx_snapshot_clear_records_array (sn_records s);;; dx_snapshot_clear_records_array (sn_last_tx s);;;
  CHECKED_FREE (sn_symbol s);;; CHECKED_FREE (sn_order_source s);;;
  dx_mutex_destroy (guard (sn_block s));;; dx_free (sn_block s).
Definition strings_list (x : object_blocks * Z) : list Z := object_list x.1 ++ [x.2].
Definition snapshot_records_list (r : snapshot_records) : list Z :=
  option_list (sr_records r) ++ option_list (sr_keys r) ++ concat (strings_list <$> sr_strings r) ++ option_list (sr_buffers r).
Definition snapshot_list (s : snapshot_blocks) : list Z :=
  option_list (sn_listeners s) ++ snapshot_records_list (sn_records s) ++ snapshot_records_list (sn_last_tx s) ++
  option_list (sn_symbol s) ++ option_list (sn_order_source s) ++ [sn_block s].

(** [dx_snapshot_subscription_connection_context_t]. *)
Record snapshots_blocks : Type := SnapshotsBlocks {
  ss_block : Z;
  ss_mutex : bool;
  ss_elements : option Z;
  ss_snapshots : list snapshot_blocks;
}.
Definition dx_clear_snapshot_subscription_connection_context (c : snapshots_blocks) : M memory unit :=
  for_each dx_free_snapshot_data (ss_snapshots c);;;
  destroy_if (ss_mutex c) (guard (ss_block c));;;
  CHECKED_FREE (ss_elements c);;; dx_free (ss_block c).
Definition snapshots_list (c : snapshots_blocks) : list Z :=
  concat (snapshot_list <$> ss_snapshots c) ++ option_list (ss_elements c) ++ [ss_block c].
Definition snapshots_mutexes (c : snapshots_blocks) : list dx_mutex_t :=
  ((fun s => guard (sn_block s)) <$> ss_snapshots c) ++ mutex_if (ss_mutex c) (guard (ss_block c)).

(** The price level books and their sources as blocks: [dx_price_level_book], without the
    array of its listeners, which nothing frees; a consumer of a source, with the index of
    the source in the book; and [dx_plb_source_t], with the orders of its snapshot.
    [Books] has what they hold. *)
Record book_blocks : Type := BookBlocks {
  bb_block : Z;
  bb_symbol : option Z;
  bb_src_bids : option Z;
  bb_src_asks : option Z;
  bb_sources : option Z;
}.
Definition dx_plb_book_free (b : book_blocks) : M memory unit :=
  CHECKED_FREE (bb_symbol b);;; CHECKED_FREE (bb_src_bids b);;; CHECKED_FREE (bb_src_asks b);;; CHECKED_FREE (bb_sources b);;;
  dx_mutex_destroy (guard (bb_block b));;; dx_free (bb_block b).
Definition book_list (b : book_blocks) : list Z :=
  option_list (bb_symbol b) ++ option_list (bb_src_bids b) ++ option_list (bb_src_asks b) ++ option_list (bb_sources b) ++ [bb_block b].

Record consumer_blocks : Type := ConsumerBlocks {
  cb_block : Z;
  cb_consumer : book_blocks;
  cb_sourceidx : Z;
}.
Record source_blocks : Type := SourceBlocks {
  sb_block : Z;
  sb_subscription : option Z;
  sb_symbol : option Z;
  sb_snapshot : object_blocks;
  sb_consumers : list consumer_blocks;
}.
(** [dxf_close_subscription] of a source.  Looking at a subscription that was deleted is
    undefined; of one that is there the block goes ([EventSubscription] and [Feed] have
    what else closing does).  The result is whether that succeeds. *)
Definition close_source_subscription (subscription : option Z) : M memory bool :=
  match subscription with None => ret false | Some s => dx_free s;;; ret true end.
Definition FREE_ARRAY (o : object_blocks) : M memory unit :=
  match ob_elements o with None => ret tt | Some a => for_each CHECKED_FREE (ob_objects o);;; dx_free a end.
Definition dx_plb_source_free (s : source_blocks) : M memory unit :=
  (match sb_subscription s with None => ret tt | Some _ => close_source_subscription (sb_subscription s);;; ret tt end);;;
  CHECKED_FREE (sb_symbol s);;; FREE_ARRAY (sb_snapshot s);;; dx_mutex_destroy (guard (sb_block s));;; dx_free (sb_block s).
(** A book is freed by its first source. *)
Definition free_consumer (c : consumer_blocks) : M memory unit :=
  (if cb_sourceidx c =? 0 then dx_plb_book_free (cb_consumer c) else ret tt);;; dx_free (cb_block c).
Definition without_subscription (s : source_blocks) : source_blocks :=
  SourceBlocks (sb_block s) None (sb_symbol s) (sb_snapshot s) (sb_consumers s).
Definition dx_plb_source_clear (s : source_blocks) (force : bool) : M memory bool :=
  if negb force && negb (length (sb_consumers s) =? 0)%nat then ret false
  else
    err <-- close_source_subscription (sb_subscription s);;
    for_each free_consumer (sb_consumers s);;;
    dx_plb_source_free (without_subscription s);;;
    ret err.
Definition consumer_list (c : consumer_blocks) : list Z := (if cb_sourceidx c =? 0 then book_list (cb_consumer c) else []) ++ [cb_block c].
Definition consumer_mutexes (c : consumer_blocks) : list dx_mutex_t := if cb_sourceidx c =? 0 then [guard (bb_block (cb_consumer c))] else [].
Definition source_list (s : source_blocks) : list Z :=
  concat (consumer_list <$> sb_consumers s) ++ option_list (sb_symbol s) ++ object_list (sb_snapshot s) ++ [sb_block s].
Definition source_mutexes (s : source_blocks) : list dx_mutex_t := concat (consumer_mutexes <$> sb_consumers s) ++ [guard (sb_block s)].

(** [dx_plb_connection_context_t] with the table of its sources, which is a hash table:
    [src_size] is the number of the sources, [src_capacity] that of the slots. *)
Record level_blocks : Type := LevelBlocks {
  pl_block : Z;
  pl_src_size : nat;
  pl_sources : option (Z * list (option source_blocks));
}.
Definition src_capacity : nat := 1024.
(** The loop goes through the first [src_size] slots, [n] from [i] on. *)
Fixpoint clear_sources (sources : list (option source_blocks)) (n i : nat) (res : bool) : M memory bool :=
  match n with
  | O => ret res
  | S n' =>
      source <-- of_option (sources !! i);;
      res' <-- (match source with None => ret res | Some s => r <-- dx_plb_source_clear s true;; ret (r && res) end);;
      clear_sources sources n' (S i) res'
  end.
Definition dx_plb_clear_connection_context (c : level_blocks) : M memory bool :=
  res <-- (match pl_sources c with
           | None => ret true
           | Some (a, sources) => res <-- clear_sources sources (pl_src_size c) 0 true;; dx_free a;;; ret res
           end);;
  dx_mutex_destroy (guard (pl_block c));;; dx_free (pl_block c);;; ret res.
Definition slot_sources (c : level_blocks) : list source_blocks :=
  match pl_sources c with None => [] | Some (_, sources) => omap id sources end.
Definition level_list (c : level_blocks) : list Z :=
  option_list (fst <$> pl_sources c) ++ concat (source_list <$> slot_sources c) ++ [pl_block c].
Definition level_mutexes (c : level_blocks) : list dx_mutex_t := concat (source_mutexes <$> slot_sources c) ++ [guard (pl_block c)].
(** No price level book is open, so that no source is in the table. *)
Definition no_sources (c : level_blocks) : bool := (pl_src_size c =? 0)%nat && (length (slot_sources c) =? 0)%nat.

(** [dx_rb_connection_context_t]. *)
Definition dx_rb_clear_connection_context (a : Z) : M memory unit := dx_mutex_destroy (guard a);;; dx_free a.
