(* ===== verification/Lifecycle.v ===== *)
(** * Lifecycle: connections from their creation to their release

    The contexts of a connection are made and released in fixed orders
    ([src/ConnectionContextData.c]); a connection that is closed from one of its own
    threads cannot be released there, so it is put into a queue, which every function of
    the interface looks at first ([src/DXFeed.c]).  [src/DXSockets.c] counts the
    connections. *)

From S2P Require Import Prelude Arrays Memory Contexts.
Local Open Scope Z_scope.
Local Open Scope c_scope.

(** ** The state *)

(** [dx_connection_data_collection_t]: the data of the subsystems. *)
Record contexts : Type := SubsystemData {
  c_network : option network_blocks;
  c_subscriptions : option object_context;
  c_transcoder : option transcoder_blocks;
  c_structures : option structures_blocks;
  c_records : option record_blocks;
  c_server : option server_blocks;
  c_input : option Z;
  c_output : option output_blocks;
  c_impl : option object_context;
  c_snapshots : option snapshots_blocks;
  c_levels : option level_blocks;
  c_regional : option Z;
}.
Definition no_contexts : contexts := SubsystemData None None None None None None None None None None None None.
Definition set_network (x : network_blocks) (c : contexts) : contexts :=
  SubsystemData (Some x) (c_subscriptions c) (c_transcoder c) (c_structures c) (c_records c) (c_server c) (c_input c) (c_output c)
    (c_impl c) (c_snapshots c) (c_levels c) (c_regional c).
Definition set_subscriptions (x : object_context) (c : contexts) : contexts :=
  SubsystemData (c_network c) (Some x) (c_transcoder c) (c_structures c) (c_records c) (c_server c) (c_input c) (c_output c)
    (c_impl c) (c_snapshots c) (c_levels c) (c_regional c).
Definition set_transcoder (x : transcoder_blocks) (c : contexts) : contexts :=
  SubsystemData (c_network c) (c_subscriptions c) (Some x) (c_structures c) (c_records c) (c_server c) (c_input c) (c_output c)
    (c_impl c) (c_snapshots c) (c_levels c) (c_regional c).
Definition set_structures (x : structures_blocks) (c : contexts) : contexts :=
  SubsystemData (c_network c) (c_subscriptions c) (c_transcoder c) (Some x) (c_records c) (c_server c) (c_input c) (c_output c)
    (c_impl c) (c_snapshots c) (c_levels c) (c_regional c).
Definition set_records (x : record_blocks) (c : contexts) : contexts :=
  SubsystemData (c_network c) (c_subscriptions c) (c_transcoder c) (c_structures c) (Some x) (c_server c) (c_input c) (c_output c)
    (c_impl c) (c_snapshots c) (c_levels c) (c_regional c).
Definition set_server (x : server_blocks) (c : contexts) : contexts :=
  SubsystemData (c_network c) (c_subscriptions c) (c_transcoder c) (c_structures c) (c_records c) (Some x) (c_input c) (c_output c)
    (c_impl c) (c_snapshots c) (c_levels c) (c_regional c).
Definition set_input (x : Z) (c : contexts) : contexts :=
  SubsystemData (c_network c) (c_subscriptions c) (c_transcoder c) (c_structures c) (c_records c) (c_server c) (Some x) (c_output c)
    (c_impl c) (c_snapshots c) (c_levels c) (c_regional c).
Definition set_output (x : output_blocks) (c : contexts) : contexts :=
  SubsystemData (c_network c) (c_subscriptions c) (c_transcoder c) (c_structures c) (c_records c) (c_server c) (c_input c) (Some x)
    (c_impl c) (c_snapshots c) (c_levels c) (c_regional c).
Definition set_impl (x : object_context) (c : contexts) : contexts :=
  SubsystemData (c_network c) (c_subscriptions c) (c_transcoder c) (c_structures c) (c_records c) (c_server c) (c_input c) (c_output c)
    (Some x) (c_snapshots c) (c_levels c) (c_regional c).
Definition set_snapshots_data (x : snapshots_blocks) (c : contexts) : contexts :=
  SubsystemData (c_network c) (c_subscriptions c) (c_transcoder c) (c_structures c) (c_records c) (c_server c) (c_input c) (c_output c)
    (c_impl c) (Some x) (c_levels c) (c_regional c).
Definition set_levels (x : level_blocks) (c : contexts) : contexts :=
  SubsystemData (c_network c) (c_subscriptions c) (c_transcoder c) (c_structures c) (c_records c) (c_server c) (c_input c) (c_output c)
    (c_impl c) (c_snapshots c) (Some x) (c_regional c).
Definition set_regional (x : Z) (c : contexts) : contexts :=
  SubsystemData (c_network c) (c_subscriptions c) (c_transcoder c) (c_structures c) (c_records c) (c_server c) (c_input c) (c_output c)
    (c_impl c) (c_snapshots c) (c_levels c) (Some x).

(** The connections of the process, how many the sockets were asked for, and the queue
    [g_connection_queue] of those to close, with its [guard_initialized] and whether
    [dx_init_connection_queue] has run. *)
Record process : Type := Process {
  p_memory : memory;
  p_connections : gmap Z contexts;
  g_connection_count : Z;
  g_connection_queue : dx_array Z;
  guard_initialized : bool;
  queue_initialized : bool;
}.
Definition set_p_memory (x : memory) (p : process) : process :=
  Process x (p_connections p) (g_connection_count p) (g_connection_queue p) (guard_initialized p) (queue_initialized p).
Definition set_p_connections (x : gmap Z contexts) (p : process) : process :=
  Process (p_memory p) x (g_connection_count p) (g_connection_queue p) (guard_initialized p) (queue_initialized p).
Definition set_count (x : Z) (p : process) : process :=
  Process (p_memory p) (p_connections p) x (g_connection_queue p) (guard_initialized p) (queue_initialized p).
Definition set_queue (x : dx_array Z) (p : process) : process :=
  Process (p_memory p) (p_connections p) (g_connection_count p) x (guard_initialized p) (queue_initialized p).
Definition set_initialized (x : bool) (p : process) : process :=
  Process (p_memory p) (p_connections p) (g_connection_count p) (g_connection_queue p) x true.
Definition in_memory {A} (m : M memory A) : M process A := on p_memory set_p_memory m.

(** What a failure leaves is cleaned up, and stays a failure. *)
Definition or_cleanup {S A B} (m : M S A) (cleanup : M S B) : M S A :=
  r <-- catch m;; match r with inl v => ret v | inr e => cleanup;;; dx_set_error_code e end.

Section lifecycle.
(** Which blocks and mutexes are granted, whether a socket is closed without an error,
    and the thread that calls. *)
Context (calloc_ok : nat -> block_kind -> bool) (mutex_ok : nat -> bool) (close_ok : bool) (self : Z).

Let dx_calloc := dx_calloc calloc_ok.
Let dx_mutex_create := dx_mutex_create mutex_ok.

(** [dx_get_subsystem_data] of a connection that was released is undefined. *)
Definition connection_data (h : Z) : M process contexts := p <-- get;; of_option (p_connections p !! h).
Definition dx_set_subsystem_data (h : Z) (f : contexts -> contexts) : M process unit :=
  c <-- connection_data h;; update (fun p => set_p_connections (<[h := f c]> (p_connections p)) p).

(** ** Making the contexts *)

Definition dx_on_connection_created : M process unit := update (fun p => set_count (g_connection_count p + 1) p).
Definition dx_on_connection_destroyed : M process bool :=
  update (fun p => if 0 <? g_connection_count p then set_count (g_connection_count p - 1) p else p);;; ret true.

Definition dx_create_task_queue : M memory task_queue_blocks :=
  a <-- dx_calloc for_task_queue;;
  or_cleanup (dx_mutex_create (guard a)) (dx_clear_task_queue_data (TaskQueueBlocks a None [] false));;;
  ret (TaskQueueBlocks a None [] true).

Definition new_network (a : Z) (q : option task_queue_blocks) (status : bool) : network_blocks :=
  NetworkBlocks a q status false false None None no_resolution None no_properties no_properties.
Definition network_context : M memory network_blocks :=
  a <-- dx_calloc for_context;;
  q <-- or_cleanup dx_create_task_queue (dx_clear_connection_data (new_network a None false));;
  or_cleanup (dx_mutex_create (status_guard a)) (dx_clear_connection_data (new_network a (Some q) false));;;
  ret (new_network a (Some q) true).
Definition dx_ccs_network_init (h : Z) : M process unit :=
  dx_on_connection_created;;; x <-- in_memory network_context;; dx_set_subsystem_data h (set_network x).

(** The result of making the mutex is not looked at. *)
Definition structures_context : M memory structures_blocks :=
  a <-- dx_calloc for_context;; ignored (dx_mutex_create (guard a));;; ret (StructuresBlocks a None None no_objects).
Definition dx_ccs_data_structures_init (h : Z) : M process unit :=
  x <-- in_memory structures_context;; dx_set_subsystem_data h (set_structures x).

Definition dx_ccs_buffered_input_init (h : Z) : M process unit :=
  a <-- in_memory (dx_calloc for_context);; dx_set_subsystem_data h (set_input a).

Definition output_context : M memory output_blocks :=
  a <-- dx_calloc for_context;;
  or_cleanup (dx_mutex_create (guard a)) (dx_clear_buffered_output_context_data (OutputBlocks a false));;;
  ret (OutputBlocks a true).
Definition dx_ccs_buffered_output_init (h : Z) : M process unit :=
  x <-- in_memory output_context;; dx_set_subsystem_data h (set_output x).

(** [new (std::nothrow)]: a null pointer is stored like any other; and [new], whose
    exception nothing catches. *)
Definition new_nothrow : M memory (option Z) := r <-- catch (dx_calloc for_object);; ret (match r with inl a => Some a | inr _ => None end).
Definition new_object : M memory Z := r <-- catch (dx_calloc for_object);; match r with inl a => ret a | inr _ => undefined end.
Definition connection_object : M memory (option object_context) :=
  a <-- new_nothrow;;
  match a with
  | None => ret None
  | Some a => composer <-- new_object;; parser <-- new_object;; ret (Some (ObjectContext a [parser; composer]))
  end.
Definition dx_css_connection_impl_init (h : Z) : M process unit :=
  c <-- connection_data h;;
  match c_input c, c_output c with
  | Some _, Some _ => x <-- in_memory connection_object;; dx_set_subsystem_data h (from_option set_impl id x)
  | _, _ => dx_set_error_code dx_cec_connection_context_not_initialized
  end.

Definition dx_ccs_record_buffers_init (h : Z) : M process unit :=
  a <-- in_memory (dx_calloc for_context);; dx_set_subsystem_data h (set_records (RecordBlocks a [] no_objects no_objects)).

(** The context without its buffer when there are the contexts that it points to. *)
Definition server_context (linked : bool) : M memory server_blocks :=
  a <-- dx_calloc for_context;;
  or_cleanup (dx_mutex_create (record_digests_guard a)) (dx_free a);;;
  if negb linked then dx_free a;;; dx_set_error_code dx_cec_connection_context_not_initialized
  else
    buffer <-- or_cleanup (dx_calloc for_buffer) (dx_free a);;
    or_cleanup (dx_mutex_create (describe_protocol_guard a)) (dx_free a);;;
    ret (ServerBlocks a (Some buffer) None None None no_properties).
Definition dx_ccs_server_msg_processor_init (h : Z) : M process unit :=
  c <-- connection_data h;;
  x <-- in_memory (server_context (bool_decide (is_Some (c_input c)) && bool_decide (is_Some (c_records c)) && bool_decide (is_Some (c_structures c))));;
  dx_set_subsystem_data h (set_server x).

Definition dx_ccs_event_subscription_init (h : Z) : M process unit :=
  a <-- in_memory new_nothrow;; dx_set_subsystem_data h (from_option (fun a => set_subscriptions (ObjectContext a [])) id a).

Definition transcoder_context (linked : bool) : M memory transcoder_blocks :=
  a <-- dx_calloc for_context;;
  if negb linked then dx_free a;;; dx_set_error_code dx_cec_connection_context_not_initialized else ret (TranscoderBlocks a []).
Definition dx_ccs_record_transcoder_init (h : Z) : M process unit :=
  c <-- connection_data h;;
  x <-- in_memory (transcoder_context (bool_decide (is_Some (c_records c)) && bool_decide (is_Some (c_structures c))));;
  dx_set_subsystem_data h (set_transcoder x).

Definition snapshots_context : M memory snapshots_blocks :=
  a <-- dx_calloc for_context;;
  or_cleanup (dx_mutex_create (guard a)) (dx_clear_snapshot_subscription_connection_context (SnapshotsBlocks a false None []));;;
  ret (SnapshotsBlocks a true None []).
Definition dx_ccs_snapshot_subscription_init (h : Z) : M process unit :=
  x <-- in_memory snapshots_context;; dx_set_subsystem_data h (set_snapshots_data x).

Definition levels_context : M memory level_blocks :=
  a <-- dx_calloc for_context;;
  sources <-- or_cleanup (dx_calloc for_source_table) (dx_plb_clear_connection_context (LevelBlocks a 0 None));;
  let context := LevelBlocks a 0 (Some (sources, replicate src_capacity None)) in
  or_cleanup (dx_mutex_create (guard a)) (dx_plb_clear_connection_context context);;;
  ret context.
Definition dx_ccs_price_level_book_init (h : Z) : M process unit :=
  x <-- in_memory levels_context;; dx_set_subsystem_data h (set_levels x).

Definition regional_context : M memory Z :=
  a <-- dx_calloc for_context;; or_cleanup (dx_mutex_create (guard a)) (dx_rb_clear_connection_context a);;; ret a.
Definition dx_ccs_regional_book_init (h : Z) : M process unit :=
  x <-- in_memory regional_context;; dx_set_subsystem_data h (set_regional x).

Definition g_initializer_queue : list (Z -> M process unit) :=
  [dx_ccs_network_init; dx_ccs_data_structures_init; dx_ccs_buffered_input_init; dx_ccs_buffered_output_init; dx_css_connection_impl_init;
   dx_ccs_record_buffers_init; dx_ccs_server_msg_processor_init; dx_ccs_event_subscription_init; dx_ccs_record_transcoder_init;
   dx_ccs_snapshot_subscription_init; dx_ccs_price_level_book_init; dx_ccs_regional_book_init].

(** ** Releasing the contexts *)

(** The thread ends when it sees its trigger; a thread does not wait for itself. *)
Definition dx_wait_for_thread (t : Z) : M process bool := ret (negb (t =? self)).
Definition wait_for (t : option Z) : M process bool := match t with None => ret true | Some t => dx_wait_for_thread t end.
Definition dx_ccs_network_deinit (h : Z) : M process bool :=
  c <-- connection_data h;;
  match c_network c with
  | None => dx_on_connection_destroyed
  | Some n =>
      res <-- wait_for (nc_queue_thread n);;
      res' <-- wait_for (nc_reader_thread n);;
      in_memory (dx_clear_connection_data n);;;
      res'' <-- dx_on_connection_destroyed;;
      ret (res'' && ((negb (nc_socket n) || close_ok) && (res' && res)))
  end.
(** The deinitialisation of a context that is there. *)
Definition with_context {T} (part : contexts -> option T) (f : T -> M memory unit) (h : Z) : M process bool :=
  c <-- connection_data h;; match part c with None => ret true | Some x => in_memory (f x);;; ret true end.
Definition dx_ccs_price_level_book_deinit (h : Z) : M process bool :=
  c <-- connection_data h;; match c_levels c with None => ret true | Some x => in_memory (dx_plb_clear_connection_context x) end.
Definition g_deinitializer_queue : list (Z -> M process bool) :=
  [dx_ccs_network_deinit; with_context c_server server_deinit; with_context c_subscriptions delete_context;
   with_context c_structures structures_deinit; with_context c_impl delete_context; with_context c_input dx_free;
   with_context c_output dx_clear_buffered_output_context_data; with_context c_records record_buffers_deinit;
   with_context c_transcoder transcoder_deinit; with_context c_snapshots dx_clear_snapshot_subscription_connection_context;
   dx_ccs_price_level_book_deinit; with_context c_regional dx_rb_clear_connection_context].

Fixpoint deinit_loop (queue : list (Z -> M process bool)) (h : Z) (res : bool) : M process bool :=
  match queue with [] => ret res | f :: queue' => r <-- f h;; deinit_loop queue' h (r && res) end.
Definition dx_deinit_connection (h : Z) : M process bool :=
  res <-- deinit_loop g_deinitializer_queue h true;;
  in_memory (dx_free h);;;
  update (fun p => set_p_connections (delete h (p_connections p)) p);;;
  ret res.

Fixpoint init_loop (queue : list (Z -> M process unit)) (h : Z) : M process unit :=
  match queue with [] => ret tt | f :: queue' => f h;;; init_loop queue' h end.
Definition dx_init_connection : M process Z :=
  h <-- in_memory (dx_calloc for_connection);;
  update (fun p => set_p_connections (<[h := no_contexts]> (p_connections p)) p);;;
  or_cleanup (init_loop g_initializer_queue h) (dx_deinit_connection h);;;
  ret h.

(** ** Closing *)

(** Only the check of the network looks at anything: the thread that calls. *)
Definition is_thread (t : option Z) : bool := bool_decide (t = Some self).
Definition dx_can_deinit_connection (h : Z) : M process bool :=
  c <-- connection_data h;;
  ret (match c_network c with None => true | Some n => negb (is_thread (nc_queue_thread n)) && negb (is_thread (nc_reader_thread n)) end).

Definition dx_queue_connection_for_close (h : Z) : M process bool :=
  p <-- get;;
  if negb (guard_initialized p) then ret false
  else
    let q := g_connection_queue p in
    found <-- of_option (DX_ARRAY_SEARCH DX_NUMERIC_COMPARATOR (arr_elements q) 0 (arr_size q) h false);;
    if (found.1 : bool) then ret true
    else
      inserted <-- of_option (DX_ARRAY_INSERT 0 (fun n => calloc_ok n for_buffer) q h found.2);;
      put (set_queue inserted.1 p);;;
      ret (negb inserted.2).

Definition dxf_close_connection (connection : option Z) : M process unit :=
  match connection with
  | None => dx_set_error_code dx_cec_invalid_connection_handle
  | Some h =>
      can <-- dx_can_deinit_connection h;;
      if negb can then dx_queue_connection_for_close h;;; ret tt
      else res <-- dx_deinit_connection h;; if (res : bool) then ret tt else fail
  end.

Fixpoint close_loop (n i : nat) : M process unit :=
  match n with
  | O => ret tt
  | S n' =>
      p <-- get;;
      h <-- of_option (arr_elements (g_connection_queue p) !! i);;
      ignored (dxf_close_connection (Some h));;;
      close_loop n' (S i)
  end.
Definition dx_close_queued_connections : M process unit :=
  p <-- get;;
  let q := g_connection_queue p in
  if (arr_size q =? 0)%nat then ret tt
  else
    close_loop (arr_size q) 0;;;
    update (fun p => set_queue (DxArray (arr_elements (g_connection_queue p)) 0 (arr_capacity (g_connection_queue p))) p).

(** [guard_ok] is whether the mutex of the queue can be made. *)
Definition dx_init_connection_queue (guard_ok : bool) : M process unit :=
  p <-- get;; if queue_initialized p then ret tt else put (set_initialized guard_ok p).
Definition dx_perform_implicit_tasks (guard_ok : bool) : M process unit :=
  dx_init_connection_queue guard_ok;;; dx_close_queued_connections.
End lifecycle.
