(* ===== verification/LifecycleTheory.v ===== *)
(** * LifecycleTheory: contexts own their blocks

    What the release of each context releases, with the rules of [Memory]; what making
    a context allocates, whatever fails; and how the blocks of all the connections of
    the process lie apart. *)

From S2P Require Import Prelude Arrays Memory Contexts Lifecycle.
Local Open Scope Z_scope.
Local Open Scope c_scope.

(** ** Releasing a context *)

Lemma releases_properties p : releases (dx_property_map_free_collection p) (property_list p) [].
Proof.
  apply (releases_bind _ _ (concat (item_blocks <$> pm_items p)) _ [] []); [|intros _; apply releases_checked].
  apply releases_for_each. intros item. apply (releases_bind _ _ _ _ [] []); [|intros _]; apply releases_checked.
Qed.
Lemma releases_objects o : releases (dx_object_array_free o) (object_list o) [].
Proof. apply (releases_bind _ _ _ _ [] []); [apply releases_for_each, releases_checked|intros _; apply releases_checked]. Qed.
Lemma releases_tls a : releases (dx_codec_tls_free a) (tls_list a) [].
Proof. unfold dx_codec_tls_free, tls_list. solve_releases. Qed.
#[export] Hint Resolve releases_properties releases_objects releases_tls : releases.
Lemma releases_address a : releases (free_address a) (address_list a) [].
Proof. unfold free_address, address_list. solve_releases. Qed.
Lemma releases_resolution r : releases (dx_clear_addr_context_data r) (resolution_list r) [].
Proof.
  apply (releases_bind _ _ _ _ [] []); [|intros _].
  - destruct (rs_to_free r) as [[a infos]|]; [|apply releases_ret]. solve_releases.
  - destruct (rs_elements r) as [[a addresses]|]; [|apply releases_ret].
    apply (releases_bind _ _ _ _ [] []); [apply releases_for_each, releases_address|intros _; apply releases_free].
Qed.
Lemma releases_destroy_if flag x : releases (destroy_if flag x) [] (mutex_if flag x).
Proof. destruct flag; [apply releases_mutex|apply releases_ret]. Qed.
#[export] Hint Resolve releases_resolution releases_destroy_if : releases.
Lemma releases_task_queue q : releases (dx_destroy_task_queue q) (task_queue_list q) (mutex_if (tq_mutex q) (guard (tq_block q))).
Proof.
  unfold dx_destroy_task_queue, dx_clear_task_queue_data, dx_cleanup_task_queue, task_queue_list.
  apply (releases_bind _ _ _ _ [] _); [|intros _; solve_releases]. rewrite <- (list_fmap_id (tq_tasks q)) at 2. apply releases_for_each, releases_each.
Qed.
Lemma releases_network c : releases (dx_clear_connection_data c) (network_list c) (network_mutexes c).
Proof.
  unfold dx_clear_connection_data, network_list, network_mutexes, dx_protocol_property_clear.
  apply (releases_bind _ _ _ _ [] _); [apply releases_resolution|intros _].
  apply (releases_bind _ _ [] _ _ _); [apply releases_destroy_if|intros _].
  apply (releases_bind _ _ _ _ _ _); [destruct (nc_queue c); [apply releases_task_queue|apply releases_ret]|intros _]. solve_releases.
Qed.
Lemma releases_digests d :
  releases (match d with None => ret tt | Some (a, digests) => for_each dx_clear_record_digest digests;;; dx_free a end) (digests_list d) [].
Proof.
  destruct d as [[a digests]|]; [|apply releases_ret].
  apply (releases_bind _ _ _ _ [] []); [apply releases_for_each, releases_objects|intros _; apply releases_free].
Qed.
#[export] Hint Resolve releases_digests : releases.
Lemma releases_server c : releases (server_deinit c) (server_list c) [].
Proof. unfold server_deinit, server_list, dx_clear_record_digests. solve_releases. Qed.
Lemma releases_structures c : releases (structures_deinit c) (structures_list c) [guard (ds_block c)].
Proof. unfold structures_deinit, structures_list, dx_free_data_structures_context, dx_clear_records_list. solve_releases. Qed.
Lemma releases_records c : releases (record_buffers_deinit c) (record_list c) [].
Proof.
  unfold record_buffers_deinit, record_list, dx_clear_record_buffers.
  apply (releases_bind _ _ _ _ [] []); [apply releases_for_each, releases_checked|intros _]. solve_releases.
Qed.
Lemma releases_transcoder c : releases (transcoder_deinit c) (transcoder_list c) [].
Proof. apply (releases_bind _ _ _ _ [] []); [apply releases_for_each, releases_checked|intros _; apply releases_free]. Qed.
Lemma releases_output c : releases (dx_clear_buffered_output_context_data c) [bo_block c] (mutex_if (bo_mutex c) (guard (bo_block c))).
Proof. unfold dx_clear_buffered_output_context_data. solve_releases. Qed.
Lemma releases_object c : releases (delete_context c) (context_list c) [].
Proof. unfold delete_context, context_list. solve_releases. Qed.
Lemma releases_snapshot_records r : releases (dx_snapshot_clear_records_array r) (snapshot_records_list r) [].
Proof.
  unfold dx_snapshot_clear_records_array, snapshot_records_list.
  apply (releases_bind _ _ _ _ [] []); [apply releases_checked|intros _].
  apply (releases_bind _ _ _ _ [] []); [apply releases_checked|intros _].
  apply (releases_bind _ _ _ _ [] []); [|intros _; apply releases_checked].
  apply releases_for_each. intros x. apply (releases_bind _ _ _ _ [] []); [apply releases_objects|intros _; apply releases_free].
Qed.
#[export] Hint Resolve releases_snapshot_records : releases.
Lemma releases_snapshot s : releases (dx_free_snapshot_data s) (snapshot_list s) [guard (sn_block s)].
Proof. unfold dx_free_snapshot_data, snapshot_list. solve_releases. Qed.
Lemma releases_snapshots c : releases (dx_clear_snapshot_subscription_connection_context c) (snapshots_list c) (snapshots_mutexes c).
Proof.
  apply (releases_bind _ _ _ _ _ _); [|intros _; solve_releases].
  induction (ss_snapshots c) as [|s l IH]; [apply releases_ret|]. by apply (releases_bind _ _ (snapshot_list s) _ [guard (sn_block s)] _); [apply releases_snapshot|].
Qed.
Lemma releases_levels c : no_sources c = true -> releases (dx_plb_clear_connection_context c) (level_list c) (level_mutexes c).
Proof.
  intros [Hn%Nat.eqb_eq Hs%Nat.eqb_eq]%andb_true_iff. apply nil_length_inv in Hs.
  unfold dx_plb_clear_connection_context, level_list, level_mutexes. rewrite Hs, Hn. cbn [fmap list_fmap concat clear_sources app].
  apply (releases_bind _ _ _ _ [] _); [|intros res; solve_releases].
  destruct (pl_sources c) as [[a sources]|]; [|apply releases_ret]. solve_releases.
Qed.
Lemma releases_regional a : releases (dx_rb_clear_connection_context a) [a] [guard a].
Proof. unfold dx_rb_clear_connection_context. solve_releases. Qed.

(** ** The blocks of a connection *)

(** In the order in which they are released; the last is that of the connection. *)
Definition parts (c : contexts) : list (list Z * list dx_mutex_t) :=
  [from_option (fun n => (network_list n, network_mutexes n)) ([], []) (c_network c);
   from_option (fun x => (server_list x, [])) ([], []) (c_server c);
   from_option (fun x => (context_list x, [])) ([], []) (c_subscriptions c);
   from_option (fun x => (structures_list x, [guard (ds_block x)])) ([], []) (c_structures c);
   from_option (fun x => (context_list x, [])) ([], []) (c_impl c);
   from_option (fun a => ([a], [])) ([], []) (c_input c);
   from_option (fun x => ([bo_block x], mutex_if (bo_mutex x) (guard (bo_block x)))) ([], []) (c_output c);
   from_option (fun x => (record_list x, [])) ([], []) (c_records c);
   from_option (fun x => (transcoder_list x, [])) ([], []) (c_transcoder c);
   from_option (fun x => (snapshots_list x, snapshots_mutexes x)) ([], []) (c_snapshots c);
   from_option (fun x => (level_list x, level_mutexes x)) ([], []) (c_levels c);
   from_option (fun a => ([a], [guard a])) ([], []) (c_regional c)].
Definition connection_list (h : Z) (c : contexts) : list Z := concat (parts c).*1 ++ [h].
Definition destroyed_mutexes (c : contexts) : list dx_mutex_t := concat (parts c).*2.
(** The mutexes of the processor of the messages stay when its context is freed. *)
Definition kept_mutexes (c : contexts) : list dx_mutex_t := from_option server_mutexes [] (c_server c).
Definition connection_mutexes (c : contexts) : list dx_mutex_t := destroyed_mutexes c ++ kept_mutexes c.
Definition books_closed (c : contexts) : bool := from_option no_sources true (c_levels c).

(** They are told apart by their place in the block. *)
Definition low : list dx_mutex_t -> Prop := Forall (fun x => x.2 = 0 \/ x.2 = 1).
Lemma low_nil : low [].
Proof. constructor. Qed.
Lemma low_guard a : low [guard a].
Proof. constructor; [by left|constructor]. Qed.
Lemma low_if flag x : low [x] -> low (mutex_if flag x).
Proof. destruct flag; [done|intros; apply low_nil]. Qed.
Lemma low_app ms1 ms2 : low ms1 -> low ms2 -> low (ms1 ++ ms2).
Proof. intros. by apply Forall_app. Qed.
Lemma low_concat l : Forall low l -> low (concat l).
Proof. induction 1; [constructor|by apply low_app]. Qed.
Lemma low_network c : low (network_mutexes c).
Proof.
  repeat apply low_app; [apply low_if; constructor; [by right|constructor]| |apply low_if, low_guard].
  destruct (nc_queue c); [apply low_if, low_guard|apply low_nil].
Qed.
Lemma low_snapshots c : low (snapshots_mutexes c).
Proof.
  apply low_app; [|apply low_if, low_guard]. apply Forall_fmap, Forall_true. intros s. by left.
Qed.
Lemma low_levels c : low (level_mutexes c).
Proof.
  apply low_app; [|apply low_guard]. apply low_concat, Forall_fmap, Forall_true. intros s. apply low_app; [|apply low_guard].
  apply low_concat, Forall_fmap, Forall_true. intros x. unfold compose, consumer_mutexes. destruct (_ =? 0); [apply low_guard|apply low_nil].
Qed.
Lemma low_part {T} (L : T -> list Z) X (o : option T) : (forall x, low (X x)) -> low (from_option (fun x => (L x, X x)) ([], []) o).2.
Proof. intros H. destruct o; [apply H|apply low_nil]. Qed.
Lemma destroyed_index c x : x ∈ destroyed_mutexes c -> x.2 = 0 \/ x.2 = 1.
Proof.
  assert (H : low (destroyed_mutexes c)); [|by intros; apply (proj1 (Forall_forall _ _) H)]. apply low_concat, Forall_fmap.
  repeat (apply Forall_cons; split); [apply low_part; intros y..|constructor];
    auto using low_network, low_nil, low_guard, low_if, low_snapshots, low_levels.
Qed.
Lemma kept_index c x : x ∈ kept_mutexes c -> x.2 = 2 \/ x.2 = 3.
Proof.
  unfold kept_mutexes. destruct (c_server c) as [x'|]; cbn; [|by intros ?%elem_of_nil].
  intros [->|[->|?%elem_of_nil]%elem_of_cons]%elem_of_cons; [by left|by right|done].
Qed.
Lemma kept_not_destroyed c c' x : x ∈ kept_mutexes c -> x ∉ destroyed_mutexes c'.
Proof. intros [?|?]%kept_index [?|?]%destroyed_index; lia. Qed.

(** A deinitialiser releases a part and leaves the rest of the process. *)
Definition clears (h : Z) (f : Z -> M process bool) (part : list Z * list dx_mutex_t) (p : process) : Prop :=
  has part.1 part.2 (p_memory p) -> exists r, f h p = Ok r (set_p_memory (without part.1 part.2 (p_memory p)) p).

Lemma in_memory_ok {A} (m : M memory A) a m' p : m (p_memory p) = Ok a m' -> in_memory m p = Ok a (set_p_memory m' p).
Proof. intros E. unfold in_memory, on. by rewrite E. Qed.

Section release.
Context (close_ok : bool) (self : Z).

Lemma with_context_clears {T} (part : contexts -> option T) f bs ms h p c : p_connections p !! h = Some c ->
  (forall x, releases (f x) (bs x) (ms x)) -> clears h (with_context part f) (from_option (fun x => (bs x, ms x)) ([], []) (part c)) p.
Proof using Type.
  intros Eh Hf. unfold clears, with_context, connection_data. rewrite (bind_ok _ _ p c p) by (unfold_m; by rewrite Eh).
  destruct (part c) as [x|]; cbn [from_option]; intros Hm.
  - destruct (Hf x _ Hm) as [a E]. exists true. unfold in_memory, on. unfold_m. cbn [fst snd] in *. by rewrite E.
  - exists true. cbn [fst snd]. rewrite without_nil. by destruct p.
Qed.

Lemma deinit_loop_spec h c queue pieces : forall p res, p_connections p !! h = Some c ->
  Forall2 (fun f piece => forall p, p_connections p !! h = Some c -> clears h f piece p) queue pieces ->
  has (concat pieces.*1) (concat pieces.*2) (p_memory p) ->
  exists r, deinit_loop queue h res p = Ok r (set_p_memory (without (concat pieces.*1) (concat pieces.*2) (p_memory p)) p).
Proof using Type.
  intros p res Eh HF. revert p res Eh. induction HF as [|f piece queue pieces Hf _ IH]; intros p res Eh Hm.
  - exists res. cbn. rewrite without_nil. by destruct p.
  - cbn in Hm. apply has_app in Hm as [H1 H2]. destruct (Hf p Eh H1) as [r E]. cbn [deinit_loop]. rewrite (bind_ok _ _ _ _ _ E).
    destruct (IH (set_p_memory (without piece.1 piece.2 (p_memory p)) p) (r && res) Eh H2) as [r' E']. exists r'. rewrite E'. cbn.
    by rewrite without_app.
Qed.

(** What the other deinitialisers release. *)
Lemma levels_clear h c p : p_connections p !! h = Some c -> books_closed c = true ->
  clears h dx_ccs_price_level_book_deinit (from_option (fun x => (level_list x, level_mutexes x)) ([], []) (c_levels c)) p.
Proof using Type.
  intros Eh Hb. unfold books_closed in Hb. unfold clears, dx_ccs_price_level_book_deinit, connection_data.
  rewrite (bind_ok _ _ p c p) by (unfold_m; by rewrite Eh). destruct (c_levels c) as [x|]; cbn [from_option fst snd] in *; intros Hm.
  - destruct (releases_levels x Hb _ Hm) as [r E]. exists r. by rewrite (in_memory_ok _ _ _ _ E).
  - exists true. rewrite without_nil. by destruct p.
Qed.
Lemma others_clear h c : books_closed c = true -> Forall2 (fun f piece => forall p, p_connections p !! h = Some c -> clears h f piece p)
  (tail (g_deinitializer_queue close_ok self)) (tail (parts c)).
Proof using Type.
  intros Hb. repeat (constructor; [intros p Eh|]); [..|constructor].
  - by apply (with_context_clears _ _ server_list (fun _ => []) h p c Eh), releases_server.
  - by apply (with_context_clears _ _ context_list (fun _ => []) h p c Eh), releases_object.
  - by apply (with_context_clears _ _ structures_list (fun x => [guard (ds_block x)]) h p c Eh), releases_structures.
  - by apply (with_context_clears _ _ context_list (fun _ => []) h p c Eh), releases_object.
  - by apply (with_context_clears _ _ (fun a => [a]) (fun _ => []) h p c Eh), releases_free.
  - by apply (with_context_clears _ _ (fun x => [bo_block x]) (fun x => mutex_if (bo_mutex x) (guard (bo_block x))) h p c Eh), releases_output.
  - by apply (with_context_clears _ _ record_list (fun _ => []) h p c Eh), releases_records.
  - by apply (with_context_clears _ _ transcoder_list (fun _ => []) h p c Eh), releases_transcoder.
  - by apply (with_context_clears _ _ snapshots_list snapshots_mutexes h p c Eh), releases_snapshots.
  - by apply levels_clear.
  - by apply (with_context_clears _ _ (fun a => [a]) (fun a => [guard a]) h p c Eh), releases_regional.
Qed.

Definition one_less (n : Z) : Z := if 0 <? n then n - 1 else n.
Lemma destroyed_spec p : dx_on_connection_destroyed p = Ok true (set_count (one_less (g_connection_count p)) p).
Proof using Type. unfold dx_on_connection_destroyed, update, one_less. unfold_m. destruct p. cbn. by destruct (0 <? _). Qed.
Lemma network_deinit_spec h c p : p_connections p !! h = Some c ->
  let part := from_option (fun n => (network_list n, network_mutexes n)) ([], []) (c_network c) in
  has part.1 part.2 (p_memory p) ->
  exists r, dx_ccs_network_deinit close_ok self h p =
    Ok r (set_count (one_less (g_connection_count p)) (set_p_memory (without part.1 part.2 (p_memory p)) p)).
Proof using Type.
  intros Eh part Hm. unfold dx_ccs_network_deinit, connection_data. rewrite (bind_ok _ _ p c p) by (unfold_m; by rewrite Eh).
  subst part. destruct (c_network c) as [n|]; cbn [from_option fst snd] in *.
  - destruct (releases_network n _ Hm) as [a E].
    assert (Hw : forall t, exists b, wait_for self t p = Ok b p) by (intros [t|]; by eexists).
    destruct (Hw (nc_queue_thread n)) as [b1 E1], (Hw (nc_reader_thread n)) as [b2 E2].
    rewrite (bind_ok _ _ _ _ _ E1), (bind_ok _ _ _ _ _ E2).
    erewrite bind_ok by (unfold in_memory, on; by rewrite E). rewrite (bind_ok _ _ _ _ _ (destroyed_spec _)). by eexists.
  - rewrite destroyed_spec, without_nil. exists true. by destruct p.
Qed.

(** The process without a connection. *)
Definition released (h : Z) (c : contexts) (p : process) : process :=
  Process (without (connection_list h c) (destroyed_mutexes c) (p_memory p)) (delete h (p_connections p)) (one_less (g_connection_count p))
    (g_connection_queue p) (guard_initialized p) (queue_initialized p).
Lemma deinit_spec h c p : p_connections p !! h = Some c -> books_closed c = true -> has (connection_list h c) (destroyed_mutexes c) (p_memory p) ->
  exists r, dx_deinit_connection close_ok self h p = Ok r (released h c p).
Proof using Type.
  intros Eh Hb Hm. pose proof (others_clear h c Hb) as Ho. pose proof (network_deinit_spec h c p Eh) as Hn.
  unfold released, connection_list, destroyed_mutexes in *. revert Hm Ho Hn.
  change (parts c) with (from_option (fun n => (network_list n, network_mutexes n)) ([], []) (c_network c) :: tail (parts c)).
  generalize (from_option (fun n => (network_list n, network_mutexes n)) ([], []) (c_network c)) as part. cbn [tail]. generalize (tail (parts c)) as pieces.
  intros pieces part. rewrite !fmap_cons. cbn [concat]. intros Hm Ho Hn. rewrite <- (app_nil_r (part.2 ++ _)) in Hm. apply has_app in Hm as [Hm Hh].
  apply has_app in Hm as [H1 H2]. destruct (Hn H1) as [r1 E1].
  destruct (deinit_loop_spec h c _ pieces (set_count (one_less (g_connection_count p)) (set_p_memory (without part.1 part.2 (p_memory p)) p)) (r1 && true) Eh
    Ho H2) as [r2 E2].
  exists r2. unfold dx_deinit_connection. rewrite (bind_ok (deinit_loop _ _ _) _ p r2 _) by (cbn [deinit_loop g_deinitializer_queue]; by rewrite (bind_ok _ _ _ _ _ E1), <- E2).
  destruct (releases_free h _ Hh) as [u Ef]. cbn [p_memory set_p_memory set_count] in *. rewrite without_app.
  match goal with |- checked_call _ _ ?p2 = _ => rewrite (bind_ok _ _ _ _ _ (in_memory_ok (dx_free h) u _ p2 Ef)) end. rewrite without_app, app_nil_r. unfold update. unfold_m. by destruct p.
Qed.
End release.

(** ** The connections of the process *)

Definition all_blocks (m : gmap Z contexts) : list Z := map_to_list m ≫= (fun hc => connection_list hc.1 hc.2).
Definition all_mutexes (m : gmap Z contexts) : list dx_mutex_t := map_to_list m ≫= (fun hc => destroyed_mutexes hc.2).

(** The connections have their blocks and mutexes, each its own, with those that are never
    destroyed, and are counted. *)
Record process_ok (p : process) : Prop := {
  po_memory : memory_ok (p_memory p);
  po_has : has (all_blocks (p_connections p)) (all_mutexes (p_connections p)) (p_memory p);
  po_kept h c : p_connections p !! h = Some c -> Forall (fun x => x ∈ mutexes (p_memory p)) (kept_mutexes c);
  po_count : g_connection_count p = Z.of_nat (size (p_connections p));
}.

Lemma all_blocks_delete m h c : m !! h = Some c -> all_blocks m ≡ₚ connection_list h c ++ all_blocks (delete h m).
Proof. intros E. unfold all_blocks. by rewrite <- (map_to_list_delete m h c E). Qed.
Lemma all_mutexes_delete m h c : m !! h = Some c -> all_mutexes m ≡ₚ destroyed_mutexes c ++ all_mutexes (delete h m).
Proof. intros E. unfold all_mutexes. by rewrite <- (map_to_list_delete m h c E). Qed.
Lemma all_blocks_insert m h c : m !! h = None -> all_blocks (<[h := c]> m) ≡ₚ connection_list h c ++ all_blocks m.
Proof. intros E. unfold all_blocks. by rewrite (map_to_list_insert m h c E). Qed.
Lemma all_mutexes_insert m h c : m !! h = None -> all_mutexes (<[h := c]> m) ≡ₚ destroyed_mutexes c ++ all_mutexes m.
Proof. intros E. unfold all_mutexes. by rewrite (map_to_list_insert m h c E). Qed.

Lemma process_has p h c : process_ok p -> p_connections p !! h = Some c ->
  has (connection_list h c) (destroyed_mutexes c) (p_memory p) /\
  has (all_blocks (delete h (p_connections p))) (all_mutexes (delete h (p_connections p))) (without (connection_list h c) (destroyed_mutexes c) (p_memory p)).
Proof.
  intros [_ H _ _] E. apply has_app. eapply has_perm; [by apply all_blocks_delete|by apply all_mutexes_delete|done].
Qed.

(** What is released leaves the mutexes that are kept, those of the connection too. *)
Lemma released_kept p h c : process_ok p -> forall h' c', p_connections p !! h' = Some c' ->
  Forall (fun x => x ∈ mutexes (p_memory (released h c p))) (kept_mutexes c').
Proof.
  intros H h' c' E. apply Forall_forall. intros x Hx. cbn. apply elem_of_difference. split.
  - by apply (proj1 (Forall_forall _ _) (po_kept p H h' c' E)).
  - rewrite elem_of_list_to_set. by eapply kept_not_destroyed.
Qed.
Lemma released_ok p h c : process_ok p -> p_connections p !! h = Some c -> process_ok (released h c p).
Proof.
  intros H E. destruct (process_has p h c H E) as [_ H2]. pose proof (released_kept p h c H) as Hk. destruct H as [[Hb Hm] _ _ Hn]. split; cbn.
  - split; cbn; [set_solver|]. intros x [Hx _]%elem_of_difference. by apply Hm.
  - exact H2.
  - intros h' c' [Hne E']%lookup_delete_Some. by eapply Hk.
  - assert (size (p_connections p) <> 0%nat) by (intros Hs; apply map_size_empty_inv in Hs; rewrite Hs in E; by apply lookup_empty_Some in E).
    rewrite Hn, map_size_delete_Some by by eexists. unfold one_less. destruct (Z.ltb_spec 0 (Z.of_nat (size (p_connections p)))); lia.
Qed.

(** ** Closing *)

(** The thread is one of the connection's own. *)
Definition own_thread (self : Z) (c : contexts) : Prop :=
  match c_network c with None => False | Some n => nc_queue_thread n = Some self \/ nc_reader_thread n = Some self end.
#[export] Instance own_thread_dec self c : Decision (own_thread self c).
Proof. unfold own_thread. destruct (c_network c); apply _. Defined.

Section closing.
Context (calloc_ok : nat -> block_kind -> bool) (close_ok : bool).

Lemma can_deinit_spec self h c p : p_connections p !! h = Some c ->
  dx_can_deinit_connection self h p = Ok (negb (bool_decide (own_thread self c))) p.
Proof using Type.
  intros E. unfold dx_can_deinit_connection, connection_data. rewrite (bind_ok _ _ p c p) by (unfold_m; by rewrite E).
  unfold is_thread, ret. f_equal. case_bool_decide as H; unfold own_thread in H; destruct (c_network c) as [n|]; cbn [negb]; [|done| |done].
  - destruct H as [H|H]; rewrite (bool_decide_true _ H); [done|apply andb_false_r].
  - apply Decidable.not_or in H as [H1 H2]. by rewrite !bool_decide_false.
Qed.

Lemma queue_spec h p : (forall n, calloc_ok n for_buffer = true) -> guard_initialized p = true -> array_wf (g_connection_queue p) ->
  exists b q, dx_queue_connection_for_close calloc_ok h p = Ok b (set_queue q p) /\ array_wf q /\ 
    contents q = if decide (h ∈ contents (g_connection_queue p)) then contents (g_connection_queue p) else contents (g_connection_queue p) ++ [h].
Proof using Type.
  intros Hc Hg Hq. pose proof Hq as [Hsz Hlen]. unfold dx_queue_connection_for_close. rewrite (bind_ok get _ _ _ _ eq_refl), Hg. cbn [negb].
  set (q := g_connection_queue p) in *. unfold DX_ARRAY_SEARCH. rewrite Nat.sub_0_r.
  destruct (ls_loop_spec DX_NUMERIC_COMPARATOR (arr_elements q) h (arr_size q) 0) as (found & i & E & Hi & Hlo); [lia|]. rewrite E.
  rewrite (bind_ok (of_option (Some _)) _ _ _ _ eq_refl). cbn [fst snd].
  assert (Hz : forall x, DX_NUMERIC_COMPARATOR x h = 0 <-> x = h) by (intros x; unfold DX_NUMERIC_COMPARATOR; repeat case_match; bool_to_prop; lia).
  destruct found.
  - destruct Hi as [Hi (x & Ex & Hx%Hz)]. subst x. exists true, q. split_and!; [by destruct p|done|].
    rewrite decide_True; [done|]. apply (list_elem_of_lookup_2 _ i). rewrite contents_lookup by lia. done.
  - subst i. destruct (array_append_spec 0 (fun n => calloc_ok n for_buffer) q h Hq Hc) as (q' & Eq & Hq' & Ec). cbn [Nat.add]. rewrite Eq.
    rewrite (bind_ok (of_option (Some _)) _ _ _ _ eq_refl), (bind_ok (put _) _ _ _ _ eq_refl). exists true, q'. split_and!; [done|done|].
    rewrite decide_False; [done|]. intros (i & Ei)%list_elem_of_lookup. pose proof (lookup_lt_Some _ _ _ Ei) as Hl. rewrite length_contents in Hl by done.
    rewrite contents_lookup in Ei by lia. apply (Hlo i h); [lia|done|by apply Hz].
Qed.

Lemma closed_spec self h c p : process_ok p -> p_connections p !! h = Some c -> ~ own_thread self c -> books_closed c = true ->
  ignored (dxf_close_connection calloc_ok close_ok self (Some h)) p = Ok tt (released h c p).
Proof using Type.
  intros H E Ho Hb. unfold dxf_close_connection, ignored. rewrite (bind_ok _ _ _ _ _ (can_deinit_spec self h c p E)), (bool_decide_false _ Ho). cbn [negb].
  destruct (deinit_spec close_ok self h c p E Hb (proj1 (process_has p h c H E))) as [r Er]. rewrite (bind_ok _ _ _ _ _ Er). by destruct r.
Qed.

(** Without some of the connections. *)
Definition without_connections (hs : list Z) (m : gmap Z contexts) : gmap Z contexts := foldr delete m hs.

Lemma close_each_spec self hs : forall i p, process_ok p -> NoDup hs ->
  (forall k h, hs !! k = Some h -> arr_elements (g_connection_queue p) !! (i + k)%nat = Some h) ->
  Forall (fun h => exists c, p_connections p !! h = Some c /\ ~ own_thread self c /\ books_closed c = true) hs ->
  exists p', close_loop calloc_ok close_ok self (length hs) i p = Ok tt p' /\ process_ok p' /\
    g_connection_queue p' = g_connection_queue p /\ (forall h, p_connections p' !! h = if decide (h ∈ hs) then None else p_connections p !! h) /\
    guard_initialized p' = guard_initialized p /\ queue_initialized p' = queue_initialized p.
Proof using Type.
  induction hs as [|h hs IH]; intros i p H Hd Hq Hf; cbn [close_loop length].
  { exists p. split_and!; try done. }
  apply NoDup_cons in Hd as [Hh Hd]. apply Forall_cons in Hf as [(c & Ec & Ho & Hb) Hf].
  rewrite (bind_ok get _ _ _ _ eq_refl). pose proof (Hq 0%nat h eq_refl) as E0. rewrite Nat.add_0_r in E0. rewrite E0.
  rewrite (bind_ok (of_option (Some h)) _ _ _ _ eq_refl), (bind_ok _ _ _ _ _ (closed_spec self h c p H Ec Ho Hb)).
  destruct (IH (S i) (released h c p)) as (p' & E & H' & Eq & Econ & Eg & Ei).
  - by apply released_ok.
  - done.
  - intros k h' Ek. rewrite Nat.add_succ_comm. by apply Hq.
  - apply Forall_forall. intros h' Hh'. rewrite Forall_forall in Hf. destruct (Hf h' Hh') as (c' & E' & Hc'). exists c'. split; [|done].
    cbn. rewrite lookup_delete_ne; [done|]. intros ->. done.
  - exists p'. split_and!; try done. intros h'. rewrite Econ. cbn. destruct (decide (h' ∈ hs)) as [Hin|Hin].
    + by rewrite decide_True by (by right).
    + destruct (decide (h = h')) as [->|Hne]; [by rewrite lookup_delete_eq, decide_True by left|].
      rewrite lookup_delete_ne by done. rewrite decide_False; [done|]. by intros [?|?]%elem_of_cons.
Qed.
End closing.
