(* ===== verification/ConnectionSetUp.v ===== *)
(** * ConnectionSetUp: making the contexts, whatever fails

    Every allocation may fail: then what was made is released again.  Mutexes are
    granted; two of them, of the processor of the messages, are never destroyed. *)

From S2P Require Import Prelude Arrays Memory Contexts Lifecycle LifecycleTheory.
Local Open Scope Z_scope.
Local Open Scope c_scope.

(** ** Making a context *)

(** The mutexes that stay when a context of the processor of the messages is freed. *)
Definition leftover (lost : list dx_mutex_t) : Prop :=
  Forall (fun x => exists a, x = record_digests_guard a \/ x = describe_protocol_guard a) lost.

(** What is made is new; after a failure nothing is left of it. *)
Definition made {T} (bs : T -> list Z) (ms : T -> list dx_mutex_t) (m : memory) (r : res memory T) : Prop :=
  match r with
  | Ok x m' => exists lost, grown (bs x) (ms x ++ lost) m m' /\ memory_ok m' /\ leftover lost
  | Err _ m' => exists lost, grown [] lost m m' /\ memory_ok m' /\ leftover lost
  | UB => False
  end.

Lemma leftover_nil : leftover [].
Proof. constructor. Qed.
Lemma leftover_index lost x : leftover lost -> x ∈ lost -> x.2 = 2 \/ x.2 = 3.
Proof. intros H Hx. apply (proj1 (Forall_forall _ _) H) in Hx as [a [->| ->]]; auto. Qed.
Lemma leftover_app l1 l2 : leftover l1 -> leftover l2 -> leftover (l1 ++ l2).
Proof. intros. by apply Forall_app. Qed.

Lemma grown_release bs ms lost m m' : memory_ok m -> grown bs (ms ++ lost) m m' -> grown [] lost m (without bs ms m').
Proof.
  intros [Hb _] [Nb Nm Fb Fm Eb Em Eu]. apply NoDup_app in Nm as (Nm & Hd & Nl). split; cbn; [constructor|done|by intros a ?%elem_of_nil| | | |].
  - intros x Hx. apply Fm, elem_of_app. by right.
  - rewrite Eb. set_solver.
  - rewrite Em, list_to_set_app_L. assert (Hn : forall x, x ∈ ms -> x ∉ mutexes m) by (intros x Hx; apply Fm, elem_of_app; by left). set_solver.
  - set_solver.
Qed.
Lemma without_ok bs ms m : memory_ok m -> memory_ok (without bs ms m).
Proof. intros [Hb Hm]. split; cbn; [set_solver|]. intros x [Hx _]%elem_of_difference. by apply Hm. Qed.

(** A part that was missing among the others. *)
Lemma concat_insert {A} (l : list (list A)) i x : l !! i = Some [] -> concat (<[i := x]> l) ≡ₚ concat l ++ x.
Proof.
  intros E. rewrite <- (take_drop_middle l i [] E) at 2. rewrite insert_take_drop by (by eapply lookup_lt_Some).
  rewrite !concat_app. cbn. rewrite <- (assoc_L (++)). apply Permutation_app_head, Permutation_app_comm.
Qed.
Lemma part_added (c c' : contexts) i part h : parts c !! i = Some ([], []) -> parts c' = <[i := part]> (parts c) ->
  connection_list h c' ≡ₚ connection_list h c ++ part.1 /\ destroyed_mutexes c' ≡ₚ destroyed_mutexes c ++ part.2.
Proof.
  intros E Ep. unfold connection_list, destroyed_mutexes. rewrite Ep, !list_fmap_insert, !concat_insert by (by rewrite list_lookup_fmap, E).
  split; [|done]. rewrite <- !(assoc_L (++)). apply Permutation_app_head, Permutation_app_comm.
Qed.

Section set_up.
Context (calloc_ok : nat -> block_kind -> bool) (mutex_ok : nat -> bool).
Context (mutexes_granted : forall n, mutex_ok n = true).

Lemma made_calloc kind m : memory_ok m -> made (fun a => [a]) (fun _ => []) m (dx_calloc calloc_ok kind m).
Proof using Type.
  intros Hm. destruct (calloc_spec calloc_ok kind m Hm) as [(a & m' & -> & Hg)|(m' & n & -> & Hg & _)]; exists [];
    (split_and!; [exact Hg| |apply leftover_nil]); apply (grown_ok _ _ _ _ Hm Hg); by intros x ?%elem_of_nil.
Qed.

(** One more context or block after those of [bs] and [ms]; when it cannot be made the
    cleanup releases them. *)
Lemma made_step {T U V} (c : M memory U) (cleanup : M memory V) (k : U -> M memory T) bs' ms' bs ms lost L X m0 m1 :
  memory_ok m0 -> grown bs (ms ++ lost) m0 m1 -> memory_ok m1 -> leftover lost -> made bs' ms' m1 (c m1) -> releases cleanup bs ms ->
  (forall u m2 lost', grown (bs ++ bs' u) ((ms ++ ms' u) ++ lost') m0 m2 -> memory_ok m2 -> leftover lost' -> made L X m0 (k u m2)) ->
  made L X m0 (checked_call (or_cleanup c cleanup) k m1).
Proof using Type.
  intros H0 Hg H1 Hl Hc Hr Hk. unfold made in Hc. destruct (c m1) as [u m2|e m2|] eqn:E; [| |done].
  - rewrite (bind_ok _ _ m1 u m2) by (unfold or_cleanup; by rewrite (bind_ok _ _ _ _ _ (catch_ok _ _ _ _ E))).
    destruct Hc as (lost' & Hg' & Hm2 & Hl'). apply (Hk u m2 (lost ++ lost')); [|done|by apply leftover_app].
    eapply grown_perm; [done| |by eapply grown_app]. rewrite <- !(assoc_L (++)). apply Permutation_app_head. rewrite !(assoc_L (++)). apply Permutation_app_tail, Permutation_app_comm.
  - destruct Hc as (lost' & Hg' & Hm2 & Hl'). pose proof (grown_app _ _ _ _ _ _ _ Hg Hg') as H2. rewrite app_nil_r, <- (assoc_L (++)) in H2.
    assert (Hh : has bs ms m2) by (apply grown_has in H2; destruct H2 as (Nb & Nm & Fb & Fm); apply NoDup_app in Nm as [Nm _]; by apply Forall_app in Fm as [Fm _]).
    destruct (Hr m2 Hh) as [v Ev]. unfold or_cleanup, checked_call, catch. rewrite E, Ev.
    exists (lost ++ lost'). split_and!; [by apply (grown_release _ ms)|by apply without_ok|by apply leftover_app].
Qed.
(** One more block. *)
Lemma made_block {T V} kind (cleanup : M memory V) (k : Z -> M memory T) bs ms lost L X m0 m1 :
  memory_ok m0 -> grown bs (ms ++ lost) m0 m1 -> memory_ok m1 -> leftover lost -> releases cleanup bs ms ->
  (forall a m2, grown (bs ++ [a]) (ms ++ lost) m0 m2 -> memory_ok m2 -> made L X m0 (k a m2)) ->
  made L X m0 (checked_call (or_cleanup (dx_calloc calloc_ok kind) cleanup) k m1).
Proof using Type.
  intros H0 Hg H1 Hl Hr Hk. destruct (calloc_spec calloc_ok kind m1 H1) as [(a & m2 & E & Hg2)|(m2 & n & E & Hg2 & _)];
    pose proof (grown_app _ _ _ _ _ _ _ Hg Hg2) as Hg3; rewrite app_nil_r in Hg3;
    assert (Hm2 : memory_ok m2) by (apply (grown_ok _ _ _ _ H1 Hg2); by intros x ?%elem_of_nil).
  - rewrite (bind_ok _ _ m1 a m2) by (unfold or_cleanup; by rewrite (bind_ok _ _ _ _ _ (catch_ok _ _ _ _ E))). by apply Hk.
  - rewrite app_nil_r in Hg3.
    assert (Hh : has bs ms m2) by (apply grown_has in Hg3; destruct Hg3 as (Nb & Nm & Fb & Fm); apply NoDup_app in Nm as [Nm _]; by apply Forall_app in Fm as [Fm _]).
    destruct (Hr m2 Hh) as [v Ev]. unfold or_cleanup, checked_call, catch. rewrite E, Ev.
    exists lost. split_and!; [by apply (grown_release _ ms)|by apply without_ok|done].
Qed.
(** The first block has nothing before it. *)
Lemma made_first {T} kind (k : Z -> M memory T) L X m0 : memory_ok m0 ->
  (forall a m1, grown [a] [] m0 m1 -> memory_ok m1 -> made L X m0 (k a m1)) -> made L X m0 (checked_call (dx_calloc calloc_ok kind) k m0).
Proof using Type.
  intros H0 Hk. destruct (calloc_spec calloc_ok kind m0 H0) as [(a & m' & E & Hg)|(m' & n & E & Hg & _)].
  - rewrite (bind_ok _ _ _ _ _ E). apply Hk; [done|]. apply (grown_ok _ _ _ _ H0 Hg). by intros x ?%elem_of_nil.
  - unfold checked_call. rewrite E. exists []. split_and!; [exact Hg| |apply leftover_nil]. apply (grown_ok _ _ _ _ H0 Hg). by intros x ?%elem_of_nil.
Qed.
Lemma made_mutex {T V} x (cleanup : M memory V) (k : unit -> M memory T) bs ms L X m0 m1 :
  memory_ok m0 -> grown bs ms m0 m1 -> memory_ok m1 -> x.1 ∈ bs -> x ∉ ms ->
  (forall m2, grown bs (ms ++ [x]) m0 m2 -> memory_ok m2 -> made L X m0 (k tt m2)) ->
  made L X m0 (checked_call (or_cleanup (dx_mutex_create mutex_ok x) cleanup) k m1).
Proof using mutexes_granted.
  intros H0 Hg H1 Hx Hn Hk. destruct x as [a i]. cbn in Hx.
  assert (Hnew : (a, i) ∉ mutexes m1) by exact (grown_new_mutex _ _ _ _ _ _ H0 Hg (gn_new _ _ _ _ Hg a Hx) Hn).
  destruct (mutex_spec mutex_ok (a, i) m1 mutexes_granted Hnew) as (m2 & E & Hg2).
  rewrite (bind_ok _ _ m1 tt m2) by (unfold or_cleanup; by rewrite (bind_ok _ _ _ _ _ (catch_ok _ _ _ _ E))).
  apply Hk.
  - rewrite <- (app_nil_r bs). by eapply grown_app.
  - apply (grown_ok _ _ _ _ H1 Hg2). intros y ->%list_elem_of_singleton. cbn. pose proof (gn_used _ _ _ _ Hg). pose proof (gn_used _ _ _ _ Hg2). set_solver.
Qed.
Lemma made_ret {T} (x : T) L X m0 m1 lost : grown (L x) (X x ++ lost) m0 m1 -> memory_ok m1 -> leftover lost -> made L X m0 (ret x m1).
Proof using Type. intros Hg Hm Hl. by exists lost. Qed.

(** ** The contexts *)

Lemma made_task_queue m : memory_ok m ->
  made task_queue_list (fun q => mutex_if (tq_mutex q) (guard (tq_block q))) m (dx_create_task_queue calloc_ok mutex_ok m).
Proof using mutexes_granted.
  intros Hm. apply made_first; [done|]. intros a m1 Hg H1. eapply made_mutex; [done..|by left|by intros ?%elem_of_nil|].
  intros m2 Hg2 H2. by apply (made_ret _ _ _ _ _ []); [|done|apply leftover_nil].
Qed.
Lemma made_network m : memory_ok m -> made network_list network_mutexes m (network_context calloc_ok mutex_ok m).
Proof using mutexes_granted.
  intros Hm. apply made_first; [done|]. intros a m1 Hg H1. eapply (made_step _ _ _ _ _ _ [] []); [done|exact Hg|done|apply leftover_nil|
    by apply made_task_queue|apply releases_network|]. intros q m2 lost Hg2 H2 Hl.
  assert (Hne : a <> tq_block q) by (intros ->; pose proof (gn_nodup _ _ _ _ Hg2) as Nd; apply NoDup_cons in Nd as [Nd _]; apply Nd; unfold task_queue_list; set_solver).
  eapply made_mutex; [done|exact Hg2|done|by left| |].
  - intros [H|H]%elem_of_app; [|by destruct (leftover_index lost _ Hl H) as [?|?]].
    destruct (tq_mutex q); [|by apply elem_of_nil in H]. by apply list_elem_of_singleton in H as [= ?].
  - intros m3 Hg3 H3. apply (made_ret _ _ _ _ _ lost); [|done|done]. unfold network_list, network_mutexes, new_network. cbn.
    eapply grown_perm; [| |exact Hg3]; [by rewrite (Permutation_app_comm [a])|]. rewrite <- !(assoc_L (++)). cbn.
    apply Permutation_app_head, Permutation_app_comm.
Qed.
Lemma made_structures m : memory_ok m -> made structures_list (fun x => [guard (ds_block x)]) m (structures_context calloc_ok mutex_ok m).
Proof using mutexes_granted.
  intros Hm. apply made_first; [done|]. intros a m1 Hg H1.
  assert (Hnew : guard a ∉ mutexes m1) by (apply (grown_new_mutex _ _ _ _ _ _ Hm Hg); [apply (gn_new _ _ _ _ Hg); by left|by intros ?%elem_of_nil]).
  destruct (mutex_spec mutex_ok (guard a) m1 mutexes_granted Hnew) as (m2 & E & Hg2). rewrite (bind_ok _ _ m1 tt m2) by (unfold ignored; by rewrite E).
  pose proof (grown_app _ _ _ _ _ _ _ Hg Hg2) as Hg3. apply (made_ret _ _ _ _ _ []); [exact Hg3| |apply leftover_nil].
  apply (grown_ok _ _ _ _ Hm Hg3). intros x ->%list_elem_of_singleton. apply (gn_used _ _ _ _ Hg3). cbn. set_solver.
Qed.
Lemma made_output m : memory_ok m ->
  made (fun x => [bo_block x]) (fun x => mutex_if (bo_mutex x) (guard (bo_block x))) m (output_context calloc_ok mutex_ok m).
Proof using mutexes_granted.
  intros Hm. apply made_first; [done|]. intros a m1 Hg H1. eapply made_mutex; [done..|by left|by intros ?%elem_of_nil|].
  intros m2 Hg2 H2. by apply (made_ret _ _ _ _ _ []); [|done|apply leftover_nil].
Qed.
Lemma made_snapshots m : memory_ok m -> made snapshots_list snapshots_mutexes m (snapshots_context calloc_ok mutex_ok m).
Proof using mutexes_granted.
  intros Hm. apply made_first; [done|]. intros a m1 Hg H1. eapply made_mutex; [done..|by left|by intros ?%elem_of_nil|].
  intros m2 Hg2 H2. by apply (made_ret _ _ _ _ _ []); [|done|apply leftover_nil].
Qed.
Lemma made_regional m : memory_ok m -> made (fun a => [a]) (fun a => [guard a]) m (regional_context calloc_ok mutex_ok m).
Proof using mutexes_granted.
  intros Hm. apply made_first; [done|]. intros a m1 Hg H1. eapply made_mutex; [done..|by left|by intros ?%elem_of_nil|].
  intros m2 Hg2 H2. by apply (made_ret _ _ _ _ _ []); [|done|apply leftover_nil].
Qed.
(** The mutex of the context would be destroyed before it is made if there were no table. *)
Lemma made_levels m : (forall n, calloc_ok n for_source_table = true) -> memory_ok m ->
  made level_list level_mutexes m (levels_context calloc_ok mutex_ok m).
Proof using mutexes_granted.
  intros Ht Hm. apply made_first; [done|]. intros a m1 Hg H1.
  destruct (calloc_spec calloc_ok for_source_table m1 H1) as [(b & m2 & E & Hg2)|(m2 & n & _ & _ & Hn)]; [|by rewrite Ht in Hn].
  rewrite (bind_ok _ _ m1 b m2) by (unfold or_cleanup; by rewrite (bind_ok _ _ _ _ _ (catch_ok _ _ _ _ E))).
  pose proof (grown_app _ _ _ _ _ _ _ Hg Hg2) as Hg3.
  eapply made_mutex; [done|exact Hg3|apply (grown_ok _ _ _ _ Hm Hg3); by intros x ?%elem_of_nil|by left|by intros ?%elem_of_nil|].
  intros m3 Hg4 H4. apply (made_ret _ _ _ _ _ []); [|done|apply leftover_nil]. by eapply grown_perm; [apply Permutation_app_comm|done|exact Hg4].
Qed.
Lemma made_transcoder linked m : memory_ok m -> linked = true -> made transcoder_list (fun _ => []) m (transcoder_context calloc_ok linked m).
Proof using Type.
  intros Hm ->. apply made_first; [done|]. intros a m1 Hg H1. by apply (made_ret _ _ _ _ _ []); [|done|apply leftover_nil].
Qed.
Lemma made_server linked m : memory_ok m -> linked = true -> made server_list (fun _ => []) m (server_context calloc_ok mutex_ok linked m).
Proof using mutexes_granted.
  intros Hm ->. apply made_first; [done|]. intros a m1 Hg H1. eapply made_mutex; [done..|by left|by intros ?%elem_of_nil|].
  intros m2 Hg2 H2. cbn [negb].
  assert (Hl1 : leftover [record_digests_guard a]) by (by constructor; [exists a; left|constructor]).
  eapply (made_block _ _ _ _ []); [done|exact Hg2|done|exact Hl1|apply releases_free|]. intros buffer m3 Hg3 H3.
  eapply made_mutex; [done|exact Hg3|done|by left|by intros [= ?]%list_elem_of_singleton|].
  intros m4 Hg4 H4. apply (made_ret _ _ _ _ _ [record_digests_guard a; describe_protocol_guard a]); [|done|].
  - by eapply grown_perm; [apply Permutation_app_comm|done|exact Hg4].
  - constructor; [by exists a; left|]. constructor; [by exists a; right|constructor].
Qed.

(** The mutexes of the processor of the messages are there, and no book is open. *)
Lemma or_cleanup_ok {T V} (c : M memory T) (cleanup : M memory V) m x m' : or_cleanup c cleanup m = Ok x m' -> c m = Ok x m'.
Proof using Type.
  unfold or_cleanup, checked_call, catch. destruct (c m) as [x1 m1|e m1|]; [done| |done].
  intros H. destruct (cleanup m1); discriminate.
Qed.
Lemma calloc_mutexes kind m a m' : dx_calloc calloc_ok kind m = Ok a m' -> mutexes m' = mutexes m.
Proof using Type. unfold dx_calloc, requested. unfold_m. destruct (calloc_ok _ _); [|done]. by intros [= _ <-]. Qed.
Lemma create_mutexes x m u m' : dx_mutex_create mutex_ok x m = Ok u m' -> mutexes m' = {[x]} ∪ mutexes m.
Proof using Type. unfold dx_mutex_create, requested, update. unfold_m. destruct (mutex_ok _); [|done]. by intros [= _ <-]. Qed.
Lemma server_kept linked m x m' : server_context calloc_ok mutex_ok linked m = Ok x m' -> Forall (fun y => y ∈ mutexes m') (server_mutexes x).
Proof using Type.
  clear mutexes_granted. unfold server_context. intros (a & m1 & _ & H)%bind_inv.
  apply bind_inv in H as ([] & m2 & E2%or_cleanup_ok%create_mutexes & H). destruct linked; cbn [negb] in H.
  2: { apply bind_inv in H as (? & ? & _ & H). discriminate. }
  apply bind_inv in H as (b & m3 & E3%or_cleanup_ok%calloc_mutexes & H).
  apply bind_inv in H as ([] & m4 & E4%or_cleanup_ok%create_mutexes & H). injection H as <- <-. cbn.
  constructor; [set_solver|]. constructor; [set_solver|constructor].
Qed.
Lemma levels_empty m x m' : levels_context calloc_ok mutex_ok m = Ok x m' -> no_sources x = true.
Proof using Type.
  unfold levels_context. intros (a & m1 & _ & H)%bind_inv. apply bind_inv in H as (b & m2 & _ & H).
  apply bind_inv in H as ([] & m3 & _ & H). injection H as <- _. clear. vm_compute. reflexivity.
Qed.

(** ** The connection while its contexts are made *)

(** A connection whose contexts are being made has no book, and the mutexes that its
    contexts will leave. *)
Definition fresh_contexts (c : contexts) (m : memory) : Prop :=
  books_closed c = true /\ Forall (fun x => x ∈ mutexes m) (kept_mutexes c).

Record set_up (p0 : process) (h : Z) (c : contexts) (lost : list dx_mutex_t) (p : process) : Prop := {
  su_connections : p_connections p = <[h := c]> (p_connections p0);
  su_grown : grown (connection_list h c) (destroyed_mutexes c ++ lost) (p_memory p0) (p_memory p);
  su_memory : memory_ok (p_memory p);
  su_left : leftover lost;
  su_fresh : fresh_contexts c (p_memory p);
  su_count : g_connection_count p = g_connection_count p0 + 1;
  su_queue : g_connection_queue p = g_connection_queue p0 /\ guard_initialized p = guard_initialized p0 /\ queue_initialized p = queue_initialized p0;
}.

(** A subsystem adds its context, or leaves the connection as it was. *)
Definition initialized {T} (p0 : process) (h : Z) (c : contexts) (set : T -> contexts -> contexts) (r : res process unit) : Prop :=
  match r with
  | Ok _ p => exists x lost, set_up p0 h (set x c) lost p
  | Err _ p => exists lost, set_up p0 h c lost p
  | UB => False
  end.

Lemma data_spec p0 h c lost p : set_up p0 h c lost p -> connection_data h p = Ok c p.
Proof using Type. intros [E _ _ _ _ _ _]. unfold connection_data. unfold_m. by rewrite E, lookup_insert_eq. Qed.

Lemma init_one {T} (m : M memory T) L X (set : T -> contexts -> contexts) p0 h c lost p :
  set_up p0 h c lost p -> made L X (p_memory p) (m (p_memory p)) ->
  (exists i, parts c !! i = Some ([], []) /\ forall x, parts (set x c) = <[i := (L x, X x)]> (parts c)) ->
  (forall x m', m (p_memory p) = Ok x m' -> fresh_contexts c m' -> fresh_contexts (set x c) m') ->
  initialized p0 h c set ((x <-- in_memory m;; dx_set_subsystem_data h (set x)) p).
Proof using Type.
  intros Hs Hm (i & Ei & Hp) Hfr. assert (HL := fun x => part_added c (set x c) i _ h Ei (Hp x)). pose proof Hs as [Ec Hg Hmo Hl Hf Hn Hq].
  assert (Hfresh : forall bs ms m', grown bs ms (p_memory p) m' -> fresh_contexts c m').
  { intros bs ms m' Hg'. destruct Hf as [Hb Hk]. split; [done|]. eapply Forall_impl; [exact Hk|]. intros x Hx.
    rewrite (gn_mutexes _ _ _ _ Hg'). by apply elem_of_union_r. }
  unfold initialized, checked_call, in_memory, on.
  destruct (m (p_memory p)) as [x m'|e m'|] eqn:E; [| |done].
  - destruct Hm as (lost' & Hg' & Hm' & Hl'). unfold dx_set_subsystem_data, connection_data. unfold_m. cbn [p_connections set_p_memory].
    rewrite Ec, lookup_insert_eq. exists x, (lost ++ lost'). unfold update. split; try done.
    + cbn [set_p_connections set_p_memory p_connections]. by rewrite Ec, insert_insert_eq.
    + eapply grown_perm; [| |by eapply grown_app]; [by rewrite (proj1 (HL x))|]. rewrite (proj2 (HL x)), <- !(assoc_L (++)). apply Permutation_app_head.
      rewrite !(assoc_L (++)). apply Permutation_app_tail, Permutation_app_comm.
    + by apply leftover_app.
    + apply (Hfr x m' eq_refl). by eapply Hfresh.
  - destruct Hm as (lost' & Hg' & Hm' & Hl'). exists (lost ++ lost'). split; try done; [|by apply leftover_app|by eapply Hfresh].
    cbn [set_p_memory p_memory].
    rewrite (assoc_L (++)), <- (app_nil_r (connection_list h c)). by eapply grown_app.
Qed.
End set_up.


(** ** All the contexts *)

Definition complete (c : contexts) : Prop :=
  is_Some (c_network c) /\ is_Some (c_subscriptions c) /\ is_Some (c_transcoder c) /\ is_Some (c_structures c) /\ is_Some (c_records c) /\
  is_Some (c_server c) /\ is_Some (c_input c) /\ is_Some (c_output c) /\ is_Some (c_impl c) /\ is_Some (c_snapshots c) /\
  is_Some (c_levels c) /\ is_Some (c_regional c).

Definition finished (p0 : process) (h : Z) (r : res process unit) : Prop :=
  match r with
  | Ok _ p => exists c lost, set_up p0 h c lost p /\ complete c
  | Err _ p => exists c lost, set_up p0 h c lost p
  | UB => False
  end.
Lemma init_next {T} f queue (set : T -> contexts -> contexts) p0 h c p :
  initialized p0 h c set (f h p) ->
  (forall x lost p', set_up p0 h (set x c) lost p' -> finished p0 h (init_loop queue h p')) ->
  finished p0 h (init_loop (f :: queue) h p).
Proof.
  unfold initialized. cbn [init_loop]. unfold checked_call. destruct (f h p) as [u p'|e p'|]; [| |done].
  - intros (x & lost & Hs) Hk. by eapply Hk.
  - intros (lost & Hs) _. by exists c, lost.
Qed.

Section all.
Context (calloc_ok : nat -> block_kind -> bool) (mutex_ok : nat -> bool).
Context (mutexes_granted : forall n, mutex_ok n = true).
Context (objects_granted : forall n, calloc_ok n for_object = true) (tables_granted : forall n, calloc_ok n for_source_table = true).

Lemma new_spec m : memory_ok m -> exists a m', dx_calloc calloc_ok for_object m = Ok a m' /\ grown [a] [] m m' /\ memory_ok m'.
Proof using objects_granted.
  intros Hm. destruct (calloc_spec calloc_ok for_object m Hm) as [(a & m' & E & Hg)|(m' & n & _ & _ & Hn)]; [|by rewrite objects_granted in Hn].
  exists a, m'. split_and!; [done|done|]. apply (grown_ok _ _ _ _ Hm Hg). by intros x ?%elem_of_nil.
Qed.
Lemma subscriptions_init p0 h c lost p : set_up p0 h c lost p -> c_subscriptions c = None ->
  initialized p0 h c (fun x => set_subscriptions (ObjectContext x [])) (dx_ccs_event_subscription_init calloc_ok h p).
Proof using objects_granted.
  intros Hs Ec. pose proof (su_memory _ _ _ _ _ Hs) as Hm.
  assert (E : dx_ccs_event_subscription_init calloc_ok h p =
    (a <-- in_memory (dx_calloc calloc_ok for_object);; dx_set_subsystem_data h (set_subscriptions (ObjectContext a []))) p).
  { destruct (new_spec (p_memory p) Hm) as (a & m' & E & _). unfold dx_ccs_event_subscription_init, new_nothrow.
    rewrite (bind_ok _ _ _ (Some a) (set_p_memory m' p)) by (apply in_memory_ok; by rewrite (bind_ok _ _ _ _ _ (catch_ok _ _ _ _ E))).
    by rewrite (bind_ok _ _ _ _ _ (in_memory_ok _ _ _ _ E)). }
  rewrite E. apply (init_one _ (fun a => [a]) (fun _ => []) (fun x => set_subscriptions (ObjectContext x [])) _ _ _ lost); [done|by apply made_calloc| |].
  - exists 2%nat. split; [cbn; by rewrite Ec|done].
  - done.
Qed.
Lemma impl_init p0 h c lost p : set_up p0 h c lost p -> c_impl c = None -> is_Some (c_input c) -> is_Some (c_output c) ->
  initialized p0 h c set_impl (dx_css_connection_impl_init calloc_ok h p).
Proof using objects_granted.
  intros Hs Ec [i Hi] [o Ho]. pose proof (su_memory _ _ _ _ _ Hs) as Hm.
  destruct (new_spec (p_memory p) Hm) as (a & m1 & E1 & Hg1 & Hm1). destruct (new_spec m1 Hm1) as (b & m2 & E2 & Hg2 & Hm2).
  destruct (new_spec m2 Hm2) as (d & m3 & E3 & Hg3 & Hm3). set (x := ObjectContext a [d; b]).
  assert (E : dx_css_connection_impl_init calloc_ok h p = (x <-- in_memory (fun _ => Ok x m3);; dx_set_subsystem_data h (set_impl x)) p).
  { unfold dx_css_connection_impl_init. rewrite (bind_ok _ _ _ _ _ (data_spec _ _ _ _ _ Hs)), Hi, Ho.
    assert (Eo : connection_object calloc_ok (p_memory p) = Ok (Some x) m3).
    { unfold connection_object, new_nothrow, new_object. rewrite (bind_ok _ _ (p_memory p) (Some a) m1) by (by rewrite (bind_ok _ _ _ _ _ (catch_ok _ _ _ _ E1))).
      rewrite (bind_ok _ _ m1 b m2) by (by rewrite (bind_ok _ _ _ _ _ (catch_ok _ _ _ _ E2))).
      by rewrite (bind_ok _ _ m2 d m3) by (by rewrite (bind_ok _ _ _ _ _ (catch_ok _ _ _ _ E3))). }
    by rewrite (bind_ok _ _ _ _ _ (in_memory_ok _ _ _ _ Eo)). }
  rewrite E. apply (init_one _ context_list (fun _ => []) set_impl _ _ _ lost); [done| |exists 4%nat; split; [cbn; by rewrite Ec|done]|done].
  exists []. split_and!; [|done|apply leftover_nil]. pose proof (grown_app _ _ _ _ _ _ _ (grown_app _ _ _ _ _ _ _ Hg1 Hg2) Hg3) as Hg.
  eapply grown_perm; [|done|exact Hg]. cbn. apply (Permutation_rev [a; b; d]).
Qed.

Lemma regional_part c a : parts (set_regional a c) = <[11%nat := ([a], [guard a])]> (parts c).
Proof using Type. reflexivity. Qed.
Lemma regional_missing c : c_regional c = None -> parts c !! 11%nat = Some ([], []).
Proof using Type. intros E. cbn. by rewrite E. Qed.
(** A subsystem whose context is a part on its own. *)
Ltac init_part Hs made i :=
  eapply init_next; [eapply init_one; [exact Hs|apply made; [by eapply su_memory]|exists i; by split|done]|clear Hs; intros ? ? ? Hs].

Lemma init_all p0 h p : set_up p0 h no_contexts [] p -> finished p0 h
  (init_loop ((fun h => x <-- in_memory (network_context calloc_ok mutex_ok);; dx_set_subsystem_data h (set_network x)) ::
    tail (g_initializer_queue calloc_ok mutex_ok)) h p).
Proof using mutexes_granted objects_granted tables_granted.
  intros Hs.
  init_part Hs (made_network calloc_ok mutex_ok mutexes_granted) 0%nat.
  init_part Hs (made_structures calloc_ok mutex_ok mutexes_granted) 3%nat.
  init_part Hs (made_calloc calloc_ok) 5%nat.
  init_part Hs (made_output calloc_ok mutex_ok mutexes_granted) 6%nat.
  eapply init_next; [by eapply impl_init; [exact Hs|done|eexists|eexists]|clear Hs; intros ? ? ? Hs].
  eapply init_next; [eapply (init_one _ _ _ (fun a => set_records (RecordBlocks a [] no_objects no_objects)));
    [exact Hs|apply made_calloc; by eapply su_memory|exists 7%nat; by split|done]|clear Hs; intros ? ? ? Hs].
  eapply init_next; [unfold dx_ccs_server_msg_processor_init; rewrite (bind_ok _ _ _ _ _ (data_spec _ _ _ _ _ Hs));
    eapply init_one; [exact Hs|by apply made_server; [done|by eapply su_memory|]|exists 1%nat; by split|
      intros ? ? E [Hb _]; split; [done|by eapply server_kept]]|clear Hs; intros ? ? ? Hs].
  eapply init_next; [by eapply subscriptions_init|clear Hs; intros ? ? ? Hs].
  eapply init_next; [unfold dx_ccs_record_transcoder_init; rewrite (bind_ok _ _ _ _ _ (data_spec _ _ _ _ _ Hs));
    eapply init_one; [exact Hs|by apply made_transcoder; [by eapply su_memory|]|exists 8%nat; by split|done]|clear Hs; intros ? ? ? Hs].
  init_part Hs (made_snapshots calloc_ok mutex_ok mutexes_granted) 9%nat.
  eapply init_next; [eapply init_one; [exact Hs|apply made_levels; [done|done|by eapply su_memory]|exists 10%nat; by split|
    intros ? ? E [_ Hk]; split; [by eapply levels_empty|done]]|clear Hs; intros ? ? ? Hs].
  eapply init_next; [eapply (init_one _ (fun a => [a]) (fun a => [guard a]) set_regional);
    [exact Hs|apply made_regional; [done|by eapply su_memory]|exists 11%nat; split; [by apply regional_missing|intros ?; apply regional_part]|done]|clear Hs; intros ? ? ? Hs].
  eexists _, _. split; [exact Hs|]. repeat split; by eexists.
Qed.
End all.
