(* ===== verification/LifecycleClaims.v ===== *)
(** * LifecycleClaims: connections leave nothing behind

    Making a connection makes all its contexts or leaves nothing; releasing it, when
    its price level books are closed, frees exactly its blocks and leaves two mutexes;
    one that is closed from its own threads is released by the next call from another.
    With a book open the release is undefined. *)

From S2P Require Import Prelude Arrays Memory Contexts Lifecycle LifecycleTheory ConnectionSetUp.
Local Open Scope Z_scope.
Local Open Scope c_scope.

Lemma connection_block h c p : process_ok p -> p_connections p !! h = Some c -> h ∈ used (p_memory p).
Proof.
  intros H E. destruct (process_has p h c H E) as [(_ & _ & Hb & _) _]. destruct H as [[Hu _] _ _ _]. apply Hu.
  apply (proj1 (Forall_forall _ _) Hb). unfold connection_list. apply elem_of_app. right. by left.
Qed.

(** The other connections keep what they have. *)
Lemma has_still bs ms m m' : has bs ms m -> blocks m ⊆ blocks m' -> mutexes m ⊆ mutexes m' -> has bs ms m'.
Proof. intros (Nb & Nm & Fb & Fm) Hb Hm. split_and!; [done|done| |]; (eapply Forall_impl; [eassumption|set_solver]). Qed.
Lemma has_grown bs ms bs' ms' lost m m' : memory_ok m -> has bs' ms' m -> grown bs (ms ++ lost) m m' -> has (bs ++ bs') (ms ++ ms') m'.
Proof.
  intros [Hu _] Hh Hg. pose proof (grown_has _ _ _ _ Hg) as (Nb & Nm & Fb & Fm). destruct Hg as [_ _ Gb Gm Eb Em _].
  apply NoDup_app in Nm as (Nm & _ & _). apply Forall_app in Fm as [Fm _]. pose proof Hh as (Nb' & Nm' & Fb' & Fm').
  pose proof (proj1 (Forall_forall _ _) Fb') as Fb2. pose proof (proj1 (Forall_forall _ _) Fm') as Fm2.
  split_and!.
  - apply NoDup_app. split_and!; [done| |done]. intros a Ha Ha'. apply (Gb a Ha), Hu, (Fb2 a Ha').
  - apply NoDup_app. split_and!; [done| |done]. intros x Hx Hx'. apply (Gm x); [apply elem_of_app; by left|by apply Fm2].
  - apply Forall_app. split; [done|]. apply Forall_forall. intros a Ha. rewrite Eb. apply elem_of_union_r, (Fb2 a Ha).
  - apply Forall_app. split; [done|]. apply Forall_forall. intros x Hx. rewrite Em. apply elem_of_union_r, (Fm2 x Hx).
Qed.

Lemma kept_grown bs ms m m' l : grown bs ms m m' -> Forall (fun x => x ∈ mutexes m) l -> Forall (fun x => x ∈ mutexes m') l.
Proof. intros Hg Hl. eapply Forall_impl; [exact Hl|]. intros x Hx. rewrite (gn_mutexes _ _ _ _ Hg). by apply elem_of_union_r. Qed.

(** What a failure leaves: the connections from before, and no block. *)
Definition nothing_left (p p' : process) : Prop :=
  process_ok p' /\ p_connections p' = p_connections p /\ blocks (p_memory p') = blocks (p_memory p) /\
  exists lost, mutexes (p_memory p') = list_to_set lost ∪ mutexes (p_memory p) /\ leftover lost.
Lemma nothing_left_spec p p' lost : process_ok p -> p_connections p' = p_connections p -> g_connection_count p' = g_connection_count p ->
  grown [] lost (p_memory p) (p_memory p') -> memory_ok (p_memory p') -> leftover lost -> nothing_left p p'.
Proof.
  intros [Hm Hh Hk Hc] Ec En Hg Hm' Hl. split_and!; [|done| |exists lost; split; [apply (gn_mutexes _ _ _ _ Hg)|done]].
  - split; rewrite ?Ec, ?En; [done| | |done]; [by apply (has_grown [] [] _ _ lost _ _ Hm Hh)|]. intros h c E. by eapply kept_grown, Hk.
  - pose proof (gn_blocks _ _ _ _ Hg) as Eb. cbn in Eb. set_solver.
Qed.
(** A connection whose contexts cannot be made is released. *)
Lemma released_nothing p0 h c lost p : process_ok p0 -> p_connections p0 !! h = None -> set_up p0 h c lost p ->
  has (connection_list h c) (destroyed_mutexes c) (p_memory p) /\ nothing_left p0 (released h c p).
Proof.
  intros H0 Eh [Ec Hg Hm Hl _ Hn _]. pose proof H0 as [Hm0 _ _ Hc]. split.
  - apply grown_has in Hg as (Nb & Nm & Fb & Fm). apply NoDup_app in Nm as [Nm _]. by apply Forall_app in Fm as [Fm _].
  - apply (nothing_left_spec _ _ lost); cbn; [done| | | |by apply without_ok|done].
    + rewrite Ec. by rewrite delete_insert_id.
    + rewrite Hn. unfold one_less. destruct (Z.ltb_spec 0 (g_connection_count p0 + 1)); lia.
    + by apply (grown_release _ (destroyed_mutexes c)).
Qed.
(** A connection with its contexts is one more. *)
Lemma set_up_ok p0 h c lost p : process_ok p0 -> p_connections p0 !! h = None -> set_up p0 h c lost p -> process_ok p.
Proof.
  intros [Hm0 Hh Hk Hc] Eh [Ec Hg Hm Hl [_ Hf] Hn _]. split; [done| | |].
  - rewrite Ec. eapply has_perm; [symmetry; by apply all_blocks_insert|symmetry; by apply all_mutexes_insert|exact (has_grown _ _ _ _ _ _ _ Hm0 Hh Hg)].
  - rewrite Ec. intros h' c' [[-> ->]|[_ E]]%lookup_insert_Some; [done|]. eapply kept_grown; [exact Hg|by eapply Hk].
  - rewrite Hn, Ec, map_size_insert_None by done. lia.
Qed.

(** The result of making a connection. *)
Lemma init_result calloc_ok mutex_ok close_ok self p :
  (forall n, mutex_ok n = true) -> (forall n, calloc_ok n for_object = true) -> (forall n, calloc_ok n for_source_table = true) -> process_ok p ->
  match dx_init_connection calloc_ok mutex_ok close_ok self p with
  | Ok h p' => p_connections p !! h = None /\ process_ok p' /\ exists c, p_connections p' = <[h := c]> (p_connections p) /\ complete c
  | Err _ p' => nothing_left p p'
  | UB => False
  end.
Proof.
  intros Hmu Ho Ht Hp. pose proof Hp as [Hm _ _ _]. unfold dx_init_connection.
  destruct (calloc_spec calloc_ok for_connection (p_memory p) Hm) as [(h & m1 & E1 & Hg)|(m1 & n & E1 & Hg & _)].
  2: { unfold checked_call at 1, in_memory, on. rewrite E1. apply (nothing_left_spec _ _ []); try done; [|apply leftover_nil].
       apply (grown_ok _ _ _ _ Hm Hg). by intros x ?%elem_of_nil. }
  rewrite (bind_ok _ _ _ _ _ (in_memory_ok _ _ _ _ E1)), (bind_ok (update _) _ _ _ _ eq_refl).
  assert (Hnew : p_connections p !! h = None).
  { apply eq_None_ne_Some. intros c E. apply (gn_new _ _ _ _ Hg h); [by left|]. by eapply connection_block. }
  set (p1 := set_p_connections _ (set_p_memory m1 p)).
  assert (Hs : set_up p h no_contexts [] (set_count (g_connection_count p1 + 1) p1)).
  { split; cbn; try done; [|apply leftover_nil]. apply (grown_ok _ _ _ _ Hm Hg). by intros x ?%elem_of_nil. }
  pose proof (init_all calloc_ok mutex_ok Hmu Ho Ht p h _ Hs : finished p h (init_loop (g_initializer_queue calloc_ok mutex_ok) h p1)) as Hf.
  unfold finished in Hf. unfold checked_call at 1, or_cleanup, checked_call at 1, catch. destruct (init_loop _ h p1) as [[] p2|e p2|]; [| |done].
  - destruct Hf as (c & lost & H2 & Hcomp). split_and!; [done|by eapply set_up_ok|]. exists c. split; [apply (su_connections _ _ _ _ _ H2)|done].
  - destruct Hf as (c & lost & H2). destruct (released_nothing p h c lost p2 Hp Hnew H2) as [Hhas Hn].
    destruct (deinit_spec close_ok self h c p2) as [r Er]; [by rewrite (su_connections _ _ _ _ _ H2), lookup_insert_eq|apply (su_fresh _ _ _ _ _ H2)|done|].
    by rewrite (bind_ok _ _ _ _ _ Er).
Qed.

(** C10: Making a connection either makes all its contexts or leaves nothing.  Whatever
    blocks are refused, when mutexes, the objects of C++ and the table of the sources are
    granted, [dx_init_connection] returns a connection that has the context of every
    subsystem, each with blocks of its own, or it fails, and then every block that was
    allocated is freed, the number of the connections is as before and the other
    connections are untouched; of the mutexes only those of the processor of the messages
    may stay. *)
Theorem connection_set_up calloc_ok mutex_ok close_ok self p :
  (forall n, mutex_ok n = true) -> (forall n, calloc_ok n for_object = true) -> (forall n, calloc_ok n for_source_table = true) -> process_ok p ->
  match dx_init_connection calloc_ok mutex_ok close_ok self p with
  | Ok h p' => p_connections p !! h = None /\ process_ok p' /\ exists c, p_connections p' = <[h := c]> (p_connections p) /\ complete c
  | Err _ p' => nothing_left p p'
  | UB => False
  end.
Proof. apply init_result. Qed.

(** C11: Releasing a connection, from a thread that need not be its own, once its price
    level books are closed, frees exactly its blocks, those of all its contexts and
    whatever they have got meanwhile, each once and none that is not there; it destroys
    its mutexes but the two of the processor of the messages, which stay for ever; the
    other connections keep theirs, and one connection less is counted. *)
Theorem connection_released close_ok self h c p : process_ok p -> p_connections p !! h = Some c -> books_closed c = true ->
  exists r p', dx_deinit_connection close_ok self h p = Ok r p' /\ process_ok p' /\ p_connections p' = delete h (p_connections p) /\
    blocks (p_memory p') = blocks (p_memory p) ∖ list_to_set (connection_list h c) /\
    mutexes (p_memory p') = mutexes (p_memory p) ∖ list_to_set (destroyed_mutexes c) /\
    connection_mutexes c = destroyed_mutexes c ++ kept_mutexes c /\ Forall (fun x => x ∈ mutexes (p_memory p')) (kept_mutexes c) /\
    g_connection_count p' = g_connection_count p - 1.
Proof.
  intros H E Hb. destruct (deinit_spec close_ok self h c p E Hb (proj1 (process_has p h c H E))) as [r Er].
  pose proof (released_ok p h c H E) as H'. exists r, (released h c p). split_and!; try done; [by eapply released_kept|].
  pose proof (po_count p H) as Hn. assert (size (p_connections p) <> 0%nat) by (intros Hs; apply map_size_empty_inv in Hs; rewrite Hs in E; by apply lookup_empty_Some in E).
  cbn. unfold one_less. destruct (Z.ltb_spec 0 (g_connection_count p)); lia.
Qed.

(** The connections that wait can be found, and no thread but their own calls. *)
Record queue_ok (p : process) : Prop := {
  qo_array : array_wf (g_connection_queue p);
  qo_nodup : NoDup (contents (g_connection_queue p));
  qo_known h : h ∈ contents (g_connection_queue p) -> is_Some (p_connections p !! h);
  qo_guard : guard_initialized p = true;
  qo_initialized : queue_initialized p = true;
}.

Lemma close_queued_spec calloc_ok close_ok other guard_ok p : process_ok p -> queue_ok p ->
  (forall h c, h ∈ contents (g_connection_queue p) -> p_connections p !! h = Some c -> ~ own_thread other c /\ books_closed c = true) ->
  exists p', dx_perform_implicit_tasks calloc_ok close_ok other guard_ok p = Ok tt p' /\ process_ok p' /\ queue_ok p' /\
    contents (g_connection_queue p') = [] /\
    forall h, p_connections p' !! h = if decide (h ∈ contents (g_connection_queue p)) then None else p_connections p !! h.
Proof.
  intros H [Hq Hd Hk Hg Hi] Hother. unfold dx_perform_implicit_tasks, dx_init_connection_queue, dx_close_queued_connections.
  rewrite (bind_ok _ _ p tt p) by (rewrite (bind_ok get _ _ _ _ eq_refl); by rewrite Hi). rewrite (bind_ok get _ _ _ _ eq_refl).
  set (q := g_connection_queue p) in *. pose proof Hq as [Hsz Hlen]. destruct (Nat.eqb_spec (arr_size q) 0) as [E0|E0].
  - assert (Ec : contents q = []) by (apply nil_length_inv; by rewrite length_contents).
    exists p. split_and!; [done|done|by split|done|]. intros h. by rewrite Ec, decide_False by (by intros ?%elem_of_nil).
  - destruct (close_each_spec calloc_ok close_ok other (contents q) 0 p H Hd) as (p' & E & H' & Eq & Econ & Eg & Ei).
    { intros k h Ek. cbn. rewrite <- contents_lookup; [done|]. pose proof (length_contents q Hq) as Hl. apply lookup_lt_Some in Ek. fold q. lia. }
    { apply Forall_forall. intros h Hh. destruct (Hk h Hh) as [c Ec]. exists c. split; [done|by eapply Hother]. }
    rewrite (length_contents q Hq) in E. rewrite (bind_ok _ _ _ _ _ E). unfold update. eexists. split; [done|].
    assert (Ez : contents (DxArray (arr_elements q) 0 (arr_capacity q)) = []) by done.
    cbn. split_and!; [by destruct H'| |done|done].
    split; cbn; [|by rewrite Eq; constructor| |by rewrite Eg|by rewrite Ei].
    + rewrite Eq. fold q. split; cbn; [lia|done].
    + intros h Hh. by apply elem_of_nil in Hh.
Qed.

(** C12: A connection that is closed from one of its own threads, say by a listener, is not
    released there: it stays as it is and waits in the queue, once.  The next call of the
    interface from a thread that belongs to none of the connections that wait releases
    all of them, and only them, and empties the queue, if their price level books are
    closed. *)
Theorem closed_from_own_thread calloc_ok close_ok self h c p :
  (forall n, calloc_ok n for_buffer = true) -> process_ok p -> queue_ok p -> p_connections p !! h = Some c -> own_thread self c ->
  exists p1, dxf_close_connection calloc_ok close_ok self (Some h) p = Ok tt p1 /\ process_ok p1 /\ queue_ok p1 /\
    p_connections p1 = p_connections p /\ h ∈ contents (g_connection_queue p1) /\
    forall other guard_ok,
      (forall h' c', h' ∈ contents (g_connection_queue p1) -> p_connections p !! h' = Some c' -> ~ own_thread other c' /\ books_closed c' = true) ->
      exists p2, dx_perform_implicit_tasks calloc_ok close_ok other guard_ok p1 = Ok tt p2 /\ process_ok p2 /\ queue_ok p2 /\
        contents (g_connection_queue p2) = [] /\ p_connections p2 !! h = None /\
        forall h', p_connections p2 !! h' = if decide (h' ∈ contents (g_connection_queue p1)) then None else p_connections p !! h'.
Proof.
  intros Hc H Hq E Ho. pose proof Hq as [Ha Hd Hk Hg Hi]. unfold dxf_close_connection.
  rewrite (bind_ok _ _ _ _ _ (can_deinit_spec self h c p E)), (bool_decide_true _ Ho). cbn [negb].
  destruct (queue_spec calloc_ok h p Hc Hg Ha) as (b & q & Eq & Hq' & Ec). rewrite (bind_ok _ _ _ _ _ Eq). exists (set_queue q p).
  assert (Hin : forall h', h' ∈ contents q <-> h' = h \/ h' ∈ contents (g_connection_queue p)).
  { intros h'. rewrite Ec. case_decide as Hh; [split; [by right|by intros [->|?]]|]. rewrite elem_of_app, list_elem_of_singleton. tauto. }
  assert (H1 : process_ok (set_queue q p)) by (by destruct H).
  assert (Hq1 : queue_ok (set_queue q p)).
  { split; cbn; [done| | |done|done].
    - rewrite Ec. case_decide as Hh; [done|]. apply NoDup_app. split_and!; [done| |apply NoDup_singleton]. by intros x Hx ->%list_elem_of_singleton.
    - intros h' [->|Hh]%Hin; [by exists c|by apply Hk]. }
  split_and!; [done|done|done|done|apply Hin; by left|]. intros other guard_ok Hother.
  destruct (close_queued_spec calloc_ok close_ok other guard_ok (set_queue q p) H1 Hq1 Hother) as (p2 & E2 & H2 & Hq2 & Ez & Ecn).
  exists p2. split_and!; try done. rewrite Ecn. by rewrite decide_True by (apply Hin; by left).
Qed.

(** ** Examples *)

Definition new_process : process := Process (Memory ∅ ∅ ∅ 0) ∅ 0 DX_EMPTY_ARRAY true true.
Lemma new_process_ok : process_ok new_process.
Proof.
  split; [split; cbn; [done|by intros x ?%elem_of_empty]| |by intros h c ?|done]. split_and!; vm_compute; constructor.
Qed.
Lemma new_queue_ok : queue_ok new_process.
Proof. split; [apply array_wf_empty|constructor|by intros h ?%elem_of_nil|done|done]. Qed.

Definition granted_all (n : nat) (kind : block_kind) : bool := true.
(** The request [k] is refused, unless it is for an object or for the table of the sources. *)
Definition refused (k n : nat) (kind : block_kind) : bool :=
  negb (n =? k)%nat || match kind with for_object | for_source_table => true | _ => false end.

Lemma example_made : match dx_init_connection granted_all (fun _ => true) true 1 new_process with Ok _ _ => True | _ => False end.
Proof. vm_compute. exact I. Qed.
Lemma example_refused :
  match dx_init_connection (refused 8) (fun _ => true) true 1 new_process with Err e _ => e = dx_mec_insufficient_memory | _ => False end.
Proof. vm_compute. reflexivity. Qed.

(** With every block a connection is made; without that of the output nothing is left. *)
Lemma connection_set_up_witness :
  (exists h p' c, dx_init_connection granted_all (fun _ => true) true 1 new_process = Ok h p' /\ p_connections p' = {[h := c]} /\ complete c) /\
  (exists p', dx_init_connection (refused 8) (fun _ => true) true 1 new_process = Err dx_mec_insufficient_memory p' /\ blocks (p_memory p') = ∅).
Proof.
  pose proof (connection_set_up granted_all (fun _ => true) true 1 new_process (fun _ => eq_refl) (fun _ => eq_refl) (fun _ => eq_refl) new_process_ok) as H.
  pose proof (connection_set_up (refused 8) (fun _ => true) true 1 new_process (fun _ => eq_refl) (fun n => orb_true_r _) (fun n => orb_true_r _) new_process_ok) as H'.
  pose proof example_made as E. pose proof example_refused as E'. split.
  - destruct (dx_init_connection granted_all (fun _ => true) true 1 new_process) as [h p'|e p'|]; [|destruct E|destruct E].
    destruct H as (_ & _ & c & Ec & Hc). exists h, p', c. exact (conj eq_refl (conj Ec Hc)).
  - destruct (dx_init_connection (refused 8) (fun _ => true) true 1 new_process) as [h p'|e p'|]; [destruct E'| |destruct E'].
    destruct H' as (_ & _ & Hb & _). exists p'. subst e. exact (conj eq_refl Hb).
Defined.

(** The connection that is made, and the same with its two threads and an address. *)
Definition example_process : process :=
  match dx_init_connection granted_all (fun _ => true) true 1 new_process with Ok _ p => p | _ => new_process end.
Lemma example_process_ok : process_ok example_process.
Proof.
  pose proof (init_result granted_all (fun _ => true) true 1 new_process (fun _ => eq_refl) (fun _ => eq_refl) (fun _ => eq_refl) new_process_ok) as H.
  unfold example_process. destruct (dx_init_connection _ _ _ _ _) as [h p'|e p'|]; [apply H|apply new_process_ok|done].
Qed.
Definition with_threads (q r : Z) (c : contexts) : contexts :=
  match c_network c with
  | None => c
  | Some n => set_network (NetworkBlocks (nc_block n) (nc_queue n) (nc_status_guard n) (nc_socket_guard n) true (Some q) (Some r) (nc_addresses n)
      (nc_address n) (nc_properties n) (nc_prop_backup n)) c
  end.
Definition running_process : process := set_p_connections (with_threads 7 8 <$> p_connections example_process) example_process.
Lemma with_threads_parts q r c : parts (with_threads q r c) = parts c /\ kept_mutexes (with_threads q r c) = kept_mutexes c.
Proof. unfold with_threads. destruct c as [[n|] ? ? ? ? ? ? ? ? ? ? ?]; done. Qed.
Lemma same_parts_ok f p : (forall c, parts (f c) = parts c /\ kept_mutexes (f c) = kept_mutexes c) -> process_ok p -> process_ok (set_p_connections (f <$> p_connections p) p).
Proof.
  intros Hf [Hm Hh Hk Hn].
  assert (Eb : forall h c, connection_list h (f c) = connection_list h c) by (intros h c; unfold connection_list; by rewrite (proj1 (Hf c))).
  assert (Em : forall c, destroyed_mutexes (f c) = destroyed_mutexes c) by (intros c; unfold destroyed_mutexes; by rewrite (proj1 (Hf c))).
  split; [exact Hm| | |cbn; by rewrite map_size_fmap].
  2: { intros h c'. cbn. rewrite lookup_fmap. intros (c & E & ->)%fmap_Some. rewrite (proj2 (Hf c)). by eapply Hk. } cbn. unfold all_blocks, all_mutexes in *. rewrite map_to_list_fmap.
  revert Hh. generalize (map_to_list (p_connections p)) as l. intros l.
  assert (E1 : forall l : list (Z * contexts), (prod_map id f <$> l) ≫= (fun hc => connection_list hc.1 hc.2) = l ≫= (fun hc => connection_list hc.1 hc.2)).
  { induction l0 as [|[h c] l0 IH]; [done|]. rewrite fmap_cons, !bind_cons, IH. cbn [prod_map fst snd id]. by rewrite Eb. }
  assert (E2 : forall l : list (Z * contexts), (prod_map id f <$> l) ≫= (fun hc => destroyed_mutexes hc.2) = l ≫= (fun hc => destroyed_mutexes hc.2)).
  { induction l0 as [|[h c] l0 IH]; [done|]. rewrite fmap_cons, !bind_cons, IH. cbn [prod_map fst snd id]. by rewrite Em. }
  by rewrite E1, E2.
Qed.
Lemma running_process_ok : process_ok running_process.
Proof. apply same_parts_ok; [apply with_threads_parts|apply example_process_ok]. Qed.
Lemma running_queue : g_connection_queue running_process = DX_EMPTY_ARRAY /\ guard_initialized running_process = true /\ queue_initialized running_process = true.
Proof. vm_compute. repeat split. Qed.
Lemma running_queue_ok : queue_ok running_process.
Proof.
  destruct running_queue as (Eq & Eg & Ei). revert Eq Eg Ei. generalize running_process as p. intros p Eq Eg Ei.
  split; rewrite ?Eq; [apply array_wf_empty|constructor|by intros h ?%elem_of_nil|exact Eg|exact Ei].
Qed.
Lemma running_connection : exists h c, p_connections running_process !! h = Some c /\ own_thread 8 c /\ ~ own_thread 1 c /\ books_closed c = true.
Proof.
  assert (E : match map_to_list (p_connections running_process) with (h, c) :: _ => bool_decide (own_thread 8 c /\ ~ own_thread 1 c /\ books_closed c = true) | [] => false end = true)
    by (vm_compute; reflexivity).
  destruct (map_to_list (p_connections running_process)) as [|[h c] l] eqn:El; [done|]. apply bool_decide_eq_true in E. exists h, c.
  split; [|done]. apply elem_of_map_to_list. rewrite El. by left.
Qed.

(** A running connection is released by the thread 1. *)
Lemma connection_released_witness :
  exists h c r p', p_connections running_process !! h = Some c /\ dx_deinit_connection true 1 h running_process = Ok r p' /\
    p_connections p' = delete h (p_connections running_process).
Proof.
  destruct running_connection as (h & c & E & _ & _ & Hb). destruct (connection_released true 1 h c running_process running_process_ok E Hb) as (r & p' & Er & _ & Ec & _).
  exists h, c, r, p'. exact (conj E (conj Er Ec)).
Defined.
(** It closes itself from the thread 8, which reads its socket. *)
Lemma closed_from_own_thread_witness :
  exists h c p1, p_connections running_process !! h = Some c /\ dxf_close_connection granted_all true 8 (Some h) running_process = Ok tt p1 /\
    p_connections p1 = p_connections running_process /\ h ∈ contents (g_connection_queue p1).
Proof.
  destruct running_connection as (h & c & E & Ho & _).
  destruct (closed_from_own_thread granted_all true 8 h c running_process (fun _ => eq_refl) running_process_ok running_queue_ok E Ho) as (p1 & E1 & _ & _ & Ec & Hin & _).
  exists h, c, p1. exact (conj E (conj E1 (conj Ec Hin))).
Defined.

(** ** What goes wrong *)

(** The mutex of the queue is refused: [dx_free] of the context forgets its buffer. *)
Lemma buffer_lost :
  match dx_init_connection granted_all (fun n => negb (n =? 17)%nat) true 1 new_process with
  | Err _ p' => bool_decide (blocks (p_memory p') = ∅) = false /\ bool_decide (p_connections p' = ∅) = true
  | _ => False
  end.
Proof. vm_compute. split; reflexivity. Qed.
(** The table of the sources is refused: a mutex that was never made is destroyed. *)
Lemma table_refused_undefined :
  dx_init_connection (fun _ kind => negb (bool_decide (kind = for_source_table))) (fun _ => true) true 1 new_process = UB.
Proof. vm_compute. reflexivity. Qed.
(** The mutex of the list of the records is refused: nobody notices, and the connection
    cannot be released. *)
Lemma records_mutex_undefined :
  match dx_init_connection granted_all (fun n => negb (n =? 6)%nat) true 1 new_process with
  | Ok h p' => dx_deinit_connection true 1 h p' = UB
  | _ => False
  end.
Proof. vm_compute. reflexivity. Qed.
(** There is no memory for the context of the subscriptions: the connection is made without. *)
Lemma subscriptions_missing :
  match dx_init_connection (fun n _ => negb (n =? 18)%nat) (fun _ => true) true 1 new_process with
  | Ok h p' => (c_subscriptions <$> p_connections p' !! h) = Some None
  | _ => False
  end.
Proof. vm_compute. reflexivity. Qed.
(** A listener closes the connection and calls the library again: the queue is emptied by
    a thread that cannot release the connection, which then stays for ever. *)
Lemma queued_connection_lost :
  match map_to_list (p_connections running_process) with
  | (h, _) :: _ =>
      match (dxf_close_connection granted_all true 8 (Some h);;; dx_perform_implicit_tasks granted_all true 8 true) running_process with
      | Ok _ p' => bool_decide (p_connections p' = ∅) = false /\ contents (g_connection_queue p') = []
      | _ => False
      end
  | [] => False
  end.
Proof. vm_compute. split; reflexivity. Qed.

(** The running connection with a price level book of one source, which is in the slot
    [slot] of the table of the sources. *)
Definition with_open_book (slot : nat) (p : process) : process :=
  let book := BookBlocks 1000 (Some 1001) (Some 1002) (Some 1003) (Some 1004) in
  let source := SourceBlocks 1005 (Some 1008) (Some 1006) no_objects [ConsumerBlocks 1007 book 0] in
  let open c :=
    let c := from_option (fun x => set_subscriptions (ObjectContext (oc_block x) (1008 :: oc_objects x)) c) c (c_subscriptions c) in
    from_option (fun x => set_levels (LevelBlocks (pl_block x) 1
      ((fun t => (t.1, <[slot := Some source]> t.2)) <$> pl_sources x)) c) c (c_levels c) in
  let m := p_memory p in
  let new := list_to_set [1000; 1001; 1002; 1003; 1004; 1005; 1006; 1007; 1008] in
  set_p_connections (open <$> p_connections p)
    (set_p_memory (Memory (new ∪ blocks m) ({[guard 1000; guard 1005]} ∪ mutexes m) (new ∪ used m) (requests m)) p).
(** The first connection of a process. *)
Definition first_connection (p : process) : option (Z * contexts) := head (map_to_list (p_connections p)).
#[export] Instance has_dec bs ms m : Decision (has bs ms m).
Proof. unfold has. apply _. Defined.

(** A book is open when the connection is released: its source closes a subscription that
    was deleted before. *)
Lemma open_book_undefined :
  match first_connection (with_open_book 0 running_process) with
  | Some (h, c) =>
      bool_decide (has (connection_list h c) (destroyed_mutexes c) (p_memory (with_open_book 0 running_process))) = true /\
      dx_deinit_connection true 1 h (with_open_book 0 running_process) = UB
  | None => False
  end.
Proof. vm_compute. split; reflexivity. Qed.
(** Only as many slots of the table are looked at as it has sources: of a source in
    another slot nothing is freed, and its book stays too. *)
Lemma source_missed :
  match first_connection (with_open_book 5 running_process) with
  | Some (h, _) =>
      match dx_deinit_connection true 1 h (with_open_book 5 running_process) with
      | Ok r p' => r = true /\ bool_decide (blocks (p_memory p') = list_to_set [1000; 1001; 1002; 1003; 1004; 1005; 1006; 1007]) = true
      | _ => False
      end
  | None => False
  end.
Proof. vm_compute. split; reflexivity. Qed.
(** Two mutexes of every connection stay when it is released. *)
Lemma mutexes_stay :
  match first_connection running_process with
  | Some (h, c) =>
      match dx_deinit_connection true 1 h running_process with
      | Ok _ p' => bool_decide (blocks (p_memory p') = ∅) = true /\ bool_decide (mutexes (p_memory p') = list_to_set (kept_mutexes c)) = true /\
          length (kept_mutexes c) = 2%nat
      | _ => False
      end
  | None => False
  end.
Proof. vm_compute. repeat split; reflexivity. Qed.
